(* ===== verification/_CoqProject ===== *)
-Q . S2P
Prelude.v
Sim.v
Circular.v
Format.v
FormatThm.v
Random.v
RandomThm.v
Crc.v
Libc.v
Gpio.v
Timing.v
Nrf.v
NrfThm.v
NrfPin.v
Router.v
Mmu.v
MmuThm.v
Vectors.v
Queue.v
Coop.v
CoopThm.v
Uart.v
ThreadIo.v
Console.v
Boot.v
Host.v
Threads.v
ThreadsSpec.v
ThreadsThm.v
ThreadsFork.v
ThreadsRun.v
ThreadsMachine.v
ThreadsWitness.v
Irq.v
Sd.v
Emmc.v
EmmcThm.v
EmmcInit.v
FatTable.v
FatChain.v
Dirent.v
Lfn.v
Fat32.v
Fat32Dir.v
Fat32Thm.v
Fat32Witness.v
FileDir.v
FsApi.v
FatEmmc.v
DfsStore.v
ChunkFat.v
MasterFat.v
DfsPkt.v
DfsChunk.v
DfsClient.v
DfsEnd.v
DfsDriver.v
DfsShell.v
DfsMaster.v
DfsMasterThm.v
MasterDriver.v
DfsSpec.v
DfsSystem.v
DfsList.v
DfsWitness.v
