(* ===== verification/Prelude.v ===== *)
(** * A verification of the Pi-OS distributed file system

    The program is a small operating system for the Raspberry Pi and a distributed file
    system on top of it.  A client's shell asks a master for the place of a file's chunks and
    exchanges the chunks with chunk servers; the servers keep their data in files of a FAT32
    file system on an SD card; all of them talk over NRF24L01 radios; threads share the
    console.  The development follows that structure from the bottom to the top.

    ** Parts, files and sources (all under src/)

    - [Prelude]: outcomes of C code, state passing, machine integers, lists and byte strings.
    - [Sim]: relates the runs of code over two implementations of the interface it uses.
    - [Circular]: the byte queue of libpi/libc/circular.h.
    - [Format]: formatted output and input: libpi/libc/printk.c, sprintk.c and scank.c, with the
      variable argument list as a list of values.  [FormatThm]: its theory.
    - [Random]: libpi/libc/random.c and pi-random.c over memory with pointers into blocks;
      [RandomThm]: its theory.  [Crc]: libpi/libc/crc.c.  [Libc]: the memory and string
      routines of libpi/libc (memcmp, memcpy, memmove, memset, strlen, strcmp, strncmp, strcpy,
      strcat) over a byte-addressed memory.
    - [Gpio]: libpi/src/gpio.c, the edge detection of network/nrf-interrupt.c,
      libpi/src/timer-interrupt.c and bcm_set_interrupts_off, over an executable model of the
      chip's pins and interrupt controller.  [Timing]: the delays of libpi/staff-src/timer.c and
      libpi/include/cycle-util.h over a counter that advances by itself, the parts of a time of
      libpi/libc/pretty-time.h, and the software UART of libpi/src/sw-uart.c.
    - [Nrf]: the radio: network/nrf-hw-support.c, nrf-driver.c, nrf-public.c, nrf-interrupt.c,
      dfs/dfs-common.c, libpi/include/nrf.h, nrf-hw-support.h, timeout.h.  The chip is an
      executable model of its registers, buffers, commands and interrupt line after its data
      sheet, and packets arrive at it between any two transfers.
      [NrfThm]: its theory.  [NrfPin]: the interrupt vector of two radios and the pins between
      the radios and the processor.
    - [Router]: network/nrf-router.c, registration of nodes at a router.
    - [Mmu]: virtual memory: vm/mmu.c, mmu-helpers.c, vm-ident.c, your-vm-asm.S and the bit
      fields of libpi/include/vm/armv6-vm.h and armv6-cp15.h.  The state is the registers, the
      tables in memory and the TLB.  [MmuThm]: its theory, with the translation the hardware
      does.
    - [Queue]: the intrusive queue of libpi/libc/Q.h.
    - [Coop]: cooperative threads: threads/rpi-thread.c and thread-asm.S, with the registers and
      the saved words of each stack.  [CoopThm]: its theory.
    - [Uart]: libpi/src/uart.c over a register model of the serial line with its two buffers.
      [ThreadIo]: the queues and the lock of the console: preemptive-threads/thread-safe-io.c,
      libpi/include/lock.h and libpi/src/uart-interrupt.c.  [Console]: setting the line up with
      and without interrupts (uart_init, uart_init_int, uart_reset_int_off) and the functions
      that print and read a character (libpi/libc/putchar.c, libpi/src/getchar.c).
    - [Boot]: what runs before and after a program: libpi/staff-src/cstart.c, clean-reboot.c,
      reboot.c, libpi/libc/putk.c.  [Host]: the computer at the other end of the line:
      libunix/pi-cat.c, pi-echo.c, read-exact.c, write-exact.c, put-get.c, suffix.c,
      find-ttyusb.c, read-file.c and pitag-linker.c.
    - [Vectors]: the registered interrupt handlers of libpi/src/exception-handlers.c.
    - [Threads]: preemptive-threads/preemptive-thread.c and libpi/src/sys-call.c.
      [ThreadsSpec]: an abstract scheduler.  [ThreadsThm], [ThreadsRun]: the refinement of the
      handlers, system calls and turns of the scheduler.  [ThreadsFork]: pre_fork one memory
      access at a time.  [ThreadsMachine]: threads that fork, handlers and the serial line
      interleaved.  [ThreadsWitness]: two threads that print and fork.  [Irq]: the handlers of
      threads and radios on one machine.
    - [Sd]: fat32/pi-sd.c over a class of block devices, and the class [PiSd] of its calls, over
      which the file system is written.  [Emmc]: the driver behind it,
      external-code/emmc.c, over an executable model of the host controller and of the card,
      with the time they take; [EmmcThm]: commands and transfers; [EmmcInit]: the start of a
      card, and the driver as a block device.
    - [FatTable]: the file allocation table and cluster chains of fat32/fat32.c; [FatChain]:
      theory of chains.
    - [Dirent]: directory entries and 8.3 names (fat32/fat32-helpers.c, fat32-lfn-helpers.c,
      find_dirent_with_name).  [Lfn]: long names (fat32-lfn-helpers.c) and the UTF-8 routines of
      external-code/unicode-utf8.c they use.
    - [Fat32]: partition table (fat32/mbr.c), mounting and the file operations of fat32/fat32.c;
      [Fat32Dir], [Fat32Thm]: their theory; [FileDir]: a directory as a finite map from names to
      contents; [Fat32Witness]: a small card.
    - [FsApi]: fat32/fs-apis.c, the file system with a current directory.  [FatEmmc]: the file
      system on the driver of the SD card; [DfsDriver], [MasterDriver]: the chunk server and the
      master on it.
    - [DfsStore]: dfs/dfs-chunk-fat.c and dfs-master-fat.c, and the interfaces [ChunkStore] and
      [MasterStore] through which the servers use them; [ChunkFat], [MasterFat]: the laws of the
      interfaces ([ChunkStoreLaws], [MasterStoreLaws]) and their proofs for FAT32.
    - [DfsPkt]: the packets of libpi/include/dfs-cmd.h, 32 bytes with overlapping layouts.
    - [DfsChunk]: dfs/dfs-chunkserver.c; [DfsClient]: dfs/dfs-client.c; [DfsEnd]: the two
      composed; [DfsShell]: dfs/dfs-client-command.c.
    - [DfsMaster]: dfs/dfs-master.c, its main loop and its heartbeat daemon; [DfsMasterThm]:
      servers, ports and heartbeats; [DfsSpec]: the file service and its refinement;
      [DfsList]: directory listings.
    - [DfsSystem]: shell, master and chunk server connected by a network.
    - [DfsWitness]: concrete servers, and the theorems applied to them.

    ** How code is modelled

    A routine is a function of type [M S A]: from a state to [Done] with a result and a new
    state, to [Panic] (panic, a failed assert or demand), to [Undef] (an access the C standard
    leaves undefined) or to [NoFuel].  Integers are [Z] with the wrap-around of their width
    written out ([u8], [u16], [u32], [i32]).  A larger state runs a component's code by [m_zoom].  Contents of
    uninitialised memory are parameters: [junk] for packets on the stack, the class
    [HeapGarbage] for blocks of the heap.

    Receiving is a list of receives: a packet, or [None] for a receive that timed out.  Sends
    append to an outbox.  Delays, LEDs and progress messages have no effect on the state and
    are left out; what a listing and a [cat] print is kept.

    Interrupts and the order in which threads run are explicit sequences of events.  What runs
    with interrupts disabled is one event: the system calls, the interrupt handlers, the
    scheduler and the thread that empties the output queue (preemptive-thread.c), the end of a
    thread (pre_init_trampoline disables interrupts before it calls pre_exit), and the treatment
    of a server by the heartbeat daemon.  What runs with interrupts enabled is divided at its
    accesses to shared data: a fork into the reads and writes of the queues and counters
    ([ThreadsFork]), a send into its SPI transfers, with the radio's handler between any two of
    them ([Nrf]), the master's choice of a server at its reads of what the daemon writes
    ([DfsMaster]).  Putting a character is one access: a write of the data register, or a push
    by the only writer of the output queue.  Packets arrive at the chip also while the handler
    runs.  Not divided is a single SPI transfer, about which a comment of nrf-hw-support.c
    reports that an interrupt inside it sometimes panics.

    Hardware is a parameter or an executable model: the sectors of the SD card are a class with
    the laws of a block device; the card's controller, the radio chip, the pins, the UART and
    the walk of the MMU are definitions.  Each class has an instance, and the witnesses use it.

    ** What the theorems show

    - The whole system: creating, writing and printing a file from the shell
      ([DfsSystem.touch_echo_cat]).
    - The master implements an abstract file service, chunk ids are unique within a session,
      ports are assigned for good, its tables stay consistent whatever the clients and the
      daemon do, heartbeats mark servers as they should ([DfsSpec], [DfsMasterThm],
      [DfsChunk]).
    - A chunk survives the trip from the client to the storage and back ([DfsEnd]); the laws of
      the storages hold on FAT32 ([ChunkFat], [MasterFat]).
    - FAT32: a file written is the file read; creating, deleting, renaming and listing have the
      effect on the directory they should; chains are read and written whole; mounting again
      finds the same files ([Fat32Thm], [FatChain], [Dirent], [FsApi]).
    - The SD-card driver starts every kind of card, and reading and writing through it is reading
      and writing the card's sectors ([EmmcInit]).  So the file system on the driver does what it
      does on the sectors, and with it the chunk server and the master, from the first command
      to the card to the last packet ([FatEmmc], [MasterDriver]).
    - Threads: the scheduler refines an abstract one, no thread is lost, the output of two
      threads is never mixed, the scheduler is never stuck, in every execution in which no timer
      interrupt comes inside pre_fork ([ThreadsMachine]); with one inside it a thread is lost or
      two threads share an id ([ThreadsWitness]).
    - The console works from reset: what is printed is shown, what is typed is read if each byte
      is read before the next arrives ([Console]); a program that prints lines is started, shown by the host and ended as it
      should, in whatever pieces the host reads ([Host]); an interrupt serves the radios and is
      a step of the thread system ([Irq]).
    - Cooperative threads run round robin, each with its own registers and stack, until the
      last one exits ([CoopThm]).
    - Printing to a buffer and to the console give the same text, and reading back what was
      printed gives the same values ([FormatThm]).
    - The random numbers are those of the additive feedback generator, and a saved state goes
      on where it stopped ([RandomThm]); the table-driven checksum is division by the CRC-32
      polynomial and detects every burst of up to 32 bits ([Crc]); memmove copies whatever the
      overlap ([Libc]).
    - Setting the function of a pin changes that pin only ([Gpio]); a receiver that samples in
      the middle of the bits reads exactly the message the software UART sends, however uneven
      the processor's timing ([Timing]); a packet in a radio always has its interrupt pending,
      also one that arrives while the handler runs ([NrfPin]); a long name written as directory
      entries is read back if it fits in the buffer of 512 bytes ([Lfn]).
    - The radio driver is a mailbox, a read with a time-out ends ([NrfThm]); the page-table code
      is an address space, the identity map is the identity ([MmuThm]); the queues are lists
      ([Circular], [Queue]).
    - Where the code does something else than it means to, a theorem says what it does:
      shrinking a file, the chunk id in the answer to an overwrite, the count of active
      servers, stale TLB entries, the router's pipes, bytes the serial line loses, the end of a
      program the host misses, a timer interrupt inside a fork, a chip that ignores the
      no-acknowledge command, a packet that arrives during the radio's set-up, sector numbers
      that wrap around, the client address 0, names longer than their buffer.

    ** Fuel

    Loops that are not structural take fuel, chosen by the routine that starts them: the
    length of the table for walks over cluster chains, one more than the inbox for receive
    loops, one more than the number of packets for transfers, the number of thread blocks for
    queues, the room of the chip's buffers and the packets still to come for the radio, the bytes in the serial line's buffers for
    its polling loops, the words of the variables for the start of a program, the answers a card still owes for the
    start of the SD card; the polling loops of the card's driver count their polls as the code
    does.  The theorems conclude [Done], so
    the fuel is enough wherever their hypotheses hold.

    ** Not modelled

    - nrf_tx_send_ack and the _int variants of sending, register dumps of the radio and the MMU:
      not used by the file system, or output only.
    - The mailbox of the graphics processor, caches, the table of vectors and the default
      handlers (libpi/src, libpi/staff-src): a few writes to registers whose effect is outside
      the program, or code that stops the machine.
    - The SD-card driver that is compiled out (external-code/bzt-sd.c).
    - Of the host's library, starting processes, terminal settings and strings made by the
      host's printf: calls of the operating system and of its C library.
    - Printing of structures for debugging. *)

From stdpp Require Import base tactics option list numbers gmap.
From Stdlib Require Import ZArith Lia.

#[global] Open Scope Z_scope.

(** ** Outcomes of C code

    A routine either returns ([Done]), stops in [panic], a failed [assert] or a
    failed [demand] ([Panic]: all three end in [clean_reboot]), performs an access
    that the C standard leaves undefined ([Undef]: an index outside an array, a
    null pointer) or is still looping when the model's fuel is used up
    ([NoFuel]). *)
Inductive res (A : Type) : Type :=
  | Done (a : A)
  | Panic
  | Undef
  | NoFuel.
Arguments Done {_} _.
Arguments Panic {_}.
Arguments Undef {_}.
Arguments NoFuel {_}.

(** State-passing code over a state type [S]. *)
Definition M (S A : Type) : Type := S -> res (A * S).

#[export] Instance M_ret {S} : MRet (M S) := fun A a s => Done (a, s).
#[export] Instance M_bind {S} : MBind (M S) := fun A B f m s =>
  match m s with
  | Done (a, s') => f a s'
  | Panic => Panic
  | Undef => Undef
  | NoFuel => NoFuel
  end.

Definition m_panic {S A} : M S A := fun _ => Panic.
Definition m_undef {S A} : M S A := fun _ => Undef.
Definition m_nofuel {S A} : M S A := fun _ => NoFuel.
Definition m_gets {S A} (f : S -> A) : M S A := fun s => Done (f s, s).
Definition m_modify {S} (f : S -> S) : M S unit := fun s => Done (tt, f s).

(** [assert(b)] and [demand(b, msg)]. *)
Definition m_assert {S} (b : bool) : M S unit :=
  if b then mret tt else m_panic.

(** A partial access: [None] is an access outside its object. *)
Definition m_opt {S A} (o : option A) : M S A :=
  match o with Some a => mret a | None => m_undef end.

(** Runs code of a component on the part of a larger state it owns. *)
Definition m_zoom {S T A} (get : T -> S) (set : S -> T -> T) (m : M S A) : M T A :=
  fun t => match m (get t) with
           | Done (a, s) => Done (a, set s t)
           | Panic => Panic
           | Undef => Undef
           | NoFuel => NoFuel
           end.

Definition is_done {A} (r : res A) : Prop := exists a, r = Done a.

(** ** Lemmas on the monad *)

Lemma bind_done {S A B} (m : M S A) (f : A -> M S B) s a s' :
  m s = Done (a, s') -> (m ≫= f) s = f a s'.
Proof. intros H. unfold mbind, M_bind. by rewrite H. Qed.

Lemma bind_panic {S A B} (m : M S A) (f : A -> M S B) s :
  m s = Panic -> (m ≫= f) s = Panic.
Proof. intros H. unfold mbind, M_bind. by rewrite H. Qed.

Lemma bind_undef {S A B} (m : M S A) (f : A -> M S B) s :
  m s = Undef -> (m ≫= f) s = Undef.
Proof. intros H. unfold mbind, M_bind. by rewrite H. Qed.

Lemma bind_inv {S A B} (m : M S A) (f : A -> M S B) s b s'' :
  (m ≫= f) s = Done (b, s'') ->
  exists a s', m s = Done (a, s') /\ f a s' = Done (b, s'').
Proof.
  unfold mbind, M_bind. destruct (m s) as [[a s']| | |]; intros H; try done.
  by exists a, s'.
Qed.

Lemma gets_run {S A B} (g : S -> A) (f : A -> M S B) s :
  (m_gets g ≫= f) s = f (g s) s.
Proof. done. Qed.

Lemma ret_run {S A B} (a : A) (f : A -> M S B) s :
  ((mret a : M S A) ≫= f) s = f a s.
Proof. done. Qed.

Lemma modify_run {S B} (g : S -> S) (f : unit -> M S B) s :
  (m_modify g ≫= f) s = f tt (g s).
Proof. done. Qed.

Lemma assert_run {S B} (b : bool) (f : unit -> M S B) s :
  b = true -> (m_assert b ≫= f) s = f tt s.
Proof. by intros ->. Qed.

Lemma assert_fail {S B} (b : bool) (f : unit -> M S B) s :
  b = false -> (m_assert b ≫= f) s = Panic.
Proof. by intros ->. Qed.

Lemma opt_run {S A B} (o : option A) a (f : A -> M S B) s :
  o = Some a -> (m_opt o ≫= f) s = f a s.
Proof. by intros ->. Qed.

Lemma bind_assoc {S A B C} (m : M S A) (f : A -> M S B) (g : B -> M S C) s :
  ((m ≫= f) ≫= g) s = (m ≫= (fun a => f a ≫= g)) s.
Proof. unfold mbind, M_bind. by destruct (m s) as [[a s']| | |]. Qed.

Lemma zoom_done {S T A} (get : T -> S) (set : S -> T -> T) (m : M S A) t a s :
  m (get t) = Done (a, s) -> m_zoom get set m t = Done (a, set s t).
Proof. intros H. unfold m_zoom. by rewrite H. Qed.

(** [mstep]: runs the head of a monadic computation when it is one of the
    primitives; [mrun H]: runs it with the equation [H]. *)
Ltac mstep :=
  first
    [ rewrite gets_run | rewrite ret_run | rewrite modify_run
    | rewrite bind_assoc
    | rewrite assert_run; [| solve [done | lia | by apply Z.leb_le; lia | by apply Z.ltb_lt; lia]]
    | erewrite opt_run; [| eassumption] ].
Ltac msteps := repeat mstep.
Ltac mrun H := rewrite (bind_done _ _ _ _ _ H).

(** ** Machine integers *)

Definition u8 (x : Z) : Z := x mod 2^8.
Definition u16 (x : Z) : Z := x mod 2^16.
Definition u32 (x : Z) : Z := x mod 2^32.

(** The signed value of a 32-bit pattern ([int] on the Pi). *)
Definition i32 (x : Z) : Z :=
  let y := u32 x in if y <? 2^31 then y else y - 2^32.

Definition is_u8 (x : Z) : Prop := 0 <= x < 2^8.
Definition is_u16 (x : Z) : Prop := 0 <= x < 2^16.
Definition is_u32 (x : Z) : Prop := 0 <= x < 2^32.

#[export] Instance is_u8_dec x : Decision (is_u8 x).
Proof. unfold is_u8. apply _. Defined.
#[export] Instance is_u16_dec x : Decision (is_u16 x).
Proof. unfold is_u16. apply _. Defined.
#[export] Instance is_u32_dec x : Decision (is_u32 x).
Proof. unfold is_u32. apply _. Defined.

Lemma u32_small x : is_u32 x -> u32 x = x.
Proof. apply Z.mod_small. Qed.
Lemma u16_small x : is_u16 x -> u16 x = x.
Proof. apply Z.mod_small. Qed.
Lemma u8_small x : is_u8 x -> u8 x = x.
Proof. apply Z.mod_small. Qed.
Lemma u32_range x : is_u32 (u32 x).
Proof. apply Z.mod_pos_bound. lia. Qed.

(** Little-endian layout of an [n]-byte integer. *)
Fixpoint le_bytes (n : nat) (x : Z) : list Z :=
  match n with
  | O => []
  | S n => x mod 256 :: le_bytes n (x / 256)
  end.

Fixpoint le_val (bs : list Z) : Z :=
  match bs with
  | [] => 0
  | b :: bs => b + 256 * le_val bs
  end.

Abbreviation bytes := (Forall is_u8).

Lemma length_le_bytes n x : length (le_bytes n x) = n.
Proof. revert x; induction n; intros; simpl; auto. Qed.

Lemma le_bytes_bytes n x : bytes (le_bytes n x).
Proof.
  revert x; induction n; intros x; simpl; constructor; auto.
  apply Z.mod_pos_bound. lia.
Qed.

Lemma le_val_bytes n x : le_val (le_bytes n x) = x mod 2 ^ (8 * Z.of_nat n).
Proof.
  revert x; induction n as [|n IH]; intros x; simpl le_bytes; simpl le_val.
  { by rewrite Z.mod_1_r. }
  rewrite IH. rewrite (Nat2Z.inj_succ n), Z.mul_succ_r, Z.add_comm, Z.add_comm.
  rewrite Z.pow_add_r by lia. change (2^8) with 256.
  rewrite (Z.mul_comm (2 ^ _) 256).
  rewrite Z.rem_mul_r by lia. lia.
Qed.

Lemma le_bytes_val bs : bytes bs -> le_bytes (length bs) (le_val bs) = bs.
Proof.
  induction 1 as [|b bs Hb _ IH]; simpl; [done|].
  rewrite (Z.mul_comm 256), Z.mod_add, Z.mod_small by (unfold is_u8 in *; lia).
  rewrite Z.div_add, Z.div_small by (unfold is_u8 in *; lia).
  by rewrite Z.add_0_l, IH.
Qed.

Lemma le_val_range bs : bytes bs -> 0 <= le_val bs < 2 ^ (8 * Z.of_nat (length bs)).
Proof.
  intros H. rewrite <-(le_bytes_val bs H) at 1 2. rewrite le_val_bytes.
  apply Z.mod_pos_bound. apply Z.pow_pos_nonneg; lia.
Qed.

(** ** Overwriting a slice of a list: [memcpy(dst + n, src, |src|)] *)

Definition splice {A} (n : nat) (src dst : list A) : list A :=
  take n dst ++ src ++ drop (n + length src) dst.

Lemma length_splice {A} n (src dst : list A) :
  (n + length src <= length dst)%nat -> length (splice n src dst) = length dst.
Proof. intros H. unfold splice. rewrite !length_app, length_take, length_drop. lia. Qed.

Lemma splice_all {A} (src dst : list A) :
  length src = length dst -> splice 0 src dst = src.
Proof. intros H. unfold splice. simpl. rewrite drop_ge by lia. by rewrite app_nil_r. Qed.
