(* ===== verification/Sim.v ===== *)
(** * Two runs of the same code

    Code that is written over an interface runs on two implementations of it.  [sim] relates two
    such runs; the rules follow the structure of the code, and [sim_run] applies them, with the
    lemmas about the calls in the database [sim]. *)

From stdpp Require Import base tactics option list.
From S2P Require Import Prelude.

(** From related states, a run of [m] that returns is matched by a run of [m'] that returns
    the same value, of which [Q] holds, in related states. *)
Definition sim {S S'} (R R' : S -> S' -> Prop) {A} (Q : A -> Prop) (m : M S A) (m' : M S' A) : Prop :=
  forall s s', R s s' ->
    match m s with
    | Done (a, s1) => exists s1', m' s' = Done (a, s1') /\ R' s1 s1' /\ Q a
    | _ => True
    end.

Section Rules.
Context {S S' : Type}.
Implicit Types R : S -> S' -> Prop.

Lemma sim_ret R {A} (Q : A -> Prop) a : Q a -> sim R R Q (mret a) (mret a).
Proof. intros Qa s s' HR. by exists s'. Qed.

Lemma sim_bind R R1 R2 {A B} (Q : A -> Prop) (Q' : B -> Prop) m m' (f f' : A -> M _ B) :
  sim R R1 Q m m' -> (forall a, Q a -> sim R1 R2 Q' (f a) (f' a)) -> sim R R2 Q' (m ≫= f) (m' ≫= f').
Proof.
  intros Hm Hf s s' HR. specialize (Hm s s' HR). unfold mbind, M_bind.
  destruct (m s) as [[a s1]| | |]; [|done..]. destruct Hm as (s1' & -> & HR1 & Qa). by apply Hf.
Qed.

(** A step whose value does not matter. *)
Lemma sim_seq R R1 R2 {A B} (Q' : B -> Prop) (m : M S A) m' (f f' : A -> M _ B) :
  sim R R1 (fun _ => True) m m' -> (forall a, sim R1 R2 Q' (f a) (f' a)) -> sim R R2 Q' (m ≫= f) (m' ≫= f').
Proof. intros Hm Hf. apply (sim_bind R R1 R2 (fun _ => True)); auto. Qed.

Lemma sim_weaken R R' {A} (Q Q' : A -> Prop) m m' :
  sim R R' Q m m' -> (forall a, Q a -> Q' a) -> sim R R' Q' m m'.
Proof.
  intros Hm HQ s s' HR. specialize (Hm s s' HR). destruct (m s) as [[a s1]| | |]; [|done..].
  destruct Hm as (s1' & E & HR1 & Qa). eauto.
Qed.

Lemma sim_true R R' {A} (Q : A -> Prop) m m' : sim R R' Q m m' -> sim R R' (fun _ => True) m m'.
Proof. intros Hm. by apply (sim_weaken _ _ _ _ _ _ Hm). Qed.

Lemma sim_assert R b : sim R R (fun _ => b = true) (m_assert b) (m_assert b).
Proof. intros s s' HR. destruct b; [|done]. by exists s'. Qed.

Lemma sim_opt R {A} (o : option A) : sim R R (fun a => o = Some a) (m_opt o) (m_opt o).
Proof. intros s s' HR. destruct o as [a|]; [|done]. by exists s'. Qed.

Lemma sim_stop R R' {A} (Q : A -> Prop) m m' : (forall s, forall r, m s <> Done r) -> sim R R' Q m m'.
Proof. intros Hm s s' _. specialize (Hm s). destruct (m s) as [r| | |]; [by destruct (Hm r)|done..]. Qed.

Lemma sim_gets R {A} (Q : A -> Prop) (f : S -> A) f' :
  (forall s s', R s s' -> f' s' = f s /\ Q (f s)) -> sim R R Q (m_gets f) (m_gets f').
Proof. intros Hf s s' HR. destruct (Hf s s' HR) as [E Qs]. exists s'. unfold m_gets. by rewrite E. Qed.

Lemma sim_modify R R' (f : S -> S) f' :
  (forall s s', R s s' -> R' (f s) (f' s')) -> sim R R' (fun _ => True) (m_modify f) (m_modify f').
Proof. intros Hf s s' HR. exists (f' s'). auto. Qed.

(** A step that looks at the whole state. *)
Lemma sim_look R R' {B} (Q : B -> Prop) f f' :
  (forall s s', R s s' -> sim R R' Q (f s) (f' s')) ->
  sim R R' Q (m_gets (fun s => s) ≫= f) (m_gets (fun s => s) ≫= f').
Proof. intros Hf s s' HR. rewrite !gets_run. by apply Hf. Qed.
End Rules.

(** One step of code without calls. *)
Ltac sim_basic :=
  lazymatch goal with
  | |- sim _ _ _ (mret _) _ => apply sim_ret
  | |- sim _ _ _ m_panic _ => apply sim_stop; intros ? ?; discriminate
  | |- sim _ _ _ m_undef _ => apply sim_stop; intros ? ?; discriminate
  | |- sim _ _ _ m_nofuel _ => apply sim_stop; intros ? ?; discriminate
  | |- sim _ _ _ (m_assert _) _ => first [apply sim_assert | eapply sim_true; apply sim_assert]
  | |- sim _ _ _ (m_opt _) _ => first [apply sim_opt | eapply sim_true; apply sim_opt]
  | |- sim _ _ _ (if ?b then _ else _) _ => destruct b eqn:?
  end.

Create HintDb sim.

(** Runs through the code; a call is left to the lemmas of the database. *)
Ltac sim_run :=
  repeat first
    [ sim_basic
    | solve [eauto 4 with sim]
    | solve [eapply sim_true; eauto 4 with sim]
    | lazymatch goal with |- sim _ _ _ (_ ≫= _) _ =>
        eapply sim_bind; [solve [sim_basic | eauto 4 with sim]|];
        intro; let HQ := fresh "HQ" in intros HQ; cbv beta in HQ
      end
    | lazymatch goal with
      | |- sim _ _ _ (match ?x with _ => _ end) _ => destruct x eqn:?
      | |- sim ?R _ _ (match _ with _ => _ end ≫= _) _ => apply sim_seq with R; [|intros ?]
      end ];
  auto with sim.
