(* ===== verification/Circular.v ===== *)
(** * The lock-free circular byte queue (src/libpi/libc/circular.h)

    The queue is an array of [CQ_N] bytes with a head written by the producer and a
    tail written by the consumer.  [cq_list] is the abstract value, a bounded FIFO
    list of at most [CQ_N - 1] bytes; every operation is shown to implement the
    corresponding operation on that list. *)

From stdpp Require Import base tactics option list numbers.
From Stdlib Require Import ZArith Lia.
From S2P Require Import Prelude.

Definition CQ_N : Z := 8192.

Record cq_t : Type := mk_cq {
  c_buf : list Z;
  fence : Z;
  head : Z;
  tail : Z;
  overflow : Z;
  errors_fatal_p : Z
}.

Definition set_c_buf (b : list Z) (q : cq_t) : cq_t :=
  mk_cq b (fence q) (head q) (tail q) (overflow q) (errors_fatal_p q).
Definition set_head (h : Z) (q : cq_t) : cq_t :=
  mk_cq (c_buf q) (fence q) h (tail q) (overflow q) (errors_fatal_p q).
Definition set_tail (t : Z) (q : cq_t) : cq_t :=
  mk_cq (c_buf q) (fence q) (head q) t (overflow q) (errors_fatal_p q).

(** ** Operations *)

Definition cq_empty (q : cq_t) : bool := head q =? tail q.
Definition cq_full (q : cq_t) : bool := u32 (head q + 1) mod CQ_N =? tail q.
Definition cq_nelem (q : cq_t) : Z := u32 (head q - tail q) mod CQ_N.
Definition cq_nspace (q : cq_t) : Z := u32 (CQ_N - 1 - cq_nelem q).

(** [None] is the return value 0, with [*e] left alone. *)
Definition cq_pop_nonblock : M cq_t (option Z) :=
  empty ← m_gets cq_empty;
  if (empty : bool) then mret None else
  t ← m_gets tail;
  buf ← m_gets c_buf;
  e ← m_opt (buf !! Z.to_nat t);
  m_modify (set_tail (u32 (t + 1) mod CQ_N));;
  mret (Some e).

(** The blocking pop.  On an empty queue it panics when interrupts are off and
    otherwise spins until an interrupt handler pushes; with no other step in between
    that wait does not end. *)
Definition cq_pop (int_enabled : bool) : M cq_t Z :=
  r ← cq_pop_nonblock;
  match r with
  | Some e => mret e
  | None => if int_enabled then m_nofuel else m_panic
  end.

Definition cq_push (x : Z) : M cq_t bool :=
  full ← m_gets cq_full;
  if (full : bool) then mret false else
  h ← m_gets head;
  space ← m_gets cq_nspace;
  m_assert (0 <? space);;
  buf ← m_gets c_buf;
  (if Z.of_nat (length buf) <=? h then m_undef else mret tt);;
  m_modify (set_c_buf (<[Z.to_nat h := x]> buf));;
  m_modify (set_head (u32 (h + 1) mod CQ_N));;
  mret true.

Definition cq_peek : M cq_t (option Z) :=
  empty ← m_gets cq_empty;
  if (empty : bool) then mret None else
  t ← m_gets tail;
  buf ← m_gets c_buf;
  e ← m_opt (buf !! Z.to_nat t);
  mret (Some e).

Fixpoint cq_pop_n (int_enabled : bool) (n : nat) : M cq_t (list Z) :=
  match n with
  | O => mret []
  | S n =>
      e ← cq_pop int_enabled;
      es ← cq_pop_n int_enabled n;
      mret (e :: es)
  end.

Definition cq_pop_n_noblk (int_enabled : bool) (n : nat) : M cq_t (option (list Z)) :=
  ne ← m_gets cq_nelem;
  if ne <? Z.of_nat n then mret None else
  es ← cq_pop_n int_enabled n;
  mret (Some es).

Definition cq_peek_n (int_enabled : bool) (n : nat) : M cq_t (option (list Z)) :=
  sz ← m_gets cq_nelem;
  if sz <? Z.of_nat n then mret None else
  t ← m_gets tail;
  r ← cq_pop_n_noblk int_enabled n;
  match r with
  | None => mret None
  | Some es =>
      m_modify (set_tail t);;
      sz' ← m_gets cq_nelem;
      m_assert (sz =? sz');;
      mret (Some es)
  end.

Fixpoint cq_push_all (p : list Z) : M cq_t unit :=
  match p with
  | [] => mret tt
  | x :: p =>
      ok ← cq_push x;
      if (ok : bool) then cq_push_all p else m_panic
  end.

Definition cq_push_n (p : list Z) : M cq_t bool :=
  m_assert (negb (Z.of_nat (length p) =? 0));;
  space ← m_gets cq_nspace;
  if space <? Z.of_nat (length p) then mret false else
  cq_push_all p;;
  mret true.

Definition cq_push32 (x : Z) : M cq_t bool := cq_push_n (le_bytes 4 x).

Definition cq_pop32_noblk (int_enabled : bool) : M cq_t (option Z) :=
  r ← cq_pop_n_noblk int_enabled 4;
  mret (le_val <$> r).

Definition cq_pop32 (int_enabled : bool) : M cq_t Z :=
  es ← cq_pop_n int_enabled 4;
  mret (le_val es).

Definition cq_init (fatal : Z) : cq_t :=
  mk_cq (replicate (Z.to_nat CQ_N) 0) 305419896 0 0 0 fatal.

Definition cq_ckpt (q : cq_t) : Z := tail q.
Definition cq_restore (ckpt : Z) : M cq_t unit := m_modify (set_tail ckpt).

(** ** The abstract queue *)

Record cq_wf (q : cq_t) : Prop := {
  wf_buf : Z.of_nat (length (c_buf q)) = CQ_N;
  wf_head : 0 <= head q < CQ_N;
  wf_tail : 0 <= tail q < CQ_N
}.

(** The byte [i] places behind the front. *)
Definition cq_at (q : cq_t) (i : Z) : Z :=
  c_buf q !!! Z.to_nat ((tail q + i) mod CQ_N).

Definition cq_list (q : cq_t) : list Z := cq_at q <$> seqZ 0 (cq_nelem q).

(** ** Arithmetic of the indices *)

Lemma u32_mod_N x : u32 x mod CQ_N = x mod CQ_N.
Proof.
  unfold u32, CQ_N. change (2^32) with (8192 * 524288).
  rewrite Z.rem_mul_r by lia. rewrite (Z.mul_comm 8192), Z.mod_add by lia.
  apply Z.mod_mod. lia.
Qed.

Lemma nelem_range q : 0 <= cq_nelem q < CQ_N.
Proof. unfold cq_nelem. apply Z.mod_pos_bound. unfold CQ_N. lia. Qed.

Lemma nelem_eq q : cq_nelem q = (head q - tail q) mod CQ_N.
Proof. apply u32_mod_N. Qed.

Lemma nspace_eq q : cq_nspace q = CQ_N - 1 - cq_nelem q.
Proof.
  unfold cq_nspace. apply u32_small. unfold is_u32.
  pose proof (nelem_range q). unfold CQ_N in *. lia.
Qed.

Lemma length_cq_list q : Z.of_nat (length (cq_list q)) = cq_nelem q.
Proof.
  unfold cq_list. rewrite length_fmap, length_seqZ.
  pose proof (nelem_range q). lia.
Qed.

Ltac index_arith :=
  unfold CQ_N in *; Z.div_mod_to_equations; lia.

Lemma empty_spec q : cq_wf q -> cq_empty q = true <-> cq_list q = [].
Proof.
  intros [_ Hh Ht]. pose proof (length_cq_list q) as HL.
  unfold cq_empty. rewrite Z.eqb_eq. rewrite nelem_eq in HL. split.
  - intros E. apply nil_length_inv. rewrite E, Z.sub_diag in HL. change (0 mod CQ_N) with 0 in HL. lia.
  - intros E. rewrite E in HL. simpl in HL. index_arith.
Qed.

Lemma full_spec q : cq_wf q -> cq_full q = true <-> cq_nelem q = CQ_N - 1.
Proof.
  intros [_ Hh Ht]. unfold cq_full. rewrite Z.eqb_eq, u32_mod_N, nelem_eq.
  split; intros E; index_arith.
Qed.

Lemma cq_list_cons q :
  cq_wf q -> cq_list q <> [] ->
  cq_list q = cq_at q 0 :: cq_list (set_tail (u32 (tail q + 1) mod CQ_N) q).
Proof.
  intros W Hne. pose proof (length_cq_list q) as HL.
  assert (0 < cq_nelem q) as Hpos.
  { destruct (cq_list q); simpl in *; [done|lia]. }
  assert (cq_nelem (set_tail (u32 (tail q + 1) mod CQ_N) q) = cq_nelem q - 1) as E.
  { rewrite !nelem_eq in *. simpl. rewrite u32_mod_N.
    destruct W as [_ Hh Ht]. index_arith. }
  unfold cq_list at 1. rewrite seqZ_cons by lia. simpl. f_equal.
  unfold cq_list. rewrite E. replace (Z.pred (cq_nelem q)) with (cq_nelem q - 1) by lia.
  rewrite <-(fmap_add_seqZ 1 0). rewrite <-list_fmap_compose.
  apply list_fmap_ext. intros _ i _. unfold cq_at. simpl. do 2 f_equal.
  rewrite u32_mod_N, Zplus_mod_idemp_l. f_equal. lia.
Qed.

Lemma wf_set_tail q t : cq_wf q -> 0 <= t < CQ_N -> cq_wf (set_tail t q).
Proof. intros [A B C] H. by constructor. Qed.

Lemma next_range x : 0 <= u32 x mod CQ_N < CQ_N.
Proof. apply Z.mod_pos_bound. unfold CQ_N. lia. Qed.

#[local] Hint Resolve wf_set_tail next_range : core.

Lemma buf_lookup q i : cq_wf q -> 0 <= i < CQ_N ->
  c_buf q !! Z.to_nat i = Some (c_buf q !!! Z.to_nat i).
Proof.
  intros [Hb _ _] Hi. apply list_lookup_lookup_total_lt. lia.
Qed.

(** ** The operations on the abstract queue *)

Lemma pop_nonblock_nil q : cq_wf q -> cq_list q = [] ->
  cq_pop_nonblock q = Done (None, q).
Proof.
  intros W E. apply empty_spec in E; [|done]. unfold cq_pop_nonblock.
  rewrite gets_run, E. done.
Qed.

Lemma pop_nonblock_cons q x l : cq_wf q -> cq_list q = x :: l ->
  exists q', cq_pop_nonblock q = Done (Some x, q') /\ cq_wf q' /\ cq_list q' = l /\
    c_buf q' = c_buf q /\ head q' = head q.
Proof.
  intros W E. exists (set_tail (u32 (tail q + 1) mod CQ_N) q).
  assert (cq_empty q = false) as Hne.
  { apply not_true_iff_false. rewrite empty_spec by done. by rewrite E. }
  assert (cq_list q <> []) as Hne' by by rewrite E.
  pose proof (cq_list_cons q W Hne') as Ec. rewrite E in Ec. injection Ec as -> El.
  split_and!; try done; auto.
  unfold cq_pop_nonblock. rewrite gets_run, Hne, !gets_run.
  erewrite opt_run; [|apply buf_lookup; [done|apply W]].
  unfold cq_at. rewrite Z.add_0_r, (Z.mod_small (tail q)) by apply W. done.
Qed.

Lemma pop_cons b q x l : cq_wf q -> cq_list q = x :: l ->
  exists q', cq_pop b q = Done (x, q') /\ cq_wf q' /\ cq_list q' = l /\
    c_buf q' = c_buf q /\ head q' = head q.
Proof.
  intros W E. destruct (pop_nonblock_cons q x l W E) as (q' & P & R).
  exists q'. split; [|done]. unfold cq_pop. by mrun P.
Qed.

Lemma pop_n_app b n q l1 l2 : cq_wf q -> cq_list q = l1 ++ l2 -> length l1 = n ->
  exists q', cq_pop_n b n q = Done (l1, q') /\ cq_wf q' /\ cq_list q' = l2 /\
    c_buf q' = c_buf q /\ head q' = head q.
Proof.
  revert q l1. induction n as [|n IH]; intros q l1 W E L.
  - destruct l1; [|done]. by exists q.
  - destruct l1 as [|x l1]; [done|]. injection L as L.
    destruct (pop_cons b q x (l1 ++ l2) W E) as (q1 & P1 & W1 & E1 & B1 & H1).
    destruct (IH q1 l1 W1 E1 L) as (q2 & P2 & W2 & E2 & B2 & H2).
    exists q2. split_and!; try done; [|congruence..].
    simpl. mrun P1. by mrun P2.
Qed.

Lemma cq_list_snoc q x : cq_wf q -> cq_nelem q < CQ_N - 1 ->
  let q' := set_head (u32 (head q + 1) mod CQ_N)
              (set_c_buf (<[Z.to_nat (head q) := x]> (c_buf q)) q) in
  cq_wf q' /\ cq_list q' = cq_list q ++ [x].
Proof.
  intros W Hn q'.
  assert (cq_wf q') as W'.
  { destruct W. constructor; simpl; auto. by rewrite length_insert. }
  split; [done|].
  assert (cq_nelem q' = cq_nelem q + 1) as E.
  { rewrite !nelem_eq in *. unfold q'; simpl. rewrite u32_mod_N.
    destruct W as [_ Hh Ht]. index_arith. }
  pose proof (nelem_range q) as HR.
  unfold cq_list. rewrite E, seqZ_app, fmap_app by lia. f_equal.
  - apply list_fmap_ext. intros k i Hk. apply lookup_seqZ in Hk as [-> Hk].
    unfold cq_at, q'; simpl. rewrite list_lookup_total_insert_ne; [done|].
    rewrite nelem_eq in Hk. destruct W as [_ Hh Ht].
    intros Heq. apply Z2Nat.inj in Heq; [|lia|index_arith]. index_arith.
  - rewrite Z.add_0_l. simpl. f_equal. unfold cq_at, q'; simpl.
    match goal with |- _ !!! Z.to_nat ?i = _ => replace i with (head q) end.
    + apply list_lookup_total_insert_eq. destruct W as [Hb Hh Ht]. lia.
    + rewrite nelem_eq. destruct W as [_ Hh Ht]. index_arith.
Qed.

Lemma push_space q x : cq_wf q -> Z.of_nat (length (cq_list q)) < CQ_N - 1 ->
  exists q', cq_push x q = Done (true, q') /\ cq_wf q' /\ cq_list q' = cq_list q ++ [x].
Proof.
  intros W L. rewrite length_cq_list in L.
  destruct (cq_list_snoc q x W L) as [W' E'].
  eexists; split; [|split; [exact W'|exact E']].
  assert (cq_full q = false) as Hf.
  { apply not_true_iff_false. rewrite full_spec by done. lia. }
  unfold cq_push. rewrite gets_run, Hf, !gets_run.
  rewrite assert_run; [|apply Z.ltb_lt; rewrite nspace_eq; unfold CQ_N in *; lia].
  rewrite gets_run. destruct W as [Hb Hh Ht].
  by destruct (Z.leb_spec (Z.of_nat (length (c_buf q))) (head q)); [lia|].
Qed.

Lemma push_all_space p q : cq_wf q ->
  Z.of_nat (length (cq_list q)) + Z.of_nat (length p) <= CQ_N - 1 ->
  exists q', cq_push_all p q = Done (tt, q') /\ cq_wf q' /\ cq_list q' = cq_list q ++ p.
Proof.
  revert q. induction p as [|x p IH]; intros q W L; simpl in *.
  - exists q. by rewrite app_nil_r.
  - destruct (push_space q x W) as (q1 & P1 & W1 & E1); [lia|].
    destruct (IH q1 W1) as (q2 & P2 & W2 & E2).
    { rewrite E1, length_app. simpl. lia. }
    exists q2. mrun P1. rewrite P2, E2, E1, <-app_assoc. done.
Qed.

(** ** The abstract bounded FIFO and the refinement

    The specification is a labelled transition relation on byte lists.  An operation
    of the implementation that starts in a well-formed state returns, ends in a
    well-formed state, and its result and the two abstract values are a step of the
    specification. *)

Inductive cq_op : Type :=
  | OpPush (x : Z)
  | OpPushN (p : list Z)
  | OpPopNonblock
  | OpPopNNoblk (n : nat)
  | OpPeek
  | OpPeekN (n : nat).

Inductive cq_result : Type :=
  | RBool (b : bool)
  | RByte (o : option Z)
  | RBytes (o : option (list Z)).

Inductive fifo_step : list Z -> cq_op -> cq_result -> list Z -> Prop :=
  | fifo_push l x : Z.of_nat (length l) < CQ_N - 1 ->
      fifo_step l (OpPush x) (RBool true) (l ++ [x])
  | fifo_push_full l x : Z.of_nat (length l) = CQ_N - 1 ->
      fifo_step l (OpPush x) (RBool false) l
  | fifo_push_n l p : Z.of_nat (length l) + Z.of_nat (length p) <= CQ_N - 1 ->
      fifo_step l (OpPushN p) (RBool true) (l ++ p)
  | fifo_push_n_full l p : CQ_N - 1 < Z.of_nat (length l) + Z.of_nat (length p) ->
      fifo_step l (OpPushN p) (RBool false) l
  | fifo_pop l x : fifo_step (x :: l) OpPopNonblock (RByte (Some x)) l
  | fifo_pop_empty : fifo_step [] OpPopNonblock (RByte None) []
  | fifo_pop_n l1 l2 : fifo_step (l1 ++ l2) (OpPopNNoblk (length l1)) (RBytes (Some l1)) l2
  | fifo_pop_n_short l n : (length l < n)%nat ->
      fifo_step l (OpPopNNoblk n) (RBytes None) l
  | fifo_peek l x : fifo_step (x :: l) OpPeek (RByte (Some x)) (x :: l)
  | fifo_peek_empty : fifo_step [] OpPeek (RByte None) []
  | fifo_peek_n l1 l2 : fifo_step (l1 ++ l2) (OpPeekN (length l1)) (RBytes (Some l1)) (l1 ++ l2)
  | fifo_peek_n_short l n : (length l < n)%nat ->
      fifo_step l (OpPeekN n) (RBytes None) l.

(** The operations as they are called; [OpPushN] has at least one byte, which
    [cq_push_n] asserts. *)
Definition cq_run (int_enabled : bool) (op : cq_op) : M cq_t cq_result :=
  match op with
  | OpPush x => r ← cq_push x; mret (RBool r)
  | OpPushN p => r ← cq_push_n p; mret (RBool r)
  | OpPopNonblock => r ← cq_pop_nonblock; mret (RByte r)
  | OpPopNNoblk n => r ← cq_pop_n_noblk int_enabled n; mret (RBytes r)
  | OpPeek => r ← cq_peek; mret (RByte r)
  | OpPeekN n => r ← cq_peek_n int_enabled n; mret (RBytes r)
  end.

Definition op_ok (op : cq_op) : bool :=
  match op with OpPushN [] => false | _ => true end.

Definition refines_step (q : cq_t) (op : cq_op) (m : M cq_t cq_result) : Prop :=
  exists r q', m q = Done (r, q') /\ cq_wf q' /\ fifo_step (cq_list q) op r (cq_list q').

#[local] Hint Constructors fifo_step : core.

Lemma push_refines q x b : cq_wf q -> refines_step q (OpPush x) (cq_run b (OpPush x)).
Proof.
  intros W. pose proof (length_cq_list q) as HL. pose proof (nelem_range q) as HR.
  destruct (decide (cq_nelem q < CQ_N - 1)) as [Hs|Hs].
  - destruct (push_space q x W) as (q' & P & W' & E); [lia|].
    exists (RBool true), q'. simpl. mrun P. rewrite E. split_and!; auto.
    constructor. lia.
  - assert (cq_full q = true) as Hf by (apply full_spec; [done|lia]).
    exists (RBool false), q. simpl. unfold cq_push. rewrite bind_assoc, gets_run, Hf.
    split_and!; auto. constructor. lia.
Qed.

Lemma push_n_space q p : cq_wf q -> p <> [] ->
  Z.of_nat (length (cq_list q)) + Z.of_nat (length p) <= CQ_N - 1 ->
  exists q', cq_push_n p q = Done (true, q') /\ cq_wf q' /\ cq_list q' = cq_list q ++ p.
Proof.
  intros W Hp L. pose proof (length_cq_list q) as HL. pose proof (nspace_eq q) as HS.
  destruct (push_all_space p q W L) as (q' & P & W' & E).
  exists q'. split_and!; auto. unfold cq_push_n.
  rewrite assert_run, gets_run by (destruct p; [done|]; by apply negb_true_iff, Z.eqb_neq).
  rewrite (proj2 (Z.ltb_ge _ _)) by lia. by mrun P.
Qed.

Lemma push_n_full q p : cq_wf q -> p <> [] ->
  CQ_N - 1 < Z.of_nat (length (cq_list q)) + Z.of_nat (length p) ->
  cq_push_n p q = Done (false, q).
Proof.
  intros W Hp L. pose proof (length_cq_list q) as HL. pose proof (nspace_eq q) as HS.
  unfold cq_push_n.
  rewrite assert_run, gets_run by (destruct p; [done|]; by apply negb_true_iff, Z.eqb_neq).
  by rewrite (proj2 (Z.ltb_lt _ _)) by lia.
Qed.

Lemma push_n_refines q p b : cq_wf q -> p <> [] ->
  refines_step q (OpPushN p) (cq_run b (OpPushN p)).
Proof.
  intros W Hp. simpl.
  destruct (decide (CQ_N - 1 < Z.of_nat (length (cq_list q)) + Z.of_nat (length p))) as [L|L].
  - exists (RBool false), q. mrun (push_n_full q p W Hp L). auto.
  - destruct (push_n_space q p W Hp) as (q' & P & W' & E); [lia|].
    exists (RBool true), q'. mrun P. rewrite E. split_and!; auto. constructor. lia.
Qed.

Lemma pop_refines q b : cq_wf q -> refines_step q OpPopNonblock (cq_run b OpPopNonblock).
Proof.
  intros W. unfold refines_step. destruct (cq_list q) as [|x l] eqn:E.
  - exists (RByte None), q. simpl. mrun (pop_nonblock_nil q W E). rewrite E. auto.
  - destruct (pop_nonblock_cons q x l W E) as (q' & P & W' & E' & _).
    exists (RByte (Some x)), q'. simpl. mrun P. rewrite E'. auto.
Qed.

Lemma pop_n_noblk_long q n b : cq_wf q -> (n <= length (cq_list q))%nat ->
  exists l1 l2 q', cq_list q = l1 ++ l2 /\ length l1 = n /\
    cq_pop_n_noblk b n q = Done (Some l1, q') /\ cq_wf q' /\ cq_list q' = l2 /\
    c_buf q' = c_buf q /\ head q' = head q.
Proof.
  intros W L. pose proof (length_cq_list q) as HL.
  exists (take n (cq_list q)), (drop n (cq_list q)).
  destruct (pop_n_app b n q (take n (cq_list q)) (drop n (cq_list q)) W)
    as (q' & P & R); [by rewrite take_drop|rewrite length_take; lia|].
  exists q'. rewrite take_drop, length_take. split_and!; try apply R; [done|lia|].
  unfold cq_pop_n_noblk. rewrite gets_run, (proj2 (Z.ltb_ge _ _)) by lia. by mrun P.
Qed.

Lemma pop_n_noblk_short q n b : cq_wf q -> (length (cq_list q) < n)%nat ->
  cq_pop_n_noblk b n q = Done (None, q).
Proof.
  intros W L. pose proof (length_cq_list q) as HL.
  unfold cq_pop_n_noblk. by rewrite gets_run, (proj2 (Z.ltb_lt _ _)) by lia.
Qed.

Lemma pop_n_refines q n b : cq_wf q ->
  refines_step q (OpPopNNoblk n) (cq_run b (OpPopNNoblk n)).
Proof.
  intros W. destruct (decide (length (cq_list q) < n)%nat) as [Hs|Hs].
  - exists (RBytes None), q. simpl. mrun (pop_n_noblk_short q n b W Hs). auto.
  - destruct (pop_n_noblk_long q n b W) as (l1 & l2 & q' & E & <- & P & W' & E' & _); [lia|].
    exists (RBytes (Some l1)), q'. simpl. mrun P. rewrite E, E'. auto.
Qed.

Lemma peek_refines q b : cq_wf q -> refines_step q OpPeek (cq_run b OpPeek).
Proof.
  intros W. unfold refines_step. simpl. unfold cq_peek. rewrite bind_assoc, gets_run.
  destruct (cq_empty q) eqn:Em.
  - exists (RByte None), q. apply empty_spec in Em; [|done]. rewrite Em. auto.
  - assert (cq_list q <> []) as Hne by (rewrite <-empty_spec by done; congruence).
    exists (RByte (Some (cq_at q 0))), q. rewrite (cq_list_cons q W Hne).
    rewrite bind_assoc, gets_run, bind_assoc, gets_run, bind_assoc.
    erewrite opt_run; [|apply buf_lookup; [done|apply W]].
    unfold cq_at. rewrite Z.add_0_r, (Z.mod_small (tail q)) by apply W. auto.
Qed.

Lemma cq_restore_tail q q' : c_buf q' = c_buf q -> head q' = head q ->
  cq_list (set_tail (tail q) q') = cq_list q /\
  cq_nelem (set_tail (tail q) q') = cq_nelem q.
Proof.
  intros B H. assert (cq_nelem (set_tail (tail q) q') = cq_nelem q) as E.
  { unfold cq_nelem. simpl. by rewrite H. }
  split; [|done]. unfold cq_list. rewrite E. apply list_fmap_ext. intros _ i _.
  unfold cq_at. simpl. by rewrite B.
Qed.

Lemma peek_n_refines q n b : cq_wf q -> refines_step q (OpPeekN n) (cq_run b (OpPeekN n)).
Proof.
  intros W. pose proof (length_cq_list q) as HL. simpl. unfold cq_peek_n, refines_step.
  rewrite bind_assoc, gets_run. destruct (decide (length (cq_list q) < n)%nat) as [Hs|Hs].
  - exists (RBytes None), q. rewrite (proj2 (Z.ltb_lt _ _)) by lia. auto.
  - rewrite (proj2 (Z.ltb_ge _ _)) by lia.
    destruct (pop_n_noblk_long q n b W) as (l1 & l2 & q' & E & <- & P & W' & E' & B & H); [lia|].
    destruct (cq_restore_tail q q' B H) as [EL EN].
    exists (RBytes (Some l1)), (set_tail (tail q) q').
    rewrite bind_assoc, gets_run, bind_assoc. mrun P.
    rewrite bind_assoc, modify_run, bind_assoc, gets_run, EN.
    rewrite bind_assoc, assert_run by apply Z.eqb_refl.
    rewrite EL, E. split_and!; auto. apply wf_set_tail; [done|apply W].
Qed.

(** C25: the circular queue refines the bounded FIFO.  From a well-formed state every
    operation (called as its assertions allow) returns without panic, undefined access
    or endless loop, keeps the state well formed, and its result and effect on the
    queued bytes are those of a first-in first-out list of capacity [CQ_N - 1]:
    pushes append and fail only when full, [cq_push_n] is all or nothing, pops take the
    oldest bytes, peeks change nothing. *)
Theorem cq_refines_fifo q op b :
  cq_wf q -> op_ok op = true -> refines_step q op (cq_run b op).
Proof.
  intros W Hok. destruct op.
  - by apply push_refines.
  - apply push_n_refines; [done|]. by intros ->.
  - by apply pop_refines.
  - by apply pop_n_refines.
  - by apply peek_refines.
  - by apply peek_n_refines.
Qed.

Lemma cq_init_wf fatal : cq_wf (cq_init fatal).
Proof.
  constructor; cbn [cq_init c_buf head tail]; [|unfold CQ_N; lia..].
  rewrite length_replicate. unfold CQ_N. lia.
Qed.

Lemma cq_init_list fatal : cq_list (cq_init fatal) = [].
Proof. apply empty_spec; [apply cq_init_wf|done]. Qed.

Lemma cq_refines_fifo_witness :
  refines_step (cq_init 1) (OpPushN [7; 8; 9]) (cq_run true (OpPushN [7; 8; 9])).
Proof. apply cq_refines_fifo; [apply cq_init_wf|reflexivity]. Defined.

(** a 32-bit word pushed with [cq_push32] is the word [cq_pop32_noblk] returns
    once the older bytes are gone: on a queue with no other byte, push then pop gives
    the word back and leaves the queue empty. *)
Theorem cq_push32_pop32 q x b :
  cq_wf q -> cq_list q = [] -> is_u32 x ->
  exists q1 q2, cq_push32 x q = Done (true, q1) /\
    cq_pop32_noblk b q1 = Done (Some x, q2) /\ cq_wf q2 /\ cq_list q2 = [].
Proof.
  intros W E Hx.
  destruct (push_n_space q (le_bytes 4 x) W) as (q1 & P & W1 & E1); [done|by rewrite E|].
  rewrite E, app_nil_l in E1.
  destruct (pop_n_app b 4 q1 (le_bytes 4 x) [] W1) as (q2 & P2 & W2 & E2 & _);
    [by rewrite app_nil_r|apply length_le_bytes|].
  exists q1, q2. split_and!; auto. unfold cq_pop32_noblk, cq_pop_n_noblk.
  pose proof (length_cq_list q1) as HL. rewrite E1, length_le_bytes in HL.
  rewrite bind_assoc, gets_run, (proj2 (Z.ltb_ge _ _)) by lia.
  rewrite bind_assoc. mrun P2. rewrite ret_run. unfold mret, M_ret.
  change (le_val <$> Some (le_bytes 4 x)) with (Some (le_val (le_bytes 4 x))).
  rewrite le_val_bytes. by rewrite Z.mod_small.
Qed.

Lemma cq_push32_pop32_witness :
  exists q1 q2, cq_push32 305419896 (cq_init 0) = Done (true, q1) /\
    cq_pop32_noblk false q1 = Done (Some 305419896, q2) /\ cq_wf q2 /\ cq_list q2 = [].
Proof.
  apply cq_push32_pop32; [apply cq_init_wf|apply cq_init_list|unfold is_u32; lia].
Defined.
