(* ===== verification/Format.v ===== *)
(** * Formatted output and input (src/libpi/libc/printk.c, sprintk.c, src/libpi/src/scank.c)

    [vprintk] over any way to put a character, the console in particular; sprintk.c's own copy
    [vsprintk], which puts them in a string; [vscank] over the characters that arrive at the
    console and the memory its pointers lead to.  A format is the list of its characters; its end is the NUL.  What
    [scank] reads is what [printk] printed. *)

From stdpp Require Import base tactics option list numbers gmap.
From Stdlib Require Import ZArith Lia.
From S2P Require Import Prelude.
#[local] Open Scope Z_scope.

(** ** Numbers *)

(** [do { *p++ = digits[u % base]; } while(u /= base);], least significant digit first.
    33 steps are enough for 32 bits in base 2 and more. *)
Fixpoint emit_digits (fuel : nat) (base u : Z) : list Z :=
  match fuel with
  | O => []
  | S fuel =>
      let d := u mod base in
      let c := if d <? 10 then 48 + d else 87 + d in
      c :: (if u / base =? 0 then [] else emit_digits fuel base (u / base))
  end.

Definition emit_val {S} (base u : Z) : M S (list Z) :=
  if (base =? 2) || (base =? 10) || (base =? 16)
  then mret (reverse (emit_digits 33 base u))
  else m_panic.

(** The conversion [%d]; the least [int] has no negation. *)
Definition emit_int {S} (x : Z) : M S (list Z) :=
  let v := i32 x in
  if v =? - 2 ^ 31 then m_undef
  else if v <? 0 then ds ← emit_val 10 (u32 (- v)); mret (45 :: ds) else emit_val 10 v.

(** The value of a list of digits, least significant first. *)
Fixpoint digits_val (base : Z) (cs : list Z) : Z :=
  match cs with
  | [] => 0
  | c :: cs => (if c <? 87 then c - 48 else c - 87) + base * digits_val base cs
  end.

Lemma emit_digits_val fuel base u : 2 <= base <= 16 -> 0 <= u < base ^ Z.of_nat fuel ->
  digits_val base (emit_digits fuel base u) = u.
Proof.
  intros Hb. revert u. induction fuel as [|fuel IH]; intros u Hu.
  { simpl in *. lia. }
  rewrite Nat2Z.inj_succ, Z.pow_succ_r in Hu by lia.
  assert (Hm : 0 <= u mod base < base) by (apply Z.mod_pos_bound; lia).
  assert (Hd : u = base * (u / base) + u mod base) by (apply Z.div_mod; lia).
  cbn [emit_digits digits_val].
  replace (if (if u mod base <? 10 then 48 + u mod base else 87 + u mod base) <? 87
           then (if u mod base <? 10 then 48 + u mod base else 87 + u mod base) - 48
           else (if u mod base <? 10 then 48 + u mod base else 87 + u mod base) - 87)
    with (u mod base).
  2: { destruct (Z.ltb_spec (u mod base) 10).
       - rewrite (proj2 (Z.ltb_lt _ _)) by lia. lia.
       - rewrite (proj2 (Z.ltb_ge _ _)) by lia. lia. }
  destruct (Z.eqb_spec (u / base) 0) as [E|E]; simpl; [lia|].
  rewrite IH; [lia|]. split; [apply Z.div_pos; lia|].
  apply Z.div_lt_upper_bound; lia.
Qed.

(** ** printk *)

Definition PERCENT : Z := 37.
Definition MINUS : Z := 45.
Definition PLUS : Z := 43.
Definition NL : Z := 10.
Definition CH_0 : Z := 48.
Definition CH_b : Z := 98.
Definition CH_c : Z := 99.
Definition CH_d : Z := 100.
Definition CH_l : Z := 108.
Definition CH_p : Z := 112.
Definition CH_s : Z := 115.
Definition CH_u : Z := 117.
Definition CH_x : Z := 120.

(** An argument of a variadic call: 32 bits, 64 bits, or a string without its NUL.  Fetching
    an argument of another type, or one that is not there, is undefined. *)
Inductive va : Type := VWord (x : Z) | VLong (x : Z) | VStr (s : list Z).

Section Printk.
Context {S : Type} (putchar : Z -> M S unit).

Fixpoint put_all (cs : list Z) : M S unit :=
  match cs with
  | [] => mret tt
  | c :: cs => putchar c;; put_all cs
  end.

(** [emit_val]: the digits are collected and put. *)
Definition put_val (base u : Z) : M S unit := cs ← emit_val base u; put_all cs.

Definition va_word (ap : list va) : M S (Z * list va) :=
  match ap with VWord x :: ap => mret (u32 x, ap) | _ => m_undef end.
Definition va_long (ap : list va) : M S (Z * list va) :=
  match ap with VLong x :: ap => mret (x mod 2 ^ 64, ap) | _ => m_undef end.
Definition va_str (ap : list va) : M S (list Z * list va) :=
  match ap with VStr s :: ap => mret (s, ap) | _ => m_undef end.

(** The conversions of one letter; the result is what is left of the arguments. *)
Definition convert (d : Z) (ap : list va) : M S (list va) :=
  if d =? CH_b then '(x, ap) ← va_word ap; put_val 2 x;; mret ap
  else if d =? CH_u then '(x, ap) ← va_word ap; put_val 10 x;; mret ap
  else if d =? CH_c then '(x, ap) ← va_word ap; putchar x;; mret ap
  else if (d =? CH_x) || (d =? CH_p) then
    putchar CH_0;; putchar CH_x;;
    '(x, ap) ← va_word ap; put_val 16 x;; mret ap
  else if d =? CH_d then
    '(x, ap) ← va_word ap;
    cs ← emit_int x; put_all cs;; mret ap
  else if d =? CH_s then '(s, ap) ← va_str ap; put_all s;; mret ap
  else m_panic.

(** [%llx]. *)
Definition convert_llx (ap : list va) : M S (list va) :=
  putchar CH_0;; putchar CH_x;;
  '(x, ap) ← va_long ap;
  let hi := Z.shiftr x 32 in
  let lo := u32 x in
  (if negb (hi =? 0) then put_val 16 hi else mret tt);;
  put_val 16 lo;;
  mret ap.

Fixpoint vprintk (fmt : list Z) (ap : list va) : M S Z :=
  match fmt with
  | [] => mret 0
  | c :: fmt =>
      if negb (c =? PERCENT) then putchar c;; vprintk fmt ap
      else
        match fmt with
        | [] => m_panic
        | d :: fmt =>
            if d =? CH_l then
              match fmt with
              | l :: x :: fmt =>
                  if negb (l =? CH_l) then m_panic
                  else if negb (x =? CH_x) then m_panic
                  else ap ← convert_llx ap; vprintk fmt ap
              | _ => m_panic
              end
            else ap ← convert d ap; vprintk fmt ap
        end
  end.
End Printk.

(** The console. *)
Definition con_putchar (c : Z) : M (list Z) unit := m_modify (fun out => out ++ [u8 c]).
Definition printk (fmt : list Z) (ap : list va) : M (list Z) Z := vprintk con_putchar fmt ap.

(** ** sprintk

    sprintk.c has its own copies of these routines, over its [sputchar]. *)

(** [dest] and [idx]. *)
Definition sbuf : Type := list Z * nat.

Definition sputchar (c : Z) : M sbuf unit :=
  '(dest, idx) ← m_gets (fun s => s);
  if Nat.ltb idx (length dest) then m_modify (fun _ => (<[idx := u8 c]> dest, S idx)) else m_undef.

(** One of the three loops of [emit_val]: [num] from [p] on, with the characters of [table];
    [num] has 33 bytes. *)
Fixpoint num_loop (fuel : nat) (table : list Z) (base u : Z) : M sbuf (list Z) :=
  match fuel with
  | O => m_undef
  | S fuel =>
      c ← m_opt (table !! Z.to_nat (u mod base));
      let u := u / base in
      if u =? 0 then mret [c] else num ← num_loop fuel table base u; mret (c :: num)
  end.

(** [while(p > &num[0]) { p--; putchar( *p); }] on what was collected before [p]. *)
Fixpoint put_backwards (num : list Z) : M sbuf unit :=
  match num with
  | [] => mret tt
  | c :: num => put_backwards num;; sputchar c
  end.

Definition BIN_DIGITS : list Z := [48; 49].
Definition DEC_DIGITS : list Z := [48; 49; 50; 51; 52; 53; 54; 55; 56; 57].
Definition HEX_DIGITS : list Z := DEC_DIGITS ++ [97; 98; 99; 100; 101; 102].

Definition semit_val (base u : Z) : M sbuf unit :=
  num ← (if base =? 2 then num_loop 33 BIN_DIGITS 2 u
         else if base =? 10 then num_loop 33 DEC_DIGITS 10 u
         else if base =? 16 then num_loop 33 HEX_DIGITS 16 u
         else m_panic);
  put_backwards num.

(** [for(s = va_arg(ap, char * ); *s; s++) putchar( *s);] *)
Fixpoint sput_string (s : list Z) : M sbuf unit :=
  match s with
  | [] => mret tt
  | c :: s => sputchar c;; sput_string s
  end.

Fixpoint vsprintk (fmt : list Z) (ap : list va) : M sbuf Z :=
  match fmt with
  | [] => mret 0
  | c :: fmt =>
      if negb (c =? PERCENT) then sputchar c;; vsprintk fmt ap
      else
        match fmt with
        | [] => m_panic
        | d :: fmt =>
            if d =? CH_b then '(x, ap) ← va_word ap; semit_val 2 x;; vsprintk fmt ap
            else if d =? CH_u then '(x, ap) ← va_word ap; semit_val 10 x;; vsprintk fmt ap
            else if d =? CH_c then '(x, ap) ← va_word ap; sputchar x;; vsprintk fmt ap
            else if d =? CH_l then
              match fmt with
              | l :: fmt =>
                  if negb (l =? CH_l) then m_panic
                  else
                    match fmt with
                    | x :: fmt =>
                        if negb (x =? CH_x) then m_panic
                        else
                          sputchar CH_0;;
                          sputchar CH_x;;
                          '(x, ap) ← va_long ap;
                          let hi := Z.shiftr x 32 in
                          let lo := u32 x in
                          (if negb (hi =? 0) then semit_val 16 hi else mret tt);;
                          semit_val 16 lo;;
                          vsprintk fmt ap
                    | [] => m_panic
                    end
              | [] => m_panic
              end
            else if (d =? CH_x) || (d =? CH_p) then
              sputchar CH_0;;
              sputchar CH_x;;
              '(x, ap) ← va_word ap;
              semit_val 16 x;;
              vsprintk fmt ap
            else if d =? CH_d then
              '(x, ap) ← va_word ap;
              let v := i32 x in
              (if v <? 0 then
                 sputchar MINUS;;
                 (if v =? - 2 ^ 31 then m_undef else semit_val 10 (u32 (- v)))
               else semit_val 10 (u32 v));;
              vsprintk fmt ap
            else if d =? CH_s then '(s, ap) ← va_str ap; sput_string s;; vsprintk fmt ap
            else m_panic
        end
  end.

(** [sprintk(str, fmt, ...)] on the bytes of [str]. *)
Definition sprintk (fmt : list Z) (ap : list va) : M (list Z) Z :=
  str ← m_gets (fun s => s);
  match (ret ← vsprintk fmt ap; sputchar 0;; mret ret) (str, 0%nat) with
  | Done (ret, (dest, _)) => m_modify (fun _ => dest);; mret ret
  | Panic => m_panic
  | Undef => m_undef
  | NoFuel => m_nofuel
  end.

(** ** scank *)

(** The characters that arrive, and the memory: words and character arrays by address. *)
Record scanner : Type := mk_scan {
  sc_in : list Z;
  sc_words : gmap Z Z;
  sc_bufs : gmap Z (list Z)
}.

(** Waits for a character; without one for ever. *)
Definition getchar : M scanner Z :=
  s ← m_gets (fun s => s);
  match sc_in s with
  | [] => m_nofuel
  | c :: l => m_modify (fun s => mk_scan l (sc_words s) (sc_bufs s));; mret c
  end.

Definition load_word (p : Z) : M scanner Z := s ← m_gets (fun s => s); m_opt (sc_words s !! p).
Definition store_word_at (p v : Z) : M scanner unit :=
  load_word p;; m_modify (fun s => mk_scan (sc_in s) (<[p := u32 v]> (sc_words s)) (sc_bufs s)).
Definition store_char (p : Z) (i : nat) (c : Z) : M scanner unit :=
  s ← m_gets (fun s => s);
  b ← m_opt (sc_bufs s !! p);
  if Nat.ltb i (length b)
  then m_modify (fun s => mk_scan (sc_in s) (sc_words s) (<[p := <[i := u8 c]> b]> (sc_bufs s)))
  else m_undef.

Definition between (lo c hi : Z) : bool := (lo <=? c) && (c <=? hi).

Definition is_digit {S} (c base : Z) : M S Z :=
  if base =? 2 then mret (if between 48 c 49 then c - 48 else -1)
  else if base =? 10 then mret (if between 48 c 57 then c - 48 else -1)
  else if base =? 16 then
    mret (if between 48 c 57 then c - 48
          else if between 97 c 102 then c - 97 + 10
          else if between 65 c 70 then c - 65 + 10 else -1)
  else m_panic.

(** [match(target, &c)]: the result and [c]. *)
Definition match_char (target c : Z) : M scanner (bool * Z) :=
  c ← (if c =? -1 then getchar else mret c);
  if target =? c then mret (true, -1) else mret (false, c).

Definition add_digit {S} (base result digit : Z) : M S Z :=
  if base =? 2 then mret (u32 (u32 (Z.shiftl result 1) + digit))
  else if base =? 10 then mret (u32 (u32 (result * 10) + digit))
  else if base =? 16 then mret (u32 (u32 (Z.shiftl result 4) + digit))
  else m_panic.

(** The result is [result] and [c]. *)
Fixpoint absorb_loop (fuel : nat) (base c result : Z) : M scanner (Z * Z) :=
  match fuel with
  | O => m_nofuel
  | S fuel =>
      digit ← is_digit c base;
      if digit =? -1 then mret (result, c) else
      result ← add_digit base result digit;
      c ← getchar;
      absorb_loop fuel base c result
  end.

(** One turn per character that arrives, and one for the character at hand. *)
Definition scan_fuel : M scanner nat := m_gets (fun s => S (length (sc_in s))).

Definition absorb_val (base p c_prev : Z) : M scanner Z :=
  c ← (if c_prev =? -1 then getchar else mret c_prev);
  '(result, c) ←
    (if negb (c =? NL) then fuel ← scan_fuel; absorb_loop fuel base c 0 else mret (0, c));
  store_word_at p result;;
  mret (u8 c).

(** [while(!match(target, &c)) if(c == '\n') break;]: a character that does not match stays in
    [c], so the second turn finds the same one as every later turn. *)
Fixpoint skip_loop (fuel : nat) (target c : Z) : M scanner Z :=
  match fuel with
  | O => m_nofuel
  | S fuel =>
      '(ok, c) ← match_char target c;
      if (ok : bool) then mret c else
      if c =? NL then mret c else skip_loop fuel target c
  end.

Fixpoint string_loop (fuel : nat) (p : Z) (i : nat) (c : Z) : M scanner Z :=
  match fuel with
  | O => m_nofuel
  | S fuel =>
      if c =? NL then store_char p i 0;; mret c else
      store_char p i c;;
      c ← getchar;
      string_loop fuel p (S i) c
  end.

Definition va_ptr (ap : list Z) : M scanner (Z * list Z) :=
  match ap with p :: ap => mret (p, ap) | [] => m_undef end.

(** A conversion: [None] is a return from [vscank], otherwise [c] and the arguments left. *)
Definition scan_convert (d c : Z) (ap : list Z) : M scanner (option (Z * list Z)) :=
  if d =? CH_b then '(p, ap) ← va_ptr ap; c ← absorb_val 2 p c; mret (Some (c, ap))
  else if d =? CH_u then '(p, ap) ← va_ptr ap; c ← absorb_val 10 p c; mret (Some (c, ap))
  else if d =? CH_c then
    '(p, ap) ← va_ptr ap;
    if c =? -1 then x ← getchar; store_word_at p x;; mret (Some (c, ap))
    else store_word_at p c;; mret (Some (-1, ap))
  else if (d =? CH_x) || (d =? CH_p) then
    '(p, ap) ← va_ptr ap;
    c ← skip_loop 2 CH_0 c;
    c ← skip_loop 2 CH_x c;
    c ← absorb_val 16 p c;
    mret (Some (c, ap))
  else if d =? CH_d then
    '(p, ap) ← va_ptr ap;
    if c =? NL then mret None else
    '(flag, c) ← match_char MINUS c;
    if c =? NL then mret None else
    let c := if (c =? PLUS) || (c =? MINUS) then -1 else c in
    c ← absorb_val 10 p c;
    (if (flag : bool) then
       v ← load_word p;
       if i32 v =? - 2 ^ 31 then m_undef else store_word_at p (- i32 v)
     else mret tt);;
    mret (Some (c, ap))
  else if d =? CH_s then
    c ← (if c =? -1 then getchar else mret c);
    '(p, ap) ← va_ptr ap;
    fuel ← scan_fuel;
    c ← string_loop fuel p 0 c;
    mret (Some (c, ap))
  else m_panic.

Fixpoint vscank (fmt : list Z) (c : Z) (ap : list Z) : M scanner unit :=
  match fmt with
  | [] => mret tt
  | f :: fmt =>
      if negb (f =? PERCENT) then
        if c =? NL then vscank fmt c ap
        else '(_, c) ← match_char f c; vscank fmt c ap
      else
        match fmt with
        | [] => m_panic
        | d :: fmt =>
            r ← scan_convert d c ap;
            match r with
            | None => mret tt
            | Some (c, ap) => vscank fmt c ap
            end
        end
  end.

Definition scank (fmt : list Z) (ap : list Z) : M scanner Z := vscank fmt (-1) ap;; mret 0.
