(* ===== verification/FormatThm.v ===== *)
(** * printk, sprintk and scank agree

    [sprintk] leaves in a string what [printk] shows on the console, or runs over the end of
    the string; [scank] reads back what [printk] printed. *)

From stdpp Require Import base tactics option list numbers gmap.
From Stdlib Require Import ZArith Lia.
From S2P Require Import Prelude Format.
#[local] Open Scope Z_scope.
#[local] Arguments Z.shiftl : simpl never.
#[local] Arguments Z.shiftr : simpl never.

(** ** Formatting does not depend on where the characters go *)

(** How a routine ends after it put its characters. *)
Inductive fin (A : Type) : Type := Ret (a : A) | Stop | Bad.
Arguments Ret {_} _.
Arguments Stop {_}.
Arguments Bad {_}.

Definition ends {S A} (f : fin A) : M S A :=
  match f with Ret a => mret a | Stop => m_panic | Bad => m_undef end.

(** [c], given a way to put a character, puts [l] and ends as [f] says. *)
Definition traces {A} (c : forall S, (Z -> M S unit) -> M S A) (l : list Z) (f : fin A) : Prop :=
  forall S (putc : Z -> M S unit) s, c S putc s = (put_all putc l;; ends f) s.

Lemma put_all_app {S A} (putc : Z -> M S unit) l l' (k : M S A) s :
  (put_all putc (l ++ l');; k) s = (put_all putc l;; put_all putc l';; k) s.
Proof.
  revert s. induction l as [|c l IH]; intros s; [done|]. cbn [app put_all].
  rewrite !bind_assoc. unfold mbind, M_bind. destruct (putc c s) as [[[] s']| | |]; [|done..]. apply IH.
Qed.

(** Sequences: nothing runs after a stop. *)
Lemma traces_bind {A B} (c : forall S, (Z -> M S unit) -> M S A) (g : A -> forall S, (Z -> M S unit) -> M S B) l f :
  traces c l f -> (forall a, f = Ret a -> exists l' f', traces (g a) l' f') ->
  exists l' f', traces (fun S putc => x ← c S putc; g x S putc) l' f'.
Proof.
  intros Hc Hg. destruct f as [a| |].
  - destruct (Hg a eq_refl) as (l' & f' & Ha). exists (l ++ l'), f'. intros S putc s.
    rewrite put_all_app. unfold mbind, M_bind at 1. rewrite Hc. unfold mbind, M_bind.
    destruct (put_all putc l s) as [[[] s']| | |]; [|done..]. simpl. by rewrite Ha.
  - exists l, Stop. intros S putc s. unfold mbind, M_bind at 1. rewrite Hc. unfold mbind, M_bind.
    by destruct (put_all putc l s) as [[[] s']| | |].
  - exists l, Bad. intros S putc s. unfold mbind, M_bind at 1. rewrite Hc. unfold mbind, M_bind.
    by destruct (put_all putc l s) as [[[] s']| | |].
Qed.

Lemma traces_end {A} (f : fin A) : traces (fun S _ => ends f) [] f.
Proof. by intros S putc s. Qed.

Lemma traces_put c : traces (fun S putc => putc c) [c] (Ret tt).
Proof.
  intros S putc s. cbn [put_all]. unfold mbind, M_bind.
  by destruct (putc c s) as [[[] s']| | |].
Qed.

Lemma traces_put_all l : traces (fun S putc => put_all putc l) l (Ret tt).
Proof.
  intros S putc s. unfold mbind, M_bind. by destruct (put_all putc l s) as [[[] s']| | |].
Qed.

Lemma traces_emit_val base u : exists f, traces (fun S _ => emit_val (S := S) base u) [] f.
Proof.
  unfold emit_val. destruct (_ || _).
  - exists (Ret (reverse (emit_digits 33 base u))). by intros S putc s.
  - exists Stop. by intros S putc s.
Qed.

Lemma traces_put_val base u : exists l f, traces (fun S putc => put_val putc base u) l f.
Proof.
  destruct (traces_emit_val base u) as [f Hf]. unfold put_val.
  eapply (traces_bind _ (fun cs S putc => put_all putc cs)); [exact Hf|]. intros cs _.
  eexists _, _. apply traces_put_all.
Qed.

Lemma traces_ext {A} (c c' : forall S, (Z -> M S unit) -> M S A) l f : traces c l f ->
  (forall S putc s, c' S putc s = c S putc s) -> traces c' l f.
Proof. intros Hc E S putc s. by rewrite E. Qed.

(** [traces] up to the text and the end. *)
Definition formats {A} (c : forall S, (Z -> M S unit) -> M S A) : Prop := exists l f, traces c l f.

Lemma formats_bind {A B} (c : forall S, (Z -> M S unit) -> M S A) (g : A -> forall S, (Z -> M S unit) -> M S B) :
  formats c -> (forall a, formats (g a)) -> formats (fun S putc => x ← c S putc; g x S putc).
Proof. intros (l & f & Hc) Hg. eapply traces_bind; [exact Hc|]. intros a _. apply Hg. Qed.

Lemma formats_ret {A} (a : A) : formats (fun S _ => mret a).
Proof. exists [], (Ret a). apply (traces_end (Ret a)). Qed.
Lemma formats_panic {A} : formats (A := A) (fun S _ => m_panic).
Proof. exists [], Stop. apply (traces_end Stop). Qed.
Lemma formats_undef {A} : formats (A := A) (fun S _ => m_undef).
Proof. exists [], Bad. apply (traces_end Bad). Qed.
Lemma formats_put c : formats (fun S putc => putc c).
Proof. eexists _, _. apply traces_put. Qed.
Lemma formats_put_all l : formats (fun S putc => put_all putc l).
Proof. eexists _, _. apply traces_put_all. Qed.
Lemma formats_put_val base u : formats (fun S putc => put_val putc base u).
Proof. apply traces_put_val. Qed.
Lemma formats_emit_val base u : formats (fun S _ => emit_val (S := S) base u).
Proof. destruct (traces_emit_val base u) as [f Hf]. eexists _, _. exact Hf. Qed.
Lemma formats_emit_int x : formats (fun S _ => emit_int (S := S) x).
Proof.
  unfold emit_int. cbv zeta. destruct (_ =? _); [apply formats_undef|].
  destruct (_ <? _); [|apply formats_emit_val].
  apply (formats_bind (fun S _ => emit_val (S := S) 10 (u32 (- i32 x))) (fun ds S _ => mret (45 :: ds)));
    [apply formats_emit_val|]. intros a. apply formats_ret.
Qed.

Lemma formats_word ap : formats (fun S _ => va_word (S := S) ap).
Proof. destruct ap as [|[x|x|s] ap]; [apply formats_undef|apply formats_ret|apply formats_undef..]. Qed.
Lemma formats_long ap : formats (fun S _ => va_long (S := S) ap).
Proof. destruct ap as [|[x|x|s] ap]; [apply formats_undef..|apply formats_ret|apply formats_undef]. Qed.
Lemma formats_str ap : formats (fun S _ => va_str (S := S) ap).
Proof. destruct ap as [|[x|x|s] ap]; [apply formats_undef..|apply formats_ret]. Qed.

Create HintDb formats.
#[export] Hint Resolve formats_ret formats_panic formats_undef formats_put formats_put_all formats_put_val
  formats_emit_val formats_emit_int formats_word formats_long formats_str : formats.
Ltac formats := repeat first
  [ solve [auto with formats]
  | match goal with |- formats (fun S putc => if ?b then _ else _) => destruct b end
  | apply formats_bind; [|intros []]
  | apply formats_bind; [|intros ?] ].

Lemma formats_convert d ap : formats (fun S putc => convert putc d ap).
Proof. unfold convert. formats. Qed.

Lemma formats_llx ap : formats (fun S putc => convert_llx putc ap).
Proof. unfold convert_llx. formats. Qed.
#[export] Hint Resolve formats_convert formats_llx : formats.

Lemma formats_vprintk fmt ap : formats (fun S putc => vprintk putc fmt ap).
Proof.
  remember (length fmt) as n eqn:En. revert fmt En ap.
  induction n as [n IH] using lt_wf_ind. intros fmt -> ap.
  assert (R : forall fmt' ap', (length fmt' < length fmt)%nat -> formats (fun S putc => vprintk putc fmt' ap')).
  { intros fmt' ap' Hl. by apply (IH (length fmt') Hl fmt'). }
  destruct fmt as [|c fmt]; cbn [vprintk]; [formats|]. simpl in R.
  destruct (negb (c =? PERCENT)).
  { apply formats_bind; [formats|]. intros []. apply R. lia. }
  destruct fmt as [|d fmt]; [formats|]. simpl in R. destruct (d =? CH_l).
  - destruct fmt as [|l [|x fmt]]; [formats..|]. simpl in R.
    destruct (negb (l =? CH_l)); [formats|]. destruct (negb (x =? CH_x)); [formats|].
    apply formats_bind; [formats|]. intros ap'. apply R. lia.
  - apply formats_bind; [formats|]. intros ap'. apply R. lia.
Qed.

(** ** sprintk *)

Lemma con_put_run {B} c (k : M (list Z) B) out : (con_putchar c;; k) out = k (out ++ [u8 c]).
Proof. done. Qed.

Lemma con_put_all l out : put_all con_putchar l out = Done (tt, out ++ (u8 <$> l)).
Proof.
  revert out. induction l as [|c l IH]; intros out; cbn [put_all]; [by rewrite app_nil_r|].
  by rewrite con_put_run, IH, <-app_assoc.
Qed.

(** Characters put into a string that has room for some of them. *)
Lemma sput_all l done rest : put_all sputchar l (done ++ rest, length done) =
  if Nat.leb (length l) (length rest)
  then Done (tt, (done ++ (u8 <$> l) ++ drop (length l) rest, (length done + length l)%nat)) else Undef.
Proof.
  revert done rest. induction l as [|c l IH]; intros done rest; cbn [put_all].
  { simpl. by rewrite Nat.add_0_r, drop_0. }
  assert (Es : sputchar c (done ++ rest, length done) =
    if Nat.ltb (length done) (length (done ++ rest))
    then Done (tt, (<[length done := u8 c]> (done ++ rest), S (length done))) else Undef).
  { unfold sputchar. rewrite gets_run. by destruct (Nat.ltb _ _). }
  rewrite length_app in Es. unfold mbind, M_bind. rewrite Es.
  destruct rest as [|r rest].
  { rewrite (proj2 (Nat.ltb_ge _ _)) by (simpl; lia). done. }
  rewrite (proj2 (Nat.ltb_lt _ _)) by (simpl; lia).
  rewrite insert_app_r_alt by lia. rewrite Nat.sub_diag. cbn [insert list_insert].
  replace (done ++ u8 c :: rest) with ((done ++ [u8 c]) ++ rest) by (by rewrite <-app_assoc).
  replace (S (length done)) with (length (done ++ [u8 c])) by (rewrite length_app; simpl; lia).
  rewrite IH. cbn [length Nat.leb drop fmap list_fmap]. destruct (Nat.leb _ _); [|done].
  rewrite <-app_assoc, length_app. simpl. do 3 f_equal. lia.
Qed.

(** *** The copy in sprintk.c is a copy *)

Definition base_ok (base : Z) : Prop := base = 2 \/ base = 10 \/ base = 16.

Lemma i32_bounds x : - 2 ^ 31 <= i32 x < 2 ^ 31.
Proof. unfold i32. pose proof (u32_range x). unfold is_u32 in *. cbv zeta. destruct (Z.ltb_spec (u32 x) (2 ^ 31)); lia. Qed.

Lemma table_digit base u table : base_ok base ->
  table = (if base =? 2 then BIN_DIGITS else if base =? 10 then DEC_DIGITS else HEX_DIGITS) ->
  table !! Z.to_nat (u mod base) = Some (if u mod base <? 10 then 48 + u mod base else 87 + u mod base).
Proof.
  intros Hb ->. assert (0 <= u mod base < base) as Hm by (apply Z.mod_pos_bound; destruct Hb as [->|[->| ->]]; lia).
  revert Hm. generalize (u mod base). intros d Hd.
  assert (T : forall n, (n < Z.to_nat base)%nat ->
    (if base =? 2 then BIN_DIGITS else if base =? 10 then DEC_DIGITS else HEX_DIGITS) !! n =
      Some (if Z.of_nat n <? 10 then 48 + Z.of_nat n else 87 + Z.of_nat n)).
  { destruct Hb as [->|[->| ->]]; intros n Hn; do 16 (destruct n as [|n]; [done || (simpl in Hn; lia)|]); simpl in Hn; lia. }
  rewrite T by lia. by rewrite Z2Nat.id by lia.
Qed.

Lemma num_loop_run fuel table base u s : base_ok base ->
  table = (if base =? 2 then BIN_DIGITS else if base =? 10 then DEC_DIGITS else HEX_DIGITS) ->
  0 <= u < base ^ Z.of_nat fuel ->
  num_loop fuel table base u s = match fuel with O => Undef | _ => Done (emit_digits fuel base u, s) end.
Proof.
  intros Hb Et. revert u s. induction fuel as [|fuel IH]; intros u s Hu; [done|]. cbn [num_loop emit_digits].
  rewrite (opt_run _ _ _ _ (table_digit base u table Hb Et)). cbv zeta.
  destruct (Z.eqb_spec (u / base) 0) as [E|Ne]; [done|].
  assert (B2 : 2 <= base) by (destruct Hb as [->|[->| ->]]; lia).
  rewrite Nat2Z.inj_succ, Z.pow_succ_r in Hu by lia.
  assert (0 <= u / base < base ^ Z.of_nat fuel) by (split; [apply Z.div_pos|apply Z.div_lt_upper_bound]; lia).
  unfold mbind, M_bind. rewrite IH by done. destruct fuel as [|fuel]; [simpl in *; lia|done].
Qed.

Lemma put_backwards_run num s : put_backwards num s = put_all sputchar (reverse num) s.
Proof.
  revert s. induction num as [|c num IH]; intros s; [done|]. cbn [put_backwards]. rewrite reverse_cons.
  pose proof (put_all_app sputchar (reverse num) [c] (mret tt) s) as A.
  transitivity ((put_all sputchar (reverse num ++ [c]);; mret tt) s).
  - rewrite A. unfold mbind, M_bind. rewrite IH. destruct (put_all _ _ s) as [[[] s']| | |]; [|done..].
    cbn [put_all]. unfold mbind, M_bind. by destruct (sputchar c s') as [[[] s'']| | |].
  - unfold mbind, M_bind. by destruct (put_all _ _ s) as [[[] s']| | |].
Qed.

Lemma semit_val_run base u s : base_ok base -> is_u32 u -> semit_val base u s = put_val sputchar base u s.
Proof.
  intros Hb Hu. unfold semit_val, put_val, emit_val.
  assert (base ^ Z.of_nat 33 >= 2 ^ 32) as Hp by (destruct Hb as [->|[->| ->]]; by vm_compute).
  unfold is_u32 in Hu. pose proof (fun t => num_loop_run 33 t base u s Hb) as N.
  destruct Hb as [->|[->| ->]]; cbn [Z.eqb Pos.eqb orb] in *; unfold mbind, M_bind;
    rewrite (N _ eq_refl) by lia; apply put_backwards_run.
Qed.

Lemma sput_string_run l s : sput_string l s = put_all sputchar l s.
Proof.
  revert s. induction l as [|c l IH]; intros s; [done|]. cbn [sput_string put_all]. unfold mbind, M_bind.
  destruct (sputchar c s) as [[[] s']| | |]; [apply IH|done..].
Qed.

Lemma bind_same {S A B} (m m' : M S A) (f f' : A -> M S B) s :
  m s = m' s -> (forall a s', m s = Done (a, s') -> f a s' = f' a s') -> (m ≫= f) s = (m' ≫= f') s.
Proof. intros E F. unfold mbind, M_bind. rewrite <-E. destruct (m s) as [[a s']| | |]; [by apply F|done..]. Qed.

Lemma sputchar_ends c s : (exists s', sputchar c s = Done (tt, s')) \/ sputchar c s = Undef.
Proof. unfold sputchar. destruct s as [dest idx]. rewrite gets_run. destruct (Nat.ltb _ _); [left; by eexists|by right]. Qed.

(** [%d]. *)
Lemma semit_int_run x s : is_u32 x ->
  (if i32 x <? 0 then
     sputchar MINUS;; (if i32 x =? - 2 ^ 31 then m_undef else semit_val 10 (u32 (- i32 x)))
   else semit_val 10 (u32 (i32 x))) s = (cs ← emit_int x; put_all sputchar cs) s.
Proof.
  intros Hx. pose proof (i32_bounds x) as Hr. unfold emit_int. cbv zeta.
  destruct (Z.eqb_spec (i32 x) (- 2 ^ 31)) as [->|Ne].
  { change (- 2 ^ 31 <? 0) with true. cbv iota. destruct (sputchar_ends MINUS s) as [[s' E]|E];
      unfold mbind, M_bind; by rewrite E. }
  destruct (Z.ltb_spec (i32 x) 0) as [Hn|Hp].
  - transitivity ((sputchar MINUS;; put_all sputchar (reverse (emit_digits 33 10 (u32 (- i32 x))))) s); [|done].
    apply bind_same; [done|]. intros [] s' _. rewrite semit_val_run; [done|by right; left|apply u32_range].
  - rewrite u32_small by (unfold is_u32; lia). rewrite semit_val_run; [done|by right; left|unfold is_u32; lia].
Qed.

Lemma vsprintk_run fmt ap s : vsprintk fmt ap s = vprintk sputchar fmt ap s.
Proof.
  remember (length fmt) as n eqn:En. revert fmt En ap s.
  induction n as [n IH] using lt_wf_ind. intros fmt -> ap s.
  assert (R : forall fmt' ap' s', (length fmt' < length fmt)%nat -> vsprintk fmt' ap' s' = vprintk sputchar fmt' ap' s').
  { intros fmt' ap' s' Hl. by apply (IH (length fmt') Hl fmt'). }
  clear IH. destruct fmt as [|c fmt]; [done|]. cbn [vsprintk vprintk]. simpl in R.
  destruct (negb (c =? PERCENT)); [apply bind_same; [done|]; intros [] s' _; apply R; lia|].
  destruct fmt as [|d fmt]; [done|]. simpl in R.
  destruct (Z.eqb_spec d CH_l) as [->|Nl].
  { change (CH_l =? CH_b) with false. change (CH_l =? CH_u) with false. change (CH_l =? CH_c) with false. cbv iota.
    destruct fmt as [|l fmt]; [done|]. destruct fmt as [|x fmt]; [by destruct (negb (l =? CH_l))|]. simpl in R.
    destruct (negb (l =? CH_l)); [done|]. destruct (negb (x =? CH_x)); [done|].
    unfold convert_llx. rewrite !bind_assoc. apply bind_same; [done|]. intros [] s1 _.
    rewrite !bind_assoc. apply bind_same; [done|]. intros [] s2 _.
    destruct ap as [|[w|w|w] ap]; [done..| |done]. cbn [va_long]. rewrite !bind_assoc, !ret_run. cbv zeta.
    rewrite !bind_assoc. pose proof (Z.mod_pos_bound w (2 ^ 64) ltac:(lia)) as Hw. apply bind_same.
    - destruct (negb _); [|done]. apply semit_val_run; [by right; right|]. unfold is_u32.
      rewrite Z.shiftr_div_pow2 by lia. split; [apply Z.div_pos; lia|apply Z.div_lt_upper_bound; lia].
    - intros [] s3 _. rewrite !bind_assoc. apply bind_same; [apply semit_val_run; [by right; right|apply u32_range]|].
      intros [] s4 _. rewrite ret_run. apply R. lia. }
  assert (Wd : forall (f g : Z -> M sbuf unit), (forall x s', is_u32 x -> f x s' = g x s') -> forall s',
    ('(x, ap) ← va_word ap; f x;; vsprintk fmt ap) s' =
    (ap ← ('(x, ap) ← va_word ap; g x;; mret ap); vprintk sputchar fmt ap) s').
  { intros f g E s'. destruct ap as [|[w|w|w] ap]; try done. cbn [va_word]. rewrite !bind_assoc, !ret_run, bind_assoc.
    apply bind_same; [apply E, u32_range|]. intros [] s1 _. rewrite ret_run. apply R. lia. }
  unfold convert. destruct (d =? CH_b); [apply Wd; intros; apply semit_val_run; [by left|done]|].
  destruct (d =? CH_u); [apply Wd; intros; apply semit_val_run; [by right; left|done]|].
  destruct (d =? CH_c); [by apply (Wd sputchar sputchar)|].
  destruct (_ || _).
  { rewrite bind_assoc. apply bind_same; [done|]. intros [] s1 _. rewrite bind_assoc. apply bind_same; [done|].
    intros [] s2 _. apply Wd. intros. apply semit_val_run; [by right; right|done]. }
  destruct (d =? CH_d).
  { rewrite (Wd _ (fun x => cs ← emit_int x; put_all sputchar cs)) by (intros; by apply semit_int_run).
    apply bind_same; [|done]. destruct ap as [|[w|w|w] ap]; try done. cbn [va_word]. rewrite !ret_run.
    by rewrite bind_assoc. }
  destruct (d =? CH_s); [|done]. destruct ap as [|[w|w|w] ap]; try done. cbn [va_str].
  rewrite !bind_assoc, !ret_run, bind_assoc. apply bind_same; [apply sput_string_run|].
  intros [] s1 _. rewrite ret_run. apply R. lia.
Qed.

(** C36: the two formatters, printk.c's and the copy of it in sprintk.c, agree.  For every
    format, arguments and string: if [printk] prints a text, [sprintk] leaves exactly that text,
    ended by a NUL, at the start of the string and the rest of the string as it was, provided
    the string is longer than the text; otherwise it writes past the end of the string.  Where
    [printk] panics, [sprintk] panics or has run past the end of the string before; where
    [printk] is undefined, so is [sprintk].  Neither ever fails to end. *)
Theorem sprintk_matches_printk fmt ap str :
  match printk fmt ap [] with
  | Done (ret, t) => sprintk fmt ap str =
      if Nat.ltb (length t) (length str) then Done (ret, t ++ 0 :: drop (S (length t)) str) else Undef
  | Panic => sprintk fmt ap str = Panic \/ sprintk fmt ap str = Undef
  | Undef => sprintk fmt ap str = Undef
  | NoFuel => False
  end.
Proof.
  destruct (formats_vprintk fmt ap) as (l & f & Ht). unfold printk, sprintk. rewrite Ht.
  mrun (con_put_all l []). cbn [app]. rewrite gets_run.
  pose proof (sput_all l [] str) as Es. cbn [app length] in Es.
  assert (Ei : (ret ← vsprintk fmt ap; sputchar 0;; mret ret) (str, 0%nat) =
    if Nat.leb (length l) (length str)
    then match f with
         | Ret r => (sputchar 0;; mret r) ((u8 <$> l) ++ drop (length l) str, length l)
         | Stop => Panic
         | Bad => Undef
         end
    else Undef).
  { unfold mbind, M_bind. rewrite vsprintk_run, Ht. unfold mbind, M_bind. rewrite Es.
    destruct (Nat.leb _ _); [|done]. by destruct f. }
  rewrite Ei. destruct f as [r| |]; cbn [ends]; unfold m_panic, m_undef, mret, M_ret.
  2: destruct (Nat.leb _ _); [by left|by right].
  2: by destruct (Nat.leb _ _).
  rewrite length_fmap. destruct (Nat.leb_spec (length l) (length str)) as [Hle|Hgt];
    [|by rewrite (proj2 (Nat.ltb_ge _ _)) by lia].
  unfold sputchar. rewrite bind_assoc, gets_run. cbv beta iota.
  rewrite length_app, length_fmap, length_drop.
  destruct (Nat.ltb_spec (length l) (length str)) as [Hlt|Hge].
  - rewrite (proj2 (Nat.ltb_lt _ _)) by lia. rewrite modify_run. unfold mbind, M_bind, m_modify.
    rewrite insert_app_r_alt by (rewrite length_fmap; lia). rewrite length_fmap, Nat.sub_diag.
    destruct (drop (length l) str) as [|x rest] eqn:Ed.
    { apply (f_equal length) in Ed. rewrite length_drop in Ed. simpl in Ed. lia. }
    assert (drop (S (length l)) str = rest) as ->; [|done].
    replace (S (length l)) with (length l + 1)%nat by lia. by rewrite <-drop_drop, Ed.
  - by rewrite (proj2 (Nat.ltb_ge _ _)) by lia.
Qed.

(** ** Digits *)

Definition dchar (d : Z) : Z := if d <? 10 then 48 + d else 87 + d.

(** The digits of [u], most significant first. *)
Fixpoint digits (fuel : nat) (base u : Z) : list Z :=
  match fuel with
  | O => []
  | S fuel => (if u / base =? 0 then [] else digits fuel base (u / base)) ++ [u mod base]
  end.
Definition numeral (base u : Z) : list Z := dchar <$> digits 33 base u.

Lemma emit_digits_numeral fuel base u : reverse (emit_digits fuel base u) = dchar <$> digits fuel base u.
Proof.
  revert u. induction fuel as [|fuel IH]; intros u; [done|]. cbn [emit_digits digits].
  rewrite reverse_cons, fmap_app. destruct (_ =? 0); [done|]. by rewrite IH.
Qed.

Lemma digits_ok fuel base u : 2 <= base -> Forall (fun d => 0 <= d < base) (digits fuel base u).
Proof.
  intros Hb. revert u. induction fuel as [|fuel IH]; intros u; cbn [digits]; [constructor|].
  apply Forall_app. split; [destruct (_ =? 0); auto|]. repeat constructor; apply Z.mod_pos_bound; lia.
Qed.

(** The value of the digits, taken up one by one. *)
Definition horner (base acc : Z) (ds : list Z) : Z := foldl (fun a d => a * base + d) acc ds.

Lemma horner_digits fuel base u : 2 <= base -> 0 <= u < base ^ Z.of_nat fuel ->
  horner base 0 (digits fuel base u) = u.
Proof.
  intros Hb. revert u. induction fuel as [|fuel IH]; intros u Hu; [simpl in *; lia|].
  rewrite Nat2Z.inj_succ, Z.pow_succ_r in Hu by lia. cbn [digits]. unfold horner. rewrite foldl_app.
  fold (horner base 0 (if u / base =? 0 then [] else digits fuel base (u / base))). cbn [foldl].
  pose proof (Z.div_mod u base). destruct (Z.eqb_spec (u / base) 0) as [E|E].
  - simpl. lia.
  - rewrite IH; [lia|]. split; [apply Z.div_pos; lia|]. apply Z.div_lt_upper_bound; lia.
Qed.

Lemma numeral_fits base u : base_ok base -> is_u32 u -> horner base 0 (digits 33 base u) = u.
Proof.
  intros Hb Hu. assert (2 <= base <= 16) as Hr by (destruct Hb as [->|[->| ->]]; lia).
  apply horner_digits; [lia|]. unfold is_u32 in Hu. split; [lia|].
  eapply Z.lt_le_trans; [apply Hu|]. transitivity (2 ^ Z.of_nat 33); [apply Z.pow_le_mono_r; lia|].
  apply Z.pow_le_mono_l. lia.
Qed.

Lemma digits_length fuel base u : (length (digits fuel base u) <= fuel)%nat.
Proof.
  revert u. induction fuel as [|fuel IH]; intros u; cbn [digits]; [done|]. rewrite length_app. simpl.
  destruct (_ =? 0); [simpl; lia|]. specialize (IH (u / base)). lia.
Qed.

Lemma digits_cons fuel base u : exists d ds, digits (S fuel) base u = d :: ds.
Proof.
  cbn [digits]. destruct (if u / base =? 0 then [] else digits fuel base (u / base)) as [|d ds].
  - exists (u mod base), []. done.
  - exists d, (ds ++ [u mod base]). done.
Qed.

(** The characters that end a number here. *)
Definition delim (t : Z) : Prop := t = 32 \/ t = NL.

Lemma is_digit_dchar {St} base d (s : St) : base_ok base -> 0 <= d < base ->
  is_digit (dchar d) base s = Done (d, s).
Proof.
  intros Hb Hd. unfold is_digit, dchar, between.
  destruct Hb as [->|[->| ->]]; simpl; destruct (Z.ltb_spec d 10); try lia.
  - rewrite (proj2 (Z.leb_le 48 _)), (proj2 (Z.leb_le _ 49)) by lia. simpl. unfold mret, M_ret. do 2 f_equal. lia.
  - rewrite (proj2 (Z.leb_le 48 _)), (proj2 (Z.leb_le _ 57)) by lia. simpl. unfold mret, M_ret. do 2 f_equal. lia.
  - rewrite (proj2 (Z.leb_le 48 _)), (proj2 (Z.leb_le _ 57)) by lia. simpl. unfold mret, M_ret. do 2 f_equal. lia.
  - rewrite (proj2 (Z.leb_le 48 _)) by lia. rewrite (proj2 (Z.leb_gt (87 + d) 57)) by lia.
    rewrite (proj2 (Z.leb_le 97 _)), (proj2 (Z.leb_le _ 102)) by lia. simpl. unfold mret, M_ret. do 2 f_equal. lia.
Qed.

Lemma is_digit_delim {St} base t (s : St) : base_ok base -> delim t -> is_digit t base s = Done (-1, s).
Proof. by intros [->|[->| ->]] [->| ->]. Qed.

Lemma u32_add_l a b : u32 (u32 a + b) = u32 (a + b).
Proof. unfold u32. by rewrite Zplus_mod_idemp_l. Qed.

Lemma u32_mul_add_l a b c : u32 (u32 a * b + c) = u32 (a * b + c).
Proof. unfold u32. by rewrite (Zplus_mod (a mod _ * b)), Zmult_mod_idemp_l, <-Zplus_mod. Qed.

Lemma add_digit_run {St} base acc d (s : St) : base_ok base -> add_digit base acc d s = Done (u32 (acc * base + d), s).
Proof.
  intros [->|[->| ->]]; unfold add_digit; simpl; unfold mret, M_ret; rewrite u32_add_l; try done;
    by rewrite Z.shiftl_mul_pow2 by lia.
Qed.

Lemma horner_u32 base acc ds : foldl (fun a d => u32 (a * base + d)) (u32 acc) ds = u32 (horner base acc ds).
Proof.
  revert acc. induction ds as [|d ds IH]; intros acc; [done|]. cbn [foldl].
  etransitivity; [|apply (IH (acc * base + d))]. f_equal. by rewrite u32_mul_add_l.
Qed.

Lemma dchar_range d : 0 <= d < 16 -> 48 <= dchar d < 103.
Proof. unfold dchar. destruct (Z.ltb_spec d 10); lia. Qed.

(** The number at hand, up to the character that ends it. *)
Lemma absorb_run base ds t rest w b d0 acc fuel : base_ok base -> Forall (fun d => 0 <= d < base) (d0 :: ds) ->
  delim t -> (length ds + 1 < fuel)%nat ->
  absorb_loop fuel base (dchar d0) (u32 acc) (mk_scan ((dchar <$> ds) ++ t :: rest) w b) =
    Done ((u32 (horner base acc (d0 :: ds)), t), mk_scan rest w b).
Proof.
  intros Hb. revert d0 acc fuel. induction ds as [|d ds IH]; intros d0 acc fuel Hds Ht Hf;
    inversion_clear Hds as [|? ? Hd0 Hds']; (destruct fuel as [|fuel]; [lia|]); cbn [absorb_loop];
    (erewrite bind_done by (by apply is_digit_dchar)); rewrite (proj2 (Z.eqb_neq _ _)) by lia.
  - mrun (add_digit_run base (u32 acc) d0 (mk_scan ((dchar <$> []) ++ t :: rest) w b) Hb).
    unfold getchar. rewrite bind_assoc, gets_run. cbn [sc_in fmap list_fmap app]. rewrite bind_assoc, modify_run, ret_run.
    destruct fuel as [|fuel]; [simpl in Hf; lia|]. cbn [absorb_loop].
    mrun (is_digit_delim base t (mk_scan rest w b) Hb Ht). change (-1 =? -1) with true. cbv iota.
    unfold mret, M_ret. cbn [sc_words sc_bufs]. rewrite <-horner_u32. done.
  - mrun (add_digit_run base (u32 acc) d0 (mk_scan ((dchar <$> (d :: ds)) ++ t :: rest) w b) Hb).
    unfold getchar. rewrite bind_assoc, gets_run. cbn [sc_in fmap list_fmap app]. rewrite bind_assoc, modify_run, ret_run.
    cbn [sc_words sc_bufs].
    rewrite u32_mul_add_l, IH; [done|done|done|simpl in Hf; lia].
Qed.

(** The number is at hand with its first character, or all of it is still to come. *)
Definition at_hand (text : list Z) (c : Z) (inp : list Z) : Prop :=
  c = -1 /\ inp = text \/ c <> -1 /\ c :: inp = text.

Lemma store_word_run p x v inp w b : w !! p = Some x ->
  store_word_at p v (mk_scan inp w b) = Done (tt, mk_scan inp (<[p := u32 v]> w) b).
Proof. intros Hp. unfold store_word_at, load_word, mbind, M_bind, m_gets, m_opt. simpl. by rewrite Hp. Qed.

Lemma absorb_val_run base u t rest p c inp w b : base_ok base -> is_u32 u -> delim t -> p ∈ dom w ->
  at_hand (numeral base u ++ t :: rest) c inp ->
  absorb_val base p c (mk_scan inp w b) = Done (t, mk_scan rest (<[p := u]> w) b).
Proof.
  intros Hb Hu Ht [x Hp]%elem_of_dom Hh. destruct (digits_cons 32 base u) as (d0 & ds & E).
  assert (Hd : Forall (fun d => 0 <= d < base) (d0 :: ds)).
  { rewrite <-E. apply digits_ok. destruct Hb as [->|[->| ->]]; lia. }
  unfold absorb_val.
  assert (Ec : (if c =? -1 then getchar else mret c) (mk_scan inp w b) =
    Done (dchar d0, mk_scan ((dchar <$> ds) ++ t :: rest) w b)).
  { unfold numeral in Hh. rewrite E in Hh. destruct Hh as [[-> ->]|[Hc Ei]]; [done|].
    rewrite (proj2 (Z.eqb_neq _ _) Hc). by injection Ei as -> ->. }
  mrun Ec. pose proof (dchar_range d0). rewrite (proj2 (Z.eqb_neq (dchar d0) NL)).
  2: { inversion_clear Hd. unfold NL. destruct Hb as [->|[->| ->]]; lia. }
  cbn [negb]. unfold scan_fuel. rewrite bind_assoc, gets_run.
  erewrite bind_done by (apply (absorb_run base ds t rest w b d0 0); [done|done|done|]; cbn [sc_in];
    rewrite length_app, length_fmap; simpl; lia).
  rewrite <-E, numeral_fits by done. cbv beta iota.
  mrun (store_word_run p x (u32 u) rest w b Hp). unfold mret, M_ret.
  rewrite !u32_small by (done || apply u32_range). by destruct Ht as [->| ->].
Qed.

(** ** Reading back what was printed *)

(** A value and the letter it is printed with. *)
Inductive item : Type := INum (k v : Z) | IChr (v : Z).

Definition item_ok (i : item) : Prop :=
  match i with
  | INum k v => k ∈ [CH_b; CH_u; CH_x; CH_p; CH_d] /\ is_u32 v /\ (k = CH_d -> v <> 2 ^ 31)
  | IChr v => is_u8 v
  end.

Definition item_letter (i : item) : Z := match i with INum k _ => k | IChr _ => CH_c end.
Definition item_val (i : item) : Z := match i with INum _ v | IChr v => v end.

Definition num_text (k v : Z) : list Z :=
  if k =? CH_b then numeral 2 v
  else if k =? CH_d then (if i32 v <? 0 then MINUS :: numeral 10 (- i32 v) else numeral 10 v)
  else if k =? CH_u then numeral 10 v
  else CH_0 :: CH_x :: numeral 16 v.

Definition item_text (i : item) : list Z := match i with INum k v => num_text k v | IChr v => [v] end.

(** The format that separates the items by blanks, and the text. *)
Fixpoint items_fmt (is_ : list item) : list Z :=
  match is_ with
  | [] => []
  | [i] => [PERCENT; item_letter i]
  | i :: is_ => PERCENT :: item_letter i :: 32 :: items_fmt is_
  end.
Fixpoint items_text (is_ : list item) : list Z :=
  match is_ with
  | [] => []
  | [i] => item_text i
  | i :: is_ => item_text i ++ 32 :: items_text is_
  end.

Lemma emit_val_numeral {St} base u (s : St) : base_ok base -> emit_val base u s = Done (numeral base u, s).
Proof.
  intros Hb. unfold emit_val, numeral. rewrite <-emit_digits_numeral. by destruct Hb as [->|[->| ->]].
Qed.

Lemma u8_bytes l : bytes l -> u8 <$> l = l.
Proof. induction 1 as [|c l Hc _ IH]; [done|]. by rewrite fmap_cons, IH, u8_small. Qed.

Lemma numeral_bytes base u : base_ok base -> bytes (numeral base u).
Proof.
  intros Hb. assert (2 <= base <= 16) as Hr by (destruct Hb as [->|[->| ->]]; lia).
  unfold numeral. apply Forall_fmap. eapply Forall_impl; [apply digits_ok; lia|]. intros d Hd. simpl in Hd.
  pose proof (dchar_range d ltac:(lia)). unfold compose, is_u8. lia.
Qed.

Lemma base2 : base_ok 2. Proof. by left. Qed.
Lemma base10 : base_ok 10. Proof. by right; left. Qed.
Lemma base16 : base_ok 16. Proof. by right; right. Qed.
#[local] Hint Resolve base2 base10 base16 : core.

Lemma item_bytes i : item_ok i -> bytes (item_text i).
Proof.
  destruct i as [k v|v]; simpl; [|intros Hv; by apply Forall_singleton]. intros _. unfold num_text.
  destruct (_ =? _); [by apply numeral_bytes|]. destruct (_ =? _).
  { destruct (_ <? _); [|by apply numeral_bytes]. apply Forall_cons. split; [by vm_compute|by apply numeral_bytes]. }
  destruct (_ =? _); [by apply numeral_bytes|].
  apply Forall_cons. split; [by vm_compute|]. apply Forall_cons. split; [by vm_compute|by apply numeral_bytes].
Qed.

Lemma i32_neg v : is_u32 v -> v <> 2 ^ 31 -> i32 v < 0 ->
  is_u32 (- i32 v) /\ - i32 v < 2 ^ 31 /\ u32 (- - i32 v) = v.
Proof.
  unfold i32, is_u32. cbv zeta. intros Hv Hn. rewrite u32_small by done.
  destruct (Z.ltb_spec v (2 ^ 31)); intros Hi; [lia|]. split; [lia|]. split; [lia|].
  replace (- - (v - 2 ^ 32)) with (v + (-1) * 2 ^ 32) by lia. unfold u32. rewrite Z.mod_add by lia.
  by apply Z.mod_small.
Qed.

Lemma i32_nonneg v : is_u32 v -> 0 <= i32 v -> i32 v = v.
Proof.
  unfold i32. cbv zeta. intros Hv. rewrite u32_small by done.
  destruct (Z.ltb_spec v (2 ^ 31)); unfold is_u32 in *; lia.
Qed.

Lemma item_print i ap out : item_ok i ->
  convert con_putchar (item_letter i) (VWord (item_val i) :: ap) out = Done (ap, out ++ item_text i).
Proof.
  intros Hok. pose proof (item_bytes i Hok) as Hb. destruct i as [k v|v]; cbn [item_letter item_val item_text] in *.
  2: { simpl in Hok. unfold convert. simpl. unfold mbind, M_bind, mret, M_ret, con_putchar, m_modify. simpl.
       unfold u32. rewrite (Z.mod_small v), u8_small by (unfold is_u8 in *; lia || done). done. }
  destruct Hok as (Hk & Hv & Hd).
  assert (Epv : forall base out, base_ok base -> put_val con_putchar base v out = Done (tt, out ++ numeral base v)).
  { intros base out' Hba. unfold put_val. mrun (emit_val_numeral base v out' Hba).
    by rewrite con_put_all, u8_bytes by by apply numeral_bytes. }
  rewrite !elem_of_cons, elem_of_nil in Hk.
  assert (Ew : va_word (S := list Z) (VWord v :: ap) = mret (v, ap)) by (simpl; by rewrite u32_small).
  unfold convert. rewrite Ew. destruct Hk as [->|[->|[->|[->|[->|[]]]]]]; simpl; rewrite ?ret_run.
  - by mrun (Epv 2 out base2).
  - by mrun (Epv 10 out base10).
  - rewrite !con_put_run, ret_run. mrun (Epv 16 ((out ++ [u8 CH_0]) ++ [u8 CH_x]) base16).
    by rewrite <-!app_assoc.
  - rewrite !con_put_run, ret_run. mrun (Epv 16 ((out ++ [u8 CH_0]) ++ [u8 CH_x]) base16).
    by rewrite <-!app_assoc.
  - assert (Ei : emit_int (S := list Z) v out = Done (num_text CH_d v, out)).
    { unfold emit_int, num_text. cbv zeta. simpl. rewrite (proj2 (Z.eqb_neq _ _)).
      2: { intros E. destruct (i32_neg v Hv (Hd eq_refl)) as (_ & ? & _); lia. }
      destruct (Z.ltb_spec (i32 v) 0) as [Hi|Hi].
      - destruct (i32_neg v Hv (Hd eq_refl) Hi) as (Hu & _ & _). rewrite u32_small by done.
        by mrun (emit_val_numeral 10 (- i32 v) out base10).
      - rewrite i32_nonneg by done. by apply emit_val_numeral. }
    mrun Ei. mrun (con_put_all (num_text CH_d v) out). by rewrite u8_bytes.
Qed.

Lemma vprintk_item i fmt ap out : item_ok i ->
  vprintk con_putchar (PERCENT :: item_letter i :: fmt) (VWord (item_val i) :: ap) out =
    vprintk con_putchar fmt ap (out ++ item_text i).
Proof.
  intros Hok. cbn [vprintk]. change (negb (PERCENT =? PERCENT)) with false. cbv iota.
  assert ((item_letter i =? CH_l) = false) as ->.
  { destruct i as [k v|v]; [|done]. destruct Hok as [Hk _]. simpl.
    rewrite !elem_of_cons, elem_of_nil in Hk. by destruct Hk as [->|[->|[->|[->|[->|[]]]]]]. }
  by mrun (item_print i ap out Hok).
Qed.

Lemma items_fmt_cons i j is_ : items_fmt (i :: j :: is_) = PERCENT :: item_letter i :: 32 :: items_fmt (j :: is_).
Proof. done. Qed.
Lemma items_text_cons i j is_ : items_text (i :: j :: is_) = item_text i ++ 32 :: items_text (j :: is_).
Proof. done. Qed.

Lemma items_print is_ out : Forall item_ok is_ ->
  vprintk con_putchar (items_fmt is_ ++ [NL]) ((fun i => VWord (item_val i)) <$> is_) out =
    Done (0, out ++ items_text is_ ++ [NL]).
Proof.
  intros Hok. revert out. induction Hok as [|i is_ Hi Hok IH]; intros out; [done|].
  destruct is_ as [|j is_]; rewrite ?items_fmt_cons, ?items_text_cons, fmap_cons; cbn [app].
  - change (items_fmt [i] ++ [NL]) with (PERCENT :: item_letter i :: [NL]). rewrite vprintk_item by done.
    cbn [vprintk]. change (negb (NL =? PERCENT)) with true. cbv iota. rewrite con_put_run. cbn [vprintk].
    unfold mret, M_ret. by rewrite <-app_assoc.
  - rewrite vprintk_item by done. cbn [vprintk]. change (negb (32 =? PERCENT)) with true. cbv iota.
    rewrite con_put_run, IH. by rewrite <-!app_assoc.
Qed.

(** ** Scanning one item *)

Lemma match_char_get target c l w b : match_char target (-1) (mk_scan (c :: l) w b) =
  Done (if target =? c then (true, -1) else (false, c), mk_scan l w b).
Proof.
  unfold match_char, getchar, mbind, M_bind, m_gets, m_modify, mret, M_ret. simpl.
  by destruct (target =? c).
Qed.

Lemma skip_hit target text rest w b : skip_loop 2 target (-1) (mk_scan (target :: text ++ rest) w b) =
  Done (-1, mk_scan (text ++ rest) w b).
Proof.
  cbn [skip_loop]. mrun (match_char_get target target (text ++ rest) w b). by rewrite Z.eqb_refl.
Qed.

Lemma scan_num_d v p ap t rest w b : is_u32 v -> v <> 2 ^ 31 -> delim t -> p ∈ dom w ->
  scan_convert CH_d (-1) (p :: ap) (mk_scan (num_text CH_d v ++ t :: rest) w b) =
    Done (Some (t, ap), mk_scan rest (<[p := v]> w) b).
Proof.
  intros Hv Hn Ht Hp. unfold scan_convert, num_text. simpl. rewrite ret_run.
  destruct (Z.ltb_spec (i32 v) 0) as [Hi|Hi].
  - destruct (i32_neg v Hv Hn Hi) as (Hu & Hlt & Ev).
    assert (Em : match_char MINUS (-1) (mk_scan ((MINUS :: numeral 10 (- i32 v)) ++ t :: rest) w b) =
      Done ((true, -1), mk_scan (numeral 10 (- i32 v) ++ t :: rest) w b)) by done.
    mrun Em. simpl. mrun (absorb_val_run 10 (- i32 v) t rest p (-1) (numeral 10 (- i32 v) ++ t :: rest) w b
      base10 Hu Ht Hp ltac:(by left)).
    assert (El : load_word p (mk_scan rest (<[p := - i32 v]> w) b) = Done (- i32 v, mk_scan rest (<[p := - i32 v]> w) b)).
    { unfold load_word, mbind, M_bind, m_gets, m_opt. simpl. by rewrite lookup_insert_eq. }
    rewrite bind_assoc. mrun El.
    assert (Ei : i32 (- i32 v) = - i32 v).
    { apply i32_nonneg; [done|]. unfold i32 at 1. cbv zeta. rewrite u32_small by done.
      rewrite (proj2 (Z.ltb_lt _ _)) by done. lia. }
    rewrite Ei, (proj2 (Z.eqb_neq _ _)) by lia.
    mrun (store_word_run p _ (- - i32 v) rest (<[p := - i32 v]> w) b (lookup_insert_eq _ _ _)).
    by rewrite insert_insert_eq, Ev.
  - destruct (digits_cons 32 10 v) as (d0 & ds & E).
    assert (Hd0 : 0 <= d0 < 10).
    { pose proof (digits_ok 33 10 v ltac:(lia)) as Hd. rewrite E in Hd. by inversion_clear Hd. }
    assert (Hc : dchar d0 = 48 + d0) by (unfold dchar; by rewrite (proj2 (Z.ltb_lt _ _)) by lia).
    assert (En : numeral 10 v = (48 + d0) :: (dchar <$> ds)) by (unfold numeral; by rewrite E, fmap_cons, Hc).
    assert (Em : match_char MINUS (-1) (mk_scan (numeral 10 v ++ t :: rest) w b) =
      Done ((false, 48 + d0), mk_scan ((dchar <$> ds) ++ t :: rest) w b)).
    { rewrite En. cbn [app]. rewrite match_char_get. by rewrite (proj2 (Z.eqb_neq MINUS _)) by (unfold MINUS; lia). }
    mrun Em. rewrite (proj2 (Z.eqb_neq _ NL)) by (unfold NL; lia).
    rewrite (proj2 (Z.eqb_neq _ PLUS)), (proj2 (Z.eqb_neq _ MINUS)) by (unfold PLUS, MINUS; lia). cbv zeta. simpl.
    mrun (absorb_val_run 10 v t rest p (48 + d0) ((dchar <$> ds) ++ t :: rest) w b base10 Hv Ht Hp
      ltac:(right; rewrite En; split; [lia|done])). done.
Qed.

(** After an item the character that ends it is at hand or still to come. *)
Lemma item_scan i p ap t rest w b : item_ok i -> delim t -> p ∈ dom w ->
  exists c inp, scan_convert (item_letter i) (-1) (p :: ap) (mk_scan (item_text i ++ t :: rest) w b) =
    Done (Some (c, ap), mk_scan inp (<[p := item_val i]> w) b) /\ at_hand (t :: rest) c inp.
Proof.
  intros Hok Ht Hp. destruct i as [k v|v]; cbn [item_letter item_val item_text].
  2: { simpl in Hok. exists (-1), (t :: rest). split; [|by left]. apply elem_of_dom in Hp as [x Hx].
       change (scan_convert CH_c (-1) (p :: ap) (mk_scan ([v] ++ t :: rest) w b))
         with ((store_word_at p v;; mret (Some (-1, ap))) (mk_scan (t :: rest) w b)).
       mrun (store_word_run p x v (t :: rest) w b Hx).
       by rewrite u32_small by (unfold is_u8, is_u32 in *; lia). }
  destruct Hok as (Hk & Hv & Hd). exists t, rest. split.
  2: { right. split; [|done]. by destruct Ht as [->| ->]. }
  rewrite !elem_of_cons, elem_of_nil in Hk.
  assert (Hh : forall base, at_hand (numeral base v ++ t :: rest) (-1) (numeral base v ++ t :: rest)) by by left.
  destruct Hk as [->|[->|[->|[->|[->|[]]]]]]; [..|by apply scan_num_d; auto];
    unfold scan_convert, num_text; simpl; rewrite ret_run.
  - by mrun (absorb_val_run 2 v t rest p (-1) _ w b base2 Hv Ht Hp (Hh 2)).
  - by mrun (absorb_val_run 10 v t rest p (-1) _ w b base10 Hv Ht Hp (Hh 10)).
  - mrun (skip_hit CH_0 (CH_x :: numeral 16 v) (t :: rest) w b).
    mrun (skip_hit CH_x (numeral 16 v) (t :: rest) w b).
    by mrun (absorb_val_run 16 v t rest p (-1) _ w b base16 Hv Ht Hp (Hh 16)).
  - mrun (skip_hit CH_0 (CH_x :: numeral 16 v) (t :: rest) w b).
    mrun (skip_hit CH_x (numeral 16 v) (t :: rest) w b).
    by mrun (absorb_val_run 16 v t rest p (-1) _ w b base16 Hv Ht Hp (Hh 16)).
Qed.

Lemma vscank_item i fmt p ap t rest w b : item_ok i -> delim t -> p ∈ dom w ->
  exists c inp, at_hand (t :: rest) c inp /\
    vscank (PERCENT :: item_letter i :: fmt) (-1) (p :: ap) (mk_scan (item_text i ++ t :: rest) w b) =
      vscank fmt c ap (mk_scan inp (<[p := item_val i]> w) b).
Proof.
  intros Hok Ht Hp. destruct (item_scan i p ap t rest w b Hok Ht Hp) as (c & inp & R & Hh).
  exists c, inp. split; [done|]. cbn [vscank]. change (negb (PERCENT =? PERCENT)) with false. cbv iota.
  by mrun R.
Qed.

(** A blank of the format takes the blank that ended the item. *)
Lemma vscank_blank fmt c ap inp rest w b : at_hand (32 :: rest) c inp ->
  vscank (32 :: fmt) c ap (mk_scan inp w b) = vscank fmt (-1) ap (mk_scan rest w b).
Proof. intros [[-> ->]|[Hc [= -> ->]]]; done. Qed.

Lemma items_scan is_ ps w b rest : Forall item_ok is_ -> length ps = length is_ -> NoDup ps ->
  (forall p, p ∈ ps -> p ∈ dom w) ->
  exists c inp w', vscank (items_fmt is_) (-1) ps (mk_scan (items_text is_ ++ NL :: rest) w b) =
      Done (tt, mk_scan inp w' b) /\ at_hand (NL :: rest) c inp /\
    (forall j p i, ps !! j = Some p -> is_ !! j = Some i -> w' !! p = Some (item_val i)) /\
    (forall p, p ∉ ps -> w' !! p = w !! p).
Proof.
  intros Hok. revert ps w. induction Hok as [|i is_ Hi Hok IH]; intros ps w Hl Hnd Hdom.
  { exists (-1), (NL :: rest), w. split_and!; [done|by left|done|done]. }
  destruct ps as [|p ps]; [done|]. apply NoDup_cons in Hnd as [Hp Hnd]. injection Hl as Hl.
  assert (Hpw : p ∈ dom w) by (apply Hdom; left).
  destruct is_ as [|i' is_].
  - destruct ps; [|done]. destruct (vscank_item i [] p [] NL rest w b Hi (or_intror eq_refl) Hpw) as (c & inp & Hh & R).
    exists c, inp, (<[p := item_val i]> w). split_and!; [exact R|done| |].
    + intros [|j] q x; simpl; [|done]. intros [= <-] [= <-]. apply lookup_insert_eq.
    + intros q Hq. apply lookup_insert_ne. set_solver.
  - destruct (vscank_item i (32 :: items_fmt (i' :: is_)) p ps 32 (items_text (i' :: is_) ++ NL :: rest) w b Hi
      (or_introl eq_refl) Hpw) as (c & inp & Hh & R).
    destruct (IH ps (<[p := item_val i]> w) Hl Hnd) as (c' & inp' & w' & R' & Hh' & Hin & Hout).
    { intros q Hq. rewrite dom_insert_L. apply elem_of_union_r, Hdom. by right. }
    exists c', inp', w'. rewrite items_fmt_cons, items_text_cons, <-app_assoc. split_and!; [|done| |].
    + etransitivity; [exact R|]. by rewrite (vscank_blank _ _ _ _ _ _ _ Hh).
    + intros [|j] q x; simpl; [|apply Hin]. intros [= <-] [= <-]. rewrite Hout by done. apply lookup_insert_eq.
    + intros q Hq. rewrite Hout by set_solver. apply lookup_insert_ne. set_solver.
Qed.

(** C16: what [printk] prints, [scank] reads.  For any values printed in binary, decimal (signed
    or not), hexadecimal or as characters, separated by blanks on one line: [printk] prints
    them, and [scank] with the same format, given what was printed, stores every value at the
    address given for it, leaves all other words alone and stops at the end of the line,
    whatever follows.  (The least [int] has no negation and is excluded for [%d].) *)
Theorem scank_reads_printk is_ ps w b rest : Forall item_ok is_ -> length ps = length is_ -> NoDup ps ->
  (forall p, p ∈ ps -> p ∈ dom w) ->
  exists t inp w', printk (items_fmt is_ ++ [NL]) ((fun i => VWord (item_val i)) <$> is_) [] = Done (0, t) /\
    scank (items_fmt is_) ps (mk_scan (t ++ rest) w b) = Done (0, mk_scan inp w' b) /\
    (inp = rest \/ inp = NL :: rest) /\
    (forall j p i, ps !! j = Some p -> is_ !! j = Some i -> w' !! p = Some (item_val i)) /\
    (forall p, p ∉ ps -> w' !! p = w !! p).
Proof.
  intros Hok Hl Hnd Hdom. destruct (items_scan is_ ps w b rest Hok Hl Hnd Hdom) as (c & inp & w' & R & Hh & Hin & Hout).
  exists (items_text is_ ++ [NL]), inp, w'. split_and!.
  - unfold printk. by rewrite items_print by done.
  - unfold scank. rewrite <-app_assoc. by mrun R.
  - destruct Hh as [[_ ->]|[_ [= _ ->]]]; auto.
  - exact Hin.
  - exact Hout.
Qed.

(** ** Lines *)

Lemma store_char_run p i c l inp w b : b !! p = Some l ->
  store_char p i c (mk_scan inp w b) =
    if Nat.ltb i (length l) then Done (tt, mk_scan inp w (<[p := <[i := u8 c]> l]> b)) else Undef.
Proof.
  intros Hp. unfold store_char, mbind, M_bind, m_gets, m_opt. cbn [sc_bufs]. rewrite Hp.
  unfold mret, M_ret. by destruct (Nat.ltb i (length l)).
Qed.

Lemma string_run p line rest w b : NL ∉ line -> bytes line ->
  forall pre room c inp fuel, c :: inp = line ++ NL :: rest -> (length line < fuel)%nat ->
  string_loop fuel p (length pre) c (mk_scan inp w (<[p := pre ++ room]> b)) =
    if Nat.ltb (length line) (length room)
    then Done (NL, mk_scan rest w (<[p := pre ++ line ++ 0 :: drop (S (length line)) room]> b)) else Undef.
Proof.
  intros Hn Hb. induction Hb as [|x line Hx Hb IH]; intros pre room c inp fuel Hin Hf;
    (destruct fuel as [|fuel]; [lia|]); cbn [string_loop];
    assert (Es : forall c inp, store_char p (length pre) c (mk_scan inp w (<[p := pre ++ room]> b)) =
      match room with
      | [] => Undef
      | _ :: room => Done (tt, mk_scan inp w (<[p := pre ++ u8 c :: room]> b))
      end) by (intros ? ?; rewrite (store_char_run _ _ _ (pre ++ room)) by apply lookup_insert_eq;
               rewrite length_app; destruct room as [|y room]; simpl;
               [by rewrite (proj2 (Nat.ltb_ge _ _)) by lia|];
               rewrite (proj2 (Nat.ltb_lt _ _)) by lia;
               rewrite insert_insert_eq, insert_app_r_alt by lia; by rewrite Nat.sub_diag).
  - injection Hin as -> ->. change (NL =? NL) with true. cbv iota. unfold mbind, M_bind. rewrite Es.
    by destruct room.
  - apply not_elem_of_cons in Hn as [Hx' Hn]. injection Hin as -> ->.
    rewrite (proj2 (Z.eqb_neq _ _)) by congruence. unfold mbind at 1, M_bind at 1. rewrite Es.
    destruct room as [|y room]; [done|]. rewrite u8_small by done.
    destruct (line ++ NL :: rest) as [|c' inp'] eqn:El; [by destruct line|].
    unfold getchar. rewrite bind_assoc, gets_run. cbn [sc_in]. rewrite bind_assoc, modify_run, ret_run.
    cbn [sc_words sc_bufs]. specialize (IH Hn (pre ++ [x]) room c' inp' fuel eq_refl).
    rewrite length_app, Nat.add_1_r, <-!app_assoc in IH. cbn [app] in IH. rewrite IH by (simpl in Hf; lia).
    cbn [length drop]. by destruct (Nat.ltb (length line) (length room)) eqn:Eb; unfold Nat.ltb in *; simpl in *; rewrite Eb.
Qed.

(** reading a line, as the shell does.  [scank("%s", p)] stores the line, ended by a NUL, in
    the array at [p] and takes the newline, provided the array is longer than the line;
    otherwise it writes past the end of the array: nothing limits the length of a line. *)
Theorem scank_line p buf line rest w b : NL ∉ line -> bytes line -> b !! p = Some buf ->
  scank [PERCENT; CH_s] [p] (mk_scan (line ++ NL :: rest) w b) =
    if Nat.ltb (length line) (length buf)
    then Done (0, mk_scan rest w (<[p := line ++ 0 :: drop (S (length line)) buf]> b)) else Undef.
Proof.
  intros Hn Hb Hp. unfold scank. cbn [vscank]. change (negb (PERCENT =? PERCENT)) with false. cbv iota.
  unfold scan_convert. simpl. destruct (line ++ NL :: rest) as [|c inp] eqn:El; [by destruct line|].
  unfold getchar. rewrite !bind_assoc, gets_run. cbn [sc_in]. rewrite !bind_assoc, modify_run, ret_run.
  rewrite !bind_assoc, ret_run. unfold scan_fuel. rewrite !bind_assoc, gets_run. cbn [sc_in sc_words sc_bufs].
  pose proof (string_run p line rest w b Hn Hb [] buf c inp (S (length inp)) (eq_sym El)) as R.
  cbn [app length] in R. rewrite insert_id in R by done.
  assert (Hl : (length line < S (length inp))%nat).
  { apply (f_equal length) in El. rewrite length_app in El. simpl in El. lia. }
  unfold mbind at 1, M_bind at 1. unfold mbind at 1, M_bind at 1. unfold mbind at 1, M_bind at 1.
  rewrite (R Hl). by destruct (Nat.ltb _ _).
Qed.

(** ** Where the code does something else *)

(** A number in hexadecimal that does not begin with [0x]: the loop that looks for the [0]
    keeps the character it has and never ends, however long it runs. *)
Lemma hex_loop_stuck fuel target c s : c <> -1 -> c <> NL -> c <> target -> skip_loop fuel target c s = NoFuel.
Proof.
  intros H1 H2 H3. induction fuel as [|fuel IH]; [done|]. cbn [skip_loop].
  unfold match_char. rewrite (proj2 (Z.eqb_neq c (-1)) H1). unfold mbind, M_bind, mret, M_ret.
  rewrite (proj2 (Z.eqb_neq target c)) by congruence. by rewrite (proj2 (Z.eqb_neq c NL) H2).
Qed.

(** [%llx] prints the low word without its leading zeros: two different numbers look alike. *)
Lemma llx_ambiguous : printk [PERCENT; CH_l; CH_l; CH_x] [VLong 0x100000001] [] =
  printk [PERCENT; CH_l; CH_l; CH_x] [VLong 0x11] [].
Proof. vm_compute. reflexivity. Qed.

Module FormatExample.
(** [printk("%d %x %c %b %u\n", -12, 255, 'A', 5, 4000000000)]. *)
Definition values : list item :=
  [INum CH_d (2 ^ 32 - 12); INum CH_x 255; IChr 65; INum CH_b 5; INum CH_u 4000000000].
Definition memory : gmap Z Z := list_to_map [(100, 0); (104, 0); (108, 0); (112, 0); (116, 0); (120, 9)].

Lemma scank_reads_printk_witness : exists t inp w',
  printk (items_fmt values ++ [NL]) ((fun i => VWord (item_val i)) <$> values) [] = Done (0, t) /\
  scank (items_fmt values) [100; 104; 108; 112; 116] (mk_scan (t ++ [7]) memory ∅) = Done (0, mk_scan inp w' ∅) /\
  w' !! 100 = Some (2 ^ 32 - 12) /\ w' !! 104 = Some 255 /\ w' !! 120 = Some 9.
Proof.
  destruct (scank_reads_printk values [100; 104; 108; 112; 116] memory ∅ [7])
    as (t & inp & w' & R & R' & _ & Hin & Hout).
  - repeat constructor; try done; set_solver.
  - done.
  - by apply (bool_decide_unpack _).
  - intros p Hp. rewrite !elem_of_cons, elem_of_nil in Hp. by destruct Hp as [->|[->|[->|[->|[->|[]]]]]].
  - exists t, inp, w'. split; [exact R|]. split; [exact R'|].
    split; [apply (Hin 0%nat _ _ eq_refl eq_refl)|]. split; [apply (Hin 1%nat _ _ eq_refl eq_refl)|].
    rewrite Hout; [done|]. by apply (bool_decide_unpack _).
Defined.

Lemma scank_line_witness : scank [PERCENT; CH_s] [8] (mk_scan [108; 115; 10; 99] ∅ {[8 := [1; 2; 3; 4]]}) =
  Done (0, mk_scan [99] ∅ {[8 := [108; 115; 0; 4]]}).
Proof.
  change [108; 115; 10; 99] with ([108; 115] ++ NL :: [99]).
  rewrite (scank_line 8 [1; 2; 3; 4] [108; 115] [99] ∅ {[8 := [1; 2; 3; 4]]});
    [reflexivity|by apply (bool_decide_unpack _)|by apply (bool_decide_unpack _)|reflexivity].
Defined.
End FormatExample.
