(* ===== verification/Random.v ===== *)
(** * Pseudo-random numbers (src/libpi/libc/random.c, pi-random.c)

    The additive feedback generator of the C library, in the reentrant form the Pi uses.  A
    [struct random_data] points into an array of 32-bit words; the word before the table
    keeps the type and the rear pointer.  Pointers are a block and an offset in words, so
    that two generators, or a generator and a saved state, can share a block.  [int] and
    [long] are 32 bits wide. *)

From stdpp Require Import base tactics option list numbers gmap.
From Stdlib Require Import ZArith Lia.
From S2P Require Import Prelude.

(** A pointer to a word: block and offset; [None] is [NULL]. *)
Definition ptr : Type := option (nat * Z).

(** The offset moves, the block stays. *)
Definition padd (p : ptr) (n : Z) : ptr :=
  match p with Some (b, o) => Some (b, o + n) | None => None end.

(** [struct random_data]. *)
Record random_data := mkRandom {
  fptr : ptr;
  rptr : ptr;
  rd_state : ptr;
  rand_type : Z;
  rand_deg : Z;
  rand_sep : Z;
  end_ptr : ptr }.

(** Blocks of words, and the generators. *)
Record rmem := mkRmem {
  rm_blocks : gmap nat (list Z);
  rm_bufs : gmap nat random_data }.

Definition get_buf (b : nat) : M rmem random_data :=
  o ← m_gets (fun s => rm_bufs s !! b); m_opt o.
Definition put_buf (b : nat) (r : random_data) : M rmem unit :=
  m_modify (fun s => mkRmem (rm_blocks s) (<[b := r]> (rm_bufs s))).

Definition word_at (s : rmem) (p : ptr) : option Z :=
  match p with
  | Some (b, o) => if 0 <=? o then l ← rm_blocks s !! b; l !! Z.to_nat o else None
  | None => None
  end.

Definition load (p : ptr) : M rmem Z := o ← m_gets (fun s => word_at s p); m_opt o.

(** A store outside its block is undefined. *)
Definition store (p : ptr) (v : Z) : M rmem unit :=
  load p;;
  match p with
  | Some (b, o) => m_modify (fun s =>
      mkRmem (alter (fun l => <[Z.to_nat o := v]> l) b (rm_blocks s)) (rm_bufs s))
  | None => m_undef
  end.

(** [p >= q] and [p - q]: defined for pointers into the same block. *)
Definition pge (p q : ptr) : M rmem bool :=
  match p, q with
  | Some (b, o), Some (b', o') => if (b =? b')%nat then mret (o' <=? o) else m_undef
  | _, _ => m_undef
  end.
Definition pdiff (p q : ptr) : M rmem Z :=
  match p, q with
  | Some (b, o), Some (b', o') => if (b =? b')%nat then mret (o - o') else m_undef
  | _, _ => m_undef
  end.

(** ** The kinds of generator *)

Definition TYPE_0 : Z := 0.
Definition TYPE_1 : Z := 1.
Definition TYPE_2 : Z := 2.
Definition TYPE_3 : Z := 3.
Definition TYPE_4 : Z := 4.
Definition BREAK_0 : Z := 8.
Definition BREAK_1 : Z := 32.
Definition BREAK_2 : Z := 64.
Definition BREAK_3 : Z := 128.
Definition BREAK_4 : Z := 256.
Definition MAX_TYPES : Z := 5.
Definition seps : list Z := [0; 3; 1; 3; 1].
Definition degrees : list Z := [0; 7; 15; 31; 63].

(** ** random_r *)

(** The result is [None] for the return value -1, and the number stored through [result]
    otherwise.  [result] says whether that pointer is not [NULL]. *)
Definition random_r (buf : option nat) (result : bool) : M rmem (option Z) :=
  match buf, result with
  | Some b, true =>
      r ← get_buf b;
      if rand_type r =? TYPE_0 then
        s0 ← load (rd_state r);
        let val := Z.land (i32 (i32 (s0 * 1103515245) + 12345)) 0x7fffffff in
        store (rd_state r) val;;
        mret (Some val)
      else
        y ← load (rptr r);
        x ← load (fptr r);
        let val := i32 (x + y) in
        store (fptr r) val;;
        let out := Z.land (Z.shiftr val 1) 0x7fffffff in
        let f := padd (fptr r) 1 in
        wrap ← pge f (end_ptr r);
        if wrap : bool then
          put_buf b (mkRandom (rd_state r) (padd (rptr r) 1) (rd_state r) (rand_type r)
                       (rand_deg r) (rand_sep r) (end_ptr r));;
          mret (Some out)
        else
          let r' := padd (rptr r) 1 in
          wrap ← pge r' (end_ptr r);
          put_buf b (mkRandom f (if wrap : bool then rd_state r else r') (rd_state r)
                       (rand_type r) (rand_deg r) (rand_sep r) (end_ptr r));;
          mret (Some out)
  | _, _ => mret None
  end.

(** ** srandom_r *)

(** One word of the table from the one before it. *)
Definition seed_word (word : Z) : Z :=
  let hi := Z.quot word 127773 in
  let lo := Z.rem word 127773 in
  let word := i32 (i32 (16807 * lo) - i32 (2836 * hi)) in
  if word <? 0 then i32 (word + 2147483647) else word.

(** The loop that fills the table, [n] words left. *)
Fixpoint seed_loop (n : nat) (word : Z) (dst : ptr) : M rmem unit :=
  match n with
  | O => mret tt
  | S n =>
      let word := seed_word word in
      let dst := padd dst 1 in
      store dst word;;
      seed_loop n word dst
  end.

(** The loop that discards [n] numbers. *)
Fixpoint discard_loop (n : nat) (b : nat) : M rmem unit :=
  match n with
  | O => mret tt
  | S n => random_r (Some b) true;; discard_loop n b
  end.

(** The return value: 0 or -1. *)
Definition srandom_r (seed : Z) (buf : option nat) : M rmem Z :=
  match buf with
  | None => mret (-1)
  | Some b =>
      r ← get_buf b;
      if MAX_TYPES <=? u32 (rand_type r) then mret (-1)
      else
        let seed := if seed =? 0 then 1 else seed in
        store (rd_state r) (i32 seed);;
        if rand_type r =? TYPE_0 then mret 0
        else
          seed_loop (Z.to_nat (rand_deg r - 1)) (i32 seed) (rd_state r);;
          put_buf b (mkRandom (padd (rd_state r) (rand_sep r)) (rd_state r) (rd_state r)
                       (rand_type r) (rand_deg r) (rand_sep r) (end_ptr r));;
          discard_loop (Z.to_nat (rand_deg r * 10)) b;;
          mret 0
  end.

(** ** initstate_r and setstate_r *)

(** The type for a state of [n] bytes; [None]: too small. *)
Definition state_type (n : Z) : option Z :=
  if BREAK_3 <=? n then Some (if n <? BREAK_4 then TYPE_3 else TYPE_4)
  else if n <? BREAK_1 then if n <? BREAK_0 then None else Some TYPE_0
  else Some (if n <? BREAK_2 then TYPE_1 else TYPE_2).

Definition initstate_r (seed : Z) (arg_state : ptr) (n : Z) (buf : option nat) : M rmem Z :=
  match buf with
  | None => mret (-1)
  | Some b =>
      match state_type n with
      | None => mret (-1)
      | Some ty =>
          degree ← m_opt (degrees !! Z.to_nat ty);
          separation ← m_opt (seps !! Z.to_nat ty);
          r ← get_buf b;
          let state := padd arg_state 1 in
          put_buf b (mkRandom (fptr r) (rptr r) state ty degree separation (padd state degree));;
          srandom_r seed (Some b);;
          store (padd state (-1)) TYPE_0;;
          (if negb (ty =? TYPE_0) then
             r ← get_buf b;
             rear ← pdiff (rptr r) state;
             store (padd state (-1)) (i32 (rear * MAX_TYPES + ty))
           else mret tt);;
          mret 0
      end
  end.

Definition setstate_r (arg_state : ptr) (buf : option nat) : M rmem Z :=
  match arg_state, buf with
  | Some _, Some b =>
      let new_state := padd arg_state 1 in
      r ← get_buf b;
      let old_type := rand_type r in
      let old_state := rd_state r in
      (if old_type =? TYPE_0 then store (padd old_state (-1)) TYPE_0
       else
         rear ← pdiff (rptr r) old_state;
         store (padd old_state (-1)) (i32 (i32 (MAX_TYPES * rear) + old_type)));;
      tag ← load (padd new_state (-1));
      let ty := Z.rem tag MAX_TYPES in
      if (ty <? TYPE_0) || (TYPE_4 <? ty) then mret (-1)
      else
        degree ← m_opt (degrees !! Z.to_nat ty);
        separation ← m_opt (seps !! Z.to_nat ty);
        let rear := Z.quot tag MAX_TYPES in
        let moved := negb (ty =? TYPE_0) in
        put_buf b (mkRandom
          (if moved then padd new_state (Z.rem (rear + separation) degree) else fptr r)
          (if moved then padd new_state rear else rptr r)
          new_state ty degree separation (padd new_state degree));;
        mret 0
  | _, _ => mret (-1)
  end.

(** ** pi-random.c *)

Definition STATESIZE : Z := 128.
Definition default_seed : Z := 0.

(** [statebuf] and [r]: block 0 and generator 0; [initialized_p]. *)
Record pi_rng := mkPiRng {
  pr_mem : rmem;
  initialized_p : bool }.

Definition on_mem {A} (m : M rmem A) : M pi_rng A :=
  m_zoom pr_mem (fun m s => mkPiRng m (initialized_p s)) m.
Definition set_initialized : M pi_rng unit :=
  m_modify (fun s => mkPiRng (pr_mem s) true).

(** The zeroed structure. *)
Definition zero_random : random_data := mkRandom None None None 0 0 0 None.
Definition statebuf : ptr := Some (0%nat, 0).

Definition pi_random_seed (x : Z) : M pi_rng unit :=
  on_mem (put_buf 0 zero_random);;
  e ← on_mem (initstate_r x statebuf STATESIZE (Some 0%nat));
  m_assert (e =? 0);;
  e ← on_mem (srandom_r x (Some 0%nat));
  m_assert (e =? 0);;
  set_initialized.

(** The number drawn once the generator is seeded. *)
Definition draw : M pi_rng Z :=
  x ← on_mem (random_r (Some 0%nat) true);
  match x with Some x => mret (u32 x) | None => m_panic end.

(** [pi_random_init] and [pi_random] call each other; the flag that [pi_random_seed] sets
    ends the recursion, so that the call inside [pi_random_init] is a [draw]. *)
Definition pi_random_init : M pi_rng Z :=
  i ← m_gets initialized_p;
  m_assert (negb i);;
  pi_random_seed default_seed;;
  u ← draw;
  m_assert (0x6b8b4567 =? u);;
  mret u.

Definition pi_random : M pi_rng Z :=
  i ← m_gets initialized_p;
  (if negb i then pi_random_init;; set_initialized else mret tt);;
  draw.

(** The static data at start-up: the buffer is zero. *)
Definition pi_rng0 : pi_rng :=
  mkPiRng (mkRmem {[ 0%nat := replicate 32 0 ]} ∅) false.

(** [n] calls. *)
Fixpoint pi_randoms (n : nat) : M pi_rng (list Z) :=
  match n with
  | O => mret []
  | S n => x ← pi_random; xs ← pi_randoms n; mret (x :: xs)
  end.
