(* ===== verification/RandomThm.v ===== *)
(** * The sequence of pseudo-random numbers

    The table and its two pointers are a window that slides over the sequence of a trinomial
    recurrence.  From there: the numbers after a seed are the documented sequence, and a
    saved state goes on where it stopped. *)

From stdpp Require Import base tactics option list numbers gmap.
From Stdlib Require Import ZArith Lia.
From S2P Require Import Prelude Random.

(** ** The window *)

(** The number that is returned for a word of the sequence. *)
Definition out_of (val : Z) : Z := u32 val / 2.

(** One step of the recurrence with degree [length w] and separation [sep]. *)
Definition next_word (sep : nat) (w : list Z) : Z :=
  i32 (nth 0 w 0 + nth (length w - sep) w 0).
Definition slide (sep : nat) (w : list Z) : list Z := drop 1 w ++ [next_word sep w].

(** Generator [b] of type [ty] has the table [t] in block [k], after the word [tag], and its
    rear pointer at [r]. *)
Record gen_at (b k : nat) (ty : Z) (sep r : nat) (tag : Z) (t rest : list Z) (s : rmem) : Prop := {
  ga_type : 1 <= ty < MAX_TYPES;
  ga_degree : degrees !! Z.to_nat ty = Some (Z.of_nat (length t));
  ga_seps : seps !! Z.to_nat ty = Some (Z.of_nat sep);
  ga_sep : (0 < sep < length t)%nat;
  ga_rear : (r < length t)%nat;
  ga_block : rm_blocks s !! k = Some (tag :: t ++ rest);
  ga_buf : rm_bufs s !! b = Some (mkRandom
    (Some (k, 1 + Z.of_nat ((r + sep) mod length t))) (Some (k, 1 + Z.of_nat r)) (Some (k, 1))
    ty (Z.of_nat (length t)) (Z.of_nat sep) (Some (k, 1 + Z.of_nat (length t)))) }.

(** The window starts at the front pointer. *)
Definition window_of (f : nat) (t : list Z) : list Z := drop f t ++ take f t.

(** What a call leaves alone. *)
Definition same_but (b k : nat) (s s' : rmem) : Prop :=
  (forall k', k' <> k -> rm_blocks s' !! k' = rm_blocks s !! k') /\
  (forall b', b' <> b -> rm_bufs s' !! b' = rm_bufs s !! b').

(** ** Words of the table *)

Lemma out_of_land val : Z.land (Z.shiftr val 1) 0x7fffffff = out_of val.
Proof.
  unfold out_of, u32. change 0x7fffffff with (Z.ones 31).
  rewrite Z.land_ones, Z.shiftr_div_pow2 by lia.
  change (2 ^ 1) with 2. change (2 ^ 31) with 2147483648. change (2 ^ 32) with 4294967296.
  Z.to_euclidean_division_equations. lia.
Qed.

Lemma word_at_word s k l o x :
  rm_blocks s !! k = Some l -> l !! o = Some x -> word_at s (Some (k, Z.of_nat o)) = Some x.
Proof.
  intros E L. unfold word_at. rewrite (proj2 (Z.leb_le _ _)) by lia.
  by rewrite E, Nat2Z.id.
Qed.

Lemma load_run s k l o x :
  rm_blocks s !! k = Some l -> l !! o = Some x -> load (Some (k, Z.of_nat o)) s = Done (x, s).
Proof. intros E L. unfold load. mstep. by rewrite (word_at_word s k l o x E L). Qed.

Lemma store_run s k l o v :
  rm_blocks s !! k = Some l -> (o < length l)%nat ->
  store (Some (k, Z.of_nat o)) v s =
    Done (tt, mkRmem (<[k := <[o := v]> l]> (rm_blocks s)) (rm_bufs s)).
Proof.
  intros E L. destruct (lookup_lt_is_Some_2 l o L) as [x Hx].
  unfold store. rewrite (bind_done _ _ _ _ _ (load_run s k l o x E Hx)).
  unfold m_modify. do 2 f_equal. f_equal. rewrite Nat2Z.id.
  apply map_eq. intros i. destruct (decide (i = k)) as [->|Hi].
  - by rewrite lookup_alter_eq, lookup_insert_eq, E.
  - by rewrite lookup_alter_ne, lookup_insert_ne by done.
Qed.

Lemma get_buf_run s b r : rm_bufs s !! b = Some r -> get_buf b s = Done (r, s).
Proof. intros E. unfold get_buf. mstep. by rewrite E. Qed.

(** A word of the table, seen from its block. *)
Lemma table_lookup (tag : Z) (t rest : list Z) i :
  (i < length t)%nat -> (tag :: t ++ rest) !! S i = Some (nth i t 0).
Proof.
  intros L. change ((t ++ rest) !! i = Some (nth i t 0)). rewrite lookup_app_l by done.
  destruct (lookup_lt_is_Some_2 t i L) as [x Hx]. rewrite Hx. by rewrite (nth_lookup_Some _ _ _ _ Hx).
Qed.

Lemma table_insert (tag : Z) (t rest : list Z) i v :
  (i < length t)%nat -> <[S i := v]> (tag :: t ++ rest) = tag :: <[i := v]> t ++ rest.
Proof. intros L. change (tag :: <[i := v]> (t ++ rest) = tag :: <[i := v]> t ++ rest). f_equal. by apply insert_app_l. Qed.

Lemma one_more (i : nat) : 1 + Z.of_nat i = Z.of_nat (S i).
Proof. lia. Qed.

Lemma pge_run k x y s : pge (Some (k, x)) (Some (k, y)) s = Done (y <=? x, s).
Proof. unfold pge. by rewrite Nat.eqb_refl. Qed.

(** An index that has gone round the table at most once. *)
Lemma mod_once (x n : nat) : (x < 2 * n)%nat -> (x mod n = if x <? n then x else x - n)%nat.
Proof.
  intros H. destruct (Nat.ltb_spec x n) as [L|L]; [by apply Nat.mod_small|].
  symmetry. apply (Nat.mod_unique x n 1); lia.
Qed.

(** The two pointers do not wrap in the same call. *)
Lemma pointers_step (r sep n : nat) :
  (0 < sep < n)%nat -> (r < n)%nat ->
  let f := ((r + sep) mod n)%nat in
  (S f = n -> (S r < n)%nat) /\
  ((S r mod n + sep) mod n = if S f =? n then 0 else S f)%nat.
Proof.
  intros Hs Hr f. subst f. rewrite (mod_once (r + sep)), (mod_once (S r)) by lia.
  destruct (Nat.ltb_spec (r + sep) n), (Nat.ltb_spec (S r) n).
  all: split; [lia|].
  all: match goal with |- context [(?x =? ?y)%nat] => destruct (Nat.eqb_spec x y) end.
  all: try lia.
  all: rewrite mod_once by lia.
  all: match goal with |- context [(?x <? ?y)%nat] => destruct (Nat.ltb_spec x y) end; lia.
Qed.

(** ** One number *)

Lemma random_r_step b k ty sep r tag t rest s :
  gen_at b k ty sep r tag t rest s ->
  let f := ((r + sep) mod length t)%nat in
  let v := i32 (nth f t 0 + nth r t 0) in
  exists s', random_r (Some b) true s = Done (Some (out_of v), s') /\
    gen_at b k ty sep (S r mod length t) tag (<[f := v]> t) rest s' /\ same_but b k s s'.
Proof.
  intros [Hty Hd Hs Hsep Hr Hk Hb] f v.
  assert (Hf : (f < length t)%nat) by (apply Nat.mod_upper_bound; lia).
  unfold random_r. mrun (get_buf_run _ _ _ Hb).
  cbn [rand_type rptr fptr rd_state end_ptr rand_deg rand_sep].
  rewrite (proj2 (Z.eqb_neq _ _)) by (unfold TYPE_0; lia).
  rewrite !one_more.
  mrun (load_run s k _ (S r) _ Hk (table_lookup tag t rest r Hr)).
  mrun (load_run s k _ (S f) _ Hk (table_lookup tag t rest f Hf)).
  erewrite bind_done by (apply (store_run _ _ _ _ _ Hk); rewrite length_cons, length_app; lia).
  fold v. rewrite out_of_land, table_insert by done. fold f.
  destruct (pointers_step r sep (length t) Hsep Hr) as [Hw Hp]. fold f in Hw, Hp.
  exists (mkRmem (<[k := tag :: <[f := v]> t ++ rest]> (rm_blocks s)) (<[b := mkRandom
    (Some (k, 1 + Z.of_nat ((S r mod length t + sep) mod length t)))
    (Some (k, 1 + Z.of_nat (S r mod length t))) (Some (k, 1)) ty (Z.of_nat (length t))
    (Z.of_nat sep) (Some (k, 1 + Z.of_nat (length t)))]> (rm_bufs s))).
  split_and!.
  - cbn [padd]. erewrite bind_done by apply pge_run.
    rewrite Hp, (mod_once (S r)), !(Z.add_comm _ 1), !one_more by lia.
    destruct (Nat.eqb_spec (S f) (length t)) as [E|E].
    { rewrite (proj2 (Z.leb_le _ _)), (proj2 (Nat.ltb_lt _ _)) by auto with lia. done. }
    rewrite (proj2 (Z.leb_gt _ _)) by lia. erewrite bind_done by apply pge_run.
    destruct (Nat.ltb_spec (S r) (length t)) as [L|L].
    + by rewrite (proj2 (Z.leb_gt _ _)) by lia.
    + rewrite (proj2 (Z.leb_le _ _)) by lia. by replace (S r - length t)%nat with 0%nat by lia.
  - constructor; rewrite ?length_insert; try done; cbn.
    + apply Nat.mod_upper_bound. lia.
    + by rewrite lookup_insert_eq.
    + by rewrite lookup_insert_eq.
  - split; intros ? ?; cbn; by rewrite lookup_insert_ne.
Qed.

(** ** The window slides *)

Lemma length_window_of f t : (f <= length t)%nat -> length (window_of f t) = length t.
Proof. intros L. unfold window_of. rewrite length_app, length_drop, length_take. lia. Qed.

Lemma window_nth f t i :
  (f < length t)%nat -> (i < length t)%nat ->
  nth i (window_of f t) 0 = nth ((f + i) mod length t) t 0.
Proof.
  intros Hf Hi. unfold window_of. rewrite mod_once by lia.
  destruct (Nat.ltb_spec (f + i) (length t)) as [L|L].
  - rewrite app_nth1 by (rewrite length_drop; lia). by rewrite nth_skipn.
  - rewrite app_nth2 by (rewrite length_drop; lia). rewrite length_drop.
    rewrite nth_firstn, (proj2 (Nat.ltb_lt _ _)) by lia. f_equal. lia.
Qed.

Lemma window_next r sep t :
  (0 < sep < length t)%nat -> (r < length t)%nat ->
  let f := ((r + sep) mod length t)%nat in
  next_word sep (window_of f t) = i32 (nth f t 0 + nth r t 0).
Proof.
  intros Hs Hr f. assert (Hf : (f < length t)%nat) by (apply Nat.mod_upper_bound; lia).
  unfold next_word. rewrite length_window_of, !window_nth by lia.
  rewrite Nat.add_0_r, (Nat.mod_small f) by done.
  replace ((f + (length t - sep)) mod length t)%nat with r; [done|].
  unfold f. rewrite (mod_once (r + sep)) by lia.
  destruct (Nat.ltb_spec (r + sep) (length t)).
  - replace (r + sep + (length t - sep))%nat with (r + 1 * length t)%nat by lia.
    by rewrite Nat.Div0.mod_add, Nat.mod_small.
  - rewrite Nat.mod_small; lia.
Qed.

Lemma window_slide r sep t :
  (0 < sep < length t)%nat -> (r < length t)%nat ->
  let f := ((r + sep) mod length t)%nat in
  window_of ((S r mod length t + sep) mod length t) (<[f := i32 (nth f t 0 + nth r t 0)]> t) =
  slide sep (window_of f t).
Proof.
  intros Hs Hr f. assert (Hf : (f < length t)%nat) by (apply Nat.mod_upper_bound; lia).
  destruct (pointers_step r sep (length t) Hs Hr) as [_ ->]. fold f.
  unfold slide. pose proof (window_next r sep t Hs Hr) as N. fold f in N. rewrite N. clear N.
  set (v := i32 _). rewrite insert_take_drop by done. unfold window_of.
  rewrite (drop_app _ _ 1), drop_drop, length_drop, <-app_assoc.
  replace (1 - (length t - f))%nat with 0%nat by lia. rewrite drop_0.
  replace (f + 1)%nat with (S f) by lia.
  destruct (Nat.eqb_spec (S f) (length t)) as [E|E].
  - rewrite drop_0, take_0, app_nil_r, (drop_ge t (S f)) by lia. done.
  - rewrite drop_app_ge by (rewrite length_take; lia).
    rewrite take_app_ge by (rewrite length_take; lia).
    rewrite length_take. replace (S f - f `min` length t)%nat with 1%nat by lia. done.
Qed.

(** Generator [b] has its table in block [k] and the words [w] in its window. *)
Definition in_window (b k : nat) (ty : Z) (sep : nat) (w : list Z) (s : rmem) : Prop :=
  exists r tag t rest, gen_at b k ty sep r tag t rest s /\
    w = window_of ((r + sep) mod length t) t.

Lemma gen_same_but_refl b k s : same_but b k s s.
Proof. split; done. Qed.
Lemma gen_same_but_trans b k s1 s2 s3 : same_but b k s1 s2 -> same_but b k s2 s3 -> same_but b k s1 s3.
Proof. intros [A1 B1] [A2 B2]. split; intros x Hx; [rewrite A2, A1|rewrite B2, B1]; done. Qed.

(** A call of random_r returns the next word of the recurrence and slides the window. *)
Lemma random_r_slides b k ty sep w s :
  in_window b k ty sep w s ->
  exists s', random_r (Some b) true s = Done (Some (out_of (next_word sep w)), s') /\
    in_window b k ty sep (slide sep w) s' /\ same_but b k s s'.
Proof.
  intros (r & tag & t & rest & G & ->).
  destruct (random_r_step _ _ _ _ _ _ _ _ _ G) as (s' & R & G' & Sm).
  destruct G as [_ _ _ Hsep Hr _ _].
  exists s'. split_and!; [| |done].
  - by rewrite R, (window_next r sep t Hsep Hr).
  - do 4 eexists. split; [exact G'|]. rewrite length_insert.
    symmetry. by apply window_slide.
Qed.

(** ** Seeding *)

Definition modulus : Z := 2147483647.

Lemma i32_small x : -2^31 <= x < 2^31 -> i32 x = x.
Proof.
  intros H. unfold i32, u32. destruct (Z.ltb_spec (x mod 2 ^ 32) (2 ^ 31)) as [L|L].
  all: revert L; change (2 ^ 32) with 4294967296; change (2 ^ 31) with 2147483648 in *.
  all: Z.to_euclidean_division_equations; lia.
Qed.

(** The table is filled without overflow: the division trick is a multiplication. *)
Lemma seed_word_mul word :
  -2^31 <= word < 2^31 -> seed_word word = (16807 * word) mod modulus.
Proof.
  intros H. unfold seed_word, modulus.
  pose proof (Z.quot_rem' word 127773) as E.
  assert (B : (0 <= Z.rem word 127773 < 127773 /\ 0 <= Z.quot word 127773 < 16808) \/
              (-127773 < Z.rem word 127773 <= 0 /\ -16808 < Z.quot word 127773 <= 0))
    by (change (2 ^ 31) with 2147483648 in H; Z.to_euclidean_division_equations; lia).
  set (hi := Z.quot word 127773) in *. set (lo := Z.rem word 127773) in *. clearbody hi lo.
  rewrite (i32_small (16807 * lo)), (i32_small (2836 * hi)), (i32_small (_ - _)) by lia.
  apply (Z.mod_unique_pos _ _ (if 16807 * lo - 2836 * hi <? 0 then hi - 1 else hi)).
  all: destruct (Z.ltb_spec (16807 * lo - 2836 * hi) 0); rewrite ?i32_small by lia; lia.
Qed.

(** The [n] words after [word] of the multiplicative sequence. *)
Fixpoint lehmer (n : nat) (word : Z) : list Z :=
  match n with
  | O => []
  | S n => let word := (16807 * word) mod modulus in word :: lehmer n word
  end.

Lemma length_lehmer n word : length (lehmer n word) = n.
Proof. revert word. induction n; intros word; simpl; auto. Qed.

Lemma lehmer_range word : -2^31 <= (16807 * word) mod modulus < 2^31.
Proof. pose proof (Z.mod_pos_bound (16807 * word) modulus). unfold modulus in *. lia. Qed.

Lemma splice_insert {A} j (x : A) xs l :
  (S j + length xs < length l)%nat \/ (S j + length xs = length l)%nat ->
  splice (S j) xs (<[j := x]> l) = splice j (x :: xs) l.
Proof.
  intros L. unfold splice. rewrite insert_take_drop by lia.
  rewrite take_app_ge, drop_app_ge by (rewrite length_take; lia). rewrite length_take.
  replace (S j - j `min` length l)%nat with 1%nat by lia.
  replace (S j + length xs - j `min` length l)%nat with (S (length xs)) by lia.
  cbn [take drop length]. rewrite drop_drop, <-app_assoc. cbn.
  by replace (S (j + length xs)) with (j + S (length xs))%nat by lia.
Qed.

Lemma seed_loop_run n word s k l j :
  rm_blocks s !! k = Some l -> (j + n < length l)%nat -> -2^31 <= word < 2^31 ->
  seed_loop n word (Some (k, Z.of_nat j)) s =
    Done (tt, mkRmem (<[k := splice (S j) (lehmer n word) l]> (rm_blocks s)) (rm_bufs s)).
Proof.
  revert word s l j. induction n as [|n IH]; intros word s l j Hk L Hw.
  { cbn. unfold splice. cbn [length app]. rewrite Nat.add_0_r, take_drop, insert_id by done.
    by destruct s. }
  cbn [seed_loop padd]. rewrite seed_word_mul by done.
  rewrite Z.add_comm, one_more.
  erewrite bind_done by (apply (store_run _ _ _ _ _ Hk); lia).
  erewrite IH; [|by cbn; rewrite lookup_insert_eq|rewrite length_insert; lia|apply lehmer_range].
  cbn [rm_blocks rm_bufs]. rewrite insert_insert_eq, splice_insert; [done|].
  rewrite length_lehmer. lia.
Qed.

Lemma discard_loop_run b k ty sep n w s :
  in_window b k ty sep w s ->
  exists s', discard_loop n b s = Done (tt, s') /\
    in_window b k ty sep (Nat.iter n (slide sep) w) s' /\ same_but b k s s'.
Proof.
  revert w s. induction n as [|n IH]; intros w s W.
  { exists s. auto using gen_same_but_refl. }
  cbn [discard_loop]. destruct (random_r_slides _ _ _ _ _ _ W) as (s1 & R & W1 & S1).
  mrun R. destruct (IH _ _ W1) as (s2 & R2 & W2 & S2).
  exists s2. rewrite Nat.iter_succ_r. eauto using gen_same_but_trans.
Qed.

(** What srandom_r and initstate_r need of a generator: a table of the right size. *)
Record fresh (b k : nat) (ty : Z) (n sep : nat) (tag : Z) (l : list Z) (s : rmem) : Prop := {
  fr_type : 1 <= ty < MAX_TYPES;
  fr_degree : degrees !! Z.to_nat ty = Some (Z.of_nat n);
  fr_seps : seps !! Z.to_nat ty = Some (Z.of_nat sep);
  fr_block : rm_blocks s !! k = Some (tag :: l);
  fr_room : (n <= length l)%nat;
  fr_buf : exists f r, rm_bufs s !! b = Some (mkRandom f r (Some (k, 1)) ty (Z.of_nat n)
    (Z.of_nat sep) (Some (k, 1 + Z.of_nat n))) }.

Lemma seps_degrees ty n sep :
  1 <= ty < MAX_TYPES -> degrees !! Z.to_nat ty = Some (Z.of_nat n) ->
  seps !! Z.to_nat ty = Some (Z.of_nat sep) -> (0 < sep < n)%nat.
Proof.
  unfold MAX_TYPES. intros H.
  assert (ty = 1 \/ ty = 2 \/ ty = 3 \/ ty = 4) as [-> | [-> | [-> | ->]]] by lia.
  all: intros D S; cbn in D, S; injection D as D; injection S as S; lia.
Qed.

(** The first word of the table. *)
Definition first_word (seed : Z) : Z := i32 (if seed =? 0 then 1 else seed).

Lemma i32_range x : -2^31 <= i32 x < 2^31.
Proof.
  unfold i32. pose proof (u32_range x) as H. unfold is_u32 in H.
  destruct (Z.ltb_spec (u32 x) (2 ^ 31)); lia.
Qed.

Lemma srandom_r_run seed b k ty n sep tag l s :
  fresh b k ty n sep tag l s ->
  exists s', srandom_r seed (Some b) s = Done (0, s') /\
    in_window b k ty sep (Nat.iter (10 * n) (slide sep)
      (window_of sep (first_word seed :: lehmer (n - 1) (first_word seed)))) s' /\
    same_but b k s s'.
Proof.
  intros [Hty Hd Hs Hk Hl (f & r & Hb)]. pose proof (seps_degrees _ _ _ Hty Hd Hs) as Hsep.
  unfold srandom_r. mrun (get_buf_run _ _ _ Hb). cbn [rand_type rd_state rand_deg rand_sep].
  unfold MAX_TYPES, TYPE_0 in *. rewrite u32_small by (unfold is_u32; lia).
  rewrite (proj2 (Z.leb_gt _ _)), (proj2 (Z.eqb_neq ty 0)) by lia.
  fold (first_word seed).
  erewrite bind_done by (apply (store_run _ _ _ 1 _ Hk); cbn; lia).
  replace (Z.to_nat (Z.of_nat n - 1)) with (n - 1)%nat by lia.
  erewrite bind_done by (apply (seed_loop_run _ _ _ _ (<[1%nat := first_word seed]> (tag :: l)) 1);
    [by cbn; rewrite lookup_insert_eq|rewrite length_insert; cbn; lia|apply i32_range]).
  cbn [rm_blocks rm_bufs].
  rewrite insert_insert_eq, splice_insert by (rewrite length_lehmer; cbn; lia).
  set (t := first_word seed :: lehmer (n - 1) (first_word seed)).
  assert (Ht : length t = n) by (unfold t; rewrite length_cons, length_lehmer; lia).
  unfold put_buf. mstep. cbn [rm_blocks rm_bufs padd].
  match goal with |- context [(discard_loop _ _ ≫= _) ?st] =>
    destruct (discard_loop_run b k ty sep (10 * n) (window_of sep t) st) as (s' & R & W & Sm) end.
  { exists 0%nat, tag, t, (drop n l). cbn [Nat.add]. rewrite Ht, (Nat.mod_small sep) by lia.
    split; [|done]. constructor; rewrite ?Ht; try done; [lia|..].
    - cbn [rm_blocks]. rewrite lookup_insert_eq. unfold splice. cbn [take app]. by rewrite Ht.
    - cbn [rm_bufs Nat.add]. rewrite lookup_insert_eq, (Nat.mod_small sep) by lia. done. }
  replace (Z.to_nat (Z.of_nat n * 10)) with (10 * n)%nat by lia.
  mrun R. exists s'. split_and!; [done|done|].
  eapply gen_same_but_trans; [|exact Sm].
  split; intros ? ?; cbn; by rewrite lookup_insert_ne.
Qed.

(** ** Saved states *)

(** The table in block [k] is saved: the word before it has the type and the rear pointer. *)
Definition parked (k : nat) (ty : Z) (sep : nat) (w : list Z) (s : rmem) : Prop :=
  1 <= ty < MAX_TYPES /\ degrees !! Z.to_nat ty = Some (Z.of_nat (length w)) /\
  seps !! Z.to_nat ty = Some (Z.of_nat sep) /\
  exists r t rest, (r < length t)%nat /\ w = window_of ((r + sep) mod length t) t /\
    rm_blocks s !! k = Some (Z.of_nat r * MAX_TYPES + ty :: t ++ rest).

Lemma degrees_small ty n :
  1 <= ty < MAX_TYPES -> degrees !! Z.to_nat ty = Some (Z.of_nat n) -> (n <= 63)%nat.
Proof.
  unfold MAX_TYPES. intros H.
  assert (ty = 1 \/ ty = 2 \/ ty = 3 \/ ty = 4) as [-> | [-> | [-> | ->]]] by lia.
  all: intros D; cbn in D; injection D as D; lia.
Qed.

(** Writing the word before the table leaves the generator as it is. *)
Lemma store_tag b k ty sep r tag t rest s v :
  gen_at b k ty sep r tag t rest s ->
  exists s', store (Some (k, 0)) v s = Done (tt, s') /\ gen_at b k ty sep r v t rest s' /\
    same_but b k s s'.
Proof.
  intros [Hty Hd Hs Hsep Hr Hk Hb].
  exists (mkRmem (<[k := v :: t ++ rest]> (rm_blocks s)) (rm_bufs s)). split_and!.
  - apply (store_run s k _ 0 v Hk). cbn. lia.
  - constructor; try done. cbn. by rewrite lookup_insert_eq.
  - split; intros ? ?; cbn; [by rewrite lookup_insert_ne|done].
Qed.

Lemma window_parked b k ty sep r t rest s :
  gen_at b k ty sep r (Z.of_nat r * MAX_TYPES + ty) t rest s ->
  parked k ty sep (window_of ((r + sep) mod length t) t) s.
Proof.
  intros [Hty Hd Hs Hsep Hr Hk Hb].
  assert (Hf : ((r + sep) mod length t < length t)%nat) by (apply Nat.mod_upper_bound; lia).
  split_and!; try lia; [by rewrite length_window_of by lia|done|eauto 10].
Qed.

Lemma tag_parts (r : nat) ty :
  1 <= ty < 5 -> Z.rem (Z.of_nat r * 5 + ty) 5 = ty /\ Z.quot (Z.of_nat r * 5 + ty) 5 = Z.of_nat r.
Proof. intros H. split; Z.to_euclidean_division_equations; lia. Qed.

Lemma rem_nat (x n : nat) : (0 < n)%nat -> Z.of_nat (x mod n) = Z.rem (Z.of_nat x) (Z.of_nat n).
Proof. intros H. rewrite Nat2Z.inj_mod, Z.rem_mod_nonneg; lia. Qed.

(** setstate_r saves the current table and continues the one it is given. *)
Lemma setstate_r_switches b k1 ty1 sep1 w1 k2 ty2 sep2 w2 s :
  in_window b k1 ty1 sep1 w1 s -> parked k2 ty2 sep2 w2 s -> k1 <> k2 ->
  exists s', setstate_r (Some (k2, 0)) (Some b) s = Done (0, s') /\
    in_window b k2 ty2 sep2 w2 s' /\ parked k1 ty1 sep1 w1 s'.
Proof.
  intros (r1 & tag & t1 & rest1 & G & ->) (Hty & Hd & Hs & r & t & rest & Hr & -> & Hk) Ne.
  pose proof (store_tag _ _ _ _ _ _ _ _ _ (Z.of_nat r1 * MAX_TYPES + ty1) G) as (s1 & R1 & G1 & S1).
  assert (Hf : ((r + sep2) mod length t < length t)%nat) by (apply Nat.mod_upper_bound; lia).
  rewrite length_window_of in Hd by lia.
  pose proof (seps_degrees _ _ _ Hty Hd Hs) as Hsep. pose proof (degrees_small _ _ Hty Hd) as H63.
  pose proof G as [Hty1 Hd1 _ _ Hr1 _ Hb]. pose proof (degrees_small _ _ Hty1 Hd1) as H63'.
  unfold setstate_r. cbn [padd]. mrun (get_buf_run _ _ _ Hb). cbn [rand_type rd_state rptr fptr].
  unfold MAX_TYPES, TYPE_0 in *. rewrite (proj2 (Z.eqb_neq ty1 0)) by lia.
  unfold pdiff. rewrite Nat.eqb_refl. rewrite bind_assoc. mstep.
  replace (1 + Z.of_nat r1 - 1) with (Z.of_nat r1) by lia.
  rewrite (Z.mul_comm 5), (i32_small (Z.of_nat r1 * 5)), (i32_small (_ + ty1)) by lia.
  mrun R1.
  assert (Hk1 : rm_blocks s1 !! k2 = Some (Z.of_nat r * 5 + ty2 :: t ++ rest))
    by (rewrite <-Hk; apply (proj1 S1); congruence).
  erewrite bind_done by (apply (load_run s1 k2 _ 0 _ Hk1); done).
  destruct (tag_parts r ty2 Hty) as [-> ->]. unfold TYPE_4.
  rewrite (proj2 (Z.ltb_ge _ _)), (proj2 (Z.ltb_ge 4 _)), (proj2 (Z.eqb_neq ty2 0)) by lia.
  cbn [orb negb]. erewrite opt_run by done. erewrite opt_run by done.
  unfold put_buf. mstep. cbn [padd].
  rewrite <-Nat2Z.inj_add, <-rem_nat by lia.
  eexists. split_and!; [done|exists r; do 3 eexists; split; [|done]|].
  - constructor; try done. cbn [rm_bufs]. rewrite lookup_insert_eq. done.
  - apply window_parked in G1. exact G1.
Qed.

(** initstate_r seeds the table it is given and saves it. *)
Lemma initstate_r_run seed n b k ty deg sep tag l s r0 :
  state_type n = Some ty -> 1 <= ty < MAX_TYPES ->
  degrees !! Z.to_nat ty = Some (Z.of_nat deg) -> seps !! Z.to_nat ty = Some (Z.of_nat sep) ->
  rm_bufs s !! b = Some r0 -> rm_blocks s !! k = Some (tag :: l) -> (deg <= length l)%nat ->
  exists s', initstate_r seed (Some (k, 0)) n (Some b) s = Done (0, s') /\
    in_window b k ty sep (Nat.iter (10 * deg) (slide sep)
      (window_of sep (first_word seed :: lehmer (deg - 1) (first_word seed)))) s' /\
    parked k ty sep (Nat.iter (10 * deg) (slide sep)
      (window_of sep (first_word seed :: lehmer (deg - 1) (first_word seed)))) s' /\
    same_but b k s s'.
Proof.
  intros Hn Hty Hd Hs Hb Hk Hl. unfold initstate_r. rewrite Hn.
  erewrite opt_run by done. erewrite opt_run by done. mrun (get_buf_run _ _ _ Hb).
  unfold put_buf. mstep. cbn [padd].
  match goal with |- context [(srandom_r _ _ ≫= _) ?st] =>
    destruct (srandom_r_run seed b k ty deg sep tag l st) as (s1 & R1 & (r & tag1 & t & rest & G1 & E) & S1) end.
  { constructor; try done. cbn. rewrite lookup_insert_eq. eauto. }
  mrun R1. rewrite E.
  destruct (store_tag _ _ _ _ _ _ _ _ _ TYPE_0 G1) as (s2 & R2 & G2 & S2).
  change (0 + 1 + -1) with 0. mrun R2.
  pose proof (ga_buf _ _ _ _ _ _ _ _ _ G2) as Hb2. pose proof (ga_rear _ _ _ _ _ _ _ _ _ G2) as Hr.
  pose proof (degrees_small _ _ Hty (ga_degree _ _ _ _ _ _ _ _ _ G2)) as H63.
  destruct (store_tag _ _ _ _ _ _ _ _ _ (Z.of_nat r * MAX_TYPES + ty) G2) as (s3 & R3 & G3 & S3).
  unfold MAX_TYPES, TYPE_0 in *. rewrite (proj2 (Z.eqb_neq ty 0)) by lia. cbn [negb].
  rewrite bind_assoc. mrun (get_buf_run _ _ _ Hb2). rewrite bind_assoc. cbn [rptr].
  unfold pdiff. rewrite Nat.eqb_refl. mstep.
  replace (1 + Z.of_nat r - (0 + 1)) with (Z.of_nat r) by lia. rewrite i32_small by lia.
  mrun R3. exists s3. split_and!; [done|by do 4 eexists; eauto|by eapply window_parked|].
  eapply gen_same_but_trans; [|eapply gen_same_but_trans; [exact S1|eapply gen_same_but_trans; eassumption]].
  split; intros ? ?; cbn; [done|by rewrite lookup_insert_ne].
Qed.

(** ** The documented sequence

    The words of the sequence: the first is the seed, 30 come from the multiplicative
    generator, three repeat the first three, and the rest are sums. *)
Fixpoint glibc_rev (seed : Z) (n : nat) : list Z :=
  match n with
  | O => []
  | S n =>
      let l := glibc_rev seed n in
      (if (n =? 0)%nat then first_word seed
       else if (n <? 31)%nat then (16807 * nth 0 l 0) mod modulus
       else if (n <? 34)%nat then nth 30 l 0
       else i32 (nth 2 l 0 + nth 30 l 0)) :: l
  end.
Definition glibc_r (seed : Z) (n : nat) : Z := nth 0 (glibc_rev seed (S n)) 0.

Lemma glibc_rev_nth seed n i :
  (i < n)%nat -> nth i (glibc_rev seed n) 0 = glibc_r seed (n - 1 - i).
Proof.
  revert i. induction n as [|n IH]; intros [|i] L; try lia.
  - by replace (S n - 1 - 0)%nat with n by lia.
  - cbn [glibc_rev nth]. rewrite IH by lia. f_equal. lia.
Qed.

Lemma glibc_r_lehmer seed n :
  (0 < n < 31)%nat -> glibc_r seed n = (16807 * glibc_r seed (n - 1)) mod modulus.
Proof.
  intros L. unfold glibc_r at 1. cbn [glibc_rev nth].
  rewrite (proj2 (Nat.eqb_neq _ _)), (proj2 (Nat.ltb_lt n 31)), glibc_rev_nth by lia.
  do 3 f_equal. lia.
Qed.
Lemma glibc_r_repeat seed n : (n < 3)%nat -> glibc_r seed (31 + n) = glibc_r seed n.
Proof. intros L. destruct n as [|[|[|n]]]; [| | |lia]; reflexivity. Qed.
Lemma glibc_r_sum seed n :
  glibc_r seed (34 + n) = i32 (glibc_r seed (3 + n) + glibc_r seed (31 + n)).
Proof.
  unfold glibc_r at 1. generalize (eq_refl (34 + n)%nat). generalize (34 + n)%nat at 1 3.
  intros m E. cbn [glibc_rev nth].
  rewrite (proj2 (Nat.eqb_neq m 0)), (proj2 (Nat.ltb_ge m 31)), (proj2 (Nat.ltb_ge m 34)) by lia.
  rewrite !glibc_rev_nth by lia. rewrite Z.add_comm. do 3 f_equal; lia.
Qed.

(** The 31 words before word [34 + j]. *)
Definition glibc_window (seed : Z) (j : nat) : list Z := map (glibc_r seed) (seq (3 + j) 31).

Lemma lehmer_glibc seed n i :
  (i + n < 31)%nat -> lehmer n (glibc_r seed i) = map (glibc_r seed) (seq (S i) n).
Proof.
  revert i. induction n as [|n IH]; intros i L; [done|].
  cbn [lehmer seq map]. rewrite <-IH, (glibc_r_lehmer seed (S i)) by lia.
  by replace (S i - 1)%nat with i by lia.
Qed.

Lemma seeded_window seed :
  window_of 3 (first_word seed :: lehmer 30 (first_word seed)) = glibc_window seed 0.
Proof.
  change (first_word seed) with (glibc_r seed 0). rewrite lehmer_glibc by lia.
  change (glibc_r seed 0 :: map (glibc_r seed) (seq 1 30)) with (map (glibc_r seed) (seq 0 31)).
  unfold window_of, glibc_window. rewrite skipn_map, firstn_map, <-map_app.
  change (drop 3 (seq 0 31)) with (seq 3 28). change (take 3 (seq 0 31)) with (seq 0 3).
  rewrite map_app. change (seq (3 + 0) 31) with (seq 3 28 ++ seq 31 3). rewrite map_app.
  f_equal.
Qed.

Lemma glibc_next seed j : next_word 3 (glibc_window seed j) = glibc_r seed (34 + j).
Proof.
  unfold next_word, glibc_window. rewrite length_map, length_seq.
  rewrite !(nth_indep _ 0 (glibc_r seed 0)) by (rewrite length_map, length_seq; lia).
  rewrite !map_nth, !seq_nth by lia. rewrite glibc_r_sum. do 3 f_equal; lia.
Qed.

Lemma glibc_slide seed j : slide 3 (glibc_window seed j) = glibc_window seed (S j).
Proof.
  unfold slide. rewrite glibc_next. unfold glibc_window.
  rewrite skipn_map. change [glibc_r seed (34 + j)] with (map (glibc_r seed) [(34 + j)%nat]).
  rewrite <-map_app, drop_seq.
  replace [(34 + j)%nat] with (seq (3 + j + 1 + 30) 1) by (cbn; f_equal; lia).
  rewrite <-seq_app. do 2 f_equal; lia.
Qed.

Lemma glibc_iter seed n : Nat.iter n (slide 3) (glibc_window seed 0) = glibc_window seed n.
Proof. induction n as [|n IH]; [done|]. rewrite Nat.iter_succ, IH. apply glibc_slide. Qed.

(** ** pi-random.c *)

(** The static buffer has its 32 words. *)
Definition statebuf_ok (s : pi_rng) : Prop :=
  exists l, rm_blocks (pr_mem s) !! 0%nat = Some l /\ length l = 32%nat.

(** The generator is seeded and has produced [j] numbers. *)
Definition seeded (seed : Z) (j : nat) (s : pi_rng) : Prop :=
  in_window 0 0 3 3 (glibc_window seed j) (pr_mem s) /\ initialized_p s = true.

Lemma in_window_fresh b k ty sep w s :
  in_window b k ty sep w s -> exists tag l, fresh b k ty (length w) sep tag l s.
Proof.
  intros (r & tag & t & rest & [Hty Hd Hs Hsep Hr Hk Hb] & ->).
  assert (Hf : ((r + sep) mod length t < length t)%nat) by (apply Nat.mod_upper_bound; lia).
  exists tag, (t ++ rest). rewrite length_window_of by lia.
  constructor; try done; [rewrite length_app; lia|eauto].
Qed.

Lemma pi_random_seed_run seed s :
  statebuf_ok s -> exists s', pi_random_seed seed s = Done (tt, s') /\ seeded seed 310 s'.
Proof.
  intros ([|tag l] & Hk & Hl); [done|]. injection Hl as Hl. unfold pi_random_seed.
  erewrite bind_done by (apply zoom_done; reflexivity). cbn [pr_mem].
  destruct (initstate_r_run seed STATESIZE 0 0 3 31 3 tag l
    (mkRmem (rm_blocks (pr_mem s)) (<[0%nat := zero_random]> (rm_bufs (pr_mem s)))) zero_random)
    as (s1 & R1 & W1 & _); try done; [by cbn; rewrite lookup_insert_eq|by rewrite Hl|].
  erewrite bind_done by (apply zoom_done; exact R1). mstep. cbn [pr_mem initialized_p].
  destruct (in_window_fresh _ _ _ _ _ _ W1) as (tag2 & l2 & F).
  change (window_of 3 _) with (window_of 3 (first_word seed :: lehmer 30 (first_word seed))) in F.
  rewrite seeded_window, glibc_iter in F.
  destruct (srandom_r_run seed _ _ _ _ _ _ _ _ F) as (s2 & R2 & W2 & _).
  erewrite bind_done by (apply zoom_done; exact R2). mstep.
  eexists. split; [reflexivity|]. split; [|done]. cbn [pr_mem].
  revert W2. unfold glibc_window at 1 2. rewrite length_map, length_seq.
  change (31 - 1)%nat with 30%nat. rewrite seeded_window, glibc_iter. done.
Qed.

Lemma pi_random_next seed j s :
  seeded seed j s ->
  exists s', pi_random s = Done (out_of (glibc_r seed (34 + j)), s') /\ draw s = pi_random s /\
    seeded seed (S j) s'.
Proof.
  intros [W I]. destruct (random_r_slides _ _ _ _ _ _ W) as (s1 & R & W1 & _).
  rewrite glibc_next in R. rewrite glibc_slide in W1.
  assert (D : draw s = Done (out_of (glibc_r seed (34 + j)), mkPiRng s1 true)).
  { unfold draw. erewrite bind_done by (apply zoom_done; exact R). rewrite I.
    unfold out_of. rewrite (u32_small (_ / 2)); [done|].
    pose proof (u32_range (glibc_r seed (34 + j))) as H. unfold is_u32 in *.
    Z.to_euclidean_division_equations. lia. }
  exists (mkPiRng s1 true). unfold pi_random. mstep. rewrite I. cbn [negb]. mstep.
  by rewrite D.
Qed.

Lemma pi_randoms_run seed n j m s :
  seeded seed j s -> m = (34 + j)%nat ->
  exists s', pi_randoms n s = Done (map (fun i => out_of (glibc_r seed (m + i))) (seq 0 n), s').
Proof.
  revert j m s. induction n as [|n IH]; intros j m s W Em; [by exists s|].
  cbn [pi_randoms]. destruct (pi_random_next _ _ _ W) as (s1 & R & _ & W1). mrun R.
  destruct (IH _ (S m) _ W1) as (s2 & R2); [lia|]. mrun R2. exists s2. cbn [seq map].
  rewrite <-seq_shift, map_map, (Nat.add_0_r m), <-Em.
  unfold mret, M_ret. rewrite (map_ext _ (fun i => out_of (glibc_r seed (m + S i)))); [done|].
  intros i. by replace (S m + i)%nat with (m + S i)%nat by lia.
Qed.

(** C30: after a seed, the i-th number is the 344+i-th word of the documented sequence (a
    multiplicative generator for the first 31 words, then each word the sum of the ones 3 and
    31 places before it) without its lowest bit. *)
Theorem pi_random_sequence seed n s :
  statebuf_ok s ->
  exists s', (pi_random_seed seed;; pi_randoms n) s =
    Done (map (fun i => u32 (glibc_r seed (344 + i)) / 2) (seq 0 n), s').
Proof.
  intros H. destruct (pi_random_seed_run seed s H) as (s1 & R & W). mrun R.
  destruct (pi_randoms_run seed n 310 344 s1 W) as (s2 & R2); [lia|].
  exists s2. rewrite R2. reflexivity.
Qed.

(** The self-test of the first call passes; that number is not handed out. *)
Lemma pi_random_default n :
  exists s', pi_randoms (S n) pi_rng0 =
    Done (map (fun i => out_of (glibc_r 0 (345 + i))) (seq 0 (S n)), s').
Proof.
  destruct (pi_random_seed_run 0 pi_rng0) as (s1 & R & W); [by eexists|].
  destruct (pi_random_next _ _ _ W) as (s2 & R2 & E & W2).
  assert (P : pi_random pi_rng0 = pi_random s2).
  { unfold pi_random at 1. mstep. cbn [initialized_p pi_rng0 negb]. rewrite bind_assoc.
    unfold pi_random_init. rewrite bind_assoc. mstep. cbn [negb initialized_p]. mstep. mstep.
    rewrite bind_assoc. mrun R. rewrite bind_assoc. rewrite <-E in R2. mrun R2.
    rewrite bind_assoc. rewrite assert_run by (vm_compute; reflexivity). mstep.
    unfold set_initialized at 1. mstep.
    destruct W2 as [W2 I]. destruct s2 as [m i]. cbn in I |- *. subst i.
    destruct (pi_random_next 0 (S 310) (mkPiRng m true) (conj W2 eq_refl)) as (? & _ & -> & _).
    reflexivity. }
  cbn [pi_randoms]. unfold mbind, M_bind. rewrite P. 
  destruct (pi_randoms_run 0 (S n) (S 310) 345 s2 W2) as (s3 & R3); [lia|]. exists s3. exact R3.
Qed.

(** ** Two states, one generator *)

(** [n] numbers. *)
Fixpoint random_rs (n : nat) (b : nat) : M rmem (list (option Z)) :=
  match n with
  | O => mret []
  | S n => x ← random_r (Some b) true; xs ← random_rs n b; mret (x :: xs)
  end.

(** The next [n] numbers of a window. *)
Fixpoint outputs (sep n : nat) (w : list Z) : list (option Z) :=
  match n with
  | O => []
  | S n => Some (out_of (next_word sep w)) :: outputs sep n (slide sep w)
  end.

Lemma random_rs_run b k ty sep n w s :
  in_window b k ty sep w s ->
  exists s', random_rs n b s = Done (outputs sep n w, s') /\
    in_window b k ty sep (Nat.iter n (slide sep) w) s' /\ same_but b k s s'.
Proof.
  revert w s. induction n as [|n IH]; intros w s W; [eauto using gen_same_but_refl|].
  cbn [random_rs outputs]. destruct (random_r_slides _ _ _ _ _ _ W) as (s1 & R & W1 & S1). mrun R.
  destruct (IH _ _ W1) as (s2 & R2 & W2 & S2). mrun R2.
  exists s2. rewrite Nat.iter_succ_r. eauto using gen_same_but_trans.
Qed.

Lemma parked_same b k k' ty sep w s s' :
  parked k ty sep w s -> same_but b k' s s' -> k <> k' -> parked k ty sep w s'.
Proof.
  intros (? & ? & ? & r & t & rest & ? & ? & Hk) [Sb _] Ne.
  do 3 (split; [done|]). exists r, t, rest. by rewrite Sb.
Qed.

(** setstate_r switches a generator to a saved state, draws [m] numbers there, and
    switches back: both sequences go on where they were, as if the other was never drawn
    from. *)
Theorem setstate_resumes b k1 ty1 sep1 w1 k2 ty2 sep2 w2 m n s :
  in_window b k1 ty1 sep1 w1 s -> parked k2 ty2 sep2 w2 s -> k1 <> k2 ->
  exists s', (setstate_r (Some (k2, 0)) (Some b);;
              xs ← random_rs m b;
              setstate_r (Some (k1, 0)) (Some b);;
              ys ← random_rs n b;
              mret (xs, ys)) s = Done ((outputs sep2 m w2, outputs sep1 n w1), s') /\
    parked k2 ty2 sep2 (Nat.iter m (slide sep2) w2) s'.
Proof.
  intros W P Ne. destruct (setstate_r_switches _ _ _ _ _ _ _ _ _ _ W P Ne) as (s1 & R1 & W1 & P1).
  mrun R1. destruct (random_rs_run _ _ _ _ m _ _ W1) as (s2 & R2 & W2 & S2). mrun R2.
  assert (P2 : parked k1 ty1 sep1 w1 s2) by (by eapply parked_same).
  destruct (setstate_r_switches _ _ _ _ _ _ _ _ _ _ W2 P2) as (s3 & R3 & W3 & P3); [done|].
  mrun R3. destruct (random_rs_run _ _ _ _ n _ _ W3) as (s4 & R4 & _ & S4). mrun R4.
  exists s4. split; [done|]. by eapply parked_same.
Qed.

Module RandomExample.

(** Two tables of 8 words for one generator; the second is current. *)
Definition two_states : rmem :=
  match (initstate_r 7 (Some (1%nat, 0)) 32 (Some 0%nat);;
         initstate_r 9 (Some (2%nat, 0)) 32 (Some 0%nat))
        (mkRmem {[1%nat := replicate 8 0; 2%nat := replicate 8 0]} {[0%nat := zero_random]}) with
  | Done (_, s) => s
  | _ => mkRmem ∅ ∅
  end.

Definition block_of (k : nat) : list Z := default [] (rm_blocks two_states !! k).

Lemma setstate_resumes_witness :
  let w k := window_of 3 (drop 1 (block_of k)) in
  exists s', (setstate_r (Some (1%nat, 0)) (Some 0%nat);;
              xs ← random_rs 2 0;
              setstate_r (Some (2%nat, 0)) (Some 0%nat);;
              ys ← random_rs 2 0;
              mret (xs, ys)) two_states = Done ((outputs 3 2 (w 1%nat), outputs 3 2 (w 2%nat)), s') /\
    parked 1 1 3 (Nat.iter 2 (slide 3) (w 1%nat)) s'.
Proof.
  intros w. apply (setstate_resumes 0 2 1 3 (w 2%nat) 1 1 3 (w 1%nat) 2 2 two_states).
  - exists 0%nat, 1, (drop 1 (block_of 2%nat)), []. split; [|reflexivity].
    constructor; try (vm_compute; done); unfold MAX_TYPES; lia || (vm_compute; lia).
  - split_and!; try (unfold MAX_TYPES; lia); [vm_compute; done|vm_compute; done|].
    exists 0%nat, (drop 1 (block_of 1%nat)), []. split_and!; [vm_compute; lia|done|vm_compute; done].
  - lia.
Defined.

Lemma pi_random_sequence_witness :
  statebuf_ok pi_rng0 /\ exists s', (pi_random_seed 1;; pi_randoms 2) pi_rng0 =
    Done (map (fun i => u32 (glibc_r 1 (344 + i)) / 2) (seq 0 2), s').
Proof.
  assert (H : statebuf_ok pi_rng0) by (by eexists).
  split; [exact H|]. exact (pi_random_sequence 1 2 pi_rng0 H).
Defined.

(** The first numbers for seed 1. *)
Example first_numbers :
  match (pi_random_seed 1;; pi_randoms 3) pi_rng0 with Done (l, _) => l | _ => [] end =
  [1804289383; 846930886; 1681692777].
Proof. vm_compute. reflexivity. Qed.

End RandomExample.
