(* ===== verification/Crc.v ===== *)
(** * CRC-32 (src/libpi/libc/crc.c)

    The table-driven checksum, and the bit-by-bit division it stands for.  The buffer is the
    list of its [size] bytes. *)

From stdpp Require Import base tactics option list numbers.
From Stdlib Require Import ZArith Lia.
From S2P Require Import Prelude.

Definition crc32_tab : list Z :=
  [0x00000000; 0x77073096; 0xee0e612c; 0x990951ba; 0x076dc419; 0x706af48f; 0xe963a535; 0x9e6495a3;
   0x0edb8832; 0x79dcb8a4; 0xe0d5e91e; 0x97d2d988; 0x09b64c2b; 0x7eb17cbd; 0xe7b82d07; 0x90bf1d91;
   0x1db71064; 0x6ab020f2; 0xf3b97148; 0x84be41de; 0x1adad47d; 0x6ddde4eb; 0xf4d4b551; 0x83d385c7;
   0x136c9856; 0x646ba8c0; 0xfd62f97a; 0x8a65c9ec; 0x14015c4f; 0x63066cd9; 0xfa0f3d63; 0x8d080df5;
   0x3b6e20c8; 0x4c69105e; 0xd56041e4; 0xa2677172; 0x3c03e4d1; 0x4b04d447; 0xd20d85fd; 0xa50ab56b;
   0x35b5a8fa; 0x42b2986c; 0xdbbbc9d6; 0xacbcf940; 0x32d86ce3; 0x45df5c75; 0xdcd60dcf; 0xabd13d59;
   0x26d930ac; 0x51de003a; 0xc8d75180; 0xbfd06116; 0x21b4f4b5; 0x56b3c423; 0xcfba9599; 0xb8bda50f;
   0x2802b89e; 0x5f058808; 0xc60cd9b2; 0xb10be924; 0x2f6f7c87; 0x58684c11; 0xc1611dab; 0xb6662d3d;
   0x76dc4190; 0x01db7106; 0x98d220bc; 0xefd5102a; 0x71b18589; 0x06b6b51f; 0x9fbfe4a5; 0xe8b8d433;
   0x7807c9a2; 0x0f00f934; 0x9609a88e; 0xe10e9818; 0x7f6a0dbb; 0x086d3d2d; 0x91646c97; 0xe6635c01;
   0x6b6b51f4; 0x1c6c6162; 0x856530d8; 0xf262004e; 0x6c0695ed; 0x1b01a57b; 0x8208f4c1; 0xf50fc457;
   0x65b0d9c6; 0x12b7e950; 0x8bbeb8ea; 0xfcb9887c; 0x62dd1ddf; 0x15da2d49; 0x8cd37cf3; 0xfbd44c65;
   0x4db26158; 0x3ab551ce; 0xa3bc0074; 0xd4bb30e2; 0x4adfa541; 0x3dd895d7; 0xa4d1c46d; 0xd3d6f4fb;
   0x4369e96a; 0x346ed9fc; 0xad678846; 0xda60b8d0; 0x44042d73; 0x33031de5; 0xaa0a4c5f; 0xdd0d7cc9;
   0x5005713c; 0x270241aa; 0xbe0b1010; 0xc90c2086; 0x5768b525; 0x206f85b3; 0xb966d409; 0xce61e49f;
   0x5edef90e; 0x29d9c998; 0xb0d09822; 0xc7d7a8b4; 0x59b33d17; 0x2eb40d81; 0xb7bd5c3b; 0xc0ba6cad;
   0xedb88320; 0x9abfb3b6; 0x03b6e20c; 0x74b1d29a; 0xead54739; 0x9dd277af; 0x04db2615; 0x73dc1683;
   0xe3630b12; 0x94643b84; 0x0d6d6a3e; 0x7a6a5aa8; 0xe40ecf0b; 0x9309ff9d; 0x0a00ae27; 0x7d079eb1;
   0xf00f9344; 0x8708a3d2; 0x1e01f268; 0x6906c2fe; 0xf762575d; 0x806567cb; 0x196c3671; 0x6e6b06e7;
   0xfed41b76; 0x89d32be0; 0x10da7a5a; 0x67dd4acc; 0xf9b9df6f; 0x8ebeeff9; 0x17b7be43; 0x60b08ed5;
   0xd6d6a3e8; 0xa1d1937e; 0x38d8c2c4; 0x4fdff252; 0xd1bb67f1; 0xa6bc5767; 0x3fb506dd; 0x48b2364b;
   0xd80d2bda; 0xaf0a1b4c; 0x36034af6; 0x41047a60; 0xdf60efc3; 0xa867df55; 0x316e8eef; 0x4669be79;
   0xcb61b38c; 0xbc66831a; 0x256fd2a0; 0x5268e236; 0xcc0c7795; 0xbb0b4703; 0x220216b9; 0x5505262f;
   0xc5ba3bbe; 0xb2bd0b28; 0x2bb45a92; 0x5cb36a04; 0xc2d7ffa7; 0xb5d0cf31; 0x2cd99e8b; 0x5bdeae1d;
   0x9b64c2b0; 0xec63f226; 0x756aa39c; 0x026d930a; 0x9c0906a9; 0xeb0e363f; 0x72076785; 0x05005713;
   0x95bf4a82; 0xe2b87a14; 0x7bb12bae; 0x0cb61b38; 0x92d28e9b; 0xe5d5be0d; 0x7cdcefb7; 0x0bdbdf21;
   0x86d3d2d4; 0xf1d4e242; 0x68ddb3f8; 0x1fda836e; 0x81be16cd; 0xf6b9265b; 0x6fb077e1; 0x18b74777;
   0x88085ae6; 0xff0f6a70; 0x66063bca; 0x11010b5c; 0x8f659eff; 0xf862ae69; 0x616bffd3; 0x166ccf45;
   0xa00ae278; 0xd70dd2ee; 0x4e048354; 0x3903b3c2; 0xa7672661; 0xd06016f7; 0x4969474d; 0x3e6e77db;
   0xaed16a4a; 0xd9d65adc; 0x40df0b66; 0x37d83bf0; 0xa9bcae53; 0xdebb9ec5; 0x47b2cf7f; 0x30b5ffe9;
   0xbdbdf21c; 0xcabac28a; 0x53b39330; 0x24b4a3a6; 0xbad03605; 0xcdd70693; 0x54de5729; 0x23d967bf;
   0xb3667a2e; 0xc4614ab8; 0x5d681b02; 0x2a6f2b94; 0xb40bbe37; 0xc30c8ea1; 0x5a05df1b; 0x2d02ef8d].

(** One turn of the loop: the byte [p] into the register. *)
Definition crc_byte (crc p : Z) : M unit Z :=
  e ← m_opt (crc32_tab !! Z.to_nat (Z.land (Z.lxor crc p) 0xFF));
  mret (Z.lxor e (Z.shiftr crc 8)).

(** [while (size--)]. *)
Fixpoint crc_loop (buf : list Z) (crc : Z) : M unit Z :=
  match buf with
  | [] => mret crc
  | p :: buf => crc ← crc_byte crc p; crc_loop buf crc
  end.

Definition our_crc32_inc (buf : list Z) (crc : Z) : M unit Z :=
  crc ← crc_loop buf (Z.lxor crc 0xFFFFFFFF);
  mret (Z.lxor crc 0xFFFFFFFF).

Definition our_crc32 (buf : list Z) : M unit Z := our_crc32_inc buf 0.

(** ** The division

    The register as a polynomial with its coefficients in reverse order: a step divides by
    the generator x^32 + x^26 + ... + 1. *)
Definition poly : Z := 0xEDB88320.
Definition shift_bit (crc : Z) : Z :=
  Z.lxor (Z.shiftr crc 1) (if Z.odd crc then poly else 0).
Definition divide_byte (crc p : Z) : Z := Nat.iter 8 shift_bit (Z.lxor crc p).
Definition crc32_spec (buf : list Z) (crc : Z) : Z :=
  Z.lxor (foldl divide_byte (Z.lxor crc 0xFFFFFFFF) buf) 0xFFFFFFFF.

(** ** Linearity *)

Lemma shift_bit_lxor x y : shift_bit (Z.lxor x y) = Z.lxor (shift_bit x) (shift_bit y).
Proof.
  unfold shift_bit. rewrite Z.shiftr_lxor, <-!Z.bit0_odd, Z.lxor_spec.
  destruct (Z.testbit x 0), (Z.testbit y 0); cbn [xorb].
  all: apply Z.bits_inj; intros n; rewrite !Z.lxor_spec, ?Z.bits_0.
  all: repeat match goal with |- context [Z.testbit ?a ?m] => destruct (Z.testbit a m) end; done.
Qed.

Lemma iter_lxor n x y :
  Nat.iter n shift_bit (Z.lxor x y) = Z.lxor (Nat.iter n shift_bit x) (Nat.iter n shift_bit y).
Proof. induction n as [|n IH]; [done|]. rewrite !Nat.iter_succ, IH. apply shift_bit_lxor. Qed.

(** A register whose low bits are zero is only shifted. *)
Lemma iter_shiftl (n : nat) y : Nat.iter n shift_bit (Z.shiftl y (Z.of_nat n)) = y.
Proof.
  revert y. induction n as [|n IH]; intros y; [apply Z.shiftl_0_r|].
  rewrite Nat.iter_succ_r. unfold shift_bit at 2.
  rewrite Nat2Z.inj_succ, <-Z.add_1_r, <-Z.shiftl_shiftl, <-Z.bit0_odd by lia.
  rewrite Z.shiftl_spec_low, Z.lxor_0_r, Z.shiftr_shiftl_l, Z.shiftl_0_r by lia. apply IH.
Qed.

Lemma low_high x : x = Z.lxor (Z.land x 0xFF) (Z.shiftl (Z.shiftr x 8) 8).
Proof.
  change 0xFF with (Z.ones 8). apply Z.bits_inj. intros n.
  rewrite Z.lxor_spec, Z.land_spec.
  destruct (Z.ltb_spec n 0); [by rewrite !Z.testbit_neg_r|].
  destruct (Z.ltb_spec n 8).
  - rewrite Z.ones_spec_low, Z.shiftl_spec_low by lia. by destruct (Z.testbit x n).
  - rewrite Z.ones_spec_high, Z.shiftl_spec, Z.shiftr_spec by lia.
    rewrite andb_false_r. cbn [xorb]. by replace (n - 8 + 8) with n by lia.
Qed.

(** The table has the division of each byte. *)
Lemma table_entries :
  forallb (fun i => match crc32_tab !! i with
                    | Some e => e =? Nat.iter 8 shift_bit (Z.of_nat i) | None => false end)
    (seq 0 256) = true.
Proof. vm_compute. reflexivity. Qed.

Lemma table_lookup_byte i :
  0 <= i < 256 -> crc32_tab !! Z.to_nat i = Some (Nat.iter 8 shift_bit i).
Proof.
  intros H. pose proof table_entries as T. rewrite forallb_forall in T.
  specialize (T (Z.to_nat i)). rewrite in_seq in T. specialize (T ltac:(lia)).
  destruct (crc32_tab !! Z.to_nat i); [|done].
  apply Z.eqb_eq in T. rewrite T. by rewrite Z2Nat.id by lia.
Qed.

Lemma crc_byte_divides crc p s : is_u8 p -> crc_byte crc p s = Done (divide_byte crc p, s).
Proof.
  intros Hp. unfold crc_byte, divide_byte. change 0xFF with (Z.ones 8).
  rewrite Z.land_ones by lia.
  erewrite opt_run by (apply table_lookup_byte, Z.mod_pos_bound; lia).
  rewrite <-Z.land_ones by lia. change (Z.ones 8) with 0xFF.
  unfold mret, M_ret. do 2 f_equal.
  rewrite (low_high (Z.lxor crc p)) at 2. rewrite iter_lxor. f_equal.
  rewrite (iter_shiftl 8), Z.shiftr_lxor.
  replace (Z.shiftr p 8) with 0; [by rewrite Z.lxor_0_r|].
  symmetry. rewrite Z.shiftr_div_pow2 by lia. apply Z.div_small. exact Hp.
Qed.

Lemma crc_loop_divides buf crc s :
  bytes buf -> crc_loop buf crc s = Done (foldl divide_byte crc buf, s).
Proof.
  intros H. revert crc. induction H as [|p buf Hp _ IH]; intros crc; [done|].
  cbn [crc_loop foldl]. mrun (crc_byte_divides crc p s Hp). apply IH.
Qed.

(** C33: for every buffer of bytes and every start value, the table-driven checksum is the
    remainder of the bit-by-bit division by the CRC-32 polynomial; the table is never read out
    of range. *)
Theorem crc32_is_division buf crc s :
  bytes buf -> our_crc32_inc buf crc s = Done (crc32_spec buf crc, s).
Proof.
  intros H. unfold our_crc32_inc. by mrun (crc_loop_divides buf (Z.lxor crc 0xFFFFFFFF) s H).
Qed.

(** Checksums of a buffer in pieces. *)
Lemma crc32_spec_app a b crc : crc32_spec (a ++ b) crc = crc32_spec b (crc32_spec a crc).
Proof.
  unfold crc32_spec. rewrite foldl_app. do 2 f_equal.
  by rewrite Z.lxor_assoc, Z.lxor_nilpotent, Z.lxor_0_r.
Qed.

Lemma our_crc32_inc_app a b crc s :
  bytes a -> bytes b ->
  our_crc32_inc (a ++ b) crc s = (c ← our_crc32_inc a crc; our_crc32_inc b c) s.
Proof.
  intros Ha Hb. unfold our_crc32_inc, mbind, M_bind.
  rewrite !crc_loop_divides by (done || by apply Forall_app).
  cbn. rewrite crc_loop_divides by done. rewrite foldl_app.
  by rewrite Z.lxor_assoc, Z.lxor_nilpotent, Z.lxor_0_r.
Qed.

(** ** Bursts of errors *)

Lemma lxor_range x y : is_u32 x -> is_u32 y -> is_u32 (Z.lxor x y).
Proof.
  unfold is_u32. intros Hx Hy. split; [by apply Z.lxor_nonneg; lia|].
  destruct (Z.eq_dec (Z.lxor x y) 0) as [->|N]; [lia|].
  apply Z.log2_lt_pow2; [pose proof (proj2 (Z.lxor_nonneg x y)); lia|].
  eapply Z.le_lt_trans; [apply Z.log2_lxor; lia|].
  apply Z.max_lub_lt; (destruct (Z.eq_dec x 0), (Z.eq_dec y 0); subst; cbn; try lia;
    apply Z.log2_lt_pow2; lia).
Qed.

Lemma shift_bit_range x : is_u32 x -> is_u32 (shift_bit x).
Proof.
  intros H. unfold shift_bit. apply lxor_range.
  - unfold is_u32 in *. rewrite Z.shiftr_div_pow2 by lia. change (2 ^ 1) with 2.
    Z.to_euclidean_division_equations. lia.
  - destruct (Z.odd x); unfold is_u32, poly; lia.
Qed.

(** The top bit of the register is the bit that was shifted out. *)
Lemma shift_bit_top x : is_u32 x -> Z.testbit (shift_bit x) 31 = Z.odd x.
Proof.
  intros H. unfold shift_bit. rewrite Z.lxor_spec, Z.shiftr_spec by lia.
  rewrite (Z.bits_above_log2 x).
  - by destruct (Z.odd x).
  - unfold is_u32 in H. lia.
  - destruct (Z.eq_dec x 0) as [->|N]; [done|]. apply Z.log2_lt_pow2; unfold is_u32 in H; lia.
Qed.

Lemma shift_bit_inj0 x : is_u32 x -> shift_bit x = 0 -> x = 0.
Proof.
  intros H E. pose proof (shift_bit_top x H) as T. rewrite E, Z.bits_0 in T.
  unfold shift_bit in E. rewrite <-T, Z.lxor_0_r, Z.shiftr_div_pow2 in E by lia.
  change (2 ^ 1) with 2 in E. symmetry in T. rewrite <-Z.negb_even in T.
  apply negb_false_iff, Z.even_spec in T. destruct T as [y ->].
  rewrite Z.mul_comm, Z.div_mul in E by lia. lia.
Qed.

Lemma iter_shift_range n x : is_u32 x -> is_u32 (Nat.iter n shift_bit x).
Proof. intros H. induction n; [done|]. rewrite Nat.iter_succ. by apply shift_bit_range. Qed.

Lemma iter_shift_inj0 n x : is_u32 x -> Nat.iter n shift_bit x = 0 -> x = 0.
Proof.
  intros H. induction n as [|n IH]; [done|]. rewrite Nat.iter_succ. intros E.
  apply IH, shift_bit_inj0, E. by apply iter_shift_range.
Qed.

(** Feeding bytes one at a time divides the register and all of them at once. *)
Lemma foldl_divide bs crc :
  bytes bs ->
  foldl divide_byte crc bs = Nat.iter (8 * length bs) shift_bit (Z.lxor crc (le_val bs)).
Proof.
  intros H. revert crc. induction H as [|b bs Hb _ IH]; intros crc.
  { cbn. by rewrite Z.lxor_0_r. }
  cbn [foldl le_val length]. rewrite IH. replace (8 * S (length bs))%nat with (8 * length bs + 8)%nat by lia.
  rewrite Nat.iter_add. f_equal. unfold divide_byte.
  assert (E : b + 256 * le_val bs = Z.lxor b (Z.shiftl (le_val bs) 8)).
  { rewrite (low_high (b + 256 * le_val bs)), Z.shiftr_div_pow2, (Z.mul_comm 256) by lia.
    change 0xFF with (Z.ones 8). rewrite Z.land_ones by lia. change (2 ^ 8) with 256.
    unfold is_u8 in Hb. by rewrite Z.mod_add, Z.div_add, Z.mod_small, Z.div_small by lia. }
  rewrite E, <-Z.lxor_assoc, (iter_lxor 8 (Z.lxor crc b)). by rewrite (iter_shiftl 8).
Qed.

Lemma lxor_cancel x y z : Z.lxor x z = Z.lxor y z -> x = y.
Proof.
  intros E. apply (f_equal (fun v => Z.lxor v z)) in E.
  by rewrite !Z.lxor_assoc, Z.lxor_nilpotent, !Z.lxor_0_r in E.
Qed.

(** Different words of at most four bytes leave different registers. *)
Lemma foldl_divide_inj crc b1 b2 :
  bytes b1 -> bytes b2 -> length b1 = length b2 -> (length b1 <= 4)%nat ->
  foldl divide_byte crc b1 = foldl divide_byte crc b2 -> b1 = b2.
Proof.
  intros H1 H2 L L4 E. rewrite !foldl_divide, <-L in E by done.
  assert (X : forall b, bytes b -> (length b <= 4)%nat -> is_u32 (le_val b)).
  { intros b Hb Lb. pose proof (le_val_range b Hb) as R. unfold is_u32. split; [lia|].
    eapply Z.lt_le_trans; [apply R|]. apply Z.pow_le_mono_r; lia. }
  assert (Z0 : Z.lxor (le_val b1) (le_val b2) = 0).
  { apply (iter_shift_inj0 (8 * length b1)); [apply lxor_range; apply X; lia || done|].
    rewrite iter_lxor in E |- *. rewrite iter_lxor in E. rewrite !(Z.lxor_comm (Nat.iter _ _ crc)) in E.
    apply lxor_cancel in E. by rewrite E, Z.lxor_nilpotent. }
  apply Z.lxor_eq in Z0. rewrite <-(le_bytes_val b1), <-(le_bytes_val b2) by done.
  by rewrite L, Z0.
Qed.

(** Equal bytes after different registers leave different registers. *)
Lemma foldl_divide_crc_inj c1 c2 bs :
  is_u32 c1 -> is_u32 c2 -> bytes bs ->
  foldl divide_byte c1 bs = foldl divide_byte c2 bs -> c1 = c2.
Proof.
  intros H1 H2 Hb E. rewrite !foldl_divide, !iter_lxor in E by done.
  apply lxor_cancel in E. apply Z.lxor_eq, (iter_shift_inj0 (8 * length bs)).
  - by apply lxor_range.
  - by rewrite iter_lxor, E, Z.lxor_nilpotent.
Qed.

Lemma foldl_divide_range crc bs : is_u32 crc -> bytes bs -> is_u32 (foldl divide_byte crc bs).
Proof.
  intros H Hb. revert crc H. induction Hb as [|b bs Hb _ IH]; intros crc H; [done|].
  cbn [foldl]. apply IH. unfold divide_byte. apply iter_shift_range, lxor_range; [done|].
  unfold is_u8, is_u32 in *. lia.
Qed.

(** the checksum detects every burst of errors: two buffers that differ only within four
    consecutive bytes have different checksums. *)
Theorem crc32_detects_burst pre b1 b2 post :
  bytes pre -> bytes b1 -> bytes b2 -> bytes post ->
  length b1 = length b2 -> (length b1 <= 4)%nat -> b1 <> b2 ->
  our_crc32 (pre ++ b1 ++ post) tt <> our_crc32 (pre ++ b2 ++ post) tt.
Proof.
  intros Hp H1 H2 Hq L L4 N E. apply N. unfold our_crc32, our_crc32_inc, mbind, M_bind in E.
  rewrite !crc_loop_divides in E by (rewrite !Forall_app; done).
  cbn in E. injection E as E. apply lxor_cancel in E. rewrite !foldl_app in E.
  set (c := foldl divide_byte _ pre) in *.
  assert (Hc : is_u32 c) by (apply foldl_divide_range; [by apply (bool_decide_unpack _)|done]).
  apply foldl_divide_crc_inj in E; [|by apply foldl_divide_range..|done].
  by apply foldl_divide_inj in E.
Qed.

Module CrcExample.

(** The check value of CRC-32: the nine digits. *)
Definition digits : list Z := [49; 50; 51; 52; 53; 54; 55; 56; 57].

Lemma crc32_is_division_witness :
  our_crc32_inc digits 0 tt = Done (crc32_spec digits 0, tt) /\ crc32_spec digits 0 = 0xCBF43926.
Proof.
  split; [|vm_compute; reflexivity].
  apply crc32_is_division. by apply (bool_decide_unpack _).
Defined.

Lemma crc32_detects_burst_witness :
  our_crc32 ([1; 2] ++ [3; 4] ++ [5]) tt <> our_crc32 ([1; 2] ++ [4; 3] ++ [5]) tt.
Proof.
  apply (crc32_detects_burst [1; 2] [3; 4] [4; 3] [5]).
  all: first [by apply (bool_decide_unpack _) | done | cbn; lia].
Defined.

End CrcExample.
