(* ===== verification/Libc.v ===== *)
(** * Memory and strings of the C library (src/libpi/libc)

    [memcmp], [memcpy], [memmove], [memset], [strlen], [strcmp], [strncmp], [strcpy] and
    [strcat] as loops over a byte-addressed memory.  An access to an address that is not part
    of the memory is undefined.  Pointers stay inside their objects, so their arithmetic does
    not wrap; [char] is unsigned, as the compiler for the Pi has it. *)

From stdpp Require Import base tactics option list numbers gmap.
From Stdlib Require Import ZArith Lia.
From S2P Require Import Prelude.

Abbreviation cmem := (gmap Z Z).

Definition rd8 (p : Z) : M cmem Z := o ← m_gets (fun m => m !! p); m_opt o.
Definition wr8 (p v : Z) : M cmem unit := rd8 p;; m_modify <[p := u8 v]>.

(** A word of [n] bytes. *)
Fixpoint wr_le (n : nat) (p v : Z) : M cmem unit :=
  match n with
  | O => mret tt
  | S n => wr8 p v;; wr_le n (p + 1) (v / 256)
  end.

(** ** Memory *)

(** The loop of memcmp at index [i], [n] bytes left. *)
Fixpoint memcmp_loop (n : nat) (s1 s2 i : Z) : M cmem Z :=
  match n with
  | O => mret 0
  | S n =>
      a ← rd8 (s1 + i);
      b ← rd8 (s2 + i);
      let v := a - b in
      if negb (v =? 0) then mret v else memcmp_loop n s1 s2 (i + 1)
  end.
Definition memcmp (s1 s2 nbytes : Z) : M cmem Z := memcmp_loop (Z.to_nat nbytes) s1 s2 0.

Fixpoint memcpy_loop (n : nat) (d s i : Z) : M cmem unit :=
  match n with
  | O => mret tt
  | S n => x ← rd8 (s + i); wr8 (d + i) x;; memcpy_loop n d s (i + 1)
  end.
Definition memcpy (dst src nbytes : Z) : M cmem Z :=
  memcpy_loop (Z.to_nat nbytes) dst src 0;; mret dst.

(** The loops of memmove: upwards with [step] 1, downwards with [step] -1. *)
Fixpoint move_loop (count : nat) (a b step : Z) : M cmem unit :=
  match count with
  | O => mret tt
  | S count => x ← rd8 b; wr8 a x;; move_loop count (a + step) (b + step) step
  end.
Definition memmove (dst src count : Z) : M cmem Z :=
  if src =? dst then mret dst
  else
    (if dst <? src then move_loop (Z.to_nat count) dst src 1
     else move_loop (Z.to_nat count) (dst + (count - 1)) (src + (count - 1)) (-1));;
    mret dst.

(** [n] words of [w] bytes. *)
Fixpoint set_words (n w : nat) (p c : Z) : M cmem Z :=
  match n with
  | O => mret p
  | S n => wr_le w p c;; set_words n w (p + Z.of_nat w) c
  end.
Definition memset (dst c n : Z) : M cmem Z :=
  m_assert (negb (n =? 0));;
  if (c =? 0) && (dst mod 8 =? 0) && (n mod 8 =? 0) then set_words (Z.to_nat (n / 8)) 8 dst c
  else if (c =? 0) && (dst mod 4 =? 0) && (n mod 4 =? 0) then set_words (Z.to_nat (n / 4)) 4 dst c
  else set_words (Z.to_nat n) 1 dst c.

(** ** Strings

    A loop over a string reads a new address on each turn, so that one more than the size of
    the memory is enough fuel. *)

Definition with_fuel {A} (f : nat -> M cmem A) : M cmem A :=
  n ← m_gets size; f (S n).

Fixpoint strlen_loop (fuel : nat) (p ret : Z) : M cmem Z :=
  match fuel with
  | O => m_nofuel
  | S fuel => c ← rd8 (p + ret); if c =? 0 then mret ret else strlen_loop fuel p (ret + 1)
  end.
Definition strlen (p : Z) : M cmem Z := with_fuel (fun fuel => strlen_loop fuel p 0).

Fixpoint strcmp_loop (fuel : nat) (a b : Z) : M cmem Z :=
  match fuel with
  | O => m_nofuel
  | S fuel =>
      x ← rd8 a;
      y ← rd8 b;
      if negb (x =? 0) && (x =? y) then strcmp_loop fuel (a + 1) (b + 1)
      else mret (x - y)
  end.
Definition strcmp (a b : Z) : M cmem Z := with_fuel (fun fuel => strcmp_loop fuel a b).

Fixpoint strncmp (s1 s2 : Z) (n : nat) : M cmem Z :=
  match n with
  | O => mret 0
  | S n =>
      a ← rd8 s1;
      b ← rd8 s2;
      if negb (a =? b) then mret (a - b) else strncmp (s1 + 1) (s2 + 1) n
  end.

(** The loop of strcpy: copies up to and with the terminator. *)
Fixpoint copy_loop (fuel : nat) (s s2 : Z) : M cmem unit :=
  match fuel with
  | O => m_nofuel
  | S fuel => c ← rd8 s2; wr8 s c;; if c =? 0 then mret tt else copy_loop fuel (s + 1) (s2 + 1)
  end.
Definition strcpy (s1 s2 : Z) : M cmem Z :=
  with_fuel (fun fuel => copy_loop fuel s1 s2);; mret s1.

(** The first loop of strcat: the address after the terminator. *)
Fixpoint end_loop (fuel : nat) (s1 : Z) : M cmem Z :=
  match fuel with
  | O => m_nofuel
  | S fuel => c ← rd8 s1; if c =? 0 then mret (s1 + 1) else end_loop fuel (s1 + 1)
  end.

(** The second loop of strcat; [s1] is incremented before the store. *)
Fixpoint append_loop (fuel : nat) (s1 s2 : Z) : M cmem unit :=
  match fuel with
  | O => m_nofuel
  | S fuel =>
      c ← rd8 s2;
      wr8 (s1 + 1) c;;
      if c =? 0 then mret tt else append_loop fuel (s1 + 1) (s2 + 1)
  end.
Definition strcat (dest src : Z) : M cmem Z :=
  s1 ← with_fuel (fun fuel => end_loop fuel dest);
  with_fuel (fun fuel => append_loop fuel (s1 - 2) src);;
  mret dest.

(** ** Bytes in memory *)

(** The bytes [bs] are at [p]. *)
Definition holds (m : cmem) (p : Z) (bs : list Z) : Prop :=
  forall i x, bs !! i = Some x -> m !! (p + Z.of_nat i) = Some x.

(** The [n] addresses from [p] are part of the memory. *)
Definition mapped (m : cmem) (p : Z) (n : nat) : Prop :=
  forall i, (i < n)%nat -> is_Some (m !! (p + Z.of_nat i)).

(** The memory with [bs] written at [p]. *)
Fixpoint put (p : Z) (bs : list Z) (m : cmem) : cmem :=
  match bs with
  | [] => m
  | b :: bs => <[p := b]> (put (p + 1) bs m)
  end.

Lemma holds_cons m p b bs : holds m p (b :: bs) <-> m !! p = Some b /\ holds m (p + 1) bs.
Proof.
  split.
  - intros H. split; [by rewrite <-(Z.add_0_r p); apply (H 0%nat)|].
    intros i x E. rewrite <-(H (S i) x E). f_equal. lia.
  - intros [H0 H] [|i] x E.
    + injection E as <-. by rewrite Z.add_0_r.
    + rewrite <-(H i x E). f_equal. lia.
Qed.

Lemma holds_app m p a b :
  holds m p (a ++ b) <-> holds m p a /\ holds m (p + Z.of_nat (length a)) b.
Proof.
  revert p. induction a as [|x a IH]; intros p; cbn [app length].
  - rewrite Z.add_0_r. split; [|tauto]. intros H. split; [|done]. by intros i y ?.
  - rewrite !holds_cons, IH. replace (p + Z.of_nat (S (length a))) with (p + 1 + Z.of_nat (length a)) by lia.
    tauto.
Qed.

Lemma holds_mapped m p bs : holds m p bs -> mapped m p (length bs).
Proof. intros H i L. destruct (lookup_lt_is_Some_2 bs i L) as [x E]. exists x. by apply H. Qed.

Lemma mapped_S m p n : mapped m p (S n) <-> is_Some (m !! p) /\ mapped m (p + 1) n.
Proof.
  split.
  - intros H. split; [rewrite <-(Z.add_0_r p); apply (H 0%nat); lia|].
    intros i L. replace (p + 1 + Z.of_nat i) with (p + Z.of_nat (S i)) by lia. apply H. lia.
  - intros [H0 H] [|i] L; [by rewrite Z.add_0_r|].
    replace (p + Z.of_nat (S i)) with (p + 1 + Z.of_nat i) by lia. apply H. lia.
Qed.

(** What is in memory after a write. *)
Lemma put_lookup p bs m q :
  put p bs m !! q =
  if (p <=? q) && (q <? p + Z.of_nat (length bs)) then bs !! Z.to_nat (q - p) else m !! q.
Proof.
  revert p. induction bs as [|b bs IH]; intros p; cbn [put length].
  - destruct (Z.leb_spec p q), (Z.ltb_spec q (p + Z.of_nat 0)); try done; lia.
  - destruct (Z.eq_dec q p) as [->|N].
    + rewrite lookup_insert_eq, Z.leb_refl, (proj2 (Z.ltb_lt _ _)), Z.sub_diag by lia. done.
    + rewrite lookup_insert_ne, IH by done.
      destruct (Z.leb_spec (p + 1) q), (Z.leb_spec p q); try lia; [|done].
      replace (p + 1 + Z.of_nat (length bs)) with (p + Z.of_nat (S (length bs))) by lia.
      destruct (Z.ltb_spec q (p + Z.of_nat (S (length bs)))); [|done]. cbn [andb].
      by replace (Z.to_nat (q - p)) with (S (Z.to_nat (q - (p + 1)))) by lia.
Qed.

Lemma put_holds p bs m : holds (put p bs m) p bs.
Proof.
  intros i x E. rewrite put_lookup. pose proof (lookup_lt_Some _ _ _ E).
  rewrite (proj2 (Z.leb_le _ _)), (proj2 (Z.ltb_lt _ _)) by lia. cbn.
  by replace (Z.to_nat (p + Z.of_nat i - p)) with i by lia.
Qed.

(** A write elsewhere leaves bytes alone. *)
Lemma holds_put m p bs q cs :
  holds m p bs -> q + Z.of_nat (length cs) <= p \/ p + Z.of_nat (length bs) <= q ->
  holds (put q cs m) p bs.
Proof.
  intros H D i x E. rewrite put_lookup. pose proof (lookup_lt_Some _ _ _ E).
  destruct (Z.leb_spec q (p + Z.of_nat i)), (Z.ltb_spec (p + Z.of_nat i) (q + Z.of_nat (length cs)));
    try lia; by apply H.
Qed.

Lemma put_snoc p bs x m : put p (bs ++ [x]) m = <[p + Z.of_nat (length bs) := x]> (put p bs m).
Proof.
  apply map_eq. intros q. destruct (Z.eq_dec q (p + Z.of_nat (length bs))) as [->|N].
  - rewrite lookup_insert_eq. apply (put_holds p (bs ++ [x]) m). by apply list_lookup_middle.
  - rewrite lookup_insert_ne, !put_lookup, length_app by done. cbn [length].
    destruct (Z.leb_spec p q), (Z.ltb_spec q (p + Z.of_nat (length bs)));
      destruct (Z.ltb_spec q (p + Z.of_nat (length bs + 1))); cbn [andb]; try done; try lia.
    by rewrite lookup_app_l by lia.
Qed.

Lemma rd8_run m p x : m !! p = Some x -> rd8 p m = Done (x, m).
Proof. intros E. unfold rd8. mstep. by rewrite E. Qed.

Lemma wr8_run m p v : is_Some (m !! p) -> wr8 p v m = Done (tt, <[p := u8 v]> m).
Proof. intros [x E]. unfold wr8. by mrun (rd8_run m p x E). Qed.

Lemma put_insert p bs q x (m : cmem) :
  q < p \/ p + Z.of_nat (length bs) <= q -> put p bs (<[q := x]> m) = <[q := x]> (put p bs m).
Proof.
  intros D. apply map_eq. intros r. rewrite put_lookup. destruct (Z.eq_dec r q) as [->|N].
  - rewrite !lookup_insert_eq.
    destruct (Z.leb_spec p q), (Z.ltb_spec q (p + Z.of_nat (length bs))); done || lia.
  - by rewrite !lookup_insert_ne, put_lookup by done.
Qed.

Lemma store_put_put p a b (m : cmem) : put (p + Z.of_nat (length a)) b (put p a m) = put p (a ++ b) m.
Proof.
  revert p. induction a as [|x a IH]; intros p; cbn [app put length].
  - by rewrite Z.add_0_r.
  - rewrite put_insert by lia. f_equal. rewrite <-IH. f_equal. lia.
Qed.

Lemma put_same p bs (m : cmem) : holds m p bs -> put p bs m = m.
Proof.
  revert p. induction bs as [|b bs IH]; intros p H; [done|].
  apply holds_cons in H as [H0 H]. cbn [put]. rewrite IH by done. by apply insert_id.
Qed.

Lemma mapped_insert m p n q x : mapped m p n -> mapped (<[q := x]> m) p n.
Proof.
  intros H i L. destruct (Z.eq_dec (p + Z.of_nat i) q) as [->|N].
  - rewrite lookup_insert_eq. by eexists.
  - rewrite lookup_insert_ne by done. by apply H.
Qed.

Lemma holds_insert m p bs q x :
  holds m p bs -> q < p \/ p + Z.of_nat (length bs) <= q -> holds (<[q := x]> m) p bs.
Proof.
  intros H D. apply (holds_put m p bs q [x] H). cbn. lia.
Qed.

(** ** Moving bytes *)

(** Upwards: the source is ahead of the destination, or out of its way. *)
Lemma move_up bs a b m :
  holds m b bs -> mapped m a (length bs) -> bytes bs ->
  a <= b \/ b + Z.of_nat (length bs) <= a ->
  move_loop (length bs) a b 1 m = Done (tt, put a bs m).
Proof.
  intros H Hm By. revert a b m H Hm. induction By as [|x bs Hx _ IH]; intros a b m H Hm D; [done|].
  cbn [length move_loop put]. apply holds_cons in H as [H0 H]. apply mapped_S in Hm as [Ha Hm].
  mrun (rd8_run _ _ _ H0). mrun (wr8_run _ _ x Ha). rewrite u8_small by done.
  destruct D as [D|D].
  all: rewrite IH; [by rewrite put_insert by lia|apply holds_insert; [done|cbn [length] in *; lia]
    |by apply mapped_insert|cbn [length] in *; lia].
Qed.

(** Downwards: the source is behind the destination. *)
Lemma move_down bs a b m :
  holds m b bs -> mapped m a (length bs) -> bytes bs -> b <= a ->
  move_loop (length bs) (a + (Z.of_nat (length bs) - 1)) (b + (Z.of_nat (length bs) - 1)) (-1) m =
    Done (tt, put a bs m).
Proof.
  intros H Hm By D. revert m H Hm. induction bs as [|x bs IH] using rev_ind; intros m H Hm; [done|].
  apply Forall_app in By as [By Hx]. rewrite Forall_singleton in Hx.
  apply holds_app in H as [H Hl]. apply holds_cons in Hl as [Hl _].
  rewrite length_app in *. cbn [length] in *. replace (length bs + 1)%nat with (S (length bs)) in * by lia.
  cbn [move_loop].
  replace (b + (Z.of_nat (S (length bs)) - 1)) with (b + Z.of_nat (length bs)) by lia.
  replace (a + (Z.of_nat (S (length bs)) - 1)) with (a + Z.of_nat (length bs)) by lia.
  mrun (rd8_run _ _ _ Hl). erewrite bind_done by (apply wr8_run, Hm; lia).
  rewrite u8_small by done.
  replace (a + Z.of_nat (length bs) + -1) with (a + (Z.of_nat (length bs) - 1)) by lia.
  replace (b + Z.of_nat (length bs) + -1) with (b + (Z.of_nat (length bs) - 1)) by lia.
  rewrite IH; [|done|apply holds_insert; [done|lia]|].
  - by rewrite put_snoc, put_insert by lia.
  - apply mapped_insert. intros i L. apply Hm. lia.
Qed.

Lemma memcpy_move n d s i m : memcpy_loop n d s i m = move_loop n (d + i) (s + i) 1 m.
Proof.
  revert i m. induction n as [|n IH]; intros i m; [done|]. cbn [memcpy_loop move_loop].
  unfold mbind, M_bind. destruct (rd8 (s + i) m) as [[x m']| | |]; try done.
  destruct (wr8 (d + i) x m') as [[[] m'']| | |]; try done. rewrite IH. f_equal; lia.
Qed.

(** memmove copies a block of bytes to any place of the memory, whether and however the
    two blocks overlap: the destination gets the bytes that were in the source, nothing else
    changes, and the destination is returned. *)
Theorem memmove_any_overlap dst src bs m :
  holds m src bs -> mapped m dst (length bs) -> bytes bs ->
  memmove dst src (Z.of_nat (length bs)) m = Done (dst, put dst bs m).
Proof.
  intros H Hm By. unfold memmove. rewrite Nat2Z.id.
  destruct (Z.eqb_spec src dst) as [->|N]; [by rewrite put_same|].
  destruct (Z.ltb_spec dst src) as [L|L].
  - erewrite bind_done by (apply move_up; [done..|lia]). done.
  - erewrite bind_done by (apply move_down; [done..|lia]). done.
Qed.

(** memcpy does the same when the destination does not start inside the source. *)
Lemma memcpy_apart dst src bs m :
  holds m src bs -> mapped m dst (length bs) -> bytes bs ->
  dst <= src \/ src + Z.of_nat (length bs) <= dst ->
  memcpy dst src (Z.of_nat (length bs)) m = Done (dst, put dst bs m).
Proof.
  intros H Hm By D. unfold memcpy. rewrite Nat2Z.id.
  erewrite bind_done by (rewrite memcpy_move, !Z.add_0_r; by apply move_up). done.
Qed.

(** When it does, memcpy repeats what is in front of it. *)
Lemma memcpy_smears p x n m :
  m !! p = Some x -> is_u8 x -> mapped m (p + 1) n ->
  memcpy (p + 1) p (Z.of_nat n) m = Done (p + 1, put (p + 1) (replicate n x) m).
Proof.
  intros H Hx Hm. unfold memcpy. rewrite Nat2Z.id.
  erewrite bind_done; [done|]. rewrite memcpy_move, !Z.add_0_r.
  revert p m H Hm. induction n as [|n IH]; intros p m H Hm; [done|].
  cbn [move_loop replicate put]. apply mapped_S in Hm as [Ha Hm].
  mrun (rd8_run _ _ _ H). mrun (wr8_run _ _ x Ha). rewrite u8_small by done.
  rewrite IH; [by rewrite put_insert by lia|by rewrite lookup_insert_eq|by apply mapped_insert].
Qed.

(** ** Filling memory *)

Lemma mapped_split m p a b : mapped m p (a + b) -> mapped m p a /\ mapped m (p + Z.of_nat a) b.
Proof.
  intros H. split; intros i L; [apply H; lia|].
  replace (p + Z.of_nat a + Z.of_nat i) with (p + Z.of_nat (a + i)) by lia. apply H. lia.
Qed.

Lemma mapped_put m p n q bs : mapped m p n -> mapped (put q bs m) p n.
Proof.
  revert q. induction bs as [|b bs IH]; intros q H; [done|]. by apply mapped_insert, IH.
Qed.

Lemma wr_le_run n p v m : mapped m p n -> wr_le n p v m = Done (tt, put p (le_bytes n v) m).
Proof.
  revert p v m. induction n as [|n IH]; intros p v m H; [done|]. apply mapped_S in H as [Hp H].
  cbn [wr_le le_bytes put]. mrun (wr8_run _ _ v Hp).
  rewrite IH by (by apply mapped_insert). by rewrite put_insert by lia.
Qed.

Lemma set_words_run n w p c m :
  mapped m p (n * w) ->
  set_words n w p c m =
    Done (p + Z.of_nat (n * w), put p (concat (replicate n (le_bytes w c))) m).
Proof.
  revert p m. induction n as [|n IH]; intros p m H.
  { cbn. by rewrite Z.add_0_r. }
  cbn [set_words replicate concat Nat.mul] in *. apply mapped_split in H as [H1 H2].
  mrun (wr_le_run w p c m H1). rewrite IH by (by apply mapped_put).
  rewrite <-store_put_put, length_le_bytes. do 2 f_equal. lia.
Qed.

Lemma zero_words n w : concat (replicate n (le_bytes w 0)) = replicate (n * w) 0.
Proof.
  assert (E : le_bytes w 0 = replicate w 0) by (induction w as [|w IH]; [done|cbn; by f_equal]).
  rewrite E. induction n as [|n IH]; [done|]. cbn [replicate concat Nat.mul].
  by rewrite IH, replicate_add.
Qed.

Lemma single_bytes n c : concat (replicate n (le_bytes 1 c)) = replicate n (u8 c).
Proof. induction n as [|n IH]; [done|]. cbn [replicate concat]. by rewrite IH. Qed.

(** memset writes the low byte of its argument to every byte of the block and to nothing
    else, on each of its three paths: by double words, by words and by bytes.  It returns the
    end of the block, where the C standard wants its start; for an empty block the assertion
    fails. *)
Theorem memset_fills dst c n m :
  mapped m dst n ->
  memset dst c (Z.of_nat n) m =
    if (n =? 0)%nat then Panic
    else Done (dst + Z.of_nat n, put dst (replicate n (u8 c)) m).
Proof.
  intros H. unfold memset. destruct (Nat.eqb_spec n 0) as [->|N]; [done|].
  rewrite assert_run by (apply negb_true_iff, Z.eqb_neq; lia).
  assert (W : forall w : nat, (0 < w)%nat -> Z.of_nat n mod Z.of_nat w = 0 ->
    (Z.to_nat (Z.of_nat n / Z.of_nat w) * w = n)%nat).
  { intros w Hw E. apply Nat2Z.inj. rewrite Nat2Z.inj_mul, Z2Nat.id by (apply Z.div_pos; lia).
    rewrite Z.mul_comm. symmetry. apply Z.div_exact; lia. }
  destruct ((c =? 0) && (dst mod 8 =? 0) && (Z.of_nat n mod 8 =? 0)) eqn:E8.
  { apply andb_prop in E8 as [E8 En]. apply andb_prop in E8 as [->%Z.eqb_eq _].
    specialize (W 8%nat ltac:(lia) (proj1 (Z.eqb_eq _ _) En)). change (Z.of_nat 8) with 8 in W.
    rewrite set_words_run, zero_words, W by (by rewrite W). done. }
  destruct ((c =? 0) && (dst mod 4 =? 0) && (Z.of_nat n mod 4 =? 0)) eqn:E4.
  { apply andb_prop in E4 as [E4 En]. apply andb_prop in E4 as [->%Z.eqb_eq _].
    specialize (W 4%nat ltac:(lia) (proj1 (Z.eqb_eq _ _) En)). change (Z.of_nat 4) with 4 in W.
    rewrite set_words_run, zero_words, W by (by rewrite W). done. }
  rewrite Nat2Z.id, set_words_run, single_bytes by (by rewrite Nat.mul_1_r).
  by rewrite Nat.mul_1_r.
Qed.

(** ** Comparing *)

(** The difference at the first place where two byte strings differ. *)
Fixpoint first_diff (a b : list Z) : Z :=
  match a, b with
  | x :: a, y :: b => if x =? y then first_diff a b else x - y
  | _, _ => 0
  end.

Lemma first_diff_0 a b : length a = length b -> first_diff a b = 0 <-> a = b.
Proof.
  revert b. induction a as [|x a IH]; intros [|y b] L; try done. injection L as L. cbn.
  destruct (Z.eqb_spec x y) as [->|N].
  - rewrite IH by done. split; [by intros ->|by intros [= ->]].
  - split; [lia|by intros [= -> _]].
Qed.

Lemma memcmp_loop_run a b s1 s2 i m :
  holds m (s1 + i) a -> holds m (s2 + i) b -> length a = length b ->
  memcmp_loop (length a) s1 s2 i m = Done (first_diff a b, m).
Proof.
  revert b i. induction a as [|x a IH]; intros [|y b] i Ha Hb L; try done. injection L as L.
  apply holds_cons in Ha as [Ha0 Ha]. apply holds_cons in Hb as [Hb0 Hb].
  cbn [length memcmp_loop first_diff]. mrun (rd8_run _ _ _ Ha0). mrun (rd8_run _ _ _ Hb0).
  destruct (Z.eqb_spec x y) as [->|N].
  - rewrite Z.sub_diag. cbn [negb Z.eqb]. apply IH; [by rewrite Z.add_assoc..|done].
  - by rewrite (proj2 (Z.eqb_neq (x - y) 0)) by lia.
Qed.

Lemma memcmp_run a b s1 s2 m :
  holds m s1 a -> holds m s2 b -> length a = length b ->
  memcmp s1 s2 (Z.of_nat (length a)) m = Done (first_diff a b, m).
Proof.
  intros Ha Hb L. unfold memcmp. rewrite Nat2Z.id.
  apply memcmp_loop_run; by rewrite ?Z.add_0_r.
Qed.

(** ** Strings *)

(** A string of non-zero bytes and its terminator. *)
Definition cstring (m : cmem) (p : Z) (s : list Z) : Prop :=
  holds m p (s ++ [0]) /\ Forall (fun c => 0 < c < 256) s.

Lemma holds_size m p bs : holds m p bs -> (length bs <= size m)%nat.
Proof.
  intros H. set (addrs := (fun i => p + Z.of_nat i) <$> seq 0 (length bs)).
  assert (N : NoDup addrs) by (apply NoDup_fmap_2; [intros ? ? ?; lia|apply NoDup_seq]).
  assert (L : length addrs = length bs) by (unfold addrs; by rewrite length_fmap, length_seq).
  rewrite <-L, <-(size_list_to_set (C := gset Z) addrs N), <-size_dom.
  apply subseteq_size. intros q. rewrite elem_of_list_to_set. unfold addrs.
  rewrite list_elem_of_fmap. intros (i & -> & Hi). apply elem_of_seq in Hi.
  apply elem_of_dom. destruct (lookup_lt_is_Some_2 bs i ltac:(lia)) as [x E].
  rewrite (H i x E). by eexists.
Qed.

Lemma cstring_fuel m p s : cstring m p s -> (length s < S (size m))%nat.
Proof. intros [H _]. apply holds_size in H. rewrite length_app in H. cbn in H. lia. Qed.

(** The head of a string, for the loops over strings. *)
Lemma cstring_cons m p c s :
  cstring m p (c :: s) -> m !! p = Some c /\ 0 < c < 256 /\ cstring m (p + 1) s.
Proof.
  intros [H Nz]. apply holds_cons in H as [H0 H]. apply Forall_cons in Nz as [Hc Nz]. done.
Qed.
Lemma cstring_nil m p : cstring m p [] -> m !! p = Some 0.
Proof. intros [H _]. by apply holds_cons in H as [H0 _]. Qed.

Lemma strlen_loop_run s fuel p i m :
  cstring m (p + i) s -> (length s < fuel)%nat ->
  strlen_loop fuel p i m = Done (i + Z.of_nat (length s), m).
Proof.
  revert fuel i. induction s as [|c s IH]; intros [|fuel] i C L; try (cbn in L; lia);
    cbn [strlen_loop length] in *.
  - mrun (rd8_run _ _ _ (cstring_nil _ _ C)). by rewrite Z.add_0_r.
  - destruct (cstring_cons _ _ _ _ C) as (H0 & Hc & C'). mrun (rd8_run _ _ _ H0).
    rewrite (proj2 (Z.eqb_neq c 0)), IH by (lia || by rewrite Z.add_assoc).
    do 2 f_equal. lia.
Qed.

Lemma strlen_run m p s : cstring m p s -> strlen p m = Done (Z.of_nat (length s), m).
Proof.
  intros C. unfold strlen, with_fuel. mstep.
  apply (strlen_loop_run s _ p 0); [by rewrite Z.add_0_r|by apply (cstring_fuel m p)].
Qed.

Lemma strcmp_loop_run a b fuel p q m :
  cstring m p a -> cstring m q b -> (length a < fuel)%nat ->
  strcmp_loop fuel p q m = Done (first_diff (a ++ [0]) (b ++ [0]), m).
Proof.
  revert b fuel p q. induction a as [|x a IH]; intros b [|fuel] p q Ca Cb L; try (cbn in L; lia).
  all: cbn [strcmp_loop length app first_diff] in *.
  - mrun (rd8_run _ _ _ (cstring_nil _ _ Ca)). destruct b as [|y b].
    + mrun (rd8_run _ _ _ (cstring_nil _ _ Cb)). done.
    + destruct (cstring_cons _ _ _ _ Cb) as (H0 & Hy & _). mrun (rd8_run _ _ _ H0).
      cbn [app first_diff]. by rewrite (proj2 (Z.eqb_neq 0 y)) by lia.
  - destruct (cstring_cons _ _ _ _ Ca) as (H0 & Hx & Ca'). mrun (rd8_run _ _ _ H0).
    rewrite (proj2 (Z.eqb_neq x 0)) by lia. destruct b as [|y b].
    + mrun (rd8_run _ _ _ (cstring_nil _ _ Cb)). cbn [app first_diff].
      by rewrite (proj2 (Z.eqb_neq x 0)) by lia.
    + destruct (cstring_cons _ _ _ _ Cb) as (H1 & Hy & Cb'). mrun (rd8_run _ _ _ H1).
      cbn [app first_diff negb andb]. destruct (Z.eqb_spec x y); [|done]. by apply IH; [..|lia].
Qed.

Lemma strcmp_run a b p q m :
  cstring m p a -> cstring m q b ->
  strcmp p q m = Done (first_diff (a ++ [0]) (b ++ [0]), m).
Proof.
  intros Ca Cb. unfold strcmp, with_fuel. mstep.
  apply strcmp_loop_run; [done..|by apply (cstring_fuel m p)].
Qed.

(** Two strings compare equal when they are the same. *)
Lemma first_diff_strings a b :
  Forall (fun c => 0 < c < 256) a -> Forall (fun c => 0 < c < 256) b ->
  first_diff (a ++ [0]) (b ++ [0]) = 0 <-> a = b.
Proof.
  intros Ha. revert b. induction Ha as [|x a Hx _ IH]; intros b Hb; destruct Hb as [|y b Hy Hb].
  - done.
  - cbn [app first_diff]. rewrite (proj2 (Z.eqb_neq 0 y)) by lia. split; [lia|done].
  - cbn [app first_diff]. rewrite (proj2 (Z.eqb_neq x 0)) by lia. split; [lia|done].
  - cbn [app first_diff]. destruct (Z.eqb_spec x y) as [->|N].
    + rewrite IH by done. split; [by intros ->|by intros [= ->]].
    + split; [lia|by intros [= -> _]].
Qed.

(** strncmp does not stop at the terminator: equal strings of a shorter length than [n] may
    compare as different by what is behind them. *)
Lemma strncmp_past_terminator a b c x y p q m :
  holds m p (a ++ 0 :: x :: b) -> holds m q (a ++ 0 :: y :: c) -> x <> y ->
  strncmp p q (length a + 2) m = Done (x - y, m).
Proof.
  intros Hp Hq N. revert p q Hp Hq. induction a as [|z a IH]; intros p q Hp Hq.
  - apply holds_cons in Hp as [P0 Hp]. apply holds_cons in Hp as [P1 _].
    apply holds_cons in Hq as [Q0 Hq]. apply holds_cons in Hq as [Q1 _].
    cbn [length Nat.add strncmp]. mrun (rd8_run _ _ _ P0). mrun (rd8_run _ _ _ Q0). cbn [Z.eqb negb].
    mrun (rd8_run _ _ _ P1). mrun (rd8_run _ _ _ Q1). by rewrite (proj2 (Z.eqb_neq x y)).
  - apply holds_cons in Hp as [P0 Hp]. apply holds_cons in Hq as [Q0 Hq].
    cbn [length Nat.add strncmp]. mrun (rd8_run _ _ _ P0). mrun (rd8_run _ _ _ Q0).
    rewrite Z.eqb_refl. by apply IH.
Qed.

(** The copy loops, with the destination out of the way of what is still to be read. *)
Lemma copy_loop_run s fuel d p m :
  cstring m p s -> mapped m d (S (length s)) -> (length s < fuel)%nat ->
  d <= p \/ p + Z.of_nat (length s) < d ->
  copy_loop fuel d p m = Done (tt, put d (s ++ [0]) m).
Proof.
  revert fuel d p m. induction s as [|c s IH]; intros [|fuel] d p m C Hm L D; try (cbn in L; lia).
  all: apply mapped_S in Hm as [Hd Hm]; cbn [copy_loop length app put] in *.
  - mrun (rd8_run _ _ _ (cstring_nil _ _ C)). by mrun (wr8_run _ _ 0 Hd).
  - destruct (cstring_cons _ _ _ _ C) as (H0 & Hc & C'). mrun (rd8_run _ _ _ H0).
    mrun (wr8_run _ _ c Hd). rewrite (proj2 (Z.eqb_neq c 0)), u8_small by (unfold is_u8; lia).
    rewrite IH; [by rewrite put_insert by lia| |by apply mapped_insert|lia|lia].
    destruct C' as [H' Nz]. split; [|done]. apply holds_insert; [done|].
    rewrite length_app. cbn [length]. lia.
Qed.

Lemma strcpy_run s d p m :
  cstring m p s -> mapped m d (S (length s)) ->
  d <= p \/ p + Z.of_nat (length s) < d ->
  strcpy d p m = Done (d, put d (s ++ [0]) m).
Proof.
  intros C Hm D. unfold strcpy, with_fuel. rewrite bind_assoc. mstep.
  erewrite bind_done by (apply copy_loop_run; [done|done|by apply (cstring_fuel m p)|done]). done.
Qed.

Lemma append_copy fuel s1 s2 m : append_loop fuel s1 s2 m = copy_loop fuel (s1 + 1) s2 m.
Proof.
  revert s1 s2 m. induction fuel as [|fuel IH]; intros s1 s2 m; [done|].
  cbn [append_loop copy_loop]. unfold mbind, M_bind.
  destruct (rd8 s2 m) as [[c m1]| | |]; try done.
  destruct (wr8 (s1 + 1) c m1) as [[[] m2]| | |]; try done. destruct (c =? 0); [done|]. apply IH.
Qed.

Lemma end_loop_run s fuel p m :
  cstring m p s -> (length s < fuel)%nat ->
  end_loop fuel p m = Done (p + Z.of_nat (length s) + 1, m).
Proof.
  revert fuel p. induction s as [|c s IH]; intros [|fuel] p C L; try (cbn in L; lia);
    cbn [end_loop length] in *.
  - mrun (rd8_run _ _ _ (cstring_nil _ _ C)). by rewrite Z.add_0_r.
  - destruct (cstring_cons _ _ _ _ C) as (H0 & Hc & C'). mrun (rd8_run _ _ _ H0).
    rewrite (proj2 (Z.eqb_neq c 0)), IH by (lia || done). do 2 f_equal. lia.
Qed.

Lemma strcat_run a b d p m :
  cstring m d a -> cstring m p b -> mapped m d (S (length a + length b)) ->
  d + Z.of_nat (length a) <= p \/ p + Z.of_nat (length b) < d + Z.of_nat (length a) ->
  strcat d p m = Done (d, put (d + Z.of_nat (length a)) (b ++ [0]) m).
Proof.
  intros Ca Cb Hm D. unfold strcat, with_fuel. rewrite bind_assoc. mstep.
  erewrite bind_done by (apply end_loop_run; [done|by apply (cstring_fuel m d)]).
  rewrite bind_assoc. mstep. erewrite bind_done; [done|]. rewrite append_copy.
  replace (d + Z.of_nat (length a) + 1 - 2 + 1) with (d + Z.of_nat (length a)) by lia.
  apply copy_loop_run; [done| |by apply (cstring_fuel m p)|done].
  replace (S (length a + length b)) with (length a + S (length b))%nat in Hm by lia.
  by apply mapped_split in Hm as [_ Hm].
Qed.

(** strcat joins two strings: when the room behind the first is enough for the second and
    its terminator and does not touch the second, the call returns its first argument, which
    is then the joined string with the joined length, and the second string is as before. *)
Theorem strcat_concatenates a b d p m :
  cstring m d a -> cstring m p b -> mapped m d (S (length a + length b)) ->
  d + Z.of_nat (length a + length b) < p \/ p + Z.of_nat (length b) < d ->
  exists m', strcat d p m = Done (d, m') /\ cstring m' d (a ++ b) /\ cstring m' p b /\
    strlen d m' = Done (Z.of_nat (length a + length b), m') /\
    (forall q, q < d \/ d + Z.of_nat (length a + length b) < q -> m' !! q = m !! q).
Proof.
  intros Ca Cb Hm D. exists (put (d + Z.of_nat (length a)) (b ++ [0]) m).
  assert (C : cstring (put (d + Z.of_nat (length a)) (b ++ [0]) m) d (a ++ b)).
  { destruct Ca as [Ha Na], Cb as [Hb Nb]. split; [|by apply Forall_app].
    rewrite <-app_assoc. apply holds_app. split; [|apply put_holds].
    apply holds_put; [by apply holds_app in Ha as [Ha _]|lia]. }
  split_and!.
  - apply strcat_run; [done..|lia].
  - done.
  - destruct Cb as [Hb Nb]. split; [|done]. apply holds_put; [done|].
    rewrite !length_app. cbn [length]. lia.
  - rewrite (strlen_run _ _ _ C). by rewrite length_app.
  - intros q Hq. rewrite put_lookup, length_app. cbn [length].
    destruct (Z.leb_spec (d + Z.of_nat (length a)) q), (Z.ltb_spec q (d + Z.of_nat (length a) + Z.of_nat (length b + 1)));
      try lia; done.
Qed.

Module LibcExample.

(** Twelve bytes at 100: the strings ab, with room behind it, and cd. *)
Definition m0 : cmem := put 100 [97; 98; 0; 9; 9; 9; 9; 9; 99; 100; 0; 7] ∅.

Lemma m0_holds p bs : forallb (fun i => bool_decide (m0 !! (p + Z.of_nat i) = bs !! i)) (seq 0 (length bs)) = true ->
  holds m0 p bs.
Proof.
  intros H i x E. rewrite forallb_forall in H. pose proof (lookup_lt_Some _ _ _ E) as L.
  specialize (H i ltac:(apply in_seq; lia)). apply bool_decide_eq_true in H. by rewrite H.
Qed.

Lemma m0_mapped p n : forallb (fun i => bool_decide (is_Some (m0 !! (p + Z.of_nat i)))) (seq 0 n) = true ->
  mapped m0 p n.
Proof.
  intros H i L. rewrite forallb_forall in H. specialize (H i ltac:(apply in_seq; lia)).
  by apply bool_decide_eq_true in H.
Qed.

(** Moving four bytes up by two: the blocks overlap. *)
Lemma memmove_any_overlap_witness :
  memmove 102 100 (Z.of_nat 4) m0 = Done (102, put 102 [97; 98; 0; 9] m0).
Proof.
  apply (memmove_any_overlap 102 100 [97; 98; 0; 9] m0).
  - apply m0_holds. vm_compute. reflexivity.
  - apply m0_mapped. vm_compute. reflexivity.
  - by apply (bool_decide_unpack _).
Defined.

Lemma memset_fills_witness :
  memset 104 0 (Z.of_nat 4) m0 = Done (108, put 104 [0; 0; 0; 0] m0).
Proof.
  exact (memset_fills 104 0 4 m0 (m0_mapped 104 4 eq_refl)).
Defined.

Lemma strcat_concatenates_witness :
  exists m', strcat 100 108 m0 = Done (100, m') /\ cstring m' 100 [97; 98; 99; 100] /\
    cstring m' 108 [99; 100] /\ strlen 100 m' = Done (4, m') /\
    (forall q, q < 100 \/ 104 < q -> m' !! q = m0 !! q).
Proof.
  apply (strcat_concatenates [97; 98] [99; 100] 100 108 m0).
  - split; [apply m0_holds; vm_compute; reflexivity|by apply (bool_decide_unpack _)].
  - split; [apply m0_holds; vm_compute; reflexivity|by apply (bool_decide_unpack _)].
  - apply m0_mapped. vm_compute. reflexivity.
  - cbn. lia.
Defined.

End LibcExample.
