(* ===== verification/Gpio.v ===== *)
(** * Pins (src/libpi/src/gpio.c, src/network/nrf-interrupt.c)

    The general-purpose pins of the BCM2835: their functions, their levels, and the detection
    of edges the radio's interrupt uses; and the switches of the interrupt controller
    (src/libpi/src/timer-interrupt.c, interrupt-vec.c, src/libpi/staff-src/interrupts-c.c).
    The code reads and writes words at addresses; [GET32] and [PUT32] are a model of what the
    peripherals do on such an access, after their data sheet: writing ones to SET0 and CLR0
    sets and clears latches, writing ones to EDS0 clears events, writing ones to an enable or
    disable register of the interrupt controller sets or clears its bits. *)

From stdpp Require Import base tactics option list numbers gmap.
From Stdlib Require Import ZArith Lia.
From S2P Require Import Prelude.

(** ** The peripheral *)

Record bcm := mkBcm {
  fsel : list Z;          (** function select, ten pins a word *)
  latch : Z;              (** what output pins drive *)
  ext : Z;                (** what input pins see *)
  ren : Z;                (** rising edges to detect *)
  fen : Z;                (** falling edges to detect *)
  eds : Z;                (** edges detected *)
  irqs : list Z;          (** enabled interrupts: words 1, 2 and basic *)
  words : gmap Z Z        (** the other registers *) }.

Definition set_fsel (f : list Z) (s : bcm) : bcm := mkBcm f (latch s) (ext s) (ren s) (fen s) (eds s) (irqs s) (words s).
Definition set_latch (l : Z) (s : bcm) : bcm := mkBcm (fsel s) l (ext s) (ren s) (fen s) (eds s) (irqs s) (words s).
Definition set_ext (e : Z) (s : bcm) : bcm := mkBcm (fsel s) (latch s) e (ren s) (fen s) (eds s) (irqs s) (words s).
Definition set_ren (r : Z) (s : bcm) : bcm := mkBcm (fsel s) (latch s) (ext s) r (fen s) (eds s) (irqs s) (words s).
Definition set_fen (f : Z) (s : bcm) : bcm := mkBcm (fsel s) (latch s) (ext s) (ren s) f (eds s) (irqs s) (words s).
Definition set_eds (e : Z) (s : bcm) : bcm := mkBcm (fsel s) (latch s) (ext s) (ren s) (fen s) e (irqs s) (words s).
Definition set_irqs (i : list Z) (s : bcm) : bcm := mkBcm (fsel s) (latch s) (ext s) (ren s) (fen s) (eds s) i (words s).
Definition set_word (a v : Z) (s : bcm) : bcm :=
  mkBcm (fsel s) (latch s) (ext s) (ren s) (fen s) (eds s) (irqs s) (<[a := v]> (words s)).

Definition GPIO_BASE : Z := 0x20200000.
Definition gpio_set0 : Z := GPIO_BASE + 0x1C.
Definition gpio_clr0 : Z := GPIO_BASE + 0x28.
Definition gpio_lev0 : Z := GPIO_BASE + 0x34.
Definition GPIO_EDS0 : Z := GPIO_BASE + 0x40.
Definition GPIO_REN0 : Z := GPIO_BASE + 0x4C.
Definition GPIO_FEN0 : Z := GPIO_BASE + 0x58.

Definition IRQ_Base : Z := 0x2000b200.
Definition IRQ_pending_2 : Z := IRQ_Base + 8.
Definition Enable_IRQs_1 : Z := IRQ_Base + 0x10.
Definition Enable_IRQs_2 : Z := IRQ_Base + 0x14.
Definition Enable_Basic_IRQs : Z := IRQ_Base + 0x18.
Definition Disable_IRQs_1 : Z := IRQ_Base + 0x1c.
Definition Disable_IRQs_2 : Z := IRQ_Base + 0x20.
Definition Disable_Basic_IRQs : Z := IRQ_Base + 0x24.

(** The three bits that select a pin's function; 1 is an output. *)
Definition pin_function (s : bcm) (pin : Z) : Z :=
  Z.land (Z.shiftr (nth (Z.to_nat (pin / 10)) (fsel s) 0) (pin mod 10 * 3)) 7.
Definition pin_level (s : bcm) (pin : Z) : bool :=
  Z.testbit (if pin_function s pin =? 1 then latch s else ext s) pin.

(** The levels of pins 0 to 31 as a word. *)
Fixpoint gather (f : Z -> bool) (n : nat) : Z :=
  match n with
  | O => 0
  | S n => Z.lor (if f (Z.of_nat n) then 2 ^ Z.of_nat n else 0) (gather f n)
  end.
Definition levels (s : bcm) : Z := gather (pin_level s) 32.

Definition is_fsel (a : Z) : bool :=
  (GPIO_BASE <=? a) && (a <? GPIO_BASE + 24) && ((a - GPIO_BASE) mod 4 =? 0).
Definition fsel_index (a : Z) : nat := Z.to_nat ((a - GPIO_BASE) / 4).

(** The interrupt of the pins: word 2, bit 17. *)
Definition gpio_pending (s : bcm) : Z :=
  if negb (eds s =? 0) && Z.testbit (nth 1 (irqs s) 0) 17 then 2 ^ 17 else 0.

Definition GET32 (a : Z) : M bcm Z :=
  if is_fsel a then m_gets (fun s => nth (fsel_index a) (fsel s) 0)
  else if a =? gpio_lev0 then m_gets levels
  else if a =? GPIO_EDS0 then m_gets eds
  else if a =? GPIO_REN0 then m_gets ren
  else if a =? GPIO_FEN0 then m_gets fen
  else if a =? IRQ_pending_2 then m_gets gpio_pending
  else m_gets (fun s => default 0 (words s !! a)).

Definition irq_on (i : nat) (v : Z) (s : bcm) : bcm :=
  set_irqs (<[i := Z.lor (nth i (irqs s) 0) v]> (irqs s)) s.
Definition irq_off (i : nat) (v : Z) (s : bcm) : bcm :=
  set_irqs (<[i := Z.ldiff (nth i (irqs s) 0) v]> (irqs s)) s.

Definition PUT32 (a v : Z) : M bcm unit :=
  if is_fsel a then m_modify (fun s => set_fsel (<[fsel_index a := v]> (fsel s)) s)
  else if a =? gpio_set0 then m_modify (fun s => set_latch (Z.lor (latch s) v) s)
  else if a =? gpio_clr0 then m_modify (fun s => set_latch (Z.ldiff (latch s) v) s)
  else if a =? GPIO_EDS0 then m_modify (fun s => set_eds (Z.ldiff (eds s) v) s)
  else if a =? GPIO_REN0 then m_modify (set_ren v)
  else if a =? GPIO_FEN0 then m_modify (set_fen v)
  else if a =? Enable_IRQs_1 then m_modify (irq_on 0 v)
  else if a =? Enable_IRQs_2 then m_modify (irq_on 1 v)
  else if a =? Enable_Basic_IRQs then m_modify (irq_on 2 v)
  else if a =? Disable_IRQs_1 then m_modify (irq_off 0 v)
  else if a =? Disable_IRQs_2 then m_modify (irq_off 1 v)
  else if a =? Disable_Basic_IRQs then m_modify (irq_off 2 v)
  else m_modify (set_word a v).

(** The outside drives pin [pin] to [v]: edges that are to be detected are noted. *)
Definition drive (pin : Z) (v : bool) (s : bcm) : bcm :=
  let old := pin_level s pin in
  let s' := set_ext (if v then Z.setbit (ext s) pin else Z.clearbit (ext s) pin) s in
  let new := pin_level s' pin in
  if (negb old && new && Z.testbit (ren s) pin) || (old && negb new && Z.testbit (fen s) pin)
  then set_eds (Z.setbit (eds s) pin) s' else s'.

(** ** gpio.c *)

Definition GPIO_FUNC_INPUT : Z := 0.
Definition GPIO_FUNC_OUTPUT : Z := 1.
Definition GPIO_FUNC_ALT5 : Z := 2.

(** [1 << pin]: a shift by the width of [int] or more is undefined. *)
Definition bit_of (pin : Z) : M bcm Z :=
  if (0 <=? pin) && (pin <? 32) then mret (2 ^ pin) else m_undef.

(** [pin >= 32 && pin != 47]: no such pin. *)
Definition no_pin (pin : Z) : bool := (32 <=? pin) && negb (pin =? 47).

Definition gpio_set_function (pin function : Z) : M bcm unit :=
  if no_pin pin then mret tt
  else if (function <? 0) || (7 <? function) then mret tt
  else
    let offset := pin mod 10 * 3 in
    let addr := GPIO_BASE + pin / 10 * 4 in
    let mask := Z.shiftl 7 offset in
    v ← GET32 addr;
    PUT32 addr (Z.lor (Z.ldiff v mask) (Z.shiftl function offset)).

Definition gpio_set_output (pin : Z) : M bcm unit := gpio_set_function pin GPIO_FUNC_OUTPUT.
Definition gpio_set_input (pin : Z) : M bcm unit := gpio_set_function pin GPIO_FUNC_INPUT.

Definition gpio_set_on (pin : Z) : M bcm unit :=
  if no_pin pin then mret tt else b ← bit_of pin; PUT32 gpio_set0 b.
Definition gpio_set_off (pin : Z) : M bcm unit :=
  if no_pin pin then mret tt else b ← bit_of pin; PUT32 gpio_clr0 b.
Definition gpio_write (pin v : Z) : M bcm unit :=
  if negb (v =? 0) then gpio_set_on pin else gpio_set_off pin.

Definition gpio_read (pin : Z) : M bcm Z :=
  if no_pin pin then mret (-1)
  else
    v ← GET32 gpio_lev0;
    b ← bit_of pin;
    mret (if negb (Z.land v b =? 0) then 1 else 0).

(** ** Edges (nrf-interrupt.c) *)

Definition gpio_int_rising_edge (pin : Z) : M bcm unit :=
  if 32 <=? pin then mret tt
  else
    v ← GET32 GPIO_REN0;
    b ← bit_of pin;
    PUT32 GPIO_REN0 (Z.lor v b);;
    PUT32 Enable_IRQs_2 0x20000.

Definition gpio_int_falling_edge (pin : Z) : M bcm unit :=
  if 32 <=? pin then mret tt
  else
    v ← GET32 GPIO_FEN0;
    b ← bit_of pin;
    PUT32 GPIO_FEN0 (Z.lor v b);;
    PUT32 Enable_IRQs_2 0x20000.

Definition gpio_event_detected (pin : Z) : M bcm Z :=
  if 32 <=? pin then mret 0
  else v ← GET32 GPIO_EDS0; mret (Z.land (Z.shiftr v pin) 1).

Definition gpio_event_clear (pin : Z) : M bcm unit :=
  if 32 <=? pin then mret tt else b ← bit_of pin; PUT32 GPIO_EDS0 b.

Definition gpio_has_interrupt : M bcm Z :=
  v ← GET32 IRQ_pending_2; mret (Z.land (Z.shiftr v 17) 1).

(** 1 for an edge to low that is still low; the event is then taken. *)
Definition nrf_test_pin (pin : Z) : M bcm Z :=
  e ← gpio_event_detected pin;
  if negb (e =? 0) then
    v ← gpio_read pin;
    if v =? 0 then gpio_event_clear pin;; mret 1 else mret 0
  else mret 0.

(** Without the registration of the handler, which is part of the radios' interrupt. *)
Definition nrf_interrupt_init_pin (pin : Z) : M bcm unit :=
  gpio_set_input pin;;
  gpio_write pin 1;;
  if 32 <=? pin then mret tt
  else
    v ← GET32 GPIO_FEN0;
    b ← bit_of pin;
    PUT32 GPIO_FEN0 (Z.lor v b);;
    PUT32 Enable_IRQs_2 0x20000.

(** ** Switches of the interrupt controller *)

Definition RPI_BASIC_ARM_TIMER_IRQ : Z := 1.
Definition timer_interrupt_turnoff : M bcm unit := PUT32 Disable_Basic_IRQs RPI_BASIC_ARM_TIMER_IRQ.
Definition timer_interrupt_turnon : M bcm unit := PUT32 Enable_Basic_IRQs RPI_BASIC_ARM_TIMER_IRQ.

Definition arm_timer_Load : Z := 0x2000B400.
Definition arm_timer_Control : Z := 0x2000B400 + 8.
Definition RPI_ARMTIMER_CTRL_32BIT : Z := Z.shiftl 1 1.
Definition RPI_ARMTIMER_CTRL_PRESCALE_256 : Z := Z.shiftl 2 2.
Definition RPI_ARMTIMER_CTRL_INT_ENABLE : Z := Z.shiftl 1 5.
Definition RPI_ARMTIMER_CTRL_ENABLE : Z := Z.shiftl 1 7.

Definition timer_interrupt_init (ncycles : Z) : M bcm unit :=
  timer_interrupt_turnon;;
  PUT32 arm_timer_Load ncycles;;
  PUT32 arm_timer_Control
    (Z.lor (Z.lor (Z.lor RPI_ARMTIMER_CTRL_32BIT RPI_ARMTIMER_CTRL_ENABLE)
                  RPI_ARMTIMER_CTRL_INT_ENABLE) RPI_ARMTIMER_CTRL_PRESCALE_256).

Definition bcm_set_interrupts_off : M bcm unit :=
  PUT32 Disable_IRQs_1 0xffffffff;; PUT32 Disable_IRQs_2 0xffffffff.

(** ** Fields of a word *)

(** The three bits at [o]. *)
Definition field (x o : Z) : Z := Z.land (Z.shiftr x o) 7.

Lemma field_bit x o n : 0 <= o -> 0 <= n ->
  Z.testbit (field x o) n = (n <? 3) && Z.testbit x (n + o).
Proof.
  intros Ho Hn. unfold field. change 7 with (Z.ones 3).
  rewrite Z.land_spec, Z.shiftr_spec, Z.testbit_ones_nonneg by lia. apply andb_comm.
Qed.

Lemma seven_bit o n : 0 <= o -> 0 <= n ->
  Z.testbit (Z.shiftl 7 o) n = (o <=? n) && (n <? o + 3).
Proof.
  intros Ho Hn. rewrite Z.shiftl_spec by done. change 7 with (Z.ones 3).
  destruct (Z.leb_spec o n).
  - rewrite Z.testbit_ones_nonneg by lia. cbn [andb].
    destruct (Z.ltb_spec (n - o) 3), (Z.ltb_spec n (o + 3)); lia || done.
  - by rewrite Z.testbit_neg_r by lia.
Qed.

(** Replacing a field: the field has the new value, a field apart from it the old one. *)
Lemma field_replace x o f o' : 0 <= o -> 0 <= o' -> 0 <= f <= 7 ->
  o = o' \/ o + 3 <= o' \/ o' + 3 <= o ->
  field (Z.lor (Z.ldiff x (Z.shiftl 7 o)) (Z.shiftl f o)) o' = if o =? o' then f else field x o'.
Proof.
  intros Ho Ho' Hf D. apply Z.bits_inj'. intros n Hn.
  assert (Hi : forall k, 3 <= k -> Z.testbit f k = false).
  { intros k Hk. destruct (Z.eq_dec f 0) as [->|]; [apply Z.bits_0|].
    apply Z.bits_above_log2; [lia|]. apply Z.lt_le_trans with 3; [|lia].
    apply Z.log2_lt_pow2; lia. }
  rewrite field_bit, Z.lor_spec, Z.ldiff_spec, seven_bit, Z.shiftl_spec by lia.
  destruct (Z.eqb_spec o o') as [<-|N].
  - rewrite (proj2 (Z.leb_le o (n + o))) by lia. replace (n + o - o) with n by lia.
    destruct (Z.ltb_spec n 3); [|by rewrite Hi].
    rewrite (proj2 (Z.ltb_lt (n + o) (o + 3))) by lia. cbn. by rewrite andb_false_r.
  - rewrite field_bit by lia. destruct (Z.ltb_spec n 3); [|done]. cbn [andb].
    destruct (Z.leb_spec o (n + o')).
    + rewrite (proj2 (Z.ltb_ge (n + o') (o + 3))), Hi by lia. cbn. by rewrite andb_true_r, orb_false_r.
    + rewrite (Z.testbit_neg_r f) by lia. cbn. by rewrite andb_true_r, orb_false_r.
Qed.

Lemma pin_function_field s pin :
  pin_function s pin = field (nth (Z.to_nat (pin / 10)) (fsel s) 0) (pin mod 10 * 3).
Proof. done. Qed.

(** The pins the code knows. *)
Definition pin_ok (pin : Z) : Prop := 0 <= pin < 32 \/ pin = 47.

Lemma pin_ok_yes pin : pin_ok pin -> no_pin pin = false.
Proof. unfold pin_ok, no_pin. intros [H| ->]; [|done]. by rewrite (proj2 (Z.leb_gt _ _)) by lia. Qed.

Lemma pin_word pin : 0 <= pin < 60 ->
  is_fsel (GPIO_BASE + pin / 10 * 4) = true /\
  fsel_index (GPIO_BASE + pin / 10 * 4) = Z.to_nat (pin / 10).
Proof.
  intros H. assert (0 <= pin / 10 < 6) by (Z.to_euclidean_division_equations; lia).
  unfold is_fsel, fsel_index. replace (GPIO_BASE + pin / 10 * 4 - GPIO_BASE) with (pin / 10 * 4) by lia.
  rewrite Z.mod_mul, Z.div_mul by lia.
  rewrite (proj2 (Z.leb_le _ _)), (proj2 (Z.ltb_lt _ _)) by lia. done.
Qed.

Lemma set_function_run pin f s :
  pin_ok pin -> 0 <= f <= 7 ->
  gpio_set_function pin f s =
    Done (tt, set_fsel (<[Z.to_nat (pin / 10) :=
      Z.lor (Z.ldiff (nth (Z.to_nat (pin / 10)) (fsel s) 0) (Z.shiftl 7 (pin mod 10 * 3)))
            (Z.shiftl f (pin mod 10 * 3))]> (fsel s)) s).
Proof.
  intros Hp Hf. unfold gpio_set_function. rewrite pin_ok_yes by done.
  rewrite (proj2 (Z.ltb_ge f 0)), (proj2 (Z.ltb_ge 7 f)) by lia. cbn [orb].
  destruct (pin_word pin) as [E1 E2]; [destruct Hp; lia|].
  unfold GET32, PUT32. rewrite E1, E2. done.
Qed.

(** The functions of all pins after it. *)
Lemma set_function_pins pin f s : length (fsel s) = 6%nat -> pin_ok pin -> 0 <= f <= 7 ->
  exists s', gpio_set_function pin f s = Done (tt, s') /\ s' = set_fsel (fsel s') s /\
    length (fsel s') = 6%nat /\
    forall p, 0 <= p < 54 -> pin_function s' p = if p =? pin then f else pin_function s p.
Proof.
  intros L Hp Hf. eexists. split; [by apply set_function_run|].
  split; [done|]. split; [by cbn; rewrite length_insert|].
  intros p Hr. rewrite !pin_function_field. cbn [fsel set_fsel].
  assert (B : 0 <= pin / 10 < 6 /\ 0 <= p / 10 < 6)
    by (destruct Hp; Z.to_euclidean_division_equations; lia).
  destruct (Z.eq_dec (p / 10) (pin / 10)) as [E|E].
  - rewrite E, nth_lookup, list_lookup_insert_eq by lia. cbn [default from_option id].
    rewrite field_replace by (Z.to_euclidean_division_equations; lia).
    assert (Hi : (pin mod 10 * 3 =? p mod 10 * 3) = (p =? pin)); [|by rewrite Hi].
    destruct (Z.eqb_spec p pin) as [->|N]; [apply Z.eqb_refl|]. apply Z.eqb_neq.
    revert N E. clear. Z.to_euclidean_division_equations. lia.
  - rewrite (proj2 (Z.eqb_neq p pin)) by (intros ->; done).
    rewrite !nth_lookup, list_lookup_insert_ne by lia. done.
Qed.

(** gpio_set_function gives a pin its function and changes no other pin's function and
    nothing else of the peripheral; for a pin or a function that does not exist it does
    nothing. *)
Theorem gpio_set_function_exact pin f s :
  length (fsel s) = 6%nat -> 0 <= pin ->
  exists s', gpio_set_function pin f s = Done (tt, s') /\ s' = set_fsel (fsel s') s /\
    length (fsel s') = 6%nat /\
    forall p, 0 <= p < 54 ->
      pin_function s' p = if (p =? pin) && negb (no_pin pin) && (0 <=? f) && (f <=? 7)
                          then f else pin_function s p.
Proof.
  intros L Hpin. destruct (no_pin pin) eqn:En.
  { exists s. unfold gpio_set_function. rewrite En.
    split_and!; [done|by destruct s|done|]. intros p _. by rewrite andb_false_r. }
  destruct (decide (0 <= f <= 7)) as [Hf|Hf].
  2: { exists s. unfold gpio_set_function. rewrite En.
       destruct (Z.ltb_spec f 0), (Z.ltb_spec 7 f), (Z.leb_spec 0 f), (Z.leb_spec f 7); try lia.
       all: (split_and!; [done|by destruct s|done|]); intros p _; by rewrite ?andb_false_r. }
  assert (Hp : pin_ok pin).
  { unfold pin_ok, no_pin in *. destruct (Z.leb_spec 32 pin), (Z.eqb_spec pin 47); try done; lia. }
  destruct (set_function_pins pin f s L Hp Hf) as (s' & R & E & L' & F).
  exists s'. split_and!; [done..|]. intros p Hr. rewrite (F p Hr).
  by rewrite (proj2 (Z.leb_le 0 f)), (proj2 (Z.leb_le f 7)), !andb_true_r by lia.
Qed.

(** ** Levels *)

Lemma gather_bit f n i : 0 <= i -> Z.testbit (gather f n) i = (i <? Z.of_nat n) && f i.
Proof.
  intros Hi. induction n as [|n IH].
  { cbn [gather]. rewrite Z.bits_0. by destruct (Z.ltb_spec i (Z.of_nat 0)); [lia|]. }
  cbn [gather]. rewrite Z.lor_spec, IH.
  destruct (Z.eq_dec i (Z.of_nat n)) as [->|N].
  - rewrite (proj2 (Z.ltb_ge _ _)), (proj2 (Z.ltb_lt _ _)), orb_false_r by lia. cbn [andb].
    destruct (f (Z.of_nat n)); [by rewrite Z.pow2_bits_true by lia|by rewrite Z.bits_0].
  - replace (Z.testbit (if f (Z.of_nat n) then 2 ^ Z.of_nat n else 0) i) with false.
    + destruct (Z.ltb_spec i (Z.of_nat n)), (Z.ltb_spec i (Z.of_nat (S n))); done || lia.
    + destruct (f (Z.of_nat n)); [by rewrite Z.pow2_bits_false by lia|by rewrite Z.bits_0].
Qed.

Lemma bit_of_run pin s : 0 <= pin < 32 -> bit_of pin s = Done (2 ^ pin, s).
Proof. intros H. unfold bit_of. by rewrite (proj2 (Z.leb_le _ _)), (proj2 (Z.ltb_lt _ _)) by lia. Qed.

Lemma land_bit v pin : 0 <= pin -> negb (Z.land v (2 ^ pin) =? 0) = Z.testbit v pin.
Proof.
  intros H. destruct (Z.testbit v pin) eqn:E.
  - apply negb_true_iff, Z.eqb_neq. intros Z0.
    apply (f_equal (fun x => Z.testbit x pin)) in Z0.
    by rewrite Z.land_spec, E, Z.pow2_bits_true, Z.bits_0 in Z0.
  - apply negb_false_iff, Z.eqb_eq. apply Z.bits_inj'. intros n Hn.
    rewrite Z.land_spec, Z.bits_0. destruct (Z.eq_dec n pin) as [->|N]; [by rewrite E|].
    by rewrite Z.pow2_bits_false, andb_false_r by lia.
Qed.

Lemma small_pin pin : 0 <= pin < 32 -> no_pin pin = false.
Proof. intros H. apply pin_ok_yes. by left. Qed.

(** Reading a pin gives its level. *)
Lemma gpio_read_run pin s : 0 <= pin < 32 ->
  gpio_read pin s = Done (if pin_level s pin then 1 else 0, s).
Proof.
  intros H. unfold gpio_read. rewrite small_pin by done.
  change (GET32 gpio_lev0) with (m_gets levels : M bcm Z). mstep. mrun (bit_of_run pin s H).
  rewrite land_bit by lia. unfold levels. rewrite gather_bit by lia.
  by rewrite (proj2 (Z.ltb_lt pin (Z.of_nat 32))) by lia.
Qed.

(** Writing a pin sets its latch. *)
Lemma gpio_write_run pin v s : 0 <= pin < 32 ->
  gpio_write pin v s =
    Done (tt, set_latch (if v =? 0 then Z.clearbit (latch s) pin else Z.setbit (latch s) pin) s).
Proof.
  intros H. unfold gpio_write, gpio_set_on, gpio_set_off. rewrite !small_pin by done.
  destruct (v =? 0); cbn [negb]; mrun (bit_of_run pin s H).
  all: unfold Z.clearbit, Z.setbit; rewrite Z.shiftl_1_l; done.
Qed.

(** An output pin reads as it was written, and no other pin's level changes. *)
Lemma gpio_write_level pin v s s' : 0 <= pin < 32 -> gpio_write pin v s = Done (tt, s') ->
  (pin_function s pin = GPIO_FUNC_OUTPUT -> pin_level s' pin = negb (v =? 0)) /\
  (forall p, 0 <= p -> p <> pin -> pin_level s' p = pin_level s p).
Proof.
  intros H. rewrite gpio_write_run by done. intros [= <-]. unfold pin_level.
  assert (F : forall p l, pin_function (set_latch l s) p = pin_function s p) by done.
  split.
  - intros E. rewrite F, E. cbn. destruct (v =? 0).
    + by rewrite Z.clearbit_eq by lia.
    + by rewrite Z.setbit_eq by lia.
  - intros p Hp N. rewrite F. destruct (pin_function s p =? 1); [|done]. cbn.
    destruct (v =? 0); [by rewrite Z.clearbit_neq by lia|by rewrite Z.setbit_neq by lia].
Qed.

(** Pin 47 passes the test of the pin's number, but its bit is in the second word: the shift
    is undefined. *)
Lemma gpio_47_undefined s :
  gpio_set_on 47 s = Undef /\ gpio_set_off 47 s = Undef /\ gpio_read 47 s = Undef.
Proof. done. Qed.

(** ** Events *)

Lemma event_detected_run pin s : 0 <= pin < 32 ->
  gpio_event_detected pin s = Done (if Z.testbit (eds s) pin then 1 else 0, s).
Proof.
  intros H. unfold gpio_event_detected. rewrite (proj2 (Z.leb_gt _ _)) by lia.
  change (GET32 GPIO_EDS0) with (m_gets eds : M bcm Z). mstep.
  unfold mret, M_ret. do 2 f_equal. change 1 with (Z.ones 1) at 1.
  apply Z.bits_inj'. intros n Hn. rewrite Z.land_spec, Z.shiftr_spec, Z.testbit_ones_nonneg by lia.
  destruct (Z.eq_dec n 0) as [->|N].
  - cbn [Z.ltb]. rewrite Z.add_0_l. by destruct (Z.testbit (eds s) pin).
  - rewrite (proj2 (Z.ltb_ge n 1)), andb_false_r by lia.
    destruct (Z.testbit (eds s) pin); [|by rewrite Z.bits_0].
    symmetry. apply (Z.bits_above_log2 1); cbn; lia.
Qed.

Lemma event_clear_run pin s : 0 <= pin < 32 ->
  gpio_event_clear pin s = Done (tt, set_eds (Z.clearbit (eds s) pin) s).
Proof.
  intros H. unfold gpio_event_clear. rewrite (proj2 (Z.leb_gt _ _)) by lia.
  mrun (bit_of_run pin s H). unfold Z.clearbit. by rewrite Z.shiftl_1_l.
Qed.

(** nrf_test_pin takes an event whose line is still low. *)
Lemma test_pin_run pin s : 0 <= pin < 32 ->
  nrf_test_pin pin s =
    if Z.testbit (eds s) pin && negb (pin_level s pin)
    then Done (1, set_eds (Z.clearbit (eds s) pin) s) else Done (0, s).
Proof.
  intros H. unfold nrf_test_pin. mrun (event_detected_run pin s H).
  destruct (Z.testbit (eds s) pin); [|done]. cbn [Z.eqb negb andb].
  mrun (gpio_read_run pin s H). destruct (pin_level s pin); [done|]. cbn [Z.eqb negb].
  by mrun (event_clear_run pin s H).
Qed.

(** A detected edge is a pending interrupt. *)
Lemma pending_run pin s : Z.testbit (eds s) pin = true -> Z.testbit (nth 1 (irqs s) 0) 17 = true ->
  gpio_has_interrupt s = Done (1, s).
Proof.
  intros E I. unfold gpio_has_interrupt.
  change (GET32 IRQ_pending_2) with (m_gets gpio_pending : M bcm Z). mstep. unfold gpio_pending.
  rewrite I. destruct (Z.eqb_spec (eds s) 0) as [Z0|_]; [by rewrite Z0, Z.bits_0 in E|]. done.
Qed.

(** An event whose line has gone up again is not reported and not taken: the interrupt stays
    pending. *)
Lemma test_pin_high pin s : 0 <= pin < 32 -> Z.testbit (eds s) pin = true -> pin_level s pin = true ->
  nrf_test_pin pin s = Done (0, s) /\
  (Z.testbit (nth 1 (irqs s) 0) 17 = true -> gpio_has_interrupt s = Done (1, s)).
Proof.
  intros H E L. rewrite test_pin_run, E, L by done. split; [done|]. by apply (pending_run pin).
Qed.

(** After nrf_interrupt_init the pin is an input with falling edges detected. *)
Lemma interrupt_init_run pin s : length (fsel s) = 6%nat -> 0 <= pin < 32 -> length (irqs s) = 3%nat ->
  exists s', nrf_interrupt_init_pin pin s = Done (tt, s') /\
    pin_function s' pin = GPIO_FUNC_INPUT /\ Z.testbit (fen s') pin = true /\
    (forall p, 0 <= p -> Z.testbit (fen s) p = true -> Z.testbit (fen s') p = true) /\
    ext s' = ext s /\ eds s' = eds s /\ Z.testbit (nth 1 (irqs s') 0) 17 = true.
Proof.
  intros L H L3. unfold nrf_interrupt_init_pin, gpio_set_input.
  erewrite bind_done by (apply set_function_run; [by left|unfold GPIO_FUNC_INPUT; lia]).
  erewrite bind_done by (by apply gpio_write_run). cbn [Z.eqb].
  rewrite (proj2 (Z.leb_gt 32 pin)) by lia.
  change (GET32 GPIO_FEN0) with (m_gets fen : M bcm Z). mstep.
  erewrite bind_done by (by apply bit_of_run).
  eexists. split; [reflexivity|]. cbn [ext eds fen irqs irq_on set_irqs set_fen set_latch set_fsel].
  split_and!; try done.
  - rewrite pin_function_field. cbn [fsel set_latch set_fsel set_fen irq_on set_irqs].
    assert (0 <= pin / 10 < 6) by (Z.to_euclidean_division_equations; lia).
    rewrite nth_lookup, list_lookup_insert_eq by lia. cbn [default from_option id].
    rewrite field_replace by (unfold GPIO_FUNC_INPUT; Z.to_euclidean_division_equations; lia).
    by rewrite Z.eqb_refl.
  - rewrite Z.lor_spec, Z.pow2_bits_true by lia. apply orb_true_r.
  - intros p Hp E. by rewrite Z.lor_spec, E.
  - rewrite (nth_lookup (<[_ := _]> _)), list_lookup_insert_eq by lia. cbn [default from_option id].
    rewrite Z.lor_spec. apply orb_true_r.
Qed.

(** ** The interrupt controller *)

(** The timer's interrupt is switched on and off without a change of the others. *)
Lemma timer_switch s : length (irqs s) = 3%nat ->
  exists son soff, timer_interrupt_turnon s = Done (tt, son) /\ timer_interrupt_turnoff s = Done (tt, soff) /\
    (forall i n, 0 <= n -> Z.testbit (nth i (irqs son) 0) n =
       ((i =? 2)%nat && (n =? 0)) || Z.testbit (nth i (irqs s) 0) n) /\
    (forall i n, 0 <= n -> Z.testbit (nth i (irqs soff) 0) n =
       negb ((i =? 2)%nat && (n =? 0)) && Z.testbit (nth i (irqs s) 0) n).
Proof.
  intros L. do 2 eexists. split; [reflexivity|]. split; [reflexivity|]. cbn [irqs irq_on irq_off set_irqs].
  assert (B : forall n, 0 <= n -> Z.testbit RPI_BASIC_ARM_TIMER_IRQ n = (n =? 0)).
  { intros n Hn. change RPI_BASIC_ARM_TIMER_IRQ with (2 ^ 0).
    destruct (Z.eqb_spec n 0) as [->|N]; [done|]. by rewrite Z.pow2_bits_false by lia. }
  split; intros i n Hn; (destruct (Nat.eqb_spec i 2) as [->|N];
    [rewrite (nth_lookup (<[_ := _]> _)), list_lookup_insert_eq by lia
    |rewrite (nth_lookup (<[_ := _]> _)), list_lookup_insert_ne, <-nth_lookup by lia]).
  - cbn [default from_option id andb]. rewrite Z.lor_spec, B by done. apply orb_comm.
  - done.
  - cbn [default from_option id andb]. rewrite Z.ldiff_spec, B by done. apply andb_comm.
  - done.
Qed.

Module GpioExample.

Definition bcm0 : bcm := mkBcm (replicate 6 0) 0 0 0 0 0 [0; 0; 0] ∅.

Lemma gpio_set_function_exact_witness :
  exists s', gpio_set_function 27 GPIO_FUNC_OUTPUT bcm0 = Done (tt, s') /\ s' = set_fsel (fsel s') bcm0 /\
    length (fsel s') = 6%nat /\
    forall p, 0 <= p < 54 ->
      pin_function s' p = if (p =? 27) && negb (no_pin 27) && (0 <=? GPIO_FUNC_OUTPUT) && (GPIO_FUNC_OUTPUT <=? 7)
                          then GPIO_FUNC_OUTPUT else pin_function bcm0 p.
Proof. apply (gpio_set_function_exact 27 GPIO_FUNC_OUTPUT bcm0); [reflexivity|lia]. Defined.

End GpioExample.
