(* ===== verification/Timing.v ===== *)
(** * Delays and the software UART

    src/libpi/staff-src/timer.c (delays by the microsecond counter),
    src/libpi/include/cycle-util.h (delays by the cycle counter) and src/libpi/src/sw-uart.c, a
    serial line made of timed writes to a pin.  A counter runs by itself: how far it has come
    between two reads is the hardware's, [tick n] for the [n]th read.  Reads return the low 32
    bits.  The levels of the pins over time are kept as a list of changes. *)

From stdpp Require Import base tactics option list numbers gmap.
From Stdlib Require Import ZArith Lia.
From S2P Require Import Prelude Gpio.

(** ** Counters *)

Record counter := mkCounter { now : Z; reads : nat }.

(** The counter's advance between its reads: at least 1, at most [jitter]. *)
Class Ticks := { tick : nat -> Z; jitter : Z; tick_range : forall n, 1 <= tick n <= jitter }.

Section counters.
Context `{Ticks}.

Definition counter_read : M counter Z := fun s =>
  let t := now s + tick (reads s) in Done (u32 t, mkCounter t (S (reads s))).

(** *** The microsecond counter *)

Definition timer_get_usec_raw : M counter Z := counter_read.
Definition timer_get_usec : M counter Z := timer_get_usec_raw.

(** The loop of delay_us and of delay_ncycles: until [n] have passed since [start]. *)
Fixpoint wait_loop (fuel : nat) (start n : Z) : M counter Z :=
  match fuel with
  | O => m_nofuel
  | S fuel => c ← counter_read; if u32 (c - start) <? n then wait_loop fuel start n else mret c
  end.
Definition wait_fuel (n : Z) : nat := S (Z.to_nat n).

Definition delay_us (us : Z) : M counter unit :=
  s ← timer_get_usec;
  wait_loop (wait_fuel us) s us;;
  mret tt.
Definition delay_ms (ms : Z) : M counter unit := delay_us (u32 (ms * 1000)).
Definition delay_sec (sec : Z) : M counter unit := delay_ms (u32 (sec * 1000)).

(** *** The cycle counter *)

Definition cycle_cnt_read : M counter Z := counter_read.
Definition delay_ncycles (start n : Z) : M counter Z := wait_loop (wait_fuel n) start n.

(** *** Times in seconds, milliseconds and microseconds (pretty-time.h, time-print.h) *)

Definition usec_to_sec (tot_usec : Z) : Z := tot_usec / (1000 * 1000).
Definition usec_to_msec (tot_usec : Z) : Z := tot_usec mod (1000 * 1000) / 1000.
Definition usec_to_usec (tot_usec : Z) : Z := tot_usec mod 1000.
Definition time_to_sec (tot : Z) : Z := tot / (1000 * 1000).
Definition time_to_msec (tot : Z) : Z := tot mod (1000 * 1000) / 1000.
Definition time_to_usec (tot : Z) : Z := tot mod 1000.

Record pretty_time_t := mkPretty { pt_sec : Z; pt_msec : Z; pt_usec : Z }.
Definition pretty_time_mk (start_usec : Z) : M counter pretty_time_t :=
  t ← timer_get_usec;
  let tot_usec := u32 (t - start_usec) in
  mret (mkPretty (usec_to_sec tot_usec) (usec_to_msec tot_usec) (usec_to_usec tot_usec)).

(** nrf-hw-support.c: thousands of bytes a second, whole and fraction; less than a millisecond
    divides by zero. *)
Record frac_t := mkFrac { whole : Z; fraction : Z }.
Definition kbytes_per_sec (tot_bytes tot_usec : Z) : M counter frac_t :=
  let tot_ms := tot_usec / 1000 in
  if tot_ms =? 0 then m_undef else
  let b := u32 (1000 * tot_bytes) / tot_ms in
  mret (mkFrac (b / 1000) (b mod 1000)).

(** ** The software UART *)

(** [sw_uart_t]. *)
Record sw_uart_t := mkSwUart {
  tx : Z;
  rx : Z;
  baud : Z;
  cycle_per_bit : Z;
  usec_per_bit : Z }.

(** The cycle counter, the pins, and the latches over time, the newest first. *)
Record timed := mkTimed {
  t_clock : counter;
  t_pins : bcm;
  t_wave : list (Z * Z) }.

Definition on_clock {A} (m : M counter A) : M timed A :=
  m_zoom t_clock (fun c s => mkTimed c (t_pins s) (t_wave s)) m.
Definition on_tpins {A} (m : M bcm A) : M timed A :=
  m_zoom t_pins (fun p s => mkTimed (t_clock s) p ((now (t_clock s), latch p) :: t_wave s)) m.

Definition write_cyc_until (pin v start ncycles : Z) : M timed Z :=
  on_tpins (gpio_write pin v);;
  on_clock (delay_ncycles start ncycles).

(** The loop over the bits [i], [n] of them left. *)
Fixpoint bits_loop (n : nat) (u : sw_uart_t) (c start : Z) (i : Z) : M timed unit :=
  match n with
  | O => mret tt
  | S n =>
      write_cyc_until (tx u) (Z.land (Z.shiftr c i) 1)
        (u32 (start + cycle_per_bit u * (i + 1))) (cycle_per_bit u);;
      bits_loop n u c start (i + 1)
  end.

Definition sw_uart_put8 (u : sw_uart_t) (c : Z) : M timed unit :=
  start ← on_clock cycle_cnt_read;
  write_cyc_until (tx u) 0 start (cycle_per_bit u);;
  bits_loop 8 u c start 0;;
  write_cyc_until (tx u) 1 (u32 (start + cycle_per_bit u * 9)) (cycle_per_bit u);;
  mret tt.

(** The bytes of the message up to its terminator. *)
Fixpoint sw_uart_putk (u : sw_uart_t) (msg : list Z) : M timed unit :=
  match msg with
  | [] => mret tt
  | c :: msg => sw_uart_put8 u c;; sw_uart_putk u msg
  end.

Definition sw_uart_mk_helper (tx rx baud cyc_per_bit usec_per_bit : Z) : M timed sw_uart_t :=
  on_tpins (gpio_set_input rx);;
  on_tpins (gpio_set_output tx);;
  on_tpins (gpio_set_on tx);;
  c ← on_clock cycle_cnt_read;
  on_clock (delay_ncycles c cyc_per_bit);;
  let mhz := 700 * 1000 * 1000 in
  let derived := u32 (cyc_per_bit * baud) in
  m_assert ((u32 (mhz - baud) <=? derived) && (derived <=? u32 (mhz + baud)));;
  mret (mkSwUart tx rx baud cyc_per_bit usec_per_bit).

(** The macro [sw_uart_init]. *)
Definition sw_uart_init (tx rx baud : Z) : M timed sw_uart_t :=
  sw_uart_mk_helper tx rx baud (700 * 1000 * 1000 / baud) (1000 * 1000 / baud).

(** ** The receiver at the other end

    The level of a pin at time [t]: that of the last change by then, high before the first.
    A receiver for 8 bits, no parity and one stop bit takes samples in the middle of the bits
    after the falling edge at [edge]. *)

Fixpoint level_at (pin : Z) (w : list (Z * Z)) (t : Z) : bool :=
  match w with
  | [] => true
  | (t0, l) :: w => if t0 <=? t then Z.testbit l pin else level_at pin w t
  end.

Fixpoint sample_byte (n : nat) (level : Z -> bool) (t bit : Z) : Z :=
  match n with
  | O => 0
  | S n => (if level t then 1 else 0) + 2 * sample_byte n level (t + bit) bit
  end.

Definition receive8n1 (pin : Z) (w : list (Z * Z)) (bit edge : Z) : option Z :=
  let level := level_at pin w in
  let mid k := edge + bit * k + bit / 2 in
  if negb (level (mid 0)) && level (mid 9) then Some (sample_byte 8 level (mid 1) bit) else None.

(** A receiver that looks at the line from the time [a] on: it waits for the line to go low,
    takes the samples of that frame, and looks again from the middle of the stop bit; at the end
    the line stays high for ever. *)
Inductive receives (pin : Z) (w : list (Z * Z)) (bit : Z) : Z -> list Z -> Prop :=
  | receives_nil a : (forall t, a <= t -> level_at pin w t = true) -> receives pin w bit a []
  | receives_cons a e c msg :
      a < e -> (forall t, a <= t < e -> level_at pin w t = true) -> level_at pin w e = false ->
      receive8n1 pin w bit e = Some c -> receives pin w bit (e + bit * 9 + bit / 2) msg ->
      receives pin w bit a (c :: msg).

(** ** Theory *)

Lemma u32_diff a b : 0 <= a - b < 2^32 -> u32 (u32 a - u32 b) = a - b.
Proof.
  intros R. unfold u32 in *. rewrite <-Zminus_mod. by apply Z.mod_small.
Qed.
Lemma u32_sum b k : u32 (u32 b + k) = u32 (b + k).
Proof. unfold u32. by rewrite Zplus_mod_idemp_l. Qed.

(** A wait ends between the time asked for and one advance of the counter later, or at the
    first read when that time has passed already; [start] is the counter at the time [t0]. *)
Lemma wait_loop_run fuel t0 start n s :
  u32 t0 = start -> 0 <= n -> t0 <= now s -> Z.max (now s) (t0 + n) + jitter < t0 + 2^32 ->
  n - (now s - t0) < Z.of_nat fuel -> (0 < fuel)%nat ->
  exists s', wait_loop fuel start n s = Done (u32 (now s'), s') /\
    t0 + n <= now s' /\ now s < now s' <= Z.max (now s) (t0 + n - 1) + jitter.
Proof.
  intros <- Hn. revert s. induction fuel as [|fuel IH]; intros s Hs Hw Hf F0; [lia|].
  pose proof (tick_range (reads s)) as T. cbn [wait_loop].
  assert (R : counter_read s = Done (u32 (now s + tick (reads s)),
    mkCounter (now s + tick (reads s)) (S (reads s)))) by done.
  mrun R. rewrite u32_diff by lia.
  destruct (Z.ltb_spec (now s + tick (reads s) - t0) n) as [L|L].
  - edestruct IH as (s' & R' & A & B); [..|exists s'; split; [exact R'|]]; cbn in *; lia.
  - exists (mkCounter (now s + tick (reads s)) (S (reads s))). split; [done|]. cbn. lia.
Qed.

(** The three parts are those of the time since [t0], as long as it is less than 2^32
    microseconds. *)
Lemma pretty_time_parts t0 s : t0 <= now s -> now s + jitter < t0 + 2^32 ->
  exists p s', pretty_time_mk (u32 t0) s = Done (p, s') /\ now s < now s' /\
    now s' - t0 = 1000 * 1000 * pt_sec p + 1000 * pt_msec p + pt_usec p /\
    0 <= pt_sec p /\ 0 <= pt_msec p < 1000 /\ 0 <= pt_usec p < 1000.
Proof.
  intros H1 H2. pose proof (tick_range (reads s)) as T. unfold pretty_time_mk.
  assert (R : timer_get_usec s = Done (u32 (now s + tick (reads s)),
    mkCounter (now s + tick (reads s)) (S (reads s)))) by done.
  mrun R. do 2 eexists. split; [reflexivity|].
  rewrite u32_diff by lia. cbn [now pt_sec pt_msec pt_usec]. unfold usec_to_sec, usec_to_msec, usec_to_usec.
  split; [lia|]. set (d := now s + tick (reads s) - t0). assert (0 <= d) by (unfold d; lia). clearbody d.
  Z.to_euclidean_division_equations. lia.
Qed.

Lemma kbytes_per_sec_run b t s : 1000 <= t -> 0 <= 1000 * b < 2^32 ->
  kbytes_per_sec b t s = Done (mkFrac (b / (t / 1000)) (1000 * b / (t / 1000) mod 1000), s).
Proof.
  intros Ht Hb. unfold kbytes_per_sec. assert (1 <= t / 1000) by (Z.to_euclidean_division_equations; lia).
  rewrite (proj2 (Z.eqb_neq _ 0)), u32_small by (unfold is_u32; lia). unfold mret, M_ret. do 3 f_equal.
  rewrite Z.div_div, Z.mul_comm, (Z.mul_comm (t / 1000)), <-Z.div_div by lia. by rewrite Z.div_mul.
Qed.

Lemma kbytes_early b t s : 0 <= t < 1000 -> kbytes_per_sec b t s = Undef.
Proof. intros Ht. unfold kbytes_per_sec. by rewrite Z.div_small. Qed.

Lemma jitter_pos : 1 <= jitter.
Proof. pose proof (tick_range 0). lia. Qed.

(** delay_us waits at least the time asked for, and less than two advances longer. *)
Lemma delay_us_run us s : 0 <= us -> us + 2 * jitter < 2^32 ->
  exists s', delay_us us s = Done (tt, s') /\ now s + us <= now s' <= now s + us + 2 * jitter.
Proof.
  intros Hu Hj. pose proof (tick_range (reads s)) as T. pose proof jitter_pos as J. unfold delay_us.
  assert (R : timer_get_usec s = Done (u32 (now s + tick (reads s)),
    mkCounter (now s + tick (reads s)) (S (reads s)))) by done.
  mrun R.
  destruct (wait_loop_run (wait_fuel us) (now s + tick (reads s)) _ us
    (mkCounter (now s + tick (reads s)) (S (reads s))) eq_refl) as (s' & R' & A & B);
    cbn [now] in *; try (unfold wait_fuel; lia).
  mrun R'. exists s'. split; [done|lia].
Qed.

(** The product wraps: a wait of 4295 seconds is one of 33 milliseconds. *)
Lemma delay_sec_wraps s : 32704 + 2 * jitter < 2^32 ->
  exists s', delay_sec 4295 s = Done (tt, s') /\ now s' <= now s + 32704 + 2 * jitter.
Proof.
  intros Hj. unfold delay_sec, delay_ms. change (u32 (u32 (4295 * 1000) * 1000)) with 32704.
  destruct (delay_us_run 32704 s) as (s' & R & B); [lia..|]. exists s'. split; [exact R|lia].
Qed.

(** ** Frames *)

(** The line of a frame: a start bit, the bits of the byte from the lowest, a stop bit. *)
Definition frame_bit (c k : Z) : bool :=
  if k =? 0 then false else if k =? 9 then true else Z.testbit c (k - 1).

(** The pin [pin] was written at about the start of each bit [i < k] of a frame that begins at
    [t0]: exactly then for the first, less than [jitter] later for the others.  [w] is what was
    there before. *)
Inductive framed (pin c bit t0 : Z) (w : list (Z * Z)) : Z -> list (Z * Z) -> Prop :=
  | framed_0 : framed pin c bit t0 w 0 w
  | framed_S k w' t l :
      framed pin c bit t0 w k w' -> 0 <= k ->
      t0 + bit * k <= t <= t0 + bit * k + (if k =? 0 then 0 else jitter) ->
      Z.testbit l pin = frame_bit c k ->
      framed pin c bit t0 w (k + 1) ((t, l) :: w').

(** Within a bit, after the jitter, the level is the frame's. *)
Lemma framed_level pin c bit t0 w k w' : framed pin c bit t0 w k w' -> jitter < bit ->
  forall i t, 0 <= i < k -> t0 + bit * i + jitter <= t < t0 + bit * (i + 1) ->
    level_at pin w' t = frame_bit c i.
Proof.
  intros F J. induction F as [|k w' t l F IH Hk Ht L]; intros i u Hi Hu; [lia|].
  pose proof jitter_pos as Jp. cbn [level_at]. destruct (Z.eq_dec i k) as [->|N].
  - rewrite (proj2 (Z.leb_le _ _)); [done|]. destruct (k =? 0); lia.
  - rewrite (proj2 (Z.leb_gt _ _)); [apply IH; lia|]. nia.
Qed.

(** Writing one bit. *)
Lemma write_bit pin v t0 n s :
  0 <= pin < 32 -> 0 <= n -> t0 <= now (t_clock s) ->
  Z.max (now (t_clock s)) (t0 + n) + jitter < t0 + 2^32 ->
  exists s' l, write_cyc_until pin v (u32 t0) n s = Done (u32 (now (t_clock s')), s') /\
    t_wave s' = (now (t_clock s), l) :: t_wave s /\ Z.testbit l pin = negb (v =? 0) /\
    t0 + n <= now (t_clock s') <= Z.max (now (t_clock s)) (t0 + n - 1) + jitter.
Proof.
  intros Hp Hn H0 Hw. unfold write_cyc_until.
  erewrite bind_done by (apply zoom_done; by apply gpio_write_run). cbn [latch set_latch].
  set (l := if v =? 0 then _ else _).
  destruct (wait_loop_run (wait_fuel n) t0 (u32 t0) n (t_clock s) eq_refl Hn H0 Hw)
    as (c & R & A & B); [unfold wait_fuel; lia|unfold wait_fuel; lia|].
  exists (mkTimed c (set_latch l (t_pins s)) ((now (t_clock s), l) :: t_wave s)), l.
  split; [|split; [reflexivity|]].
  - unfold on_clock. erewrite zoom_done by exact R. reflexivity.
  - cbn [t_clock]. split; [|lia]. unfold l. destruct (v =? 0).
    + by rewrite Z.clearbit_eq by lia.
    + by rewrite Z.setbit_eq by lia.
Qed.

Lemma shift_bit_value c i : 0 <= i -> negb (Z.land (Z.shiftr c i) 1 =? 0) = Z.testbit c i.
Proof.
  intros Hi. change 1 with (2 ^ 0). rewrite land_bit by lia. by rewrite Z.shiftr_spec.
Qed.

(** A frame being sent: its first [k] bits are out, and the counter is at the start of the
    next one. *)
Record sending (u : sw_uart_t) (c t0 : Z) (w : list (Z * Z)) (k : Z) (s : timed) : Prop := {
  sd_frame : framed (tx u) c (cycle_per_bit u) t0 w k (t_wave s);
  sd_time : t0 + cycle_per_bit u * k <= now (t_clock s) <=
            t0 + cycle_per_bit u * k + (if k =? 0 then 0 else jitter) }.

Lemma send_bit u c t0 w k s v :
  0 <= tx u < 32 -> jitter < cycle_per_bit u -> 2 * cycle_per_bit u + jitter < 2^32 -> 0 <= k ->
  sending u c t0 w k s -> negb (v =? 0) = frame_bit c k ->
  exists s' x, write_cyc_until (tx u) v (u32 (u32 t0 + cycle_per_bit u * k)) (cycle_per_bit u) s =
      Done (x, s') /\ sending u c t0 w (k + 1) s'.
Proof.
  intros Hp J W Hk [F T] E. pose proof jitter_pos as Jp. rewrite u32_sum.
  assert (T' : t0 + cycle_per_bit u * k <= now (t_clock s) <= t0 + cycle_per_bit u * k + jitter)
    by (destruct (k =? 0); lia).
  destruct (write_bit (tx u) v (t0 + cycle_per_bit u * k) (cycle_per_bit u) s)
    as (s' & l & R & Wv & L & B); [done|lia..|].
  exists s'. eexists. split; [exact R|]. constructor.
  - rewrite Wv. apply framed_S; [done|done|done|by rewrite L].
  - rewrite (proj2 (Z.eqb_neq (k + 1) 0)) by lia. lia.
Qed.

Lemma bits_loop_run u c t0 w n i s :
  0 <= tx u < 32 -> jitter < cycle_per_bit u -> 2 * cycle_per_bit u + jitter < 2^32 ->
  0 <= i -> i + Z.of_nat n = 8 -> sending u c t0 w (i + 1) s ->
  exists s', bits_loop n u c (u32 t0) i s = Done (tt, s') /\ sending u c t0 w 9 s'.
Proof.
  intros Hp J W. revert i s. induction n as [|n IH]; intros i s Hi Hn Sd.
  { exists s. replace (i + 1) with 9 in Sd by lia. done. }
  cbn [bits_loop].
  destruct (send_bit u c t0 w (i + 1) s (Z.land (Z.shiftr c i) 1)) as (s1 & x & R & Sd1);
    [done..|lia|done| |].
  { rewrite shift_bit_value by done. unfold frame_bit.
    rewrite (proj2 (Z.eqb_neq (i + 1) 0)), (proj2 (Z.eqb_neq (i + 1) 9)) by lia. f_equal. lia. }
  mrun R. apply IH; [lia..|done].
Qed.

(** The frame of a byte, from the counter's first read on. *)
Lemma uart_put8_run u c s :
  0 <= tx u < 32 -> jitter < cycle_per_bit u -> 2 * cycle_per_bit u + jitter < 2^32 ->
  exists s' t0, sw_uart_put8 u c s = Done (tt, s') /\ now (t_clock s) < t0 /\
    sending u c t0 (t_wave s) 10 s'.
Proof.
  intros Hp J W. pose proof (tick_range (reads (t_clock s))) as T.
  set (t0 := now (t_clock s) + tick (reads (t_clock s))).
  set (s0 := mkTimed (mkCounter t0 (S (reads (t_clock s)))) (t_pins s) (t_wave s)).
  assert (R0 : on_clock cycle_cnt_read s = Done (u32 t0, s0)) by done.
  unfold sw_uart_put8. mrun R0.
  assert (Sd0 : sending u c t0 (t_wave s) 0 s0) by (constructor; [constructor|cbn; lia]).
  destruct (send_bit u c t0 (t_wave s) 0 s0 0) as (s1 & x1 & R1 & Sd1); [done..|].
  rewrite Z.mul_0_r, u32_sum, Z.add_0_r in R1. mrun R1.
  destruct (bits_loop_run u c t0 (t_wave s) 8 0 s1) as (s2 & R2 & Sd2); [done..|]. mrun R2.
  destruct (send_bit u c t0 (t_wave s) 9 s2 1) as (s3 & x3 & R3 & Sd3); [done..|]. mrun R3.
  exists s3, t0. split; [done|]. split; [unfold t0; lia|exact Sd3].
Qed.

(** ** What the receiver reads *)

(** Before a frame the line is as it was; at its start it is low; after it, high. *)
Lemma framed_before pin c bit t0 w k w' t : framed pin c bit t0 w k w' -> 0 <= bit -> t < t0 ->
  level_at pin w' t = level_at pin w t.
Proof.
  intros F B. induction F as [|k w' u l F IH Hk Hu L]; intros Ht; [done|].
  cbn [level_at]. rewrite (proj2 (Z.leb_gt _ _)) by nia. by apply IH.
Qed.

Lemma framed_start pin c bit t0 w k w' : framed pin c bit t0 w k w' -> 0 < bit -> 0 < k ->
  level_at pin w' t0 = false.
Proof.
  intros F B. induction F as [|k w' u l F IH Hk Hu L]; intros Hp; [lia|]. cbn [level_at].
  destruct (Z.eqb_spec k 0) as [->|N].
  - rewrite (proj2 (Z.leb_le _ _)) by lia. by rewrite L.
  - rewrite (proj2 (Z.leb_gt _ _)) by nia. apply IH. lia.
Qed.

Lemma framed_after pin c bit t0 w w' t : framed pin c bit t0 w 10 w' ->
  t0 + bit * 9 + jitter <= t -> level_at pin w' t = true.
Proof.
  intros F Ht. inversion F as [|k w2 u l F' Hk Hu L E]. assert (k = 9) as -> by lia. cbn [level_at].
  cbn in Hu. rewrite (proj2 (Z.leb_le _ _)) by lia. by rewrite L.
Qed.

Lemma sample_byte_bits n level c t bit : 0 <= c ->
  (forall i, 0 <= i < Z.of_nat n -> level (t + bit * i) = Z.testbit c i) ->
  sample_byte n level t bit = c mod 2 ^ Z.of_nat n.
Proof.
  revert c t. induction n as [|n IH]; intros c t Hc Hl; [by rewrite Z.mod_1_r|].
  cbn [sample_byte]. rewrite (IH (c / 2)).
  - replace (level t) with (Z.testbit c 0) by (rewrite <-Hl by lia; f_equal; lia).
    rewrite Nat2Z.inj_succ, Z.pow_succ_r, Z.rem_mul_r by lia.
    rewrite <-Z.bit0_mod. by destruct (Z.testbit c 0).
  - apply Z.div_pos; lia.
  - intros i Hi. rewrite <-Z.div2_div, Z.div2_spec, Z.shiftr_spec by lia.
    rewrite <-(Hl (i + 1)) by lia. f_equal. lia.
Qed.

Definition receivable (u : sw_uart_t) : Prop :=
  0 <= tx u < 32 /\ jitter <= cycle_per_bit u / 2 /\ 2 * cycle_per_bit u + jitter < 2^32.

Lemma framed_received u c t0 w w' :
  receivable u -> is_u8 c -> framed (tx u) c (cycle_per_bit u) t0 w 10 w' ->
  receive8n1 (tx u) w' (cycle_per_bit u) t0 = Some c.
Proof.
  intros (Hp & J & W) Hc F. pose proof jitter_pos as Jp.
  assert (B : 0 < cycle_per_bit u / 2 < cycle_per_bit u) by (Z.to_euclidean_division_equations; lia).
  assert (L : forall k, 0 <= k < 10 -> level_at (tx u) w'
    (t0 + cycle_per_bit u * k + cycle_per_bit u / 2) = frame_bit c k).
  { intros k Hk. apply (framed_level _ _ _ _ _ _ _ F); lia. }
  unfold receive8n1. rewrite !L by lia. cbn [frame_bit Z.eqb negb andb].
  rewrite (sample_byte_bits 8 _ c).
  - f_equal. apply Z.mod_small. exact Hc.
  - unfold is_u8 in Hc. lia.
  - intros i Hi. change (Z.of_nat 8) with 8 in Hi.
    replace (t0 + cycle_per_bit u * 1 + cycle_per_bit u / 2 + cycle_per_bit u * i)
      with (t0 + cycle_per_bit u * (i + 1) + cycle_per_bit u / 2) by lia.
    rewrite L by lia. unfold frame_bit.
    rewrite (proj2 (Z.eqb_neq (i + 1) 0)), (proj2 (Z.eqb_neq (i + 1) 9)) by lia. f_equal. lia.
Qed.

(** A receiver cannot read two messages from one line. *)
Lemma receives_one pin w bit a msg msg' :
  receives pin w bit a msg -> receives pin w bit a msg' -> msg' = msg.
Proof.
  intros R. revert msg'. induction R as [a Hi|a e c msg Ha Hi Hl Hr _ IH]; intros msg' R'.
  - destruct R' as [|? e' ? ? ? _ Hl']; [done|]. rewrite Hi in Hl' by lia. done.
  - destruct R' as [? Hi'|? e' c' msg' Ha' Hi' Hl' Hr' R']; [by rewrite Hi' in Hl by lia|].
    assert (e' = e) as ->.
    { destruct (Z.lt_trichotomy e' e) as [Hlt|[Heq|Hgt]]; [|done|].
      - by rewrite Hi in Hl' by lia.
      - by rewrite Hi' in Hl by lia. }
    rewrite Hr in Hr'. injection Hr' as <-. f_equal. by apply IH.
Qed.

(** The line has been high since [a]. *)
Definition idle_since (u : sw_uart_t) (a : Z) (s : timed) : Prop :=
  a <= now (t_clock s) /\ forall t, a <= t -> level_at (tx u) (t_wave s) t = true.

(** Sampling up to a time sees only what was written by then. *)
Lemma receive_before pin w w' bit e :
  0 < bit -> (forall t, t < e + bit * 10 -> level_at pin w' t = level_at pin w t) ->
  receive8n1 pin w' bit e = receive8n1 pin w bit e.
Proof.
  intros B E. assert (H2 : 0 <= bit / 2 < bit) by (Z.to_euclidean_division_equations; lia).
  unfold receive8n1. rewrite !E by lia.
  assert (S : forall n t, t + bit * Z.of_nat n <= e + bit * 10 ->
    sample_byte n (level_at pin w') t bit = sample_byte n (level_at pin w) t bit).
  { induction n as [|n IH]; intros t Ht; [done|]. cbn [sample_byte].
    rewrite IH by lia. rewrite E by nia. done. }
  by rewrite S by (change (Z.of_nat 8) with 8; lia).
Qed.

(** What sw_uart_putk does: a receiver that has looked at the idle line since [a] reads the
    message, and nothing that was written before is disturbed. *)
Lemma putk_received u msg a s :
  receivable u -> bytes msg -> idle_since u a s ->
  exists s', sw_uart_putk u msg s = Done (tt, s') /\
    (forall t, t < now (t_clock s) -> level_at (tx u) (t_wave s') t = level_at (tx u) (t_wave s) t) /\
    receives (tx u) (t_wave s') (cycle_per_bit u) a msg.
Proof.
  intros Rv By. pose proof Rv as (Hp & J & W). pose proof jitter_pos as Jp.
  assert (B : 0 < cycle_per_bit u / 2 < cycle_per_bit u) by (Z.to_euclidean_division_equations; lia).
  revert a s. induction By as [|c msg Hc _ IH]; intros a s [Ha Id].
  { exists s. split_and!; [done|done|by constructor]. }
  cbn [sw_uart_putk].
  destruct (uart_put8_run u c s) as (s1 & t0 & R1 & H0 & [F T]); [done|lia|done|].
  cbn [Z.eqb] in T. mrun R1.
  destruct (IH (t0 + cycle_per_bit u * 9 + cycle_per_bit u / 2) s1) as (s2 & R2 & E2 & F2).
  { split; [lia|]. intros t Ht. apply (framed_after _ _ _ _ _ _ _ F). lia. }
  exists s2. split_and!; [done| |apply receives_cons with t0; [lia| | | |done]].
  - intros t Ht. rewrite E2 by nia. apply (framed_before _ _ _ _ _ _ _ _ F); lia.
  - intros t Ht. rewrite E2 by nia. rewrite (framed_before _ _ _ _ _ _ _ _ F) by lia. apply Id. lia.
  - rewrite E2 by nia. apply (framed_start _ _ _ _ _ _ _ F); lia.
  - rewrite (receive_before (tx u) (t_wave s1)); [|lia|intros t Ht; apply E2; lia].
    by apply (framed_received u c t0 (t_wave s)).
Qed.

(** The set-up's own check of the bit time passes, and leaves the line high. *)
Lemma sw_uart_init_run txp rxp b s :
  0 <= txp < 32 -> pin_ok rxp -> 0 < b -> jitter <= 700000000 / b / 2 ->
  exists s' u, sw_uart_init txp rxp b s = Done (u, s') /\ tx u = txp /\
    cycle_per_bit u = 700000000 / b /\ receivable u /\ idle_since u (now (t_clock s)) s'.
Proof.
  intros Ht Hr Hb J. pose proof jitter_pos as Jp. set (cyc := 700000000 / b) in *.
  assert (C : 2 <= cyc <= 700000000 /\ 2 * jitter <= cyc /\ 700000000 - b < cyc * b <= 700000000 /\ b <= 350000000).
  { pose proof (Z.div_mod 700000000 b) as D. pose proof (Z.mod_pos_bound 700000000 b) as M.
    fold cyc in D. clearbody cyc. 
    assert (2 * jitter <= cyc) by (Z.to_euclidean_division_equations; lia). nia. }
  unfold sw_uart_init, sw_uart_mk_helper. change (700 * 1000 * 1000) with 700000000. fold cyc.
  assert (Ef : forall f pin p, pin_ok pin -> 0 <= f <= 7 ->
    exists p', gpio_set_function pin f p = Done (tt, p') /\ latch p' = latch p).
  { intros f pin p Hp Hf. eexists. split; [by apply set_function_run|done]. }
  destruct (Ef 0 rxp (t_pins s)) as (p1 & R1 & L1); [done|lia|].
  erewrite bind_done by (apply zoom_done; exact R1). cbn [t_pins].
  destruct (Ef 1 txp p1) as (p2 & R2 & L2); [by left|lia|].
  erewrite bind_done by (apply zoom_done; exact R2). cbn [t_pins].
  pose proof (gpio_write_run txp 1 p2 Ht) as R3. change (gpio_write txp 1) with (gpio_set_on txp) in R3.
  erewrite bind_done by (apply zoom_done; exact R3). cbn [t_clock t_pins t_wave Z.eqb latch set_latch].
  erewrite bind_done by (apply zoom_done; reflexivity). cbn [t_clock t_pins t_wave].
  pose proof (tick_range (reads (t_clock s))) as T.
  destruct (wait_loop_run (wait_fuel cyc) (now (t_clock s) + tick (reads (t_clock s))) _ cyc
    (mkCounter (now (t_clock s) + tick (reads (t_clock s))) (S (reads (t_clock s)))) eq_refl)
    as (c & R4 & A & B); cbn [now] in *; try (unfold wait_fuel; lia).
  erewrite bind_done by (apply zoom_done; exact R4).
  rewrite !u32_small by (unfold is_u32; lia).
  rewrite assert_run by (apply andb_true_intro; split; apply Z.leb_le; lia).
  eexists _, (mkSwUart txp rxp b cyc _). split; [reflexivity|]. cbn [tx cycle_per_bit].
  do 2 (split; [done|]). split; [unfold receivable; cbn [tx cycle_per_bit]; lia|].
  split; [cbn [t_clock]; lia|]. intros t Hw. cbn [t_wave tx level_at t_clock] in *.
  rewrite (proj2 (Z.leb_le _ _)) by lia. by rewrite Z.setbit_eq by lia.
Qed.

(** C29: on a line set up by sw_uart_init, sw_uart_putk sends exactly its message.  A receiver
    for the same baud rate that watches the line from the set-up on finds it high until the
    first frame, reads from each falling edge one byte with its start and stop bit, finds the
    line high between the frames and for ever after the last, and has then read the bytes of
    the message, in order, each once, and cannot have read anything else.  This holds whatever
    the times between the reads of the cycle counter, as long as they are at most half a bit. *)
Theorem sw_uart_message_received txp rxp b msg s :
  0 <= txp < 32 -> pin_ok rxp -> 0 < b -> jitter <= 700000000 / b / 2 -> bytes msg ->
  exists s', (u ← sw_uart_init txp rxp b; sw_uart_putk u msg) s = Done (tt, s') /\
    receives txp (t_wave s') (700000000 / b) (now (t_clock s)) msg /\
    forall msg', receives txp (t_wave s') (700000000 / b) (now (t_clock s)) msg' -> msg' = msg.
Proof.
  intros Ht Hr Hb J By.
  destruct (sw_uart_init_run txp rxp b s Ht Hr Hb J) as (s1 & u & R & Et & Ec & Rv & Id). mrun R.
  destruct (putk_received u msg _ s1 Rv By Id) as (s2 & R2 & _ & F). rewrite Et, Ec in F.
  exists s2. split_and!; [done|done|]. intros msg'. by apply receives_one.
Qed.
End counters.

Module TimingExample.

(** Reads of the counter take three and four cycles in turn. *)
Definition uneven (n : nat) : Z := if Nat.even n then 3 else 4.
Lemma uneven_range n : 1 <= uneven n <= 4.
Proof. unfold uneven. destruct (Nat.even n); lia. Qed.
#[local] Instance some_ticks : Ticks :=
  {| tick := uneven; jitter := 4; tick_range := uneven_range |}.

Definition timed0 : timed := mkTimed (mkCounter 0xfffff000 0) GpioExample.bcm0 [].

Lemma sw_uart_message_received_witness :
  exists s', (u ← sw_uart_init 21 20 115200; sw_uart_putk u [104; 105; 105]) timed0 = Done (tt, s') /\
    receives 21 (t_wave s') (700000000 / 115200) 0xfffff000 [104; 105; 105] /\
    forall msg', receives 21 (t_wave s') (700000000 / 115200) 0xfffff000 msg' -> msg' = [104; 105; 105].
Proof.
  apply (sw_uart_message_received 21 20 115200 [104; 105; 105] timed0).
  - lia.
  - left. lia.
  - lia.
  - by apply Z.leb_le.
  - by apply (bool_decide_unpack _).
Defined.
End TimingExample.
