(* ===== verification/Nrf.v ===== *)
(** * The radio driver

    [network/nrf-hw-support.c], [nrf-driver.c], [nrf-public.c], [nrf-interrupt.c], the
    accessors of [nrf-hw-support.h], the time-outs of [timeout.h] and [dfs/dfs-common.c].
    The hardware's side of an SPI transfer is a model of the NRF24L01+ as far as the driver
    relies on it: its registers, its three-deep FIFOs, the flags of its status register and its
    interrupt line.  Packets can arrive before any SPI transfer, also of the interrupt handler;
    an interrupt can come between any two transfers of a send that are outside its system call.
    A single transfer (the SPI code is not part of the repository) is not interrupted: the
    comment at _wrap_spi_n_transfer says what happens when it is.  Delays and LEDs have no effect
    on the state. *)

From stdpp Require Import base tactics option list numbers gmap.
From Stdlib Require Import ZArith Lia.
From S2P Require Import Prelude Circular.
#[local] Open Scope Z_scope.

(** ** Registers and commands *)

Definition NRF_CONFIG : Z := 0x0.
Definition NRF_EN_AA : Z := 0x1.
Definition NRF_EN_RXADDR : Z := 0x2.
Definition NRF_SETUP_AW : Z := 0x3.
Definition NRF_SETUP_RETR : Z := 0x4.
Definition NRF_RF_CH : Z := 0x5.
Definition NRF_RF_SETUP : Z := 0x6.
Definition NRF_STATUS : Z := 0x7.
Definition NRF_RX_ADDR_P0 : Z := 0xa.
Definition NRF_RX_ADDR_P1 : Z := 0xb.
Definition NRF_TX_ADDR : Z := 0x10.
Definition NRF_RX_PW_P0 : Z := 0x11.
Definition NRF_RX_PW_P1 : Z := 0x12.
Definition NRF_RX_PW_P2 : Z := 0x13.
Definition NRF_RX_PW_P3 : Z := 0x14.
Definition NRF_RX_PW_P4 : Z := 0x15.
Definition NRF_RX_PW_P5 : Z := 0x16.
Definition NRF_FIFO_STATUS : Z := 0x17.
Definition NRF_FEATURE : Z := 0x1d.

Definition NRF_WR_REG : Z := 0x20.
Definition NRF_R_RX_PAYLOAD : Z := 0x61.
Definition W_TX_PAYLOAD_NO_ACK : Z := 0xb0.
Definition FLUSH_TX : Z := 0xe1.
Definition FLUSH_RX : Z := 0xe2.
Definition NRF_NOP : Z := 0xff.

Definition PWR_UP : Z := 1.
Definition PRIM_RX : Z := 0.
Definition MAX_RT : Z := 4.
Definition TX_DS : Z := 5.
Definition RX_DR : Z := 6.

Definition USE_TX_INTERRUPT : bool := false.
Definition USE_RX_INTERRUPT : bool := true.
Definition set_bit (x : Z) : Z := Z.shiftl 1 x.
Definition tx_config : Z :=
  Z.lor (Z.lor (set_bit 3) (set_bit 2)) (Z.lor (set_bit PWR_UP) (Z.lor (set_bit 5) (set_bit 4))).
Definition rx_config : Z := Z.lor tx_config (set_bit PRIM_RX).

Definition nrf_default_addr_nbytes : Z := 3.
Definition nrf_default_retran_attempts : Z := 6.
Definition nrf_default_retran_delay : Z := 2000.
Definition nrf_default_db : Z := Z.shiftl 3 1.
Definition nrf_default_data_rate : Z := Z.shiftl 1 3.

(** ** The chip *)

(** Registers, the two FIFOs (received packets with their pipe), the interrupt flags, the CE
    pin, how many transfers the packet in the air still takes, the packets sent so far
    with their address; the packets for pipe 1 that will arrive before each of the coming
    transfers made while the chip listens; and whether the interrupt line has gone from high to
    low. *)
Record chip : Type := mk_chip {
  ch_reg : gmap Z (list Z);
  ch_rx : list (Z * list Z);
  ch_tx : list (list Z);
  ch_flags : Z;
  ch_ce : bool;
  ch_busy : nat;
  ch_air : list (Z * list Z);
  ch_coming : list (list (list Z));
  ch_fell : bool
}.

(** How long the [n]th packet is in the air; whether the chip takes W_TX_PAYLOAD_NO_ACK also
    without EN_DYN_ACK of its FEATURE register (which the data sheet says enables it); whether an
    interrupt comes at the [i]th place of a send where one can, with [n] packets sent before. *)
Class Airtime : Type := {
  airtime : nat -> nat;
  noack_always : bool;
  irq_in_send : nat -> nat -> bool
}.

Definition reg_bytes (c : chip) (r : Z) : list Z := default [] (ch_reg c !! r).
Definition reg8 (c : chip) (r : Z) : Z := hd 0 (reg_bytes c r).

Definition b2z (b : bool) : Z := if b then 1 else 0.

(** STATUS: the flags, the pipe of the first received packet (7: none) and "transmit FIFO
    full". *)
Definition status_of (c : chip) : Z :=
  Z.lor (ch_flags c)
    (Z.lor (Z.shiftl (match ch_rx c with [] => 7 | (p, _) :: _ => p end) 1)
           (b2z (bool_decide (3 <= length (ch_tx c))%nat))).
Definition fifo_status_of (c : chip) : Z :=
  Z.lor (Z.lor (b2z (bool_decide (ch_rx c = []))) (Z.shiftl (b2z (bool_decide (3 <= length (ch_rx c))%nat)) 1))
        (Z.lor (Z.shiftl (b2z (bool_decide (ch_tx c = []))) 4)
               (Z.shiftl (b2z (bool_decide (3 <= length (ch_tx c))%nat)) 5)).

Definition read_reg (c : chip) (r : Z) : list Z :=
  if r =? NRF_STATUS then [status_of c]
  else if r =? NRF_FIFO_STATUS then [fifo_status_of c]
  else reg_bytes c r.

(** Writing a 1 to a flag of STATUS clears it; FIFO_STATUS is read-only. *)
Definition write_reg (r : Z) (bs : list Z) (c : chip) : chip :=
  if r =? NRF_STATUS then
    mk_chip (ch_reg c) (ch_rx c) (ch_tx c) (Z.ldiff (ch_flags c) (hd 0 bs)) (ch_ce c) (ch_busy c) (ch_air c)
      (ch_coming c) (ch_fell c)
  else if r =? NRF_FIFO_STATUS then c
  else mk_chip (<[r := bs]> (ch_reg c)) (ch_rx c) (ch_tx c) (ch_flags c) (ch_ce c) (ch_busy c) (ch_air c)
    (ch_coming c) (ch_fell c).

Definition set_rx (rx : list (Z * list Z)) (c : chip) : chip :=
  mk_chip (ch_reg c) rx (ch_tx c) (ch_flags c) (ch_ce c) (ch_busy c) (ch_air c) (ch_coming c) (ch_fell c).
Definition set_tx (tx : list (list Z)) (c : chip) : chip :=
  mk_chip (ch_reg c) (ch_rx c) tx (ch_flags c) (ch_ce c) (ch_busy c) (ch_air c) (ch_coming c) (ch_fell c).
Definition set_ce (ce : bool) (c : chip) : chip :=
  mk_chip (ch_reg c) (ch_rx c) (ch_tx c) (ch_flags c) ce (ch_busy c) (ch_air c) (ch_coming c) (ch_fell c).
Definition set_coming (ps : list (list (list Z))) (c : chip) : chip :=
  mk_chip (ch_reg c) (ch_rx c) (ch_tx c) (ch_flags c) (ch_ce c) (ch_busy c) (ch_air c) ps (ch_fell c).
Definition set_fell (b : bool) (c : chip) : chip :=
  mk_chip (ch_reg c) (ch_rx c) (ch_tx c) (ch_flags c) (ch_ce c) (ch_busy c) (ch_air c) (ch_coming c) b.

(** The flags of STATUS that are not masked in CONFIG pull the interrupt line low.  After the
    set-up all values the driver writes to CONFIG mask the same flags, so that the line falls
    only when a flag gets set. *)
Definition irq_low (c : chip) : bool :=
  negb (Z.land (Z.ldiff (ch_flags c) (reg8 c NRF_CONFIG)) 0x70 =? 0).
Definition raise_flag (f : Z) (c : chip) : chip :=
  let c' := mk_chip (ch_reg c) (ch_rx c) (ch_tx c) (Z.lor (ch_flags c) f) (ch_ce c) (ch_busy c) (ch_air c)
              (ch_coming c) (ch_fell c) in
  if negb (irq_low c) && irq_low c' then set_fell true c' else c'.

(** A packet for pipe [p] arrives: it is lost when the FIFO is full. *)
Definition arrive (p : Z) (msg : list Z) (c : chip) : chip :=
  if bool_decide (3 <= length (ch_rx c))%nat then c else
  raise_flag (set_bit RX_DR) (set_rx (ch_rx c ++ [(p, msg)]) c).

(** In transmit mode with CE high the first packet of the FIFO goes out. *)
Definition sending (c : chip) : bool :=
  ch_ce c && Z.testbit (reg8 c NRF_CONFIG) PWR_UP && negb (Z.testbit (reg8 c NRF_CONFIG) PRIM_RX).
Definition tick_tx `{Airtime} (c : chip) : chip :=
  match ch_tx c with
  | [] => c
  | p :: ps =>
      if negb (sending c) then c else
      match ch_busy c with
      | S n => mk_chip (ch_reg c) (ch_rx c) (ch_tx c) (ch_flags c) (ch_ce c) n (ch_air c) (ch_coming c) (ch_fell c)
      | O =>
          raise_flag (set_bit TX_DS)
            (mk_chip (ch_reg c) (ch_rx c) ps (ch_flags c) (ch_ce c) (airtime (S (length (ch_air c))))
              (ch_air c ++ [(le_val (reg_bytes c NRF_TX_ADDR), p)]) (ch_coming c) (ch_fell c))
      end
  end.

(** In receive mode with CE high packets arrive. *)
Definition receiving (c : chip) : bool :=
  ch_ce c && Z.testbit (reg8 c NRF_CONFIG) PWR_UP && Z.testbit (reg8 c NRF_CONFIG) PRIM_RX.
Definition tick_rx (c : chip) : chip :=
  if negb (receiving c) then c else
  match ch_coming c with
  | [] => c
  | ps :: css => foldl (fun c p => arrive 1 p c) (set_coming css c) ps
  end.

(** What the chip does between two transfers. *)
Definition tick `{Airtime} (c : chip) : chip := tick_rx (tick_tx c).

(** Bytes past the end of what a register or the FIFO holds read as 0. *)
Definition pad (n : nat) (bs : list Z) : list Z := take n (bs ++ replicate n 0).

Definition takes_noack `{Airtime} (c : chip) : bool :=
  noack_always || Z.testbit (reg8 c NRF_FEATURE) 0.

Definition command `{Airtime} (tx : list Z) (c : chip) : list Z * chip :=
  match tx with
  | [] => ([], c)
  | cmd :: data =>
      let st := status_of c in
      let n := length data in
      if cmd =? NRF_R_RX_PAYLOAD then
        match ch_rx c with
        | [] => (st :: replicate n 0, c)
        | (_, p) :: rx => (st :: pad n p, set_rx rx c)
        end
      else if cmd =? W_TX_PAYLOAD_NO_ACK then
        (st :: replicate n 0, if takes_noack c then set_tx (ch_tx c ++ [data]) c else c)
      else if cmd =? FLUSH_TX then ([st], set_tx [] c)
      else if cmd =? FLUSH_RX then ([st], set_rx [] c)
      else if cmd <? 0x20 then (st :: pad n (read_reg c cmd), c)
      else if cmd <? 0x40 then (st :: replicate n 0, write_reg (cmd - 0x20) data c)
      else (st :: replicate n 0, c)
  end.

(** ** The driver's state *)

Record nrf_conf_t : Type := mk_conf {
  spi_chip : Z;
  ce_pin : Z;
  int_pin : Z;
  nbytes : Z;
  channel : Z;
  conf_id : Z
}.

Record nrf_t : Type := mk_nrf {
  config : nrf_conf_t;
  rxaddr : list Z;
  nrf_id : Z;
  tx_sent : Z;
  recvq : cq_t;
  tot_sent_msgs : Z;
  tot_sent_bytes : Z;
  tot_recv_msgs : Z;
  tot_recv_bytes : Z;
  n_conns : Z;
  n_chip : chip
}.

Section setters.
Context (n : nrf_t).
Definition set_chip (c : chip) : nrf_t :=
  mk_nrf (config n) (rxaddr n) (nrf_id n) (tx_sent n) (recvq n) (tot_sent_msgs n) (tot_sent_bytes n)
    (tot_recv_msgs n) (tot_recv_bytes n) (n_conns n) c.
Definition set_recvq (q : cq_t) : nrf_t :=
  mk_nrf (config n) (rxaddr n) (nrf_id n) (tx_sent n) q (tot_sent_msgs n) (tot_sent_bytes n)
    (tot_recv_msgs n) (tot_recv_bytes n) (n_conns n) (n_chip n).
Definition set_rxaddr (a : list Z) : nrf_t :=
  mk_nrf (config n) a (nrf_id n) (tx_sent n) (recvq n) (tot_sent_msgs n) (tot_sent_bytes n)
    (tot_recv_msgs n) (tot_recv_bytes n) (n_conns n) (n_chip n).
Definition set_ids (c : nrf_conf_t) (id sent : Z) : nrf_t :=
  mk_nrf c (rxaddr n) id sent (recvq n) (tot_sent_msgs n) (tot_sent_bytes n)
    (tot_recv_msgs n) (tot_recv_bytes n) (n_conns n) (n_chip n).
Definition set_stats (sm sb rm rb : Z) : nrf_t :=
  mk_nrf (config n) (rxaddr n) (nrf_id n) (tx_sent n) (recvq n) sm sb rm rb (n_conns n) (n_chip n).
Definition set_conns (k : Z) : nrf_t :=
  mk_nrf (config n) (rxaddr n) (nrf_id n) (tx_sent n) (recvq n) (tot_sent_msgs n) (tot_sent_bytes n)
    (tot_recv_msgs n) (tot_recv_bytes n) k (n_chip n).
End setters.

Definition on_chip {A} (m : M chip A) : M nrf_t A := m_zoom n_chip (fun c n => set_chip n c) m.
Definition on_recvq {A} (m : M cq_t A) : M nrf_t A := m_zoom recvq (fun q n => set_recvq n q) m.

Section driver.
Context `{Airtime}.

(** ** SPI transfers *)

Definition _wrap_spi_n_transfer (tx : list Z) : M nrf_t (list Z) := on_chip (fun c =>
  Done (command tx (tick c))).

Definition gpio_set_on : M nrf_t unit := on_chip (m_modify (set_ce true)).
Definition gpio_set_off : M nrf_t unit := on_chip (m_modify (set_ce false)).

Definition nrf_get8 (reg : Z) : M nrf_t Z :=
  rx ← _wrap_spi_n_transfer [reg; NRF_NOP];
  m_opt (rx !! 1%nat).

Definition nrf_put8 (reg v : Z) : M nrf_t Z :=
  rx ← _wrap_spi_n_transfer [Z.lor NRF_WR_REG reg; u8 v];
  m_opt (rx !! 0%nat).

Definition nrf_put8_chk (reg v : Z) : M nrf_t Z :=
  status ← nrf_put8 reg v;
  x ← nrf_get8 reg;
  m_assert (x =? v);;
  mret status.

(** The buffers have 64 bytes, one less than the assertion allows for. *)
Definition nrf_getn (cmd n : Z) : M nrf_t (list Z) :=
  m_assert (n <? 64 + 1);;
  m_assert (0 <? n);;
  if 64 <? n + 1 then m_undef else
  rx ← _wrap_spi_n_transfer (cmd :: replicate (Z.to_nat n) NRF_NOP);
  mret (drop 1 rx).

(** The [n] bytes of a message; the result is the status byte. *)
Definition nrf_putn (cmd : Z) (bs : list Z) : M nrf_t Z :=
  let n := Z.of_nat (length bs) in
  m_assert (n <? 64 + 1);;
  m_assert (0 <? n);;
  if 64 <? n + 1 then m_undef else
  rx ← _wrap_spi_n_transfer (cmd :: bs);
  m_opt (rx !! 0%nat).

Definition bit_is_on (x bit : Z) : Z := Z.land (Z.shiftr x bit) 1.
Definition bit_set (x bit : Z) : Z := Z.lor x (Z.shiftl 1 bit).
Definition bit_clr (x bit : Z) : Z := Z.ldiff x (Z.shiftl 1 bit).
Definition bits_get (x lb ub : Z) : Z := Z.land (Z.shiftr x lb) (Z.ones (ub - lb + 1)).

Definition nrf_or8 (reg v : Z) : M nrf_t Z := x ← nrf_get8 reg; nrf_put8 reg (Z.lor x v).
Definition nrf_bit_clr (reg bit : Z) : M nrf_t unit :=
  m_assert (bit <? 8);; x ← nrf_get8 reg; nrf_put8_chk reg (bit_clr x bit);; mret tt.
Definition nrf_bit_set (reg bit : Z) : M nrf_t unit :=
  m_assert (bit <? 8);; x ← nrf_get8 reg; nrf_put8_chk reg (bit_set x bit);; mret tt.
Definition nrf_bit_isset (reg bit_n : Z) : M nrf_t bool :=
  m_assert (bit_n <? 8);; x ← nrf_get8 reg; mret (bit_is_on x bit_n =? 1).

Definition nrf_get_addr (reg n : Z) : M nrf_t Z :=
  m_assert ((n =? 4) || (n =? 3));;
  bs ← nrf_getn reg n;
  mret (le_val bs).
Definition nrf_set_addr (reg addr n : Z) : M nrf_t unit :=
  m_assert ((n =? 4) || (n =? 3));;
  nrf_putn (Z.lor reg NRF_WR_REG) (le_bytes (Z.to_nat n) addr);;
  a ← nrf_get_addr reg n;
  m_assert (a =? addr).

Definition nrf_tx_flush : M nrf_t Z := rx ← _wrap_spi_n_transfer [FLUSH_TX]; m_opt (rx !! 0%nat).
Definition nrf_rx_flush : M nrf_t Z := rx ← _wrap_spi_n_transfer [FLUSH_RX]; m_opt (rx !! 0%nat).

(** ** Accessors *)

Definition nrf_is_pwrup : M nrf_t bool := x ← nrf_get8 NRF_CONFIG; mret (bit_is_on x PWR_UP =? 1).
Definition nrf_set_pwrup_off : M nrf_t unit :=
  nrf_bit_clr NRF_CONFIG PWR_UP;; up ← nrf_is_pwrup; m_assert (negb up).
Definition nrf_set_pwrup_on : M nrf_t unit :=
  nrf_bit_set NRF_CONFIG PWR_UP;; up ← nrf_is_pwrup; m_assert up.
Definition nrf_pipe_is_acked (p : Z) : M nrf_t bool :=
  x ← nrf_get8 NRF_EN_AA; mret (bit_is_on x p =? 1).
Definition nrf_pipe_is_enabled (p : Z) : M nrf_t bool :=
  x ← nrf_get8 NRF_EN_RXADDR; mret (bit_is_on x p =? 1).
Definition nrf_enable_rx (rx : Z) : M nrf_t unit :=
  m_assert ((0 <=? rx) && (rx <? 6));;
  x ← nrf_get8 NRF_EN_RXADDR;
  nrf_put8 NRF_EN_RXADDR (Z.lor (Z.shiftl 1 rx) x);; mret tt.
Definition nrf_disable_rx (rx : Z) : M nrf_t unit :=
  m_assert ((0 <=? rx) && (rx <? 6));;
  x ← nrf_get8 NRF_EN_RXADDR;
  nrf_put8 NRF_EN_RXADDR (Z.ldiff x (Z.shiftl 1 rx));; mret tt.
Definition nrf_rx_get_pipeid : M nrf_t Z := x ← nrf_get8 NRF_STATUS; mret (bits_get x 1 3).
Definition nrf_has_max_rt_intr : M nrf_t bool := nrf_bit_isset NRF_STATUS MAX_RT.
Definition nrf_rt_intr_clr : M nrf_t unit := nrf_put8 NRF_STATUS (Z.shiftl 1 MAX_RT);; mret tt.
Definition nrf_has_tx_intr : M nrf_t bool := nrf_bit_isset NRF_STATUS TX_DS.
Definition nrf_tx_intr_clr : M nrf_t unit := nrf_put8 NRF_STATUS (Z.shiftl 1 TX_DS);; mret tt.
Definition nrf_has_rx_intr : M nrf_t bool := nrf_bit_isset NRF_STATUS RX_DR.
Definition nrf_rx_intr_clr : M nrf_t unit := nrf_put8 NRF_STATUS (Z.shiftl 1 RX_DR);; mret tt.
Definition nrf_rx_fifo_empty : M nrf_t bool := nrf_bit_isset NRF_FIFO_STATUS 0.
Definition nrf_rx_fifo_full : M nrf_t bool := nrf_bit_isset NRF_FIFO_STATUS 1.
Definition nrf_tx_fifo_empty : M nrf_t bool := nrf_bit_isset NRF_FIFO_STATUS 4.
Definition nrf_tx_fifo_full : M nrf_t bool := nrf_bit_isset NRF_FIFO_STATUS 5.

(** ** Sending *)

(** [while (!nrf_tx_fifo_empty(n));] *)
Fixpoint wait_tx_empty (fuel : nat) : M nrf_t unit :=
  match fuel with
  | O => m_nofuel
  | S fuel =>
      empty ← nrf_tx_fifo_empty;
      if (empty : bool) then mret tt else wait_tx_empty fuel
  end.

(** One poll for each packet's time in the air. *)
Definition send_fuel : M nrf_t nat := m_gets (fun n => S (ch_busy (n_chip n))).

Definition spi_transfer_syscall_handler (txaddr : Z) (msg : list Z) : M nrf_t unit :=
  gpio_set_off;;
  nrf_put8 NRF_CONFIG tx_config;;
  gpio_set_on;;
  nrf_set_addr NRF_TX_ADDR txaddr nrf_default_addr_nbytes;;
  nrf_putn W_TX_PAYLOAD_NO_ACK msg;;
  gpio_set_off;;
  gpio_set_on;;
  fuel ← send_fuel;
  wait_tx_empty fuel;;
  nrf_tx_intr_clr;;
  tx ← nrf_has_tx_intr;
  m_assert (negb tx);;
  nrf_set_pwrup_off;;
  gpio_set_off;;
  nrf_set_pwrup_on;;
  nrf_put8 NRF_CONFIG rx_config;;
  gpio_set_on.

(** [nrf_opt_assert(n, nrf_get8(n, NRF_CONFIG) == rx_config)]. *)
Definition assert_rx_config : M nrf_t unit := x ← nrf_get8 NRF_CONFIG; m_assert (x =? rx_config).

(** ** Receiving *)

(** *** The interrupt handler

    [while (!nrf_rx_fifo_empty(n)) ...] *)
Fixpoint rx_loop (fuel : nat) : M nrf_t unit :=
  match fuel with
  | O => m_nofuel
  | S fuel =>
      empty ← nrf_rx_fifo_empty;
      if (empty : bool) then mret tt else
      pipe ← nrf_rx_get_pipeid;
      m_assert (pipe =? 1);;
      n ← m_gets (fun n => nbytes (config n));
      bytes ← nrf_getn NRF_R_RX_PAYLOAD n;
      on_recvq (cq_push_n bytes);;
      nrf_rx_intr_clr;;
      rx_loop fuel
  end.

(** One turn for each packet in the FIFO or still to come. *)
Definition rx_fuel : M nrf_t nat :=
  m_gets (fun n => S (length (ch_rx (n_chip n)) + length (concat (ch_coming (n_chip n))))).

Definition nrf_handle_intr : M nrf_t unit :=
  rt ← nrf_has_max_rt_intr;
  (if (rt : bool) then nrf_rt_intr_clr else mret tt);;
  rx ← nrf_has_rx_intr;
  (if (rx : bool) then
     m_assert USE_RX_INTERRUPT;;
     fuel ← rx_fuel;
     rx_loop fuel
   else mret tt);;
  tx ← nrf_has_tx_intr;
  if (tx : bool) then m_assert USE_TX_INTERRUPT else mret tt.

(** *** Sending a packet *)

(** Outside the system call interrupts are on, and the handler can run between two transfers. *)
Definition maybe_intr (i : nat) : M nrf_t unit :=
  k ← m_gets (fun n => length (ch_air (n_chip n)));
  if irq_in_send k i then nrf_handle_intr else mret tt.

Definition nrf_tx_send_noack (txaddr : Z) (msg : list Z) : M nrf_t Z :=
  assert_rx_config;;
  maybe_intr 0;;
  en ← nrf_pipe_is_enabled 1;
  m_assert en;;
  maybe_intr 1;;
  empty ← nrf_tx_fifo_empty;
  m_assert empty;;
  maybe_intr 2;;
  spi_transfer_syscall_handler txaddr msg;;
  maybe_intr 3;;
  assert_rx_config;;
  mret (Z.of_nat (length msg)).

Definition nrf_send_ack (txaddr : Z) (msg : list Z) : M nrf_t Z := nrf_tx_send_noack txaddr msg.
Definition nrf_send_noack (txaddr : Z) (msg : list Z) : M nrf_t Z := nrf_tx_send_noack txaddr msg.

Definition nrf_get_pkts_int : M nrf_t Z := mret 0.
Definition nrf_get_pkts : M nrf_t Z := if USE_RX_INTERRUPT then nrf_get_pkts_int else m_undef.

(** The loop [while (nrf_get_pkts(n));] ends at once. *)
Definition nrf_nbytes_avail : M nrf_t Z :=
  k ← nrf_get_pkts;
  if negb (k =? 0) then m_nofuel else m_gets (fun n => cq_nelem (recvq n)).

(** [None] is the result 0. *)
Definition nrf_read_exact_noblk (n : Z) : M nrf_t (option (list Z)) :=
  m_assert (0 <? n);;
  k ← nrf_nbytes_avail;
  if k =? 0 then mret None
  else if k <? n then mret None
  else bs ← on_recvq (cq_pop_n false (Z.to_nat n)); mret (Some bs).

(** *** Time-outs *)

Record timeout_t : Type := mk_timeout { time_last : Z; time_usecs : Z }.
Definition timeout_start (now : Z) : timeout_t := mk_timeout now 0.
(** 64-bit sum of the 32-bit differences. *)
Definition timeout_get_usec (now : Z) (t : timeout_t) : timeout_t :=
  mk_timeout now ((time_usecs t + u32 (now - time_last t)) mod 2^64).
Definition timeout_usec (max_usec : Z) (t : timeout_t) : bool := max_usec <=? time_usecs t.

(** What happens while the loop waits: packets that arrive for pipe 1 and are taken in by
    the interrupt handler, then the clock. *)
Definition wait : Type := list (list Z) * Z.

Definition rpi_wait (ps : list (list Z)) : M nrf_t unit :=
  on_chip (m_modify (fun c => foldl (fun c p => arrive 1 p c) c ps));;
  nrf_handle_intr.

Fixpoint read_timeout_loop (n usec_timeout : Z) (t : timeout_t) (ws : list wait)
    : M nrf_t (option (list Z)) :=
  r ← nrf_read_exact_noblk n;
  match r with
  | Some bs => mret (Some bs)
  | None =>
      match ws with
      | [] => m_nofuel
      | (ps, now) :: ws =>
          let t := timeout_get_usec now t in
          if timeout_usec usec_timeout t then mret None else
          rpi_wait ps;;
          read_timeout_loop n usec_timeout t ws
      end
  end.
(** [None] is the result -1. *)
Definition nrf_read_exact_timeout (n usec_timeout now : Z) (ws : list wait) : M nrf_t (option (list Z)) :=
  read_timeout_loop n usec_timeout (timeout_start now) ws.

(** ** Set-up *)

Definition nrf_stat_start : M nrf_t unit := m_modify (fun n => set_stats n 0 0 0 0).

(** [pin_init]: the SPI chip select is 0 or 1; CE is an output and low. *)
Definition pin_init (spi_chip : Z) : M nrf_t unit :=
  m_assert ((spi_chip =? 0) || (spi_chip =? 1));; gpio_set_off.

Definition nrf_get_addr_nbytes : Z := nrf_default_addr_nbytes.

Definition nrf_setup (c : nrf_conf_t) (rx_addr : Z) : M nrf_t unit :=
  m_modify (fun n => set_ids n c (conf_id c) (tx_sent n));;
  nrf_stat_start;;
  pin_init (spi_chip c);;
  m_modify (fun n => set_ids n (config n) (nrf_id n) 0);;
  nrf_set_pwrup_off;;
  nrf_put8 NRF_EN_RXADDR 2;;
  nrf_put8 NRF_EN_AA 0;;
  m_modify (fun n => set_rxaddr n (<[1%nat := rx_addr]> (rxaddr n)));;
  nrf_set_addr NRF_RX_ADDR_P1 rx_addr nrf_default_addr_nbytes;;
  nrf_set_addr NRF_TX_ADDR 0 nrf_default_addr_nbytes;;
  nrf_put8 NRF_RX_PW_P1 (nbytes c);;
  nrf_put8 NRF_RX_PW_P2 0;;
  nrf_put8 NRF_RX_PW_P3 0;;
  nrf_put8 NRF_RX_PW_P4 0;;
  nrf_put8 NRF_RX_PW_P5 0;;
  nrf_put8 NRF_SETUP_AW (nrf_get_addr_nbytes - 2);;
  nrf_put8 NRF_SETUP_RETR
    (nrf_default_retran_attempts + Z.shiftl (nrf_default_retran_delay / 250 - 1) 4);;
  nrf_put8 NRF_FIFO_STATUS 17;;
  nrf_put8 NRF_RF_CH (channel c);;
  nrf_put8 NRF_RF_SETUP (Z.lor nrf_default_db nrf_default_data_rate);;
  nrf_set_pwrup_on;;
  nrf_put8 NRF_CONFIG rx_config;;
  gpio_set_on;;
  nrf_rx_flush;;
  nrf_tx_flush;;
  (if USE_TX_INTERRUPT then nrf_tx_intr_clr;; nrf_rt_intr_clr else mret tt);;
  (if USE_RX_INTERRUPT then nrf_rx_intr_clr else mret tt);;
  tf ← nrf_tx_fifo_full; m_assert (negb tf);;
  te ← nrf_tx_fifo_empty; m_assert te;;
  rf ← nrf_rx_fifo_full; m_assert (negb rf);;
  re ← nrf_rx_fifo_empty; m_assert re;;
  id ← m_gets nrf_id;
  m_assert ((id =? 0) || (id =? 1)).

(** [nrf_init]: the driver's own set-up, with or without acknowledgements. *)
Definition nrf_init (c : nrf_conf_t) (rx_addr : Z) (acked_p : bool) : M nrf_t unit :=
  m_modify (fun n => set_ids n c (nrf_id n) (tx_sent n));;
  nrf_stat_start;;
  pin_init (spi_chip c);;
  m_modify (fun n => set_rxaddr n (<[1%nat := rx_addr]> (rxaddr n)));;
  nrf_set_pwrup_off;;
  nrf_put8 NRF_EN_RXADDR 0;;
  nrf_put8 NRF_EN_AA (if acked_p then 3 else 0);;
  nrf_put8 NRF_EN_RXADDR (if acked_p then 3 else 2);;
  nrf_put8 NRF_RX_PW_P1 (nbytes c);;
  nrf_set_addr NRF_RX_ADDR_P1 rx_addr nrf_default_addr_nbytes;;
  nrf_set_addr NRF_TX_ADDR 0 nrf_default_addr_nbytes;;
  nrf_put8 NRF_RX_PW_P2 0;;
  nrf_put8 NRF_RX_PW_P3 0;;
  nrf_put8 NRF_RX_PW_P4 0;;
  nrf_put8 NRF_RX_PW_P5 0;;
  nrf_put8 NRF_SETUP_AW (nrf_get_addr_nbytes - 2);;
  nrf_put8 NRF_SETUP_RETR
    (nrf_default_retran_attempts + Z.shiftl (nrf_default_retran_delay / 250 - 1) 4);;
  nrf_put8 NRF_FIFO_STATUS 17;;
  nrf_put8 NRF_RF_CH (channel c);;
  nrf_put8 NRF_RF_SETUP (Z.lor nrf_default_db nrf_default_data_rate);;
  nrf_set_pwrup_on;;
  nrf_put8 NRF_CONFIG rx_config;;
  gpio_set_on;;
  nrf_rx_flush;;
  nrf_tx_flush;;
  (if USE_TX_INTERRUPT then nrf_tx_intr_clr;; nrf_rt_intr_clr else mret tt);;
  (if USE_RX_INTERRUPT then nrf_rx_intr_clr else mret tt);;
  assert_rx_config;;
  (if acked_p then
     p0 ← nrf_pipe_is_enabled 0; m_assert p0;;
     p1 ← nrf_pipe_is_enabled 1; m_assert p1;;
     a0 ← nrf_pipe_is_acked 0; m_assert a0;;
     a1 ← nrf_pipe_is_acked 1; m_assert a1
   else
     p0 ← nrf_pipe_is_enabled 0; m_assert (negb p0);;
     p1 ← nrf_pipe_is_enabled 1; m_assert p1;;
     a1 ← nrf_pipe_is_acked 1; m_assert (negb a1));;
  e ← nrf_tx_fifo_empty; m_assert e;;
  tf ← nrf_tx_fifo_full; m_assert (negb tf);;
  te ← nrf_tx_fifo_empty; m_assert te;;
  rf ← nrf_rx_fifo_full; m_assert (negb rf);;
  re ← nrf_rx_fifo_empty; m_assert re.

(** [NRF1_READY], [NRF2_READY]. *)
Definition ready : Type := bool * bool.
Definition set_nrf1_ready : M ready bool := fun r => Done (negb r.1, (true, r.2)).
Definition set_nrf2_ready : M ready bool := fun r => Done (negb r.2, (r.1, true)).

(** [fresh]: the memory [kmalloc] returns and the chip on the pins named in [c]. *)
Definition dfs_nrf_init (fresh : nrf_t) (c : nrf_conf_t) (rx_addr : Z) : M ready (option nrf_t) :=
  ok1 ← set_nrf1_ready;
  ok ← (if negb ok1 then set_nrf2_ready else mret true);
  if negb ok then mret None else fun r =>
  match nrf_setup c rx_addr fresh with
  | Done (_, n) => Done (Some n, r)
  | Panic => Panic
  | Undef => Undef
  | NoFuel => NoFuel
  end.

(** [dfs_wait_recv]: the contents of the packet are thrown away. *)
Definition dfs_wait_recv (pkt_bytes usec now : Z) (ws : list wait) : M nrf_t Z :=
  r ← nrf_read_exact_timeout pkt_bytes usec now ws;
  match r with
  | None => mret (-1)
  | Some bs => if negb (Z.of_nat (length bs) =? pkt_bytes) then mret (-1) else mret 0
  end.
End driver.
