(* ===== verification/NrfThm.v ===== *)
(** * The radio as a mailbox

    Between calls the driver leaves the chip in receive mode with an empty transmit FIFO.
    Then packets travel whole: the interrupt handler moves them from the chip's FIFO to the
    receive queue, a read takes exactly the oldest one, a send puts exactly one packet on
    the air.  This is what the servers and the client of the file system rely on when they
    treat the radio as an inbox and an outbox. *)

From stdpp Require Import base tactics option list numbers gmap.
From Stdlib Require Import ZArith Lia.
From S2P Require Import Prelude Circular Nrf.
#[local] Open Scope Z_scope.
#[local] Arguments le_bytes : simpl never.
#[local] Arguments le_val : simpl never.

(** ** Mailboxes *)

Abbreviation pkt := (list Z).

Record mailbox : Type := mk_mb {
  mb_fifo : list pkt;
  mb_in : list pkt;
  mb_sent : list (Z * pkt)
}.

(** [MbTake]: the oldest packet of the chip's buffer goes to the inbox; [MbIntr]: all of them do.

    Packets of [k] bytes go to the inbox while there is room for a whole one. *)
Definition deposit (k : Z) (inbox : list pkt) (p : pkt) : list pkt :=
  if Z.of_nat (length inbox) * k + k <=? CQ_N - 1 then inbox ++ [p] else inbox.

Inductive mb_event : Type :=
  | MbArrive (p : pkt)
  | MbTake
  | MbIntr
  | MbRead
  | MbSend (a : Z) (p : pkt).

(** What is read, and the mailbox afterwards. *)
Definition mb_step (k : Z) (ev : mb_event) (m : mailbox) : option pkt * mailbox :=
  match ev with
  | MbArrive p =>
      (None, if bool_decide (3 <= length (mb_fifo m))%nat then m
             else mk_mb (mb_fifo m ++ [p]) (mb_in m) (mb_sent m))
  | MbTake =>
      (None, match mb_fifo m with
             | [] => m
             | p :: ps => mk_mb ps (deposit k (mb_in m) p) (mb_sent m)
             end)
  | MbIntr => (None, mk_mb [] (foldl (deposit k) (mb_in m) (mb_fifo m)) (mb_sent m))
  | MbRead =>
      match mb_in m with
      | [] => (None, m)
      | p :: ps => (Some p, mk_mb (mb_fifo m) ps (mb_sent m))
      end
  | MbSend a p => (None, mk_mb (mb_fifo m) (mb_in m) (mb_sent m ++ [(a, p)]))
  end.

Definition ev_ok (k : Z) (ev : mb_event) : Prop :=
  match ev with
  | MbArrive p => Z.of_nat (length p) = k
  | MbSend a p => 0 <= a < 2^24 /\ (0 < length p <= 63)%nat
  | MbTake => False
  | _ => True
  end.

Definition all_arrive (k : Z) (ps : list pkt) (m : mailbox) : mailbox :=
  foldl (fun m p => (mb_step k (MbArrive p) m).2) m ps.

(** The packets [ps] arrive, and some of those in the chip's buffer go to the inbox, in any
    interleaving. *)
Inductive inner (k : Z) : list pkt -> mailbox -> mailbox -> Prop :=
  | inner_nil m : inner k [] m m
  | inner_arrive p ps m m' : inner k ps (mb_step k (MbArrive p) m).2 m' -> inner k (p :: ps) m m'
  | inner_take ps m m' : inner k ps (mb_step k MbTake m).2 m' -> inner k ps m m'.

(** What a call of the driver does to the mailbox while the packets [ps] arrive.  The interrupt
    handler empties the chip's buffer; what arrives after it has found it empty stays there.  The
    handler can also run inside a send, before and after the packet goes out. *)
Definition mb_does (k : Z) (ev : mb_event) (ps : list pkt) (m : mailbox) (r : option pkt) (m' : mailbox) : Prop :=
  match ev with
  | MbIntr => r = None /\ exists ps1 ps2 m1, ps = ps1 ++ ps2 /\ inner k ps1 m m1 /\ mb_fifo m1 = [] /\
      m' = all_arrive k ps2 m1
  | MbSend a p => r = None /\ exists ps1 ps2 m1, ps = ps1 ++ ps2 /\ inner k ps1 m m1 /\
      inner k ps2 (mb_step k (MbSend a p) m1).2 m'
  | _ => ps = [] /\ mb_step k ev m = (r, m')
  end.

(** A sequence of calls. *)
Fixpoint mb_history (k : Z) (evs : list mb_event) (ps : list pkt) (m : mailbox) (rs : list (option pkt))
    (m' : mailbox) : Prop :=
  match evs with
  | [] => ps = [] /\ rs = [] /\ m' = m
  | ev :: evs => exists ps1 ps2 r rs' m1, ps = ps1 ++ ps2 /\ rs = r :: rs' /\
      mb_does k ev ps1 m r m1 /\ mb_history k evs ps2 m1 rs' m'
  end.

Lemma inner_app k ps1 ps2 m m1 m2 : inner k ps1 m m1 -> inner k ps2 m1 m2 -> inner k (ps1 ++ ps2) m m2.
Proof. induction 1 as [m|p ps m m' _ IH|ps m m' _ IH]; intros I2; [done|constructor; auto..]. Qed.

Lemma inner_arrivals k ps m : inner k ps m (all_arrive k ps m).
Proof. revert m. induction ps as [|p ps IH]; intros m; constructor. apply IH. Qed.

(** Without arrivals only packets of the buffer move. *)
Lemma inner_emptied k m m' : inner k [] m m' -> mb_fifo m' = [] -> m' = (mb_step k MbIntr m).2.
Proof.
  intros I. remember [] as ps eqn:E. induction I as [m|p ps m m' _ IH|ps m m' _ IH]; intros Em; [|done|].
  - destruct m as [fi i se]. cbn in *. by rewrite Em.
  - rewrite (IH E Em). cbn [mb_step snd]. destruct m as [[|p fi] i se]; done.
Qed.

Lemma all_arrive_sent k ps m : mb_sent (all_arrive k ps m) = mb_sent m /\ mb_in (all_arrive k ps m) = mb_in m.
Proof.
  revert m. induction ps as [|p ps IH]; intros m; [done|]. cbn [all_arrive foldl]. unfold all_arrive in IH.
  destruct (IH (mb_step k (MbArrive p) m).2) as [-> ->]. cbn. by case_bool_decide.
Qed.

Section mailbox.
Context `{Airtime}.

Definition mb_run (k : Z) (ev : mb_event) : M nrf_t (option pkt) :=
  match ev with
  | MbArrive p => on_chip (m_modify (arrive 1 p));; mret None
  | MbTake => m_undef
  | MbIntr => nrf_handle_intr;; mret None
  | MbRead => nrf_read_exact_noblk k
  | MbSend a p => nrf_send_noack a p;; mret None
  end.

(** ** The relation *)

(** The chip in receive mode. *)
Record listening (c : chip) (fifo : list pkt) (sent : list (Z * pkt)) : Prop := {
  l_config : ch_reg c !! NRF_CONFIG = Some [rx_config];
  l_pipes : ch_reg c !! NRF_EN_RXADDR = Some [2];
  l_rx : ch_rx c = pair 1 <$> fifo;
  l_tx : ch_tx c = [];
  l_ce : ch_ce c = true;
  l_flags : ch_flags c = 0x40 \/ ch_flags c = 0;
  l_air : ch_air c = sent
}.

(** The driver and the chip at any point at which the chip listens. *)
Record hears (k : Z) (n : nrf_t) (m : mailbox) : Prop := {
  h_k : 0 < k <= 32;
  h_nbytes : nbytes (config n) = k;
  h_queue : cq_wf (recvq n);
  h_in : cq_list (recvq n) = concat (mb_in m);
  h_in_len : Forall (fun p => Z.of_nat (length p) = k) (mb_in m);
  h_fifo_len : Forall (fun p => Z.of_nat (length p) = k) (mb_fifo m);
  h_coming : Forall (fun p => Z.of_nat (length p) = k) (concat (ch_coming (n_chip n)));
  h_chip : listening (n_chip n) (mb_fifo m) (mb_sent m)
}.

(** Between calls the flag tells of a packet in the buffer. *)
Definition told (n : nrf_t) (m : mailbox) : Prop := ch_flags (n_chip n) = 0 -> mb_fifo m = [].

(** Nothing arrives while the driver runs. *)
Definition quiet (n : nrf_t) : Prop := ch_coming (n_chip n) = [].

Record holds (k : Z) (n : nrf_t) (m : mailbox) : Prop := {
  h_hears : hears k n m;
  h_told : told n m;
  h_quiet : quiet n
}.

(** ** Single transfers *)

Lemma set_chip_id n : set_chip n (n_chip n) = n.
Proof. by destruct n. Qed.

Lemma on_chip_run {A} (f : M chip A) n a c : f (n_chip n) = Done (a, c) ->
  on_chip f n = Done (a, set_chip n c).
Proof. intros E. unfold on_chip. by rewrite (zoom_done _ _ _ _ _ _ E). Qed.

(** The driver after a turn of the chip. *)
Definition ticked (n : nrf_t) : nrf_t := set_chip n (tick (n_chip n)).

Lemma transfer_ticked tx n :
  _wrap_spi_n_transfer tx n =
    Done ((command tx (n_chip (ticked n))).1, set_chip n (command tx (n_chip (ticked n))).2).
Proof.
  unfold _wrap_spi_n_transfer. apply on_chip_run. cbn. by rewrite <-surjective_pairing.
Qed.

Lemma transfer_run tx n : tick (n_chip n) = n_chip n ->
  _wrap_spi_n_transfer tx n =
    Done ((command tx (n_chip n)).1, set_chip n (command tx (n_chip n)).2).
Proof.
  intros E. rewrite transfer_ticked. unfold ticked. by rewrite E, set_chip_id.
Qed.

Definition plain_reg (r : Z) : Prop := 0 <= r < 32.

Lemma reg_read_cmd reg n c : plain_reg reg ->
  command (reg :: replicate n NRF_NOP) c = (status_of c :: pad n (read_reg c reg), c).
Proof.
  intros Hr. unfold command, plain_reg in *. rewrite length_replicate.
  rewrite !(proj2 (Z.eqb_neq reg _)) by (unfold NRF_R_RX_PAYLOAD, W_TX_PAYLOAD_NO_ACK, FLUSH_TX, FLUSH_RX; lia).
  by rewrite (proj2 (Z.ltb_lt reg 32)) by lia.
Qed.

Lemma lor_wr reg : plain_reg reg -> Z.lor NRF_WR_REG reg = reg + 32.
Proof.
  intros Hr. unfold plain_reg in Hr.
  assert (E : forallb (fun r => Z.lor NRF_WR_REG r =? r + 32) (seqZ 0 32) = true) by reflexivity.
  rewrite forallb_forall in E. apply Z.eqb_eq, E, list_elem_of_In, elem_of_seqZ. lia.
Qed.

Lemma reg_write_cmd reg bs c : plain_reg reg ->
  command (Z.lor NRF_WR_REG reg :: bs) c =
    (status_of c :: replicate (length bs) 0, write_reg reg bs c).
Proof.
  intros Hr. rewrite lor_wr by done. unfold command, plain_reg in *.
  rewrite !(proj2 (Z.eqb_neq (reg + 32) _))
    by (unfold NRF_R_RX_PAYLOAD, W_TX_PAYLOAD_NO_ACK, FLUSH_TX, FLUSH_RX; lia).
  rewrite (proj2 (Z.ltb_ge (reg + 32) 32)), (proj2 (Z.ltb_lt (reg + 32) 64)) by lia.
  by replace (reg + 32 - 32) with reg by lia.
Qed.

Lemma get8_ticked reg n : plain_reg reg ->
  nrf_get8 reg n = Done (hd 0 (read_reg (n_chip (ticked n)) reg), ticked n).
Proof.
  intros Hr. unfold nrf_get8. erewrite bind_done by (by apply transfer_ticked).
  change [reg; NRF_NOP] with (reg :: replicate 1 NRF_NOP). rewrite reg_read_cmd by done.
  cbn [fst snd]. by destruct (read_reg (n_chip (ticked n)) reg).
Qed.

Lemma put8_ticked reg v n : plain_reg reg ->
  nrf_put8 reg v n =
    Done (status_of (n_chip (ticked n)), set_chip n (write_reg reg [u8 v] (n_chip (ticked n)))).
Proof.
  intros Hr. unfold nrf_put8. erewrite bind_done by (by apply transfer_ticked). by rewrite reg_write_cmd.
Qed.

Lemma isset_ticked reg bit n : plain_reg reg -> bit < 8 ->
  nrf_bit_isset reg bit n = Done (bit_is_on (hd 0 (read_reg (n_chip (ticked n)) reg)) bit =? 1, ticked n).
Proof.
  intros Hr Hb. unfold nrf_bit_isset. rewrite assert_run by (by apply Z.ltb_lt). by mrun (get8_ticked reg n Hr).
Qed.

Lemma ticked_same n : tick (n_chip n) = n_chip n -> ticked n = n.
Proof. intros E. unfold ticked. by rewrite E, set_chip_id. Qed.

Lemma get8_run reg n : plain_reg reg -> tick (n_chip n) = n_chip n ->
  nrf_get8 reg n = Done (hd 0 (read_reg (n_chip n) reg), n).
Proof. intros Hr E. by rewrite get8_ticked, ticked_same by done. Qed.

Lemma put8_run reg v n : plain_reg reg -> tick (n_chip n) = n_chip n ->
  nrf_put8 reg v n = Done (status_of (n_chip n), set_chip n (write_reg reg [u8 v] (n_chip n))).
Proof. intros Hr E. by rewrite put8_ticked, ticked_same by done. Qed.

Lemma isset_run reg bit n : plain_reg reg -> bit < 8 -> tick (n_chip n) = n_chip n ->
  nrf_bit_isset reg bit n = Done (bit_is_on (hd 0 (read_reg (n_chip n) reg)) bit =? 1, n).
Proof. intros Hr Hb E. by rewrite isset_ticked, ticked_same by done. Qed.

(** ** Packets that arrive *)

Lemma set_chip_twice n c c' : set_chip (set_chip n c) c' = set_chip n c'.
Proof. done. Qed.

(** A chip in receive mode, by its parts. *)
Definition in_rx (regs : gmap Z (list Z)) (fifo : list pkt) (flags : Z) (busy : nat)
    (sent : list (Z * pkt)) (coming : list (list pkt)) (fell : bool) : chip :=
  mk_chip regs (pair 1 <$> fifo) [] flags true busy sent coming fell.

Lemma listening_in_rx c fifo sent : listening c fifo sent ->
  c = in_rx (ch_reg c) fifo (ch_flags c) (ch_busy c) sent (ch_coming c) (ch_fell c).
Proof. intros [Hc Hp Hr Ht He Hf Ha]. destruct c. simpl in *. by subst. Qed.

(** The interrupt line falls when the flag was not set. *)
Lemma arrive_in_rx p regs fifo flags busy sent coming fell :
  regs !! NRF_CONFIG = Some [rx_config] -> flags = 0x40 \/ flags = 0 ->
  arrive 1 p (in_rx regs fifo flags busy sent coming fell) =
    if bool_decide (3 <= length fifo)%nat then in_rx regs fifo flags busy sent coming fell
    else in_rx regs (fifo ++ [p]) 0x40 busy sent coming (fell || (flags =? 0)).
Proof.
  intros Hc Hf. unfold arrive. cbn [in_rx ch_rx]. rewrite length_fmap. case_bool_decide; [done|].
  unfold raise_flag, irq_low, reg8, reg_bytes, in_rx. cbn. rewrite Hc, fmap_app. cbn.
  destruct Hf as [->| ->]; cbn; by rewrite ?orb_false_r, ?orb_true_r.
Qed.

(** What the driver and the mailbox go through together: the packets [ps] arrive, and nothing of
    the driver changes but its queue. *)
Record moved (k : Z) (n : nrf_t) (m : mailbox) (ps : list pkt) (n' : nrf_t) (m' : mailbox) : Prop := {
  mv_hears : hears k n' m';
  mv_inner : inner k ps m m';
  mv_coming : concat (ch_coming (n_chip n)) = ps ++ concat (ch_coming (n_chip n'));
  mv_quiet : quiet n -> quiet n';
  mv_regs : ch_reg (n_chip n') = ch_reg (n_chip n);
  mv_config : config n' = config n;
  mv_sent : mb_sent m' = mb_sent m
}.

Lemma moved_refl k n m : hears k n m -> moved k n m [] n m.
Proof. intros Hh. split; [done|constructor|done..]. Qed.

Lemma moved_trans k n m ps n1 m1 ps' n2 m2 :
  moved k n m ps n1 m1 -> moved k n1 m1 ps' n2 m2 -> moved k n m (ps ++ ps') n2 m2.
Proof.
  intros [H1 I1 C1 U1 R1 G1 S1] [H2 I2 C2 U2 R2 G2 S2]. split; [done|by eapply inner_app| |by auto|congruence..].
  by rewrite C1, C2, app_assoc.
Qed.

(** How the flag, the line and the buffer follow arrivals. *)
Record followed (n : nrf_t) (m : mailbox) (n' : nrf_t) (m' : mailbox) : Prop := {
  fo_zero : ch_flags (n_chip n') = 0 -> mb_fifo m' = mb_fifo m /\ ch_flags (n_chip n) = 0;
  fo_still : mb_fifo m' = [] -> ch_flags (n_chip n') = ch_flags (n_chip n);
  fo_fell : ch_flags (n_chip n) = 0 -> mb_fifo m = [] -> mb_fifo m' <> [] -> ch_fell (n_chip n') = true;
  fo_keep : ch_fell (n_chip n) = true -> ch_fell (n_chip n') = true;
  fo_prefix : mb_fifo m `prefix_of` mb_fifo m'
}.

Lemma prefix_empty (l l' : list pkt) : l `prefix_of` l' -> l' = [] -> l = [].
Proof. intros [k ->]. by intros [-> _]%app_nil. Qed.

Lemma followed_refl n m : followed n m n m.
Proof. by split. Qed.

Lemma followed_trans n m n1 m1 n2 m2 : followed n m n1 m1 -> followed n1 m1 n2 m2 -> followed n m n2 m2.
Proof.
  intros [Z1 S1 F1 K1 P1] [Z2 S2 F2 K2 P2]. split; [| | |by auto|by etransitivity].
  - intros E. destruct (Z2 E) as [-> E1]. destruct (Z1 E1) as [-> ?]. done.
  - intros E. rewrite (S2 E). apply S1. by eapply prefix_empty.
  - intros E0 Em N. destruct (decide (mb_fifo m1 = [])) as [E|E]; [|by auto].
    apply F2; [|done|done]. by rewrite (S1 E).
Qed.

Lemma followed_told n m n' m' : followed n m n' m' -> told n m -> told n' m'.
Proof. intros [Z S F K P] T E. destruct (Z E) as [-> E0]. by apply T. Qed.

(** The flag is set for a packet in the buffer only. *)
Definition only_told (n : nrf_t) (m : mailbox) : Prop := ch_flags (n_chip n) = 0x40 -> mb_fifo m <> [].

Lemma followed_only n m n' m' : followed n m n' m' -> only_told n m -> only_told n' m'.
Proof.
  intros [Z S F K P] T E Em. rewrite (S Em) in E. apply (T E). by eapply prefix_empty.
Qed.

Lemma arrive_hears k n m p : hears k n m -> Z.of_nat (length p) = k ->
  let n' := set_chip n (arrive 1 p (n_chip n)) in
  let m' := (mb_step k (MbArrive p) m).2 in
  hears k n' m' /\ followed n m n' m' /\ ch_coming (n_chip n') = ch_coming (n_chip n) /\
  ch_reg (n_chip n') = ch_reg (n_chip n).
Proof.
  intros [Hk Hn W Ein Fin Ff Hcm Hc] Hp n' m'. pose proof (listening_in_rx _ _ _ Hc) as Ec.
  destruct Hc as [Hcfg Hpipe Hrx Htx Hce Hfl Hair].
  assert (n_chip n' = _) as E by (cbn; rewrite Ec; by apply arrive_in_rx). unfold m'. cbn [mb_step snd].
  destruct (bool_decide_reflect (3 <= length (mb_fifo m))%nat) as [L|L].
  - rewrite <-Ec in E. replace n' with n by (unfold n'; cbn in E; by rewrite E, set_chip_id).
    split; [done|]. split; [apply followed_refl|done].
  - rewrite E. cbn [in_rx ch_coming ch_reg]. split_and!; [|split; rewrite ?E; cbn|done|done].
    + split; try done; rewrite ?E; cbn; [by apply Forall_app_2; [|constructor]|done|].
      split; rewrite ?E; cbn; try done. by left.
    + done.
    + by intros [_ ?]%app_nil.
    + intros -> _ _. by rewrite orb_true_r.
    + by intros ->.
    + by apply prefix_app_r.
Qed.

Lemma fold_hears k n m ps : hears k n m -> Forall (fun p => Z.of_nat (length p) = k) ps ->
  let n' := set_chip n (foldl (fun c p => arrive 1 p c) (n_chip n) ps) in
  hears k n' (all_arrive k ps m) /\ followed n m n' (all_arrive k ps m) /\
  ch_coming (n_chip n') = ch_coming (n_chip n) /\ ch_reg (n_chip n') = ch_reg (n_chip n).
Proof.
  intros Hh F. revert n m Hh. induction F as [|p ps Hp _ IH]; intros n m Hh; cbn [foldl all_arrive].
  - rewrite set_chip_id. split; [done|]. split; [apply followed_refl|done].
  - destruct (arrive_hears k n m p Hh Hp) as (H1 & F1 & C1 & R1).
    destruct (IH _ _ H1) as (H2 & F2 & C2 & R2). cbn [n_chip set_chip] in *.
    change (set_chip (set_chip n ?a) ?b) with (set_chip n b) in *. unfold all_arrive in *.
    split; [done|]. split; [by eapply followed_trans|]. by rewrite C2, R2.
Qed.

(** One turn of a chip that listens. *)
Lemma tick_moves k n m : hears k n m ->
  exists ps, moved k n m ps (ticked n) (all_arrive k ps m) /\ followed n m (ticked n) (all_arrive k ps m).
Proof.
  intros Hh. pose proof Hh as [Hk Hn W Ein Fin Ff Hcm Hc]. destruct Hc as [Hcfg Hpipe Hrx Htx Hce Hfl Hair].
  assert (tick (n_chip n) = match ch_coming (n_chip n) with
    | [] => n_chip n | ps :: css => foldl (fun c p => arrive 1 p c) (set_coming css (n_chip n)) ps end) as E.
  { unfold tick, tick_tx. rewrite Htx. unfold tick_rx, receiving, reg8, reg_bytes. by rewrite Hcfg, Hce. }
  unfold ticked. rewrite E. destruct (ch_coming (n_chip n)) as [|ps css] eqn:Ec.
  - exists []. rewrite set_chip_id. split; [by apply moved_refl|apply followed_refl].
  - exists ps. cbn in Hcm. apply Forall_app in Hcm as [Fp Fc].
    assert (hears k (set_chip n (set_coming css (n_chip n))) m) as H1 by (by split).
    destruct (fold_hears k _ m ps H1 Fp) as (H2 & F2 & C2 & R2). cbn [n_chip set_chip] in *.
    split.
    + split; [done|apply inner_arrivals| | |exact R2|done|apply all_arrive_sent].
      * rewrite Ec. cbn [concat n_chip set_chip]. by rewrite C2.
      * unfold quiet. by rewrite Ec.
    + destruct F2 as [Z S F K P]. by split.
Qed.

(** ** Interrupts *)

(** A query of the driver: a turn of the chip, and the answer. *)
Definition asks {A} (k : Z) (q : M nrf_t A) (answer : nrf_t -> mailbox -> A) : Prop := forall n m, hears k n m ->
  exists ps, let m' := all_arrive k ps m in
    q n = Done (answer (ticked n) m', ticked n) /\ moved k n m ps (ticked n) m' /\ followed n m (ticked n) m'.

Lemma rx_empty_asks k : asks k nrf_rx_fifo_empty (fun _ m => bool_decide (mb_fifo m = [])).
Proof.
  intros n m Hh. destruct (tick_moves k n m Hh) as (ps & M & F). exists ps. split_and!; [|done..].
  unfold nrf_rx_fifo_empty. rewrite isset_ticked by done. do 2 f_equal.
  pose proof (l_rx _ _ _ (h_chip _ _ _ (mv_hears _ _ _ _ _ _ M))) as Rx.
  pose proof (l_tx _ _ _ (h_chip _ _ _ (mv_hears _ _ _ _ _ _ M))) as Tx.
  cbn [read_reg NRF_FIFO_STATUS NRF_STATUS Z.eqb Pos.eqb hd]. unfold fifo_status_of. rewrite Rx, Tx, length_fmap.
  by destruct (mb_fifo (all_arrive k ps m)) as [|p [|p2 [|p3 fifo]]].
Qed.

Lemma pipe_asks k : asks k nrf_rx_get_pipeid (fun _ m => match mb_fifo m with [] => 7 | _ => 1 end).
Proof.
  intros n m Hh. destruct (tick_moves k n m Hh) as (ps & M & F). exists ps. split_and!; [|done..].
  unfold nrf_rx_get_pipeid. erewrite bind_done by (by apply get8_ticked).
  destruct (h_chip _ _ _ (mv_hears _ _ _ _ _ _ M)) as [_ _ Rx Tx _ Fl _].
  cbn [read_reg NRF_STATUS Z.eqb Pos.eqb hd]. unfold status_of. rewrite Rx, Tx.
  by destruct (mb_fifo (all_arrive k ps m)), Fl as [->| ->].
Qed.

Lemma flag_asks k bit : bit = MAX_RT \/ bit = TX_DS \/ bit = RX_DR ->
  asks k (nrf_bit_isset NRF_STATUS bit) (fun n _ => Z.testbit (ch_flags (n_chip n)) bit).
Proof.
  intros Hb n m Hh. destruct (tick_moves k n m Hh) as (ps & M & F). exists ps. split_and!; [|done..].
  rewrite isset_ticked by (done || by destruct Hb as [->|[->| ->]]). do 2 f_equal.
  destruct (h_chip _ _ _ (mv_hears _ _ _ _ _ _ M)) as [_ _ Rx Tx _ Fl _].
  cbn [read_reg NRF_STATUS Z.eqb Pos.eqb hd]. unfold status_of. rewrite Rx, Tx.
  destruct Hb as [->|[->| ->]], Fl as [->| ->], (mb_fifo (all_arrive k ps m)); reflexivity.
Qed.

Lemma other_flags k n m : hears k n m ->
  Z.testbit (ch_flags (n_chip n)) MAX_RT = false /\ Z.testbit (ch_flags (n_chip n)) TX_DS = false.
Proof. intros Hh. by destruct (l_flags _ _ _ (h_chip _ _ _ Hh)) as [->| ->]. Qed.

Lemma concat_length k (l : list pkt) : Forall (fun p => Z.of_nat (length p) = k) l ->
  Z.of_nat (length (concat l)) = Z.of_nat (length l) * k.
Proof. induction 1 as [|p l Hp _ IH]; simpl; [done|]. rewrite length_app. lia. Qed.

(** The queue takes a packet whole or not at all. *)
Lemma deposit_run k n inbox p : cq_wf (recvq n) -> cq_list (recvq n) = concat inbox ->
  Forall (fun p => Z.of_nat (length p) = k) inbox -> 0 < k -> Z.of_nat (length p) = k ->
  exists b q, on_recvq (cq_push_n p) n = Done (b, set_recvq n q) /\ cq_wf q /\
    cq_list q = concat (deposit k inbox p) /\
    Forall (fun p => Z.of_nat (length p) = k) (deposit k inbox p).
Proof.
  intros W E F Hk Hp. pose proof (concat_length k inbox F) as HL. rewrite <-E in HL.
  assert (Hne : p <> []) by (intros ->; simpl in Hp; lia). unfold deposit.
  destruct (Z.leb_spec (Z.of_nat (length inbox) * k + k) (CQ_N - 1)).
  - destruct (push_n_space (recvq n) p W Hne) as (q & P & W' & E'); [lia|].
    exists true, q. split_and!; [|done| |by apply Forall_app_2; [|constructor]].
    + unfold on_recvq. by rewrite (zoom_done _ _ _ _ _ _ P).
    + rewrite E', E, concat_app. simpl. by rewrite app_nil_r.
  - exists false, (recvq n). split_and!; try done. unfold on_recvq.
    by erewrite zoom_done by (by apply push_n_full; [| |lia]).
Qed.


Lemma inner_count k ps m m' : inner k ps m m' -> (length (mb_fifo m') <= length (mb_fifo m) + length ps)%nat.
Proof.
  induction 1 as [m|p ps m m' _ IH|ps m m' _ IH]; cbn [mb_step snd] in *; [lia|..].
  - case_bool_decide; cbn [mb_fifo length] in *; rewrite ?length_app in IH; cbn in *; lia.
  - destruct (mb_fifo m) eqn:E; [|cbn in *; lia]. rewrite E in IH. cbn in *. lia.
Qed.

(** What is in the buffer or still to come. *)
Definition ahead (n : nrf_t) (m : mailbox) : nat :=
  length (mb_fifo m) + length (concat (ch_coming (n_chip n))).

Lemma moved_ahead k n m ps n' m' : moved k n m ps n' m' -> (ahead n' m' <= ahead n m)%nat.
Proof.
  intros [_ I C _ _ _ _]. apply inner_count in I. unfold ahead. rewrite C, length_app. lia.
Qed.

Lemma payload_transfer k n m p fifo : hears k (ticked n) m -> mb_fifo m = p :: fifo ->
  nrf_getn NRF_R_RX_PAYLOAD k n = Done (p, set_chip n (set_rx (pair 1 <$> fifo) (n_chip (ticked n)))).
Proof.
  intros [Hk Hn W Ein Fin Ff Hcm Hc] E. rewrite E in Ff. apply Forall_cons in Ff as [Hp _].
  unfold nrf_getn. rewrite assert_run by (apply Z.ltb_lt; lia).
  rewrite assert_run by (apply Z.ltb_lt; lia). rewrite (proj2 (Z.ltb_ge _ _)) by lia.
  erewrite bind_done by (by apply transfer_ticked). cbn [command].
  rewrite Z.eqb_refl, length_replicate, (l_rx _ _ _ Hc), E. cbn [fst snd drop fmap list_fmap]. unfold pad.
  rewrite take_app_le by lia. by rewrite take_ge by lia.
Qed.

(** A packet is taken out of the chip and put in the queue. *)
Lemma take_moves {B} k n m p fifo (rest : M nrf_t B) : hears k n m -> mb_fifo m = p :: fifo ->
  exists ps n' m', (bytes ← nrf_getn NRF_R_RX_PAYLOAD k; on_recvq (cq_push_n bytes);; rest) n = rest n' /\
    moved k n m ps n' m' /\ (ahead n' m' < ahead n m)%nat.
Proof.
  intros Hh E. destruct (tick_moves k n m Hh) as (ps & M & F). set (m1 := all_arrive k ps m) in *.
  pose proof (mv_hears _ _ _ _ _ _ M) as H1. destruct (fo_prefix _ _ _ _ F) as [more E1]. rewrite E in E1.
  cbn in E1. rewrite (bind_done _ _ _ _ _ (payload_transfer k n m1 p _ H1 E1)). set (n2 := set_chip n _).
  pose proof H1 as [Hk Hn W Ein Fin Ff Hcm Hc]. pose proof Ff as Ff'. rewrite E1 in Ff'. apply Forall_cons in Ff' as [Hp Fr].
  destruct (deposit_run k n2 (mb_in m1) p W Ein Fin (proj1 Hk) Hp) as (b & q & P & Wq & Eq & Fq). mrun P.
  set (n3 := set_recvq n2 q). set (m3 := (mb_step k MbTake m1).2).
  assert (Em3 : m3 = mk_mb (fifo ++ more) (deposit k (mb_in m1) p) (mb_sent m1)).
  { unfold m3. cbn [mb_step snd]. by rewrite E1. }
  assert (H3 : hears k n3 m3).
  { rewrite Em3. split; try done. destruct Hc as [Hcfg Hpipe Hrx Htx Hce Hfl Hair]. by split. }
  exists ps, n3, m3. split; [done|].
  pose proof (moved_ahead _ _ _ _ _ _ M) as Le. unfold ahead in *. rewrite E1 in Le. cbn [length] in Le.
  destruct M as [_ I C U R G S]. split.
  - split; [done| |exact C|exact U|exact R|exact G|by rewrite Em3].
    rewrite <-(app_nil_r ps). eapply inner_app; [exact I|]. constructor. apply inner_nil.
  - rewrite Em3. cbn [mb_fifo]. change (ch_coming (n_chip n3)) with (ch_coming (n_chip (ticked n))). lia.
Qed.

(** The flag is cleared. *)
Lemma clear_moves k n m : hears k n m -> exists ps n', let m' := all_arrive k ps m in
  nrf_rx_intr_clr n = Done (tt, n') /\ moved k n m ps n' m' /\ ch_flags (n_chip n') = 0.
Proof.
  intros Hh. destruct (tick_moves k n m Hh) as (ps & M & F).
  set (n' := set_chip n (write_reg NRF_STATUS [u8 (Z.shiftl 1 RX_DR)] (n_chip (ticked n)))).
  pose proof (mv_hears _ _ _ _ _ _ M) as [Hk Hn W Ein Fin Ff Hcm Hc].
  assert (Z0 : ch_flags (n_chip n') = 0) 
    by (change (Z.ldiff (ch_flags (n_chip (ticked n))) 0x40 = 0); by destruct (l_flags _ _ _ Hc) as [->| ->]).
  assert (H' : hears k n' (all_arrive k ps m)).
  { split; try done. destruct Hc as [Hcfg Hpipe Hrx Htx Hce Hfl Hair]. split; try done. by right. }
  exists ps, n'. split_and!; [| |done].
  - unfold nrf_rx_intr_clr. by erewrite bind_done by (by apply put8_ticked).
  - destruct M as [_ I C U R G S]. by split.
Qed.

Lemma rx_loop_moves fuel k n m : hears k n m -> (ahead n m < fuel)%nat ->
  exists ps n' m', rx_loop fuel n = Done (tt, n') /\ moved k n m ps n' m' /\ mb_fifo m' = [] /\
    (only_told n m -> ch_flags (n_chip n') = 0).
Proof.
  revert n m. induction fuel as [|fuel IH]; intros n m Hh L; [lia|]. cbn [rx_loop].
  destruct (rx_empty_asks k n m Hh) as (ps1 & Q1 & M1 & F1). mrun Q1. set (m1 := all_arrive k ps1 m) in *.
  pose proof (mv_hears _ _ _ _ _ _ M1) as H1. case_bool_decide as E1.
  - exists ps1, (ticked n), m1. split_and!; [done..|]. intros O.
    destruct (l_flags _ _ _ (h_chip _ _ _ H1)) as [Fl|Fl]; [|done]. by destruct (followed_only _ _ _ _ F1 O Fl).
  - set (n1 := ticked n) in *. destruct (pipe_asks k n1 m1 H1) as (ps2 & Q2 & M2 & F2). mrun Q2.
    set (m2 := all_arrive k ps2 m1) in *. pose proof (mv_hears _ _ _ _ _ _ M2) as H2.
    destruct (mb_fifo m2) as [|p fifo] eqn:E2.
    { by destruct E1; eapply prefix_empty; [apply (fo_prefix _ _ _ _ F2)|]. }
    rewrite assert_run by reflexivity. set (n2 := ticked n1) in *. rewrite gets_run, (h_nbytes _ _ _ H2).
    destruct (take_moves k n2 m2 p fifo (nrf_rx_intr_clr;; rx_loop fuel) H2 E2) as (ps3 & n3 & m3 & -> & M3 & L3).
    destruct (clear_moves k n3 m3 (mv_hears _ _ _ _ _ _ M3)) as (ps4 & n4 & Q4 & M4 & Z4). mrun Q4.
    set (m4 := all_arrive k ps4 m3) in *.
    pose proof (moved_trans _ _ _ _ _ _ _ _ _ M1 (moved_trans _ _ _ _ _ _ _ _ _ M2
      (moved_trans _ _ _ _ _ _ _ _ _ M3 M4))) as M.
    destruct (IH n4 m4 (mv_hears _ _ _ _ _ _ M4)) as (ps5 & n5 & m5 & Q5 & M5 & E5 & Z5).
    { apply moved_ahead in M1, M2, M4. lia. }
    eexists _, n5, m5. split_and!; [done|by eapply moved_trans|done|]. intros _. apply Z5.
    intros Z. by rewrite Z4 in Z.
Qed.

(** The interrupt handler, with packets arriving between any two of its transfers: the buffer
    is emptied, and what arrives afterwards is told of by the flag and by the line. *)
Lemma intr_moves k n m : hears k n m -> told n m ->
  exists ps1 ps2 n' m1, let m' := all_arrive k ps2 m1 in
    nrf_handle_intr n = Done (tt, n') /\ moved k n m (ps1 ++ ps2) n' m' /\
    inner k ps1 m m1 /\ mb_fifo m1 = [] /\ told n' m' /\
    (only_told n m -> only_told n' m' /\ (mb_fifo m' <> [] -> ch_fell (n_chip n') = true)).
Proof.
  intros Hh T. unfold nrf_handle_intr, nrf_has_max_rt_intr, nrf_has_rx_intr, nrf_has_tx_intr.
  destruct (flag_asks k MAX_RT ltac:(auto) n m Hh) as (qs1 & Q1 & M1 & F1). mrun Q1.
  set (n1 := ticked n) in *. set (m1 := all_arrive k qs1 m) in *. pose proof (mv_hears _ _ _ _ _ _ M1) as H1.
  rewrite (proj1 (other_flags k n1 m1 H1)), ret_run.
  destruct (flag_asks k RX_DR ltac:(auto) n1 m1 H1) as (qs2 & Q2 & M2 & F2). mrun Q2.
  set (n2 := ticked n1) in *. set (m2 := all_arrive k qs2 m1) in *. pose proof (mv_hears _ _ _ _ _ _ M2) as H2.
  pose proof (moved_trans _ _ _ _ _ _ _ _ _ M1 M2) as M12. pose proof (followed_trans _ _ _ _ _ _ F1 F2) as F12.
  assert (exists ps n3 m3, (if Z.testbit (ch_flags (n_chip n2)) RX_DR then
      m_assert USE_RX_INTERRUPT;; fuel ← rx_fuel; rx_loop fuel else mret tt) n2 = Done (tt, n3) /\
    moved k n2 m2 ps n3 m3 /\ mb_fifo m3 = [] /\ (only_told n m -> ch_flags (n_chip n3) = 0)) as
    (ps & n3 & m3 & Q3 & M3 & E3 & Z3).
  { destruct (l_flags _ _ _ (h_chip _ _ _ H2)) as [Fl|Fl]; rewrite Fl.
    - change (Z.testbit 0x40 RX_DR) with true. cbv iota. rewrite assert_run by reflexivity. unfold rx_fuel.
      rewrite gets_run, (l_rx _ _ _ (h_chip _ _ _ H2)), length_fmap.
      destruct (rx_loop_moves (S (ahead n2 m2)) k n2 m2 H2) as (ps & n3 & m3 & Q3 & M3 & E3 & Z3); [lia|].
      exists ps, n3, m3. split_and!; [done..|]. intros O. apply Z3. by eapply followed_only.
    - change (Z.testbit 0 RX_DR) with false. exists [], n2, m2. split_and!; [done|by apply moved_refl| |done].
      by apply (followed_told _ _ _ _ F12 T). }
  mrun Q3. pose proof (mv_hears _ _ _ _ _ _ M3) as H3.
  destruct (flag_asks k TX_DS ltac:(auto) n3 m3 H3) as (qs4 & Q4 & M4 & F4). mrun Q4.
  pose proof (mv_hears _ _ _ _ _ _ M4) as H4. rewrite (proj2 (other_flags k _ _ H4)).
  pose proof (moved_trans _ _ _ _ _ _ _ _ _ M12 M3) as M13.
  eexists _, qs4, (ticked n3), m3. split_and!; [done|by eapply moved_trans|apply M13|done|..].
  - eapply followed_told; [exact F4|]. by intros _.
  - intros O. pose proof (Z3 O) as Z0. split; [|by apply F4]. eapply followed_only; [exact F4|].
    intros Z. by rewrite Z0 in Z.
Qed.

(** Nothing arrives: the handler empties the buffer and that is all. *)
Lemma intr_holds k n m : holds k n m ->
  exists n', nrf_handle_intr n = Done (tt, n') /\ holds k n' (mb_step k MbIntr m).2.
Proof.
  intros [Hh T U]. destruct (intr_moves k n m Hh T) as (ps1 & ps2 & n' & m1 & R & M & I & E & T' & _).
  pose proof (mv_coming _ _ _ _ _ _ M) as C. rewrite U in C. symmetry in C. apply app_nil in C as [C _].
  apply app_nil in C as [-> ->]. cbn [all_arrive foldl] in *. exists n'. split; [done|].
  rewrite <-(inner_emptied k m m1) by done. split; [apply M|done|by apply M].
Qed.

Lemma arrive_holds k n m p : holds k n m -> Z.of_nat (length p) = k ->
  holds k (set_chip n (arrive 1 p (n_chip n))) (mb_step k (MbArrive p) m).2.
Proof.
  intros [Hh T U] Hp. destruct (arrive_hears k n m p Hh Hp) as (H1 & F1 & C1 & _).
  split; [done|by eapply followed_told|]. unfold quiet in *. by rewrite C1.
Qed.

Lemma read_hears k n m : hears k n m ->
  exists n', nrf_read_exact_noblk k n = Done ((mb_step k MbRead m).1, n') /\
    hears k n' (mb_step k MbRead m).2 /\ n_chip n' = n_chip n.
Proof.
  intros Hh. pose proof Hh as [Hk Hn W Ein Fin Ff Hcm Hc]. unfold nrf_read_exact_noblk.
  rewrite assert_run by (apply Z.ltb_lt; lia).
  assert (Ea : nrf_nbytes_avail n = Done (cq_nelem (recvq n), n)) by done. mrun Ea. clear Ea.
  rewrite <-length_cq_list, Ein, (concat_length k) by done. simpl.
  destruct (mb_in m) as [|p ps] eqn:Em; [by exists n|].
  apply Forall_cons in Fin as [Hp Fps].
  rewrite (proj2 (Z.eqb_neq _ _)) by (simpl length; lia).
  rewrite (proj2 (Z.ltb_ge _ _)) by (simpl length; nia).
  destruct (pop_n_app false (Z.to_nat k) (recvq n) p (concat ps) W) as (q & P & Wq & Eq & _);
    [by rewrite Ein|lia|].
  exists (set_recvq n q). split; [|by split].
  assert (P' : on_recvq (cq_pop_n false (Z.to_nat k)) n = Done (p, set_recvq n q)).
  { unfold on_recvq. by rewrite (zoom_done _ _ _ _ _ _ P). }
  by mrun P'.
Qed.

Lemma read_holds k n m : holds k n m ->
  exists n', nrf_read_exact_noblk k n = Done ((mb_step k MbRead m).1, n') /\
    holds k n' (mb_step k MbRead m).2.
Proof.
  intros [Hh T U]. destruct (read_hears k n m Hh) as (n' & R & H' & E). exists n'. split; [done|].
  split; [done| |by unfold quiet; rewrite E]. unfold told. rewrite E. intros Z. cbn. destruct (mb_in m); by apply T.
Qed.

(** ** Registers by name *)

Lemma config_bits v : is_u8 v ->
  u8 (bit_clr v PWR_UP) = bit_clr v PWR_UP /\ u8 (bit_set v PWR_UP) = bit_set v PWR_UP /\
  (bit_is_on (bit_clr v PWR_UP) PWR_UP =? 1) = false /\ (bit_is_on (bit_set v PWR_UP) PWR_UP =? 1) = true.
Proof.
  intros Hv. assert (E : forallb (fun v =>
    (u8 (bit_clr v PWR_UP) =? bit_clr v PWR_UP) && (u8 (bit_set v PWR_UP) =? bit_set v PWR_UP) &&
    negb (bit_is_on (bit_clr v PWR_UP) PWR_UP =? 1) && (bit_is_on (bit_set v PWR_UP) PWR_UP =? 1))
    (seqZ 0 256) = true) by (vm_compute; reflexivity).
  rewrite forallb_forall in E. specialize (E v). rewrite <-list_elem_of_In, elem_of_seqZ in E.
  unfold is_u8 in Hv. specialize (E ltac:(lia)).
  rewrite !andb_true_iff, negb_true_iff, !Z.eqb_eq in E. rewrite Z.eqb_eq. tauto.
Qed.

Section registers.
Context (rx : list (Z * pkt)) (tx : list pkt) (fl : Z) (ce : bool)
  (busy : nat) (air : list (Z * pkt)) (cm : list (list pkt)) (fe : bool).
Context (Hq : tx = [] \/ ce = false).

Definition with_regs (regs' : gmap Z (list Z)) : chip := mk_chip regs' rx tx fl ce busy air cm fe.

(** Nothing can arrive: nothing comes, CE is low, or the chip is not in receive mode. *)
Definition deaf (regs : gmap Z (list Z)) : Prop :=
  cm = [] \/ ce = false \/ exists v, regs !! NRF_CONFIG = Some [v] /\ Z.testbit v PRIM_RX = false.

Lemma deaf_insert regs r v : deaf regs -> r <> NRF_CONFIG -> deaf (<[r := v]> regs).
Proof. intros [?|[?|(w & E & T)]] N; [by left|by right; left|right; right]. exists w. by rewrite lookup_insert_ne. Qed.

Lemma quiet_tick regs' : deaf regs' -> tick (with_regs regs') = with_regs regs'.
Proof using Hq.
  intros D. assert (tick_tx (with_regs regs') = with_regs regs') as E.
  { destruct Hq as [E|E]; unfold tick_tx, with_regs, sending; simpl; rewrite E; [done|]. by destruct tx. }
  unfold tick. rewrite E. unfold tick_rx, receiving, reg8, reg_bytes. cbn [with_regs ch_ce ch_reg ch_coming].
  destruct D as [->|[->|(v & -> & T)]]; [by destruct (negb _)|done|].
  cbn [default from_option id hd]. by rewrite T, andb_false_r.
Qed.

Definition stored (r : Z) : Prop := plain_reg r /\ r <> NRF_STATUS /\ r <> NRF_FIFO_STATUS.

Lemma reg_get regs r v n : n_chip n = with_regs regs -> deaf regs -> stored r -> regs !! r = Some [v] ->
  nrf_get8 r n = Done (v, n).
Proof using Hq.
  intros E D (Hr & H1 & H2) Hv. rewrite get8_run by (done || by rewrite E, quiet_tick by done).
  unfold read_reg. rewrite (proj2 (Z.eqb_neq _ _) H1), (proj2 (Z.eqb_neq _ _) H2), E.
  unfold reg_bytes. simpl. by rewrite Hv.
Qed.

Lemma reg_put regs r v n : n_chip n = with_regs regs -> deaf regs -> stored r ->
  exists st, nrf_put8 r v n = Done (st, set_chip n (with_regs (<[r := [u8 v]]> regs))).
Proof using Hq.
  intros E D (Hr & H1 & H2). eexists. rewrite put8_run by (done || by rewrite E, quiet_tick by done).
  unfold write_reg. by rewrite (proj2 (Z.eqb_neq _ _) H1), (proj2 (Z.eqb_neq _ _) H2), E.
Qed.

Lemma addr_set regs r a n : n_chip n = with_regs regs -> deaf regs -> stored r -> r <> NRF_CONFIG -> 0 <= a < 2^24 ->
  nrf_set_addr r a nrf_default_addr_nbytes n =
    Done (tt, set_chip n (with_regs (<[r := le_bytes 3 a]> regs))).
Proof using Hq.
  intros E D (Hr & H1 & H2) Nc Ha. unfold nrf_set_addr. rewrite assert_run by reflexivity.
  assert (P : nrf_putn (Z.lor r NRF_WR_REG) (le_bytes (Z.to_nat nrf_default_addr_nbytes) a) n =
    Done (status_of (n_chip n), set_chip n (with_regs (<[r := le_bytes 3 a]> regs)))).
  { unfold nrf_putn. rewrite Z.lor_comm. do 2 rewrite assert_run by reflexivity.
    change (64 <? Z.of_nat (length (le_bytes (Z.to_nat nrf_default_addr_nbytes) a)) + 1) with false.
    cbv iota.
    erewrite bind_done by (apply transfer_run; by rewrite E, quiet_tick by done).
    rewrite reg_write_cmd by done. cbn [fst snd]. unfold write_reg.
    by rewrite (proj2 (Z.eqb_neq _ _) H1), (proj2 (Z.eqb_neq _ _) H2), E. }
  mrun P. set (n1 := set_chip n _). unfold nrf_get_addr. rewrite bind_assoc, assert_run by reflexivity.
  assert (G : nrf_getn r nrf_default_addr_nbytes n1 = Done (le_bytes 3 a, n1)).
  { unfold nrf_getn. do 2 rewrite assert_run by reflexivity.
    change (64 <? nrf_default_addr_nbytes + 1) with false. cbv iota.
    erewrite bind_done by (apply transfer_run; apply quiet_tick; by apply deaf_insert).
    rewrite reg_read_cmd by done. cbn [fst snd]. rewrite set_chip_id. unfold read_reg.
    rewrite (proj2 (Z.eqb_neq _ _) H1), (proj2 (Z.eqb_neq _ _) H2). unfold reg_bytes. simpl.
    by rewrite lookup_insert_eq. }
  rewrite bind_assoc. mrun G. rewrite ret_run, le_val_bytes.
  rewrite Z.mod_small, Z.eqb_refl by (simpl; lia). done.
Qed.

Lemma config_chk regs v n : n_chip n = with_regs regs -> deaf regs -> deaf (<[NRF_CONFIG := [v]]> regs) -> is_u8 v ->
  exists st, nrf_put8_chk NRF_CONFIG v n =
    Done (st, set_chip n (with_regs (<[NRF_CONFIG := [v]]> regs))).
Proof using Hq.
  intros E D D' Hv. destruct (reg_put regs NRF_CONFIG v n E D ltac:(done)) as [st P].
  rewrite u8_small in P by done. exists st. unfold nrf_put8_chk. mrun P. set (n1 := set_chip n _).
  erewrite bind_done by (by apply (reg_get (<[NRF_CONFIG := [v]]> regs) NRF_CONFIG v n1 eq_refl D' ltac:(done)), lookup_insert_eq).
  by rewrite Z.eqb_refl.
Qed.

Lemma power_off regs v n : n_chip n = with_regs regs -> deaf regs ->
  deaf (<[NRF_CONFIG := [bit_clr v PWR_UP]]> regs) -> regs !! NRF_CONFIG = Some [v] -> is_u8 v ->
  nrf_set_pwrup_off n = Done (tt, set_chip n (with_regs (<[NRF_CONFIG := [bit_clr v PWR_UP]]> regs))).
Proof using Hq.
  intros E D D' Hv H8. destruct (config_bits v H8) as (E1 & _ & E3 & _).
  assert (H8' : is_u8 (bit_clr v PWR_UP)) by (rewrite <-E1; apply Z.mod_pos_bound; lia).
  unfold nrf_set_pwrup_off, nrf_bit_clr, nrf_is_pwrup.
  rewrite bind_assoc, assert_run by reflexivity. rewrite bind_assoc.
  mrun (reg_get _ NRF_CONFIG v n E D ltac:(done) Hv).
  destruct (config_chk _ _ n E D D' H8') as [st P]. rewrite bind_assoc. mrun P. rewrite ret_run, bind_assoc.
  set (n1 := set_chip n _).
  erewrite bind_done by (by apply (reg_get _ NRF_CONFIG _ n1 eq_refl D' ltac:(done)), lookup_insert_eq).
  by rewrite ret_run, E3.
Qed.

Lemma power_on regs v n : n_chip n = with_regs regs -> deaf regs ->
  deaf (<[NRF_CONFIG := [bit_set v PWR_UP]]> regs) -> regs !! NRF_CONFIG = Some [v] -> is_u8 v ->
  nrf_set_pwrup_on n = Done (tt, set_chip n (with_regs (<[NRF_CONFIG := [bit_set v PWR_UP]]> regs))).
Proof using Hq.
  intros E D D' Hv H8. destruct (config_bits v H8) as (_ & E1 & _ & E3).
  assert (H8' : is_u8 (bit_set v PWR_UP)) by (rewrite <-E1; apply Z.mod_pos_bound; lia).
  unfold nrf_set_pwrup_on, nrf_bit_set, nrf_is_pwrup.
  rewrite bind_assoc, assert_run by reflexivity. rewrite bind_assoc.
  mrun (reg_get _ NRF_CONFIG v n E D ltac:(done) Hv).
  destruct (config_chk _ _ n E D D' H8') as [st P]. rewrite bind_assoc. mrun P. rewrite ret_run, bind_assoc.
  set (n1 := set_chip n _).
  erewrite bind_done by (by apply (reg_get _ NRF_CONFIG _ n1 eq_refl D' ltac:(done)), lookup_insert_eq).
  by rewrite ret_run, E3.
Qed.
End registers.

(** ** Sending *)

Lemma ce_on n rx tx fl ce busy air cm fe regs : n_chip n = with_regs rx tx fl ce busy air cm fe regs ->
  gpio_set_on n = Done (tt, set_chip n (with_regs rx tx fl true busy air cm fe regs)).
Proof. intros E. unfold gpio_set_on. erewrite on_chip_run by done. by rewrite E. Qed.
Lemma ce_off n rx tx fl ce busy air cm fe regs : n_chip n = with_regs rx tx fl ce busy air cm fe regs ->
  gpio_set_off n = Done (tt, set_chip n (with_regs rx tx fl false busy air cm fe regs)).
Proof. intros E. unfold gpio_set_off. erewrite on_chip_run by done. by rewrite E. Qed.

Lemma payload_run p n rx fl ce busy air cm fe regs : n_chip n = with_regs rx [] fl ce busy air cm fe regs ->
  deaf ce cm regs -> takes_noack (n_chip n) = true -> (0 < length p <= 63)%nat ->
  exists st, nrf_putn W_TX_PAYLOAD_NO_ACK p n =
    Done (st, set_chip n (with_regs rx [p] fl ce busy air cm fe regs)).
Proof.
  intros E D Ta Hp. eexists. unfold nrf_putn. rewrite assert_run by (apply Z.ltb_lt; lia).
  rewrite assert_run by (apply Z.ltb_lt; lia). rewrite (proj2 (Z.ltb_ge _ _)) by lia.
  erewrite bind_done by (apply transfer_run; rewrite E; apply quiet_tick; [by left|done]).
  cbn [command]. rewrite Z.eqb_refl, Ta, E. done.
Qed.

(** In transmit mode nothing arrives, and the flag of a packet sent is masked. *)
Lemma tx_mode_deaf c : ch_reg c !! NRF_CONFIG = Some [tx_config] -> tick_rx c = c.
Proof. intros E. unfold tick_rx, receiving, reg8, reg_bytes. rewrite E. by rewrite andb_false_r. Qed.

Lemma raise_sent c fl : ch_reg c !! NRF_CONFIG = Some [tx_config] -> ch_flags c = fl -> fl = 0x40 \/ fl = 0 ->
  raise_flag (set_bit TX_DS) c = mk_chip (ch_reg c) (ch_rx c) (ch_tx c) (Z.lor fl (set_bit TX_DS)) (ch_ce c) (ch_busy c)
    (ch_air c) (ch_coming c) (ch_fell c).
Proof.
  intros E <- Hf. unfold raise_flag, irq_low, reg8, reg_bytes. cbn [ch_reg ch_flags]. rewrite E.
  by destruct Hf as [->| ->].
Qed.

(** The packet is out after as many polls as it is in the air. *)
Lemma wait_run b n rx p fl air cm fe regs a : n_chip n = with_regs rx [p] fl true b air cm fe regs ->
  fl = 0x40 \/ fl = 0 ->
  regs !! NRF_CONFIG = Some [tx_config] -> regs !! NRF_TX_ADDR = Some (le_bytes 3 a) -> 0 <= a < 2^24 ->
  wait_tx_empty (S b) n = Done (tt, set_chip n
    (with_regs rx [] (Z.lor fl (set_bit TX_DS)) true (airtime (S (length air))) (air ++ [(a, p)]) cm fe regs)).
Proof.
  intros E Hf Hc Ha Hr. revert n E. induction b as [|b IH]; intros n E.
  - set (c' := with_regs rx [] _ _ _ _ _ _ _).
    assert (T : tick (n_chip n) = c').
    { rewrite E. unfold tick. rewrite tx_mode_deaf; unfold tick_tx, sending, reg8, reg_bytes;
        cbn [with_regs ch_tx ch_ce ch_reg ch_busy ch_air]; rewrite Hc, Ha; cbn [default from_option id hd];
        change (Z.testbit tx_config PWR_UP) with true; change (Z.testbit tx_config PRIM_RX) with false; cbn [andb negb].
      - rewrite (raise_sent _ fl) by done. unfold c', with_regs. by rewrite le_val_bytes, Z.mod_small.
      - by rewrite (raise_sent _ fl) by done. }
    cbn [wait_tx_empty]. unfold nrf_tx_fifo_empty, nrf_bit_isset, nrf_get8, _wrap_spi_n_transfer.
    rewrite bind_assoc, assert_run by reflexivity. rewrite !bind_assoc.
    erewrite bind_done by (apply on_chip_run; rewrite T; reflexivity).
    by destruct rx as [|r1 [|r2 [|r3 rx]]].
  - set (c' := with_regs rx [p] fl true b air cm fe regs).
    assert (T : tick (n_chip n) = c').
    { rewrite E. unfold tick, tick_tx, sending, reg8, reg_bytes. cbn [with_regs ch_tx ch_ce ch_reg ch_busy].
      rewrite Hc. cbn [default from_option id hd]. change (Z.testbit tx_config PWR_UP) with true.
      change (Z.testbit tx_config PRIM_RX) with false. cbn [andb negb]. by apply tx_mode_deaf. }
    assert (F : nrf_tx_fifo_empty n = Done (false, set_chip n c')).
    { unfold nrf_tx_fifo_empty, nrf_bit_isset, nrf_get8, _wrap_spi_n_transfer.
      rewrite assert_run by reflexivity. rewrite !bind_assoc.
      erewrite bind_done by (apply on_chip_run; rewrite T; reflexivity).
      by destruct rx as [|r1 [|r2 [|r3 rx]]]. }
    change (wait_tx_empty (S (S b))) with
      (empty ← nrf_tx_fifo_empty; if (empty : bool) then mret tt else wait_tx_empty (S b)).
    mrun F. by rewrite IH.
Qed.

Lemma tx_deaf ce cm regs v : regs !! NRF_CONFIG = Some [v] -> Z.testbit v PRIM_RX = false -> deaf ce cm regs.
Proof. intros E T. right. right. by exists v. Qed.
Lemma ce_deaf cm regs : deaf false cm regs.
Proof. by right; left. Qed.

Lemma clear_tx rx ce busy air cm fe regs fl n :
  n_chip n = with_regs rx [] (Z.lor fl (set_bit TX_DS)) ce busy air cm fe regs -> deaf ce cm regs ->
  fl = 0x40 \/ fl = 0 -> nrf_tx_intr_clr n = Done (tt, set_chip n (with_regs rx [] fl ce busy air cm fe regs)).
Proof.
  intros E D Hf. unfold nrf_tx_intr_clr.
  erewrite bind_done by (apply put8_run; [done|rewrite E; apply quiet_tick; [by left|done]]).
  rewrite E. by destruct Hf as [->| ->].
Qed.

(** Up to the point where the packet is out. *)
Lemma send_packet a p n fifo fl busy air cm fe regs rest :
  n_chip n = in_rx regs fifo fl busy air cm fe -> fl = 0x40 \/ fl = 0 -> takes_noack (n_chip n) = true ->
  0 <= a < 2^24 -> (0 < length p <= 63)%nat ->
  let regs' := <[NRF_TX_ADDR := le_bytes 3 a]> (<[NRF_CONFIG := [tx_config]]> regs) in
  (gpio_set_off;; nrf_put8 NRF_CONFIG tx_config;; gpio_set_on;;
   nrf_set_addr NRF_TX_ADDR a nrf_default_addr_nbytes;; nrf_putn W_TX_PAYLOAD_NO_ACK p;;
   gpio_set_off;; gpio_set_on;; fuel ← send_fuel; wait_tx_empty fuel;; nrf_tx_intr_clr;; rest) n =
  (rest : M nrf_t unit) (set_chip n (in_rx regs' fifo fl (airtime (S (length air))) (air ++ [(a, p)]) cm fe)).
Proof.
  intros E Hf Ta Ha Hp regs'. set (rx := pair 1 <$> fifo).
  change (in_rx regs fifo fl busy air cm fe) with (with_regs rx [] fl true busy air cm fe regs) in E.
  assert (Hcfg : regs' !! NRF_CONFIG = Some [tx_config]) by (unfold regs'; by rewrite lookup_insert_ne, lookup_insert_eq).
  mrun (ce_off _ _ _ _ _ _ _ _ _ _ E).
  destruct (reg_put rx [] fl false busy air cm fe (or_introl eq_refl) regs NRF_CONFIG tx_config
    (set_chip n (with_regs rx [] fl false busy air cm fe regs)) eq_refl (ce_deaf _ _) ltac:(done)) as [st1 P1].
  mrun P1. change (u8 tx_config) with tx_config. rewrite set_chip_twice.
  erewrite bind_done by (by eapply ce_on). rewrite set_chip_twice.
  erewrite bind_done by (apply (addr_set rx [] fl true busy air cm fe (or_introl eq_refl));
    [done|by eapply tx_deaf; [apply lookup_insert_eq|]|done..]).
  rewrite set_chip_twice. fold regs'.
  destruct (payload_run p (set_chip n (with_regs rx [] fl true busy air cm fe regs')) rx fl true busy air cm fe regs'
    eq_refl) as [st2 P2]; [by eapply tx_deaf|..|done|].
  { rewrite E in Ta. unfold takes_noack, reg8, reg_bytes in *. cbn [n_chip set_chip with_regs ch_reg] in *.
    unfold regs'. by rewrite !lookup_insert_ne by done. }
  mrun P2. rewrite set_chip_twice.
  erewrite bind_done by (by eapply ce_off). rewrite set_chip_twice.
  erewrite bind_done by (by eapply ce_on). rewrite set_chip_twice.
  unfold send_fuel. rewrite gets_run. cbn [n_chip set_chip with_regs ch_busy].
  erewrite bind_done by (eapply wait_run; [done|done|done|apply lookup_insert_eq|done]).
  rewrite set_chip_twice. erewrite bind_done by (eapply clear_tx; [done|by eapply tx_deaf|done]).
  by rewrite set_chip_twice.
Qed.

Lemma send_run a p n fifo fl busy air cm fe regs :
  n_chip n = in_rx regs fifo fl busy air cm fe -> fl = 0x40 \/ fl = 0 -> takes_noack (n_chip n) = true ->
  0 <= a < 2^24 -> (0 < length p <= 63)%nat ->
  exists busy' regs', spi_transfer_syscall_handler a p n =
      Done (tt, set_chip n (in_rx regs' fifo fl busy' (air ++ [(a, p)]) cm fe)) /\
    regs' !! NRF_CONFIG = Some [rx_config] /\ regs' !! NRF_EN_RXADDR = regs !! NRF_EN_RXADDR /\
    regs' !! NRF_FEATURE = regs !! NRF_FEATURE.
Proof.
  intros E Hf Ta Ha Hp. unfold spi_transfer_syscall_handler.
  rewrite (send_packet a p n fifo fl busy air cm fe regs _ E Hf Ta Ha Hp).
  set (regs1 := <[NRF_TX_ADDR := _]> _). set (busy1 := airtime _). set (air1 := air ++ _). set (rx := pair 1 <$> fifo).
  assert (Hcfg : regs1 !! NRF_CONFIG = Some [tx_config]) by (unfold regs1; by rewrite lookup_insert_ne, lookup_insert_eq).
  change (in_rx regs1 fifo fl busy1 air1 cm fe) with (with_regs rx [] fl true busy1 air1 cm fe regs1).
  set (n1 := set_chip n _). unfold nrf_has_tx_intr.
  erewrite bind_done by (apply isset_run; [done|done|apply quiet_tick; [by left|by eapply tx_deaf]]).
  rewrite assert_run by (by destruct Hf as [->| ->], fifo).
  erewrite bind_done by (apply (power_off rx [] fl true busy1 air1 cm fe (or_introl eq_refl) regs1 tx_config n1);
    [done|by eapply tx_deaf|by eapply tx_deaf; [apply lookup_insert_eq|]|done|done]).
  erewrite bind_done by (by eapply ce_off). rewrite !set_chip_twice.
  erewrite bind_done by (eapply (power_on rx [] fl false busy1 air1 cm fe (or_introl eq_refl));
    [done|apply ce_deaf|apply ce_deaf|apply lookup_insert_eq|done]). rewrite set_chip_twice.
  match goal with |- context [set_chip n1 (with_regs rx _ _ _ _ _ _ _ ?r)] =>
    destruct (reg_put rx [] fl false busy1 air1 cm fe (or_introl eq_refl) r NRF_CONFIG rx_config
      (set_chip n1 (with_regs rx [] fl false busy1 air1 cm fe r)) eq_refl (ce_deaf _ _) ltac:(done)) as [st P] end.
  mrun P. rewrite set_chip_twice. eexists busy1, _.
  split; [etransitivity; [by eapply ce_on|reflexivity]|].
  split; [apply lookup_insert_eq|]. unfold regs1. by rewrite !lookup_insert_ne.
Qed.

(** ** Calls *)

Lemma stored_asks {A} k r v (f : Z -> A) : stored r ->
  (forall n m, hears k n m -> ch_reg (n_chip n) !! r = Some [v]) ->
  asks k (x ← nrf_get8 r; mret (f x)) (fun _ _ => f v).
Proof.
  intros (Hr & H1 & H2) Hv n m Hh. destruct (tick_moves k n m Hh) as (ps & M & F). exists ps. split_and!; [|done..].
  mrun (get8_ticked r n Hr). unfold read_reg, reg_bytes.
  rewrite (proj2 (Z.eqb_neq _ _) H1), (proj2 (Z.eqb_neq _ _) H2).
  by rewrite (Hv (ticked n) _ (mv_hears _ _ _ _ _ _ M)).
Qed.

Lemma tx_empty_asks k : asks k nrf_tx_fifo_empty (fun _ _ => true).
Proof.
  intros n m Hh. destruct (tick_moves k n m Hh) as (ps & M & F). exists ps. split_and!; [|done..].
  unfold nrf_tx_fifo_empty. rewrite isset_ticked by done. do 2 f_equal.
  destruct (h_chip _ _ _ (mv_hears _ _ _ _ _ _ M)) as [_ _ Rx Tx _ _ _].
  cbn [read_reg NRF_FIFO_STATUS NRF_STATUS Z.eqb Pos.eqb hd]. unfold fifo_status_of. rewrite Rx, Tx, length_fmap.
  by destruct (mb_fifo (all_arrive k ps m)) as [|p [|p2 [|p3 fifo]]].
Qed.

Lemma assert_config_moves k n m : hears k n m -> told n m ->
  exists ps n' m', assert_rx_config n = Done (tt, n') /\ moved k n m ps n' m' /\ told n' m'.
Proof.
  intros Hh T. destruct (stored_asks k NRF_CONFIG rx_config (fun x => x) ltac:(done)
    (fun n m h => l_config _ _ _ (h_chip _ _ _ h)) n m Hh) as (ps & Q & M & F).
  exists ps, (ticked n), (all_arrive k ps m). split_and!; [|done|by eapply followed_told].
  unfold assert_rx_config. apply bind_inv in Q as (x & n1 & Q & [= -> ->]). by mrun Q.
Qed.

Lemma enabled_moves k n m : hears k n m -> told n m ->
  exists ps n' m', nrf_pipe_is_enabled 1 n = Done (true, n') /\ moved k n m ps n' m' /\ told n' m'.
Proof.
  intros Hh T. destruct (stored_asks k NRF_EN_RXADDR 2 (fun x => bit_is_on x 1 =? 1) ltac:(done)
    (fun n m h => l_pipes _ _ _ (h_chip _ _ _ h)) n m Hh) as (ps & Q & M & F).
  exists ps, (ticked n), (all_arrive k ps m). split_and!; [done..|by eapply followed_told].
Qed.

Lemma maybe_moves k n m i : hears k n m -> told n m ->
  exists ps n' m', maybe_intr i n = Done (tt, n') /\ moved k n m ps n' m' /\ told n' m'.
Proof.
  intros Hh T. unfold maybe_intr. rewrite gets_run. destruct (irq_in_send _ i).
  - destruct (intr_moves k n m Hh T) as (ps1 & ps2 & n' & m1 & R & M & _ & _ & T' & _). by eexists _, n', _.
  - exists [], n, m. split_and!; [done|by apply moved_refl|done].
Qed.

(** The system call: interrupts are off and the chip does not listen. *)
Lemma syscall_sends k n m a p : hears k n m -> told n m -> takes_noack (n_chip n) = true -> ev_ok k (MbSend a p) ->
  let m' := (mb_step k (MbSend a p) m).2 in
  exists n', spi_transfer_syscall_handler a p n = Done (tt, n') /\ hears k n' m' /\ told n' m' /\
    takes_noack (n_chip n') = true /\ ch_coming (n_chip n') = ch_coming (n_chip n).
Proof.
  intros [Hk Hn W Ein Fin Ff Hcm Hc] T Ta [Ha Hp] m'. pose proof (listening_in_rx _ _ _ Hc) as Ec.
  destruct Hc as [Hcfg Hpipe Hrx Htx Hce Hfl Hair].
  destruct (send_run a p n _ _ _ _ _ _ _ Ec Hfl Ta Ha Hp) as (busy' & regs' & R & Hcfg' & Hpipe' & Hfe').
  rewrite Hpipe in Hpipe'. eexists. split; [exact R|]. split_and!; [by split|done| |done].
  unfold takes_noack, reg8, reg_bytes in *. cbn [n_chip set_chip in_rx ch_reg] in *. by rewrite Hfe'.
Qed.

(** The driver between calls. *)
Record works (k : Z) (n : nrf_t) (m : mailbox) : Prop := {
  wk_hears : hears k n m;
  wk_told : told n m;
  wk_noack : takes_noack (n_chip n) = true
}.

Lemma moved_noack k n m ps n' m' : moved k n m ps n' m' -> takes_noack (n_chip n') = takes_noack (n_chip n).
Proof. intros M. unfold takes_noack, reg8, reg_bytes. by rewrite (mv_regs _ _ _ _ _ _ M). Qed.

(** One part after the other. *)
Lemma works_then k n m ps n' m' : works k n m -> moved k n m ps n' m' -> told n' m' -> works k n' m'.
Proof. intros [Hh T Ta] M T'. split; [apply M|done|]. by rewrite (moved_noack _ _ _ _ _ _ M). Qed.

Lemma send_works k n m a p : works k n m -> ev_ok k (MbSend a p) ->
  exists ps n' m', nrf_tx_send_noack a p n = Done (Z.of_nat (length p), n') /\ works k n' m' /\
    mb_does k (MbSend a p) ps m None m' /\ concat (ch_coming (n_chip n)) = ps ++ concat (ch_coming (n_chip n')).
Proof.
  intros W0 Ok. unfold nrf_tx_send_noack.
  destruct (assert_config_moves k n m) as (ps1 & n1 & m1 & Q1 & M1 & T1); [apply W0..|]. mrun Q1.
  pose proof (works_then _ _ _ _ _ _ W0 M1 T1) as W1.
  destruct (maybe_moves k n1 m1 0) as (ps2 & n2 & m2 & Q2 & M2 & T2); [apply W1..|]. mrun Q2.
  pose proof (works_then _ _ _ _ _ _ W1 M2 T2) as W2.
  destruct (enabled_moves k n2 m2) as (ps3 & n3 & m3 & Q3 & M3 & T3); [apply W2..|]. mrun Q3.
  rewrite assert_run by reflexivity. pose proof (works_then _ _ _ _ _ _ W2 M3 T3) as W3.
  destruct (maybe_moves k n3 m3 1) as (ps4 & n4 & m4 & Q4 & M4 & T4); [apply W3..|]. mrun Q4.
  pose proof (works_then _ _ _ _ _ _ W3 M4 T4) as W4.
  destruct (tx_empty_asks k n4 m4 (wk_hears _ _ _ W4)) as (ps5 & Q5 & M5 & F5). mrun Q5.
  rewrite assert_run by reflexivity.
  pose proof (works_then _ _ _ _ _ _ W4 M5 (followed_told _ _ _ _ F5 T4)) as W5.
  destruct (maybe_moves k _ _ 2 (wk_hears _ _ _ W5) (wk_told _ _ _ W5)) as (ps6 & n6 & m6 & Q6 & M6 & T6). mrun Q6.
  pose proof (works_then _ _ _ _ _ _ W5 M6 T6) as W6.
  destruct (syscall_sends k n6 m6 a p) as (n7 & Q7 & H7 & T7 & Ta7 & C7); [apply W6..|done|]. mrun Q7.
  set (m7 := (mb_step k (MbSend a p) m6).2) in *.
  destruct (maybe_moves k n7 m7 3 H7 T7) as (ps8 & n8 & m8 & Q8 & M8 & T8). mrun Q8.
  destruct (assert_config_moves k n8 m8 (mv_hears _ _ _ _ _ _ M8) T8) as (ps9 & n9 & m9 & Q9 & M9 & T9). mrun Q9.
  pose proof (moved_trans _ _ _ _ _ _ _ _ _ M8 M9) as M89.
  pose proof (moved_trans _ _ _ _ _ _ _ _ _ M1 (moved_trans _ _ _ _ _ _ _ _ _ M2 (moved_trans _ _ _ _ _ _ _ _ _ M3
    (moved_trans _ _ _ _ _ _ _ _ _ M4 (moved_trans _ _ _ _ _ _ _ _ _ M5 M6))))) as M16.
  eexists _, n9, m9. split_and!; [done| |split; [done|eexists _, _, m6; split_and!; [reflexivity|apply M16|apply M89]]|].
  - split; [apply M89|done|]. by rewrite (moved_noack _ _ _ _ _ _ M89).
  - rewrite (mv_coming _ _ _ _ _ _ M16), <-C7, (mv_coming _ _ _ _ _ _ M89). by rewrite app_assoc.
Qed.

Lemma event_works k ev n m : works k n m -> ev_ok k ev ->
  exists ps r n' m', mb_run k ev n = Done (r, n') /\ works k n' m' /\ mb_does k ev ps m r m' /\
    concat (ch_coming (n_chip n)) = ps ++ concat (ch_coming (n_chip n')).
Proof.
  intros W Hev. pose proof W as [Hh T Ta]. destruct ev as [p| | | |a p]; cbn [mb_run ev_ok] in *; [|done|..].
  - destruct (arrive_hears k n m p Hh Hev) as (H1 & F1 & C1 & R1).
    eexists [], None, _, _. split; [by erewrite bind_done by (by apply on_chip_run)|].
    split_and!; [split; [exact H1|by eapply followed_told|]|by split|by rewrite C1].
    unfold takes_noack, reg8, reg_bytes in *. by rewrite R1.
  - destruct (intr_moves k n m Hh T) as (ps1 & ps2 & n' & m1 & R & M & I & E & T' & _).
    eexists _, None, n', _. split; [by mrun R|]. split_and!; [by eapply works_then| |apply M].
    split; [done|]. by exists ps1, ps2, m1.
  - destruct (read_hears k n m Hh) as (n' & R & H' & E). eexists [], _, n', _. split; [exact R|].
    split_and!; [split; [exact H'| |by rewrite E]|by split; [|destruct (mb_step k MbRead m)]|by rewrite E].
    unfold told. rewrite E. intros Z. cbn. destruct (mb_in m); by apply T.
  - destruct (send_works k n m a p W Hev) as (ps & n' & m' & R & W' & D & C).
    exists ps, None, n', m'. split_and!; [|done..]. unfold nrf_send_noack. by mrun R.
Qed.

(** ** Set-up *)

(** What [kmalloc] returns (zeros) with a chip that was not in the middle of sending; no packet
    arrives while the driver is set up. *)
Record fresh_nrf (n : nrf_t) : Prop := {
  f_queue : recvq n = mk_cq (replicate (Z.to_nat CQ_N) 0) 0 0 0 0 0;
  f_config : exists v, ch_reg (n_chip n) !! NRF_CONFIG = Some [v] /\ is_u8 v;
  f_flags : ch_flags (n_chip n) = 0x40 \/ ch_flags (n_chip n) = 0;
  f_quiet : quiet n
}.

Definition conf_ok (c : nrf_conf_t) : Prop :=
  (spi_chip c = 0 \/ spi_chip c = 1) /\ (conf_id c = 0 \/ conf_id c = 1) /\ 0 < nbytes c <= 32.

Ltac put_step := lazymatch goal with
  | |- context [(nrf_put8 ?r ?v ≫= _) (set_chip ?n (with_regs ?rx ?tx ?fl ?ce ?busy ?air ?cm ?fe ?regs))] =>
      let P := fresh "P" in let st := fresh "st" in
      destruct (reg_put rx tx fl ce busy air cm fe (or_intror eq_refl) regs r v
        (set_chip n (with_regs rx tx fl ce busy air cm fe regs)) eq_refl (ce_deaf _ _) ltac:(done)) as [st P];
      mrun P; clear P; rewrite set_chip_twice
  end.

Lemma ro_put v n : tick (n_chip n) = n_chip n ->
  nrf_put8 NRF_FIFO_STATUS v n = Done (status_of (n_chip n), n).
Proof. intros E. rewrite put8_run by done. by destruct n. Qed.

Ltac addr_step := lazymatch goal with
  | |- context [(nrf_set_addr ?r ?a nrf_default_addr_nbytes ≫= _)
                  (set_chip ?n (with_regs ?rx ?tx ?fl ?ce ?busy ?air ?cm ?fe ?regs))] =>
      rewrite (bind_done _ _ _ _ _ (addr_set rx tx fl ce busy air cm fe (or_intror eq_refl) regs r a
        (set_chip n (with_regs rx tx fl ce busy air cm fe regs)) eq_refl (ce_deaf _ _) ltac:(done) ltac:(done) ltac:(done)));
      rewrite set_chip_twice
  end.

Lemma setup_regs n rx tx fl busy air cm fe regs v c rx_addr rest :
  n_chip n = with_regs rx tx fl false busy air cm fe regs -> regs !! NRF_CONFIG = Some [v] -> is_u8 v ->
  0 <= rx_addr < 2^24 ->
  exists regs', regs' !! NRF_CONFIG = Some [rx_config] /\ regs' !! NRF_EN_RXADDR = Some [2] /\
    regs' !! NRF_RX_ADDR_P1 = Some (le_bytes 3 rx_addr) /\ regs' !! NRF_EN_AA = Some [0] /\
    regs' !! NRF_RX_PW_P1 = Some [u8 (nbytes c)] /\ regs' !! NRF_FEATURE = regs !! NRF_FEATURE /\
  (nrf_set_pwrup_off;; nrf_put8 NRF_EN_RXADDR 2;; nrf_put8 NRF_EN_AA 0;;
   m_modify (fun n => set_rxaddr n (<[1%nat := rx_addr]> (rxaddr n)));;
   nrf_set_addr NRF_RX_ADDR_P1 rx_addr nrf_default_addr_nbytes;;
   nrf_set_addr NRF_TX_ADDR 0 nrf_default_addr_nbytes;;
   nrf_put8 NRF_RX_PW_P1 (nbytes c);; nrf_put8 NRF_RX_PW_P2 0;; nrf_put8 NRF_RX_PW_P3 0;;
   nrf_put8 NRF_RX_PW_P4 0;; nrf_put8 NRF_RX_PW_P5 0;;
   nrf_put8 NRF_SETUP_AW (nrf_get_addr_nbytes - 2);;
   nrf_put8 NRF_SETUP_RETR
     (nrf_default_retran_attempts + Z.shiftl (nrf_default_retran_delay / 250 - 1) 4);;
   nrf_put8 NRF_FIFO_STATUS 17;; nrf_put8 NRF_RF_CH (channel c);;
   nrf_put8 NRF_RF_SETUP (Z.lor nrf_default_db nrf_default_data_rate);;
   nrf_set_pwrup_on;; nrf_put8 NRF_CONFIG rx_config;; rest) n =
  (rest : M nrf_t unit)
    (set_chip (set_rxaddr n (<[1%nat := rx_addr]> (rxaddr n))) (with_regs rx tx fl false busy air cm fe regs')).
Proof.
  intros E Hv H8 Ha.
  assert (Hq : tx = [] \/ false = false) by (by right).
  rewrite (bind_done _ _ _ _ _ (power_off _ _ _ _ _ _ _ _ Hq _ _ _ E (ce_deaf _ _) (ce_deaf _ _) Hv H8)).
  do 2 put_step.
  rewrite modify_run. cbn [rxaddr set_chip].
  change (set_rxaddr (set_chip n ?c) ?l) with (set_chip (set_rxaddr n l) c).
  do 2 addr_step. do 7 put_step.
  erewrite bind_done by (apply ro_put; apply quiet_tick; [by right|apply ce_deaf]).
  do 2 put_step.
  destruct (config_bits v H8) as (E1 & _).
  erewrite bind_done by (eapply (power_on rx tx fl false busy air cm fe Hq);
    [done|apply ce_deaf|apply ce_deaf|by rewrite !lookup_insert_ne, lookup_insert_eq by done|
     rewrite <-E1; apply Z.mod_pos_bound; lia]).
  rewrite set_chip_twice. put_step. eexists. split_and!; [..|reflexivity].
  all: rewrite ?lookup_insert_ne by done; by rewrite ?lookup_insert_eq.
Qed.

Lemma rx_tick rx tx fl ce busy air fe regs : regs !! NRF_CONFIG = Some [rx_config] ->
  tick (with_regs rx tx fl ce busy air [] fe regs) = with_regs rx tx fl ce busy air [] fe regs.
Proof.
  intros Hc. assert (tick_tx (with_regs rx tx fl ce busy air [] fe regs) = with_regs rx tx fl ce busy air [] fe regs) as E.
  { unfold tick_tx, sending, reg8, reg_bytes. simpl. destruct tx as [|p tx]; [done|].
    rewrite Hc. simpl. by rewrite andb_false_r. }
  unfold tick. rewrite E. unfold tick_rx. by destruct (negb _).
Qed.

(** Emptying the FIFOs and the checks at the end. *)
Lemma setup_end n rx tx fl busy air fe regs : n_chip n = with_regs rx tx fl false busy air [] fe regs ->
  regs !! NRF_CONFIG = Some [rx_config] -> fl = 0x40 \/ fl = 0 -> nrf_id n = 0 \/ nrf_id n = 1 ->
  (gpio_set_on;; nrf_rx_flush;; nrf_tx_flush;;
   (if USE_TX_INTERRUPT then nrf_tx_intr_clr;; nrf_rt_intr_clr else mret tt);;
   (if USE_RX_INTERRUPT then nrf_rx_intr_clr else mret tt);;
   tf ← nrf_tx_fifo_full; m_assert (negb tf);;
   te ← nrf_tx_fifo_empty; m_assert te;;
   rf ← nrf_rx_fifo_full; m_assert (negb rf);;
   re ← nrf_rx_fifo_empty; m_assert re;;
   id ← m_gets nrf_id;
   m_assert ((id =? 0) || (id =? 1))) n = Done (tt, set_chip n (in_rx regs [] 0 busy air [] fe)).
Proof.
  intros E Hc Hf Hid. mrun (ce_on _ _ _ _ _ _ _ _ _ _ E). set (n1 := set_chip n _).
  assert (F1 : nrf_rx_flush n1 = Done (status_of (n_chip n1), set_chip n (with_regs [] tx fl true busy air [] fe regs))).
  { unfold nrf_rx_flush. erewrite bind_done by (apply transfer_run; by apply rx_tick). done. }
  mrun F1. set (n2 := set_chip n _).
  assert (F2 : nrf_tx_flush n2 = Done (status_of (n_chip n2), set_chip n (with_regs [] [] fl true busy air [] fe regs))).
  { unfold nrf_tx_flush. erewrite bind_done by (apply transfer_run; by apply rx_tick). done. }
  mrun F2. set (n3 := set_chip n _). unfold USE_TX_INTERRUPT, USE_RX_INTERRUPT. rewrite ret_run.
  assert (F3 : nrf_rx_intr_clr n3 = Done (tt, set_chip n (with_regs [] [] 0 true busy air [] fe regs))).
  { unfold nrf_rx_intr_clr. erewrite bind_done by (apply put8_run; [done|by apply rx_tick]). by destruct Hf as [->| ->]. }
  mrun F3. set (n4 := set_chip n _).
  assert (T : tick (n_chip n4) = n_chip n4) by (by apply rx_tick).
  unfold nrf_tx_fifo_full, nrf_tx_fifo_empty, nrf_rx_fifo_full, nrf_rx_fifo_empty.
  mrun (isset_run NRF_FIFO_STATUS 5 n4 ltac:(done) ltac:(done) T). rewrite assert_run by reflexivity.
  mrun (isset_run NRF_FIFO_STATUS 4 n4 ltac:(done) ltac:(done) T). rewrite assert_run by reflexivity.
  mrun (isset_run NRF_FIFO_STATUS 1 n4 ltac:(done) ltac:(done) T). rewrite assert_run by reflexivity.
  mrun (isset_run NRF_FIFO_STATUS 0 n4 ltac:(done) ltac:(done) T). rewrite assert_run by reflexivity.
  rewrite gets_run. change (nrf_id n4) with (nrf_id n). by destruct Hid as [->| ->].
Qed.

Lemma setup_holds n c rx_addr : fresh_nrf n -> conf_ok c -> 0 <= rx_addr < 2^24 ->
  exists n', nrf_setup c rx_addr n = Done (tt, n') /\
    holds (nbytes c) n' (mk_mb [] [] (ch_air (n_chip n))) /\
    ch_reg (n_chip n') !! NRF_RX_ADDR_P1 = Some (le_bytes 3 rx_addr) /\
    ch_reg (n_chip n') !! NRF_EN_AA = Some [0] /\
    ch_reg (n_chip n') !! NRF_RX_PW_P1 = Some [nbytes c] /\
    takes_noack (n_chip n') = takes_noack (n_chip n).
Proof.
  intros [Fq (v & Hv & H8) Ff Fc] (Hs & Hid & Hk) Ha.
  unfold nrf_setup, nrf_stat_start, pin_init. rewrite modify_run, modify_run, bind_assoc.
  rewrite assert_run by (by destruct Hs as [->| ->]).
  set (c0 := n_chip n). set (n0 := set_stats _ _ _ _ _).
  erewrite bind_done by (apply (ce_off n0 (ch_rx c0) (ch_tx c0) (ch_flags c0) (ch_ce c0) (ch_busy c0)
    (ch_air c0) (ch_coming c0) (ch_fell c0) (ch_reg c0)); unfold with_regs, n0, c0; simpl; by destruct (n_chip n)).
  rewrite modify_run. set (n1 := set_ids _ _ _ _).
  edestruct (setup_regs n1 (ch_rx c0) (ch_tx c0) (ch_flags c0) (ch_busy c0) (ch_air c0) (ch_coming c0) (ch_fell c0)
    (ch_reg c0) v c rx_addr) as (regs' & H1 & H2 & H3 & H4 & H5 & H6 & R); [done..|].
  rewrite R. clear R. set (n2 := set_chip _ _).
  rewrite (setup_end n2 (ch_rx c0) (ch_tx c0) (ch_flags c0) (ch_busy c0) (ch_air c0) (ch_fell c0) regs');
    [|unfold n2, c0; cbn; by rewrite Fc|done..].
  eexists. split; [done|]. rewrite u8_small in H5 by (unfold is_u8; lia).
  split_and!; try done.
  - split; [|done|done]. split; try done.
    + change (recvq (set_chip n2 ?c)) with (recvq n). rewrite Fq.
      split; cbn [c_buf head tail]; [by rewrite length_replicate|unfold CQ_N; lia..].
    + change (recvq (set_chip n2 ?c)) with (recvq n). by rewrite Fq.
    + split; try done. by right.
  - unfold takes_noack, reg8, reg_bytes. cbn [n_chip set_chip in_rx ch_reg]. by rewrite H6.
Qed.

(** ** Sequences of events *)

(** What will arrive is up to the others. *)
Lemma coming_hears k n m css : hears k n m -> Forall (fun p => Z.of_nat (length p) = k) (concat css) ->
  hears k (set_chip n (set_coming css (n_chip n))) m.
Proof. intros [Hk Hn W Ein Fin Ff Hcm [Hcfg Hpipe Hrx Htx Hce Hfl Hair]] F. by split. Qed.

Fixpoint mb_runs (k : Z) (evs : list mb_event) : M nrf_t (list (option pkt)) :=
  match evs with
  | [] => mret []
  | ev :: evs => r ← mb_run k ev; rs ← mb_runs k evs; mret (r :: rs)
  end.

Lemma events_work k evs n m : works k n m -> Forall (ev_ok k) evs ->
  exists ps rs n' m', mb_runs k evs n = Done (rs, n') /\ works k n' m' /\ mb_history k evs ps m rs m' /\
    concat (ch_coming (n_chip n)) = ps ++ concat (ch_coming (n_chip n')).
Proof.
  intros W F. revert n m W. induction F as [|ev evs Hev _ IH]; intros n m W.
  - exists [], [], n, m. by split_and!.
  - destruct (event_works k ev n m W Hev) as (ps1 & r & n1 & m1 & R1 & W1 & D1 & C1).
    destruct (IH n1 m1 W1) as (ps2 & rs & n2 & m2 & R2 & W2 & H2 & C2).
    exists (ps1 ++ ps2), (r :: rs), n2, m2. split_and!; [|done| |].
    + cbn [mb_runs]. mrun R1. by mrun R2.
    + by exists ps1, ps2, r, rs, m1.
    + by rewrite C1, C2, app_assoc.
Qed.

(** ** Waiting with a time-out *)

(** [None]: still waiting at the end of [ws]. *)
Fixpoint mb_await (k usec : Z) (t : timeout_t) (ws : list wait) (m : mailbox) : option (option pkt * mailbox) :=
  match mb_in m with
  | _ :: _ => Some (mb_step k MbRead m)
  | [] =>
      match ws with
      | [] => None
      | (ps, now) :: ws =>
          let t := timeout_get_usec now t in
          if timeout_usec usec t then Some (None, m)
          else mb_await k usec t ws (mb_step k MbIntr (all_arrive k ps m)).2
      end
  end.

Lemma wait_holds k ps n m : holds k n m -> Forall (fun p => Z.of_nat (length p) = k) ps ->
  exists n', rpi_wait ps n = Done (tt, n') /\ holds k n' (mb_step k MbIntr (all_arrive k ps m)).2.
Proof.
  intros Hh F.
  pose proof Hh as [H0 T U]. destruct (fold_hears k n m ps H0 F) as (H1 & F1 & C1 & _).
  assert (Ha : holds k (set_chip n (foldl (fun c p => arrive 1 p c) (n_chip n) ps)) (all_arrive k ps m)).
  { split; [done|by eapply followed_told|]. unfold quiet in *. by rewrite C1. }
  destruct (intr_holds _ _ _ Ha) as (n' & R & H'). exists n'. split; [|done].
  unfold rpi_wait. by erewrite bind_done by (by apply on_chip_run).
Qed.

Lemma await_holds k usec t ws n m : holds k n m ->
  Forall (fun w : wait => Forall (fun p => Z.of_nat (length p) = k) w.1) ws ->
  match mb_await k usec t ws m with
  | Some (r, m') => exists n', read_timeout_loop k usec t ws n = Done (r, n') /\ holds k n' m'
  | None => read_timeout_loop k usec t ws n = NoFuel
  end.
Proof.
  intros Hh F. revert t n m Hh. induction F as [|[ps now] ws Hp _ IH]; intros t n m Hh;
    destruct (read_holds k n m Hh) as (n1 & R1 & H1); simpl; mrun R1; simpl in *;
    destruct (mb_in m) as [|q qs] eqn:Em; simpl in *; [done|by eauto| |by eauto].
  destruct (timeout_usec _ _); [by eauto|].
  destruct (wait_holds k ps n1 m H1 Hp) as (n2 & R2 & H2). mrun R2. by apply IH.
Qed.

(** The sum of the clock's steps. *)
Fixpoint elapsed (last : Z) (ws : list wait) : Z :=
  match ws with
  | [] => 0
  | (_, now) :: ws => u32 (now - last) + elapsed now ws
  end.

Lemma elapsed_nonneg last ws : 0 <= elapsed last ws.
Proof.
  revert last. induction ws as [|[ps now] ws IH]; intros last; simpl; [done|].
  pose proof (u32_range (now - last)) as [??]. specialize (IH now). lia.
Qed.

Lemma await_ends k usec t ws m : 0 < usec -> 0 <= time_usecs t -> time_usecs t < usec ->
  usec <= time_usecs t + elapsed (time_last t) ws < 2^64 -> is_Some (mb_await k usec t ws m).
Proof.
  intros Hu. revert t m. induction ws as [|[ps now] ws IH]; intros t m H0 Hlt He; simpl.
  { simpl in He. lia. }
  destruct (mb_in m); [|by eauto]. simpl in He.
  pose proof (u32_range (now - time_last t)) as [Hr _]. pose proof (elapsed_nonneg now ws).
  set (t' := timeout_get_usec now t).
  assert (Et : time_usecs t' = time_usecs t + u32 (now - time_last t)).
  { unfold t', timeout_get_usec. simpl. apply Z.mod_small. lia. }
  unfold timeout_usec. destruct (Z.leb_spec usec (time_usecs t')); [by eauto|].
  apply IH; [lia|lia|]. rewrite Et. simpl. lia.
Qed.
End mailbox.

(** ** Properties *)


(** C37: a read with a time-out ends.  Whatever arrives while it waits, once the clock (which
    may wrap around) has moved on by the time-out the loop has returned: a whole packet, the
    oldest one received, or -1 with nothing taken out of the queue. *)
Theorem read_timeout_returns `{Airtime} k n m usec now ws :
  holds k n m -> 0 < usec -> usec <= elapsed now ws < 2^64 ->
  Forall (fun w : wait => Forall (fun p => Z.of_nat (length p) = k) w.1) ws ->
  exists r n' m', nrf_read_exact_timeout k usec now ws n = Done (r, n') /\ holds k n' m' /\
    mb_await k usec (timeout_start now) ws m = Some (r, m') /\
    (forall p, r = Some p -> Z.of_nat (length p) = k) /\
    (r = None -> mb_in m = [] /\ mb_in m' = []).
Proof.
  intros Hh Hu He F.
  destruct (await_ends k usec (timeout_start now) ws m Hu ltac:(done) ltac:(done)) as [[r m'] Hw]; [simpl; lia|].
  pose proof (await_holds k usec (timeout_start now) ws n m Hh F) as A. rewrite Hw in A.
  destruct A as (n' & R & Hh'). exists r, n', m'. split_and!; try done.
  - intros p ->. clear -H Hh F Hw. revert Hw. generalize (timeout_start now). revert m n Hh.
    induction F as [|[ps nw] ws Hp _ IH]; intros m n Hh t Hw; simpl in Hw;
      destruct (mb_in m) as [|q qs] eqn:Em; try done;
      try (simplify_eq; pose proof (h_in_len _ _ _ (h_hears _ _ _ Hh)) as Fl; rewrite Em in Fl;
           by apply Forall_cons in Fl as [? _]).
    destruct (timeout_usec _ _); [done|].
    destruct (wait_holds k ps n m Hh Hp) as (n2 & _ & H2). by eapply IH.
  - intros ->. clear -Hw. revert Hw. generalize (timeout_start now). revert m.
    induction ws as [|[ps nw] ws IH]; intros m t Hw; simpl in Hw;
      destruct (mb_in m) as [|q qs] eqn:Em; try done.
    destruct (timeout_usec _ _); [by simplify_eq|]. split; [done|]. by apply IH in Hw as [_ ?].
Qed.

(** ** A radio *)

Module RadioExample.

#[local] Instance air : Airtime := {|
  airtime n := (2 + n)%nat;
  noack_always := true;
  irq_in_send n i := true
|}.

(** A chip after power-up, with leftovers in its FIFOs. *)
Definition chip0 (flags : Z) : chip :=
  mk_chip {[NRF_CONFIG := [8]]} [(2, [9])] [[7]] flags false 1 [] [] false.
Definition conf : nrf_conf_t := mk_conf 0 6 22 4 113 0.
Definition mem_with (c : chip) : nrf_t :=
  mk_nrf conf (replicate 6 0) 0 0 (mk_cq (replicate (Z.to_nat CQ_N) 0) 0 0 0 0 0) 0 0 0 0 0 c.
Definition mem (flags : Z) : nrf_t := mem_with (chip0 flags).

Lemma mem_fresh : fresh_nrf (mem 0).
Proof. split; [done| |by right|done]. by exists 8. Qed.

(** One packet arrives between calls, one before the third transfer of the send, one inside the
    handler that runs in it. *)
Definition traffic : list mb_event :=
  [MbArrive [1; 2; 3; 4]; MbSend 0xe6e6e6 [9; 9; 9; 9]; MbIntr; MbRead; MbRead; MbRead; MbRead].
Definition on_the_way : list (list pkt) := [[]; []; [[5; 6; 7; 8]]; []; []; [[10; 11; 12; 13]]].

Definition reads : bool :=
  match dfs_nrf_init (mem 0) conf 0xd6d6d6 (true, false) with
  | Done (Some n, _) =>
      match mb_runs 4 traffic (set_chip n (set_coming on_the_way (n_chip n))) with
      | Done (rs, _) =>
          bool_decide (rs = [None; None; None; Some [1; 2; 3; 4]; Some [5; 6; 7; 8]; Some [10; 11; 12; 13]; None])
      | _ => false
      end
  | _ => false
  end.


(** The radio after its set-up, with one packet in the queue. *)
Definition set_up : option nrf_t :=
  match nrf_setup conf 0xd6d6d6 (mem 0) with Done (_, n) => Some n | _ => None end.

Lemma read_timeout_returns_witness : exists n r n', set_up = Some n /\
  nrf_read_exact_timeout 4 100 0xfffffff0 [([[1; 2; 3; 4]], 0x10); ([], 0x90)] n = Done (r, n') /\
  r = Some [1; 2; 3; 4].
Proof.
  destruct (setup_holds (mem 0) conf 0xd6d6d6 mem_fresh) as (n & R & Hh & _).
  - split; [by left|]. split; [by left|]. split; [reflexivity|discriminate].
  - split; [discriminate|reflexivity].
  - destruct (read_timeout_returns 4 n (mk_mb [] [] []) 100 0xfffffff0 [([[1; 2; 3; 4]], 0x10); ([], 0x90)])
      as (r & n' & m' & H1 & _ & H2 & _).
    + exact Hh.
    + reflexivity.
    + split; [discriminate|reflexivity].
    + repeat constructor.
    + exists n, r, n'. split; [unfold set_up; by rewrite R|]. split; [exact H1|].
      vm_compute in H2. by injection H2 as <- _.
Defined.

(** A "sent" flag left over from before the set-up is not cleared by it; the first interrupt
    then runs into [assert(USE_TX_INTERRUPT)]. *)
Lemma pending_sent_flag_panics : exists n, nrf_setup conf 0xd6d6d6 (mem 0x20) = Done (tt, n) /\
  nrf_handle_intr (set_chip n (arrive 1 [1; 2; 3; 4] (n_chip n))) = Panic.
Proof. eexists. split; [vm_compute; reflexivity|]. vm_compute. reflexivity. Qed.

(** A packet that arrives between the flush of the receive FIFO and the assertion that it is
    empty: the set-up panics. *)
Lemma packet_during_setup_panics :
  nrf_setup conf 0xd6d6d6 (mem_with (set_coming [[]; []; []; []; []; [[1; 2; 3; 4]]] (chip0 0))) = Panic.
Proof. vm_compute. reflexivity. Qed.
End RadioExample.

(** A chip as its data sheet describes it, on which W_TX_PAYLOAD_NO_ACK does nothing unless
    EN_DYN_ACK is set: the send returns the number of bytes, and nothing has been sent. *)
Module NoDynAck.
#[local] Instance strict : Airtime := {|
  airtime n := n;
  noack_always := false;
  irq_in_send n i := false
|}.

Lemma send_sends_nothing : exists n n', nrf_setup RadioExample.conf 0xd6d6d6 (RadioExample.mem 0) = Done (tt, n) /\
  nrf_tx_send_noack 0xe6e6e6 [9; 9; 9; 9] n = Done (4, n') /\ ch_air (n_chip n') = [].
Proof. eexists _, _. split; [vm_compute; reflexivity|]. split; [vm_compute; reflexivity|]. reflexivity. Qed.
End NoDynAck.
