(* ===== verification/NrfPin.v ===== *)
(** * The radios' interrupt

    src/network/nrf-interrupt.c, [int_vector_nrf], over the pins of [Gpio] and the radios of
    [Nrf]: each radio pulls its interrupt line low while one of its flags is set and not
    masked; the pins note the falling edge; the handler asks each pin in turn and serves the
    radio whose edge it finds.  A radio's flags, and with them its line, change by its own
    code and when a packet arrives, also while the handler runs. *)

From stdpp Require Import base tactics option list numbers gmap.
From Stdlib Require Import ZArith Lia.
From S2P Require Import Prelude Circular Nrf NrfThm Gpio.

Inductive side := LeftRadio | RightRadio.
#[export] Instance side_eq_dec : EqDecision side.
Proof. solve_decision. Defined.

(** [nrf_left] and [nrf_right] ([None]: [NULL]), and the pins. *)
Record radios := mkRadios {
  r_pins : bcm;
  nrf_left : option nrf_t;
  nrf_right : option nrf_t }.

Definition radio (d : side) (s : radios) : option nrf_t :=
  match d with LeftRadio => nrf_left s | RightRadio => nrf_right s end.
Definition set_radio (d : side) (n : nrf_t) (s : radios) : radios :=
  match d with
  | LeftRadio => mkRadios (r_pins s) (Some n) (nrf_right s)
  | RightRadio => mkRadios (r_pins s) (nrf_left s) (Some n)
  end.
Definition set_pins (p : bcm) (s : radios) : radios := mkRadios p (nrf_left s) (nrf_right s).

Definition on_pins {A} (m : M bcm A) : M radios A := m_zoom r_pins set_pins m.

(** The line as it is at the end of a piece of the radio's code; if it went from high to low in
    between, the pins have seen that. *)
Definition line (n : nrf_t) (p : bcm) : bcm :=
  let pin := int_pin (config n) in
  drive pin (negb (irq_low (n_chip n)))
    (if ch_fell (n_chip n) then drive pin false (drive pin true p) else p).

(** A radio's code runs, and its line follows its flags. *)
Definition on_radio {A} (d : side) (m : M nrf_t A) : M radios A :=
  n ← m_gets (radio d);
  n ← m_opt n;
  match m (set_chip n (set_fell false (n_chip n))) with
  | Done (a, n') => m_modify (fun s => set_radio d n' (set_pins (line n' (r_pins s)) s));; mret a
  | Panic => m_panic
  | Undef => m_undef
  | NoFuel => m_nofuel
  end.

Section vector.
Context `{Airtime}.

(** [if (n != NULL && nrf_test_pin(n->config.int_pin)) nrf_handle_intr(n)]. *)
Definition serve (d : side) : M radios unit :=
  n ← m_gets (radio d);
  match n with
  | None => mret tt
  | Some n =>
      hit ← on_pins (nrf_test_pin (int_pin (config n)));
      if negb (hit =? 0) then on_radio d nrf_handle_intr else mret tt
  end.

Definition int_vector_nrf : M radios unit := serve LeftRadio;; serve RightRadio.

(** ** What happens to the radios *)

Inductive pin_event :=
  | PinArrive (d : side) (p : pkt)
  | PinIntr
  | PinRead (d : side).

Definition pin_run (k : Z) (ev : pin_event) : M radios (option pkt) :=
  match ev with
  | PinArrive d p => on_radio d (on_chip (m_modify (arrive 1 p)));; mret None
  | PinIntr => int_vector_nrf;; mret None
  | PinRead d => on_radio d (nrf_read_exact_noblk k)
  end.

(** ** Two mailboxes and an interrupt *)

Definition boxes : Type := side -> option mailbox.

Definition set_box (d : side) (m : mailbox) (b : boxes) : boxes :=
  fun d' => if decide (d' = d) then Some m else b d'.

(** What an event does to the two mailboxes.  The handler empties both radios' buffers into their
    inboxes; a packet that arrives after it has found a buffer empty stays there. *)
Definition pin_does (k : Z) (ev : pin_event) (b : boxes) (r : option pkt) (b' : boxes) : Prop :=
  match ev with
  | PinArrive d p => r = None /\ exists m, b d = Some m /\ forall d', b' d' = set_box d (mb_step k (MbArrive p) m).2 b d'
  | PinIntr => r = None /\ forall d, match b d, b' d with
      | Some m, Some m' => exists ps, mb_does k MbIntr ps m None m'
      | None, None => True
      | _, _ => False
      end
  | PinRead d => exists m, b d = Some m /\ r = (mb_step k MbRead m).1 /\
      forall d', b' d' = set_box d (mb_step k MbRead m).2 b d'
  end.

Definition pin_ev_ok (k : Z) (b : boxes) (ev : pin_event) : Prop :=
  match ev with
  | PinArrive d p => Z.of_nat (length p) = k /\ is_Some (b d)
  | PinIntr => True
  | PinRead d => is_Some (b d)
  end.

(** ** The relation *)

Record wired (k : Z) (n : nrf_t) (m : mailbox) (s : bcm) : Prop := {
  w_hears : hears k n m;
  w_pin : 0 <= int_pin (config n) < 32;
  w_input : pin_function s (int_pin (config n)) = GPIO_FUNC_INPUT;
  w_fen : Z.testbit (fen s) (int_pin (config n)) = true;
  w_flags : ch_flags (n_chip n) = if decide (mb_fifo m = []) then 0 else 0x40;
  w_level : Z.testbit (ext s) (int_pin (config n)) = bool_decide (mb_fifo m = []);
  w_event : mb_fifo m <> [] -> Z.testbit (eds s) (int_pin (config n)) = true }.

(** The radios that are there have pins of their own and are wired to them. *)
Record all_wired (k : Z) (s : radios) (b : boxes) : Prop := {
  aw_side d : match radio d s, b d with
              | Some n, Some m => wired k n m (r_pins s)
              | None, None => True
              | _, _ => False
              end;
  aw_apart n n' : nrf_left s = Some n -> nrf_right s = Some n' ->
    int_pin (config n) <> int_pin (config n');
  aw_irq : Z.testbit (nth 1 (irqs (r_pins s)) 0) 17 = true }.

Lemma irq_line k n m : hears k n m ->
  ch_flags (n_chip n) = (if decide (mb_fifo m = []) then 0 else 0x40) ->
  negb (irq_low (n_chip n)) = bool_decide (mb_fifo m = []).
Proof.
  intros Hh F. unfold irq_low, reg8, reg_bytes.
  rewrite (l_config _ _ _ (h_chip _ _ _ Hh)), F. cbn [default from_option id hd].
  destruct (decide (mb_fifo m = [])) as [E|E].
  - by rewrite bool_decide_eq_true_2.
  - by rewrite bool_decide_eq_false_2.
Qed.

(** What [drive] does to an input pin, and to the others. *)
Lemma drive_input pin v s : 0 <= pin < 32 -> pin_function s pin = GPIO_FUNC_INPUT ->
  Z.testbit (fen s) pin = true ->
  Z.testbit (ext (drive pin v s)) pin = v /\
  (Z.testbit (eds s) pin = true \/ Z.testbit (ext s) pin = true /\ v = false ->
   Z.testbit (eds (drive pin v s)) pin = true).
Proof.
  intros Hp F Hf. unfold drive, pin_level.
  assert (E : forall e, pin_function (set_ext e s) pin = GPIO_FUNC_INPUT) by (intros; exact F).
  rewrite F, E. cbn [Z.eqb GPIO_FUNC_INPUT ext set_ext]. rewrite Hf, !andb_true_r.
  assert (B : Z.testbit (if v then Z.setbit (ext s) pin else Z.clearbit (ext s) pin) pin = v).
  { destruct v; [by rewrite Z.setbit_eq by lia|by rewrite Z.clearbit_eq by lia]. }
  rewrite B. match goal with |- context [if ?c then _ else _] => destruct c eqn:C end; cbn.
  - split; [done|]. intros _. by rewrite Z.setbit_eq by lia.
  - split; [done|]. intros [H1|[H1 ->]]; [done|]. by rewrite H1 in C.
Qed.

Lemma drive_other pin v s p : 0 <= p -> 0 <= pin -> p <> pin ->
  pin_function (drive pin v s) p = pin_function s p /\
  Z.testbit (ext (drive pin v s)) p = Z.testbit (ext s) p /\
  Z.testbit (eds (drive pin v s)) p = Z.testbit (eds s) p.
Proof.
  intros Hp Hpin N. unfold drive.
  match goal with |- context [if ?c then set_eds _ _ else _] => destruct c end; cbn.
  all: split_and!; [done| |rewrite ?Z.setbit_neq by lia; done].
  all: destruct v; [by rewrite Z.setbit_neq by lia|by rewrite Z.clearbit_neq by lia].
Qed.

Lemma drive_fixed pin v s :
  fen (drive pin v s) = fen s /\ irqs (drive pin v s) = irqs s /\ fsel (drive pin v s) = fsel s.
Proof. unfold drive. by match goal with |- context [if ?c then set_eds _ _ else _] => destruct c end. Qed.

(** The line of a radio: an input pin whose falling edges are detected. *)
Definition line_pin (s : bcm) (pin : Z) : Prop :=
  0 <= pin < 32 /\ pin_function s pin = GPIO_FUNC_INPUT /\ Z.testbit (fen s) pin = true.

Lemma drive_pin pin v s : line_pin s pin -> line_pin (drive pin v s) pin.
Proof.
  intros (Hp & Hi & Hf). destruct (drive_fixed pin v s) as (E1 & _ & E3).
  split; [done|]. split; [|by rewrite E1]. unfold pin_function in *. by rewrite E3.
Qed.

(** ** Every event keeps the radios wired *)

(** The code of one radio: its line is driven. *)
Lemma wired_line k n m s n' m' :
  line_pin s (int_pin (config n)) ->
  Z.testbit (ext s) (int_pin (config n)) = bool_decide (mb_fifo m = []) ->
  hears k n' m' -> config n' = config n ->
  ch_flags (n_chip n') = (if decide (mb_fifo m' = []) then 0 else 0x40) ->
  mb_fifo m' = [] \/ mb_fifo m = [] \/ Z.testbit (eds s) (int_pin (config n)) = true \/
    ch_fell (n_chip n') = true ->
  wired k n' m' (line n' s).
Proof.
  intros Lp Hl Hh' C Fl Ev. unfold line. rewrite (irq_line k n' m'), C by done.
  set (pin := int_pin (config n)) in *. set (v := bool_decide (mb_fifo m' = [])).
  set (s1 := if ch_fell (n_chip n') then drive pin false (drive pin true s) else s).
  assert (Lp1 : line_pin s1 pin) by (unfold s1; destruct (ch_fell (n_chip n')); [by do 2 apply drive_pin|done]).
  pose proof (drive_pin pin v s1 Lp1) as (Hp & Hi & Hf).
  assert (E1 : ch_fell (n_chip n') = true -> Z.testbit (eds s1) pin = true).
  { intros Fe. unfold s1. rewrite Fe. pose proof (drive_pin pin true s Lp) as (Hp1 & Hi1 & Hf1).
    apply (drive_input pin false (drive pin true s)); [done..|]. right. split; [|done].
    destruct Lp as (? & ? & ?). by apply drive_input. }
  destruct Lp1 as (Hp1 & Hi1 & Hf1). destruct (drive_input pin v s1 Hp1 Hi1 Hf1) as [D1 D2].
  constructor; rewrite ?C; try done. intros Ne. apply D2.
  destruct (ch_fell (n_chip n')) eqn:Fe; [by auto|]. unfold s1 in *.
  destruct Ev as [Ev|[Ev|[Ev|Ev]]]; [done| |by left|done].
  right. rewrite Hl, Ev. unfold v. by rewrite bool_decide_eq_true_2, bool_decide_eq_false_2.
Qed.

(** [line] touches one pin only. *)
Lemma line_frame (P : bcm -> Prop) n s : P s -> (forall v s, P s -> P (drive (int_pin (config n)) v s)) -> P (line n s).
Proof. intros H0 Hd. unfold line. destruct (ch_fell (n_chip n)); auto. Qed.

Lemma wired_other k n m s pin v :
  wired k n m s -> 0 <= pin -> int_pin (config n) <> pin -> wired k n m (drive pin v s).
Proof.
  intros [Hh Hp Hi Hf Hfl Hl He] H0 N.
  destruct (drive_other pin v s (int_pin (config n))) as (D1 & D2 & D3); [lia..|].
  destruct (drive_fixed pin v s) as (E1 & _ & _).
  constructor; try done; rewrite ?D1, ?D2, ?D3, ?E1; done.
Qed.

Lemma wired_clear k n m s pin :
  wired k n m s -> 0 <= pin -> int_pin (config n) <> pin ->
  wired k n m (set_eds (Z.clearbit (eds s) pin) s).
Proof.
  intros [Hh Hp Hi Hf Hfl Hl He] H0 N. constructor; try done.
  intros Ne. cbn. rewrite Z.clearbit_neq by lia. auto.
Qed.

(** All of [all_wired] but the side [d]. *)
Record rest_wired (k : Z) (d : side) (s : radios) (b : boxes) : Prop := {
  rw_side d' : d' <> d -> match radio d' s, b d' with
              | Some n, Some m => wired k n m (r_pins s)
              | None, None => True
              | _, _ => False
              end;
  rw_apart n n' : nrf_left s = Some n -> nrf_right s = Some n' ->
    int_pin (config n) <> int_pin (config n');
  rw_irq : Z.testbit (nth 1 (irqs (r_pins s)) 0) 17 = true }.

Lemma all_rest k d s b : all_wired k s b -> rest_wired k d s b.
Proof. intros [A B C]. constructor; [|done|done]. intros d' _. apply A. Qed.

Lemma all_wired_ext k s b b' : (forall d, b' d = b d) -> all_wired k s b -> all_wired k s b'.
Proof. intros E [A B C]. constructor; [|done..]. intros d. rewrite E. apply A. Qed.

Lemma apart_pins k s b d n d' n' :
  rest_wired k d s b -> radio d s = Some n -> radio d' s = Some n' -> d' <> d ->
  int_pin (config n') <> int_pin (config n).
Proof.
  intros W E E' N X. destruct d, d'; try done; cbn in *.
  - by apply (rw_apart _ _ _ _ W n n').
  - by apply (rw_apart _ _ _ _ W n' n).
Qed.

Lemma side_wired k s b d n :
  all_wired k s b -> radio d s = Some n -> exists m, b d = Some m /\ wired k n m (r_pins s).
Proof. intros W E. pose proof (aw_side _ _ _ W d) as S. rewrite E in S. destruct (b d); [eauto|done]. Qed.

(** One side's code runs; the other side sees nothing of it. *)
Lemma on_radio_run {A} k s b d n n' (a : A) (c : M nrf_t A) m' :
  rest_wired k d s b -> radio d s = Some n -> c (set_chip n (set_fell false (n_chip n))) = Done (a, n') ->
  config n' = config n ->
  wired k n' m' (line n' (r_pins s)) ->
  exists s', on_radio d c s = Done (a, s') /\ all_wired k s' (set_box d m' b).
Proof.
  intros W E R C Wn. eexists. split.
  { unfold on_radio. mstep. erewrite opt_run by exact E. rewrite R. reflexivity. }
  assert (Hp : 0 <= int_pin (config n) < 32) by (rewrite <-C; apply (w_pin _ _ _ _ Wn)).
  constructor.
  - intros d'. unfold set_box. destruct (decide (d' = d)) as [->|N]; [by destruct d|].
    pose proof (rw_side _ _ _ _ W d' N) as S.
    assert (R' : radio d' (set_radio d n' (set_pins (line n' (r_pins s)) s)) = radio d' s)
      by (by destruct d, d').
    rewrite R'. destruct (radio d' s) as [n2|] eqn:E2, (b d') as [m2|]; try done.
    replace (r_pins (set_radio d n' _)) with (line n' (r_pins s)) by (by destruct d).
    apply line_frame; [done|]. intros v x Wx. rewrite C. apply wired_other; [done|lia|]. by eapply apart_pins.
  - intros x y Ex Ey. destruct d; cbn in E, Ex, Ey; simplify_eq; rewrite C.
    all: by eapply (rw_apart _ _ _ _ W).
  - replace (r_pins (set_radio d n' _)) with (line n' (r_pins s)) by (by destruct d).
    apply line_frame; [apply (rw_irq _ _ _ _ W)|]. intros v x Hx.
    by destruct (drive_fixed (int_pin (config n')) v x) as (_ & -> & _).
Qed.

(** ** The events *)

(** Before its code runs. *)
Definition rested (n : nrf_t) : nrf_t := set_chip n (set_fell false (n_chip n)).

Lemma rested_hears k n m : hears k n m -> hears k (rested n) m.
Proof. intros [Hk Hn W Ein Fin Ff Hcm [Hcfg Hpipe Hrx Htx Hce Hfl Hair]]. by split. Qed.

Lemma wired_told k n m s : wired k n m s -> told (rested n) m /\ only_told (rested n) m.
Proof.
  intros [Hh Hp Hi Hf Hfl Hl He]. unfold told, only_told. cbn [rested n_chip set_chip set_fell ch_flags]. rewrite Hfl.
  by destruct (decide (mb_fifo m = [])).
Qed.

Lemma told_flags k n m : hears k n m -> told n m -> only_told n m ->
  ch_flags (n_chip n) = if decide (mb_fifo m = []) then 0 else 0x40.
Proof.
  intros Hh T O. destruct (l_flags _ _ _ (h_chip _ _ _ Hh)) as [E|E].
  - by rewrite decide_False by (by apply O).
  - by rewrite decide_True by (by apply T).
Qed.

Lemma wired_pin k n m s : wired k n m s -> line_pin s (int_pin (config n)).
Proof. intros [Hh Hp Hi Hf Hfl Hl He]. by split. Qed.

Lemma arrive_wired k s b d n m p :
  all_wired k s b -> radio d s = Some n -> b d = Some m -> Z.of_nat (length p) = k ->
  exists s', on_radio d (on_chip (m_modify (arrive 1 p))) s = Done (tt, s') /\
    all_wired k s' (set_box d (mb_step k (MbArrive p) m).2 b).
Proof.
  intros W E Eb Hp. destruct (side_wired _ _ _ _ _ W E) as (m0 & Eb' & Wn). rewrite Eb in Eb'. injection Eb' as <-.
  pose proof Wn as [Hh Hpin Hi Hf Hfl Hl He]. destruct (wired_told _ _ _ _ Wn) as [T O].
  destruct (arrive_hears k (rested n) m p (rested_hears _ _ _ Hh) Hp) as (H1 & F1 & _).
  eapply on_radio_run; [by apply all_rest|done|by apply on_chip_run|done|].
  eapply (wired_line _ n m); [by eapply wired_pin|done|exact H1|done| |].
  - eapply told_flags; [exact H1|by eapply followed_told|by eapply followed_only].
  - destruct (decide (mb_fifo m = [])) as [E0|E0]; auto.
Qed.

Lemma read_config k n r n' : nrf_read_exact_noblk k n = Done (r, n') -> config n' = config n.
Proof.
  unfold nrf_read_exact_noblk. intros R. apply bind_inv in R as ([] & n1 & A & R).
  unfold m_assert in A. destruct (0 <? k); [|done]. injection A as <-.
  apply bind_inv in R as (x & n2 & A & R). injection A as <- <-.
  destruct (_ =? 0); [by injection R as _ <-|]. destruct (_ <? k); [by injection R as _ <-|].
  apply bind_inv in R as (bs & n3 & A & R). injection R as _ <-.
  unfold on_recvq, m_zoom in A. destruct (cq_pop_n _ _ _) as [[? ?]| | |]; [|done..].
  by injection A as _ <-.
Qed.

Lemma read_wired k s b d n m :
  all_wired k s b -> radio d s = Some n -> b d = Some m ->
  exists s', on_radio d (nrf_read_exact_noblk k) s = Done ((mb_step k MbRead m).1, s') /\
    all_wired k s' (set_box d (mb_step k MbRead m).2 b).
Proof.
  intros W E Eb. destruct (side_wired _ _ _ _ _ W E) as (m0 & Eb' & Wn). rewrite Eb in Eb'. injection Eb' as <-.
  pose proof Wn as [Hh Hpin Hi Hf Hfl Hl He].
  destruct (read_hears k (rested n) m (rested_hears _ _ _ Hh)) as (n' & R & Hh' & Ec).
  pose proof (read_config _ _ _ _ R) as En.
  assert (Ef : mb_fifo (mb_step k MbRead m).2 = mb_fifo m) by (cbn; by destruct (mb_in m)).
  eapply on_radio_run; [by apply all_rest|done|done|done|].
  eapply (wired_line k n m); [by eapply wired_pin|done|done|done|..]; rewrite ?Ef, ?Ec; [done|].
  destruct (decide (mb_fifo m = [])) as [E0|E0]; auto.
Qed.

(** What the interrupt does to one mailbox. *)
Definition served (k : Z) (o o' : option mailbox) : Prop :=
  match o, o' with
  | Some m, Some m' => exists ps, mb_does k MbIntr ps m None m'
  | None, None => True
  | _, _ => False
  end.

(** An empty buffer needs no service. *)
Lemma served_empty k m : mb_fifo m = [] -> mb_does k MbIntr [] m None m.
Proof. intros E. split; [done|]. exists [], [], m. split_and!; [done|constructor|done|done]. Qed.

(** The handler's turn for one radio. *)
Lemma serve_wired k s b d : all_wired k s b ->
  exists s' o, serve d s = Done (tt, s') /\ served k (b d) o /\
    all_wired k s' (fun d' => if decide (d' = d) then o else b d').
Proof.
  intros W. unfold serve. mstep. destruct (radio d s) as [n|] eqn:E.
  2: { pose proof (aw_side _ _ _ W d) as S. rewrite E in S. destruct (b d) eqn:Eb; [done|].
       exists s, None. split_and!; [done..|]. eapply all_wired_ext; [|exact W]. intros d'. cbn.
       by destruct (decide (d' = d)) as [->|]. }
  destruct (side_wired _ _ _ _ _ W E) as (m & Eb & Wn). pose proof Wn as [Hh Hpin Hi Hf Hfl Hl He].
  assert (L : pin_level (r_pins s) (int_pin (config n)) = bool_decide (mb_fifo m = [])).
  { unfold pin_level. rewrite Hi. exact Hl. }
  rewrite Eb. destruct (decide (mb_fifo m = [])) as [E0|E0].
  - assert (T : on_pins (nrf_test_pin (int_pin (config n))) s = Done (0, s)).
    { unfold on_pins. rewrite (zoom_done _ _ _ s 0 (r_pins s)); [by destruct s|].
      rewrite test_pin_run, L by done. by rewrite bool_decide_eq_true_2, andb_false_r by done. }
    mrun T. exists s, (Some m). split_and!; [done|by exists []; apply served_empty|].
    eapply all_wired_ext; [|exact W]. intros d'. cbn. by destruct (decide (d' = d)) as [->|].
  - set (p' := set_eds (Z.clearbit (eds (r_pins s)) (int_pin (config n))) (r_pins s)).
    assert (T : on_pins (nrf_test_pin (int_pin (config n))) s = Done (1, set_pins p' s)).
    { unfold on_pins. erewrite zoom_done; [reflexivity|]. rewrite test_pin_run, L by done.
      by rewrite bool_decide_eq_false_2, He. }
    mrun T. cbn [Z.eqb negb]. destruct (wired_told _ _ _ _ Wn) as [To On].
    destruct (intr_moves k (rested n) m (rested_hears _ _ _ Hh) To) as (ps1 & ps2 & n' & m1 & R & M & I & E1 & T' & O').
    destruct (O' On) as [O1 Fe]. pose proof (mv_hears _ _ _ _ _ _ M) as Hh'.
    destruct (on_radio_run k (set_pins p' s) b d n n' tt nrf_handle_intr (all_arrive k ps2 m1))
      as (s' & R' & W'); [|by destruct d|done|apply M| |].
    + pose proof (all_rest k d s b W) as Wr.
      destruct W as [A B C]. constructor; [|done|done]. intros d' N. specialize (A d').
      assert (Er : radio d' (set_pins p' s) = radio d' s) by (by destruct d'). rewrite Er.
      destruct (radio d' s) as [n2|] eqn:E2, (b d') as [m2|]; try done.
      apply wired_clear; [done|lia|]. by eapply (apart_pins k s b d).
    + cbn [r_pins set_pins]. eapply (wired_line k n m); [by split|done|done|apply M|by eapply told_flags|].
      destruct (decide (mb_fifo (all_arrive k ps2 m1) = [])) as [E2|E2]; [by left|]. do 3 right. by apply Fe.
    + exists s', (Some (all_arrive k ps2 m1)). split_and!; [done| |].
      * eexists. split; [done|]. by exists ps1, ps2, m1.
      * eapply all_wired_ext; [|exact W']. intros d'. unfold set_box. by destruct (decide (d' = d)).
Qed.

Lemma vector_wired k s b : all_wired k s b ->
  exists s' b', int_vector_nrf s = Done (tt, s') /\ pin_does k PinIntr b None b' /\ all_wired k s' b'.
Proof.
  intros W. unfold int_vector_nrf. destruct (serve_wired k s b LeftRadio W) as (s1 & o1 & R1 & S1 & W1).
  mrun R1. destruct (serve_wired k s1 _ RightRadio W1) as (s2 & o2 & R2 & S2 & W2).
  eexists s2, _. split_and!; [done| |exact W2]. split; [done|]. by intros [].
Qed.

Lemma event_wired k s b ev : all_wired k s b -> pin_ev_ok k b ev ->
  exists r s' b', pin_run k ev s = Done (r, s') /\ pin_does k ev b r b' /\ all_wired k s' b'.
Proof.
  intros W Ok. destruct ev as [d p| |d]; cbn [pin_run pin_ev_ok] in *.
  - destruct Ok as [Hp [m Em]]. pose proof (aw_side _ _ _ W d) as S. rewrite Em in S.
    destruct (radio d s) as [n|] eqn:E; [|done].
    destruct (arrive_wired k s b d n m p W E Em Hp) as (s' & R & W'). mrun R.
    eexists _, s', _. split_and!; [done| |exact W']. split; [done|]. by exists m.
  - destruct (vector_wired k s b W) as (s' & b' & R & D & W'). mrun R. by exists None, s', b'.
  - destruct Ok as [m Em]. pose proof (aw_side _ _ _ W d) as S. rewrite Em in S.
    destruct (radio d s) as [n|] eqn:E; [|done].
    destruct (read_wired k s b d n m W E Em) as (s' & R & W'). eexists _, s', _. split_and!; [exact R| |exact W'].
    by exists m.
Qed.

(** ** Sequences of events *)

Fixpoint pin_runs (k : Z) (evs : list pin_event) : M radios (list (option pkt)) :=
  match evs with
  | [] => mret []
  | ev :: evs => r ← pin_run k ev; rs ← pin_runs k evs; mret (r :: rs)
  end.

Fixpoint pin_history (k : Z) (evs : list pin_event) (b : boxes) (rs : list (option pkt)) (b' : boxes) : Prop :=
  match evs with
  | [] => rs = [] /\ forall d, b' d = b d
  | ev :: evs => exists r rs' b1, rs = r :: rs' /\ pin_does k ev b r b1 /\ pin_history k evs b1 rs' b'
  end.

(** No event adds or removes a radio. *)
Lemma does_present k ev b r b' d : pin_does k ev b r b' -> is_Some (b' d) <-> is_Some (b d).
Proof.
  destruct ev as [d' p| |d']; cbn [pin_does].
  - intros (_ & m & E & Hb). rewrite Hb. unfold set_box. destruct (decide (d = d')) as [->|]; [|done].
    rewrite E. split; by eexists.
  - intros [_ Hd]. specialize (Hd d). destruct (b d), (b' d); try done; split; by eexists.
  - intros (m & E & _ & Hb). rewrite Hb. unfold set_box. destruct (decide (d = d')) as [->|]; [|done].
    rewrite E. split; by eexists.
Qed.

Lemma does_ok k ev ev' b r b' : pin_does k ev b r b' -> pin_ev_ok k b ev' -> pin_ev_ok k b' ev'.
Proof. intros D. destruct ev'; cbn; rewrite ?(does_present k ev b r b' _ D); done. Qed.

(** C28: however packets arrive at the two radios, also between any two SPI transfers of the
    handler itself, interrupts are handled and packets read, in any order: the code runs to its
    end, each radio is a mailbox whose buffer the interrupt empties into its inbox, and no packet
    is ever stuck: while a radio's buffer has a packet, in particular one that came in after the
    handler had found the buffer empty, its flag is set and the pins' interrupt is pending. *)
Theorem no_packet_stuck k evs s b :
  all_wired k s b -> Forall (pin_ev_ok k b) evs ->
  exists rs s' b', pin_runs k evs s = Done (rs, s') /\ pin_history k evs b rs b' /\ all_wired k s' b' /\
    forall d n m, radio d s' = Some n -> b' d = Some m -> mb_fifo m <> [] ->
      ch_flags (n_chip n) = 0x40 /\ gpio_has_interrupt (r_pins s') = Done (1, r_pins s').
Proof.
  intros W F. revert s b W F. induction evs as [|ev evs IH]; intros s b W F.
  - exists [], s, b. split_and!; [done|done|done|]. intros d n m En Em Ne.
    pose proof (aw_side _ _ _ W d) as S. rewrite Em, En in S.
    split; [rewrite (w_flags _ _ _ _ S); by rewrite decide_False|].
    apply (pending_run (int_pin (config n))); [by apply (w_event _ _ _ _ S)|apply (aw_irq _ _ _ W)].
  - apply Forall_cons in F as [Ok F]. destruct (event_wired k s b ev W Ok) as (r & s1 & b1 & R1 & D1 & W1).
    assert (F1 : Forall (pin_ev_ok k b1) evs) by (eapply Forall_impl; [exact F|]; intros; by eapply does_ok).
    destruct (IH s1 b1 W1 F1) as (rs & s2 & b2 & R2 & H2 & W2 & P2).
    exists (r :: rs), s2, b2. split_and!; [cbn [pin_runs]; mrun R1; by mrun R2|by exists r, rs, b1|done|done].
Qed.
End vector.

Module PinExample.
Import RadioExample.
#[local] Existing Instance air.

(** The left radio on pin 22, its line high. *)
Definition pins0 : bcm := mkBcm (replicate 6 0) 0 (2 ^ 22) 0 (2 ^ 22) 0 [0; 2 ^ 17; 0] ∅.
Definition one_box : boxes :=
  fun d => match d with LeftRadio => Some (mk_mb [] [] []) | RightRadio => None end.

Definition some_events : list pin_event :=
  [PinArrive LeftRadio [1; 2; 3; 4]; PinIntr; PinRead LeftRadio].

(** A packet arrives while the handler reads the first one out, and another one after it has
    found the buffer empty. *)
Definition busy_air : list (list pkt) := [[]; []; []; []; [[5; 6; 7; 8]]; []; []; []; []; []; []; [[9; 10; 11; 12]]].
Definition with_air (n : nrf_t) : nrf_t := set_chip n (set_coming busy_air (n_chip n)).

Lemma radios_wired : exists n, set_up = Some n /\ all_wired 4 (mkRadios pins0 (Some (with_air n)) None) one_box.
Proof.
  destruct (setup_holds (mem 0) conf 0xd6d6d6 mem_fresh) as (n & R & Hh & _).
  - split; [by left|]. split; [by left|]. split; [reflexivity|discriminate].
  - split; [discriminate|reflexivity].
  - assert (E : set_up = Some n) by (unfold set_up; by rewrite R).
    assert (Ec : config n = conf /\ ch_flags (n_chip n) = 0).
    { vm_compute in E. injection E as <-. by split. }
    destruct Ec as [Ec Ef]. exists n. split; [exact E|].
    constructor; [|by intros|reflexivity].
    intros []; [|exact I]. change (config (with_air n)) with (config n). constructor; cbn [with_air config set_chip]; rewrite ?Ec.
    + apply coming_hears; [apply Hh|repeat constructor].
    + split; [discriminate|reflexivity].
    + vm_compute. reflexivity.
    + vm_compute. reflexivity.
    + exact Ef.
    + vm_compute. reflexivity.
    + intros N. by destruct N.
Qed.

Lemma no_packet_stuck_witness : exists n rs s' b', set_up = Some n /\
  pin_runs 4 some_events (mkRadios pins0 (Some (with_air n)) None) = Done (rs, s') /\
  pin_history 4 some_events one_box rs b' /\ all_wired 4 s' b'.
Proof.
  destruct radios_wired as (n & E & W).
  destruct (no_packet_stuck 4 some_events (mkRadios pins0 (Some (with_air n)) None) one_box W)
    as (rs & s' & b' & R' & H' & W' & _).
  - repeat constructor; by eexists.
  - exists n, rs, s', b'. exact (conj E (conj R' (conj H' W'))).
Defined.

(** In that run the handler takes both packets, the third stays in the buffer, and the interrupt
    is pending again. *)
Definition left_over : bool :=
  match set_up with
  | Some n =>
      match pin_runs 4 some_events (mkRadios pins0 (Some (with_air n)) None) with
      | Done (rs, s') =>
          bool_decide (rs = [None; None; Some [1; 2; 3; 4]]) &&
          match nrf_left s' with
          | Some n' => bool_decide (ch_rx (n_chip n') = [(1, [9; 10; 11; 12])]) && (cq_nelem (recvq n') =? 4) &&
              Z.testbit (eds (r_pins s')) 22
          | None => false
          end
      | _ => false
      end
  | None => false
  end.
Example left_over_run : left_over = true.
Proof. vm_compute. reflexivity. Qed.

(** A packet that arrives right after the flag of the one before was cleared makes a new edge, and
    the handler's loop takes it all the same.  The event stays detected while the line is high
    again: [nrf_test_pin] neither reports nor clears it, so that from then on every interrupt
    finds nothing to do and is pending at once again. *)
Definition after_clear (n : nrf_t) : nrf_t :=
  set_chip n (set_coming [[]; []; []; []; []; []; [[5; 6; 7; 8]]] (n_chip n)).

Definition same_radio (s s' : radios) : bool :=
  match nrf_left s, nrf_left s' with
  | Some n, Some n' => bool_decide (ch_rx (n_chip n) = [] /\ ch_rx (n_chip n') = []) &&
      (cq_nelem (recvq n) =? 8) && (cq_nelem (recvq n') =? 8)
  | _, _ => false
  end && (eds (r_pins s) =? 2 ^ 22) && (eds (r_pins s') =? 2 ^ 22).

Definition stays_pending : bool :=
  match set_up with
  | Some n =>
      match pin_runs 4 [PinArrive LeftRadio [1; 2; 3; 4]; PinIntr] (mkRadios pins0 (Some (after_clear n)) None) with
      | Done (_, s') =>
          match int_vector_nrf s', gpio_has_interrupt (r_pins s') with
          | Done (_, s2), Done (i, _) => same_radio s' s2 && (i =? 1)
          | _, _ => false
          end
      | _ => false
      end
  | None => false
  end.
Example event_stays_pending : stays_pending = true.
Proof. vm_compute. reflexivity. Qed.
End PinExample.
