(* ===== verification/Router.v ===== *)
(** * Registration of nodes with a router

    [network/nrf-router.c] and [nrf-router.h]: a router with two radios hands out its receive
    pipes to nodes; a node asks for one. *)

From stdpp Require Import base tactics option list numbers gmap.
From Stdlib Require Import ZArith Lia.
From S2P Require Import Prelude Circular Nrf NrfThm.
#[local] Open Scope Z_scope.

Definition router_ptx_addr : Z := 0x7d7d7d.
Definition node_init_addr : Z := 0xd7d7d7.
Definition nrf_rt_open_window : Z := 100.
Definition nrf_rt_timeout_us_1 : Z := 1000000.
Definition nrf_rt_timeout_us_2 : Z := 10000000.

Definition NRF_RT_OPEN : Z := 0x12121212.
Definition NRF_RT_REG : Z := 0x23232323.
Definition NRF_RT_ACP : Z := 0x34343434.
Definition NRF_RT_REJ : Z := 0x45454545.

(** A packet in memory: two words, a byte and the bytes up to the next word, which the code
    does not set. *)
Record nrf_rt_pkt : Type := mk_rt { rt_op_code : Z; rt_payload : Z; rt_node_id : Z; rt_rest : list Z }.
Definition nrf_rt_get_pkt_bytes : Z := 12.
Definition rt_encode (p : nrf_rt_pkt) : list Z :=
  le_bytes 4 (rt_op_code p) ++ le_bytes 4 (rt_payload p) ++ [u8 (rt_node_id p)] ++ take 3 (rt_rest p).
Definition rt_decode (bs : list Z) : nrf_rt_pkt :=
  mk_rt (le_val (take 4 bs)) (le_val (take 4 (drop 4 bs))) (le_val (take 1 (drop 8 bs))) (drop 9 bs).

Record router : Type := mk_router {
  ptx : nrf_t;
  prx : nrf_t;
  node_addr : list Z
}.
Definition on_ptx {A} (m : M nrf_t A) : M router A :=
  m_zoom ptx (fun n s => mk_router n (prx s) (node_addr s)) m.
Definition on_prx {A} (m : M nrf_t A) : M router A :=
  m_zoom prx (fun n s => mk_router (ptx s) n (node_addr s)) m.
Definition set_node (i : Z) (a : Z) : M router unit :=
  m_modify (fun s => mk_router (ptx s) (prx s) (<[Z.to_nat i := a]> (node_addr s))).
Definition add_conns (d : Z) : M router unit :=
  on_prx (m_modify (fun n => set_conns n (u32 (n_conns n + d)))).

Section router.
Context `{Airtime}.

(** *** Set-up *)

Definition nrf_rt_init_global : M nrf_t unit :=
  nrf_put8 NRF_SETUP_AW (nrf_get_addr_nbytes - 2);;
  nrf_put8 NRF_SETUP_RETR
    (nrf_default_retran_attempts + Z.shiftl (nrf_default_retran_delay / 250 - 1) 4);;
  nrf_put8 NRF_FIFO_STATUS 17;;
  ch ← m_gets (fun n => channel (config n));
  nrf_put8 NRF_RF_CH ch;;
  nrf_put8 NRF_RF_SETUP (Z.lor nrf_default_db nrf_default_data_rate);;
  nrf_rx_flush;;
  nrf_tx_flush;;
  nrf_set_pwrup_on;;
  nrf_put8 NRF_CONFIG rx_config;;
  gpio_set_on;;
  tf ← nrf_tx_fifo_full; m_assert (negb tf);;
  te ← nrf_tx_fifo_empty; m_assert te;;
  rf ← nrf_rx_fifo_full; m_assert (negb rf);;
  re ← nrf_rx_fifo_empty; m_assert re.

(** What the three set-up routines begin with. *)
Definition rt_start (c : nrf_conf_t) : M nrf_t unit :=
  m_modify (fun n => set_ids n c (nrf_id n) (tx_sent n));;
  nrf_stat_start;;
  pin_init (spi_chip c);;
  nrf_set_pwrup_off.

Definition NRF_DYNPD : Z := 0x1c.

Definition own_addr (i a : Z) : M nrf_t unit :=
  m_modify (fun n => set_rxaddr n (<[Z.to_nat i := a]> (rxaddr n)));;
  nrf_set_addr (NRF_RX_ADDR_P0 + i) a nrf_default_addr_nbytes;;
  k ← m_gets (fun n => nbytes (config n));
  nrf_put8 (NRF_RX_PW_P0 + i) k;;
  mret tt.

Definition nrf_init_router_ptx (c : nrf_conf_t) : M nrf_t unit :=
  rt_start c;;
  nrf_put8 NRF_EN_RXADDR 3;;
  nrf_put8 NRF_EN_AA 63;;
  nrf_put8 NRF_DYNPD 63;;
  nrf_put8 NRF_FEATURE 5;;
  own_addr 1 router_ptx_addr;;
  nrf_enable_rx 1;;
  nrf_rt_init_global.

Definition router_prx_addr : list Z := [0xa1a1a1; 0xb2b2b2; 0xc3c3c3; 0xd4d4d4; 0xe5e5e5; 0xf6f6f6].

Fixpoint own_addrs (i : Z) (addrs : list Z) : M nrf_t unit :=
  match addrs with
  | [] => mret tt
  | a :: addrs => own_addr i a;; own_addrs (i + 1) addrs
  end.

Definition nrf_init_router_prx (c : nrf_conf_t) : M nrf_t unit :=
  rt_start c;;
  own_addrs 0 router_prx_addr;;
  nrf_put8 NRF_EN_AA 63;;
  nrf_rt_init_global.

Definition nrf_init_node (c : nrf_conf_t) : M nrf_t unit :=
  rt_start c;;
  nrf_put8 NRF_EN_RXADDR 3;;
  nrf_put8 NRF_EN_AA 3;;
  own_addr 1 node_init_addr;;
  nrf_rt_init_global.

(** *** Assignment of pipes *)

(** The radio is switched to standby around the change of its pipes. *)
Definition prx_disable (i : Z) : M router unit := on_prx (gpio_set_off;; nrf_disable_rx i;; gpio_set_on).
Definition prx_enable (i : Z) : M router unit := on_prx (gpio_set_off;; nrf_enable_rx i;; gpio_set_on).

(** The loop over the pipes [i], ...: [inl] is an early return. *)
Fixpoint assign_loop (node_chosen_addr : Z) (pipes : list Z) (first_idle : Z) : M router (Z + Z) :=
  match pipes with
  | [] => mret (inr first_idle)
  | i :: pipes =>
      addrs ← m_gets node_addr;
      a ← m_opt (addrs !! Z.to_nat i);
      if a =? node_chosen_addr then
        prx_disable i;; set_node i 0;; add_conns (-1);; mret (inl (-1))
      else assign_loop node_chosen_addr pipes (if first_idle =? 0 then i else first_idle)
  end.

Definition try_assignment (node_chosen_addr : Z) : M router Z :=
  conns ← m_gets (fun s => n_conns (prx s));
  if conns =? 6 then mret (-1) else
  r ← assign_loop node_chosen_addr [1; 2; 3; 4; 5] 0;
  match r with
  | inl x => mret x
  | inr first_idle =>
      prx_enable first_idle;;
      set_node first_idle node_chosen_addr;;
      add_conns 1;;
      mret first_idle
  end.

Definition cancel_assignment (node_id : Z) : M router unit :=
  addrs ← m_gets node_addr;
  a ← m_opt (addrs !! Z.to_nat node_id);
  if a =? 0 then mret tt else
  prx_disable node_id;; set_node node_id 0;; add_conns (-1).

(** One turn of the router's loop; [rest] are the unset bytes of its packets, the clock and
    what happens while it reads come from outside. *)
Definition reg_turn (rest : list Z) (now : Z) (ws : list wait) : M router unit :=
  a ← m_gets (fun s => rxaddr (ptx s));
  own ← m_opt (a !! 1%nat);
  on_ptx (nrf_send_noack node_init_addr (rt_encode (mk_rt NRF_RT_OPEN own 0 rest)));;
  r ← on_ptx (nrf_read_exact_timeout nrf_rt_get_pkt_bytes nrf_rt_timeout_us_1 now ws);
  match r with
  | None => mret tt
  | Some data =>
      let recv := rt_decode data in
      if negb (rt_op_code recv =? NRF_RT_REG) then mret tt else
      node_id ← try_assignment (rt_payload recv);
      if 0 <=? node_id then
        addrs ← m_gets (fun s => rxaddr (prx s));
        a ← m_opt (addrs !! Z.to_nat node_id);
        ret ← on_ptx (nrf_send_ack (rt_payload recv) (rt_encode (mk_rt NRF_RT_ACP a node_id rest)));
        if negb (ret =? nrf_rt_get_pkt_bytes) then cancel_assignment node_id else mret tt
      else
        on_ptx (nrf_send_ack (rt_payload recv) (rt_encode (mk_rt NRF_RT_REJ 0 0 rest)));; mret tt
  end.

Fixpoint reg_loop (rest : list Z) (env : list (Z * list wait)) (i : Z) : M router unit :=
  conns ← m_gets (fun s => n_conns (prx s));
  if (i <? nrf_rt_open_window) || (conns =? 6) then
    match env with
    | [] => m_nofuel
    | (now, ws) :: env => reg_turn rest now ws;; reg_loop rest env (i + 1)
    end
  else mret tt.

Definition nrf_rt_open_registration (rest : list Z) (env : list (Z * list wait)) : M router Z :=
  reg_loop rest env 0;;
  m_gets (fun s => n_conns (prx s)).

(** *** The node *)

Fixpoint accept_loop (env : list (Z * list wait)) (turns : nat) (data : list Z) : M nrf_t Z :=
  match turns, env with
  | O, _ => mret (-1)
  | S _, [] => m_nofuel
  | S turns, (now, ws) :: env =>
      r ← nrf_read_exact_timeout nrf_rt_get_pkt_bytes nrf_rt_timeout_us_2 now ws;
      let data := default data r in
      let recv := rt_decode data in
      if rt_op_code recv =? NRF_RT_ACP then
        gpio_set_off;;
        nrf_set_addr NRF_TX_ADDR (rt_payload recv) nrf_default_addr_nbytes;;
        nrf_set_addr NRF_RX_ADDR_P0 (rt_payload recv) nrf_default_addr_nbytes;;
        nrf_put8 NRF_EN_RXADDR 3;;
        nrf_put8 NRF_EN_AA 3;;
        gpio_set_on;;
        mret 0
      else if negb (rt_op_code recv =? NRF_RT_OPEN) then mret (-1)
      else accept_loop env turns data
  end.

Definition nrf_rt_try_register (rest : list Z) (now : Z) (ws : list wait) (env : list (Z * list wait))
    (chosen_addr : Z) : M nrf_t Z :=
  r ← nrf_read_exact_timeout nrf_rt_get_pkt_bytes nrf_rt_timeout_us_2 now ws;
  match r with
  | None => mret (-1)
  | Some data =>
      (if rt_op_code (rt_decode data) =? NRF_RT_OPEN then
         gpio_set_off;;
         nrf_rx_flush;;
         m_modify (fun n => set_rxaddr n (<[1%nat := chosen_addr]> (rxaddr n)));;
         nrf_set_addr NRF_RX_ADDR_P1 chosen_addr nrf_default_addr_nbytes;;
         gpio_set_on;;
         nrf_rx_flush;;
         nrf_send_ack router_ptx_addr (rt_encode (mk_rt NRF_RT_REG chosen_addr 0 rest));;
         mret tt
       else mret tt);;
      accept_loop env 100 data
  end.
End router.

(** ** What registration does *)

Definition prx_ready (n : nrf_t) : Prop := exists rx fl ce busy air cm fe regs v,
  n_chip n = with_regs rx [] fl ce busy air cm fe regs /\ regs !! NRF_EN_RXADDR = Some [v] /\ is_u8 v.

Section thm.
Context `{Airtime}.

Lemma on_prx_run {A} (m : M nrf_t A) s a n : m (prx s) = Done (a, n) ->
  on_prx m s = Done (a, mk_router (ptx s) n (node_addr s)).
Proof. intros E. unfold on_prx. by rewrite (zoom_done _ _ _ _ _ _ E). Qed.

Lemma prx_enable_run i s : prx_ready (prx s) -> 0 <= i < 6 ->
  exists n, prx_enable i s = Done (tt, mk_router (ptx s) n (node_addr s)) /\ prx_ready n /\
    n_conns n = n_conns (prx s).
Proof.
  intros (rx & fl & ce & busy & air & cm & fe & regs & v & E & Hv & H8) Hi.
  eexists. split; [|split].
  - unfold prx_enable. apply on_prx_run. mrun (ce_off _ _ _ _ _ _ _ _ _ _ E). set (n1 := set_chip _ _).
    assert (R : exists st, nrf_enable_rx i n1 = Done (tt, st) /\
      st = set_chip n1 (with_regs rx [] fl false busy air cm fe (<[NRF_EN_RXADDR := [u8 (Z.lor (Z.shiftl 1 i) v)]]> regs))).
    { eexists. split; [|done]. unfold nrf_enable_rx.
      rewrite assert_run by (apply andb_true_intro; split; [apply Z.leb_le|apply Z.ltb_lt]; lia).
      erewrite bind_done by (apply (reg_get rx [] fl false busy air cm fe (or_introl eq_refl) regs); [done|apply ce_deaf|done|done]).
      destruct (reg_put rx [] fl false busy air cm fe (or_introl eq_refl) regs NRF_EN_RXADDR
        (Z.lor (Z.shiftl 1 i) v) n1 eq_refl (ce_deaf _ _) ltac:(done)) as [st P]. by mrun P. }
    destruct R as (? & R & ->). mrun R. by eapply ce_on.
  - exists rx, fl, true, busy, air, cm, fe. eexists _, _. split; [done|]. split; [apply lookup_insert_eq|].
    apply Z.mod_pos_bound. lia.
  - done.
Qed.

Lemma assign_loop_none a pipes s fi :
  Forall (fun i => i <> 0 /\ exists b, node_addr s !! Z.to_nat i = Some b /\ b <> a) pipes ->
  assign_loop a pipes fi s = Done (inr (if fi =? 0 then hd fi pipes else fi), s).
Proof.
  intros F. revert fi. induction F as [|i pipes (Hi & b & Hb & Hne) _ IH]; intros fi; simpl.
  { by destruct (fi =? 0). }
  rewrite gets_run, Hb. simpl. rewrite ret_run, (proj2 (Z.eqb_neq _ _) Hne), IH.
  destruct (Z.eqb_spec fi 0) as [->|Hfi]; [|by rewrite (proj2 (Z.eqb_neq _ _) Hfi)].
  by rewrite (proj2 (Z.eqb_neq _ _) Hi).
Qed.

(** A node with a new address gets pipe 1, whatever is there. *)
Lemma assignment_run a s x b : prx_ready (prx s) -> node_addr s = [x; b; 0; 0; 0; 0] ->
  a <> 0 -> a <> b -> 0 <= n_conns (prx s) < 6 ->
  exists s', try_assignment a s = Done (1, s') /\ prx_ready (prx s') /\
    node_addr s' = [x; a; 0; 0; 0; 0] /\ n_conns (prx s') = n_conns (prx s) + 1.
Proof.
  intros Hp Ha H0 Hb Hc. unfold try_assignment. rewrite gets_run, (proj2 (Z.eqb_neq _ 6)) by lia.
  erewrite bind_done by (apply assign_loop_none; rewrite Ha;
    repeat (constructor; [split; [discriminate|by eexists; split; [reflexivity|congruence]]|]); constructor).
  cbn [hd]. change (0 =? 0) with true. cbv iota.
  destruct (prx_enable_run 1 s Hp ltac:(lia)) as (n & R & Hn & Ec). mrun R.
  unfold set_node, add_conns. rewrite modify_run.
  erewrite bind_done by (by apply on_prx_run).
  eexists. split; [done|]. cbn [prx node_addr]. rewrite Ha. split_and!; try done.
  cbn [n_conns set_conns]. rewrite Ec. apply u32_small. unfold is_u32. lia.
Qed.

(** One turn of the loop with all six counted: nothing is assigned. *)
Lemma full_turn rest now ws s s' : n_conns (prx s) = 6 -> reg_turn rest now ws s = Done (tt, s') ->
  prx s' = prx s.
Proof.
  intros Hc R. unfold reg_turn in R. rewrite gets_run in R.
  assert (Htx : forall A (m : M nrf_t A) t a t', on_ptx m t = Done (a, t') -> prx t' = prx t).
  { intros A m t a t' E. unfold on_ptx, m_zoom in E. destruct (m (ptx t)) as [[b n]| | |]; by simplify_eq. }
  destruct (rxaddr (ptx s) !! 1%nat) as [own|]; [|done]. simpl in R. rewrite ret_run in R.
  apply bind_inv in R as (? & s1 & R1%Htx & R). apply bind_inv in R as (r & s2 & R2%Htx & R).
  rewrite R1 in R2. destruct r as [data|]; [|by inversion R; subst].
  destruct (negb _); [by inversion R; subst|].
  apply bind_inv in R as (id & s3 & R3 & R). unfold try_assignment in R3.
  rewrite gets_run, R2, Hc in R3. injection R3 as <- <-. simpl in R.
  apply bind_inv in R as (? & s4 & R4%Htx & R). injection R as <-. congruence.
Qed.
End thm.

(** ** Properties *)

(** C39: registration with the router, as the code does it.  Nodes that choose different
    addresses all get pipe 1: [try_assignment] takes the first pipe without testing that it
    is idle, so that each new node takes the place of the one before, while the number of
    connections counts them all.  At the sixth, [nrf_rt_open_registration] never returns:
    its loop goes on while there are six connections, and with six connections nothing is
    assigned or cancelled any more. *)
Theorem router_shares_one_pipe `{Airtime} addrs s x :
  prx_ready (prx s) -> node_addr s = [x; 0; 0; 0; 0; 0] -> n_conns (prx s) = 0 ->
  0 ∉ addrs -> NoDup addrs -> (0 < length addrs <= 6)%nat ->
  exists s', mapM try_assignment addrs s = Done (replicate (length addrs) 1, s') /\
    node_addr s' = [x; default 0 (last addrs); 0; 0; 0; 0] /\
    n_conns (prx s') = Z.of_nat (length addrs) /\
    (length addrs = 6%nat -> forall rest env i, ~ is_done (reg_loop rest env i s')).
Proof.
  intros Hp Ha Hc H0 Hnd Hlen.
  assert (Hm : forall addrs b s, prx_ready (prx s) -> node_addr s = [x; b; 0; 0; 0; 0] -> 0 ∉ addrs ->
    NoDup (b :: addrs) -> 0 <= n_conns (prx s) -> n_conns (prx s) + Z.of_nat (length addrs) <= 6 ->
    exists s', mapM try_assignment addrs s = Done (replicate (length addrs) 1, s') /\
      node_addr s' = [x; default b (last addrs); 0; 0; 0; 0] /\
      n_conns (prx s') = n_conns (prx s) + Z.of_nat (length addrs)).
  { clear. intros addrs. induction addrs as [|a addrs IH]; intros b s Hp Ha H0 Hnd Hc Hl; simpl.
    { exists s. split_and!; try done. lia. }
    apply not_elem_of_cons in H0 as [Ha0 H0]. apply NoDup_cons in Hnd as [Hb Hnd].
    apply not_elem_of_cons in Hb as [Hb _]. simpl in Hl.
    destruct (assignment_run a s x b Hp Ha ltac:(done) ltac:(done)) as (s1 & R1 & Hp1 & Ha1 & Hc1); [lia|].
    destruct (IH a s1 Hp1 Ha1 H0 Hnd) as (s2 & R2 & Ha2 & Hc2); [lia|lia|].
    exists s2. split_and!; [mrun R1; by mrun R2| |lia]. rewrite Ha2, last_cons. by destruct (last addrs). }
  destruct (Hm addrs 0 s Hp Ha H0) as (s' & R & Ha' & Hc'); [by constructor|lia|lia|].
  exists s'. rewrite Hc, Z.add_0_l in Hc'. split_and!; try done. intros E6 rest env i. rewrite E6 in Hc'.
  clear -Hc'. revert i s' Hc'. induction env as [|[now ws] env IH]; intros i s Hc [[u t] Hd]; simpl in Hd;
    rewrite gets_run, Hc, orb_true_r in Hd; [done|].
  apply bind_inv in Hd as ([] & s1 & R & Hd). apply full_turn in R as E1; [|done].
  apply (IH (i + 1) s1); [by rewrite E1|]. by exists (u, t).
Qed.

Module RouterExample.

#[local] Instance air : Airtime := {|
  airtime n := n;
  noack_always := true;
  irq_in_send n i := false
|}.

Definition radio : nrf_t :=
  mk_nrf RadioExample.conf [0xa1a1a1; 0xb2b2b2; 0xc3c3c3; 0xd4d4d4; 0xe5e5e5; 0xf6f6f6] 0 0
    (cq_init 0) 0 0 0 0 0 (with_regs [] [] 0 true 0 [] [] false {[NRF_EN_RXADDR := [2]]}).
Definition start : router := mk_router radio radio (replicate 6 0).

(** The routines that set up the three kinds of radio come to an end. *)
Lemma set_ups_end : exists n1 n2 n3, nrf_init_router_ptx RadioExample.conf (RadioExample.mem 0) = Done (tt, n1) /\
  nrf_init_router_prx RadioExample.conf (RadioExample.mem 0) = Done (tt, n2) /\
  nrf_init_node RadioExample.conf (RadioExample.mem 0) = Done (tt, n3) /\
  rxaddr n2 = router_prx_addr /\ read_reg (n_chip n3) NRF_RX_ADDR_P1 = le_bytes 3 node_init_addr.
Proof.
  eexists _, _, _. split; [vm_compute; reflexivity|]. split; [vm_compute; reflexivity|].
  split; [vm_compute; reflexivity|]. split; vm_compute; reflexivity.
Qed.

Lemma router_shares_one_pipe_witness : exists s',
  mapM try_assignment [11; 12; 13; 14; 15; 16] start = Done ([1; 1; 1; 1; 1; 1], s') /\
  node_addr s' = [0; 16; 0; 0; 0; 0] /\ ~ is_done (reg_loop [0; 0; 0] [] 0 s').
Proof.
  destruct (router_shares_one_pipe [11; 12; 13; 14; 15; 16] start 0) as (s' & R & Ha & _ & Hl).
  - exists [], 0, true, 0%nat, [], [], false. eexists _, 2. split; [reflexivity|]. split; [reflexivity|].
    split; [discriminate|reflexivity].
  - reflexivity.
  - reflexivity.
  - rewrite !not_elem_of_cons. repeat split; try discriminate. apply not_elem_of_nil.
  - apply (bool_decide_unpack _). vm_compute. exact I.
  - simpl. lia.
  - exists s'. split; [exact R|]. split; [exact Ha|]. by apply Hl.
Defined.
End RouterExample.
