(* ===== verification/Mmu.v ===== *)
(** * Virtual memory: page tables of 1MB sections

    [vm/mmu.c], [vm/mmu-helpers.c], [vm/vm-ident.c], the layouts of [vm/armv6-vm.h] and
    [armv6-cp15.h], the checks of [libc/helper-macros.h] and the register writes of
    [vm/your-vm-asm.S].  Printing is left out; the checks made while printing are not.  The
    hardware's side (the walk of the table, the TLB) follows the notes in [vm/armv6-vm.h]. *)

From stdpp Require Import base tactics option list numbers gmap strings.
From Stdlib Require Import ZArith Lia.
From S2P Require Import Prelude.
Import String.StringSyntax.
#[local] Open Scope string_scope.
#[local] Open Scope list_scope.
#[local] Open Scope Z_scope.

(** ** Bit fields *)

(** Offset and width of a field in a 32-bit word. *)
Definition bf : Type := Z * Z.
Definition bf_get (f : bf) (w : Z) : Z := Z.land (Z.shiftr w f.1) (Z.ones f.2).
Definition bf_set (f : bf) (v w : Z) : Z :=
  Z.lor (Z.ldiff w (Z.shiftl (Z.ones f.2) f.1)) (Z.shiftl (Z.land v (Z.ones f.2)) f.1).

(** A structure of bit fields: names and widths; the compiler for the Pi places the fields
    upwards from bit 0. *)
Definition layout : Type := list (string * Z).
Fixpoint place (off : Z) (l : layout) : list (string * bf) :=
  match l with
  | [] => []
  | (name, width) :: l => (name, (off, width)) :: place (off + width) l
  end.
Definition field (l : layout) (name : string) : bf :=
  default (0, 0) ((fun x => x.2.2) <$> list_find (fun x => x.1 = name) (place 0 l)).

(** [check_bitfield(T, field, off, nbits)]. *)
Definition check_bitfield {St} (T : layout) (name : string) (off nbits : Z) : M St unit :=
  let x := bf_set (field T name) 1 0 in
  m_assert (x =? u32 (Z.shiftl 1 off));;
  let shift := 32 - nbits in
  let set_all := Z.shiftr (u32 (Z.shiftl (2^32 - 1) shift)) shift in
  m_assert (bf_set (field T name) (2^32 - 1) x =? u32 (Z.shiftl set_all off)).

Definition fld_t : layout :=
  [("tag", 2); ("B", 1); ("C", 1); ("XN", 1); ("domain", 4); ("IMP", 1); ("AP", 2); ("TEX", 3);
   ("APX", 1); ("S", 1); ("nG", 1); ("super", 1); ("_sbz1", 1); ("sec_base_addr", 12)].

Definition control_reg1 : layout :=
  [("MMU_enabled", 1); ("A_alignment", 1); ("C_unified_enable", 1); ("W_write_buf", 1);
   ("_unused1", 3); ("B_endian", 1); ("S_prot", 1); ("R_rom_prot", 1); ("F", 1);
   ("Z_branch_pred", 1); ("I_icache_enable", 1); ("V_high_except_v", 1); ("RR_cache_rep", 1);
   ("L4", 1); ("_dt", 1); ("_sbz0", 1); ("_it", 1); ("_sbz1", 1); ("_st", 1); ("F1", 1);
   ("U_unaligned", 1); ("XP_pt", 1); ("VE_vect_int", 1); ("EE", 1); ("L2_enabled", 1);
   ("_reserved0", 1); ("TR_tex_remap", 1); ("FA_force_ap", 1); ("_reserved1", 2)].

Definition tlb_config : layout :=
  [("unified_p", 1); ("_sbz0", 7); ("n_d_lock", 8); ("n_i_lock", 8); ("_sbz1", 8)].

Definition check_all {St} (T : layout) (l : list (string * (Z * Z))) : M St unit :=
  foldr (fun x m => check_bitfield T x.1 x.2.1 x.2.2;; m) (mret tt) l.

Definition control_reg1_check_offsets {St} : M St unit :=
  check_all control_reg1
    [("MMU_enabled", (0, 1)); ("A_alignment", (1, 1)); ("C_unified_enable", (2, 1));
     ("W_write_buf", (3, 1)); ("B_endian", (7, 1)); ("S_prot", (8, 1)); ("R_rom_prot", (9, 1));
     ("F", (10, 1)); ("Z_branch_pred", (11, 1)); ("I_icache_enable", (12, 1));
     ("V_high_except_v", (13, 1)); ("RR_cache_rep", (14, 1)); ("L4", (15, 1)); ("F1", (21, 1));
     ("U_unaligned", (22, 1)); ("XP_pt", (23, 1)); ("VE_vect_int", (24, 1)); ("EE", (25, 1));
     ("L2_enabled", (26, 1)); ("TR_tex_remap", (28, 1)); ("FA_force_ap", (29, 1))].

Definition tlb_config_check_offsets {St} : M St unit :=
  check_all tlb_config [("unified_p", (0, 1)); ("n_d_lock", (8, 8)); ("n_i_lock", (16, 8))].

Definition fld_tag : bf := Eval vm_compute in field fld_t "tag".
Definition fld_B : bf := Eval vm_compute in field fld_t "B".
Definition fld_C : bf := Eval vm_compute in field fld_t "C".
Definition fld_XN : bf := Eval vm_compute in field fld_t "XN".
Definition fld_domain : bf := Eval vm_compute in field fld_t "domain".
Definition fld_IMP : bf := Eval vm_compute in field fld_t "IMP".
Definition fld_AP : bf := Eval vm_compute in field fld_t "AP".
Definition fld_TEX : bf := Eval vm_compute in field fld_t "TEX".
Definition fld_APX : bf := Eval vm_compute in field fld_t "APX".
Definition fld_S : bf := Eval vm_compute in field fld_t "S".
Definition fld_nG : bf := Eval vm_compute in field fld_t "nG".
Definition fld_super : bf := Eval vm_compute in field fld_t "super".
Definition fld_sbz1 : bf := Eval vm_compute in field fld_t "_sbz1".
Definition fld_sec_base_addr : bf := Eval vm_compute in field fld_t "sec_base_addr".
Definition MMU_enabled : bf := Eval vm_compute in field control_reg1 "MMU_enabled".
Definition C_unified_enable : bf := Eval vm_compute in field control_reg1 "C_unified_enable".
Definition I_icache_enable : bf := Eval vm_compute in field control_reg1 "I_icache_enable".
Definition XP_pt : bf := Eval vm_compute in field control_reg1 "XP_pt".

Definition fld_check_valid {St} (f : Z) : M St unit :=
  m_assert (bf_get fld_sbz1 f =? 0);;
  m_assert (bf_get fld_tag f =? 2);;
  m_assert (bf_get fld_S f =? 0);;
  m_assert (bf_get fld_IMP f =? 0);;
  m_assert (bf_get fld_TEX f =? 0);;
  m_assert (bf_get fld_C f =? 0);;
  m_assert (bf_get fld_B f =? 0);;
  m_assert (bf_get fld_super f =? 0).

Definition fld_mk : Z := bf_set fld_tag 2 0.

Definition fld_check_offsets {St} : M St unit :=
  fld_check_valid fld_mk;;
  check_all fld_t
    [("tag", (0, 2)); ("B", (2, 1)); ("C", (3, 1)); ("XN", (4, 1)); ("domain", (5, 4));
     ("IMP", (9, 1)); ("AP", (10, 2)); ("TEX", (12, 3)); ("APX", (15, 1)); ("S", (16, 1));
     ("nG", (17, 1)); ("super", (18, 1)); ("sec_base_addr", (20, 12))].

Definition check_vm_structs {St} : M St unit :=
  control_reg1_check_offsets;;
  tlb_config_check_offsets;;
  fld_check_offsets.

(** ** State *)

(** [kmalloc_aligned]: the address of the [n]th block given out, and the words in it. *)
Class PtHeap : Type := {
  pt_block : nat -> Z;
  pt_junk : nat -> nat -> Z
}.

(** The registers, the tables in memory by their address, and the TLB: the descriptors the
    hardware has taken over, by section number. *)
Record vm : Type := mk_vm {
  v_c1 : Z;
  v_dac : Z;
  v_procid : Z;
  v_ttbr0 : Z;
  v_ttbr1 : Z;
  v_ttbr_ctrl : Z;
  v_vbase : Z;
  v_pts : gmap Z (list Z);
  v_nalloc : nat;
  v_tlb : gmap Z Z;
  quiet_p : bool
}.

Section setters.
Context (s : vm).
Definition set_c1 (x : Z) : vm :=
  mk_vm x (v_dac s) (v_procid s) (v_ttbr0 s) (v_ttbr1 s) (v_ttbr_ctrl s) (v_vbase s) (v_pts s)
    (v_nalloc s) (v_tlb s) (quiet_p s).
Definition set_dac (x : Z) : vm :=
  mk_vm (v_c1 s) x (v_procid s) (v_ttbr0 s) (v_ttbr1 s) (v_ttbr_ctrl s) (v_vbase s) (v_pts s)
    (v_nalloc s) (v_tlb s) (quiet_p s).
Definition set_ttbr (procid ttbr0 ttbr1 ctrl : Z) : vm :=
  mk_vm (v_c1 s) (v_dac s) procid ttbr0 ttbr1 ctrl (v_vbase s) (v_pts s) (v_nalloc s) (v_tlb s)
    (quiet_p s).
Definition set_vbase (x : Z) : vm :=
  mk_vm (v_c1 s) (v_dac s) (v_procid s) (v_ttbr0 s) (v_ttbr1 s) (v_ttbr_ctrl s) x (v_pts s)
    (v_nalloc s) (v_tlb s) (quiet_p s).
Definition set_pts (x : gmap Z (list Z)) (n : nat) : vm :=
  mk_vm (v_c1 s) (v_dac s) (v_procid s) (v_ttbr0 s) (v_ttbr1 s) (v_ttbr_ctrl s) (v_vbase s) x
    n (v_tlb s) (quiet_p s).
Definition set_tlb (x : gmap Z Z) : vm :=
  mk_vm (v_c1 s) (v_dac s) (v_procid s) (v_ttbr0 s) (v_ttbr1 s) (v_ttbr_ctrl s) (v_vbase s)
    (v_pts s) (v_nalloc s) x (quiet_p s).
Definition set_quiet (x : bool) : vm :=
  mk_vm (v_c1 s) (v_dac s) (v_procid s) (v_ttbr0 s) (v_ttbr1 s) (v_ttbr_ctrl s) (v_vbase s)
    (v_pts s) (v_nalloc s) (v_tlb s) x.
End setters.

(** ** The assembly *)

Definition cp15_ctrl_reg1_rd : M vm Z := m_gets v_c1.
Definition cp15_ctrl_reg1_wr (r : Z) : M vm unit := m_modify (fun s => set_c1 s r).
Definition inv_tlb : M vm unit := m_modify (fun s => set_tlb s ∅).
Definition cp15_domain_ctrl_wr (r : Z) : M vm unit := m_modify (fun s => set_dac s r).
Definition mmu_reset : M vm unit := inv_tlb.
Definition mmu_disable_set_asm (c : Z) : M vm unit := inv_tlb;; cp15_ctrl_reg1_wr c.
Definition mmu_enable_set_asm (c : Z) : M vm unit :=
  r2 ← cp15_ctrl_reg1_rd;
  cp15_ctrl_reg1_wr (Z.ldiff r2 0x1000);;
  cp15_ctrl_reg1_wr c.
Definition cp15_set_procid_ttbr0 (procid pt : Z) : M vm unit :=
  m_modify (fun s => set_ttbr s procid pt 0 0).
Definition mmu_sync_pte_mods : M vm unit := inv_tlb.

(** [vector_base_chk], [vector_base_reset]: the vectors' address must not be null and be a
    multiple of 8. *)
Definition vector_base_chk (vector_base : Z) : bool :=
  negb (vector_base =? 0) && (vector_base mod 8 =? 0).
Definition vector_base_reset (vec : Z) : M vm Z :=
  m_assert (vector_base_chk vec);;
  old_vec ← m_gets v_vbase;
  m_modify (fun s => set_vbase s vec);;
  now ← m_gets v_vbase;
  m_assert (now =? vec);;
  mret old_vec.
Definition int_vec_reset (vec : Z) : M vm Z := vector_base_reset vec.

Definition MAX_SEC_PTE : Z := 4096.

(** ** Page tables *)

(** Word [i] of the table at [pt]; outside the table the access is undefined. *)
Definition pte_read (pt i : Z) : M vm Z :=
  t ← m_gets v_pts;
  ws ← m_opt (t !! pt);
  if i <? 0 then m_undef else m_opt (ws !! Z.to_nat i).
Definition pte_write (pt i w : Z) : M vm unit :=
  _ ← pte_read pt i;
  m_modify (fun s => set_pts s (alter (<[Z.to_nat i := w]>) pt (v_pts s)) (v_nalloc s)).
(** [pte->f = v]. *)
Definition pte_set (f : bf) (pt i v : Z) : M vm unit :=
  w ← pte_read pt i; pte_write pt i (bf_set f v w).

(** [mod_pow2]: panics unless 2^n divides x. *)
Definition mod_pow2 {St} (x n : Z) : M St unit :=
  m_assert (n <? 32);; m_assert (x mod Z.shiftl 1 n =? 0).

Definition mmu_is_enabled : M vm bool :=
  c ← cp15_ctrl_reg1_rd; mret (negb (bf_get MMU_enabled c =? 0)).

Definition mmu_be_quiet : M vm unit := m_modify (fun s => set_quiet s true).

(** [memset(pt, 0, n)]. *)
Definition pt_zero (pt n : Z) : M vm unit :=
  t ← m_gets v_pts;
  ws ← m_opt (t !! pt);
  let k := Z.to_nat (n / 4) in
  if (length ws <? k)%nat then m_undef else
  m_modify (fun s => set_pts s (<[pt := replicate k 0 ++ drop k ws]> (v_pts s)) (v_nalloc s)).

Definition mmu_pt_init (addr nbytes : Z) : M vm Z :=
  let n := 4096 * 4 in
  mod_pow2 addr 14;;
  m_assert (nbytes =? n);;
  pt_zero addr n;;
  mret addr.

Definition kmalloc_aligned `{PtHeap} (nbytes : Z) : M vm Z :=
  n ← m_gets v_nalloc;
  m_modify (fun s =>
    set_pts s (<[pt_block n := pt_junk n <$> seq 0 (Z.to_nat (nbytes / 4))]> (v_pts s)) (S n));;
  mret (pt_block n).

Definition mmu_pt_alloc `{PtHeap} (n : Z) : M vm Z :=
  m_assert (n =? 4096);;
  let nbytes := 4096 * 4 in
  pt ← kmalloc_aligned nbytes;
  m_assert (pt mod Z.shiftl 1 14 =? 0);;
  mmu_pt_init pt nbytes.

Definition fld_print (pt i : Z) : M vm unit :=
  quiet ← m_gets quiet_p;
  if (quiet : bool) then mret tt else
  f ← pte_read pt i;
  fld_check_valid f.

(** The shift is made at the width of the register. *)
Definition fld_set_base_addr (pt i addr : Z) : M vm unit :=
  mod_pow2 addr 20;;
  pte_set fld_sec_base_addr pt i (Z.shiftr addr 20);;
  f ← pte_read pt i;
  m_assert (u32 (Z.shiftl (bf_get fld_sec_base_addr f) 20) =? addr).

Definition mmu_map_section (pt va pa dom : Z) : M vm Z :=
  m_assert (dom <? 16);;
  mod_pow2 va 20;;
  mod_pow2 pa 20;;
  let pte := Z.shiftr va 20 in
  fld_set_base_addr pt pte pa;;
  pte_set fld_nG pt pte 0;;
  pte_set fld_APX pt pte 0;;
  pte_set fld_AP pt pte 3;;
  pte_set fld_domain pt pte dom;;
  pte_set fld_TEX pt pte 0;;
  pte_set fld_XN pt pte 0;;
  pte_set fld_tag pt pte 2;;
  pte_set fld_B pt pte 0;;
  pte_set fld_C pt pte 0;;
  pte_set fld_IMP pt pte 0;;
  pte_set fld_super pt pte 0;;
  pte_set fld_sbz1 pt pte 0;;
  pte_set fld_S pt pte 0;;
  fld_print pt pte;;
  mret pte.

Fixpoint map_sections_loop (pt va pa : Z) (nsec : nat) (dom : Z) : M vm unit :=
  match nsec with
  | O => mret tt
  | S nsec =>
      mmu_map_section pt va pa dom;;
      map_sections_loop pt (u32 (va + Z.shiftl 1 20)) (u32 (pa + Z.shiftl 1 20)) nsec dom
  end.
Definition mmu_map_sections (pt va pa nsec dom : Z) : M vm unit :=
  m_assert (dom <? 16);;
  mod_pow2 va 20;;
  mod_pow2 pa 20;;
  map_sections_loop pt va pa (Z.to_nat nsec) dom.

Definition mmu_lookup_section (pt va : Z) : M vm Z :=
  mod_pow2 va 20;;
  let pte := Z.shiftr va 20 in
  f ← pte_read pt pte;
  m_assert (negb (bf_get fld_tag f =? 0));;
  mret pte.

Fixpoint mprotect_loop (pt pte : Z) (nsec : nat) (perm : Z) : M vm unit :=
  match nsec with
  | O => mret tt
  | S nsec => pte_set fld_AP pt pte perm;; mprotect_loop pt (pte + 1) nsec perm
  end.
Definition mmu_mprotect (pt va nsec perm : Z) : M vm unit :=
  m_assert (perm <=? 3);;
  pte ← mmu_lookup_section pt (Z.ldiff va (Z.shiftl 1 20 - 1));
  mprotect_loop pt pte (Z.to_nat nsec) perm;;
  mmu_sync_pte_mods.

Definition AP_rw : Z := 3.
Definition AP_no_access : Z := 0.
Definition AP_rd_only : Z := 2.
Definition mmu_mark_sec_no_access (pt va nsec : Z) : M vm unit := mmu_mprotect pt va nsec AP_no_access.
Definition mmu_mark_sec_readonly (pt va nsec : Z) : M vm unit := mmu_mprotect pt va nsec AP_rd_only.
Definition mmu_mark_sec_rw (pt va nsec : Z) : M vm unit := mmu_mprotect pt va nsec AP_rw.

(** ** Switching the MMU on and off *)

Definition mmu_disable_set (c : Z) : M vm unit :=
  m_assert (bf_get MMU_enabled c =? 0);;
  m_assert (bf_get C_unified_enable c =? 0);;
  mmu_disable_set_asm c.
Definition mmu_disable : M vm unit :=
  c ← cp15_ctrl_reg1_rd;
  m_assert (negb (bf_get MMU_enabled c =? 0));;
  mmu_disable_set (bf_set MMU_enabled 0 c).
Definition mmu_enable_set (c : Z) : M vm unit :=
  m_assert (negb (bf_get MMU_enabled c =? 0));;
  mmu_enable_set_asm c.
Definition mmu_enable : M vm unit :=
  c ← cp15_ctrl_reg1_rd;
  m_assert (bf_get MMU_enabled c =? 0);;
  mmu_enable_set (bf_set MMU_enabled 1 c).

Definition set_procid_ttbr0 (pid asid pt : Z) : M vm unit :=
  m_assert (Z.shiftr pid 24 =? 0);;
  m_assert (64 <? pid);;
  m_assert ((asid <? 64) && negb (asid =? 0));;
  cp15_set_procid_ttbr0 (Z.lor (u32 (Z.shiftl pid 8)) asid) pt.

Definition mmu_init : M vm unit :=
  mmu_reset;;
  temp ← cp15_ctrl_reg1_rd;
  cp15_ctrl_reg1_wr (bf_set XP_pt 1 temp);;
  c1 ← cp15_ctrl_reg1_rd;
  m_assert (negb (bf_get XP_pt c1 =? 0));;
  m_assert (bf_get MMU_enabled c1 =? 0).

Definition domain_access_ctrl_get : M vm Z := m_gets v_dac.
Definition domain_access_ctrl_set (r : Z) : M vm unit := cp15_domain_ctrl_wr r.

(** ** The identity mapping *)

Definition dom_id : Z := 1.
Definition MB : Z := 1024 * 1024.
Definition STACK_ADDR : Z := 0x8000000.
Definition INT_STACK_ADDR : Z := 0x9000000.

Definition vm_ident_mmu_on (pt : Z) : M vm unit :=
  set_procid_ttbr0 0x140e dom_id pt;;
  mmu_enable;;
  on ← mmu_is_enabled;
  m_assert on.

Definition vm_ident_mmu_off : M vm unit :=
  mmu_disable;;
  on ← mmu_is_enabled;
  m_assert (negb on).

Definition vm_ident_mmu_init `{PtHeap} (start_p : bool) (int_vec : Z) : M vm Z :=
  mmu_init;;
  on ← mmu_is_enabled;
  m_assert (negb on);;
  pt ← mmu_pt_alloc 4096;
  m_assert (pt =? 0x100000);;
  mmu_map_section pt 0x0 0x0 dom_id;;
  mmu_map_section pt 0x100000 0x100000 dom_id;;
  mmu_map_section pt 0x20000000 0x20000000 dom_id;;
  mmu_map_section pt 0x20100000 0x20100000 dom_id;;
  mmu_map_section pt 0x20200000 0x20200000 dom_id;;
  mmu_map_section pt (STACK_ADDR - MB) (STACK_ADDR - MB) dom_id;;
  mmu_map_section pt (INT_STACK_ADDR - MB) (INT_STACK_ADDR - MB) dom_id;;
  int_vec_reset int_vec;;
  domain_access_ctrl_set (Z.shiftl 1 (dom_id * 2));;
  (if start_p then vm_ident_mmu_on pt else mret tt);;
  mret pt.
