(* ===== verification/MmuThm.v ===== *)
(** * The page table as an address space

    Bit fields, the single operations of [Mmu], and the refinement: whatever is done with
    the page table and whatever the hardware keeps in its TLB, accesses behave as an address
    space of sections says. *)

From stdpp Require Import base tactics option list numbers gmap strings.
From Stdlib Require Import ZArith Lia.
From S2P Require Import Prelude Mmu.
Import String.StringSyntax.
#[local] Open Scope string_scope.
#[local] Open Scope list_scope.
#[local] Open Scope Z_scope.
#[local] Arguments Z.shiftr : simpl never.
#[local] Arguments Z.shiftl : simpl never.
#[local] Arguments bf_get : simpl never.
#[local] Arguments bf_set : simpl never.

(** ** Bit fields *)

Definition bf_ok (f : bf) : bool := (0 <=? f.1) && (0 <=? f.2).
Definition bf_apart (f g : bf) : bool :=
  bf_ok f && bf_ok g && ((f.1 + f.2 <=? g.1) || (g.1 + g.2 <=? f.1)).

Lemma bf_set_bit f v w i : bf_ok f = true -> 0 <= i ->
  Z.testbit (bf_set f v w) i =
    if (f.1 <=? i) && (i <? f.1 + f.2) then Z.testbit v (i - f.1) else Z.testbit w i.
Proof.
  unfold bf_ok, bf_set. intros [H1%Z.leb_le H2%Z.leb_le]%andb_prop Hi.
  rewrite Z.lor_spec, Z.ldiff_spec, !Z.shiftl_spec, Z.land_spec by lia.
  destruct (Z.leb_spec f.1 i); simpl.
  - rewrite Z.testbit_ones_nonneg by lia. destruct (Z.ltb_spec (i - f.1) f.2), (Z.ltb_spec i (f.1 + f.2));
      try lia; simpl.
    + by rewrite andb_false_r, andb_true_r.
    + by rewrite andb_true_r, andb_false_r, orb_false_r.
  - rewrite !(Z.testbit_neg_r _ (i - f.1)) by lia. simpl.
    by rewrite andb_true_r, orb_false_r.
Qed.

Lemma bf_get_bit f w i : bf_ok f = true -> 0 <= i ->
  Z.testbit (bf_get f w) i = Z.testbit w (i + f.1) && (i <? f.2).
Proof.
  unfold bf_ok, bf_get. intros [H1%Z.leb_le H2%Z.leb_le]%andb_prop Hi.
  by rewrite Z.land_spec, Z.shiftr_spec, Z.testbit_ones_nonneg by lia.
Qed.

Lemma bf_get_set f v w : bf_ok f = true -> bf_get f (bf_set f v w) = v mod 2 ^ f.2.
Proof.
  intros Hf. assert (0 <= f.1 /\ 0 <= f.2) as [??].
  { unfold bf_ok in Hf. apply andb_prop in Hf as [?%Z.leb_le ?%Z.leb_le]. lia. }
  rewrite <-Z.land_ones by lia. apply Z.bits_inj'. intros i Hi.
  rewrite bf_get_bit, bf_set_bit, Z.land_spec, Z.testbit_ones_nonneg by (done || lia).
  destruct (Z.ltb_spec i f.2); [|by rewrite !andb_false_r].
  rewrite (proj2 (Z.leb_le _ _)), (proj2 (Z.ltb_lt _ _)) by lia. simpl.
  by replace (i + f.1 - f.1) with i by lia.
Qed.

Lemma bf_get_set_ne f g v w : bf_apart f g = true -> bf_get g (bf_set f v w) = bf_get g w.
Proof.
  unfold bf_apart. intros [[Hf Hg]%andb_prop H]%andb_prop. pose proof Hg as Hg'.
  unfold bf_ok in Hg'. apply andb_prop in Hg' as [?%Z.leb_le ?%Z.leb_le].
  apply Z.bits_inj'. intros i Hi. rewrite !bf_get_bit, bf_set_bit by (done || lia).
  destruct (Z.ltb_spec i g.2); [|by rewrite !andb_false_r]. rewrite !andb_true_r.
  apply orb_prop in H as [?%Z.leb_le|?%Z.leb_le].
  - by rewrite (proj2 (Z.ltb_ge (i + g.1) (f.1 + f.2))), andb_false_r by lia.
  - by rewrite (proj2 (Z.leb_gt f.1 (i + g.1))) by lia.
Qed.

Lemma bf_set_u32 f v w : bf_ok f = true -> f.1 + f.2 <= 32 -> is_u32 w -> is_u32 (bf_set f v w).
Proof.
  intros Hf Hb [H0 H1]. assert (Hw : forall i, 32 <= i -> Z.testbit w i = false).
  { intros i Hi. rewrite <-(Z.mod_small w (2^32)) by lia. apply Z.mod_pow2_bits_high. lia. }
  assert (bf_set f v w = Z.land (bf_set f v w) (Z.ones 32)) as ->.
  { apply Z.bits_inj'. intros i Hi. rewrite Z.land_spec, Z.testbit_ones_nonneg by lia.
    destruct (Z.ltb_spec i 32); [by rewrite andb_true_r|]. rewrite andb_false_r, bf_set_bit by done.
    rewrite (proj2 (Z.ltb_ge i (f.1 + f.2))) by lia. rewrite andb_false_r. apply Hw. lia. }
  rewrite Z.land_ones by lia. apply Z.mod_pos_bound. lia.
Qed.

Lemma bf_get_range f w : bf_ok f = true -> 0 <= bf_get f w < 2 ^ f.2.
Proof.
  unfold bf_ok, bf_get. intros [? ?%Z.leb_le]%andb_prop.
  rewrite Z.land_ones by lia. apply Z.mod_pos_bound. lia.
Qed.

(** Reads of a field after writes of constant fields. *)
Ltac bf_simpl :=
  repeat first
    [ rewrite bf_get_set by reflexivity
    | rewrite bf_get_set_ne by reflexivity ].

(** ** Single entries *)

Definition put_pte (pt i w : Z) (s : vm) : vm :=
  set_pts s (alter (<[Z.to_nat i := w]>) pt (v_pts s)) (v_nalloc s).

Definition entry (s : vm) (pt i : Z) : option Z :=
  if i <? 0 then None else v_pts s !! pt ≫= fun ws => ws !! Z.to_nat i.

Lemma pte_read_run s pt i w : entry s pt i = Some w -> pte_read pt i s = Done (w, s).
Proof.
  unfold entry, pte_read. intros E. destruct (Z.ltb_spec i 0); [done|].
  destruct (v_pts s !! pt) as [ws|] eqn:Ep; [|done]. simpl in E. mstep. rewrite Ep. simpl.
  rewrite ret_run. by rewrite E.
Qed.

Lemma pte_read_undef s pt i : entry s pt i = None -> pte_read pt i s = Undef.
Proof.
  unfold entry, pte_read. intros E. mstep. destruct (v_pts s !! pt) as [ws|] eqn:Ep; [|done].
  simpl in *. rewrite ret_run. destruct (Z.ltb_spec i 0); [done|]. by rewrite E.
Qed.

Lemma entry_put s pt i w w' : entry s pt i = Some w -> entry (put_pte pt i w' s) pt i = Some w'.
Proof.
  unfold entry. intros E. destruct (Z.ltb_spec i 0); [done|]. simpl.
  destruct (v_pts s !! pt) as [ws|] eqn:Ep; [|done]. simpl in E.
  rewrite lookup_alter_eq, Ep. simpl. apply list_lookup_insert_eq.
  by eapply lookup_lt_Some.
Qed.

Lemma entry_put_ne s pt i j w' : 0 <= i -> i <> j -> entry (put_pte pt i w' s) pt j = entry s pt j.
Proof.
  unfold entry. intros Hi Hij. destruct (Z.ltb_spec j 0); [done|]. simpl.
  rewrite lookup_alter_eq. destruct (v_pts s !! pt) as [ws|]; [|done]. simpl.
  apply list_lookup_insert_ne. lia.
Qed.

Lemma put_put s pt i w w' : put_pte pt i w' (put_pte pt i w s) = put_pte pt i w' s.
Proof.
  unfold put_pte. simpl. unfold set_pts. simpl. f_equal. apply map_eq. intros j.
  destruct (decide (j = pt)) as [->|]; [|by rewrite !lookup_alter_ne].
  rewrite !lookup_alter_eq. destruct (v_pts s !! pt) as [ws|]; [|done]. simpl.
  by rewrite list_insert_insert_eq.
Qed.

Lemma pte_set_run f s pt i v w : entry s pt i = Some w ->
  pte_set f pt i v s = Done (tt, put_pte pt i (bf_set f v w) s).
Proof.
  intros E. unfold pte_set. mrun (pte_read_run _ _ _ _ E). unfold pte_write.
  by mrun (pte_read_run _ _ _ _ E).
Qed.

(** ** Address spaces *)

(** A section of memory: physical section, permissions, domain. *)
Record mapped : Type := mk_mapped { m_base : Z; m_ap : Z; m_dom : Z }.

Definition pte_is (w : Z) (x : mapped) : Prop :=
  bf_get fld_tag w = 2 /\ bf_get fld_sec_base_addr w = m_base x /\ bf_get fld_AP w = m_ap x /\
  bf_get fld_domain w = m_dom x /\ bf_get fld_APX w = 0 /\ bf_get fld_super w = 0.

Definition pte_spec (w : Z) (o : option mapped) : Prop :=
  match o with Some x => pte_is w x | None => bf_get fld_tag w = 0 end.

Record aspace : Type := mk_as {
  a_sec : Z -> option mapped;
  a_dac : Z;
  a_on : bool
}.

(** What an access comes to.  [Unpredictable]: a case the notes on the hardware leave open. *)
Inductive outcome : Type :=
  | Xlate (pa : Z)
  | Fault
  | Unpredictable.

(** The table of permissions for APX = 0. *)
Definition ap_allows (ap : Z) (priv wr : bool) : bool :=
  if ap =? 3 then true
  else if ap =? 2 then priv || negb wr
  else if ap =? 1 then priv
  else false.

(** The domain's two bits decide first. *)
Definition sec_access (dac : Z) (x : mapped) (priv wr : bool) (va : Z) : outcome :=
  let pa := Z.lor (Z.shiftl (m_base x) 20) (Z.land va (Z.ones 20)) in
  let d := bf_get (2 * m_dom x, 2) dac in
  if d =? 0 then Fault
  else if d =? 1 then if ap_allows (m_ap x) priv wr then Xlate pa else Fault
  else if d =? 2 then Unpredictable
  else Xlate pa.

Definition space_access (A : aspace) (priv wr : bool) (va : Z) : outcome :=
  if negb (a_on A) then Xlate va else
  match a_sec A (Z.shiftr va 20) with
  | None => Fault
  | Some x => sec_access (a_dac A) x priv wr va
  end.

(** The hardware's access: the TLB first, then the table. *)
Definition decode (w : Z) : mapped :=
  mk_mapped (bf_get fld_sec_base_addr w) (bf_get fld_AP w) (bf_get fld_domain w).

Definition translate (s : vm) (priv wr : bool) (va : Z) : outcome :=
  if bf_get MMU_enabled (v_c1 s) =? 0 then Xlate va
  else if negb ((bf_get XP_pt (v_c1 s) =? 1) && (v_ttbr_ctrl s =? 0)) then Unpredictable
  else
    let i := Z.shiftr va 20 in
    match from_option Some (entry s (v_ttbr0 s) i) (v_tlb s !! i) with
    | None => Unpredictable
    | Some w =>
        if bf_get fld_tag w =? 0 then Fault
        else if negb (bf_get fld_tag w =? 2) then Unpredictable
        else if negb (bf_get fld_APX w =? 0) || negb (bf_get fld_super w =? 0) then Unpredictable
        else sec_access (v_dac s) (decode w) priv wr va
    end.

(** ** Events: the operations, and the hardware's use of the TLB *)

Inductive event : Type :=
  | EvMap (va pa nsec dom : Z)
  | EvProtect (va nsec perm : Z)
  | EvDomains (r : Z)
  | EvOn
  | EvOff
  | EvFill (i : Z)
  | EvEvict (i : Z).

(** The hardware keeps no descriptors of unmapped sections. *)
Definition hw_fill (i : Z) : M vm unit := fun s =>
  match entry s (v_ttbr0 s) i with
  | Some w =>
      if (bf_get MMU_enabled (v_c1 s) =? 0) || (bf_get fld_tag w =? 0) then Done (tt, s)
      else Done (tt, set_tlb s (<[i := w]> (v_tlb s)))
  | None => Done (tt, s)
  end.
Definition hw_evict (i : Z) : M vm unit := m_modify (fun s => set_tlb s (delete i (v_tlb s))).

Definition run_vm_event (pt : Z) (ev : event) : M vm unit :=
  match ev with
  | EvMap va pa nsec dom => mmu_map_sections pt va pa nsec dom
  | EvProtect va nsec perm => mmu_mprotect pt va nsec perm
  | EvDomains r => domain_access_ctrl_set r
  | EvOn => vm_ident_mmu_on pt
  | EvOff => vm_ident_mmu_off
  | EvFill i => hw_fill i
  | EvEvict i => hw_evict i
  end.

(** Section [j] as number of a run of sections that starts at [va], around the end of the
    address space. *)
Definition nth_of (va j : Z) : Z := (j - Z.shiftr va 20) mod 4096.

Definition as_map (va pa nsec dom : Z) (sec : Z -> option mapped) : Z -> option mapped := fun j =>
  let k := nth_of va j in
  if k <? nsec then Some (mk_mapped ((Z.shiftr pa 20 + k) mod 4096) 3 dom) else sec j.

Definition as_protect (va nsec perm : Z) (sec : Z -> option mapped) : Z -> option mapped := fun j =>
  if (Z.shiftr va 20 <=? j) && (j <? Z.shiftr va 20 + nsec)
  then (fun x => mk_mapped (m_base x) perm (m_dom x)) <$> sec j else sec j.

Definition space_after (ev : event) (A : aspace) : aspace :=
  match ev with
  | EvMap va pa nsec dom => mk_as (as_map va pa nsec dom (a_sec A)) (a_dac A) (a_on A)
  | EvProtect va nsec perm => mk_as (as_protect va nsec perm (a_sec A)) (a_dac A) (a_on A)
  | EvDomains r => mk_as (a_sec A) r (a_on A)
  | EvOn => mk_as (a_sec A) (a_dac A) true
  | EvOff => mk_as (a_sec A) (a_dac A) false
  | EvFill _ | EvEvict _ => A
  end.

Definition sec_addr (va : Z) : Prop := is_u32 va /\ va mod 2^20 = 0.

(** When an operation may be used: with the MMU on, only unmapped sections may be mapped;
    a change of permissions starts at a mapped section and stays in the table. *)
Definition allowed (A : aspace) (ev : event) : Prop :=
  match ev with
  | EvMap va pa nsec dom =>
      sec_addr va /\ sec_addr pa /\ 0 <= dom < 16 /\ 0 <= nsec <= 4096 /\
      (a_on A = true -> forall j, 0 <= j < 4096 -> nth_of va j < nsec -> a_sec A j = None)
  | EvProtect va nsec perm =>
      is_u32 va /\ is_Some (a_sec A (Z.shiftr va 20)) /\ 0 <= nsec /\
      Z.shiftr va 20 + nsec <= 4096 /\ 0 <= perm <= 3
  | EvDomains r => is_u32 r
  | EvOn => a_on A = false
  | EvOff => a_on A = true
  | EvFill i | EvEvict i => 0 <= i < 4096
  end.

Fixpoint all_allowed (A : aspace) (evs : list event) : Prop :=
  match evs with
  | [] => True
  | ev :: evs => allowed A ev /\ all_allowed (space_after ev A) evs
  end.

Definition run_vm_events (pt : Z) (evs : list event) : M vm unit :=
  foldr (fun ev m => run_vm_event pt ev;; m) (mret tt) evs.

(** ** The relation *)

Record rel (pt : Z) (s : vm) (A : aspace) : Prop := {
  r_len : forall i, is_Some (entry s pt i) <-> 0 <= i < 4096;
  r_ent : forall i w, entry s pt i = Some w -> pte_spec w (a_sec A i);
  r_dac : v_dac s = a_dac A;
  r_on : bf_get MMU_enabled (v_c1 s) = (if a_on A then 1 else 0);
  r_cache : bf_get C_unified_enable (v_c1 s) = 0;
  r_xp : bf_get XP_pt (v_c1 s) = 1;
  r_ttbr : a_on A = true -> v_ttbr0 s = pt /\ v_ttbr_ctrl s = 0;
  r_off : a_on A = false -> v_tlb s = ∅;
  r_tlb : forall i w, v_tlb s !! i = Some w -> entry s pt i = Some w /\ bf_get fld_tag w <> 0
}.

Lemma translate_rel pt s A priv wr va : rel pt s A -> is_u32 va ->
  translate s priv wr va = space_access A priv wr va.
Proof.
  intros R Hva. unfold translate, space_access. rewrite (r_on _ _ _ R), (r_xp _ _ _ R).
  destruct (a_on A) eqn:Eon; [|done]. destruct (r_ttbr _ _ _ R Eon) as [-> ->].
  change (1 =? 0) with false. change (negb ((1 =? 1) && (0 =? 0))) with false. cbv iota zeta.
  change (negb true) with false. cbv iota.
  assert (Hi : 0 <= Z.shiftr va 20 < 4096).
  { rewrite Z.shiftr_div_pow2 by lia. unfold is_u32 in Hva. split; [apply Z.div_pos; lia|].
    apply Z.div_lt_upper_bound; lia. }
  destruct (proj2 (r_len _ _ _ R _) Hi) as [w Ew].
  assert (from_option Some (entry s pt (Z.shiftr va 20)) (v_tlb s !! Z.shiftr va 20) = Some w) as ->.
  { destruct (v_tlb s !! Z.shiftr va 20) as [w'|] eqn:Et; [|done]. simpl.
    apply (r_tlb _ _ _ R) in Et as [Et _]. congruence. }
  pose proof (r_ent _ _ _ R _ _ Ew) as Hs. rewrite (r_dac _ _ _ R).
  destruct (a_sec A (Z.shiftr va 20)) as [x|]; simpl in Hs; [|by rewrite Hs].
  destruct Hs as (-> & Hb & Ha & Hd & -> & ->).
  change (2 =? 0) with false. change (negb (2 =? 2)) with false.
  change (negb (0 =? 0) || negb (0 =? 0)) with false. cbv iota. unfold decode. rewrite Hb, Ha, Hd.
  by destruct x.
Qed.

(** ** The operations *)

Lemma mod_pow2_run {St B} x n (f : unit -> M St B) s :
  n < 32 -> x mod 2 ^ n = 0 -> 0 <= n -> (mod_pow2 x n ≫= f) s = f tt s.
Proof.
  intros Hn Hx H0. unfold mod_pow2. rewrite bind_assoc, assert_run by (by apply Z.ltb_lt).
  rewrite assert_run; [done|]. rewrite Z.shiftl_mul_pow2, Z.mul_1_l by done. by apply Z.eqb_eq.
Qed.

Lemma sec_addr_shift va : sec_addr va -> va = Z.shiftr va 20 * 2^20 /\ 0 <= Z.shiftr va 20 < 4096.
Proof.
  intros [[H0 H1] Hm]. rewrite Z.shiftr_div_pow2 by lia.
  pose proof (Z.div_mod va (2^20) ltac:(lia)). split; [lia|]. split.
  - apply Z.div_pos; lia.
  - apply Z.div_lt_upper_bound; lia.
Qed.

Lemma base_addr_run s pt i pa w : entry s pt i = Some w -> sec_addr pa ->
  exists w', fld_set_base_addr pt i pa s = Done (tt, put_pte pt i w' s) /\
    bf_get fld_sec_base_addr w' = Z.shiftr pa 20.
Proof.
  intros E Hpa. destruct (sec_addr_shift _ Hpa) as [Ha Hr]. destruct Hpa as [Hu Hm].
  eexists. unfold fld_set_base_addr. rewrite mod_pow2_run by (done || lia).
  mrun (pte_set_run fld_sec_base_addr _ _ _ (Z.shiftr pa 20) _ E).
  erewrite bind_done by (eapply pte_read_run, entry_put, E). rewrite bf_get_set by reflexivity.
  change (2 ^ fld_sec_base_addr.2) with 4096. rewrite Z.mod_small by lia.
  rewrite Z.shiftl_mul_pow2, <-Ha, u32_small, Z.eqb_refl by (done || lia). split; [done|].
  rewrite bf_get_set by reflexivity. apply Z.mod_small. change (2 ^ fld_sec_base_addr.2) with 4096. lia.
Qed.

(** What [fld_check_valid] looks at. *)
Lemma check_valid_run {St} f (s : St) :
  Forall (fun g => bf_get g f = 0) [fld_sbz1; fld_S; fld_IMP; fld_TEX; fld_C; fld_B; fld_super] ->
  bf_get fld_tag f = 2 -> fld_check_valid f s = Done (tt, s).
Proof.
  intros HF Ht. rewrite !Forall_cons in HF.
  destruct HF as (H1 & H2 & H3 & H4 & H5 & H6 & H7 & _).
  unfold fld_check_valid. rewrite H1, Ht, H2, H3, H4, H5, H6, H7. done.
Qed.

Lemma map_section_run s pt va pa dom w :
  entry s pt (Z.shiftr va 20) = Some w -> sec_addr va -> sec_addr pa -> 0 <= dom < 16 ->
  exists w', mmu_map_section pt va pa dom s =
      Done (Z.shiftr va 20, put_pte pt (Z.shiftr va 20) w' s) /\
    pte_is w' (mk_mapped (Z.shiftr pa 20) 3 dom).
Proof.
  intros E Hva Hpa Hd. unfold mmu_map_section. set (i := Z.shiftr va 20) in *.
  rewrite assert_run by (apply Z.ltb_lt; lia).
  rewrite !mod_pow2_run by (lia || apply Hva || apply Hpa). cbv zeta.
  destruct (base_addr_run _ _ _ _ _ E Hpa) as (w0 & H0 & Hb). mrun H0.
  do 13 (erewrite bind_done by (eapply pte_set_run, entry_put, E); rewrite put_put).
  set (w' := bf_set fld_S _ _).
  assert (Hw : pte_is w' (mk_mapped (Z.shiftr pa 20) 3 dom)).
  { unfold pte_is, w'. bf_simpl. rewrite Hb. simpl m_dom. repeat split.
    apply Z.mod_small. exact Hd. }
  exists w'. split; [|done].
  assert (Hp : fld_print pt i (put_pte pt i w' s) = Done (tt, put_pte pt i w' s)).
  { unfold fld_print. mstep. destruct (quiet_p _); [done|].
    mrun (pte_read_run _ _ _ _ (entry_put _ _ _ _ w' E)).
    apply check_valid_run; [|apply Hw]. unfold w'. repeat constructor; bf_simpl; done. }
  by mrun Hp.
Qed.

Definition upd_sec (i : Z) (o : option mapped) (sec : Z -> option mapped) : Z -> option mapped :=
  fun j => if j =? i then o else sec j.

Lemma rel_ext pt s A sec : (forall j, 0 <= j < 4096 -> a_sec A j = sec j) ->
  rel pt s A -> rel pt s (mk_as sec (a_dac A) (a_on A)).
Proof.
  intros He R. destruct R. split; try done. intros i w Ei. simpl.
  rewrite <-He by (apply r_len0; eauto). eauto.
Qed.

Lemma entry_range s pt A i w : rel pt s A -> entry s pt i = Some w -> 0 <= i < 4096.
Proof. intros R E. apply (r_len _ _ _ R). eauto. Qed.

(** An entry is replaced that the TLB does not hold. *)
Lemma rel_put pt s A i w w' o : rel pt s A -> entry s pt i = Some w -> pte_spec w' o ->
  v_tlb s !! i = None ->
  rel pt (put_pte pt i w' s) (mk_as (upd_sec i o (a_sec A)) (a_dac A) (a_on A)).
Proof.
  intros R E Hw Ht. pose proof (entry_range _ _ _ _ _ R E) as Hi.
  assert (Hne : forall j, j <> i -> entry (put_pte pt i w' s) pt j = entry s pt j).
  { intros j Hj. apply entry_put_ne; [lia|done]. }
  split; try apply R.
  - intros j. destruct (decide (j = i)) as [->|Hj]; [|rewrite Hne by done; apply R].
    rewrite (entry_put _ _ _ _ _ E). split; [done|by eauto].
  - intros j v Ej. simpl. unfold upd_sec. destruct (Z.eqb_spec j i) as [->|Hj].
    + rewrite (entry_put _ _ _ _ _ E) in Ej. by simplify_eq.
    + rewrite Hne in Ej by done. by apply R.
  - intros j v Ej. assert (j <> i) by (by intros ->; simpl in Ej; congruence).
    rewrite Hne by done. by apply R.
Qed.

Lemma tlb_unmapped pt s A i : rel pt s A -> (a_on A = true -> a_sec A i = None) ->
  v_tlb s !! i = None.
Proof.
  intros R Hn. destruct (a_on A) eqn:Eon.
  - destruct (v_tlb s !! i) as [w|] eqn:Et; [|done]. apply (r_tlb _ _ _ R) in Et as [Ei Ht].
    pose proof (r_ent _ _ _ R _ _ Ei) as Hs. rewrite Hn in Hs by done. done.
  - by rewrite (r_off _ _ _ R Eon).
Qed.

Lemma map_section_rel pt s A va pa dom : rel pt s A -> sec_addr va -> sec_addr pa -> 0 <= dom < 16 ->
  (a_on A = true -> a_sec A (Z.shiftr va 20) = None) ->
  exists s', mmu_map_section pt va pa dom s = Done (Z.shiftr va 20, s') /\
    rel pt s' (mk_as (upd_sec (Z.shiftr va 20) (Some (mk_mapped (Z.shiftr pa 20) 3 dom)) (a_sec A))
                 (a_dac A) (a_on A)).
Proof.
  intros R Hva Hpa Hd Hn. destruct (sec_addr_shift _ Hva) as [_ Hi].
  destruct (proj2 (r_len _ _ _ R _) Hi) as [w Ew].
  destruct (map_section_run _ _ _ _ _ _ Ew Hva Hpa Hd) as (w' & Hrun & Hw).
  eexists. split; [exact Hrun|]. eapply rel_put; [done..|]. by eapply tlb_unmapped.
Qed.

Lemma sec_addr_next va : sec_addr va ->
  sec_addr (u32 (va + 2^20)) /\ Z.shiftr (u32 (va + 2^20)) 20 = (Z.shiftr va 20 + 1) mod 4096.
Proof.
  intros Hva. destruct (sec_addr_shift _ Hva) as [Ha Hr].
  assert (E : u32 (va + 2^20) = (Z.shiftr va 20 + 1) mod 4096 * 2^20).
  { unfold u32. rewrite Ha at 1. change (2^32) with (4096 * 2^20).
    replace (Z.shiftr va 20 * 2^20 + 2^20) with ((Z.shiftr va 20 + 1) * 2^20) by ring.
    by rewrite Z.mul_mod_distr_r by lia. }
  pose proof (Z.mod_pos_bound (Z.shiftr va 20 + 1) 4096 ltac:(lia)). rewrite E. split.
  - split; [unfold is_u32; lia|]. by apply Z.mod_mul.
  - by rewrite Z.shiftr_div_pow2, Z.div_mul by lia.
Qed.

(** A run of sections is its first section and the rest. *)
Lemma nth_of_next va j : sec_addr va -> 0 <= j < 4096 ->
  nth_of va j = 0 /\ nth_of (u32 (va + 2^20)) j = 4095 /\ j = Z.shiftr va 20 \/
  0 < nth_of va j /\ nth_of (u32 (va + 2^20)) j = nth_of va j - 1 /\ j <> Z.shiftr va 20.
Proof.
  intros Hva Hj. destruct (sec_addr_shift _ Hva) as [_ Hr]. destruct (sec_addr_next _ Hva) as [_ E].
  unfold nth_of. rewrite E. clear E. set (i := Z.shiftr va 20) in *.
  rewrite Zminus_mod_idemp_r.
  destruct (decide (j = i)) as [->|]; [left|right].
  - by replace (i - i) with 0 by lia; replace (i - (i + 1)) with (-1) by lia.
  - destruct (decide (i < j)).
    + rewrite !Z.mod_small by lia. lia.
    + replace (j - i) with (j - i + 4096 + (-1) * 4096) by lia.
      replace (j - (i + 1)) with (j - i - 1 + 4096 + (-1) * 4096) by lia.
      rewrite !Z.mod_add, !Z.mod_small by lia. lia.
Qed.

Lemma map_loop_rel pt n va pa dom s A : rel pt s A -> sec_addr va -> sec_addr pa -> 0 <= dom < 16 ->
  (n <= 4096)%nat ->
  (a_on A = true -> forall j, 0 <= j < 4096 -> nth_of va j < Z.of_nat n -> a_sec A j = None) ->
  exists s', map_sections_loop pt va pa n dom s = Done (tt, s') /\
    rel pt s' (mk_as (as_map va pa (Z.of_nat n) dom (a_sec A)) (a_dac A) (a_on A)).
Proof.
  revert va pa s A. induction n as [|n IH]; intros va pa s A R Hva Hpa Hd Hn Hfree.
  { exists s. split; [done|]. apply rel_ext; [|done]. intros j Hj. unfold as_map.
    assert (0 <= nth_of va j) by (apply Z.mod_pos_bound; lia). by rewrite (proj2 (Z.ltb_ge _ _)). }
  destruct (sec_addr_shift _ Hva) as [_ Hr].
  destruct (map_section_rel pt s A va pa dom R Hva Hpa Hd) as (s1 & H1 & R1).
  { intros Hon. apply Hfree; [done..|]. unfold nth_of. rewrite Z.sub_diag, Z.mod_0_l by lia. lia. }
  destruct (sec_addr_next _ Hva) as [Hva' _]. destruct (sec_addr_next _ Hpa) as [Hpa' Epa].
  destruct (IH (u32 (va + 2^20)) (u32 (pa + 2^20)) s1 _ R1) as (s2 & H2 & R2); try done; [lia|..].
  { simpl. intros Hon j Hj Hk. unfold upd_sec.
    destruct (nth_of_next va j Hva Hj) as [(E0 & E1 & ->)|(E0 & E1 & Hne)]; [lia|].
    rewrite (proj2 (Z.eqb_neq _ _) Hne). apply Hfree; [done..|lia]. }
  exists s2. split; [simpl; by mrun H1|]. simpl in R2.
  eapply rel_ext in R2; [exact R2|]. simpl. intros j Hj. unfold as_map, upd_sec. rewrite Epa.
  destruct (nth_of_next va j Hva Hj) as [(E0 & E1 & ->)|(E0 & E1 & Hne)]; rewrite E1.
  - rewrite E0, Z.eqb_refl, (proj2 (Z.ltb_ge 4095 _)), (proj2 (Z.ltb_lt 0 _)) by lia.
    rewrite Z.add_0_r, Z.mod_small; [done|]. by destruct (sec_addr_shift _ Hpa).
  - rewrite (proj2 (Z.eqb_neq _ _) Hne).
    assert ((nth_of va j - 1 <? Z.of_nat n) = (nth_of va j <? Z.of_nat (S n))) as ->.
    { destruct (Z.ltb_spec (nth_of va j) (Z.of_nat (S n))); [apply Z.ltb_lt|apply Z.ltb_ge]; lia. }
    destruct (_ <? _); [|done]. rewrite Z.add_mod_idemp_l by lia. do 3 f_equal. lia.
Qed.

Lemma mprotect_loop_run pt n i perm s : 0 <= i ->
  (forall j, i <= j < i + Z.of_nat n -> is_Some (entry s pt j)) ->
  exists t, mprotect_loop pt i n perm s = Done (tt, set_pts s t (v_nalloc s)) /\
    forall j, entry (set_pts s t (v_nalloc s)) pt j =
      if (i <=? j) && (j <? i + Z.of_nat n) then bf_set fld_AP perm <$> entry s pt j else entry s pt j.
Proof.
  revert i s. induction n as [|n IH]; intros i s Hi Hs.
  { exists (v_pts s). split; [by destruct s|]. intros j.
    destruct (Z.leb_spec i j), (Z.ltb_spec j (i + Z.of_nat 0)); [lia|by destruct s..]. }
  destruct (Hs i) as [w Ew]; [lia|].
  destruct (IH (i + 1) (put_pte pt i (bf_set fld_AP perm w) s)) as (t & Ht & He); [lia|..].
  { intros j Hj. rewrite entry_put_ne by lia. apply Hs. lia. }
  exists t. split; [simpl; mrun (pte_set_run fld_AP _ _ _ perm _ Ew); exact Ht|].
  intros j. change (set_pts s t (v_nalloc s)) with
    (set_pts (put_pte pt i (bf_set fld_AP perm w) s) t (v_nalloc (put_pte pt i (bf_set fld_AP perm w) s))).
  rewrite He. destruct (decide (j = i)) as [->|Hj].
  - rewrite (proj2 (Z.leb_gt (i + 1) i)) by lia. rewrite (entry_put _ _ _ _ _ Ew), Ew.
    rewrite (proj2 (Z.leb_le i i)), (proj2 (Z.ltb_lt i (i + Z.of_nat (S n)))) by lia. done.
  - rewrite entry_put_ne by lia.
    replace ((i + 1 <=? j) && (j <? i + 1 + Z.of_nat n)) with ((i <=? j) && (j <? i + Z.of_nat (S n)));
      [done|].
    destruct (Z.leb_spec i j), (Z.leb_spec (i + 1) j), (Z.ltb_spec j (i + Z.of_nat (S n))),
      (Z.ltb_spec j (i + 1 + Z.of_nat n)); done || lia.
Qed.

Lemma round_down va : is_u32 va -> sec_addr (Z.ldiff va (Z.shiftl 1 20 - 1)) /\
  Z.shiftr (Z.ldiff va (Z.shiftl 1 20 - 1)) 20 = Z.shiftr va 20.
Proof.
  intros Hu. change (Z.shiftl 1 20 - 1) with (Z.ones 20).
  assert (E : Z.ldiff va (Z.ones 20) = Z.shiftr va 20 * 2^20).
  { rewrite Z.ldiff_ones_r by lia. by rewrite Z.shiftl_mul_pow2 by lia. }
  rewrite E. split; [split|].
  - rewrite Z.shiftr_div_pow2 by lia. pose proof (Z.mul_div_le va (2^20) ltac:(lia)).
    unfold is_u32 in *. split; [|lia]. apply Z.mul_nonneg_nonneg; [apply Z.div_pos|]; lia.
  - by apply Z.mod_mul.
  - rewrite (Z.shiftr_div_pow2 (_ * _)) by lia. by apply Z.div_mul.
Qed.

Lemma protect_spec w o perm : pte_spec w o -> 0 <= perm <= 3 ->
  pte_spec (bf_set fld_AP perm w) ((fun x => mk_mapped (m_base x) perm (m_dom x)) <$> o).
Proof.
  intros Hw Hp. destruct o as [x|]; simpl in *; [|by bf_simpl].
  destruct Hw as (? & ? & ? & ? & ? & ?). unfold pte_is. bf_simpl. simpl. repeat split; try done.
  apply Z.mod_small. change (2 ^ 2) with 4. lia.
Qed.

Lemma lookup_section_run pt s A va : rel pt s A -> sec_addr va -> is_Some (a_sec A (Z.shiftr va 20)) ->
  mmu_lookup_section pt va s = Done (Z.shiftr va 20, s).
Proof.
  intros R Hva [x Hx]. destruct (sec_addr_shift _ Hva) as [_ Hi].
  destruct (proj2 (r_len _ _ _ R _) Hi) as [w Ew]. unfold mmu_lookup_section.
  rewrite mod_pow2_run by (lia || apply Hva). cbv zeta. mrun (pte_read_run _ _ _ _ Ew).
  pose proof (r_ent _ _ _ R _ _ Ew) as Hs. rewrite Hx in Hs. destruct Hs as (-> & _). done.
Qed.

Lemma mprotect_rel pt s A va nsec perm : rel pt s A -> allowed A (EvProtect va nsec perm) ->
  exists s', mmu_mprotect pt va nsec perm s = Done (tt, s') /\
    rel pt s' (space_after (EvProtect va nsec perm) A).
Proof.
  intros R (Hva & Hm & Hn & Hend & Hp). destruct (round_down _ Hva) as [Hd Ed].
  destruct (sec_addr_shift _ Hd) as [_ Hi]. rewrite Ed in Hi.
  destruct (mprotect_loop_run pt (Z.to_nat nsec) (Z.shiftr va 20) perm s) as (t & Ht & He); [lia|..].
  { intros j Hj. apply (r_len _ _ _ R). lia. }
  eexists. split.
  { unfold mmu_mprotect. rewrite assert_run by (apply Z.leb_le; lia).
    rewrite <-Ed in Hm. mrun (lookup_section_run _ _ _ _ R Hd Hm). rewrite Ed. mrun Ht. done. }
  rewrite Z2Nat.id in He by lia.
  assert (He' : forall j, entry (set_tlb (set_pts s t (v_nalloc s)) ∅) pt j =
    entry (set_pts s t (v_nalloc s)) pt j) by done.
  split; try apply R.
  - intros j. rewrite He', He. destruct (_ && _); [rewrite fmap_is_Some|]; apply R.
  - intros j w. rewrite He', He. cbn [space_after a_sec]. unfold as_protect. destruct (_ && _); [|apply R].
    intros (w0 & Ew & ->)%fmap_Some. apply protect_spec; [|done]. by apply R.
  - done.
  - intros j w Hj. simpl in Hj. by apply lookup_empty_Some in Hj.
Qed.

Lemma c1_set_mmu v c : bf_get C_unified_enable (bf_set MMU_enabled v c) = bf_get C_unified_enable c /\
  bf_get XP_pt (bf_set MMU_enabled v c) = bf_get XP_pt c.
Proof. split; by apply bf_get_set_ne. Qed.

(** The registers [vm_ident_mmu_on] leaves behind. *)
Definition switched_on (pt : Z) (s : vm) : vm :=
  set_c1 (set_ttbr s (0x140e * 256 + 1) pt 0 0) (bf_set MMU_enabled 1 (v_c1 s)).

Lemma mmu_on_run pt s : bf_get MMU_enabled (v_c1 s) = 0 ->
  vm_ident_mmu_on pt s = Done (tt, switched_on pt s).
Proof.
  intros E. unfold vm_ident_mmu_on, set_procid_ttbr0, cp15_set_procid_ttbr0.
  rewrite bind_assoc, assert_run by reflexivity. rewrite bind_assoc, assert_run by reflexivity.
  rewrite bind_assoc, assert_run by reflexivity. rewrite modify_run.
  set (s1 := set_ttbr _ _ _ _ _).
  assert (H1 : mmu_enable s1 = Done (tt, set_c1 s1 (bf_set MMU_enabled 1 (v_c1 s)))).
  { unfold mmu_enable, cp15_ctrl_reg1_rd. rewrite gets_run, assert_run by (by apply Z.eqb_eq).
    unfold mmu_enable_set. rewrite assert_run; [done|]. by rewrite bf_get_set. }
  mrun H1. unfold mmu_is_enabled, cp15_ctrl_reg1_rd. rewrite bind_assoc, gets_run, ret_run.
  simpl v_c1. rewrite bf_get_set by reflexivity. done.
Qed.

Lemma mmu_on_rel pt s A : rel pt s A -> a_on A = false ->
  rel pt (switched_on pt s) (mk_as (a_sec A) (a_dac A) true).
Proof.
  intros R Hoff. pose proof (r_off _ _ _ R Hoff) as Ht. destruct (c1_set_mmu 1 (v_c1 s)) as [Ec Ex].
  split; try apply R; simpl; try done.
  - by rewrite bf_get_set.
  - rewrite Ec. apply R.
  - rewrite Ex. apply R.
Qed.

Lemma mmu_off_rel pt s A : rel pt s A -> a_on A = true ->
  exists s', vm_ident_mmu_off s = Done (tt, s') /\ rel pt s' (mk_as (a_sec A) (a_dac A) false).
Proof.
  intros R Hon. pose proof (r_on _ _ _ R) as E. rewrite Hon in E.
  destruct (c1_set_mmu 0 (v_c1 s)) as [Ec Ex].
  set (s' := set_c1 (set_tlb s ∅) (bf_set MMU_enabled 0 (v_c1 s))).
  exists s'. split.
  - assert (H1 : mmu_disable s = Done (tt, s')).
    { unfold mmu_disable, cp15_ctrl_reg1_rd. rewrite gets_run, E, assert_run by reflexivity.
      unfold mmu_disable_set. rewrite bf_get_set by reflexivity. rewrite Ec, (r_cache _ _ _ R). done. }
    unfold vm_ident_mmu_off. mrun H1. unfold mmu_is_enabled, cp15_ctrl_reg1_rd.
    rewrite bind_assoc, gets_run, ret_run. simpl v_c1. rewrite bf_get_set by reflexivity. done.
  - split; try apply R; simpl; try done.
    + by rewrite bf_get_set.
    + rewrite Ec. apply R.
    + rewrite Ex. apply R.
Qed.

Lemma tlb_rel pt s A t : rel pt s A -> (a_on A = false -> t = ∅) ->
  (forall i w, t !! i = Some w -> entry s pt i = Some w /\ bf_get fld_tag w <> 0) ->
  rel pt (set_tlb s t) A.
Proof. intros R H1 H2. destruct R. by split. Qed.

Lemma event_rel pt s A ev : rel pt s A -> allowed A ev ->
  exists s', run_vm_event pt ev s = Done (tt, s') /\ rel pt s' (space_after ev A).
Proof.
  intros R. destruct ev as [va pa nsec dom|va nsec perm|r| | |i|i]; intros Hal.
  - destruct Hal as (Hva & Hpa & Hd & Hn & Hfree).
    destruct (map_loop_rel pt (Z.to_nat nsec) va pa dom s A R) as (s' & H' & R'); try done; [lia|..].
    { rewrite Z2Nat.id by lia. done. }
    exists s'. rewrite Z2Nat.id in R' by lia. split; [|done]. simpl. unfold mmu_map_sections.
    rewrite assert_run by (apply Z.ltb_lt; lia).
    by rewrite !mod_pow2_run by (lia || apply Hva || apply Hpa).
  - by apply mprotect_rel.
  - eexists. split; [done|]. destruct R. by split.
  - eexists. pose proof (r_on _ _ _ R) as E. simpl in Hal. rewrite Hal in E.
    split; [by apply mmu_on_run|]. by apply mmu_on_rel.
  - by apply mmu_off_rel.
  - simpl. unfold hw_fill. destruct (entry s (v_ttbr0 s) i) as [w|] eqn:E; [|by eauto].
    destruct (_ || _) eqn:Eb; [by eauto|]. apply orb_false_elim in Eb as [E1%Z.eqb_neq E2%Z.eqb_neq].
    eexists. split; [done|]. rewrite (r_on _ _ _ R) in E1. destruct (a_on A) eqn:Eon; [|done].
    destruct (r_ttbr _ _ _ R Eon) as [Et _]. rewrite Et in E. apply tlb_rel; [done|by rewrite Eon|].
    intros j v [[<- <-]|[Hj Hv]]%lookup_insert_Some; [done|]. by apply R.
  - eexists. split; [done|]. apply tlb_rel; [done|..].
    + intros Hoff. rewrite (r_off _ _ _ R Hoff). apply delete_empty.
    + intros j v [Hj Hv]%lookup_delete_Some. by apply R.
Qed.

Lemma events_rel pt evs s A : rel pt s A -> all_allowed A evs ->
  exists s', run_vm_events pt evs s = Done (tt, s') /\ rel pt s' (foldl (fun A ev => space_after ev A) A evs).
Proof.
  revert s A. induction evs as [|ev evs IH]; intros s A R Hal; simpl in *; [by eauto|].
  destruct Hal as [H1 H2]. destruct (event_rel _ _ _ _ R H1) as (s1 & E1 & R1).
  destruct (IH _ _ R1 H2) as (s2 & E2 & R2). exists s2. split; [by mrun E1|done].
Qed.

(** ** Setting up the identity mapping *)

Section ident.
Context `{PtHeap}.

Lemma pt_alloc_rel s : pt_block (v_nalloc s) mod 2^14 = 0 ->
  bf_get MMU_enabled (v_c1 s) = 0 -> bf_get C_unified_enable (v_c1 s) = 0 ->
  bf_get XP_pt (v_c1 s) = 1 -> v_tlb s = ∅ ->
  exists s', mmu_pt_alloc 4096 s = Done (pt_block (v_nalloc s), s') /\
    rel (pt_block (v_nalloc s)) s' (mk_as (fun _ => None) (v_dac s) false).
Proof.
  intros Ha Hon Hc Hxp Ht. set (pt := pt_block (v_nalloc s)) in *.
  set (blk := pt_junk (v_nalloc s) <$> seq 0 4096).
  assert (Hlen : length blk = 4096%nat) by (unfold blk; by rewrite length_fmap, length_seq).
  eexists. split.
  { unfold mmu_pt_alloc, kmalloc_aligned. rewrite assert_run by reflexivity. cbv zeta.
    rewrite bind_assoc, gets_run, bind_assoc, modify_run, ret_run.
    change (Z.shiftl 1 14) with (2^14). fold pt. rewrite Ha, assert_run by reflexivity.
    unfold mmu_pt_init. rewrite mod_pow2_run by (done || lia). rewrite assert_run by reflexivity.
    unfold pt_zero. rewrite bind_assoc, gets_run. cbn [v_pts set_pts].
    change (Z.to_nat (4096 * 4 / 4)) with 4096%nat. fold blk.
    rewrite lookup_insert_eq. cbn [m_opt]. rewrite bind_assoc, ret_run, Hlen, Nat.ltb_irrefl. done. }
  set (s' := set_pts _ _ _).
  assert (He : forall i, entry s' pt i = if decide (0 <= i < 4096) then Some 0 else None).
  { intros i. unfold entry, s'. cbn [v_pts set_pts]. rewrite lookup_insert_eq.
    rewrite drop_ge, app_nil_r by lia. cbn [mbind option_bind].
    destruct (Z.ltb_spec i 0); [by rewrite decide_False by lia|].
    case_decide; [apply lookup_replicate_2; lia|apply lookup_replicate_None; lia]. }
  split; try done.
  - intros i. rewrite He. case_decide; [by eauto|]. split; [by intros [? ?]|done].
  - intros i w. rewrite He. case_decide; [|done]. intros [= <-]. done.
  - intros i w. unfold s'. cbn [v_tlb set_pts]. rewrite Ht. intros Hi. by apply lookup_empty_Some in Hi.
Qed.

(** The sections [vm_ident_mmu_init] maps. *)
Definition ident_secs : list Z := [0x0; 0x1; 0x200; 0x201; 0x202; 0x7f; 0x8f].
Definition ident_space (on : bool) : aspace :=
  mk_as (fun j => if decide (j ∈ ident_secs) then Some (mk_mapped j 3 1) else None) 4 on.

Lemma rel_regs pt s A s' : rel pt s A -> v_pts s' = v_pts s -> v_c1 s' = v_c1 s ->
  v_tlb s' = v_tlb s -> v_ttbr0 s' = v_ttbr0 s -> v_ttbr_ctrl s' = v_ttbr_ctrl s ->
  rel pt s' (mk_as (a_sec A) (v_dac s') (a_on A)).
Proof.
  intros R Hp Hc Ht H0 H1. assert (He : forall i, entry s' pt i = entry s pt i).
  { intros i. unfold entry. by rewrite Hp. }
  destruct R. split; simpl; rewrite ?Hc, ?Ht, ?H0, ?H1; try done.
  - intros i. by rewrite He.
  - intros i w. rewrite He. apply r_ent0.
  - intros i w. rewrite He. apply r_tlb0.
Qed.

Lemma mmu_init_run s : bf_get MMU_enabled (v_c1 s) = 0 ->
  mmu_init s = Done (tt, set_c1 (set_tlb s ∅) (bf_set XP_pt 1 (v_c1 s))).
Proof.
  intros E. unfold mmu_init, mmu_reset, inv_tlb, cp15_ctrl_reg1_rd, cp15_ctrl_reg1_wr.
  rewrite modify_run, gets_run, modify_run, gets_run. cbn [v_c1 set_c1 set_tlb].
  rewrite bf_get_set by reflexivity. rewrite assert_run by reflexivity.
  rewrite bf_get_set_ne by reflexivity. by rewrite E.
Qed.

Lemma ident_map pt s A i : rel pt s A -> a_on A = false -> 0 <= i < 4096 ->
  exists s', mmu_map_section pt (i * 2^20) (i * 2^20) dom_id s = Done (i, s') /\
    rel pt s' (mk_as (upd_sec i (Some (mk_mapped i 3 1)) (a_sec A)) (a_dac A) false).
Proof.
  intros R Hoff Hi. assert (Hs : sec_addr (i * 2^20)).
  { split; [unfold is_u32; lia|by apply Z.mod_mul]. }
  destruct (map_section_rel pt s A _ _ dom_id R Hs Hs) as (s' & E & R'); [done|by rewrite Hoff|].
  rewrite Hoff in R'. rewrite Z.shiftr_div_pow2, Z.div_mul in * by lia. by eauto.
Qed.

Lemma set_vectors_run vec s : vec <> 0 -> vec mod 8 = 0 ->
  int_vec_reset vec s = Done (v_vbase s, set_vbase s vec).
Proof.
  intros H0 H8. unfold int_vec_reset, vector_base_reset. rewrite assert_run.
  - rewrite gets_run, modify_run, gets_run. cbn [v_vbase set_vbase]. by rewrite Z.eqb_refl.
  - unfold vector_base_chk. by rewrite H8, (proj2 (Z.eqb_neq _ _) H0).
Qed.

Definition ident_upds : Z -> option mapped :=
  foldl (fun sec i => upd_sec i (Some (mk_mapped i 3 1)) sec) (fun _ => None) ident_secs.

Lemma ident_upds_eq on j : ident_upds j = a_sec (ident_space on) j.
Proof.
  unfold ident_upds. cbn [ident_space a_sec foldl ident_secs]. unfold upd_sec.
  case_decide as Hin; unfold ident_secs in Hin; rewrite !elem_of_cons, elem_of_nil in Hin.
  - by destruct Hin as [->|[->|[->|[->|[->|[->|[->|[]]]]]]]].
  - repeat (rewrite (proj2 (Z.eqb_neq j _)) by lia). done.
Qed.

Lemma ident_init_rel s start_p vec :
  bf_get MMU_enabled (v_c1 s) = 0 -> bf_get C_unified_enable (v_c1 s) = 0 ->
  pt_block (v_nalloc s) = 0x100000 -> vec <> 0 -> vec mod 8 = 0 ->
  exists s', vm_ident_mmu_init start_p vec s = Done (0x100000, s') /\
    rel 0x100000 s' (ident_space start_p).
Proof.
  intros Hon Hc Hb Hv0 Hv8.
  set (s1 := set_c1 (set_tlb s ∅) (bf_set XP_pt 1 (v_c1 s))).
  assert (Hon1 : bf_get MMU_enabled (v_c1 s1) = 0) by (unfold s1; cbn; by rewrite bf_get_set_ne).
  destruct (pt_alloc_rel s1) as (s2 & E2 & R2); try done.
  { cbn. by rewrite Hb. }
  { unfold s1. cbn. by rewrite bf_get_set_ne. }
  { unfold s1. cbn. by rewrite bf_get_set. }
  change (v_nalloc s1) with (v_nalloc s) in *. rewrite Hb in *.
  destruct (ident_map _ _ _ 0x0 R2 eq_refl ltac:(lia)) as (t1 & F1 & R3).
  destruct (ident_map _ _ _ 0x1 R3 eq_refl ltac:(lia)) as (t2 & F2 & R4).
  destruct (ident_map _ _ _ 0x200 R4 eq_refl ltac:(lia)) as (t3 & F3 & R5).
  destruct (ident_map _ _ _ 0x201 R5 eq_refl ltac:(lia)) as (t4 & F4 & R6).
  destruct (ident_map _ _ _ 0x202 R6 eq_refl ltac:(lia)) as (t5 & F5 & R7).
  destruct (ident_map _ _ _ 0x7f R7 eq_refl ltac:(lia)) as (t6 & F6 & R8).
  destruct (ident_map _ _ _ 0x8f R8 eq_refl ltac:(lia)) as (t7 & F7 & R9).
  set (t8 := set_dac (set_vbase t7 vec) 4).
  assert (R10 : rel 0x100000 t8 (ident_space false)).
  { eapply (rel_regs _ _ _ t8) in R9; [|done..]. eapply rel_ext in R9; [exact R9|].
    intros j _. exact (ident_upds_eq false j). }
  assert (Hgo : (if start_p then vm_ident_mmu_on 0x100000 else mret tt) t8 =
    Done (tt, if start_p then switched_on 0x100000 t8 else t8)).
  { destruct start_p; [|done]. apply mmu_on_run. apply R10. }
  exists (if start_p then switched_on 0x100000 t8 else t8). split.
  - unfold vm_ident_mmu_init. mrun (mmu_init_run _ Hon). fold s1.
    unfold mmu_is_enabled at 1, cp15_ctrl_reg1_rd at 1. rewrite bind_assoc, gets_run, ret_run, Hon1.
    rewrite assert_run by reflexivity. mrun E2. rewrite assert_run by reflexivity.
    mrun F1. mrun F2. mrun F3. mrun F4. mrun F5. mrun F6. mrun F7.
    mrun (set_vectors_run vec t7 Hv0 Hv8). unfold domain_access_ctrl_set, cp15_domain_ctrl_wr.
    rewrite modify_run. change (set_dac _ _) with t8. by mrun Hgo.
  - destruct start_p; [|exact R10]. by apply (mmu_on_rel _ _ _ R10).
Qed.
End ident.

(** ** Properties *)

(** C11: the page-table code as an address space.  Once [vm_ident_mmu_init] has run, take any
    sequence of operations within their preconditions - mapping runs of sections (with the
    MMU on only unmapped ones), changing permissions, changing the domain register, turning
    the MMU off and on - and let the hardware fill and evict its TLB in between as it likes.
    All of it runs without a panic, and every access then comes out as the address space
    says: the identity mapping, updated by the operations one space_after the other. *)
Theorem mmu_refines_space `{PtHeap} s start_p vec evs :
  bf_get MMU_enabled (v_c1 s) = 0 -> bf_get C_unified_enable (v_c1 s) = 0 ->
  pt_block (v_nalloc s) = 0x100000 -> vec <> 0 -> vec mod 8 = 0 ->
  all_allowed (ident_space start_p) evs ->
  exists s1 s2, vm_ident_mmu_init start_p vec s = Done (0x100000, s1) /\
    run_vm_events 0x100000 evs s1 = Done (tt, s2) /\
    forall priv wr va, is_u32 va ->
      translate s2 priv wr va =
        space_access (foldl (fun A ev => space_after ev A) (ident_space start_p) evs) priv wr va.
Proof.
  intros Hon Hc Hb Hv0 Hv8 Hal.
  destruct (ident_init_rel s start_p vec Hon Hc Hb Hv0 Hv8) as (s1 & E1 & R1).
  destruct (events_rel _ _ _ _ R1 Hal) as (s2 & E2 & R2).
  exists s1, s2. split_and!; [done..|]. intros priv wr va Hva. by eapply translate_rel.
Qed.

Lemma sec_split va : Z.lor (Z.shiftl (Z.shiftr va 20) 20) (Z.land va (Z.ones 20)) = va.
Proof.
  apply Z.bits_inj'. intros i Hi. rewrite Z.lor_spec, Z.land_spec, Z.shiftl_spec by lia.
  rewrite Z.testbit_ones_nonneg by lia. destruct (Z.ltb_spec i 20).
  - by rewrite andb_true_r, (Z.testbit_neg_r _ (i - 20)) by lia.
  - rewrite andb_false_r, orb_false_r, Z.shiftr_spec by lia. f_equal. lia.
Qed.

(** C13: with the MMU turned on by [vm_ident_mmu_init], an access to one of the seven mapped
    megabytes (code, heap, devices, the two stacks) reaches the same physical address in
    every mode, and every other access faults: translation is the identity where it is
    defined. *)
Theorem vm_ident_is_identity `{PtHeap} s vec :
  bf_get MMU_enabled (v_c1 s) = 0 -> bf_get C_unified_enable (v_c1 s) = 0 ->
  pt_block (v_nalloc s) = 0x100000 -> vec <> 0 -> vec mod 8 = 0 ->
  exists s1, vm_ident_mmu_init true vec s = Done (0x100000, s1) /\
    forall priv wr va, is_u32 va ->
      translate s1 priv wr va = if decide (va / 2^20 ∈ ident_secs) then Xlate va else Fault.
Proof.
  intros Hon Hc Hb Hv0 Hv8.
  destruct (ident_init_rel s true vec Hon Hc Hb Hv0 Hv8) as (s1 & E1 & R1).
  exists s1. split; [done|]. intros priv wr va Hva. rewrite (translate_rel _ _ _ _ _ _ R1 Hva).
  unfold space_access. cbn [a_on a_sec a_dac ident_space negb]. cbv iota.
  rewrite <-Z.shiftr_div_pow2 by lia. case_decide; [|done].
  unfold sec_access. cbn [m_base m_ap m_dom]. rewrite sec_split. reflexivity.
Qed.

Definition fields_apart (T : layout) : bool :=
  forallb (fun x => bf_ok x.2 && (x.2.1 + x.2.2 <=? 32) &&
    forallb (fun y => bool_decide (x.1 = y.1) || bf_apart x.2 y.2) (place 0 T)) (place 0 T).

(** The layouts the code checks. *)
Definition vm_layouts : list layout := [fld_t; control_reg1; tlb_config].

(** The three register layouts.  [check_vm_structs] passes: the fields lie at the offsets
    and have the widths the manual gives.  Storing to a field of any of the structures keeps
    the structure in 32 bits, reads back as the value cut to the field's width, and leaves
    every other field, reserved ones included, as it was. *)
Lemma vm_structs_layout {St} (s : St) T name f v w :
  T ∈ vm_layouts -> (name, f) ∈ place 0 T -> is_u32 w ->
  check_vm_structs s = Done (tt, s) /\ is_u32 (bf_set f v w) /\
  bf_get f (bf_set f v w) = v mod 2 ^ f.2 /\
  forall name' g, (name', g) ∈ place 0 T -> name' <> name -> bf_get g (bf_set f v w) = bf_get g w.
Proof.
  intros HT Hf Hw. unfold vm_layouts in HT. split; [reflexivity|].
  assert (Ha : fields_apart T = true).
  { rewrite !elem_of_cons, elem_of_nil in HT. by destruct HT as [->|[->|[->|[]]]]. }
  unfold fields_apart in Ha. rewrite forallb_forall in Ha. apply list_elem_of_In in Hf. specialize (Ha _ Hf). simpl in Ha.
  apply andb_prop in Ha as [[Ho H32%Z.leb_le]%andb_prop Ha]. rewrite forallb_forall in Ha.
  split_and!; [by apply bf_set_u32|by apply bf_get_set|]. intros name' g Hg%list_elem_of_In Hne.
  apply bf_get_set_ne. specialize (Ha _ Hg). simpl in Ha. apply orb_prop in Ha as [Ha|Ha]; [|done].
  apply bool_decide_eq_true in Ha. congruence.
Qed.

(** In a table with coherent TLB, mapping over a section the TLB holds. *)
Lemma remap_run pt s A i pa x : rel pt s A -> a_on A = true -> 0 <= i < 4096 -> sec_addr pa ->
  a_sec A i = Some x ->
  exists w s1, hw_fill i s = Done (tt, set_tlb s (<[i := w]> (v_tlb s))) /\ pte_is w x /\
    mmu_map_section pt (i * 2^20) pa dom_id (set_tlb s (<[i := w]> (v_tlb s))) =
      Done (i, set_tlb s1 (<[i := w]> (v_tlb s))) /\
    rel pt (set_tlb s1 ∅)
      (mk_as (upd_sec i (Some (mk_mapped (Z.shiftr pa 20) 3 dom_id)) (a_sec A)) (a_dac A) true) /\
    v_c1 s1 = v_c1 s /\ v_ttbr_ctrl s1 = v_ttbr_ctrl s /\ v_dac s1 = v_dac s.
Proof.
  intros R Hon Hi Hpa Hx. destruct (proj2 (r_len _ _ _ R _) Hi) as [w Ew].
  pose proof (r_ent _ _ _ R _ _ Ew) as Hw. rewrite Hx in Hw.
  assert (Hva : sec_addr (i * 2^20)) by (split; [unfold is_u32; lia|by apply Z.mod_mul]).
  assert (Ei : Z.shiftr (i * 2^20) 20 = i) by (by rewrite Z.shiftr_div_pow2, Z.div_mul by lia).
  set (s0 := set_tlb s (<[i := w]> (v_tlb s))).
  destruct (map_section_run s0 pt (i * 2^20) pa dom_id w) as (w' & E & Hw'); [by rewrite Ei|done..|].
  rewrite Ei in E. exists w, (put_pte pt i w' s). split_and!; try done.
  - unfold hw_fill. destruct (r_ttbr _ _ _ R Hon) as [-> _]. rewrite Ew, (r_on _ _ _ R), Hon.
    destruct Hw as (-> & _). done.
  - assert (R0 : rel pt (set_tlb s ∅) A).
    { apply tlb_rel; [done..|]. intros j v Hj. by apply lookup_empty_Some in Hj. }
    pose proof (rel_put pt (set_tlb s ∅) A i w w' (Some (mk_mapped (Z.shiftr pa 20) 3 dom_id)) R0) as R1.
    rewrite Hon in R1. apply R1; [done..|]. apply lookup_empty.
Qed.

(** C38: a mapped section is mapped elsewhere while the MMU is on, and the hardware has used
    the old mapping before: [mmu_map_section] returns as if all was well, but accesses to
    the section go to the old place.  Only after [mmu_sync_pte_mods], which
    [mmu_map_section] does not call, do they go to the new one. *)
Theorem remap_stays_stale `{PtHeap} s vec i pa :
  bf_get MMU_enabled (v_c1 s) = 0 -> bf_get C_unified_enable (v_c1 s) = 0 ->
  pt_block (v_nalloc s) = 0x100000 -> vec <> 0 -> vec mod 8 = 0 ->
  i ∈ ident_secs -> sec_addr pa ->
  exists s1 s2 s3 s4, vm_ident_mmu_init true vec s = Done (0x100000, s1) /\
    hw_fill i s1 = Done (tt, s2) /\
    mmu_map_section 0x100000 (i * 2^20) pa dom_id s2 = Done (i, s3) /\
    mmu_sync_pte_mods s3 = Done (tt, s4) /\
    forall priv wr va, is_u32 va -> va / 2^20 = i ->
      translate s3 priv wr va = Xlate va /\ translate s4 priv wr va = Xlate (pa + va mod 2^20).
Proof.
  intros Hon Hc Hb Hv0 Hv8 Hin Hpa.
  destruct (ident_init_rel s true vec Hon Hc Hb Hv0 Hv8) as (s1 & E1 & R1).
  assert (Hi : 0 <= i < 4096).
  { unfold ident_secs in Hin. rewrite !elem_of_cons, elem_of_nil in Hin. lia. }
  assert (Hx : a_sec (ident_space true) i = Some (mk_mapped i 3 1)) by (simpl; by rewrite decide_True).
  destruct (remap_run _ _ _ i pa _ R1 eq_refl Hi Hpa Hx) as (w & t & Hf & Hw & Hm & R2 & E2 & E3 & E4).
  exists s1, (set_tlb s1 (<[i := w]> (v_tlb s1))), (set_tlb t (<[i := w]> (v_tlb s1))), (set_tlb t ∅).
  split_and!; [done..|]. intros priv wr va Hva Hsec.
  assert (Esec : Z.shiftr va 20 = i) by (by rewrite Z.shiftr_div_pow2 by lia). split.
  - unfold translate. cbn [v_c1 v_tlb v_ttbr_ctrl v_dac set_tlb].
    rewrite E2, E3, E4, (r_on _ _ _ R1), (r_xp _ _ _ R1), (r_dac _ _ _ R1).
    destruct (r_ttbr _ _ _ R1 eq_refl) as [_ ->]. rewrite Esec, lookup_insert_eq. cbn [from_option].
    destruct Hw as (-> & Hb' & Ha & Hd & -> & ->). unfold decode. rewrite Hb', Ha, Hd, <-Esec.
    unfold sec_access. cbn [m_base m_ap m_dom]. by rewrite sec_split.
  - rewrite (translate_rel _ _ _ _ _ _ R2 Hva). unfold space_access. cbn [a_on a_sec a_dac negb].
    unfold upd_sec. rewrite Esec, Z.eqb_refl. unfold sec_access. cbn [m_base m_ap m_dom].
    destruct (sec_addr_shift _ Hpa) as [Epa _].
    rewrite Z.land_ones, Z.shiftl_mul_pow2, <-Epa by lia.
    assert (Z.lor pa (va mod 2^20) = pa + va mod 2^20) as ->; [|reflexivity].
    rewrite <-Z.add_lor_land. rewrite (Z.land_comm pa).
    assert (Z.land (va mod 2^20) pa = 0) as ->; [|lia].
    apply Z.bits_inj'. intros k Hk. rewrite Z.land_spec, Z.bits_0, Epa.
    destruct (Z.ltb_spec k 20); [|by rewrite Z.mod_pow2_bits_high by lia].
    by rewrite Z.mul_pow2_bits_low, andb_false_r by lia.
Qed.

(** A section marked read-only can still be written by privileged code; user code can only
    read it. *)
Lemma readonly_binds_user_only A va nsec priv wr addr :
  a_on A = true -> Z.shiftr va 20 <= Z.shiftr addr 20 < Z.shiftr va 20 + nsec ->
  (exists x, a_sec A (Z.shiftr addr 20) = Some x /\ bf_get (2 * m_dom x, 2) (a_dac A) = 1) ->
  space_access (space_after (EvProtect va nsec AP_rd_only) A) priv wr addr = Fault <->
  priv = false /\ wr = true.
Proof.
  intros Hon Hr (x & Hx & Hd). unfold space_access. cbn [space_after a_on a_sec a_dac]. rewrite Hon.
  unfold as_protect. rewrite (proj2 (Z.leb_le _ _)), (proj2 (Z.ltb_lt _ _)), Hx by lia.
  cbn. unfold sec_access. cbn [m_base m_ap m_dom]. rewrite Hd. cbn.
  destruct priv, wr; cbn; naive_solver.
Qed.

(** No bound is checked: permissions of sections past the end of the table are written to
    whatever lies behind it. *)
Lemma mprotect_past_end pt s A va nsec perm : rel pt s A -> is_u32 va ->
  is_Some (a_sec A (Z.shiftr va 20)) -> 0 <= perm <= 3 -> 4096 < Z.shiftr va 20 + nsec ->
  mmu_mprotect pt va nsec perm s = Undef.
Proof.
  intros R Hva Hm Hp Hn. destruct (round_down _ Hva) as [Hd Ed].
  destruct (sec_addr_shift _ Hd) as [_ Hi]. rewrite Ed in Hi.
  unfold mmu_mprotect. rewrite assert_run by (apply Z.leb_le; lia).
  rewrite <-Ed in Hm. mrun (lookup_section_run _ _ _ _ R Hd Hm). rewrite Ed. apply bind_undef.
  assert (Hloop : forall n i t, 0 <= i <= 4096 -> (forall j, is_Some (entry t pt j) <-> 0 <= j < 4096) ->
    4096 < i + Z.of_nat n -> mprotect_loop pt i n perm t = Undef).
  { clear. intros n. induction n as [|n IH]; intros i t Hi He Hn; [lia|].
    simpl. destruct (decide (i < 4096)) as [Hlt|].
    - destruct (proj2 (He i) ltac:(lia)) as [w Ew]. mrun (pte_set_run fld_AP _ _ _ perm _ Ew).
      apply IH; [lia| |lia]. intros j. destruct (decide (i = j)) as [<-|].
      + rewrite (entry_put _ _ _ _ _ Ew). split; [lia|by eauto].
      + by rewrite entry_put_ne by lia.
    - apply bind_undef. unfold pte_set. apply bind_undef, pte_read_undef.
      apply eq_None_not_Some. rewrite He. lia. }
  apply Hloop; [lia|apply R|lia].
Qed.

Lemma map_one_allowed A va pa dom : sec_addr va -> sec_addr pa -> 0 <= dom < 16 ->
  a_sec A (Z.shiftr va 20) = None -> allowed A (EvMap va pa 1 dom).
Proof.
  intros Hva Hpa Hd Hn. split_and!; [done|done|lia|lia|lia|lia|]. intros _ j Hj Hk.
  by destruct (nth_of_next va j Hva Hj) as [(_ & _ & ->)|(? & _)]; [|lia].
Qed.

(** ** A machine *)

Module MmuExample.

#[local] Instance heap : PtHeap := {|
  pt_block n := 0x100000 * (Z.of_nat n + 1);
  pt_junk _ i := 0xdead + Z.of_nat i
|}.

(** After reset: MMU and caches off. *)
Definition reset_vm : vm := mk_vm 0x50078 0 0 0 0 0 0 ∅ 0 ∅ false.

(** Two sections are mapped at the top of the address space and made read-only, the hardware
    has used one of them and the code section. *)
Definition session : list event :=
  [EvFill 0; EvMap 0xfff00000 0x300000 1 2; EvMap 0xffe00000 0x200000 1 1; EvFill 0xffe; EvDomains 0x34;
   EvProtect 0xffe00123 2 AP_rd_only; EvEvict 0xffe; EvOff; EvOn].

Lemma mmu_refines_space_witness : exists s1 s2, vm_ident_mmu_init true 0x8000 reset_vm = Done (0x100000, s1) /\
    run_vm_events 0x100000 session s1 = Done (tt, s2) /\
    translate s2 false false 0xffe00004 = Xlate 0x200004 /\
    translate s2 false true 0xffe00004 = Fault /\ translate s2 false true 0xfff00004 = Xlate 0x300004.
Proof.
  destruct (mmu_refines_space reset_vm true 0x8000 session) as (s1 & s2 & H1 & H2 & H3);
    [reflexivity..|discriminate|reflexivity| |].
  - split; [done|]. split; [apply map_one_allowed; done|]. split; [apply map_one_allowed; done|].
    split; [done|]. split; [done|]. split; [|by repeat split].
    split_and!; try done.
  - exists s1, s2. split; [exact H1|]. split; [exact H2|].
    split; [|split]; (rewrite H3; [vm_compute; reflexivity|split; [discriminate|reflexivity]]).
Defined.

Lemma vm_ident_is_identity_witness : exists s1, vm_ident_mmu_init true 0x8000 reset_vm = Done (0x100000, s1) /\
  translate s1 false true 0x20200034 = Xlate 0x20200034 /\ translate s1 true false 0x300000 = Fault.
Proof.
  destruct (vm_ident_is_identity reset_vm 0x8000) as (s1 & H1 & H2); [reflexivity..|discriminate|reflexivity|].
  exists s1. split; [exact H1|].
  split; (rewrite H2; [vm_compute; reflexivity|split; [discriminate|reflexivity]]).
Defined.

Lemma vm_structs_layout_witness : (bf_get (10, 2) (bf_set (10, 2) 6 0xffffffff)) = 2 /\
  bf_get (20, 12) (bf_set (10, 2) 6 0xffffffff) = 0xfff.
Proof.
  destruct (vm_structs_layout tt fld_t "AP" (10, 2) 6 0xffffffff) as (_ & _ & H1 & H2).
  - left.
  - by do 6 right; left.
  - done.
  - split; [exact H1|]. rewrite (H2 "sec_base_addr" (20, 12)); [reflexivity| |discriminate].
    by do 13 right; left.
Defined.

Lemma remap_stays_stale_witness : exists s1 s2 s3, vm_ident_mmu_init true 0x8000 reset_vm = Done (0x100000, s1) /\
  hw_fill 1 s1 = Done (tt, s2) /\
  mmu_map_section 0x100000 (1 * 2^20) 0x500000 dom_id s2 = Done (1, s3) /\
  translate s3 true true 0x100008 = Xlate 0x100008.
Proof.
  destruct (remap_stays_stale reset_vm 0x8000 1 0x500000) as (s1 & s2 & s3 & s4 & H1 & H2 & H3 & H4 & H5);
    [reflexivity..|discriminate|reflexivity|by right; left|done|].
  exists s1, s2, s3. split; [exact H1|]. split; [exact H2|]. split; [exact H3|].
  apply (H5 true true 0x100008); [split; [discriminate|reflexivity]|reflexivity].
Defined.
End MmuExample.
