(* ===== verification/Vectors.v ===== *)
(** * Interrupt handlers (src/libpi/src/exception-handlers.c)

    The four pointers to handlers, and the vector that calls them one after the other.  A handler
    gets the interrupted program counter and stack; it returns ([None]), or it switches to a
    context ([Some sp], the stack it continues with) and what follows it is not executed. *)

From stdpp Require Import base tactics option list numbers.
From Stdlib Require Import ZArith Lia.
From S2P Require Import Prelude.
#[local] Open Scope Z_scope.

Section Vectors.
Context {S : Type}.

Definition handler : Type := Z -> Z -> M S (option Z).

(** [None] is the null pointer. *)
Record vectors : Type := mk_vectors {
  timer_handler_ptr : option handler;
  uart_handler_ptr : option handler;
  nrf_handler_ptr : option handler;
  last_handler_ptr : option handler
}.

Definition no_handlers : vectors := mk_vectors None None None None.

Definition register_timer_handler (f : handler) (v : vectors) : vectors :=
  mk_vectors (Some f) (uart_handler_ptr v) (nrf_handler_ptr v) (last_handler_ptr v).
Definition register_uart_handler (f : handler) (v : vectors) : vectors :=
  mk_vectors (timer_handler_ptr v) (Some f) (nrf_handler_ptr v) (last_handler_ptr v).
Definition register_nrf_handler (f : handler) (v : vectors) : vectors :=
  mk_vectors (timer_handler_ptr v) (uart_handler_ptr v) (Some f) (last_handler_ptr v).
Definition register_last_handler (f : handler) (v : vectors) : vectors :=
  mk_vectors (timer_handler_ptr v) (uart_handler_ptr v) (nrf_handler_ptr v) (Some f).

Definition call (f : option handler) (pc sp : Z) : M S (option Z) :=
  match f with None => mret None | Some f => f pc sp end.

Definition timer_interrupt_handler (v : vectors) : handler := call (timer_handler_ptr v).
Definition uart_interrupt_handler (v : vectors) : handler := call (uart_handler_ptr v).
Definition nrf_interrupt_handler (v : vectors) : handler := call (nrf_handler_ptr v).
Definition last_interrupt_handler (v : vectors) : handler := call (last_handler_ptr v).

(** [f(pc, sp); rest] when [f] may not come back. *)
Definition then_call (m rest : M S (option Z)) : M S (option Z) :=
  r ← m; match r with Some sp => mret (Some sp) | None => rest end.

Definition fiq_vector (v : vectors) (pc sp : Z) : M S (option Z) :=
  then_call (nrf_interrupt_handler v pc sp)
    (then_call (timer_interrupt_handler v pc sp)
      (then_call (uart_interrupt_handler v pc sp)
        (last_interrupt_handler v pc sp))).

Lemma then_returns m rest s s' : m s = Done (None, s') -> then_call m rest s = rest s'.
Proof. intros E. unfold then_call. by mrun E. Qed.

Lemma then_switches m rest s sp s' : m s = Done (Some sp, s') -> then_call m rest s = Done (Some sp, s').
Proof. intros E. unfold then_call. by mrun E. Qed.

Lemma then_nothing rest s : then_call (mret None) rest s = rest s.
Proof. by apply then_returns. Qed.
End Vectors.

Arguments handler : clear implicits.
Arguments vectors : clear implicits.

(** Handlers of a part of the machine, in the whole. *)
Section Part.
Context {S T : Type} (get : T -> S) (set : S -> T -> T).

Definition lift_handler (f : handler S) : handler T := fun pc sp => m_zoom get set (f pc sp).

Lemma then_lift (m rest : M S (option Z)) t :
  (forall s t, get (set s t) = s) -> (forall s s' t, set s' (set s t) = set s' t) ->
  then_call (m_zoom get set m) (m_zoom get set rest) t = m_zoom get set (then_call m rest) t.
Proof.
  intros G S2. unfold then_call, m_zoom, mbind, M_bind. destruct (m (get t)) as [[[sp|] s]| | |]; try done.
  rewrite G. by destruct (rest s) as [[r s']| | |]; rewrite ?S2.
Qed.

Lemma then_ext (m rest rest' : M T (option Z)) t : (forall s, rest s = rest' s) ->
  then_call m rest t = then_call m rest' t.
Proof. intros E. unfold then_call, mbind, M_bind. by destruct (m t) as [[[sp|] s]| | |]. Qed.
End Part.
