(* ===== verification/Queue.v ===== *)
(** * The intrusive linked queue (src/libpi/libc/Q.h)

    The queues of thread blocks.  An element is the address of a block, 0 is the null
    pointer, and the [next] fields of all blocks are one map, so that the queues share them
    as they do in memory: an operation on one queue could damage another.  [isQ] says that a
    queue holds a list; every operation is the list operation, and leaves alone the queues
    that hold none of the blocks it was given. *)

From stdpp Require Import base tactics option list numbers gmap.
From Stdlib Require Import ZArith Lia.
From S2P Require Import Prelude.
#[local] Open Scope Z_scope.

(** ** Operations *)

Abbreviation nexts := (gmap Z Z).

Record Q_t : Type := mk_Q {
  q_head : Z;
  q_tail : Z;
  q_cnt : Z
}.

(** The state: the [next] fields and the queue the operation is given. *)
Definition queue : Type := nexts * Q_t.

Definition set_q (q : Q_t) : M queue unit := m_modify (fun s => (s.1, q)).

(** [e->next], [e->next = v]. *)
Definition get_next (e : Z) : M queue Z :=
  nx ← m_gets fst; m_opt (nx !! e).
Definition set_next (e v : Z) : M queue unit :=
  get_next e;; m_modify (fun s => (<[e := v]> s.1, s.2)).

Definition Q_start : M queue Z := m_gets (fun s => q_head s.2).
Definition Q_next (e : Z) : M queue Z := get_next e.
Definition Q_nelem : M queue Z := m_gets (fun s => q_cnt s.2).

Definition Q_empty : M queue bool :=
  q ← m_gets snd;
  if negb (q_head q =? 0) then mret false else
  m_assert (q_cnt q =? 0);;
  m_assert (q_tail q =? 0);;
  mret true.

Definition Q_pop : M queue Z :=
  q ← m_gets snd;
  let e := q_head q in
  if e =? 0 then
    b ← Q_empty;
    m_assert b;;
    mret 0
  else
    n ← get_next e;
    set_q (mk_Q n (if n =? 0 then 0 else q_tail q) (u32 (q_cnt q - 1)));;
    mret e.

Definition Q_append (e : Z) : M queue unit :=
  set_next e 0;;
  q ← m_gets snd;
  let cnt := u32 (q_cnt q + 1) in
  if q_tail q =? 0 then set_q (mk_Q e e cnt)
  else
    set_next (q_tail q) e;;
    set_q (mk_Q (q_head q) e cnt).

Definition Q_push (e : Z) : M queue unit :=
  q ← m_gets snd;
  set_next e (q_head q);;
  set_q (mk_Q e (if q_tail q =? 0 then e else q_tail q) (u32 (q_cnt q + 1))).

Definition Q_init : Q_t := mk_Q 0 0 0.

Definition Q_insert_after (e e_new : Z) : M queue unit :=
  q ← m_gets snd;
  if e =? 0 then Q_push e_new
  else if q_tail q =? e then Q_append e_new
  else
    n ← get_next e;
    set_next e_new n;;
    set_next e e_new;;
    set_q (mk_Q (q_head q) (q_tail q) (u32 (q_cnt q + 1))).

(** ** Queues as lists *)

(** The blocks [l], linked from [e] on; the last one's [next] is [e']. *)
Fixpoint seg (nx : nexts) (e : Z) (l : list Z) (e' : Z) : Prop :=
  match l with
  | [] => e = e'
  | x :: l => e = x /\ x <> 0 /\ exists n, nx !! x = Some n /\ seg nx n l e'
  end.

Record isQ (nx : nexts) (q : Q_t) (l : list Z) : Prop := {
  iq_seg : seg nx (q_head q) l 0;
  iq_nodup : NoDup l;
  iq_tail : q_tail q = default 0 (last l);
  iq_cnt : q_cnt q = u32 (Z.of_nat (length l))
}.

(** [nx'] differs from [nx] in the fields of the blocks [l] only. *)
Definition same_but (l : list Z) (nx nx' : nexts) : Prop :=
  (forall x, x ∉ l -> nx' !! x = nx !! x) /\ dom nx' = dom nx.

Lemma seg_ext nx nx' e l e' : (forall x, x ∈ l -> nx' !! x = nx !! x) ->
  seg nx e l e' -> seg nx' e l e'.
Proof.
  revert e. induction l as [|x l IH]; intros e Hx; [done|].
  intros (-> & H0 & n & E & L). split_and!; [done..|]. exists n. split.
  - rewrite Hx; [done|left].
  - apply IH; [|done]. intros y Hy. apply Hx. by right.
Qed.

Lemma seg_app nx e l1 l2 e' :
  seg nx e (l1 ++ l2) e' <-> exists m, seg nx e l1 m /\ seg nx m l2 e'.
Proof.
  revert e. induction l1 as [|x l1 IH]; intros e; simpl.
  - split; [by eauto|by intros (m & -> & H)].
  - setoid_rewrite IH. naive_solver.
Qed.

Lemma seg_in nx e l e' x : seg nx e l e' -> x ∈ l -> x <> 0 /\ x ∈ dom nx.
Proof.
  revert e. induction l as [|y l IH]; intros e; [by intros _ ?%not_elem_of_nil|].
  intros (-> & H0 & n & E & L) [->|Hx]%elem_of_cons; [|by eapply IH].
  split; [done|]. by eapply elem_of_dom_2.
Qed.

(** A queue that holds none of the blocks touched is still the same list. *)
Lemma isQ_frame l0 nx nx' q l : same_but l0 nx nx' -> l ## l0 -> isQ nx q l -> isQ nx' q l.
Proof.
  intros [Hx _] D [S N T C]. split; [|done..].
  eapply seg_ext; [|exact S]. intros x Hl. apply Hx. set_solver.
Qed.

Lemma same_but_trans l nx1 nx2 nx3 : same_but l nx1 nx2 -> same_but l nx2 nx3 -> same_but l nx1 nx3.
Proof. intros [H1 D1] [H2 D2]. split; [|congruence]. intros x Hx. by rewrite H2, H1. Qed.

Lemma same_but_mono l l' nx nx' : same_but l nx nx' -> l ⊆ l' -> same_but l' nx nx'.
Proof. intros [H D] S. split; [|done]. intros x Hx. apply H. set_solver. Qed.

Lemma same_but_insert nx x v l : x ∈ dom nx -> x ∈ l -> same_but l nx (<[x := v]> nx).
Proof.
  intros D Hx. split.
  - intros y Hy. apply lookup_insert_ne. set_solver.
  - rewrite dom_insert_L. set_solver.
Qed.

Lemma isQ_head nx q l : isQ nx q l -> q_head q = default 0 (head l).
Proof. intros [S _ _ _]. destruct l; [done|]. by destruct S as [-> _]. Qed.

Lemma isQ_nil nx q : isQ nx q [] <-> q = Q_init.
Proof.
  split; [intros [S _ T C]; destruct q; simpl in *; by subst|].
  intros ->. split; [done|constructor|done..].
Qed.

Lemma set_next_run e v s : e ∈ dom s.1 -> set_next e v s = Done (tt, (<[e := v]> s.1, s.2)).
Proof.
  intros [n E]%elem_of_dom. unfold set_next, get_next. rewrite bind_assoc, gets_run.
  by rewrite (opt_run _ _ _ _ E).
Qed.

(** ** The operations on lists *)

Lemma Q_empty_run nx q l : isQ nx q l -> Q_empty (nx, q) = Done (bool_decide (l = []), (nx, q)).
Proof.
  intros I. unfold Q_empty. rewrite gets_run. simpl. rewrite (isQ_head _ _ _ I).
  destruct l as [|x l]; simpl.
  - by apply isQ_nil in I as ->.
  - destruct I as [(E & H0 & _) _ _ _]. by rewrite (proj2 (Z.eqb_neq x 0)).
Qed.

Lemma Q_pop_nil nx q : isQ nx q [] -> Q_pop (nx, q) = Done (0, (nx, q)).
Proof. by intros ->%isQ_nil. Qed.

Lemma Q_pop_cons nx q x l : isQ nx q (x :: l) ->
  exists q', Q_pop (nx, q) = Done (x, (nx, q')) /\ isQ nx q' l.
Proof.
  intros [S N T C]. destruct S as (E & H0 & n & En & S). apply NoDup_cons in N as [_ N].
  unfold Q_pop. rewrite gets_run. simpl. rewrite E, (proj2 (Z.eqb_neq x 0)) by done.
  unfold get_next. rewrite bind_assoc, gets_run. simpl. rewrite (opt_run _ _ _ _ En).
  eexists. split; [done|]. split; simpl; [done..| |].
  - destruct l as [|y l]; [simpl in S; by subst n|]. destruct S as (-> & Hy & _).
    rewrite (proj2 (Z.eqb_neq y 0)) by done. by rewrite T.
  - rewrite C. unfold u32. rewrite Zminus_mod_idemp_l. f_equal. simpl length. lia.
Qed.

Lemma cnt_succ n : u32 (u32 (Z.of_nat n) + 1) = u32 (Z.of_nat (S n)).
Proof. unfold u32. rewrite Zplus_mod_idemp_l. f_equal. lia. Qed.

Lemma Q_append_run nx q l e : isQ nx q l -> e ∉ l -> e <> 0 -> e ∈ dom nx ->
  exists nx' q', Q_append e (nx, q) = Done (tt, (nx', q')) /\ isQ nx' q' (l ++ [e]) /\
    same_but (e :: l) nx nx'.
Proof.
  intros I He H0 D. unfold Q_append. mrun (set_next_run e 0 (nx, q) D). rewrite gets_run.
  cbn [fst snd]. pose proof (iq_tail _ _ _ I) as T.
  destruct l as [|t l' _] using rev_ind.
  - apply isQ_nil in I as ->. simpl. do 2 eexists. split_and!; [done| |by apply same_but_insert; set_solver].
    split; simpl; [|apply NoDup_singleton|done..].
    split_and!; [done..|]. exists 0. by rewrite lookup_insert_eq.
  - destruct I as [S N _ C]. rewrite last_snoc in T. simpl in T.
    apply seg_app in S as (m & S1 & -> & Ht & n & Et & Sn). apply NoDup_app in N as (N1 & Dj & _).
    assert (e <> t) as Het by set_solver. assert (t ∉ l') as Htl by (intros ?; set_solver).
    rewrite T, (proj2 (Z.eqb_neq t 0)) by done.
    assert (t ∈ dom (<[e := 0]> nx)) as Dt.
    { apply elem_of_dom. rewrite lookup_insert_ne by done. eauto. }
    mrun (set_next_run t e (<[e := 0]> nx, q) Dt).
    do 2 eexists. split_and!; [done| |].
    + split; simpl.
      * rewrite <-app_assoc. apply seg_app. exists t. split.
        { eapply seg_ext; [|exact S1]. intros x Hx. rewrite !lookup_insert_ne by set_solver. done. }
        simpl. split_and!; [done..|]. exists e. rewrite lookup_insert_eq. split_and!; [done..|].
        exists 0. by rewrite lookup_insert_ne, lookup_insert_eq.
      * apply NoDup_app. split_and!; [|set_solver|apply NoDup_singleton].
        apply NoDup_app. split_and!; [done| |apply NoDup_singleton]. set_solver.
      * by rewrite last_snoc.
      * rewrite C, cnt_succ. f_equal. rewrite !length_app. simpl. lia.
    + eapply same_but_trans; apply same_but_insert; set_solver.
Qed.

Lemma Q_push_run nx q l e : isQ nx q l -> e ∉ l -> e <> 0 -> e ∈ dom nx ->
  exists nx' q', Q_push e (nx, q) = Done (tt, (nx', q')) /\ isQ nx' q' (e :: l) /\
    same_but (e :: l) nx nx'.
Proof.
  intros [S N T C] He H0 D. unfold Q_push. rewrite gets_run. mrun (set_next_run e (q_head q) (nx, q) D).
  do 2 eexists. split_and!; [done| |by apply same_but_insert; set_solver].
  split; simpl; [|by apply NoDup_cons| |].
  - split_and!; [done..|]. exists (q_head q). rewrite lookup_insert_eq. split; [done|].
    eapply seg_ext; [|exact S]. intros x Hx. rewrite lookup_insert_ne; set_solver.
  - rewrite T. destruct l as [|y l]; [done|]. simpl last.
    destruct (last (y :: l)) as [z|] eqn:L; [|by apply last_None in L].
    simpl. destruct (seg_in _ _ _ _ z S) as [Hz _]; [by apply last_Some_elem_of|].
    rewrite (proj2 (Z.eqb_neq z 0)) by done. done.
  - by rewrite C, cnt_succ.
Qed.

(** Inserting after an element of the queue, which the null pointer stands before. *)
Lemma Q_insert_after_run nx q l1 l2 e : isQ nx q (l1 ++ l2) -> e ∉ l1 ++ l2 -> e <> 0 -> e ∈ dom nx ->
  exists nx' q', Q_insert_after (default 0 (last l1)) e (nx, q) = Done (tt, (nx', q')) /\
    isQ nx' q' (l1 ++ e :: l2) /\ same_but (e :: l1 ++ l2) nx nx'.
Proof.
  intros I He H0 D. unfold Q_insert_after. rewrite gets_run. cbn [snd].
  destruct l1 as [|x l1' _] using rev_ind; [simpl; by apply Q_push_run|].
  rewrite last_snoc. change (default 0 (Some x)) with x. destruct I as [S N T C].
  destruct (seg_in _ _ _ _ x S) as [Hx Dx]; [set_solver|].
  rewrite (proj2 (Z.eqb_neq x 0)) by done.
  assert (NoDup (l1' ++ [x] ++ l2)) as N' by (by rewrite app_assoc).
  apply NoDup_app in N' as (_ & Dj & N'). apply NoDup_app in N' as (_ & Dj' & _).
  destruct l2 as [|y l2].
  - rewrite !app_nil_r in *. rewrite last_snoc in T. simpl in T. rewrite T, Z.eqb_refl.
    apply Q_append_run; [by split; rewrite ?last_snoc|done..].
  - assert (q_tail q <> x) as Ht.
    { rewrite T, last_app. destruct (last (y :: l2)) as [z|] eqn:L; [|by apply last_None in L].
      simpl. apply last_Some_elem_of in L. set_solver. }
    rewrite (proj2 (Z.eqb_neq _ x)) by done.
    rewrite <-app_assoc in S. apply seg_app in S as (m & S1 & -> & _ & n & En & S2).
    unfold get_next at 1. rewrite bind_assoc, gets_run. cbn [fst]. rewrite (opt_run _ _ _ _ En).
    mrun (set_next_run e n (nx, q) D).
    assert (x ∈ dom (<[e := n]> nx)) as Dx' by (rewrite dom_insert_L; set_solver).
    mrun (set_next_run x e (<[e := n]> nx, q) Dx').
    do 2 eexists. split_and!; [done| |].
    + split; simpl.
      * rewrite <-app_assoc. apply seg_app. exists x. split.
        { eapply seg_ext; [|exact S1]. intros z Hz. rewrite !lookup_insert_ne by set_solver. done. }
        split_and!; [done..|]. exists e. rewrite lookup_insert_eq. split_and!; [done..|].
        simpl. split_and!; [done..|]. exists n. rewrite lookup_insert_ne by set_solver. rewrite lookup_insert_eq. split; [done|].
        apply (seg_ext nx _ n (y :: l2) 0); [|exact S2]. intros z Hz. rewrite !lookup_insert_ne by set_solver. done.
      * rewrite <-Permutation_middle. by constructor.
      * rewrite T, !last_app. change (last (e :: y :: l2)) with (last (y :: l2)).
        destruct (last (y :: l2)) eqn:L; [done|by apply last_None in L].
      * rewrite C, cnt_succ. f_equal. rewrite !length_app. simpl. lia.
    + eapply same_but_trans; apply same_but_insert; set_solver.
Qed.

(** ** Refinement *)

Inductive Q_op : Type :=
  | OpEmpty
  | OpPop
  | OpAppend (e : Z)
  | OpPush (e : Z)
  | OpInsertAfter (e e_new : Z).

(** What the operation does to the list of a queue and what it returns (0: nothing, or the
    null pointer).  Inserting goes before everything when [e] is null. *)
Definition list_op (op : Q_op) (l : list Z) : Z * list Z :=
  match op with
  | OpEmpty => (if l is [] then 1 else 0, l)
  | OpPop => (default 0 (head l), tail l)
  | OpAppend e => (0, l ++ [e])
  | OpPush e => (0, e :: l)
  | OpInsertAfter e e_new =>
      if e =? 0 then (0, e_new :: l) else
      match list_find (eq e) l with
      | Some (i, _) => (0, take (S i) l ++ e_new :: drop (S i) l)
      | None => (0, l)
      end
  end.

Definition Q_run (op : Q_op) : M queue Z :=
  match op with
  | OpEmpty => b ← Q_empty; mret (if b : bool then 1 else 0)
  | OpPop => Q_pop
  | OpAppend e => Q_append e;; mret 0
  | OpPush e => Q_push e;; mret 0
  | OpInsertAfter e e_new => Q_insert_after e e_new;; mret 0
  end.

(** A new element is a block that is in no list yet; the element to insert after is in it. *)
Definition Q_op_ok (nx : nexts) (l : list Z) (op : Q_op) : Prop :=
  match op with
  | OpEmpty | OpPop => True
  | OpAppend e | OpPush e => e ∉ l /\ e <> 0 /\ e ∈ dom nx
  | OpInsertAfter e e_new => (e = 0 \/ e ∈ l) /\ e_new ∉ l /\ e_new <> 0 /\ e_new ∈ dom nx
  end.

(** The blocks whose [next] an operation may write. *)
Definition Q_touches (l : list Z) (op : Q_op) : list Z :=
  match op with
  | OpEmpty | OpPop => []
  | OpAppend e | OpPush e | OpInsertAfter _ e => e :: l
  end.

Lemma same_but_refl l nx : same_but l nx nx.
Proof. by split. Qed.

(** C26: the linked queue is a list.  On a queue that holds the list [l], every operation
    returns without a failed assertion or a stray pointer, returns what the list operation
    returns, leaves a queue that holds the new list with the right count, and every other
    queue over the same blocks that shares none of the elements involved holds the list it
    held. *)
Theorem Q_refines_list nx q l op : isQ nx q l -> Q_op_ok nx l op ->
  exists nx' q', Q_run op (nx, q) = Done ((list_op op l).1, (nx', q')) /\
    isQ nx' q' (list_op op l).2 /\ dom nx' = dom nx /\
    forall q2 l2, isQ nx q2 l2 -> l2 ## Q_touches l op -> isQ nx' q2 l2.
Proof.
  intros I Ok. destruct op as [| |e|e|e e']; simpl in *.
  - exists nx, q. mrun (Q_empty_run nx q l I). by destruct l.
  - destruct l as [|x l]; [exists nx, q; by rewrite Q_pop_nil|].
    destruct (Q_pop_cons nx q x l I) as (q' & R & I'). exists nx, q'. by rewrite R.
  - destruct Ok as (He & H0 & D).
    destruct (Q_append_run nx q l e I He H0 D) as (nx' & q' & R & I' & B).
    exists nx', q'. mrun R. split_and!; [done..|apply B|]. intros. by eapply isQ_frame.
  - destruct Ok as (He & H0 & D).
    destruct (Q_push_run nx q l e I He H0 D) as (nx' & q' & R & I' & B).
    exists nx', q'. mrun R. split_and!; [done..|apply B|]. intros. by eapply isQ_frame.
  - destruct Ok as (Hl & He & H0 & D).
    assert (exists l1 l2, l = l1 ++ l2 /\ e = default 0 (last l1) /\
      list_op (OpInsertAfter e e') l = (0, l1 ++ e' :: l2)) as (l1 & l2 & -> & -> & E).
    { destruct Hl as [->|Hl]; [by exists [], l|].
      destruct (seg_in _ _ _ _ e (iq_seg _ _ _ I) Hl) as [Hn _].
      destruct (list_find_elem_of (eq e) l e Hl eq_refl) as [[i x] F]. pose proof F as F'.
      apply list_find_Some in F as (L & <- & _). exists (take (S i) l), (drop (S i) l).
      simpl. rewrite (proj2 (Z.eqb_neq e 0)), F' by done. rewrite take_drop.
      split_and!; [done| |done]. by rewrite (take_S_r _ _ _ L), last_snoc. }
    simpl in E. rewrite E.
    destruct (Q_insert_after_run nx q l1 l2 e' I He H0 D) as (nx' & q' & R & I' & B).
    exists nx', q'. mrun R. split_and!; [done..|apply B|]. intros. by eapply isQ_frame.
Qed.

Lemma Q_refines_list_witness :
  let nx : nexts := {[1 := 2; 2 := 0; 3 := 0; 4 := 0]} in
  exists nx' q', Q_run (OpAppend 3) (nx, mk_Q 1 2 2) = Done (0, (nx', q')) /\
    isQ nx' q' [1; 2; 3] /\ dom nx' = dom nx /\
    forall q2 l2, isQ nx q2 l2 -> l2 ## [3; 1; 2] -> isQ nx' q2 l2.
Proof.
  apply (Q_refines_list _ (mk_Q 1 2 2) [1; 2] (OpAppend 3)).
  - split; simpl; [|by apply (bool_decide_unpack _)|done..].
    split_and!; [done..|]. exists 2. split_and!; [done..|]. by exists 0.
  - split_and!; [by apply (bool_decide_unpack _)|done|by apply (bool_decide_unpack _)].
Defined.
