(* ===== verification/Coop.v ===== *)
(** * Cooperative threads (src/threads/rpi-thread.c, thread-asm.S)

    Threads that run until they yield or exit.  The state is the processor's saved registers,
    the memory that holds the stacks, the thread blocks and the two queues; [rpi_cswitch] is
    the assembly: it pushes the registers of the running context, stores the stack pointer in
    its block, and pops the registers of the other context.  Execution goes on at [c_pc].
    Traces are left out. *)

From stdpp Require Import base tactics option list numbers gmap.
From Stdlib Require Import ZArith Lia.
From S2P Require Import Prelude Queue.
#[local] Open Scope Z_scope.

Definition THREAD_MAXSTACK : Z := 1024 * 8 / 4.
Definition R4_OFFSET : Z := 0.
Definition R5_OFFSET : Z := 1.
Definition LR_OFFSET : Z := 8.

(** ** State *)

(** [r4] to [r11], the stack pointer, the link register, the address of the next instruction. *)
Record cpu_t : Type := mk_cpu { c_regs : list Z; c_sp : Z; c_lr : Z; c_pc : Z }.

(** A thread block; [next] is in the map of the queues, the stack in the memory. *)
Record rpi_thread_t : Type := mk_rpi_thread {
  rt_saved_sp : Z;
  rt_tid : Z;
  rt_fn : Z;
  rt_arg : Z
}.

(** [kmalloc_aligned]: the address of the [n]th block it gives out and what its fields hold;
    what a word of memory holds that was never written; the address of
    [rpi_init_trampoline]. *)
Class CoopEnv : Type := {
  co_block : nat -> Z;
  co_junk : nat -> rpi_thread_t;
  co_word : Z -> Z;
  rpi_init_trampoline_addr : Z
}.

Record coop : Type := mk_coop {
  co_next : nexts;
  co_th : gmap Z rpi_thread_t;
  co_mem : gmap Z Z;
  co_heap : nat;
  co_runq : Q_t;
  co_freeq : Q_t;
  co_cur : Z;
  co_sched : Z;
  co_tid : Z;
  co_nalloced : Z;
  co_cpu : cpu_t
}.

Section Setters.
Context (s : coop).
Definition with_queues (nx : nexts) (r f : Q_t) : coop :=
  mk_coop nx (co_th s) (co_mem s) (co_heap s) r f (co_cur s) (co_sched s) (co_tid s) (co_nalloced s) (co_cpu s).
Definition with_th (th : gmap Z rpi_thread_t) : coop :=
  mk_coop (co_next s) th (co_mem s) (co_heap s) (co_runq s) (co_freeq s) (co_cur s) (co_sched s) (co_tid s)
    (co_nalloced s) (co_cpu s).
Definition with_mem (m : gmap Z Z) : coop :=
  mk_coop (co_next s) (co_th s) m (co_heap s) (co_runq s) (co_freeq s) (co_cur s) (co_sched s) (co_tid s)
    (co_nalloced s) (co_cpu s).
Definition with_cur (c : Z) : coop :=
  mk_coop (co_next s) (co_th s) (co_mem s) (co_heap s) (co_runq s) (co_freeq s) c (co_sched s) (co_tid s)
    (co_nalloced s) (co_cpu s).
Definition with_sched (c : Z) : coop :=
  mk_coop (co_next s) (co_th s) (co_mem s) (co_heap s) (co_runq s) (co_freeq s) (co_cur s) c (co_tid s)
    (co_nalloced s) (co_cpu s).
Definition with_tid (t : Z) : coop :=
  mk_coop (co_next s) (co_th s) (co_mem s) (co_heap s) (co_runq s) (co_freeq s) (co_cur s) (co_sched s) t
    (co_nalloced s) (co_cpu s).
Definition with_cpu (c : cpu_t) : coop :=
  mk_coop (co_next s) (co_th s) (co_mem s) (co_heap s) (co_runq s) (co_freeq s) (co_cur s) (co_sched s) (co_tid s)
    (co_nalloced s) c.
End Setters.

Definition on_co_runq {A} (m : M queue A) : M coop A :=
  m_zoom (fun s => (co_next s, co_runq s)) (fun nq s => with_queues s nq.1 nq.2 (co_freeq s)) m.
Definition on_co_freeq {A} (m : M queue A) : M coop A :=
  m_zoom (fun s => (co_next s, co_freeq s)) (fun nq s => with_queues s nq.1 (co_runq s) nq.2) m.

Definition get_rt (t : Z) : M coop rpi_thread_t := th ← m_gets co_th; m_opt (th !! t).
Definition upd_rt (t : Z) (f : rpi_thread_t -> rpi_thread_t) : M coop unit :=
  x ← get_rt t; m_modify (fun s => with_th s (<[t := f x]> (co_th s))).

(** ** Operations *)

Section Ops.
Context `{CoopEnv}.

Definition load (s : coop) (a : Z) : Z := default (co_word a) (co_mem s !! a).

(** [vs] to the words from [a] on. *)
Fixpoint store_words (a : Z) (vs : list Z) (m : gmap Z Z) : gmap Z Z :=
  match vs with
  | [] => m
  | v :: vs => store_words (a + 4) vs (<[a := v]> m)
  end.
Definition load_words (s : coop) (a : Z) (n : nat) : list Z :=
  (fun i => load s (a + 4 * Z.of_nat i)) <$> seq 0 n.

(** [push {r4-r11,lr}; str sp, [r0]; mov sp, r1; pop {r4-r11,lr}; bx lr], where [r0] is the
    address of the field [saved_sp] of [old]. *)
Definition rpi_cswitch (old : Z) (new_sp : Z) : M coop unit :=
  c ← m_gets co_cpu;
  let sp := c_sp c - 36 in
  m_modify (fun s => with_mem s (store_words sp (c_regs c ++ [c_lr c]) (co_mem s)));;
  upd_rt old (fun x => mk_rpi_thread sp (rt_tid x) (rt_fn x) (rt_arg x));;
  m_modify (fun s =>
    let lr := load s (new_sp + 32) in
    with_cpu s (mk_cpu (load_words s new_sp 8) (new_sp + 36) lr lr)).

(** [mov r0, r4; mov r1, r5; blx r1]: the function and its argument, and where the function
    returns to, which is the call of [rpi_exit]. *)
Definition rpi_init_trampoline (c : cpu_t) : (Z * Z) * cpu_t :=
  let code := nth 1 (c_regs c) 0 in
  let arg := nth 0 (c_regs c) 0 in
  ((code, arg), mk_cpu (c_regs c) (c_sp c) (rpi_init_trampoline_addr + 12) code).

Definition rpi_cur_thread : M coop Z := m_gets co_cur.

(** [stack] is the seventh word of a block. *)
Definition co_stack (t : Z) : Z := t + 24.

Definition co_kmalloc : M coop Z :=
  n ← m_gets co_heap;
  m_modify (fun s =>
    mk_coop (<[co_block n := 0]> (co_next s)) (<[co_block n := co_junk n]> (co_th s)) (co_mem s) (S n)
      (co_runq s) (co_freeq s) (co_cur s) (co_sched s) (co_tid s) (u32 (co_nalloced s + 1)) (co_cpu s));;
  mret (co_block n).

Definition th_alloc : M coop Z :=
  t ← on_co_freeq Q_pop;
  t ← (if t =? 0 then co_kmalloc else mret t);
  m_assert (co_stack t mod 8 =? 0);;
  n ← m_gets co_tid;
  upd_rt t (fun x => mk_rpi_thread (rt_saved_sp x) n (rt_fn x) (rt_arg x));;
  m_modify (fun s => with_tid s (u32 (n + 1)));;
  mret t.

Definition th_free (th : Z) : M coop unit := on_co_freeq (Q_push th).

Definition rpi_fork (code arg : Z) : M coop Z :=
  t ← th_alloc;
  let sp := co_stack t + 4 * (THREAD_MAXSTACK - 10) in
  upd_rt t (fun x => mk_rpi_thread sp (rt_tid x) code arg);;
  m_modify (fun s => with_mem s (<[sp + 4 * R4_OFFSET := arg]> (co_mem s)));;
  m_modify (fun s => with_mem s (<[sp + 4 * R5_OFFSET := code]> (co_mem s)));;
  m_modify (fun s => with_mem s (<[sp + 4 * LR_OFFSET := rpi_init_trampoline_addr]> (co_mem s)));;
  on_co_runq (Q_append t);;
  mret t.

Definition rpi_exit (exitcode : Z) : M coop unit :=
  e ← on_co_runq Q_empty;
  next ← (if (e : bool) then m_gets co_sched else on_co_runq Q_pop);
  cur ← m_gets co_cur;
  th_free cur;;
  m_modify (fun s => with_cur s next);;
  x ← get_rt next;
  rpi_cswitch cur (rt_saved_sp x).

Definition rpi_yield : M coop unit :=
  e ← on_co_runq Q_empty;
  if (e : bool) then mret tt else
  new ← on_co_runq Q_pop;
  old ← m_gets co_cur;
  on_co_runq (Q_append old);;
  m_modify (fun s => with_cur s new);;
  x ← get_rt new;
  rpi_cswitch old (rt_saved_sp x).

Definition rpi_thread_start : M coop unit :=
  e ← on_co_runq Q_empty;
  if (e : bool) then mret tt else
  sch ← m_gets co_sched;
  (if sch =? 0 then
     t ← th_alloc;
     m_modify (fun s => with_cur (with_sched s t) t)
   else mret tt);;
  t ← on_co_runq Q_pop;
  old ← m_gets co_cur;
  m_modify (fun s => with_cur s t);;
  x ← get_rt t;
  rpi_cswitch old (rt_saved_sp x).
End Ops.
