(* ===== verification/CoopThm.v ===== *)
(** * Correctness of the cooperative threads

    The thread package refines a round-robin scheduler that has contexts but no stacks, blocks
    or queues: whatever the threads do with their registers and their own stacks, a thread
    that gets the processor again finds the registers it had, and threads run in the order in
    which they became ready. *)

From stdpp Require Import base tactics option list numbers sets gmap.
From Stdlib Require Import ZArith Lia.
From S2P Require Import Prelude Queue Coop.
#[local] Open Scope Z_scope.

(** ** The scheduler *)

(** Threads that are ready, with their contexts; the running thread, or none while the code
    that called [rpi_thread_start] runs; the registers; the context of that code. *)
Record robin : Type := mk_robin {
  r_ready : list (Z * cpu_t);
  r_cur : option Z;
  r_cpu : cpu_t;
  r_main : cpu_t
}.

Inductive co_event : Type :=
  | CWork (c : cpu_t) (ws : list (Z * Z))   (* computation: registers, words written *)
  | CFork (code arg : Z)
  | CYield
  | CExit
  | CStart.

(** A context that goes on after the call of [rpi_cswitch] that saved it. *)
Definition resumed (c : cpu_t) : cpu_t := mk_cpu (c_regs c) (c_sp c) (c_lr c) (c_lr c).

Section Spec.
Context `{CoopEnv}.

(** The context of a new thread: the trampoline will call [code] on [arg]. *)
Definition fresh (t code arg : Z) (c : cpu_t) : Prop :=
  length (c_regs c) = 8%nat /\ (rpi_init_trampoline (resumed c)).1 = (code, arg) /\
  c_lr c = rpi_init_trampoline_addr /\ c_sp c = co_stack t + 4 * (THREAD_MAXSTACK - 1).

Inductive robin_step : robin -> co_event -> robin -> Prop :=
  | rs_work A c ws : robin_step A (CWork c ws) (mk_robin (r_ready A) (r_cur A) c (r_main A))
  | rs_fork A code arg t c : fresh t code arg c ->
      robin_step A (CFork code arg) (mk_robin (r_ready A ++ [(t, c)]) (r_cur A) (r_cpu A) (r_main A))
  | rs_yield_alone o cpu main : robin_step (mk_robin [] (Some o) cpu main) CYield (mk_robin [] (Some o) cpu main)
  | rs_yield t c q o cpu main :
      robin_step (mk_robin ((t, c) :: q) (Some o) cpu main) CYield
        (mk_robin (q ++ [(o, cpu)]) (Some t) (resumed c) main)
  | rs_exit_last o cpu main :
      robin_step (mk_robin [] (Some o) cpu main) CExit (mk_robin [] None (resumed main) main)
  | rs_exit t c q o cpu main :
      robin_step (mk_robin ((t, c) :: q) (Some o) cpu main) CExit (mk_robin q (Some t) (resumed c) main)
  | rs_start_none cpu main : robin_step (mk_robin [] None cpu main) CStart (mk_robin [] None cpu main)
  | rs_start t c q cpu main :
      robin_step (mk_robin ((t, c) :: q) None cpu main) CStart (mk_robin q (Some t) (resumed c) cpu).

Inductive robin_steps : robin -> list co_event -> robin -> Prop :=
  | rss_nil A : robin_steps A [] A
  | rss_cons A ev A1 evs A2 : robin_step A ev A1 -> robin_steps A1 evs A2 -> robin_steps A (ev :: evs) A2.
End Spec.

(** ** The layout of memory *)

(** Blocks lie on multiples of eight and apart from each other and from the stack the program starts on. *)
Class CoopLayout `{CoopEnv} : Type := {
  co_limit : nat;                 (* how many blocks the heap has room for *)
  boot_lo : Z;
  boot_hi : Z;
  co_block_pos n : (n < co_limit)%nat -> 0 < co_block n /\ co_block n mod 8 = 0;
  co_block_apart n m : (n < co_limit)%nat -> (m < co_limit)%nat -> n <> m ->
    co_block n + 8216 <= co_block m \/ co_block m + 8216 <= co_block n;
  co_boot_apart n : (n < co_limit)%nat -> boot_hi <= co_block n \/ co_block n + 8216 <= boot_lo
}.

Section Thm.
Context `{CoopLayout}.

(** The stack of the running code. *)
Definition stack_lo (o : option Z) : Z := match o with Some t => co_stack t | None => boot_lo end.
Definition stack_hi (o : option Z) : Z := match o with Some t => co_stack t + 8192 | None => boot_hi end.
Definition on_stack (o : option Z) (a : Z) : Prop := stack_lo o <= a /\ a + 4 <= stack_hi o /\ a mod 4 = 0.

(** There is room for the registers. *)
Definition fits (o : option Z) (c : cpu_t) : Prop :=
  length (c_regs c) = 8%nat /\ stack_lo o + 36 <= c_sp c <= stack_hi o /\ c_sp c mod 4 = 0.

(** What a thread may do: use its own stack. *)
Definition co_allowed (A : robin) (ev : co_event) : Prop :=
  match ev with
  | CWork c ws => fits (r_cur A) c /\ Forall (fun w => on_stack (r_cur A) w.1) ws
  | CFork _ _ => True
  | CYield | CExit => r_cur A <> None
  | CStart => r_cur A = None
  end.

Definition co_run (ev : co_event) : M coop unit :=
  match ev with
  | CWork c ws => m_modify (fun s => with_cpu (with_mem s (foldl (fun m w => <[w.1 := w.2]> m) (co_mem s) ws)) c)
  | CFork code arg => rpi_fork code arg;; mret tt
  | CYield => rpi_yield
  | CExit => rpi_exit 0
  | CStart => rpi_thread_start
  end.

Fixpoint co_runs (evs : list co_event) : M coop unit :=
  match evs with
  | [] => mret tt
  | ev :: evs => co_run ev;; co_runs evs
  end.

(** ** Words of memory *)

Lemma load_store_ne s a vs b : b < a \/ a + 4 * Z.of_nat (length vs) <= b ->
  load (with_mem s (store_words a vs (co_mem s))) b = load s b.
Proof.
  unfold load. cbn [with_mem co_mem]. generalize (co_mem s). revert a.
  induction vs as [|v vs IH]; intros a m Hb; cbn [store_words]; [done|]. cbn [length] in Hb.
  rewrite IH by lia. by rewrite lookup_insert_ne by lia.
Qed.

Lemma load_words_ext s s' a n : (forall b, a <= b < a + 4 * Z.of_nat n -> load s' b = load s b) ->
  load_words s' a n = load_words s a n.
Proof.
  intros Hb. unfold load_words. apply list_fmap_ext. intros i x [-> Hi]%lookup_seq. apply Hb. lia.
Qed.

Lemma load_words_S s a n : load_words s a (S n) = load s a :: load_words s (a + 4) n.
Proof.
  unfold load_words. cbn [seq]. rewrite fmap_cons, <-fmap_S_seq, <-list_fmap_compose. f_equal.
  - f_equal. lia.
  - apply list_fmap_ext. intros i x _. unfold compose. f_equal. lia.
Qed.

Lemma load_store_same s a vs : load_words (with_mem s (store_words a vs (co_mem s))) a (length vs) = vs.
Proof.
  assert (E : forall m vs a, load_words (with_mem s (store_words a vs m)) a (length vs) = vs).
  { clear. intros m vs. revert m. induction vs as [|v vs IH]; intros m a; [done|]. cbn [length store_words].
    rewrite load_words_S, IH. f_equal. unfold load. cbn [with_mem co_mem].
    pose proof (load_store_ne (with_mem s (<[a := v]> m)) (a + 4) vs a ltac:(lia)) as E.
    unfold load in E. cbn [with_mem co_mem] in E. rewrite E. by rewrite lookup_insert_eq. }
  apply E.
Qed.

Lemma get_rt_run s t x : co_th s !! t = Some x -> get_rt t s = Done (x, s).
Proof using. intros E. unfold get_rt, mbind, M_bind, m_gets, m_opt. by rewrite E. Qed.

Lemma upd_rt_run t f s x : co_th s !! t = Some x -> upd_rt t f s = Done (tt, with_th s (<[t := f x]> (co_th s))).
Proof using. intros E. unfold upd_rt. by mrun (get_rt_run s t x E). Qed.

(** ** Saved contexts *)

(** The block [t] holds the context [c], whose registers are on the stack of [o]. *)
Definition saved (s : coop) (o : option Z) (t : Z) (c : cpu_t) : Prop :=
  fits o c /\ rt_saved_sp <$> co_th s !! t = Some (c_sp c - 36) /\
  load_words s (c_sp c - 36) 9 = c_regs c ++ [c_lr c].

Lemma saved_frame s s' o t c : saved s o t c ->
  rt_saved_sp <$> co_th s' !! t = rt_saved_sp <$> co_th s !! t ->
  (forall a, stack_lo o <= a < stack_hi o -> load s' a = load s a) -> saved s' o t c.
Proof using.
  intros (Hf & Ht & Hl) Et Hm. split; [done|]. split; [by rewrite Et|]. rewrite <-Hl.
  apply load_words_ext. intros b Hb. apply Hm. destruct Hf as (_ & ? & _). lia.
Qed.

(** Everything but the memory, the blocks and the registers. *)
Definition co_rest (s : coop) := (co_next s, co_heap s, co_runq s, co_freeq s, co_cur s, co_sched s, co_tid s).

Definition apart (o o' : option Z) : Prop := stack_hi o <= stack_lo o' \/ stack_hi o' <= stack_lo o.

Lemma cswitch_run s old o t o' c x : is_Some (co_th s !! old) -> fits o (co_cpu s) -> apart o o' ->
  saved s o' t c -> co_th s !! t = Some x ->
  exists s', rpi_cswitch old (rt_saved_sp x) s = Done (tt, s') /\ co_cpu s' = resumed c /\
    saved s' o old (co_cpu s) /\ co_rest s' = co_rest s /\ dom (co_th s') = dom (co_th s) /\
    (forall u, u <> old -> co_th s' !! u = co_th s !! u) /\
    (forall a, a < stack_lo o \/ stack_hi o <= a -> load s' a = load s a).
Proof using.
  intros [y Hy] Hf Hap (Hc & Hx & Hl) Ex. rewrite Ex in Hx. injection Hx as Hx.
  destruct Hf as (Hr & Hsp & Hmod). unfold rpi_cswitch. rewrite gets_run. cbv zeta. rewrite modify_run.
  set (s1 := with_mem s (store_words (c_sp (co_cpu s) - 36) (c_regs (co_cpu s) ++ [c_lr (co_cpu s)]) (co_mem s))).
  mrun (upd_rt_run old (fun x => mk_rpi_thread (c_sp (co_cpu s) - 36) (rt_tid x) (rt_fn x) (rt_arg x)) s1 y Hy).
  rewrite Hx.
  set (s2 := with_th s1 (<[old := mk_rpi_thread (c_sp (co_cpu s) - 36) (rt_tid y) (rt_fn y) (rt_arg y)]> (co_th s1))).
  assert (Hm : forall a, a < stack_lo o \/ stack_hi o <= a -> load s2 a = load s a).
  { intros a Ha. change (load s2 a) with (load s1 a). apply load_store_ne. rewrite length_app, Hr. simpl. lia. }
  eexists. split; [reflexivity|]. split_and!.
  - assert (E : load_words s2 (c_sp c - 36) 9 = c_regs c ++ [c_lr c]).
    { rewrite <-Hl. apply load_words_ext. intros b Hb. apply Hm. destruct Hc as (_ & ? & _). unfold apart in Hap. lia. }
    assert (E8 : load_words s2 (c_sp c - 36) 8 = c_regs c /\ load s2 (c_sp c - 36 + 32) = c_lr c).
    { unfold load_words in *. change 9%nat with (8 + 1)%nat in E. rewrite seq_app, fmap_app in E.
      apply app_inj_2 in E; [|done]. destruct E as [E1 E2]. split; [exact E1|]. by injection E2 as E2. }
    destruct E8 as [E8 El]. cbn [with_cpu co_cpu]. unfold resumed. rewrite E8, El. f_equal. lia.
  - split; [done|]. split; [cbn [with_cpu co_th]; unfold s2; cbn [with_th co_th]; by rewrite lookup_insert_eq|].
    pose proof (load_store_same s (c_sp (co_cpu s) - 36) (c_regs (co_cpu s) ++ [c_lr (co_cpu s)])) as E.
    rewrite length_app, Hr in E. exact E.
  - done.
  - cbn [with_cpu co_th]. unfold s2. cbn [with_th co_th]. rewrite dom_insert_L.
    assert (old ∈ dom (co_th s1)) by (apply elem_of_dom; by exists y). set_solver.
  - intros u Hu. cbn [with_cpu co_th]. unfold s2. cbn [with_th co_th]. by rewrite lookup_insert_ne.
  - exact Hm.
Qed.

(** ** Where the blocks are *)

Record places (s : coop) (own R F : list Z) : Prop := {
  pl_run : isQ (co_next s) (co_runq s) R;
  pl_free : isQ (co_next s) (co_freeq s) F;
  pl_nodup : NoDup (own ++ R ++ F);
  pl_in t : t ∈ own ++ R ++ F -> t ∈ dom (co_th s);
  pl_dom : dom (co_next s) = dom (co_th s);
  pl_blocks t : t ∈ dom (co_th s) -> exists n, (n < co_heap s)%nat /\ t = co_block n;
  pl_heap : (co_heap s <= co_limit)%nat
}.

Lemma places_pos s own R F t : places s own R F -> t ∈ dom (co_th s) -> 0 < t /\ t mod 8 = 0.
Proof using.
  intros P Ht. destruct (pl_blocks _ _ _ _ P t Ht) as (n & Hn & ->). apply co_block_pos.
  pose proof (pl_heap _ _ _ _ P). lia.
Qed.

(** The stacks of two threads, and of a thread and the code that started them. *)
Lemma places_apart s own R F t u : places s own R F -> t ∈ dom (co_th s) -> u ∈ dom (co_th s) -> t <> u ->
  apart (Some t) (Some u).
Proof using.
  intros P (n & Hn & ->)%(pl_blocks _ _ _ _ P) (m & Hm & ->)%(pl_blocks _ _ _ _ P) Hne.
  pose proof (pl_heap _ _ _ _ P). destruct (co_block_apart n m); [lia|lia|congruence|..];
    unfold apart, stack_lo, stack_hi, co_stack; lia.
Qed.

Lemma places_boot s own R F t : places s own R F -> t ∈ dom (co_th s) ->
  apart (Some t) None.
Proof using.
  intros P (n & Hn & ->)%(pl_blocks _ _ _ _ P). pose proof (pl_heap _ _ _ _ P).
  destruct (co_boot_apart n); [lia|..]; unfold apart, stack_lo, stack_hi, co_stack; lia.
Qed.

Lemma apart_sym o o' : apart o o' -> apart o' o.
Proof using. unfold apart. tauto. Qed.

(** Only the queues and the blocks' addresses matter. *)
Lemma places_ext s s' own R F : places s own R F -> co_next s' = co_next s -> co_runq s' = co_runq s ->
  co_freeq s' = co_freeq s -> dom (co_th s') = dom (co_th s) -> co_heap s' = co_heap s -> places s' own R F.
Proof using.
  intros [] E1 E2 E3 E4 E5. constructor; rewrite ?E1, ?E2, ?E3, ?E4, ?E5; done.
Qed.

Lemma places_rest s s' own R F : places s own R F -> co_rest s' = co_rest s -> dom (co_th s') = dom (co_th s) ->
  places s' own R F.
Proof using. intros P E D. unfold co_rest in E. injection E as ? ? ? ? _ _ _. by eapply places_ext. Qed.

Lemma pop_places s own t R F : places s own (t :: R) F ->
  exists r, on_co_runq Q_pop s = Done (t, with_queues s (co_next s) r (co_freeq s)) /\
    places (with_queues s (co_next s) r (co_freeq s)) (t :: own) R F.
Proof using.
  intros [Pr Pf Nd In Dm Bl Hp]. destruct (Q_pop_cons _ _ _ _ Pr) as (r & R1 & Ir). exists r. split.
  { unfold on_co_runq. erewrite zoom_done by exact R1. done. }
  assert (Pm : (t :: own) ++ R ++ F ≡ₚ own ++ (t :: R) ++ F) by (cbn [app]; by rewrite <-Permutation_middle).
  constructor; cbn [with_queues co_next co_runq co_freeq co_th co_heap]; try done.
  - by rewrite Pm.
  - intros u Hu. apply In. by rewrite <-Pm.
Qed.

Lemma append_places s own t R F : places s (t :: own) R F ->
  exists nx r, on_co_runq (Q_append t) s = Done (tt, with_queues s nx r (co_freeq s)) /\
    places (with_queues s nx r (co_freeq s)) own (R ++ [t]) F.
Proof using.
  intros P. pose proof P as [Pr Pf Nd In Dm Bl Hp]. cbn [app] in Nd, In.
  apply NoDup_cons in Nd as [Ht Nd]. assert (Hd : t ∈ dom (co_th s)) by (apply In; left).
  destruct (places_pos _ _ _ _ _ P Hd) as [Hpos _].
  destruct (Q_append_run (co_next s) (co_runq s) R t Pr) as (nx & r & R1 & Ir & Sb); [set_solver|lia|by rewrite Dm|].
  exists nx, r. split; [unfold on_co_runq; by erewrite zoom_done by exact R1|].
  assert (Pm : own ++ (R ++ [t]) ++ F ≡ₚ t :: own ++ R ++ F).
  { rewrite <-app_assoc. cbn [app]. rewrite <-(Permutation_middle R F t), <-Permutation_middle. done. }
  constructor; cbn [with_queues co_next co_runq co_freeq co_th co_heap]; try done.
  - eapply isQ_frame; [exact Sb| |exact Pf]. apply NoDup_app in Nd as (_ & _ & Nd).
    apply NoDup_app in Nd as (_ & D & _). intros x Hx1 [->|Hx2]%elem_of_cons; [apply Ht; set_solver|by apply (D x)].
  - rewrite Pm. by constructor.
  - intros u Hu. rewrite Pm in Hu. by apply In.
  - destruct Sb as [_ D]. congruence.
Qed.

Lemma free_places s own t R F : places s (t :: own) R F ->
  exists nx f, th_free t s = Done (tt, with_queues s nx (co_runq s) f) /\
    places (with_queues s nx (co_runq s) f) own R (t :: F).
Proof using.
  intros P. pose proof P as [Pr Pf Nd In Dm Bl Hp]. cbn [app] in Nd, In.
  apply NoDup_cons in Nd as [Ht Nd]. assert (Hd : t ∈ dom (co_th s)) by (apply In; left).
  destruct (places_pos _ _ _ _ _ P Hd) as [Hpos _].
  destruct (Q_push_run (co_next s) (co_freeq s) F t Pf) as (nx & f & R1 & If & Sb); [set_solver|lia|by rewrite Dm|].
  exists nx, f. split; [unfold th_free, on_co_freeq; by erewrite zoom_done by exact R1|].
  assert (Pm : own ++ R ++ t :: F ≡ₚ t :: own ++ R ++ F) by (by rewrite <-!Permutation_middle).
  constructor; cbn [with_queues co_next co_runq co_freeq co_th co_heap]; try done.
  - eapply isQ_frame; [exact Sb| |exact Pr]. apply NoDup_app in Nd as (_ & _ & Nd).
    apply NoDup_app in Nd as (_ & D & _). intros x Hx1 [->|Hx2]%elem_of_cons; [apply Ht; set_solver|by apply (D x)].
  - rewrite Pm. by constructor.
  - intros u Hu. rewrite Pm in Hu. by apply In.
  - destruct Sb as [_ D]. congruence.
Qed.

(** The state a new block comes from: the first free one, or a new one. *)
Lemma alloc_block s own R F : places s own R F -> F <> [] \/ (co_heap s < co_limit)%nat ->
  exists t s' F', (t ← on_co_freeq Q_pop; if t =? 0 then co_kmalloc else mret t) s = Done (t, s') /\
    places s' (t :: own) R F' /\ co_mem s' = co_mem s /\ co_cpu s' = co_cpu s /\ co_cur s' = co_cur s /\
    co_sched s' = co_sched s /\ (forall u, u <> t -> co_th s' !! u = co_th s !! u) /\
    (co_heap s <= co_heap s' <= S (co_heap s))%nat.
Proof using.
  intros P Hr. pose proof P as [Pr Pf Nd In Dm Bl Hp]. destruct F as [|t F].
  - destruct Hr as [?|Hr]; [done|]. set (b := co_block (co_heap s)).
    assert (Hb : b ∉ dom (co_th s)).
    { intros (n & Hn & E)%Bl. destruct (co_block_apart (co_heap s) n); unfold b in E; lia. }
    eexists b, _, []. split.
    { unfold on_co_freeq. erewrite bind_done by (eapply zoom_done; by apply Q_pop_nil). reflexivity. }
    split; [|split_and!; [done..| |simpl; lia|simpl; lia]].
    2: { intros u Hu. cbn [with_queues co_th]. by rewrite lookup_insert_ne. }
    assert (Hn : b ∉ own ++ R ++ []) by (intros Hi; by apply Hb, In).
    assert (Fr : forall q l, isQ (co_next s) q l -> b ∉ l -> isQ (<[b := 0]> (co_next s)) q l).
    { intros q l [S N T C] Hl. split; [|done..]. eapply seg_ext; [|exact S].
      intros x Hx. apply lookup_insert_ne. by intros ->. }
    constructor; cbn [with_queues co_next co_runq co_freeq co_th co_heap fst snd].
    + apply Fr; [done|set_solver].
    + apply Fr; [done|set_solver].
    + by constructor.
    + intros u [->|Hu]%elem_of_cons; rewrite dom_insert_L; [set_solver|]. apply elem_of_union_r. by apply In.
    + rewrite !dom_insert_L. by rewrite Dm.
    + intros u. rewrite dom_insert_L. intros [->%elem_of_singleton|Hu]%elem_of_union.
      * exists (co_heap s). split; [lia|done].
      * destruct (Bl u Hu) as (n & Hn' & ->). exists n. split; [lia|done].
    + lia.
  - destruct (Q_pop_cons _ _ _ _ Pf) as (f & R1 & If).
    assert (Hd : t ∈ dom (co_th s)) by (apply In; set_solver).
    destruct (places_pos _ _ _ _ _ P Hd) as [Hpos _].
    exists t, (with_queues s (co_next s) (co_runq s) f), F. split.
    { unfold on_co_freeq. erewrite bind_done by (eapply zoom_done; exact R1). cbn [fst snd].
      by rewrite (proj2 (Z.eqb_neq t 0)) by lia. }
    split_and!; [|done..|simpl; lia|simpl; lia].
    assert (Pm : (t :: own) ++ R ++ F ≡ₚ own ++ R ++ t :: F) by (cbn [app]; by rewrite <-!Permutation_middle).
    constructor; cbn [with_queues co_next co_runq co_freeq co_th co_heap]; try done.
    + by rewrite Pm.
    + intros u Hu. apply In. by rewrite <-Pm.
Qed.

Lemma alloc_places s own R F : places s own R F -> F <> [] \/ (co_heap s < co_limit)%nat ->
  exists t s' F', th_alloc s = Done (t, s') /\ places s' (t :: own) R F' /\ co_mem s' = co_mem s /\
    co_cpu s' = co_cpu s /\ co_cur s' = co_cur s /\ co_sched s' = co_sched s /\
    (forall u, u <> t -> co_th s' !! u = co_th s !! u) /\ is_Some (co_th s' !! t) /\
    (co_heap s <= co_heap s' <= S (co_heap s))%nat.
Proof using.
  intros P Hr. destruct (alloc_block s own R F P Hr) as (t & s1 & F' & R1 & P1 & Em & Ec & Eu & Es & Eth & Eh).
  assert (Hd : t ∈ dom (co_th s1)) by (apply (pl_in _ _ _ _ P1); left).
  destruct (places_pos _ _ _ _ _ P1 Hd) as [Hpos Hmod]. apply elem_of_dom in Hd as [x Hx].
  assert (Ea : th_alloc s = (m_assert (co_stack t mod 8 =? 0);; n ← m_gets co_tid;
    upd_rt t (fun x => mk_rpi_thread (rt_saved_sp x) n (rt_fn x) (rt_arg x));;
    m_modify (fun s => with_tid s (u32 (n + 1)));; mret t) s1).
  { unfold th_alloc. rewrite <-bind_assoc. by mrun R1. }
  rewrite Ea, assert_run, gets_run.
  2: { unfold co_stack. apply Z.eqb_eq. rewrite Z.add_mod, Hmod by lia. done. }
  mrun (upd_rt_run t (fun x => mk_rpi_thread (rt_saved_sp x) (co_tid s1) (rt_fn x) (rt_arg x)) s1 x Hx).
  rewrite modify_run. eexists t, _, F'. split; [reflexivity|]. split_and!.
  - eapply places_ext; [exact P1|done..| |done]. cbn [with_tid with_th co_th]. rewrite dom_insert_L.
    assert (t ∈ dom (co_th s1)) by (apply elem_of_dom; by exists x). set_solver.
  - done.
  - done.
  - done.
  - done.
  - intros u Hu. cbn [with_tid with_th co_th]. rewrite lookup_insert_ne by done. by apply Eth.
  - cbn [with_tid with_th co_th]. rewrite lookup_insert_eq. by eexists.
  - simpl. lia.
  - simpl. lia.
Qed.

(** ** The relation *)

Definition sched_own (s : coop) : list Z := if co_sched s =? 0 then [] else [co_sched s].
(** The block [rpi_thread_start] still has to allocate. *)
Definition sched_need (s : coop) : nat := if co_sched s =? 0 then 1%nat else 0%nat.
Definition cur_own (A : robin) : list Z := match r_cur A with Some t => [t] | None => [] end.

(** The code implements [A], and [k] more threads can be created. *)
Record co_rel (s : coop) (A : robin) (k : nat) : Prop := {
  cr_places : exists F, places s (cur_own A ++ sched_own s) (r_ready A).*1 F;
  cr_cur : match r_cur A with
           | Some t => co_cur s = t /\ co_sched s <> 0 /\ saved s None (co_sched s) (r_main A)
           | None => co_cur s = co_sched s
           end;
  cr_cpu : co_cpu s = r_cpu A;
  cr_fits : fits (r_cur A) (r_cpu A);
  cr_ready : Forall (fun p => saved s (Some p.1) p.1 p.2) (r_ready A);
  cr_room : (co_heap s + k + sched_need s <= co_limit)%nat
}.

(** A block that is not among [own] and the free ones keeps its context when only the
    stack of the running code changes. *)
Lemma ready_frame s s' (o : option Z) l : Forall (fun p => saved s (Some p.1) p.1 p.2) l ->
  (forall t, t ∈ l.*1 -> apart o (Some t)) ->
  (forall t, t ∈ l.*1 -> rt_saved_sp <$> co_th s' !! t = rt_saved_sp <$> co_th s !! t) ->
  (forall a, a < stack_lo o \/ stack_hi o <= a -> load s' a = load s a) ->
  Forall (fun p => saved s' (Some p.1) p.1 p.2) l.
Proof using.
  intros F Ap Th Ld. rewrite Forall_forall in F |- *. intros [t c] Hin.
  assert (Ht : t ∈ l.*1) by (apply list_elem_of_fmap; by exists (t, c)).
  eapply saved_frame; [by apply F|by apply Th|]. intros a Ha. apply Ld.
  specialize (Ap t Ht). unfold apart in Ap. simpl in *. lia.
Qed.

(** *** Computation and new threads *)

Lemma load_writes s c o ws a : Forall (fun w => on_stack o w.1) ws -> a < stack_lo o \/ stack_hi o <= a ->
  load (with_cpu (with_mem s (foldl (fun m w => <[w.1 := w.2]> m) (co_mem s) ws)) c) a = load s a.
Proof using.
  intros F Ha. unfold load. cbn [with_cpu with_mem co_mem]. generalize (co_mem s).
  induction F as [|w ws (H1 & H2 & _) _ IH]; intros m; cbn [foldl]; [done|].
  rewrite IH. by rewrite lookup_insert_ne by lia.
Qed.

Lemma rel_cur_dom s A k t : co_rel s A k -> t ∈ cur_own A ++ sched_own s ++ (r_ready A).*1 -> t ∈ dom (co_th s).
Proof using.
  intros [[F P] _ _ _ _ _] Ht. apply (pl_in _ _ _ _ P). rewrite <-app_assoc. set_solver.
Qed.

(** The stack of the running code is apart from those of the threads that are ready. *)
Lemma rel_apart s A k t : co_rel s A k -> t ∈ (r_ready A).*1 -> apart (r_cur A) (Some t).
Proof using.
  intros Rl Ht. pose proof Rl as [[F P] _ _ _ _ _].
  assert (Hd : t ∈ dom (co_th s)) by (eapply rel_cur_dom; [done|set_solver]).
  destruct (r_cur A) as [u|] eqn:Eu; [|apply apart_sym; by eapply places_boot].
  assert (Hu : u ∈ cur_own A) by (unfold cur_own; rewrite Eu; set_solver).
  eapply places_apart; [done|eapply rel_cur_dom; [done|set_solver]|done|].
  pose proof (pl_nodup _ _ _ _ P) as Nd. rewrite <-app_assoc in Nd. apply NoDup_app in Nd as (_ & D & _).
  intros ->. apply (D t Hu). set_solver.
Qed.

Lemma rel_main_apart s A k u : co_rel s A k -> r_cur A = Some u -> apart (r_cur A) None.
Proof using.
  intros Rl Eu. pose proof Rl as [[F P] _ _ _ _ _]. rewrite Eu. eapply places_boot; [done|].
  eapply rel_cur_dom; [done|]. unfold cur_own. rewrite Eu. set_solver.
Qed.

Lemma work_rel s A k c ws : co_rel s A k -> co_allowed A (CWork c ws) ->
  exists s', co_run (CWork c ws) s = Done (tt, s') /\
    co_rel s' (mk_robin (r_ready A) (r_cur A) c (r_main A)) k.
Proof using.
  intros Rl [Hf Hw]. pose proof Rl as [[F P] Hc Hcpu _ Hr Hm].
  eexists. split; [reflexivity|]. constructor; cbn [r_ready r_cur r_cpu r_main]; try done.
  - exists F. by eapply places_ext.
  - destruct (r_cur A) as [u|] eqn:Eu; [|done]. destruct Hc as (E1 & E2 & Sv). split_and!; [done..|].
    eapply saved_frame; [exact Sv|done|]. intros a Ha. apply (load_writes s c (Some u) ws a Hw).
    pose proof (rel_main_apart _ _ _ _ Rl Eu) as Ap. rewrite Eu in Ap. unfold apart in Ap. simpl in *. lia.
  - eapply (ready_frame s _ (r_cur A)); [exact Hr|intros t Ht; by eapply rel_apart|done|].
    intros a Ha. exact (load_writes s c (r_cur A) ws a Hw Ha).
Qed.

Lemma fresh_words m0 sp arg code tramp : load_words (with_mem m0 (<[sp + 32 := tramp]> (<[sp + 4 := code]>
    (<[sp := arg]> (co_mem m0))))) sp 9 =
  ([arg; code] ++ (load m0 <$> [sp + 8; sp + 12; sp + 16; sp + 20; sp + 24; sp + 28])) ++ [tramp].
Proof using.
  unfold load_words, load. cbn [with_mem co_mem seq fmap list_fmap app].
  repeat (f_equal; [first [by rewrite lookup_insert_eq | rewrite !lookup_insert_ne by lia;
    first [by rewrite Z.add_0_r, lookup_insert_eq | by rewrite lookup_insert_eq | done]]|]).
  change (sp + 4 * Z.of_nat 8) with (sp + 32). by rewrite lookup_insert_eq.
Qed.

(** The first context of a thread, as [rpi_fork] leaves it on the stack of [t]. *)
Lemma fork_context s t x code arg : co_th s !! t = Some x -> 0 < t -> t mod 8 = 0 ->
  let sp := co_stack t + 4 * (THREAD_MAXSTACK - 10) in
  exists c s', (upd_rt t (fun x => mk_rpi_thread sp (rt_tid x) code arg);;
      m_modify (fun s => with_mem s (<[sp + 4 * R4_OFFSET := arg]> (co_mem s)));;
      m_modify (fun s => with_mem s (<[sp + 4 * R5_OFFSET := code]> (co_mem s)));;
      m_modify (fun s => with_mem s (<[sp + 4 * LR_OFFSET := rpi_init_trampoline_addr]> (co_mem s)))) s =
      Done (tt, s') /\
    fresh t code arg c /\ saved s' (Some t) t c /\ co_rest s' = co_rest s /\ co_cpu s' = co_cpu s /\
    dom (co_th s') = dom (co_th s) /\ (forall u, u <> t -> co_th s' !! u = co_th s !! u) /\
    (forall a, a < stack_lo (Some t) \/ stack_hi (Some t) <= a -> load s' a = load s a).
Proof using.
  intros Hx Hpos Hmod sp. mrun (upd_rt_run t (fun x => mk_rpi_thread sp (rt_tid x) code arg) s x Hx).
  set (s1 := with_th s _). rewrite !modify_run. cbn [with_mem co_mem].
  replace (sp + 4 * R4_OFFSET) with sp by (unfold R4_OFFSET; lia).
  change (sp + 4 * R5_OFFSET) with (sp + 4). change (sp + 4 * LR_OFFSET) with (sp + 32).
  set (regs := [arg; code] ++ (load s1 <$> [sp + 8; sp + 12; sp + 16; sp + 20; sp + 24; sp + 28])).
  assert (Hsp : sp = t + 8176) by (unfold sp, co_stack; change (4 * (THREAD_MAXSTACK - 10)) with 8152; lia).
  exists (mk_cpu regs (sp + 36) rpi_init_trampoline_addr rpi_init_trampoline_addr).
  eexists. split; [reflexivity|]. split_and!.
  - split_and!; [done..|]. cbn [c_sp]. rewrite Hsp. unfold co_stack. change (4 * (THREAD_MAXSTACK - 1)) with 8188. lia.
  - split_and!.
    + split; cbn [c_regs c_sp c_lr]; [done|]. unfold stack_lo, stack_hi, co_stack. split; [lia|].
      replace (sp + 36) with (t + 2053 * 4) by lia. rewrite Z.mod_add by lia.
      pose proof (Z.div_mod t 8). replace t with (t / 8 * 2 * 4) by lia. apply Z.mod_mul. lia.
    + cbn [c_sp co_th with_mem s1 with_th]. rewrite lookup_insert_eq. cbn [fmap option_fmap option_map rt_saved_sp].
      f_equal. lia.
    + cbn [c_sp c_regs c_lr]. replace (sp + 36 - 36) with sp by lia. apply (fresh_words s1).
  - done.
  - done.
  - cbn [co_th with_mem s1 with_th]. rewrite dom_insert_L.
    assert (t ∈ dom (co_th s)) by (apply elem_of_dom; by exists x). set_solver.
  - intros u Hu. cbn [co_th with_mem s1 with_th]. by rewrite lookup_insert_ne.
  - intros a Ha. unfold load. cbn [co_mem with_mem s1 with_th]. unfold stack_lo, stack_hi, co_stack in Ha.
    by rewrite !lookup_insert_ne by lia.
Qed.

Lemma fork_rel s A k code arg : co_rel s A (S k) ->
  exists s' t c, co_run (CFork code arg) s = Done (tt, s') /\ fresh t code arg c /\
    co_rel s' (mk_robin (r_ready A ++ [(t, c)]) (r_cur A) (r_cpu A) (r_main A)) k.
Proof using.
  intros Rl. pose proof Rl as [[F P] Hc Hcpu Hf Hr Hm].
  destruct (alloc_places _ _ _ _ P) as (t & s1 & F' & R1 & P1 & Em & Ec & Eu & Es & Eth & [x Hx] & Eh); [right; lia|].
  assert (Hd : t ∈ dom (co_th s1)) by (apply elem_of_dom; by exists x).
  destruct (places_pos _ _ _ _ _ P1 Hd) as [Hpos Hmod].
  destruct (fork_context s1 t x code arg Hx Hpos Hmod) as (c & s2 & R2 & Fr & Sv & E2 & Ec2 & Ed2 & Eth2 & Ld2).
  assert (P2 : places s2 (t :: cur_own A ++ sched_own s) (r_ready A).*1 F') by (by eapply places_rest).
  destruct (append_places _ _ _ _ _ P2) as (nx & r & R3 & P3).
  set (s3 := with_queues s2 nx r (co_freeq s2)) in *.
  assert (Er : co_run (CFork code arg) s = Done (tt, s3)).
  { cbn [co_run]. unfold rpi_fork. unfold mbind, M_bind in R2 |- *. rewrite R1. cbv zeta.
    destruct (upd_rt _ _ s1) as [[[] u1]| | |]; [|done..]. unfold m_modify in R2 |- *.
    match goal with |- context [on_co_runq _ ?x] => replace x with s2 by congruence end. by rewrite R3. }
  unfold co_rest in E2. injection E2 as En2 Eh2 Er2 Ef2 Eu2 Es2 Et2.
  assert (Ld : forall a, a < stack_lo (Some t) \/ stack_hi (Some t) <= a -> load s3 a = load s a).
  { intros a Ha. change (load s3 a) with (load s2 a). rewrite Ld2 by done. unfold load. by rewrite Em. }
  assert (Nt : t ∉ (cur_own A ++ sched_own s) ++ (r_ready A).*1 ++ F').
  { pose proof (pl_nodup _ _ _ _ P1) as Nd. by apply NoDup_cons in Nd as [? _]. }
  assert (Th : forall u, u <> t -> co_th s3 !! u = co_th s !! u).
  { intros u Hu. change (co_th s3) with (co_th s2). by rewrite Eth2, Eth. }
  assert (Hin1 : forall u, u ∈ cur_own A ++ sched_own s ++ (r_ready A).*1 -> u ∈ dom (co_th s1)).
  { intros u Hu. apply (pl_in _ _ _ _ P1). set_solver. }
  exists s3, t, c. split_and!; [exact Er|exact Fr|].
  constructor; cbn [r_ready r_cur r_cpu r_main]; try done.
  - exists F'. rewrite fmap_app. unfold sched_own in *. change (co_sched s3) with (co_sched s2). rewrite Es2, Es. exact P3.
  - change (co_cur s3) with (co_cur s2). change (co_sched s3) with (co_sched s2). rewrite Eu2, Es2, Eu, Es.
    destruct (r_cur A) as [u|] eqn:Ecur; [|done]. destruct Hc as (E1 & E0 & Svm). split_and!; [done..|].
    assert (Hs : co_sched s ∈ sched_own s).
    { unfold sched_own. rewrite (proj2 (Z.eqb_neq _ _) E0). set_solver. }
    eapply saved_frame; [exact Svm|rewrite Th; [done|set_solver]|]. intros a Ha. apply Ld.
    pose proof (places_boot _ _ _ _ t P1 Hd) as Ap. unfold apart in Ap. lia.
  - change (co_cpu s3) with (co_cpu s2). by rewrite Ec2, Ec.
  - apply Forall_app. split.
    + eapply (ready_frame s _ (Some t)); [exact Hr| | |exact Ld].
      * intros u Hu. eapply places_apart; [exact P1|done|apply Hin1; set_solver|]. intros <-. set_solver.
      * intros u Hu. rewrite Th; [done|]. intros ->. set_solver.
    + apply Forall_singleton. eapply saved_frame; [exact Sv|done..].
  - unfold sched_need in *. change (co_heap s3) with (co_heap s2). change (co_sched s3) with (co_sched s2).
    rewrite Eh2, Es2, Es. lia.
Qed.

(** *** Switching *)

Lemma coop_empty_run s own R F : places s own R F -> on_co_runq Q_empty s = Done (bool_decide (R = []), s).
Proof using.
  intros P. unfold on_co_runq. erewrite zoom_done by (apply Q_empty_run, (pl_run _ _ _ _ P)). by destruct s.
Qed.

Lemma places_own s own own' R F : places s own R F -> own ≡ₚ own' -> places s own' R F.
Proof using.
  intros [] Pm. constructor; try done; [by rewrite <-Pm|]. intros t Ht. apply pl_in0. by rewrite Pm.
Qed.

(** The processor goes from the code on the stack of [o], whose context goes to the block [old],
    to the thread [t] with the context [c]; the contexts of [l] are not touched. *)
Lemma switch_run s own R F old o t o' c l : places s own R F -> old ∈ own ++ R ++ F -> fits o (co_cpu s) -> apart o o' ->
  saved s o' t c -> Forall (fun p => saved s (Some p.1) p.1 p.2) l -> old ∉ l.*1 ->
  (forall u, u ∈ l.*1 -> apart o (Some u)) ->
  exists s', (x ← get_rt t; rpi_cswitch old (rt_saved_sp x)) s = Done (tt, s') /\ co_cpu s' = resumed c /\
    saved s' o old (co_cpu s) /\ places s' own R F /\ co_rest s' = co_rest s /\
    Forall (fun p => saved s' (Some p.1) p.1 p.2) l /\
    (forall u, u <> old -> co_th s' !! u = co_th s !! u) /\
    (forall a, a < stack_lo o \/ stack_hi o <= a -> load s' a = load s a).
Proof using.
  intros P Ho Hf Ap Sv Hl Hn Hap. pose proof Sv as (_ & Ht & _).
  destruct (co_th s !! t) as [x|] eqn:Ex; [|done].
  assert (Hold : is_Some (co_th s !! old)) by (apply elem_of_dom; by apply (pl_in _ _ _ _ P)).
  destruct (cswitch_run s old o t o' c x Hold Hf Ap Sv Ex) as (s' & R1 & E1 & S1 & E2 & D & Th & Ld).
  exists s'. mrun (get_rt_run s t x Ex). split; [done|]. split; [done|]. split; [done|].
  split; [by eapply places_rest|]. split; [done|]. split; [|by split].
  eapply (ready_frame s _ o); [exact Hl|done| |exact Ld]. intros u Hu. rewrite Th; [done|]. by intros ->.
Qed.

(** Contexts do not depend on the queues and on who is running. *)
Lemma saved_same s s' o t c : saved s o t c -> co_th s' = co_th s -> co_mem s' = co_mem s -> saved s' o t c.
Proof using.
  intros Sv E1 E2. eapply saved_frame; [exact Sv|by rewrite E1|]. intros a _. unfold load. by rewrite E2.
Qed.

Lemma saved_same_all s s' l : Forall (fun p => saved s (Some p.1) p.1 p.2) l -> co_th s' = co_th s ->
  co_mem s' = co_mem s -> Forall (fun p => saved s' (Some p.1) p.1 p.2) l.
Proof using. intros F E1 E2. eapply Forall_impl; [exact F|]. intros p Hp. exact (saved_same s s' _ _ _ Hp E1 E2). Qed.

Lemma sched_own_some s : co_sched s <> 0 -> sched_own s = [co_sched s].
Proof using. intros E. unfold sched_own. by rewrite (proj2 (Z.eqb_neq _ _) E). Qed.

Lemma saved_fits s o t c : saved s o t c -> fits o (resumed c).
Proof using. intros [Hf _]. exact Hf. Qed.

Lemma yield_rel s k t c q o cpu main : co_rel s (mk_robin ((t, c) :: q) (Some o) cpu main) k ->
  exists s', rpi_yield s = Done (tt, s') /\ co_rel s' (mk_robin (q ++ [(o, cpu)]) (Some t) (resumed c) main) k.
Proof using.
  intros Rl. pose proof Rl as [[F P] (E1 & E0 & Svm) Hcpu Hf Hr Hm]. cbn [r_ready r_cur r_cpu r_main] in *.
  apply Forall_cons in Hr as [Svt Hr]. cbn [fst snd] in Svt.
  rewrite fmap_cons in P. cbn [fst] in P. unfold cur_own in P. cbn [r_cur app] in P.
  unfold rpi_yield. mrun (coop_empty_run _ _ _ _ P). rewrite bool_decide_eq_false_2 by done.
  destruct (pop_places _ _ _ _ _ P) as (r & R1 & P1). mrun R1. rewrite gets_run. set (s1 := with_queues s _ r _) in *.
  change (co_cur s1) with (co_cur s). rewrite E1.
  assert (P1' : places s1 (o :: t :: sched_own s) q.*1 F) by (eapply places_own; [exact P1|constructor]).
  destruct (append_places _ _ _ _ _ P1') as (nx & r2 & R2 & P2). mrun R2. set (s2 := with_queues s1 nx r2 _) in *.
  rewrite modify_run. set (s3 := with_cur s2 t).
  assert (Nd : NoDup (o :: sched_own s ++ (t :: q.*1) ++ F)) by apply (pl_nodup _ _ _ _ P).
  apply NoDup_cons in Nd as [No _].
  destruct (switch_run s3 (t :: sched_own s) (q.*1 ++ [o]) F o (Some o) t (Some t) c q)
    as (s4 & R4 & Ec & So & P4 & Er & Hr4 & Th & Ld).
  - by eapply places_ext.
  - set_solver.
  - change (co_cpu s3) with (co_cpu s). by rewrite Hcpu.
  - apply (rel_apart _ _ _ t Rl). set_solver.
  - by eapply saved_same.
  - by eapply saved_same_all.
  - set_solver.
  - intros u Hu. apply (rel_apart _ _ _ u Rl). set_solver.
  - exists s4. split; [exact R4|]. unfold co_rest in Er. injection Er as _ Eh _ _ Ecur Esch _.
    change (co_sched s3) with (co_sched s) in Esch. change (co_heap s3) with (co_heap s) in Eh.
    constructor; cbn [r_ready r_cur r_cpu r_main].
    + exists F. rewrite fmap_app. unfold cur_own, sched_own. cbn [r_cur app]. rewrite Esch. exact P4.
    + split_and!; [by rewrite Ecur|by rewrite Esch|]. rewrite Esch.
      eapply saved_frame; [exact Svm| |].
      * rewrite Th; [done|]. intros E. apply No. rewrite <-E, (sched_own_some s E0). set_solver.
      * intros a Ha. rewrite Ld; [done|]. pose proof (rel_main_apart _ _ _ o Rl eq_refl) as Ap.
        cbn [r_cur] in Ap. unfold apart in Ap. lia.
    + done.
    + by eapply saved_fits.
    + apply Forall_app. split; [done|]. apply Forall_singleton. change (co_cpu s3) with (co_cpu s) in So.
      by rewrite Hcpu in So.
    + unfold sched_need in *. rewrite Eh, Esch. exact Hm.
Qed.

Lemma exit_rel s k t c q o cpu main : co_rel s (mk_robin ((t, c) :: q) (Some o) cpu main) k ->
  exists s', rpi_exit 0 s = Done (tt, s') /\ co_rel s' (mk_robin q (Some t) (resumed c) main) k.
Proof using.
  intros Rl. pose proof Rl as [[F P] (E1 & E0 & Svm) Hcpu Hf Hr Hm]. cbn [r_ready r_cur r_cpu r_main] in *.
  apply Forall_cons in Hr as [Svt Hr]. cbn [fst snd] in Svt.
  rewrite fmap_cons in P. cbn [fst] in P. unfold cur_own in P. cbn [r_cur app] in P.
  unfold rpi_exit. mrun (coop_empty_run _ _ _ _ P). rewrite bool_decide_eq_false_2 by done.
  destruct (pop_places _ _ _ _ _ P) as (r & R1 & P1). mrun R1. rewrite gets_run. set (s1 := with_queues s _ r _) in *.
  change (co_cur s1) with (co_cur s). rewrite E1.
  assert (P1' : places s1 (o :: t :: sched_own s) q.*1 F) by (eapply places_own; [exact P1|constructor]).
  destruct (free_places _ _ _ _ _ P1') as (nx & f2 & R2 & P2). mrun R2. set (s2 := with_queues s1 nx _ f2) in *.
  rewrite modify_run. set (s3 := with_cur s2 t).
  assert (Nd : NoDup (o :: sched_own s ++ (t :: q.*1) ++ F)) by apply (pl_nodup _ _ _ _ P).
  apply NoDup_cons in Nd as [No _].
  destruct (switch_run s3 (t :: sched_own s) q.*1 (o :: F) o (Some o) t (Some t) c q)
    as (s4 & R4 & Ec & _ & P4 & Er & Hr4 & Th & Ld).
  - by eapply places_ext.
  - set_solver.
  - change (co_cpu s3) with (co_cpu s). by rewrite Hcpu.
  - apply (rel_apart _ _ _ t Rl). set_solver.
  - by eapply saved_same.
  - by eapply saved_same_all.
  - set_solver.
  - intros u Hu. apply (rel_apart _ _ _ u Rl). set_solver.
  - exists s4. split; [exact R4|]. unfold co_rest in Er. injection Er as _ Eh _ _ Ecur Esch _.
    change (co_sched s3) with (co_sched s) in Esch. change (co_heap s3) with (co_heap s) in Eh.
    constructor; cbn [r_ready r_cur r_cpu r_main].
    + exists (o :: F). unfold cur_own, sched_own. cbn [r_cur app]. rewrite Esch. exact P4.
    + split_and!; [by rewrite Ecur|by rewrite Esch|]. rewrite Esch.
      eapply saved_frame; [exact Svm| |].
      * rewrite Th; [done|]. intros E. apply No. rewrite <-E, (sched_own_some s E0). set_solver.
      * intros a Ha. rewrite Ld; [done|]. pose proof (rel_main_apart _ _ _ o Rl eq_refl) as Ap.
        cbn [r_cur] in Ap. unfold apart in Ap. lia.
    + done.
    + by eapply saved_fits.
    + done.
    + unfold sched_need in *. rewrite Eh, Esch. exact Hm.
Qed.

Lemma exit_last_rel s k o cpu main : co_rel s (mk_robin [] (Some o) cpu main) k ->
  exists s', rpi_exit 0 s = Done (tt, s') /\ co_rel s' (mk_robin [] None (resumed main) main) k.
Proof using.
  intros Rl. pose proof Rl as [[F P] (E1 & E0 & Svm) Hcpu Hf _ Hm]. cbn [r_ready r_cur r_cpu r_main] in *.
  unfold cur_own in P. cbn [r_cur app fmap list_fmap] in P.
  unfold rpi_exit. mrun (coop_empty_run _ _ _ _ P). rewrite bool_decide_eq_true_2 by done. rewrite !gets_run, E1.
  destruct (free_places _ _ _ _ _ P) as (nx & f2 & R2 & P2). mrun R2. set (s2 := with_queues s nx _ f2) in *.
  rewrite modify_run. set (s3 := with_cur s2 (co_sched s)).
  assert (Nd : NoDup (o :: sched_own s ++ [] ++ F)) by apply (pl_nodup _ _ _ _ P).
  apply NoDup_cons in Nd as [No _].
  destruct (switch_run s3 (sched_own s) [] (o :: F) o (Some o) (co_sched s) None main [])
    as (s4 & R4 & Ec & _ & P4 & Er & _ & Th & Ld).
  - by eapply places_ext.
  - set_solver.
  - change (co_cpu s3) with (co_cpu s). by rewrite Hcpu.
  - exact (rel_main_apart _ _ _ o Rl eq_refl).
  - by eapply saved_same.
  - constructor.
  - set_solver.
  - intros u Hu. set_solver.
  - exists s4. split; [exact R4|]. unfold co_rest in Er. injection Er as _ Eh _ _ Ecur Esch _.
    change (co_sched s3) with (co_sched s) in Esch. change (co_heap s3) with (co_heap s) in Eh.
    change (co_cur s3) with (co_sched s) in Ecur.
    constructor; cbn [r_ready r_cur r_cpu r_main].
    + exists (o :: F). unfold cur_own, sched_own. cbn [r_cur app]. rewrite Esch. exact P4.
    + by rewrite Ecur, Esch.
    + done.
    + by eapply saved_fits.
    + constructor.
    + unfold sched_need in *. rewrite Eh, Esch. exact Hm.
Qed.

(** The part of [rpi_thread_start] that makes a block for the code that called it. *)
Lemma start_block s l cpu main k : co_rel s (mk_robin l None cpu main) k ->
  exists s', (if co_sched s =? 0 then t ← th_alloc; m_modify (fun s => with_cur (with_sched s t) t) else mret tt) s =
      Done (tt, s') /\
    co_rel s' (mk_robin l None cpu main) k /\ co_sched s' <> 0.
Proof using.
  intros Rl. destruct (Z.eqb_spec (co_sched s) 0) as [E|E]; [|by exists s].
  pose proof Rl as [[F P] Hc Hcpu Hf Hr Hm]. cbn [r_ready r_cur r_cpu r_main] in *.
  unfold cur_own, sched_own in P. rewrite E in P. cbn [r_cur app Z.eqb] in P. unfold sched_need in Hm. rewrite E in Hm. cbn [Z.eqb] in Hm.
  destruct (alloc_places _ _ _ _ P) as (t & s1 & F' & R1 & P1 & Em & Ec & Eu & Es & Eth & [x Hx] & Eh); [right; lia|].
  assert (Hd : t ∈ dom (co_th s1)) by (apply elem_of_dom; by exists x).
  destruct (places_pos _ _ _ _ _ P1 Hd) as [Hpos _]. mrun R1.
  eexists. split; [reflexivity|]. split; [|cbn [with_cur with_sched co_sched]; lia].
  assert (Nt : t ∉ l.*1 ++ F').
  { pose proof (pl_nodup _ _ _ _ P1) as Nd. cbn [app] in Nd. by apply NoDup_cons in Nd as [? _]. }
  constructor; cbn [r_ready r_cur r_cpu r_main].
  - exists F'. unfold cur_own, sched_own. cbn [r_cur app with_cur with_sched co_sched].
    rewrite (proj2 (Z.eqb_neq t 0)) by lia. by eapply places_ext.
  - done.
  - change (co_cpu s1 = cpu). by rewrite Ec.
  - done.
  - eapply Forall_impl; [apply Forall_and; split; [exact Hr|apply Forall_forall; intros p Hp; exact Hp]|].
    intros p [Sv Hp]. eapply saved_frame; [exact Sv| |].
    + change (co_th (with_cur (with_sched s1 t) t)) with (co_th s1). rewrite Eth; [done|].
      intros Ep. apply Nt. rewrite <-Ep. apply elem_of_app. left. apply list_elem_of_fmap. by exists p.
    + intros a _. unfold load. cbn [with_cur with_sched co_mem]. by rewrite Em.
  - unfold sched_need. cbn [with_cur with_sched co_sched co_heap]. rewrite (proj2 (Z.eqb_neq t 0)) by lia. lia.
Qed.

Lemma start_rel s k t c q cpu main : co_rel s (mk_robin ((t, c) :: q) None cpu main) k ->
  exists s', rpi_thread_start s = Done (tt, s') /\ co_rel s' (mk_robin q (Some t) (resumed c) cpu) k.
Proof using.
  intros Rl0. pose proof Rl0 as [[F0 P0] _ _ _ _ _]. unfold rpi_thread_start. mrun (coop_empty_run _ _ _ _ P0).
  rewrite bool_decide_eq_false_2 by done. rewrite gets_run.
  destruct (start_block _ _ _ _ _ Rl0) as (s0 & R0 & Rl & E0). mrun R0. clear s F0 P0 Rl0 R0.
  pose proof Rl as [[F P] E1 Hcpu Hf Hr Hm]. cbn [r_ready r_cur r_cpu r_main] in *.
  apply Forall_cons in Hr as [Svt Hr]. cbn [fst snd] in Svt.
  rewrite fmap_cons in P. cbn [fst] in P. unfold cur_own in P. cbn [r_cur app] in P.
  destruct (pop_places _ _ _ _ _ P) as (r & R1 & P1). mrun R1. rewrite gets_run. set (s1 := with_queues s0 _ r _) in *.
  change (co_cur s1) with (co_cur s0). rewrite E1, modify_run. set (s3 := with_cur s1 t).
  assert (Nd : NoDup (sched_own s0 ++ (t :: q.*1) ++ F)) by apply (pl_nodup _ _ _ _ P).
  rewrite (sched_own_some s0 E0) in Nd, P1. apply NoDup_cons in Nd as [No _].
  destruct (switch_run s3 (t :: [co_sched s0]) q.*1 F (co_sched s0) None t (Some t) c q)
    as (s4 & R4 & Ec & So & P4 & Er & Hr4 & Th & Ld).
  - by eapply places_ext.
  - set_solver.
  - change (co_cpu s3) with (co_cpu s0). by rewrite Hcpu.
  - apply (rel_apart _ _ _ t Rl). set_solver.
  - by eapply saved_same.
  - by eapply saved_same_all.
  - set_solver.
  - intros u Hu. apply (rel_apart _ _ _ u Rl). set_solver.
  - exists s4. split; [exact R4|]. unfold co_rest in Er. injection Er as _ Eh _ _ Ecur Esch _.
    change (co_sched s3) with (co_sched s0) in Esch. change (co_heap s3) with (co_heap s0) in Eh.
    change (co_cpu s3) with (co_cpu s0) in So. rewrite Hcpu in So.
    constructor; cbn [r_ready r_cur r_cpu r_main].
    + exists F. unfold cur_own. cbn [r_cur app]. rewrite sched_own_some, Esch by (by rewrite Esch). exact P4.
    + rewrite Esch. split_and!; [by rewrite Ecur|done|done].
    + done.
    + by eapply saved_fits.
    + done.
    + unfold sched_need in *. rewrite Eh, Esch. exact Hm.
Qed.

(** ** The refinement *)

Definition co_forks (ev : co_event) : nat := match ev with CFork _ _ => 1%nat | _ => 0%nat end.

Lemma step_rel s A ev k : co_rel s A (co_forks ev + k) -> co_allowed A ev ->
  exists s' A', co_run ev s = Done (tt, s') /\ robin_step A ev A' /\ co_rel s' A' k.
Proof using.
  intros Rl Ok. destruct ev as [c ws|code arg| | |]; cbn [co_forks] in Rl.
  - destruct (work_rel s A k c ws Rl Ok) as (s' & R & Rl'). eexists s', _. split_and!; [done|apply rs_work|done].
  - destruct (fork_rel s A k code arg Rl) as (s' & t & c & R & Fr & Rl'). eexists s', _.
    split_and!; [done|by eapply rs_fork|done].
  - destruct A as [ready [o|] cpu main]; [|done]. destruct ready as [|[t c] q].
    + exists s, (mk_robin [] (Some o) cpu main). split_and!; [|apply rs_yield_alone|done].
      destruct Rl as [[F P] _ _ _ _ _]. cbn [co_run]. unfold rpi_yield. by mrun (coop_empty_run _ _ _ _ P).
    + destruct (yield_rel s k t c q o cpu main Rl) as (s' & R & Rl'). eexists s', _. split_and!; [done|apply rs_yield|done].
  - destruct A as [ready [o|] cpu main]; [|done]. destruct ready as [|[t c] q].
    + destruct (exit_last_rel s k o cpu main Rl) as (s' & R & Rl'). eexists s', _. split_and!; [done|apply rs_exit_last|done].
    + destruct (exit_rel s k t c q o cpu main Rl) as (s' & R & Rl'). eexists s', _. split_and!; [done|apply rs_exit|done].
  - destruct A as [ready [o|] cpu main]; [done|]. destruct ready as [|[t c] q].
    + exists s, (mk_robin [] None cpu main). split_and!; [|apply rs_start_none|done].
      destruct Rl as [[F P] _ _ _ _ _]. cbn [co_run]. unfold rpi_thread_start. by mrun (coop_empty_run _ _ _ _ P).
    + destruct (start_rel s k t c q cpu main Rl) as (s' & R & Rl'). eexists s', _. split_and!; [done|apply rs_start|done].
Qed.

(** Who runs, from the state of the package. *)
Definition running (s : coop) : option Z := if co_cur s =? co_sched s then None else Some (co_cur s).

Lemma running_rel s A k : co_rel s A k -> running s = r_cur A.
Proof using.
  intros [[F P] Hc _ _ _ _]. unfold running. destruct (r_cur A) as [t|] eqn:Et; [|by rewrite Hc, Z.eqb_refl].
  destruct Hc as (-> & E0 & _). rewrite (proj2 (Z.eqb_neq _ _)); [done|]. intros ->.
  pose proof (pl_nodup _ _ _ _ P) as Nd. unfold cur_own in Nd. rewrite Et, (sched_own_some s E0) in Nd.
  cbn [app] in Nd. apply NoDup_cons in Nd as [Nd _]. set_solver.
Qed.

(** The code keeps to its own stack, and calls the package as it should. *)
Definition co_guard (s : coop) (ev : co_event) : Prop :=
  match ev with
  | CWork c ws => fits (running s) c /\ Forall (fun w => on_stack (running s) w.1) ws
  | CFork _ _ => True
  | CYield | CExit => running s <> None
  | CStart => running s = None
  end.

Fixpoint co_safe (evs : list co_event) (s : coop) : Prop :=
  match evs with
  | [] => True
  | ev :: evs => co_guard s ev /\ forall s', co_run ev s = Done (tt, s') -> co_safe evs s'
  end.

(** The package before its first use, and the registers. *)
Definition co_boot (m : gmap Z Z) (cpu : cpu_t) : coop := mk_coop ∅ ∅ m 0 Q_init Q_init 0 0 1 0 cpu.

Lemma coop_boot_rel m cpu k : fits None cpu -> (S k <= co_limit)%nat ->
  co_rel (co_boot m cpu) (mk_robin [] None cpu cpu) k.
Proof using.
  intros Hf Hk. constructor; try done.
  - exists []. constructor; try done; [by apply isQ_nil..|constructor|set_solver|simpl; lia].
  - unfold sched_need. simpl. lia.
Qed.

Lemma runs_rel evs s A k : co_rel s A (sum_list (co_forks <$> evs) + k) -> co_safe evs s ->
  exists s' A', co_runs evs s = Done (tt, s') /\ robin_steps A evs A' /\ co_rel s' A' k.
Proof using.
  revert s A. induction evs as [|ev evs IH]; intros s A Rl Sf.
  { exists s, A. split_and!; [done|constructor|done]. }
  destruct Sf as [Hg Hs]. rewrite fmap_cons in Rl. cbn [sum_list sum_list_with] in Rl.
  destruct (step_rel s A ev (sum_list (co_forks <$> evs) + k)) as (s1 & A1 & R1 & St & Rl1).
  { by rewrite Nat.add_assoc. }
  { unfold co_guard in Hg. rewrite (running_rel _ _ _ Rl) in Hg. by destruct ev. }
  destruct (IH s1 A1 Rl1 (Hs s1 R1)) as (s2 & A2 & R2 & Sts & Rl2).
  exists s2, A2. cbn [co_runs]. mrun R1. split_and!; [done|by econstructor|done].
Qed.

(** C15: the cooperative threads are a round-robin scheduler.  Start from the state at boot and
    take any sequence of computations, forks, yields, exits and starts in which the code
    that runs keeps to its own stack (and the heap has room for the threads): every call
    returns or switches, without a failed assertion or an undefined access, and the run is
    one of the scheduler: threads become ready in the order of forks and yields and run in
    that order, the last exit returns to the code that started the threads, and whoever gets
    the processor continues with the registers, stack pointer and return address with which
    it gave the processor up, whatever the others did in between; a new thread begins in the
    trampoline, which calls its function with its argument. *)
Theorem coop_round_robin m cpu evs : fits None cpu -> (S (sum_list (co_forks <$> evs)) <= co_limit)%nat ->
  co_safe evs (co_boot m cpu) ->
  exists s' A', co_runs evs (co_boot m cpu) = Done (tt, s') /\
    robin_steps (mk_robin [] None cpu cpu) evs A' /\
    co_cpu s' = r_cpu A' /\ running s' = r_cur A' /\ isQ (co_next s') (co_runq s') (r_ready A').*1 /\
    Forall (fun p => saved s' (Some p.1) p.1 p.2) (r_ready A').
Proof using.
  intros Hf Hk Sf. destruct (runs_rel evs (co_boot m cpu) (mk_robin [] None cpu cpu) 0) as (s' & A' & R & Sts & Rl).
  - rewrite Nat.add_0_r. by apply coop_boot_rel.
  - done.
  - exists s', A'. split_and!; [done|done|apply Rl|by eapply running_rel| |apply Rl].
    destruct Rl as [[F P] _ _ _ _ _]. apply (pl_run _ _ _ _ P).
Qed.
End Thm.

Module CoopExample.
#[local] Instance env : CoopEnv :=
  {| co_block n := 0x100000 + 8216 * Z.of_nat n; co_junk _ := mk_rpi_thread 9 9 9 9; co_word _ := 0xdead;
     rpi_init_trampoline_addr := 0x8100 |}.
#[local] Program Instance layout : CoopLayout := {| co_limit := 100%nat; boot_lo := 0x7000000; boot_hi := 0x8000000 |}.
Next Obligation. intros n Hn. unfold co_block, env. split; [lia|]. apply Z.mod_divide; [lia|]. exists (131072 + 1027 * Z.of_nat n). lia. Qed.
Next Obligation. intros n m Hn Hm Hne. unfold co_block, env. lia. Qed.
Next Obligation. intros n Hn. unfold co_block, env. lia. Qed.

Definition cpu0 : cpu_t := mk_cpu [4; 5; 6; 7; 8; 9; 10; 11] 0x7fffff8 0x8004 0x8000.

(** Two threads; the first yields to the second, which exits, then the first. *)
Definition script : list co_event := [CFork 0x9000 1; CFork 0xa000 2; CStart; CYield; CExit; CExit].

Lemma coop_round_robin_witness : exists s' A', co_runs script (co_boot ∅ cpu0) = Done (tt, s') /\
  robin_steps (mk_robin [] None cpu0 cpu0) script A' /\ co_cpu s' = resumed cpu0 /\ r_cur A' = None.
Proof.
  destruct (coop_round_robin ∅ cpu0 script) as (s' & A' & R & Sts & Ec & Er & _).
  - split; [reflexivity|]. split; [split; discriminate|reflexivity].
  - apply Nat.leb_le. reflexivity.
  - repeat (split; [try exact I; vm_compute; (discriminate || reflexivity)|]; intros ? E;
      vm_compute in E; injection E as <-). exact I.
  - exists s', A'. split; [exact R|]. split; [exact Sts|]. vm_compute in R. injection R as <-.
    split; [vm_compute; reflexivity|]. rewrite <-Er. vm_compute. reflexivity.
Defined.
End CoopExample.
