(* ===== verification/Uart.v ===== *)
(** * The serial line (src/libpi/src/uart.c)

    The driver of the mini UART, over a model of the peripheral after its data sheet: two
    buffers of eight bytes, a data register whose reading takes a received byte out of one and
    whose writing puts a byte into the other, status registers, and plain registers.  What the
    line does meanwhile is [shift_out] and [arrive]; a loop that polls for the line to send
    lets it send a byte at every turn, so that it ends.  Polling for a byte to arrive, with
    none there, is running out of fuel. *)

From stdpp Require Import base tactics option list numbers gmap.
From Stdlib Require Import ZArith Lia.
From S2P Require Import Prelude.
#[local] Open Scope Z_scope.

(** ** The peripheral *)

Record uart : Type := mk_uart {
  u_tx : list Z;          (** the transmit buffer *)
  u_out : list Z;         (** what has been sent *)
  u_in : list Z;          (** the receive buffer *)
  u_ier : Z;              (** interrupts: bit 0 for receiving, bit 1 for sending *)
  u_regs : gmap Z Z       (** the other registers *)
}.

Definition FIFO_SIZE : nat := 8.
Definition u_room (u : uart) : nat := FIFO_SIZE - length (u_tx u).

(** The line sends up to [n] bytes; bytes arrive, and those that do not fit are lost. *)
Definition shift_out (n : nat) (u : uart) : uart :=
  mk_uart (drop n (u_tx u)) (u_out u ++ take n (u_tx u)) (u_in u) (u_ier u) (u_regs u).
Definition arrive (l : list Z) (u : uart) : uart :=
  mk_uart (u_tx u) (u_out u) (u_in u ++ take (FIFO_SIZE - length (u_in u)) l) (u_ier u) (u_regs u).

Definition AUXENB : Z := 0x20215004.
Definition AUX_MU_IO_REG : Z := 0x20215040.
Definition AUX_MU_IER_REG : Z := AUX_MU_IO_REG + 0x4.
Definition AUX_MU_IIR_REG : Z := AUX_MU_IO_REG + 0x8.
Definition AUX_MU_LCR_REG : Z := AUX_MU_IO_REG + 0xC.
Definition AUX_MU_MCR_REG : Z := AUX_MU_IO_REG + 0x10.
Definition AUX_MU_LSR_REG : Z := AUX_MU_IO_REG + 0x14.
Definition AUX_MU_CNTL_REG : Z := AUX_MU_IO_REG + 0x20.
Definition AUX_MU_STAT_REG : Z := AUX_MU_IO_REG + 0x24.
Definition AUX_MU_BAUD : Z := AUX_MU_IO_REG + 0x28.

Definition has_byte (u : uart) : bool := negb (Nat.eqb (length (u_in u)) 0).
Definition has_room (u : uart) : bool := negb (Nat.eqb (u_room u) 0).

Definition aux_get32 (a : Z) : M uart Z :=
  if a =? AUX_MU_IO_REG then
    u ← m_gets (fun u => u);
    m_modify (fun u => mk_uart (u_tx u) (u_out u) (tail (u_in u)) (u_ier u) (u_regs u));;
    mret (default 0 (head (u_in u)))
  else if a =? AUX_MU_STAT_REG then
    m_gets (fun u => Z.b2z (has_byte u) + 2 * Z.b2z (has_room u))
  else if a =? AUX_MU_LSR_REG then
    m_gets (fun u => Z.b2z (has_byte u) + 32 * Z.b2z (has_room u) +
                     64 * Z.b2z (Nat.eqb (length (u_tx u)) 0))
  else if a =? AUX_MU_IER_REG then m_gets u_ier
  else m_gets (fun u => default 0 (u_regs u !! a)).

(** A byte written when the buffer is full is lost; bits 1 and 2 of what is written to the
    identification register clear the buffers. *)
Definition aux_put32 (a v : Z) : M uart unit :=
  if a =? AUX_MU_IO_REG then
    m_modify (fun u => mk_uart (if has_room u then u_tx u ++ [Z.land v 0xff] else u_tx u)
                         (u_out u) (u_in u) (u_ier u) (u_regs u))
  else if a =? AUX_MU_IIR_REG then
    m_modify (fun u => mk_uart (if Z.testbit v 2 then [] else u_tx u) (u_out u)
                         (if Z.testbit v 1 then [] else u_in u) (u_ier u) (u_regs u))
  else if a =? AUX_MU_IER_REG then
    m_modify (fun u => mk_uart (u_tx u) (u_out u) (u_in u) v (u_regs u))
  else m_modify (fun u => mk_uart (u_tx u) (u_out u) (u_in u) (u_ier u) (<[a := v]> (u_regs u))).

(** ** The driver *)

(** [while (!cond) ;] *)
Fixpoint wait_line (cond : M uart bool) (fuel : nat) : M uart unit :=
  match fuel with
  | O => m_nofuel
  | S fuel =>
      b ← cond;
      if (b : bool) then mret tt else m_modify (shift_out 1);; wait_line cond fuel
  end.

(** Enough turns to send all there is. *)
Definition line_fuel : M uart nat := m_gets (fun u => S (length (u_tx u))).

Definition uart_can_put8 : M uart bool :=
  v ← aux_get32 AUX_MU_STAT_REG; mret (negb (Z.land v 0x2 =? 0)).

Definition uart_put8 (c : Z) : M uart unit :=
  n ← line_fuel;
  wait_line uart_can_put8 n;;
  v ← aux_get32 AUX_MU_IO_REG;
  aux_put32 AUX_MU_IO_REG (Z.lor (Z.land v 0xffffff00) c).

Definition uart_has_data : M uart bool :=
  v ← aux_get32 AUX_MU_STAT_REG; mret (negb (Z.land v 0x1 =? 0)).

Definition uart_get8 : M uart Z :=
  has ← uart_has_data;
  if negb has then m_nofuel else
  v ← aux_get32 AUX_MU_IO_REG;
  let x := Z.land v 0xff in
  w ← aux_get32 AUX_MU_IO_REG;
  aux_put32 AUX_MU_IO_REG (Z.land w 0xffffff00);;
  mret x.

Definition uart_get8_async : M uart Z :=
  has ← uart_has_data;
  if negb has then mret (-1) else uart_get8.

Definition uart_tx_is_empty : M uart bool :=
  v ← aux_get32 AUX_MU_LSR_REG; mret (Z.land v 0x40 =? 0x40).

Definition uart_flush_tx : M uart unit :=
  n ← line_fuel; wait_line uart_tx_is_empty n.

Fixpoint flush_rx_loop (fuel : nat) : M uart unit :=
  match fuel with
  | O => m_nofuel
  | S fuel =>
      c ← uart_get8_async;
      if c =? -1 then mret tt else flush_rx_loop fuel
  end.

(** Every turn takes at least a byte. *)
Definition uart_flush_rx : M uart unit :=
  u ← m_gets (fun u => u); flush_rx_loop (S (length (u_in u))).

Definition uart_disable : M uart unit :=
  uart_flush_tx;;
  v ← aux_get32 AUXENB;
  aux_put32 AUXENB (Z.ldiff v 0x1).

(** uart-interrupt.c: the switches of the interrupts. *)
Definition uart_disable_interrupt (is_tx : Z) : M uart unit :=
  v ← aux_get32 AUX_MU_IER_REG;
  aux_put32 AUX_MU_IER_REG (Z.ldiff v (Z.shiftl 1 is_tx)).
Definition uart_enable_interrupt (is_tx : Z) : M uart unit :=
  v ← aux_get32 AUX_MU_IER_REG;
  aux_put32 AUX_MU_IER_REG (Z.lor v (Z.shiftl 1 is_tx)).

(** ** What they do *)

Definition set_ier (v : Z) (u : uart) : uart := mk_uart (u_tx u) (u_out u) (u_in u) v (u_regs u).
Definition set_reg (a v : Z) (u : uart) : uart :=
  mk_uart (u_tx u) (u_out u) (u_in u) (u_ier u) (<[a := v]> (u_regs u)).

Lemma can_put8_run u : uart_can_put8 u = Done (has_room u, u).
Proof.
  unfold uart_can_put8. change (aux_get32 AUX_MU_STAT_REG)
    with (m_gets (fun u => Z.b2z (has_byte u) + 2 * Z.b2z (has_room u))).
  rewrite gets_run. by destruct (has_byte u), (has_room u).
Qed.

Lemma has_data_run u : uart_has_data u = Done (has_byte u, u).
Proof.
  unfold uart_has_data. change (aux_get32 AUX_MU_STAT_REG)
    with (m_gets (fun u => Z.b2z (has_byte u) + 2 * Z.b2z (has_room u))).
  rewrite gets_run. by destruct (has_byte u), (has_room u).
Qed.

Lemma tx_is_empty_run u : uart_tx_is_empty u = Done (Nat.eqb (length (u_tx u)) 0, u).
Proof.
  unfold uart_tx_is_empty. change (aux_get32 AUX_MU_LSR_REG)
    with (m_gets (fun u => Z.b2z (has_byte u) + 32 * Z.b2z (has_room u) +
                           64 * Z.b2z (Nat.eqb (length (u_tx u)) 0))).
  rewrite gets_run. by destruct (has_byte u), (has_room u), (Nat.eqb (length (u_tx u)) 0).
Qed.

(** Bytes written or sent, in order. *)
Definition written (u : uart) : list Z := u_out u ++ u_tx u.

Lemma written_shift n u : written (shift_out n u) = written u.
Proof. unfold written, shift_out. cbn. by rewrite <-app_assoc, take_drop. Qed.

Lemma shift_shift n m u : shift_out m (shift_out n u) = shift_out (n + m) u.
Proof.
  unfold shift_out. cbn. rewrite drop_drop, <-app_assoc. do 2 f_equal. rewrite take_take_drop. done.
Qed.

(** Polling ends after some bytes were sent, at a state where the condition holds. *)
Lemma wait_line_run (cond : M uart bool) (p : uart -> bool) u :
  (forall v, cond v = Done (p v, v)) -> (forall v, u_tx v = [] -> p v = true) ->
  exists n, wait_line cond (S (length (u_tx u))) u = Done (tt, shift_out n u) /\
    p (shift_out n u) = true /\ (p u = true -> n = O).
Proof.
  intros C E. remember (length (u_tx u)) as k eqn:K. revert u K.
  induction k as [|k IH]; intros u K; cbn [wait_line]; mrun (C u).
  - rewrite (E u) by (by destruct (u_tx u)). exists O. unfold shift_out. rewrite drop_0, take_0, app_nil_r.
    destruct u. cbn in *. split_and!; [done| |done]. apply E. by destruct u_tx0.
  - destruct (p u) eqn:P.
    + exists O. unfold shift_out. rewrite drop_0, take_0, app_nil_r. by destruct u.
    + rewrite modify_run. destruct (IH (shift_out 1 u)) as (n & R & Pn & _).
      { cbn. rewrite length_drop. lia. }
      exists (S n). rewrite shift_shift in R, Pn. split_and!; [exact R|exact Pn|done].
Qed.

Lemma tx_get a u : a <> AUX_MU_IO_REG -> a <> AUX_MU_STAT_REG -> a <> AUX_MU_LSR_REG -> a <> AUX_MU_IER_REG ->
  aux_get32 a u = Done (default 0 (u_regs u !! a), u).
Proof. intros. unfold aux_get32. by rewrite !(proj2 (Z.eqb_neq _ _)) by done. Qed.

Lemma enable_interrupt_run i u :
  uart_enable_interrupt i u = Done (tt, set_ier (Z.lor (u_ier u) (Z.shiftl 1 i)) u).
Proof. done. Qed.

Lemma disable_interrupt_run i u :
  uart_disable_interrupt i u = Done (tt, set_ier (Z.ldiff (u_ier u) (Z.shiftl 1 i)) u).
Proof. done. Qed.

Lemma u8_idem c : u8 (u8 c) = u8 c.
Proof. apply Z.mod_mod. lia. Qed.

Lemma byte_land c : Z.land c 0xff = u8 c.
Proof. change 0xff with (Z.ones 8). by rewrite Z.land_ones by lia. Qed.

(** What arrived and was not read when a byte is put: the first byte of it is lost. *)
Lemma line_put8_run c u : exists n,
  uart_put8 c u = Done (tt, mk_uart (u_tx (shift_out n u) ++ [u8 c]) (u_out (shift_out n u))
    (tail (u_in u)) (u_ier u) (u_regs u)) /\ (has_room u = true -> n = O).
Proof.
  destruct (wait_line_run uart_can_put8 has_room u can_put8_run) as (n & R & P & Z).
  { intros v E. unfold has_room, u_room. by rewrite E. }
  exists n. split; [|exact Z]. unfold uart_put8, line_fuel. rewrite gets_run. mrun R.
  assert (forall w, Z.land (Z.lor (Z.land w 0xffffff00) c) 0xff = u8 c) as B.
  { intros w. rewrite Z.land_lor_distr_l, <-Z.land_assoc. change (Z.land 0xffffff00 0xff) with 0.
    rewrite Z.land_0_r, Z.lor_0_l. apply byte_land. }
  cbv [aux_get32 aux_put32 AUX_MU_IO_REG Z.eqb Pos.eqb]. rewrite bind_assoc, gets_run.
  cbn. unfold mbind, M_bind, m_modify, mret, M_ret. rewrite B.
  change (has_room (mk_uart _ _ _ _ _)) with (has_room (shift_out n u)). by rewrite P.
Qed.

Lemma land_byte w : Z.land (Z.land w 0xffffff00) 0xff = 0.
Proof. rewrite <-Z.land_assoc. change (Z.land 0xffffff00 0xff) with 0. apply Z.land_0_r. Qed.

(** A NUL goes into the transmit buffer, if there is room. *)
Definition push_nul (u : uart) : list Z := if has_room u then u_tx u ++ [0] else u_tx u.

(** Reading a byte loses the byte behind it, if that has arrived, and sends a NUL. *)
Lemma line_get8_run u c l : u_in u = c :: l ->
  uart_get8 u = Done (u8 c, mk_uart (push_nul u) (u_out u) (tail l) (u_ier u) (u_regs u)).
Proof.
  intros E. unfold uart_get8. mrun (has_data_run u). unfold has_byte. rewrite E.
  cbn [length Nat.eqb negb]. cbv [aux_get32 aux_put32 AUX_MU_IO_REG Z.eqb Pos.eqb].
  rewrite !bind_assoc, gets_run. unfold mbind, M_bind, m_modify, m_gets, mret, M_ret. cbn [u_in].
  rewrite E. cbn [head tail default]. by rewrite land_byte, byte_land.
Qed.

(** The text that a terminal shows of what was sent. *)
Definition visible (l : list Z) : list Z := filter (fun c => c <> 0) (u8 <$> l).

Lemma visible_app l k : visible (l ++ k) = visible l ++ visible k.
Proof. unfold visible. by rewrite fmap_app, filter_app. Qed.

Lemma visible_u8 c : visible [u8 c] = visible [c].
Proof. unfold visible. cbn [fmap list_fmap]. by rewrite u8_idem. Qed.

Lemma visible_nul : visible [0] = [].
Proof. done. Qed.

Lemma visible_push_nul u : visible (push_nul u) = visible (u_tx u).
Proof.
  unfold push_nul. destruct (has_room u); [|done]. by rewrite visible_app, visible_nul, app_nil_r.
Qed.

Lemma flush_rx_loop_run fuel u : (length (u_in u) < fuel)%nat ->
  exists t, flush_rx_loop fuel u = Done (tt, mk_uart t (u_out u) [] (u_ier u) (u_regs u)) /\
    visible t = visible (u_tx u).
Proof.
  revert u. induction fuel as [|fuel IH]; intros u L; [lia|]. cbn [flush_rx_loop].
  unfold uart_get8_async. rewrite bind_assoc. mrun (has_data_run u). unfold has_byte.
  destruct (u_in u) as [|c l] eqn:E; cbn [length Nat.eqb negb].
  { rewrite ret_run. exists (u_tx u). destruct u. cbn in *. by subst. }
  mrun (line_get8_run u c l E). cbn [length] in L.
  pose proof (Z.mod_pos_bound c (2 ^ 8) eq_refl) as Hc. fold (u8 c) in Hc.
  rewrite (proj2 (Z.eqb_neq _ _)) by lia.
  destruct (IH (mk_uart (push_nul u) (u_out u) (tail l) (u_ier u) (u_regs u))) as (t & R & V).
  { cbn. destruct l; cbn in *; lia. }
  exists t. split; [exact R|]. rewrite V. apply visible_push_nul.
Qed.

Lemma flush_rx_run u : exists t,
  uart_flush_rx u = Done (tt, mk_uart t (u_out u) [] (u_ier u) (u_regs u)) /\
  visible t = visible (u_tx u).
Proof. unfold uart_flush_rx. rewrite gets_run. apply flush_rx_loop_run. lia. Qed.

Lemma flush_tx_run u :
  uart_flush_tx u = Done (tt, mk_uart [] (written u) (u_in u) (u_ier u) (u_regs u)).
Proof.
  destruct (wait_line_run uart_tx_is_empty (fun u => Nat.eqb (length (u_tx u)) 0) u tx_is_empty_run)
    as (n & R & P & _); [by intros v ->|].
  unfold uart_flush_tx, line_fuel. rewrite gets_run, R. do 2 f_equal.
  pose proof (written_shift n u) as W. unfold shift_out, written in *. cbn in *.
  apply Nat.eqb_eq, nil_length_inv in P. rewrite P, app_nil_r in W. by rewrite P, W.
Qed.

Lemma disable_run u :
  uart_disable u = Done (tt, mk_uart [] (written u) (u_in u) (u_ier u)
    (<[AUXENB := Z.ldiff (default 0 (u_regs u !! AUXENB)) 1]> (u_regs u))).
Proof. unfold uart_disable. by mrun (flush_tx_run u). Qed.

(** What a sender gets out of a received pair: the first byte, never the second. *)
Lemma get8_loses_next u c d l : u_in u = c :: d :: l -> is_u8 c -> has_room u = true ->
  exists u', uart_get8 u = Done (c, u') /\ u_in u' = l /\ u_tx u' = u_tx u ++ [0].
Proof.
  intros E Hc Hr. eexists. rewrite (line_get8_run u c (d :: l) E). unfold push_nul. rewrite Hr.
  rewrite (u8_small c Hc). by split_and!.
Qed.

(** The first byte that waits is read, the second is lost, and nothing visible is sent. *)
Lemma get8_waiting u c l : u_in u = c :: l -> is_u8 c ->
  exists u', uart_get8 u = Done (c, u') /\ u_in u' = drop 1 l /\ visible (written u') = visible (written u).
Proof.
  intros E Hc. eexists. rewrite (line_get8_run u c l E), (u8_small c Hc). split_and!; [done|by destruct l|].
  unfold written. cbn [u_out u_tx]. by rewrite !visible_app, visible_push_nul.
Qed.
