(* ===== verification/ThreadIo.v ===== *)
(** * Standard input and output of threads

    src/preemptive-threads/thread-safe-io.c (the lock and the two character queues),
    src/libpi/include/lock.h and src/libpi/src/uart-interrupt.c (the queues' other end, the
    serial line of Uart.v).  What a terminal shows ([console]) leaves out NULs, since reading
    the line sends them. *)

From stdpp Require Import base tactics option list numbers.
From Stdlib Require Import ZArith Lia.
From S2P Require Import Prelude Circular Uart.
#[local] Open Scope Z_scope.

(** ** State *)

Record io : Type := mk_io {
  io_lock : Z;
  putQ : cq_t;
  getQ : cq_t;
  io_uart : uart
}.

Definition set_lock (tid : Z) (s : io) : io := mk_io tid (putQ s) (getQ s) (io_uart s).
Definition set_uart (u : uart) (s : io) : io := mk_io (io_lock s) (putQ s) (getQ s) u.
Definition on_putQ {A} (m : M cq_t A) : M io A :=
  m_zoom putQ (fun q s => mk_io (io_lock s) q (getQ s) (io_uart s)) m.
Definition on_getQ {A} (m : M cq_t A) : M io A :=
  m_zoom getQ (fun q s => mk_io (io_lock s) (putQ s) q (io_uart s)) m.
Definition on_uart {A} (m : M uart A) : M io A := m_zoom io_uart set_uart m.

(** ** The lock *)

Definition read_lock_tid : M io Z := m_gets io_lock.
Definition write_lock_tid (new_tid : Z) : M io unit := m_modify (set_lock new_tid).

Definition stdio_is_idle (thread_id : Z) : M io bool :=
  stdout_tid ← read_lock_tid;
  mret ((stdout_tid =? 0) || (stdout_tid =? thread_id)).
Definition write_stdio_tid (thread_id : Z) : M io unit := write_lock_tid thread_id.
Definition read_stdio_tid : M io Z := read_lock_tid.

(** ** The queues *)

Definition stdio_init : M io unit :=
  m_modify (fun s => mk_io (io_lock s) (cq_init 1) (cq_init 1) (io_uart s)).
Definition stdout_queue_is_full : M io bool := m_gets (fun s => cq_full (putQ s)).
Definition stdout_queue_is_empty : M io bool := m_gets (fun s => cq_empty (putQ s)).
Definition stdout_queue_push_char (c : Z) : M io unit := on_putQ (cq_push c);; mret tt.
Definition stdout_queue_pop_char : M io Z := on_putQ (cq_pop false).
Definition get_stdout_queue_length : M io Z := m_gets (fun s => cq_nelem (putQ s)).
Definition stdin_queue_is_full : M io bool := m_gets (fun s => cq_full (getQ s)).
Definition stdin_queue_is_empty : M io bool := m_gets (fun s => cq_empty (getQ s)).
Definition stdin_queue_push_char (c : Z) : M io unit := on_getQ (cq_push c);; mret tt.
Definition stdin_queue_pop_char : M io Z := on_getQ (cq_pop false).
Definition get_stdin_queue_length : M io Z := m_gets (fun s => cq_nelem (getQ s)).

(** ** The queues and the serial line *)

(** -1 when the queue is full: the character is lost. *)
Definition uart_putc_int (c : Z) : M io Z :=
  on_uart (uart_disable_interrupt 1);;
  full ← stdout_queue_is_full;
  if (full : bool) then on_uart (uart_enable_interrupt 1);; mret (-1) else
  stdout_queue_push_char c;;
  on_uart (uart_enable_interrupt 1);;
  mret 0.

Definition uart_getc_int : M io Z :=
  on_uart (uart_disable_interrupt 0);;
  empty ← stdin_queue_is_empty;
  if (empty : bool) then on_uart (uart_enable_interrupt 0);; mret (-1) else
  res ← stdin_queue_pop_char;
  on_uart (uart_enable_interrupt 0);;
  mret res.

Definition uart_has_data_int : M io Z :=
  on_uart (uart_disable_interrupt 0);;
  empty ← stdin_queue_is_empty;
  on_uart (uart_enable_interrupt 0);;
  mret (if (empty : bool) then 0 else 1).

(** The loop that moves characters from the queue to the line, of the printer thread and of
    the interrupt handlers.  Every turn uses up room in the transmit buffer. *)
Fixpoint drain_loop (fuel : nat) : M io unit :=
  match fuel with
  | O => m_nofuel
  | S fuel =>
      can ← on_uart uart_can_put8;
      if negb can then mret tt else
      empty ← stdout_queue_is_empty;
      if (empty : bool) then on_uart (uart_disable_interrupt 1) else
      c ← stdout_queue_pop_char;
      on_uart (uart_put8 c);;
      drain_loop fuel
  end.
Definition drain : M io unit :=
  u ← m_gets io_uart; drain_loop (S (u_room u)).

(** The loop that moves what has arrived to the input queue. *)
Fixpoint fill_loop (fuel : nat) : M io unit :=
  match fuel with
  | O => m_nofuel
  | S fuel =>
      has ← on_uart uart_has_data;
      if negb has then mret tt else
      full ← stdin_queue_is_full;
      if (full : bool) then mret tt else
      c ← on_uart uart_get8;
      stdin_queue_push_char c;;
      fill_loop fuel
  end.
Definition fill : M io unit :=
  u ← m_gets io_uart; fill_loop (S (length (u_in u))).

(** What the interrupt handlers do with the line: bit 1 of the identification register says
    that there is room, bit 2 that there is data. *)
Definition int_vector_uart (iir : Z) : M io unit :=
  if Z.testbit iir 0 then mret tt else
  if Z.testbit iir 1 then drain
  else if Z.testbit iir 2 then fill
  else mret tt.

(** [uart_init_int] sets [rpi_putchar] to the queue, if the build asks for it; otherwise
    characters go straight to the line.  Both take a byte. *)
Definition rpi_putchar (use_out_interrupts : bool) (c : Z) : M io unit :=
  if use_out_interrupts then uart_putc_int (u8 c);; mret tt else on_uart (uart_put8 (u8 c)).

(** ** What has been printed *)

(** The characters sent, those in the transmit buffer and those still in the queue. *)
Definition console (s : io) : list Z := visible (written (io_uart s) ++ cq_list (putQ s)).

Record io_ok (s : io) : Prop := {
  ok_put : cq_wf (putQ s);
  ok_get : cq_wf (getQ s)
}.

(** Code that moves characters on but neither adds nor loses any, and keeps the lock. *)
Definition quiet (s s' : io) : Prop :=
  io_ok s' /\ console s' = console s /\ io_lock s' = io_lock s /\
  (cq_list (putQ s) = [] -> cq_list (putQ s') = []).

Lemma pop_out s c l : io_ok s -> cq_list (putQ s) = c :: l ->
  exists s', stdout_queue_pop_char s = Done (c, s') /\ io_ok s' /\ cq_list (putQ s') = l /\
    io_lock s' = io_lock s /\ io_uart s' = io_uart s.
Proof.
  intros [P G] E. destruct (pop_cons false (putQ s) c l P E) as (q & R & W & El & _).
  exists (mk_io (io_lock s) q (getQ s) (io_uart s)).
  unfold stdout_queue_pop_char, on_putQ. by rewrite (zoom_done _ _ _ _ _ _ R).
Qed.

Lemma quiet_refl s : io_ok s -> quiet s s.
Proof. unfold quiet. intros O. by split_and!. Qed.

Lemma quiet_trans s1 s2 s3 : quiet s1 s2 -> quiet s2 s3 -> quiet s1 s3.
Proof. unfold quiet. intros (_ & C1 & L1 & E1) (O & C2 & L2 & E2). split_and!; [done|congruence|congruence|auto]. Qed.

Lemma empty_run s : io_ok s ->
  stdout_queue_is_empty s = Done (bool_decide (cq_list (putQ s) = []), s).
Proof.
  intros [P _]. unfold stdout_queue_is_empty, m_gets. do 2 f_equal.
  destruct (cq_empty (putQ s)) eqn:E; symmetry.
  - apply bool_decide_eq_true. by apply empty_spec.
  - apply bool_decide_eq_false. intros E'. apply (empty_spec _ P) in E'. congruence.
Qed.

(** Code of the line that sends nothing visible. *)
Lemma quiet_uart {A} (m : M uart A) a u s : io_ok s -> m (io_uart s) = Done (a, u) ->
  visible (written u) = visible (written (io_uart s)) ->
  on_uart m s = Done (a, set_uart u s) /\ quiet s (set_uart u s).
Proof.
  intros [P G] R E. split; [by apply (zoom_done io_uart set_uart m s a u)|].
  unfold quiet, console. cbn [set_uart io_uart putQ io_lock]. rewrite !visible_app, E. by split_and!.
Qed.

Lemma ier_quiet v s : io_ok s -> quiet s (set_uart (set_ier v (io_uart s)) s).
Proof. intros O. by apply (quiet_uart (m_modify (set_ier v)) tt). Qed.

Lemma uart_run {A B} (m : M uart A) (f : A -> M io B) s a u : m (io_uart s) = Done (a, u) ->
  (on_uart m ≫= f) s = f a (set_uart u s).
Proof. intros R. by mrun (zoom_done io_uart set_uart m s a u R). Qed.

Lemma set_uart_same s : set_uart (io_uart s) s = s.
Proof. by destruct s. Qed.

Lemma has_room_pos u : has_room u = true -> (0 < u_room u)%nat.
Proof. unfold has_room. destruct (u_room u); cbn; [done|lia]. Qed.

(** Putting a byte: it is shown after all that was put before, the queue apart. *)
Lemma put8_shown c s : exists u, uart_put8 c (io_uart s) = Done (tt, u) /\
  visible (written u) = visible (written (io_uart s)) ++ visible [c] /\
  (has_room (io_uart s) = true -> (u_room u < u_room (io_uart s))%nat).
Proof.
  destruct (line_put8_run c (io_uart s)) as (n & R & N). eexists. split; [exact R|]. split.
  - unfold written at 1. cbn [u_out u_tx]. rewrite app_assoc.
    change (u_out _ ++ u_tx _) with (written (shift_out n (io_uart s))).
    by rewrite written_shift, visible_app, visible_u8.
  - intros Hr. pose proof (has_room_pos _ Hr) as P. rewrite (N Hr). unfold u_room in *. cbn [u_tx shift_out].
    rewrite drop_0, length_app. cbn [length]. lia.
Qed.

Lemma drain_loop_run fuel s : io_ok s -> (u_room (io_uart s) < fuel)%nat ->
  exists s', drain_loop fuel s = Done (tt, s') /\ quiet s s' /\
    (cq_list (putQ s') = [] \/ u_room (io_uart s') = O).
Proof.
  revert s. induction fuel as [|fuel IH]; intros s O L; [lia|]. cbn [drain_loop].
  rewrite (uart_run _ _ s _ _ (can_put8_run _)), set_uart_same.
  destruct (has_room (io_uart s)) eqn:Hr; cbn [negb].
  2: { exists s. split_and!; [done|by apply quiet_refl..|right]. unfold has_room in Hr.
       by destruct (u_room _). }
  mrun (empty_run s O). case_bool_decide as E.
  { eexists. split_and!; [done|by apply ier_quiet|by left]. }
  destruct (cq_list (putQ s)) as [|c l] eqn:El; [done|].
  destruct (pop_out s c l O El) as (s1 & P & O1 & E1 & L1 & U1). mrun P.
  destruct (put8_shown c s1) as (u & R & V & Ru). rewrite (uart_run _ _ s1 _ _ R). rewrite U1 in V, Ru.
  set (s2 := set_uart u s1).
  assert (quiet s s2) as Q2.
  { split_and!; [by destruct O1| |done|by rewrite El]. unfold console. cbn [s2 set_uart io_uart putQ].
    rewrite El, E1, !visible_app, V, <-app_assoc, <-visible_app. done. }
  specialize (Ru Hr). destruct (IH s2) as (s' & D & Q & F); [apply Q2|change (io_uart s2) with u; lia|].
  exists s'. split_and!; [done|by apply (quiet_trans s s2)|done].
Qed.

Lemma drain_run s : io_ok s -> exists s', drain s = Done (tt, s') /\ quiet s s' /\
  (cq_list (putQ s') = [] \/ u_room (io_uart s') = O).
Proof. intros O. unfold drain. rewrite gets_run. apply drain_loop_run; [done|lia]. Qed.

Lemma not_full q : cq_wf q -> cq_full q = false -> Z.of_nat (length (cq_list q)) < CQ_N - 1.
Proof.
  intros W F. rewrite length_cq_list. pose proof (nelem_range q).
  assert (cq_nelem q <> CQ_N - 1); [|lia]. intros E. apply (full_spec q W) in E. congruence.
Qed.

Lemma fill_loop_run fuel s : io_ok s -> (length (u_in (io_uart s)) < fuel)%nat ->
  exists s', fill_loop fuel s = Done (tt, s') /\ quiet s s'.
Proof.
  revert s. induction fuel as [|fuel IH]; intros s O L; [lia|]. cbn [fill_loop].
  rewrite (uart_run _ _ s _ _ (has_data_run _)), set_uart_same. unfold has_byte.
  destruct (u_in (io_uart s)) as [|c l] eqn:U; cbn [length Nat.eqb negb].
  { exists s. split; [done|by apply quiet_refl]. }
  unfold stdin_queue_is_full. rewrite gets_run. destruct (cq_full (getQ s)) eqn:F.
  { exists s. split; [done|by apply quiet_refl]. }
  pose proof (line_get8_run _ c l U) as G. rewrite (uart_run _ _ s _ _ G).
  match type of G with _ = Done (_, ?u) => set (s1 := set_uart u s) end.
  destruct (push_space (getQ s) (u8 c)) as (q & P & W & E); [apply O|apply not_full; [apply O|done]|].
  unfold stdin_queue_push_char. rewrite bind_assoc.
  mrun (zoom_done getQ (fun q s => mk_io (io_lock s) (putQ s) q (io_uart s)) _ s1 _ _ P).
  rewrite ret_run. match goal with |- exists _, fill_loop _ ?s = _ /\ _ => set (s2 := s) end.
  destruct (IH s2) as (s' & R & Q); [split; [apply O|done]|cbn in *; destruct l; cbn in *; lia|].
  exists s'. split; [done|]. apply (quiet_trans s s2); [|done].
  split_and!; [split; [apply O|done]| |done..]. unfold console, written.
  cbn [s2 s1 set_uart io_uart putQ u_out u_tx]. by rewrite !visible_app, visible_push_nul.
Qed.

Lemma int_vector_uart_run iir s : io_ok s ->
  exists s', int_vector_uart iir s = Done (tt, s') /\ quiet s s'.
Proof.
  intros O. unfold int_vector_uart. destruct (Z.testbit iir 0); [by exists s; split; [|apply quiet_refl]|].
  destruct (Z.testbit iir 1).
  { destruct (drain_run s O) as (s' & R & Q & _). by exists s'. }
  destruct (Z.testbit iir 2); [|by exists s; split; [|apply quiet_refl]].
  unfold fill. rewrite gets_run. apply fill_loop_run; [done|lia].
Qed.

(** What [rpi_putchar] shows: nothing if the queue is in use and full. *)
Definition printed (use_out_interrupts : bool) (c : Z) (s : io) : list Z :=
  if use_out_interrupts && cq_full (putQ s) then [] else visible [c].

Lemma putchar_run b c s : io_ok s -> (b = false -> cq_list (putQ s) = []) ->
  exists s', rpi_putchar b c s = Done (tt, s') /\ io_ok s' /\ io_lock s' = io_lock s /\
    console s' = console s ++ printed b c s /\ (b = false -> cq_list (putQ s') = []).
Proof.
  intros O Hb. destruct b; simpl; unfold printed; simpl.
  - unfold uart_putc_int. rewrite !bind_assoc, (uart_run _ _ s _ _ (disable_interrupt_run 1 _)).
    set (s1 := set_uart _ s) in *.
    unfold stdout_queue_is_full. rewrite bind_assoc, gets_run.
    change (putQ s1) with (putQ s). destruct (cq_full (putQ s)) eqn:F.
    + eexists. rewrite app_nil_r. split_and!; [done|by destruct O|done..].
    + destruct (push_space (putQ s) (u8 c)) as (q & P & W & E); [apply O|apply not_full; [apply O|done]|].
      unfold stdout_queue_push_char. rewrite !bind_assoc.
      mrun (zoom_done putQ (fun q s => mk_io (io_lock s) q (getQ s) (io_uart s)) _ s1 _ _ P).
      eexists. split_and!; [done|split; [done|apply O]|done| |done].
      unfold console. cbn [set_uart putQ io_uart]. rewrite E, app_assoc, visible_app, visible_u8. done.
  - destruct (put8_shown (u8 c) s) as (u & R & V & _).
    exists (set_uart u s). split_and!; [by apply (zoom_done io_uart set_uart)|by destruct O|done| |done].
    unfold console. cbn [set_uart putQ io_uart]. rewrite (Hb eq_refl), !app_nil_r, V. by rewrite visible_u8.
Qed.
