(* ===== verification/Console.v ===== *)
(** * Setting up the console

    src/libpi/src/uart.c (uart_init), src/libpi/src/uart-interrupt.c (uart_init_int,
    uart_reset_int_off, uart_int_putchar, uart_int_getchar), src/libpi/src/getchar.c,
    src/libpi/libc/putchar.c and the flag of src/libpi/src/global.c: which functions print and
    read characters, the pins of the serial line, its registers and the two queues. *)

From stdpp Require Import base tactics option list numbers gmap.
From Stdlib Require Import ZArith Lia.
From S2P Require Import Prelude Circular Gpio Uart ThreadIo.
Import Gpio.GpioExample.
#[local] Open Scope Z_scope.

(** ** State *)

(** The two functions [rpi_putchar], [rpi_getchar] can point to. *)
Inductive way : Type := Direct | Queued.

Record tty : Type := mk_tty {
  UART_READY : bool;
  interrupt_on : bool;
  putchar_way : way;
  getchar_way : way;
  t_pins : bcm;
  t_io : io
}.

Definition set_ready (b : bool) (s : tty) : tty :=
  mk_tty b (interrupt_on s) (putchar_way s) (getchar_way s) (t_pins s) (t_io s).
Definition set_interrupt_on (b : bool) (s : tty) : tty :=
  mk_tty (UART_READY s) b (putchar_way s) (getchar_way s) (t_pins s) (t_io s).
Definition set_ways (p g : way) (s : tty) : tty :=
  mk_tty (UART_READY s) (interrupt_on s) p g (t_pins s) (t_io s).
Definition set_pins (b : bcm) (s : tty) : tty :=
  mk_tty (UART_READY s) (interrupt_on s) (putchar_way s) (getchar_way s) b (t_io s).
Definition set_tio (x : io) (s : tty) : tty :=
  mk_tty (UART_READY s) (interrupt_on s) (putchar_way s) (getchar_way s) (t_pins s) x.

Definition on_pins {A} (m : M bcm A) : M tty A := m_zoom t_pins set_pins m.
Definition on_tio {A} (m : M io A) : M tty A := m_zoom t_io set_tio m.
Definition on_line {A} (m : M uart A) : M tty A := on_tio (on_uart m).

(** ** Operations *)

Definition set_uart_ready : M tty bool :=
  r ← m_gets UART_READY;
  if (r : bool) then mret false else m_modify (set_ready true);; mret true.
Definition reset_uart_ready : M tty bool := m_modify (set_ready false);; mret true.

Definition rpi_putchar_set (w : way) : M tty way :=
  old ← m_gets putchar_way; m_modify (fun s => set_ways w (getchar_way s) s);; mret old.
Definition rpi_putchar_reset : M tty unit := m_modify (fun s => set_ways Direct (getchar_way s) s).
Definition rpi_getchar_set (w : way) : M tty way :=
  old ← m_gets getchar_way; m_modify (fun s => set_ways (putchar_way s) w s);; mret old.
Definition rpi_getchar_reset : M tty unit := m_modify (fun s => set_ways (putchar_way s) Direct s).

Definition GPIO_TX : Z := 14.
Definition GPIO_RX : Z := 15.

Definition uart_init : M tty unit :=
  ok ← set_uart_ready;
  if negb ok then mret tt else
  on_pins (gpio_set_function GPIO_TX GPIO_FUNC_ALT5);;
  on_pins (gpio_set_function GPIO_RX GPIO_FUNC_ALT5);;
  aux_enabled ← on_line (aux_get32 AUXENB);
  (if negb (Z.land aux_enabled 0x1 =? 0) then on_line uart_disable else mret tt);;
  on_line (
    aux_put32 AUXENB (Z.lor aux_enabled 0x1);;
    aux_put32 AUX_MU_CNTL_REG 0x0;;
    aux_put32 AUX_MU_IER_REG 0x0;;
    aux_put32 AUX_MU_LCR_REG 0x3;;
    aux_put32 AUX_MU_MCR_REG 0x0;;
    aux_put32 AUX_MU_IIR_REG 0x6;;
    aux_put32 AUX_MU_BAUD 270;;
    aux_put32 AUX_MU_CNTL_REG 0x3).

Definition IRQ_AUX : Z := 29.

(** The line's registers, in [uart_init_int]. *)
Definition int_regs (use_out_interrupts : bool) : M uart unit :=
  old ← aux_get32 AUXENB;
  aux_put32 AUXENB (Z.lor old 0x1);;
  aux_put32 AUX_MU_CNTL_REG 0;;
  aux_put32 AUX_MU_IIR_REG 6;;
  aux_put32 AUX_MU_BAUD 270;;
  aux_put32 AUX_MU_LCR_REG 3;;
  aux_put32 AUX_MU_IER_REG (if use_out_interrupts then 12 else 14);;
  aux_put32 AUX_MU_CNTL_REG 3.

Definition uart_init_int (use_out_interrupts : bool) : M tty unit :=
  ok ← set_uart_ready;
  on ← m_gets interrupt_on;
  if negb ok && on then mret tt else
  m_modify (set_interrupt_on true);;
  (if use_out_interrupts then rpi_putchar_set Queued;; mret tt else mret tt);;
  rpi_getchar_set Queued;;
  on_tio stdio_init;;
  on_pins (gpio_set_function GPIO_TX GPIO_FUNC_ALT5);;
  on_pins (gpio_set_function GPIO_RX GPIO_FUNC_ALT5);;
  on_pins (PUT32 Enable_IRQs_1 (Z.shiftl 1 IRQ_AUX));;
  on_line (int_regs use_out_interrupts).

Definition uart_reset_int_off : M tty unit :=
  on_line (uart_disable_interrupt 0);;
  on_line (uart_disable_interrupt 1);;
  on_line uart_disable;;
  reset_uart_ready;;
  rpi_putchar_reset;;
  m_modify (set_interrupt_on false);;
  uart_init.

Definition uart_interrupt_is_on : M tty bool := m_gets interrupt_on.

(** [uart_int_getchar]: the system call [REQUEST_STDIN] is [request]. *)
Fixpoint uart_int_getchar (request : M tty unit) (fuel : nat) : M tty Z :=
  match fuel with
  | O => m_nofuel
  | S fuel =>
      c ← on_tio uart_getc_int;
      if c =? -1 then request;; uart_int_getchar request fuel else mret c
  end.

(** Calls through the two pointers. *)
Definition tty_putchar (c : Z) : M tty Z :=
  w ← m_gets putchar_way;
  on_tio (rpi_putchar (if w is Queued then true else false) c);;
  mret c.
Definition tty_getchar (request : M tty unit) (fuel : nat) : M tty Z :=
  w ← m_gets getchar_way;
  match w with
  | Direct => on_line uart_get8
  | Queued => uart_int_getchar request fuel
  end.
Fixpoint tty_puts (l : list Z) : M tty unit :=
  match l with
  | [] => mret tt
  | c :: l => tty_putchar c;; tty_puts l
  end.

(** ** The set-up *)

Definition line (s : tty) : uart := io_uart (t_io s).
Definition set_line (u : uart) (s : tty) : tty := set_tio (set_uart u (t_io s)) s.

Lemma line_run {A} (m : M uart A) s a u : m (line s) = Done (a, u) -> on_line m s = Done (a, set_line u s).
Proof.
  intros R. unfold on_line, on_tio. apply (zoom_done t_io set_tio _ s).
  by apply (zoom_done io_uart set_uart).
Qed.

Lemma set_line_same s : set_line (line s) s = s.
Proof. by destruct s as [? ? ? ? ? [? ? ? ?]]. Qed.

Lemma pins_run {A} (m : M bcm A) s a b : m (t_pins s) = Done (a, b) -> on_pins m s = Done (a, set_pins b s).
Proof. apply (zoom_done t_pins set_pins). Qed.

(** The registers for eight bits without parity at 115200 baud; [enb] had the UART's bit. *)
Record line_ready (u : uart) : Prop := {
  lr_enabled : Z.testbit (default 0 (u_regs u !! AUXENB)) 0 = true;
  lr_bits : u_regs u !! AUX_MU_LCR_REG = Some 3;
  lr_baud : u_regs u !! AUX_MU_BAUD = Some 270;
  lr_on : u_regs u !! AUX_MU_CNTL_REG = Some 3;
  lr_tx : u_tx u = [];
  lr_rx : u_in u = []
}.

(** The pins of the line are connected to it, the others are as before. *)
Definition connected (b b' : bcm) : Prop :=
  forall p, 0 <= p < 54 ->
    pin_function b' p = if (p =? GPIO_TX) || (p =? GPIO_RX) then GPIO_FUNC_ALT5 else pin_function b p.

Lemma connect_pins_run s : length (fsel (t_pins s)) = 6%nat ->
  exists b1 b2, on_pins (gpio_set_function GPIO_TX GPIO_FUNC_ALT5) s = Done (tt, set_pins b1 s) /\
    on_pins (gpio_set_function GPIO_RX GPIO_FUNC_ALT5) (set_pins b1 s) = Done (tt, set_pins b2 s) /\
    connected (t_pins s) b2 /\ length (fsel b2) = 6%nat /\ b2 = set_fsel (fsel b2) (t_pins s).
Proof.
  intros L.
  destruct (set_function_pins GPIO_TX GPIO_FUNC_ALT5 (t_pins s) L) as (b1 & R1 & E1 & L1 & F1);
    [left; unfold GPIO_TX; lia|unfold GPIO_FUNC_ALT5; lia|].
  destruct (set_function_pins GPIO_RX GPIO_FUNC_ALT5 b1 L1) as (b2 & R2 & E2 & L2 & F2);
    [left; unfold GPIO_RX; lia|unfold GPIO_FUNC_ALT5; lia|].
  exists b1, b2. split_and!; [by apply pins_run| | |done|].
  - by apply (pins_run _ (set_pins b1 s)).
  - intros p Hp. rewrite (F2 p Hp), (F1 p Hp).
    destruct (Z.eqb_spec p GPIO_RX), (Z.eqb_spec p GPIO_TX); done.
  - rewrite E2. cbn [fsel set_fsel]. by rewrite E1.
Qed.

(** What [uart_init] leaves in the registers, after an enabled UART was turned off. *)
Definition init_regs (u : uart) : uart :=
  let enb := default 0 (u_regs u !! AUXENB) in
  let on := negb (Z.land enb 1 =? 0) in
  mk_uart [] (if on then written u else u_out u) [] 0
    (<[AUX_MU_CNTL_REG := 3]> (<[AUX_MU_BAUD := 270]> (<[AUX_MU_MCR_REG := 0]>
      (<[AUX_MU_LCR_REG := 3]> (<[AUX_MU_CNTL_REG := 0]> (<[AUXENB := Z.lor enb 1]>
        (if on then <[AUXENB := Z.ldiff enb 1]> (u_regs u) else u_regs u))))))).

Lemma enable_bit v : Z.testbit (Z.lor v 1) 0 = true.
Proof. by rewrite Z.lor_spec, orb_true_r. Qed.

Lemma init_regs_ready u : line_ready (init_regs u).
Proof.
  split; try done; unfold init_regs; cbn [u_regs].
  - rewrite !lookup_insert_ne by done. rewrite lookup_insert_eq. apply enable_bit.
  - rewrite !lookup_insert_ne by done. by rewrite lookup_insert_eq.
  - rewrite !lookup_insert_ne by done. by rewrite lookup_insert_eq.
  - by rewrite lookup_insert_eq.
Qed.

Lemma init_run s : UART_READY s = false -> length (fsel (t_pins s)) = 6%nat ->
  exists b, uart_init s = Done (tt, set_line (init_regs (line s)) (set_pins b (set_ready true s))) /\
    connected (t_pins s) b /\ length (fsel b) = 6%nat.
Proof.
  intros Hr L. destruct (connect_pins_run (set_ready true s) L) as (b1 & b2 & R1 & R2 & C & L2 & _).
  exists b2. split; [|done]. unfold uart_init, set_uart_ready. rewrite bind_assoc, gets_run, Hr.
  rewrite bind_assoc, modify_run, ret_run. cbn [negb]. mrun R1. mrun R2.
  set (s2 := set_pins b2 (set_ready true s)). change (line s) with (line s2).
  mrun (line_run (aux_get32 AUXENB) s2 _ _ eq_refl). rewrite set_line_same.
  unfold init_regs. destruct (Z.land (default 0 (u_regs (line s2) !! AUXENB)) 1 =? 0); cbn [negb].
  - rewrite ret_run. apply (line_run _ s2). done.
  - mrun (line_run uart_disable s2 _ _ (disable_run _)). by apply (line_run _ (set_line _ s2)).
Qed.

(** The UART is on, or has nothing to send. *)
Definition nothing_stranded (u : uart) : Prop :=
  Z.testbit (default 0 (u_regs u !! AUXENB)) 0 = true \/ u_tx u = [].

Lemma init_regs_written u : nothing_stranded u -> written (init_regs u) = written u.
Proof.
  intros On. unfold written at 1, init_regs. cbn [u_out u_tx]. rewrite app_nil_r.
  destruct (Z.eqb_spec (Z.land (default 0 (u_regs u !! AUXENB)) 1) 0) as [Z0|]; [|done].
  destruct On as [On|Et]; [|unfold written; by rewrite Et, app_nil_r].
  exfalso. assert (Z.testbit (Z.land (default 0 (u_regs u !! AUXENB)) 1) 0 = true) as B.
  { by rewrite Z.land_spec, On. }
  by rewrite Z0 in B.
Qed.

Lemma init_written s s1 : UART_READY s = false -> length (fsel (t_pins s)) = 6%nat ->
  nothing_stranded (line s) -> uart_init s = Done (tt, s1) -> written (line s1) = written (line s).
Proof.
  intros Hr L On R. destruct (init_run s Hr L) as (b & R' & _). rewrite R in R'. injection R' as ->.
  by apply init_regs_written.
Qed.

Lemma init_again s : UART_READY s = true -> uart_init s = Done (tt, s).
Proof. intros Hr. unfold uart_init, set_uart_ready. by rewrite bind_assoc, gets_run, Hr. Qed.

(** ** Printing and reading without interrupts *)

(** What a terminal has been shown, or will be once the line has sent everything. *)
Definition shown (s : tty) : list Z := console (t_io s).

Lemma puts_direct l s : putchar_way s = Direct -> io_ok (t_io s) -> cq_list (putQ (t_io s)) = [] ->
  exists x, tty_puts l s = Done (tt, set_tio x s) /\ io_ok x /\ cq_list (putQ x) = [] /\
    console x = console (t_io s) ++ visible l.
Proof.
  revert s. induction l as [|c l IH]; intros s W O E.
  - exists (t_io s). rewrite app_nil_r. destruct s. by split_and!.
  - cbn [tty_puts]. unfold tty_putchar. rewrite bind_assoc, gets_run, W.
    destruct (putchar_run false c (t_io s) O (fun _ => E)) as (x & R & O' & _ & Co & E').
    rewrite bind_assoc. mrun (zoom_done t_io set_tio _ s _ _ R). rewrite ret_run.
    destruct (IH (set_tio x s) W O' (E' eq_refl)) as (y & R' & Oy & Ey & Cy).
    exists y. split_and!; [exact R'|done..|]. rewrite Cy. cbn [set_tio t_io]. rewrite Co.
    unfold printed. cbn [andb]. by rewrite <-app_assoc, <-visible_app.
Qed.

(** The bytes themselves. *)
Lemma puts_written l s : putchar_way s = Direct ->
  exists u, tty_puts l s = Done (tt, set_line u s) /\ written u = written (line s) ++ (u8 <$> l).
Proof.
  revert s. induction l as [|c l IH]; intros s W.
  - exists (line s). by rewrite set_line_same, app_nil_r.
  - cbn [tty_puts]. unfold tty_putchar. rewrite bind_assoc, gets_run, W.
    destruct (line_put8_run (u8 c) (line s)) as (n & R & _). rewrite bind_assoc.
    change (on_tio (rpi_putchar false c)) with (on_line (uart_put8 (u8 c))).
    mrun (line_run _ s _ _ R). rewrite ret_run.
    match goal with |- context [set_line ?u s] => set (v := u) end.
    destruct (IH (set_line v s) W) as (u & R' & E). exists u. split; [exact R'|]. rewrite E.
    change (line (set_line v s)) with v. unfold written at 1, v. cbn [u_out u_tx]. rewrite app_assoc, u8_idem.
    change (u_out _ ++ u_tx _) with (written (shift_out n (line s))).
    by rewrite written_shift, <-app_assoc.
Qed.

(** What is read of the bytes that wait: the byte after each one read is lost. *)
Fixpoint every_other (l : list Z) : list Z :=
  match l with
  | c :: _ :: l => c :: every_other l
  | _ => l
  end.

(** The bytes of a burst arrive while nothing is read, and are read till none is left. *)
Fixpoint get_n (request : M tty unit) (fuel n : nat) : M tty (list Z) :=
  match n with
  | O => mret []
  | S n => x ← tty_getchar request fuel; r ← get_n request fuel n; mret (x :: r)
  end.
Fixpoint reads (request : M tty unit) (fuel : nat) (bursts : list (list Z)) : M tty (list Z) :=
  match bursts with
  | [] => mret []
  | l :: bursts =>
      on_line (m_modify (arrive l));;
      x ← get_n request fuel (length (every_other l));
      r ← reads request fuel bursts;
      mret (x ++ r)
  end.

(** A burst of bytes that fits in the line's buffer. *)
Definition burst_ok (l : list Z) : Prop := Forall is_u8 l /\ (length l <= FIFO_SIZE)%nat.

Lemma every_other_ind (P : list Z -> Prop) : P [] -> (forall c, P [c]) ->
  (forall c d l, P l -> P (c :: d :: l)) -> forall l, P l.
Proof.
  intros H0 H1 H2. assert (forall l, P l /\ forall c, P (c :: l)) as Hl; [|intros l; apply Hl].
  induction l as [|c l [IH IH']]; [by split|]. split; [apply IH'|]. intros d. by apply H2.
Qed.

Lemma getchar_direct c l s request fuel : getchar_way s = Direct -> u_in (line s) = c :: l -> is_u8 c ->
  exists u, tty_getchar request fuel s = Done (c, set_line u s) /\
    u_in u = drop 1 l /\ visible (written u) = visible (written (line s)).
Proof.
  intros W E Hc. unfold tty_getchar. rewrite gets_run, W.
  destruct (get8_waiting (line s) c l E Hc) as (u & R & Eu & V).
  exists u. split_and!; [by apply (line_run uart_get8 s)|done..].
Qed.

Lemma get_n_direct request fuel l : Forall is_u8 l -> forall s, getchar_way s = Direct -> u_in (line s) = l ->
  exists u, get_n request fuel (length (every_other l)) s = Done (every_other l, set_line u s) /\ u_in u = [] /\
    visible (written u) = visible (written (line s)).
Proof.
  induction l as [|c|c d l IH] using every_other_ind; intros Hl s W E.
  - exists (line s). rewrite set_line_same. by split_and!.
  - apply Forall_cons in Hl as [Hc _]. cbn [every_other length get_n].
    destruct (getchar_direct c [] s request fuel W E Hc) as (u & R & Eu & V). mrun R. by exists u.
  - apply Forall_cons in Hl as [Hc Hl]. apply Forall_cons in Hl as [_ Hl]. cbn [every_other length get_n].
    destruct (getchar_direct c (d :: l) s request fuel W E Hc) as (u & R & Eu & V). mrun R.
    destruct (IH Hl (set_line u s) W Eu) as (v & R' & Ev & V'). mrun R'. exists v.
    split_and!; [done..|]. rewrite V'. exact V.
Qed.

Lemma reads_direct request fuel bursts s : getchar_way s = Direct -> u_in (line s) = [] ->
  Forall burst_ok bursts ->
  exists u, reads request fuel bursts s = Done (concat (every_other <$> bursts), set_line u s) /\ u_in u = [] /\
    visible (written u) = visible (written (line s)).
Proof.
  intros W E Hl. revert s W E. induction Hl as [|l bursts [Hb Hf] _ IH]; intros s W E.
  - exists (line s). by rewrite set_line_same.
  - cbn [reads fmap list_fmap concat]. set (u1 := arrive l (line s)).
    mrun (line_run (m_modify (arrive l)) s tt u1 eq_refl).
    destruct (get_n_direct request fuel l Hb (set_line u1 s) W) as (u & R & Eu & V).
    { change (u_in u1 = l). unfold u1, arrive. cbn [u_in]. rewrite E. cbn [app length]. rewrite Nat.sub_0_r.
      by apply take_ge. }
    mrun R. destruct (IH (set_line u s) W Eu) as (v & R' & Ev & V'). mrun R'. exists v.
    split_and!; [done..|]. rewrite V'. exact V.
Qed.

Lemma every_other_single (l : list Z) : concat (every_other <$> ((fun c => [c]) <$> l)) = l.
Proof. induction l as [|c l IH]; [done|]. cbn. by f_equal. Qed.

(** C35: the console from reset.  uart_init on a UART that is off with nothing to send, as at
    power-on, or on, as a bootloader leaves it, and that this program has not set up, connects
    pins 14 and 15 to the line and no others, sets eight bits and the divisor for 115200 baud
    (the rate is within a thousandth of it), switches interrupts off, and loses nothing that an
    enabled line had still to send.  Afterwards rpi_putchar shows exactly the characters printed
    (NULs excepted), after what was shown before, and a second call changes nothing.
    rpi_getchar, without anything visible being sent, returns exactly the bytes that arrive if
    each is read before the next arrives; of bytes that arrive in bursts of at most eight, each
    read till none is left, it returns every other one, as uart_get8 reads the data register
    twice. *)
Theorem console_works s request fuel text typed bursts :
  UART_READY s = false -> putchar_way s = Direct -> getchar_way s = Direct ->
  length (fsel (t_pins s)) = 6%nat -> io_ok (t_io s) -> cq_list (putQ (t_io s)) = [] ->
  nothing_stranded (line s) ->
  Forall is_u8 typed -> Forall burst_ok bursts ->
  exists s1 s2 s3 s4, uart_init s = Done (tt, s1) /\
    connected (t_pins s) (t_pins s1) /\ line_ready (line s1) /\ u_ier (line s1) = 0 /\
    1000 * Z.abs (250000000 - 115200 * (8 * (default 0 (u_regs (line s1) !! AUX_MU_BAUD) + 1)))
      <= 115200 * (8 * (default 0 (u_regs (line s1) !! AUX_MU_BAUD) + 1)) /\
    uart_init s1 = Done (tt, s1) /\
    tty_puts text s1 = Done (tt, s2) /\ shown s2 = shown s ++ visible text /\
    reads request fuel ((fun c => [c]) <$> typed) s1 = Done (typed, s3) /\ shown s3 = shown s1 /\
    reads request fuel bursts s1 = Done (concat (every_other <$> bursts), s4) /\ shown s4 = shown s1.
Proof.
  intros Hr Wp Wg L O E On Ty Bu. destruct (init_run s Hr L) as (b & R & C & _).
  pose proof (init_regs_ready (line s)) as Rd.
  match type of R with _ = Done (_, ?s) => set (s1 := s) in * end.
  assert (io_ok (t_io s1)) as O1 by (by destruct O).
  assert (shown s1 = shown s) as Sh.
  { unfold shown, console. cbn [s1 set_line set_tio t_io set_uart io_uart putQ set_pins set_ready].
    rewrite E, !app_nil_r. f_equal. by apply init_regs_written. }
  destruct (puts_direct text s1 Wp O1 E) as (x & R2 & _ & _ & Co).
  assert (Sr : forall u, visible (written u) = visible (written (line s1)) -> shown (set_line u s1) = shown s1).
  { intros u V. unfold shown, console. cbn [set_line set_tio t_io set_uart io_uart putQ].
    rewrite !visible_app, V. done. }
  destruct (reads_direct request fuel ((fun c => [c]) <$> typed) s1 Wg eq_refl) as (u & R3 & _ & V).
  { apply Forall_fmap. eapply Forall_impl; [exact Ty|]. intros c Hc. split; [by apply Forall_singleton|cbn; unfold FIFO_SIZE; lia]. }
  rewrite every_other_single in R3.
  destruct (reads_direct request fuel bursts s1 Wg eq_refl Bu) as (v & R4 & _ & V4).
  exists s1, (set_tio x s1), (set_line u s1), (set_line v s1).
  split_and!; [done..| |by apply init_again|done| |done|by apply Sr|done|by apply Sr].
  - change (line s1) with (init_regs (line s)). rewrite (lr_baud _ Rd). cbn. lia.
  - unfold shown in *. cbn [set_tio t_io]. by rewrite Co, Sh.
Qed.

(** ** With interrupts *)

Lemma int_regs_run use_out u : exists u', int_regs use_out u = Done (tt, u') /\ line_ready u' /\
  u_out u' = u_out u /\ u_ier u' = if use_out then 12 else 14.
Proof.
  exists (mk_uart [] (u_out u) [] (if use_out then 12 else 14)
    (<[AUX_MU_CNTL_REG := 3]> (<[AUX_MU_LCR_REG := 3]> (<[AUX_MU_BAUD := 270]> (<[AUX_MU_CNTL_REG := 0]>
      (<[AUXENB := Z.lor (default 0 (u_regs u !! AUXENB)) 1]> (u_regs u))))))).
  split; [reflexivity|]. split; [|split; reflexivity].
  split; cbn [u_regs u_tx u_in]; [| | | |reflexivity..].
  - rewrite !lookup_insert_ne by discriminate. rewrite lookup_insert_eq. apply enable_bit.
  - rewrite lookup_insert_ne by discriminate. apply lookup_insert_eq.
  - rewrite !lookup_insert_ne by discriminate. apply lookup_insert_eq.
  - apply lookup_insert_eq.
Qed.

(** The functions and queues are set before the devices. *)
Definition int_start (use_out : bool) (s : tty) : tty :=
  mk_tty true true (if use_out then Queued else putchar_way s) Queued (t_pins s)
    (mk_io (io_lock (t_io s)) (cq_init 1) (cq_init 1) (line s)).

(** [uart_init_int] turns on the line's interrupt; what the transmit buffer held is lost. *)
Lemma init_int_run use_out s : UART_READY s = false \/ interrupt_on s = false ->
  length (fsel (t_pins s)) = 6%nat -> irqs (t_pins s) <> [] ->
  exists b u, uart_init_int use_out s = Done (tt, set_line u (set_pins b (int_start use_out s))) /\
    connected (t_pins s) b /\ Z.testbit (nth 0 (irqs b) 0) IRQ_AUX = true /\
    line_ready u /\ u_out u = u_out (line s) /\ u_ier u = if use_out then 12 else 14.
Proof.
  intros Hr L I. destruct (connect_pins_run (int_start use_out s) L) as (b1 & b2 & R1 & R2 & C & L2 & E2).
  destruct (int_regs_run use_out (line s)) as (u & R3 & U).
  assert (uart_init_int use_out s =
    (on_pins (gpio_set_function GPIO_TX GPIO_FUNC_ALT5);;
     on_pins (gpio_set_function GPIO_RX GPIO_FUNC_ALT5);;
     on_pins (PUT32 Enable_IRQs_1 (Z.shiftl 1 IRQ_AUX));;
     on_line (int_regs use_out)) (int_start use_out s)) as ->.
  { unfold uart_init_int, set_uart_ready, stdio_init, int_start. generalize (cq_init 1). intros q.
    destruct s as [[] [] p g b [k pq gq v]]; cbn [UART_READY interrupt_on] in Hr.
    1: destruct Hr as [Hr|Hr]; discriminate Hr.
    all: by destruct use_out. }
  mrun R1. mrun R2. set (s2 := set_pins b2 (int_start use_out s)).
  mrun (pins_run (PUT32 Enable_IRQs_1 (Z.shiftl 1 IRQ_AUX)) s2 tt _ eq_refl).
  eexists _, u. split; [by apply (line_run (int_regs use_out) (set_pins _ s2))|].
  split_and!; [exact C| |apply U..]. cbn [s2 set_pins t_pins]. rewrite E2.
  cbn [irqs irq_on set_irqs set_fsel int_start t_pins]. destruct (irqs (t_pins s)) as [|w l]; [contradiction|].
  cbn [nth insert list_insert]. by rewrite Z.lor_spec, orb_true_r.
Qed.

(** [uart_reset_int_off] takes the line back: everything is sent, printing is direct again,
    the interrupts are off.  It does not take back [rpi_getchar]. *)
Lemma reset_int_off_run s : length (fsel (t_pins s)) = 6%nat ->
  exists s', uart_reset_int_off s = Done (tt, s') /\ UART_READY s' = true /\ interrupt_on s' = false /\
    putchar_way s' = Direct /\ getchar_way s' = getchar_way s /\ line_ready (line s') /\
    u_ier (line s') = 0 /\ u_out (line s') = written (line s) /\
    getQ (t_io s') = getQ (t_io s) /\ putQ (t_io s') = putQ (t_io s).
Proof.
  intros L. unfold uart_reset_int_off.
  mrun (line_run _ s _ _ (disable_interrupt_run 0 _)).
  match goal with |- context [set_line ?u s] => set (s1 := set_line u s) end.
  mrun (line_run _ s1 _ _ (disable_interrupt_run 1 _)).
  match goal with |- context [set_line ?u s1] => set (s2 := set_line u s1) end.
  mrun (line_run _ s2 _ _ (disable_run _)).
  match goal with |- context [set_line ?u s2] => set (s3 := set_line u s2) end.
  unfold reset_uart_ready, rpi_putchar_reset. rewrite bind_assoc, modify_run, ret_run, !modify_run.
  match goal with |- exists _, uart_init ?s = _ /\ _ => set (s4 := s) end.
  destruct (init_run s4 eq_refl L) as (b & R & _). eexists. split; [exact R|].
  pose proof (init_regs_ready (line s4)) as Rd. split_and!; try reflexivity; [exact Rd|].
  change (line (set_line (init_regs (line s4)) _)) with (init_regs (line s4)). unfold init_regs.
  cbn [u_out u_tx]. change (written (line s4)) with (written (line s) ++ []).
  change (u_out (line s4)) with (written (line s)). rewrite app_nil_r. by destruct (negb _).
Qed.

(** [uart_getc_int] on the two states of the input queue; it leaves the receive interrupt on. *)
Lemma getc_int_run x : io_ok x ->
  exists y, uart_getc_int x = Done (match cq_list (getQ x) with [] => -1 | c :: _ => c end, y) /\
    cq_list (getQ y) = drop 1 (cq_list (getQ x)) /\ io_ok y /\ Z.testbit (u_ier (io_uart y)) 0 = true /\
    console y = console x /\ io_lock y = io_lock x.
Proof.
  intros O. unfold uart_getc_int. rewrite (uart_run _ _ x _ _ (disable_interrupt_run 0 _)).
  match goal with |- context [set_uart ?u x] => set (x1 := set_uart u x) end.
  unfold stdin_queue_is_empty. rewrite gets_run. change (getQ x1) with (getQ x).
  destruct (cq_list (getQ x)) as [|c l] eqn:E.
  - rewrite (proj2 (empty_spec (getQ x) (ok_get _ O)) E).
    rewrite (uart_run _ _ x1 _ _ (enable_interrupt_run 0 _)). eexists. split; [reflexivity|].
    split; [exact E|]. split; [by destruct O|]. split_and!; [apply enable_bit|done..].
  - destruct (cq_empty (getQ x)) eqn:Em.
    { apply (empty_spec _ (ok_get _ O)) in Em. congruence. }
    destruct (pop_cons false (getQ x) c l (ok_get _ O) E) as (q & R & W & El & _).
    mrun (zoom_done getQ (fun q s => mk_io (io_lock s) (putQ s) q (io_uart s)) _ x1 _ _ R).
    match goal with |- context [mk_io ?a ?b ?c ?d] => set (x2 := mk_io a b c d) end.
    rewrite (uart_run _ _ x2 _ _ (enable_interrupt_run 0 _)). eexists. split; [reflexivity|].
    split; [exact El|]. split; [split; [apply O|exact W]|]. split_and!; [apply enable_bit|done..].
Qed.

(** So the interrupts do not stay off: the next attempt to read turns them on again. *)
Lemma getchar_after_reset s : length (fsel (t_pins s)) = 6%nat -> getchar_way s = Queued -> io_ok (t_io s) ->
  exists s' c s'', uart_reset_int_off s = Done (tt, s') /\ u_ier (line s') = 0 /\ getchar_way s' = Queued /\
    on_tio uart_getc_int s' = Done (c, s'') /\ interrupt_on s'' = false /\ Z.testbit (u_ier (line s'')) 0 = true.
Proof.
  intros L W O. destruct (reset_int_off_run s L) as (s' & R & _ & Io & _ & W' & _ & Ie & _ & G & P).
  destruct (getc_int_run (t_io s')) as (y & Ry & _ & _ & B & _); [split; rewrite ?G, ?P; apply O|].
  eexists s', _, _. split_and!; [exact R|exact Ie|congruence|exact (zoom_done t_io set_tio _ s' _ _ Ry)|exact Io|exact B].
Qed.

(** ** A machine at reset *)

Module ConsoleExample.
(** The UART is off. *)
Definition at_reset : tty :=
  mk_tty false false Direct Direct bcm0
    (mk_io 0 (cq_init 1) (cq_init 1) (mk_uart [] [] [] 0 ∅)).

Lemma console_works_witness : exists s1 s2 s3 s4, uart_init at_reset = Done (tt, s1) /\
  tty_puts [111; 107] s1 = Done (tt, s2) /\ shown s2 = shown at_reset ++ [111; 107] /\
  reads (mret tt) 0 [[97]; [98]] s1 = Done ([97; 98], s3) /\
  reads (mret tt) 0 [[97; 98; 99]; [100]] s1 = Done ([97; 99; 100], s4).
Proof.
  destruct (console_works at_reset (mret tt) 0 [111; 107] [97; 98] [[97; 98; 99]; [100]]) as
    (s1 & s2 & s3 & s4 & R1 & _ & _ & _ & _ & _ & R2 & Sh & R3 & _ & R4 & _); try reflexivity.
  - split; apply cq_init_wf.
  - right. reflexivity.
  - repeat constructor; unfold is_u8; lia.
  - repeat constructor; unfold is_u8, FIFO_SIZE; cbn; lia.
  - exists s1, s2, s3, s4. split_and!; [exact R1|exact R2|exact Sh|exact R3|exact R4].
Defined.
End ConsoleExample.
