(* ===== verification/Boot.v ===== *)
(** * From reset to reboot

    src/libpi/staff-src/cstart.c (what runs before and after a program), custom-loader.c,
    src/libpi/libc/putk.c, src/libpi/staff-src/clean-reboot.c and reboot.c, on the console of
    Console.v.  Delays only let time pass and are left out; the watchdog of the chip takes
    writes that carry its password, and a full reset is asked for when both registers are
    written. *)

From stdpp Require Import base tactics option list numbers gmap.
From Stdlib Require Import ZArith Lia.
From S2P Require Import Prelude Circular Gpio Uart ThreadIo Console.
#[local] Open Scope Z_scope.

Record machine : Type := mk_machine {
  m_mem : gmap Z Z;          (** words of memory *)
  m_cpsr : Z;
  m_cycles : bool;           (** the cycle counter runs *)
  m_pm : gmap Z Z;           (** the watchdog's registers *)
  m_tty : tty
}.

Definition set_words (w : gmap Z Z) (s : machine) : machine := mk_machine w (m_cpsr s) (m_cycles s) (m_pm s) (m_tty s).
Definition set_cpsr (c : Z) (s : machine) : machine := mk_machine (m_mem s) c (m_cycles s) (m_pm s) (m_tty s).
Definition set_cycles (b : bool) (s : machine) : machine := mk_machine (m_mem s) (m_cpsr s) b (m_pm s) (m_tty s).
Definition set_pm (p : gmap Z Z) (s : machine) : machine := mk_machine (m_mem s) (m_cpsr s) (m_cycles s) p (m_tty s).
Definition set_tty (t : tty) (s : machine) : machine := mk_machine (m_mem s) (m_cpsr s) (m_cycles s) (m_pm s) t.

Definition on_tty {A} (m : M tty A) : M machine A := m_zoom m_tty set_tty m.

(** ** Rebooting *)

Definition PM_RSTC : Z := 0x2010001c.
Definition PM_WDOG : Z := 0x20100024.
Definition PM_PASSWORD : Z := 0x5a000000.
Definition PM_RSTC_WRCFG_FULL_RESET : Z := 0x00000020.

Definition pm_put32 (a v : Z) : M machine unit :=
  m_modify (fun s => if Z.shiftr v 24 =? 0x5a then set_pm (<[a := Z.land v 0xffffff]> (m_pm s)) s else s).

(** The machine is about to reset itself. *)
Definition resetting (s : machine) : bool :=
  (default 0 (m_pm s !! PM_RSTC) =? 0x20) && (0 <? default 0 (m_pm s !! PM_WDOG)).

Definition user_level : Z := 16.
Definition at_user_level : M machine bool := m_gets (fun s => Z.land (m_cpsr s) 31 =? user_level).
(** A write to the processor's status from user level does not change the mode. *)
Definition set_user_level : M machine unit :=
  m_modify (fun s => if Z.land (m_cpsr s) 31 =? user_level then s
                     else set_cpsr (Z.lor (Z.ldiff (m_cpsr s) 31) user_level) s).

(** Up to the endless loop at its end. *)
Definition rpi_reboot : M machine unit :=
  u ← at_user_level;
  (if (u : bool) then set_user_level else mret tt);;
  on_tty (on_line uart_flush_tx);;
  pm_put32 PM_WDOG (Z.lor PM_PASSWORD 1);;
  pm_put32 PM_RSTC (Z.lor PM_PASSWORD PM_RSTC_WRCFG_FULL_RESET).

(** [p] is what is before the string's NUL. *)
Definition putk (p : list Z) : M tty Z := tty_puts p;; mret 1.

(** "DONE!!!" and a newline. *)
Definition done_string : list Z := [68; 79; 78; 69; 33; 33; 33; 10].

Definition clean_reboot : M machine unit :=
  on_tty (putk done_string);;
  on_tty (on_line uart_flush_tx);;
  rpi_reboot.

(** ** Starting *)

Definition custom_loader : M machine unit := mret tt.

(** [while (bss < bss_end) *bss++ = 0;] *)
Fixpoint bss_loop (fuel : nat) (bss bss_end : Z) : M machine unit :=
  match fuel with
  | O => m_nofuel
  | S fuel =>
      if bss <? bss_end then
        m_modify (fun s => set_words (<[bss := 0]> (m_mem s)) s);;
        bss_loop fuel (bss + 4) bss_end
      else mret tt
  end.

(** A turn for every word. *)
Definition bss_fuel (bss bss_end : Z) : nat := S (Z.to_nat (bss_end - bss)).

Definition cycle_cnt_init : M machine unit := m_modify (set_cycles true).

Definition cstart (bss_start bss_end : Z) (notmain : M machine unit) : M machine unit :=
  custom_loader;;
  bss_loop (bss_fuel bss_start bss_end) bss_start bss_end;;
  on_tty uart_init;;
  cycle_cnt_init;;
  notmain;;
  clean_reboot.

(** ** What they do *)

Lemma tty_run {A} (m : M tty A) s a t : m (m_tty s) = Done (a, t) -> on_tty m s = Done (a, set_tty t s).
Proof. apply (zoom_done m_tty set_tty). Qed.

(** Words from [a], every fourth byte, below [b]. *)
Definition in_bss (a b x : Z) : Prop := a <= x < b /\ (x - a) mod 4 = 0.

Lemma bss_loop_run fuel a b s : (Z.to_nat (b - a) < fuel)%nat ->
  exists w, bss_loop fuel a b s = Done (tt, set_words w s) /\
    (forall x, in_bss a b x -> w !! x = Some 0) /\ (forall x, ~ in_bss a b x -> w !! x = m_mem s !! x).
Proof.
  revert a s. induction fuel as [|fuel IH]; intros a s L; [lia|]. cbn [bss_loop].
  destruct (Z.ltb_spec a b) as [Lt|Ge].
  - rewrite modify_run. destruct (IH (a + 4) (set_words (<[a := 0]> (m_mem s)) s)) as (w & R & In & Out); [lia|].
    exists w. split; [exact R|]. cbn [set_words m_mem] in Out.
    assert (forall x, in_bss a b x <-> x = a \/ in_bss (a + 4) b x) as Step.
    { intros x. unfold in_bss. split.
      - intros [Hx Hm]. destruct (decide (x = a)) as [->|Ne]; [by left|right].
        revert Hm. Z.to_euclidean_division_equations. lia.
      - intros [->|[Hx Hm]]; [rewrite Z.sub_diag; split; [lia|done]|].
        revert Hm. Z.to_euclidean_division_equations. lia. }
    split; intros x Hx.
    + apply Step in Hx as [->|Hx]; [|by apply In].
      rewrite Out; [apply lookup_insert_eq|]. unfold in_bss. lia.
    + assert (x <> a /\ ~ in_bss (a + 4) b x) as [Ne No] by (rewrite Step in Hx; tauto).
      rewrite (Out x No). by apply lookup_insert_ne.
  - exists (m_mem s). split; [by destruct s|]. split; intros x; [unfold in_bss; lia|done].
Qed.

Lemma pm_put_run a v s : Z.shiftr v 24 = 0x5a ->
  pm_put32 a v s = Done (tt, set_pm (<[a := Z.land v 0xffffff]> (m_pm s)) s).
Proof. intros E. unfold pm_put32, m_modify. by rewrite E. Qed.

(** Everything written is sent, and the machine resets. *)
Lemma reboot_run s : exists s', rpi_reboot s = Done (tt, s') /\ resetting s' = true /\
  u_out (line (m_tty s')) = written (line (m_tty s)) /\ u_tx (line (m_tty s')) = [] /\ m_mem s' = m_mem s.
Proof.
  unfold rpi_reboot, at_user_level. rewrite gets_run.
  assert ((if Z.land (m_cpsr s) 31 =? user_level then set_user_level else mret tt) s = Done (tt, s)) as R3.
  { unfold set_user_level, m_modify. by destruct (_ =? user_level) eqn:U; rewrite ?U. }
  mrun R3. mrun (tty_run _ s _ _ (line_run _ _ _ _ (flush_tx_run (line (m_tty s))))).
  match goal with |- context [set_tty ?t s] => set (s1 := set_tty t s) end.
  mrun (pm_put_run PM_WDOG (Z.lor PM_PASSWORD 1) s1 eq_refl).
  rewrite pm_put_run by reflexivity. eexists. split; [reflexivity|].
  split; [|split; [reflexivity|split; reflexivity]].
  unfold resetting. cbn [set_pm m_pm]. rewrite lookup_insert_eq, lookup_insert_ne by discriminate.
  by rewrite lookup_insert_eq.
Qed.

Lemma clean_reboot_run s : putchar_way (m_tty s) = Direct ->
  exists s', clean_reboot s = Done (tt, s') /\ resetting s' = true /\
    u_out (line (m_tty s')) = written (line (m_tty s)) ++ done_string /\ m_mem s' = m_mem s.
Proof.
  intros W. destruct (puts_written done_string (m_tty s) W) as (u & R & E).
  unfold clean_reboot. assert (putk done_string (m_tty s) = Done (1, set_line u (m_tty s))) as Pk.
  { unfold putk. by mrun R. }
  mrun (tty_run _ s _ _ Pk). set (s1 := set_tty (set_line u (m_tty s)) s).
  mrun (tty_run _ s1 _ _ (line_run _ _ _ _ (flush_tx_run (line (m_tty s1))))).
  match goal with |- context [set_tty ?t s1] => set (s2 := set_tty t s1) end.
  destruct (reboot_run s2) as (s' & R' & Re & Ou & _ & Me). exists s'. split_and!; [done..| |done].
  rewrite Ou. change (written (line (m_tty s2))) with (written u ++ []). by rewrite app_nil_r, E.
Qed.

(** A program that starts with its variables zero and the console set up. *)
Lemma cstart_run a b notmain s : UART_READY (m_tty s) = false -> length (fsel (t_pins (m_tty s))) = 6%nat ->
  exists s1, cstart a b notmain s = (notmain;; clean_reboot) s1 /\
    (forall x, in_bss a b x -> m_mem s1 !! x = Some 0) /\
    (forall x, ~ in_bss a b x -> m_mem s1 !! x = m_mem s !! x) /\
    m_cycles s1 = true /\ uart_init (m_tty s) = Done (tt, m_tty s1) /\ line_ready (line (m_tty s1)) /\
    putchar_way (m_tty s1) = putchar_way (m_tty s).
Proof.
  intros Hr L. unfold cstart, custom_loader. rewrite ret_run.
  destruct (bss_loop_run (bss_fuel a b) a b s) as (w & R & In & Out); [unfold bss_fuel; lia|]. mrun R.
  destruct (init_run (m_tty s) Hr L) as (p & Ri & _). mrun (tty_run _ (set_words w s) _ _ Ri).
  unfold cycle_cnt_init. rewrite modify_run. eexists. split; [reflexivity|].
  split_and!; [exact In|exact Out|done|exact Ri|apply init_regs_ready|done].
Qed.
