(* ===== verification/Host.v ===== *)
(** * The host's side (src/libunix)

    What runs on the computer the Pi is connected to: pi-cat.c and pi-echo.c, which show what
    the Pi prints until it says it is done; read-exact.c, write-exact.c, read-timeout.c and
    put-get.c, which talk to its boot loader; pitag-linker.c and read-file.c, which put programs
    together; suffix.c and find-ttyusb.c.  What the operating system answers is given: the bytes
    a [read] returns, how many a [write] takes, the names in a directory.  Characters are
    classified as in the C locale. *)

From stdpp Require Import base tactics option list numbers gmap.
From Stdlib Require Import ZArith Lia.
From S2P Require Import Prelude Circular Gpio Uart ThreadIo Console Boot.
#[local] Open Scope Z_scope.

(** ** Showing what the Pi prints *)

Definition exit_string : list Z := [68; 79; 78; 69; 33; 33; 33; 10].

(** The state is the static variable [pos]; [s] is the string up to its NUL, or with it. *)
Fixpoint pi_done (s : list Z) : M Z bool :=
  match s with
  | [] => mret false
  | c :: s =>
      if c =? 0 then mret false else
      pos ← m_gets (fun p => p);
      m_assert (pos <? 8);;
      if negb (c =? nth (Z.to_nat pos) exit_string 0) then
        m_modify (fun _ => 0);; pi_done s
      else
        m_modify (fun _ => pos + 1);;
        if pos + 1 =? 8 then mret true else pi_done s
  end.

Definition isprint (c : Z) : bool := (32 <=? c) && (c <=? 126).
Definition isspace (c : Z) : bool := (c =? 32) || ((9 <=? c) && (c <=? 13)).

Definition clean_char (c : Z) : Z :=
  if isprint c || (isspace c && negb (c =? 13)) then c else 32.
Definition remove_nonprint (buf : list Z) (n : nat) : list Z :=
  (clean_char <$> take n buf) ++ drop n buf.

(** What [read] from the Pi returns: bytes, nothing (and whether the device is gone), an
    error. *)
Inductive got : Type :=
  | Bytes (l : list Z)
  | Nothing (gone : bool)
  | Error.

(** How the loop ends. *)
Inductive ending : Type := PiExited | TtyGone | ReadFailed.

Record host : Type := mk_host { h_pos : Z; h_shown : list Z; h_sent : list Z }.
Definition set_pos (p : Z) (s : host) : host := mk_host p (h_shown s) (h_sent s).
Definition show (l : list Z) (s : host) : host := mk_host (h_pos s) (h_shown s ++ l) (h_sent s).
Definition send (l : list Z) (s : host) : host := mk_host (h_pos s) (h_shown s) (h_sent s ++ l).
Definition on_pos {A} (m : M Z A) : M host A := m_zoom h_pos set_pos m.

(** [output("%s", buf)]: up to the first NUL. *)
Fixpoint upto_nul (l : list Z) : list Z :=
  match l with
  | [] => []
  | c :: l => if c =? 0 then [] else c :: upto_nul l
  end.

(** One [read] from the Pi, in both loops: [Some] is the way the program ends.  The buffer has
    4096 bytes and one is for the NUL. *)
Definition pi_turn (g : got) : M host (option ending) :=
  match g with
  | Nothing gone => mret (if (gone : bool) then Some TtyGone else None)
  | Error => mret (Some ReadFailed)
  | Bytes l =>
      (if 4096 <=? Z.of_nat (length l) then m_undef else mret tt);;
      let buf := remove_nonprint (l ++ [0]) (length l) in
      m_modify (show (upto_nul buf));;
      fin ← on_pos (pi_done buf);
      mret (if (fin : bool) then Some PiExited else None)
  end.

Fixpoint pi_cat (gs : list got) : M host ending :=
  match gs with
  | [] => m_nofuel
  | g :: gs =>
      r ← pi_turn g;
      match r with
      | Some e => mret e
      | None => pi_cat gs
      end
  end.

(** [write] takes [took] bytes, or fails (negative). *)
Definition write_exact (took : Z) (l : list Z) : M host unit :=
  m_assert (negb (Z.of_nat (length l) =? 0));;
  if took <? 0 then m_panic else
  m_modify (send (take (Z.to_nat took) l));;
  if negb (took =? Z.of_nat (length l)) then m_panic else mret tt.

(** [read_timeout]: the number [read] returns is compared as unsigned, so that a failure is
    returned as -1. *)
Inductive typed : Type := Quiet | Typed (l : list Z) | TypedError.

(** A turn of [pi_echo]: what was typed, how much of it the Pi's device takes, and what was
    read from the Pi, if anything was there.  The NUL written behind what was typed can be
    written outside the buffer. *)
Definition echo_turn (t : typed) (took : Z) (g : option got) : M host (option ending) :=
  match t with
  | Quiet => mret tt
  | TypedError => m_undef
  | Typed [] => mret tt
  | Typed l =>
      (if 4096 <=? Z.of_nat (length l) then m_undef else mret tt);;
      write_exact took l
  end;;
  match g with
  | None => mret None
  | Some g => pi_turn g
  end.

Fixpoint pi_echo (ts : list (typed * Z * option got)) : M host ending :=
  match ts with
  | [] => m_nofuel
  | (t, took, g) :: ts =>
      r ← echo_turn t took g;
      match r with
      | Some e => mret e
      | None => pi_echo ts
      end
  end.

(** ** Bytes of a device *)

(** What is to be read, in the pieces it arrives in; [read] returns at most one piece. *)
Definition stream : Type := list (list Z).

Definition os_read (n : nat) : M stream (list Z) :=
  s ← m_gets (fun s => s);
  match s with
  | [] => mret []
  | p :: s => m_modify (fun _ => if Nat.leb (length p) n then s else drop n p :: s);; mret (take n p)
  end.

Definition read_exact (n : nat) : M stream (list Z) :=
  m_assert (negb (Nat.eqb n 0));;
  l ← os_read n;
  if negb (Nat.eqb (length l) n) then m_panic else mret l.

Definition get_uint8 : M stream Z :=
  l ← read_exact 1; match l with [b] => mret b | _ => m_panic end.

Definition get_uint32 : M stream Z :=
  b0 ← get_uint8;
  b1 ← get_uint8;
  b2 ← get_uint8;
  b3 ← get_uint8;
  mret (Z.lor (Z.lor (Z.lor b0 (Z.shiftl b1 8)) (Z.shiftl b2 16)) (u32 (Z.shiftl b3 24))).

(** The bytes [put_uint8], [put_uint32] write. *)
Definition put_uint8 (b : Z) : list Z := [b].
Definition put_uint32 (u : Z) : list Z := le_bytes 4 u.

(** ** Names *)

Definition suffix_cmp (s suffix : list Z) : bool :=
  if Nat.ltb (length s) (length suffix) then false
  else bool_decide (drop (length s - length suffix) s = suffix).
Definition prefix_cmp (s prefix : list Z) : bool :=
  if Nat.ltb (length s) (length prefix) then false
  else bool_decide (take (length prefix) s = prefix).

(** The names [filter] accepts are compared as a whole. *)
Definition ttyusb_prefixes : list (list Z) :=
  [[116; 116; 121; 85; 83; 66];                                    (* ttyUSB *)
   [116; 116; 121; 65; 67; 77];                                    (* ttyACM *)
   [99; 117; 46; 83; 76; 65; 66; 95; 85; 83; 66];                  (* cu.SLAB_USB *)
   [99; 117; 46; 117; 115; 98; 115; 101; 114; 105; 97; 108];       (* cu.usbserial *)
   [99; 117; 46; 117; 115; 98; 115; 101; 114; 105; 97; 108; 45; 48; 48; 48; 49]].
Definition tty_filter (d_name : list Z) : bool :=
  existsb (fun p => bool_decide (d_name = p)) ttyusb_prefixes.

Definition dev_slash : list Z := [47; 100; 101; 118; 47].

(** [names]: what [scandir] finds in /dev; [None] is a failure, and the program exits. *)
Definition find_ttyusb (names : option (list (list Z))) : M unit (list Z) :=
  match names with
  | None => m_panic
  | Some names =>
      match List.filter tty_filter names with
      | [name] => mret (dev_slash ++ name)
      | _ => m_panic
      end
  end.

(** ** Files with programs *)

(** [read] puts [got] bytes into a buffer of zeros whose size is a multiple of four; [None] is
    the null pointer. *)
Definition read_file (contents : option (list Z)) (opened : bool) (got : option nat) (closed : bool)
    : option (Z * list Z) :=
  match contents with
  | None => None
  | Some bs =>
      let div4 := (Z.of_nat (length bs) + 3) / 4 in
      if negb opened then None else
      match got with
      | None => None
      | Some n =>
          if negb closed then None else
          Some (Z.of_nat (length bs), take n bs ++ replicate (Z.to_nat (div4 * 4) - length (take n bs)) 0)
      end
  end.

Definition BIN_TAG : Z := 0x12345678.

(** The file written so far, and [tot_nbytes]. *)
Record pitag_t : Type := mk_pitag { tag_file : list Z; tot_nbytes : Z }.

(** [write_exact] to the file, which takes everything. *)
Definition tag_write (l : list Z) (h : pitag_t) : pitag_t := mk_pitag (tag_file h ++ l) (tot_nbytes h).

Definition pitag_start (prog : list Z) : pitag_t := mk_pitag prog (u32 (Z.of_nat (length prog))).

(** [bin_name] without its NUL. *)
Definition pitag_add_bin (bin_name bin : list Z) (h : pitag_t) : pitag_t :=
  let entry_nbytes := u32 (Z.of_nat (length bin_name) + 1 + Z.of_nat (length bin) + 4 * 4) in
  let h := tag_write (le_bytes 4 BIN_TAG) h in
  let h := tag_write (le_bytes 4 entry_nbytes) h in
  let h := tag_write (le_bytes 4 (u32 (Z.of_nat (length bin)))) h in
  let h := tag_write (le_bytes 4 (tot_nbytes h)) h in
  let h := tag_write bin h in
  let h := tag_write (bin_name ++ [0]) h in
  mk_pitag (tag_file h) (u32 (tot_nbytes h + entry_nbytes)).

(** ** Detecting the end *)

Definition no_nul (l : list Z) : Prop := Forall (fun c => c <> 0) l.

(** One more character when [p] of the string have been seen. *)
Definition advance (p c : Z) : Z := if c =? nth (Z.to_nat p) exit_string 0 then p + 1 else 0.

Lemma done_cons c s p : c <> 0 -> 0 <= p < 8 ->
  pi_done (c :: s) p = if advance p c =? 8 then Done (true, 8) else pi_done s (advance p c).
Proof.
  intros Hc Hp. cbn [pi_done]. rewrite (proj2 (Z.eqb_neq c 0)) by done. rewrite gets_run.
  unfold m_assert. rewrite (proj2 (Z.ltb_lt p 8)) by lia. rewrite ret_run. unfold advance.
  destruct (c =? nth (Z.to_nat p) exit_string 0); cbn [negb]; rewrite modify_run; [|done].
  destruct (Z.eqb_spec (p + 1) 8) as [->|]; done.
Qed.

Lemma advance_range p c : 0 <= p < 8 -> 0 <= advance p c <= 8.
Proof. unfold advance. destruct (_ =? _); lia. Qed.

(** The string is found, or what comes next is judged from where this leaves off. *)
Lemma done_app s t p : no_nul s -> 0 <= p < 8 ->
  (pi_done s p = Done (true, 8) /\ pi_done (s ++ t) p = Done (true, 8)) \/
  (exists q, pi_done s p = Done (false, q) /\ 0 <= q < 8 /\ pi_done (s ++ t) p = pi_done t q).
Proof.
  revert p. induction s as [|c s IH]; intros p N Hp.
  - right. by exists p.
  - apply Forall_cons in N as [Nc N]. cbn [app]. rewrite !done_cons by done.
    destruct (Z.eqb_spec (advance p c) 8); [by left|]. apply IH; [done|].
    pose proof (advance_range p c Hp). lia.
Qed.

(** After a newline nothing of the string has been seen. *)
Lemma done_newline s p : no_nul s -> 0 <= p < 8 ->
  pi_done (s ++ [10]) p = Done (true, 8) \/ pi_done (s ++ [10]) p = Done (false, 0).
Proof.
  intros N Hp. destruct (done_app s [10] p N Hp) as [[_ E]|(q & _ & Hq & E)]; [by left|].
  rewrite E, done_cons by lia. unfold advance.
  assert (q = 0 \/ q = 1 \/ q = 2 \/ q = 3 \/ q = 4 \/ q = 5 \/ q = 6 \/ q = 7) as Q by lia.
  destruct Q as [->|[->|[->|[->|[->|[->|[-> | ->]]]]]]]; by (left + right).
Qed.

(** Only the string itself is taken for it. *)
Lemma done_sound s p q : no_nul s -> 0 <= p < 8 -> pi_done s p = Done (true, q) ->
  exists a b, take (Z.to_nat p) exit_string ++ s = a ++ exit_string ++ b.
Proof.
  revert p. induction s as [|c s IH]; intros p N Hp E; [done|]. apply Forall_cons in N as [Nc N].
  rewrite done_cons in E by done. unfold advance in E.
  destruct (Z.eqb_spec c (nth (Z.to_nat p) exit_string 0)) as [Ec|_].
  - assert (take (Z.to_nat p) exit_string ++ [c] = take (Z.to_nat (p + 1)) exit_string) as T.
    { rewrite Z2Nat.inj_add by lia. change (Z.to_nat 1) with 1%nat. rewrite Nat.add_1_r, Ec.
      destruct (lookup_lt_is_Some_2 exit_string (Z.to_nat p)) as [x X]; [cbn; lia|].
      rewrite nth_lookup, X. symmetry. by apply take_S_r. }
    rewrite cons_middle, app_assoc, T. destruct (Z.eqb_spec (p + 1) 8) as [E8|Ne].
    + exists [], s. by rewrite E8.
    + apply IH in E; [done|done|lia].
  - change (0 =? 8) with false in E. cbv iota in E. apply IH in E as (a & b & E); [|done|lia].
    exists (take (Z.to_nat p) exit_string ++ [c] ++ a), b. change (s = a ++ exit_string ++ b) in E.
    rewrite E, <-!app_assoc. done.
Qed.

(** ** Cleaning *)

Lemma clean_nonzero l : no_nul (clean_char <$> l).
Proof.
  apply Forall_fmap, Forall_true. intros c. cbn. unfold clean_char.
  destruct (isprint c) eqn:P; cbn [orb]; [unfold isprint in P; lia|].
  destruct (isspace c) eqn:S; cbn [andb]; [|done]. unfold isspace in S. destruct (c =? 13); cbn [negb]; lia.
Qed.

Lemma clean_exit : clean_char <$> exit_string = exit_string.
Proof. done. Qed.

Lemma clean_done : exit_string = done_string.
Proof. done. Qed.

Lemma upto_nul_end l : no_nul l -> upto_nul (l ++ [0]) = l.
Proof.
  induction l as [|c l IH]; intros N; [done|]. apply Forall_cons in N as [Nc N]. cbn [app upto_nul].
  rewrite (proj2 (Z.eqb_neq c 0)) by done. by rewrite IH.
Qed.

Lemma done_end l p : no_nul l -> 0 <= p < 8 -> pi_done (l ++ [0]) p = pi_done l p.
Proof.
  intros N Hp. destruct (done_app l [0] p N Hp) as [[-> ->]|(q & -> & Hq & ->)]; [done|]. done.
Qed.

(** A read of bytes: they are shown, and the end is looked for in them. *)
Lemma turn_bytes l s : Z.of_nat (length l) < 4096 -> 0 <= h_pos s < 8 ->
  pi_turn (Bytes l) s = match pi_done (clean_char <$> l) (h_pos s) with
    | Done (fin, q) => Done (if fin then Some PiExited else None, set_pos q (show (clean_char <$> l) s))
    | Panic => Panic | Undef => Undef | NoFuel => NoFuel
    end.
Proof.
  intros L Hp. unfold pi_turn. rewrite (proj2 (Z.leb_gt _ _)) by lia. rewrite ret_run, modify_run.
  assert (remove_nonprint (l ++ [0]) (length l) = (clean_char <$> l) ++ [0]) as ->.
  { unfold remove_nonprint. by rewrite take_app_length, drop_app_length. }
  rewrite upto_nul_end by apply clean_nonzero. unfold on_pos, m_zoom, mbind, M_bind. cbn [show h_pos].
  rewrite done_end by (done || apply clean_nonzero). by destruct (pi_done _ _) as [[fin q]| | |].
Qed.

(** ** The loop *)

Definition small (l : list Z) : Prop := Z.of_nat (length l) < 4096.

(** However the text is cut into reads, the loop ends if and when the string is found in the
    whole of it, and what has been read till then is shown. *)
Lemma pi_cat_run cs s : Forall small cs -> 0 <= h_pos s < 8 ->
  match pi_done (clean_char <$> concat cs) (h_pos s) with
  | Done (true, _) => exists k s', pi_cat (Bytes <$> cs) s = Done (PiExited, s') /\
      h_shown s' = h_shown s ++ (clean_char <$> concat (take k cs)) /\
      h_sent s' = h_sent s /\
      pi_done (clean_char <$> concat (take k cs)) (h_pos s) = Done (true, 8)
  | Done (false, _) => pi_cat (Bytes <$> cs) s = NoFuel
  | _ => False
  end.
Proof.
  revert s. induction cs as [|c cs IH]; intros s Hc Hp; [done|].
  apply Forall_cons in Hc as [Hc Hcs]. cbn [concat fmap list_fmap pi_cat].
  rewrite fmap_app. pose proof (turn_bytes c s Hc Hp) as T.
  destruct (done_app (clean_char <$> c) (clean_char <$> concat cs) (h_pos s) (clean_nonzero c) Hp)
    as [[E1 ->]|(q & E1 & Hq & ->)]; rewrite E1 in T; mrun T.
  - exists 1%nat. eexists. split; [reflexivity|]. cbn [take concat set_pos show h_shown h_sent].
    rewrite take_0. cbn [concat]. rewrite app_nil_r. done.
  - specialize (IH (set_pos q (show (clean_char <$> c) s)) Hcs Hq). cbn [set_pos h_pos] in IH.
    destruct (pi_done (clean_char <$> concat cs) q) as [[[] r]| | |] eqn:E2; try done.
    destruct IH as (k & s' & R & Sh & Se & Dn). exists (S k), s'. split; [exact R|].
    cbn [set_pos show h_shown h_sent] in Sh, Se. cbn [take concat]. rewrite fmap_app, app_assoc.
    split_and!; [exact Sh|exact Se|]. 
    destruct (done_app (clean_char <$> c) (clean_char <$> concat (take k cs)) (h_pos s) (clean_nonzero c) Hp)
      as [[_ ->]|(q' & E1' & _ & ->)]; [done|]. congruence.
Qed.

(** Nothing printed, or a whole number of lines. *)
Definition whole_lines (l : list Z) : Prop := exists t, l = t ++ [10].

Lemma done_after_lines t p : whole_lines t -> 0 <= p < 8 ->
  exists q, pi_done (clean_char <$> (t ++ exit_string)) p = Done (true, q).
Proof.
  intros [l ->] Hp. rewrite !fmap_app, clean_exit. change (clean_char <$> [10]) with [10].
  assert (no_nul ((clean_char <$> l) ++ [10])) as N.
  { apply Forall_app. split; [apply clean_nonzero|by repeat constructor]. }
  destruct (done_newline (clean_char <$> l) p (clean_nonzero l) Hp) as [E|E];
    destruct (done_app _ exit_string p N Hp) as [[_ ->]|(q & E' & _ & ->)]; try by eexists.
  - congruence.
  - rewrite E in E'. injection E' as <-. by exists 8.
Qed.

(** ** A program from reset to the end, seen from the host *)

(** [notmain] ends, and has printed [text] and a newline. *)
Definition prints_lines (notmain : M machine unit) : Prop :=
  forall s, line_ready (line (m_tty s)) -> putchar_way (m_tty s) = Direct ->
    exists s' text, notmain s = Done (tt, s') /\ putchar_way (m_tty s') = Direct /\
      written (line (m_tty s')) = written (line (m_tty s)) ++ text ++ [10].

(** C32: a program that prints lines, from reset to its end, with a host that shows what arrives.
    _cstart zeroes the program's variables and nothing else, sets up the console, runs the
    program and says that it is done: the machine resets itself, and by then the line has sent
    exactly what it had sent or still to send before, then what the program printed, every byte
    in order, then the final message.  In whatever pieces of less than 4096 bytes the host reads
    what was sent, and whatever part of the final message it has seen before, pi_cat ends as it
    should (and not as if the device were gone), and it has shown the pieces it read, up to the
    one that completes the message, with characters that are not printable as spaces. *)
Theorem program_seen_by_host a b notmain s h chunks :
  UART_READY (m_tty s) = false -> putchar_way (m_tty s) = Direct ->
  length (fsel (t_pins (m_tty s))) = 6%nat -> nothing_stranded (line (m_tty s)) ->
  prints_lines notmain -> 0 <= h_pos h < 8 ->
  exists s1 s2 s' text, (forall x, in_bss a b x -> m_mem s1 !! x = Some 0) /\
    (forall x, ~ in_bss a b x -> m_mem s1 !! x = m_mem s !! x) /\
    notmain s1 = Done (tt, s2) /\ written (line (m_tty s2)) = written (line (m_tty s1)) ++ text /\
    cstart a b notmain s = Done (tt, s') /\ resetting s' = true /\
    u_out (line (m_tty s')) = written (line (m_tty s)) ++ text ++ done_string /\
    (concat chunks = u_out (line (m_tty s')) -> Forall small chunks ->
      exists k h', pi_cat (Bytes <$> chunks) h = Done (PiExited, h') /\
        h_shown h' = h_shown h ++ (clean_char <$> concat (take k chunks)) /\
        pi_done (clean_char <$> concat (take k chunks)) (h_pos h) = Done (true, 8)).
Proof.
  intros Hr W L On Pr Hp. destruct (cstart_run a b notmain s Hr L) as (s1 & R & In & Out & _ & Ri & Rd & W1).
  destruct (Pr s1 Rd) as (s2 & text & R2 & W2 & T); [congruence|].
  destruct (clean_reboot_run s2 W2) as (s' & R3 & Re & Ou & _).
  pose proof (init_written _ _ Hr L On Ri) as Wr.
  exists s1, s2, s', (text ++ [10]). split_and!; [done|done|done|done|rewrite R; by mrun R2|done| |].
  { by rewrite Ou, T, Wr, <-!app_assoc. }
  intros C Sm. destruct (done_after_lines (written (line (m_tty s2))) (h_pos h)) as [q D]; [|done|].
  { rewrite T. eexists. apply app_assoc. }
  rewrite clean_done, <-Ou, <-C in D. pose proof (pi_cat_run chunks h Sm Hp) as Cr. rewrite D in Cr.
  destruct Cr as (k & h' & Rc & Sh & _ & Dn). by exists k, h'.
Qed.

(** ** Where the host goes wrong *)

(** A character of the message just before it is enough to miss it: the character on which a
    comparison fails is not compared with the beginning of the message. *)
Lemma done_missed t : no_nul t ->
  pi_done t 0 = Done (false, 0) -> pi_done (t ++ 68 :: exit_string) 0 = Done (false, 0).
Proof.
  intros N E. destruct (done_app t (68 :: exit_string) 0 N) as [[E' _]|(q & E' & _ & ->)]; [lia|congruence|].
  rewrite E in E'. injection E' as <-. reflexivity.
Qed.

(** A whole buffer typed at once: the NUL behind it is outside. *)
Lemma echo_overflow l took g s : length l = 4096%nat -> echo_turn (Typed l) took g s = Undef.
Proof.
  intros L. unfold echo_turn. destruct l as [|c l]; [done|]. rewrite bind_assoc. apply bind_undef.
  rewrite L. reflexivity.
Qed.

Lemma echo_error took g s : echo_turn TypedError took g s = Undef.
Proof. done. Qed.

(** What is typed goes to the Pi, if its device takes it, and the loop goes on. *)
Lemma echo_typed l g s : small l -> l <> [] ->
  echo_turn (Typed l) (Z.of_nat (length l)) g s =
    match g with None => mret None | Some g => pi_turn g end (send l s).
Proof.
  intros L Ne. unfold echo_turn. destruct l as [|c l]; [done|]. unfold small in L.
  rewrite bind_assoc, (proj2 (Z.leb_gt _ _)) by lia. rewrite ret_run. unfold write_exact, m_assert.
  rewrite (proj2 (Z.eqb_neq _ 0)) by (cbn [length]; lia). cbn [negb]. rewrite !bind_assoc, ret_run.
  rewrite (proj2 (Z.ltb_ge _ 0)) by lia. rewrite bind_assoc, modify_run, Nat2Z.id, firstn_all, Z.eqb_refl.
  cbn [negb]. by rewrite ret_run.
Qed.

(** ** Bytes of a device *)

Definition pieces (cs : stream) : Prop := Forall (fun p => p <> []) cs.

Lemma get8_stream cs b rest : pieces cs -> concat cs = b :: rest ->
  exists cs', get_uint8 cs = Done (b, cs') /\ pieces cs' /\ concat cs' = rest.
Proof.
  intros P E. destruct cs as [|p cs]; [done|]. apply Forall_cons in P as [Np P].
  destruct p as [|c p]; [done|]. cbn in E. injection E as -> E.
  destruct p as [|d p].
  - exists cs. done.
  - exists ((d :: p) :: cs). split_and!; [done|by constructor|done].
Qed.

Lemma combine_bytes b0 b1 b2 b3 : bytes [b0; b1; b2; b3] ->
  Z.lor (Z.lor (Z.lor b0 (Z.shiftl b1 8)) (Z.shiftl b2 16)) (u32 (Z.shiftl b3 24)) = le_val [b0; b1; b2; b3].
Proof.
  intros B. assert (forall x, x ∈ [b0; b1; b2; b3] -> 0 <= x < 256) as R.
  { intros x Hx. by apply (proj1 (Forall_forall _ _) B). }
  pose proof (R b0 ltac:(set_solver)). pose proof (R b1 ltac:(set_solver)).
  pose proof (R b2 ltac:(set_solver)). pose proof (R b3 ltac:(set_solver)).
  rewrite u32_small by (unfold is_u32; rewrite Z.shiftl_mul_pow2 by lia; change (2 ^ 24) with 16777216; lia).
  assert (forall x y k, 0 <= k -> 0 <= x < 2 ^ k -> 0 <= y -> Z.lor x (Z.shiftl y k) = x + 2 ^ k * y) as A.
  { intros x y k Hk Hx Hy. rewrite Z.shiftl_mul_pow2, <-Z.add_lor_land, Z.mul_comm by lia.
    assert (Z.land x (2 ^ k * y) = 0) as ->; [|lia]. apply Z.bits_inj'. intros i Hi.
    rewrite Z.land_spec, Z.bits_0, Z.mul_comm, Z.mul_pow2_bits by lia.
    destruct (Z.ltb_spec i k); [rewrite (Z.testbit_neg_r y) by lia; apply andb_false_r|].
    destruct (Z.eq_dec x 0) as [->|]; [by rewrite Z.bits_0|]. rewrite (Z.bits_above_log2 x i); [done|lia|].
    apply Z.log2_lt_pow2; [lia|]. apply Z.lt_le_trans with (2 ^ k); [lia|]. apply Z.pow_le_mono_r; lia. }
  rewrite (A b0 b1 8), (A _ b2 16), (A _ b3 24) by
    (change (2 ^ 8) with 256; change (2 ^ 16) with 65536; change (2 ^ 24) with 16777216; lia).
  cbn [le_val]. change (2 ^ 8) with 256. change (2 ^ 16) with 65536. change (2 ^ 24) with 16777216. lia.
Qed.

(** A word that was put is got back, however its bytes dribble in. *)
Lemma uint32_dribbled u cs rest : is_u32 u -> pieces cs -> concat cs = put_uint32 u ++ rest ->
  exists cs', get_uint32 cs = Done (u, cs') /\ pieces cs' /\ concat cs' = rest.
Proof.
  intros Hu P E. unfold put_uint32 in E. pose proof (le_bytes_bytes 4 u) as B.
  pose proof (le_val_bytes 4 u) as V. pose proof (length_le_bytes 4 u) as Ln.
  destruct (le_bytes 4 u) as [|b0 [|b1 [|b2 [|b3 []]]]]; try done. cbn [app] in E.
  unfold get_uint32. destruct (get8_stream _ _ _ P E) as (c1 & R1 & P1 & E1). mrun R1.
  destruct (get8_stream _ _ _ P1 E1) as (c2 & R2 & P2 & E2). mrun R2.
  destruct (get8_stream _ _ _ P2 E2) as (c3 & R3 & P3 & E3). mrun R3.
  destruct (get8_stream _ _ _ P3 E3) as (c4 & R4 & P4 & E4). mrun R4.
  exists c4. split; [|done]. rewrite combine_bytes by done. rewrite V.
  change (2 ^ (8 * Z.of_nat 4)) with (2 ^ 32). by rewrite Z.mod_small.
Qed.

(** A word read in one piece is lost if it comes in two. *)
Lemma read_exact_short p cs : (0 < length p < 4)%nat -> read_exact 4 (p :: cs) = Panic.
Proof.
  intros L. by destruct p as [|a [|b [|c [|d p]]]]; cbn in L; try lia.
Qed.

(** ** Names *)

Lemma prefix_cmp_spec s p : prefix_cmp s p = true <-> p `prefix_of` s.
Proof.
  unfold prefix_cmp. destruct (Nat.ltb_spec (length s) (length p)) as [L|L].
  - split; [done|]. intros Hp%prefix_length. lia.
  - rewrite bool_decide_eq_true. split.
    + intros E. exists (drop (length p) s). rewrite <-E at 1. by rewrite take_drop.
    + intros [k ->]. apply take_app_length.
Qed.

Lemma suffix_cmp_spec s p : suffix_cmp s p = true <-> p `suffix_of` s.
Proof.
  unfold suffix_cmp. destruct (Nat.ltb_spec (length s) (length p)) as [L|L].
  - split; [done|]. intros Hp%suffix_length. lia.
  - rewrite bool_decide_eq_true. split.
    + intros E. exists (take (length s - length p) s). rewrite <-E at 2. by rewrite take_drop.
    + intros [k ->]. rewrite length_app, Nat.add_sub. apply drop_app_length.
Qed.

(** No device of Linux has such a name. *)
Lemma find_ttyusb_misses n names : names = [[116; 116; 121; 85; 83; 66] ++ [48 + n]] ->
  find_ttyusb (Some names) tt = Panic.
Proof. intros ->. reflexivity. Qed.

(** ** Files with programs *)

(** A program that could be read whole: the bytes of the file, then zeros up to a word. *)
Lemma read_file_whole bs n : (length bs <= n)%nat ->
  exists pad, read_file (Some bs) true (Some n) true = Some (Z.of_nat (length bs), bs ++ replicate pad 0) /\
    (pad < 4)%nat /\ Z.of_nat (length (bs ++ replicate pad 0)) mod 4 = 0.
Proof.
  intros L. cbn [read_file negb]. rewrite take_ge by lia.
  set (k := Z.of_nat (length bs)). exists (Z.to_nat ((k + 3) / 4 * 4) - length bs)%nat.
  split; [done|]. rewrite length_app, length_replicate.
  assert (length bs = Z.to_nat k) as -> by (unfold k; lia). assert (0 <= k) by (unfold k; lia).
  clearbody k. split; [Z.to_euclidean_division_equations; lia|].
  rewrite Nat.add_comm, Nat.sub_add by (Z.to_euclidean_division_equations; lia).
  rewrite Z2Nat.id by (Z.to_euclidean_division_equations; lia). apply Z_mod_mult.
Qed.

(** A read that ends early is not noticed: zeros stand for the rest of the program. *)
Lemma read_file_short bs n : (n < length bs)%nat ->
  exists l, read_file (Some bs) true (Some n) true = Some (Z.of_nat (length bs), take n bs ++ l) /\
    Forall (fun c => c = 0) l /\ (0 < length l)%nat.
Proof.
  intros L. eexists. split; [reflexivity|]. split; [apply Forall_replicate; reflexivity|].
  rewrite length_replicate, length_take. Z.to_euclidean_division_equations. lia.
Qed.

(** What a reader of the file needs: the running total is where the next record begins, and
    a record is as long as its second word says, so that records can be skipped. *)
Record tag_ok (h : pitag_t) : Prop := {
  to_total : tot_nbytes h = Z.of_nat (length (tag_file h));
  to_small : Z.of_nat (length (tag_file h)) < 2 ^ 32
}.

(** The record of a program. *)
Definition tag_record (offset : Z) (bin_name bin : list Z) : list Z :=
  le_bytes 4 BIN_TAG ++ le_bytes 4 (Z.of_nat (length bin_name) + 1 + Z.of_nat (length bin) + 16) ++
  le_bytes 4 (Z.of_nat (length bin)) ++ le_bytes 4 offset ++ bin ++ bin_name ++ [0].

Lemma length_tag_record o n b :
  Z.of_nat (length (tag_record o n b)) = Z.of_nat (length n) + 1 + Z.of_nat (length b) + 16.
Proof. unfold tag_record. rewrite !length_app, !length_le_bytes. cbn [length]. lia. Qed.

Lemma pitag_add_ok h bin_name bin : tag_ok h ->
  Z.of_nat (length (tag_file h)) + Z.of_nat (length (tag_record 0 bin_name bin)) < 2 ^ 32 ->
  tag_ok (pitag_add_bin bin_name bin h) /\
  tag_file (pitag_add_bin bin_name bin h) = tag_file h ++ tag_record (Z.of_nat (length (tag_file h))) bin_name bin.
Proof.
  intros [T S] B. rewrite length_tag_record in B.
  assert (tag_file (pitag_add_bin bin_name bin h) = tag_file h ++ tag_record (Z.of_nat (length (tag_file h))) bin_name bin) as F.
  { unfold pitag_add_bin, tag_record. cbn [tag_file tag_write tot_nbytes]. rewrite T.
    rewrite !u32_small by (unfold is_u32; lia). by rewrite <-!app_assoc. }
  split; [|exact F]. split.
  - rewrite F, length_app, Nat2Z.inj_add, length_tag_record. unfold pitag_add_bin. cbn [tag_write tot_nbytes].
    rewrite T. rewrite !u32_small by (unfold is_u32; rewrite ?u32_small by (unfold is_u32; lia); lia). lia.
  - rewrite F, length_app, Nat2Z.inj_add, length_tag_record. lia.
Qed.

(** ** A program that prints a line *)

Module HostExample.
Import ConsoleExample.
Definition at_power_on : machine := mk_machine {[0x9000 := 77]} 0x1f false ∅ at_reset.
Definition hello : M machine unit := on_tty (putk [104; 105; 10]);; mret tt.

Lemma hello_prints : prints_lines hello.
Proof.
  intros s _ W. destruct (puts_written [104; 105; 10] (m_tty s) W) as (u & R & E).
  exists (set_tty (set_line u (m_tty s)) s), [104; 105]. unfold hello.
  assert (putk [104; 105; 10] (m_tty s) = Done (1, set_line u (m_tty s))) as Pk by (unfold putk; by mrun R).
  split_and!; [by mrun (tty_run _ s _ _ Pk)|exact W|exact E].
Qed.

Definition pieces_read : list (list Z) := [[104]; [105; 10; 68; 79]; [78; 69; 33; 33; 33; 10]].

Lemma program_seen_by_host_witness :
  exists s1 s' h' text, cstart 0x9000 0x9008 hello at_power_on = Done (tt, s') /\ m_mem s1 !! 0x9000 = Some 0 /\
    resetting s' = true /\ u_out (line (m_tty s')) = written (line (m_tty at_power_on)) ++ text ++ done_string /\
    pi_cat (Bytes <$> pieces_read) (mk_host 3 [] []) = Done (PiExited, h').
Proof.
  destruct (program_seen_by_host 0x9000 0x9008 hello at_power_on (mk_host 3 [] []) pieces_read) as
    (s1 & s2 & s' & text & In & _ & _ & _ & R & Re & Ou & Host);
    [reflexivity..|right; reflexivity|exact hello_prints|cbn; lia|].
  assert (match cstart 0x9000 0x9008 hello at_power_on with
    Done (_, s) => u_out (line (m_tty s)) | _ => [] end = concat pieces_read) as E by (vm_compute; reflexivity).
  rewrite R in E. destruct (Host (eq_sym E)) as (k & h' & C & _); [repeat constructor|].
  exists s1, s', h', text. split_and!; [exact R|apply In; split; [lia|reflexivity]|exact Re|exact Ou|exact C].
Defined.
End HostExample.
