(* ===== verification/Threads.v ===== *)
(** * Preemptive threads (src/preemptive-threads/preemptive-thread.c)

    Thread blocks live at addresses and are in one of three linked queues; the processor
    runs the current thread or the scheduler.  A context switch never returns to its caller:
    the handlers return the stack address of the context the processor continues with, and
    the assembly around them (thread-asm.S) is the saving and restoring of that context.
    Traces are left out. *)

From stdpp Require Import base tactics option list numbers gmap.
From Stdlib Require Import ZArith Lia.
From S2P Require Import Prelude Circular Vectors Queue Uart ThreadIo.
#[local] Open Scope Z_scope.

Definition THREAD_MAXSTACK : Z := 1024 * 8 / 4.
Definition NONE : Z := 0.
Definition STDIO : Z := 1.

Definition R4_OFFSET : Z := 4.
Definition R5_OFFSET : Z := 5.
Definition LR_OFFSET : Z := 13.
Definition PC_OFFSET : Z := 14.
Definition CPSR_OFFSET : Z := 15.

Definition REQUEST_STDOUT : Z := 1.
Definition WAIT_STDOUT : Z := 2.
Definition REQUEST_STDIN : Z := 3.
Definition END_STDIN : Z := 4.
Definition NRF_SPI_TRANSFER : Z := 8.

Definition USER_MODE : Z := 16.
Definition SYS_MODE : Z := 31.

(** A thread block; its [next] field is in the map of the queues, its stack in the memory. *)
Record pre_thread_t : Type := mk_thread {
  saved_sp : Z;
  th_tid : Z;
  th_fn : Z;
  th_arg : Z;
  block_reason : Z
}.

Definition set_saved_sp (sp : Z) (t : pre_thread_t) : pre_thread_t :=
  mk_thread sp (th_tid t) (th_fn t) (th_arg t) (block_reason t).
Definition set_th_tid (tid : Z) (t : pre_thread_t) : pre_thread_t :=
  mk_thread (saved_sp t) tid (th_fn t) (th_arg t) (block_reason t).
Definition set_reason (r : Z) (t : pre_thread_t) : pre_thread_t :=
  mk_thread (saved_sp t) (th_tid t) (th_fn t) (th_arg t) r.

(** [kmalloc_aligned]: the address of the [n]th block it gives out, and what the block's
    fields hold. *)
Class Kmalloc : Type := {
  block_addr : nat -> Z;
  block_junk : nat -> pre_thread_t
}.

(** Addresses of linked code: [stdout_queue_to_txfifo], [pre_init_trampoline]; the stack
    address at which the scheduler is saved. *)
Class Linked : Type := {
  stdout_queue_to_txfifo_addr : Z;
  pre_init_trampoline_addr : Z;
  scheduler_sp : Z
}.

Record sched : Type := mk_sched {
  s_next : nexts;
  s_th : gmap Z pre_thread_t;
  s_mem : gmap Z Z;
  s_heap : nat;
  runq : Q_t;
  freeq : Q_t;
  blockq : Q_t;
  cur_thread : Z;
  scheduler_thread : Z;
  wait_stdout_thread : Z;
  wait_stdin_thread : Z;
  next_tid : Z;
  nalloced : Z;
  s_io : io
}.

Section Setters.
Context (s : sched).
Definition set_queues (nx : nexts) (r f b : Q_t) : sched :=
  mk_sched nx (s_th s) (s_mem s) (s_heap s) r f b (cur_thread s) (scheduler_thread s)
    (wait_stdout_thread s) (wait_stdin_thread s) (next_tid s) (nalloced s) (s_io s).
Definition set_blocks (th : gmap Z pre_thread_t) : sched :=
  mk_sched (s_next s) th (s_mem s) (s_heap s) (runq s) (freeq s) (blockq s) (cur_thread s)
    (scheduler_thread s) (wait_stdout_thread s) (wait_stdin_thread s) (next_tid s)
    (nalloced s) (s_io s).
Definition set_mem (m : gmap Z Z) : sched :=
  mk_sched (s_next s) (s_th s) m (s_heap s) (runq s) (freeq s) (blockq s) (cur_thread s)
    (scheduler_thread s) (wait_stdout_thread s) (wait_stdin_thread s) (next_tid s)
    (nalloced s) (s_io s).
Definition set_cur (c : Z) : sched :=
  mk_sched (s_next s) (s_th s) (s_mem s) (s_heap s) (runq s) (freeq s) (blockq s) c
    (scheduler_thread s) (wait_stdout_thread s) (wait_stdin_thread s) (next_tid s)
    (nalloced s) (s_io s).
Definition set_scheduler (c : Z) : sched :=
  mk_sched (s_next s) (s_th s) (s_mem s) (s_heap s) (runq s) (freeq s) (blockq s)
    (cur_thread s) c (wait_stdout_thread s) (wait_stdin_thread s) (next_tid s)
    (nalloced s) (s_io s).
Definition set_waits (o i : Z) : sched :=
  mk_sched (s_next s) (s_th s) (s_mem s) (s_heap s) (runq s) (freeq s) (blockq s)
    (cur_thread s) (scheduler_thread s) o i (next_tid s) (nalloced s) (s_io s).
Definition set_next_tid (t : Z) : sched :=
  mk_sched (s_next s) (s_th s) (s_mem s) (s_heap s) (runq s) (freeq s) (blockq s)
    (cur_thread s) (scheduler_thread s) (wait_stdout_thread s) (wait_stdin_thread s) t
    (nalloced s) (s_io s).
Definition set_io (x : io) : sched :=
  mk_sched (s_next s) (s_th s) (s_mem s) (s_heap s) (runq s) (freeq s) (blockq s)
    (cur_thread s) (scheduler_thread s) (wait_stdout_thread s) (wait_stdin_thread s)
    (next_tid s) (nalloced s) x.
End Setters.

Definition on_io {A} (m : M io A) : M sched A := m_zoom s_io (fun x s => set_io s x) m.
Definition on_runq {A} (m : M queue A) : M sched A :=
  m_zoom (fun s => (s_next s, runq s)) (fun nq s => set_queues s nq.1 nq.2 (freeq s) (blockq s)) m.
Definition on_freeq {A} (m : M queue A) : M sched A :=
  m_zoom (fun s => (s_next s, freeq s)) (fun nq s => set_queues s nq.1 (runq s) nq.2 (blockq s)) m.
Definition on_blockq {A} (m : M queue A) : M sched A :=
  m_zoom (fun s => (s_next s, blockq s)) (fun nq s => set_queues s nq.1 (runq s) (freeq s) nq.2) m.

(** [*t], and writing to a field of it. *)
Definition get_thread (t : Z) : M sched pre_thread_t :=
  th ← m_gets s_th; m_opt (th !! t).
Definition upd_thread (t : Z) (f : pre_thread_t -> pre_thread_t) : M sched unit :=
  x ← get_thread t;
  m_modify (fun s => set_blocks s (<[t := f x]> (s_th s))).

Section Threads.
Context `{Kmalloc} `{Linked}.

Definition kmalloc_block : M sched Z :=
  n ← m_gets s_heap;
  m_modify (fun s =>
    mk_sched (<[block_addr n := 0]> (s_next s)) (<[block_addr n := block_junk n]> (s_th s))
      (s_mem s) (S n) (runq s) (freeq s) (blockq s) (cur_thread s) (scheduler_thread s)
      (wait_stdout_thread s) (wait_stdin_thread s) (next_tid s) (u32 (nalloced s + 1))
      (s_io s));;
  mret (block_addr n).

(** The stack begins 32 bytes into the block. *)
Definition stack_addr (t : Z) : Z := t + 32.

Definition th_alloc : M sched Z :=
  t ← on_freeq Q_pop;
  t ← (if t =? 0 then kmalloc_block else mret t);
  m_assert (stack_addr t mod 8 =? 0);;
  n ← m_gets next_tid;
  upd_thread t (set_th_tid n);;
  m_modify (fun s => set_next_tid s (u32 (n + 1)));;
  mret t.

Definition th_free (th : Z) : M sched unit := on_freeq (Q_push th).

(** [saved_sp[i] = v]. *)
Definition store_word (sp i v : Z) : M sched unit :=
  m_modify (fun s => set_mem s (<[sp + 4 * i := v]> (s_mem s))).

Definition pre_fork (code arg : Z) (enable_interrupt sys_mode : bool) : M sched Z :=
  t ← th_alloc;
  let sp := stack_addr t + 4 * (THREAD_MAXSTACK - 17) in
  upd_thread t (fun x => mk_thread sp (th_tid x) code arg NONE);;
  store_word sp R4_OFFSET arg;;
  store_word sp R5_OFFSET code;;
  store_word sp LR_OFFSET pre_init_trampoline_addr;;
  store_word sp PC_OFFSET pre_init_trampoline_addr;;
  let mode := if sys_mode then 31 else 16 in
  store_word sp CPSR_OFFSET
    (Z.lor (if enable_interrupt then 0x60000100 else 0x60000180) mode);;
  on_runq (Q_append t);;
  mret t.

(** The new thread that empties the output queue, in place of the caller. *)
Definition fork_printer : M sched unit :=
  th_printer ← pre_fork stdout_queue_to_txfifo_addr 0 false true;
  upd_thread th_printer (set_reason STDIO);;
  x ← get_thread th_printer;
  on_io (write_stdio_tid (th_tid x)).

Definition stdout_queue_to_txfifo : M sched unit :=
  on_io drain;;
  on_io (write_stdio_tid 0);;
  empty ← on_io stdout_queue_is_empty;
  if (empty : bool) then mret tt else fork_printer.

Definition rxfifo_to_stdin_queue : M sched unit := on_io fill.

(** [cswitch_from_exception(scheduler_thread->saved_sp)], which every blocking path ends
    with. *)
Definition to_scheduler : M sched Z :=
  sch ← m_gets scheduler_thread;
  m_modify (fun s => set_cur s sch);;
  x ← get_thread sch;
  mret (saved_sp x).

(** The current thread cannot have the lock and waits in [blockq]. *)
Definition block_current (sp : Z) : M sched Z :=
  cur ← m_gets cur_thread;
  upd_thread cur (set_saved_sp sp);;
  upd_thread cur (set_reason STDIO);;
  on_blockq (Q_append cur);;
  to_scheduler.

(** [mode] is the mode of the interrupted code; [transfer] is what
    [spi_transfer_syscall_handler] of the radio driver does. *)
Definition syscall_vector (transfer : M sched unit) (sys_num mode sp : Z) : M sched Z :=
  if negb (mode =? USER_MODE) && negb (mode =? SYS_MODE) then m_panic else
  cur ← m_gets cur_thread;
  x ← get_thread cur;
  if sys_num =? REQUEST_STDOUT then
    idle ← on_io (stdio_is_idle (th_tid x));
    if (idle : bool) then
      on_io (write_stdio_tid (th_tid x));;
      upd_thread cur (set_reason STDIO);;
      mret sp
    else block_current sp
  else if sys_num =? REQUEST_STDIN then
    idle ← on_io (stdio_is_idle (th_tid x));
    if (idle : bool) then
      on_io (on_uart (uart_flush_rx;; uart_enable_interrupt 0));;
      on_io (write_stdio_tid (th_tid x));;
      upd_thread cur (set_reason STDIO);;
      upd_thread cur (set_saved_sp sp);;
      m_modify (fun s => set_waits s (wait_stdout_thread s) cur);;
      to_scheduler
    else block_current sp
  else if sys_num =? WAIT_STDOUT then
    on_io (on_uart (uart_enable_interrupt 1));;
    empty ← on_io stdout_queue_is_empty;
    if (empty : bool) then
      on_io (write_stdio_tid 0);;
      upd_thread cur (set_reason NONE);;
      mret sp
    else
      fork_printer;;
      upd_thread cur (set_saved_sp sp);;
      m_modify (fun s => set_waits s cur (wait_stdin_thread s));;
      to_scheduler
  else if sys_num =? END_STDIN then
    on_io (on_uart (uart_disable_interrupt 0));;
    on_io (write_stdio_tid 0);;
    w ← m_gets wait_stdout_thread;
    upd_thread w (set_reason NONE);;
    mret sp
  else if sys_num =? NRF_SPI_TRANSFER then transfer;; mret sp
  else m_panic.

(** [make_system_call]: the number in the [swi] instruction that is executed ([None] is the
    panic); a request for the input ends up as one for the output. *)
Definition NRF_START_SEND : Z := 6.
Definition NRF_WAIT_SEND : Z := 7.
Definition make_system_call (sys_call_num : Z) : option Z :=
  if sys_call_num =? REQUEST_STDOUT then Some 1
  else if sys_call_num =? WAIT_STDOUT then Some 2
  else if sys_call_num =? REQUEST_STDIN then Some 1
  else if sys_call_num =? END_STDIN then Some 4
  else if sys_call_num =? NRF_START_SEND then Some 6
  else if sys_call_num =? NRF_WAIT_SEND then Some 7
  else if sys_call_num =? NRF_SPI_TRANSFER then Some 8
  else None.

(** ** Interrupts *)

(** [None]: the handler returned, so that the next one is called. *)
Definition int_vector_pre_threads (pending : bool) (sp : Z) : M sched (option Z) :=
  if negb pending then mret None else
  cur ← m_gets cur_thread;
  on_runq (Q_append cur);;
  upd_thread cur (set_saved_sp sp);;
  sp' ← to_scheduler;
  mret (Some sp').

Definition int_vector_uart_pre_threads (iir sp : Z) : M sched (option Z) :=
  if Z.testbit iir 0 then mret None else
  on_io (int_vector_uart iir);;
  mret (Some sp).

(** Continues with the interrupted context. *)
Definition int_vector_last (sp : Z) : M sched (option Z) := mret (Some sp).

(** The handlers that [pre_thread_start] registers; [pending]: the timer's interrupt is, and
    [iir]: what the line's identification register says. *)
Definition thread_handlers (pending : bool) (iir : Z) : vectors sched :=
  register_last_handler (fun _ sp => int_vector_last sp)
    (register_uart_handler (fun _ sp => int_vector_uart_pre_threads iir sp)
      (register_timer_handler (fun _ sp => int_vector_pre_threads pending sp) no_handlers)).

(** An interrupt: the context the processor continues with. *)
Definition interrupt (pending : bool) (iir pc sp : Z) : M sched Z :=
  r ← fiq_vector (thread_handlers pending iir) pc sp;
  match r with Some sp' => mret sp' | None => m_undef end.

Definition pre_exit : M sched Z :=
  cur ← m_gets cur_thread;
  th_free cur;;
  to_scheduler.

Definition pre_cur_thread : M sched Z := m_gets cur_thread.
Definition get_current_thread_id : M sched Z :=
  cur ← m_gets cur_thread; x ← get_thread cur; mret (th_tid x).
Definition get_scheduler_thread_id : M sched Z :=
  sch ← m_gets scheduler_thread; x ← get_thread sch; mret (th_tid x).
Definition clear_cur_block_status : M sched unit :=
  cur ← m_gets cur_thread; upd_thread cur (set_reason NONE).

(** ** The scheduler *)

(** The condition of the loop of [pre_thread_start]. *)
Definition sched_more : M sched bool :=
  r ← on_runq Q_empty;
  if negb r then mret true else
  b ← on_blockq Q_empty;
  if negb b then mret true else
  s ← m_gets (fun s => s);
  mret (negb (wait_stdout_thread s =? 0) || negb (wait_stdin_thread s =? 0)).

(** Blocked threads become runnable while the one at the front waits for the lock. *)
Fixpoint unblock_loop (fuel : nat) : M sched unit :=
  match fuel with
  | O => m_nofuel
  | S fuel =>
      e ← on_blockq Q_empty;
      if (e : bool) then mret tt else
      t ← on_blockq Q_start;
      x ← get_thread t;
      if block_reason x =? STDIO then
        th ← on_blockq Q_pop;
        on_runq (Q_append th);;
        unblock_loop fuel
      else mret tt
  end.

(** Takes threads from [runq] until one may run: [Some sp] is the switch to it. *)
Fixpoint run_loop (fuel : nat) : M sched (option Z) :=
  match fuel with
  | O => m_nofuel
  | S fuel =>
      e ← on_runq Q_empty;
      if (e : bool) then mret None else
      next_thread ← on_runq Q_pop;
      x ← get_thread next_thread;
      idle ← on_io (stdio_is_idle (th_tid x));
      if negb idle && negb (block_reason x =? NONE) then
        on_blockq (Q_append next_thread);;
        run_loop fuel
      else
        (if block_reason x =? STDIO then on_io (write_stdio_tid (th_tid x)) else mret tt);;
        sch ← m_gets scheduler_thread;
        m_modify (fun s => set_cur s next_thread);;
        upd_thread sch (set_saved_sp scheduler_sp);;
        mret (Some (saved_sp x))
  end.

(** A queue has at most as many elements as there are blocks. *)
Definition queue_fuel : M sched nat := m_gets (fun s => S (size (s_th s))).

(** One turn of the loop of [pre_thread_start]; [cswitch_from_scheduler] saves the
    scheduler, and the switch back to it ends the turn. *)
Definition sched_turn : M sched (option Z) :=
  s ← m_gets (fun s => s);
  in_empty ← on_io stdin_queue_is_empty;
  (if negb in_empty && negb (wait_stdin_thread s =? 0) then
     on_runq (Q_append (wait_stdin_thread s));;
     m_modify (fun s => set_waits s (wait_stdout_thread s) 0)
   else mret tt);;
  out_empty ← on_io stdout_queue_is_empty;
  (if out_empty && negb (wait_stdout_thread s =? 0) then
     on_io (write_stdio_tid 0);;
     upd_thread (wait_stdout_thread s) (set_reason NONE);;
     on_runq (Q_append (wait_stdout_thread s));;
     m_modify (fun s => set_waits s 0 (wait_stdin_thread s))
   else mret tt);;
  idle ← on_io (stdio_is_idle 0);
  fuel ← queue_fuel;
  (if (idle : bool) then unblock_loop fuel else mret tt);;
  run_loop fuel.

(** [pre_thread_start] up to the first switch, after the set-up of vectors and devices. *)
Definition pre_thread_start : M sched (option Z) :=
  e ← on_runq Q_empty;
  if (e : bool) then mret None else
  sch ← m_gets scheduler_thread;
  (if sch =? 0 then
     t ← th_alloc;
     m_modify (fun s => set_cur (set_scheduler s t) t)
   else mret tt);;
  more ← sched_more;
  if negb more then mret None else sched_turn.
End Threads.
