(* ===== verification/ThreadsSpec.v ===== *)
(** * An abstract scheduler

    What the thread system promises, without addresses, queues and contexts: threads that
    can run, threads that wait for the lock on the output, the one that runs and the one
    that waits for its output to be sent.  [step] is one event; [sound] is the invariant, and
    [sound_step] shows that every event keeps it.  The refinement is in ThreadsThm.v. *)

From stdpp Require Import base tactics option list list_tactics numbers sets.
From Stdlib Require Import ZArith Lia.
From S2P Require Import Prelude.
#[local] Open Scope Z_scope.

(** A thread: its block, its id, whether it is one that empties the output queue, and
    whether it has asked for the lock. *)
Record thr : Type := mk_thr {
  t_addr : Z;
  t_tid : Z;
  t_printer : bool;
  t_stdio : bool
}.

#[export] Instance thr_eq_dec : EqDecision thr.
Proof. solve_decision. Defined.

Record abs : Type := mk_abs {
  a_run : list thr;
  a_block : list thr;
  a_cur : option thr;
  a_wait : option thr;
  a_lock : Z;
  a_next : Z;
  a_idle : bool
}.

Definition olist {A} (o : option A) : list A := match o with Some x => [x] | None => [] end.

(** All threads. *)
Definition a_all (a : abs) : list thr :=
  a_run a ++ a_block a ++ olist (a_cur a) ++ olist (a_wait a).

Definition asks (b : bool) (t : thr) : thr := mk_thr (t_addr t) (t_tid t) (t_printer t) b.

(** The lock is free or [tid]'s. *)
Definition free_for (a : abs) (tid : Z) : bool := (a_lock a =? 0) || (a_lock a =? tid).

(** ** Events *)

Inductive event : Type :=
  | Request
  | Put (c : Z)
  | Wait
  | Fork
  | Exit
  | Tick
  | Send
  | Print
  | Turn.

#[export] Instance event_eq_dec : EqDecision event.
Proof. solve_decision. Defined.

(** A thread that starts at block [t], with the next id. *)
Definition new_thread (t : Z) (printer : bool) (a : abs) : thr :=
  mk_thr t (a_next a) printer printer.

(** Of the threads in [l], those before the first that may run, that thread, the rest. *)
Fixpoint pick (lock : Z) (l : list thr) : list thr * option (thr * list thr) :=
  match l with
  | [] => ([], None)
  | t :: l =>
      if t_stdio t && negb (lock =? 0) && negb (lock =? t_tid t) then
        let '(skipped, r) := pick lock l in (t :: skipped, r)
      else ([], Some (t, l))
  end.

(** The scheduler first releases a thread whose output has been sent; the lock is free
    then. *)
Definition release (a : abs) : abs :=
  match a_wait a with
  | Some w =>
      if a_idle a then
        mk_abs (a_run a ++ [asks false w]) (a_block a) (a_cur a) None 0 (a_next a) (a_idle a)
      else a
  | None => a
  end.

(** Then, if the lock is free, everyone who waits for it may try again. *)
Definition unblock (a : abs) : abs :=
  if a_lock a =? 0 then
    mk_abs (a_run a ++ a_block a) [] (a_cur a) (a_wait a) (a_lock a) (a_next a) (a_idle a)
  else a.

(** Then the first thread that may run gets the processor, and the lock if it asked. *)
Definition switch (a : abs) : abs :=
  match pick (a_lock a) (a_run a) with
  | (skipped, None) =>
      mk_abs [] (a_block a ++ skipped) None (a_wait a) (a_lock a) (a_next a) (a_idle a)
  | (skipped, Some (t, rest)) =>
      mk_abs rest (a_block a ++ skipped) (Some t) (a_wait a)
        (if t_stdio t then t_tid t else a_lock a) (a_next a) (a_idle a)
  end.

(** [t]: the block of a thread the event creates; [idle]: whether the output queue is empty
    afterwards. *)
Inductive step (t : Z) (idle : bool) (a : abs) : event -> abs -> Prop :=
  | st_request c : a_cur a = Some c -> t_printer c = false -> t_stdio c = false ->
      free_for a (t_tid c) = true -> idle = a_idle a ->
      step t idle a Request
        (mk_abs (a_run a) (a_block a) (Some (asks true c)) (a_wait a) (t_tid c) (a_next a) idle)
  | st_blocked c : a_cur a = Some c -> t_printer c = false -> t_stdio c = false ->
      free_for a (t_tid c) = false -> idle = a_idle a ->
      step t idle a Request
        (mk_abs (a_run a) (a_block a ++ [asks true c]) None (a_wait a) (a_lock a) (a_next a) idle)
  | st_put c ch : a_cur a = Some c -> t_printer c = false -> t_stdio c = true ->
      step t idle a (Put ch)
        (mk_abs (a_run a) (a_block a) (a_cur a) (a_wait a) (a_lock a) (a_next a) idle)
  | st_wait_sent c : a_cur a = Some c -> t_printer c = false -> t_stdio c = true ->
      a_idle a = true -> idle = true ->
      step t idle a Wait
        (mk_abs (a_run a) (a_block a) (Some (asks false c)) (a_wait a) 0 (a_next a) idle)
  | st_wait c : a_cur a = Some c -> t_printer c = false -> t_stdio c = true ->
      a_idle a = false -> idle = false ->
      step t idle a Wait
        (mk_abs (a_run a ++ [new_thread t true a]) (a_block a) None (Some c)
           (a_next a) (a_next a + 1) idle)
  | st_fork c : a_cur a = Some c -> t_printer c = false -> idle = a_idle a ->
      step t idle a Fork
        (mk_abs (a_run a ++ [new_thread t false a]) (a_block a) (a_cur a) (a_wait a)
           (a_lock a) (a_next a + 1) idle)
  | st_exit c : a_cur a = Some c -> t_printer c = false -> t_stdio c = false -> idle = a_idle a ->
      step t idle a Exit
        (mk_abs (a_run a) (a_block a) None (a_wait a) (a_lock a) (a_next a) idle)
  | st_tick c : a_cur a = Some c -> t_printer c = false -> idle = a_idle a ->
      step t idle a Tick
        (mk_abs (a_run a ++ [c]) (a_block a) None (a_wait a) (a_lock a) (a_next a) idle)
  | st_send c : a_cur a = Some c -> t_printer c = false -> (a_idle a = true -> idle = true) ->
      step t idle a Send
        (mk_abs (a_run a) (a_block a) (a_cur a) (a_wait a) (a_lock a) (a_next a) idle)
  | st_printed c : a_cur a = Some c -> t_printer c = true -> idle = true ->
      step t idle a Print
        (mk_abs (a_run a) (a_block a) None (a_wait a) 0 (a_next a) idle)
  | st_print c : a_cur a = Some c -> t_printer c = true -> idle = false ->
      step t idle a Print
        (mk_abs (a_run a ++ [new_thread t true a]) (a_block a) None (a_wait a)
           (a_next a) (a_next a + 1) idle)
  | st_turn : a_cur a = None -> idle = a_idle a ->
      step t idle a Turn (switch (unblock (release a))).

(** ** The invariant *)

(** The thread with the lock can run: it is not among the blocked. *)
Definition holder (a : abs) : Prop :=
  a_lock a = 0 \/ exists t, t ∈ a_run a ++ olist (a_cur a) /\ t_stdio t = true /\ t_tid t = a_lock a.

Record sound (a : abs) : Prop := {
  so_tids : NoDup (t_tid <$> a_all a);
  so_next : forall t, t ∈ a_all a -> 0 < t_tid t < a_next a;
  so_pos : 0 < a_next a;
  so_block : forall t, t ∈ a_block a -> t_stdio t = true;
  so_printer : forall t, t ∈ a_all a -> t_printer t = true -> t_stdio t = true;
  so_holder : holder a;
  so_cur : forall t, a_cur a = Some t -> t_stdio t = true -> a_lock a = t_tid t;
  so_wait : forall w, a_wait a = Some w -> t_printer w = false /\
    (a_lock a = 0 /\ a_cur a = None /\ a_idle a = true \/
     exists t, t ∈ a_all a /\ t_printer t = true /\ t_tid t = a_lock a)
}.

Lemma tid_inj a t t' : NoDup (t_tid <$> a_all a) -> t ∈ a_all a -> t' ∈ a_all a ->
  t_tid t = t_tid t' -> t = t'.
Proof.
  intros N [i Hi]%list_elem_of_lookup [j Hj]%list_elem_of_lookup E.
  assert (i = j) as ->; [|congruence].
  apply (NoDup_lookup (t_tid <$> a_all a) i j (t_tid t) N); by rewrite list_lookup_fmap, ?Hi, ?Hj; simpl; congruence.
Qed.

Lemma in_cur a c : a_cur a = Some c -> c ∈ a_all a.
Proof. intros E. unfold a_all. rewrite E. set_solver. Qed.

Lemma in_run a t : t ∈ a_run a -> t ∈ a_all a.
Proof. unfold a_all. set_solver. Qed.

(** While the lock is free or a user thread's that runs, nobody waits. *)
Lemma user_no_wait a c : sound a -> a_cur a = Some c -> t_printer c = false ->
  a_lock a = 0 \/ a_lock a = t_tid c -> a_wait a = None.
Proof.
  intros S Ec Pc L. destruct (a_wait a) as [w|] eqn:W; [|done].
  destruct (so_wait _ S w W) as [_ [(_ & En & _)|(p & Hp & Pp & E)]]; [congruence|].
  pose proof (so_next _ S p Hp). destruct L as [L|L]; [lia|].
  assert (p = c) as ->; [|congruence].
  apply (tid_inj a); [apply S|done|by apply in_cur|congruence].
Qed.

(** The invariant from the threads of the state before: the new state has some of them,
    perhaps with other wishes, and perhaps one new thread. *)
Lemma sound_intro a a' (new : list thr) :
  sound a -> (exists gone, gone ++ (t_tid <$> a_all a') ≡ₚ (t_tid <$> new) ++ (t_tid <$> a_all a)) ->
  a_next a' = a_next a + Z.of_nat (length new) -> (length new <= 1)%nat ->
  (forall t, t ∈ new -> t_tid t = a_next a) ->
  (forall t, t ∈ a_block a' -> t_stdio t = true) ->
  (forall t, t ∈ a_all a' -> t_printer t = true -> t_stdio t = true) ->
  holder a' -> (forall t, a_cur a' = Some t -> t_stdio t = true -> a_lock a' = t_tid t) ->
  (forall w, a_wait a' = Some w -> t_printer w = false /\
    (a_lock a' = 0 /\ a_cur a' = None /\ a_idle a' = true \/
     exists t, t ∈ a_all a' /\ t_printer t = true /\ t_tid t = a_lock a')) ->
  sound a'.
Proof.
  intros S (gone & P) Nx Ln Tn Bl Pr Ho Cu Wa. pose proof (so_pos _ S).
  assert (forall i, i ∈ t_tid <$> a_all a -> 0 < i < a_next a) as Old.
  { intros i (t & -> & Ht)%list_elem_of_fmap. by apply S. }
  split; try done; try lia.
  - assert (NoDup (gone ++ (t_tid <$> a_all a'))) as N; [|by apply NoDup_app in N as (_ & _ & N)].
    rewrite P. apply NoDup_app. split_and!; [|intros i (t & -> & Ht)%list_elem_of_fmap Hi|apply S].
    + destruct new as [|x [|y l]]; [constructor|apply NoDup_singleton|simpl in Ln; lia].
    + rewrite (Tn t Ht) in Hi. apply Old in Hi. lia.
  - intros t Ht. assert (t_tid t ∈ (t_tid <$> new) ++ (t_tid <$> a_all a)) as Hi.
    { rewrite <-P. apply elem_of_app. right. by apply list_elem_of_fmap_2. }
    apply elem_of_app in Hi as [(y & E & Hy)%list_elem_of_fmap|Hi]; [|apply Old in Hi; lia].
    rewrite E, (Tn y Hy). destruct new; [by apply not_elem_of_nil in Hy|simpl in *; lia].
Qed.

(** Unfolds the places of the two states and rearranges them. *)
Ltac perm Ec :=
  unfold a_all; cbn [a_run a_block a_cur a_wait olist]; rewrite ?Ec;
  rewrite ?fmap_app; cbn [olist fmap list_fmap app asks new_thread t_tid]; solve_Permutation.

(** Membership in the places of the new state, with the current thread [Ec] known. *)
Ltac member Ec :=
  unfold a_all in *; cbn [a_run a_block a_cur a_wait olist] in *; rewrite ?Ec in *;
  cbn [olist] in *; set_solver.

Section Steps.
Context (a : abs) (S : sound a).

(** No thread is new: what is left to show. *)
Lemma sound_same a' : (exists gone, gone ++ (t_tid <$> a_all a') ≡ₚ t_tid <$> a_all a) ->
  a_next a' = a_next a ->
  (forall t, t ∈ a_block a' -> t_stdio t = true) ->
  (forall t, t ∈ a_all a' -> t ∈ a_all a \/ t_printer t = false \/ t_stdio t = true) ->
  holder a' -> (forall t, a_cur a' = Some t -> t_stdio t = true -> a_lock a' = t_tid t) ->
  (forall w, a_wait a' = Some w -> t_printer w = false /\
    (a_lock a' = 0 /\ a_cur a' = None /\ a_idle a' = true \/
     exists t, t ∈ a_all a' /\ t_printer t = true /\ t_tid t = a_lock a')) ->
  sound a'.
Proof using S.
  intros P Nx Bl Pr Ho Cu Wa. apply (sound_intro a a' [] S P); try done; simpl; try lia.
  - intros t Ht. by apply not_elem_of_nil in Ht.
  - intros t Ht Pt. destruct (Pr t Ht) as [?|[?|?]]; [by apply (so_printer _ S)|congruence|done].
Qed.

(** One thread is new and can run. *)
Lemma sound_new a' x : (exists gone, gone ++ (t_tid <$> a_all a') ≡ₚ t_tid x :: (t_tid <$> a_all a)) ->
  t_tid x = a_next a -> t_stdio x = t_printer x -> a_next a' = a_next a + 1 ->
  (forall t, t ∈ a_block a' -> t_stdio t = true) ->
  (forall t, t ∈ a_all a' -> t = x \/ t ∈ a_all a) ->
  holder a' -> (forall t, a_cur a' = Some t -> t_stdio t = true -> a_lock a' = t_tid t) ->
  (forall w, a_wait a' = Some w -> t_printer w = false /\
    (a_lock a' = 0 /\ a_cur a' = None /\ a_idle a' = true \/
     exists t, t ∈ a_all a' /\ t_printer t = true /\ t_tid t = a_lock a')) ->
  sound a'.
Proof using S.
  intros P Tx Px Nx Bl Pr Ho Cu Wa. apply (sound_intro a a' [x] S P); simpl; try done; try lia.
  - by intros t ->%list_elem_of_singleton.
  - intros t Ht Pt. destruct (Pr t Ht) as [->|?]; [congruence|by apply (so_printer _ S)].
Qed.

(** While somebody waits and a thread runs, a printer has the lock. *)
Lemma printer_has_lock w : a_wait a = Some w -> is_Some (a_cur a) -> t_printer w = false /\
  exists t, t ∈ a_all a /\ t_printer t = true /\ t_tid t = a_lock a.
Proof using S.
  intros W [c Ec]. destruct (so_wait _ S w W) as [? [(_ & ? & _)|?]]; [congruence|done].
Qed.

Lemma sound_request c : a_cur a = Some c -> t_printer c = false -> free_for a (t_tid c) = true ->
  sound (mk_abs (a_run a) (a_block a) (Some (asks true c)) (a_wait a) (t_tid c) (a_next a) (a_idle a)).
Proof using S.
  intros Ec Pc Fr. assert (a_wait a = None) as W.
  { apply (user_no_wait a c); [done..|]. unfold free_for in Fr. lia. }
  apply sound_same; cbn [a_next a_block a_cur a_wait]; [|done|apply S| | | |].
  - exists []. perm Ec.
  - intros t Ht. destruct (decide (t = asks true c)) as [->|]; [by right; right|left; member Ec].
  - right. exists (asks true c). cbn. set_solver.
  - by intros t [= <-].
  - intros w. congruence.
Qed.

Lemma sound_blocked c : a_cur a = Some c -> t_printer c = false -> t_stdio c = false ->
  sound (mk_abs (a_run a) (a_block a ++ [asks true c]) None (a_wait a) (a_lock a) (a_next a) (a_idle a)).
Proof using S.
  intros Ec Pc Sc. apply sound_same; cbn [a_next a_block a_cur a_wait]; [|done| | | |done|].
  - exists []. perm Ec.
  - intros t [?| ->%list_elem_of_singleton]%elem_of_app; [by apply S|done].
  - intros t Ht. destruct (decide (t = asks true c)) as [->|]; [by right; right|left; member Ec].
  - destruct (so_holder _ S) as [L|(t & Ht & St & E)]; [by left|right]. exists t. cbn. rewrite Ec in Ht.
    split_and!; [|done..]. apply elem_of_app in Ht as [?| ->%list_elem_of_singleton]; [set_solver|congruence].
  - intros w W. destruct (printer_has_lock w W) as (? & p & Hp & Pp & E); [by eexists|].
    split; [done|]. right. exists p. split_and!; [|done..].
    assert (p <> c) by congruence. member Ec.
Qed.

Lemma sound_idle idle : is_Some (a_cur a) ->
  sound (mk_abs (a_run a) (a_block a) (a_cur a) (a_wait a) (a_lock a) (a_next a) idle).
Proof using S.
  intros [c Ec]. apply sound_same; cbn [a_next a_block a_cur a_wait]; [|done|apply S| |apply S|apply S|].
  - exists []. perm Ec.
  - intros t Ht. by left.
  - intros w W. destruct (printer_has_lock w W) as (? & ?); [by eexists|]. split; [done|by right].
Qed.

Lemma sound_wait_sent c : a_cur a = Some c -> t_printer c = false -> t_stdio c = true ->
  sound (mk_abs (a_run a) (a_block a) (Some (asks false c)) (a_wait a) 0 (a_next a) true).
Proof using S.
  intros Ec Pc Sc. assert (a_wait a = None) as W.
  { apply (user_no_wait a c); [done..|]. right. by apply S. }
  apply sound_same; cbn [a_next a_block a_cur a_wait]; [|done|apply S| |by left| |].
  - exists []. perm Ec.
  - intros t Ht. destruct (decide (t = asks false c)) as [->|]; [by right; left|left; member Ec].
  - by intros t [= <-].
  - intros w. congruence.
Qed.

Lemma sound_wait c t : a_cur a = Some c -> t_printer c = false -> t_stdio c = true ->
  sound (mk_abs (a_run a ++ [new_thread t true a]) (a_block a) None (Some c)
           (a_next a) (a_next a + 1) false).
Proof using S.
  intros Ec Pc Sc. assert (a_wait a = None) as W.
  { apply (user_no_wait a c); [done..|]. right. by apply S. }
  apply (sound_new _ (new_thread t true a)); cbn [a_next a_block a_cur a_wait]; [|done..|apply S| | |done|].
  - exists []. unfold a_all. rewrite W. perm Ec.
  - intros x Hx. member Ec.
  - right. exists (new_thread t true a). cbn. set_solver.
  - intros w [= <-]. split; [done|]. right. exists (new_thread t true a). split_and!; [member Ec|done..].
Qed.

Lemma sound_fork t : is_Some (a_cur a) \/ a_wait a = None ->
  sound (mk_abs (a_run a ++ [new_thread t false a]) (a_block a) (a_cur a) (a_wait a)
           (a_lock a) (a_next a + 1) (a_idle a)).
Proof using S.
  intros Hc.
  apply (sound_new _ (new_thread t false a)); cbn [a_next a_block a_cur a_wait]; [|done..|apply S| | |apply S|].
  - exists []. unfold a_all. cbn [a_run a_block a_cur a_wait]. rewrite !fmap_app. cbn. solve_Permutation.
  - intros x Hx. unfold a_all in *. cbn in Hx. set_solver.
  - destruct (so_holder _ S) as [L|(x & Hx & Sx & E)]; [by left|right]. exists x. cbn. set_solver.
  - intros w W. destruct Hc as [Hc|Hc]; [|congruence].
    destruct (printer_has_lock w W Hc) as (? & p & Hp & Pp & E).
    split; [done|]. right. exists p. split_and!; [|done..]. unfold a_all in *. cbn. set_solver.
Qed.

Lemma sound_exit c : a_cur a = Some c -> t_printer c = false -> t_stdio c = false ->
  sound (mk_abs (a_run a) (a_block a) None (a_wait a) (a_lock a) (a_next a) (a_idle a)).
Proof using S.
  intros Ec Pc Sc. apply sound_same; cbn [a_next a_block a_cur a_wait]; [|done|apply S| | |done|].
  - exists [t_tid c]. perm Ec.
  - intros t Ht. left. member Ec.
  - destruct (so_holder _ S) as [L|(t & Ht & St & E)]; [by left|right]. exists t. cbn. rewrite Ec in Ht.
    split_and!; [|done..]. apply elem_of_app in Ht as [?| ->%list_elem_of_singleton]; [set_solver|congruence].
  - intros w W. destruct (printer_has_lock w W) as (? & p & Hp & Pp & E); [by eexists|].
    split; [done|]. right. exists p. split_and!; [|done..].
    assert (p <> c) by congruence. member Ec.
Qed.

Lemma sound_tick c : a_cur a = Some c ->
  sound (mk_abs (a_run a ++ [c]) (a_block a) None (a_wait a) (a_lock a) (a_next a) (a_idle a)).
Proof using S.
  intros Ec. apply sound_same; cbn [a_next a_block a_cur a_wait]; [|done|apply S| | |done|].
  - exists []. perm Ec.
  - intros t Ht. left. member Ec.
  - destruct (so_holder _ S) as [L|(t & Ht & St & E)]; [by left|right]. exists t. cbn. rewrite Ec in Ht.
    split_and!; [set_solver|done..].
  - intros w W. destruct (printer_has_lock w W) as (? & p & Hp & Pp & E); [by eexists|].
    split; [done|]. right. exists p. split_and!; [member Ec|done..].
Qed.

Lemma sound_printed c : a_cur a = Some c ->
  sound (mk_abs (a_run a) (a_block a) None (a_wait a) 0 (a_next a) true).
Proof using S.
  intros Ec. apply sound_same; cbn [a_next a_block a_cur a_wait]; [|done|apply S| |by left|done|].
  - exists [t_tid c]. perm Ec.
  - intros t Ht. left. member Ec.
  - intros w W. destruct (so_wait _ S w W) as [? _]. auto.
Qed.

Lemma sound_print c t : a_cur a = Some c ->
  sound (mk_abs (a_run a ++ [new_thread t true a]) (a_block a) None (a_wait a)
           (a_next a) (a_next a + 1) false).
Proof using S.
  intros Ec.
  apply (sound_new _ (new_thread t true a)); cbn [a_next a_block a_cur a_wait]; [|done..|apply S| | |done|].
  - exists [t_tid c]. perm Ec.
  - intros x Hx. member Ec.
  - right. exists (new_thread t true a). cbn. set_solver.
  - intros w W. destruct (so_wait _ S w W) as [? _]. split; [done|]. right.
    exists (new_thread t true a). split_and!; [member Ec|done..].
Qed.
End Steps.

(** ** The scheduler's turn *)

Lemma pick_spec lock l :
  let '(skipped, r) := pick lock l in
  (forall t, t ∈ skipped -> t_stdio t = true /\ lock <> 0 /\ lock <> t_tid t) /\
  match r with
  | None => l = skipped
  | Some (t, rest) => l = skipped ++ t :: rest /\ (t_stdio t = true -> lock = 0 \/ lock = t_tid t)
  end.
Proof.
  induction l as [|t l IH]; simpl; [split; [by intros ? ?%not_elem_of_nil|done]|].
  destruct (t_stdio t) eqn:St; simpl.
  - destruct (lock =? 0) eqn:L0, (lock =? t_tid t) eqn:Lt; simpl.
    1-3: split; [by intros ? ?%not_elem_of_nil|split; [done|lia]].
    destruct (pick lock l) as [sk [[x rest]|]]; destruct IH as [H E]; (split; [|naive_solver]);
      intros y [->|Hy]%elem_of_cons; auto; split_and!; lia || done.
  - split; [by intros ? ?%not_elem_of_nil|split; [done|congruence]].
Qed.

Lemma sound_release a : sound a -> a_cur a = None ->
  sound (release a) /\ a_cur (release a) = None /\
  (is_Some (a_wait (release a)) -> a_idle (release a) = false) /\ a_idle (release a) = a_idle a /\
  (t_tid <$> a_all (release a)) ≡ₚ t_tid <$> a_all a.
Proof.
  intros S Ec. unfold release. destruct (a_wait a) as [w|] eqn:W; [|by rewrite W; split_and!; [..|intros [? [=]]| |]].
  destruct (a_idle a) eqn:I; [|by split_and!].
  destruct (so_wait _ S w W) as [Pw _]. split_and!; [|done|by intros [? [=]]|done|].
  - apply (sound_same a S); cbn [a_next a_block a_cur a_wait]; [|done|apply S| |by left|by rewrite Ec|done].
    + exists []. unfold a_all. rewrite W. perm Ec.
    + intros t Ht. destruct (decide (t = asks false w)) as [->|]; [by right; left|left].
      unfold a_all in *. rewrite W. cbn in Ht. set_solver.
  - unfold a_all. rewrite W. perm Ec.
Qed.

Lemma sound_unblock a : sound a -> a_cur a = None -> (is_Some (a_wait a) -> a_idle a = false) ->
  sound (unblock a) /\ a_cur (unblock a) = None /\ a_lock (unblock a) = a_lock a /\
  (a_lock a = 0 -> a_block (unblock a) = [] /\ a_wait a = None) /\ a_wait (unblock a) = a_wait a /\
  a_idle (unblock a) = a_idle a /\ (t_tid <$> a_all (unblock a)) ≡ₚ t_tid <$> a_all a.
Proof.
  intros S Ec Wi. unfold unblock. destruct (a_lock a =? 0) eqn:L; [|by split_and!; [..|lia| | |]].
  assert (a_wait a = None) as W.
  { destruct (a_wait a) as [w|] eqn:W; [|done]. assert (a_idle a = false) as I by (apply Wi; eauto).
    destruct (so_wait _ S w W) as [_ [(_ & _ & ?)|(p & Hp & _ & E)]]; [congruence|].
    pose proof (so_next _ S p Hp). lia. }
  split_and!; try done.
  - apply (sound_same a S); cbn [a_next a_block a_cur a_wait]; [|done| | |left; simpl; lia|by rewrite Ec|by rewrite W].
    + exists []. perm Ec.
    + intros t Ht. by apply not_elem_of_nil in Ht.
    + intros t Ht. left. member Ec.
  - perm Ec.
Qed.

Lemma sound_switch a : sound a -> a_cur a = None -> (is_Some (a_wait a) -> a_lock a <> 0) ->
  sound (switch a) /\ (t_tid <$> a_all (switch a)) ≡ₚ t_tid <$> a_all a.
Proof.
  intros S Ec Wl. unfold switch. pose proof (pick_spec (a_lock a) (a_run a)) as P.
  destruct (pick (a_lock a) (a_run a)) as [sk r]. destruct P as [Hsk Hr].
  assert (forall w, a_wait a = Some w -> t_printer w = false /\
    exists t, t ∈ a_all a /\ t_printer t = true /\ t_tid t = a_lock a) as Wp.
  { intros w W. destruct (so_wait _ S w W) as [? [(? & _)|?]]; [|done]. exfalso. by apply Wl; eauto. }
  assert (forall t, t ∈ a_block a ++ sk -> t_stdio t = true) as Bl.
  { intros t [?|?]%elem_of_app; [by apply S|by apply Hsk]. }
  destruct r as [[t rest]|].
  - destruct Hr as [Er Ht]. split; [|unfold a_all; rewrite Er; perm Ec].
    apply (sound_same a S); cbn [a_next a_block a_cur a_wait]; [|done|done| | | |].
    + exists []. unfold a_all. rewrite Er. perm Ec.
    + intros x Hx. left. unfold a_all in *. rewrite Er, Ec. cbn in Hx. set_solver.
    + unfold holder. cbn. destruct (t_stdio t) eqn:St; [right; exists t; set_solver|].
      destruct (so_holder _ S) as [L|(x & Hx & Sx & E)]; [by left|right]. exists x.
      rewrite Ec, Er in Hx. cbn in Hx. split_and!; [|done..].
      assert (x ∉ sk) by (intros Hs; apply Hsk in Hs as (_ & _ & ?); congruence).
      assert (x <> t) by congruence. set_solver.
    + intros x [= <-] Sx. cbn. by rewrite Sx.
    + intros w W. destruct (Wp w W) as (Pw & p & Hp & Pp & E). split; [done|]. right. exists p.
      split_and!; [|done|].
      * unfold a_all in *. rewrite Er, Ec in Hp. cbn in *. set_solver.
      * cbn. destruct (t_stdio t) eqn:St; [|done]. destruct (Ht eq_refl) as [L|L]; [|congruence].
        exfalso. by apply Wl; eauto.
  - split; [|unfold a_all; rewrite Hr; perm Ec].
    apply (sound_same a S); cbn [a_next a_block a_cur a_wait]; [|done|done| | |done|].
    + exists []. unfold a_all. rewrite Hr. perm Ec.
    + intros x Hx. left. unfold a_all in *. rewrite Hr, Ec. cbn in Hx. set_solver.
    + destruct (so_holder _ S) as [L|(x & Hx & Sx & E)]; [by left|]. exfalso.
      rewrite Ec, app_nil_r, Hr in Hx. apply Hsk in Hx as (_ & _ & ?). congruence.
    + intros w W. destruct (Wp w W) as (Pw & p & Hp & Pp & E). split; [done|]. right. exists p.
      split_and!; [|done..]. unfold a_all in *. rewrite Hr, Ec in Hp. cbn in *. set_solver.
Qed.

Lemma sound_turn a : sound a -> a_cur a = None ->
  sound (switch (unblock (release a))) /\
  (t_tid <$> a_all (switch (unblock (release a)))) ≡ₚ t_tid <$> a_all a.
Proof.
  intros S Ec. destruct (sound_release a S Ec) as (S1 & E1 & W1 & _ & P1).
  destruct (sound_unblock _ S1 E1 W1) as (S2 & E2 & L2 & W2 & Ew & _ & P2).
  destruct (sound_switch _ S2 E2) as [S3 P3].
  { rewrite Ew, L2. intros [w W] L. destruct (W2 L). congruence. }
  split; [done|]. by rewrite P3, P2.
Qed.

(** A turn finds a thread as long as there is one. *)
Lemma turn_runs a : sound a -> a_cur a = None -> a_all a <> [] ->
  is_Some (a_cur (switch (unblock (release a)))).
Proof.
  intros S Ec Ne. destruct (sound_release a S Ec) as (S1 & E1 & W1 & _ & P1).
  set (a1 := release a) in *.
  destruct (sound_unblock a1 S1 E1 W1) as (S2 & E2 & L2 & W2 & Ew & _ & P2).
  set (a2 := unblock a1) in *.
  unfold switch. pose proof (pick_spec (a_lock a2) (a_run a2)) as P.
  destruct (pick (a_lock a2) (a_run a2)) as [sk [[t rest]|]]; [by eexists|].
  destruct P as [Hsk Hr]. exfalso. apply Ne.
  destruct (so_holder _ S2) as [L|(x & Hx & Sx & E)].
  - rewrite L2 in L. destruct (W2 L) as [B W].
    assert (a_run a2 = []) as R0.
    { rewrite Hr. destruct sk as [|x sk]; [done|]. destruct (Hsk x) as (_ & ? & _); [left|congruence]. }
    assert (a_all a2 = []) as A2 by (unfold a_all; by rewrite R0, B, E2, Ew, W).
    rewrite A2 in P2. simpl in P2. apply Permutation_nil in P2.
    rewrite P2 in P1. apply Permutation_nil in P1. by apply fmap_nil_inv in P1.
  - rewrite E2, app_nil_r, Hr in Hx. apply Hsk in Hx as (_ & _ & ?). congruence.
Qed.

Lemma sound_step t idle a e a' : sound a -> step t idle a e a' -> sound a'.
Proof.
  intros S St. destruct St; subst.
  - by apply sound_request.
  - by apply sound_blocked.
  - by apply sound_idle.
  - by apply sound_wait_sent.
  - by apply sound_wait.
  - apply sound_fork; [done|]. left. by eexists.
  - by eapply sound_exit.
  - by apply sound_tick.
  - by apply sound_idle.
  - by eapply sound_printed.
  - by eapply sound_print.
  - by apply sound_turn.
Qed.

(** ** Who may print *)

(** User thread [i] has the lock. *)
Definition owns (a : abs) (i : Z) : Prop :=
  a_lock a = i /\ exists t, t ∈ a_run a ++ olist (a_cur a) /\ t_stdio t = true /\
    t_printer t = false /\ t_tid t = i.

Definition who (a : abs) : Z := default 0 (t_tid <$> a_cur a).

Lemma owns_in a i : owns a i -> exists t, t ∈ a_all a /\ t_stdio t = true /\
  t_printer t = false /\ t_tid t = i.
Proof.
  intros (_ & t & Ht & H). exists t. split; [|done]. unfold a_all. set_solver.
Qed.

Lemma owns_pos a i : sound a -> owns a i -> 0 < i.
Proof. intros S (t & Ht & _ & _ & <-)%owns_in. by apply S. Qed.

Lemma owns_tid a i t : sound a -> owns a i -> t ∈ a_all a -> t_tid t = i ->
  t_stdio t = true /\ t_printer t = false.
Proof.
  intros S (x & Hx & Sx & Px & E)%owns_in Ht Et.
  assert (t = x) as -> by (eapply (tid_inj a); [apply S|done|done|congruence]). done.
Qed.

Lemma owns_no_wait a i : sound a -> owns a i -> a_wait a = None.
Proof.
  intros S O. pose proof (owns_pos a i S O). destruct (a_wait a) as [w|] eqn:W; [|done].
  destruct (so_wait _ S w W) as [_ [(L & _)|(p & Hp & Pp & E)]].
  - destruct O as [L' _]. lia.
  - destruct O as [L' O']. destruct (owns_tid a i p S); [by split|done|congruence|congruence].
Qed.

Lemma owns_turn a i : sound a -> a_cur a = None -> owns a i -> owns (switch (unblock (release a))) i.
Proof.
  intros S Ec O. pose proof (owns_pos a i S O) as Hi. pose proof (owns_no_wait a i S O) as W.
  destruct O as [L (t & Ht & St & Pt & E)].
  unfold release. rewrite W. unfold unblock. rewrite (proj2 (Z.eqb_neq (a_lock a) 0)) by lia.
  rewrite Ec, app_nil_r in Ht. unfold switch. pose proof (pick_spec (a_lock a) (a_run a)) as P.
  destruct (pick (a_lock a) (a_run a)) as [sk r]. destruct P as [Hsk Hr].
  assert (t ∉ sk) as Nt by (intros Hs; apply Hsk in Hs as (_ & _ & ?); congruence).
  destruct r as [[x rest]|]; [|set_solver]. destruct Hr as [Er Hx]. split; cbn.
  - destruct (t_stdio x); [|done]. destruct (Hx eq_refl); lia.
  - exists t. split_and!; [|done..]. rewrite Er in Ht. set_solver.
Qed.

(** A thread that has the lock keeps it until it waits for its output. *)
Lemma owns_step t idle a e a' i : sound a -> owns a i -> step t idle a e a' ->
  (who a = i /\ e = Wait) \/ owns a' i.
Proof.
  intros S O St. pose proof (owns_pos a i S O) as Hi. unfold who.
  assert (forall c, a_cur a = Some c -> t_stdio c = true -> t_tid c = i) as Cu.
  { intros c Ec Sc. rewrite <-(so_cur _ S c Ec Sc). apply O. }
  assert (forall c, a_cur a = Some c -> t_stdio c = false -> t_tid c <> i) as Cn.
  { intros c Ec Sc Et. destruct (owns_tid a i c S O); [by apply in_cur|done|congruence]. }
  destruct St as [c Ec Pc Sc Fr|c Ec Pc Sc Fr|c ch Ec Pc Sc|c Ec Pc Sc|c Ec Pc Sc|c Ec|c Ec Pc Sc|c Ec
                 |c Ec|c Ec Pc|c Ec Pc|Ec]; subst.
  - specialize (Cn c Ec Sc). destruct O as [L _]. unfold free_for in Fr. lia.
  - right. destruct O as [L (x & Hx & Sx & Px & E)]. split; [done|]. exists x. cbn.
    split_and!; [|done..]. rewrite Ec in Hx. assert (x <> c) by congruence. set_solver.
  - by right.
  - left. rewrite Ec. simpl. auto.
  - left. rewrite Ec. simpl. auto.
  - right. destruct O as [L (x & Hx & R)]. split; [done|]. exists x. cbn. set_solver.
  - right. destruct O as [L (x & Hx & Sx & Px & E)]. split; [done|]. exists x. cbn.
    split_and!; [|done..]. rewrite Ec in Hx. assert (x <> c) by congruence. set_solver.
  - right. destruct O as [L (x & Hx & R)]. split; [done|]. exists x. cbn. rewrite Ec in Hx. set_solver.
  - by right.
  - assert (t_stdio c = true) as Sc by (apply (so_printer _ S); [by apply in_cur|done]).
    destruct (owns_tid a i c S O); [by apply in_cur|by apply Cu|congruence].
  - assert (t_stdio c = true) as Sc by (apply (so_printer _ S); [by apply in_cur|done]).
    destruct (owns_tid a i c S O); [by apply in_cur|by apply Cu|congruence].
  - right. by apply owns_turn.
Qed.

(** Sequences of events, each with the thread that was running. *)
Inductive runs : abs -> list (Z * event) -> abs -> Prop :=
  | runs_nil a : runs a [] a
  | runs_cons t idle a e a1 l a2 : step t idle a e a1 -> runs a1 l a2 -> runs a ((who a, e) :: l) a2.

Lemma put_owns t idle a c a' : sound a -> step t idle a (Put c) a' -> owns a (who a) /\ owns a' (who a).
Proof.
  intros S St. inversion St as [| |x ? Ex Px Sx| | | | | | | | |]; subst. unfold who, owns. cbn. rewrite Ex. simpl.
  split; (split; [by apply (so_cur _ S)|exists x; set_solver]).
Qed.

Lemma owns_runs a l a' i : sound a -> owns a i -> runs a l a' -> (i, Wait) ∉ l -> owns a' i /\ sound a'.
Proof.
  intros S O R. induction R as [|t idle a e a1 l a2 St R IH]; intros N; [done|].
  destruct (owns_step t idle a e a1 i S O St) as [[<- ->]|O1]; [set_solver|].
  apply IH; [by eapply sound_step|done|set_solver].
Qed.

Lemma runs_app a l1 l2 a' : runs a (l1 ++ l2) a' <-> exists a1, runs a l1 a1 /\ runs a1 l2 a'.
Proof.
  revert a. induction l1 as [|x l1 IH]; intros a; simpl.
  - split; [intros R; eexists; by split; [constructor|]|intros (a1 & R & R2); by inversion R; subst].
  - split.
    + intros R. inversion R as [|t idle ? e a1 l a2 St R1]; subst. apply IH in R1 as (a3 & R1 & R2).
      exists a3. split; [by econstructor|done].
    + intros (a3 & R & R2). inversion R as [|t idle ? e a1 l a2 St R1]; subst.
      econstructor; [done|]. apply IH. by exists a3.
Qed.

Lemma sound_runs a l a' : sound a -> runs a l a' -> sound a'.
Proof. intros S R. induction R as [|t idle a e a1 l a2 St R IH]; [done|]. apply IH. by eapply sound_step. Qed.

Lemma puts_separated a l1 i c l2 j d l3 a' : sound a ->
  runs a (l1 ++ (i, Put c) :: l2 ++ (j, Put d) :: l3) a' -> i <> j -> (i, Wait) ∈ l2.
Proof.
  intros S R Ne. apply runs_app in R as (a1 & R1 & R). pose proof (sound_runs _ _ _ S R1) as S1.
  inversion R as [|t idle ? e a2 l ? St R2]; subst. clear R.
  destruct (put_owns _ _ _ _ _ S1 St) as [_ O2]. pose proof (sound_step _ _ _ _ _ S1 St) as S2.
  apply runs_app in R2 as (a3 & R2 & R3).
  destruct (decide ((who a1, Wait) ∈ l2)) as [|N]; [done|exfalso].
  destruct (owns_runs _ _ _ _ S2 O2 R2 N) as [O3 S3].
  inversion R3 as [|t3 idle3 ? e3 a4 l4 ? St3 R4]; subst.
  destruct (put_owns _ _ _ _ _ S3 St3) as [[L3 _] _]. destruct O3 as [L3' _]. congruence.
Qed.
