(* ===== verification/ThreadsThm.v ===== *)
(** * Correctness of the preemptive threads

    The thread system refines the abstract scheduler of ThreadsSpec.v: [rel] relates the two
    states (every thread block is in exactly one place), and every event (a system call, an
    interrupt, a turn of the scheduler) completes and is a step of the abstract scheduler. *)

From stdpp Require Import base tactics option list list_tactics numbers sets gmap.
From Stdlib Require Import ZArith Lia.
From S2P Require Import Prelude Circular Vectors Queue Uart ThreadIo Threads ThreadsSpec.
#[local] Open Scope Z_scope.

(** ** The three queues *)

Record queues_ok (s : sched) (R B F : list Z) : Prop := {
  qo_run : isQ (s_next s) (runq s) R;
  qo_block : isQ (s_next s) (blockq s) B;
  qo_free : isQ (s_next s) (freeq s) F;
  qo_nodup : NoDup (R ++ B ++ F);
  qo_in : forall t, t ∈ R ++ B ++ F -> t ∈ dom (s_th s);
  qo_dom : dom (s_next s) = dom (s_th s);
  qo_zero : 0 ∉ dom (s_th s)
}.

Lemma disjoint3 (R B F : list Z) : NoDup (R ++ B ++ F) ->
  NoDup R /\ NoDup B /\ NoDup F /\ R ## B /\ R ## F /\ B ## F.
Proof.
  intros (NR & D1 & N)%NoDup_app. apply NoDup_app in N as (NB & D2 & NF).
  split_and!; [done..| | |]; intros x; set_solver.
Qed.

Ltac queues_tac Q :=
  destruct Q as [QR QB QF N I D Z0];
  destruct (disjoint3 _ _ _ N) as (NR & NB & NF & DRB & DRF & DBF).

Lemma queues_ok_intro s nx r f b R B F l :
  isQ nx r R -> isQ nx b B -> isQ nx f F -> R ++ B ++ F ≡ₚ l -> NoDup l ->
  (forall t, t ∈ l -> t ∈ dom (s_th s)) -> dom nx = dom (s_th s) -> 0 ∉ dom (s_th s) ->
  queues_ok (set_queues s nx r f b) R B F.
Proof.
  intros HR HB HF P N I D Z0. split; cbn [set_queues s_next runq blockq freeq s_th]; [done..| | |done|done].
  - by rewrite P.
  - intros t Ht. apply I. by rewrite <-P.
Qed.

(** Closes the obligations about queues that the operation did not touch. *)
Ltac others Bt := first [done | eapply isQ_frame; [exact Bt|set_solver|done]].

Section QueueOps.
Context (s : sched) (R B F : list Z).
Context (Q : queues_ok s R B F).

Section Enter.
Context (t : Z) (Ht : t ∉ R ++ B ++ F) (Hd : t ∈ dom (s_th s)).

Lemma enter_ok nx r f b R' B' F' : isQ nx r R' -> isQ nx b B' -> isQ nx f F' ->
  R' ++ B' ++ F' ≡ₚ t :: R ++ B ++ F -> dom nx = dom (s_next s) ->
  queues_ok (set_queues s nx r f b) R' B' F'.
Proof using Q Ht Hd.
  intros HR HB HF P Dn. apply (queues_ok_intro _ _ _ _ _ _ _ _ _ HR HB HF P).
  - constructor; [done|apply Q].
  - intros x [->|Hx]%elem_of_cons; [done|by apply Q].
  - rewrite Dn. apply Q.
  - apply Q.
Qed.

Lemma append_runq :
  exists nx r, on_runq (Q_append t) s = Done (tt, set_queues s nx r (freeq s) (blockq s)) /\
    queues_ok (set_queues s nx r (freeq s) (blockq s)) (R ++ [t]) B F.
Proof using Q Ht Hd.
  pose proof Q as Q'. queues_tac Q'.
  destruct (Q_append_run (s_next s) (runq s) R t) as (nx & r & Run & I' & Bt);
    [done|set_solver|by intros ->|by rewrite D|].
  exists nx, r. split; [by unfold on_runq, on_blockq, on_freeq, m_zoom; rewrite Run|].
  apply enter_ok; [others Bt..|solve_Permutation|apply Bt].
Qed.

Lemma append_blockq :
  exists nx b, on_blockq (Q_append t) s = Done (tt, set_queues s nx (runq s) (freeq s) b) /\
    queues_ok (set_queues s nx (runq s) (freeq s) b) R (B ++ [t]) F.
Proof using Q Ht Hd.
  pose proof Q as Q'. queues_tac Q'.
  destruct (Q_append_run (s_next s) (blockq s) B t) as (nx & b & Run & I' & Bt);
    [done|set_solver|by intros ->|by rewrite D|].
  exists nx, b. split; [by unfold on_runq, on_blockq, on_freeq, m_zoom; rewrite Run|].
  apply enter_ok; [others Bt..|solve_Permutation|apply Bt].
Qed.

Lemma push_freeq :
  exists nx f, on_freeq (Q_push t) s = Done (tt, set_queues s nx (runq s) f (blockq s)) /\
    queues_ok (set_queues s nx (runq s) f (blockq s)) R B (t :: F).
Proof using Q Ht Hd.
  pose proof Q as Q'. queues_tac Q'.
  destruct (Q_push_run (s_next s) (freeq s) F t) as (nx & f & Run & I' & Bt);
    [done|set_solver|by intros ->|by rewrite D|].
  exists nx, f. split; [by unfold on_runq, on_blockq, on_freeq, m_zoom; rewrite Run|].
  apply enter_ok; [others Bt..|solve_Permutation|apply Bt].
Qed.
End Enter.

Lemma leave_ok r f b t R' B' F' :
  isQ (s_next s) r R' -> isQ (s_next s) b B' -> isQ (s_next s) f F' ->
  R ++ B ++ F ≡ₚ t :: R' ++ B' ++ F' ->
  queues_ok (set_queues s (s_next s) r f b) R' B' F' /\ t ∉ R' ++ B' ++ F'.
Proof using Q.
  intros HR HB HF P. pose proof (qo_nodup _ _ _ _ Q) as N. rewrite P in N.
  apply NoDup_cons in N as [Ht N]. split; [|done].
  apply (queues_ok_intro _ _ _ _ _ _ _ _ (R' ++ B' ++ F') HR HB HF); [done|done| |apply Q..].
  intros x Hx. apply Q. rewrite P. by right.
Qed.

Lemma empty_runq : on_runq Q_empty s = Done (bool_decide (R = []), s).
Proof using Q.
  unfold on_runq, m_zoom. rewrite (Q_empty_run _ _ _ (qo_run _ _ _ _ Q)). by destruct s.
Qed.

Lemma empty_blockq : on_blockq Q_empty s = Done (bool_decide (B = []), s).
Proof using Q.
  unfold on_blockq, m_zoom. rewrite (Q_empty_run _ _ _ (qo_block _ _ _ _ Q)). by destruct s.
Qed.
End QueueOps.

Lemma pop_runq s t R B F : queues_ok s (t :: R) B F ->
  exists r, on_runq Q_pop s = Done (t, set_queues s (s_next s) r (freeq s) (blockq s)) /\
    queues_ok (set_queues s (s_next s) r (freeq s) (blockq s)) R B F /\ t ∉ R ++ B ++ F.
Proof.
  intros Q. destruct (Q_pop_cons _ _ _ _ (qo_run _ _ _ _ Q)) as (r & Run & I).
  exists r. split; [by unfold on_runq, on_blockq, on_freeq, m_zoom; rewrite Run|].
  eapply leave_ok; [exact Q|done|apply Q..|solve_Permutation].
Qed.

Lemma pop_blockq s t R B F : queues_ok s R (t :: B) F ->
  exists b, on_blockq Q_pop s = Done (t, set_queues s (s_next s) (runq s) (freeq s) b) /\
    queues_ok (set_queues s (s_next s) (runq s) (freeq s) b) R B F /\ t ∉ R ++ B ++ F.
Proof.
  intros Q. destruct (Q_pop_cons _ _ _ _ (qo_block _ _ _ _ Q)) as (b & Run & I).
  exists b. split; [by unfold on_runq, on_blockq, on_freeq, m_zoom; rewrite Run|].
  eapply leave_ok; [exact Q|apply Q|done|apply Q|solve_Permutation].
Qed.

Lemma pop_freeq s t R B F : queues_ok s R B (t :: F) ->
  exists f, on_freeq Q_pop s = Done (t, set_queues s (s_next s) (runq s) f (blockq s)) /\
    queues_ok (set_queues s (s_next s) (runq s) f (blockq s)) R B F /\ t ∉ R ++ B ++ F.
Proof.
  intros Q. destruct (Q_pop_cons _ _ _ _ (qo_free _ _ _ _ Q)) as (f & Run & I).
  exists f. split; [by unfold on_runq, on_blockq, on_freeq, m_zoom; rewrite Run|].
  eapply leave_ok; [exact Q|apply Q..|done|solve_Permutation].
Qed.

Lemma pop_freeq_nil s R B : queues_ok s R B [] -> on_freeq Q_pop s = Done (0, s).
Proof.
  intros Q. unfold on_freeq, m_zoom. rewrite (Q_pop_nil _ _ (qo_free _ _ _ _ Q)). by destruct s.
Qed.

(** What is not about the queues may change. *)
Lemma queues_ok_same s s' R B F : queues_ok s R B F ->
  s_next s' = s_next s -> runq s' = runq s -> freeq s' = freeq s -> blockq s' = blockq s ->
  dom (s_th s') = dom (s_th s) -> queues_ok s' R B F.
Proof.
  intros [] E1 E2 E3 E4 E5. split; rewrite ?E1, ?E2, ?E3, ?E4, ?E5; done.
Qed.

(** ** The relation *)

(** [kmalloc] gives out distinct blocks, aligned and not null. *)
Class KmallocOk `{Kmalloc} : Prop := {
  block_inj : Inj eq eq block_addr;
  block_aligned : forall n, block_addr n mod 8 = 0;
  block_nonzero : forall n, block_addr n <> 0
}.

Section Refinement.
Context `{Kmalloc} `{Hk : !KmallocOk} `{Linked}.
(** The constant [USE_OUT_INTERRUPTS] of the build. *)
Context (use_out : bool).

Definition is_printer (x : pre_thread_t) : bool := bool_decide (th_fn x = stdout_queue_to_txfifo_addr).

Definition reason_of (b : bool) : Z := if b then STDIO else NONE.

Definition thread_is (x : pre_thread_t) (t : thr) : Prop :=
  th_tid x = t_tid t /\ is_printer x = t_printer t /\ block_reason x = reason_of (t_stdio t).

Abbreviation addrs l := (t_addr <$> l).

(** The block of the scheduler, which has none before [pre_thread_start]. *)
Definition sblock (sch : Z) : list Z := if sch =? 0 then [] else [sch].

Record rel (s : sched) (a : abs) (F : list Z) : Prop := {
  r_queues : queues_ok s (addrs (a_run a)) (addrs (a_block a)) F;
  r_place : addrs (a_all a) ++ F ++ sblock (scheduler_thread s) ≡ₚ elements (dom (s_th s));
  r_th : forall t, t ∈ a_all a -> exists x, s_th s !! t_addr t = Some x /\ thread_is x t;
  r_cur : cur_thread s = default (scheduler_thread s) (t_addr <$> a_cur a);
  r_sched : is_Some (a_cur a) -> scheduler_thread s <> 0;
  r_wait : wait_stdout_thread s = default 0 (t_addr <$> a_wait a);
  r_stdin : wait_stdin_thread s = 0;
  r_lock : io_lock (s_io s) = a_lock a;
  r_next : next_tid s = a_next a;
  r_idle : a_idle a = bool_decide (cq_list (putQ (s_io s)) = []);
  r_io : io_ok (s_io s);
  r_direct : use_out = false -> cq_list (putQ (s_io s)) = [];
  r_heap : forall t, t ∈ dom (s_th s) -> exists i, (i < s_heap s)%nat /\ t = block_addr i
}.

Lemma rel_nodup s a F : rel s a F -> NoDup (addrs (a_all a) ++ F ++ sblock (scheduler_thread s)).
Proof. intros R. rewrite (r_place _ _ _ R). apply NoDup_elements. Qed.

Lemma rel_in_dom s a F t : rel s a F ->
  t ∈ addrs (a_all a) ++ F ++ sblock (scheduler_thread s) <-> t ∈ dom (s_th s).
Proof. intros R. rewrite (r_place _ _ _ R). apply elem_of_elements. Qed.

Lemma in_sblock t : t <> 0 -> t ∈ sblock t.
Proof. intros T. unfold sblock. rewrite (proj2 (Z.eqb_neq t 0)) by done. left. Qed.

Lemma rel_scheduler s a F : rel s a F -> scheduler_thread s <> 0 ->
  exists x, s_th s !! scheduler_thread s = Some x.
Proof.
  intros R Hs. apply elem_of_dom, (rel_in_dom s a F _ R). apply in_sblock in Hs. set_solver.
Qed.

Lemma addr_inj s a F t t' : rel s a F -> t ∈ a_all a -> t' ∈ a_all a -> t_addr t = t_addr t' -> t = t'.
Proof.
  intros R [i Hi]%list_elem_of_lookup [j Hj]%list_elem_of_lookup E.
  assert (i = j) as ->; [|congruence]. pose proof (rel_nodup _ _ _ R) as N. apply NoDup_app in N as [N _].
  apply (NoDup_lookup (addrs (a_all a)) i j (t_addr t) N); by rewrite list_lookup_fmap, ?Hi, ?Hj; simpl; congruence.
Qed.

Lemma rel_user s a F c : rel s a F -> a_cur a = Some c ->
  cur_thread s = t_addr c /\ t_addr c <> scheduler_thread s /\
  exists x, s_th s !! cur_thread s = Some x /\ thread_is x c.
Proof.
  intros R Ec. pose proof (r_cur _ _ _ R) as C. rewrite Ec in C. simpl in C. split_and!; [done| |].
  - pose proof (rel_nodup _ _ _ R) as N. apply NoDup_app in N as (_ & N & _). intros E.
    apply (N (t_addr c)); [apply list_elem_of_fmap_2; by apply in_cur|].
    apply elem_of_app. right. rewrite E. apply in_sblock. apply (r_sched _ _ _ R). by rewrite Ec.
  - rewrite C. apply R. by apply in_cur.
Qed.

Lemma get_thread_run t x s : s_th s !! t = Some x -> get_thread t s = Done (x, s).
Proof. intros E. unfold get_thread. rewrite gets_run. by rewrite E. Qed.

Lemma upd_thread_run t f x s : s_th s !! t = Some x ->
  upd_thread t f s = Done (tt, set_blocks s (<[t := f x]> (s_th s))).
Proof. intros E. unfold upd_thread. by mrun (get_thread_run t x s E). Qed.

Lemma on_io_run {A} (m : M io A) s r x : m (s_io s) = Done (r, x) -> on_io m s = Done (r, set_io s x).
Proof. intros E. unfold on_io, m_zoom. by rewrite E. Qed.

(** The blocks after a write to one of them. *)
Lemma th_insert (th : gmap Z pre_thread_t) (l l' : list thr) c x :
  (forall t, t ∈ l -> exists y, th !! t_addr t = Some y /\ thread_is y t) -> thread_is x c ->
  (forall t, t ∈ l' -> t = c \/ (t ∈ l /\ t_addr t <> t_addr c)) ->
  forall t, t ∈ l' -> exists y, <[t_addr c := x]> th !! t_addr t = Some y /\ thread_is y t.
Proof.
  intros Old Is In t Ht. destruct (In t Ht) as [->|[Hl Ne]].
  - exists x. by rewrite lookup_insert_eq.
  - rewrite lookup_insert_ne by congruence. by apply Old.
Qed.

Lemma dom_upd (th : gmap Z pre_thread_t) t x y : th !! t = Some x -> dom (<[t := y]> th) = dom th.
Proof. intros E. rewrite dom_insert_L. apply elem_of_dom_2 in E. set_solver. Qed.

(** Writing to the block of a thread, which becomes [c']. *)
Lemma rel_write s a F a' c c' x x' : rel s a F -> c ∈ a_all a -> t_addr c' = t_addr c ->
  s_th s !! t_addr c = Some x -> thread_is x' c' ->
  addrs (a_run a') = addrs (a_run a) -> addrs (a_block a') = addrs (a_block a) ->
  t_addr <$> a_cur a' = t_addr <$> a_cur a -> t_addr <$> a_wait a' = t_addr <$> a_wait a ->
  a_lock a' = a_lock a -> a_next a' = a_next a -> a_idle a' = a_idle a ->
  (forall t, t ∈ a_all a' -> t = c' \/ (t ∈ a_all a /\ t <> c)) ->
  rel (set_blocks s (<[t_addr c := x']> (s_th s))) a' F.
Proof.
  intros R Hc Ea Ex Is E1 E2 E3 E4 E5 E6 E7 In.
  assert (dom (<[t_addr c := x']> (s_th s)) = dom (s_th s)) as D by (by eapply dom_upd).
  assert (addrs (a_all a') = addrs (a_all a)) as EA.
  { unfold a_all. rewrite !fmap_app, E1, E2.
    destruct (a_cur a'), (a_cur a), (a_wait a'), (a_wait a); simpl in *; congruence. }
  split; cbn [set_blocks s_next s_th s_mem s_heap cur_thread scheduler_thread wait_stdout_thread
              wait_stdin_thread next_tid s_io].
  - rewrite E1, E2. by eapply queues_ok_same; [apply R|..].
  - rewrite D, EA. apply R.
  - rewrite <-Ea. eapply th_insert; [apply R|done|]. intros t Ht.
    destruct (In t Ht) as [->|[Ht' Ne]]; [by left|right]. split; [done|].
    rewrite Ea. intros E. by apply Ne, (addr_inj s a F).
  - rewrite E3. apply R.
  - intros Hs. apply (r_sched _ _ _ R). destruct (a_cur a'), (a_cur a); by try destruct Hs.
  - rewrite E4. apply R.
  - apply R.
  - rewrite E5. apply R.
  - rewrite E6. apply R.
  - rewrite E7. apply R.
  - apply R.
  - apply R.
  - rewrite D. apply R.
Qed.

(** Saving a context. *)
Lemma rel_save s a F c sp : rel s a F -> c ∈ a_all a -> exists x, s_th s !! t_addr c = Some x /\
  upd_thread (t_addr c) (set_saved_sp sp) s =
    Done (tt, set_blocks s (<[t_addr c := set_saved_sp sp x]> (s_th s))) /\
  rel (set_blocks s (<[t_addr c := set_saved_sp sp x]> (s_th s))) a F.
Proof.
  intros R Hc. destruct (r_th _ _ _ R c Hc) as (x & Ex & Is). exists x.
  split_and!; [done|by apply upd_thread_run|].
  eapply rel_write; try done. intros t Ht. destruct (decide (t = c)) as [->|]; auto.
Qed.

(** The current thread asks for the lock, or gives it up. *)
Lemma rel_ask s a F c b : rel s a F -> NoDup (t_tid <$> a_all a) -> a_cur a = Some c -> exists x, s_th s !! t_addr c = Some x /\
  upd_thread (t_addr c) (set_reason (reason_of b)) s =
    Done (tt, set_blocks s (<[t_addr c := set_reason (reason_of b) x]> (s_th s))) /\
  rel (set_blocks s (<[t_addr c := set_reason (reason_of b) x]> (s_th s)))
    (mk_abs (a_run a) (a_block a) (Some (asks b c)) (a_wait a) (a_lock a) (a_next a) (a_idle a)) F.
Proof.
  intros R N Ec. destruct (r_th _ _ _ R c (in_cur _ _ Ec)) as (x & Ex & Is). exists x.
  split_and!; [done|by apply upd_thread_run|].
  eapply (rel_write s a F _ c (asks b c)); try done.
  - by apply in_cur.
  - destruct Is as (? & ? & ?). by split_and!.
  - simpl. by rewrite Ec.
  - intros t Ht. destruct (decide (t = asks b c)) as [->|Ne]; [by left|right].
    assert (t ∈ a_run a ++ a_block a ++ olist (a_wait a)) as Ht'.
    { unfold a_all in Ht. cbn in Ht. set_solver. }
    split; [unfold a_all; set_solver|]. intros ->.
    unfold a_all in N. rewrite Ec in N.
    assert (t_tid c :: (t_tid <$> a_run a ++ a_block a ++ olist (a_wait a)) ≡ₚ
      t_tid <$> a_run a ++ a_block a ++ olist (Some c) ++ olist (a_wait a)) as P.
    { rewrite !fmap_app. simpl. solve_Permutation. }
    rewrite <-P in N. apply NoDup_cons in N as [N _]. apply N. by apply list_elem_of_fmap_2.
Qed.

(** Changes of the lock, of the output queue and of what the line holds. *)
Lemma rel_io s a F x b : rel s a F -> io_ok x -> b = bool_decide (cq_list (putQ x) = []) ->
  (use_out = false -> cq_list (putQ x) = []) ->
  rel (set_io s x)
    (mk_abs (a_run a) (a_block a) (a_cur a) (a_wait a) (io_lock x) (a_next a) b) F.
Proof.
  intros R O -> Di. split; cbn [set_io s_next s_th s_heap cur_thread scheduler_thread
    wait_stdout_thread wait_stdin_thread next_tid s_io a_run a_block a_cur a_wait a_lock a_next a_idle];
    try apply R; try done.
  by eapply queues_ok_same; [apply R|..].
Qed.

Lemma rel_lock s a F tid : rel s a F ->
  on_io (write_stdio_tid tid) s = Done (tt, set_io s (set_lock tid (s_io s))) /\
  rel (set_io s (set_lock tid (s_io s)))
    (mk_abs (a_run a) (a_block a) (a_cur a) (a_wait a) tid (a_next a) (a_idle a)) F.
Proof.
  intros R. split; [done|]. rewrite (r_idle _ _ _ R).
  apply (rel_io s a F (set_lock tid (s_io s)) _ R); [by destruct (r_io _ _ _ R)|done|apply R].
Qed.

Lemma is_idle_run s a F tid : rel s a F ->
  on_io (stdio_is_idle tid) s = Done (free_for a tid, s).
Proof.
  intros R. unfold on_io, m_zoom, stdio_is_idle, read_lock_tid. rewrite gets_run.
  unfold free_for. rewrite (r_lock _ _ _ R). by destruct s.
Qed.

Lemma out_empty_run s a F : rel s a F -> on_io stdout_queue_is_empty s = Done (a_idle a, s).
Proof.
  intros R. unfold on_io, m_zoom. rewrite (empty_run _ (r_io _ _ _ R)), (r_idle _ _ _ R).
  by destruct s.
Qed.

(** The current thread's block is in no queue. *)
Lemma cur_not_queued s a F c : rel s a F -> a_cur a = Some c ->
  t_addr c ∉ addrs (a_run a) ++ addrs (a_block a) ++ F /\ t_addr c ∈ dom (s_th s).
Proof.
  intros R Ec. split.
  - pose proof (rel_nodup _ _ _ R) as N. unfold a_all in N. rewrite Ec, !fmap_app in N.
    assert (forall l1 l2 l4 l5 l6 : list Z, (l1 ++ l2 ++ t_addr c :: l4) ++ l5 ++ l6 ≡ₚ
      t_addr c :: (l1 ++ l2 ++ l5) ++ l4 ++ l6) as P by (intros; solve_Permutation).
    simpl in N. rewrite P in N. apply NoDup_cons in N as [N _]. set_solver.
  - apply (rel_in_dom s a F _ R). apply elem_of_app. left. apply list_elem_of_fmap_2. by apply in_cur.
Qed.

(** The current thread stops; [s1] differs from [s] in the queues only, which hold it now. *)
Lemma rel_stop s a F c s1 nx r f b a' F' : rel s a F -> a_cur a = Some c ->
  s1 = set_queues s nx r f b -> queues_ok s1 (addrs (a_run a')) (addrs (a_block a')) F' ->
  a_cur a' = None -> addrs (a_all a') ++ F' ≡ₚ addrs (a_all a) ++ F ->
  (forall t, t ∈ a_all a' -> t ∈ a_all a) ->
  a_wait a' = a_wait a -> a_lock a' = a_lock a -> a_next a' = a_next a -> a_idle a' = a_idle a ->
  rel (set_cur s1 (scheduler_thread s1)) a' F'.
Proof.
  intros R Ec -> Q Ec' P In E1 E2 E3 E4.
  split; cbn [set_cur set_queues s_next s_th s_heap cur_thread scheduler_thread
    wait_stdout_thread wait_stdin_thread next_tid s_io].
  - by eapply queues_ok_same; [exact Q|..].
  - rewrite app_assoc, P, <-app_assoc. apply R.
  - intros t Ht. apply R. by apply In.
  - by rewrite Ec'.
  - rewrite Ec'. by intros [].
  - rewrite E1. apply R.
  - apply R.
  - rewrite E2. apply R.
  - rewrite E3. apply R.
  - rewrite E4. apply R.
  - apply R.
  - apply R.
  - apply R.
Qed.

Lemma to_scheduler_run s x : s_th s !! scheduler_thread s = Some x ->
  to_scheduler s = Done (saved_sp x, set_cur s (scheduler_thread s)).
Proof.
  intros Ex. unfold to_scheduler. rewrite gets_run, modify_run.
  by mrun (get_thread_run (scheduler_thread s) x (set_cur s (scheduler_thread s)) Ex).
Qed.

(** Nothing was printed or lost, and the scheduler is the same. *)
Definition same_output (s s' : sched) : Prop :=
  console (s_io s') = console (s_io s) /\ scheduler_thread s' = scheduler_thread s.

Lemma same_output_trans s1 s2 s3 : same_output s1 s2 -> same_output s2 s3 -> same_output s1 s3.
Proof. unfold same_output. intuition congruence. Qed.

(** ** New threads *)

(** After [th_alloc]: block [t] is out of the free queue, or new, and has the next id. *)
Record allocated (s : sched) (a : abs) (t : Z) (s' : sched) (F : list Z) : Prop := {
  al_queues : queues_ok s' (addrs (a_run a)) (addrs (a_block a)) F;
  al_place : t :: addrs (a_all a) ++ F ++ sblock (scheduler_thread s') ≡ₚ elements (dom (s_th s'));
  al_old : forall u, u <> t -> s_th s' !! u = s_th s !! u;
  al_new : exists x, s_th s' !! t = Some x /\ th_tid x = next_tid s;
  al_heap : forall u, u ∈ dom (s_th s') -> exists i, (i < s_heap s')%nat /\ u = block_addr i;
  al_tid : next_tid s' = u32 (next_tid s + 1);
  al_same : cur_thread s' = cur_thread s /\ scheduler_thread s' = scheduler_thread s /\
    wait_stdout_thread s' = wait_stdout_thread s /\ wait_stdin_thread s' = wait_stdin_thread s /\
    s_io s' = s_io s
}.

Lemma aligned_stack t n : t = block_addr n -> (stack_addr t mod 8 =? 0) = true.
Proof using Hk.
  intros ->. apply Z.eqb_eq. unfold stack_addr. rewrite Z.add_mod, block_aligned by lia. done.
Qed.

Lemma alloc_free s a t F : rel s a (t :: F) ->
  exists s', th_alloc s = Done (t, s') /\ allocated s a t s' F.
Proof using Hk.
  intros R. destruct (pop_freeq s t _ _ F (r_queues _ _ _ R)) as (f & Pop & Q & Nt).
  assert (t ∈ dom (s_th s)) as D by (apply (rel_in_dom s a (t :: F) t R); set_solver).
  destruct (r_heap _ _ _ R t D) as (i & Hi & Et). apply elem_of_dom in D as [x Ex].
  assert (t <> 0) as T0 by (rewrite Et; apply block_nonzero).
  unfold th_alloc. mrun Pop. rewrite (proj2 (Z.eqb_neq t 0)) by done. rewrite ret_run.
  rewrite assert_run by (by eapply aligned_stack). rewrite gets_run.
  match goal with |- context [next_tid ?s] => set (s1 := s) end.
  mrun (upd_thread_run t (set_th_tid (next_tid s1)) x s1 Ex). rewrite modify_run.
  eexists. split; [done|].
  assert (dom (<[t := set_th_tid (next_tid s1) x]> (s_th s1)) = dom (s_th s)) as Dm
    by (by eapply (dom_upd (s_th s))).
  split; cbn [set_next_tid set_blocks s_th s_heap next_tid cur_thread scheduler_thread
    wait_stdout_thread wait_stdin_thread s_io]; try done.
  - eapply queues_ok_same; [exact Q|done..].
  - rewrite Dm, <-(r_place _ _ _ R). cbn. solve_Permutation.
  - intros u Hu. by rewrite lookup_insert_ne.
  - eexists. by rewrite lookup_insert_eq.
  - rewrite Dm. apply R.
Qed.

Lemma alloc_new s a : rel s a [] ->
  exists t s', th_alloc s = Done (t, s') /\ allocated s a t s' [].
Proof using Hk.
  intros R. set (t := block_addr (s_heap s)).
  assert (t ∉ dom (s_th s)) as Nt.
  { intros (i & Hi & E)%(r_heap _ _ _ R). apply block_inj in E. lia. }
  assert (s_next s !! t = None) as Nn.
  { apply not_elem_of_dom. by rewrite (qo_dom _ _ _ _ (r_queues _ _ _ R)). }
  unfold th_alloc. mrun (pop_freeq_nil s _ _ (r_queues _ _ _ R)). rewrite Z.eqb_refl.
  unfold kmalloc_block. rewrite bind_assoc, gets_run, bind_assoc, modify_run, ret_run.
  rewrite assert_run by (by eapply aligned_stack). rewrite gets_run.
  match goal with |- context [next_tid ?s] => set (s1 := s) end.
  assert (s_th s1 !! t = Some (block_junk (s_heap s))) as Ex by apply lookup_insert_eq.
  mrun (upd_thread_run t (set_th_tid (next_tid s1)) _ s1 Ex). rewrite modify_run.
  eexists t, _. split; [done|].
  assert (dom (<[t := set_th_tid (next_tid s1) (block_junk (s_heap s))]> (s_th s1)) = {[t]} ∪ dom (s_th s)) as Dm.
  { rewrite (dom_upd _ _ _ _ Ex). apply dom_insert_L. }
  pose proof (r_queues _ _ _ R) as Q.
  split; cbn [set_next_tid set_blocks s_th s_heap next_tid cur_thread scheduler_thread
    wait_stdout_thread wait_stdin_thread s_io]; try done.
  - assert (forall q l, isQ (s_next s) q l -> isQ (<[t := 0]> (s_next s)) q l) as Fr.
    { intros q l [Sg N T C]. split; [|done..]. eapply seg_ext; [|exact Sg]. intros u Hu.
      rewrite lookup_insert_ne; [done|]. intros <-. apply (seg_in _ _ _ _ t Sg) in Hu as [_ Hu].
      by apply not_elem_of_dom in Nn. }
    destruct Q as [QR QB QF N I D Z0].
    split; cbn [set_next_tid set_blocks s_next runq blockq freeq s_th]; auto.
    + intros u Hu. rewrite Dm. apply elem_of_union_r. by apply I.
    + rewrite Dm. cbn. by rewrite dom_insert_L, D.
    + rewrite Dm. apply not_elem_of_union. split; [|done]. apply not_elem_of_singleton.
      symmetry. apply block_nonzero.
  - rewrite Dm, elements_disj_union by set_solver. rewrite elements_singleton. cbn.
    by rewrite <-(r_place _ _ _ R).
  - intros u Hu. rewrite lookup_insert_ne by done. by apply lookup_insert_ne.
  - eexists. by rewrite lookup_insert_eq.
  - rewrite Dm. intros u [->%elem_of_singleton|Hu]%elem_of_union.
    + exists (s_heap s). split; [simpl; lia|done].
    + destruct (r_heap _ _ _ R u Hu) as (i & Hi & ->). exists i. split; [simpl; lia|done].
Qed.

Lemma th_alloc_run s a F : rel s a F ->
  exists t s' F', th_alloc s = Done (t, s') /\ allocated s a t s' F'.
Proof using Hk.
  intros R. destruct F as [|t F].
  - destruct (alloc_new s a R) as (t & s' & E & A). by exists t, s', [].
  - destruct (alloc_free s a t F R) as (s' & E & A). by exists t, s', F.
Qed.

(** The context a new thread starts from: the trampoline, with the code in [r5] and its
    argument in [r4], in the mode asked for and with interrupts on or off. *)
Definition starts (s : sched) (t code arg : Z) (enable_interrupt sys_mode : bool) : Prop :=
  exists x, s_th s !! t = Some x /\
    s_mem s !! (saved_sp x + 4 * PC_OFFSET) = Some pre_init_trampoline_addr /\
    s_mem s !! (saved_sp x + 4 * R5_OFFSET) = Some code /\
    s_mem s !! (saved_sp x + 4 * R4_OFFSET) = Some arg /\
    exists cpsr, s_mem s !! (saved_sp x + 4 * CPSR_OFFSET) = Some cpsr /\
      Z.land cpsr 31 = (if sys_mode then SYS_MODE else USER_MODE) /\
      Z.testbit cpsr 7 = negb enable_interrupt.

Lemma context_words (m : gmap Z Z) sp r4 r5 pc cpsr :
  let m' := <[sp + 4 * CPSR_OFFSET := cpsr]> (<[sp + 4 * PC_OFFSET := pc]>
    (<[sp + 4 * LR_OFFSET := pc]> (<[sp + 4 * R5_OFFSET := r5]> (<[sp + 4 * R4_OFFSET := r4]> m)))) in
  m' !! (sp + 4 * PC_OFFSET) = Some pc /\ m' !! (sp + 4 * R5_OFFSET) = Some r5 /\
  m' !! (sp + 4 * R4_OFFSET) = Some r4 /\ m' !! (sp + 4 * CPSR_OFFSET) = Some cpsr.
Proof.
  intros m'. unfold m', CPSR_OFFSET, PC_OFFSET, LR_OFFSET, R5_OFFSET, R4_OFFSET.
  split_and!; repeat (rewrite lookup_insert_ne by lia); apply lookup_insert_eq.
Qed.

Lemma fork_run s a F code arg ei sm : rel s a F -> 0 <= a_next a < 2 ^ 32 - 1 ->
  exists t s' F', pre_fork code arg ei sm s = Done (t, s') /\ starts s' t code arg ei sm /\
    s_io s' = s_io s /\ scheduler_thread s' = scheduler_thread s /\
    rel s' (mk_abs (a_run a ++
                      [mk_thr t (a_next a) (bool_decide (code = stdout_queue_to_txfifo_addr)) false])
              (a_block a) (a_cur a) (a_wait a) (a_lock a) (a_next a + 1) (a_idle a)) F'.
Proof using Hk.
  intros R B. destruct (th_alloc_run s a F R) as (t & s1 & F1 & Al & A).
  destruct A as [Q P Old (x & Ex & Tx) Hp Nx (C1 & C2 & C3 & C4 & C5)].
  set (sp := stack_addr t + 4 * (THREAD_MAXSTACK - 17)).
  set (x' := mk_thread sp (th_tid x) code arg NONE).
  set (s2 := set_blocks s1 (<[t := x']> (s_th s1))).
  assert (dom (s_th s2) = dom (s_th s1)) as D2 by (by eapply (dom_upd (s_th s1))).
  pose proof (NoDup_elements (dom (s_th s1))) as N. rewrite <-P in N. apply NoDup_cons in N as [Nt N].
  unfold pre_fork. mrun Al. mrun (upd_thread_run t (fun x => mk_thread sp (th_tid x) code arg NONE) x s1 Ex).
  unfold store_word. rewrite !modify_run.
  match goal with |- context [on_runq (Q_append t) ≫= _] => idtac end.
  match goal with |- exists _ _ _, (on_runq _ ≫= _) ?s = _ /\ _ => set (s3 := s) end.
  assert (queues_ok s3 (addrs (a_run a)) (addrs (a_block a)) F1) as Q3 by (by eapply queues_ok_same).
  destruct (append_runq s3 _ _ _ Q3 t) as (nx & r & Ap & Q4).
  { unfold a_all in Nt. rewrite !fmap_app in Nt. set_solver. }
  { change (s_th s3) with (s_th s2). rewrite D2. apply elem_of_elements. rewrite <-P. left. }
  mrun Ap. eexists t, _, F1. split_and!; [done| |exact C5|exact C2|].
  - exists x'. split; [apply lookup_insert_eq|].
    destruct (context_words (s_mem s1) sp arg code pre_init_trampoline_addr
      (Z.lor (if ei then 0x60000100 else 0x60000180) (if sm then 31 else 16))) as (W1 & W2 & W3 & W4).
    split_and!; [exact W1|exact W2|exact W3|]. eexists. split; [exact W4|]. by destruct ei, sm.
  - split; cbn [set_queues s_next s_th s_heap cur_thread scheduler_thread wait_stdout_thread
      wait_stdin_thread next_tid s_io a_run a_block a_cur a_wait a_lock a_next a_idle].
    + rewrite fmap_app. exact Q4.
    + change (s_th s3) with (s_th s2). change (scheduler_thread s3) with (scheduler_thread s1).
      rewrite D2, <-P. unfold a_all. cbn [a_run a_block a_cur a_wait]. rewrite !fmap_app. cbn.
      solve_Permutation.
    + change (s_th s3) with (<[t := x']> (s_th s1)). intros u Hu.
      assert (u = mk_thr t (a_next a) (bool_decide (code = stdout_queue_to_txfifo_addr)) false
              \/ u ∈ a_all a) as [->|Hu'].
      { unfold a_all in *. cbn [a_run a_block a_cur a_wait] in Hu. set_solver. }
      * exists x'. cbn. rewrite lookup_insert_eq. split; [done|].
        split_and!; [cbn; by rewrite Tx, (r_next _ _ _ R)|done..].
      * assert (t_addr u <> t) as Ne.
        { intros <-. apply Nt. apply elem_of_app. left. by apply list_elem_of_fmap_2. }
        rewrite lookup_insert_ne, Old by done. by apply R.
    + change (cur_thread s3) with (cur_thread s1). change (scheduler_thread s3) with (scheduler_thread s1).
      rewrite C1, C2. apply R.
    + change (scheduler_thread s3) with (scheduler_thread s1). rewrite C2. apply R.
    + change (wait_stdout_thread s3) with (wait_stdout_thread s1). rewrite C3. apply R.
    + change (wait_stdin_thread s3) with (wait_stdin_thread s1). rewrite C4. apply R.
    + change (s_io s3) with (s_io s1). rewrite C5. apply R.
    + change (next_tid s3) with (next_tid s1). rewrite Nx, (r_next _ _ _ R). apply u32_small.
      unfold is_u32. lia.
    + change (s_io s3) with (s_io s1). rewrite C5. apply R.
    + change (s_io s3) with (s_io s1). rewrite C5. apply R.
    + change (s_io s3) with (s_io s1). rewrite C5. apply R.
    + change (s_th s3) with (s_th s2). rewrite D2. exact Hp.
Qed.

Lemma fork_printer_run s a F : rel s a F -> 0 <= a_next a < 2 ^ 32 - 1 ->
  exists t s' F', fork_printer s = Done (tt, s') /\ same_output s s' /\
    rel s' (mk_abs (a_run a ++ [new_thread t true a]) (a_block a) (a_cur a) (a_wait a)
              (a_next a) (a_next a + 1) (a_idle a)) F'.
Proof using Hk.
  intros R B. unfold fork_printer.
  destruct (fork_run s a F stdout_queue_to_txfifo_addr 0 false true R B) as (t & s1 & F1 & Fo & _ & Io & Sc & R1).
  rewrite bool_decide_eq_true_2 in R1 by done. mrun Fo.
  set (c := mk_thr t (a_next a) true false) in *.
  match type of R1 with rel _ ?a _ => set (a1 := a) in * end.
  assert (c ∈ a_all a1) as Hc by (unfold a_all; cbn; set_solver).
  destruct (r_th _ _ _ R1 c Hc) as (x & Ex & Is).
  mrun (upd_thread_run t (set_reason STDIO) x s1 Ex).
  match goal with |- context [(get_thread t ≫= _) ?s] => set (s2 := s) end.
  assert (s_th s2 !! t = Some (set_reason STDIO x)) as E2 by apply lookup_insert_eq.
  mrun (get_thread_run t _ s2 E2).
  assert (rel s2 (mk_abs (a_run a ++ [new_thread t true a]) (a_block a) (a_cur a) (a_wait a)
              (a_lock a) (a_next a + 1) (a_idle a)) F1) as R2.
  { eapply (rel_write s1 a1 F1 _ c (new_thread t true a) x); try done.
    - destruct Is as (? & ? & ?). by split_and!.
    - cbn. by rewrite !fmap_app.
    - intros u Hu. destruct (decide (u = new_thread t true a)) as [->|Ne]; [by left|right].
      assert (u ∈ a_run a ++ a_block a ++ olist (a_cur a) ++ olist (a_wait a)) as Hu'.
      { unfold a_all in Hu. cbn in Hu. set_solver. }
      split; [unfold a_all; cbn; set_solver|]. intros ->.
      pose proof (rel_nodup _ _ _ R1) as N. unfold a_all in N. cbn in N. rewrite !fmap_app in N. cbn in N.
      assert (forall l1 l2 l3 l4 l5 : list Z, ((l1 ++ [t]) ++ l2 ++ l3 ++ l4) ++ l5 ≡ₚ
        t :: (l1 ++ l2 ++ l3 ++ l4) ++ l5) as P by (intros; solve_Permutation).
      rewrite P in N. apply NoDup_cons in N as [N _]. apply N. apply elem_of_app. left.
      rewrite <-!fmap_app. change t with (t_addr c). by apply list_elem_of_fmap_2. }
  destruct Is as (Tx & _). change (th_tid (set_reason STDIO x)) with (th_tid x). rewrite Tx.
  destruct (rel_lock s2 _ F1 (t_tid c) R2) as [L R3].
  eexists t, _, F1. split_and!; [exact L| |exact R3]. split; [|exact Sc]. unfold console. cbn. by rewrite Io.
Qed.

(** ** System calls *)

Definition mode_ok (mode : Z) : Prop := mode = USER_MODE \/ mode = SYS_MODE.

Lemma mode_ok_run mode : mode_ok mode -> negb (mode =? USER_MODE) && negb (mode =? SYS_MODE) = false.
Proof. by intros [->| ->]. Qed.

Lemma abs_eta a :
  a = mk_abs (a_run a) (a_block a) (a_cur a) (a_wait a) (a_lock a) (a_next a) (a_idle a).
Proof. by destruct a. Qed.

(** Leaving the thread system. *)
Lemma leave_run s a F c : rel s a F -> a_cur a = Some c -> exists sp' s', pre_exit s = Done (sp', s') /\ same_output s s' /\
  rel s' (mk_abs (a_run a) (a_block a) None (a_wait a) (a_lock a) (a_next a) (a_idle a)) (t_addr c :: F).
Proof.
  intros R Ec. destruct (rel_user s a F c R Ec) as (C & Ns & _). unfold pre_exit. rewrite gets_run, C.
  destruct (cur_not_queued s a F c R Ec) as [Nq Dq].
  destruct (push_freeq s _ _ _ (r_queues _ _ _ R) _ Nq Dq) as (nx & f & Pu & Q).
  unfold th_free. mrun Pu. destruct (rel_scheduler s a F R) as [z Ez]; [apply (r_sched _ _ _ R); by rewrite Ec|].
  erewrite to_scheduler_run by exact Ez. do 2 eexists. split_and!; [done..|].
  eapply (rel_stop s a F c); try done.
  - unfold a_all. cbn [a_run a_block a_cur a_wait olist]. rewrite Ec, !fmap_app. cbn. solve_Permutation.
  - intros t. unfold a_all. cbn. set_solver.
Qed.

Section Calls.
Context (transfer : M sched unit) (mode sp : Z) (Hm : mode_ok mode).
Context (s : sched) (a : abs) (F : list Z) (c : thr).
Context (R : rel s a F) (S : sound a) (Ec : a_cur a = Some c) (Pc : t_printer c = false).

Lemma block_run : t_stdio c = false ->
  exists sp' s', block_current sp s = Done (sp', s') /\ same_output s s' /\
    rel s' (mk_abs (a_run a) (a_block a ++ [asks true c]) None (a_wait a) (a_lock a) (a_next a) (a_idle a)) F.
Proof using All.
  intros Sc. destruct (rel_user s a F c R Ec) as (C & Ns & _).
  unfold block_current. rewrite gets_run, C.
  destruct (rel_save s a F c sp R (in_cur _ _ Ec)) as (x & _ & Sv & R1). mrun Sv.
  match type of R1 with rel ?s _ _ => set (s1 := s) in * end.
  destruct (rel_ask s1 a F c true R1 (so_tids _ S) Ec) as (y & _ & As & R2).
  change (reason_of true) with STDIO in *. mrun As.
  match type of R2 with rel ?s ?a _ => set (s2 := s) in *; set (a2 := a) in * end.
  destruct (cur_not_queued s2 a2 F (asks true c) R2 eq_refl) as [Nq Dq].
  destruct (append_blockq s2 _ _ _ (r_queues _ _ _ R2) _ Nq Dq) as (nx & b & Ap & Q).
  change (t_addr (asks true c)) with (t_addr c) in Ap. mrun Ap.
  destruct (rel_scheduler s2 a2 F R2) as [z Ez]; [by apply (r_sched _ _ _ R2)|].
  erewrite to_scheduler_run by exact Ez. do 2 eexists. split_and!; [done..|].
  eapply (rel_stop s2 a2 F (asks true c)); try done.
  - cbn [a_run a_block]. rewrite fmap_app. exact Q.
  - unfold a_all. cbn [a_run a_block a_cur a_wait a2 olist]. rewrite !fmap_app. cbn. solve_Permutation.
  - intros t. unfold a_all. cbn. set_solver.
Qed.

Lemma request_refines : t_stdio c = false ->
  exists sp' s' a', syscall_vector transfer REQUEST_STDOUT mode sp s = Done (sp', s') /\
    step 0 (a_idle a) a Request a' /\ rel s' a' F /\ same_output s s'.
Proof using All.
  intros Sc. destruct (rel_user s a F c R Ec) as (C & Ns & x & Ex & Is).
  unfold syscall_vector. rewrite (mode_ok_run _ Hm), gets_run. mrun (get_thread_run _ _ _ Ex). cbn [Z.eqb].
  change (REQUEST_STDOUT =? REQUEST_STDOUT) with true. cbv iota.
  destruct Is as (Tx & _). rewrite Tx. mrun (is_idle_run s a F (t_tid c) R).
  destruct (free_for a (t_tid c)) eqn:Fr.
  - destruct (rel_lock s a F (t_tid c) R) as [L R1]. mrun L.
    match type of R1 with rel ?s ?a _ => set (s1 := s) in *; set (a1 := a) in * end.
    destruct (rel_ask s1 a1 F c true R1 (so_tids _ S) Ec) as (y & _ & As & R2).
    rewrite C. change STDIO with (reason_of true). mrun As.
    eexists _, _, (mk_abs (a_run a) (a_block a) (Some (asks true c)) (a_wait a) (t_tid c) (a_next a) (a_idle a)).
    split_and!; [done|by apply st_request|exact R2|done].
  - destruct (block_run Sc) as (sp' & s' & B & O & R').
    do 3 eexists. split_and!; [exact B| |exact R'|exact O]. by apply st_blocked.
Qed.

(** Reading the queue's state after a change of the interrupt enable register. *)
Lemma rel_ier (m : M uart unit) u : m (io_uart (s_io s)) = Done (tt, u) ->
  on_io (on_uart m) s = Done (tt, set_io s (set_uart u (s_io s))) /\
  rel (set_io s (set_uart u (s_io s)))
    (mk_abs (a_run a) (a_block a) (a_cur a) (a_wait a) (a_lock a) (a_next a) (a_idle a)) F.
Proof using R.
  intros E. split; [by apply on_io_run, (zoom_done io_uart set_uart)|].
  rewrite (r_idle _ _ _ R), <-(r_lock _ _ _ R).
  apply (rel_io s a F (set_uart u (s_io s)) _ R); [by destruct (r_io _ _ _ R)|done|apply R].
Qed.

Lemma wait_refines : t_stdio c = true -> a_next a < 2 ^ 32 - 1 ->
  exists sp' s' a' t F', syscall_vector transfer WAIT_STDOUT mode sp s = Done (sp', s') /\
    step t (a_idle a) a Wait a' /\ rel s' a' F' /\ same_output s s'.
Proof using All.
  intros Sc Bn. destruct (rel_user s a F c R Ec) as (C & Ns & x & Ex & Is).
  assert (a_wait a = None) as W.
  { apply (user_no_wait a c); [done..|]. right. by apply S. }
  unfold syscall_vector. rewrite (mode_ok_run _ Hm), gets_run. mrun (get_thread_run _ _ _ Ex).
  change (WAIT_STDOUT =? REQUEST_STDOUT) with false. change (WAIT_STDOUT =? REQUEST_STDIN) with false.
  change (WAIT_STDOUT =? WAIT_STDOUT) with true. cbv iota.
  destruct (rel_ier _ _ (enable_interrupt_run 1 _)) as [Ie R0]. mrun Ie.
  match type of R0 with rel ?s _ _ => set (s0 := s) in * end.
  mrun (out_empty_run s0 _ F R0). cbn [a_idle]. rewrite C. destruct (a_idle a) eqn:I.
  - destruct (rel_lock s0 _ F 0 R0) as [L R1]. mrun L.
    match type of R1 with rel ?s ?a _ => set (s1 := s) in *; set (a1 := a) in * end.
    destruct (rel_ask s1 a1 F c false R1 (so_tids _ S) Ec) as (y & _ & As & R2).
    change NONE with (reason_of false). mrun As.
    eexists _, _, (mk_abs (a_run a) (a_block a) (Some (asks false c)) (a_wait a) 0 (a_next a) true), 0, F.
    split_and!; [done|by apply st_wait_sent|exact R2|done].
  - destruct (fork_printer_run s0 _ F R0) as (t & s1 & F1 & Fp & Op & R1).
    { cbn. pose proof (so_pos _ S). lia. }
    mrun Fp. match type of R1 with rel _ ?a _ => set (a1 := a) in * end.
    assert (a_cur a1 = Some c) as Ec1 by done.
    destruct (rel_save s1 a1 F1 c sp R1 (in_cur _ _ Ec1)) as (y & _ & Sv & R2). mrun Sv.
    match type of R2 with rel ?s _ _ => set (s2 := s) in * end. rewrite modify_run.
    destruct (rel_scheduler s2 a1 F1 R2) as [z Ez]; [apply (r_sched _ _ _ R2); by rewrite Ec1|].
    match goal with |- context [to_scheduler ?s] => set (s3 := s) end.
    erewrite to_scheduler_run by exact Ez.
    eexists _, _, (mk_abs (a_run a ++ [new_thread t true a]) (a_block a) None (Some c)
           (a_next a) (a_next a + 1) false), t, F1.
    split_and!; [done|by apply st_wait| |exact Op].
    split; cbn [s3 set_cur set_waits s_next s_th s_heap cur_thread scheduler_thread wait_stdout_thread
      wait_stdin_thread next_tid s_io a_run a_block a_cur a_wait a_lock a_next a_idle]; try apply R2; try done.
    + eapply queues_ok_same; [apply R2|done..].
    + rewrite <-(r_place _ _ _ R2). unfold a_all. cbn [a_run a_block a_cur a_wait a1 olist]. rewrite Ec, W.
      rewrite !fmap_app. cbn. solve_Permutation.
    + intros u Hu. apply R2. unfold a_all in *. cbn [a_run a_block a_cur a_wait a1 olist] in *. rewrite Ec, W.
      set_solver.
Qed.

(** ** The other events of a user thread *)

Lemma put_refines ch : t_stdio c = true ->
  exists s' a' idle, on_io (rpi_putchar use_out ch) s = Done (tt, s') /\
    step 0 idle a (Put ch) a' /\ rel s' a' F /\ scheduler_thread s' = scheduler_thread s /\
    console (s_io s') = console (s_io s) ++ printed use_out ch (s_io s).
Proof using All.
  intros Sc. destruct (putchar_run use_out ch (s_io s) (r_io _ _ _ R) (r_direct _ _ _ R))
    as (x & Pu & O & L & Co & Di).
  eexists _, _, _. split_and!; [by apply on_io_run| |eapply rel_io; [exact R|exact O|reflexivity|exact Di]|done|done].
  rewrite L, (r_lock _ _ _ R). by eapply st_put.
Qed.

Lemma fork_refines code arg ei sm : code <> stdout_queue_to_txfifo_addr -> a_next a < 2 ^ 32 - 1 ->
  exists t s' a' F', pre_fork code arg ei sm s = Done (t, s') /\
    step t (a_idle a) a Fork a' /\ rel s' a' F' /\ same_output s s' /\ starts s' t code arg ei sm.
Proof using All.
  intros Nc B. pose proof (so_pos _ S).
  destruct (fork_run s a F code arg ei sm R) as (t & s' & F' & Fo & St & Io & Sc & R'); [lia|].
  rewrite bool_decide_eq_false_2 in R' by done.
  eexists t, s', _, F'. split_and!; [exact Fo| |exact R'|split; [by rewrite Io|done]|done]. by eapply (st_fork t (a_idle a) a c).
Qed.

Lemma exit_refines : t_stdio c = false -> exists sp' s' a', pre_exit s = Done (sp', s') /\
  step 0 (a_idle a) a Exit a' /\ rel s' a' (t_addr c :: F) /\ same_output s s'.
Proof using All.
  intros Sc. destruct (leave_run s a F c R Ec) as (sp' & s' & E & O & R').
  eexists _, _, _. split_and!; [exact E| |exact R'|exact O]. by eapply st_exit.
Qed.

Lemma tick_run : exists sp' s', int_vector_pre_threads true sp s = Done (Some sp', s') /\ same_output s s' /\
  rel s' (mk_abs (a_run a ++ [c]) (a_block a) None (a_wait a) (a_lock a) (a_next a) (a_idle a)) F.
Proof using All.
  destruct (rel_user s a F c R Ec) as (C & Ns & _).
  unfold int_vector_pre_threads. change (negb true) with false. cbv iota. rewrite gets_run, C.
  destruct (cur_not_queued s a F c R Ec) as [Nq Dq].
  destruct (append_runq s _ _ _ (r_queues _ _ _ R) _ Nq Dq) as (nx & r & Ap & Q). mrun Ap.
  match type of Q with queues_ok ?s _ _ _ => set (s1 := s) in * end.
  destruct (rel_scheduler s a F R) as [z Ez]; [apply (r_sched _ _ _ R); by rewrite Ec|].
  set (a1 := mk_abs (a_run a ++ [c]) (a_block a) None (a_wait a) (a_lock a) (a_next a) (a_idle a)).
  assert (rel (set_cur s1 (scheduler_thread s1)) a1 F) as R1.
  { eapply (rel_stop s a F c); try done.
    - cbn [a_run a_block a1]. rewrite fmap_app. exact Q.
    - unfold a_all. cbn [a_run a_block a_cur a_wait a1 olist]. rewrite Ec, !fmap_app. cbn. solve_Permutation.
    - intros t. unfold a_all. cbn. rewrite Ec. cbn. set_solver. }
  destruct (rel_save _ a1 F c sp R1) as (x & Ex & _ & R2); [unfold a_all; cbn; set_solver|].
  mrun (upd_thread_run (t_addr c) (set_saved_sp sp) x s1 Ex).
  match goal with |- context [(to_scheduler ≫= _) ?s] => set (s2 := s) end.
  assert (s_th s2 !! scheduler_thread s2 = Some z) as Ez2 by (cbn; by rewrite lookup_insert_ne).
  mrun (to_scheduler_run s2 z Ez2).
  do 2 eexists. split_and!; [done..|exact R2].
Qed.

Lemma interrupt_run pending iir pc x :
  interrupt pending iir pc sp x =
    (r ← int_vector_pre_threads pending sp;
     match r with
     | Some sp' => mret sp'
     | None =>
         r ← int_vector_uart_pre_threads iir sp;
         match r with Some sp' => mret sp' | None => mret sp end
     end) x.
Proof using Type.
  unfold interrupt, fiq_vector, then_call, nrf_interrupt_handler, timer_interrupt_handler, uart_interrupt_handler,
    last_interrupt_handler, int_vector_last, mbind, M_bind. cbn.
  destruct (int_vector_pre_threads pending sp x) as [[[sp'|] x']| | |]; try done.
  by destruct (int_vector_uart_pre_threads iir sp x') as [[[sp'|] x'']| | |].
Qed.

Lemma irq_refines pending iir pc :
  exists sp' s' a' idle, interrupt pending iir pc sp s = Done (sp', s') /\
    step 0 idle a (if pending then Tick else Send) a' /\ rel s' a' F /\ same_output s s'.
Proof using All.
  rewrite interrupt_run. destruct pending.
  - destruct tick_run as (sp' & s' & T & O & R'). mrun T.
    eexists _, _, _, _. split_and!; [done|by eapply st_tick|exact R'|exact O].
  - change (int_vector_pre_threads false sp) with (mret None : M sched (option Z)). rewrite ret_run.
    unfold int_vector_uart_pre_threads. destruct (Z.testbit iir 0) eqn:T.
    + eexists _, _, a, (a_idle a). split_and!; [done| |exact R|done]. rewrite (abs_eta a) at 3. by eapply (st_send _ _ a c).
    + destruct (int_vector_uart_run iir (s_io s) (r_io _ _ _ R)) as (x & U & O & Co & L & Em).
      rewrite bind_assoc. mrun (on_io_run _ s _ _ U). eexists _, _, _, _.
      split_and!; [done| |eapply rel_io; [exact R|exact O|reflexivity|]|by split].
      * rewrite L, (r_lock _ _ _ R). eapply (st_send _ _ a c); [done..|].
        rewrite (r_idle _ _ _ R). intros E%bool_decide_eq_true. apply bool_decide_eq_true. auto.
      * intros Ho. apply Em. by apply (r_direct _ _ _ R).
Qed.
End Calls.

(** ** The printer thread *)

Lemma print_refines s a F c : rel s a F -> sound a -> a_cur a = Some c -> t_printer c = true ->
  a_next a < 2 ^ 32 - 1 ->
  exists sp' s' a' t idle F', (stdout_queue_to_txfifo;; pre_exit) s = Done (sp', s') /\
    step t idle a Print a' /\ rel s' a' F' /\ same_output s s'.
Proof using Hk.
  intros R S Ec Pc Bn. unfold stdout_queue_to_txfifo. rewrite bind_assoc.
  destruct (drain_run (s_io s) (r_io _ _ _ R)) as (x & D & (O & Co & L & Em) & _).
  mrun (on_io_run _ s _ _ D).
  assert (use_out = false -> cq_list (putQ x) = []) as Di.
  { intros Ho. apply Em. by apply (r_direct _ _ _ R). }
  pose proof (rel_io s a F x _ R O eq_refl Di) as R1.
  match type of R1 with rel ?s ?a _ => set (s1 := s) in *; set (a1 := a) in * end.
  destruct (rel_lock s1 a1 F 0 R1) as [Lk R2]. rewrite bind_assoc. mrun Lk.
  match type of R2 with rel ?s ?a _ => set (s2 := s) in *; set (a2 := a) in * end.
  rewrite bind_assoc. mrun (out_empty_run s2 a2 F R2).
  change (a_idle a2) with (bool_decide (cq_list (putQ x) = [])). case_bool_decide as Eq.
  - rewrite ret_run. destruct (leave_run s2 a2 F c R2 Ec) as (sp' & s' & E & Os & R').
    eexists _, _, _, 0, true, _. split_and!; [exact E| |exact R'|].
    + cbn. by eapply st_printed.
    + by apply (same_output_trans _ s2).
  - destruct (fork_printer_run s2 a2 F R2) as (t & s3 & F3 & Fp & Op & R3).
    { cbn. pose proof (so_pos _ S). lia. }
    mrun Fp. match type of R3 with rel _ ?a _ => set (a3 := a) in * end.
    destruct (leave_run s3 a3 F3 c R3 Ec) as (sp' & s' & E & Os & R').
    eexists _, _, _, t, false, _. split_and!; [exact E| |exact R'|].
    + cbn. by eapply (st_print _ _ a c).
    + apply (same_output_trans _ s3); [|done]. by apply (same_output_trans _ s2).
Qed.

(** ** The scheduler *)

Lemma addr_nonzero s a F t : rel s a F -> t ∈ a_all a -> t_addr t <> 0.
Proof.
  intros R Ht E. apply (qo_zero _ _ _ _ (r_queues _ _ _ R)). rewrite <-E.
  apply (rel_in_dom s a F _ R). apply elem_of_app. left. by apply list_elem_of_fmap_2.
Qed.

Lemma in_wait a w : a_wait a = Some w -> w ∈ a_all a.
Proof. intros E. unfold a_all. rewrite E. set_solver. Qed.

Lemma wait_zero s a F : rel s a F -> (wait_stdout_thread s =? 0) = bool_decide (a_wait a = None).
Proof.
  intros R. rewrite (r_wait _ _ _ R). destruct (a_wait a) as [w|] eqn:W; simpl; [|done].
  apply Z.eqb_neq. eapply addr_nonzero; [done|by apply in_wait].
Qed.

(** The loop of the scheduler goes on while there is a thread. *)
Lemma sched_more_run s a F : rel s a F -> a_cur a = None ->
  sched_more s = Done (negb (bool_decide (a_all a = [])), s).
Proof.
  intros R Ec. unfold sched_more. mrun (empty_runq s _ _ _ (r_queues _ _ _ R)).
  unfold a_all. rewrite Ec. destruct (a_run a) as [|x l]; [|done].
  rewrite bool_decide_eq_true_2 by done. cbn [negb].
  mrun (empty_blockq s _ _ _ (r_queues _ _ _ R)). destruct (a_block a) as [|x l]; [|done].
  rewrite bool_decide_eq_true_2 by done. cbn [negb]. rewrite gets_run.
  rewrite (wait_zero s a F R), (r_stdin _ _ _ R). by destruct (a_wait a).
Qed.

(** Moving the thread that waits to the queue of runnable threads. *)
Lemma release_run s a F w : rel s a F -> sound a -> a_wait a = Some w -> a_idle a = true ->
  exists s', (on_io (write_stdio_tid 0);;
     upd_thread (wait_stdout_thread s) (set_reason NONE);;
     on_runq (Q_append (wait_stdout_thread s));;
     m_modify (fun s => set_waits s 0 (wait_stdin_thread s))) s = Done (tt, s') /\
    same_output s s' /\ rel s' (release a) F.
Proof.
  intros R S W I. destruct (rel_lock s a F 0 R) as [L R1]. mrun L.
  match type of R1 with rel ?s ?a _ => set (s1 := s) in *; set (a1 := a) in * end.
  pose proof (r_wait _ _ _ R) as Ew. rewrite W in Ew. simpl in Ew. rewrite Ew.
  destruct (r_th _ _ _ R1 w) as (x & Ex & Is); [by apply in_wait|].
  mrun (upd_thread_run (t_addr w) (set_reason NONE) x s1 Ex).
  match goal with |- context [(on_runq _ ≫= _) ?s] => set (s2 := s) end.
  set (a2 := mk_abs (a_run a) (a_block a) (a_cur a) (Some (asks false w)) 0 (a_next a) (a_idle a)).
  assert (rel s2 a2 F) as R2.
  { eapply (rel_write s1 a1 F a2 w (asks false w) x); try done.
    - by apply in_wait.
    - destruct Is as (? & ? & ?). by split_and!.
    - cbn. by rewrite W.
    - intros u Hu. destruct (decide (u = asks false w)) as [->|Ne]; [by left|right].
      assert (u ∈ a_run a ++ a_block a ++ olist (a_cur a)) as Hu' by (unfold a_all in Hu; cbn in Hu; set_solver).
      split; [unfold a_all; cbn; set_solver|]. intros ->.
      pose proof (so_tids _ S) as N. unfold a_all in N. rewrite W, !app_assoc, fmap_app in N.
      apply NoDup_app in N as (_ & N & _). apply (N (t_tid w)); [|cbn; set_solver].
      apply list_elem_of_fmap_2. by rewrite <-!app_assoc. }
  assert (t_addr w ∉ addrs (a_run a2) ++ addrs (a_block a2) ++ F /\ t_addr w ∈ dom (s_th s2)) as [Nq Dq].
  { split.
    - pose proof (rel_nodup _ _ _ R2) as N. unfold a_all in N. cbn in N. rewrite !fmap_app in N. cbn in N.
      assert (forall l1 l2 l3 l5 l6 : list Z, (l1 ++ l2 ++ l3 ++ [t_addr w]) ++ l5 ++ l6 ≡ₚ
        t_addr w :: (l1 ++ l2 ++ l5) ++ l3 ++ l6) as P by (intros; solve_Permutation).
      rewrite P in N. apply NoDup_cons in N as [N _]. cbn. set_solver.
    - apply (rel_in_dom s2 a2 F _ R2). apply elem_of_app. left.
      change (t_addr w) with (t_addr (asks false w)). apply list_elem_of_fmap_2. by apply in_wait. }
  destruct (append_runq s2 _ _ _ (r_queues _ _ _ R2) _ Nq Dq) as (nx & r & Ap & Q). mrun Ap.
  eexists. split_and!; [done..|]. unfold release. rewrite W, I.
  split; cbn [set_waits set_queues s_next s_th s_heap cur_thread scheduler_thread wait_stdout_thread
      wait_stdin_thread next_tid s_io a_run a_block a_cur a_wait a_lock a_next a_idle]; try apply R2; try done.
  - rewrite fmap_app. eapply queues_ok_same; [exact Q|done..].
  - rewrite <-(r_place _ _ _ R2). unfold a_all. cbn [a_run a_block a_cur a_wait a2 olist].
    rewrite !fmap_app. cbn. solve_Permutation.
  - intros u Hu. apply R2. unfold a_all in *. cbn [a_run a_block a_cur a_wait a2 olist] in *. set_solver.
  - rewrite <-I. apply R2.
Qed.

Lemma unblock_loop_run fuel s a F : rel s a F -> (forall t, t ∈ a_block a -> t_stdio t = true) ->
  (length (a_block a) < fuel)%nat ->
  exists s', unblock_loop fuel s = Done (tt, s') /\ same_output s s' /\
    rel s' (mk_abs (a_run a ++ a_block a) [] (a_cur a) (a_wait a) (a_lock a) (a_next a) (a_idle a)) F.
Proof.
  revert s a. induction fuel as [|fuel IH]; intros s a R St L; [lia|]. cbn [unblock_loop].
  pose proof (r_queues _ _ _ R) as Q. mrun (empty_blockq s _ _ _ Q).
  destruct (a_block a) as [|t l] eqn:B.
  { exists s. split_and!; [done..|]. rewrite app_nil_r. rewrite (abs_eta a), B in R. exact R. }
  rewrite bool_decide_eq_false_2 by done.
  assert (on_blockq Q_start s = Done (t_addr t, s)) as Hs.
  { unfold on_blockq, m_zoom, Q_start, m_gets. cbn. rewrite (isQ_head _ _ _ (qo_block _ _ _ _ Q)).
    by destruct s. }
  mrun Hs. destruct (r_th _ _ _ R t) as (x & Ex & Is); [unfold a_all; rewrite B; set_solver|].
  mrun (get_thread_run _ _ _ Ex). destruct Is as (Tx & Px & Rx). rewrite Rx, St by left.
  change (reason_of true =? STDIO) with true. cbv iota.
  destruct (pop_blockq s (t_addr t) _ _ _ Q) as (b & Po & Q1 & Nt). mrun Po.
  match type of Q1 with queues_ok ?s _ _ _ => set (s1 := s) in * end.
  destruct (append_runq s1 _ _ _ Q1 _ Nt) as (nx & r & Ap & Q2).
  { by eapply elem_of_dom_2. }
  mrun Ap. match type of Q2 with queues_ok ?s _ _ _ => set (s2 := s) in * end.
  set (a2 := mk_abs (a_run a ++ [t]) l (a_cur a) (a_wait a) (a_lock a) (a_next a) (a_idle a)).
  destruct (IH s2 a2) as (s' & Lo & O & R'); [|intros u Hu; apply St; by right|cbn in *; lia|].
  - split; cbn [s2 s1 set_queues s_next s_th s_heap cur_thread scheduler_thread wait_stdout_thread
      wait_stdin_thread next_tid s_io a2 a_run a_block a_cur a_wait a_lock a_next a_idle]; try apply R.
    + rewrite fmap_app. exact Q2.
    + rewrite <-(r_place _ _ _ R). unfold a_all. cbn [a_run a_block a_cur a_wait a2]. rewrite B, !fmap_app. cbn.
      solve_Permutation.
    + intros u Hu. apply R. unfold a_all in *. cbn [a_run a_block a_cur a_wait a2] in Hu. rewrite B. set_solver.
  - exists s'. split_and!; [done..|]. cbn [a2 a_run a_block a_cur a_wait a_lock a_next a_idle] in R'.
    by rewrite <-app_assoc in R'.
Qed.

(** The block of the scheduler is no thread's. *)
Lemma rel_sched_save s a F sp : rel s a F -> scheduler_thread s <> 0 -> exists x, s_th s !! scheduler_thread s = Some x /\
  rel (set_blocks s (<[scheduler_thread s := set_saved_sp sp x]> (s_th s))) a F.
Proof.
  intros R Hs. destruct (rel_scheduler s a F R Hs) as [x Ex]. exists x. split; [done|].
  assert (dom (<[scheduler_thread s := set_saved_sp sp x]> (s_th s)) = dom (s_th s)) as D
    by (by eapply dom_upd).
  split; cbn [set_blocks s_next s_th s_heap cur_thread scheduler_thread wait_stdout_thread
      wait_stdin_thread next_tid s_io]; try apply R.
  - eapply queues_ok_same; [apply R|done..].
  - rewrite D. apply R.
  - intros t Ht. rewrite lookup_insert_ne; [by apply R|]. intros E.
    pose proof (rel_nodup _ _ _ R) as N. apply NoDup_app in N as (_ & N & _).
    apply (N (t_addr t)); [by apply list_elem_of_fmap_2|]. apply elem_of_app. right. rewrite <-E.
    by apply in_sblock.
  - rewrite D. apply R.
Qed.

(** A thread that may not run yet goes to the end of [blockq]. *)
Lemma switch_skip a t l : a_run a = t :: l -> t_stdio t = true -> free_for a (t_tid t) = false ->
  switch a = switch (mk_abs l (a_block a ++ [t]) (a_cur a) (a_wait a) (a_lock a) (a_next a) (a_idle a)).
Proof.
  intros E St Fr. unfold switch. rewrite E. cbn [pick a_lock a_run a_block a_wait a_next a_idle].
  assert (t_stdio t && negb (a_lock a =? 0) && negb (a_lock a =? t_tid t) = true) as ->.
  { rewrite St. unfold free_for in Fr. by destruct (a_lock a =? 0), (a_lock a =? t_tid t). }
  destruct (pick (a_lock a) l) as [sk [[x rest]|]]; by rewrite <-app_assoc.
Qed.

(** What is popped from the queue of runnable threads, and where it is put. *)
Lemma rel_move s a F t l s2 nx r f b a2 F2 : rel s a F -> a_run a = t :: l ->
  s2 = set_queues s nx r f b -> queues_ok s2 (addrs (a_run a2)) (addrs (a_block a2)) F2 ->
  addrs (a_all a2) ++ F2 ≡ₚ addrs (a_all a) ++ F -> (forall u, u ∈ a_all a2 -> u ∈ a_all a) ->
  a_cur a2 = a_cur a -> a_wait a2 = a_wait a -> a_lock a2 = a_lock a -> a_next a2 = a_next a ->
  a_idle a2 = a_idle a -> rel s2 a2 F2.
Proof.
  intros R Er -> Q P In E1 E2 E3 E4 E5.
  split; cbn [set_queues s_next s_th s_heap cur_thread scheduler_thread wait_stdout_thread
      wait_stdin_thread next_tid s_io]; rewrite ?E1, ?E2, ?E3, ?E4, ?E5; try apply R; try done.
  - rewrite app_assoc, P, <-app_assoc. apply R.
  - intros u Hu. apply R. by apply In.
Qed.

Lemma run_loop_run fuel s a F : rel s a F -> scheduler_thread s <> 0 -> a_cur a = None -> (length (a_run a) < fuel)%nat ->
  exists r s', run_loop fuel s = Done (r, s') /\ same_output s s' /\ rel s' (switch a) F /\
    r = (a_cur (switch a) ≫= fun c => saved_sp <$> s_th s' !! t_addr c).
Proof.
  revert s a. induction fuel as [|fuel IH]; intros s a R Hs Ec L; [lia|]. cbn [run_loop].
  pose proof (r_queues _ _ _ R) as Q. mrun (empty_runq s _ _ _ Q).
  destruct (a_run a) as [|t l] eqn:Er.
  { exists None, s. unfold switch. rewrite Er. cbn [pick]. split_and!; [done..| |done].
    rewrite app_nil_r. rewrite (abs_eta a), Er, Ec in R. exact R. }
  rewrite bool_decide_eq_false_2 by done.
  assert (t ∈ a_all a) as Ht by (unfold a_all; rewrite Er; set_solver).
  destruct (pop_runq s (t_addr t) _ _ _ Q) as (r & Po & Q1 & Nt). mrun Po.
  match type of Q1 with queues_ok ?s _ _ _ => set (s1 := s) in * end.
  destruct (r_th _ _ _ R t Ht) as (x & Ex & Tx & Px & Rx).
  mrun (get_thread_run (t_addr t) x s1 Ex).
  assert (on_io (stdio_is_idle (th_tid x)) s1 = Done (free_for a (t_tid t), s1)) as Id.
  { rewrite Tx. unfold on_io, m_zoom, stdio_is_idle, read_lock_tid. rewrite gets_run.
    cbn [s1 set_queues s_io]. by rewrite (r_lock _ _ _ R). }
  mrun Id. rewrite Rx.
  destruct (negb (free_for a (t_tid t)) && negb (reason_of (t_stdio t) =? NONE)) eqn:Sk.
  - apply andb_true_iff in Sk as [Fr%negb_true_iff St]. destruct (t_stdio t) eqn:St'; [|done].
    destruct (append_blockq s1 _ _ _ Q1 _ Nt) as (nx & b & Ap & Q2); [by eapply elem_of_dom_2|].
    mrun Ap. match type of Q2 with queues_ok ?s _ _ _ => set (s2 := s) in * end.
    set (a2 := mk_abs l (a_block a ++ [t]) (a_cur a) (a_wait a) (a_lock a) (a_next a) (a_idle a)).
    rewrite (switch_skip a t l Er St' Fr). apply (IH s2 a2); [|done|done|cbn in *; lia].
    eapply (rel_move s a F t l); try done.
    + cbn [a2 a_run a_block]. rewrite fmap_app. exact Q2.
    + unfold a_all. cbn [a_run a_block a_cur a_wait a2]. rewrite Er, !fmap_app. cbn. solve_Permutation.
    + intros u. unfold a_all. cbn [a_run a_block a_cur a_wait a2]. rewrite Er. set_solver.
  - set (lk := if t_stdio t then t_tid t else a_lock a).
    assert (switch a = mk_abs l (a_block a ++ []) (Some t) (a_wait a) lk (a_next a) (a_idle a)) as ->.
    { unfold switch. rewrite Er. cbn [pick].
      assert (t_stdio t && negb (a_lock a =? 0) && negb (a_lock a =? t_tid t) = false) as ->; [|done].
      destruct (t_stdio t); [|done]. unfold free_for in Sk.
      by destruct (a_lock a =? 0), (a_lock a =? t_tid t). }
    rewrite app_nil_r.
    set (s2 := set_io s1 (set_lock lk (s_io s1))).
    assert ((if reason_of (t_stdio t) =? STDIO then on_io (write_stdio_tid (th_tid x)) else mret tt) s1
            = Done (tt, s2)) as Wr.
    { unfold s2, lk. destruct (t_stdio t); [by rewrite Tx|]. rewrite <-(r_lock _ _ _ R).
      unfold s1, set_lock, set_io, set_queues. cbn. by destruct s as [? ? ? ? ? ? ? ? ? ? ? ? ? []]. }
    mrun Wr. rewrite gets_run, modify_run.
    match goal with |- context [(upd_thread _ _ ≫= _) ?s] => set (s3 := s) end.
    assert (rel s3 (mk_abs l (a_block a) (Some t) (a_wait a) lk (a_next a) (a_idle a)) F) as R3.
    { split; cbn [s3 s2 s1 set_cur set_io set_lock set_queues s_next s_th s_heap cur_thread scheduler_thread
        wait_stdout_thread wait_stdin_thread next_tid s_io a_run a_block a_cur a_wait a_lock a_next a_idle
        io_lock putQ getQ]; try apply R; try done.
      - eapply queues_ok_same; [exact Q1|done..].
      - rewrite <-(r_place _ _ _ R). unfold a_all. cbn [a_run a_block a_cur a_wait olist].
        rewrite Er, Ec, !fmap_app. cbn. solve_Permutation.
      - intros u Hu. apply R. unfold a_all in *. cbn [a_run a_block a_cur a_wait olist] in Hu.
        rewrite Er. set_solver.
      - by destruct (r_io _ _ _ R). }
    destruct (rel_sched_save s3 _ F scheduler_sp R3 Hs) as (z & Ez & R4).
    mrun (upd_thread_run (scheduler_thread s3) (set_saved_sp scheduler_sp) z s3 Ez).
    eexists _, _. split_and!; [done|done|exact R4|]. cbn. rewrite lookup_insert_ne.
    + cbn in Ex. by rewrite Ex.
    + symmetry. apply (rel_user s3 _ F t R3 eq_refl).
Qed.

Lemma queue_fuel_enough s a F : rel s a F ->
  (length (a_run a) < S (size (s_th s)))%nat /\ (length (a_block a) < S (size (s_th s)))%nat /\
  (length (a_run a) + length (a_block a) < S (size (s_th s)))%nat.
Proof.
  intros R. pose proof (Permutation_length (r_place _ _ _ R)) as L.
  change (length (elements (dom (s_th s)))) with (size (dom (s_th s))) in L. rewrite size_dom in L.
  unfold a_all in L. rewrite !length_app, !length_fmap, !length_app in L. lia.
Qed.

Lemma turn_refines s a F : rel s a F -> sound a -> scheduler_thread s <> 0 -> a_cur a = None ->
  exists r s', sched_turn s = Done (r, s') /\ step 0 (a_idle a) a Turn (switch (unblock (release a))) /\
    rel s' (switch (unblock (release a))) F /\ same_output s s' /\
    r = (a_cur (switch (unblock (release a))) ≫= fun c => saved_sp <$> s_th s' !! t_addr c).
Proof.
  intros R S Hs Ec. destruct (sound_release a S Ec) as (S1 & E1 & W1 & I1 & _).
  destruct (sound_unblock _ S1 E1 W1) as (S2 & E2 & _).
  unfold sched_turn. rewrite gets_run.
  assert (on_io stdin_queue_is_empty s = Done (cq_empty (getQ (s_io s)), s)) as In by (by destruct s).
  mrun In. rewrite (r_stdin _ _ _ R). change (negb (0 =? 0)) with false. rewrite andb_false_r, ret_run.
  mrun (out_empty_run s a F R). rewrite (wait_zero s a F R).
  assert (exists s1, (if a_idle a && negb (bool_decide (a_wait a = None))
    then on_io (write_stdio_tid 0);; upd_thread (wait_stdout_thread s) (set_reason NONE);;
         on_runq (Q_append (wait_stdout_thread s));; m_modify (fun s => set_waits s 0 (wait_stdin_thread s))
    else mret tt) s = Done (tt, s1) /\ same_output s s1 /\ rel s1 (release a) F) as (s1 & Re & O1 & R1).
  { destruct (a_wait a) as [w|] eqn:W.
    - destruct (a_idle a) eqn:I; cbn [andb negb bool_decide]; [by apply (release_run s a F w)|].
      exists s. unfold release. by rewrite W, I.
    - rewrite bool_decide_eq_true_2, andb_false_r by done. exists s. unfold release. by rewrite W. }
  mrun Re. mrun (is_idle_run s1 _ F 0 R1). unfold queue_fuel. rewrite gets_run.
  destruct (queue_fuel_enough s1 _ F R1) as (L1 & L2 & L3).
  assert (exists s2, (if free_for (release a) 0 then unblock_loop (Datatypes.S (size (s_th s1))) else mret tt) s1
    = Done (tt, s2) /\ same_output s1 s2 /\ rel s2 (unblock (release a)) F) as (s2 & Un & O2 & R2).
  { unfold unblock, free_for. rewrite orb_diag. destruct (a_lock (release a) =? 0) eqn:Lk; [|by exists s1].
    rewrite (proj1 (Z.eqb_eq _ _) Lk).
    destruct (unblock_loop_run (Datatypes.S (size (s_th s1))) s1 _ F R1) as (s2 & Lo & O & R2);
      [apply S1|done|]. exists s2. rewrite (proj1 (Z.eqb_eq _ _) Lk) in R2. done. }
  mrun Un. destruct (run_loop_run (Datatypes.S (size (s_th s1))) s2 _ F R2) as (r & s' & Ru & O3 & R3 & Cu);
    [by rewrite (proj2 O2), (proj2 O1)|done| |].
  { unfold unblock. destruct (a_lock (release a) =? 0); [|done]. cbn. rewrite length_app. lia. }
  exists r, s'. split_and!; [done|by apply st_turn|done| |done].
  apply (same_output_trans _ s2); [|done]. by apply (same_output_trans _ s1).
Qed.
End Refinement.
