(* ===== verification/ThreadsFork.v ===== *)
(** * A fork, one memory access at a time

    A running thread calls [pre_fork] (src/preemptive-threads/preemptive-thread.c) with
    interrupts enabled, so that an interrupt can come between any two accesses to the shared
    queues and counters.  Here [pre_fork], with [th_alloc] and the [Q_pop] and [Q_append] of
    libc/Q.h, is a sequence of steps, each of which reads or writes one shared word; what has
    been read and not yet used is in the [fork_pc], the registers of the thread.  Run without an
    interruption the steps are [pre_fork] of Threads.v, and they commute with everything that
    touches the devices only. *)

From stdpp Require Import base tactics option list numbers gmap.
From Stdlib Require Import ZArith Lia.
From S2P Require Import Prelude Circular Vectors Queue Uart ThreadIo Threads ThreadsSpec ThreadsThm.
#[local] Open Scope Z_scope.

(** The arguments of the call. *)
Record fork_args : Type := mk_fork {
  fk_code : Z;
  fk_arg : Z;
  fk_enable_interrupt : bool;
  fk_sys_mode : bool
}.

(** Where the call is; the arguments are the registers. *)
Inductive fork_pc : Type :=
  (* Q_pop(&freeq) *)
  | PopHead
  | PopEmpty
  | PopEmptyCnt
  | PopEmptyTail
  | PopCntLoad (e : Z)
  | PopCntStore (e cnt : Z)
  | PopNext (e : Z)
  | PopSetHead (e n : Z)
  | PopTail (e n : Z)
  (* kmalloc_aligned, nalloced++ *)
  | Malloc
  | NallocedLoad (t : Z)
  | NallocedStore (t n : Z)
  (* t->tid = tid++ *)
  | TidLoad (t : Z)
  | TidSet (t n : Z)
  | TidStore (t n : Z)
  (* the fields of the block and its first stack frame *)
  | SetArg (t : Z)
  | SetFn (t : Z)
  | SetReason (t : Z)
  | SetSp (t : Z)
  | SetR4 (t : Z)
  | SetR5 (t : Z)
  | SetLr (t : Z)
  | SetPc (t : Z)
  | SetCpsr (t : Z)
  (* Q_append(&runq, t) *)
  | AppNext (t : Z)
  | AppCntLoad (t : Z)
  | AppCntStore (t cnt : Z)
  | AppTail (t : Z)
  | AppOnlyTail (t : Z)
  | AppOnlyHead (t : Z)
  | AppLink (t tail : Z)
  | AppSetTail (t : Z)
  (* return t *)
  | Forked (t : Z).

#[export] Instance fork_args_eq_dec : EqDecision fork_args.
Proof. solve_decision. Defined.
#[export] Instance fork_pc_eq_dec : EqDecision fork_pc.
Proof. solve_decision. Defined.

Definition set_head (h : Z) (q : Q_t) : Q_t := mk_Q h (q_tail q) (q_cnt q).
Definition set_tail (t : Z) (q : Q_t) : Q_t := mk_Q (q_head q) t (q_cnt q).
Definition set_cnt (c : Z) (q : Q_t) : Q_t := mk_Q (q_head q) (q_tail q) c.
Definition upd_freeq (f : Q_t -> Q_t) : M sched unit :=
  m_modify (fun s => set_queues s (s_next s) (runq s) (f (freeq s)) (blockq s)).
Definition upd_runq (f : Q_t -> Q_t) : M sched unit :=
  m_modify (fun s => set_queues s (s_next s) (f (runq s)) (freeq s) (blockq s)).
Definition set_nalloced (n : Z) (s : sched) : sched :=
  mk_sched (s_next s) (s_th s) (s_mem s) (s_heap s) (runq s) (freeq s) (blockq s) (cur_thread s)
    (scheduler_thread s) (wait_stdout_thread s) (wait_stdin_thread s) (next_tid s) n (s_io s).

Definition set_arg (a : Z) (t : pre_thread_t) : pre_thread_t :=
  mk_thread (saved_sp t) (th_tid t) (th_fn t) a (block_reason t).
Definition set_fn (f : Z) (t : pre_thread_t) : pre_thread_t :=
  mk_thread (saved_sp t) (th_tid t) f (th_arg t) (block_reason t).

(** [t->saved_sp] as [pre_fork] sets it. *)
Definition first_sp (t : Z) : Z := stack_addr t + 4 * (THREAD_MAXSTACK - 17).

(** Two continuations that agree after the head of a computation. *)
Lemma bind_cong {S A B} (m : M S A) (f g : A -> M S B) s :
  (forall a s', m s = Done (a, s') -> f a s' = g a s') -> (m ≫= f) s = (m ≫= g) s.
Proof. intros E. unfold mbind, M_bind. destruct (m s) as [[a s']| | |]; try done. by apply E. Qed.

Section Fork.
Context `{Kmalloc} `{Linked}.

Definition kmalloc_aligned : M sched Z :=
  n ← m_gets s_heap;
  m_modify (fun s =>
    mk_sched (<[block_addr n := 0]> (s_next s)) (<[block_addr n := block_junk n]> (s_th s))
      (s_mem s) (S n) (runq s) (freeq s) (blockq s) (cur_thread s) (scheduler_thread s)
      (wait_stdout_thread s) (wait_stdin_thread s) (next_tid s) (nalloced s) (s_io s));;
  mret (block_addr n).

Definition fork_cpsr (f : fork_args) : Z :=
  Z.lor (if fk_enable_interrupt f then 0x60000100 else 0x60000180) (if fk_sys_mode f then 31 else 16).

Definition fork_step (f : fork_args) (k : fork_pc) : M sched fork_pc :=
  match k with
  | PopHead => q ← m_gets freeq; mret (if q_head q =? 0 then PopEmpty else PopCntLoad (q_head q))
  | PopEmpty => q ← m_gets freeq; m_assert (q_head q =? 0);; mret PopEmptyCnt
  | PopEmptyCnt => q ← m_gets freeq; m_assert (q_cnt q =? 0);; mret PopEmptyTail
  | PopEmptyTail => q ← m_gets freeq; m_assert (q_tail q =? 0);; mret Malloc
  | PopCntLoad e => q ← m_gets freeq; mret (PopCntStore e (q_cnt q))
  | PopCntStore e c => upd_freeq (set_cnt (u32 (c - 1)));; mret (PopNext e)
  | PopNext e => n ← on_freeq (get_next e); mret (PopSetHead e n)
  | PopSetHead e n => upd_freeq (set_head n);; mret (if n =? 0 then PopTail e n else TidLoad e)
  | PopTail e n => upd_freeq (set_tail 0);; mret (TidLoad e)
  | Malloc => t ← kmalloc_aligned; mret (NallocedLoad t)
  | NallocedLoad t => n ← m_gets nalloced; mret (NallocedStore t n)
  | NallocedStore t n => m_modify (set_nalloced (u32 (n + 1)));; mret (TidLoad t)
  | TidLoad t => m_assert (stack_addr t mod 8 =? 0);; n ← m_gets next_tid; mret (TidSet t n)
  | TidSet t n => upd_thread t (set_th_tid n);; mret (TidStore t n)
  | TidStore t n => m_modify (fun s => set_next_tid s (u32 (n + 1)));; mret (SetArg t)
  | SetArg t => upd_thread t (set_arg (fk_arg f));; mret (SetFn t)
  | SetFn t => upd_thread t (set_fn (fk_code f));; mret (SetReason t)
  | SetReason t => upd_thread t (set_reason NONE);; mret (SetSp t)
  | SetSp t => upd_thread t (set_saved_sp (first_sp t));; mret (SetR4 t)
  | SetR4 t => store_word (first_sp t) R4_OFFSET (fk_arg f);; mret (SetR5 t)
  | SetR5 t => store_word (first_sp t) R5_OFFSET (fk_code f);; mret (SetLr t)
  | SetLr t => store_word (first_sp t) LR_OFFSET pre_init_trampoline_addr;; mret (SetPc t)
  | SetPc t => store_word (first_sp t) PC_OFFSET pre_init_trampoline_addr;; mret (SetCpsr t)
  | SetCpsr t => store_word (first_sp t) CPSR_OFFSET (fork_cpsr f);; mret (AppNext t)
  | AppNext t => on_runq (set_next t 0);; mret (AppCntLoad t)
  | AppCntLoad t => q ← m_gets runq; mret (AppCntStore t (q_cnt q))
  | AppCntStore t c => upd_runq (set_cnt (u32 (c + 1)));; mret (AppTail t)
  | AppTail t => q ← m_gets runq; mret (if q_tail q =? 0 then AppOnlyTail t else AppLink t (q_tail q))
  | AppOnlyTail t => upd_runq (set_tail t);; mret (AppOnlyHead t)
  | AppOnlyHead t => upd_runq (set_head t);; mret (Forked t)
  | AppLink t tail => on_runq (set_next tail t);; mret (AppSetTail t)
  | AppSetTail t => upd_runq (set_tail t);; mret (Forked t)
  | Forked t => mret (Forked t)
  end.

Fixpoint fork_steps (f : fork_args) (n : nat) (k : fork_pc) : M sched fork_pc :=
  match n with
  | O => mret k
  | S n => k' ← fork_step f k; fork_steps f n k'
  end.

(** The longest way through takes 25 steps. *)
Definition fork_length : nat := 25.

Lemma steps_S f n k s : fork_steps f (S n) k s = (k' ← fork_step f k; fork_steps f n k') s.
Proof. done. Qed.

Lemma fork_steps_plus f n m k s :
  fork_steps f (n + m) k s = (k' ← fork_steps f n k; fork_steps f m k') s.
Proof.
  revert k s. induction n as [|n IH]; intros k s; [done|].
  cbn [Nat.add]. rewrite !steps_S. cbn [fork_steps]. rewrite bind_assoc. apply bind_cong. intros k' s' _. apply IH.
Qed.

Lemma fork_steps_forked f n t s : fork_steps f n (Forked t) s = Done (Forked t, s).
Proof. by induction n. Qed.

(** The second half: the fields, the stack, and the run queue. *)
Definition fork_rest (f : fork_args) (t : Z) : M sched Z :=
  m_assert (stack_addr t mod 8 =? 0);;
  n ← m_gets next_tid;
  upd_thread t (set_th_tid n);;
  m_modify (fun s => set_next_tid s (u32 (n + 1)));;
  upd_thread t (fun x => mk_thread (first_sp t) (th_tid x) (fk_code f) (fk_arg f) NONE);;
  store_word (first_sp t) R4_OFFSET (fk_arg f);;
  store_word (first_sp t) R5_OFFSET (fk_code f);;
  store_word (first_sp t) LR_OFFSET pre_init_trampoline_addr;;
  store_word (first_sp t) PC_OFFSET pre_init_trampoline_addr;;
  store_word (first_sp t) CPSR_OFFSET (fork_cpsr f);;
  on_runq (Q_append t);;
  mret t.

(** Four writes to the block are one. *)
Lemma fields_fused {B} f t (m : unit -> M sched B) s :
  (upd_thread t (set_arg (fk_arg f));; upd_thread t (set_fn (fk_code f));; upd_thread t (set_reason NONE);;
   u ← upd_thread t (set_saved_sp (first_sp t)); m u) s =
  (u ← upd_thread t (fun x => mk_thread (first_sp t) (th_tid x) (fk_code f) (fk_arg f) NONE); m u) s.
Proof.
  destruct (s_th s !! t) as [x|] eqn:E.
  - do 4 (erewrite bind_done; [|apply upd_thread_run; cbn [set_blocks s_th]; by rewrite ?lookup_insert_eq]).
    rewrite (bind_done _ _ _ _ _ (upd_thread_run t _ x s E)). f_equal. unfold set_blocks. cbn [s_th].
    by rewrite !insert_insert_eq.
  - assert (forall g, upd_thread t g s = Undef) as U.
    { intros g. unfold upd_thread, get_thread. rewrite bind_assoc, gets_run, E. done. }
    by rewrite !(bind_undef _ _ _ (U _)).
Qed.

Lemma set_next_eq e v q : set_next e v q =
  match q.1 !! e with Some _ => Done (tt, (<[e := v]> q.1, q.2)) | None => Undef end.
Proof.
  unfold set_next, get_next. rewrite bind_assoc, gets_run. unfold m_opt. by destruct (q.1 !! e).
Qed.

Lemma append_eq t nx q : Q_append t (nx, q) =
  match nx !! t with
  | Some _ =>
      if q_tail q =? 0 then Done (tt, (<[t := 0]> nx, mk_Q t t (u32 (q_cnt q + 1))))
      else match <[t := 0]> nx !! q_tail q with
           | Some _ => Done (tt, (<[q_tail q := t]> (<[t := 0]> nx), mk_Q (q_head q) t (u32 (q_cnt q + 1))))
           | None => Undef
           end
  | None => Undef
  end.
Proof.
  unfold Q_append. destruct (nx !! t) eqn:En.
  - erewrite bind_done by (rewrite set_next_eq; cbn [fst]; by rewrite En). rewrite gets_run. cbn [fst snd].
    destruct (q_tail q =? 0); [done|]. destruct (<[t := 0]> nx !! q_tail q) eqn:El.
    + erewrite bind_done by (rewrite set_next_eq; cbn [fst]; by rewrite El). done.
    + apply bind_undef. rewrite set_next_eq. cbn [fst]. by rewrite El.
  - apply bind_undef. rewrite set_next_eq. cbn [fst]. by rewrite En.
Qed.

Lemma append_steps f t s :
  fork_steps f 6 (AppNext t) s = (on_runq (Q_append t);; mret (Forked t)) s.
Proof.
  rewrite steps_S. cbn [fork_step]. rewrite bind_assoc. unfold on_runq at 1 2, m_zoom at 1 2.
  unfold mbind at 1 3, M_bind at 1 3. rewrite append_eq, set_next_eq. cbn [fst snd].
  destruct (s_next s !! t); [|done]. cbn [fst snd]. rewrite ret_run, !steps_S. cbn [fork_step].
  rewrite bind_assoc, gets_run, ret_run, steps_S. cbn [fork_step]. unfold upd_runq. rewrite bind_assoc, modify_run, ret_run, steps_S.
  cbn [fork_step]. rewrite bind_assoc, gets_run, ret_run. cbn [set_queues runq set_cnt q_tail].
  destruct (q_tail (runq s) =? 0); [done|]. rewrite steps_S. cbn [fork_step]. rewrite bind_assoc.
  unfold on_runq, m_zoom, mbind at 1, M_bind at 1. rewrite set_next_eq. cbn [set_queues s_next fst snd].
  by destruct (<[t:=0]> (s_next s) !! q_tail (runq s)).
Qed.

Lemma rest_steps f t s : fork_steps f 18 (TidLoad t) s = (t ← fork_rest f t; mret (Forked t)) s.
Proof.
  unfold fork_rest. rewrite steps_S. cbn [fork_step]. rewrite !bind_assoc. apply bind_cong. intros [] s0 _.
  rewrite !bind_assoc, !gets_run, !ret_run, steps_S, !bind_assoc. cbn [fork_step].
  rewrite !bind_assoc. apply bind_cong. intros [] s1 _. rewrite ret_run, bind_assoc, modify_run, steps_S.
  cbn [fork_step]. rewrite bind_assoc, modify_run, ret_run. set (s2 := set_next_tid s1 _).
  rewrite steps_S. cbn [fork_step]. rewrite !bind_assoc, <-fields_fused.
  do 3 (apply bind_cong; intros [] ? _; rewrite ?ret_run, ?steps_S; cbn [fork_step]; rewrite ?bind_assoc).
  do 6 (apply bind_cong; intros [] ? _; rewrite ?ret_run, ?bind_assoc; try (rewrite steps_S; cbn [fork_step]; rewrite ?bind_assoc)).
  etransitivity; [|etransitivity; [apply (append_steps f)|by apply bind_cong]].
  rewrite steps_S. cbn [fork_step]. by rewrite bind_assoc.
Qed.

(** More steps than it takes change nothing. *)
Lemma rest_more f m t s : fork_steps f (18 + m) (TidLoad t) s = (t ← fork_rest f t; mret (Forked t)) s.
Proof.
  rewrite fork_steps_plus. etransitivity; [|apply rest_steps]. unfold mbind, M_bind at 1.
  destruct (fork_steps f 18 (TidLoad t) s) as [[k s']| | |] eqn:E; [|done..]. rewrite rest_steps in E.
  apply bind_inv in E as (t' & s1 & _ & [= <- <-]). apply fork_steps_forked.
Qed.

Lemma pop_eq nx q : Q_pop (nx, q) =
  if q_head q =? 0 then
    if (q_cnt q =? 0) && (q_tail q =? 0) then Done (0, (nx, q)) else Panic
  else
    match nx !! q_head q with
    | Some n => Done (q_head q, (nx, mk_Q n (if n =? 0 then 0 else q_tail q) (u32 (q_cnt q - 1))))
    | None => Undef
    end.
Proof.
  unfold Q_pop. rewrite gets_run. cbn [snd]. destruct (q_head q =? 0) eqn:Eh.
  - unfold Q_empty. rewrite bind_assoc, gets_run. cbn [snd]. rewrite Eh. cbn [negb].
    destruct (q_cnt q =? 0); [|done]. by destruct (q_tail q =? 0).
  - unfold get_next. rewrite bind_assoc, gets_run. cbn [fst]. unfold m_opt. by destruct (nx !! q_head q).
Qed.

Lemma pop_steps f s :
  fork_steps f fork_length PopHead s =
  (t ← on_freeq Q_pop; t ← (if t =? 0 then kmalloc_block else mret t); u ← fork_rest f t; mret (Forked u)) s.
Proof.
  unfold fork_length. rewrite steps_S. cbn [fork_step]. rewrite bind_assoc, gets_run, ret_run.
  pose proof (pop_eq (s_next s) (freeq s)) as P. destruct (q_head (freeq s) =? 0) eqn:Eh.
  - rewrite steps_S. cbn [fork_step]. rewrite bind_assoc, gets_run, Eh, bind_assoc, assert_run, ret_run by done.
    rewrite steps_S. cbn [fork_step]. rewrite bind_assoc, gets_run. destruct (q_cnt (freeq s) =? 0); cbn [andb] in P.
    2: { rewrite bind_panic by done. symmetry. apply bind_panic. unfold on_freeq, m_zoom. by rewrite P. }
    rewrite bind_assoc, assert_run, ret_run, steps_S by done. cbn [fork_step]. rewrite bind_assoc, gets_run.
    destruct (q_tail (freeq s) =? 0).
    2: { rewrite bind_panic by done. symmetry. apply bind_panic. unfold on_freeq, m_zoom. by rewrite P. }
    rewrite bind_assoc, assert_run, ret_run by done.
    assert (on_freeq Q_pop s = Done (0, s)) as Po by (unfold on_freeq, m_zoom; rewrite P; by destruct s).
    mrun Po. cbn [Z.eqb]. rewrite !steps_S. cbn [fork_step]. unfold kmalloc_aligned, kmalloc_block.
    rewrite !bind_assoc, !gets_run, !bind_assoc, !modify_run, !ret_run, steps_S. cbn [fork_step].
    rewrite bind_assoc, gets_run, ret_run, steps_S. cbn [fork_step]. rewrite bind_assoc, modify_run, ret_run.
    apply (rest_more f 0).
  - rewrite steps_S. cbn [fork_step]. rewrite bind_assoc, gets_run, ret_run, steps_S. cbn [fork_step].
    unfold upd_freeq. rewrite bind_assoc, modify_run, ret_run, steps_S. cbn [fork_step]. set (s1 := set_queues s _ _ _ _).
    assert (forall n, s_next s !! q_head (freeq s) = Some n ->
      on_freeq (get_next (q_head (freeq s))) s1 = Done (n, s1)) as Gn.
    { intros n E. unfold on_freeq, m_zoom, get_next. rewrite gets_run. cbn [fst s1 set_queues s_next]. by rewrite E. }
    destruct (s_next s !! q_head (freeq s)) as [n|] eqn:En.
    + rewrite bind_assoc. mrun (Gn n eq_refl). rewrite ret_run, steps_S. cbn [fork_step]. unfold upd_freeq.
      rewrite bind_assoc, modify_run, ret_run. symmetry.
      erewrite bind_done by (unfold on_freeq, m_zoom; by rewrite P). rewrite Eh, ret_run. symmetry.
      destruct (n =? 0).
      * rewrite steps_S. cbn [fork_step]. unfold upd_freeq. rewrite bind_assoc, modify_run, ret_run. apply (rest_more f 1).
      * apply (rest_more f 2).
    + rewrite bind_assoc, bind_undef; [symmetry; apply bind_undef; unfold on_freeq, m_zoom; by rewrite P|].
      unfold on_freeq, m_zoom, get_next. rewrite gets_run. cbn [fst s1 set_queues s_next]. by rewrite En.
Qed.

(** Without an interruption the steps are the call. *)
Lemma fork_uninterrupted f s :
  fork_steps f fork_length PopHead s =
  (t ← pre_fork (fk_code f) (fk_arg f) (fk_enable_interrupt f) (fk_sys_mode f); mret (Forked t)) s.
Proof.
  rewrite pop_steps. unfold pre_fork, th_alloc. rewrite !bind_assoc. apply bind_cong. intros e s1 _.
  rewrite !bind_assoc. apply bind_cong. intros t s2 _. unfold fork_rest. rewrite !bind_assoc.
  apply bind_cong. intros [] s3 _. rewrite !bind_assoc, !gets_run, !bind_assoc. apply bind_cong. intros [] s4 _.
  rewrite !bind_assoc, !modify_run, ret_run, !bind_assoc. 
  do 7 (apply bind_cong; intros ? ? _; rewrite ?bind_assoc).
  done.
Qed.

(** ** Forks and devices *)

(** [m] neither reads nor changes the devices. *)
Definition io_blind {A} (m : M sched A) : Prop := forall s x,
  m (set_io s x) =
  match m s with
  | Done (a, s') => Done (a, set_io s' x) | Panic => Panic | Undef => Undef | NoFuel => NoFuel
  end.

Lemma blind_bind {A B} (m : M sched A) (g : A -> M sched B) :
  io_blind m -> (forall a, io_blind (g a)) -> io_blind (m ≫= g).
Proof.
  intros Bm Bg s x. unfold mbind, M_bind. rewrite Bm. destruct (m s) as [[a s']| | |]; try done. apply Bg.
Qed.
Lemma blind_ret {A} (a : A) : io_blind (mret a).
Proof. done. Qed.
Lemma blind_assert b : io_blind (m_assert b).
Proof. by destruct b. Qed.
Lemma blind_gets {A} (g : sched -> A) : (forall s x, g (set_io s x) = g s) -> io_blind (m_gets g).
Proof. intros E s x. unfold m_gets. by rewrite E. Qed.
Lemma blind_modify g : (forall s x, g (set_io s x) = set_io (g s) x) -> io_blind (m_modify g).
Proof. intros E s x. unfold m_modify. by rewrite E. Qed.
Lemma blind_upd t g : io_blind (upd_thread t g).
Proof.
  unfold upd_thread, get_thread. repeat (apply blind_bind; intros); [by apply blind_gets| |by apply blind_modify].
  intros s x. unfold m_opt. by destruct (a !! t).
Qed.
Lemma blind_freeq {A} (m : M queue A) : io_blind (on_freeq m).
Proof. intros s x. unfold on_freeq, m_zoom. cbn. by destruct (m (s_next s, freeq s)) as [[]| | |]. Qed.
Lemma blind_runq {A} (m : M queue A) : io_blind (on_runq m).
Proof. intros s x. unfold on_runq, m_zoom. cbn. by destruct (m (s_next s, runq s)) as [[]| | |]. Qed.

Lemma blind_step f k : io_blind (fork_step f k).
Proof.
  destruct k; cbn [fork_step]; unfold upd_runq, upd_freeq, kmalloc_aligned, store_word;
    repeat first [apply blind_ret | apply blind_assert | apply blind_upd | apply blind_freeq | apply blind_runq
      | by apply blind_gets | by apply blind_modify | apply blind_bind; [|intros ?]].
Qed.

Lemma blind_steps f n k : io_blind (fork_steps f n k).
Proof.
  revert k. induction n as [|n IH]; intros k; [apply blind_ret|]. apply blind_bind; [apply blind_step|done].
Qed.

Lemma blind_io {A} (m : M sched A) s a s' : io_blind m -> m s = Done (a, s') -> s_io s' = s_io s.
Proof.
  intros B E. pose proof (B s (s_io s)) as X. rewrite E in X.
  replace (set_io s (s_io s)) with s in X by (by destruct s). rewrite E in X. injection X as X. by rewrite X.
Qed.

(** ** Which block a fork writes to *)

(** The block that a fork started in [c] takes. *)
Definition fork_block (c : sched) : Z :=
  if q_head (freeq c) =? 0 then block_addr (s_heap c) else q_head (freeq c).

Definition fork_reg (k : fork_pc) : option Z :=
  match k with
  | PopHead | PopEmpty | PopEmptyCnt | PopEmptyTail | Malloc => None
  | PopCntLoad t | PopCntStore t _ | PopNext t | PopSetHead t _ | PopTail t _
  | NallocedLoad t | NallocedStore t _ | TidLoad t | TidSet t _ | TidStore t _
  | SetArg t | SetFn t | SetReason t | SetSp t | SetR4 t | SetR5 t | SetLr t | SetPc t | SetCpsr t
  | AppNext t | AppCntLoad t | AppCntStore t _ | AppTail t | AppOnlyTail t | AppOnlyHead t
  | AppLink t _ | AppSetTail t | Forked t => Some t
  end.

Record fork_inv (c : sched) (k : fork_pc) (s : sched) : Prop := {
  fi_cur : cur_thread s = cur_thread c;
  fi_sched : scheduler_thread s = scheduler_thread c;
  fi_others : forall t, t <> fork_block c -> s_th s !! t = s_th c !! t;
  fi_reg : match fork_reg k with
           | Some t => t = fork_block c
           | None => s_heap s = s_heap c /\ freeq s = freeq c /\ (k <> PopHead -> q_head (freeq c) = 0)
           end
}.

Lemma assert_inv {S} b (s : S) u s' : m_assert b s = Done (u, s') -> b = true /\ s' = s.
Proof. destruct b; [|done]. by intros [= _ <-]. Qed.

Lemma upd_thread_inv t g s u s' : upd_thread t g s = Done (u, s') ->
  exists x, s' = set_blocks s (<[t := g x]> (s_th s)).
Proof.
  unfold upd_thread, get_thread. rewrite bind_assoc, gets_run. intros (x & s1 & Eo & Em)%bind_inv.
  unfold m_opt in Eo. destruct (s_th s !! t); [|done]. injection Eo as -> ->. injection Em as _ <-. by exists x.
Qed.

Lemma freeq_inv {A} (m : M queue A) s a s' : on_freeq m s = Done (a, s') ->
  exists nx q, s' = set_queues s nx (runq s) q (blockq s).
Proof. unfold on_freeq, m_zoom. destruct (m _) as [[b [nx q]]| | |]; [|done..]. intros [= _ <-]. by exists nx, q. Qed.
Lemma runq_inv {A} (m : M queue A) s a s' : on_runq m s = Done (a, s') ->
  exists nx q, s' = set_queues s nx q (freeq s) (blockq s).
Proof. unfold on_runq, m_zoom. destruct (m _) as [[b [nx q]]| | |]; [|done..]. intros [= _ <-]. by exists nx, q. Qed.

Lemma fork_step_inv f c k s k' s' : fork_inv c k s -> fork_step f k s = Done (k', s') -> fork_inv c k' s'.
Proof.
  intros [Cu Sc Ot Re] E. destruct k; cbn [fork_step fork_reg] in *;
  unfold upd_runq, upd_freeq, store_word, kmalloc_aligned in E;
  repeat match goal with
  | H : (_ ≫= _) _ = Done _ |- _ => apply bind_inv in H as (? & ? & ? & H)
  | H : m_gets _ _ = Done _ |- _ => injection H as <- <-
  | H : m_modify _ _ = Done _ |- _ => injection H as _ <-
  | H : mret _ _ = Done _ |- _ => injection H as <- <-
  | H : m_assert _ _ = Done _ |- _ => apply assert_inv in H as [? ->]
  | H : upd_thread _ _ _ = Done _ |- _ => apply upd_thread_inv in H as (? & ->)
  | H : on_freeq _ _ = Done _ |- _ => apply freeq_inv in H as (? & ? & ->)
  | H : on_runq _ _ = Done _ |- _ => apply runq_inv in H as (? & ? & ->)
  end; try (split; cbn; done);
  try (split; cbn; [done|done|intros ? ?; rewrite lookup_insert_ne by congruence; by apply Ot|done]).
  - destruct Re as (He & Fr & _). rewrite Fr. unfold fork_block. destruct (q_head (freeq c) =? 0) eqn:Eh.
    + split; [done..|]. cbn. split_and!; [done..|]. intros _. lia.
    + split; [done..|]. cbn. unfold fork_block. by rewrite Eh.
  - destruct Re as (He & Fr & Hd). split; [done..|]. cbn. split_and!; [done..|]. intros _. by apply Hd.
  - destruct Re as (He & Fr & Hd). split; [done..|]. cbn. split_and!; [done..|]. intros _. by apply Hd.
  - destruct Re as (He & Fr & Hd). split; [done..|]. cbn. split_and!; [done..|]. intros _. by apply Hd.
  - split; [done..|]. by destruct (n =? 0).
  - destruct Re as (He & Fr & Hd).
    assert (block_addr (s_heap s) = fork_block c) as Eb by (unfold fork_block; by rewrite Hd, He by done).
    split; cbn; [done|done| |done]. intros t Ht. rewrite lookup_insert_ne by congruence. by apply Ot.
  - split; [done..|]. by destruct (q_tail (runq s) =? 0).
Qed.

Lemma fork_steps_inv f c n k s k' s' : fork_inv c k s -> fork_steps f n k s = Done (k', s') -> fork_inv c k' s'.
Proof.
  revert k s. induction n as [|n IH]; intros k s I; [by intros [= <- <-]|].
  rewrite steps_S. intros (k1 & s1 & E1 & E2)%bind_inv. eapply IH; [|exact E2]. by eapply fork_step_inv.
Qed.

Lemma fork_started c : fork_inv c PopHead c.
Proof. by split. Qed.

(** ** Calls that complete *)

(** A call that would complete undisturbed can go on from any point it has come to, and has
    returned with what the call returns once it is through. *)
Lemma fork_goes_on f n c k s t c' :
  pre_fork (fk_code f) (fk_arg f) (fk_enable_interrupt f) (fk_sys_mode f) c = Done (t, c') ->
  fork_steps f n PopHead c = Done (k, s) ->
  (exists k' s', fork_step f k s = Done (k', s')) /\ (forall u, k = Forked u -> u = t /\ s = c').
Proof.
  intros P E. pose proof (fork_uninterrupted f c) as U. rewrite (bind_done _ _ _ _ _ P) in U.
  assert (forall m, (fork_length <= m)%nat -> fork_steps f m PopHead c = Done (Forked t, c')) as All.
  { intros m L. replace m with (fork_length + (m - fork_length))%nat by lia. rewrite fork_steps_plus.
    mrun U. apply fork_steps_forked. }
  split.
  - pose proof (All (n + S fork_length)%nat) as A. rewrite fork_steps_plus in A. rewrite (bind_done _ _ _ _ _ E) in A.
    specialize (A ltac:(lia)). rewrite steps_S in A. apply bind_inv in A as (k' & s' & A & _). by exists k', s'.
  - intros u ->. pose proof (All (n + fork_length)%nat ltac:(lia)) as A. rewrite fork_steps_plus, (bind_done _ _ _ _ _ E),
      fork_steps_forked in A. by injection A as -> ->.
Qed.
End Fork.
