(* ===== verification/ThreadsRun.v ===== *)
(** * The thread system at work

    The events that happen with interrupts disabled, or that touch nothing shared, while threads
    run; what the threads may do (the protocol of [_thread_safe_printk]: ask for the output,
    print, wait; a thread does not end while it has the output); and executions made of these
    events, which follow the abstract scheduler.  A fork is an undivided event here;
    ThreadsMachine.v divides it and reduces its executions to these. *)

From stdpp Require Import base tactics option list list_tactics numbers sets gmap.
From Stdlib Require Import ZArith Lia.
From S2P Require Import Prelude Circular Vectors Queue Uart ThreadIo Threads ThreadsSpec ThreadsThm.
#[local] Open Scope Z_scope.

Section Run.
Context `{Kmalloc} `{Hk : !KmallocOk} `{Linked}.
Context (use_out : bool) (transfer : M sched unit).

(** ** Events *)

(** Calls of the current thread, interrupts ([sp] is where its context was saved), the run
    of a printer thread, a turn of the scheduler, and progress of the serial line. *)
Inductive happening : Type :=
  | ERequest (mode sp : Z)
  | EPut (c : Z)
  | EWait (mode sp : Z)
  | EFork (code arg : Z) (enable_interrupt sys_mode : bool)
  | EExit
  | EIrq (pending : bool) (iir sp : Z)
  | EPrinter
  | ETurn
  | ELine (sent : nat) (arrived : list Z).

Definition to_unit {A} (m : M sched A) : M sched unit := m;; mret tt.

Definition run_happening (e : happening) : M sched unit :=
  match e with
  | ERequest mode sp => to_unit (syscall_vector transfer REQUEST_STDOUT mode sp)
  | EPut c => on_io (rpi_putchar use_out c)
  | EWait mode sp => to_unit (syscall_vector transfer WAIT_STDOUT mode sp)
  | EFork code arg ei sm => to_unit (pre_fork code arg ei sm)
  | EExit => to_unit pre_exit
  | EIrq pending iir sp => to_unit (interrupt pending iir 0 sp)
  | EPrinter => to_unit (stdout_queue_to_txfifo;; pre_exit)
  | ETurn => more ← sched_more; if (more : bool) then to_unit sched_turn else mret tt
  | ELine sent arrived =>
      on_io (on_uart (m_modify (fun u => arrive arrived (shift_out sent u))))
  end.

(** The thread that runs; the scheduler is none. *)
Definition current (s : sched) : option pre_thread_t :=
  if cur_thread s =? scheduler_thread s then None else s_th s !! cur_thread s.

Definition cur_tid (s : sched) : Z := default 0 (th_tid <$> current s).

Definition user (s : sched) : bool :=
  match current s with Some x => negb (is_printer x) | None => false end.
Definition user_with (reason : Z) (s : sched) : bool :=
  match current s with
  | Some x => negb (is_printer x) && (block_reason x =? reason)
  | None => false
  end.
Definition legal_mode (mode : Z) : bool := (mode =? USER_MODE) || (mode =? SYS_MODE).

Definition allowed (e : happening) (s : sched) : bool :=
  match e with
  | ERequest mode _ => user_with NONE s && legal_mode mode
  | EPut _ => user_with STDIO s
  | EWait mode _ => user_with STDIO s && legal_mode mode
  | EFork code _ _ _ => user s && negb (code =? stdout_queue_to_txfifo_addr)
  | EExit => user_with NONE s
  | EIrq _ _ _ => user s
  | EPrinter => match current s with Some x => is_printer x | None => false end
  | ETurn => cur_thread s =? scheduler_thread s
  | ELine _ _ => true
  end.

(** What an event adds to the output. *)
Definition emitted (e : happening) (s : sched) : list Z :=
  match e with EPut c => printed use_out c (s_io s) | _ => [] end.

(** The step of the abstract scheduler it is. *)
Definition label (e : happening) : option event :=
  match e with
  | ERequest _ _ => Some Request
  | EPut c => Some (Put c)
  | EWait _ _ => Some Wait
  | EFork _ _ _ _ => Some Fork
  | EExit => Some Exit
  | EIrq pending _ _ => Some (if pending then Tick else Send)
  | EPrinter => Some Print
  | ETurn => Some Turn
  | ELine _ _ => None
  end.

(** ** The invariant *)

(** [n] more events can happen before the thread ids are used up. *)
Definition good (n : nat) (s : sched) (a : abs) (F : list Z) : Prop :=
  rel use_out s a F /\ sound a /\ scheduler_thread s <> 0 /\ a_next a + Z.of_nat n < 2 ^ 32.

Lemma current_rel s a F : rel use_out s a F ->
  match a_cur a with
  | None => current s = None
  | Some c => exists x, current s = Some x /\ thread_is x c
  end.
Proof.
  intros R. unfold current. destruct (a_cur a) as [c|] eqn:Ec.
  - destruct (rel_user _ s a F c R Ec) as (C & Ns & x & Ex & Is). exists x.
    by rewrite (proj2 (Z.eqb_neq _ _)) by congruence.
  - rewrite (r_cur _ _ _ _ R), Ec. simpl. by rewrite Z.eqb_refl.
Qed.

Lemma user_rel s a F : rel use_out s a F -> user s = true ->
  exists c, a_cur a = Some c /\ t_printer c = false.
Proof.
  intros R U. pose proof (current_rel s a F R) as C. unfold user in U.
  destruct (a_cur a) as [c|]; [|by rewrite C in U]. destruct C as (x & E & Is). rewrite E in U.
  exists c. split; [done|]. destruct Is as (_ & <- & _). by destruct (is_printer x).
Qed.

Lemma user_with_rel s a F b : rel use_out s a F -> user_with (reason_of b) s = true ->
  exists c, a_cur a = Some c /\ t_printer c = false /\ t_stdio c = b.
Proof.
  intros R U. pose proof (current_rel s a F R) as C. unfold user_with in U.
  destruct (a_cur a) as [c|]; [|by rewrite C in U]. destruct C as (x & E & Is). rewrite E in U.
  apply andb_true_iff in U as [U1 U2]. exists c. destruct Is as (_ & <- & Rx). rewrite Rx in U2.
  split_and!; [done|by destruct (is_printer x)|]. by destruct (t_stdio c), b.
Qed.

Lemma who_rel s a F : rel use_out s a F -> who a = cur_tid s.
Proof.
  intros R. pose proof (current_rel s a F R) as C. unfold who, cur_tid.
  destruct (a_cur a) as [c|]; [|by rewrite C]. destruct C as (x & -> & Tx & _). simpl. by rewrite Tx.
Qed.

Lemma legal_mode_ok mode : legal_mode mode = true -> mode_ok mode.
Proof. unfold legal_mode, mode_ok. lia. Qed.

Lemma step_next t idle a e a' : step t idle a e a' -> a_next a' <= a_next a + 1.
Proof.
  intros St. destruct St; simpl; try lia.
  assert (a_next (unblock (release a)) = a_next a) as E.
  { unfold unblock, release. destruct (a_wait a), (a_idle a); simpl; by repeat case_match. }
  unfold switch. destruct (pick _ _) as [sk [[x rest]|]]; simpl; lia.
Qed.

(** A turn without threads changes nothing. *)
Lemma turn_nothing a : a_cur a = None -> a_all a = [] -> switch (unblock (release a)) = a.
Proof.
  intros Ec Al. unfold a_all in Al. apply app_nil in Al as [Ru Al]. apply app_nil in Al as [Bl Al].
  rewrite Ec in Al. cbn in Al. destruct (a_wait a) as [w|] eqn:W; [done|].
  destruct a as [ru bl cu wa lo ne id]; simpl in *; subst.
  unfold release, unblock, switch. cbn. by destruct (lo =? 0).
Qed.

Lemma to_unit_run {A} (m : M sched A) s r s' : m s = Done (r, s') -> to_unit m s = Done (tt, s').
Proof. intros E. unfold to_unit. by mrun E. Qed.

Definition follows (n : nat) (s : sched) (a : abs) (e : happening) : Prop :=
  exists s' a' F', run_happening e s = Done (tt, s') /\ good n s' a' F' /\
    console (s_io s') = console (s_io s) ++ emitted e s /\
    match label e with Some ev => exists t idle, step t idle a ev a' | None => a' = a end.

(** From the refinement of an event that prints nothing. *)
Lemma follows_intro n s a F e ev t idle s' a' F' : good (S n) s a F -> label e = Some ev ->
  emitted e s = [] -> run_happening e s = Done (tt, s') -> step t idle a ev a' ->
  rel use_out s' a' F' -> same_output s s' -> follows n s a e.
Proof.
  intros (R & So & Hs & B) El Em E St R' [Co Sc]. exists s', a', F'. rewrite El, Em, app_nil_r.
  split_and!; [done| |done|by eauto]. split_and!; [done|by eapply sound_step|congruence|].
  apply step_next in St. lia.
Qed.

Lemma happens n s a F e : good (S n) s a F -> allowed e s = true -> follows n s a e.
Proof using Hk.
  intros G Al. pose proof G as (R & So & Hs & B). destruct e as [mode sp|c|mode sp|code arg ei sm| |pe iir sp| | |sent arr];
    cbn [allowed] in Al.
  - apply andb_true_iff in Al as [U Mo%legal_mode_ok].
    destruct (user_with_rel s a F false R U) as (c & Ec & Pc & Sc).
    destruct (request_refines use_out transfer mode sp Mo s a F c R So Ec Pc Sc) as (sp' & s' & a' & E & St & R' & O).
    eapply follows_intro; try done. by eapply to_unit_run.
  - destruct (user_with_rel s a F true R Al) as (x & Ec & Pc & Sc).
    destruct (put_refines use_out transfer 16 0 (or_introl eq_refl) s a F x R So Ec Pc c Sc)
      as (s' & a' & idle & E & St & R' & Hs' & Co).
    exists s', a', F. split_and!; [done| |done|cbn; by eauto].
    split_and!; [done|by eapply sound_step|congruence|]. apply step_next in St. lia.
  - apply andb_true_iff in Al as [U Mo%legal_mode_ok].
    destruct (user_with_rel s a F true R U) as (c & Ec & Pc & Sc).
    destruct (wait_refines use_out transfer mode sp Mo s a F c R So Ec Pc Sc) as (sp' & s' & a' & t & F' & E & St & R' & O);
      [lia|].
    eapply follows_intro; try done. by eapply to_unit_run.
  - apply andb_true_iff in Al as [U Nc]. destruct (user_rel s a F R U) as (c & Ec & Pc).
    destruct (fork_refines use_out transfer 16 0 (or_introl eq_refl) s a F c R So Ec Pc code arg ei sm)
      as (t & s' & a' & F' & E & St & R' & O & _); [lia|lia|].
    eapply follows_intro; try done. by eapply to_unit_run.
  - destruct (user_with_rel s a F false R Al) as (c & Ec & Pc & Sc).
    destruct (exit_refines use_out transfer 16 0 (or_introl eq_refl) s a F c R So Ec Pc Sc) as (sp' & s' & a' & E & St & R' & O).
    eapply follows_intro; try done. by eapply to_unit_run.
  - destruct (user_rel s a F R Al) as (c & Ec & Pc).
    destruct (irq_refines use_out transfer 16 sp (or_introl eq_refl) s a F c R So Ec Pc pe iir 0)
      as (sp' & s' & a' & idle & E & St & R' & O).
    eapply follows_intro; try done. by eapply to_unit_run.
  - pose proof (current_rel s a F R) as C. destruct (a_cur a) as [c|] eqn:Ec; [|by rewrite C in Al].
    destruct C as (x & Ex & Is). rewrite Ex in Al. destruct Is as (_ & Px & _).
    destruct (print_refines use_out s a F c R So Ec) as (sp' & s' & a' & t & idle & F' & E & St & R' & O);
      [congruence|lia|].
    eapply follows_intro; try done. by eapply to_unit_run.
  - assert (a_cur a = None) as Ec.
    { destruct (a_cur a) as [c|] eqn:Ec; [|done]. destruct (rel_user _ s a F c R Ec) as (C & Ns & _). lia. }
    cbn [run_happening]. pose proof (sched_more_run use_out s a F R Ec) as Mo.
    destruct (turn_refines use_out s a F R So Hs Ec) as (r & s' & E & St & R' & O & _).
    case_bool_decide as Ne.
    + rewrite (turn_nothing a Ec Ne) in St. eapply follows_intro; try done. cbn. by mrun Mo.
    + eapply follows_intro; try done. cbn. mrun Mo. by eapply to_unit_run.
  - set (x := set_uart (arrive arr (shift_out sent (io_uart (s_io s)))) (s_io s)).
    exists (set_io s x), a, F. cbn [emitted]. rewrite app_nil_r. split_and!; [done| | |done].
    2: { unfold console, x. cbn [set_io s_io set_uart io_uart putQ]. rewrite !visible_app.
         change (written (arrive arr ?u)) with (written u). by rewrite written_shift. }
    split_and!; [|done..|lia]. rewrite (abs_eta a), (r_idle _ _ _ _ R), <-(r_lock _ _ _ _ R).
    apply (rel_io use_out s a F x _ R); [by destruct (r_io _ _ _ _ R)|done|apply R].
Qed.

(** ** Executions *)

Inductive exec : sched -> list (Z * happening) -> sched -> Prop :=
  | exec_nil s : exec s [] s
  | exec_cons s e s1 l s2 : allowed e s = true -> run_happening e s = Done (tt, s1) ->
      exec s1 l s2 -> exec s ((cur_tid s, e) :: l) s2.

(** The abstract events of an execution. *)
Definition labels (l : list (Z * happening)) : list (Z * event) :=
  omap (fun ie => (fun ev => (ie.1, ev)) <$> label ie.2) l.

Fixpoint outputs (l : list (Z * happening)) (s : sched) : list Z :=
  match l with
  | [] => []
  | (_, e) :: l =>
      emitted e s ++ match run_happening e s with Done (_, s1) => outputs l s1 | _ => [] end
  end.

Lemma exec_refines n s a F l s' : good (length l + n) s a F -> exec s l s' ->
  exists a' F', runs a (labels l) a' /\ good n s' a' F' /\
    console (s_io s') = console (s_io s) ++ outputs l s.
Proof using Hk.
  intros G X. revert a F G. induction X as [s|s e s1 l s2 Al E X IH]; intros a F G.
  - exists a, F. split_and!; [constructor|done|simpl; by rewrite app_nil_r].
  - destruct (happens _ s a F e G Al) as (s1' & a1 & F1 & E' & G1 & Co & Lb).
    rewrite E in E'. injection E' as <-. destruct (IH a1 F1 G1) as (a' & F' & Ru & G' & Co').
    exists a', F'. split_and!; [|done|].
    + unfold labels in *. cbn. destruct (label e) as [ev|] eqn:El; cbn; [|by subst].
      destruct Lb as (t & idle & St). rewrite <-(who_rel s a F) by apply G. by econstructor.
    + cbn [outputs]. by rewrite E, Co', Co, app_assoc.
Qed.

(** ** Starting *)

(** The state of a machine that has no threads yet. *)
Definition at_boot (u : uart) : sched :=
  mk_sched ∅ ∅ ∅ 0 Q_init Q_init Q_init 0 0 0 0 1 0 (mk_io 0 (cq_init 1) (cq_init 1) u).

Definition boot_abs : abs := mk_abs [] [] None None 0 1 true.

Lemma boot_rel u : rel use_out (at_boot u) boot_abs [].
Proof.
  pose proof (proj2 (isQ_nil ∅ Q_init) eq_refl) as Q.
  assert (io_ok (s_io (at_boot u))) as O by (split; apply cq_init_wf).
  assert (cq_list (putQ (s_io (at_boot u))) = []) as E by apply cq_init_list.
  split; [split|..]; try done.
  - constructor.
  - by intros t ?%not_elem_of_nil.
  - by intros t ?%not_elem_of_nil.
  - by intros [].
Qed.

Lemma boot_sound : sound boot_abs.
Proof.
  split; try done; try (by intros t ?%not_elem_of_nil).
  - constructor.
  - by left.
Qed.

(** The threads a program forks before it starts them. *)
Fixpoint forks (l : list (Z * Z)) : M sched unit :=
  match l with
  | [] => mret tt
  | (code, arg) :: l => pre_fork code arg true true;; forks l
  end.

Lemma forks_run l s a F : rel use_out s a F -> sound a -> a_cur a = None -> a_wait a = None ->
  a_next a + Z.of_nat (length l) < 2 ^ 32 ->
  Forall (fun ca => ca.1 <> stdout_queue_to_txfifo_addr) l ->
  exists s' a' F', forks l s = Done (tt, s') /\ rel use_out s' a' F' /\ sound a' /\ a_cur a' = None /\
    scheduler_thread s' = scheduler_thread s /\ s_io s' = s_io s /\
    a_next a' = a_next a + Z.of_nat (length l) /\
    length (a_run a') = (length (a_run a) + length l)%nat.
Proof using Hk.
  revert s a F. induction l as [|[code arg] l IH]; intros s a F R So Ec W B Nc.
  - exists s, a, F. simpl. split_and!; try done; lia.
  - apply Forall_cons in Nc as [Nc Ncs]. simpl in Nc, B.
    destruct (fork_run use_out s a F code arg true true R) as (t & s1 & F1 & E & _ & Io & Sc & R1).
    { pose proof (so_pos _ So). lia. }
    rewrite bool_decide_eq_false_2 in R1 by done. cbn [forks]. mrun E.
    destruct (IH s1 _ F1 R1) as (s' & a' & F' & E' & R' & So' & Ec' & Sc' & Io' & Nx & Ln); try done.
    { apply (sound_fork a So t). by right. }
    { cbn. lia. }
    exists s', a', F'. cbn in Nx, Ln. rewrite length_app in Ln. cbn in *.
    split_and!; try done; try congruence; lia.
Qed.

(** [pre_thread_start] gives the scheduler a block. *)
Lemma start_run s a F n : rel use_out s a F -> sound a -> scheduler_thread s = 0 -> a_cur a = None ->
  a_run a <> [] -> a_next a + 1 + Z.of_nat n < 2 ^ 32 ->
  exists sp s' a' F', pre_thread_start s = Done (Some sp, s') /\ good n s' a' F' /\ is_Some (a_cur a') /\
    console (s_io s') = console (s_io s).
Proof using Hk.
  intros R So Sc Ec Ne B. unfold pre_thread_start. mrun (empty_runq s _ _ _ (r_queues _ _ _ _ R)).
  rewrite bool_decide_eq_false_2 by (by intros ?%fmap_nil_inv). rewrite gets_run, Sc. cbn [Z.eqb].
  destruct (th_alloc_run use_out s a F R) as (t & s1 & F1 & Al & A). rewrite bind_assoc. mrun Al.
  rewrite modify_run. destruct A as [Q P Old (x & Ex & Tx) Hp Nx (C1 & C2 & C3 & C4 & C5)].
  set (s2 := set_cur (set_scheduler s1 t) t).
  set (a2 := mk_abs (a_run a) (a_block a) (a_cur a) (a_wait a) (a_lock a) (a_next a + 1) (a_idle a)).
  pose proof (NoDup_elements (dom (s_th s1))) as N. rewrite <-P in N. apply NoDup_cons in N as [Nt _].
  assert (t <> 0) as T0.
  { intros ->. apply (qo_zero _ _ _ _ Q). apply elem_of_elements. rewrite <-P. left. }
  assert (sblock t = [t]) as Sb by (unfold sblock; by rewrite (proj2 (Z.eqb_neq t 0))).
  pose proof (so_pos _ So) as Po.
  assert (rel use_out s2 a2 F1) as R2.
  { split; cbn [s2 set_cur set_scheduler s_next s_th s_heap cur_thread scheduler_thread wait_stdout_thread
      wait_stdin_thread next_tid s_io a2 a_run a_block a_cur a_wait a_lock a_next a_idle]; rewrite ?C3, ?C4, ?C5;
      try apply R; try done.
    - eapply queues_ok_same; [exact Q|done..].
    - rewrite Sb, <-P, C2, Sc. change (sblock 0) with (@nil Z). unfold a_all.
      cbn [a2 a_run a_block a_cur a_wait]. rewrite app_nil_r. solve_Permutation.
    - intros u Hu. change (u ∈ a_all a) in Hu. rewrite Old; [by apply R|]. intros <-. apply Nt.
      apply elem_of_app. left. by apply list_elem_of_fmap_2.
    - by rewrite Ec.
    - rewrite Nx, (r_next _ _ _ _ R). apply u32_small. unfold is_u32. lia. }
  assert (sound a2) as S2.
  { destruct So as [s_tids s_next s_pos s_block s_printer s_holder s_cur s_wait].
    split; try done; [|cbn; lia]. intros u Hu. destruct (s_next u Hu). cbn. lia. }
  assert (a_all a2 <> []) as Na.
  { unfold a_all. cbn. by destruct (a_run a). }
  mrun (sched_more_run use_out s2 a2 F1 R2 Ec). rewrite bool_decide_eq_false_2 by done. cbn [negb].
  destruct (turn_refines use_out s2 a2 F1 R2 S2 T0 Ec) as (r & s' & E & St & R' & O & Cu).
  destruct (turn_runs a2 S2 Ec Na) as [c Cc]. rewrite Cc in Cu.
  destruct (r_th _ _ _ _ R' c (in_cur _ _ Cc)) as (y & Ey & _). cbn in Cu. rewrite Ey in Cu. cbn in Cu. subst r.
  eexists _, s', _, F1. split_and!; [exact E| |by rewrite Cc|].
  - split_and!; [exact R'|by eapply sound_step|by rewrite (proj2 O)|].
    assert (a_next (switch (unblock (release a2))) = a_next a2) as ->; [|cbn; lia].
    unfold switch, unblock, release. destruct (a_wait a2), (a_idle a2); cbn; repeat case_match; done.
  - rewrite (proj1 O). cbn. by rewrite C5.
Qed.

(** A program that forks the threads [l] and starts them. *)
Definition boot (l : list (Z * Z)) : M sched (option Z) := forks l;; pre_thread_start.

(** There are ids for [l] and for as many threads as there are events. *)
Definition ids_suffice (l : list (Z * Z)) (n : nat) : Prop :=
  Z.of_nat (length l) + 2 + Z.of_nat n < 2 ^ 32.

Definition plain (l : list (Z * Z)) : Prop :=
  l <> [] /\ Forall (fun ca => ca.1 <> stdout_queue_to_txfifo_addr) l.

Lemma boot_run u l n : plain l -> ids_suffice l n ->
  exists sp s a F, boot l (at_boot u) = Done (Some sp, s) /\ good n s a F /\ is_Some (a_cur a) /\
    console (s_io s) = visible (written u).
Proof using Hk.
  intros [Ne Nc] B. unfold ids_suffice in B.
  destruct (forks_run l (at_boot u) boot_abs [] (boot_rel u) boot_sound) as
    (s1 & a1 & F1 & E1 & R1 & S1 & Ec & Sc & Io & Nx & Ln); [done..|cbn; lia|done|].
  cbn in Nx, Ln. destruct (start_run s1 a1 F1 n R1 S1 Sc Ec) as (sp & s & a & F & E & G & Cu & Co).
  { intros E. rewrite E in Ln. by destruct l. }
  { lia. }
  exists sp, s, a, F. unfold boot. mrun E1. split_and!; [done..|].
  rewrite Co, Io. unfold console. cbn [at_boot s_io io_uart putQ]. by rewrite cq_init_list, app_nil_r.
Qed.

Lemma boot_good u l n sp s : plain l -> ids_suffice l n -> boot l (at_boot u) = Done (Some sp, s) ->
  exists a F, good n s a F /\ console (s_io s) = visible (written u).
Proof using Hk.
  intros P B E. destruct (boot_run u l n P B) as (sp' & s' & a & F & E' & G & _ & Co).
  rewrite E in E'. injection E' as <- <-. by exists a, F.
Qed.
End Run.

#[export] Instance happening_eq_dec : EqDecision happening.
Proof. solve_decision. Defined.
