(* ===== verification/ThreadsMachine.v ===== *)
(** * The thread system with interrupts at any point

    The system calls, the handlers and the scheduler of Threads.v run with interrupts disabled.
    What a thread itself does runs with interrupts enabled, and most of it touches only what is
    its own: it puts a character while it has the output, and it ends by returning to
    [pre_init_trampoline] (thread-asm.S), which disables interrupts before it calls [pre_exit].
    A fork is different: [pre_fork] changes the queues and the counters that the handlers change
    too.  Here a fork by a running thread is the steps of ThreadsFork.v, with interrupts and the
    line's progress at any point between two of them.

    As long as no timer interrupt comes inside a fork such an execution does what one with
    undivided forks does, and the theorems about the thread system hold.  When one does come
    there, the run queue is damaged or two threads get one id: [timer_inside_append] and
    [timer_inside_th_alloc] of ThreadsWitness.v. *)

From stdpp Require Import base tactics option list list_tactics numbers sets gmap.
From Stdlib Require Import ZArith Lia.
From S2P Require Import Prelude Circular Vectors Queue Uart ThreadIo Threads ThreadsSpec ThreadsThm ThreadsFork ThreadsRun.
#[local] Open Scope Z_scope.

(** The forks that have been called and have not returned, by the block of the caller. *)
Record machine : Type := mk_machine {
  mc_sched : sched;
  mc_forks : gmap Z (fork_args * fork_pc)
}.

(** [Do]: an event of ThreadsRun.v other than a fork; [Call], [Step], [Return]: the running
    thread calls [pre_fork], executes the next step of it, and returns from it. *)
Inductive action : Type :=
  | Do (e : happening)
  | Call (f : fork_args)
  | Step
  | Return.

#[export] Instance action_eq_dec : EqDecision action.
Proof. solve_decision. Defined.

Definition on_sched {A} (m : M sched A) : M machine A :=
  m_zoom mc_sched (fun s x => mk_machine s (mc_forks x)) m.

(** The fork the running thread is in. *)
Definition fork_of (m : machine) : option (fork_args * fork_pc) :=
  mc_forks m !! cur_thread (mc_sched m).

Definition forked (k : fork_pc) : bool := match k with Forked _ => true | _ => false end.

Section Machine.
Context `{Kmalloc} `{Hk : !KmallocOk} `{Linked}.
Context (use_out : bool) (transfer : M sched unit).

Definition act (x : action) : M machine unit :=
  match x with
  | Do e => on_sched (run_happening use_out transfer e)
  | Call f =>
      m_modify (fun m => mk_machine (mc_sched m) (<[cur_thread (mc_sched m) := (f, PopHead)]> (mc_forks m)))
  | Step =>
      o ← m_gets fork_of;
      fk ← m_opt o;
      k ← on_sched (fork_step fk.1 fk.2);
      m_modify (fun m => mk_machine (mc_sched m) (<[cur_thread (mc_sched m) := (fk.1, k)]> (mc_forks m)))
  | Return =>
      m_modify (fun m => mk_machine (mc_sched m) (delete (cur_thread (mc_sched m)) (mc_forks m)))
  end.

Definition fork_event (f : fork_args) : happening :=
  EFork (fk_code f) (fk_arg f) (fk_enable_interrupt f) (fk_sys_mode f).

(** What can happen next.  Inside a fork the thread can only go on with it. *)
Definition may (x : action) (m : machine) : bool :=
  match fork_of m, x with
  | None, Do (EFork _ _ _ _) => false
  | None, Do e => allowed e (mc_sched m)
  | None, Call f => allowed (fork_event f) (mc_sched m)
  | None, _ => false
  | Some _, Do (EIrq pending iir sp) => allowed (EIrq pending iir sp) (mc_sched m)
  | Some _, Do (ELine _ _) => true
  | Some fk, Step => negb (forked fk.2)
  | Some fk, Return => forked fk.2
  | Some _, _ => false
  end.

(** No timer interrupt inside a fork. *)
Definition calm (x : action) (m : machine) : bool :=
  match x with
  | Do (EIrq true _ _) => bool_decide (fork_of m = None)
  | _ => true
  end.

(** Executions in which every action satisfies [ok]. *)
Inductive mexec (ok : action -> machine -> bool) : machine -> list (Z * action) -> machine -> Prop :=
  | mexec_nil m : mexec ok m [] m
  | mexec_cons m x m1 l m2 : may x m = true -> ok x m = true -> act x m = Done (tt, m1) ->
      mexec ok m1 l m2 -> mexec ok m ((cur_tid (mc_sched m), x) :: l) m2.

(** The step of the abstract scheduler that an action is: a fork is one when it returns. *)
Definition mlabel (x : action) : option event :=
  match x with Do e => label e | Return => Some Fork | _ => None end.
Definition mlabels (l : list (Z * action)) : list (Z * event) :=
  omap (fun ix => (fun ev => (ix.1, ev)) <$> mlabel ix.2) l.

Definition memitted (x : action) (m : machine) : list Z :=
  match x with Do e => emitted use_out e (mc_sched m) | _ => [] end.
Fixpoint moutputs (l : list (Z * action)) (m : machine) : list Z :=
  match l with
  | [] => []
  | (_, x) :: l => memitted x m ++ match act x m with Done (_, m1) => moutputs l m1 | _ => [] end
  end.

(** ** Reduction to undivided forks *)

(** [c]: the same machine with the fork of the running thread, if it is in one, not yet begun. *)
Definition before (c : sched) (m : machine) : Prop :=
  match fork_of m with
  | None => mc_forks m = ∅ /\ c = mc_sched m
  | Some (f, k) =>
      mc_forks m = {[cur_thread (mc_sched m) := (f, k)]} /\ s_io c = s_io (mc_sched m) /\
      allowed (fork_event f) c = true /\
      exists n, fork_steps f n PopHead c = Done (k, mc_sched m)
  end.

(** The running thread's own block is not the one its fork takes. *)
Lemma fork_block_other s a F c : rel use_out s a F -> a_cur a = Some c -> fork_block s <> cur_thread s.
Proof using Hk.
  intros R Ec. destruct (rel_user _ s a F c R Ec) as (Cu & _ & x & Ex & _). unfold fork_block.
  destruct (q_head (freeq s) =? 0) eqn:Eh.
  - intros E. destruct (r_heap _ _ _ _ R (cur_thread s)) as (i & Hi & Ei); [by eapply elem_of_dom_2|].
    rewrite Ei in E. apply block_inj in E. lia.
  - pose proof (qo_free _ _ _ _ (r_queues _ _ _ _ R)) as Q. destruct F as [|t F].
    + apply isQ_nil in Q. rewrite Q in Eh. done.
    + destruct Q as [(Hd & _) _ _ _]. rewrite Hd, Cu. intros ->.
      pose proof (rel_nodup _ s a _ R) as N. apply NoDup_app in N as (_ & N & _).
      apply (N (t_addr c)); [|left]. apply list_elem_of_fmap_2. by apply in_cur.
Qed.

(** Inside a fork the running thread is the same, as far as the others can see. *)
Lemma current_before n c a F m : good use_out n c a F -> before c m -> current (mc_sched m) = current c.
Proof using Hk.
  intros (R & So & Hs & _) B. unfold before in B. destruct (fork_of m) as [[f k]|] eqn:Ef.
  - destruct B as (_ & _ & Al & i & E). apply andb_true_iff in Al as [U _].
    destruct (user_rel use_out c a F R U) as (t & Ec & _).
    destruct (fork_steps_inv f c i PopHead c k (mc_sched m) (fork_started c) E) as [Cu Sc Ot _].
    unfold current. rewrite Cu, Sc, Ot; [done|]. intros Eb. by apply (fork_block_other c a F t R Ec).
  - by destruct B as [_ ->].
Qed.

Lemma io_before c m : before c m -> s_io c = s_io (mc_sched m).
Proof. unfold before. destruct (fork_of m) as [[f k]|]; [by intros (_ & -> & _)|by intros [_ ->]]. Qed.

(** An event that touches the devices only. *)
Definition device (e : happening) : bool :=
  match e with EIrq false _ _ | ELine _ _ => true | _ => false end.

Lemma device_run e s s1 c : device e = true -> run_happening use_out transfer e s = Done (tt, s1) ->
  s_io c = s_io s -> exists x, s1 = set_io s x /\ run_happening use_out transfer e c = Done (tt, set_io c x).
Proof.
  intros D E Io. destruct e as [| | | | |[] iir sp| | |sent arr]; try discriminate; cbn [run_happening] in *.
  - unfold to_unit in E. apply bind_inv in E as (q & t & E & [= ->]). rewrite interrupt_run in E.
    cbn [int_vector_pre_threads negb] in E. rewrite ret_run in E. unfold int_vector_uart_pre_threads in E.
    destruct (Z.testbit iir 0) eqn:Eb.
    + rewrite ret_run in E. injection E as _ <-. exists (s_io s). split; [by destruct s|].
      apply (to_unit_run _ _ sp). rewrite interrupt_run. cbn [int_vector_pre_threads negb]. rewrite ret_run.
      unfold int_vector_uart_pre_threads. rewrite Eb, ret_run, <-Io. by destruct c.
    + rewrite bind_assoc in E. apply bind_inv in E as (u & t & E & [= _ <-]).
      unfold on_io, m_zoom in E. destruct (int_vector_uart iir (s_io s)) as [[v x]| | |] eqn:Ei; try done.
      injection E as <- <-. exists x. split; [done|].
      apply (to_unit_run _ _ sp). rewrite interrupt_run. cbn [int_vector_pre_threads negb]. rewrite ret_run.
      unfold int_vector_uart_pre_threads. rewrite Eb, bind_assoc.
      assert (on_io (int_vector_uart iir) c = Done (v, set_io c x)) as Ec by (unfold on_io, m_zoom; by rewrite Io, Ei).
      by mrun Ec.
  - unfold on_io, m_zoom in *. rewrite Io. destruct (on_uart _ (s_io s)) as [[v x]| | |]; try done.
    injection E as _ <-. exists x. destruct v. by split.
Qed.

(** Such an event commutes with the steps of the fork. *)
Lemma device_before c m e s1 : before c m -> is_Some (fork_of m) -> device e = true ->
  run_happening use_out transfer e (mc_sched m) = Done (tt, s1) ->
  exists c', run_happening use_out transfer e c = Done (tt, c') /\ before c' (mk_machine s1 (mc_forks m)).
Proof.
  intros B [[f k] Ef] D E. pose proof (io_before c m B) as Io.
  destruct (device_run e (mc_sched m) s1 c D E Io) as (x & -> & E'). exists (set_io c x). split; [done|].
  unfold before in *. unfold fork_of in *. cbn [mc_sched mc_forks set_io cur_thread]. rewrite Ef in *.
  destruct B as (Fk & _ & Al & n & St). split_and!; [done..|]. exists n.
  rewrite (blind_steps f n PopHead c x). by rewrite St.
Qed.

(** An action is an event of the machine with undivided forks, or none. *)
Definition reduces (c : sched) (m : machine) (x : action) (m' : machine) : Prop :=
  (exists e c', allowed e c = true /\ run_happening use_out transfer e c = Done (tt, c') /\
     before c' m' /\ label e = mlabel x /\ emitted use_out e c = memitted x m) \/
  (mlabel x = None /\ memitted x m = [] /\ before c m').

Lemma reduces_do n c a F m e : good use_out (S n) c a F -> before c m ->
  may (Do e) m = true -> calm (Do e) m = true ->
  exists m', act (Do e) m = Done (tt, m') /\ reduces c m (Do e) m'.
Proof using Hk.
  intros G B My Ca. pose proof (current_before _ c a F m G B) as Cu. cbn [act].
  destruct (fork_of m) as [fk|] eqn:Ef; unfold may in My; rewrite Ef in My.
  - assert (device e = true) as D.
    { destruct e as [| | | | |[] iir sp| | |]; try done. cbn [calm] in Ca. by rewrite Ef in Ca. }
    assert (allowed e c = true) as Al.
    { destruct e as [| | | | |[] iir sp| | |]; try done. cbn [allowed] in *. unfold user in *. by rewrite <-Cu. }
    destruct (happens use_out transfer n c a F e G Al) as (c1 & _ & _ & E1 & _).
    destruct (device_run e c c1 (mc_sched m) D E1 (eq_sym (io_before c m B))) as (x & _ & E2).
    destruct (device_before c m e _ B ltac:(by rewrite Ef) D E2) as (c' & E3 & B').
    exists (mk_machine (set_io (mc_sched m) x) (mc_forks m)). split.
    { unfold on_sched, m_zoom. by rewrite E2. }
    left. exists e, c'. split_and!; [done..|]. by destruct e.
  - assert (allowed e (mc_sched m) = true) as Al by (by destruct e). unfold before in B. rewrite Ef in B.
    destruct B as [Fk ->]. destruct (happens use_out transfer n _ a F e G Al) as (c1 & _ & _ & E1 & _).
    exists (mk_machine c1 (mc_forks m)). split.
    { unfold on_sched, m_zoom. by rewrite E1. }
    left. exists e, c1. split_and!; [done..| |done|done]. unfold before, fork_of. cbn [mc_sched mc_forks].
    by rewrite Fk, lookup_empty.
Qed.

Lemma reduces_fork n c a F m x : good use_out (S n) c a F -> before c m ->
  may x m = true -> (forall e, x <> Do e) ->
  exists m', act x m = Done (tt, m') /\ reduces c m x m'.
Proof using Hk.
  intros G B My No. unfold may in My. unfold before in B. destruct (fork_of m) as [[f k]|] eqn:Ef.
  - destruct B as (Fk & Io & Al & i & St).
    destruct (happens use_out transfer n c a F _ G Al) as (c1 & _ & _ & E1 & _).
    cbn [fork_event run_happening] in E1. apply bind_inv in E1 as (t & c2 & P & [= ->]).
    destruct (fork_goes_on f i c k (mc_sched m) t c1 P St) as [(k' & s' & E2) Fo].
    destruct x as [e|f'| |]; [by destruct (No e)|done| |].
    + assert (cur_thread s' = cur_thread (mc_sched m)) as Cu.
      { pose proof (fork_steps_inv f c i PopHead c k _ (fork_started c) St) as I.
        pose proof (fi_cur _ _ _ (fork_step_inv f c k _ k' s' I E2)). pose proof (fi_cur _ _ _ I). congruence. }
      exists (mk_machine s' (<[cur_thread s' := (f, k')]> (mc_forks m))). split.
      { cbn [act]. rewrite gets_run, Ef. rewrite (opt_run _ (f, k)) by done. cbn [fst snd].
        erewrite bind_done by (unfold on_sched, m_zoom; by rewrite E2). done. }
      right. split_and!; [done..|]. unfold before, fork_of. cbn [mc_sched mc_forks]. rewrite lookup_insert_eq.
      split_and!; [by rewrite Fk, Cu, insert_singleton_eq| |done|].
      * rewrite Io. symmetry. exact (blind_io _ _ _ _ (blind_step f k) E2).
      * exists (i + 1)%nat. rewrite fork_steps_plus. mrun St. rewrite steps_S. by mrun E2.
    + destruct k; try done. destruct (Fo _ eq_refl) as [-> Es]. rewrite <-Es in P.
      exists (mk_machine (mc_sched m) (delete (cur_thread (mc_sched m)) (mc_forks m))). split; [done|].
      left. exists (fork_event f), (mc_sched m). split_and!; try done.
      * cbn [fork_event run_happening]. by eapply to_unit_run.
      * unfold before, fork_of. cbn [mc_sched mc_forks]. by rewrite Fk, delete_singleton_eq, lookup_empty.
  - destruct B as [Fk ->]. destruct x as [e|f| |]; [by destruct (No e)| |done|done]. eexists. split; [done|].
    right. split_and!; [done..|]. unfold before, fork_of. cbn [mc_sched mc_forks]. rewrite lookup_insert_eq, Fk.
    split_and!; [done..|]. by exists O.
Qed.

Lemma reduces_calm n c a F m x : good use_out (S n) c a F -> before c m -> may x m = true -> calm x m = true ->
  exists m', act x m = Done (tt, m') /\ reduces c m x m'.
Proof using Hk.
  intros G B My Ca. destruct x; [by eapply reduces_do|by eapply reduces_fork..].
Qed.

Lemma good_less n k s a F : good use_out (k + n) s a F -> good use_out n s a F.
Proof. intros (R & So & Hs & B). split_and!; [done..|lia]. Qed.

Lemma mexec_refines n c a F m l m' : good use_out (length l + n) c a F -> before c m -> mexec calm m l m' ->
  exists c' a' F', before c' m' /\ runs a (mlabels l) a' /\ good use_out n c' a' F' /\
    console (s_io (mc_sched m')) = console (s_io (mc_sched m)) ++ moutputs l m.
Proof using Hk.
  intros G B X. revert c a F G B. induction X as [m|m x m1 l m2 My Ca E X IH]; intros c a F G B.
  - exists c, a, F. split_and!; [done|constructor|done|simpl; by rewrite app_nil_r].
  - destruct (reduces_calm _ c a F m x G B My Ca) as (m1' & E' & Rd). rewrite E in E'. injection E' as <-.
    cbn [moutputs]. rewrite E. destruct Rd as [(e & c1 & Al & Ec & B1 & Lb & Em)|(Lb & Em & B1)].
    + destruct (happens use_out transfer _ c a F e G Al) as (c1' & a1 & F1 & E1 & G1 & Co & St).
      rewrite Ec in E1. injection E1 as <-. destruct (IH c1 a1 F1 G1 B1) as (c' & a' & F' & B' & Ru & G' & Co').
      exists c', a', F'. split_and!; [done| |done|].
      * unfold mlabels in *. cbn. rewrite <-Lb. destruct (label e) as [ev|]; cbn; [|by subst].
        destruct St as (t & idle & St). unfold cur_tid. rewrite (current_before _ c a F m G B).
        change (default 0 (th_tid <$> current c)) with (cur_tid c). rewrite <-(who_rel use_out c a F) by apply G.
        by econstructor.
      * rewrite Co', <-(io_before c1 m1 B1), Co, (io_before c m B), Em. by rewrite app_assoc.
    + destruct (IH c a F (good_less _ 1 _ _ _ G) B1) as (c' & a' & F' & B' & Ru & G' & Co').
      exists c', a', F'. split_and!; [done| |done|].
      * unfold mlabels in *. cbn. by rewrite Lb.
      * by rewrite Co', <-(io_before c m1 B1), (io_before c m B), Em.
Qed.

(** ** The theorems *)

(** A machine on which no fork is in progress. *)
Definition machine_of (s : sched) : machine := mk_machine s ∅.

Lemma before_start s : before s (machine_of s).
Proof. unfold before, fork_of. cbn. by rewrite lookup_empty. Qed.

(** After the execution of a program that has been started. *)
Lemma program_runs u l k sp s es m : plain l -> ids_suffice l (length es + k) ->
  boot l (at_boot u) = Done (Some sp, s) -> mexec calm (machine_of s) es m ->
  exists c a0 a F, sound a0 /\ runs a0 (mlabels es) a /\ before c m /\ good use_out k c a F /\
    console (s_io (mc_sched m)) = visible (written u) ++ moutputs es (machine_of s).
Proof using Hk.
  intros P B E X. destruct (boot_good use_out u l _ sp s P B E) as (a & F & G & Co).
  destruct (mexec_refines k s a F _ es m G (before_start s) X) as (c & a' & F' & Bc & Ru & G' & Co').
  exists c, a, a', F'. split_and!; [apply G|done..|]. rewrite Co'. by cbn; rewrite Co.
Qed.
(** C7: the thread system refines the abstract scheduler.  A program that forks at least one
    thread and starts them gets to its first thread.  From there, whatever happens as long as
    the threads keep to the protocol and no timer interrupt comes while the running thread is
    inside [pre_fork]: other interrupts may come between any two memory accesses of a fork;
    every action that can happen completes, the actions are steps of the abstract scheduler of
    ThreadsSpec.v (a fork is one step when it returns), and what a terminal shows of the output
    is exactly the characters put (NULs and those put into a full queue excepted), in that
    order.  Without the condition on the timer this is false: [timer_inside_append]. *)
Theorem threads_refine_scheduler u l n : plain l -> ids_suffice l (S n) ->
  exists sp s a, boot l (at_boot u) = Done (Some sp, s) /\ sound a /\
    forall es m, mexec calm (machine_of s) es m -> (length es <= n)%nat ->
      (exists a', runs a (mlabels es) a' /\ sound a') /\
      console (s_io (mc_sched m)) = visible (written u) ++ moutputs es (machine_of s) /\
      (forall x, may x m = true -> calm x m = true -> exists m2, act x m = Done (tt, m2)).
Proof using Hk.
  intros P B. destruct (boot_run use_out u l (S n) P B) as (sp & s & a & F & E & G & _ & Co).
  exists sp, s, a. split_and!; [done|apply G|]. intros es m X Le.
  replace (S n) with (length es + S (n - length es))%nat in G by lia.
  destruct (mexec_refines _ s a F _ es m G (before_start s) X) as (c & a' & F' & Bc & Ru & G' & Co').
  split_and!.
  - exists a'. split; [done|apply G'].
  - rewrite Co'. cbn. by rewrite Co.
  - intros x My Ca. destruct (reduces_calm _ c a' F' m x G' Bc My Ca) as (m2 & E2 & _). by exists m2.
Qed.

Definition running (s : sched) : list Z :=
  if cur_thread s =? scheduler_thread s then [] else [cur_thread s].
Definition waiting (s : sched) : list Z :=
  if wait_stdout_thread s =? 0 then [] else [wait_stdout_thread s].

Lemma machine_running_rel s a F : rel use_out s a F -> running s = t_addr <$> olist (a_cur a).
Proof.
  intros R. unfold running. destruct (a_cur a) as [c|] eqn:Ec.
  - destruct (rel_user _ s a F c R Ec) as (C & Ns & _). rewrite C. cbn. by rewrite (proj2 (Z.eqb_neq (t_addr c) _)).
  - rewrite (r_cur _ _ _ _ R), Ec. cbn. by rewrite Z.eqb_refl.
Qed.

Lemma waiting_rel s a F : rel use_out s a F -> waiting s = t_addr <$> olist (a_wait a).
Proof.
  intros R. unfold waiting. rewrite (wait_zero _ s a F R), (r_wait _ _ _ _ R). by destruct (a_wait a).
Qed.

Lemma cur_none s a F : rel use_out s a F -> cur_thread s = scheduler_thread s -> a_cur a = None.
Proof.
  intros R C. destruct (a_cur a) as [c|] eqn:Ec; [|done].
  destruct (rel_user _ s a F c R Ec) as (? & ? & _). congruence.
Qed.

Lemma before_none c m : before c m -> mc_forks m = ∅ -> c = mc_sched m.
Proof. intros B Fk. unfold before, fork_of in B. rewrite Fk, lookup_empty in B. by destruct B. Qed.

(** C9: no thread is lost or duplicated.  After any execution in which no timer interrupt came
    inside [pre_fork], at a moment when no fork is in progress, every thread block ever
    allocated is in exactly one place: in the queue of runnable threads, of blocked threads
    or of free blocks, which are well linked, or it is the running thread, the thread that
    waits for its output, or the scheduler; and when the scheduler's loop ends all blocks but
    its own are free. *)
Theorem every_thread_in_one_place u l sp s es m : plain l -> ids_suffice l (length es) ->
  boot l (at_boot u) = Done (Some sp, s) -> mexec calm (machine_of s) es m -> mc_forks m = ∅ ->
  let s' := mc_sched m in
  exists R B F, isQ (s_next s') (runq s') R /\ isQ (s_next s') (blockq s') B /\
    isQ (s_next s') (freeq s') F /\
    R ++ B ++ running s' ++ waiting s' ++ F ++ [scheduler_thread s'] ≡ₚ elements (dom (s_th s')) /\
    (cur_thread s' = scheduler_thread s' -> sched_more s' = Done (false, s') ->
     F ++ [scheduler_thread s'] ≡ₚ elements (dom (s_th s'))).
Proof using Hk.
  intros P B E X Fk s'. rewrite <-(Nat.add_0_r (length es)) in B.
  destruct (program_runs u l 0 sp s es m P B E X) as (c & a0 & a & F & _ & _ & Bc & (R & So & Hs & _) & _).
  apply before_none in Bc as ->; [|done]. change (mc_sched m) with s' in R, Hs.
  assert (sblock (scheduler_thread s') = [scheduler_thread s']) as Sb
    by (unfold sblock; by rewrite (proj2 (Z.eqb_neq _ 0))).
  pose proof (r_place _ _ _ _ R) as Pl. rewrite Sb in Pl.
  exists (t_addr <$> a_run a), (t_addr <$> a_block a), F. rewrite (machine_running_rel s' a F R), (waiting_rel s' a F R).
  split_and!; [apply R..| |].
  - rewrite <-Pl. unfold a_all. rewrite !fmap_app. solve_Permutation.
  - intros C Mo. pose proof (cur_none s' a F R C) as Ec. rewrite (sched_more_run _ s' a F R Ec) in Mo.
    injection Mo as Mo. apply negb_false_iff, bool_decide_eq_true in Mo. by rewrite <-Pl, Mo.
Qed.

(** When the scheduler runs no thread is inside a fork. *)
Lemma scheduler_no_fork n c a F m : good use_out n c a F -> before c m ->
  cur_thread (mc_sched m) = scheduler_thread (mc_sched m) -> c = mc_sched m.
Proof using Hk.
  intros G B C. pose proof (current_before n c a F m G B) as Cu. unfold before in B.
  destruct (fork_of m) as [[f k]|]; [|by destruct B]. destruct B as (_ & _ & Al & _).
  apply andb_true_iff in Al as [U _]. unfold user in U. rewrite <-Cu in U. unfold current in U.
  by rewrite C, Z.eqb_refl in U.
Qed.

(** C10: the scheduler is never stuck.  After any execution in which no timer interrupt came
    inside [pre_fork]: whenever the scheduler gets the processor and a thread is left, in
    whatever queue, one turn of its loop switches to a thread: the processor continues from that
    thread's saved context, and if the thread has asked for the output it has the lock. *)
Theorem scheduler_never_stuck u l sp s es m : plain l -> ids_suffice l (length es) ->
  boot l (at_boot u) = Done (Some sp, s) -> mexec calm (machine_of s) es m ->
  let s' := mc_sched m in
  cur_thread s' = scheduler_thread s' -> sched_more s' <> Done (false, s') ->
  sched_more s' = Done (true, s') /\
  exists s2 x, sched_turn s' = Done (Some (saved_sp x), s2) /\ current s2 = Some x /\
    (block_reason x = STDIO -> io_lock (s_io s2) = th_tid x).
Proof using Hk.
  intros P B E X s' C Mo. rewrite <-(Nat.add_0_r (length es)) in B.
  destruct (program_runs u l 0 sp s es m P B E X) as (c & a0 & a & F & _ & _ & Bc & G & _).
  apply (scheduler_no_fork 0 c a F m G Bc) in C as Em. destruct G as (R & So & Hs & _).
  rewrite Em in R, Hs. change (mc_sched m) with s' in R, Hs. pose proof (cur_none s' a F R C) as Ec.
  rewrite (sched_more_run _ s' a F R Ec) in Mo |- *. case_bool_decide as Ne; [done|]. split; [done|].
  destruct (turn_refines _ s' a F R So Hs Ec) as (r & s2 & Tu & St & R2 & _ & Cu).
  destruct (turn_runs a So Ec Ne) as [y Cc].
  destruct (rel_user _ s2 _ F y R2 Cc) as (C2 & Ns & x & Ex & Tx & _ & Rx).
  rewrite Cc in Cu. cbn in Cu. rewrite <-C2, Ex in Cu. subst r. exists s2, x. split_and!; [done| |].
  { unfold current. rewrite (proj2 (Z.eqb_neq _ _)) by congruence. done. }
  intros Sx. rewrite (r_lock _ _ _ _ R2), Tx. apply (so_cur _ (sound_step _ _ _ _ _ So St) y Cc).
  rewrite Rx in Sx. by destruct (t_stdio y).
Qed.

(** C8: what two threads print is never mixed.  In any execution in which no timer interrupt came
    inside [pre_fork]: if thread [i] has put a character and later a different thread [j] puts
    one, then in between thread [i] waited for its output with [WAIT_STDOUT], the last call of
    [_thread_safe_printk]: the characters of one call form one run, whatever interrupts, forks
    and turns of the scheduler happen in between. *)
Theorem prints_not_mixed u l sp s l1 i c l2 j d l3 m :
  let es := l1 ++ (i, Do (EPut c)) :: l2 ++ (j, Do (EPut d)) :: l3 in
  plain l -> ids_suffice l (length es) -> boot l (at_boot u) = Done (Some sp, s) ->
  mexec calm (machine_of s) es m ->
  i <> j -> exists mode sp', (i, Do (EWait mode sp')) ∈ l2.
Proof using Hk.
  intros es P B E X Ne. rewrite <-(Nat.add_0_r (length es)) in B.
  destruct (program_runs u l 0 sp s es m P B E X) as (c0 & a0 & a & F & So & Ru & _).
  assert (mlabels es = mlabels l1 ++ (i, Put c) :: mlabels l2 ++ (j, Put d) :: mlabels l3) as El.
  { unfold es, mlabels. rewrite omap_app. cbn. by rewrite omap_app. }
  rewrite El in Ru. pose proof (puts_separated a0 _ i c _ j d _ a So Ru Ne) as W. unfold mlabels in W.
  apply list_elem_of_omap in W as ([i' x] & He & Hl). destruct x as [e| | |]; [|discriminate..].
  destruct e; cbn in Hl; try by destruct pending. all: try discriminate. injection Hl as ->. by do 2 eexists.
Qed.

(** Reading a line breaks the thread system.  [_thread_safe_scank] asks for the input, but
    [make_system_call] asks for the output instead; when the thread then says that it has read
    its line, the handler writes to the thread that waits for its output.  After any execution
    in which no timer interrupt came inside [pre_fork], if the running thread has the output,
    there is no such thread, and the handler writes through a null pointer. *)
Theorem end_stdin_undefined u l sp s es m mode sp' : plain l -> ids_suffice l (length es) ->
  boot l (at_boot u) = Done (Some sp, s) -> mexec calm (machine_of s) es m ->
  may (Do (EWait mode sp')) m = true ->
  make_system_call REQUEST_STDIN = Some REQUEST_STDOUT /\
  make_system_call END_STDIN = Some END_STDIN /\
  syscall_vector transfer END_STDIN mode sp' (mc_sched m) = Undef.
Proof using Hk.
  intros P B E X My. rewrite <-(Nat.add_0_r (length es)) in B.
  destruct (program_runs u l 0 sp s es m P B E X) as (c & a0 & a & F & _ & _ & Bc & (R & So & _) & _).
  unfold may in My. unfold before in Bc. destruct (fork_of m) as [[f k]|]; [done|]. destruct Bc as [_ ->].
  set (s' := mc_sched m) in *. apply andb_true_iff in My as [U Mo%legal_mode_ok].
  destruct (user_with_rel _ s' a F true R U) as (t & Ec & Pc & Sc).
  assert (a_wait a = None) as W.
  { apply (user_no_wait a t); [done..|]. right. by apply So. }
  split_and!; [done..|]. destruct (rel_user _ s' a F t R Ec) as (_ & _ & x & Ex & _).
  unfold syscall_vector. rewrite (mode_ok_run _ Mo), gets_run. mrun (get_thread_run _ _ _ Ex).
  change (END_STDIN =? REQUEST_STDOUT) with false. change (END_STDIN =? REQUEST_STDIN) with false.
  change (END_STDIN =? WAIT_STDOUT) with false. change (END_STDIN =? END_STDIN) with true. cbv iota.
  unfold uart_disable_interrupt, on_uart, write_stdio_tid, write_lock_tid.
  repeat (erewrite bind_done; [|reflexivity]). apply bind_undef.
  unfold upd_thread. apply bind_undef. unfold get_thread. rewrite gets_run.
  assert (s_th s' !! wait_stdout_thread s' = None) as No; [|cbn; by rewrite No].
  rewrite (r_wait _ _ _ _ R), W. apply not_elem_of_dom, (r_queues _ _ _ _ R).
Qed.

(** ** Running a program on a list of actions *)

Fixpoint trace_of (ok : action -> machine -> bool) (xs : list action) (m : machine) :
    option (list (Z * action) * machine) :=
  match xs with
  | [] => Some ([], m)
  | x :: xs =>
      if may x m && ok x m then
        match act x m with
        | Done (_, m1) =>
            match trace_of ok xs m1 with
            | Some (l, m') => Some ((cur_tid (mc_sched m), x) :: l, m')
            | None => None
            end
        | _ => None
        end
      else None
  end.

Lemma trace_exec ok xs m l m' : trace_of ok xs m = Some (l, m') -> mexec ok m l m'.
Proof.
  revert m l. induction xs as [|x xs IH]; intros m l; cbn.
  - intros [= <- <-]. constructor.
  - destruct (may x m && ok x m) eqn:Al; [|done]. apply andb_true_iff in Al as [My Ok].
    destruct (act x m) as [[[] m1]| | |] eqn:Ru; try done.
    destruct (trace_of ok xs m1) as [[l' m2]|] eqn:T; [|done]. intros [= <- <-].
    econstructor; [done..|by apply IH].
Qed.
End Machine.
