(* ===== verification/ThreadsWitness.v ===== *)
(** * Two threads that print

    A concrete machine and a concrete execution: two threads, both print; one forks a third
    thread, with an interrupt of the line inside the fork, and is interrupted by the timer in the
    middle of its print; the other asks for the output meanwhile; a printer thread empties the
    queue.  And what a timer interrupt inside a fork does to the same program. *)

From stdpp Require Import base tactics option list list_tactics numbers sets gmap.
From Stdlib Require Import ZArith Lia.
From S2P Require Import Prelude Circular Queue Uart ThreadIo Threads ThreadsSpec ThreadsThm ThreadsFork ThreadsRun ThreadsMachine.
#[local] Open Scope Z_scope.

Module TwoThreads.

#[local] Instance heap : Kmalloc := {|
  block_addr n := 16384 * (Z.of_nat n + 1);
  block_junk _ := mk_thread 7 7 7 7 7
|}.

#[local] Instance heap_ok : KmallocOk.
Proof.
  split.
  - intros n m E. cbn in E. lia.
  - intros n. cbn. replace (16384 * (Z.of_nat n + 1)) with ((Z.of_nat n + 1) * 2048 * 8) by lia.
    apply Z.mod_mul. lia.
  - intros n. cbn. lia.
Qed.

#[local] Instance linked : Linked := {|
  stdout_queue_to_txfifo_addr := 0x9000;
  pre_init_trampoline_addr := 0x9100;
  scheduler_sp := 0x8000
|}.

Definition line : uart := mk_uart [1; 2; 3; 4; 5; 6; 7; 8] [] [] 0 ∅.
Definition program : list (Z * Z) := [(0x100, 1); (0x200, 2)].

(** A fork of a third thread, 25 steps, with an interrupt that finds nothing to do and progress of
    the line in the middle of it. *)
Definition third : fork_args := mk_fork 0x300 3 true true.
Definition fork_third : list action :=
  Call third :: replicate 14 Step ++ [Do (EIrq false 1 0x508); Do (ELine 1 [])] ++ replicate 11 Step ++ [Return].

(** Up to the point where the second thread puts a character. *)
Definition script : list action :=
  [Do (ERequest 31 0x500); Do (EPut 72)] ++ fork_third ++
  (Do <$> [EIrq true 1 0x510; ETurn; ERequest 31 0x600; ETurn; EExit; ETurn; EPut 105;
   EWait 31 0x520; ELine 8 []; ETurn; EPrinter; ETurn; EIrq true 1 0x530; ETurn; EPut 33]).

Definition nothing : M sched unit := mret tt.

Definition trace : list (Z * action) :=
  zip ([1; 1] ++ replicate 29 1 ++ [1; 0; 2; 0; 4; 0; 1; 1; 0; 0; 5; 0; 1; 0; 2]) script.

(** The program runs through the script. *)
Definition ends_with (ok : action -> machine -> bool) (xs : list action) (l : list (Z * action))
    (final : machine -> bool) : bool :=
  match boot program (at_boot line) with
  | Done (Some sp, s) =>
      match trace_of true nothing ok xs (machine_of s) with
      | Some (l', m) => bool_decide (l' = l) && final m
      | None => false
      end
  | _ => false
  end.

Lemma ends_with_exec ok xs l final : ends_with ok xs l final = true ->
  exists sp s m, boot program (at_boot line) = Done (Some sp, s) /\
    mexec true nothing ok (machine_of s) l m /\ final m = true.
Proof.
  unfold ends_with. intros R. destruct (boot program (at_boot line)) as [[[sp|] s]| | |]; try discriminate.
  destruct (trace_of true nothing ok xs (machine_of s)) as [[l' m]|] eqn:T; [|discriminate].
  apply andb_true_iff in R as [R1 R2]. apply bool_decide_eq_true in R1 as ->. exists sp, s, m.
  split_and!; [done|by eapply trace_exec|done].
Qed.

Definition no_fork (m : machine) : bool := bool_decide (mc_forks m = ∅).

Lemma script_runs : exists sp s m, boot program (at_boot line) = Done (Some sp, s) /\
  mexec true nothing calm (machine_of s) trace m /\ may (Do (EWait 31 0x610)) m && no_fork m = true.
Proof. apply (ends_with_exec calm script). vm_compute. reflexivity. Qed.

Lemma program_plain : plain program.
Proof. split; [done|]. by repeat constructor. Qed.

(** After the first timer interrupt the scheduler has the processor. *)
Lemma early_runs : exists sp s m, boot program (at_boot line) = Done (Some sp, s) /\
  mexec true nothing calm (machine_of s) (take 32 trace) m /\
  cur_thread (mc_sched m) = scheduler_thread (mc_sched m) /\
  sched_more (mc_sched m) <> Done (false, mc_sched m).
Proof.
  destruct (ends_with_exec calm (take 32 script) (take 32 trace)
    (fun m => (cur_thread (mc_sched m) =? scheduler_thread (mc_sched m)) &&
      match sched_more (mc_sched m) with Done (b, _) => b | _ => false end)) as (sp & s & m & E & X & R);
    [vm_compute; reflexivity|].
  apply andb_true_iff in R as [R1 R2]. exists sp, s, m. split_and!; [done|done|lia|].
  intros E'. by rewrite E' in R2.
Qed.

Lemma threads_refine_scheduler_witness :
  exists sp s a, boot program (at_boot line) = Done (Some sp, s) /\ sound a /\
    forall es m, mexec true nothing calm (machine_of s) es m -> (length es <= 100)%nat ->
      (exists a', runs a (mlabels es) a' /\ sound a') /\
      console (s_io (mc_sched m)) = visible (written line) ++ moutputs true nothing es (machine_of s) /\
      (forall x, may x m = true -> calm x m = true -> exists m2, act true nothing x m = Done (tt, m2)).
Proof. apply threads_refine_scheduler; [apply program_plain|unfold ids_suffice; cbn; lia]. Defined.

Lemma every_thread_in_one_place_witness : exists s' R B F,
  isQ (s_next s') (runq s') R /\ isQ (s_next s') (blockq s') B /\ isQ (s_next s') (freeq s') F /\
  R ++ B ++ running s' ++ waiting s' ++ F ++ [scheduler_thread s'] ≡ₚ elements (dom (s_th s')).
Proof.
  destruct script_runs as (sp & s & m & E & X & Y). apply andb_true_iff in Y as [_ Y]. apply bool_decide_eq_true in Y.
  exists (mc_sched m).
  destruct (every_thread_in_one_place true nothing line program sp s trace m) as (R & B & F & Q1 & Q2 & Q3 & P & _);
    [apply program_plain|unfold ids_suffice; cbn; lia|exact E|exact X|exact Y|].
  exists R, B, F. exact (conj Q1 (conj Q2 (conj Q3 P))).
Defined.

Lemma scheduler_never_stuck_witness : exists s' s2 x,
  sched_turn s' = Done (Some (saved_sp x), s2) /\ current s2 = Some x.
Proof.
  destruct early_runs as (sp & s & m & E & X & C & Mo). exists (mc_sched m).
  destruct (scheduler_never_stuck true nothing line program sp s (take 32 trace) m) as (_ & s2 & x & T & Cu & _);
    [apply program_plain|unfold ids_suffice; cbn; lia|exact E|exact X|exact C|exact Mo|].
  exists s2, x. exact (conj T Cu).
Defined.

Lemma prints_not_mixed_witness : exists mode sp',
  (1, Do (EWait mode sp')) ∈ take 7 (drop 38 trace).
Proof.
  destruct script_runs as (sp & s & m & E & X & _).
  apply (prints_not_mixed true nothing line program sp s (take 37 trace) 1 105 (take 7 (drop 38 trace)) 2 33 [] m);
    [apply program_plain|unfold ids_suffice; cbn; lia|exact E|exact X|lia].
Defined.

Lemma end_stdin_undefined_witness : exists s', syscall_vector nothing END_STDIN 31 0x610 s' = Undef.
Proof.
  destruct script_runs as (sp & s & m & E & X & Y). apply andb_true_iff in Y as [Y _]. exists (mc_sched m).
  apply (end_stdin_undefined true nothing line program sp s trace m 31 0x610);
    [apply program_plain|unfold ids_suffice; cbn; lia|exact E|exact X|exact Y].
Defined.

(** ** The timer inside a fork *)

Definition anything (x : action) (m : machine) : bool := true.

(** The first thread has linked the new thread behind the last of the run queue and has not yet
    made it the last one when the timer interrupts it. *)
Definition in_append : list action :=
  Call third :: replicate 24 Step ++ (Do <$> [EIrq true 1 0x510; ETurn; EExit; ETurn]) ++ [Step; Return; Do EExit].

(** A timer interrupt inside [Q_append] loses the new thread: when the others have ended,
    the scheduler finds no thread in the run queue, but a count that is not 0, and panics. *)
Theorem timer_inside_append : exists sp s l m, boot program (at_boot line) = Done (Some sp, s) /\
  mexec true nothing anything (machine_of s) l m /\ l.*2 = in_append /\ mc_forks m = ∅ /\
  may (Do ETurn) m = true /\ act true nothing (Do ETurn) m = Panic.
Proof.
  destruct (ends_with_exec anything in_append (zip (replicate 26 1 ++ [0; 2; 0; 1; 1; 1]) in_append)
    (fun m => no_fork m && may (Do ETurn) m && match act true nothing (Do ETurn) m with Panic => true | _ => false end))
    as (sp & s & m & E & X & R); [vm_compute; reflexivity|].
  apply andb_true_iff in R as [R1 R3]. apply andb_true_iff in R1 as [R1 R2]. apply bool_decide_eq_true in R1.
  eexists sp, s, _, m. split_and!; [exact E|exact X|reflexivity|exact R1|exact R2|].
  by destruct (act true nothing (Do ETurn) m).
Qed.

(** The first thread has read the counter of the ids when the timer interrupts it; the second
    forks a thread meanwhile. *)
Definition fourth : fork_args := mk_fork 0x400 4 true true.
Definition in_th_alloc : list action :=
  Call third :: replicate 8 Step ++ (Do <$> [EIrq true 1 0x510; ETurn]) ++
  Call fourth :: replicate 25 Step ++ Return :: (Do <$> [EIrq true 1 0x510; ETurn]) ++ replicate 17 Step ++ [Return].

(** A timer interrupt inside [th_alloc] gives two threads one id. *)
Theorem timer_inside_th_alloc : exists sp s l m t1 t2 x1 x2, boot program (at_boot line) = Done (Some sp, s) /\
  mexec true nothing anything (machine_of s) l m /\ l.*2 = in_th_alloc /\ mc_forks m = ∅ /\
  s_th (mc_sched m) !! t1 = Some x1 /\ s_th (mc_sched m) !! t2 = Some x2 /\
  t1 <> t2 /\ th_fn x1 = fk_code third /\ th_fn x2 = fk_code fourth /\ th_tid x1 = th_tid x2.
Proof.
  destruct (ends_with_exec anything in_th_alloc (zip (replicate 10 1 ++ 0 :: replicate 28 2 ++ 0 :: replicate 18 1) in_th_alloc)
    (fun m => no_fork m &&
      match s_th (mc_sched m) !! (4 * 16384), s_th (mc_sched m) !! (5 * 16384) with
      | Some x1, Some x2 => (th_fn x1 =? 0x300) && (th_fn x2 =? 0x400) && (th_tid x1 =? th_tid x2)
      | _, _ => false
      end)) as (sp & s & m & E & X & R); [vm_compute; reflexivity|].
  apply andb_true_iff in R as [R1 R]. apply bool_decide_eq_true in R1.
  destruct (s_th (mc_sched m) !! (4 * 16384)) as [x1|] eqn:E1; [|discriminate].
  destruct (s_th (mc_sched m) !! (5 * 16384)) as [x2|] eqn:E2; [|discriminate].
  apply andb_true_iff in R as [R2 R4]. apply andb_true_iff in R2 as [R2 R3].
  eexists sp, s, _, m, _, _, x1, x2.
  split_and!; [exact E|exact X|reflexivity|exact R1|exact E1|exact E2|lia|by apply Z.eqb_eq..].
Qed.

End TwoThreads.
