(* ===== verification/Irq.v ===== *)
(** * Interrupts of the whole machine

    The threads of Threads.v and the radios of NrfPin.v on one machine: the handlers of both are
    registered, and an interrupt goes to the radios first, then to the timer's and the line's
    handlers of the threads. *)

From stdpp Require Import base tactics option list list_tactics numbers sets gmap.
From Stdlib Require Import ZArith Lia.
From S2P Require Import Prelude Circular Gpio Nrf NrfThm NrfPin Vectors Queue Uart ThreadIo Threads ThreadsSpec ThreadsThm ThreadsFork ThreadsRun ThreadsMachine ThreadsWitness.
#[local] Open Scope Z_scope.

Record node : Type := mk_node { nd_threads : sched; nd_radios : radios }.
Definition set_threads (s : sched) (x : node) : node := mk_node s (nd_radios x).
Definition set_radios (r : radios) (x : node) : node := mk_node (nd_threads x) r.

Section Irq.
Context `{Kmalloc} `{Hk : !KmallocOk} `{Linked} `{Airtime}.
Context (use_out : bool) (transfer : M sched unit).

Definition nrf_handler : handler radios := fun _ _ => int_vector_nrf;; mret None.

(** [pre_thread_start] and [nrf_interrupt_init] have registered theirs. *)
Definition node_handlers (pending : bool) (iir : Z) : vectors node :=
  let t := lift_handler nd_threads set_threads in
  register_nrf_handler (lift_handler nd_radios set_radios nrf_handler)
    (register_last_handler (t (fun _ sp => int_vector_last sp))
      (register_uart_handler (t (fun _ sp => int_vector_uart_pre_threads iir sp))
        (register_timer_handler (t (fun _ sp => int_vector_pre_threads pending sp)) no_handlers))).

Definition node_interrupt (pending : bool) (iir pc sp : Z) : M node Z :=
  r ← fiq_vector (node_handlers pending iir) pc sp;
  match r with Some sp' => mret sp' | None => m_undef end.

(** The radios' handler returns, and the others find the threads as they were. *)
Lemma node_interrupt_run pending iir pc sp s r r' sp' s' :
  int_vector_nrf r = Done (tt, r') -> interrupt pending iir pc sp s = Done (sp', s') ->
  node_interrupt pending iir pc sp (mk_node s r) = Done (sp', mk_node s' r').
Proof.
  intros R I. unfold node_interrupt, fiq_vector.
  assert (nrf_interrupt_handler (node_handlers pending iir) pc sp (mk_node s r) = Done (None, mk_node s r')) as N.
  { cbn. unfold lift_handler, nrf_handler. by rewrite (zoom_done _ _ _ _ None r') by (cbn; by mrun R). }
  unfold interrupt in I. apply bind_inv in I as (q & t & E & Eq). destruct q as [q|]; [|done].
  injection Eq as -> ->. unfold fiq_vector in E. set (x := mk_node s r') in *.
  apply (zoom_done nd_threads set_threads _ x) in E. rewrite <-then_lift in E by done.
  assert (forall m, then_call (m_zoom nd_threads set_threads
    (nrf_interrupt_handler (thread_handlers pending iir) pc sp)) m x = m x) as No by done.
  rewrite No in E. rewrite (bind_done _ _ _ (Some sp') (set_threads s' x)); [reflexivity|].
  rewrite (then_returns _ _ _ _ N). etransitivity; [|exact E]. rewrite <-then_lift by done. apply then_ext. intros v.
  by rewrite <-then_lift.
Qed.

Lemma mexec_snoc ok m l m1 x m2 : mexec use_out transfer ok m l m1 -> may x m1 = true -> ok x m1 = true ->
  act use_out transfer x m1 = Done (tt, m2) ->
  mexec use_out transfer ok m (l ++ [(cur_tid (mc_sched m1), x)]) m2.
Proof.
  intros X. induction X as [m|m x' m1' l m3 My Ok E X IH]; intros My' Ok' E'.
  - econstructor; [done..|constructor].
  - cbn. econstructor; [done..|by apply IH].
Qed.

(** C34: an interrupt on a machine with threads and radios.  At any point of any execution of the
    thread system at which interrupts can come, a timer interrupt not inside [pre_fork] and the
    others also between two memory accesses of a fork, and with the radios in any state that
    arrivals, interrupts and reads lead to, packets arriving also while the handler runs: the
    interrupt runs to its end and continues with the thread the thread system says; for the
    threads it is one more step of such an execution (so that no thread is lost and prints are
    not mixed), and for the radios it empties the buffers of both into their inboxes. *)
Theorem interrupt_serves_both u l sp0 s es m pending iir pc sp r k b :
  let irq := Do (EIrq pending iir sp) in
  plain l -> ids_suffice l (S (length es)) -> boot l (at_boot u) = Done (Some sp0, s) ->
  mexec use_out transfer calm (machine_of s) es m -> may irq m = true -> calm irq m = true -> all_wired k r b ->
  exists sp' s2 r2 b2, node_interrupt pending iir pc sp (mk_node (mc_sched m) r) = Done (sp', mk_node s2 r2) /\
    mexec use_out transfer calm (machine_of s) (es ++ [(cur_tid (mc_sched m), irq)]) (mk_machine s2 (mc_forks m)) /\
    interrupt pending iir pc sp (mc_sched m) = Done (sp', s2) /\
    pin_does k PinIntr b None b2 /\ all_wired k r2 b2.
Proof using All.
  intros irq P B E X My Ca W. replace (S (length es)) with (length es + 1)%nat in B by lia.
  destruct (program_runs use_out transfer u l 1 sp0 s es m P B E X) as (c & a0 & a & F & _ & _ & Bc & G & _).
  destruct (reduces_calm use_out transfer 0 c a F m irq G Bc My Ca) as (m2 & Ac & _).
  destruct (vector_wired k r b W) as (r2 & b2 & Rr & D & W2).
  assert (exists sp' s2, interrupt pending iir pc sp (mc_sched m) = Done (sp', s2) /\ m2 = mk_machine s2 (mc_forks m))
    as (sp' & s2 & I & ->).
  { cbn [act irq run_happening] in Ac. unfold on_sched, m_zoom in Ac.
    destruct (to_unit (interrupt pending iir 0 sp) (mc_sched m)) as [[[] s2]| | |] eqn:Ru; [|done..].
    injection Ac as <-. apply bind_inv in Ru as (q & t & I & [= ->]). exists q, s2. split; [|done].
    rewrite interrupt_run in *. exact I. }
  exists sp', s2, r2, b2. split_and!; [by apply node_interrupt_run|by eapply mexec_snoc|done|done|done].
Qed.
End Irq.

(** ** Two threads and a radio *)

Module IrqExample.
Import TwoThreads PinExample RadioExample.
#[local] Existing Instances heap heap_ok linked air.

(** The first thread has printed a character and is in the middle of a fork. *)
Definition irq : action := Do (EIrq false 1 0x510).

Lemma reached : exists sp s m, boot program (at_boot line) = Done (Some sp, s) /\
  mexec true nothing calm (machine_of s) (take 12 trace) m /\ may irq m && calm irq m = true.
Proof. apply (ends_with_exec calm (take 12 script)). vm_compute. reflexivity. Qed.

Lemma interrupt_serves_both_witness : exists n s' sp' s2 r2 b2, set_up = Some n /\
  node_interrupt false 1 0x8100 0x510 (mk_node s' (mkRadios pins0 (Some (with_air n)) None)) = Done (sp', mk_node s2 r2) /\
  all_wired 4 r2 b2.
Proof.
  destruct radios_wired as (n & E & W). destruct reached as (sp & s & m & B & X & Al).
  apply andb_true_iff in Al as [My Ca].
  destruct (interrupt_serves_both true nothing line program sp s (take 12 trace) m false 1 0x8100 0x510
    (mkRadios pins0 (Some (with_air n)) None) 4 one_box) as (sp' & s2 & r2 & b2 & R & _ & _ & _ & W2);
    [apply program_plain|unfold ids_suffice; cbn; lia|exact B|exact X|exact My|exact Ca|exact W|].
  exists n, (mc_sched m), sp', s2, r2, b2. exact (conj E (conj R W2)).
Defined.
End IrqExample.
