(* ===== verification/Sd.v ===== *)
(** * The SD card and its driver wrapper (src/fat32/pi-sd.c)

    The card itself is a parameter: the
    class [BlockDevice] gives its sectors and [BlockDeviceLaws] states what a working
    card promises, that a sector reads back as it was last written and that writing one
    sector leaves the others alone.  The [pi_sd_*] routines are translated over that
    interface, with the calls of the driver as [read_sectors] and [write_sectors]; [EmmcInit]
    proves that the driver does what these say.  [ram_card] is an instance, used to run the
    model. *)

From stdpp Require Import base tactics option list numbers gmap.
From Stdlib Require Import ZArith Lia.
From S2P Require Import Prelude.

Class BlockDevice (D : Type) : Type := {
  sd_init_ok : D -> bool;                 (* sd_init() == SD_OK *)
  sec_ok : D -> Z -> bool;                (* the sector exists *)
  sec_get : D -> Z -> list Z;
  sec_put : Z -> list Z -> D -> D
}.

Class BlockDeviceLaws (D : Type) `{BlockDevice D} : Prop := {
  sec_ok_put d l l' b : sec_ok (sec_put l b d) l' = sec_ok d l';
  sec_get_put_eq d l b : sec_ok d l = true -> length b = 512%nat -> bytes b ->
    sec_get (sec_put l b d) l = b;
  sec_get_put_ne d l l' b : l <> l' -> sec_get (sec_put l b d) l' = sec_get d l';
  length_sec_get d l : length (sec_get d l) = 512%nat;
  sec_get_bytes d l : bytes (sec_get d l)
}.

(** The static [init_p] of pi-sd.c and the card. *)
Record sd_t (D : Type) : Type := mk_sd { sd_init_p : bool; sd_card : D }.
Arguments mk_sd {_} _ _.
Arguments sd_init_p {_} _.
Arguments sd_card {_} _.

Section PiSd.
Context {D : Type} `{BlockDevice D}.

Definition pi_sd_init : M (sd_t D) Z :=
  d ← m_gets sd_card;
  if sd_init_ok d then
    m_modify (fun s => mk_sd true (sd_card s));;
    mret 1
  else m_panic.

(** The driver moves between one and 65535 sectors in a transfer. *)
Definition transfer_ok (d : D) (lba nsec : Z) : bool :=
  (0 <? nsec) && (nsec <=? 65535) && forallb (sec_ok d) (seqZ lba nsec).

(** [sd_readblock(lba, data, nsec)]: the sectors [lba .. lba+nsec-1], or an error
    when one of them does not exist. *)
Definition read_sectors (d : D) (lba nsec : Z) : option (list Z) :=
  if transfer_ok d lba nsec
  then Some (concat (sec_get d <$> seqZ lba nsec))
  else None.

Fixpoint put_sectors (lba : Z) (n : nat) (data : list Z) (d : D) : D :=
  match n with
  | O => d
  | S n => put_sectors (lba + 1) n (drop 512 data) (sec_put lba (take 512 data) d)
  end.

(** [sd_writeblock(data, lba, nsec)]. *)
Definition write_sectors (d : D) (data : list Z) (lba nsec : Z) : option D :=
  if transfer_ok d lba nsec
  then Some (put_sectors lba (Z.to_nat nsec) data d)
  else None.

Definition pi_sd_read (lba nsec : Z) : M (sd_t D) (list Z) :=
  init ← m_gets sd_init_p;
  m_assert init;;
  d ← m_gets sd_card;
  match read_sectors d lba nsec with
  | Some data => mret data
  | None => m_panic
  end.

(** Allocates the buffer and reads into it. *)
Definition pi_sec_read (lba nsec : Z) : M (sd_t D) (list Z) :=
  init ← m_gets sd_init_p;
  m_assert init;;
  pi_sd_read lba nsec.

(** [data] is the [512 * nsec] bytes from the caller's pointer on. *)
Definition pi_sd_write (data : list Z) (lba nsec : Z) : M (sd_t D) Z :=
  init ← m_gets sd_init_p;
  m_assert init;;
  d ← m_gets sd_card;
  match write_sectors d data lba nsec with
  | Some d' => m_modify (fun s => mk_sd (sd_init_p s) d');; mret 1
  | None => m_panic
  end.
End PiSd.

(** What pi-sd.c offers to the file system: the start of the card, a read into a new buffer
    and a write.  The file system is written over this class, so that it runs on the sectors of
    the card ([card_pi_sd]) and on the driver. *)
Class PiSd (T : Type) : Type := {
  sd_start : M T Z;
  sd_fetch : Z -> Z -> M T (list Z);
  sd_store : list Z -> Z -> Z -> M T Z
}.

#[export] Instance card_pi_sd {D} `{BlockDevice D} : PiSd (sd_t D) := {|
  sd_start := pi_sd_init;
  sd_fetch := pi_sec_read;
  sd_store := pi_sd_write
|}.

(** ** Runs of sectors *)

Section Runs.
Context {D : Type} `{BlockDeviceLaws D}.
Implicit Types d : D.

Definition sectors (d : D) (lba : Z) (n : nat) : list Z :=
  concat (sec_get d <$> seqZ lba (Z.of_nat n)).

Lemma sectors_S d lba n :
  sectors d lba (S n) = sec_get d lba ++ sectors d (lba + 1) n.
Proof.
  unfold sectors. rewrite seqZ_cons by lia. simpl. do 4 f_equal; lia.
Qed.

Lemma length_sectors d lba n : length (sectors d lba n) = (512 * n)%nat.
Proof.
  revert lba; induction n as [|n IH]; intros lba; [done|].
  rewrite sectors_S, length_app, IH, length_sec_get. lia.
Qed.

Lemma sectors_bytes d lba n : bytes (sectors d lba n).
Proof.
  revert lba; induction n as [|n IH]; intros lba; [constructor|].
  rewrite sectors_S. apply Forall_app; auto using sec_get_bytes.
Qed.

Lemma sec_ok_put_sectors d lba n data l :
  sec_ok (put_sectors lba n data d) l = sec_ok d l.
Proof.
  revert lba data d; induction n as [|n IH]; intros; simpl; [done|].
  by rewrite IH, sec_ok_put.
Qed.

Lemma sec_get_put_sectors_ne d lba n data l :
  ~ (lba <= l < lba + Z.of_nat n) ->
  sec_get (put_sectors lba n data d) l = sec_get d l.
Proof.
  revert lba data d; induction n as [|n IH]; intros lba data d Hl; simpl; [done|].
  rewrite IH, sec_get_put_ne by lia. done.
Qed.

Lemma sectors_put_sectors_ne d lba n data l m :
  (l + Z.of_nat m <= lba \/ lba + Z.of_nat n <= l) ->
  sectors (put_sectors lba n data d) l m = sectors d l m.
Proof.
  revert l; induction m as [|m IH]; intros l Hl; [done|].
  rewrite !sectors_S, IH, sec_get_put_sectors_ne by lia. done.
Qed.

Lemma sectors_put_sectors d lba n data :
  (forall i, lba <= i < lba + Z.of_nat n -> sec_ok d i = true) ->
  length data = (512 * n)%nat -> bytes data ->
  sectors (put_sectors lba n data d) lba n = data.
Proof.
  revert lba data d; induction n as [|n IH]; intros lba data d Hok HL HB.
  { destruct data; [done|simpl in HL; lia]. }
  rewrite sectors_S. simpl put_sectors.
  rewrite sec_get_put_sectors_ne by lia.
  rewrite sec_get_put_eq; [|apply Hok; lia|rewrite length_take; lia|by apply Forall_take].
  rewrite IH.
  - apply take_drop.
  - intros i Hi. rewrite sec_ok_put. apply Hok; lia.
  - rewrite length_drop; lia.
  - by apply Forall_drop.
Qed.

Lemma forallb_sec_ok d lba n :
  (forall i, lba <= i < lba + n -> sec_ok d i = true) ->
  forallb (sec_ok d) (seqZ lba n) = true.
Proof.
  intros Hok. apply forallb_forall. intros i Hi%list_elem_of_In%elem_of_seqZ.
  apply Hok. lia.
Qed.

Lemma transfer_ok_run d lba n :
  0 < Z.of_nat n <= 65535 -> (forall i, lba <= i < lba + Z.of_nat n -> sec_ok d i = true) ->
  transfer_ok d lba (Z.of_nat n) = true.
Proof.
  intros Hn Hok. unfold transfer_ok. rewrite forallb_sec_ok by done.
  rewrite (proj2 (Z.ltb_lt _ _)), (proj2 (Z.leb_le _ _)) by lia. done.
Qed.

Lemma pi_sd_read_ok (s : sd_t D) lba n :
  sd_init_p s = true -> 0 < Z.of_nat n <= 65535 ->
  (forall i, lba <= i < lba + Z.of_nat n -> sec_ok (sd_card s) i = true) ->
  pi_sd_read lba (Z.of_nat n) s = Done (sectors (sd_card s) lba n, s).
Proof.
  intros Hi Hn Hok. unfold pi_sd_read. rewrite gets_run, Hi, assert_run, gets_run by done.
  unfold read_sectors. by rewrite transfer_ok_run.
Qed.

Lemma pi_sec_read_ok (s : sd_t D) lba n :
  sd_init_p s = true -> 0 < Z.of_nat n <= 65535 ->
  (forall i, lba <= i < lba + Z.of_nat n -> sec_ok (sd_card s) i = true) ->
  pi_sec_read lba (Z.of_nat n) s = Done (sectors (sd_card s) lba n, s).
Proof.
  intros Hi Hn Hok. unfold pi_sec_read. rewrite gets_run, Hi, assert_run by done.
  by apply pi_sd_read_ok.
Qed.

Lemma pi_sd_write_ok (s : sd_t D) data lba n :
  sd_init_p s = true -> 0 < Z.of_nat n <= 65535 ->
  (forall i, lba <= i < lba + Z.of_nat n -> sec_ok (sd_card s) i = true) ->
  pi_sd_write data lba (Z.of_nat n) s =
    Done (1, mk_sd true (put_sectors lba n data (sd_card s))).
Proof.
  intros Hi Hn Hok. unfold pi_sd_write. rewrite gets_run, Hi, assert_run, gets_run by done.
  unfold write_sectors. rewrite transfer_ok_run by done.
  rewrite modify_run, Hi, Nat2Z.id. done.
Qed.
End Runs.

(** ** A card in memory *)

Record ram_card : Type := mk_ram { ram_nsec : Z; ram_secs : gmap Z (list Z) }.

Definition norm_sector (b : list Z) : list Z := resize 512 0 (u8 <$> b).

#[export] Instance ram_device : BlockDevice ram_card := {|
  sd_init_ok _ := true;
  sec_ok d l := (0 <=? l) && (l <? ram_nsec d);
  sec_get d l := norm_sector (default [] (ram_secs d !! l));
  sec_put l b d := mk_ram (ram_nsec d) (<[l := b]> (ram_secs d))
|}.

Lemma norm_sector_id b : length b = 512%nat -> bytes b -> norm_sector b = b.
Proof.
  intros HL HB. unfold norm_sector. rewrite resize_all_alt by by rewrite length_fmap.
  rewrite <-(list_fmap_id b) at 2. apply Forall_fmap_ext_1.
  eapply Forall_impl; [exact HB|]. apply u8_small.
Qed.

Lemma norm_sector_bytes b : bytes (norm_sector b).
Proof.
  unfold norm_sector. apply Forall_resize; [unfold is_u8; lia|].
  apply Forall_fmap, Forall_true. intros x. apply Z.mod_pos_bound. lia.
Qed.

#[export] Instance ram_device_laws : BlockDeviceLaws ram_card.
Proof.
  constructor; intros; cbn [sec_ok sec_get sec_put ram_device ram_secs ram_nsec] in *.
  - done.
  - rewrite lookup_insert_eq. by apply norm_sector_id.
  - by rewrite lookup_insert_ne.
  - unfold norm_sector. apply length_resize.
  - apply norm_sector_bytes.
Qed.
