(* ===== verification/Emmc.v ===== *)
(** * The SD-card driver (src/external-code/emmc.c and emmc.h)

    The driver behind fat32/pi-sd.c, over an executable model of the EMMC host controller
    and of the card behind it.  The controller's registers, its interrupt flags, its data port
    and the protocol states of the card follow the BCM2835 manual (section 5) and the SD
    physical layer specification.  An event the controller owes (the end of a command, a block
    of data, the end of a transfer, a reset) comes after a time given by the class
    [EmmcLatency]; [delay_us] and [delay_ms] let time pass.  The sectors of the card are a
    [BlockDevice]. *)

From stdpp Require Import base tactics option list numbers gmap.
From Stdlib Require Import ZArith Lia.
From S2P Require Import Prelude Gpio Sd.

(** ** Constants of emmc.h *)

Definition RTNone : Z := 0.
Definition RT136 : Z := 1.
Definition RT48 : Z := 2.
Definition RT48Busy : Z := 3.

Definition CTGoIdle : Z := 0.
Definition CTSendCide : Z := 2.
Definition CTSendRelativeAddr : Z := 3.
Definition CTIOSetOpCond : Z := 5.
Definition CTSelectCard : Z := 7.
Definition CTSendIfCond : Z := 8.
Definition CTSetBlockLen : Z := 16.
Definition CTReadBlock : Z := 17.
Definition CTReadMultiple : Z := 18.
Definition CTWriteBlock : Z := 24.
Definition CTWriteMultiple : Z := 25.
Definition CTOcrCheck : Z := 41.
Definition CTSendSCR : Z := 51.
Definition CTApp : Z := 55.

Definition SDECommandTimeout : Z := 0.
Definition SD_CLOCK_HIGH : Z := 50000000.

Definition EMMC_CTRL1_RESET_DATA : Z := Z.shiftl 1 26.
Definition EMMC_CTRL1_RESET_CMD : Z := Z.shiftl 1 25.
Definition EMMC_CTRL1_RESET_HOST : Z := Z.shiftl 1 24.
Definition EMMC_CTRL1_RESET_ALL : Z :=
  Z.lor (Z.lor EMMC_CTRL1_RESET_DATA EMMC_CTRL1_RESET_CMD) EMMC_CTRL1_RESET_HOST.
Definition EMMC_CTRL1_CLK_ENABLE : Z := Z.shiftl 1 2.
Definition EMMC_CTRL1_CLK_STABLE : Z := Z.shiftl 1 1.
Definition EMMC_CTRL1_CLK_INT_EN : Z := Z.shiftl 1 0.

Definition SD_COMMAND_COMPLETE : Z := 1.
Definition SD_TRANSFER_COMPLETE : Z := Z.shiftl 1 1.
Definition SD_BUFFER_WRITE_READY : Z := Z.shiftl 1 4.
Definition SD_BUFFER_READ_READY : Z := Z.shiftl 1 5.

Definition BSWAP32 (x : Z) : Z :=
  Z.lor (Z.lor (Z.land (u32 (Z.shiftl x 24)) 0xff000000) (Z.land (u32 (Z.shiftl x 8)) 0x00ff0000))
        (Z.lor (Z.land (Z.shiftr x 8) 0x0000ff00) (Z.land (Z.shiftr x 24) 0x000000ff)).

(** A command, with the bit fields of the register it is written to. *)
Record emmc_cmd := mkCmd {
  resp_a : Z; block_count : Z; auto_command : Z; direction : Z; multiblock : Z; resp_b : Z;
  response_type : Z; res0 : Z; crc_enable : Z; idx_enable : Z; is_data : Z; type : Z; index : Z;
  res1 : Z
}.

(** The word of the bit fields. *)
Definition TO_REG (c : emmc_cmd) : Z :=
  resp_a c + block_count c * 2 ^ 1 + auto_command c * 2 ^ 2 + direction c * 2 ^ 4 +
  multiblock c * 2 ^ 5 + resp_b c * 2 ^ 6 + response_type c * 2 ^ 16 + res0 c * 2 ^ 18 +
  crc_enable c * 2 ^ 19 + idx_enable c * 2 ^ 20 + is_data c * 2 ^ 21 + type c * 2 ^ 22 +
  index c * 2 ^ 24 + res1 c * 2 ^ 30.

Definition RES_CMD : emmc_cmd := mkCmd 1 1 3 1 1 0xF 3 1 1 1 1 3 0xF 3.
Definition INVALID_CMD : emmc_cmd := RES_CMD.

Definition commands : list emmc_cmd :=
  [mkCmd 0 0 0 0 0 0 0 0 0 0 0 0 0 0;
   RES_CMD;
   mkCmd 0 0 0 0 0 0 RT136 0 1 0 0 0 2 0;
   mkCmd 0 0 0 0 0 0 RT48 0 1 0 0 0 3 0;
   mkCmd 0 0 0 0 0 0 0 0 0 0 0 0 4 0;
   mkCmd 0 0 0 0 0 0 RT136 0 0 0 0 0 5 0;
   mkCmd 0 0 0 0 0 0 RT48 0 1 0 0 0 6 0;
   mkCmd 0 0 0 0 0 0 RT48Busy 0 1 0 0 0 7 0;
   mkCmd 0 0 0 0 0 0 RT48 0 1 0 0 0 8 0;
   mkCmd 0 0 0 0 0 0 RT136 0 1 0 0 0 9 0] ++
  replicate 6 RES_CMD ++
  [mkCmd 0 0 0 0 0 0 RT48 0 1 0 0 0 16 0;
   mkCmd 0 0 0 1 0 0 RT48 0 1 0 1 0 17 0;
   mkCmd 0 1 1 1 1 0 RT48 0 1 0 1 0 18 0] ++
  replicate 5 RES_CMD ++
  [mkCmd 0 0 0 0 0 0 RT48 0 1 0 1 0 24 0;
   mkCmd 0 1 1 0 1 0 RT48 0 1 0 1 0 25 0] ++
  replicate 15 RES_CMD ++
  [mkCmd 0 0 0 0 0 0 RT48 0 0 0 0 0 41 0] ++
  replicate 9 RES_CMD ++
  [mkCmd 0 0 0 1 0 0 RT48 0 1 0 1 0 51 0] ++
  replicate 3 RES_CMD ++
  [mkCmd 0 0 0 0 0 0 RT48 0 1 0 0 0 55 0].

(** ** The controller and the card *)

(** What a card is: whether it knows SEND_IF_COND (version 2), whether it is addressed by
    sectors (high capacity) or by bytes, its voltages, its identification, its address on
    the bus, its configuration and how often it answers that it is not ready. *)
Record card_kind := mkKind {
  k_v2 : bool; k_hc : bool; k_ocr : Z; k_cid : list Z; k_rca : Z; k_scr : list Z; k_polls : nat
}.

(** A transfer: to the card or from it, of the configuration or of sectors, the next sector
    and how many blocks are left. *)
Record xfer := mkXfer { x_write : bool; x_scr : bool; x_sec : Z; x_left : nat }.

(** What the controller owes. *)
Inductive hevent := EvCmd (reg arg : Z) | EvBlock | EvDone | EvReset | EvResetCmd | EvStable.

Record host (D : Type) := mkHost {
  h_card : D; h_kind : card_kind;
  h_state : Z;                       (* the card: 0 idle, 1 ready, 2 ident, 3 stand-by, 4 transfer *)
  h_app : bool;                      (* the next command is an application command *)
  h_busy : nat;                      (* answers "not ready" left *)
  h_bsc : Z; h_arg1 : Z; h_resp : list Z; h_ctl1 : Z; h_ctl2 : Z;
  h_flags : Z; h_mask : Z; h_enable : Z;
  h_fifo : list Z; h_room : bool; h_xfer : option xfer;
  h_due : option (Z * hevent);       (* microseconds until the next event *)
  h_n : nat                          (* events so far *)
}.
Arguments mkHost {_} _ _ _ _ _ _ _ _ _ _ _ _ _ _ _ _ _ _.
Arguments h_card {_} _.
Arguments h_kind {_} _.
Arguments h_state {_} _.
Arguments h_app {_} _.
Arguments h_busy {_} _.
Arguments h_bsc {_} _.
Arguments h_arg1 {_} _.
Arguments h_resp {_} _.
Arguments h_ctl1 {_} _.
Arguments h_ctl2 {_} _.
Arguments h_flags {_} _.
Arguments h_mask {_} _.
Arguments h_enable {_} _.
Arguments h_fifo {_} _.
Arguments h_room {_} _.
Arguments h_xfer {_} _.
Arguments h_due {_} _.
Arguments h_n {_} _.

(** The driver allows 200 one-millisecond polls for a command and two seconds for data. *)
Class EmmcLatency := {
  cmd_lat : nat -> Z; data_lat : nat -> Z;
  cmd_lat_range : forall n, 1 <= cmd_lat n <= 199000;
  data_lat_range : forall n, 0 <= data_lat n <= 2000000
}.

Section host.
Context {D : Type} `{BlockDevice D} `{EmmcLatency}.

Definition h_put_card (c : D) (h : host D) : host D :=
  mkHost c (h_kind h) (h_state h) (h_app h) (h_busy h) (h_bsc h) (h_arg1 h) (h_resp h) (h_ctl1 h) (h_ctl2 h)
    (h_flags h) (h_mask h) (h_enable h) (h_fifo h) (h_room h) (h_xfer h) (h_due h) (h_n h).
Definition h_put_proto (st : Z) (app : bool) (busy : nat) (h : host D) : host D :=
  mkHost (h_card h) (h_kind h) st app busy (h_bsc h) (h_arg1 h) (h_resp h) (h_ctl1 h) (h_ctl2 h)
    (h_flags h) (h_mask h) (h_enable h) (h_fifo h) (h_room h) (h_xfer h) (h_due h) (h_n h).
Definition h_put_bsc (v : Z) (h : host D) : host D :=
  mkHost (h_card h) (h_kind h) (h_state h) (h_app h) (h_busy h) v (h_arg1 h) (h_resp h) (h_ctl1 h) (h_ctl2 h)
    (h_flags h) (h_mask h) (h_enable h) (h_fifo h) (h_room h) (h_xfer h) (h_due h) (h_n h).
Definition h_put_arg1 (v : Z) (h : host D) : host D :=
  mkHost (h_card h) (h_kind h) (h_state h) (h_app h) (h_busy h) (h_bsc h) v (h_resp h) (h_ctl1 h) (h_ctl2 h)
    (h_flags h) (h_mask h) (h_enable h) (h_fifo h) (h_room h) (h_xfer h) (h_due h) (h_n h).
Definition h_put_resp (v : list Z) (h : host D) : host D :=
  mkHost (h_card h) (h_kind h) (h_state h) (h_app h) (h_busy h) (h_bsc h) (h_arg1 h) v (h_ctl1 h) (h_ctl2 h)
    (h_flags h) (h_mask h) (h_enable h) (h_fifo h) (h_room h) (h_xfer h) (h_due h) (h_n h).
Definition h_put_ctl1 (v : Z) (h : host D) : host D :=
  mkHost (h_card h) (h_kind h) (h_state h) (h_app h) (h_busy h) (h_bsc h) (h_arg1 h) (h_resp h) v (h_ctl2 h)
    (h_flags h) (h_mask h) (h_enable h) (h_fifo h) (h_room h) (h_xfer h) (h_due h) (h_n h).
Definition h_put_ctl2 (v : Z) (h : host D) : host D :=
  mkHost (h_card h) (h_kind h) (h_state h) (h_app h) (h_busy h) (h_bsc h) (h_arg1 h) (h_resp h) (h_ctl1 h) v
    (h_flags h) (h_mask h) (h_enable h) (h_fifo h) (h_room h) (h_xfer h) (h_due h) (h_n h).
Definition h_put_flags (v : Z) (h : host D) : host D :=
  mkHost (h_card h) (h_kind h) (h_state h) (h_app h) (h_busy h) (h_bsc h) (h_arg1 h) (h_resp h) (h_ctl1 h) (h_ctl2 h)
    v (h_mask h) (h_enable h) (h_fifo h) (h_room h) (h_xfer h) (h_due h) (h_n h).
Definition h_put_mask (v : Z) (h : host D) : host D :=
  mkHost (h_card h) (h_kind h) (h_state h) (h_app h) (h_busy h) (h_bsc h) (h_arg1 h) (h_resp h) (h_ctl1 h) (h_ctl2 h)
    (h_flags h) v (h_enable h) (h_fifo h) (h_room h) (h_xfer h) (h_due h) (h_n h).
Definition h_put_enable (v : Z) (h : host D) : host D :=
  mkHost (h_card h) (h_kind h) (h_state h) (h_app h) (h_busy h) (h_bsc h) (h_arg1 h) (h_resp h) (h_ctl1 h) (h_ctl2 h)
    (h_flags h) (h_mask h) v (h_fifo h) (h_room h) (h_xfer h) (h_due h) (h_n h).
Definition h_put_port (fifo : list Z) (room : bool) (x : option xfer) (h : host D) : host D :=
  mkHost (h_card h) (h_kind h) (h_state h) (h_app h) (h_busy h) (h_bsc h) (h_arg1 h) (h_resp h) (h_ctl1 h) (h_ctl2 h)
    (h_flags h) (h_mask h) (h_enable h) fifo room x (h_due h) (h_n h).
Definition h_put_due (d : option (Z * hevent)) (n : nat) (h : host D) : host D :=
  mkHost (h_card h) (h_kind h) (h_state h) (h_app h) (h_busy h) (h_bsc h) (h_arg1 h) (h_resp h) (h_ctl1 h) (h_ctl2 h)
    (h_flags h) (h_mask h) (h_enable h) (h_fifo h) (h_room h) (h_xfer h) d n.

(** A flag is recorded when the mask lets it through. *)
Definition raise (f : Z) (h : host D) : host D :=
  h_put_flags (Z.lor (h_flags h) (Z.land f (h_mask h))) h.

(** A block: the configuration or a sector to read, or room for a sector to write.  A sector
    that does not exist, or a block of the wrong size, is a data time-out. *)
Definition fire_block (h : host D) : host D :=
  match h_xfer h with
  | None => h
  | Some x =>
      let len := if x_scr x then 8 else 512 in
      if negb (Z.land (h_bsc h) 0x3ff =? len) then raise (2 ^ 20) (h_put_port [] false None h)
      else if x_scr x then raise SD_BUFFER_READ_READY (h_put_port (k_scr (h_kind h)) false (Some x) h)
      else if negb (sec_ok (h_card h) (x_sec x)) then raise (2 ^ 20) (h_put_port [] false None h)
      else if x_write x then raise SD_BUFFER_WRITE_READY (h_put_port [] true (Some x) h)
      else raise SD_BUFFER_READ_READY (h_put_port (sec_get (h_card h) (x_sec x)) false (Some x) h)
  end.

Definition fire_done (h : host D) : host D := raise SD_TRANSFER_COMPLETE h.

(** A data event comes at once or later. *)
Definition owe_data (ev : hevent) (fire : host D -> host D) (h : host D) : host D :=
  let l := data_lat (h_n h) in
  if l =? 0 then fire (h_put_due None (S (h_n h)) h)
  else h_put_due (Some (l, ev)) (S (h_n h)) h.

Definition owe_cmd (ev : hevent) (h : host D) : host D :=
  h_put_due (Some (cmd_lat (h_n h), ev)) (S (h_n h)) h.

(** The block of the transfer was moved. *)
Definition next_block (h : host D) : host D :=
  match h_xfer h with
  | None => h
  | Some x =>
      match x_left x with
      | S (S n) => owe_data EvBlock fire_block
                     (h_put_port [] false (Some (mkXfer (x_write x) (x_scr x) (x_sec x + 1) (S n))) h)
      | _ => owe_data EvDone fire_done (h_put_port [] false None h)
      end
  end.

(** The answer of the card, or [None] when it does not answer: the kind of the response, its
    words, and the card afterwards.  [nblocks] is the number of blocks of a transfer; a
    transfer of several blocks that the controller does not stop by itself leaves the card
    in a data state. *)
Definition card_status (h : host D) : Z := Z.lor (Z.shiftl (h_state h) 9) 0x100.

Definition card_app (idx arg : Z) (h : host D) : option (Z * list Z * host D) :=
  let k := h_kind h in
  if (idx =? 41) && (h_state h =? 0) then
    if (Z.land arg 0xffffff =? 0) || (k_hc k && negb (Z.testbit arg 30)) then
      Some (RT48, [k_ocr k], h_put_proto 0 false (h_busy h) h)
    else
      match h_busy h with
      | S n => Some (RT48, [k_ocr k], h_put_proto 0 false n h)
      | O => Some (RT48, [Z.lor (Z.lor (2 ^ 31) (if k_hc k then 2 ^ 30 else 0)) (k_ocr k)],
                   h_put_proto 1 false O h)
      end
  else if (idx =? 51) && (h_state h =? 4) then
    Some (RT48, [card_status h],
          h_put_port [] false (Some (mkXfer false true 0 1)) (h_put_proto 4 false (h_busy h) h))
  else None.

Definition card_data (write multi stops : bool) (nblocks arg : Z) (h : host D) : option (Z * list Z * host D) :=
  let sec := if k_hc (h_kind h) then arg else arg / 512 in
  if negb (h_state h =? 4) || negb (k_hc (h_kind h) || (arg mod 512 =? 0)) then None
  else
    Some (RT48, [card_status h],
          h_put_port [] false (Some (mkXfer write false sec (if multi then Z.to_nat nblocks else 1%nat)))
            (h_put_proto (if multi && negb stops then 5 else 4) false (h_busy h) h)).

Definition card_cmd (idx arg : Z) (stops : bool) (nblocks : Z) (h : host D) : option (Z * list Z * host D) :=
  let k := h_kind h in
  let st := h_state h in
  if h_app h && ((idx =? 41) || (idx =? 51)) then card_app idx arg h
  else if idx =? 0 then Some (RTNone, [], h_put_proto 0 false (k_polls k) h)
  else if (idx =? 8) && k_v2 k && (st =? 0) then
    Some (RT48, [Z.land arg 0xfff], h_put_proto st false (h_busy h) h)
  else if (idx =? 2) && (st =? 1) then Some (RT136, k_cid k, h_put_proto 2 false (h_busy h) h)
  else if (idx =? 3) && (st =? 2) then
    Some (RT48, [Z.lor (Z.shiftl (k_rca k) 16) (card_status h)], h_put_proto 3 false (h_busy h) h)
  else if (idx =? 7) && (st =? 3) && (Z.shiftr arg 16 =? k_rca k) then
    Some (RT48Busy, [card_status h], h_put_proto 4 false (h_busy h) h)
  else if (idx =? 16) && (st =? 4) then Some (RT48, [card_status h], h_put_proto st false (h_busy h) h)
  else if (idx =? 55) && ((st <? 3) || (Z.shiftr arg 16 =? k_rca k)) then
    Some (RT48, [Z.lor (card_status h) 0x20], h_put_proto st true (h_busy h) h)
  else if idx =? 17 then card_data false false stops nblocks arg h
  else if idx =? 18 then card_data false true stops nblocks arg h
  else if idx =? 24 then card_data true false stops nblocks arg h
  else if idx =? 25 then card_data true true stops nblocks arg h
  else None.

(** The end of a command.  An answer of another length than the register announces, a check
    sum expected where the answer has none, and a transfer in the other direction are errors. *)
Definition fire_cmd (reg arg : Z) (h : host D) : host D :=
  let idx := Z.land (Z.shiftr reg 24) 0x3f in
  let rt := Z.land (Z.shiftr reg 16) 3 in
  let stops := Z.land (Z.shiftr reg 2) 3 =? 1 in
  let nblocks := if Z.testbit reg 5 && Z.testbit reg 1 then Z.shiftr (h_bsc h) 16 else 1 in
  match card_cmd idx arg stops nblocks h with
  | None => raise (2 ^ 16) (h_put_proto (h_state h) false (h_busy h) h)
  | Some (kind, resp, h1) =>
      if negb (kind =? rt) then raise (2 ^ 18) h1
      else if (idx =? 41) && Z.testbit reg 19 then raise (2 ^ 17) h1
      else
        let h2 := raise SD_COMMAND_COMPLETE (h_put_resp resp h1) in
        if rt =? RT48Busy then owe_data EvDone fire_done h2
        else if Z.testbit reg 21 then
          match h_xfer h2 with
          | Some x =>
              if eqb (Z.testbit reg 4) (negb (x_write x)) then owe_data EvBlock fire_block h2
              else raise (2 ^ 20) (h_put_port [] false None h2)
          | None => h2
          end
        else h2
  end.

Definition fire (ev : hevent) (h : host D) : host D :=
  match ev with
  | EvCmd reg arg => fire_cmd reg arg h
  | EvBlock => fire_block h
  | EvDone => fire_done h
  | EvReset => h_put_ctl1 0 h
  | EvResetCmd => h_put_ctl1 (Z.ldiff (h_ctl1 h) EMMC_CTRL1_RESET_CMD) h
  | EvStable => h_put_ctl1 (Z.lor (h_ctl1 h) EMMC_CTRL1_CLK_STABLE) h
  end.

(** Time passes. *)
Definition advance (us : Z) (h : host D) : host D :=
  match h_due h with
  | None => h
  | Some (l, ev) =>
      if l <=? us then fire ev (h_put_due None (h_n h) h)
      else h_put_due (Some (l - us, ev)) (h_n h) h
  end.

(** Register accesses.  Bit 15 of the flags tells that there is an error. *)
Definition flags_value (h : host D) : Z :=
  Z.lor (h_flags h) (if Z.shiftr (h_flags h) 16 =? 0 then 0 else 0x8000).

Definition write_ctl1 (v : Z) (h : host D) : host D :=
  if Z.testbit v 24 then
    owe_cmd EvReset (h_put_ctl1 v (h_put_flags 0 (h_put_mask 0 (h_put_port [] false None h))))
  else if Z.testbit v 25 then owe_cmd EvResetCmd (h_put_ctl1 v h)
  else if Z.testbit v 0 && negb (Z.testbit v 1) then owe_cmd EvStable (h_put_ctl1 v h)
  else h_put_ctl1 v h.

(** A command starts when the clock of the card runs. *)
Definition write_cmd (v : Z) (h : host D) : host D :=
  if Z.testbit (h_ctl1 h) 2 then owe_cmd (EvCmd v (h_arg1 h)) (h_put_port [] false None h) else h.

Definition port_get (h : host D) : option (Z * host D) :=
  if (length (h_fifo h) <? 4)%nat then None
  else
    let rest := drop 4 (h_fifo h) in
    let h1 := h_put_port rest false (h_xfer h) h in
    Some (le_val (take 4 (h_fifo h)), match rest with [] => next_block h1 | _ => h1 end).

Definition port_put (v : Z) (h : host D) : option (host D) :=
  match h_xfer h with
  | Some x =>
      if h_room h then
        let data := h_fifo h ++ le_bytes 4 v in
        if (length data <? 512)%nat then Some (h_put_port data true (Some x) h)
        else Some (next_block (h_put_card (sec_put (x_sec x) data (h_card h))
                                 (h_put_port [] false (Some x) h)))
      else None
  | None => None
  end.
End host.

(** ** The driver *)

(** Where [device.buffer] points: nowhere, at the caller's buffer or at [device.scr.scr]. *)
Inductive bufptr := BufNull | BufCaller | BufScr.

(** The static [device], less the fields no routine uses. *)
Record emmc_device := mkDevice {
  last_success : bool; transfer_blocks : Z; last_command : emmc_cmd; last_command_value : Z;
  block_size : Z; last_response : list Z; sdhc : bool; d_ocr : Z; rca : Z; buffer : bufptr;
  base_clock : Z; last_error : Z; last_interrupt : Z; scr_scr : list Z; scr_version : Z
}.

(** The driver's data, the controller, the bytes of the caller's buffer and the pins. *)
Record emmc_t (D : Type) := mkEmmc {
  device : emmc_device; e_host : host D; e_mem : list Z; e_pins : bcm
}.
Arguments mkEmmc {_} _ _ _ _.
Arguments device {_} _.
Arguments e_host {_} _.
Arguments e_mem {_} _.
Arguments e_pins {_} _.

Section driver.
Context {D : Type} `{BlockDevice D} `{EmmcLatency}.
Implicit Types d : emmc_device.

Definition set_device (f : emmc_device -> emmc_device) : M (emmc_t D) unit :=
  m_modify (fun s => mkEmmc (f (device s)) (e_host s) (e_mem s) (e_pins s)).
Definition set_host (f : host D -> host D) : M (emmc_t D) unit :=
  m_modify (fun s => mkEmmc (device s) (f (e_host s)) (e_mem s) (e_pins s)).
Definition dev {A} (f : emmc_device -> A) : M (emmc_t D) A := m_gets (fun s => f (device s)).
Definition hst {A} (f : host D -> A) : M (emmc_t D) A := m_gets (fun s => f (e_host s)).
Definition on_epins {A} (m : M bcm A) : M (emmc_t D) A :=
  m_zoom e_pins (fun p s => mkEmmc (device s) (e_host s) (e_mem s) p) m.

Definition put_success (b : bool) d : emmc_device :=
  mkDevice b (transfer_blocks d) (last_command d) (last_command_value d) (block_size d) (last_response d)
    (sdhc d) (d_ocr d) (rca d) (buffer d) (base_clock d) (last_error d) (last_interrupt d) (scr_scr d) (scr_version d).
Definition put_blocks (n : Z) d : emmc_device :=
  mkDevice (last_success d) n (last_command d) (last_command_value d) (block_size d) (last_response d)
    (sdhc d) (d_ocr d) (rca d) (buffer d) (base_clock d) (last_error d) (last_interrupt d) (scr_scr d) (scr_version d).
Definition put_command (c : emmc_cmd) d : emmc_device :=
  mkDevice (last_success d) (transfer_blocks d) c (last_command_value d) (block_size d) (last_response d)
    (sdhc d) (d_ocr d) (rca d) (buffer d) (base_clock d) (last_error d) (last_interrupt d) (scr_scr d) (scr_version d).
Definition put_command_value (v : Z) d : emmc_device :=
  mkDevice (last_success d) (transfer_blocks d) (last_command d) v (block_size d) (last_response d)
    (sdhc d) (d_ocr d) (rca d) (buffer d) (base_clock d) (last_error d) (last_interrupt d) (scr_scr d) (scr_version d).
Definition put_block_size (n : Z) d : emmc_device :=
  mkDevice (last_success d) (transfer_blocks d) (last_command d) (last_command_value d) n (last_response d)
    (sdhc d) (d_ocr d) (rca d) (buffer d) (base_clock d) (last_error d) (last_interrupt d) (scr_scr d) (scr_version d).
Definition put_response (r : list Z) d : emmc_device :=
  mkDevice (last_success d) (transfer_blocks d) (last_command d) (last_command_value d) (block_size d) r
    (sdhc d) (d_ocr d) (rca d) (buffer d) (base_clock d) (last_error d) (last_interrupt d) (scr_scr d) (scr_version d).
Definition put_sdhc (b : bool) d : emmc_device :=
  mkDevice (last_success d) (transfer_blocks d) (last_command d) (last_command_value d) (block_size d) (last_response d)
    b (d_ocr d) (rca d) (buffer d) (base_clock d) (last_error d) (last_interrupt d) (scr_scr d) (scr_version d).
Definition put_ocr (v : Z) d : emmc_device :=
  mkDevice (last_success d) (transfer_blocks d) (last_command d) (last_command_value d) (block_size d) (last_response d)
    (sdhc d) v (rca d) (buffer d) (base_clock d) (last_error d) (last_interrupt d) (scr_scr d) (scr_version d).
Definition put_rca (v : Z) d : emmc_device :=
  mkDevice (last_success d) (transfer_blocks d) (last_command d) (last_command_value d) (block_size d) (last_response d)
    (sdhc d) (d_ocr d) v (buffer d) (base_clock d) (last_error d) (last_interrupt d) (scr_scr d) (scr_version d).
Definition put_buffer (b : bufptr) d : emmc_device :=
  mkDevice (last_success d) (transfer_blocks d) (last_command d) (last_command_value d) (block_size d) (last_response d)
    (sdhc d) (d_ocr d) (rca d) b (base_clock d) (last_error d) (last_interrupt d) (scr_scr d) (scr_version d).
Definition put_base_clock (v : Z) d : emmc_device :=
  mkDevice (last_success d) (transfer_blocks d) (last_command d) (last_command_value d) (block_size d) (last_response d)
    (sdhc d) (d_ocr d) (rca d) (buffer d) v (last_error d) (last_interrupt d) (scr_scr d) (scr_version d).
Definition put_error (e i : Z) d : emmc_device :=
  mkDevice (last_success d) (transfer_blocks d) (last_command d) (last_command_value d) (block_size d) (last_response d)
    (sdhc d) (d_ocr d) (rca d) (buffer d) (base_clock d) e i (scr_scr d) (scr_version d).
Definition put_scr (w : list Z) (v : Z) d : emmc_device :=
  mkDevice (last_success d) (transfer_blocks d) (last_command d) (last_command_value d) (block_size d) (last_response d)
    (sdhc d) (d_ocr d) (rca d) (buffer d) (base_clock d) (last_error d) (last_interrupt d) w v.

(** *** Registers *)

Definition emmc_delay_us (us : Z) : M (emmc_t D) unit := set_host (advance us).
Definition emmc_delay_ms (ms : Z) : M (emmc_t D) unit := emmc_delay_us (u32 (ms * 1000)).

Definition int_flags : M (emmc_t D) Z := hst flags_value.
Definition set_int_flags (v : Z) : M (emmc_t D) unit :=
  set_host (fun h => h_put_flags (Z.ldiff (h_flags h) v) h).
Definition control1 : M (emmc_t D) Z := hst h_ctl1.
Definition set_control1 (v : Z) : M (emmc_t D) unit := set_host (write_ctl1 v).

Definition get_data : M (emmc_t D) Z :=
  o ← hst port_get;
  r ← m_opt o;
  set_host (fun _ => r.2);;
  mret r.1.
Definition put_data (v : Z) : M (emmc_t D) unit :=
  o ← hst (port_put v);
  h ← m_opt o;
  set_host (fun _ => h).

(** The word of the buffer at an offset, for [*data++]. *)
Definition buffer_bytes : M (emmc_t D) (list Z) :=
  b ← dev buffer;
  match b with
  | BufNull => m_undef
  | BufCaller => m_gets e_mem
  | BufScr => dev scr_scr
  end.
Definition load_word (off : nat) : M (emmc_t D) Z :=
  bs ← buffer_bytes;
  if (length bs <? off + 4)%nat then m_undef else mret (le_val (take 4 (drop off bs))).
Definition store_word (off : nat) (v : Z) : M (emmc_t D) unit :=
  bs ← buffer_bytes;
  if (length bs <? off + 4)%nat then m_undef
  else
    let bs' := splice off (le_bytes 4 v) bs in
    b ← dev buffer;
    match b with
    | BufScr => set_device (fun d => put_scr bs' (scr_version d) d)
    | _ => m_modify (fun s => mkEmmc (device s) (e_host s) bs' (e_pins s))
    end.

(** *** Waiting *)

Fixpoint wait_mask_loop (cycles : nat) (reg : M (emmc_t D) Z) (mask : Z) (set : bool) : M (emmc_t D) bool :=
  match cycles with
  | O => mret false
  | S cycles =>
      v ← reg;
      if eqb (negb (Z.land v mask =? 0)) set then mret true
      else
        emmc_delay_us 100;;
        wait_mask_loop cycles reg mask set
  end.

Definition wait_reg_mask (reg : M (emmc_t D) Z) (mask : Z) (set : bool) (timeout : Z) : M (emmc_t D) bool :=
  wait_mask_loop (Z.to_nat (timeout * 10 + 1)) reg mask set.

(** *** The clock *)

Fixpoint high_bit (n : nat) (x : Z) : Z :=
  match n with
  | O => -1
  | S fb =>
      let bt := Z.shiftl 1 (Z.of_nat fb) in
      if negb (Z.land x bt =? 0) then
        if negb (Z.ldiff x bt =? 0) then Z.of_nat fb + 1 else Z.of_nat fb
      else high_bit fb x
  end.

Definition get_clock_divider (base : Z) : Z :=
  let target :=
    if SD_CLOCK_HIGH <=? base then
      if negb (base mod SD_CLOCK_HIGH =? 0) then 0 else base / SD_CLOCK_HIGH
    else 1 in
  let div := high_bit 32 target in
  let div := if div =? -1 then 31 else div in
  let div := if 32 <=? div then 31 else div in
  let div := if negb (div =? 0) then Z.shiftl 1 (div - 1) else div in
  let div := if 0x400 <=? div then 0x3FF else div in
  Z.lor (Z.shiftl (Z.land div 0xff) 8) (Z.shiftl (Z.land (Z.shiftr div 8) 3) 6).

Definition emmc_setup_clock : M (emmc_t D) bool :=
  set_host (h_put_ctl2 0);;
  n ← control1;
  set_control1 (Z.lor (Z.ldiff (Z.lor (Z.lor n EMMC_CTRL1_CLK_INT_EN) (get_clock_divider 250000000))
                               (Z.shiftl 0xf 16)) (Z.shiftl 11 16));;
  ok ← wait_reg_mask control1 EMMC_CTRL1_CLK_STABLE true 2000;
  if negb ok then mret false
  else
    emmc_delay_ms 30;;
    v ← control1;
    set_control1 (Z.lor v 4);;
    emmc_delay_ms 30;;
    mret true.

(** *** Commands *)

Definition sd_error_mask (err : Z) : Z := Z.shiftl 1 (16 + err).

Definition set_last_error (intr_val : Z) : M (emmc_t D) unit :=
  set_device (put_error (Z.land intr_val 0xFFFF0000) intr_val).

(** The words of one block. *)
Fixpoint move_words (n : nat) (write : bool) (off : nat) : M (emmc_t D) unit :=
  match n with
  | O => mret tt
  | S n =>
      (if write then v ← load_word off; put_data v
       else v ← get_data; store_word off v);;
      move_words n write (off + 4)
  end.

Fixpoint transfer_loop (blocks : nat) (write : bool) (wrIrpt : Z) (off : nat) : M (emmc_t D) bool :=
  match blocks with
  | O => mret true
  | S blocks =>
      wait_reg_mask int_flags (Z.lor wrIrpt 0x8000) true 2000;;
      intr_val ← int_flags;
      set_int_flags (Z.lor wrIrpt 0x8000);;
      if negb (Z.land intr_val (Z.lor 0xffff0000 wrIrpt) =? wrIrpt) then
        set_last_error intr_val;;
        mret false
      else
        length ← dev block_size;
        let words := Z.to_nat (length / 4) in
        move_words words write off;;
        transfer_loop blocks write wrIrpt (off + 4 * words)
  end.

Definition do_data_transfer (cmd : emmc_cmd) : M (emmc_t D) bool :=
  let write := direction cmd =? 0 in
  let wrIrpt := if write then Z.shiftl 1 4 else Z.shiftl 1 5 in
  blocks ← dev transfer_blocks;
  transfer_loop (Z.to_nat blocks) write wrIrpt 0.

(** Whether the command ended before [timeout] polls. *)
Fixpoint wait_command (times : nat) : M (emmc_t D) bool :=
  match times with
  | O => mret false
  | S times =>
      reg ← int_flags;
      if negb (Z.land reg 0x8001 =? 0) then mret true
      else
        emmc_delay_ms 1;;
        wait_command times
  end.

Definition take_response (cmd : emmc_cmd) : M (emmc_t D) unit :=
  r ← hst h_resp;
  old ← dev last_response;
  if (response_type cmd =? RT48) || (response_type cmd =? RT48Busy) then
    set_device (put_response (take 1 (r ++ [0]) ++ drop 1 old))
  else if response_type cmd =? RT136 then
    set_device (put_response (take 4 (r ++ replicate 4 0)))
  else mret tt.

(** The end of a transfer. *)
Definition end_transfer : M (emmc_t D) bool :=
  wait_reg_mask int_flags 0x8002 true 2000;;
  intr_val ← int_flags;
  set_int_flags 0xFFFF0002;;
  if negb (Z.land intr_val 0xFFFF0002 =? 2) && negb (Z.land intr_val 0xFFFF0002 =? 0x100002) then
    set_last_error intr_val;;
    mret false
  else
    set_int_flags 0xFFFF0002;;
    set_device (put_success true);;
    mret true.

(** What follows the end of the command itself. *)
Definition finish_command (cmd : emmc_cmd) : M (emmc_t D) bool :=
  intr_val ← int_flags;
  set_int_flags 0xFFFF0001;;
  if negb (Z.land intr_val 0xFFFF0001 =? 1) then
    set_last_error intr_val;;
    set_device (put_success false);;
    mret false
  else
    take_response cmd;;
    (if negb (is_data cmd =? 0) then do_data_transfer cmd;; mret tt else mret tt);;
    if (response_type cmd =? RT48Busy) || negb (is_data cmd =? 0) then end_transfer
    else
      set_device (put_success true);;
      mret true.

Definition emmc_issue_command (cmd : emmc_cmd) (arg timeout : Z) : M (emmc_t D) bool :=
  set_device (put_command_value (TO_REG cmd));;
  blocks ← dev transfer_blocks;
  if 0xFFFF <? blocks then mret false
  else
    size ← dev block_size;
    set_host (h_put_bsc (Z.lor size (Z.shiftl blocks 16)));;
    set_host (h_put_arg1 arg);;
    set_host (write_cmd (TO_REG cmd));;
    ended ← wait_command (Z.to_nat timeout);
    if negb ended then
      set_device (put_success false);;
      mret false
    else finish_command cmd.

Definition emmc_command (command arg timeout : Z) : M (emmc_t D) bool :=
  if negb (Z.land command 0x80000000 =? 0) then mret false
  else
    c ← m_opt (commands !! Z.to_nat command);
    set_device (put_command c);;
    if TO_REG c =? TO_REG INVALID_CMD then mret false
    else emmc_issue_command c arg timeout.

Fixpoint reset_loop (n : nat) : M (emmc_t D) bool :=
  match n with
  | O => mret false
  | S n =>
      v ← control1;
      if Z.land v EMMC_CTRL1_RESET_CMD =? 0 then mret true
      else
        emmc_delay_ms 1;;
        reset_loop n
  end.

Definition reset_command : M (emmc_t D) bool :=
  v ← control1;
  set_control1 (Z.lor v EMMC_CTRL1_RESET_CMD);;
  reset_loop (Z.to_nat 10000).

(** [timeout] is not used. *)
Definition emmc_app_command (command arg timeout : Z) : M (emmc_t D) bool :=
  c ← m_opt (commands !! Z.to_nat command);
  if 60 <=? index c then mret false
  else
    app ← m_opt (commands !! Z.to_nat CTApp);
    set_device (put_command app);;
    r ← dev rca;
    let arg55 := if negb (r =? 0) then u32 (Z.shiftl r 16) else 0 in
    ok ← emmc_issue_command app arg55 2000;
    if ok : bool then
      set_device (put_command c);;
      emmc_issue_command c arg 2000
    else mret false.

(** *** Starting a card *)

Definition response0 : M (emmc_t D) Z := r ← dev last_response; m_opt (r !! 0%nat).

Definition check_v2_card : M (emmc_t D) bool :=
  ok ← emmc_command CTSendIfCond 0x1AA 200;
  if negb ok then
    e ← dev last_error;
    if e =? 0 then mret false
    else if negb (Z.land e (Z.shiftl 1 16) =? 0) then
      ok ← reset_command;
      if negb ok then mret false
      else
        set_int_flags (sd_error_mask SDECommandTimeout);;
        mret false
    else mret false
  else
    r ← response0;
    mret (Z.land r 0xFFF =? 0x1AA).

Definition check_usable_card : M (emmc_t D) bool :=
  ok ← emmc_command CTIOSetOpCond 0 1000;
  if negb ok then
    e ← dev last_error;
    if e =? 0 then mret true
    else if negb (Z.land e (Z.shiftl 1 16) =? 0) then
      ok ← reset_command;
      if negb ok then mret false
      else
        set_int_flags (sd_error_mask SDECommandTimeout);;
        mret true
    else mret false
  else mret true.

Fixpoint sdhc_loop (fuel : nat) (v2_card : bool) : M (emmc_t D) bool :=
  match fuel with
  | O => m_nofuel
  | S fuel =>
      let v2_flags := if v2_card then Z.shiftl 1 30 else 0 in
      ok ← emmc_app_command CTOcrCheck (Z.lor 0x00FF8000 v2_flags) 2000;
      if negb ok then mret false
      else
        r ← response0;
        if negb (Z.land (Z.shiftr r 31) 1 =? 0) then
          set_device (put_ocr (Z.land (Z.shiftr r 8) 0xFFFF));;
          set_device (put_sdhc (negb (Z.land (Z.shiftr r 30) 1 =? 0)));;
          mret true
        else
          emmc_delay_ms 500;;
          sdhc_loop fuel v2_card
  end.

(** The loop ends when the card is ready: fuel for the answers it still owes. *)
Definition check_sdhc_support (v2_card : bool) : M (emmc_t D) bool :=
  fuel ← hst (fun h => S (h_busy h));
  sdhc_loop fuel v2_card.

(** The loop returns in its first turn when the command fails. *)
Definition check_ocr : M (emmc_t D) bool :=
  passed ← emmc_app_command CTOcrCheck 0 2000;
  if negb passed then mret false
  else
    r ← response0;
    set_device (put_ocr (Z.land (Z.shiftr r 8) 0xFFFF));;
    mret true.

Definition check_rca : M (emmc_t D) bool :=
  ok ← emmc_command CTSendCide 0 2000;
  if negb ok then mret false
  else
    ok ← emmc_command CTSendRelativeAddr 0 2000;
    if negb ok then mret false
    else
      r ← response0;
      set_device (put_rca (Z.land (Z.shiftr r 16) 0xFFFF));;
      mret (negb (Z.land (Z.shiftr r 8) 1 =? 0)).

Definition select_card : M (emmc_t D) bool :=
  a ← dev rca;
  ok ← emmc_command CTSelectCard (u32 (Z.shiftl a 16)) 2000;
  if negb ok then mret false
  else
    r ← response0;
    let status := Z.land (Z.shiftr r 9) 0xF in
    mret ((status =? 3) || (status =? 4)).

Definition version_of (scr0 : Z) : Z :=
  let spec := Z.land (Z.shiftr scr0 (56 - 32)) 0xf in
  let spec3 := Z.land (Z.shiftr scr0 (47 - 32)) 1 in
  let spec4 := Z.land (Z.shiftr scr0 (42 - 32)) 1 in
  if spec =? 0 then 1
  else if spec =? 1 then 11
  else if spec =? 2 then
    if spec3 =? 0 then 2
    else if spec4 =? 0 then 3 else 4
  else 0xFFFFFFFF.

Definition send_scr : M (emmc_t D) bool :=
  bsc ← hst h_bsc;
  set_host (h_put_bsc (Z.lor (Z.ldiff bsc 0xFFF) 0x200));;
  set_device (put_buffer BufScr);;
  set_device (put_block_size 8);;
  set_device (put_blocks 1);;
  ok ← emmc_app_command CTSendSCR 0 30000;
  if negb ok then mret false
  else
    set_device (put_block_size 512);;
    w ← dev scr_scr;
    set_device (put_scr w (version_of (BSWAP32 (le_val (take 4 w)))));;
    mret true.

Definition set_scr : M (emmc_t D) bool :=
  hc ← dev sdhc;
  if negb hc then
    ok ← emmc_command CTSetBlockLen 512 2000;
    if negb ok then mret false else send_scr
  else send_scr.

(** The card is identified, selected and configured. *)
Definition identify_card : M (emmc_t D) bool :=
  ok ← emmc_command CTGoIdle 0 2000;
  if negb ok then mret false
  else
  v2_card ← check_v2_card;
  ok ← check_usable_card;
  if negb ok then mret false
  else
  ok ← check_ocr;
  if negb ok then mret false
  else
  ok ← check_sdhc_support v2_card;
  if negb ok then mret false
  else
  emmc_delay_ms 10;;
  ok ← check_rca;
  if negb ok then mret false
  else
  ok ← select_card;
  if negb ok then mret false
  else
  ok ← set_scr;
  if negb ok then mret false
  else
  set_int_flags 0xFFFFFFFF;;
  mret true.

Definition emmc_card_reset : M (emmc_t D) bool :=
  set_control1 EMMC_CTRL1_RESET_HOST;;
  ok ← wait_reg_mask control1 EMMC_CTRL1_RESET_ALL false 2000;
  if negb ok then mret false
  else
  ok ← emmc_setup_clock;
  if negb ok then mret false
  else
  set_host (h_put_enable 0);;
  set_int_flags 0xFFFFFFFF;;
  set_host (h_put_mask 0xFFFFFFFF);;
  emmc_delay_ms 203;;
  set_device (put_blocks 0);;
  set_device (put_command_value 0);;
  set_device (put_success false);;
  set_device (put_block_size 0);;
  identify_card.

(** *** Reading and writing *)

Fixpoint retry_loop (n : nat) (command arg : Z) : M (emmc_t D) bool :=
  match n with
  | O => mret true
  | S n =>
      ok ← emmc_command command arg 5000;
      if ok : bool then mret true
      else match n with O => mret false | S _ => retry_loop n command arg end
  end.

Definition do_data_command (write : bool) (bsize block_no : Z) : M (emmc_t D) bool :=
  hc ← dev sdhc;
  let block_no := if negb hc then u32 (block_no * 512) else block_no in
  size ← dev block_size;
  if bsize <? size then mret false
  else
    m_assert (size =? 512);;
    set_device (put_blocks (bsize / 512));;
    if negb (Z.land bsize 0x1ff =? 0) then mret false
    else
      set_device (put_buffer BufCaller);;
      let many := 1 <? bsize / 512 in
      let command :=
        if write && many then CTWriteMultiple
        else if write then CTWriteBlock
        else if many then CTReadMultiple
        else CTReadBlock in
      retry_loop 3 command block_no.

(** [buffer] is the caller's, [e_mem]. *)
Definition emmc_read (sector size : Z) : M (emmc_t D) Z :=
  m_assert (size mod 512 =? 0);;
  success ← do_data_command false size sector;
  mret (if success : bool then size else -1).

Definition emmc_write (sector size : Z) : M (emmc_t D) Z :=
  m_assert (size mod 512 =? 0);;
  success ← do_data_command true size sector;
  mret (if success : bool then size else -1).

(** *** Set-up *)

Fixpoint init_loop (n : nat) : M (emmc_t D) bool :=
  match n with
  | O => mret false
  | S n =>
      success ← emmc_card_reset;
      if success : bool then mret true
      else
        emmc_delay_ms 100;;
        init_loop n
  end.

Definition GPIO_FUNC_ALT3 : Z := 7.

Definition emmc_init : M (emmc_t D) bool :=
  on_epins (gpio_set_function 34 GPIO_FUNC_INPUT);;
  on_epins (gpio_set_function 35 GPIO_FUNC_INPUT);;
  on_epins (gpio_set_function 36 GPIO_FUNC_INPUT);;
  on_epins (gpio_set_function 37 GPIO_FUNC_INPUT);;
  on_epins (gpio_set_function 38 GPIO_FUNC_INPUT);;
  on_epins (gpio_set_function 39 GPIO_FUNC_INPUT);;
  on_epins (gpio_set_function 48 GPIO_FUNC_ALT3);;
  on_epins (gpio_set_function 49 GPIO_FUNC_ALT3);;
  on_epins (gpio_set_function 50 GPIO_FUNC_ALT3);;
  on_epins (gpio_set_function 51 GPIO_FUNC_ALT3);;
  on_epins (gpio_set_function 52 GPIO_FUNC_ALT3);;
  set_device (put_blocks 0);;
  set_device (put_command_value 0);;
  set_device (put_success false);;
  set_device (put_block_size 0);;
  set_device (put_sdhc false);;
  set_device (put_ocr 0);;
  set_device (put_rca 0);;
  set_device (put_base_clock 0);;
  init_loop 10.

(** The layer for fat32/pi-sd.c. *)
Definition SD_OK : Z := 1.
Definition sd_init : M (emmc_t D) Z := ok ← emmc_init; mret (if ok : bool then 1 else 0).
Definition sd_readblock (sec nsec : Z) : M (emmc_t D) Z := emmc_read sec (u32 (nsec * 512)).
Definition sd_writeblock (sec nsec : Z) : M (emmc_t D) Z := emmc_write sec (u32 (nsec * 512)).

(** ** fat32/pi-sd.c on the driver

    The same routines as in [Sd], with the calls of the driver in place of the card. *)
Record pi_sd_t := mkPiSd { p_init : bool; p_emmc : emmc_t D }.

Definition on_emmc {A} (m : M (emmc_t D) A) : M pi_sd_t A :=
  m_zoom p_emmc (fun e s => mkPiSd (p_init s) e) m.
Definition set_buffer (bs : list Z) : M pi_sd_t unit :=
  m_modify (fun s => mkPiSd (p_init s) (mkEmmc (device (p_emmc s)) (e_host (p_emmc s)) bs (e_pins (p_emmc s)))).

Definition drv_sd_init : M pi_sd_t Z :=
  r ← on_emmc sd_init;
  if negb (r =? SD_OK) then m_panic
  else
    m_modify (fun s => mkPiSd true (p_emmc s));;
    mret 1.

(** [data] is a buffer of the caller; the result is what it holds afterwards. *)
Definition drv_sd_read (data : list Z) (lba nsec : Z) : M pi_sd_t (list Z) :=
  init ← m_gets p_init;
  m_assert init;;
  set_buffer data;;
  res ← on_emmc (sd_readblock lba nsec);
  if negb (u32 res =? u32 (512 * nsec)) then m_panic
  else m_gets (fun s => e_mem (p_emmc s)).

Definition drv_sd_write (data : list Z) (lba nsec : Z) : M pi_sd_t Z :=
  init ← m_gets p_init;
  m_assert init;;
  set_buffer data;;
  res ← on_emmc (sd_writeblock lba nsec);
  if negb (u32 res =? u32 (512 * nsec)) then m_panic
  else mret 1.
End driver.
Arguments mkPiSd {_} _ _.
Arguments p_init {_} _.
Arguments p_emmc {_} _.
