(* ===== verification/EmmcThm.v ===== *)
(** * The theory of the SD-card driver

    The driver of [Emmc] over its controller does what [Sd] says of the calls behind
    fat32/pi-sd.c: after [emmc_init], reading and writing sectors is [read_sectors] and
    [write_sectors] of the card, whatever the kind of the card and however long the
    controller takes within the driver's time limits. *)

From stdpp Require Import base tactics option list numbers gmap.
From Stdlib Require Import ZArith Lia.
From S2P Require Import Prelude Gpio Sd Emmc.

Section emmc.
Context {D : Type} `{BlockDeviceLaws D} `{EmmcLatency}.
Implicit Types (h : host D) (s : emmc_t D).

(** ** Steps *)

Definition with_host h s : emmc_t D := mkEmmc (device s) h (e_mem s) (e_pins s).
Definition with_dev (d : emmc_device) s : emmc_t D := mkEmmc d (e_host s) (e_mem s) (e_pins s).

Lemma hst_run {A B} (f : host D -> A) (k : A -> M (emmc_t D) B) s : (hst f ≫= k) s = k (f (e_host s)) s.
Proof. done. Qed.
Lemma dev_run {A B} (f : emmc_device -> A) (k : A -> M (emmc_t D) B) s : (dev f ≫= k) s = k (f (device s)) s.
Proof. done. Qed.
Lemma set_host_run {B} f (k : unit -> M (emmc_t D) B) s :
  (set_host f ≫= k) s = k tt (with_host (f (e_host s)) s).
Proof. done. Qed.
Lemma set_device_run {B} f (k : unit -> M (emmc_t D) B) s :
  (set_device f ≫= k) s = k tt (with_dev (f (device s)) s).
Proof. done. Qed.

(** ** Time *)

Definition fired h : host D :=
  match h_due h with Some (_, ev) => fire ev (h_put_due None (h_n h) h) | None => h end.

Lemma advance_fires us h l ev :
  h_due h = Some (l, ev) -> l <= us -> advance us h = fired h.
Proof. intros E L. unfold advance, fired. rewrite E. by rewrite (proj2 (Z.leb_le _ _)). Qed.

Lemma advance_waits us h l ev :
  h_due h = Some (l, ev) -> us < l ->
  advance us h = h_put_due (Some (l - us, ev)) (h_n h) h /\ fired (advance us h) = fired h.
Proof.
  intros E L. unfold advance, fired. rewrite E, (proj2 (Z.leb_gt _ _)) by done. done.
Qed.

(** The three polling loops of the driver, as one: look, and wait [us] microseconds. *)
Fixpoint poll (n : nat) (us : Z) (f : host D -> bool) (s : emmc_t D) : res (bool * emmc_t D) :=
  match n with
  | O => Done (false, s)
  | S n => if f (e_host s) then Done (true, s)
           else poll n us f (with_host (advance us (e_host s)) s)
  end.

Lemma wait_mask_poll f mask set n s :
  wait_mask_loop n (hst f) mask set s =
  poll n 100 (fun h => eqb (negb (Z.land (f h) mask =? 0)) set) s.
Proof.
  revert s; induction n as [|n IH]; intros s; cbn [wait_mask_loop poll]; [done|].
  rewrite hst_run. destruct (eqb _ _); [done|]. apply IH.
Qed.

Lemma wait_command_poll n s :
  wait_command n s = poll n 1000 (fun h => negb (Z.land (flags_value h) 0x8001 =? 0)) s.
Proof.
  revert s; induction n as [|n IH]; intros s; cbn [wait_command poll]; [done|].
  unfold int_flags. rewrite hst_run. destruct (negb _); [done|]. apply IH.
Qed.

Lemma reset_loop_poll n s :
  reset_loop n s = poll n 1000 (fun h => Z.land (h_ctl1 h) EMMC_CTRL1_RESET_CMD =? 0) s.
Proof.
  revert s; induction n as [|n IH]; intros s; cbn [reset_loop poll]; [done|].
  unfold control1. rewrite hst_run. destruct (_ =? _); [done|]. apply IH.
Qed.

(** The event comes in time: waiting does not change what is looked at, the event does. *)
Lemma poll_fired f us l ev (n : nat) s :
  0 < us -> h_due (e_host s) = Some (l, ev) -> l <= us * (Z.of_nat n - 1) -> 0 < l ->
  (forall d k, f (h_put_due d k (e_host s)) = false) ->
  f (fired (e_host s)) = true ->
  poll n us f s = Done (true, with_host (fired (e_host s)) s).
Proof.
  intros Hus. revert l s; induction n as [|[|n] IH]; intros l s E L P N Y; [nia|nia|].
  assert (N0 : f (e_host s) = false).
  { rewrite <-(N (h_due (e_host s)) (h_n (e_host s))). by destruct (e_host s). }
  cbn [poll]. rewrite N0. destruct (Z_le_gt_dec l us).
  - rewrite (advance_fires _ _ _ _ E) by lia. cbn [with_host e_host]. by rewrite Y.
  - destruct (advance_waits us _ _ _ E) as [A1 A2]; [lia|].
    change (poll (S n) us f (with_host (advance us (e_host s)) s) = Done (true, with_host (fired (e_host s)) s)).
    rewrite (IH (l - us)); unfold with_host; cbn [e_host device e_mem e_pins]; rewrite ?A2; try done.
    + by rewrite A1.
    + lia.
    + lia.
    + intros d k. rewrite A1. apply (N d k).
Qed.

Lemma poll_now f us n s : f (e_host s) = true -> poll (S n) us f s = Done (true, s).
Proof. cbn [poll]. by intros ->. Qed.

(** ** Commands without data *)

(** What of the controller lasts: the card and its protocol state; the clock runs and every
    flag is let through. *)
Record view := mkView { v_kind : card_kind; v_card : D; v_state : Z; v_app : bool; v_busy : nat }.
Definition view_of h : view := mkView (h_kind h) (h_card h) (h_state h) (h_app h) (h_busy h).
Definition CTL1 : Z := 721927.
Definition ALL : Z := 0xFFFFFFFF.

Definition on (v : view) h : Prop := view_of h = v /\ h_mask h = ALL /\ h_ctl1 h = CTL1.
Definition quiet (v : view) h : Prop := on v h /\ h_due h = None /\ h_flags h = 0.

(** The register of a command says what the command says. *)
Definition reg_matches (c : emmc_cmd) : bool :=
  let reg := TO_REG c in
  (Z.land (Z.shiftr reg 24) 0x3f =? index c) && (Z.land (Z.shiftr reg 16) 3 =? response_type c) &&
  (Z.land (Z.shiftr reg 2) 3 =? auto_command c) &&
  eqb (Z.testbit reg 21) (negb (is_data c =? 0)) && eqb (Z.testbit reg 4) (negb (direction c =? 0)) &&
  eqb (Z.testbit reg 5 && Z.testbit reg 1) (negb (multiblock c =? 0)) &&
  eqb (Z.testbit reg 19) (negb (crc_enable c =? 0)).

Lemma commands_match : Forall (fun c => reg_matches c = true) commands.
Proof.
  apply Forall_forall. intros c Hc%list_elem_of_In.
  apply (proj1 (forallb_forall reg_matches commands)); [by vm_compute|done].
Qed.

Lemma reg_matches_spec c : reg_matches c = true ->
  let reg := TO_REG c in
  Z.land (Z.shiftr reg 24) 0x3f = index c /\ Z.land (Z.shiftr reg 16) 3 = response_type c /\
  Z.land (Z.shiftr reg 2) 3 = auto_command c /\
  Z.testbit reg 21 = negb (is_data c =? 0) /\ Z.testbit reg 4 = negb (direction c =? 0) /\
  Z.testbit reg 5 && Z.testbit reg 1 = negb (multiblock c =? 0) /\
  Z.testbit reg 19 = negb (crc_enable c =? 0).
Proof.
  unfold reg_matches. cbv zeta. rewrite !andb_true_iff, !eqb_true_iff, !Z.eqb_eq. tauto.
Qed.

(** The controller when the command ends. *)
Record armed (v : view) (bsc : Z) h : Prop := {
  armed_on : on v h; armed_due : h_due h = None; armed_flags : h_flags h = 0;
  armed_port : h_xfer h = None; armed_bsc : h_bsc h = bsc
}.

Definition bsc_of (d : emmc_device) : Z := Z.lor (block_size d) (Z.shiftl (transfer_blocks d) 16).

Lemma issue_armed v c arg t s :
  quiet v (e_host s) -> transfer_blocks (device s) <= 0xFFFF -> 200 <= t ->
  exists h0, armed v (bsc_of (device s)) h0 /\
    (Z.land (flags_value (fire_cmd (TO_REG c) arg h0)) 0x8001 <> 0 ->
     emmc_issue_command c arg t s =
       finish_command c (with_host (fire_cmd (TO_REG c) arg h0)
                                   (with_dev (put_command_value (TO_REG c) (device s)) s))).
Proof.
  intros [(V & Mk & Ck) [Du Fl]] Hb Ht.
  set (h1 := h_put_arg1 arg (h_put_bsc (bsc_of (device s)) (e_host s))).
  exists (h_put_due None (S (h_n (e_host s))) (h_put_port [] false None h1)). split.
  { split; try done. }
  intros Y. unfold emmc_issue_command. rewrite set_device_run, dev_run.
  cbn [with_dev device put_command_value transfer_blocks]. rewrite (proj2 (Z.ltb_ge _ _)) by done.
  rewrite dev_run, !set_host_run. cbn [with_dev device with_host e_host put_command_value block_size].
  fold (bsc_of (device s)). fold h1.
  assert (E : write_cmd (TO_REG c) h1 = owe_cmd (EvCmd (TO_REG c) arg) (h_put_port [] false None h1)).
  { unfold write_cmd. subst h1. cbn [h_put_arg1 h_put_bsc h_ctl1 h_arg1]. by rewrite Ck. }
  rewrite E. destruct (cmd_lat_range (h_n (e_host s))).
  match goal with |- (wait_command ?n ≫= _) ?st = _ =>
    assert (W : wait_command n st = Done (true, with_host (fired (e_host st)) st)) end.
  2: { mrun W. reflexivity. }
  rewrite wait_command_poll. eapply poll_fired; cbn [with_host e_host owe_cmd h_put_due h_due]; [lia|reflexivity| | | |].
  - cbn [h_n h_put_port h1 h_put_arg1 h_put_bsc]. lia.
  - cbn [h_n h_put_port h1 h_put_arg1 h_put_bsc]. lia.
  - intros d k. unfold flags_value. cbn [h_flags h_put_due h_put_port h1 h_put_arg1 h_put_bsc].
    unfold h1, h_put_arg1, h_put_bsc; cbn [h_flags]. by rewrite Fl.
  - apply negb_true_iff, Z.eqb_neq, Y.
Qed.

(** The answer of the card depends on the view only; a command without data changes the
    protocol state. *)
Definition v_proto (st : Z) (app : bool) (busy : nat) (v : view) : view :=
  mkView (v_kind v) (v_card v) st app busy.
Definition answers (v : view) (idx arg rt : Z) (resp : list Z) (v' : view) : Prop :=
  forall stops nb h, view_of h = v ->
    card_cmd idx arg stops nb h = Some (rt, resp, h_put_proto (v_state v') (v_app v') (v_busy v') h) /\
    v' = v_proto (v_state v') (v_app v') (v_busy v') v.
Definition silent (v : view) (idx arg : Z) : Prop :=
  forall stops nb h, view_of h = v -> card_cmd idx arg stops nb h = None.

Definition plain (c : emmc_cmd) : Prop :=
  reg_matches c = true /\ is_data c = 0 /\ response_type c <> RT48Busy /\
  (index c =? 41) && negb (crc_enable c =? 0) = false.

Definition got (c : emmc_cmd) (resp old : list Z) : list Z :=
  if (response_type c =? RT48) || (response_type c =? RT48Busy) then take 1 (resp ++ [0]) ++ drop 1 old
  else if response_type c =? RT136 then take 4 (resp ++ replicate 4 0)
  else old.

Lemma take_response_run {B} c (k : unit -> M (emmc_t D) B) s :
  (take_response c ≫= k) s =
  k tt (with_dev (put_response (got c (h_resp (e_host s)) (last_response (device s))) (device s)) s).
Proof.
  unfold take_response, got.
  destruct (_ || _) eqn:E1; [|destruct (_ =? RT136) eqn:E2]; unfold mbind, M_bind; cbn; rewrite ?E1, ?E2; try done.
  by destruct s as [[]].
Qed.

Lemma fire_plain c arg v v' bsc resp h :
  plain c -> armed v bsc h -> answers v (index c) arg (response_type c) resp v' ->
  fire_cmd (TO_REG c) arg h =
  raise SD_COMMAND_COMPLETE (h_put_resp resp (h_put_proto (v_state v') (v_app v') (v_busy v') h)).
Proof.
  intros (Mt & Dt & Nb & N41) A An. destruct (reg_matches_spec c Mt) as (I & R & _ & B21 & _ & _ & B19).
  unfold fire_cmd. cbv zeta. rewrite I, R.
  destruct (An (Z.land (Z.shiftr (TO_REG c) 2) 3 =? 1)
               (if Z.testbit (TO_REG c) 5 && Z.testbit (TO_REG c) 1 then Z.shiftr (h_bsc h) 16 else 1)
               h (proj1 (armed_on _ _ _ A))) as [E _].
  rewrite E, Z.eqb_refl, B19, N41, B21, Dt. cbn [negb].
  by rewrite (proj2 (Z.eqb_neq _ _) Nb).
Qed.

Lemma plain_run c arg t v v' resp s :
  plain c -> quiet v (e_host s) -> transfer_blocks (device s) <= 0xFFFF -> 200 <= t ->
  answers v (index c) arg (response_type c) resp v' ->
  exists h', quiet v' h' /\
    emmc_issue_command c arg t s =
      Done (true, with_host h' (with_dev (put_success true
              (put_response (got c resp (last_response (device s)))
                 (put_command_value (TO_REG c) (device s)))) s)).
Proof.
  intros P Q Tb Ht An. destruct (issue_armed v c arg t s Q Tb Ht) as (h0 & A & E).
  pose proof (fire_plain _ _ _ _ _ _ _ P A An) as F.
  destruct A as [(V & Mk & Ck) Du Fl Po Bs].
  destruct (An true 0 h0 V) as [_ V'].
  set (h1 := raise _ _) in F.
  assert (Fv : h_flags h1 = 1).
  { unfold h1, raise. cbn [h_put_flags h_flags h_put_resp h_put_proto h_mask]. by rewrite Fl, Mk. }
  exists (h_put_flags 0 h1). split.
  { split; [split; [|done]|done]. rewrite V'. subst v. done. }
  rewrite E, F by (rewrite F; unfold flags_value; by rewrite Fv).
  unfold finish_command, int_flags, set_int_flags. rewrite hst_run, set_host_run.
  unfold flags_value. cbn [e_host with_host]. rewrite Fv.
  change (negb (Z.land (Z.lor 1 (if Z.shiftr 1 16 =? 0 then 0 else 32768)) 4294901761 =? 1)) with false.
  cbv iota. rewrite take_response_run. destruct P as (_ & Dt & Nb & _).
  rewrite Dt, (proj2 (Z.eqb_neq _ _) Nb). done.
Qed.

Lemma silent_run c arg t v s :
  reg_matches c = true -> quiet v (e_host s) -> transfer_blocks (device s) <= 0xFFFF -> 200 <= t ->
  silent v (index c) arg ->
  exists h', quiet (v_proto (v_state v) false (v_busy v) v) h' /\
    emmc_issue_command c arg t s =
      Done (false, with_host h' (with_dev (put_success false (put_error 0x10000 0x18000
                     (put_command_value (TO_REG c) (device s)))) s)).
Proof.
  intros Mt Q Tb Ht Si. destruct (issue_armed v c arg t s Q Tb Ht) as (h0 & A & E).
  destruct (reg_matches_spec c Mt) as (I & _).
  destruct A as [(V & Mk & Ck) Du Fl Po Bs].
  set (h1 := raise (2 ^ 16) (h_put_proto (h_state h0) false (h_busy h0) h0)).
  assert (F : fire_cmd (TO_REG c) arg h0 = h1).
  { unfold fire_cmd. cbv zeta. by rewrite I, (Si _ _ h0 V). }
  assert (Fv : h_flags h1 = 0x10000).
  { unfold h1, raise. cbn [h_put_flags h_flags h_put_resp h_put_proto h_mask]. by rewrite Fl, Mk. }
  exists (h_put_flags 0 h1). split.
  { split; [split; [|done]|done]. subst v. done. }
  rewrite E, F by (rewrite F; unfold flags_value; by rewrite Fv).
  unfold finish_command, int_flags, set_int_flags. rewrite hst_run, set_host_run.
  unfold flags_value. cbn [e_host with_host]. rewrite Fv. reflexivity.
Qed.

(** ** Events of a transfer *)

(** The event has come, or comes in time. *)
Definition soon (P : host D -> Prop) (ev : hevent) h : Prop :=
  P h \/ exists l, h_due h = Some (l, ev) /\ 1 <= l <= 2000000 /\ h_flags h = 0 /\ P (fired h).

Lemma wait_soon P ev mask s :
  soon P ev (e_host s) -> (forall h, P h -> Z.land (flags_value h) mask <> 0) ->
  exists h', P h' /\ wait_reg_mask int_flags mask true 2000 s = Done (true, with_host h' s).
Proof.
  intros [Ph|(l & Du & Hl & Fl & Ph)] Hm; unfold wait_reg_mask, int_flags; rewrite wait_mask_poll.
  - exists (e_host s). split; [done|]. change (Z.to_nat (2000 * 10 + 1)) with (S (Z.to_nat 20000)).
    rewrite poll_now; [by destruct s|]. by rewrite (proj2 (Z.eqb_neq _ _)) by auto.
  - exists (fired (e_host s)). split; [done|]. eapply poll_fired; try exact Du; try lia.
    + intros d k. unfold flags_value. cbn [h_put_due h_flags]. by rewrite Fl.
    + by rewrite (proj2 (Z.eqb_neq _ _)) by auto.
Qed.

Definition clear (m : Z) h : host D := h_put_flags (Z.ldiff (h_flags h) m) h.

Lemma owe_data_cases ev f h :
  (forall h, fire ev h = f h) ->
  let hf := f (h_put_due None (S (h_n h)) h) in
  owe_data ev f h = hf \/
  exists l, 1 <= l <= 2000000 /\ owe_data ev f h = h_put_due (Some (l, ev)) (S (h_n h)) h /\
    fired (owe_data ev f h) = hf.
Proof.
  intros Hf hf. unfold owe_data. pose proof (data_lat_range (h_n h)).
  destruct (Z.eqb_spec (data_lat (h_n h)) 0); [by left|right].
  exists (data_lat (h_n h)). split; [lia|]. split; [done|]. unfold fired. cbn [h_put_due h_due]. by rewrite Hf.
Qed.

Lemma owe_data_soon P ev f h :
  (forall h, fire ev h = f h) -> h_flags h = 0 -> P (f (h_put_due None (S (h_n h)) h)) ->
  soon P ev (owe_data ev f h).
Proof.
  intros Hf Fl Ph. destruct (owe_data_cases ev f h Hf) as [->|(l & Hl & E & E')]; [by left|right].
  exists l. rewrite E' . rewrite E. done.
Qed.

(** The same when the event is owed at the end of the command, whose flag the driver clears. *)
Lemma owe_cmd_soon P ev f h m :
  (forall h, fire ev h = f h) -> h_flags h = 1 -> Z.ldiff 1 m = 0 ->
  P (clear m (f (h_put_due None (S (h_n h)) h))) ->
  P (f (h_put_flags 0 (h_put_due None (S (h_n h)) h))) ->
  soon P ev (clear m (owe_data ev f h)).
Proof.
  intros Hf Fl Hm P1 P2. destruct (owe_data_cases ev f h Hf) as [->|(l & Hl & E & E')]; [by left|right].
  exists l. rewrite E. unfold clear. cbn [h_put_flags h_put_due h_flags h_due]. rewrite Fl, Hm.
  do 3 (split; [done|]). unfold fired. cbn [h_put_flags h_put_due h_due h_n]. by rewrite Hf.
Qed.

Definition done_here (v : view) h : Prop := on v h /\ h_due h = None /\ h_flags h = 2.

Lemma fire_done_here v h : on v h -> h_due h = None -> h_flags h = 0 -> done_here v (fire_done h).
Proof.
  intros (V & Mk & Ck) Du Fl. split; [done|]. split; [done|].
  unfold fire_done, raise. cbn [h_put_flags h_flags]. by rewrite Fl, Mk.
Qed.

Lemma end_transfer_run v s :
  soon (done_here v) EvDone (e_host s) ->
  exists h', quiet v h' /\
    end_transfer s = Done (true, with_host h' (with_dev (put_success true (device s)) s)).
Proof.
  intros So. destruct (wait_soon _ _ 0x8002 _ So) as (h' & (On & Du & Fl) & W).
  { intros h (_ & _ & Fl). unfold flags_value. by rewrite Fl. }
  exists (h_put_flags 0 h'). split; [by split|].
  unfold end_transfer. mrun W. unfold int_flags, set_int_flags. rewrite hst_run, set_host_run.
  unfold flags_value. cbn [e_host with_host]. rewrite Fl. reflexivity.
Qed.

(** The command has ended well, with or without the event that follows. *)
Lemma owe_flags ev f h b :
  (forall h, fire ev h = f h) -> h_flags h = 1 ->
  h_flags (f (h_put_due None (S (h_n h)) h)) = Z.lor 1 b -> In b [2; 16; 32] ->
  Z.land (flags_value (owe_data ev f h)) 0xFFFF0001 = 1 /\
  Z.land (flags_value (owe_data ev f h)) 0x8001 <> 0.
Proof.
  intros Hf Fl Ff Hb. unfold flags_value.
  destruct (owe_data_cases ev f h Hf) as [->|(l & _ & -> & _)].
  - rewrite Ff. destruct Hb as [<-|[<-|[<-|[]]]]; done.
  - cbn [h_put_due h_flags]. by rewrite Fl.
Qed.

Lemma finish_command_run c hw s :
  Z.land (flags_value hw) 0xFFFF0001 = 1 ->
  finish_command c (with_host hw s) =
  ((if negb (is_data c =? 0) then do_data_transfer c;; mret tt else mret tt);;
   if (response_type c =? RT48Busy) || negb (is_data c =? 0) then end_transfer
   else set_device (put_success true);; mret true)
    (with_host (clear 0xFFFF0001 hw)
       (with_dev (put_response (got c (h_resp hw) (last_response (device s))) (device s)) s)).
Proof.
  intros L1. unfold finish_command, int_flags, set_int_flags. rewrite hst_run, set_host_run.
  cbn [e_host with_host]. rewrite L1. change (negb (1 =? 1)) with false. cbv iota.
  rewrite take_response_run. done.
Qed.

(** A command that leaves the card busy. *)
Lemma busy_run c arg t v v' resp s :
  reg_matches c = true -> is_data c = 0 -> response_type c = RT48Busy -> index c <> 41 ->
  quiet v (e_host s) -> transfer_blocks (device s) <= 0xFFFF -> 200 <= t ->
  answers v (index c) arg RT48Busy resp v' ->
  exists h', quiet v' h' /\
    emmc_issue_command c arg t s =
      Done (true, with_host h' (with_dev (put_success true
              (put_response (got c resp (last_response (device s)))
                 (put_command_value (TO_REG c) (device s)))) s)).
Proof.
  intros Mt Dt Rt N41 Q Tb Ht An. destruct (issue_armed v c arg t s Q Tb Ht) as (h0 & A & E).
  destruct (reg_matches_spec c Mt) as (I & R & _ & B21 & _ & _ & B19).
  destruct A as [(V & Mk & Ck) Du Fl Po Bs].
  destruct (An (Z.land (Z.shiftr (TO_REG c) 2) 3 =? 1)
               (if Z.testbit (TO_REG c) 5 && Z.testbit (TO_REG c) 1 then Z.shiftr (h_bsc h0) 16 else 1)
               h0 V) as [Ec V'].
  set (h2 := raise SD_COMMAND_COMPLETE (h_put_resp resp (h_put_proto (v_state v') (v_app v') (v_busy v') h0))).
  assert (F : fire_cmd (TO_REG c) arg h0 = owe_data EvDone fire_done h2).
  { unfold fire_cmd. cbv zeta. rewrite I, R, Rt, Ec, (proj2 (Z.eqb_neq _ _) N41). done. }
  assert (Fv : h_flags h2 = 1).
  { unfold h2, raise. cbn [h_put_flags h_flags h_put_resp h_put_proto h_mask]. by rewrite Fl, Mk. }
  assert (O2 : on v' h2) by (split; [rewrite V'; by subst v|done]).
  assert (So : soon (done_here v') EvDone (clear 0xFFFF0001 (owe_data EvDone fire_done h2))).
  { apply owe_cmd_soon; try done.
    - split; [apply O2|]. split; [done|]. unfold clear, fire_done, raise. cbn [h_put_flags h_put_due h_flags h_mask].
      rewrite Fv, (proj1 (proj2 O2)). done.
    - apply fire_done_here; [apply O2|done|done]. }
  destruct (owe_flags EvDone fire_done h2 2) as [L1 L2]; [done|done| |by left|].
  { unfold fire_done, raise. cbn [h_put_flags h_put_due h_flags h_mask]. rewrite Fv, (proj1 (proj2 O2)). done. }
  rewrite E, F, finish_command_run by (rewrite ?F; done). rewrite Dt, Rt. 
  change (negb (0 =? 0)) with false. change (RT48Busy =? RT48Busy) with true. cbn [orb]. rewrite ret_run.
  match goal with |- context [with_host _ ?st] => destruct (end_transfer_run v' (with_host _ st) So) as (h' & Q' & Et) end.
  exists h'. split; [done|].
  assert (Hr : h_resp (owe_data EvDone fire_done h2) = resp) by (unfold owe_data; by destruct (data_lat _ =? 0)).
  rewrite Hr in Et. rewrite Hr. exact Et.
Qed.

(** ** The words of a block *)

Definition buf_of s : list Z :=
  match buffer (device s) with BufNull => [] | BufCaller => e_mem s | BufScr => scr_scr (device s) end.
Definition set_buf (bs : list Z) s : emmc_t D :=
  match buffer (device s) with
  | BufScr => with_dev (put_scr bs (scr_version (device s)) (device s)) s
  | _ => mkEmmc (device s) (e_host s) bs (e_pins s)
  end.

Lemma buf_of_set_buf bs s : buffer (device s) <> BufNull -> buf_of (set_buf bs s) = bs.
Proof. unfold buf_of, set_buf. by destruct (buffer (device s)) eqn:E; cbn [with_dev device put_scr buffer]; rewrite ?E. Qed.
Lemma e_host_set_buf bs s : e_host (set_buf bs s) = e_host s.
Proof. unfold set_buf. by destruct (buffer (device s)). Qed.
Lemma buffer_set_buf bs s : buffer (device (set_buf bs s)) = buffer (device s).
Proof. unfold set_buf. by destruct (buffer (device s)) eqn:E; cbn. Qed.
Lemma set_buf_twice bs bs' s : set_buf bs (set_buf bs' s) = set_buf bs s.
Proof. unfold set_buf. by destruct (buffer (device s)) eqn:E; cbn [with_dev device put_scr buffer]; rewrite ?E. Qed.
Lemma set_buf_with_host bs h s : set_buf bs (with_host h s) = with_host h (set_buf bs s).
Proof. unfold set_buf. cbn [with_host device]. by destruct (buffer (device s)). Qed.

Lemma buffer_bytes_run {B} (k : list Z -> M (emmc_t D) B) s :
  buffer (device s) <> BufNull -> (buffer_bytes ≫= k) s = k (buf_of s) s.
Proof.
  intros N. unfold buffer_bytes, buf_of, mbind, M_bind, dev, m_gets. by destruct (buffer (device s)).
Qed.

Lemma buffer_load_run off s :
  buffer (device s) <> BufNull -> (off + 4 <= length (buf_of s))%nat ->
  load_word off s = Done (le_val (take 4 (drop off (buf_of s))), s).
Proof.
  intros N L. unfold load_word. rewrite buffer_bytes_run by done.
  by rewrite (proj2 (Nat.ltb_ge _ _)) by done.
Qed.

Lemma buffer_store_run off v s :
  buffer (device s) <> BufNull -> (off + 4 <= length (buf_of s))%nat ->
  store_word off v s = Done (tt, set_buf (splice off (le_bytes 4 v) (buf_of s)) s).
Proof.
  intros N L. unfold store_word. rewrite buffer_bytes_run by done.
  rewrite (proj2 (Nat.ltb_ge _ _)) by done. cbv zeta. rewrite dev_run.
  unfold set_buf. by destruct (buffer (device s)).
Qed.

Lemma splice_splice {A} off (a b l : list A) :
  (off + length a <= length l)%nat ->
  splice (off + length a) b (splice off a l) = splice off (a ++ b) l.
Proof.
  intros L. unfold splice. rewrite length_app.
  rewrite take_app, length_take, Nat.min_l by lia.
  rewrite (take_ge (take off l)) by (rewrite length_take; lia).
  replace (off + length a - off)%nat with (length a) by lia. rewrite take_app_length, <-!app_assoc.
  do 3 f_equal. rewrite drop_app, length_take, Nat.min_l by lia.
  rewrite (drop_ge (take off l)) by (rewrite length_take; lia). rewrite app_nil_l.
  replace (off + length a + length b - off)%nat with (length a + length b)%nat by lia.
  rewrite drop_app, (drop_ge a) by lia. rewrite app_nil_l.
  replace (length a + length b - length a)%nat with (length b) by lia.
  rewrite drop_drop. f_equal. lia.
Qed.

Lemma word_bytes (bs : list Z) : bytes bs -> (4 <= length bs)%nat -> le_bytes 4 (le_val (take 4 bs)) = take 4 bs.
Proof.
  intros B L. rewrite <-(le_bytes_val (take 4 bs)) at 2 by by apply Forall_take.
  by rewrite length_take, Nat.min_l.
Qed.

Lemma get_data_run s :
  let h := e_host s in
  (4 <= length (h_fifo h))%nat ->
  get_data s = Done (le_val (take 4 (h_fifo h)),
    with_host (let h1 := h_put_port (drop 4 (h_fifo h)) false (h_xfer h) h in
               match drop 4 (h_fifo h) with [] => next_block h1 | _ => h1 end) s).
Proof.
  intros h L. unfold get_data. rewrite hst_run. unfold port_get. fold h.
  by rewrite (proj2 (Nat.ltb_ge _ _)) by done.
Qed.

Lemma read_word off s :
  let h := e_host s in
  (4 <= length (h_fifo h))%nat -> bytes (h_fifo h) -> buffer (device s) <> BufNull ->
  (off + 4 <= length (buf_of s))%nat ->
  (v ← get_data; store_word off v) s =
  Done (tt, with_host (let h1 := h_put_port (drop 4 (h_fifo h)) false (h_xfer h) h in
                       match drop 4 (h_fifo h) with [] => next_block h1 | _ => h1 end)
              (set_buf (splice off (take 4 (h_fifo h)) (buf_of s)) s)).
Proof.
  intros h L B N Lb. erewrite bind_done by by apply get_data_run.
  rewrite buffer_store_run by done. fold h. by rewrite word_bytes, set_buf_with_host by done.
Qed.

Lemma move_read (n : nat) off s :
  let h := e_host s in
  length (h_fifo h) = (4 * S n)%nat -> bytes (h_fifo h) -> buffer (device s) <> BufNull ->
  (off + 4 * S n <= length (buf_of s))%nat ->
  move_words (S n) false off s =
  Done (tt, with_host (next_block (h_put_port [] false (h_xfer h) h)) (set_buf (splice off (h_fifo h) (buf_of s)) s)).
Proof.
  revert off s; induction n as [|n IH]; intros off s h L B N Lb.
  all: pose proof (read_word off s) as R; cbv zeta in R; fold h in R.
  all: change (move_words (S ?n) false off s) with
         (((v ← get_data; store_word off v) ≫= fun _ => move_words n false (off + 4)) s).
  all: mrun (R ltac:(lia) B N ltac:(lia)).
  - by rewrite (drop_ge (h_fifo h)), (take_ge (h_fifo h)) by lia.
  - destruct (drop 4 (h_fifo h)) as [|y ys] eqn:Ed.
    { apply (f_equal length) in Ed. rewrite length_drop in Ed. simpl in Ed. lia. }
    assert (L4 : length (take 4 (h_fifo h)) = 4%nat) by (rewrite length_take; lia).
    rewrite <-Ed. set (bs1 := splice off (take 4 (h_fifo h)) (buf_of s)).
    set (h1 := h_put_port (drop 4 (h_fifo h)) false (h_xfer h) h).
    assert (B1 : buf_of (with_host h1 (set_buf bs1 s)) = bs1) by by apply (buf_of_set_buf bs1 s).
    rewrite (IH (off + 4)%nat (with_host h1 (set_buf bs1 s))); rewrite ?B1; cbn [e_host with_host h1 h_fifo h_put_port].
    + rewrite set_buf_with_host, set_buf_twice. unfold bs1. rewrite <-L4 at 1.
      rewrite splice_splice by (rewrite L4; lia). by rewrite take_drop.
    + rewrite length_drop. lia.
    + by apply Forall_drop.
    + cbn [device with_host]. by rewrite buffer_set_buf.
    + unfold bs1. rewrite length_splice by lia. lia.
Qed.

Lemma put_data_run v x s :
  let h := e_host s in
  h_xfer h = Some x -> h_room h = true ->
  put_data v s = Done (tt, with_host
    (let data := h_fifo h ++ le_bytes 4 v in
     if (length data <? 512)%nat then h_put_port data true (Some x) h
     else next_block (h_put_card (sec_put (x_sec x) data (h_card h)) (h_put_port [] false (Some x) h))) s).
Proof.
  intros h X R. unfold put_data. rewrite hst_run. unfold port_put. fold h. rewrite X, R. cbv zeta.
  by destruct (_ <? _)%nat.
Qed.

Lemma move_write (n : nat) off x s :
  let h := e_host s in
  (length (h_fifo h) + 4 * S n = 512)%nat -> bytes (buf_of s) -> buffer (device s) <> BufNull ->
  h_xfer h = Some x -> h_room h = true -> (off + 4 * S n <= length (buf_of s))%nat ->
  move_words (S n) true off s =
  Done (tt, with_host (next_block
    (h_put_card (sec_put (x_sec x) (h_fifo h ++ take (4 * S n) (drop off (buf_of s))) (h_card h))
       (h_put_port [] false (Some x) h))) s).
Proof.
  revert off s; induction n as [|n IH]; intros off s h L B N X R Lb.
  all: change (move_words (S ?n) true off s) with
         (((v ← load_word off; put_data v) ≫= fun _ => move_words n true (off + 4)) s).
  all: rewrite bind_assoc; mrun (buffer_load_run off s N ltac:(lia)).
  all: mrun (put_data_run (le_val (take 4 (drop off (buf_of s)))) x s X R); fold h.
  all: rewrite word_bytes by (try rewrite length_drop; (by apply Forall_drop) || lia).
  all: assert (L4 : length (take 4 (drop off (buf_of s))) = 4%nat) by (rewrite length_take, length_drop; lia).
  all: cbv zeta; rewrite length_app, L4.
  - rewrite (proj2 (Nat.ltb_ge _ _)) by lia. done.
  - rewrite (proj2 (Nat.ltb_lt _ _)) by lia.
    set (h1 := h_put_port _ _ _ _).
    rewrite (IH (off + 4)%nat (with_host h1 s)); cbn [e_host with_host device h1 h_fifo h_xfer h_room h_put_port];
      change (buf_of (with_host h1 s)) with (buf_of s); try done.
    + rewrite <-app_assoc, <-drop_drop. 
      replace (4 * S (S n))%nat with (4 + 4 * S n)%nat by lia. by rewrite <-take_take_drop.
    + rewrite length_app, L4. lia.
    + lia.
Qed.

(** ** Blocks of a transfer *)

Definition rdy (w : bool) : Z := if w then Z.shiftl 1 4 else Z.shiftl 1 5.

(** Between two blocks; a block is there; the sector is missing. *)
Definition between (v : view) (x : xfer) (len : Z) h : Prop :=
  on v h /\ h_due h = None /\ h_flags h = 0 /\ h_xfer h = Some x /\ Z.land (h_bsc h) 0x3ff = len.
Definition block_here (v : view) (x : xfer) (len : Z) (data : list Z) h : Prop :=
  on v h /\ h_due h = None /\ h_flags h = rdy (x_write x) /\ h_xfer h = Some x /\
  Z.land (h_bsc h) 0x3ff = len /\ h_fifo h = data /\ h_room h = x_write x.
Definition missing (v : view) h : Prop := on v h /\ h_due h = None /\ h_flags h = 2 ^ 20.

Definition block_data (v : view) (x : xfer) : list Z :=
  if x_scr x then k_scr (v_kind v) else if x_write x then [] else sec_get (v_card v) (x_sec x).
Definition block_ok (v : view) (x : xfer) : bool := x_scr x || sec_ok (v_card v) (x_sec x).

Lemma fire_block_here v x len h :
  between v x len h -> len = (if x_scr x then 8 else 512) -> (x_scr x = true -> x_write x = false) ->
  if block_ok v x then block_here v x len (block_data v x) (fire_block h) else missing v (fire_block h).
Proof.
  intros ((<- & Mk & Ck) & Du & Fl & X & Bs) Hl Hs. unfold fire_block, block_ok, block_data.
  rewrite X, Bs, <-Hl, Z.eqb_refl. cbn [negb view_of v_card v_kind].
  destruct (x_scr x) eqn:Es; cbn [orb].
  { split; [done|]. rewrite (Hs eq_refl). unfold raise. cbn [h_put_flags h_flags h_put_port h_due h_mask h_xfer h_bsc].
    rewrite Fl, Mk. done. }
  destruct (sec_ok _ _) eqn:Eo; cbn [negb].
  - destruct (x_write x) eqn:Ew; (split; [done|]); unfold raise;
      cbn [h_put_flags h_flags h_put_port h_due h_mask h_xfer h_bsc]; rewrite Fl, Mk, Ew; done.
  - split; [done|]. unfold raise. cbn [h_put_flags h_flags h_put_port h_due h_mask]. by rewrite Fl, Mk.
Qed.

Lemma next_block_more v w sec n h :
  between v (mkXfer w false sec (S (S n))) 512 h ->
  let x := mkXfer w false (sec + 1) (S n) in
  soon (fun h => if block_ok v x then block_here v x 512 (block_data v x) h else missing v h) EvBlock (next_block h).
Proof.
  intros (On & Du & Fl & X & Bs) x. unfold next_block. rewrite X.
  apply owe_data_soon; [done|done|]. by apply fire_block_here.
Qed.

Lemma next_block_last v w scr sec len h :
  between v (mkXfer w scr sec 1) len h -> soon (done_here v) EvDone (next_block h).
Proof.
  intros (On & Du & Fl & X & Bs). unfold next_block. rewrite X.
  apply owe_data_soon; [done|done|]. by apply fire_done_here.
Qed.

(** One turn of the loop, up to the words. *)
Lemma transfer_turn v x len data blocks off s :
  soon (block_here v x len data) EvBlock (e_host s) ->
  exists h1, between v x len h1 /\ h_fifo h1 = data /\ h_room h1 = x_write x /\
    transfer_loop (S blocks) (x_write x) (rdy (x_write x)) off s =
    (let words := Z.to_nat (block_size (device s) / 4) in
     move_words words (x_write x) off;;
     transfer_loop blocks (x_write x) (rdy (x_write x)) (off + 4 * words)) (with_host h1 s).
Proof.
  intros So. destruct (wait_soon _ _ (Z.lor (rdy (x_write x)) 0x8000) _ So) as (h' & Bh & W).
  { intros h (_ & _ & Fl & _). unfold flags_value. rewrite Fl. by destruct (x_write x). }
  destruct Bh as (On & Du & Fl & X & Bs & Fi & Ro).
  exists (clear (Z.lor (rdy (x_write x)) 0x8000) h'). split; [|split; [done|split; [done|]]].
  { split; [done|]. split; [done|]. split; [|done]. unfold clear. cbn [h_put_flags h_flags]. rewrite Fl.
    by destruct (x_write x). }
  cbn [transfer_loop]. mrun W. unfold int_flags, set_int_flags. rewrite hst_run, set_host_run.
  cbn [e_host with_host].
  assert (E : negb (Z.land (flags_value h') (Z.lor 0xffff0000 (rdy (x_write x))) =? rdy (x_write x)) = false).
  { unfold flags_value. rewrite Fl. by destruct (x_write x). }
  rewrite E. done.
Qed.

Lemma transfer_missing v w blocks off s :
  soon (missing v) EvBlock (e_host s) ->
  exists h1, missing v h1 /\
    transfer_loop (S blocks) w (rdy w) off s =
    Done (false, with_host h1 (with_dev (put_error 0x100000 0x108000 (device s)) s)).
Proof.
  intros So. destruct (wait_soon _ _ (Z.lor (rdy w) 0x8000) _ So) as (h' & (On & Du & Fl) & W).
  { intros h (_ & _ & Fl). unfold flags_value. rewrite Fl. by destruct w. }
  exists (clear (Z.lor (rdy w) 0x8000) h'). split.
  { split; [done|]. split; [done|]. unfold clear. cbn [h_put_flags h_flags]. rewrite Fl. by destruct w. }
  cbn [transfer_loop]. mrun W. unfold int_flags, set_int_flags. rewrite hst_run, set_host_run.
  cbn [e_host with_host].
  assert (Fv : flags_value h' = 0x108000) by (unfold flags_value; by rewrite Fl).
  rewrite Fv. by destruct w.
Qed.

Lemma end_transfer_missing v s :
  missing v (e_host s) ->
  exists h', quiet v h' /\
    end_transfer s = Done (false, with_host h' (with_dev (put_error 0x100000 0x108000 (device s)) s)).
Proof.
  intros (On & Du & Fl). destruct (wait_soon (missing v) EvBlock 0x8002 s) as (h' & Mi & W).
  { left. done. }
  { intros h (_ & _ & Fl'). unfold flags_value. by rewrite Fl'. }
  destruct Mi as (On' & Du' & Fl'). exists (clear 0xFFFF0002 h'). split.
  { split; [done|]. split; [done|]. unfold clear. cbn [h_put_flags h_flags]. by rewrite Fl'. }
  unfold end_transfer. mrun W. unfold int_flags, set_int_flags. rewrite hst_run, set_host_run.
  cbn [e_host with_host].
  assert (Fv : flags_value h' = 0x108000) by (unfold flags_value; by rewrite Fl').
  rewrite Fv. done.
Qed.

(** ** Whole transfers *)

Definition moved (w : bool) (sec : Z) (n : nat) (data : list Z) (v : view) : view :=
  if w then mkView (v_kind v) (put_sectors sec n data (v_card v)) (v_state v) (v_app v) (v_busy v) else v.
Definition landed (w : bool) (off : nat) (data : list Z) s : emmc_t D :=
  if w then s else set_buf (splice off data (buf_of s)) s.

(** What survives a transfer that fails. *)
Record kept s s' : Prop := {
  kept_size : block_size (device s') = block_size (device s);
  kept_blocks : transfer_blocks (device s') = transfer_blocks (device s);
  kept_buffer : buffer (device s') = buffer (device s);
  kept_sdhc : sdhc (device s') = sdhc (device s);
  kept_rca : rca (device s') = rca (device s);
  kept_len : length (buf_of s') = length (buf_of s);
  kept_bytes : bytes (buf_of s) -> bytes (buf_of s')
}.
Record similar (v v' : view) : Prop := {
  sim_kind : v_kind v' = v_kind v; sim_state : v_state v' = v_state v;
  sim_app : v_app v' = v_app v; sim_busy : v_busy v' = v_busy v;
  sim_ok : forall l, sec_ok (v_card v') l = sec_ok (v_card v) l
}.

Lemma kept_trans s1 s2 s3 : kept s1 s2 -> kept s2 s3 -> kept s1 s3.
Proof. intros [] []. split; try congruence; auto. Qed.
Lemma similar_trans v1 v2 v3 : similar v1 v2 -> similar v2 v3 -> similar v1 v3.
Proof. intros [] []. split; congruence. Qed.
Lemma similar_refl v : similar v v.
Proof. by split. Qed.
Lemma similar_moved w sec n data v : similar v (moved w sec n data v).
Proof. destruct w; [|done]. split; try done. intros l. apply sec_ok_put_sectors. Qed.
Lemma kept_with_host h s : kept s (with_host h s).
Proof. by split. Qed.

Lemma bytes_splice n (src dst : list Z) : bytes src -> bytes dst -> bytes (splice n src dst).
Proof.
  intros Bs Bd. unfold splice. apply Forall_app_2; [by apply Forall_take|].
  apply Forall_app_2; [done|by apply Forall_drop].
Qed.

Lemma kept_landed w off data s :
  buffer (device s) <> BufNull -> (off + length data <= length (buf_of s))%nat -> bytes data ->
  kept s (landed w off data s).
Proof.
  intros N L B. destruct w; [by split|]. unfold landed. split; rewrite ?buffer_set_buf, ?buf_of_set_buf by done.
  1-5: unfold set_buf; by destruct (buffer (device s)).
  - by rewrite length_splice.
  - intros Bs. by apply bytes_splice.
Qed.

(** One sector: the words are moved and the controller goes on. *)
Lemma sector_run v w sec n blocks off s :
  let x := mkXfer w false sec (S n) in
  soon (block_here v x 512 (block_data v x)) EvBlock (e_host s) ->
  block_size (device s) = 512 -> buffer (device s) <> BufNull ->
  (off + 512 <= length (buf_of s))%nat -> bytes (buf_of s) ->
  exists h2, between (moved w sec 1 (drop off (buf_of s)) v) x 512 h2 /\
    transfer_loop (S blocks) w (rdy w) off s =
    transfer_loop blocks w (rdy w) (off + 512)
      (with_host (next_block h2) (landed w off (sec_get (v_card v) sec) s)).
Proof.
  intros x So Bz N L B. destruct (transfer_turn _ _ _ _ blocks off _ So) as (h1 & Bt & Fi & Ro & E).
  destruct Bt as ((V & Mk & Ck) & Du & Fl & X & Bs). cbn [x x_write] in E, Ro.
  rewrite Bz in E. change (Z.to_nat (512 / 4)) with 128%nat in E.
  assert (Fi' : h_fifo h1 = if w then [] else sec_get (v_card v) sec) by (rewrite Fi; by destruct w).
  destruct w.
  - pose proof (move_write 127 off x (with_host h1 s)) as R. cbn [e_host with_host device] in R.
    change (buf_of (with_host h1 s)) with (buf_of s) in R. rewrite Fi' in R. specialize (R ltac:(done) B N X Ro L).
    eexists. split; [|rewrite E; cbv zeta; mrun R; reflexivity].
    subst v. split; [|done]. split; [|done]. unfold moved. cbn [put_sectors].
    rewrite app_nil_l. reflexivity.
  - pose proof (move_read 127 off (with_host h1 s)) as R. cbn [e_host with_host device] in R.
    change (buf_of (with_host h1 s)) with (buf_of s) in R. rewrite Fi' in R.
    specialize (R (length_sec_get _ _) (sec_get_bytes _ _) N L).
    eexists. split; [|rewrite E; cbv zeta; mrun R; unfold landed; rewrite set_buf_with_host; reflexivity].
    subst v. done.
Qed.

Lemma forallb_same {A} (f g : A -> bool) l : (forall x, f x = g x) -> forallb f l = forallb g l.
Proof. intros E. induction l as [|x l IH]; cbn [forallb]; [done|]. by rewrite E, IH. Qed.

(** The sectors of a transfer are there, or the first that is not stops it. *)
Definition owed (w : bool) (v : view) (sec : Z) (n : nat) h : Prop :=
  let x := mkXfer w false sec n in
  soon (fun h => if block_ok v x then block_here v x 512 (block_data v x) h else missing v h) EvBlock h.

Definition transferred (w : bool) (v : view) (sec : Z) (n off : nat) s (r : res (bool * emmc_t D)) : Prop :=
  if forallb (sec_ok (v_card v)) (seqZ sec (Z.of_nat n)) then
    exists h', soon (done_here (moved w sec n (drop off (buf_of s)) v)) EvDone h' /\
      r = Done (true, with_host h' (landed w off (sectors (v_card v) sec n) s))
  else
    exists s' v', r = Done (false, s') /\ missing v' (e_host s') /\ kept s s' /\ similar v v'.

Lemma transferred_cons w v sec n off h s r :
  let v1 := moved w sec 1 (drop off (buf_of s)) v in
  let s1 := with_host h (landed w off (sec_get (v_card v) sec) s) in
  sec_ok (v_card v) sec = true -> buffer (device s) <> BufNull -> (off + 512 <= length (buf_of s))%nat ->
  transferred w v1 (sec + 1) n (off + 512) s1 r ->
  transferred w v sec (S n) off s r.
Proof.
  intros v1 s1 Ok N L. unfold transferred.
  rewrite (seqZ_cons sec (Z.of_nat (S n))) by lia. replace (Z.pred (Z.of_nat (S n))) with (Z.of_nat n) by lia.
  replace (Z.succ sec) with (sec + 1) by lia. cbn [forallb]. rewrite Ok, andb_true_l.
  pose proof (similar_moved w sec 1 (drop off (buf_of s)) v) as Sm. fold v1 in Sm.
  rewrite (forallb_same (sec_ok (v_card v1)) (sec_ok (v_card v))) by apply Sm.
  pose proof (kept_landed w off (sec_get (v_card v) sec) s N) as Kl.
  rewrite length_sec_get in Kl. specialize (Kl L (sec_get_bytes _ _)).
  destruct (forallb _ _).
  - intros (h' & So & E). exists h'. rewrite sectors_S. subst v1 s1. destruct w; cbn [moved landed] in *.
    + split; [|exact E]. cbn [put_sectors] in *. by rewrite drop_drop.
    + split; [done|]. rewrite E. change (buf_of (with_host h ?x)) with (buf_of x).
      rewrite buf_of_set_buf, !set_buf_with_host, set_buf_twice by done.
      rewrite <-(length_sec_get (v_card v) sec) at 1. by rewrite splice_splice by (rewrite length_sec_get; lia).
  - intros (s' & v' & E & Mi & K & S'). exists s', v'. split; [done|]. split; [done|]. split.
    + eapply kept_trans; [exact Kl|]. eapply kept_trans; [apply kept_with_host|exact K].
    + by eapply similar_trans.
Qed.

Lemma buffer_landed w off data s : buffer (device (landed w off data s)) = buffer (device s).
Proof. destruct w; [done|]. apply buffer_set_buf. Qed.

Lemma transferred_nil w v sec off s :
  soon (done_here v) EvDone (e_host s) -> buffer (device s) <> BufNull ->
  transferred w v sec 0 off s (Done (true, s)).
Proof.
  intros So N. unfold transferred. cbn [forallb seqZ seq fmap list_fmap]. exists (e_host s). split.
  - unfold moved. destruct w; [|done]. by destruct v.
  - f_equal. f_equal. destruct w; cbn [landed]; [by destruct s|].
    unfold sectors. cbn [seqZ seq fmap list_fmap concat]. unfold splice. rewrite app_nil_l, Nat.add_0_r, take_drop.
    unfold set_buf, buf_of. destruct s as [[? ? ? ? ? ? ? ? ? []]]; done.
Qed.

Lemma transferred_missing w v sec n off s :
  soon (missing v) EvBlock (e_host s) -> sec_ok (v_card v) sec = false ->
  transferred w v sec (S n) off s (transfer_loop (S n) w (rdy w) off s).
Proof.
  intros So Ok. destruct (transfer_missing v w n off s So) as (h1 & Mi & E). rewrite E. unfold transferred.
  rewrite seqZ_cons by lia. cbn [forallb]. rewrite Ok. cbn [andb].
  eexists _, v. split; [reflexivity|]. split; [exact Mi|]. split; [by split|apply similar_refl].
Qed.

Lemma blocks_transfer_run w n v sec off s :
  owed w v sec (S n) (e_host s) ->
  block_size (device s) = 512 -> buffer (device s) <> BufNull ->
  (off + 512 * S n <= length (buf_of s))%nat -> bytes (buf_of s) ->
  transferred w v sec (S n) off s (transfer_loop (S n) w (rdy w) off s).
Proof.
  revert v sec off s; induction n as [|n IH]; intros v sec off s Ow Bz N L B.
  all: unfold owed, block_ok in Ow; cbn [x_scr x_sec orb] in Ow.
  all: destruct (sec_ok (v_card v) sec) eqn:Ok.
  2,4: by apply transferred_missing.
  - destruct (sector_run _ _ _ _ O off s Ow Bz N ltac:(lia) B) as (h2 & Bt & E). rewrite E.
    apply transferred_cons with (h := next_block h2); [done|done|lia|].
    apply transferred_nil; [by apply (next_block_last _ _ _ _ _ _ Bt)|].
    cbn [with_host device]. by rewrite buffer_landed.
  - destruct (sector_run _ _ _ _ (S n) off s Ow Bz N ltac:(lia) B) as (h2 & Bt & E). rewrite E.
    apply transferred_cons with (h := next_block h2); [done|done|lia|].
    assert (K : kept s (with_host (next_block h2) (landed w off (sec_get (v_card v) sec) s))).
    { eapply kept_trans; [|apply kept_with_host].
      apply kept_landed; [done|rewrite length_sec_get; lia|apply sec_get_bytes]. }
    apply IH.
    + apply (next_block_more _ _ _ _ _ Bt).
    + by rewrite (kept_size _ _ K).
    + by rewrite (kept_buffer _ _ K).
    + rewrite (kept_len _ _ K). lia.
    + by apply (kept_bytes _ _ K).
Qed.

(** ** Commands with data *)

(** What a data command does: all the sectors, or a failure. *)
Definition outcome (w : bool) (v : view) (sec : Z) (n : nat) s (r : res (bool * emmc_t D)) : Prop :=
  if forallb (sec_ok (v_card v)) (seqZ sec (Z.of_nat n)) then
    exists s', r = Done (true, s') /\ quiet (moved w sec n (e_mem s) v) (e_host s') /\ kept s s' /\
      e_mem s' = if w then e_mem s else splice 0 (sectors (v_card v) sec n) (e_mem s)
  else
    exists s' v', r = Done (false, s') /\ quiet v' (e_host s') /\ kept s s' /\ similar v v'.

(** The driver is set up for [n] sectors of the caller's buffer. *)
Record prepared (n : nat) s : Prop := {
  prep_size : block_size (device s) = 512;
  prep_blocks : transfer_blocks (device s) = Z.of_nat n;
  prep_buffer : buffer (device s) = BufCaller;
  prep_len : (512 * n <= length (e_mem s))%nat;
  prep_bytes : bytes (e_mem s)
}.

Definition data_cmd (c : emmc_cmd) (w : bool) : Prop :=
  reg_matches c = true /\ is_data c <> 0 /\ response_type c = RT48 /\
  direction c = (if w then 0 else 1).

Lemma data_finish c w n v sec hw s :
  data_cmd c w -> prepared (S n) s ->
  Z.land (flags_value hw) 0xFFFF0001 = 1 -> owed w v sec (S n) (clear 0xFFFF0001 hw) ->
  outcome w v sec (S n) s (finish_command c (with_host hw s)).
Proof.
  intros (Mt & Dt & Rt & Dr) [Bz Bl Bu Ln By] L1 Ow. rewrite finish_command_run by done.
  rewrite Rt, (proj2 (Z.eqb_neq _ _) Dt). cbn [negb].
  change ((RT48 =? RT48Busy) || true) with true. cbv iota.
  set (s1 := with_host _ _).
  assert (Bs1 : buf_of s1 = e_mem s) by (unfold buf_of; cbn; by rewrite Bu).
  assert (Dd : do_data_transfer c s1 = transfer_loop (S n) w (rdy w) 0 s1).
  { unfold do_data_transfer. cbv zeta. rewrite Dr, dev_run. cbn [s1 with_host with_dev device put_response transfer_blocks].
    rewrite Bl, Nat2Z.id. by destruct w. }
  pose proof (blocks_transfer_run w n v sec 0 s1 Ow) as T. cbn [s1 with_host with_dev device put_response buffer block_size] in T.
  fold s1 in T. rewrite Bs1, Bu in T. specialize (T Bz ltac:(done) Ln By). rewrite <-Dd in T.
  unfold outcome. unfold transferred in T. rewrite Bs1, drop_0 in T. destruct (forallb _ _) eqn:Ef.
  - destruct T as (h' & So & E). rewrite bind_assoc. mrun E. rewrite ret_run.
    destruct (end_transfer_run _ (with_host h' (landed w 0 (sectors (v_card v) sec (S n)) s1)) So) as (h2 & Q & Et).
    eexists. split; [exact Et|]. split; [exact Q|].
    assert (K : kept s1 (landed w 0 (sectors (v_card v) sec (S n)) s1)).
    { apply kept_landed; [cbn; by rewrite Bu| |apply sectors_bytes]. rewrite length_sectors, Bs1. lia. }
    split.
    + destruct K as [K1 K2 K3 K4 K5 K6 K7]. split; try done.
    + destruct w; [done|]. cbn [landed]. rewrite Bs1. unfold set_buf. cbn [s1 with_host with_dev device put_response buffer].
      by rewrite Bu.
  - destruct T as (s' & v' & E & Mi & K & Sm). rewrite bind_assoc. mrun E. rewrite ret_run.
    destruct (end_transfer_missing _ _ Mi) as (h2 & Q & Et).
    eexists _, v'. split; [exact Et|]. split; [exact Q|]. split; [|done].
    destruct K as [K1 K2 K3 K4 K5 K6 K7]. by split.
Qed.

Definition data_index (w many : bool) : Z :=
  if w && many then CTWriteMultiple else if w then CTWriteBlock else if many then CTReadMultiple else CTReadBlock.
Definition data_command (w many : bool) : emmc_cmd :=
  let m := if many then 1 else 0 in mkCmd 0 m m (if w then 0 else 1) m 0 RT48 0 1 0 1 0 (data_index w many) 0.

Lemma data_command_lookup w many : commands !! Z.to_nat (data_index w many) = Some (data_command w many).
Proof. by destruct w, many. Qed.
Lemma data_command_ok w many : data_cmd (data_command w many) w.
Proof. by destruct w, many. Qed.

(** The address of a sector, as the card wants it. *)
Definition address (k : card_kind) (sec : Z) : Z := if k_hc k then sec else sec * 512.

Lemma card_cmd_data w many sec nb h :
  h_app h = false -> h_state h = 4 ->
  card_cmd (data_index w many) (address (h_kind h) sec) many nb h =
  Some (RT48, [card_status h],
    h_put_port [] false (Some (mkXfer w false sec (if many then Z.to_nat nb else 1%nat))) (h_put_proto 4 false (h_busy h) h)).
Proof.
  intros A S4. assert (E : card_data w many many nb (address (h_kind h) sec) h =
    Some (RT48, [card_status h],
      h_put_port [] false (Some (mkXfer w false sec (if many then Z.to_nat nb else 1%nat))) (h_put_proto 4 false (h_busy h) h))).
  { unfold card_data, address. rewrite S4. destruct (k_hc (h_kind h)); cbn [negb orb Z.eqb Pos.eqb].
    - by destruct many.
    - rewrite Z_mod_mult, Z_div_mult by lia. by destruct many. }
  rewrite <-E. unfold card_cmd. rewrite A, S4. by destruct w, many.
Qed.

Lemma bsc_count n : 0 <= n -> Z.shiftr (Z.lor 512 (Z.shiftl n 16)) 16 = n.
Proof. intros Hn. by rewrite Z.shiftr_lor, Z.shiftr_shiftl_l, Z.shiftl_0_r by lia. Qed.
Lemma bsc_size n : Z.land (Z.lor 512 (Z.shiftl n 16)) 0x3ff = 512.
Proof.
  rewrite Z.land_lor_distr_l. change (Z.land 512 0x3ff) with 512.
  replace (Z.land (Z.shiftl n 16) 0x3ff) with 0; [done|].
  change 0x3ff with (Z.ones 10). rewrite Z.land_ones, Z.shiftl_mul_pow2 by lia.
  change (2 ^ 16) with (2 ^ 6 * 2 ^ 10). by rewrite Z.mul_assoc, Z_mod_mult.
Qed.

(** At the end of the command the controller owes the first block. *)
Lemma fire_data w n v sec h :
  let c := data_command w (1 <? Z.of_nat (S n)) in
  armed v (Z.lor 512 (Z.shiftl (Z.of_nat (S n)) 16)) h -> v_state v = 4 -> v_app v = false ->
  exists h2, fire_cmd (TO_REG c) (address (v_kind v) sec) h = owe_data EvBlock fire_block h2 /\
    on v h2 /\ h_due h2 = None /\ h_flags h2 = 1 /\ h_xfer h2 = Some (mkXfer w false sec (S n)) /\
    Z.land (h_bsc h2) 0x3ff = 512.
Proof.
  intros c [(<- & Mk & Ck) Du Fl Po Bs] S4 A. cbn [view_of v_state v_app v_kind] in *.
  set (many := 1 <? Z.of_nat (S n)) in *.
  pose proof (card_cmd_data w many sec (if many then Z.of_nat (S n) else 1) h A S4) as E.
  set (h1 := h_put_port _ _ _ _) in E.
  assert (X1 : h_xfer h1 = Some (mkXfer w false sec (S n))).
  { unfold h1. cbn [h_put_port h_xfer]. do 2 f_equal. subst many. destruct (Z.ltb_spec 1 (Z.of_nat (S n))); lia. }
  exists (raise SD_COMMAND_COMPLETE (h_put_resp [card_status h] h1)). split; [|split; [|split; [|split; [|split]]]].
  - unfold fire_cmd. cbv zeta. rewrite Bs, bsc_count by lia.
    assert (C : forall b : bool, Z.land (Z.shiftr (TO_REG (data_command w b)) 24) 63 = data_index w b /\
      Z.land (Z.shiftr (TO_REG (data_command w b)) 16) 3 = RT48 /\
      (Z.land (Z.shiftr (TO_REG (data_command w b)) 2) 3 =? 1) = b /\
      Z.testbit (TO_REG (data_command w b)) 5 && Z.testbit (TO_REG (data_command w b)) 1 = b /\
      Z.testbit (TO_REG (data_command w b)) 21 = true /\
      Z.testbit (TO_REG (data_command w b)) 4 = negb w /\ (data_index w b =? 41) = false) by (intros []; by destruct w).
    destruct (C many) as (C1 & C2 & C3 & C4 & C5 & C6 & C7). subst c. rewrite C1, C2, C3, C4, E, C7, C5, C6.
    cbn [negb Z.eqb Pos.eqb andb]. change (RT48 =? RT48) with true. change (RT48 =? RT48Busy) with false. cbn [negb andb].
    unfold raise at 1. cbn [h_put_flags h_xfer h_put_resp]. rewrite X1. cbn [x_write]. by rewrite eqb_reflx.
  - split; [|done]. unfold view_of, h1. cbn. by rewrite S4, A.
  - done.
  - unfold raise. cbn [h_put_flags h_flags h_put_resp h1 h_put_port h_put_proto h_mask]. by rewrite Fl, Mk.
  - done.
  - cbn [raise h_put_flags h_bsc h_put_resp h1 h_put_port h_put_proto]. rewrite Bs. apply bsc_size.
Qed.

(** The first block is owed, and may be there when the driver sees the end of the command. *)
Lemma fire_block_flag x len h :
  h_mask h = ALL -> h_xfer h = Some x -> Z.land (h_bsc h) 0x3ff = len -> len = (if x_scr x then 8 else 512) ->
  h_flags h = 1 ->
  fire_block h = h_put_flags (Z.lor 1 (h_flags (fire_block (h_put_flags 0 h)))) (fire_block (h_put_flags 0 h)).
Proof.
  intros Mk X Bs Hl Fl. unfold fire_block. cbn [h_put_flags h_xfer h_bsc h_kind h_card].
  rewrite X, Bs, <-Hl, Z.eqb_refl. cbn [negb]. unfold raise.
  destruct (x_scr x); [|destruct (negb _); [|destruct (x_write _)]];
    cbn [h_put_flags h_put_port h_flags h_mask]; rewrite Fl, Mk; done.
Qed.

Lemma first_block v x len h :
  on v h -> h_due h = None -> h_flags h = 1 -> h_xfer h = Some x -> Z.land (h_bsc h) 0x3ff = len ->
  len = (if x_scr x then 8 else 512) -> (x_scr x = true -> x_write x = false) ->
  let hw := owe_data EvBlock fire_block h in
  Z.land (flags_value hw) 0x8001 <> 0 /\
  ((Z.land (flags_value hw) 0xFFFF0001 = 1 /\
    soon (fun h => if block_ok v x then block_here v x len (block_data v x) h else missing v h) EvBlock
         (clear 0xFFFF0001 hw)) \/
   (block_ok v x = false /\ flags_value hw = 0x108001 /\ quiet v (clear 0xFFFF0001 hw))).
Proof.
  intros On Du Fl X Bs Hl Hs hw. set (h0 := h_put_due None (S (h_n h)) h).
  assert (Bt : between v x len (h_put_flags 0 h0)) by done.
  pose proof (fire_block_flag x len h0 (proj1 (proj2 On)) X Bs Hl Fl) as Fb.
  pose proof (fire_block_here v x len _ Bt Hl Hs) as Fh.
  destruct (block_ok v x) eqn:Ok.
  - destruct Fh as (On' & Du' & Fl' & R). set (b := rdy (x_write x)) in *.
    assert (Ff : h_flags (fire_block h0) = Z.lor 1 b) by (rewrite Fb; cbn [h_put_flags h_flags]; by rewrite Fl').
    destruct (owe_flags EvBlock fire_block h b) as [L1 L2];
      [done|done|exact Ff|subst b; destruct (x_write x); cbn; tauto|].
    split; [exact L2|left]. split; [exact L1|]. apply owe_cmd_soon; try done.
    fold h0. rewrite Fb. unfold clear. cbn [h_put_flags h_flags]. rewrite Fl'.
    split; [exact On'|]. split; [exact Du'|]. split; [subst b; by destruct (x_write x)|]. exact R.
  - assert (Ff : h_flags (fire_block h0) = 0x100001).
    { rewrite Fb. cbn [h_put_flags h_flags]. by rewrite (proj2 (proj2 Fh)). }
    destruct (owe_data_cases EvBlock fire_block h) as [E|(l & Hl' & E & E')]; [done| |].
    + unfold hw. rewrite E. fold h0. unfold flags_value. rewrite Ff. split; [done|right].
      split; [done|]. split; [done|]. rewrite Fb. destruct Fh as (On' & Du' & Fl'). split; [done|]. split; [done|].
      unfold clear. cbn [h_put_flags h_flags]. by rewrite Fl'.
    + assert (Fv : flags_value hw = 1).
      { unfold hw. rewrite E. unfold flags_value. cbn [h_put_due h_flags]. by rewrite Fl. }
      rewrite Fv. split; [done|left]. split; [done|]. right. exists l.
      unfold hw. rewrite E. unfold clear. cbn [h_put_due h_put_flags h_flags h_due]. rewrite Fl.
      do 3 (split; [done|]). exact Fh.
Qed.

Lemma data_run w n v sec t s :
  quiet v (e_host s) -> v_state v = 4 -> v_app v = false -> prepared (S n) s -> Z.of_nat (S n) <= 65535 -> 200 <= t ->
  outcome w v sec (S n) s
    (emmc_issue_command (data_command w (1 <? Z.of_nat (S n))) (address (v_kind v) sec) t s).
Proof.
  intros Q S4 A P Hn Ht. pose proof P as [Bz Bl Bu Ln By].
  set (c := data_command w _). set (arg := address _ _).
  destruct (issue_armed v c arg t s Q ltac:(lia) Ht) as (h0 & Ar & E).
  unfold bsc_of in Ar. rewrite Bz, Bl in Ar.
  destruct (fire_data w n v sec h0 Ar S4 A) as (h2 & F & On & Du & Fl & X & Bs). fold c arg in F.
  destruct (first_block v _ 512 h2 On Du Fl X Bs eq_refl ltac:(done)) as [L2 Cs]. rewrite E, F by (rewrite F; done).
  set (s1 := with_dev (put_command_value (TO_REG c) (device s)) s).
  assert (Ks : kept s s1) by done.
  destruct Cs as [[L1 Ow]|(Ok & Fv & Qc)].
  - pose proof (data_finish c w n v sec _ s1 (data_command_ok _ _) ltac:(by split) L1 Ow) as O.
    unfold outcome in *. destruct (forallb _ _).
    + destruct O as (s' & E1 & Q1 & K1 & M1). exists s'. split; [done|]. split; [done|]. split; [|done].
      by eapply kept_trans.
    + destruct O as (s' & v' & E1 & Q1 & K1 & Sm). exists s', v'. split; [done|]. split; [done|]. split; [|done].
      by eapply kept_trans.
  - unfold outcome. rewrite seqZ_cons by lia. cbn [forallb]. change (sec_ok (v_card v) sec = false) in Ok. rewrite Ok. cbn [andb].
    eexists _, v. split.
    + unfold finish_command, int_flags, set_int_flags. rewrite hst_run, set_host_run. cbn [e_host with_host].
      rewrite Fv. reflexivity.
    + split; [exact Qc|]. split; [done|apply similar_refl].
Qed.

(** ** Reading and writing sectors *)

Lemma emmc_command_data w many arg t s :
  emmc_command (data_index w many) arg t s =
  emmc_issue_command (data_command w many) arg t (with_dev (put_command (data_command w many) (device s)) s).
Proof.
  unfold emmc_command. rewrite data_command_lookup. by destruct w, many.
Qed.

(** A step that keeps the data can be put in front. *)
Lemma outcome_kept w v sec n s s0 r :
  kept s s0 -> e_mem s0 = e_mem s -> outcome w v sec n s0 r -> outcome w v sec n s r.
Proof.
  intros K Em. unfold outcome. rewrite Em. destruct (forallb _ _).
  - intros (s' & E & Q & K' & M'). exists s'. split; [done|]. split; [done|]. split; [by eapply kept_trans|done].
  - intros (s' & v' & E & Q & K' & Sm). exists s', v'. split; [done|]. split; [done|]. split; [by eapply kept_trans|done].
Qed.

Lemma prepared_kept n s s' : kept s s' -> prepared n s -> prepared n s'.
Proof.
  intros [K1 K2 K3 K4 K5 K6 K7] [Bz Bl Bu Ln By]. unfold buf_of in K6, K7. rewrite K3, Bu in K6, K7.
  split; [congruence|congruence|congruence|lia|by apply K7].
Qed.

Lemma retry_run m w n v sec s :
  quiet v (e_host s) -> v_state v = 4 -> v_app v = false -> prepared (S n) s -> Z.of_nat (S n) <= 65535 ->
  outcome w v sec (S n) s
    (retry_loop (S m) (data_index w (1 <? Z.of_nat (S n))) (address (v_kind v) sec) s).
Proof.
  revert v s; induction m as [|m IH]; intros v s Q S4 A P Hn.
  all: set (many := 1 <? Z.of_nat (S n)); set (s0 := with_dev (put_command (data_command w many) (device s)) s).
  all: pose proof (data_run w n v sec 5000 s0 Q S4 A ltac:(by destruct P; split) Hn ltac:(lia)) as O.
  all: apply (outcome_kept _ _ _ _ s) in O; [|done|done]; fold many in O.
  all: unfold s0 in O; rewrite <-emmc_command_data in O; unfold outcome in *; destruct (forallb _ _) eqn:Ef.
  1,3: destruct O as (s' & E & R); exists s'; split; [|done]; cbn [retry_loop]; by mrun E.
  - destruct O as (s' & v' & E & R). exists s', v'. split; [|done]. cbn [retry_loop]. by mrun E.
  - destruct O as (s' & v' & E & Q' & K & Sm).
    specialize (IH v' s' Q' ltac:(by rewrite (sim_state _ _ Sm)) ltac:(by rewrite (sim_app _ _ Sm))
                  (prepared_kept _ _ _ K P) Hn).
    rewrite (forallb_same _ _ _ (sim_ok _ _ Sm)), Ef, (sim_kind _ _ Sm) in IH.
    destruct IH as (s2 & v2 & E2 & Q2 & K2 & Sm2). exists s2, v2. split; [|split; [done|split]].
    + change (retry_loop (S (S m)) ?i ?a s) with
        ((emmc_command i a 5000 ≫= fun ok => if ok : bool then mret true else retry_loop (S m) i a) s).
      mrun E. exact E2.
    + by eapply kept_trans.
    + by eapply similar_trans.
Qed.

(** Too many blocks: no attempt gets as far as the controller. *)
Lemma retry_too_many m w many arg s :
  0xFFFF < transfer_blocks (device s) ->
  exists s', retry_loop (S m) (data_index w many) arg s = Done (false, s').
Proof.
  revert s; induction m as [|m IH]; intros s Hb.
  all: assert (E : emmc_command (data_index w many) arg 5000 s =
         Done (false, with_dev (put_command_value (TO_REG (data_command w many))
                        (put_command (data_command w many) (device s))) s))
    by (rewrite emmc_command_data; unfold emmc_issue_command; rewrite set_device_run, dev_run;
        cbn [with_dev device put_command put_command_value transfer_blocks];
        by rewrite (proj2 (Z.ltb_lt _ _)) by done).
  - eexists. cbn [retry_loop]. by mrun E.
  - change (retry_loop (S (S m)) ?i ?a s) with
        ((emmc_command i a 5000 ≫= fun ok => if ok : bool then mret true else retry_loop (S m) i a) s).
    mrun E. by apply IH.
Qed.

(** The driver is ready for a card of kind [k] with the sectors [c]. *)
Record ready (k : card_kind) (c : D) s : Prop := {
  ready_quiet : exists b, quiet (mkView k c 4 false b) (e_host s);
  ready_size : block_size (device s) = 512;
  ready_sdhc : sdhc (device s) = k_hc k;
  ready_bytes : bytes (e_mem s)
}.

(** The sectors the card can be asked for. *)
Definition reachable (k : card_kind) (lba n : Z) : Prop :=
  0 <= lba /\ 0 <= n < 2 ^ 23 /\ lba + n <= if k_hc k then 2 ^ 32 else 2 ^ 23.

Definition as_asked (w : bool) (k : card_kind) (c : D) (lba : Z) (n : nat) s (r : res (bool * emmc_t D)) : Prop :=
  if transfer_ok c lba (Z.of_nat n) then
    exists s', r = Done (true, s') /\
      ready k (if w then put_sectors lba n (e_mem s) c else c) s' /\
      e_mem s' = if w then e_mem s else splice 0 (sectors c lba n) (e_mem s)
  else exists s', r = Done (false, s').

Lemma data_command_run w k c lba n s :
  ready k c s -> reachable k lba (Z.of_nat n) -> (512 * n <= length (e_mem s))%nat ->
  as_asked w k c lba n s (do_data_command w (512 * Z.of_nat n) lba s).
Proof.
  intros [[b Q] Bz Sd By] (H0' & Hn & Hl) Ln. unfold as_asked, transfer_ok, do_data_command.
  rewrite dev_run, dev_run, Bz. destruct n as [|n].
  { eexists. reflexivity. }
  rewrite (proj2 (Z.ltb_ge (512 * _) 512)) by lia. rewrite assert_run by done. rewrite set_device_run.
  replace (512 * Z.of_nat (S n) / 512) with (Z.of_nat (S n)) by (rewrite Z.mul_comm, Z_div_mult; lia).
  assert (L9 : Z.land (512 * Z.of_nat (S n)) 0x1ff = 0).
  { change 0x1ff with (Z.ones 9). rewrite Z.land_ones, Z.mul_comm by lia. change (2 ^ 9) with 512. apply Z_mod_mult. }
  rewrite L9. cbn [negb Z.eqb]. rewrite set_device_run. set (s1 := with_dev _ _).
  assert (Ad : (if negb (sdhc (device s)) then u32 (lba * 512) else lba) = address k lba).
  { rewrite Sd. unfold address. destruct (k_hc k); cbn [negb]; [done|]. apply u32_small. unfold is_u32.
    change (2 ^ 32) with (2 ^ 23 * 512). lia. }
  rewrite Ad. clear Ad. fold (data_index w (1 <? Z.of_nat (S n))).
  rewrite (proj2 (Z.ltb_lt 0 _)) by lia. destruct (Z.leb_spec (Z.of_nat (S n)) 65535) as [Hm|Hm]; cbn [andb].
  - pose proof (retry_run 2 w n _ lba s1 Q eq_refl eq_refl ltac:(by split) Hm) as O. cbn [v_kind] in O.
    unfold outcome in O. cbn [v_card] in O. destruct (forallb _ _).
    + destruct O as (s' & E & Q' & K & Em). exists s'. split; [exact E|]. split; [|exact Em].
      destruct K as [K1 K2 K3 K4 K5 K6 K7]. split.
      * exists b. by destruct w.
      * by rewrite K1.
      * by rewrite K4.
      * rewrite Em. destruct w; [done|]. apply bytes_splice; [apply sectors_bytes|done].
    + destruct O as (s' & v' & E & _). by exists s'.
  - by apply retry_too_many.
Qed.

(** ** The configuration of the card *)

Definition scr_command : emmc_cmd := mkCmd 0 0 0 1 0 0 RT48 0 1 0 1 0 51 0.

Lemma fire_scr v h :
  armed v (Z.lor 8 (Z.shiftl 1 16)) h -> v_state v = 4 -> v_app v = true ->
  exists h2, fire_cmd (TO_REG scr_command) 0 h = owe_data EvBlock fire_block h2 /\
    on (v_proto 4 false (v_busy v) v) h2 /\ h_due h2 = None /\ h_flags h2 = 1 /\
    h_xfer h2 = Some (mkXfer false true 0 1) /\ Z.land (h_bsc h2) 0x3ff = 8.
Proof.
  intros [(<- & Mk & Ck) Du Fl Po Bs] S4 A. cbn [view_of v_state v_app v_kind v_busy] in *.
  set (h1 := h_put_port [] false (Some (mkXfer false true 0 1)) (h_put_proto 4 false (h_busy h) h)).
  exists (raise SD_COMMAND_COMPLETE (h_put_resp [card_status h] h1)). split.
  - unfold fire_cmd. cbv zeta. unfold card_cmd. rewrite A. cbn [andb orb].
    change (Z.land (Z.shiftr (TO_REG scr_command) 24) 63) with 51. cbn [andb orb Z.eqb Pos.eqb].
    unfold card_app. rewrite S4. reflexivity.
  - split; [done|]. split; [done|]. split; [|split; [done|]].
    + unfold raise. cbn [h_put_flags h_flags h_put_resp h1 h_put_port h_put_proto h_mask]. by rewrite Fl, Mk.
    + cbn [raise h_put_flags h_bsc h_put_resp h1 h_put_port h_put_proto]. by rewrite Bs.
Qed.

Lemma scr_run t v s :
  quiet v (e_host s) -> v_state v = 4 -> v_app v = true -> 200 <= t ->
  block_size (device s) = 8 -> transfer_blocks (device s) = 1 -> buffer (device s) = BufScr ->
  length (scr_scr (device s)) = 8%nat -> length (k_scr (v_kind v)) = 8%nat -> bytes (k_scr (v_kind v)) ->
  exists s', emmc_issue_command scr_command 0 t s = Done (true, s') /\
    quiet (v_proto 4 false (v_busy v) v) (e_host s') /\ kept s s' /\ e_mem s' = e_mem s.
Proof.
  intros Q S4 A Ht Bz Bl Bu Ls Lk Bk. set (v' := v_proto 4 false (v_busy v) v).
  destruct (issue_armed v scr_command 0 t s Q ltac:(lia) Ht) as (h0 & Ar & E).
  unfold bsc_of in Ar. rewrite Bz, Bl in Ar.
  destruct (fire_scr v h0 Ar S4 A) as (h2 & F & On & Du & Fl & X & Bs).
  destruct (first_block v' _ 8 h2 On Du Fl X Bs eq_refl ltac:(done)) as [L2 [[L1 So]|[[=] _]]].
  rewrite E, F, finish_command_run by (rewrite ?F; done).
  change (negb (is_data scr_command =? 0)) with true. change ((response_type scr_command =? RT48Busy) || true) with true.
  cbv iota. set (s1 := with_host _ _).
  assert (Bs1 : buf_of s1 = scr_scr (device s)) by (unfold buf_of; cbn; by rewrite Bu).
  destruct (transfer_turn _ _ _ _ O 0 s1 So) as (h1 & Bt & Fi & _ & Et).
  pose proof (move_read 1 0 (with_host h1 s1)) as R. cbn [e_host with_host] in R.
  change (buf_of (with_host h1 s1)) with (buf_of s1) in R. rewrite Fi, Bs1 in R. cbn [block_data x_scr v' v_proto v_kind] in R.
  specialize (R ltac:(lia) Bk ltac:(cbn; by rewrite Bu) ltac:(lia)).
  set (s2 := with_host _ (set_buf _ _)) in R.
  assert (Dd : do_data_transfer scr_command s1 = Done (true, s2)).
  { unfold do_data_transfer. cbv zeta. rewrite dev_run.
    change (transfer_blocks (device s1)) with (transfer_blocks (device s)). rewrite Bl.
    change (Z.to_nat 1) with 1%nat. change (direction scr_command =? 0) with false.
    refine (eq_trans Et _). change (block_size (device s1)) with (block_size (device s)). rewrite Bz. cbv zeta.
    change (Z.to_nat (8 / 4)) with 2%nat. cbn [x_write]. mrun R. done. }
  rewrite bind_assoc. mrun Dd. rewrite ret_run.
  assert (Dn : soon (done_here v') EvDone (e_host s2)).
  { eapply next_block_last. destruct Bt as (Bt1 & Bt2 & Bt3 & Bt4 & Bt5).
    split; [exact Bt1|]. split; [exact Bt2|]. split; [exact Bt3|]. split; [exact Bt4|exact Bt5]. }
  destruct (end_transfer_run _ _ Dn) as (h' & Q' & Ee). eexists. split; [exact Ee|]. split; [exact Q'|].
  unfold s2, set_buf. cbn [s1 with_host with_dev device put_response put_command_value buffer]. rewrite Bu.
  split; [|done]. split; try done; unfold buf_of; cbn; rewrite Bu.
  - rewrite length_splice; lia.
  - intros Bo. by apply bytes_splice.
Qed.
End emmc.
