(* ===== verification/EmmcInit.v ===== *)
(** * Starting a card, and the driver as a block device

    [emmc_init] brings every kind of card, version 1 or 2 and of standard or high capacity,
    to the state in which sectors can be moved; from then on the calls of fat32/pi-sd.c over
    the driver are those of [Sd] over the card. *)

From stdpp Require Import base tactics option list numbers gmap.
From Stdlib Require Import ZArith Lia.
From S2P Require Import Prelude Gpio Sd Emmc EmmcThm.

(** A card that keeps to the specification. *)
Record kind_wf (k : card_kind) : Prop := {
  kw_hc : k_hc k = true -> k_v2 k = true;
  kw_ocr : 0 <= k_ocr k < 2 ^ 24;
  kw_rca : 0 <= k_rca k < 2 ^ 16;
  kw_scr : length (k_scr k) = 8%nat;
  kw_scr_bytes : bytes (k_scr k)
}.

Section init.
Context {D : Type} `{BlockDeviceLaws D} `{EmmcLatency}.
Implicit Types (h : host D) (s : emmc_t D).

(** What commands without data leave alone. *)
Record still s s' : Prop := {
  still_size : block_size (device s') = block_size (device s);
  still_blocks : transfer_blocks (device s') = transfer_blocks (device s);
  still_sdhc : sdhc (device s') = sdhc (device s);
  still_rca : rca (device s') = rca (device s);
  still_scr : scr_scr (device s') = scr_scr (device s);
  still_buffer : buffer (device s') = buffer (device s);
  still_mem : e_mem s' = e_mem s
}.

Lemma still_trans s1 s2 s3 : still s1 s2 -> still s2 s3 -> still s1 s3.
Proof. intros [] []. split; congruence. Qed.

(** A command that succeeds, with the first word of the answer. *)
Definition succeeds (v' : view) (resp : list Z) s (m : M (emmc_t D) bool) : Prop :=
  exists s', m s = Done (true, s') /\ quiet v' (e_host s') /\ still s s' /\
    forall r, head resp = Some r -> last_response (device s') !! 0%nat = Some r.

Definition simple (c : emmc_cmd) : Prop :=
  plain c \/ (reg_matches c = true /\ is_data c = 0 /\ response_type c = RT48Busy /\ index c <> 41).

Lemma got_head c resp old r :
  In (response_type c) [RT136; RT48; RT48Busy] -> head resp = Some r -> got c resp old !! 0%nat = Some r.
Proof.
  intros R Hd. destruct resp as [|x resp]; [done|]. injection Hd as ->. unfold got.
  destruct R as [<-|[<-|[<-|[]]]]; done.
Qed.

Lemma issue_succeeds c arg t v v' resp s :
  simple c -> (resp = [] \/ In (response_type c) [RT136; RT48; RT48Busy]) ->
  quiet v (e_host s) -> transfer_blocks (device s) <= 0xFFFF -> 200 <= t ->
  answers v (index c) arg (response_type c) resp v' ->
  succeeds v' resp s (emmc_issue_command c arg t).
Proof.
  intros Sc Hr Q Tb Ht An.
  assert (E : exists h', quiet v' h' /\
    emmc_issue_command c arg t s =
      Done (true, with_host h' (with_dev (put_success true
              (put_response (got c resp (last_response (device s)))
                 (put_command_value (TO_REG c) (device s)))) s))).
  { destruct Sc as [P|(Mt & Dt & Rt & N41)]; [by eapply plain_run|]. rewrite Rt in An. by eapply busy_run. }
  destruct E as (h' & Q' & E). eexists. split; [exact E|]. split; [exact Q'|]. split; [done|].
  intros r Hd. cbn [with_host with_dev device put_success put_response last_response].
  destruct Hr as [->|Hr]; [done|]. by apply got_head.
Qed.

Lemma succeeds_dev v' resp f s m :
  still s (with_dev (f (device s)) s) -> succeeds v' resp (with_dev (f (device s)) s) m ->
  succeeds v' resp s (set_device f;; m).
Proof.
  intros St (s' & E & Q & St' & R). exists s'. split; [by rewrite set_device_run|]. split; [done|].
  split; [by eapply still_trans|done].
Qed.

Lemma command_succeeds i c arg t v v' resp s :
  commands !! Z.to_nat i = Some c -> Z.land i 0x80000000 = 0 -> (TO_REG c =? TO_REG INVALID_CMD) = false ->
  simple c -> (resp = [] \/ In (response_type c) [RT136; RT48; RT48Busy]) ->
  quiet v (e_host s) -> transfer_blocks (device s) <= 0xFFFF -> 200 <= t ->
  answers v (index c) arg (response_type c) resp v' ->
  succeeds v' resp s (emmc_command i arg t).
Proof.
  intros Ci Hi Nv Sc Hr Q Tb Ht An.
  destruct (succeeds_dev v' resp (put_command c) s (emmc_issue_command c arg t)) as (s' & E & R); [done| |].
  { by apply issue_succeeds with v. }
  exists s'. split; [|done]. unfold emmc_command. rewrite Hi. cbn [negb Z.eqb]. rewrite Ci.
  change (m_opt (Some c)) with (mret c : M (emmc_t D) emmc_cmd). rewrite ret_run, set_device_run, Nv.
  rewrite <-E. by rewrite set_device_run.
Qed.

(** The application commands, after command 55. *)
Definition app_arg (r : Z) : Z := if negb (r =? 0) then u32 (Z.shiftl r 16) else 0.
Definition app_command : emmc_cmd := mkCmd 0 0 0 0 0 0 RT48 0 1 0 0 0 55 0.

Lemma app_accepted v s :
  quiet v (e_host s) -> transfer_blocks (device s) <= 0xFFFF ->
  v_app v = false -> (v_state v < 3 \/ Z.shiftr (app_arg (rca (device s))) 16 = k_rca (v_kind v)) ->
  exists r, succeeds (v_proto (v_state v) true (v_busy v) v) [r] s
    (set_device (put_command app_command);; emmc_issue_command app_command (app_arg (rca (device s))) 2000).
Proof.
  intros Q Tb A Ra. exists (Z.lor (Z.lor (Z.shiftl (v_state v) 9) 0x100) 0x20).
  apply succeeds_dev; [done|]. apply issue_succeeds with v; try done.
  - left. done.
  - right. cbn. tauto.
  - intros stops nb h <-. split; [|done]. unfold card_cmd, card_status. cbn [view_of v_app v_state v_kind v_proto v_busy] in *.
    change (index app_command) with 55. rewrite A. cbn [andb Z.eqb Pos.eqb].
    destruct Ra as [Hs|Hr]; [rewrite (proj2 (Z.ltb_lt _ _) Hs)|rewrite Hr, Z.eqb_refl, orb_true_r]; done.
Qed.

Lemma app_run i c arg t s s1 :
  commands !! Z.to_nat i = Some c -> (60 <=? index c) = false ->
  (set_device (put_command app_command);; emmc_issue_command app_command (app_arg (rca (device s))) 2000) s =
    Done (true, s1) ->
  emmc_app_command i arg t s = (set_device (put_command c);; emmc_issue_command c arg 2000) s1.
Proof.
  intros Ci Ni E. unfold emmc_app_command. rewrite Ci. change (m_opt (Some c)) with (mret c : M (emmc_t D) emmc_cmd).
  rewrite ret_run, Ni. change (commands !! Z.to_nat CTApp) with (Some app_command).
  change (m_opt (Some app_command)) with (mret app_command : M (emmc_t D) emmc_cmd).
  rewrite ret_run, set_device_run, dev_run. rewrite set_device_run in E.
  fold (app_arg (rca (device s))). by mrun E.
Qed.

(** ** The answers of the cards *)

Lemma answer_idle (k : card_kind) (c : D) st app b :
  answers (mkView k c st app b) 0 0 RTNone [] (mkView k c 0 false (k_polls k)).
Proof.
  intros stops nb h E. injection E as <- <- <- <- <-. split; [|done]. unfold card_cmd. by rewrite andb_false_r.
Qed.

Lemma answer_if_cond (k : card_kind) (c : D) b : k_v2 k = true ->
  answers (mkView k c 0 false b) 8 0x1AA RT48 [0x1AA] (mkView k c 0 false b).
Proof.
  intros V2 stops nb h E. injection E as <- <- E1 E2 <-. split; [|done]. unfold card_cmd.
  by rewrite E1, E2, V2.
Qed.

Lemma silent_if_cond (k : card_kind) (c : D) b : k_v2 k = false -> silent (mkView k c 0 false b) 8 0x1AA.
Proof. intros V2 stops nb h E. injection E as <- <- E1 E2 <-. unfold card_cmd. by rewrite E1, E2, V2. Qed.

Lemma silent_io (k : card_kind) (c : D) b : silent (mkView k c 0 false b) 5 0.
Proof. intros stops nb h E. injection E as <- <- E1 E2 <-. unfold card_cmd. by rewrite E1, E2. Qed.

Lemma answer_ocr_inquiry (k : card_kind) (c : D) b :
  answers (mkView k c 0 true b) 41 0 RT48 [k_ocr k] (mkView k c 0 false b).
Proof.
  intros stops nb h E. injection E as <- <- E1 E2 <-. split; [|done]. unfold card_cmd, card_app. by rewrite E1, E2.
Qed.

Definition ocr_arg (v2 : bool) : Z := Z.lor 0x00FF8000 (if v2 then Z.shiftl 1 30 else 0).

Lemma answer_ocr (k : card_kind) (c : D) b : (k_hc k = true -> k_v2 k = true) ->
  answers (mkView k c 0 true b) 41 (ocr_arg (k_v2 k)) RT48
    [match b with O => Z.lor (Z.lor (2 ^ 31) (if k_hc k then 2 ^ 30 else 0)) (k_ocr k) | S _ => k_ocr k end]
    (mkView k c (match b with O => 1 | S _ => 0 end) false (pred b)).
Proof.
  intros Hc stops nb h E. injection E as <- <- E1 E2 <-. split; [|by destruct (h_busy h)].
  unfold card_cmd, card_app. rewrite E1, E2. cbn [andb Z.eqb Pos.eqb orb v_state v_app v_busy].
  assert (A1 : (Z.land (ocr_arg (k_v2 (h_kind h))) 0xffffff =? 0) = false) by by destruct (k_v2 _).
  assert (A2 : k_hc (h_kind h) && negb (Z.testbit (ocr_arg (k_v2 (h_kind h))) 30) = false).
  { destruct (k_hc (h_kind h)); [|done]. by rewrite Hc. }
  rewrite A1, A2. cbn [orb]. by destruct (h_busy h).
Qed.

Lemma answer_cid (k : card_kind) (c : D) b :
  answers (mkView k c 1 false b) 2 0 RT136 (k_cid k) (mkView k c 2 false b).
Proof. intros stops nb h E. injection E as <- <- E1 E2 <-. split; [|done]. unfold card_cmd. by rewrite E1, E2. Qed.

Lemma answer_rca (k : card_kind) (c : D) b :
  answers (mkView k c 2 false b) 3 0 RT48 [Z.lor (Z.shiftl (k_rca k) 16) 0x500] (mkView k c 3 false b).
Proof.
  intros stops nb h E. injection E as <- <- E1 E2 <-. split; [|done]. unfold card_cmd, card_status. by rewrite E1, E2.
Qed.

Lemma answer_select (k : card_kind) (c : D) b arg : Z.shiftr arg 16 = k_rca k ->
  answers (mkView k c 3 false b) 7 arg RT48Busy [0x700] (mkView k c 4 false b).
Proof.
  intros Ha stops nb h E. injection E as <- <- E1 E2 <-. split; [|done]. unfold card_cmd, card_status.
  by rewrite E1, E2, Ha, (Z.eqb_refl (k_rca _)).
Qed.

Lemma answer_block_len (k : card_kind) (c : D) b :
  answers (mkView k c 4 false b) 16 512 RT48 [0x900] (mkView k c 4 false b).
Proof.
  intros stops nb h E. injection E as <- <- E1 E2 <-. split; [|done]. unfold card_cmd, card_status. by rewrite E1, E2.
Qed.

(** ** The steps of the start *)

(** [m] returns [a], the controller shows [v'], the rest is as it was. *)
Definition step_to {A} (a : A) (v' : view) s (m : M (emmc_t D) A) (R : emmc_t D -> Prop) : Prop :=
  exists s', m s = Done (a, s') /\ quiet v' (e_host s') /\ R s'.

Lemma response0_run {B} r (k : Z -> M (emmc_t D) B) s :
  last_response (device s) !! 0%nat = Some r -> (response0 ≫= k) s = k r s.
Proof. intros E. unfold response0. rewrite bind_assoc, dev_run, E. done. Qed.

Lemma reset_run v s : quiet v (e_host s) ->
  exists h', quiet v h' /\ reset_command s = Done (true, with_host h' s).
Proof.
  intros ((V & Mk & Ck) & Du & Fl). unfold reset_command, control1, set_control1.
  rewrite hst_run, set_host_run, Ck. set (h1 := write_ctl1 _ _).
  assert (E1 : h1 = owe_cmd EvResetCmd (h_put_ctl1 (Z.lor CTL1 EMMC_CTRL1_RESET_CMD) (e_host s))) by done.
  exists (fired h1). pose proof (cmd_lat_range (h_n (e_host s))) as Lt. split.
  { rewrite E1. split; [|done]. split; [done|]. split; [done|]. reflexivity. }
  rewrite reset_loop_poll.
  change (with_host (fired h1) s) with (with_host (fired (e_host (with_host h1 s))) (with_host h1 s)).
  eapply poll_fired; cbn [with_host e_host]; rewrite ?E1; try reflexivity.
  - change (h_n (h_put_ctl1 ?x ?y)) with (h_n y). lia.
  - change (h_n (h_put_ctl1 ?x ?y)) with (h_n y). lia.
Qed.

(** A command the card does not answer, and the reset of the command line. *)
Lemma unanswered i c arg t v s :
  commands !! Z.to_nat i = Some c -> Z.land i 0x80000000 = 0 -> (TO_REG c =? TO_REG INVALID_CMD) = false ->
  quiet v (e_host s) -> v_app v = false -> transfer_blocks (device s) <= 0xFFFF -> 200 <= t -> silent v (index c) arg ->
  exists s1 s2, emmc_command i arg t s = Done (false, s1) /\ last_error (device s1) = 0x10000 /\
    reset_command s1 = Done (true, s2) /\ quiet v (e_host s2) /\ still s s2.
Proof.
  intros Ci Hi Nv Q A Tb Ht Si.
  assert (Mt : reg_matches c = true) by (eapply (Forall_lookup_1 _ _ _ _ commands_match); exact Ci).
  destruct (silent_run c arg t v (with_dev (put_command c (device s)) s) Mt Q Tb Ht Si) as (h' & Q' & E).
  set (s1 := with_host _ _) in E.
  assert (Q1 : quiet v (e_host s1)) by (destruct v; cbn in A; by subst).
  destruct (reset_run v s1 Q1) as (h2 & Q2 & E2). exists s1, (with_host h2 s1). split; [|done].
  unfold emmc_command. rewrite Hi. cbn [negb Z.eqb]. rewrite Ci.
  change (m_opt (Some c)) with (mret c : M (emmc_t D) emmc_cmd). rewrite ret_run, set_device_run, Nv. exact E.
Qed.

Lemma clear_quiet v m h : quiet v h -> quiet v (clear m h).
Proof.
  intros (On & Du & Fl). split; [done|]. split; [done|]. unfold clear. cbn [h_put_flags h_flags]. by rewrite Fl.
Qed.

Lemma check_v2_run k c b s :
  quiet (mkView k c 0 false b) (e_host s) -> transfer_blocks (device s) <= 0xFFFF ->
  step_to (k_v2 k) (mkView k c 0 false b) s check_v2_card (still s).
Proof.
  intros Q Tb. unfold check_v2_card. destruct (k_v2 k) eqn:V2.
  - destruct (command_succeeds CTSendIfCond _ 0x1AA 200 _ _ [0x1AA] s eq_refl eq_refl eq_refl ltac:(by left)
                ltac:(right; cbn; tauto) Q Tb ltac:(lia) (answer_if_cond k c b V2)) as (s' & E & Q' & St & R).
    exists s'. split; [|done]. mrun E. cbn [negb]. by rewrite (response0_run 0x1AA) by by apply R.
  - destruct (unanswered CTSendIfCond _ 0x1AA 200 _ s eq_refl eq_refl eq_refl Q eq_refl Tb ltac:(lia)
                (silent_if_cond k c b V2)) as (s1 & s2 & E & Le & E2 & Q2 & St).
    exists (with_host (clear (sd_error_mask SDECommandTimeout) (e_host s2)) s2).
    split; [|split; [by apply clear_quiet|by destruct St]].
    mrun E. cbn [negb]. rewrite dev_run, Le. 
  change (0x10000 =? 0) with false. change (negb (Z.land 0x10000 (Z.shiftl 1 16) =? 0)) with true. cbv iota.
  by mrun E2.
Qed.

Lemma check_usable_run k c b s :
  quiet (mkView k c 0 false b) (e_host s) -> transfer_blocks (device s) <= 0xFFFF ->
  step_to true (mkView k c 0 false b) s check_usable_card (still s).
Proof.
  intros Q Tb. unfold check_usable_card.
  destruct (unanswered CTIOSetOpCond _ 0 1000 _ s eq_refl eq_refl eq_refl Q eq_refl Tb ltac:(lia)
              (silent_io k c b)) as (s1 & s2 & E & Le & E2 & Q2 & St).
  exists (with_host (clear (sd_error_mask SDECommandTimeout) (e_host s2)) s2).
  split; [|split; [by apply clear_quiet|by destruct St]].
  mrun E. cbn [negb]. rewrite dev_run, Le. 
  change (0x10000 =? 0) with false. change (negb (Z.land 0x10000 (Z.shiftl 1 16) =? 0)) with true. cbv iota.
  by mrun E2.
Qed.

(** Command 41 after command 55. *)
Lemma app_ocr k c b arg t r v' s :
  quiet (mkView k c 0 false b) (e_host s) -> transfer_blocks (device s) <= 0xFFFF ->
  answers (mkView k c 0 true b) 41 arg RT48 [r] v' ->
  step_to true v' s (emmc_app_command CTOcrCheck arg t)
    (fun s' => still s s' /\ last_response (device s') !! 0%nat = Some r).
Proof.
  intros Q Tb An. destruct (app_accepted _ s Q Tb eq_refl ltac:(by left)) as (r0 & s1 & E1 & Q1 & St1 & _).
  set (c41 := mkCmd 0 0 0 0 0 0 RT48 0 0 0 0 0 41 0).
  destruct (succeeds_dev v' [r] (put_command c41) s1 (emmc_issue_command c41 arg 2000)) as (s' & E & Q' & St & R); [done| |].
  { eapply issue_succeeds; [by left|right; cbn; tauto|exact Q1| |lia|exact An].
    cbn [with_dev device put_command transfer_blocks]. by rewrite (still_blocks _ _ St1). }
  exists s'. split; [|split; [done|split; [by eapply still_trans|by apply R]]].
  by rewrite (app_run CTOcrCheck c41 arg t s s1 eq_refl eq_refl E1).
Qed.

Lemma check_ocr_run k c b s :
  quiet (mkView k c 0 false b) (e_host s) -> transfer_blocks (device s) <= 0xFFFF ->
  step_to true (mkView k c 0 false b) s check_ocr (still s).
Proof.
  intros Q Tb. destruct (app_ocr k c b 0 2000 _ _ s Q Tb (answer_ocr_inquiry k c b)) as (s1 & E & Q1 & St & R).
  eexists. split; [unfold check_ocr; mrun E; cbn [negb]; rewrite (response0_run _ _ _ R), set_device_run; reflexivity|].
  split; [done|by destruct St].
Qed.

(** The card is asked until it is ready; then it is known whether it has high capacity. *)
Record still_but_sdhc s s' : Prop := {
  sb_size : block_size (device s') = block_size (device s);
  sb_blocks : transfer_blocks (device s') = transfer_blocks (device s);
  sb_rca : rca (device s') = rca (device s);
  sb_scr : scr_scr (device s') = scr_scr (device s);
  sb_mem : e_mem s' = e_mem s
}.

Lemma ocr_ready (k : card_kind) :
  let r := Z.lor (Z.lor (2 ^ 31) (if k_hc k then 2 ^ 30 else 0)) (k_ocr k) in
  0 <= k_ocr k < 2 ^ 24 ->
  negb (Z.land (Z.shiftr r 31) 1 =? 0) = true /\ negb (Z.land (Z.shiftr r 30) 1 =? 0) = k_hc k /\
  negb (Z.land (Z.shiftr (k_ocr k) 31) 1 =? 0) = false.
Proof.
  intros r Ho.
  assert (S0 : forall n, 24 <= n -> Z.shiftr (k_ocr k) n = 0).
  { intros n Hn. rewrite Z.shiftr_div_pow2 by lia. apply Z.div_small. split; [lia|].
    eapply Z.lt_le_trans; [apply Ho|]. apply Z.pow_le_mono_r; lia. }
  unfold r. rewrite !Z.shiftr_lor, !S0 by lia. by destruct (k_hc k).
Qed.

Lemma sdhc_loop_run k c b s :
  kind_wf k -> quiet (mkView k c 0 false b) (e_host s) -> transfer_blocks (device s) <= 0xFFFF ->
  step_to true (mkView k c 1 false 0) s (sdhc_loop (S b) (k_v2 k))
    (fun s' => still_but_sdhc s s' /\ sdhc (device s') = k_hc k).
Proof.
  intros Kw. revert s; induction b as [|b IH]; intros s Q Tb.
  all: destruct (ocr_ready k (kw_ocr _ Kw)) as (O1 & O2 & O3).
  all: destruct (app_ocr k c _ (ocr_arg (k_v2 k)) 2000 _ _ s Q Tb (answer_ocr k c _ (kw_hc _ Kw))) as (s1 & E & Q1 & St & R).
  - eexists. split.
    + cbn [sdhc_loop]. fold (ocr_arg (k_v2 k)). mrun E. cbn [negb]. rewrite (response0_run _ _ _ R), O1.
      rewrite !set_device_run. reflexivity.
    + split; [exact Q1|]. cbn [with_dev device put_sdhc sdhc put_ocr]. split; [by destruct St|exact O2].
  - set (s2 := with_host (advance (u32 (500 * 1000)) (e_host s1)) s1).
    assert (E2 : s2 = s1) by (unfold s2, advance; rewrite (proj1 (proj2 Q1)); by destruct s1).
    destruct (IH s1 Q1) as (s3 & E3 & Q3 & St3 & Hc). { by rewrite (still_blocks _ _ St). }
    exists s3. split; [|split; [done|split; [|done]]].
    + change (sdhc_loop (S (S b)) (k_v2 k)) with
        (ok ← emmc_app_command CTOcrCheck (ocr_arg (k_v2 k)) 2000;
         if negb ok then mret false else
           r ← response0;
           if negb (Z.land (Z.shiftr r 31) 1 =? 0) then
             set_device (put_ocr (Z.land (Z.shiftr r 8) 0xFFFF));;
             set_device (put_sdhc (negb (Z.land (Z.shiftr r 30) 1 =? 0)));; mret true
           else emmc_delay_ms 500;; sdhc_loop (S b) (k_v2 k) : M (emmc_t D) bool).
      mrun E. cbn [negb]. rewrite (response0_run _ _ _ R), O3. unfold emmc_delay_ms, emmc_delay_us.
      rewrite set_host_run. fold s2. by rewrite E2.
    + destruct St, St3. split; congruence.
Qed.

Lemma rca_word a : 0 <= a < 2 ^ 16 ->
  Z.land (Z.shiftr (Z.lor (Z.shiftl a 16) 0x500) 16) 0xFFFF = a /\
  negb (Z.land (Z.shiftr (Z.lor (Z.shiftl a 16) 0x500) 8) 1 =? 0) = true /\
  u32 (Z.shiftl a 16) = Z.shiftl a 16 /\ Z.shiftr (Z.shiftl a 16) 16 = a.
Proof.
  intros Ha.
  assert (S16 : Z.shiftr (Z.shiftl a 16) 16 = a) by by rewrite Z.shiftr_shiftl_l, Z.shiftl_0_r by lia.
  rewrite !Z.shiftr_lor, S16. split; [|split; [|split; [|done]]].
  - change (Z.shiftr 0x500 16) with 0. rewrite Z.lor_0_r. change 0xFFFF with (Z.ones 16).
    rewrite Z.land_ones by lia. by apply Z.mod_small.
  - rewrite Z.shiftr_shiftl_l by lia. change (16 - 8) with 8. change (Z.shiftr 0x500 8) with 5.
    rewrite Z.land_lor_distr_l. change (Z.land 5 1) with 1.
    replace (Z.land (Z.shiftl a 8) 1) with 0; [done|].
    change 1 with (Z.ones 1). rewrite Z.land_ones, Z.shiftl_mul_pow2 by lia.
    change (2 ^ 8) with (2 ^ 7 * 2 ^ 1). by rewrite Z.mul_assoc, Z_mod_mult.
  - apply u32_small. unfold is_u32. rewrite Z.shiftl_mul_pow2 by lia. change (2 ^ 32) with (2 ^ 16 * 2 ^ 16). lia.
Qed.

Lemma check_rca_run k c b s :
  kind_wf k -> quiet (mkView k c 1 false b) (e_host s) -> transfer_blocks (device s) <= 0xFFFF ->
  step_to true (mkView k c 3 false b) s check_rca
    (fun s' => rca (device s') = k_rca k /\ sdhc (device s') = sdhc (device s) /\
       transfer_blocks (device s') = transfer_blocks (device s) /\ scr_scr (device s') = scr_scr (device s) /\
       e_mem s' = e_mem s).
Proof.
  intros Kw Q Tb. destruct (rca_word _ (kw_rca _ Kw)) as (W1 & W2 & _).
  destruct (command_succeeds CTSendCide _ 0 2000 _ _ _ s eq_refl eq_refl eq_refl ltac:(by left)
              ltac:(right; cbn; tauto) Q Tb ltac:(lia) (answer_cid k c b)) as (s1 & E1 & Q1 & St1 & _).
  assert (Tb1 : transfer_blocks (device s1) <= 0xFFFF) by by rewrite (still_blocks _ _ St1).
  destruct (command_succeeds CTSendRelativeAddr _ 0 2000 _ _ _ s1 eq_refl eq_refl eq_refl ltac:(by left)
              ltac:(right; cbn; tauto) Q1 Tb1 ltac:(lia) (answer_rca k c b)) as (s2 & E2 & Q2 & St2 & R).
  specialize (R _ eq_refl). eexists. split.
  { unfold check_rca. mrun E1. cbn [negb]. mrun E2. cbn [negb]. rewrite (response0_run _ _ _ R), set_device_run, W1, W2.
    reflexivity. }
  split; [exact Q2|]. destruct St1, St2. cbn [with_dev device put_rca rca sdhc transfer_blocks scr_scr e_mem].
  split; [done|]. split; [congruence|]. split; [congruence|]. split; congruence.
Qed.

Lemma select_run k c b s :
  kind_wf k -> quiet (mkView k c 3 false b) (e_host s) -> transfer_blocks (device s) <= 0xFFFF -> rca (device s) = k_rca k ->
  step_to true (mkView k c 4 false b) s select_card (still s).
Proof.
  intros Kw Q Tb Ra. destruct (rca_word _ (kw_rca _ Kw)) as (_ & _ & W3 & W4).
  destruct (command_succeeds CTSelectCard _ (u32 (Z.shiftl (k_rca k) 16)) 2000 _ _ _ s eq_refl eq_refl eq_refl
              ltac:(by right) ltac:(right; cbn; tauto) Q Tb ltac:(lia)
              (answer_select k c b (u32 (Z.shiftl (k_rca k) 16)) ltac:(by rewrite W3))) as (s1 & E1 & Q1 & St1 & R).
  exists s1. split; [|done]. unfold select_card. rewrite dev_run, Ra. mrun E1. cbn [negb].
  by rewrite (response0_run _ _ _ (R _ eq_refl)).
Qed.

Lemma send_scr_run k c b s :
  kind_wf k -> quiet (mkView k c 4 false b) (e_host s) -> rca (device s) = k_rca k ->
  length (scr_scr (device s)) = 8%nat ->
  step_to true (mkView k c 4 false b) s send_scr
    (fun s' => block_size (device s') = 512 /\ sdhc (device s') = sdhc (device s) /\ e_mem s' = e_mem s).
Proof.
  intros Kw Q Ra Ls. destruct (rca_word _ (kw_rca _ Kw)) as (_ & _ & W3 & W4).
  unfold send_scr. set (s0 := with_dev (put_blocks 1 (put_block_size 8 (put_buffer BufScr (device s))))
    (with_host (h_put_bsc (Z.lor (Z.ldiff (h_bsc (e_host s)) 0xFFF) 0x200) (e_host s)) s)).
  assert (Aa : Z.shiftr (app_arg (rca (device s0))) 16 = k_rca k).
  { change (rca (device s0)) with (rca (device s)). rewrite Ra. unfold app_arg.
    destruct (Z.eqb_spec (k_rca k) 0) as [->|]; [done|]. cbn [negb]. by rewrite W3. }
  destruct (app_accepted (mkView k c 4 false b) s0 Q ltac:(done) eq_refl ltac:(by right)) as (r0 & s1 & E1 & Q1 & St1 & _).
  pose proof (kw_scr _ Kw) as Ks. pose proof (kw_scr_bytes _ Kw) as Kb. destruct St1 as [T1 T2 T3 T4 T5 T6 T7].
  destruct (scr_run 2000 _ (with_dev (put_command scr_command (device s1)) s1) Q1 eq_refl eq_refl ltac:(lia)
              T1 T2 T6 (eq_trans (f_equal length T5) Ls) Ks Kb) as (s2 & E2 & Q2 & K & Em).
  eexists. split.
  { rewrite hst_run, set_host_run, !set_device_run. cbn [with_dev with_host device e_host e_mem e_pins].
    fold s0.
    match goal with |- (emmc_app_command _ _ _ ≫= _) ?st = _ => change st with s0 end.
    erewrite bind_done.
    2: { rewrite (app_run CTSendSCR scr_command 0 30000 s0 s1 eq_refl eq_refl E1). rewrite set_device_run. exact E2. }
    cbn [negb]. rewrite set_device_run, dev_run, set_device_run. reflexivity. }
  split; [exact Q2|]. cbn [with_dev device put_scr put_block_size block_size sdhc e_mem].
  split; [done|]. split; [by rewrite (kept_sdhc _ _ K)|]. by rewrite Em.
Qed.

Lemma set_scr_run k c b s :
  kind_wf k -> quiet (mkView k c 4 false b) (e_host s) -> transfer_blocks (device s) <= 0xFFFF ->
  rca (device s) = k_rca k -> length (scr_scr (device s)) = 8%nat ->
  step_to true (mkView k c 4 false b) s set_scr
    (fun s' => block_size (device s') = 512 /\ sdhc (device s') = sdhc (device s) /\ e_mem s' = e_mem s).
Proof.
  intros Kw Q Tb Ra Ls. unfold set_scr, step_to. rewrite dev_run. destruct (sdhc (device s)) eqn:Hc; cbn [negb].
  { destruct (send_scr_run k c b s Kw Q Ra Ls) as (s' & E & R). rewrite Hc in R. by exists s'. }
  destruct (command_succeeds CTSetBlockLen _ 512 2000 _ _ _ s eq_refl eq_refl eq_refl ltac:(by left)
              ltac:(right; cbn; tauto) Q Tb ltac:(lia) (answer_block_len k c b)) as (s1 & E1 & Q1 & St1 & _).
  destruct St1 as [T1 T2 T3 T4 T5 T6 T7].
  destruct (send_scr_run k c b s1 Kw Q1 ltac:(congruence) ltac:(congruence)) as (s2 & E2 & Q2 & R1 & R2 & R3).
  exists s2. split; [mrun E1; exact E2|]. split; [done|]. split; [done|]. split; congruence.
Qed.

Lemma delay_quiet {B} v ms (f : unit -> M (emmc_t D) B) s :
  quiet v (e_host s) -> (emmc_delay_ms ms ≫= f) s = f tt s.
Proof.
  intros (_ & Du & _). unfold emmc_delay_ms, emmc_delay_us. rewrite set_host_run. unfold advance. rewrite Du. by destruct s.
Qed.

Lemma identify_run k c st app b s :
  kind_wf k -> quiet (mkView k c st app b) (e_host s) -> transfer_blocks (device s) = 0 ->
  length (scr_scr (device s)) = 8%nat -> bytes (e_mem s) ->
  exists s', identify_card s = Done (true, s') /\ ready k c s' /\ e_mem s' = e_mem s.
Proof.
  intros Kw Q0 Tb Ls By. unfold identify_card.
  destruct (command_succeeds CTGoIdle _ 0 2000 _ _ _ s eq_refl eq_refl eq_refl ltac:(by left)
              ltac:(by left) Q0 ltac:(lia) ltac:(lia) (answer_idle k c st app b)) as (s1 & E1 & Q1 & St1 & _).
  mrun E1. cbn [negb]. destruct St1 as [_ T1 _ _ S1 _ M1].
  destruct (check_v2_run k c _ s1 Q1 ltac:(lia)) as (s2 & E2 & Q2 & [_ T2 _ _ S2 _ M2]). mrun E2.
  destruct (check_usable_run k c _ s2 Q2 ltac:(lia)) as (s3 & E3 & Q3 & [_ T3 _ _ S3 _ M3]). mrun E3. cbn [negb].
  destruct (check_ocr_run k c _ s3 Q3 ltac:(lia)) as (s4 & E4 & Q4 & [_ T4 _ _ S4 _ M4]). mrun E4. cbn [negb].
  destruct (sdhc_loop_run k c _ s4 Kw Q4 ltac:(lia)) as (s5 & E5 & Q5 & [_ T5 _ S5 M5] & Hc).
  rewrite (bind_done _ _ _ true s5).
  2: { unfold check_sdhc_support. rewrite hst_run.
       assert (Hb : h_busy (e_host s4) = k_polls k) by (destruct Q4 as ((V & _) & _); by injection V).
       by rewrite Hb. }
  cbn [negb]. rewrite (delay_quiet _ _ _ _ Q5).
  destruct (check_rca_run k c _ s5 Kw Q5 ltac:(lia)) as (s6 & E6 & Q6 & R6 & H6 & T6 & S6 & M6). mrun E6. cbn [negb].
  destruct (select_run k c _ s6 Kw Q6 ltac:(lia) R6) as (s7 & E7 & Q7 & [_ T7 H7 R7 S7 _ M7]). mrun E7. cbn [negb].
  destruct (set_scr_run k c _ s7 Kw Q7 ltac:(lia) ltac:(congruence) ltac:(congruence)) as (s8 & E8 & Q8 & Z8 & H8 & M8).
  mrun E8. cbn [negb]. eexists. split; [reflexivity|].
  assert (Em : e_mem s8 = e_mem s) by congruence. split; [|exact Em]. split.
  - exists O. by apply clear_quiet.
  - exact Z8.
  - cbn. congruence.
  - cbn. by rewrite Em.
Qed.

(** ** The controller *)

(** A register is waited for: the event of a write to the control register comes. *)
Lemma control_wait mask set ev h s :
  e_host s = owe_cmd ev h ->
  eqb (negb (Z.land (h_ctl1 h) mask =? 0)) set = false ->
  eqb (negb (Z.land (h_ctl1 (fire ev (h_put_due None (S (h_n h)) h))) mask =? 0)) set = true ->
  wait_reg_mask control1 mask set 2000 s = Done (true, with_host (fire ev (h_put_due None (S (h_n h)) h)) s).
Proof.
  intros E N Y. pose proof (cmd_lat_range (h_n h)) as Lt. unfold wait_reg_mask, control1. rewrite wait_mask_poll.
  assert (Ef : fired (e_host s) = fire ev (h_put_due None (S (h_n h)) h)) by by rewrite E.
  rewrite <-Ef. rewrite <-Ef in Y. eapply poll_fired; rewrite ?E; try reflexivity; [lia|lia| |].
  - intros d n. exact N.
  - rewrite <-E. exact Y.
Qed.

Lemma control1_run {B} (f : Z -> M (emmc_t D) B) s : (control1 ≫= f) s = f (h_ctl1 (e_host s)) s.
Proof. done. Qed.

Lemma clock_run k c h0 s :
  h_kind (e_host s) = k -> h_card (e_host s) = c -> h_ctl1 (e_host s) = 0 -> h_flags (e_host s) = 0 ->
  h_due (e_host s) = None -> e_host s = h0 ->
  exists h', emmc_setup_clock s = Done (true, with_host h' s) /\
    view_of h' = view_of h0 /\ h_ctl1 h' = CTL1 /\ h_flags h' = 0 /\ h_due h' = None.
Proof.
  intros Hk Hc Ct Fl Du <-. unfold emmc_setup_clock, set_control1. rewrite set_host_run.
  rewrite control1_run. cbn [with_host e_host h_put_ctl2 h_ctl1]. rewrite Ct, set_host_run.
  cbn [with_host e_host device e_mem e_pins].
  set (h1 := h_put_ctl2 0 (e_host s)). set (v1 := Z.lor (Z.ldiff _ _) _).
  set (s1 := with_host (write_ctl1 v1 _) _).
  pose proof (control_wait EMMC_CTRL1_CLK_STABLE true EvStable (h_put_ctl1 v1 h1) s1 eq_refl eq_refl eq_refl) as W.
  mrun W. cbn [negb]. set (h2 := fire _ _). set (s2 := with_host h2 s1).
  assert (D2 : h_due h2 = None) by done.
  assert (Dl : forall (m : Z) (t : emmc_t D), h_due (e_host t) = None -> emmc_delay_ms m t = Done (tt, t)).
  { intros m t Dt. unfold emmc_delay_ms, emmc_delay_us, set_host, m_modify, advance. rewrite Dt. by destruct t. }
  mrun (Dl 30 s2 D2). rewrite control1_run, set_host_run.
  set (s3 := with_host _ _). mrun (Dl 30 s3 eq_refl). eexists. split; [reflexivity|].
  split; [reflexivity|]. split; [reflexivity|]. split; [exact Fl|reflexivity].
Qed.

Lemma card_reset_run k c s :
  kind_wf k -> h_kind (e_host s) = k -> h_card (e_host s) = c ->
  length (scr_scr (device s)) = 8%nat -> bytes (e_mem s) ->
  exists s', emmc_card_reset s = Done (true, s') /\ ready k c s' /\ e_mem s' = e_mem s.
Proof.
  intros Kw Hk Hc Ls By. unfold emmc_card_reset, set_control1. rewrite set_host_run.
  set (s1 := with_host (write_ctl1 _ _) s).
  pose proof (control_wait EMMC_CTRL1_RESET_ALL false EvReset
    (h_put_ctl1 EMMC_CTRL1_RESET_HOST (h_put_flags 0 (h_put_mask 0 (h_put_port [] false None (e_host s)))))
    s1 eq_refl eq_refl eq_refl) as W.
  mrun W. cbn [negb]. set (s2 := with_host _ s1).
  destruct (clock_run k c (e_host s2) s2 Hk Hc eq_refl eq_refl eq_refl eq_refl) as (h' & E & V & Ct & Fl & Du).
  mrun E. cbn [negb]. unfold set_int_flags. rewrite !set_host_run.
  set (s3 := with_host _ (with_host _ _)).
  assert (Q3 : quiet (mkView k c (h_state (e_host s)) (h_app (e_host s)) (h_busy (e_host s))) (e_host s3)).
  { split; [|split; [exact Du|]].
    - split; [|split; [reflexivity|exact Ct]]. transitivity (view_of h'); [reflexivity|]. rewrite V. subst k c. reflexivity.
    - change (Z.ldiff (h_flags h') 0xFFFFFFFF = 0). by rewrite Fl. }
  rewrite (delay_quiet _ _ _ _ Q3), !set_device_run.
  match goal with |- context [identify_card ?st] =>
    destruct (identify_run k c _ _ _ st Kw Q3 eq_refl Ls By) as (s' & E' & R & Em) end.
  exists s'. split; [exact E'|]. split; [exact R|exact Em].
Qed.

(** The pins above 31 are not touched: gpio_set_function refuses them. *)
Lemma high_pin_run {B} pin f (m : unit -> M (emmc_t D) B) s :
  no_pin pin = true -> (on_epins (gpio_set_function pin f) ≫= m) s = m tt s.
Proof.
  intros N. unfold on_epins, gpio_set_function. rewrite N. unfold mbind, M_bind, m_zoom. cbn. by destruct s.
Qed.

Lemma emmc_init_run k c s :
  kind_wf k -> h_kind (e_host s) = k -> h_card (e_host s) = c ->
  length (scr_scr (device s)) = 8%nat -> bytes (e_mem s) ->
  exists s', emmc_init s = Done (true, s') /\ ready k c s' /\ e_mem s' = e_mem s.
Proof.
  intros Kw Hk Hc Ls By. unfold emmc_init. rewrite !high_pin_run by done. rewrite !set_device_run.
  match goal with |- context [init_loop 10 ?st] => destruct (card_reset_run k c st Kw Hk Hc Ls By) as (s' & E & R) end.
  exists s'. split; [|exact R]. cbn [init_loop]. by mrun E.
Qed.

(** ** The driver as a block device *)

Inductive sd_op := SdRead (data : list Z) (lba nsec : Z) | SdWrite (data : list Z) (lba nsec : Z).

Definition card_op (op : sd_op) : M (sd_t D) (list Z) :=
  match op with
  | SdRead _ lba nsec => pi_sd_read lba nsec
  | SdWrite data lba nsec => pi_sd_write data lba nsec;; mret []
  end.
Definition driver_op (op : sd_op) : M (pi_sd_t (D := D)) (list Z) :=
  match op with
  | SdRead data lba nsec => drv_sd_read data lba nsec
  | SdWrite data lba nsec => drv_sd_write data lba nsec;; mret []
  end.

(** A client of the card: calls, each chosen by what the calls before it returned. *)
Inductive client (A : Type) : Type :=
  | Finish (a : A)
  | Call (op : sd_op) (next : list Z -> client A).
Arguments Finish {_} _.
Arguments Call {_} _ _.

Fixpoint client_run {S A} (f : sd_op -> M S (list Z)) (p : client A) : M S A :=
  match p with
  | Finish a => mret a
  | Call op next => r ← f op; client_run f (next r)
  end.

(** The buffer has the size asked for, and the sectors are below the card's limit. *)
Definition sd_op_ok (k : card_kind) (op : sd_op) : Prop :=
  let '(data, lba, nsec) := match op with SdRead d l n | SdWrite d l n => (d, l, n) end in
  reachable k lba nsec /\ Z.of_nat (length data) = 512 * nsec /\ bytes data.

(** So are all calls the client makes on the card [d]. *)
Fixpoint client_ok {A} (k : card_kind) (p : client A) (d : sd_t D) : Prop :=
  match p with
  | Finish _ => True
  | Call op next =>
      sd_op_ok k op /\
      match card_op op d with Done (r, d') => client_ok k (next r) d' | _ => True end
  end.

Definition matches {A} (k : card_kind) (r : res (A * sd_t D)) (r' : res (A * pi_sd_t (D := D))) : Prop :=
  match r with
  | Done (out, d) => sd_init_p d = true /\
      exists s, r' = Done (out, mkPiSd true s) /\ ready k (sd_card d) s
  | Panic => r' = Panic
  | _ => False
  end.

Lemma sd_block_run (w : bool) k c lba n s :
  ready k c s -> reachable k lba (Z.of_nat n) -> length (e_mem s) = (512 * n)%nat ->
  if transfer_ok c lba (Z.of_nat n) then
    exists s', (if w then sd_writeblock else sd_readblock) lba (Z.of_nat n) s = Done (512 * Z.of_nat n, s') /\
      ready k (if w then put_sectors lba n (e_mem s) c else c) s' /\
      (w = false -> e_mem s' = sectors c lba n)
  else exists s', (if w then sd_writeblock else sd_readblock) lba (Z.of_nat n) s = Done (-1, s').
Proof.
  intros R Re Ln. pose proof (data_command_run w k c lba n s R Re ltac:(lia)) as As.
  assert (U : u32 (Z.of_nat n * 512) = 512 * Z.of_nat n).
  { rewrite u32_small by (destruct Re as (_ & Hn & _); unfold is_u32; change (2 ^ 32) with (2 ^ 23 * 512); lia). lia. }
  assert (E : (if w then sd_writeblock else sd_readblock) lba (Z.of_nat n) s =
    (success ← do_data_command w (512 * Z.of_nat n) lba; mret (if success : bool then 512 * Z.of_nat n else -1)) s).
  { destruct w; unfold sd_writeblock, sd_readblock, emmc_write, emmc_read; rewrite U, assert_run; try done;
      apply Z.eqb_eq; rewrite Z.mul_comm; apply Z_mod_mult. }
  rewrite E. unfold as_asked in As. destruct (transfer_ok _ _ _).
  - destruct As as (s' & Ed & R' & Em). exists s'. split; [by mrun Ed|]. split; [done|].
    intros ->. rewrite Em. apply splice_all. by rewrite length_sectors.
  - destruct As as (s' & Ed). exists s'. by mrun Ed.
Qed.

Lemma on_emmc_run {A B} (m : M (emmc_t D) A) (f : A -> M pi_sd_t B) i s a s' :
  m s = Done (a, s') -> (on_emmc m ≫= f) (mkPiSd i s) = f a (mkPiSd i s').
Proof. intros E. unfold on_emmc, mbind, M_bind, m_zoom. cbn. by rewrite E. Qed.

Lemma ready_buffer k c s data : ready k c s -> bytes data -> ready k c (mkEmmc (device s) (e_host s) data (e_pins s)).
Proof. intros [Q Bz Sd By] B. by split. Qed.

Lemma failed_result n : 0 <= n < 2 ^ 23 -> negb (u32 (-1) =? u32 (512 * n)) = true.
Proof.
  intros Hn. rewrite (u32_small (512 * n)) by (unfold is_u32; change (2 ^ 32) with (2 ^ 23 * 512); lia).
  apply negb_true_iff, Z.eqb_neq. change (u32 (-1)) with 4294967295. change (2 ^ 23) with 8388608 in Hn. lia.
Qed.

(** One call. *)
Lemma op_matches k c s op :
  ready k c s -> sd_op_ok k op ->
  matches k (card_op op (mk_sd true c)) (driver_op op (mkPiSd true s)).
Proof.
  intros R Ok. unfold matches. assert (N : exists n, Z.of_nat n = match op with SdRead _ _ n | SdWrite _ _ n => n end).
  { exists (Z.to_nat (match op with SdRead _ _ n | SdWrite _ _ n => n end)).
    destruct op; destruct Ok as ((_ & Hn & _) & _); lia. }
  destruct N as [n Hn]. destruct op as [data lba nsec|data lba nsec]; subst nsec; destruct Ok as (Re & Ln & By).
  all: set (s1 := mkEmmc (device s) (e_host s) data (e_pins s)); pose proof (ready_buffer _ _ _ _ R By) as R1; fold s1 in R1.
  all: pose proof (fun w => sd_block_run w k c lba n s1 R1 Re ltac:(cbn; lia)) as Sb.
  all: pose proof (failed_result _ (proj1 (proj2 Re))) as Fr.
  - specialize (Sb false). cbn [card_op driver_op]. unfold pi_sd_read, drv_sd_read.
    rewrite !gets_run, !assert_run, gets_run by done. unfold set_buffer. rewrite modify_run.
    cbn [sd_card p_init p_emmc]. fold s1. unfold read_sectors. destruct (transfer_ok _ _ _).
    + destruct Sb as (s' & E & R' & Em). split; [done|]. exists s'. split; [|done].
      rewrite (on_emmc_run _ _ _ _ _ _ E), Z.eqb_refl. cbn [negb]. unfold m_gets. cbn [p_emmc]. by rewrite Em.
    + destruct Sb as (s' & E). by rewrite (on_emmc_run _ _ _ _ _ _ E), Fr.
  - specialize (Sb true). cbn [card_op driver_op].
    assert (Pw : pi_sd_write data lba (Z.of_nat n) (mk_sd true c) =
      match write_sectors c data lba (Z.of_nat n) with Some d' => Done (1, mk_sd true d') | None => Panic end)
      by (unfold pi_sd_write, mbind, M_bind; cbn; by destruct (write_sectors _ _ _ _)).
    assert (Dw : drv_sd_write data lba (Z.of_nat n) (mkPiSd true s) =
      (on_emmc (sd_writeblock lba (Z.of_nat n)) ≫= fun res =>
         if negb (u32 res =? u32 (512 * Z.of_nat n)) then m_panic else mret 1) (mkPiSd true s1)) by reflexivity.
    unfold write_sectors in Pw. unfold mbind at 1 2 3, M_bind at 1 2 3. rewrite Pw, Dw. destruct (transfer_ok _ _ _).
    + destruct Sb as (s' & E & R' & _). split; [done|]. exists s'. split; [|by rewrite Nat2Z.id].
      by rewrite (on_emmc_run _ _ _ _ _ _ E), Z.eqb_refl.
    + destruct Sb as (s' & E). by rewrite (on_emmc_run _ _ _ _ _ _ E), Fr.
Qed.

Lemma client_matches {A} k c s (p : client A) :
  ready k c s -> client_ok k p (mk_sd true c) ->
  matches k (client_run card_op p (mk_sd true c)) (client_run driver_op p (mkPiSd true s)).
Proof.
  revert c s; induction p as [a|op next IH]; intros c s R Ok.
  { split; [done|]. by exists s. }
  cbn [client_ok] in Ok. destruct Ok as [Ok1 Ok2]. pose proof (op_matches k c s op R Ok1) as Om. unfold matches in Om.
  cbn [client_run]. destruct (card_op op (mk_sd true c)) as [[out d]| | |] eqn:Ec; try done.
  - destruct Om as (Hd & s' & E & R'). rewrite (bind_done _ _ _ _ _ Ec), (bind_done _ _ _ _ _ E).
    destruct d as [i c']. cbn [sd_init_p sd_card] in *. subst i. by apply IH.
  - rewrite (bind_panic _ _ _ Ec), (bind_panic _ _ _ Om). done.
Qed.

(** C14: the SD-card driver is a block device.  Started on any card that keeps to the
    specification (version 1 or 2, standard or high capacity, however often it is not ready),
    whatever the registers of the controller hold and however long it takes within the
    driver's time limits, a client that reads and writes through pi-sd.c on the driver, its
    calls chosen by the data it has read, has the results of the same calls on the card's
    sectors: the same data, the same sectors changed, and a panic exactly when a sector is
    missing or the number of sectors is zero or above 65535.  Each call of the client must
    have a buffer of bytes of the size asked for, fewer than 2^23 sectors, and sectors below
    those the card's commands can name (2^32, and 2^23 on a standard card, which is addressed
    by bytes); beyond, the driver's 32-bit products wrap around, see [far_sector_wraps]. *)
Theorem emmc_refines_card {A} k c s (p : client A) :
  kind_wf k -> h_kind (e_host s) = k -> h_card (e_host s) = c -> sd_init_ok c = true ->
  length (scr_scr (device s)) = 8%nat -> bytes (e_mem s) -> client_ok k p (mk_sd true c) ->
  matches k ((pi_sd_init;; client_run card_op p) (mk_sd false c))
            ((drv_sd_init;; client_run driver_op p) (mkPiSd false s)).
Proof.
  intros Kw Hk Hc Ok Ls By Fo. destruct (emmc_init_run k c s Kw Hk Hc Ls By) as (s' & E & R & _).
  rewrite (bind_done _ _ _ 1 (mk_sd true c)) by (unfold pi_sd_init, mbind, M_bind; cbn; by rewrite Ok).
  rewrite (bind_done drv_sd_init _ _ 1 (mkPiSd true s')); [by apply client_matches|].
  unfold drv_sd_init, sd_init, on_emmc, mbind, M_bind, m_zoom. cbn [p_emmc]. by rewrite E.
Qed.

(** Where [client_ok] ends: block_no *= 512 and nsec * 512 are products of 32 bits.  On a
    standard card the sectors from 2^23 on are those from 0, and 2^23 sectors more are asked for
    without a difference; pi-sd.c's check of the result wraps the same way. *)
Lemma wrap_sectors n : u32 ((n + 2 ^ 23) * 512) = u32 (n * 512).
Proof. unfold u32. change (2 ^ 32) with (2 ^ 23 * 512). replace ((n + 2 ^ 23) * 512) with (n * 512 + 1 * (2 ^ 23 * 512)) by lia. apply Z_mod_plus_full. Qed.

Lemma block_no_wraps w bsize lba s : sdhc (device s) = false ->
  do_data_command w bsize (lba + 2 ^ 23) s = do_data_command w bsize lba s.
Proof. intros Sd. unfold do_data_command. rewrite !dev_run, Sd. cbn [negb]. by rewrite wrap_sectors. Qed.

Theorem far_sector_wraps k c s data lba n :
  ready k c s -> sd_op_ok k (SdRead data lba n) -> transfer_ok c lba n = true ->
  exists s1 s2, ready k c s1 /\ ready k c s2 /\
    drv_sd_read data lba (n + 2 ^ 23) (mkPiSd true s) = Done (sectors c lba (Z.to_nat n), mkPiSd true s1) /\
    (k_hc k = false ->
     drv_sd_read data (lba + 2 ^ 23) n (mkPiSd true s) = Done (sectors c lba (Z.to_nat n), mkPiSd true s2)).
Proof.
  intros R Ok T. pose proof (op_matches k c s _ R Ok) as Om. unfold matches in Om. cbn [card_op driver_op] in Om.
  assert (Rd : pi_sd_read lba n (mk_sd true c) = Done (sectors c lba (Z.to_nat n), mk_sd true c)).
  { unfold pi_sd_read. rewrite gets_run, assert_run by done. rewrite gets_run. unfold read_sectors. cbn [sd_card].
    rewrite T. unfold sectors. do 3 f_equal. destruct Ok as ((_ & Hn & _) & _). by rewrite Z2Nat.id by lia. }
  rewrite Rd in Om. destruct Om as (_ & s' & E & R'). exists s', s'. split_and!; [done|done| |].
  - rewrite <-E. unfold drv_sd_read, sd_readblock. rewrite wrap_sectors.
    by rewrite !(Z.mul_comm 512), wrap_sectors.
  - intros Hc. rewrite <-E. unfold drv_sd_read. rewrite !gets_run, !assert_run by done.
    unfold set_buffer. rewrite !modify_run. set (t := mkPiSd _ _).
    assert (Et : on_emmc (sd_readblock (lba + 2 ^ 23) n) t = on_emmc (sd_readblock lba n) t).
    { unfold on_emmc, m_zoom, sd_readblock, emmc_read, mbind, M_bind. cbn [p_emmc t].
      unfold m_assert. destruct (_ =? _); [|done]. cbn [mret M_ret]. unfold mret, M_ret.
      rewrite block_no_wraps; [done|]. cbn. by rewrite (ready_sdhc _ _ _ R). }
    unfold mbind, M_bind. by rewrite Et.
Qed.
End init.
Arguments Finish {_} _.
Arguments Call {_} _ _.

(** ** The clock *)

(** The clock of the card for a divider register: the base clock, or half of it divided by
    the ten bits of the divider. *)
Definition card_clock (base reg : Z) : Z :=
  let n := Z.lor (Z.land (Z.shiftr reg 8) 0xff) (Z.shiftl (Z.land (Z.shiftr reg 6) 3) 8) in
  if n =? 0 then base else base / (2 * n).

(** No base clock makes the card run faster than the rate aimed at. *)
Lemma clock_never_too_fast base : is_u32 base -> card_clock base (get_clock_divider base) <= SD_CLOCK_HIGH.
Proof.
  intros [H0 H1]. unfold get_clock_divider, SD_CLOCK_HIGH.
  destruct (Z.leb_spec 50000000 base) as [Hb|Hb].
  2: { change (base <= 50000000). lia. }
  destruct (Z.eqb_spec (base mod 50000000) 0) as [Hm|Hm]; cbn [negb].
  - assert (E : base = 50000000 * (base / 50000000)) by (apply Z.div_exact; [lia|done]).
    revert E. generalize (base / 50000000) as k. intros k E.
    assert (Hk : 1 <= k <= 85) by (change (2 ^ 32) with 4294967296 in H1; lia).
    subst base. apply Z.leb_le.
    assert (A : forallb (fun i => let k := Z.of_nat i in
      card_clock (50000000 * k) (
        let div := high_bit 32 k in
        let div := if div =? -1 then 31 else div in
        let div := if 32 <=? div then 31 else div in
        let div := if negb (div =? 0) then Z.shiftl 1 (div - 1) else div in
        let div := if 0x400 <=? div then 0x3FF else div in
        Z.lor (Z.shiftl (Z.land div 0xff) 8) (Z.shiftl (Z.land (Z.shiftr div 8) 3) 6)) <=? 50000000) (seq 1 85) = true)
      by by vm_compute.
    rewrite forallb_forall in A. specialize (A (Z.to_nat k)). cbv zeta in A |- *. rewrite Z2Nat.id in A by lia. apply A.
    apply in_seq. lia.
  - cbv zeta. change (high_bit 32 0) with (-1).
    change (card_clock base 0xFFC0 <= 50000000). unfold card_clock.
    change (Z.lor (Z.land (Z.shiftr 0xFFC0 8) 0xff) (Z.shiftl (Z.land (Z.shiftr 0xFFC0 6) 3) 8)) with 1023.
    change (2 ^ 32) with 4294967296 in H1. cbn [Z.eqb]. apply Z.div_le_upper_bound; lia.
Qed.

(** A driver that takes its time, a high-capacity card of a hundred sectors, and two calls. *)
Module EmmcExample.
#[local] Program Instance some_latency : EmmcLatency :=
  {| cmd_lat n := if Nat.even n then 1500 else 40; data_lat n := if Nat.even n then 0 else 70000 |}.
Next Obligation. intros n. cbn. destruct (Nat.even n); lia. Qed.
Next Obligation. intros n. cbn. destruct (Nat.even n); lia. Qed.

Definition kind0 : card_kind := mkKind true true 0xff8000 [1; 2; 3; 4] 0x1234 [2; 53; 128; 0; 0; 0; 0; 0] 2.
Definition card0 : ram_card := mk_ram 100 ∅.
Definition host0 : host ram_card := mkHost card0 kind0 0 false 0 0 0 [] 0 0 0 0 0 [] false None None 0.
Definition device0 : emmc_device :=
  mkDevice false 0 INVALID_CMD 0 0 (replicate 4 0) false 0 0 BufNull 0 0 0 (replicate 8 0) 0.
Definition emmc0 : emmc_t ram_card := mkEmmc device0 host0 [] GpioExample.bcm0.
(** Two sectors are written, one of them read, and its first byte says which is read next. *)
Definition client0 : client (list Z) :=
  Call (SdWrite (replicate 1024 7) 5 2) (fun _ =>
  Call (SdRead (replicate 512 0) 6 1) (fun l =>
  Call (SdRead (replicate 512 0) (if hd 0 l =? 7 then 5 else 0) 1) Finish)).

Lemma client0_ok : client_ok kind0 client0 (mk_sd true card0).
Proof.
  assert (forall v n lba, 0 <= v < 256 -> 0 <= lba <= 6 -> 0 < Z.of_nat n <= 2 ->
    reachable kind0 lba (Z.of_nat n) /\ Z.of_nat (length (replicate (512 * n) v)) = 512 * Z.of_nat n /\
    bytes (replicate (512 * n) v)) as Ok.
  { intros v n lba Hv Hl Hn. rewrite length_replicate. split; [unfold reachable; cbn; lia|].
    split; [lia|]. by apply Forall_replicate. }
  split; [apply (Ok 7 2%nat 5); lia|]. set (w := card_op _ _). vm_compute in w. subst w.
  split; [apply (Ok 0 1%nat 6); lia|]. set (w := card_op _ _). vm_compute in w. subst w.
  split; [apply (Ok 0 1%nat 5); lia|]. exact I.
Qed.

Lemma emmc_refines_card_witness :
  kind_wf kind0 /\ client_ok kind0 client0 (mk_sd true card0) /\
  matches kind0 ((pi_sd_init;; client_run card_op client0) (mk_sd false card0))
                ((drv_sd_init;; client_run driver_op client0) (mkPiSd false emmc0)).
Proof.
  assert (K : kind_wf kind0).
  { split; [done|cbn; lia|cbn; lia|done|]. repeat (apply Forall_cons_2; [unfold is_u8; lia|]). apply Forall_nil_2. }
  split; [exact K|]. split; [exact client0_ok|].
  apply (emmc_refines_card kind0 card0 emmc0 client0 K); [done|done|done|done|apply Forall_nil_2|exact client0_ok].
Defined.
End EmmcExample.
