(* ===== verification/FatTable.v ===== *)
(** * The file allocation table and cluster chains (src/fat32/fat32.c, fat32-helpers.c)

    The in-memory FAT, the classification of its entries, the walk over a cluster
    chain, the search for a free cluster and the two routines that read and write a
    chain.  The state is the [fat32_fs_t] of the mounted partition together with the
    state of pi-sd.c, whose calls are those of the class [PiSd]. *)

From stdpp Require Import base tactics option list numbers.
From Stdlib Require Import ZArith Lia.
From S2P Require Import Prelude Sd.

(** ** Data *)

Record fat32_fs_t : Type := mk_fs {
  lba_start : Z;
  fat_begin_lba : Z;
  cluster_begin_lba : Z;
  sectors_per_cluster : Z;
  root_dir_first_cluster : Z;
  fat : list Z;
  n_entries : Z
}.

Definition set_fat (t : list Z) (fs : fat32_fs_t) : fat32_fs_t :=
  mk_fs (lba_start fs) (fat_begin_lba fs) (cluster_begin_lba fs)
    (sectors_per_cluster fs) (root_dir_first_cluster fs) t (n_entries fs).

(** The mounted file system: the SD driver's state, the static [init_p] of fat32.c and
    the one [fat32_fs_t] the module allows. *)
Record world_on (T : Type) : Type := mk_world {
  w_sd : T;
  w_init : bool;
  w_fs : fat32_fs_t
}.
Arguments mk_world {_} _ _ _.
Arguments w_sd {_} _.
Arguments w_init {_} _.
Arguments w_fs {_} _.

(** The file system on the sectors of a card. *)
Notation world D := (world_on (sd_t D)).

(** fat32_cluster_t: the enumerators after [BAD_CLUSTER] count on from it. *)
Definition FREE_CLUSTER : Z := 0.
Definition RESERVED_CLUSTER : Z := 1.
Definition BAD_CLUSTER : Z := 0xFFFFFF7.
Definition LAST_CLUSTER : Z := 0xFFFFFF8.
Definition USED_CLUSTER : Z := 0xFFFFFF9.

(** Bytes that follow an allocation on the heap: what a read past the end of a buffer
    sees, by offset from the start of the buffer. *)
Class HeapGarbage : Type := past_end : nat -> Z.
Class HeapGarbageBytes `{HeapGarbage} : Prop := past_end_u8 i : is_u8 (past_end i).

(** [len] bytes at offset [off] of a buffer. *)
Definition buf_slice `{HeapGarbage} (data : list Z) (off len : nat) : list Z :=
  (fun i => default (past_end i) (data !! i)) <$> seq off len.

(** ** Operations *)

Definition fat32_fat_entry_type {S} (x0 : Z) : M S Z :=
  let x := Z.shiftr (u32 (Z.shiftl x0 4)) 4 in
  if (x =? FREE_CLUSTER) || (x =? RESERVED_CLUSTER) || (x =? BAD_CLUSTER) then mret x else
  if (0x2 <=? x) && (x <=? 0xFFFFFEF) then mret USED_CLUSTER else
  if (0xFFFFFF0 <=? x) && (x <=? 0xFFFFFF6) then m_panic else
  if (0xFFFFFF8 <=? x) && (x <=? 0xFFFFFFF) then mret LAST_CLUSTER else
  m_panic.

Section Table.
Context {T : Type} `{PiSd T} `{HeapGarbage}.
Local Notation W := (world_on T).

Definition on_sd {A} (m : M T A) : M W A :=
  m_zoom w_sd (fun s w => mk_world s (w_init w) (w_fs w)) m.

Definition get_fs_ : M W fat32_fs_t := m_gets w_fs.

(** [fs->fat[c]] as an rvalue and as an lvalue. *)
Definition fat_get (c : Z) : M W Z :=
  fs ← get_fs_;
  m_opt (fat fs !! Z.to_nat c).

Definition fat_set (c v : Z) : M W unit :=
  fs ← get_fs_;
  if Z.of_nat (length (fat fs)) <=? c then m_undef else
  m_modify (fun w => mk_world (w_sd w) (w_init w)
                       (set_fat (<[Z.to_nat c := v]> (fat (w_fs w))) (w_fs w))).

Definition cluster_to_lba (cluster_num : Z) : M W Z :=
  m_assert (2 <=? cluster_num);;
  fs ← get_fs_;
  mret (u32 (cluster_begin_lba fs + u32 ((cluster_num - 2) * sectors_per_cluster fs))).

(** Fuel for a walk over the FAT: a chain that ends visits no cluster twice, so it has
    at most one step per entry. *)
Definition walk_fuel : M W nat :=
  fs ← get_fs_;
  mret (S (length (fat fs))).

Fixpoint chain_length_loop (fuel : nat) (cluster count : Z) : M W Z :=
  match fuel with
  | O => m_nofuel
  | S fuel =>
      cluster' ← fat_get cluster;
      ty ← fat32_fat_entry_type cluster';
      if ty =? LAST_CLUSTER then mret (count + 1)
      else chain_length_loop fuel cluster' (count + 1)
  end.

Definition get_cluster_chain_length (start_cluster : Z) : M W Z :=
  if start_cluster =? 0 then mret 0 else
  fuel ← walk_fuel;
  chain_length_loop fuel start_cluster 0.

(** The bytes copied to [data]; their number is the value returned. *)
Fixpoint read_chain_loop (fuel : nat) (cluster : Z) (acc : list Z) : M W (list Z) :=
  match fuel with
  | O => m_nofuel
  | S fuel =>
      lba ← cluster_to_lba cluster;
      cluster' ← fat_get cluster;
      fs ← get_fs_;
      cluster_data ← on_sd (sd_fetch lba (sectors_per_cluster fs));
      let acc' := acc ++ cluster_data in
      ty ← fat32_fat_entry_type cluster';
      if ty =? LAST_CLUSTER then mret acc'
      else read_chain_loop fuel cluster' acc'
  end.

Definition read_cluster_chain (start_cluster : Z) : M W (list Z) :=
  if start_cluster =? 0 then mret [] else
  fuel ← walk_fuel;
  read_chain_loop fuel start_cluster [].

(** The scan of [find_free_cluster]; it stops at [n_entries]. *)
Fixpoint find_free_loop (fuel : nat) (cluster : Z) : M W Z :=
  match fuel with
  | O => m_nofuel
  | S fuel =>
      fs ← get_fs_;
      if cluster <? n_entries fs then
        v ← fat_get cluster;
        ty ← fat32_fat_entry_type v;
        if ty =? FREE_CLUSTER then mret cluster
        else find_free_loop fuel (u32 (cluster + 1))
      else m_panic
  end.

Definition find_free_cluster (start_cluster : Z) : M W Z :=
  let start := if start_cluster <? 3 then 3 else start_cluster in
  fs ← get_fs_;
  find_free_loop (S (Z.to_nat (n_entries fs))) start.

Definition fat_bytes (t : list Z) : list Z := concat (le_bytes 4 <$> t).

Definition write_fat_to_disk : M W unit :=
  fs ← get_fs_;
  let num_secs := n_entries fs / 128 in
  on_sd (sd_store (buf_slice (fat_bytes (fat fs)) 0 (Z.to_nat (num_secs * 512)))
           (fat_begin_lba fs) num_secs);;
  mret tt.

(** [n * 512 * fs->sectors_per_cluster] in unsigned arithmetic. *)
Definition clusters_nbytes (fs : fat32_fs_t) (n : Z) : Z :=
  u32 (u32 (n * 512) * sectors_per_cluster fs).

Definition write_cluster (data : list Z) (data_index lba : Z) : M W unit :=
  fs ← get_fs_;
  on_sd (sd_store
           (buf_slice data (Z.to_nat data_index) (Z.to_nat (512 * sectors_per_cluster fs)))
           lba (sectors_per_cluster fs));;
  mret tt.

(** First loop of [write_cluster_chain]: over the existing chain.  The result is
    [need_more_clusters], [cluster], [data_index] and [start_cluster]. *)
Fixpoint write_chain_walk (fuel : nat) (data : list Z) (nbytes : Z)
    (cluster data_index cluster_count start_cluster : Z) : M W (bool * Z * Z * Z) :=
  match fuel with
  | O => m_nofuel
  | S fuel =>
      if cluster =? 0 then mret (0 <? nbytes, cluster, data_index, start_cluster) else
      let cluster_count := u32 (cluster_count + 1) in
      tmp ← fat_get cluster;
      fs ← get_fs_;
      if nbytes <=? clusters_nbytes fs (u32 (cluster_count - 1)) then
        ty ← fat32_fat_entry_type tmp;
        if ty =? LAST_CLUSTER then
          fat_set cluster 0;;
          mret (false, cluster, data_index, 0)
        else
          fat_set cluster 0;;
          write_chain_walk fuel data nbytes tmp data_index cluster_count start_cluster
      else
        lba ← cluster_to_lba cluster;
        write_cluster data data_index lba;;
        let data_index := u32 (data_index + u32 (512 * sectors_per_cluster fs)) in
        ty ← fat32_fat_entry_type tmp;
        if ty =? LAST_CLUSTER then
          mret (clusters_nbytes fs cluster_count <? nbytes, cluster, data_index, start_cluster)
        else
          (if nbytes <=? clusters_nbytes fs cluster_count
           then fat_set cluster 0xFFFFFFFF else mret tt);;
          write_chain_walk fuel data nbytes tmp data_index cluster_count start_cluster
  end.

(** Second loop: appends free clusters until all bytes are written. *)
Fixpoint write_chain_extend (fuel : nat) (data : list Z) (nbytes : Z)
    (cluster data_index start_cluster : Z) : M W Z :=
  match fuel with
  | O => m_nofuel
  | S fuel =>
      free_cluster ← find_free_cluster 3;
      lba ← cluster_to_lba free_cluster;
      start_cluster ←
        (if start_cluster =? 0 then mret free_cluster
         else fat_set cluster free_cluster;; mret start_cluster);
      fs ← get_fs_;
      write_cluster data data_index lba;;
      let data_index := u32 (data_index + u32 (512 * sectors_per_cluster fs)) in
      if nbytes <=? data_index then
        fat_set free_cluster 0xFFFFFFFF;;
        mret start_cluster
      else write_chain_extend fuel data nbytes free_cluster data_index start_cluster
  end.

(** Fuel for the second loop: one more step than there are clusters' worth of bytes. *)
Definition extend_fuel (nbytes : Z) : nat := S (Z.to_nat nbytes).

Definition write_cluster_chain (start_cluster : Z) (data : list Z) (nbytes : Z) : M W Z :=
  get_cluster_chain_length start_cluster;;
  fuel ← walk_fuel;
  '(need_more_clusters, cluster, data_index, start_cluster) ←
    write_chain_walk fuel data nbytes start_cluster 0 0 start_cluster;
  if (need_more_clusters : bool)
  then write_chain_extend (extend_fuel nbytes) data nbytes cluster data_index start_cluster
  else mret start_cluster.
End Table.
