(* ===== verification/FatChain.v ===== *)
(** * Theory of cluster chains

    What the routines of [FatTable] do on a well-formed file system: the
    classification of FAT entries, chains and their data, the search for a free
    cluster, reading a chain and the cases of writing one. *)

From stdpp Require Import base tactics option list numbers sets.
From Stdlib Require Import ZArith Lia.
From S2P Require Import Prelude Sd FatTable.

(** ** FAT entries *)

(** FAT32 uses the low 28 bits of an entry. *)
Definition low28 (v : Z) : Z := v mod 2^28.
Definition ent_free (v : Z) : Prop := low28 v = 0.
Definition ent_last (v : Z) : Prop := 0xFFFFFF8 <= low28 v.
Definition ent_used (v : Z) : Prop := 2 <= low28 v <= 0xFFFFFEF.
Definition ent_reserved (v : Z) : Prop := 0xFFFFFF0 <= low28 v <= 0xFFFFFF6.
Definition ent_ok (v : Z) : Prop := is_u32 v /\ ~ ent_reserved v.

#[export] Instance ent_free_dec v : Decision (ent_free v).
Proof. unfold ent_free. apply _. Defined.
#[export] Instance ent_last_dec v : Decision (ent_last v).
Proof. unfold ent_last. apply _. Defined.

#[export] Instance ent_used_dec v : Decision (ent_used v).
Proof. unfold ent_used. apply _. Defined.
#[export] Instance ent_ok_dec v : Decision (ent_ok v).
Proof. unfold ent_ok, is_u32, ent_reserved. apply _. Defined.

Lemma low28_range v : 0 <= low28 v < 2^28.
Proof. apply Z.mod_pos_bound. lia. Qed.

Lemma shift28 v : Z.shiftr (u32 (Z.shiftl v 4)) 4 = low28 v.
Proof.
  unfold u32, low28. rewrite Z.shiftl_mul_pow2, Z.shiftr_div_pow2 by lia.
  change (2^32) with (2^28 * 2^4). rewrite Z.mul_mod_distr_r by lia.
  by rewrite Z.div_mul by lia.
Qed.

Definition entry_type_spec (v : Z) : option Z :=
  let x := low28 v in
  if x =? 0 then Some FREE_CLUSTER else
  if x =? 1 then Some RESERVED_CLUSTER else
  if x <=? 0xFFFFFEF then Some USED_CLUSTER else
  if x <=? 0xFFFFFF6 then None else
  if x =? 0xFFFFFF7 then Some BAD_CLUSTER else Some LAST_CLUSTER.

Lemma entry_type_run {S} v (s : S) :
  fat32_fat_entry_type v s =
    match entry_type_spec v with Some t => Done (t, s) | None => Panic end.
Proof.
  unfold fat32_fat_entry_type. cbv zeta. rewrite shift28. unfold entry_type_spec.
  pose proof (low28_range v) as R. set (x := low28 v) in *. clearbody x.
  unfold FREE_CLUSTER, RESERVED_CLUSTER, BAD_CLUSTER, LAST_CLUSTER, USED_CLUSTER.
  repeat match goal with
         | |- context [?a =? ?b] => destruct (Z.eqb_spec a b); simpl; try lia
         | |- context [?a <=? ?b] => destruct (Z.leb_spec a b); simpl; try lia
         end; by subst.
Qed.

Ltac entry_cases v :=
  unfold ent_free, ent_last, ent_used, ent_ok, ent_reserved, entry_type_spec in *;
  pose proof (low28_range v);
  repeat match goal with
         | |- context [?a =? ?b] => destruct (Z.eqb_spec a b); simpl; try lia
         | |- context [?a <=? ?b] => destruct (Z.leb_spec a b); simpl; try lia
         end; try done.

Lemma spec_last v : ent_last v -> entry_type_spec v = Some LAST_CLUSTER.
Proof. intros H. entry_cases v. Qed.
Lemma spec_used v : ent_used v -> entry_type_spec v = Some USED_CLUSTER.
Proof. intros H. entry_cases v. Qed.
Lemma spec_free v : ent_free v -> entry_type_spec v = Some FREE_CLUSTER.
Proof. intros H. entry_cases v. Qed.
Lemma spec_notfree v : ent_ok v -> ~ ent_free v ->
  exists t, entry_type_spec v = Some t /\ t <> FREE_CLUSTER.
Proof.
  intros H F. unfold FREE_CLUSTER, RESERVED_CLUSTER, BAD_CLUSTER, LAST_CLUSTER, USED_CLUSTER.
  entry_cases v; eauto.
Qed.

Section Chains.
Context {D : Type} `{BlockDeviceLaws D} `{HeapGarbage}.
Implicit Types w : world D.

(** ** Well-formed file systems *)

Abbreviation spc fs := (sectors_per_cluster fs).

(** Bytes per cluster. *)
Definition bpc (fs : fat32_fs_t) : Z := 512 * spc fs.

Definition card w : D := sd_card (w_sd w).
Definition cluster_lba (fs : fat32_fs_t) (c : Z) : Z :=
  cluster_begin_lba fs + (c - 2) * spc fs.

(** The FAT lies before the data area and the data area fits the card; the arithmetic on
    sector numbers does not wrap; the FAT can be moved in one transfer, so that cluster
    numbers are below the reserved values. *)
Record geom_wf (fs : fat32_fs_t) : Prop := {
  wf_len : Z.of_nat (length (fat fs)) = n_entries fs;
  wf_128 : n_entries fs mod 128 = 0;
  wf_max : 128 <= n_entries fs <= 128 * 65535;
  wf_spc : 0 < spc fs;
  wf_spc_max : spc fs <= 128;
  wf_fat_lba : 0 <= fat_begin_lba fs;
  wf_order : fat_begin_lba fs + n_entries fs / 128 <= cluster_begin_lba fs;
  wf_fit : cluster_begin_lba fs + n_entries fs * spc fs < 2^32;
  wf_entries : Forall ent_ok (fat fs)
}.

Record fs_wf w : Prop := {
  wf_sd : sd_init_p (w_sd w) = true;
  wf_init : w_init w = true;
  wf_geom : geom_wf (w_fs w);
  wf_card l : fat_begin_lba (w_fs w) <= l <
                cluster_begin_lba (w_fs w) + n_entries (w_fs w) * spc (w_fs w) ->
              sec_ok (card w) l = true
}.

Definition valid_cluster (fs : fat32_fs_t) (c : Z) : Prop := 2 <= c < n_entries fs.

Definition cluster_data w (c : Z) : list Z :=
  sectors (card w) (cluster_lba (w_fs w) c) (Z.to_nat (spc (w_fs w))).

(** ** State updates *)

Definition w_set_fat (t : list Z) w : world D :=
  mk_world (w_sd w) (w_init w) (set_fat t (w_fs w)).
Definition w_set_card (d : D) w : world D :=
  mk_world (mk_sd (sd_init_p (w_sd w)) d) (w_init w) (w_fs w).
Definition w_put (c : Z) (b : list Z) w : world D :=
  w_set_card (put_sectors (cluster_lba (w_fs w) c) (Z.to_nat (spc (w_fs w))) b (card w)) w.

Lemma fs_wf_set_fat t w :
  fs_wf w -> length t = length (fat (w_fs w)) -> Forall ent_ok t -> fs_wf (w_set_fat t w).
Proof.
  intros [A B [] E] L F. constructor; auto. constructor; simpl in *; auto. congruence.
Qed.

Lemma fs_wf_put c b w : fs_wf w -> fs_wf (w_put c b w).
Proof.
  intros [A B G E]. constructor; auto. intros l Hl.
  unfold w_put, card; simpl. rewrite sec_ok_put_sectors. by apply E.
Qed.

(** ** The primitive accesses *)

Lemma fat_get_ok c v w : fat (w_fs w) !! Z.to_nat c = Some v -> fat_get c w = Done (v, w).
Proof. intros E. unfold fat_get, get_fs_. rewrite gets_run. unfold m_opt. by rewrite E. Qed.

Lemma fat_set_ok c v w : 0 <= c < Z.of_nat (length (fat (w_fs w))) ->
  fat_set c v w = Done (tt, w_set_fat (<[Z.to_nat c := v]> (fat (w_fs w))) w).
Proof.
  intros Hc. unfold fat_set, get_fs_. rewrite gets_run.
  by rewrite (proj2 (Z.leb_gt _ _)) by lia.
Qed.

Lemma cluster_to_lba_ok c w : geom_wf (w_fs w) -> valid_cluster (w_fs w) c ->
  cluster_to_lba c w = Done (cluster_lba (w_fs w) c, w).
Proof.
  intros G [H2 Hn]. destruct G. unfold cluster_to_lba, cluster_lba.
  rewrite assert_run by (by apply Z.leb_le). unfold get_fs_. rewrite gets_run.
  assert (0 <= (c - 2) * spc (w_fs w) < n_entries (w_fs w) * spc (w_fs w)) by nia.
  assert (0 <= n_entries (w_fs w) / 128) by (apply Z.div_pos; lia).
  rewrite (u32_small (_ * _)) by (unfold is_u32; lia).
  by rewrite u32_small by (unfold is_u32; lia).
Qed.

Lemma cluster_sec_ok c w l : fs_wf w -> valid_cluster (w_fs w) c ->
  cluster_lba (w_fs w) c <= l < cluster_lba (w_fs w) c + Z.of_nat (Z.to_nat (spc (w_fs w))) ->
  sec_ok (card w) l = true.
Proof.
  intros Wf [H2 Hn] Hl. apply Wf. destruct Wf as [_ _ [] _]. unfold cluster_lba in *.
  rewrite Z2Nat.id in Hl by lia.
  assert (0 <= n_entries (w_fs w) / 128) by (apply Z.div_pos; lia).
  assert (0 <= (c - 2) * spc (w_fs w)) by nia.
  assert ((c - 2) * spc (w_fs w) + spc (w_fs w) <= n_entries (w_fs w) * spc (w_fs w)) by nia.
  lia.
Qed.

Lemma read_cluster_ok c w : fs_wf w -> valid_cluster (w_fs w) c ->
  on_sd (sd_fetch (cluster_lba (w_fs w) c) (spc (w_fs w))) w =
    Done (cluster_data w c, w).
Proof.
  intros Wf V. pose proof (cluster_sec_ok c w) as Hok.
  pose proof (wf_spc _ (wf_geom _ Wf)) as Hs.
  replace (spc (w_fs w)) with (Z.of_nat (Z.to_nat (spc (w_fs w)))) at 1 by lia.
  unfold on_sd. erewrite zoom_done.
  2: { apply pi_sec_read_ok; [apply Wf|pose proof (wf_spc_max _ (wf_geom _ Wf)); lia|]. intros l Hl. by apply Hok. }
  by destruct w.
Qed.

(** Writing a whole cluster from a list of bytes. *)
Lemma write_cluster_raw c b w : fs_wf w -> valid_cluster (w_fs w) c ->
  on_sd (sd_store b (cluster_lba (w_fs w) c) (spc (w_fs w))) w = Done (1, w_put c b w).
Proof.
  intros Wf V. pose proof (cluster_sec_ok c w) as Hok.
  pose proof (wf_spc _ (wf_geom _ Wf)) as Hs.
  replace (spc (w_fs w)) with (Z.of_nat (Z.to_nat (spc (w_fs w)))) at 1 by lia.
  unfold on_sd. erewrite zoom_done.
  2: { apply pi_sd_write_ok; [apply Wf|pose proof (wf_spc_max _ (wf_geom _ Wf)); lia|]. intros l Hl. by apply Hok. }
  unfold w_put, w_set_card, card. by rewrite (wf_sd _ Wf).
Qed.

Lemma write_cluster_ok c data di w : fs_wf w -> valid_cluster (w_fs w) c ->
  write_cluster data di (cluster_lba (w_fs w) c) w =
    Done (tt, w_put c (buf_slice data (Z.to_nat di) (Z.to_nat (bpc (w_fs w)))) w).
Proof.
  intros Wf V. unfold write_cluster, get_fs_. rewrite gets_run.
  by mrun (write_cluster_raw c (buf_slice data (Z.to_nat di) (Z.to_nat (bpc (w_fs w)))) w Wf V).
Qed.

(** Distinct clusters do not share sectors, and none lies in the FAT. *)
Lemma cluster_disjoint fs c c' : geom_wf fs -> c <> c' ->
  cluster_lba fs c + Z.of_nat (Z.to_nat (spc fs)) <= cluster_lba fs c' \/
  cluster_lba fs c' + Z.of_nat (Z.to_nat (spc fs)) <= cluster_lba fs c.
Proof.
  intros [] Hne. unfold cluster_lba. rewrite Z2Nat.id by lia.
  destruct (decide (c < c')); [left|right]; nia.
Qed.

Lemma length_cluster_data w c : geom_wf (w_fs w) ->
  length (cluster_data w c) = Z.to_nat (bpc (w_fs w)).
Proof.
  intros []. unfold cluster_data, bpc. rewrite length_sectors. lia.
Qed.

Lemma cluster_data_bytes w c : bytes (cluster_data w c).
Proof. apply sectors_bytes. Qed.

Lemma cluster_data_put_eq c b w : fs_wf w -> valid_cluster (w_fs w) c ->
  length b = Z.to_nat (bpc (w_fs w)) -> bytes b -> cluster_data (w_put c b w) c = b.
Proof.
  intros Wf V L B. unfold cluster_data, w_put, card; simpl.
  pose proof (wf_spc _ (wf_geom _ Wf)) as Hs. unfold bpc in L.
  apply sectors_put_sectors; [|lia|done].
  intros l Hl. by apply (cluster_sec_ok c w).
Qed.

Lemma cluster_data_put_ne c c' b w : geom_wf (w_fs w) -> c <> c' ->
  cluster_data (w_put c b w) c' = cluster_data w c'.
Proof.
  intros G Hne. unfold cluster_data, w_put, card; simpl.
  apply sectors_put_sectors_ne.
  destruct (cluster_disjoint _ c c' G Hne); [right|left]; done.
Qed.

(** ** Chains *)

Inductive chain (t : list Z) : Z -> list Z -> Prop :=
  | chain_end c v : 2 <= c -> t !! Z.to_nat c = Some v -> ent_last v -> chain t c [c]
  | chain_link c v cs : 2 <= c -> t !! Z.to_nat c = Some v -> ent_used v ->
      chain t v cs -> chain t c (c :: cs).

(** The cluster field of a directory entry: 0 is an empty file. *)
Definition file_chain (t : list Z) (start : Z) (cs : list Z) : Prop :=
  (start = 0 /\ cs = []) \/ (start <> 0 /\ chain t start cs).

Definition chain_data w (cs : list Z) : list Z := concat (cluster_data w <$> cs).

Lemma chain_data_cons w c cs : chain_data w (c :: cs) = cluster_data w c ++ chain_data w cs.
Proof. done. Qed.

Lemma chain_data_app w cs1 cs2 :
  chain_data w (cs1 ++ cs2) = chain_data w cs1 ++ chain_data w cs2.
Proof. unfold chain_data. by rewrite fmap_app, concat_app. Qed.

Lemma chain_head t c cs : chain t c cs -> exists cs', cs = c :: cs'.
Proof. destruct 1; eauto. Qed.

Lemma chain_det t c cs1 cs2 : chain t c cs1 -> chain t c cs2 -> cs1 = cs2.
Proof.
  intros C. revert cs2. induction C as [c v H2 E L|c v cs H2 E U C IH]; intros cs2 C2.
  - inversion C2; subst; [done|]. simplify_eq. unfold ent_last, ent_used in *. lia.
  - inversion C2; subst; simplify_eq.
    + unfold ent_last, ent_used in *. lia.
    + f_equal. by apply IH.
Qed.

Lemma chain_suffix t c cs x : chain t c cs -> x ∈ cs ->
  exists cs1 cs2, cs = cs1 ++ cs2 /\ chain t x cs2.
Proof.
  induction 1 as [c v H2 E L|c v cs H2 E U C IH]; intros Hx.
  - apply list_elem_of_singleton in Hx as ->. exists [], [c]. split; [done|]. by econstructor.
  - apply elem_of_cons in Hx as [->|Hx].
    + exists [], (c :: cs). split; [done|]. by econstructor.
    + destruct (IH Hx) as (cs1 & cs2 & -> & C2). by exists (c :: cs1), cs2.
Qed.

Lemma chain_NoDup t c cs : chain t c cs -> NoDup cs.
Proof.
  induction 1 as [c v H2 E L|c v cs H2 E U C IH]; [by apply NoDup_singleton|].
  constructor; [|done]. intros Hc.
  destruct (chain_suffix _ _ _ _ C Hc) as (cs1 & cs2 & -> & C2).
  assert (chain t c (c :: cs1 ++ cs2)) as C3 by by econstructor.
  pose proof (chain_det _ _ _ _ C2 C3) as EqL.
  apply (f_equal length) in EqL. simpl in EqL. rewrite length_app in EqL. lia.
Qed.

Lemma chain_range t c cs x : chain t c cs -> x ∈ cs ->
  2 <= x < Z.of_nat (length t).
Proof.
  intros C Hx. destruct (chain_suffix _ _ _ _ C Hx) as (_ & cs2 & _ & C2).
  inversion C2 as [? v ? E|? v ? ? E]; subst; apply lookup_lt_Some in E; lia.
Qed.

Lemma chain_length_bound t c cs : chain t c cs -> (length cs <= length t)%nat.
Proof.
  intros C.
  transitivity (length (seqZ 0 (Z.of_nat (length t)))); [|rewrite length_seqZ; lia].
  apply submseteq_length, NoDup_submseteq; [by eapply chain_NoDup|].
  intros x Hx. apply elem_of_seqZ. pose proof (chain_range _ _ _ _ C Hx). lia.
Qed.

(** An update of the FAT outside a chain keeps the chain. *)
Lemma chain_insert t c cs k v : chain t c cs -> 0 <= k -> k ∉ cs ->
  chain (<[Z.to_nat k := v]> t) c cs.
Proof.
  intros C Hk. induction C as [c u H2 E L|c u cs H2 E U C IH]; intros Hni.
  - econstructor; try done. rewrite list_lookup_insert_ne; [done|].
    apply not_elem_of_cons in Hni as [Hne _]. lia.
  - apply not_elem_of_cons in Hni as [Hne Hni].
    econstructor; [done| |done|by apply IH].
    rewrite list_lookup_insert_ne; [done|]. lia.
Qed.

(** ** Reading *)

Lemma chain_length_loop_ok w c cs fuel n :
  chain (fat (w_fs w)) c cs -> (length cs <= fuel)%nat ->
  chain_length_loop fuel c n w = Done (n + Z.of_nat (length cs), w).
Proof.
  intros C. revert fuel n.
  induction C as [c v H2 E L|c v cs H2 E U C IH]; intros [|fuel] n Hf; simpl in Hf; try lia.
  - cbn [chain_length_loop]. mrun (fat_get_ok _ _ _ E).
    rewrite (bind_done _ _ _ LAST_CLUSTER w) by by rewrite entry_type_run, spec_last.
    rewrite Z.eqb_refl. unfold mret, M_ret. simpl. do 2 f_equal; lia.
  - cbn [chain_length_loop]. mrun (fat_get_ok _ _ _ E).
    rewrite (bind_done _ _ _ USED_CLUSTER w) by by rewrite entry_type_run, spec_used.
    change (USED_CLUSTER =? LAST_CLUSTER) with false. cbv iota.
    rewrite IH by lia. do 2 f_equal. simpl length. lia.
Qed.

Lemma walk_fuel_run {B} (f : nat -> M (world D) B) w :
  (walk_fuel ≫= f) w = f (S (length (fat (w_fs w)))) w.
Proof. done. Qed.

Lemma chain_length_run w start cs :
  file_chain (fat (w_fs w)) start cs ->
  get_cluster_chain_length start w = Done (Z.of_nat (length cs), w).
Proof.
  intros [[-> ->]|[Hn C]]; [done|]. unfold get_cluster_chain_length.
  rewrite (proj2 (Z.eqb_neq _ _) Hn), walk_fuel_run.
  pose proof (chain_length_bound _ _ _ C). by rewrite (chain_length_loop_ok _ _ cs) by (done || lia).
Qed.

Lemma read_chain_loop_ok w c cs fuel acc :
  fs_wf w -> chain (fat (w_fs w)) c cs -> (length cs <= fuel)%nat ->
  read_chain_loop fuel c acc w = Done (acc ++ chain_data w cs, w).
Proof.
  intros Wf C. revert fuel acc.
  assert (Hv : forall c v, 2 <= c -> fat (w_fs w) !! Z.to_nat c = Some v ->
                 valid_cluster (w_fs w) c).
  { intros c' v H2 E%lookup_lt_Some. destruct Wf as [_ _ [] _]. split; lia. }
  induction C as [c v H2 E L|c v cs H2 E U C IH]; intros [|fuel] acc Hf; simpl in Hf; try lia;
    cbn [read_chain_loop]; mrun (cluster_to_lba_ok c w (wf_geom _ Wf) (Hv _ _ H2 E));
    mrun (fat_get_ok _ _ _ E); unfold get_fs_; rewrite gets_run;
    mrun (read_cluster_ok c w Wf (Hv _ _ H2 E)).
  - rewrite (bind_done _ _ _ LAST_CLUSTER w) by by rewrite entry_type_run, spec_last.
    rewrite Z.eqb_refl. unfold chain_data. simpl. by rewrite app_nil_r.
  - rewrite (bind_done _ _ _ USED_CLUSTER w) by by rewrite entry_type_run, spec_used.
    change (USED_CLUSTER =? LAST_CLUSTER) with false. cbv iota.
    rewrite IH by lia. unfold chain_data. simpl. by rewrite <-app_assoc.
Qed.

Lemma read_chain_run w start cs :
  fs_wf w -> file_chain (fat (w_fs w)) start cs ->
  read_cluster_chain start w = Done (chain_data w cs, w).
Proof.
  intros Wf [[-> ->]|[Hn C]]; [done|]. unfold read_cluster_chain.
  rewrite (proj2 (Z.eqb_neq _ _) Hn), walk_fuel_run.
  pose proof (chain_length_bound _ _ _ C). by rewrite (read_chain_loop_ok _ _ cs) by (done || lia).
Qed.

Lemma length_chain_data w cs : geom_wf (w_fs w) ->
  length (chain_data w cs) = (length cs * Z.to_nat (bpc (w_fs w)))%nat.
Proof.
  intros G. induction cs as [|c cs IH]; [done|].
  rewrite chain_data_cons, length_app, IH, length_cluster_data by done. simpl. lia.
Qed.

(** ** Searching *)

(** The first free entry of the table from [start] on. *)
Definition first_free (t : list Z) (start c : Z) : Prop :=
  start <= c < Z.of_nat (length t) /\
  (exists v, t !! Z.to_nat c = Some v /\ ent_free v) /\
  (forall k v, start <= k < c -> t !! Z.to_nat k = Some v -> ~ ent_free v).

Definition no_free (t : list Z) (start : Z) : Prop :=
  forall k v, start <= k -> t !! Z.to_nat k = Some v -> ~ ent_free v.

Lemma find_free_loop_ok w fuel c :
  geom_wf (w_fs w) -> n_entries (w_fs w) < 2^32 -> 0 <= c ->
  (Z.to_nat (n_entries (w_fs w) - c) < fuel)%nat ->
  (exists f, first_free (fat (w_fs w)) c f /\ find_free_loop fuel c w = Done (f, w)) \/
  (no_free (fat (w_fs w)) c /\ find_free_loop fuel c w = Panic).
Proof.
  intros G Hn. revert c; induction fuel as [|fuel IH]; intros c Hc Hf; [lia|].
  cbn [find_free_loop]. unfold get_fs_. rewrite gets_run.
  pose proof (wf_len _ G) as HL.
  destruct (Z.ltb_spec c (n_entries (w_fs w))) as [Hlt|Hge].
  2: { right. split; [|done]. intros k v Hk E%lookup_lt_Some. lia. }
  destruct (lookup_lt_is_Some_2 (fat (w_fs w)) (Z.to_nat c)) as [v E]; [lia|].
  mrun (fat_get_ok _ _ _ E).
  destruct (decide (ent_free v)) as [F|NF].
  - left. exists c. split.
    + split; [lia|]. split; [by exists v|]. intros; lia.
    + by rewrite (bind_done _ _ _ FREE_CLUSTER w) by by rewrite entry_type_run, spec_free.
  - destruct (spec_notfree v) as (ty & Ety & Hty); [|done|].
    { by eapply (Forall_lookup_1 _ _ _ _ (wf_entries _ G)). }
    rewrite (bind_done _ _ _ ty w) by by rewrite entry_type_run, Ety.
    rewrite (proj2 (Z.eqb_neq _ _) Hty), u32_small by (unfold is_u32; lia).
    destruct (IH (c + 1)) as [(f & (R & Ex & NE) & Hr)|[NE Hr]]; [lia|lia| |].
    + left. exists f. split; [|done]. split; [lia|]. split; [done|].
      intros k u Hk Eu. destruct (decide (k = c)) as [->|]; [congruence|].
      apply (NE k); [lia|done].
    + right. split; [|done]. intros k u Hk Eu.
      destruct (decide (k = c)) as [->|]; [congruence|]. apply (NE k); [lia|done].
Qed.

Lemma entries_u32 fs : geom_wf fs -> n_entries fs < 2^32.
Proof.
  intros []. assert (0 <= n_entries fs / 128) by (apply Z.div_pos; lia). nia.
Qed.

Lemma find_free_run w start :
  geom_wf (w_fs w) -> 0 <= start ->
  (exists f, first_free (fat (w_fs w)) (Z.max 3 start) f /\
             find_free_cluster start w = Done (f, w)) \/
  (no_free (fat (w_fs w)) (Z.max 3 start) /\ find_free_cluster start w = Panic).
Proof.
  intros G Hs. unfold find_free_cluster. cbv zeta. unfold get_fs_. rewrite gets_run.
  replace (if start <? 3 then 3 else start) with (Z.max 3 start)
    by (destruct (Z.ltb_spec start 3); lia).
  apply find_free_loop_ok; auto using entries_u32; lia.
Qed.

Lemma first_free_det t s c c' : 0 <= s -> first_free t s c -> first_free t s c' -> c = c'.
Proof.
  intros Hs (R & (v & E & F) & N) (R' & (v' & E' & F') & N').
  destruct (Z.lt_trichotomy c c') as [?|[?|?]]; [|done|].
  - exfalso. apply (N' c v); [lia|done|done].
  - exfalso. apply (N c' v'); [lia|done|done].
Qed.

Lemma find_free_first w f : geom_wf (w_fs w) -> first_free (fat (w_fs w)) 3 f ->
  find_free_cluster 3 w = Done (f, w).
Proof.
  intros G F. destruct (find_free_run w 3 G) as [(f' & F' & Hr)|[N _]]; [lia| |].
  - assert (f = f') as -> by (by eapply (first_free_det _ 3)). done.
  - destruct F as ((? & ?) & (v & E & Fv) & _). exfalso. by apply (N f v).
Qed.

(** ** Frames

    [frame cs w w']: going from [w] to [w'] touched the clusters [cs] at most, their
    sectors and their FAT entries. *)

Definition in_cluster (fs : fat32_fs_t) (c l : Z) : Prop :=
  cluster_lba fs c <= l < cluster_lba fs c + spc fs.

Record frame (cs : list Z) w w' : Prop := {
  fr_sd : sd_init_p (w_sd w') = sd_init_p (w_sd w);
  fr_init : w_init w' = w_init w;
  fr_geom : w_fs w' = set_fat (fat (w_fs w')) (w_fs w);
  fr_len : length (fat (w_fs w')) = length (fat (w_fs w));
  fr_ok l : sec_ok (card w') l = sec_ok (card w) l;
  fr_sec l : (forall c, c ∈ cs -> ~ in_cluster (w_fs w) c l) ->
    sec_get (card w') l = sec_get (card w) l;
  fr_fat x : 0 <= x -> x ∉ cs ->
    fat (w_fs w') !! Z.to_nat x = fat (w_fs w) !! Z.to_nat x
}.

Lemma set_fat_id fs : set_fat (fat fs) fs = fs.
Proof. by destruct fs. Qed.

Lemma frame_refl cs w : frame cs w w.
Proof. constructor; auto. by rewrite set_fat_id. Qed.

Lemma fr_lba cs w w' c : frame cs w w' ->
  cluster_lba (w_fs w') c = cluster_lba (w_fs w) c.
Proof. intros F. by rewrite (fr_geom _ _ _ F). Qed.

Lemma fr_spc cs w w' : frame cs w w' -> spc (w_fs w') = spc (w_fs w).
Proof. intros F. by rewrite (fr_geom _ _ _ F). Qed.

Lemma fr_bpc cs w w' : frame cs w w' -> bpc (w_fs w') = bpc (w_fs w).
Proof. intros F. unfold bpc. by rewrite (fr_spc _ _ _ F). Qed.

Lemma frame_trans cs w1 w2 w3 : frame cs w1 w2 -> frame cs w2 w3 -> frame cs w1 w3.
Proof.
  intros F G. pose proof (fun c => fr_lba _ _ _ c F) as HL. pose proof (fr_spc _ _ _ F) as HS.
  destruct F as [a1 b1 c1 d1 e1 f1 g1], G as [a2 b2 c2 d2 e2 f2 g2].
  constructor; try congruence.
  - rewrite c2. rewrite c1. done.
  - intros l Hl. rewrite f2, f1; [done|done|]. unfold in_cluster in *. intros c' Hc'.
    rewrite HL, HS. by apply Hl.
  - intros x Hx Hn. by rewrite g2, g1.
Qed.

Lemma frame_mono cs cs' w w' : frame cs w w' -> (forall x, x ∈ cs -> x ∈ cs') -> frame cs' w w'.
Proof.
  intros [] Hs. constructor; auto.
Qed.

Lemma frame_put cs c b w : 0 < spc (w_fs w) -> c ∈ cs -> frame cs w (w_put c b w).
Proof.
  intros Hp Hc. constructor; try done; unfold w_put, card; simpl.
  - by rewrite set_fat_id.
  - intros l. by rewrite sec_ok_put_sectors.
  - intros l Hl. apply sec_get_put_sectors_ne. specialize (Hl c Hc).
    unfold in_cluster in Hl. rewrite Z2Nat.id by lia. done.
Qed.

Lemma frame_set_fat cs c v w : 0 <= c -> c ∈ cs ->
  frame cs w (w_set_fat (<[Z.to_nat c := v]> (fat (w_fs w))) w).
Proof.
  intros Hp Hc. constructor; try done; simpl.
  - by rewrite length_insert.
  - intros x Hx Hn. apply list_lookup_insert_ne.
    intros E. apply Z2Nat.inj in E; [|done|done]. by subst.
Qed.

Lemma frame_geom cs w w' : frame cs w w' -> geom_wf (w_fs w) ->
  Forall ent_ok (fat (w_fs w')) -> geom_wf (w_fs w').
Proof.
  intros F [] E. pose proof (fr_len _ _ _ F). rewrite (fr_geom _ _ _ F).
  constructor; simpl; try done. congruence.
Qed.

Lemma frame_wf cs w w' : frame cs w w' -> fs_wf w ->
  Forall ent_ok (fat (w_fs w')) -> fs_wf w'.
Proof.
  intros F Wf E. pose proof (frame_geom _ _ _ F (wf_geom _ Wf) E) as G.
  destruct F as [A B C L O _ _]. constructor; [rewrite A; apply Wf|rewrite B; apply Wf|done|].
  intros l Hl. rewrite O. apply Wf. by rewrite C in Hl.
Qed.

Lemma sectors_ext (d d' : D) lba n :
  (forall l, lba <= l < lba + Z.of_nat n -> sec_get d l = sec_get d' l) ->
  sectors d lba n = sectors d' lba n.
Proof.
  revert lba; induction n as [|n IH]; intros lba Hl; [done|].
  rewrite !sectors_S, (Hl lba), IH by (intros; apply Hl || idtac; lia).
  done.
Qed.

Lemma frame_cluster_data cs w w' c : frame cs w w' -> geom_wf (w_fs w) -> c ∉ cs ->
  cluster_data w' c = cluster_data w c.
Proof.
  intros F G Hn. unfold cluster_data. rewrite (fr_lba _ _ _ _ F), (fr_spc _ _ _ F).
  apply sectors_ext. intros l Hl. apply (fr_sec _ _ _ F). intros c' Hc' Hl'.
  assert (c <> c') as Hne by congruence.
  pose proof (cluster_disjoint _ c c' G Hne) as Hd. unfold in_cluster in Hl'.
  destruct G. rewrite Z2Nat.id in * by lia. lia.
Qed.

Lemma frame_chain_data cs w w' cs' : frame cs w w' -> geom_wf (w_fs w) ->
  (forall x, x ∈ cs' -> x ∉ cs) -> chain_data w' cs' = chain_data w cs'.
Proof.
  intros F G Hn. induction cs' as [|c cs' IH]; [done|].
  rewrite !chain_data_cons, IH by set_solver.
  by rewrite (frame_cluster_data _ _ _ c F G) by set_solver.
Qed.

Lemma chain_ext t t' c cs : chain t c cs ->
  (forall x, x ∈ cs -> t' !! Z.to_nat x = t !! Z.to_nat x) -> chain t' c cs.
Proof.
  induction 1 as [c v H2 E L|c v cs H2 E U C IH]; intros He.
  - econstructor; [done| |done]. by rewrite He by set_solver.
  - econstructor; [done| |done|apply IH; set_solver]. by rewrite He by set_solver.
Qed.

Lemma frame_chain cs w w' c cs' : frame cs w w' ->
  chain (fat (w_fs w)) c cs' -> (forall x, x ∈ cs' -> x ∉ cs) ->
  chain (fat (w_fs w')) c cs'.
Proof.
  intros F C Hn. apply (chain_ext _ _ _ _ C). intros x Hx. apply (fr_fat _ _ _ F); [|auto].
  pose proof (chain_range _ _ _ _ C Hx). lia.
Qed.

Lemma frame_file_chain cs w w' c cs' : frame cs w w' ->
  file_chain (fat (w_fs w)) c cs' -> (forall x, x ∈ cs' -> x ∉ cs) ->
  file_chain (fat (w_fs w')) c cs'.
Proof.
  intros F [[-> ->]|[Hc C]] Hn; [by left|right]. split; [done|]. by eapply frame_chain.
Qed.

(** ** Writing over the existing chain *)

Lemma buf_slice_app data o a b :
  buf_slice data o (a + b) = buf_slice data o a ++ buf_slice data (o + a) b.
Proof. unfold buf_slice. by rewrite seq_app, fmap_app. Qed.

Lemma length_buf_slice data o n : length (buf_slice data o n) = n.
Proof. unfold buf_slice. by rewrite length_fmap, length_seq. Qed.

Lemma buf_slice_bytes `{!HeapGarbageBytes} data o n : bytes data -> bytes (buf_slice data o n).
Proof.
  intros B. unfold buf_slice. apply Forall_fmap, Forall_true. intros i. simpl.
  destruct (data !! i) eqn:E; simpl; [by eapply Forall_lookup_1|apply past_end_u8].
Qed.

(** Within the buffer a slice is the buffer's. *)
Lemma buf_slice_take data n : (n <= length data)%nat -> buf_slice data 0 n = take n data.
Proof.
  intros Hn. apply list_eq. intros i. unfold buf_slice. rewrite list_lookup_fmap.
  destruct (decide (i < n)%nat).
  - rewrite lookup_seq_lt by done. simpl. rewrite lookup_take_lt by done. simpl.
    destruct (lookup_lt_is_Some_2 data i) as [x E]; [lia|]. by rewrite E.
  - rewrite lookup_seq_ge by lia. by rewrite lookup_take_ge by lia.
Qed.

Lemma clusters_nbytes_ok fs k : 0 < spc fs -> 0 <= k -> k * bpc fs < 2^32 ->
  clusters_nbytes fs k = k * bpc fs.
Proof.
  intros Hs Hk Hb. unfold clusters_nbytes, bpc in *.
  assert (k * 512 <= k * (512 * spc fs)) by nia.
  rewrite (u32_small (k * 512)) by (unfold is_u32; lia).
  rewrite u32_small by (unfold is_u32; nia). lia.
Qed.

Lemma fat_valid w c v : geom_wf (w_fs w) -> 2 <= c -> fat (w_fs w) !! Z.to_nat c = Some v ->
  valid_cluster (w_fs w) c.
Proof. intros [] H2 E%lookup_lt_Some. split; lia. Qed.

Context `{!HeapGarbageBytes}.

Lemma frame_put_data c data o w : fs_wf w -> valid_cluster (w_fs w) c -> bytes data ->
  let w1 := w_put c (buf_slice data o (Z.to_nat (bpc (w_fs w)))) w in
  frame [c] w w1 /\ fs_wf w1 /\
  cluster_data w1 c = buf_slice data o (Z.to_nat (bpc (w_fs w))).
Proof.
  intros Wf V B w1. split_and!.
  - apply frame_put; [apply Wf|set_solver].
  - by apply fs_wf_put.
  - apply cluster_data_put_eq; auto using length_buf_slice, buf_slice_bytes.
Qed.

(** Sizes of the cluster counters in the walk. *)
Lemma walk_sizes fs j n : 0 < spc fs -> 0 <= j -> 0 < n -> (j + n) * bpc fs < 2^32 ->
  u32 (j + 1) = j + 1 /\ u32 (j + 1 - 1) = j /\
  clusters_nbytes fs j = j * bpc fs /\ clusters_nbytes fs (j + 1) = (j + 1) * bpc fs /\
  u32 (j * bpc fs + u32 (512 * spc fs)) = (j + 1) * bpc fs.
Proof.
  intros Hs Hj Hn Hb. pose proof (Z.lt_le_incl _ _ Hs).
  assert (512 <= bpc fs) by (unfold bpc; lia).
  assert (0 <= j * bpc fs) by nia. assert ((j + 1) * bpc fs <= (j + n) * bpc fs) by nia.
  assert (j + 1 <= (j + 1) * bpc fs) by nia.
  split_and!.
  - apply u32_small. split; lia.
  - rewrite Z.add_simpl_r. apply u32_small. split; lia.
  - apply clusters_nbytes_ok; lia.
  - apply clusters_nbytes_ok; lia.
  - rewrite (u32_small (512 * _)) by (unfold is_u32, bpc in *; lia).
    rewrite u32_small; unfold is_u32, bpc in *; lia.
Qed.

(** The clusters that hold data are all written, in order. *)
Lemma walk_write_ok w c cs fuel data nbytes j s :
  fs_wf w -> chain (fat (w_fs w)) c cs -> (length cs <= fuel)%nat -> 0 <= j -> bytes data ->
  (j + Z.of_nat (length cs)) * bpc (w_fs w) < 2^32 ->
  (j + Z.of_nat (length cs) - 1) * bpc (w_fs w) < nbytes ->
  let n := j + Z.of_nat (length cs) in
  exists w',
    write_chain_walk fuel data nbytes c (j * bpc (w_fs w)) j s w =
      Done ((n * bpc (w_fs w) <? nbytes, default 0 (last cs), n * bpc (w_fs w), s), w') /\
    frame cs w w' /\ fat (w_fs w') = fat (w_fs w) /\
    chain_data w' cs = buf_slice data (Z.to_nat (j * bpc (w_fs w)))
                         (length cs * Z.to_nat (bpc (w_fs w))).
Proof.
  intros Wf C. revert w fuel j Wf C. induction cs as [|c0 cs IH] in c |- *;
    intros w fuel j Wf C Hf Hj B Hb Hn n; [inversion C|].
  destruct (chain_head _ _ _ C) as [cs0 Heq]. injection Heq as -> <-.
  pose proof (chain_NoDup _ _ _ C) as ND. apply NoDup_cons in ND as [Hni _].
  destruct fuel as [|fuel]; [simpl in Hf; lia|]. simpl length in *.
  pose proof (wf_spc _ (wf_geom _ Wf)) as Hs.
  destruct (walk_sizes (w_fs w) j (Z.of_nat (S (length cs)))) as (E1 & E2 & E3 & E4 & E5);
    [lia|lia|lia|lia|].
  assert (Hbp : 512 <= bpc (w_fs w)) by (unfold bpc; lia).
  assert (exists v, 2 <= c /\ fat (w_fs w) !! Z.to_nat c = Some v) as (v & Hc2 & E)
    by (inversion C; eauto).
  pose proof (fat_valid _ _ _ (wf_geom _ Wf) Hc2 E) as V.
  destruct (frame_put_data c data (Z.to_nat (j * bpc (w_fs w))) w Wf V B) as (F1 & Wf1 & D1).
  set (w1 := w_put _ _ w) in *.
  cbn [write_chain_walk]. rewrite (proj2 (Z.eqb_neq c 0)) by lia. cbv zeta.
  mrun (fat_get_ok _ _ _ E). unfold get_fs_. rewrite gets_run, E1, E2, E3.
  rewrite (proj2 (Z.leb_gt _ _)) by nia.
  mrun (cluster_to_lba_ok c w (wf_geom _ Wf) V).
  mrun (write_cluster_ok c data (j * bpc (w_fs w)) w Wf V). fold w1. rewrite E5.
  inversion C as [? v' ? E' L|? v' ? ? E' U C']; simplify_eq.
  - rewrite (bind_done _ _ _ LAST_CLUSTER w1) by by rewrite entry_type_run, spec_last.
    rewrite Z.eqb_refl, E4. exists w1. subst n. simpl. rewrite Z.add_1_r.
    split_and!; [done|done|done|].
    rewrite chain_data_cons, D1. unfold chain_data. simpl. by rewrite app_nil_r, Nat.add_0_r.
  - rewrite (bind_done _ _ _ USED_CLUSTER w1) by by rewrite entry_type_run, spec_used.
    change (USED_CLUSTER =? LAST_CLUSTER) with false. cbv iota.
    assert (cs <> []) as Hcs by (by inversion C').
    assert (0 < Z.of_nat (length cs)) by (destruct cs; simpl; [done|lia]).
    rewrite E4, (proj2 (Z.leb_gt _ _)) by nia. rewrite ret_run.
    assert (w_fs w1 = w_fs w) as Efs by done.
    destruct (IH v w1 fuel (j + 1)) as (w' & R & F & T & Dt); rewrite ?Efs in *;
      [done|done|lia|lia|done|lia|lia|].
    exists w'. rewrite R. subst n.
    replace (j + 1 + Z.of_nat (length cs)) with (j + Z.of_nat (S (length cs))) by lia.
    split_and!.
    + destruct cs; [done|]. done.
    + eapply frame_trans; [eapply frame_mono; [exact F1|set_solver]|].
      eapply frame_mono; [exact F|set_solver].
    + done.
    + rewrite chain_data_cons, Dt, (frame_cluster_data _ _ _ c F (wf_geom _ Wf1)), D1 by done.
      rewrite Nat.mul_succ_l, Nat.add_comm, buf_slice_app. f_equal. f_equal. nia.
Qed.

(** ** Freeing a chain *)

Lemma ent_ok_0 : ent_ok 0.
Proof. split; [split; lia|]. unfold ent_reserved. change (low28 0) with 0. lia. Qed.

Lemma ent_ok_last : ent_ok 0xFFFFFFFF.
Proof.
  split; [split; lia|]. unfold ent_reserved. change (low28 0xFFFFFFFF) with 0xFFFFFFF. lia.
Qed.

Definition clear_entries (cs : list Z) (t : list Z) : list Z :=
  foldl (fun t c => <[Z.to_nat c := 0]> t) t cs.

Lemma length_clear_entries cs t : length (clear_entries cs t) = length t.
Proof.
  revert t; induction cs as [|c cs IH]; intros t; [done|].
  simpl. rewrite IH. apply length_insert.
Qed.

Lemma clear_entries_ok cs t : Forall ent_ok t -> Forall ent_ok (clear_entries cs t).
Proof.
  revert t; induction cs as [|c cs IH]; intros t Ht; [done|]. simpl. apply IH.
  apply Forall_insert; [done|]. apply ent_ok_0.
Qed.

Lemma clear_entries_ne cs t x : 0 <= x -> Forall (Z.le 0) cs -> x ∉ cs ->
  clear_entries cs t !! Z.to_nat x = t !! Z.to_nat x.
Proof.
  intros Hx P. revert t; induction P as [|c cs Hc P IH]; intros t Hn; [done|].
  simpl. apply not_elem_of_cons in Hn as [? ?]. rewrite IH by done.
  apply list_lookup_insert_ne. lia.
Qed.

Lemma clear_entries_eq cs t x : Forall (Z.le 0) cs -> x ∈ cs -> (Z.to_nat x < length t)%nat ->
  clear_entries cs t !! Z.to_nat x = Some 0.
Proof.
  intros P. revert t; induction P as [|c cs Hc P IH]; intros t Hx Hl; [set_solver|].
  simpl. destruct (decide (x ∈ cs)).
  - apply IH; [done|]. by rewrite length_insert.
  - assert (x = c) as -> by set_solver. rewrite clear_entries_ne by done.
    by apply list_lookup_insert_eq.
Qed.

Lemma chain_pos t c cs : chain t c cs -> Forall (Z.le 0) cs.
Proof.
  intros C. apply Forall_forall. intros x Hx. pose proof (chain_range _ _ _ _ C Hx). lia.
Qed.

Lemma w_set_fat_twice t t' w : w_set_fat t' (w_set_fat t w) = w_set_fat t' w.
Proof. done. Qed.

Lemma frame_clear cs w : Forall (Z.le 0) cs ->
  frame cs w (w_set_fat (clear_entries cs (fat (w_fs w))) w).
Proof.
  intros P. constructor; try done; simpl.
  - by rewrite length_clear_entries.
  - intros x Hx Hn. by apply clear_entries_ne.
Qed.

(** Once the data is exhausted the walk zeroes the entries that are left. *)
Lemma walk_free_ok w c cs fuel data nbytes di j s :
  geom_wf (w_fs w) -> chain (fat (w_fs w)) c cs -> (length cs <= fuel)%nat -> 0 <= j ->
  (j + Z.of_nat (length cs)) * bpc (w_fs w) < 2^32 -> nbytes <= j * bpc (w_fs w) ->
  write_chain_walk fuel data nbytes c di j s w =
    Done ((false, default 0 (last cs), di, 0),
          w_set_fat (clear_entries cs (fat (w_fs w))) w).
Proof.
  intros G C. revert w fuel j G C. induction cs as [|c0 cs IH] in c |- *;
    intros w fuel j G C Hf Hj Hb Hn; [inversion C|].
  destruct (chain_head _ _ _ C) as [cs0 Heq]. injection Heq as -> <-.
  pose proof (chain_NoDup _ _ _ C) as ND. apply NoDup_cons in ND as [Hni _].
  destruct fuel as [|fuel]; [simpl in Hf; lia|]. simpl length in *.
  destruct (walk_sizes (w_fs w) j (Z.of_nat (S (length cs)))) as (E1 & E2 & E3 & E4 & E5);
    [apply G|lia|lia|lia|].
  assert (exists v, 2 <= c /\ fat (w_fs w) !! Z.to_nat c = Some v) as (v & Hc2 & E)
    by (inversion C; eauto).
  assert (Hc : 0 <= c < Z.of_nat (length (fat (w_fs w)))) by (apply lookup_lt_Some in E; lia).
  cbn [write_chain_walk]. rewrite (proj2 (Z.eqb_neq c 0)) by lia. cbv zeta.
  mrun (fat_get_ok _ _ _ E). unfold get_fs_. rewrite gets_run, E1, E2, E3.
  rewrite (proj2 (Z.leb_le _ _)) by done.
  inversion C as [? v' ? E' L|? v' ? ? E' U C']; simplify_eq.
  - rewrite (bind_done _ _ _ LAST_CLUSTER w) by by rewrite entry_type_run, spec_last.
    rewrite Z.eqb_refl. by mrun (fat_set_ok c 0 w Hc).
  - rewrite (bind_done _ _ _ USED_CLUSTER w) by by rewrite entry_type_run, spec_used.
    change (USED_CLUSTER =? LAST_CLUSTER) with false. cbv iota.
    mrun (fat_set_ok c 0 w Hc).
    rewrite IH; [|apply (frame_geom [c] w)|by apply chain_insert; [|lia|]|lia|lia| |]; simpl.
    + rewrite w_set_fat_twice. do 3 f_equal. by destruct cs; [inversion C'|].
    + apply frame_set_fat; [lia|set_solver].
    + done.
    + apply Forall_insert; [apply G|apply ent_ok_0].
    + unfold bpc in *; simpl; lia.
    + pose proof (wf_spc _ G). unfold bpc in *. simpl. nia.
Qed.

(** ** Appending a cluster *)

Lemma first_free_valid w f : geom_wf (w_fs w) -> first_free (fat (w_fs w)) 3 f ->
  valid_cluster (w_fs w) f.
Proof. intros G ((? & ?) & _). pose proof (wf_len _ G). split; lia. Qed.

Lemma first_free_not_in t f c cs : first_free t 3 f -> chain t c cs -> f ∉ cs.
Proof.
  intros (_ & (v & E & F) & _) C Hin.
  destruct (chain_suffix _ _ _ _ C Hin) as (_ & cs2 & _ & C2).
  inversion C2; simplify_eq; unfold ent_free, ent_last, ent_used in *; lia.
Qed.

(** The table with [f] appended after [cs]. *)
Definition append_entry (cs : list Z) (f : Z) (t : list Z) : list Z :=
  <[Z.to_nat f := 0xFFFFFFFF]>
    (match last cs with Some l => <[Z.to_nat l := f]> t | None => t end).

Lemma ent_ok_used v : 2 <= v <= 0xFFFFFEF -> ent_ok v /\ ent_used v.
Proof.
  intros Hv. unfold ent_ok, ent_used, ent_reserved, low28.
  rewrite Z.mod_small by lia. split; [split; [split; lia|lia]|lia].
Qed.

Lemma append_chain t c cs f : chain t c cs -> f ∉ cs ->
  2 <= f <= 0xFFFFFEF -> f < Z.of_nat (length t) ->
  chain (append_entry cs f t) c (cs ++ [f]).
Proof.
  intros C Hni Hf Hlen. pose proof (ent_ok_used f Hf) as [_ Uf].
  assert (Lf : ent_last 0xFFFFFFFF) by (unfold ent_last; vm_compute; done).
  induction C as [c v Hc E L|c v cs Hc E U C IH]; unfold append_entry; simpl.
  - apply not_elem_of_cons in Hni as [Hne _].
    pose proof (lookup_lt_Some _ _ _ E).
    eapply chain_link; [done| |exact Uf|].
    + rewrite list_lookup_insert_ne by lia. by apply list_lookup_insert_eq.
    + eapply chain_end; [lia| |exact Lf]. apply list_lookup_insert_eq.
      rewrite length_insert. lia.
  - apply not_elem_of_cons in Hni as [Hne Hni].
    destruct (chain_head _ _ _ C) as [cs' ->].
    assert (exists l, last (v :: cs') = Some l /\ l ∈ v :: cs') as (l & El & Hl).
    { destruct (last (v :: cs')) as [l|] eqn:El.
      - exists l. split; [done|]. by apply last_Some_elem_of.
      - apply last_None in El. done. }
    change (last (c :: v :: cs')) with (last (v :: cs')).
    eapply chain_link; [done| |exact U|].
    + rewrite El. assert (c <> l).
      { intros ->. assert (NoDup (l :: v :: cs')) as [ND _]%NoDup_cons.
        { eapply chain_NoDup. by eapply chain_link. } done. }
      pose proof (chain_range _ _ _ _ C Hl).
      rewrite !list_lookup_insert_ne by lia. done.
    + apply (IH Hni).
Qed.

Lemma fat_set_frame cs c v w : fs_wf w -> valid_cluster (w_fs w) c -> ent_ok v -> c ∈ cs ->
  let w1 := w_set_fat (<[Z.to_nat c := v]> (fat (w_fs w))) w in
  fat_set c v w = Done (tt, w1) /\ frame cs w w1 /\ fs_wf w1.
Proof.
  intros Wf [V1 V2] Hv Hc w1. pose proof (wf_len _ (wf_geom _ Wf)) as HL.
  assert (frame cs w w1) as F by (apply frame_set_fat; [lia|done]).
  split_and!; [|done|].
  - apply fat_set_ok. lia.
  - eapply frame_wf; [done..|]. simpl. apply Forall_insert; [apply Wf|done].
Qed.

Lemma chain_last_elem t c cs : chain t c cs ->
  exists l, last cs = Some l /\ l ∈ cs.
Proof.
  intros C. destruct (chain_head _ _ _ C) as [cs' ->].
  destruct (last (c :: cs')) as [l|] eqn:El; [|by apply last_None in El].
  exists l. split; [done|]. by apply last_Some_elem_of.
Qed.

(** The second loop when one more cluster is enough. *)
Lemma extend_one_ok w start cs fuel data nbytes di f :
  fs_wf w -> file_chain (fat (w_fs w)) start cs -> first_free (fat (w_fs w)) 3 f ->
  bytes data -> 0 <= di -> di + bpc (w_fs w) < 2^32 -> nbytes <= di + bpc (w_fs w) ->
  exists w',
    write_chain_extend (S fuel) data nbytes (default 0 (last cs)) di start w =
      Done (if start =? 0 then f else start, w') /\
    fs_wf w' /\ frame (cs ++ [f]) w w' /\
    fat (w_fs w') = append_entry cs f (fat (w_fs w)) /\
    cluster_data w' f = buf_slice data (Z.to_nat di) (Z.to_nat (bpc (w_fs w))) /\
    (forall x, x <> f -> cluster_data w' x = cluster_data w x).
Proof.
  intros Wf C Ff B Hdi Hb Hn. pose proof (first_free_valid _ _ (wf_geom _ Wf) Ff) as Vf.
  cbn [write_chain_extend]. mrun (find_free_first _ _ (wf_geom _ Wf) Ff).
  mrun (cluster_to_lba_ok f w (wf_geom _ Wf) Vf).
  (* the link from the last cluster of the chain *)
  set (t1 := match last cs with
             | Some l => <[Z.to_nat l := f]> (fat (w_fs w)) | None => fat (w_fs w) end).
  set (w1 := w_set_fat t1 w).
  assert (L : (if start =? 0 then mret f
               else fat_set (default 0 (last cs)) f;; mret start) w =
              Done (if start =? 0 then f else start, w1) /\ frame (cs ++ [f]) w w1 /\ fs_wf w1).
  { destruct C as [[-> ->]|[Hs C]].
    - unfold w1, t1. simpl. unfold w_set_fat. rewrite set_fat_id. destruct w; simpl in *.
      split_and!; [done|apply frame_refl|done].
    - rewrite (proj2 (Z.eqb_neq _ _) Hs). destruct (chain_last_elem _ _ _ C) as (l & El & Hl).
      unfold w1, t1. rewrite El. simpl.
      pose proof (wf_len _ (wf_geom _ Wf)) as HL. pose proof (wf_max _ (wf_geom _ Wf)) as HM.
      pose proof (chain_range _ _ _ _ C Hl) as Rl. destruct Vf as [Vf1 Vf2].
      destruct (fat_set_frame (cs ++ [f]) l f w) as (R & F & Wf1);
        [done|by split; lia|by apply ent_ok_used; lia|set_solver|].
      mrun R. split_and!; [done|done|done]. }
  destruct L as (R & F1 & Wf1). mrun R. unfold get_fs_. rewrite gets_run.
  replace (cluster_lba (w_fs w) f) with (cluster_lba (w_fs w1) f) by done.
  assert (Vf1 : valid_cluster (w_fs w1) f) by done.
  mrun (write_cluster_ok f data di w1 Wf1 Vf1).
  destruct (frame_put_data f data (Z.to_nat di) w1 Wf1 Vf1 B) as (F2 & Wf2 & D2).
  set (w2 := w_put _ _ w1) in *. cbv zeta. change (w_fs w1) with (set_fat t1 (w_fs w)).
  cbn [sectors_per_cluster set_fat].
  pose proof (wf_spc _ (wf_geom _ Wf)) as Hs. fold (bpc (w_fs w)).
  rewrite (u32_small (bpc _)), u32_small by (unfold is_u32, bpc in *; lia).
  rewrite (proj2 (Z.leb_le _ _)) by done.
  destruct (fat_set_frame (cs ++ [f]) f 0xFFFFFFFF w2) as (R3 & F3 & Wf3);
    [done|done|apply ent_ok_last|set_solver|].
  mrun R3. eexists. split_and!; [done|done| | | |].
  - eapply frame_trans; [exact F1|]. eapply frame_trans; [|exact F3].
    eapply frame_mono; [exact F2|set_solver].
  - done.
  - exact D2.
  - intros x Hx. transitivity (cluster_data w2 x); [done|].
    rewrite (frame_cluster_data _ _ _ x F2 (wf_geom _ Wf1)) by set_solver. done.
Qed.

(** ** Writing a chain

    [realloc t cs nbytes b cs']: rewriting a file that occupies [cs] with [nbytes] bytes,
    in clusters of [b] bytes, leaves it in [cs']: the number of clusters stays the same,
    grows by one or becomes zero. *)
Inductive realloc (t cs : list Z) (nbytes b : Z) : list Z -> Prop :=
  | realloc_same :
      (Z.of_nat (length cs) - 1) * b < nbytes <= Z.of_nat (length cs) * b -> 0 < nbytes ->
      realloc t cs nbytes b cs
  | realloc_grow f :
      Z.of_nat (length cs) * b < nbytes <= (Z.of_nat (length cs) + 1) * b ->
      first_free t 3 f -> realloc t cs nbytes b (cs ++ [f])
  | realloc_free : nbytes = 0 -> realloc t cs nbytes b [].

Lemma last_snoc_default (cs : list Z) : cs <> [] -> exists l, last cs = Some l.
Proof. destruct (last cs) eqn:E; [eauto|]. by apply last_None in E. Qed.

Lemma write_chain_unfold w start cs data nbytes :
  file_chain (fat (w_fs w)) start cs ->
  write_cluster_chain start data nbytes w =
    ('(need_more_clusters, cluster, data_index, start_cluster) ←
       write_chain_walk (S (length (fat (w_fs w)))) data nbytes start 0 0 start;
     if (need_more_clusters : bool)
     then write_chain_extend (extend_fuel nbytes) data nbytes cluster data_index start_cluster
     else mret start_cluster) w.
Proof.
  intros C. unfold write_cluster_chain. mrun (chain_length_run _ _ _ C). done.
Qed.

Lemma walk_empty w fuel data nbytes : 
  write_chain_walk (S fuel) data nbytes 0 0 0 0 w = Done ((0 <? nbytes, 0, 0, 0), w).
Proof. done. Qed.

(** Whatever the chain, the first loop writes the part of the data it has room for. *)
Lemma walk_all w start cs data nbytes :
  fs_wf w -> file_chain (fat (w_fs w)) start cs -> bytes data ->
  Z.of_nat (length cs) * bpc (w_fs w) < 2^32 -> 0 < nbytes ->
  (Z.of_nat (length cs) - 1) * bpc (w_fs w) < nbytes ->
  let n := Z.of_nat (length cs) in
  exists w',
    write_chain_walk (S (length (fat (w_fs w)))) data nbytes start 0 0 start w =
      Done ((n * bpc (w_fs w) <? nbytes, default 0 (last cs), n * bpc (w_fs w), start), w') /\
    frame cs w w' /\ fat (w_fs w') = fat (w_fs w) /\
    chain_data w' cs = buf_slice data 0 (length cs * Z.to_nat (bpc (w_fs w))).
Proof.
  intros Wf [[-> ->]|[Hs C]] B Hb Hp Hn n.
  - exists w. rewrite walk_empty. split_and!; auto using frame_refl.
  - pose proof (chain_length_bound _ _ _ C).
    destruct (walk_write_ok w start cs (S (length (fat (w_fs w)))) data nbytes 0 start)
      as (w' & R & F & T & Dt); [done|done|lia|lia|done|done|done|].
    exists w'. change (0 * bpc (w_fs w)) with 0 in *. rewrite R. by split_and!.
Qed.

Lemma file_chain_pos t start cs x : file_chain t start cs -> x ∈ cs -> 2 <= x < Z.of_nat (length t).
Proof. intros [[-> ->]|[_ C]]; [set_solver|]. intros; by eapply chain_range. Qed.

(** What a rewrite of [cs] by [cs'] leaves behind: the new chain holds the data, the
    clusters given up are free, nothing else changed. *)
Record rewritten w (cs : list Z) (data : list Z) (start' : Z) w' (cs' : list Z) : Prop := {
  rw_wf : fs_wf w';
  rw_chain : file_chain (fat (w_fs w')) start' cs';
  rw_frame : frame (cs ++ cs') w w';
  rw_data : chain_data w' cs' = buf_slice data 0 (length cs' * Z.to_nat (bpc (w_fs w)));
  rw_freed x : x ∈ cs -> x ∉ cs' -> fat (w_fs w') !! Z.to_nat x = Some 0
}.

Section Write.
Variables (w : world D) (start : Z) (cs data : list Z) (nbytes : Z).
Hypotheses (Wf : fs_wf w) (C : file_chain (fat (w_fs w)) start cs) (B : bytes data).
Hypothesis (Hb : (Z.of_nat (length cs) + 1) * bpc (w_fs w) < 2^32).

Lemma bpc_pos : 512 <= bpc (w_fs w).
Proof using Wf. clear C Hb B. pose proof (wf_spc _ (wf_geom _ Wf)). unfold bpc. lia. Qed.

Lemma write_chain_same : 0 < nbytes ->
  (Z.of_nat (length cs) - 1) * bpc (w_fs w) < nbytes <= Z.of_nat (length cs) * bpc (w_fs w) ->
  exists w', write_cluster_chain start data nbytes w = Done (start, w') /\
    rewritten w cs data start w' cs.
Proof using All.
  intros Hp Hn. pose proof bpc_pos. rewrite (write_chain_unfold _ _ _ _ _ C).
  destruct (walk_all w start cs data nbytes) as (w' & R & F & T & Dt); [done..|lia|done|lia|].
  mrun R. rewrite (proj2 (Z.ltb_ge _ _)) by lia. exists w'. split; [done|]. split.
  - eapply frame_wf; [done..|]. rewrite T. apply Wf.
  - by rewrite T.
  - eapply frame_mono; [done|set_solver].
  - done.
  - set_solver.
Qed.

Lemma write_chain_grow f : first_free (fat (w_fs w)) 3 f ->
  Z.of_nat (length cs) * bpc (w_fs w) < nbytes <= (Z.of_nat (length cs) + 1) * bpc (w_fs w) ->
  exists w', write_cluster_chain start data nbytes w =
      Done (if start =? 0 then f else start, w') /\
    rewritten w cs data (if start =? 0 then f else start) w' (cs ++ [f]).
Proof using All.
  intros Ff Hn. pose proof bpc_pos. rewrite (write_chain_unfold _ _ _ _ _ C).
  destruct (walk_all w start cs data nbytes) as (w1 & R & F & T & Dt); [done..|lia|nia|nia|].
  mrun R. rewrite (proj2 (Z.ltb_lt _ _)) by lia.
  assert (Wf1 : fs_wf w1) by (eapply frame_wf; [done..|]; rewrite T; apply Wf).
  pose proof (fr_bpc _ _ _ F) as Eb.
  destruct (extend_one_ok w1 start cs (Z.to_nat nbytes) data nbytes
              (Z.of_nat (length cs) * bpc (w_fs w)) f)
    as (w' & R' & Wf' & F' & T' & Df & Do); rewrite ?T, ?Eb; [done..|nia|lia|lia|].
  unfold extend_fuel. rewrite R'. rewrite T in T'. exists w'. split; [done|].
  pose proof (first_free_valid _ _ (wf_geom _ Wf) Ff) as [Vf1 Vf2].
  pose proof (wf_len _ (wf_geom _ Wf)). pose proof (wf_max _ (wf_geom _ Wf)).
  assert (Hf : f ∉ cs).
  { destruct C as [[-> ->]|[_ C']]; [set_solver|by eapply first_free_not_in]. }
  split; [done| | | |set_solver].
  - rewrite T'. right. destruct C as [[-> ->]|[Hst C']].
    + simpl. split; [lia|]. eapply chain_end; [lia| |].
      { apply list_lookup_insert_eq. simpl. lia. }
      unfold ent_last. vm_compute. done.
    + rewrite (proj2 (Z.eqb_neq _ _) Hst). split; [done|].
      apply append_chain; auto; lia.
  - eapply frame_trans; (eapply frame_mono; [done|set_solver]).
  - rewrite length_app, Nat.mul_add_distr_r, buf_slice_app, chain_data_app. f_equal.
    + rewrite <-Dt. clear -Do Hf. induction cs as [|c cs' IH]; [done|].
      rewrite !chain_data_cons, Do, IH by set_solver. done.
    + unfold chain_data. simpl. rewrite app_nil_r, Df, Eb, Nat.add_0_r. f_equal. lia.
Qed.

Lemma write_chain_free : exists w', write_cluster_chain start data 0 w = Done (0, w') /\
  rewritten w cs data 0 w' [].
Proof using All.
  pose proof bpc_pos. rewrite (write_chain_unfold _ _ _ _ _ C).
  destruct C as [[-> ->]|[Hst C']].
  - rewrite (bind_done _ _ _ _ _ (walk_empty _ _ _ _)). exists w. split; [done|].
    split; [done|by left|apply frame_refl|done|set_solver].
  - pose proof (chain_length_bound _ _ _ C').
    rewrite (bind_done _ _ _ _ _ (walk_free_ok w start cs
      (S (length (fat (w_fs w)))) data 0 0 0 start (wf_geom _ Wf) C' ltac:(lia) ltac:(lia) ltac:(lia) ltac:(lia))).
    eexists. split; [done|]. pose proof (chain_pos _ _ _ C') as P.
    split; [|by left| |done|].
    + apply fs_wf_set_fat; [done|apply length_clear_entries|apply clear_entries_ok, Wf].
    + eapply frame_mono; [by apply frame_clear|set_solver].
    + intros x Hx _. simpl. apply clear_entries_eq; [done|done|].
      pose proof (chain_range _ _ _ _ C' Hx). lia.
Qed.

Lemma write_chain_run cs' : realloc (fat (w_fs w)) cs nbytes (bpc (w_fs w)) cs' ->
  exists start' w', write_cluster_chain start data nbytes w = Done (start', w') /\
    rewritten w cs data start' w' cs'.
Proof using All.
  intros [Hn Hp|f Hn Ff|Hn].
  - exists start. by apply write_chain_same.
  - eexists. by apply write_chain_grow.
  - exists 0. rewrite Hn. by apply write_chain_free.
Qed.
End Write.

(** ** Where the rewrite goes wrong *)

(** Fewer clusters than before, but not zero: the walk ends on the last cluster of the old
    chain with [start_cluster] reset. *)
Lemma walk_shrink w c cs fuel data nbytes j s :
  fs_wf w -> chain (fat (w_fs w)) c cs -> (length cs <= fuel)%nat -> 0 <= j -> bytes data ->
  (j + Z.of_nat (length cs)) * bpc (w_fs w) < 2^32 ->
  j * bpc (w_fs w) < nbytes <= (j + Z.of_nat (length cs) - 1) * bpc (w_fs w) ->
  exists cl di w',
    write_chain_walk fuel data nbytes c (j * bpc (w_fs w)) j s w =
      Done ((false, cl, di, 0), w') /\ frame cs w w'.
Proof.
  intros Wf C. revert w fuel j Wf C. induction cs as [|c0 cs IH] in c |- *;
    intros w fuel j Wf C Hf Hj B Hb Hn; [inversion C|].
  destruct (chain_head _ _ _ C) as [cs0 Heq]. injection Heq as -> <-.
  pose proof (chain_NoDup _ _ _ C) as ND. apply NoDup_cons in ND as [Hni _].
  destruct fuel as [|fuel]; [simpl in Hf; lia|]. simpl length in *.
  pose proof (wf_spc _ (wf_geom _ Wf)) as Hs.
  destruct (walk_sizes (w_fs w) j (Z.of_nat (S (length cs)))) as (E1 & E2 & E3 & E4 & E5);
    [lia..|].
  assert (Hbp : 512 <= bpc (w_fs w)) by (unfold bpc; lia).
  inversion C as [? v ? E L|? v ? Hc2 E U C']; simplify_eq; [simpl in Hn; lia|].
  pose proof (fat_valid _ _ _ (wf_geom _ Wf) Hc2 E) as V.
  destruct (frame_put_data c data (Z.to_nat (j * bpc (w_fs w))) w Wf V B) as (F1 & Wf1 & D1).
  set (w1 := w_put _ _ w) in *. assert (w_fs w1 = w_fs w) as Efs by done.
  cbn [write_chain_walk]. rewrite (proj2 (Z.eqb_neq c 0)) by lia. cbv zeta.
  mrun (fat_get_ok _ _ _ E). unfold get_fs_. rewrite gets_run, E1, E2, E3.
  rewrite (proj2 (Z.leb_gt _ _)) by lia.
  mrun (cluster_to_lba_ok c w (wf_geom _ Wf) V).
  mrun (write_cluster_ok c data (j * bpc (w_fs w)) w Wf V). fold w1. rewrite E5, E4.
  rewrite (bind_done _ _ _ USED_CLUSTER w1) by by rewrite entry_type_run, spec_used.
  change (USED_CLUSTER =? LAST_CLUSTER) with false. cbv iota.
  destruct (Z.leb_spec nbytes ((j + 1) * bpc (w_fs w))).
  - destruct (fat_set_frame [c] c 0xFFFFFFFF w1) as (R & F2 & Wf2);
      [done|done|apply ent_ok_last|set_solver|].
    mrun R. rewrite (walk_free_ok _ v cs);
      [|apply Wf2|by apply chain_insert; [|lia|]|lia|lia|unfold bpc in *; simpl; lia|done].
    eexists _, _, _. split; [done|].
    apply (frame_trans _ _ w1); [eapply frame_mono; [exact F1|set_solver]|].
    eapply frame_trans; [eapply frame_mono; [exact F2|set_solver]|].
    eapply frame_mono; [apply frame_clear; by eapply chain_pos|set_solver].
  - rewrite ret_run.
    destruct (IH v w1 fuel (j + 1)) as (cl & di & w' & R & F); rewrite ?Efs in *;
      [done|done|lia|lia|done|lia|lia|].
    rewrite R. eexists _, _, _. split; [done|].
    eapply frame_trans; [eapply frame_mono; [exact F1|set_solver]|].
    eapply frame_mono; [exact F|set_solver].
Qed.

(** Two clusters for an empty file: the second search finds the first cluster again. *)
Lemma write_two_fresh w data nbytes f :
  fs_wf w -> bytes data -> first_free (fat (w_fs w)) 3 f -> 2 * bpc (w_fs w) < 2^32 ->
  bpc (w_fs w) < nbytes <= 2 * bpc (w_fs w) ->
  exists w', write_cluster_chain 0 data nbytes w = Done (f, w') /\ fs_wf w' /\
    fat (w_fs w') !! Z.to_nat f = Some 0xFFFFFFFF /\
    cluster_data w' f = buf_slice data (Z.to_nat (bpc (w_fs w))) (Z.to_nat (bpc (w_fs w))).
Proof.
  intros Wf B Ff Hb Hn. pose proof (first_free_valid _ _ (wf_geom _ Wf) Ff) as Vf.
  pose proof (wf_spc _ (wf_geom _ Wf)) as Hs.
  rewrite (write_chain_unfold _ 0 []) by by left.
  rewrite (bind_done _ _ _ _ _ (walk_empty _ _ _ _)), (proj2 (Z.ltb_lt _ _)) by lia.
  unfold extend_fuel. destruct (Z.to_nat nbytes) as [|fuel] eqn:En; [unfold bpc in *; lia|].
  cbn [write_chain_extend]. mrun (find_free_first _ _ (wf_geom _ Wf) Ff).
  mrun (cluster_to_lba_ok f w (wf_geom _ Wf) Vf). change (0 =? 0) with true. cbv iota.
  rewrite ret_run. unfold get_fs_. rewrite gets_run.
  mrun (write_cluster_ok f data 0 w Wf Vf).
  destruct (frame_put_data f data (Z.to_nat 0) w Wf Vf B) as (F1 & Wf1 & _).
  set (w1 := w_put _ _ w) in *. cbv zeta. fold (bpc (w_fs w)).
  rewrite (u32_small (bpc _)), Z.add_0_l, u32_small by (unfold is_u32, bpc in *; lia).
  rewrite (proj2 (Z.leb_gt _ _)) by lia.
  mrun (find_free_first w1 f (wf_geom _ Wf1) Ff).
  mrun (cluster_to_lba_ok f w1 (wf_geom _ Wf1) Vf).
  pose proof (wf_len _ (wf_geom _ Wf)). pose proof (wf_max _ (wf_geom _ Wf)).
  destruct Vf as [Vf1 Vf2]. rewrite (proj2 (Z.eqb_neq f 0)) by lia.
  destruct (fat_set_frame [f] f f w1) as (R & F2 & Wf2);
    [done|done|apply ent_ok_used; lia|set_solver|].
  rewrite bind_assoc. mrun R. rewrite ret_run.
  set (w2 := w_set_fat _ w1) in *. unfold get_fs_. rewrite gets_run.
  replace (cluster_lba (w_fs w1) f) with (cluster_lba (w_fs w2) f) by done.
  assert (V2 : valid_cluster (w_fs w2) f) by done.
  mrun (write_cluster_ok f data (bpc (w_fs w)) w2 Wf2 V2).
  destruct (frame_put_data f data (Z.to_nat (bpc (w_fs w))) w2 Wf2 V2 B) as (F3 & Wf3 & D3).
  set (w3 := w_put _ _ w2) in *. cbv zeta. fold (bpc (w_fs w2)).
  change (bpc (w_fs w2)) with (bpc (w_fs w)) in *.
  rewrite (u32_small (bpc _)), u32_small by (unfold is_u32, bpc in *; lia).
  rewrite (proj2 (Z.leb_le _ _)) by lia.
  destruct (fat_set_frame [f] f 0xFFFFFFFF w3) as (R4 & F4 & Wf4);
    [done|done|apply ent_ok_last|set_solver|].
  mrun R4. eexists. split_and!; [done|done| |exact D3].
  simpl. apply list_lookup_insert_eq. rewrite length_insert. lia.
Qed.

(** ** The theorems *)

(** On a well-formed file system, rewriting a file of [cs] clusters with data that
    needs the same number of clusters, one more, or none at all, and then reading the
    chain that [write_cluster_chain] returns gives back exactly the buffer's bytes (whole
    clusters of it); the write changes no FAT entry and no sector outside the old and the
    new chain, leaves the file system well formed and marks the clusters it gives up free. *)
Theorem write_then_read_chain w start cs data nbytes cs' :
  fs_wf w -> file_chain (fat (w_fs w)) start cs -> bytes data ->
  (Z.of_nat (length cs) + 1) * bpc (w_fs w) < 2^32 ->
  realloc (fat (w_fs w)) cs nbytes (bpc (w_fs w)) cs' ->
  exists start' w',
    write_cluster_chain start data nbytes w = Done (start', w') /\
    rewritten w cs data start' w' cs' /\
    read_cluster_chain start' w' =
      Done (buf_slice data 0 (length cs' * Z.to_nat (bpc (w_fs w))), w').
Proof.
  intros Wf C B Hb Ra.
  destruct (write_chain_run w start cs data nbytes Wf C B Hb cs' Ra) as (st & w' & R & Rw).
  exists st, w'. split_and!; [done|done|].
  rewrite (read_chain_run w' st cs') by apply Rw. by rewrite (rw_data _ _ _ _ _ _ Rw).
Qed.

(** Rewriting a file with data that needs fewer clusters than it has, but at least
    one, makes [write_cluster_chain] return 0, so the file's start cluster is lost. *)
Theorem write_chain_shrink_loses_start w start cs data nbytes :
  fs_wf w -> chain (fat (w_fs w)) start cs -> bytes data ->
  Z.of_nat (length cs) * bpc (w_fs w) < 2^32 ->
  0 < nbytes <= (Z.of_nat (length cs) - 1) * bpc (w_fs w) ->
  exists w', write_cluster_chain start data nbytes w = Done (0, w') /\ frame cs w w'.
Proof.
  intros Wf C B Hb Hn. pose proof (chain_length_bound _ _ _ C).
  assert (start <> 0) by (inversion C; lia).
  rewrite (write_chain_unfold w start cs) by by right.
  destruct (walk_shrink w start cs (S (length (fat (w_fs w)))) data nbytes 0 start)
    as (cl & di & w' & R & F); [done|done|lia|lia|done|lia|lia|].
  change (0 * bpc (w_fs w)) with 0 in R. mrun R. by exists w'.
Qed.

(** An empty file given two clusters' worth of data ends up with a chain of a single
    cluster that holds the second half: the cluster found first is not marked used before
    the search runs again. *)
Theorem write_chain_two_fresh_loses_first w data nbytes f :
  fs_wf w -> bytes data -> first_free (fat (w_fs w)) 3 f -> 2 * bpc (w_fs w) < 2^32 ->
  bpc (w_fs w) < nbytes <= 2 * bpc (w_fs w) ->
  exists w', write_cluster_chain 0 data nbytes w = Done (f, w') /\
    chain (fat (w_fs w')) f [f] /\
    chain_data w' [f] = buf_slice data (Z.to_nat (bpc (w_fs w))) (Z.to_nat (bpc (w_fs w))).
Proof.
  intros Wf B Ff Hb Hn.
  destruct (write_two_fresh w data nbytes f Wf B Ff Hb Hn) as (w' & R & Wf' & E & Dt).
  destruct (first_free_valid _ _ (wf_geom _ Wf) Ff) as [V _].
  exists w'. split_and!; [done| |].
  - eapply chain_end; [done|exact E|]. unfold ent_last. by vm_compute.
  - unfold chain_data. simpl. by rewrite app_nil_r.
Qed.

(** [find_free_cluster] returns the lowest free cluster at or after
    [max 3 start] and leaves the state alone, and it panics exactly when there is none. *)
Theorem find_free_cluster_least w start :
  geom_wf (w_fs w) -> 0 <= start ->
  (exists f, first_free (fat (w_fs w)) (Z.max 3 start) f /\
             find_free_cluster start w = Done (f, w)) \/
  (no_free (fat (w_fs w)) (Z.max 3 start) /\ find_free_cluster start w = Panic).
Proof. apply find_free_run. Qed.

(** [get_cluster_chain_length] and [read_cluster_chain] terminate on every
    well-formed chain, however long, with the number of its clusters and the
    concatenation of their sectors. *)
Theorem chain_length_and_read w start cs :
  fs_wf w -> file_chain (fat (w_fs w)) start cs ->
  get_cluster_chain_length start w = Done (Z.of_nat (length cs), w) /\
  read_cluster_chain start w = Done (chain_data w cs, w).
Proof. intros Wf C. split; [by apply chain_length_run|by apply read_chain_run]. Qed.
End Chains.

(** [fat32_fat_entry_type] looks at the low 28 bits only; it panics exactly on the
    reserved values 0xFFFFFF0..0xFFFFFF6 and is otherwise the table of the FAT32
    specification. *)
Theorem entry_type_table {S} (v : Z) (s : S) :
  fat32_fat_entry_type v s =
    match entry_type_spec v with Some t => Done (t, s) | None => Panic end.
Proof. apply entry_type_run. Qed.

(** ** A small file system

    128 FAT entries, one sector per cluster: the root directory in cluster 2, a file in
    clusters 3 and 5, cluster 4 and all from 6 on free. *)
Module Small.
#[local] Instance garbage : HeapGarbage := fun _ => 0.
#[local] Instance garbage_bytes : HeapGarbageBytes.
Proof. intros i. unfold is_u8, past_end, garbage. lia. Qed.

Definition table : list Z := 0xFFFFFF8 :: 0xFFFFFFF :: 0xFFFFFFF :: 5 :: 0 :: 0xFFFFFFF ::
  replicate 122 0.
Definition fs : fat32_fs_t := mk_fs 1 10 12 1 2 table 128.
Definition w : world ram_card := mk_world (mk_sd true (mk_ram 1000 ∅)) true fs.

Lemma geom : geom_wf fs.
Proof.
  constructor; unfold fs; cbn [fat n_entries sectors_per_cluster fat_begin_lba cluster_begin_lba];
    try reflexivity; try lia.
  - change (128 / 128) with 1. lia.
  - apply (bool_decide_unpack _). by vm_compute.
Qed.

Lemma small_wf : fs_wf w.
Proof.
  constructor; try done; [apply geom|]. intros l. unfold w, fs. simpl. intros Hl.
  apply andb_true_intro. split; [apply Z.leb_le|apply Z.ltb_lt]; lia.
Qed.

Lemma file : chain table 3 [3; 5].
Proof.
  eapply chain_link; [lia|done|by apply (bool_decide_unpack _); vm_compute|].
  eapply chain_end; [lia|done|by apply (bool_decide_unpack _); vm_compute].
Qed.

Lemma free4 : first_free table 3 4.
Proof.
  split; [simpl; lia|]. split; [exists 0; split; [done|by vm_compute]|].
  intros k v Hk. assert (k = 3) as -> by lia. intros [= <-]. by vm_compute.
Qed.

Lemma data_bytes n : bytes (replicate n 7).
Proof. apply Forall_replicate. unfold is_u8. lia. Qed.

Lemma write_then_read_chain_witness :
  exists start' w',
    write_cluster_chain 3 (replicate 1200 7) 1200 w = Done (start', w') /\
    rewritten w [3; 5] (replicate 1200 7) start' w' [3; 5; 4] /\
    read_cluster_chain start' w' = Done (buf_slice (replicate 1200 7) 0 1536, w').
Proof.
  apply (write_then_read_chain w 3 [3; 5] (replicate 1200 7) 1200 [3; 5; 4]).
  - apply small_wf.
  - right. split; [done|apply file].
  - apply data_bytes.
  - vm_compute. done.
  - apply (realloc_grow _ [3; 5] _ _ 4); [split; vm_compute; done|apply free4].
Defined.

Lemma write_chain_shrink_loses_start_witness :
  exists w', write_cluster_chain 3 (replicate 100 7) 100 w = Done (0, w') /\ frame [3; 5] w w'.
Proof.
  apply (write_chain_shrink_loses_start w 3 [3; 5] (replicate 100 7) 100).
  - apply small_wf.
  - apply file.
  - apply data_bytes.
  - vm_compute. done.
  - split; vm_compute; done.
Defined.

Lemma write_chain_two_fresh_loses_first_witness :
  exists w', write_cluster_chain 0 (replicate 600 7) 600 w = Done (4, w') /\
    chain (fat (w_fs w')) 4 [4] /\
    chain_data w' [4] = buf_slice (replicate 600 7) 512 512.
Proof.
  apply (write_chain_two_fresh_loses_first w (replicate 600 7) 600 4).
  - apply small_wf.
  - apply data_bytes.
  - apply free4.
  - vm_compute. done.
  - split; vm_compute; done.
Defined.

Lemma find_free_cluster_least_witness :
  (exists f, first_free table 3 f /\ find_free_cluster 2 w = Done (f, w)) \/
  (no_free table 3 /\ find_free_cluster 2 w = Panic).
Proof. apply (find_free_cluster_least w 2); [apply geom|lia]. Defined.

Lemma chain_length_and_read_witness :
  get_cluster_chain_length 3 w = Done (2, w) /\
  read_cluster_chain 3 w = Done (chain_data w [3; 5], w).
Proof.
  apply (chain_length_and_read w 3 [3; 5]); [apply small_wf|]. right. split; [done|apply file].
Defined.
End Small.
