(* ===== verification/Dirent.v ===== *)
(** * Directory entries and 8.3 names (src/fat32/fat32-helpers.c, fat32-helpers.h,
      fat32-lfn-helpers.c, fat32.c)

    The 32-byte directory entry and its layout, the conversion between file names and
    the 11-byte names stored on disk, and the search for a name in a directory.  A
    [char *] is the list of its characters before the terminating NUL. *)

From stdpp Require Import base tactics option list numbers sets.
From Stdlib Require Import ZArith Lia.
From Stdlib Require String Ascii.
Import String.StringSyntax.
#[local] Open Scope string_scope.
#[local] Open Scope Z_scope.
From S2P Require Import Prelude.

(** String literals as lists of character codes. *)
Fixpoint str (s : String.string) : list Z :=
  match s with
  | String.EmptyString => []
  | String.String c s => Z.of_nat (Ascii.nat_of_ascii c) :: str s
  end.

Definition DOT : Z := 46.
Definition SPACE : Z := 32.

(** The C string at the start of a character array. *)
Fixpoint cstr (l : list Z) : list Z :=
  match l with
  | [] => []
  | c :: l => if c =? 0 then [] else c :: cstr l
  end.

(** [s[i]] of a NUL-terminated string. *)
Definition char_at (s : list Z) (i : nat) : Z := default 0 (s !! i).

(** ** The entry *)

Record fat32_dirent_t : Type := mk_dirent {
  filename : list Z;
  attr : Z;
  reserved0 : Z;
  ctime_tenths : Z;
  ctime : Z;
  create_date : Z;
  access_date : Z;
  hi_start : Z;
  mod_time : Z;
  mod_date : Z;
  lo_start : Z;
  file_nbytes : Z
}.

Definition set_filename (f : list Z) (d : fat32_dirent_t) : fat32_dirent_t :=
  mk_dirent f (attr d) (reserved0 d) (ctime_tenths d) (ctime d) (create_date d)
    (access_date d) (hi_start d) (mod_time d) (mod_date d) (lo_start d) (file_nbytes d).
Definition set_attr_size (a n : Z) (d : fat32_dirent_t) : fat32_dirent_t :=
  mk_dirent (filename d) a (reserved0 d) (ctime_tenths d) (ctime d) (create_date d)
    (access_date d) (hi_start d) (mod_time d) (mod_date d) (lo_start d) n.
(** [lo_start = c & 0xffff; hi_start = (c >> 16) & 0xffff]. *)
Definition set_start (c : Z) (d : fat32_dirent_t) : fat32_dirent_t :=
  mk_dirent (filename d) (attr d) (reserved0 d) (ctime_tenths d) (ctime d) (create_date d)
    (access_date d) (Z.land (Z.shiftr c 16) 0xffff) (mod_time d) (mod_date d)
    (Z.land c 0xffff) (file_nbytes d).

(** The packed layout: [n] bytes at offset [off]. *)
Definition field (off n : nat) (b : list Z) : Z := le_val (take n (drop off b)).

Definition dirent_decode (b : list Z) : fat32_dirent_t :=
  mk_dirent (take 11 b) (field 11 1 b) (field 12 1 b) (field 13 1 b) (field 14 2 b)
    (field 16 2 b) (field 18 2 b) (field 20 2 b) (field 22 2 b) (field 24 2 b)
    (field 26 2 b) (field 28 4 b).

Definition dirent_encode (d : fat32_dirent_t) : list Z :=
  filename d ++ le_bytes 1 (attr d) ++ le_bytes 1 (reserved0 d) ++
  le_bytes 1 (ctime_tenths d) ++ le_bytes 2 (ctime d) ++ le_bytes 2 (create_date d) ++
  le_bytes 2 (access_date d) ++ le_bytes 2 (hi_start d) ++ le_bytes 2 (mod_time d) ++
  le_bytes 2 (mod_date d) ++ le_bytes 2 (lo_start d) ++ le_bytes 4 (file_nbytes d).

(** A buffer read as an array of [n] entries. *)
Fixpoint dirents_of (n : nat) (b : list Z) : list fat32_dirent_t :=
  match n with
  | O => []
  | S n => dirent_decode (take 32 b) :: dirents_of n (drop 32 b)
  end.

Definition fat32_cluster_id (d : fat32_dirent_t) : Z :=
  Z.lor (Z.shiftl (hi_start d) 16) (lo_start d).

(** ** Attributes *)

Definition FAT32_RO : Z := 0x01.
Definition FAT32_HIDDEN : Z := 0x02.
Definition FAT32_SYSTEM_FILE : Z := 0x04.
Definition FAT32_VOLUME_LABEL : Z := 0x08.
Definition FAT32_LONG_FILE_NAME : Z := 0x0f.
Definition FAT32_DIR : Z := 0x10.
Definition FAT32_ARCHIVE : Z := 0x20.

Definition fat32_is_dir (d : fat32_dirent_t) : bool := attr d =? FAT32_DIR.

Definition fat32_is_attr (x flag : Z) : bool :=
  if x =? FAT32_LONG_FILE_NAME then x =? flag else Z.land x flag =? flag.

Definition fat32_dirent_is_lfn (d : fat32_dirent_t) : bool := attr d =? FAT32_LONG_FILE_NAME.

Definition lfn_is_last (seqno : Z) : bool := negb (Z.land seqno (Z.shiftl 1 6) =? 0).
Definition lfn_is_first (seqno : Z) : bool :=
  u8 (Z.land seqno (Z.lnot (Z.shiftl 1 6))) =? 1.
Definition lfn_is_deleted (seqno : Z) : bool := Z.land seqno 0xe5 =? 0xe5.

(** The sequence number of a long-name entry is its first byte. *)
Definition fat32_dirent_is_deleted_lfn {S} (d : fat32_dirent_t) : M S bool :=
  m_assert (attr d =? FAT32_LONG_FILE_NAME);;
  mret (lfn_is_deleted (char_at (filename d) 0)).

Definition fat32_dirent_free {S} (d : fat32_dirent_t) : M S bool :=
  let x := char_at (filename d) 0 in
  if attr d =? FAT32_LONG_FILE_NAME then fat32_dirent_is_deleted_lfn d
  else mret ((x =? 0) || (x =? 0xe5)).

Fixpoint lfn_checksum_loop (p : list Z) (sum : Z) : Z :=
  match p with
  | [] => sum
  | c :: p => lfn_checksum_loop p (u8 (Z.shiftl (Z.land sum 1) 7 + Z.shiftr sum 1 + c))
  end.
Definition lfn_checksum (pFCBName : list Z) : Z := lfn_checksum_loop (take 11 pFCBName) 0.

(** ** Names *)

(** The backwards scan for the last character that is not a space, among the first [i];
    the result is one past it, [None] when the index runs below 0. *)
Fixpoint last_nonspace (i : nat) (s : list Z) : option nat :=
  match i with
  | O => None
  | S j => if char_at s j =? SPACE then last_nonspace j s else Some (S j)
  end.

(** With only spaces in the base name, the dot is stored at [s[-1]]. *)
Definition to_8dot3 {S} (p : list Z) : M S (list Z) :=
  i ← m_opt (last_nonspace 8 p);
  mret (cstr (take i p ++ [DOT] ++ take 3 (drop 8 p))).

Definition fat32_dirent_name {S} (d : fat32_dirent_t) : M S (list Z) :=
  to_8dot3 (filename d).

Definition is_upper_alnum (c : Z) : bool :=
  negb (((c <? 65) || (90 <? c)) && ((c <? 48) || (57 <? c))).

Definition has_dot (name : list Z) : bool := existsb (Z.eqb DOT) name.

Definition fat32_is_valid_name (name : list Z) : bool :=
  let n := Z.of_nat (length name) in
  if has_dot name then
    if 12 <? n then false else
    if n <? 5 then false else
    if negb (char_at name (length name - 4) =? DOT) then false else
    forallb (fun ic => is_upper_alnum ic.2 || Nat.eqb ic.1 (length name - 4)) (imap pair name)
  else
    if 8 <? n then false else
    if n <? 1 then false else
    forallb is_upper_alnum name.

(** The 11 bytes [fat32_dirent_set_name] stores. *)
Definition raw_name (name : list Z) : list Z :=
  let blank := replicate 11 SPACE in
  let n := length name in
  if has_dot name
  then splice 8 (drop (n - 3) name) (splice 0 (take (n - 4) name) blank)
  else splice 0 name blank.

Definition fat32_dirent_set_name {S} (d : fat32_dirent_t) (name : list Z) : M S fat32_dirent_t :=
  m_assert (fat32_is_valid_name name);;
  mret (set_filename (raw_name name) d).

(** ** Lookup *)

(** The comparison of [find_dirent_with_name]: [Some] when the whole of [filename] was
    matched, with the index reached and whether a dot was seen. *)
Fixpoint name_scan (fname tmp : list Z) (idx : nat) (dot : bool) : option (nat * bool) :=
  match fname with
  | [] => Some (idx, dot)
  | c :: fname =>
      let dot := (c =? DOT) || dot in
      if c =? char_at tmp idx then name_scan fname tmp (S idx) dot else None
  end.

Definition name_match (fname tmp : list Z) : bool :=
  match name_scan fname tmp 0 false with
  | None => false
  | Some (idx, true) =>
      (char_at tmp idx =? SPACE) || (char_at tmp idx =? 0) || Nat.eqb idx 11
  | Some (idx, false) =>
      Nat.leb 10 idx ||
      ((char_at tmp idx =? DOT) &&
       ((char_at tmp (S idx) =? SPACE) || (char_at tmp (S idx) =? 0)))
  end.

(** Entries the search skips: free ones and those with one of the low attribute bits. *)
Definition dirent_skipped (d : fat32_dirent_t) : bool :=
  (char_at (filename d) 0 =? 0) || (char_at (filename d) 0 =? 0xE5) ||
  (0 <? Z.land (attr d) 15).

(** [None] is the code's -1. *)
Fixpoint find_dirent_loop {S} (dirents : list fat32_dirent_t) (i : nat) (fname : list Z)
    : M S (option nat) :=
  match dirents with
  | [] => mret None
  | d :: dirents =>
      if dirent_skipped d then find_dirent_loop dirents (i + 1) fname else
      tmp ← fat32_dirent_name d;
      if name_match fname tmp then mret (Some i)
      else find_dirent_loop dirents (i + 1) fname
  end.

Definition find_dirent_with_name {S} (dirents : list fat32_dirent_t) (fname : list Z)
    : M S (option nat) :=
  find_dirent_loop dirents 0 fname.

(** Lookup by raw name. *)
Fixpoint fat32_dir_lookup {S} (name : list Z) (dirs : list fat32_dirent_t) (i : nat)
    : M S (option nat) :=
  match dirs with
  | [] => mret None
  | d :: dirs =>
      free ← fat32_dirent_free d;
      if (free : bool) || fat32_dirent_is_lfn d then fat32_dir_lookup name dirs (i + 1)
      else if bool_decide (take 11 name = filename d) then mret (Some i)
      else fat32_dir_lookup name dirs (i + 1)
  end.

(** ** Layout *)

Record dirent_wf (d : fat32_dirent_t) : Prop := {
  dw_len : length (filename d) = 11%nat;
  dw_name : bytes (filename d);
  dw_attr : is_u8 (attr d);
  dw_res : is_u8 (reserved0 d);
  dw_tenths : is_u8 (ctime_tenths d);
  dw_ctime : is_u16 (ctime d);
  dw_cdate : is_u16 (create_date d);
  dw_adate : is_u16 (access_date d);
  dw_hi : is_u16 (hi_start d);
  dw_mtime : is_u16 (mod_time d);
  dw_mdate : is_u16 (mod_date d);
  dw_lo : is_u16 (lo_start d);
  dw_size : is_u32 (file_nbytes d)
}.

Lemma le_val_small n x : 0 <= x < 2 ^ (8 * Z.of_nat n) -> le_val (le_bytes n x) = x.
Proof. intros Hx. rewrite le_val_bytes. by apply Z.mod_small. Qed.

Lemma dirent_decode_encode d : dirent_wf d -> dirent_decode (dirent_encode d) = d.
Proof.
  intros []. destruct d as [f ? ? ? ? ? ? ? ? ? ? ?]; simpl in *.
  do 11 (destruct f as [|? f]; [done|]). destruct f; [|done].
  unfold dirent_decode, dirent_encode, field.
  cbn [filename attr reserved0 ctime_tenths ctime create_date access_date hi_start mod_time
       mod_date lo_start file_nbytes app take drop].
  f_equal; [exact (le_val_small 1 _ dw_attr0)|exact (le_val_small 1 _ dw_res0)|
    exact (le_val_small 1 _ dw_tenths0)|exact (le_val_small 2 _ dw_ctime0)|
    exact (le_val_small 2 _ dw_cdate0)|exact (le_val_small 2 _ dw_adate0)|
    exact (le_val_small 2 _ dw_hi0)|exact (le_val_small 2 _ dw_mtime0)|
    exact (le_val_small 2 _ dw_mdate0)|exact (le_val_small 2 _ dw_lo0)|
    exact (le_val_small 4 _ dw_size0)].
Qed.

Lemma le_bytes_field b off n : bytes b -> (off + n <= length b)%nat ->
  le_bytes n (field off n b) = take n (drop off b).
Proof.
  intros B L. unfold field.
  assert (length (take n (drop off b)) = n) as E by (rewrite length_take, length_drop; lia).
  rewrite <-E at 1. apply le_bytes_val. by apply Forall_take, Forall_drop.
Qed.

Lemma dirent_encode_decode b : length b = 32%nat -> bytes b ->
  dirent_encode (dirent_decode b) = b.
Proof.
  intros L B. unfold dirent_encode, dirent_decode. cbn [filename attr reserved0 ctime_tenths
    ctime create_date access_date hi_start mod_time mod_date lo_start file_nbytes].
  rewrite !le_bytes_field by (done || lia). clear B.
  do 32 (destruct b as [|? b]; [done|]). by destruct b.
Qed.

Lemma field_range off n b : bytes b -> (off + n <= length b)%nat ->
  0 <= field off n b < 2 ^ (8 * Z.of_nat n).
Proof.
  intros B L. unfold field.
  assert (length (take n (drop off b)) = n) as E by (rewrite length_take, length_drop; lia).
  rewrite <-E at 3. apply le_val_range. by apply Forall_take, Forall_drop.
Qed.

Lemma dirent_decode_wf b : length b = 32%nat -> bytes b -> dirent_wf (dirent_decode b).
Proof.
  intros L B. constructor; simpl;
    [by rewrite length_take, L|by apply Forall_take|apply (field_range _ 1)|apply (field_range _ 1)
    |apply (field_range _ 1)|apply (field_range _ 2)|apply (field_range _ 2)|apply (field_range _ 2)
    |apply (field_range _ 2)|apply (field_range _ 2)|apply (field_range _ 2)|apply (field_range _ 2)
    |apply (field_range _ 4)]; (done || lia).
Qed.

Lemma length_dirent_encode d : dirent_wf d -> length (dirent_encode d) = 32%nat.
Proof.
  intros W. unfold dirent_encode. rewrite !length_app, !length_le_bytes, (dw_len _ W). done.
Qed.

Lemma dirent_encode_bytes d : dirent_wf d -> bytes (dirent_encode d).
Proof.
  intros W. unfold dirent_encode. rewrite !Forall_app. split_and!; auto using le_bytes_bytes.
  apply W.
Qed.

(** ** The array of entries in a buffer *)

Lemma length_dirents_of n b : length (dirents_of n b) = n.
Proof. revert b; induction n; intros; simpl; auto. Qed.

Lemma dirents_of_lookup n b i : (i < n)%nat ->
  dirents_of n b !! i = Some (dirent_decode (take 32 (drop (32 * i) b))).
Proof.
  revert b i; induction n as [|n IH]; intros b i Hi; [lia|].
  destruct i as [|i]; [done|]. simpl. rewrite IH, drop_drop by lia. repeat f_equal. lia.
Qed.

Lemma dirents_of_wf n b : bytes b -> (32 * n <= length b)%nat -> Forall dirent_wf (dirents_of n b).
Proof.
  revert b; induction n as [|n IH]; intros b B L; simpl; constructor.
  - apply dirent_decode_wf; [rewrite length_take; lia|by apply Forall_take].
  - apply IH; [by apply Forall_drop|rewrite length_drop; lia].
Qed.

Lemma drop_splice_le {A} n k (s l : list A) : (k <= n)%nat -> (n + length s <= length l)%nat ->
  drop k (splice n s l) = splice (n - k) s (drop k l).
Proof.
  intros Hk Hl. unfold splice.
  rewrite drop_app_le by (rewrite length_take; lia).
  rewrite skipn_firstn_comm, drop_drop.
  by replace (k + (n - k + length s))%nat with (n + length s)%nat by lia.
Qed.

Lemma take_splice_lt {A} n k (s l : list A) : (k <= n)%nat -> (n <= length l)%nat ->
  take k (splice n s l) = take k l.
Proof.
  intros Hk Hl. unfold splice. rewrite take_app_le by (rewrite length_take; lia).
  rewrite take_take. f_equal. lia.
Qed.

Lemma dirents_of_splice n b i d : dirent_wf d -> (i < n)%nat -> (32 * n <= length b)%nat ->
  dirents_of n (splice (32 * i) (dirent_encode d) b) = <[i := d]> (dirents_of n b).
Proof.
  intros W. pose proof (length_dirent_encode d W) as L.
  revert b i; induction n as [|n IH]; intros b i Hi Hb; [lia|].
  destruct i as [|i].
  - simpl. f_equal.
    + unfold splice. simpl. rewrite take_app_le by lia. rewrite take_ge by lia.
      by apply dirent_decode_encode.
    + f_equal. unfold splice. simpl. rewrite drop_app_ge by lia. rewrite L. done.
  - cbn [dirents_of]. rewrite take_splice_lt, drop_splice_le by lia.
    replace (32 * S i - 32)%nat with (32 * i)%nat by lia.
    rewrite IH; [done|lia|rewrite length_drop; lia].
Qed.

(** The two halves of a start cluster. *)
Lemma cluster_id_set_start c d : is_u32 c -> fat32_cluster_id (set_start c d) = c.
Proof.
  intros Hc. unfold fat32_cluster_id, set_start; simpl. apply Z.bits_inj'. intros n Hn.
  rewrite Z.lor_spec, Z.land_spec. change 0xffff with (Z.ones 16).
  destruct (Z.lt_ge_cases n 16).
  - rewrite Z.shiftl_spec_low by lia. rewrite Z.ones_spec_low by lia. by rewrite andb_true_r.
  - rewrite Z.ones_spec_high by lia. rewrite andb_false_r, orb_false_r.
    rewrite Z.shiftl_spec, Z.land_spec, Z.shiftr_spec by lia.
    replace (n - 16 + 16) with n by lia.
    destruct (Z.lt_ge_cases (n - 16) 16).
    + rewrite Z.ones_spec_low by lia. by rewrite andb_true_r.
    + rewrite Z.ones_spec_high by lia. rewrite andb_false_r. symmetry.
      destruct (decide (c = 0)) as [->|]; [apply Z.testbit_0_l|].
      apply Z.bits_above_log2; [apply Hc|].
      assert (Z.log2 c < 32); [apply Z.log2_lt_pow2; [destruct Hc; lia|apply Hc]|lia].
Qed.

Lemma land_ffff_u16 c : is_u16 (Z.land c 0xffff).
Proof.
  change 0xffff with (Z.ones 16). rewrite Z.land_ones by lia. apply Z.mod_pos_bound. lia.
Qed.

Lemma set_start_wf c d : dirent_wf d -> dirent_wf (set_start c d).
Proof. intros []. constructor; simpl; auto using land_ffff_u16. Qed.

Lemma set_attr_size_wf a n d : dirent_wf d -> is_u8 a -> is_u32 n ->
  dirent_wf (set_attr_size a n d).
Proof. intros []. constructor; simpl; auto. Qed.

Lemma set_filename_wf f d : dirent_wf d -> length f = 11%nat -> bytes f ->
  dirent_wf (set_filename f d).
Proof. intros []. constructor; simpl; auto. Qed.

(** ** Names *)

Definition alnum (l : list Z) : Prop := Forall (fun c => is_upper_alnum c = true) l.

Lemma alnum_range c : is_upper_alnum c = true -> 48 <= c <= 90 /\ c <> DOT /\ c <> SPACE.
Proof.
  unfold is_upper_alnum, DOT, SPACE. intros Hc.
  destruct (Z.ltb_spec c 65), (Z.ltb_spec 90 c), (Z.ltb_spec c 48), (Z.ltb_spec 57 c);
    simpl in Hc; try done; lia.
Qed.

Lemma alnum_no_dot l : alnum l -> DOT ∉ l.
Proof.
  intros A Hin. pose proof (proj1 (Forall_forall _ _) A _ Hin) as [_ [? _]]%alnum_range. done.
Qed.

Lemma has_dot_false l : DOT ∉ l -> has_dot l = false.
Proof.
  intros Hn. unfold has_dot. apply not_true_iff_false. intros (x & Hx & Hd)%existsb_exists.
  apply Z.eqb_eq in Hd as <-. by apply Hn, list_elem_of_In.
Qed.

Lemma has_dot_app l1 l2 : has_dot (l1 ++ DOT :: l2) = true.
Proof.
  unfold has_dot. apply existsb_exists. exists DOT. split; [|done].
  apply list_elem_of_In. set_solver.
Qed.

(** The two shapes of a valid name: [BASE.EXT] and [BASE]. *)
Inductive name_shape : list Z -> list Z -> list Z -> Prop :=
  | shape_ext b e : (1 <= length b <= 8)%nat -> length e = 3%nat -> alnum b -> alnum e ->
      name_shape (b ++ DOT :: e) b e
  | shape_base b : (1 <= length b <= 8)%nat -> alnum b ->
      name_shape b b (replicate 3 SPACE).

Lemma valid_name_shape name : fat32_is_valid_name name = true ->
  exists b e, name_shape name b e.
Proof.
  unfold fat32_is_valid_name. cbv zeta. destruct (has_dot name) eqn:Hd.
  - destruct (Z.ltb_spec 12 (Z.of_nat (length name))); [done|].
    destruct (Z.ltb_spec (Z.of_nat (length name)) 5); [done|].
    destruct (Z.eqb_spec (char_at name (length name - 4)) DOT) as [E|]; [simpl|done].
    intros Hall. set (k := (length name - 4)%nat) in *.
    assert (Hk : name !! k = Some DOT).
    { unfold char_at in E. destruct (name !! k) eqn:El; [by simpl in E; subst|].
      apply lookup_ge_None in El. lia. }
    assert (A : forall i c, name !! i = Some c -> i <> k -> is_upper_alnum c = true).
    { intros i c Hi Hne.
      assert ((i, c) ∈ imap pair name) as Hin%list_elem_of_In.
      { apply list_elem_of_lookup. exists i. by rewrite list_lookup_imap, Hi. }
      apply (proj1 (forallb_forall _ _) Hall), orb_true_iff in Hin as [?|?%Nat.eqb_eq]; done. }
    exists (take k name), (drop (S k) name).
    rewrite <-(take_drop_middle name k DOT Hk) at 1.
    constructor.
    + rewrite length_take. lia.
    + rewrite length_drop. lia.
    + apply Forall_lookup. intros i c [Hi Hlt]%lookup_take_Some. apply (A i c); [done|lia].
    + apply Forall_lookup. intros i c Hi. rewrite lookup_drop in Hi.
      apply (A (S k + i)%nat c); [done|lia].
  - destruct (Z.ltb_spec 8 (Z.of_nat (length name))); [done|].
    destruct (Z.ltb_spec (Z.of_nat (length name)) 1); [done|].
    intros Hall. exists name, (replicate 3 SPACE). constructor; [lia|].
    apply Forall_forall. intros x Hx%list_elem_of_In. by apply (proj1 (forallb_forall _ _) Hall).
Qed.

Definition pad8 (b : list Z) : list Z := b ++ replicate (8 - length b) SPACE.

Lemma raw_name_shape name b e : name_shape name b e -> raw_name name = pad8 b ++ e.
Proof.
  intros [b' e' Hb He Ab Ae|b' Hb Ab]; unfold raw_name; cbv zeta.
  - rewrite has_dot_app, length_app. cbn [length]. rewrite He.
    replace (length b' + 4 - 3)%nat with (length b' + 1)%nat by lia.
    replace (length b' + 4 - 4)%nat with (length b') by lia.
    rewrite take_app_length. rewrite <-drop_drop, drop_app_length. simpl (drop 1 _).
    unfold splice at 2. rewrite take_0, Nat.add_0_l, drop_replicate. simpl app.
    rewrite drop_0. unfold splice. rewrite He. rewrite take_app_ge by lia. rewrite take_replicate.
    rewrite drop_ge by (rewrite length_app, length_replicate; lia). rewrite app_nil_r.
    unfold pad8. do 2 f_equal. f_equal. lia.
  - rewrite has_dot_false by by apply alnum_no_dot. unfold splice.
    rewrite take_0, Nat.add_0_l, drop_replicate. unfold pad8. simpl app at 1.
    rewrite <-app_assoc. f_equal. rewrite <-replicate_add. f_equal. lia.
Qed.

Lemma length_pad8 b : (length b <= 8)%nat -> length (pad8 b) = 8%nat.
Proof. intros Hb. unfold pad8. rewrite length_app, length_replicate. lia. Qed.

Lemma name_shape_lengths name b e : name_shape name b e ->
  (1 <= length b <= 8)%nat /\ length e = 3%nat /\ alnum b.
Proof. intros []; done. Qed.

(** Raw names as the file system stores them: no NUL or dot, a base name, and no
    extension that starts with a blank. *)
Record raw_wf (r : list Z) : Prop := {
  rw_len : length r = 11%nat;
  rw_chars : Forall (fun c => is_u8 c /\ c <> 0 /\ c <> DOT) r;
  rw_base : exists c, c ∈ take 8 r /\ c <> SPACE;
  rw_ext : char_at r 8 = SPACE -> drop 8 r = replicate 3 SPACE
}.

Lemma alnum_chars l : alnum l -> Forall (fun c => is_u8 c /\ c <> 0 /\ c <> DOT) l.
Proof.
  intros A. eapply Forall_impl; [exact A|]. intros c Hc%alnum_range.
  unfold is_u8, DOT in *. lia.
Qed.

Lemma raw_shape_wf name b e : name_shape name b e -> raw_wf (raw_name name).
Proof.
  intros Sh. rewrite (raw_name_shape _ _ _ Sh).
  destruct (name_shape_lengths _ _ _ Sh) as (Hb & He & Ab).
  assert (L8 : length (pad8 b) = 8%nat) by (apply length_pad8; lia).
  assert (Sp : forall n, Forall (fun c => is_u8 c /\ c <> 0 /\ c <> DOT) (replicate n SPACE)).
  { intros n. apply Forall_replicate. unfold is_u8, SPACE, DOT. lia. }
  constructor.
  - rewrite length_app, L8, He. done.
  - apply Forall_app. split; [apply Forall_app; split; [by apply alnum_chars|done]|].
    destruct Sh; [by apply alnum_chars|done].
  - rewrite <-L8, take_app_length. destruct b as [|c b]; [simpl in Hb; lia|].
    exists c. split; [unfold pad8; set_solver|].
    apply Forall_cons in Ab as [[_ [_ ?]]%alnum_range _]. done.
  - unfold char_at. rewrite lookup_app_r by lia. rewrite L8, <-L8, drop_app_length, L8.
    destruct Sh as [b' e' _ _ _ Ae|]; [|done].
    destruct e' as [|c e']; [done|]. simpl. intros ->.
    apply Forall_cons in Ae as [[_ [_ ?]]%alnum_range _]. done.
Qed.

Lemma raw_name_wf name : fat32_is_valid_name name = true -> raw_wf (raw_name name).
Proof. intros (b & e & Sh)%valid_name_shape. by eapply raw_shape_wf. Qed.

(** *** From raw names to 8.3 names *)

Lemma last_nonspace_spec n s k : last_nonspace n s = Some k ->
  (0 < k <= n)%nat /\ char_at s (k - 1) <> SPACE /\
  forall j, (k <= j < n)%nat -> char_at s j = SPACE.
Proof.
  induction n as [|n IH]; intros E; [done|]. simpl in E.
  destruct (Z.eqb_spec (char_at s n) SPACE) as [Es|Hne].
  - destruct (IH E) as (Hk & Hc & Hj). split_and!; [lia|lia|done|].
    intros j Hjn. destruct (decide (j = n)) as [->|]; [done|]. apply Hj. lia.
  - injection E as <-. split_and!; [lia|lia| |lia]. by replace (S n - 1)%nat with n by lia.
Qed.

Lemma last_nonspace_some n s c : c ∈ take n s -> c <> SPACE ->
  exists k, last_nonspace n s = Some k.
Proof.
  intros Hin Hc. induction n as [|n IH]; [rewrite take_0 in Hin; set_solver|]. simpl.
  destruct (Z.eqb_spec (char_at s n) SPACE) as [Es|]; [|eauto]. apply IH.
  apply list_elem_of_lookup in Hin as [i [Hi Hlt]%lookup_take_Some].
  apply list_elem_of_lookup. exists i. apply lookup_take_Some. split; [done|].
  destruct (decide (i = n)) as [->|]; [|lia]. unfold char_at in Es. by rewrite Hi in Es.
Qed.

Lemma cstr_id l : Forall (fun c => c <> 0) l -> cstr l = l.
Proof.
  induction 1 as [|c l Hc _ IH]; [done|]. simpl.
  by rewrite (proj2 (Z.eqb_neq _ _) Hc), IH.
Qed.

(** A well-formed raw name is a blank-padded base followed by its extension. *)
Lemma raw_split {S} (s : S) r : raw_wf r -> exists b,
  (1 <= length b <= 8)%nat /\ DOT ∉ b /\ char_at b (length b - 1) <> SPACE /\
  r = pad8 b ++ drop 8 r /\
  to_8dot3 r s = Done (b ++ DOT :: drop 8 r, s).
Proof.
  intros [L Ch (c & Hc & Hs) _]. destruct (last_nonspace_some 8 r c Hc Hs) as [k Ek].
  destruct (last_nonspace_spec _ _ _ Ek) as (Hk & Hl & Hsp).
  assert (Ch0 : Forall (fun c => c <> 0) r) by (eapply Forall_impl; [exact Ch|naive_solver]).
  exists (take k r). rewrite length_take, L. replace (k `min` 11)%nat with k by lia.
  split_and!; [lia|lia| | | |].
  - intros Hin%elem_of_take. destruct Hin as (i & Hi & _).
    pose proof (Forall_lookup_1 _ _ _ _ Ch Hi). naive_solver.
  - unfold char_at in *. rewrite lookup_take_lt by lia. done.
  - rewrite <-(take_drop 8 r) at 1. f_equal. unfold pad8. rewrite length_take, L.
    replace (k `min` 11)%nat with k by lia. rewrite <-(take_drop k (take 8 r)).
    rewrite take_take. f_equal; [f_equal; lia|]. apply list_eq. intros i.
    destruct (decide (i < 8 - k)%nat).
    + rewrite lookup_replicate_2 by lia. rewrite lookup_drop, lookup_take_lt by lia.
      pose proof (Hsp (k + i)%nat ltac:(lia)) as E. unfold char_at in E.
      destruct (lookup_lt_is_Some_2 r (k + i)) as [x Ex]; [lia|]. rewrite Ex in E |- *.
      by simpl in E; subst.
    + rewrite !lookup_ge_None_2; [done|rewrite length_replicate; lia|].
      rewrite length_drop, length_take, L. lia.
  - unfold to_8dot3. rewrite (opt_run _ _ _ _ Ek). unfold mret, M_ret. do 2 f_equal.
    rewrite (take_ge (drop 8 r)) by (rewrite length_drop; lia).
    rewrite cstr_id; [done|]. apply Forall_app. split; [by apply Forall_take|].
    constructor; [done|by apply Forall_drop].
Qed.

(** *** Comparing names *)

Lemma name_scan_some fname tmp idx dot : Forall (fun c => c <> 0) fname ->
  name_scan fname tmp idx dot =
    if bool_decide (take (length fname) (drop idx tmp) = fname)
    then Some (idx + length fname, has_dot fname || dot)%nat else None.
Proof.
  revert idx dot. induction fname as [|c fname IH]; intros idx dot Hz.
  { rewrite bool_decide_true by done. simpl. by rewrite Nat.add_0_r. }
  apply Forall_cons in Hz as [Hc Hz]. simpl name_scan. unfold char_at.
  destruct (tmp !! idx) as [t|] eqn:Et; simpl default.
  - rewrite (drop_S tmp t idx Et). simpl take.
    destruct (Z.eqb_spec c t) as [->|Hne].
    + rewrite IH by done.
      change (length (t :: fname)) with (S (length fname)).
      change (has_dot (t :: fname)) with ((DOT =? t) || has_dot fname).
      repeat case_bool_decide; simplify_eq; try congruence.
      f_equal. f_equal; [lia|]. rewrite (Z.eqb_sym DOT).
      by destruct (t =? DOT), (has_dot fname), dot.
    + rewrite bool_decide_false by congruence. done.
  - rewrite (proj2 (Z.eqb_neq _ _)) by done.
    apply lookup_ge_None in Et. rewrite drop_ge by done.
    rewrite bool_decide_false by done. done.
Qed.

Lemma app_dot_inj (b1 b2 x y : list Z) : DOT ∉ b1 -> DOT ∉ b2 ->
  b1 ++ DOT :: x = b2 ++ DOT :: y -> b1 = b2 /\ x = y.
Proof.
  revert b2; induction b1 as [|c b1 IH]; intros [|c2 b2] H1 H2 E; simpl in E; simplify_eq.
  - done.
  - set_solver.
  - set_solver.
  - destruct (IH b2) as [-> ->]; [set_solver|set_solver|done|done].
Qed.

Lemma pad8_inj b1 b2 : (1 <= length b1 <= 8)%nat -> (1 <= length b2 <= 8)%nat ->
  char_at b1 (length b1 - 1) <> SPACE -> char_at b2 (length b2 - 1) <> SPACE ->
  pad8 b1 = pad8 b2 -> b1 = b2.
Proof.
  assert (Aux : forall b1 b2, (1 <= length b1 <= 8)%nat -> (1 <= length b2 <= 8)%nat ->
    char_at b2 (length b2 - 1) <> SPACE -> pad8 b1 = pad8 b2 -> (length b2 <= length b1)%nat).
  { intros c1 c2 L1 L2 H2 E. destruct (decide (length c1 < length c2)%nat); [|lia].
    exfalso. apply H2. unfold char_at.
    assert (pad8 c1 !! (length c2 - 1)%nat = Some SPACE) as Hl.
    { unfold pad8. rewrite lookup_app_r by lia. apply lookup_replicate_2. lia. }
    rewrite E in Hl. unfold pad8 in Hl. rewrite lookup_app_l in Hl by lia. by rewrite Hl. }
  intros L1 L2 H1 H2 E. assert (length b1 = length b2) as EL.
  { pose proof (Aux b1 b2 L1 L2 H2 E). pose proof (Aux b2 b1 L2 L1 H1 (eq_sym E)). lia. }
  unfold pad8 in E. rewrite EL in E. by apply app_inj_2 in E as [? _].
Qed.

Lemma alnum_last b : (1 <= length b)%nat -> alnum b -> char_at b (length b - 1) <> SPACE.
Proof.
  intros L A. unfold char_at. destruct (lookup_lt_is_Some_2 b (length b - 1)) as [c E]; [lia|].
  rewrite E. simpl. by destruct (alnum_range c (Forall_lookup_1 _ _ _ _ A E)) as (_ & _ & ?).
Qed.

Lemma shape_nonzero name b e : name_shape name b e -> Forall (fun c => c <> 0) name.
Proof.
  intros [b' e' _ _ Ab Ae|b' _ Ab].
  - apply Forall_app. split; [|constructor; [done|]];
      (eapply Forall_impl; [by apply alnum_chars|naive_solver]).
  - eapply Forall_impl; [by apply alnum_chars|naive_solver].
Qed.

Lemma name_match_self name b e : name_shape name b e -> name_match name (b ++ DOT :: e) = true.
Proof.
  intros Sh. unfold name_match. rewrite (name_scan_some _ _ _ _ (shape_nonzero _ _ _ Sh)).
  rewrite drop_0, orb_false_r. destruct Sh as [b e Hb He Ab Ae|b Hb Ab].
  - rewrite take_ge, bool_decide_true, has_dot_app by done. simpl Nat.add.
    unfold char_at. by rewrite lookup_ge_None_2 by done.
  - rewrite take_app_length, bool_decide_true by done.
    rewrite has_dot_false by by apply alnum_no_dot. simpl Nat.add.
    unfold char_at. rewrite list_lookup_middle by done.
    rewrite lookup_app_r by lia. replace (S (length b) - length b)%nat with 1%nat by lia.
    apply orb_true_r.
Qed.

Lemma name_match_inv name b e b' ext : name_shape name b e ->
  DOT ∉ b' -> length ext = 3%nat -> Forall (fun c => c <> 0) ext ->
  (char_at ext 0 = SPACE -> ext = replicate 3 SPACE) ->
  name_match name (b' ++ DOT :: ext) = true -> b' = b /\ ext = e.
Proof.
  intros Sh Hd L3 Hz Hext. unfold name_match.
  rewrite (name_scan_some _ _ _ _ (shape_nonzero _ _ _ Sh)), drop_0, orb_false_r.
  case_bool_decide as P; [|done]. simpl Nat.add.
  assert (exists sfx, b' ++ DOT :: ext = name ++ sfx) as [sfx E].
  { exists (drop (length name) (b' ++ DOT :: ext)). 
    rewrite <-(take_drop (length name) (b' ++ DOT :: ext)) at 1. by rewrite P. }
  destruct Sh as [b e Hb He Ab Ae|b Hb Ab].
  - intros _. rewrite <-app_assoc in E. simpl in E.
    apply app_dot_inj in E as [-> ->]; [|done|by apply alnum_no_dot].
    rewrite length_app in L3. destruct sfx; [|simpl in L3; lia]. by rewrite app_nil_r.
  - rewrite has_dot_false by by apply alnum_no_dot.
    rewrite (proj2 (Nat.leb_gt _ _)) by lia. simpl orb. rewrite E.
    unfold char_at. rewrite !lookup_app_r by lia. rewrite Nat.sub_diag.
    replace (S (length b) - length b)%nat with 1%nat by lia.
    intros [Hs0 Hs1]%andb_prop. apply Z.eqb_eq in Hs0.
    destruct sfx as [|c sfx]; [done|]. simpl in Hs0. subst c.
    apply app_dot_inj in E as [-> ->]; [|done|by apply alnum_no_dot].
    split; [done|]. apply Hext. unfold char_at.
    destruct sfx as [|c sfx]; [done|]. simpl in *. apply Forall_cons in Hz as [Hc _].
    apply orb_true_iff in Hs1 as [?%Z.eqb_eq|?%Z.eqb_eq]; done.
Qed.

(** The comparison accepts exactly the raw name [fat32_dirent_set_name] would store. *)
Lemma dirent_name_match {S} (s : S) r name : raw_wf r -> fat32_is_valid_name name = true ->
  exists tmp, to_8dot3 r s = Done (tmp, s) /\ name_match name tmp = bool_decide (r = raw_name name).
Proof.
  intros W (b & e & Sh)%valid_name_shape. destruct (raw_split s r W) as (b' & Lb' & Hd & Hl & Er & R).
  exists (b' ++ DOT :: drop 8 r). split; [done|].
  rewrite (raw_name_shape _ _ _ Sh). destruct (name_shape_lengths _ _ _ Sh) as (Hb & He & Ab).
  apply eq_bool_prop_intro. rewrite bool_decide_spec. split.
  - intros Hm%Is_true_true. apply (name_match_inv _ _ _ _ _ Sh) in Hm as [-> Ee]; [|done| | |].
    + by rewrite <-Ee, <-Er.
    + rewrite length_drop, (rw_len _ W). done.
    + apply Forall_drop. eapply Forall_impl; [apply W|naive_solver].
    + unfold char_at. rewrite lookup_drop. apply W.
  - intros E. apply Is_true_true. rewrite E in Er.
    apply app_inj_1 in Er as [Ep Ee].
    2: { rewrite !length_pad8 by lia. done. }
    apply pad8_inj in Ep as <-; [|lia|lia|by apply alnum_last; [lia|]|done].
    rewrite E, <-Ee. by apply name_match_self.
Qed.

(** ** Lookup in a directory *)

(** The entries the search looks at have well-formed names. *)
Definition dir_names_wf (ds : list fat32_dirent_t) : Prop :=
  Forall (fun d => dirent_skipped d = false -> raw_wf (filename d)) ds.

(** An entry in use with raw name [r]. *)
Definition named (r : list Z) (d : fat32_dirent_t) : Prop :=
  dirent_skipped d = false /\ filename d = r.

#[export] Instance named_dec r d : Decision (named r d).
Proof. unfold named. apply _. Defined.

Lemma find_loop_spec {S} (s : S) ds i name :
  dir_names_wf ds -> fat32_is_valid_name name = true ->
  find_dirent_loop ds i name s =
    Done ((fun p => (i + p.1)%nat) <$> list_find (named (raw_name name)) ds, s).
Proof.
  intros W V. revert i; induction W as [|d ds Hd W IH]; intros i; [done|].
  cbn [find_dirent_loop list_find].
  destruct (dirent_skipped d) eqn:Sk.
  - rewrite IH, decide_False by (intros [? _]; congruence).
    do 2 f_equal. destruct (list_find _ ds) as [[j d']|]; simpl; [|done]. f_equal. lia.
  - destruct (dirent_name_match s (filename d) name (Hd eq_refl) V) as (tmp & R & Em).
    unfold fat32_dirent_name. mrun R. rewrite Em. case_bool_decide as E.
    + rewrite decide_True by done. simpl. by rewrite Nat.add_0_r.
    + rewrite decide_False by (intros [_ ?]; done). rewrite IH.
      do 2 f_equal. destruct (list_find _ ds) as [[j d']|]; simpl; [|done]. f_equal. lia.
Qed.

Definition dir_index (ds : list fat32_dirent_t) (name : list Z) : option nat :=
  fst <$> list_find (named (raw_name name)) ds.

Lemma find_dirent_spec {S} (s : S) ds name :
  dir_names_wf ds -> fat32_is_valid_name name = true ->
  find_dirent_with_name ds name s = Done (dir_index ds name, s).
Proof.
  intros W V. unfold find_dirent_with_name. by rewrite find_loop_spec by done.
Qed.

(** in a directory whose names are well formed, [find_dirent_with_name] with a valid
    name returns the index of the first entry in use whose 11 stored bytes are the ones
    [fat32_dirent_set_name] stores for that name, and -1 when there is none. *)
Theorem find_dirent_by_raw_name {S} (s : S) ds name :
  dir_names_wf ds -> fat32_is_valid_name name = true ->
  find_dirent_with_name ds name s =
    Done (fst <$> list_find (fun d => dirent_skipped d = false /\ filename d = raw_name name) ds, s).
Proof. apply find_dirent_spec. Qed.

Lemma set_name_dirent_name_aux {S} (s : S) name b e : name_shape name b e ->
  to_8dot3 (raw_name name) s = Done (b ++ DOT :: e, s).
Proof.
  intros Sh. destruct (name_shape_lengths _ _ _ Sh) as (Hb & He & Ab).
  assert (W : raw_wf (raw_name name)) by by eapply raw_shape_wf.
  destruct (raw_split s _ W) as (b' & Lb' & Hd & Hl & Er & ->).
  rewrite (raw_name_shape _ _ _ Sh) in *.
  assert (length (pad8 b) = 8%nat) as L8 by (apply length_pad8; lia).
  apply app_inj_1 in Er as [Ep _]; [|by rewrite !length_pad8 by lia].
  apply pad8_inj in Ep as <-; [|lia|lia|by apply alnum_last; [lia|]|done].
  by rewrite <-L8, drop_app_length.
Qed.

(** Storing a valid name of the form [BASE.EXT] in an entry and reading it back with
    [fat32_dirent_name] gives the same name; a name without extension comes back with a
    dot and three blanks. *)
Theorem set_name_dirent_name {S} (s : S) d name :
  fat32_is_valid_name name = true ->
  (d' ← fat32_dirent_set_name d name; fat32_dirent_name d') s =
    Done (if has_dot name then name else name ++ DOT :: replicate 3 SPACE, s).
Proof.
  intros V. unfold fat32_dirent_set_name. rewrite bind_assoc, assert_run, ret_run by done.
  destruct (valid_name_shape _ V) as (b & e & Sh).
  unfold fat32_dirent_name. simpl filename. rewrite (set_name_dirent_name_aux s _ _ _ Sh).
  destruct Sh as [b e|b].
  - by rewrite has_dot_app.
  - by rewrite has_dot_false by by apply alnum_no_dot.
Qed.

(** The 32-byte layout of a directory entry loses nothing in either direction. *)
Theorem dirent_layout_roundtrip :
  (forall d, dirent_wf d -> dirent_decode (dirent_encode d) = d) /\
  (forall b, length b = 32%nat -> bytes b ->
     dirent_wf (dirent_decode b) /\ dirent_encode (dirent_decode b) = b).
Proof.
  split; [apply dirent_decode_encode|]. intros b L B.
  split; [by apply dirent_decode_wf|by apply dirent_encode_decode].
Qed.

(** ** Examples *)
Module DirentExamples.
Definition blank : fat32_dirent_t := mk_dirent (replicate 11 0) 0 0 0 0 0 0 0 0 0 0 0.
Definition entry (name : String.string) : fat32_dirent_t :=
  set_attr_size 0x20 5 (set_filename (raw_name (str name)) blank).
Definition dir : list fat32_dirent_t :=
  [set_filename (0xE5 :: str "LD     TXT") (entry "A"); entry "HELLO.TXT"; entry "NOEXT"; blank].

Lemma dir_wf : dir_names_wf dir.
Proof.
  unfold dir_names_wf, dir. rewrite !Forall_cons. split_and!; [| | | |done].
  - intros Hs. by vm_compute in Hs.
  - intros _. apply raw_name_wf. by vm_compute.
  - intros _. apply raw_name_wf. by vm_compute.
  - intros Hs. by vm_compute in Hs.
Qed.

Lemma find_dirent_by_raw_name_witness :
  find_dirent_with_name dir (str "NOEXT") tt =
    Done (fst <$> list_find (fun d => dirent_skipped d = false /\
                                      filename d = raw_name (str "NOEXT")) dir, tt) /\
  fst <$> list_find (fun d => dirent_skipped d = false /\
                              filename d = raw_name (str "NOEXT")) dir = Some 2%nat.
Proof.
  split; [|by vm_compute].
  apply (find_dirent_by_raw_name tt dir (str "NOEXT")); [apply dir_wf|by vm_compute].
Defined.

Lemma set_name_dirent_name_witness :
  (d' ← fat32_dirent_set_name blank (str "FOO.TXT"); fat32_dirent_name d') tt =
    Done (str "FOO.TXT", tt).
Proof. apply (set_name_dirent_name tt blank (str "FOO.TXT")). by vm_compute. Defined.

Lemma dirent_layout_roundtrip_witness :
  dirent_decode (dirent_encode (entry "HELLO.TXT")) = entry "HELLO.TXT" /\
  dirent_encode (dirent_decode (replicate 32 7)) = replicate 32 7.
Proof.
  destruct dirent_layout_roundtrip as [R1 R2]. split.
  - apply R1. by constructor; apply (bool_decide_unpack _); vm_compute.
  - apply R2; [done|]. apply Forall_replicate. split; vm_compute; done.
Defined.
End DirentExamples.
