(* ===== verification/Lfn.v ===== *)
(** * Long file names (src/fat32/fat32-lfn-helpers.c, src/external-code/unicode-utf8.c)

    A long name is kept in directory entries before the short one, thirteen 16-bit characters
    an entry, the end of the name first.  [lfn_get_name] puts the characters together as
    UTF-8; [fat32_dir_filename] gives the name of an entry, long or short.  A [char *] is the
    list of its characters before the terminating NUL; [char] is unsigned. *)

From stdpp Require Import base tactics option list numbers.
From Stdlib Require Import ZArith Lia.
From Stdlib Require String.
Import String.StringSyntax.
#[local] Open Scope string_scope.
#[local] Open Scope list_scope.
#[local] Open Scope Z_scope.
From S2P Require Import Prelude Dirent.

(** ** UTF-8 *)

(** [utf_t]. *)
Record utf_t := mkUtf {
  mask : Z;
  lead : Z;
  beg : Z;
  end_ : Z;
  bits_stored : Z }.

(** The table ends in an entry of zeros, not in the null pointer the loops over it look for. *)
Definition utf : list utf_t :=
  [mkUtf 0x3f 0x80 0 0 6; mkUtf 0x7f 0 0 0x7f 7; mkUtf 0x1f 0xc0 0x80 0x7ff 5;
   mkUtf 0x0f 0xe0 0x800 0xffff 4; mkUtf 0x07 0xf0 0x10000 0x10ffff 3; mkUtf 0 0 0 0 0].

(** The index of the first entry that [f] accepts; running off the table is undefined. *)
Fixpoint utf_find (f : utf_t -> bool) (t : list utf_t) (len : Z) : option Z :=
  match t with
  | [] => None
  | u :: t => if f u then Some len else utf_find f t (len + 1)
  end.

Definition codepoint_len {St} (cp : Z) : M St Z :=
  len ← m_opt (utf_find (fun u => (beg u <=? cp) && (cp <=? end_ u)) utf 0);
  mret (if 4 <? len then -1 else len).
Definition utf8_len {St} (ch : Z) : M St Z :=
  len ← m_opt (utf_find (fun u => Z.ldiff ch (mask u) =? lead u) utf 0);
  mret (if 4 <? len then -1 else len).

(** A shift by a negative count is undefined. *)
Definition shift_right {St} (x n : Z) : M St Z := if n <? 0 then m_undef else mret (Z.shiftr x n).
Definition shift_left {St} (x n : Z) : M St Z := if n <? 0 then m_undef else mret (Z.shiftl x n).

(** The bytes after the first, [n] of them. *)
Fixpoint utf8_tail {St} (n : nat) (cp shift : Z) : M St (list Z) :=
  match n with
  | O => mret []
  | S n =>
      x ← shift_right cp shift;
      l ← utf8_tail n cp (shift - 6);
      mret (Z.lor (Z.land x 0x3f) 0x80 :: l)
  end.

(** [None] is the null pointer. *)
Definition to_utf8 {St} (cp : Z) : M St (option (list Z)) :=
  bytes ← codepoint_len cp;
  if bytes <? 0 then mret None
  else
    let shift := 6 * (bytes - 1) in
    u ← m_opt (utf !! Z.to_nat bytes);
    x ← shift_right cp shift;
    l ← utf8_tail (Z.to_nat (bytes - 1)) cp (shift - 6);
    mret (Some (Z.lor (Z.land x (mask u)) (lead u) :: l)).

Fixpoint cp_tail {St} (n : nat) (chr : list Z) (shift codep : Z) : M St Z :=
  match n with
  | O => mret codep
  | S n =>
      c ← m_opt (chr !! 0%nat);
      x ← shift_left (Z.land c 0x3f) (shift - 6);
      cp_tail n (drop 1 chr) (shift - 6) (Z.lor codep x)
  end.

Definition to_cp {St} (chr : list Z) : M St Z :=
  c ← m_opt (chr !! 0%nat);
  bytes ← utf8_len c;
  if bytes <? 0 then mret 0
  else
    let shift := 6 * (bytes - 1) in
    u ← m_opt (utf !! Z.to_nat bytes);
    codep ← shift_left (Z.land c (mask u)) shift;
    cp_tail (Z.to_nat (bytes - 1)) (drop 1 chr) shift codep.

(** ** Long-name entries *)

(** [lfn_dir_t]: another view of a directory entry's 32 bytes. *)
Record lfn_dir_t := mkLfn {
  seqno : Z;
  name1_5 : list Z;
  lfn_attr : Z;
  cksum : Z;
  name6_11 : list Z;
  name12_13 : list Z }.

Definition lfn_view (d : fat32_dirent_t) : lfn_dir_t :=
  let b := dirent_encode d in
  mkLfn (char_at b 0) (take 10 (drop 1 b)) (char_at b 11) (char_at b 13)
        (take 12 (drop 14 b)) (take 4 (drop 28 b)).

Definition lfn_terminator (x0 x1 : Z) : bool :=
  ((x0 =? 0) && (x1 =? 0)) || ((x0 =? 0xff) && (x1 =? 0xff)).

Definition filename_size : Z := 512.

(** Appends the characters in [unicode] to [buf], up to the terminator. *)
Fixpoint utf8_append {St} (buf unicode : list Z) : M St (list Z) :=
  match unicode with
  | x0 :: x1 :: unicode =>
      if lfn_terminator x0 x1 then mret buf
      else
        utf8 ← to_utf8 (Z.lor x0 (Z.shiftl x1 8));
        utf8 ← m_opt utf8;
        let buf := buf ++ utf8 in
        if Z.of_nat (length buf) <? filename_size then utf8_append buf unicode else m_undef
  | _ => mret buf
  end.

(** The entries from the last to the first. *)
Fixpoint get_name_loop {St} (ls : list fat32_dirent_t) (buf : list Z) : M St (list Z) :=
  match ls with
  | [] => mret buf
  | d :: ls =>
      let l := lfn_view d in
      m_assert (lfn_attr l =? FAT32_LONG_FILE_NAME);;
      buf ← utf8_append buf (name1_5 l);
      buf ← utf8_append buf (name6_11 l);
      buf ← utf8_append buf (name12_13 l);
      get_name_loop ls buf
  end.
Definition lfn_get_name {St} (s : list fat32_dirent_t) (cnt : nat) : M St (list Z) :=
  get_name_loop (reverse (take cnt s)) [].

(** The number of long-name entries at the start of [ds]. *)
Fixpoint lfn_run (ds : list fat32_dirent_t) : nat :=
  match ds with
  | [] => 0
  | d :: ds => if attr d =? FAT32_LONG_FILE_NAME then S (lfn_run ds) else 0
  end.

Definition to_lower (lower_case_p : bool) (c : Z) : Z :=
  if lower_case_p && (65 <=? c) && (c <=? 90) then c + 32 else c.

(** The name of the entries from [d] to [end], and the index of the short entry. *)
Definition fat32_dir_filename {St} (ds : list fat32_dirent_t) : M St (list Z * nat) :=
  d ← m_opt (ds !! 0%nat);
  free ← fat32_dirent_free d;
  m_assert (negb free);;
  if attr d =? FAT32_LONG_FILE_NAME then
    let cnt := S (lfn_run (drop 1 ds)) in
    m_assert (cnt <? length ds)%nat;;
    e ← m_opt (ds !! cnt);
    m_assert (fat32_is_attr (attr e) FAT32_DIR || fat32_is_attr (attr e) FAT32_ARCHIVE);;
    name ← lfn_get_name ds cnt;
    mret (name, cnt)
  else
    m_assert (fat32_is_attr (attr d) FAT32_DIR || fat32_is_attr (attr d) FAT32_ARCHIVE ||
              fat32_is_attr (attr d) FAT32_VOLUME_LABEL);;
    let low := reserved0 d =? 0x18 in
    mret (map (to_lower low) (filter (fun c => c <> SPACE) (take 8 (filename d))) ++
          DOT :: map (to_lower low) (take 3 (drop 8 (filename d))), 0%nat).

(** The checks of lfn_print; what it prints is left out. *)
Definition lfn_print_checks {St} (s : list fat32_dirent_t) (cnt : nat) (sum : Z) : M St unit :=
  m_assert ((0 <? cnt)%nat && (cnt <? 3)%nat);;
  m_assert (forallb (fun d => negb (lfn_is_deleted (seqno (lfn_view d))) &&
                              (cksum (lfn_view d) =? sum)) (take cnt s));;
  first ← m_opt (s !! 0%nat);
  m_assert (lfn_is_last (seqno (lfn_view first)));;
  last ← m_opt (s !! (cnt - 1)%nat);
  m_assert (lfn_is_first (seqno (lfn_view last))).

(** The number of entries to go forward by. *)
Definition fat32_lfn_print {St} (ds : list fat32_dirent_t) : M St nat :=
  d ← m_opt (ds !! 0%nat);
  if negb (attr d =? FAT32_LONG_FILE_NAME) then mret 1%nat
  else
    let cnt := lfn_run ds in
    m_assert (cnt <? length ds)%nat;;
    e ← m_opt (ds !! cnt);
    m_assert (fat32_is_attr (attr e) FAT32_DIR || fat32_is_attr (attr e) FAT32_ARCHIVE);;
    lfn_print_checks ds cnt (lfn_checksum (filename e));;
    lfn_get_name ds cnt;;
    mret (S cnt).

(** ** UTF-8 and back *)

Lemma lor_apart k q x : 0 <= k -> 0 <= x < 2 ^ k -> Z.lor x (2 ^ k * q) = x + 2 ^ k * q.
Proof.
  intros Hk Hx. assert (L : Z.land x (2 ^ k * q) = 0).
  { apply Z.bits_inj'. intros n Hn. rewrite Z.land_spec, Z.bits_0, Z.mul_comm, <-Z.shiftl_mul_pow2 by done.
    destruct (Z.ltb_spec n k).
    - by rewrite Z.shiftl_spec_low, andb_false_r by lia.
    - destruct (Z.eq_dec x 0) as [->|]; [by rewrite Z.bits_0|].
      rewrite (Z.bits_above_log2 x); [done|lia|]. apply Z.log2_lt_pow2; [lia|].
      eapply Z.lt_le_trans; [apply Hx|]. by apply Z.pow_le_mono_r; lia. }
  by rewrite <-Z.lxor_lor, Z.add_nocarry_lxor.
Qed.

(** The encoding, by ranges of the character's number. *)
Definition utf8_of (cp : Z) : list Z :=
  if cp <? 0x80 then [cp]
  else if cp <? 0x800 then [0xc0 + cp / 64; 0x80 + cp mod 64]
  else if cp <? 0x10000 then [0xe0 + cp / 4096; 0x80 + cp / 64 mod 64; 0x80 + cp mod 64]
  else [0xf0 + cp / 262144; 0x80 + cp / 4096 mod 64; 0x80 + cp / 64 mod 64; 0x80 + cp mod 64].

(** The byte after the first for the six bits [x mod 64]. *)
Lemma tail_byte x : Z.lor (Z.land x 0x3f) 0x80 = 0x80 + x mod 64.
Proof.
  change 0x3f with (Z.ones 6). rewrite Z.land_ones by lia. change 0x80 with (2 ^ 6 * 2).
  rewrite lor_apart by (try apply Z.mod_pos_bound; lia). change (2 ^ 6) with 64. lia.
Qed.

(** The first byte: the bits from [k] on under the mark [2 ^ n * q]. *)
Lemma lead_byte n q k cp : 0 <= n -> 0 <= k -> 0 <= cp < 2 ^ (n + k) ->
  Z.lor (Z.land (Z.shiftr cp k) (Z.ones n)) (2 ^ n * q) = 2 ^ n * q + cp / 2 ^ k.
Proof.
  intros Hn Hk Hx. rewrite Z.pow_add_r in Hx by done.
  assert (0 <= cp / 2 ^ k < 2 ^ n) by (split; [apply Z.div_pos|apply Z.div_lt_upper_bound]; lia).
  rewrite Z.shiftr_div_pow2, Z.land_ones, Z.mod_small, lor_apart by lia. lia.
Qed.

Lemma utf8_tail_run {St} n cp shift (s : St) : Z.of_nat n * 6 = shift + 6 ->
  utf8_tail n cp shift s =
    Done (map (fun i => 0x80 + Z.shiftr cp (6 * Z.of_nat i) mod 64) (reverse (seq 0 n)), s).
Proof.
  revert shift. induction n as [|n IH]; intros shift Hs; [done|].
  cbn [utf8_tail]. unfold shift_right. rewrite (proj2 (Z.ltb_ge _ _)), ret_run by lia.
  erewrite bind_done by (apply IH; lia). rewrite tail_byte, seq_S, reverse_app. cbn [map app].
  by replace shift with (6 * Z.of_nat (0 + n)) by lia.
Qed.

(** How many bytes a character takes. *)
Definition utf8_size (cp : Z) : Z :=
  if cp <? 0x80 then 1 else if cp <? 0x800 then 2 else if cp <? 0x10000 then 3 else 4.

(** Decides the comparisons of a goal by the bounds in its context. *)
Ltac decide_leb :=
  repeat match goal with
  | |- context [?a <=? ?b] =>
      first [rewrite (proj2 (Z.leb_le a b)) by lia | rewrite (proj2 (Z.leb_gt a b)) by lia]
  | |- context [?a <? ?b] =>
      first [rewrite (proj2 (Z.ltb_lt a b)) by lia | rewrite (proj2 (Z.ltb_ge a b)) by lia]
  | |- context [?a =? ?b] =>
      first [rewrite (proj2 (Z.eqb_eq a b)) by lia | rewrite (proj2 (Z.eqb_neq a b)) by lia]
  end.

(** The four ranges. *)
Lemma utf8_ranges cp : 0 < cp <= 0x10ffff ->
  (utf8_size cp = 1 /\ cp < 0x80) \/ (utf8_size cp = 2 /\ 0x80 <= cp < 0x800) \/
  (utf8_size cp = 3 /\ 0x800 <= cp < 0x10000) \/ (utf8_size cp = 4 /\ 0x10000 <= cp).
Proof.
  intros H. unfold utf8_size.
  destruct (Z.ltb_spec cp 0x80); [|destruct (Z.ltb_spec cp 0x800); [|destruct (Z.ltb_spec cp 0x10000)]].
  all: lia.
Qed.

Lemma codepoint_len_run {St} cp (s : St) : 0 < cp <= 0x10ffff ->
  codepoint_len cp s = Done (utf8_size cp, s).
Proof.
  intros H. unfold codepoint_len.
  assert (F : utf_find (fun u => (beg u <=? cp) && (cp <=? end_ u)) utf 0 = Some (utf8_size cp)).
  { cbn [utf_find utf beg end_].
    destruct (utf8_ranges cp H) as [[-> ?]|[[-> ?]|[[-> ?]|[-> ?]]]]; decide_leb; reflexivity. }
  rewrite (opt_run _ _ _ _ F).
  by destruct (utf8_ranges cp H) as [[-> _]|[[-> _]|[[-> _]|[-> _]]]].
Qed.

Lemma to_utf8_run {St} cp (s : St) : 0 < cp <= 0x10ffff ->
  to_utf8 cp s = Done (Some (utf8_of cp), s).
Proof.
  intros H. unfold to_utf8. mrun (codepoint_len_run cp s H). unfold utf8_of.
  destruct (utf8_ranges cp H) as [[-> B]|[[-> B]|[[-> B]|[-> B]]]]; decide_leb.
  all: erewrite opt_run by reflexivity; unfold shift_right at 1; decide_leb; rewrite ret_run.
  all: erewrite bind_done by (apply utf8_tail_run; reflexivity); cbn [mask lead].
  all: unfold mret, M_ret; do 3 f_equal; cbn [map reverse seq Z.to_nat Z.sub Z.add Z.opp].
  - change (Z.lor (Z.land (Z.shiftr cp 0) (Z.ones 7)) (2 ^ 7 * 0) :: [] = [cp]).
    rewrite lead_byte by lia. by rewrite Z.div_1_r.
  - change (Z.lor (Z.land (Z.shiftr cp 6) (Z.ones 5)) (2 ^ 5 * 6) ::
      [0x80 + Z.shiftr cp 0 mod 64] = [0xc0 + cp / 64; 0x80 + cp mod 64]).
    by rewrite lead_byte by lia.
  - change (Z.lor (Z.land (Z.shiftr cp 12) (Z.ones 4)) (2 ^ 4 * 14) ::
      [0x80 + Z.shiftr cp 6 mod 64; 0x80 + Z.shiftr cp 0 mod 64] =
      [0xe0 + cp / 4096; 0x80 + cp / 64 mod 64; 0x80 + cp mod 64]).
    by rewrite lead_byte, (Z.shiftr_div_pow2 cp 6) by lia.
  - change (Z.lor (Z.land (Z.shiftr cp 18) (Z.ones 3)) (2 ^ 3 * 30) ::
      [0x80 + Z.shiftr cp 12 mod 64; 0x80 + Z.shiftr cp 6 mod 64; 0x80 + Z.shiftr cp 0 mod 64] =
      [0xf0 + cp / 262144; 0x80 + cp / 4096 mod 64; 0x80 + cp / 64 mod 64; 0x80 + cp mod 64]).
    by rewrite lead_byte, (Z.shiftr_div_pow2 cp 6), (Z.shiftr_div_pow2 cp 12) by lia.
Qed.

(** Decoding one byte of a sequence. *)
Lemma tail_value x : 0 <= x < 64 -> Z.land (0x80 + x) 0x3f = x.
Proof.
  intros H. change 0x3f with (Z.ones 6). rewrite Z.land_ones by lia. change (2 ^ 6) with 64.
  Z.to_euclidean_division_equations. lia.
Qed.

Lemma lead_value n q x : 0 <= n -> 0 <= x < 2 ^ n -> Z.land (2 ^ n * q + x) (Z.ones n) = x.
Proof.
  intros Hn Hx. rewrite Z.land_ones, Z.add_comm, Z.mul_comm, Z.mod_add by lia. by apply Z.mod_small.
Qed.

(** The length of a sequence by its first byte. *)
Definition first_byte_len (b : Z) : option Z :=
  if b <? 0x80 then Some 1 else if b <? 0xc0 then Some 0 else if b <? 0xe0 then Some 2
  else if b <? 0xf0 then Some 3 else if b <? 0xf8 then Some 4 else None.

Lemma utf8_len_table b : is_u8 b ->
  utf_find (fun u => Z.ldiff b (mask u) =? lead u) utf 0 = first_byte_len b.
Proof.
  assert (T : forallb (fun i => bool_decide (utf_find (fun u => Z.ldiff (Z.of_nat i) (mask u) =? lead u) utf 0 =
    first_byte_len (Z.of_nat i))) (seq 0 256) = true) by (vm_compute; reflexivity).
  intros H. unfold is_u8 in H. rewrite forallb_forall in T. specialize (T (Z.to_nat b)).
  rewrite Z2Nat.id in T by lia. apply bool_decide_eq_true in T; [done|]. apply in_seq. lia.
Qed.

Lemma utf8_len_run {St} b n (s : St) : is_u8 b -> first_byte_len b = Some n -> n <= 4 ->
  utf8_len b s = Done (n, s).
Proof.
  intros H F L. unfold utf8_len. rewrite (opt_run _ n) by (by rewrite utf8_len_table).
  by rewrite (proj2 (Z.ltb_ge 4 n)) by lia.
Qed.

(** Joining the bits that are there with six more. *)
Lemma join_bits k x y : 0 <= k -> 0 <= y < 64 ->
  Z.lor (Z.shiftl x (k + 6)) (Z.shiftl y k) = Z.shiftl (64 * x + y) k.
Proof.
  intros Hk Hy. rewrite Z.add_comm, <-Z.shiftl_shiftl, <-Z.shiftl_lor by lia. f_equal.
  rewrite Z.shiftl_mul_pow2, Z.lor_comm, Z.mul_comm by lia. change 64 with (2 ^ 6) in *.
  rewrite lor_apart by lia. lia.
Qed.

Lemma cp_tail_step {St} n c l shift x y (s : St) : 6 <= shift -> c = 0x80 + y -> 0 <= y < 64 ->
  cp_tail (S n) (c :: l) shift (Z.shiftl x shift) s =
  cp_tail n l (shift - 6) (Z.shiftl (64 * x + y) (shift - 6)) s.
Proof.
  intros Hs -> Hy. cbn [cp_tail]. erewrite opt_run by reflexivity. rewrite tail_value by done.
  unfold shift_left. rewrite (proj2 (Z.ltb_ge _ _)), ret_run by lia.
  pose proof (join_bits (shift - 6) x y ltac:(lia) Hy) as J.
  replace (shift - 6 + 6) with shift in J by lia. by rewrite J.
Qed.

Lemma to_cp_first {St} b l n u (s : St) : is_u8 b -> first_byte_len b = Some n -> 1 <= n <= 4 ->
  utf !! Z.to_nat n = Some u ->
  to_cp (b :: l) s =
    cp_tail (Z.to_nat (n - 1)) l (6 * (n - 1)) (Z.shiftl (Z.land b (mask u)) (6 * (n - 1))) s.
Proof.
  intros Hb F Hn Hu. unfold to_cp. erewrite opt_run by reflexivity.
  erewrite bind_done by (apply utf8_len_run; [done|done|lia]).
  rewrite (proj2 (Z.ltb_ge n 0)) by lia. rewrite (opt_run _ _ _ _ Hu).
  unfold shift_left. by rewrite (proj2 (Z.ltb_ge _ 0)) by lia.
Qed.

Lemma to_cp_1 {St} cp (s : St) : 0 < cp < 0x80 -> to_cp [cp] s = Done (cp, s).
Proof.
  intros H. rewrite (to_cp_first cp [] 1 (mkUtf 0x7f 0 0 0x7f 7)); [|unfold is_u8; lia| |lia|done].
  - pose proof (lead_value 7 0 cp ltac:(lia) ltac:(lia)) as L.
    change (2 ^ 7 * 0 + cp) with cp in L. cbn [mask]. change 0x7f with (Z.ones 7). rewrite L.
    cbn [cp_tail Z.to_nat Z.sub Z.add Z.opp Z.mul]. by rewrite Z.shiftl_0_r.
  - unfold first_byte_len. by decide_leb.
Qed.

Lemma to_cp_2 {St} cp (s : St) : 0x80 <= cp < 0x800 ->
  to_cp [0xc0 + cp / 64; 0x80 + cp mod 64] s = Done (cp, s).
Proof.
  intros H. assert (R : 2 <= cp / 64 < 32 /\ 0 <= cp mod 64 < 64 /\ 64 * (cp / 64) + cp mod 64 = cp)
    by (Z.to_euclidean_division_equations; lia).
  rewrite (to_cp_first _ _ 2 (mkUtf 0x1f 0xc0 0x80 0x7ff 5)); [|unfold is_u8; lia| |lia|done].
  2: { unfold first_byte_len. by decide_leb. }
  cbn [mask]. change 0x1f with (Z.ones 5). change 0xc0 with (2 ^ 5 * 6). rewrite lead_value by lia.
  change (Z.to_nat (2 - 1)) with 1%nat. erewrite cp_tail_step by (reflexivity || lia).
  cbn [cp_tail]. change (6 * (2 - 1) - 6) with 0. rewrite Z.shiftl_0_r. by rewrite (proj2 (proj2 R)).
Qed.

Lemma to_cp_3 {St} cp (s : St) : 0x800 <= cp < 0x10000 ->
  to_cp [0xe0 + cp / 4096; 0x80 + cp / 64 mod 64; 0x80 + cp mod 64] s = Done (cp, s).
Proof.
  intros H. assert (R : 0 <= cp / 4096 < 16 /\ 0 <= cp / 64 mod 64 < 64 /\ 0 <= cp mod 64 < 64 /\
    64 * (64 * (cp / 4096) + cp / 64 mod 64) + cp mod 64 = cp)
    by (Z.to_euclidean_division_equations; lia).
  rewrite (to_cp_first _ _ 3 (mkUtf 0x0f 0xe0 0x800 0xffff 4)); [|unfold is_u8; lia| |lia|done].
  2: { unfold first_byte_len. by decide_leb. }
  cbn [mask]. change 0x0f with (Z.ones 4). change 0xe0 with (2 ^ 4 * 14). rewrite lead_value by lia.
  change (Z.to_nat (3 - 1)) with 2%nat. erewrite !cp_tail_step by (reflexivity || lia).
  cbn [cp_tail]. change (6 * (3 - 1) - 6 - 6) with 0. rewrite Z.shiftl_0_r. by rewrite (proj2 (proj2 (proj2 R))).
Qed.

Lemma to_cp_4 {St} cp (s : St) : 0x10000 <= cp <= 0x10ffff ->
  to_cp [0xf0 + cp / 262144; 0x80 + cp / 4096 mod 64; 0x80 + cp / 64 mod 64; 0x80 + cp mod 64] s =
    Done (cp, s).
Proof.
  intros H. assert (R : 0 <= cp / 262144 < 8 /\ 0 <= cp / 4096 mod 64 < 64 /\ 0 <= cp / 64 mod 64 < 64 /\
    0 <= cp mod 64 < 64 /\
    64 * (64 * (64 * (cp / 262144) + cp / 4096 mod 64) + cp / 64 mod 64) + cp mod 64 = cp)
    by (Z.to_euclidean_division_equations; lia).
  rewrite (to_cp_first _ _ 4 (mkUtf 0x07 0xf0 0x10000 0x10ffff 3)); [|unfold is_u8; lia| |lia|done].
  2: { unfold first_byte_len. by decide_leb. }
  cbn [mask]. change 0x07 with (Z.ones 3). change 0xf0 with (2 ^ 3 * 30). rewrite lead_value by lia.
  change (Z.to_nat (4 - 1)) with 3%nat. erewrite !cp_tail_step by (reflexivity || lia).
  cbn [cp_tail]. change (6 * (4 - 1) - 6 - 6 - 6) with 0. rewrite Z.shiftl_0_r.
  by rewrite (proj2 (proj2 (proj2 (proj2 R)))).
Qed.

(** UTF-8 is lossless: every character from 1 to 0x10ffff is encoded, in one to four bytes
    none of which is zero, and decoding them gives the character back. *)
Theorem utf8_roundtrip cp :
  0 < cp <= 0x10ffff ->
  exists bs, to_utf8 cp tt = Done (Some bs, tt) /\ to_cp bs tt = Done (cp, tt) /\
    (1 <= length bs <= 4)%nat /\ Forall (fun b => 0 < b < 256) bs.
Proof.
  intros H. exists (utf8_of cp). split; [by apply to_utf8_run|]. unfold utf8_of.
  destruct (utf8_ranges cp H) as [[_ B]|[[_ B]|[[_ B]|[_ B]]]]; decide_leb.
  - split; [|split; [cbn; lia|by repeat constructor; lia]]. exact (to_cp_1 cp tt ltac:(lia)).
  - split; [exact (to_cp_2 cp tt B)|]. split; [cbn; lia|].
    repeat constructor; Z.to_euclidean_division_equations; lia.
  - split; [exact (to_cp_3 cp tt B)|]. split; [cbn; lia|].
    repeat constructor; Z.to_euclidean_division_equations; lia.
  - split; [apply to_cp_4; lia|]. split; [cbn; lia|].
    repeat constructor; Z.to_euclidean_division_equations; lia.
Qed.

(** ** Long names on the disk *)

(** A character a long name can have: not the terminator, not the filling. *)
Definition char16 (u : Z) : Prop := 0 < u < 0xffff.
Definition unit_bytes (us : list Z) : list Z := concat (map (le_bytes 2) us).

(** The 13 characters of an entry: the terminator and the filling after a name that ends. *)
Definition entry_units (us : list Z) : list Z := take 13 (us ++ 0 :: replicate 13 0xffff).

(** The 32 bytes of an entry. *)
Definition lfn_bytes (seq sum : Z) (us : list Z) : list Z :=
  let U := entry_units us in
  [seq] ++ unit_bytes (take 5 U) ++ [0x0f; 0; sum] ++ unit_bytes (take 6 (drop 5 U)) ++
  [0; 0] ++ unit_bytes (drop 11 U).
Definition lfn_entry (seq sum : Z) (us : list Z) : fat32_dirent_t := dirent_decode (lfn_bytes seq sum us).

(** A name in pieces of 13 characters. *)
Fixpoint pieces (fuel : nat) (us : list Z) : list (list Z) :=
  match fuel, us with
  | O, _ | _, [] => []
  | S fuel, _ => take 13 us :: pieces fuel (drop 13 us)
  end.

(** The entries of a name, numbered from 1, the last one marked. *)
Fixpoint numbered (i : Z) (sum : Z) (ps : list (list Z)) : list fat32_dirent_t :=
  match ps with
  | [] => []
  | [p] => [lfn_entry (Z.lor 0x40 i) sum p]
  | p :: ps => lfn_entry i sum p :: numbered (i + 1) sum ps
  end.
Definition lfn_entries (sum : Z) (us : list Z) : list fat32_dirent_t :=
  reverse (numbered 1 sum (pieces (length us) us)).

Lemma length_unit_bytes us : length (unit_bytes us) = (2 * length us)%nat.
Proof.
  unfold unit_bytes. induction us as [|u us IH]; [done|]. cbn [map concat].
  rewrite length_app, IH, length_le_bytes, length_cons. lia.
Qed.
Lemma unit_bytes_app a b : unit_bytes (a ++ b) = unit_bytes a ++ unit_bytes b.
Proof. unfold unit_bytes. by rewrite map_app, concat_app. Qed.
Lemma unit_bytes_bytes us : bytes (unit_bytes us).
Proof.
  unfold unit_bytes. induction us as [|u us IH]; [constructor|].
  cbn [map concat]. apply Forall_app_2; [apply le_bytes_bytes|done].
Qed.
Lemma length_entry_units us : length (entry_units us) = 13%nat.
Proof. unfold entry_units. rewrite length_take, length_app, length_cons, length_replicate. lia. Qed.

(** The view of an entry has its characters. *)
Lemma lfn_view_entry seq sum us : is_u8 seq -> is_u8 sum ->
  let U := entry_units us in
  lfn_view (lfn_entry seq sum us) =
    mkLfn seq (unit_bytes (take 5 U)) 0x0f sum (unit_bytes (take 6 (drop 5 U))) (unit_bytes (drop 11 U)) /\
  attr (lfn_entry seq sum us) = FAT32_LONG_FILE_NAME /\
  char_at (filename (lfn_entry seq sum us)) 0 = seq.
Proof.
  intros Hq Hs U. pose proof (length_entry_units us) as LU. fold U in LU.
  assert (L1 : length (unit_bytes (take 5 U)) = 10%nat) by (rewrite length_unit_bytes, length_take; lia).
  assert (L2 : length (unit_bytes (take 6 (drop 5 U))) = 12%nat)
    by (rewrite length_unit_bytes, length_take, length_drop; lia).
  assert (L3 : length (unit_bytes (drop 11 U)) = 4%nat) by (rewrite length_unit_bytes, length_drop; lia).
  pose proof (unit_bytes_bytes (take 5 U)) as B1. pose proof (unit_bytes_bytes (take 6 (drop 5 U))) as B2.
  pose proof (unit_bytes_bytes (drop 11 U)) as B3.
  assert (E : dirent_encode (lfn_entry seq sum us) = lfn_bytes seq sum us).
  { apply dirent_encode_decode; unfold lfn_bytes; fold U.
    - rewrite !length_app, L1, L2, L3. done.
    - rewrite !Forall_app. split_and!; try done.
      all: repeat (apply Forall_cons_2; [first [done|unfold is_u8; lia]|]); apply Forall_nil_2. }
  unfold lfn_view. rewrite E. unfold lfn_entry, lfn_bytes, dirent_decode, char_at. fold U.
  revert L1 L2 L3. generalize (unit_bytes (take 5 U)), (unit_bytes (take 6 (drop 5 U))), (unit_bytes (drop 11 U)).
  intros a b c La Lb Lc. do 10 (destruct a as [|? a]; [done|]). destruct a; [|done].
  do 12 (destruct b as [|? b]; [done|]). destruct b; [|done].
  do 4 (destruct c as [|? c]; [done|]). destruct c; [|done]. done.
Qed.

(** ** Reading them back *)

(** Where appending stops. *)
Definition stops (rest : list Z) : Prop :=
  rest = [] \/ exists r, rest = 0 :: 0 :: r \/ rest = 0xff :: 0xff :: r.

(** One character. *)
Lemma utf8_append_char {St} u rest buf (s : St) : char16 u ->
  utf8_append buf (u mod 256 :: (u / 256) mod 256 :: rest) s =
    if Z.of_nat (length (buf ++ utf8_of u)) <? filename_size
    then utf8_append (buf ++ utf8_of u) rest s else Undef.
Proof.
  unfold char16. intros Hu. cbn [utf8_append].
  assert (R : 0 <= u / 256 < 256) by (Z.to_euclidean_division_equations; lia).
  rewrite (Z.mod_small (u / 256)) by done.
  assert (T : lfn_terminator (u mod 256) (u / 256) = false).
  { unfold lfn_terminator. destruct (Z.eqb_spec (u mod 256) 0), (Z.eqb_spec (u / 256) 0),
      (Z.eqb_spec (u mod 256) 0xff), (Z.eqb_spec (u / 256) 0xff); try done.
    all: exfalso; Z.to_euclidean_division_equations; lia. }
  rewrite T. assert (E : Z.lor (u mod 256) (Z.shiftl (u / 256) 8) = u).
  { rewrite Z.shiftl_mul_pow2, Z.mul_comm by lia.
    rewrite (lor_apart 8) by (change (2 ^ 8) with 256; Z.to_euclidean_division_equations; lia).
    change (2 ^ 8) with 256. Z.to_euclidean_division_equations; lia. }
  rewrite E. erewrite bind_done by (apply to_utf8_run; lia). erewrite opt_run by reflexivity.
  by destruct (_ <? _).
Qed.

Lemma utf8_append_run {St} us rest buf (s : St) :
  Forall char16 us -> stops rest ->
  Z.of_nat (length (buf ++ concat (map utf8_of us))) < filename_size ->
  utf8_append buf (unit_bytes us ++ rest) s = Done (buf ++ concat (map utf8_of us), s).
Proof.
  intros C Hr. revert buf. induction C as [|u us Hu _ IH]; intros buf Hl.
  { cbn [map concat]. rewrite app_nil_r. cbn. destruct Hr as [->|(r & [->| ->])]; done. }
  change (unit_bytes (u :: us) ++ rest) with
    (u mod 256 :: (u / 256) mod 256 :: (unit_bytes us ++ rest)). rewrite utf8_append_char by done.
  cbn [map concat] in *. rewrite app_assoc in *. rewrite (proj2 (Z.ltb_lt _ _)); [by apply IH|].
  rewrite length_app in Hl. lia.
Qed.

(** What does not fit is written behind the buffer. *)
Lemma utf8_append_over {St} us rest buf (s : St) :
  Forall char16 us -> Z.of_nat (length buf) < filename_size ->
  filename_size <= Z.of_nat (length (buf ++ concat (map utf8_of us))) ->
  utf8_append buf (unit_bytes us ++ rest) s = Undef.
Proof.
  intros C. revert buf. induction C as [|u us Hu _ IH]; intros buf Hb Hl.
  { cbn [map concat] in Hl. rewrite app_nil_r in Hl. lia. }
  change (unit_bytes (u :: us) ++ rest) with
    (u mod 256 :: (u / 256) mod 256 :: (unit_bytes us ++ rest)). rewrite utf8_append_char by done.
  cbn [map concat] in Hl. rewrite app_assoc in Hl. destruct (Z.ltb_spec (Z.of_nat (length (buf ++ utf8_of u))) filename_size); [|done].
  by apply IH.
Qed.

(** The characters of an entry are the name's and then a stop. *)
Lemma entry_units_split us : (length us <= 13)%nat ->
  exists pad, entry_units us = us ++ pad /\ (pad = [] \/ exists k, pad = 0 :: replicate k 0xffff).
Proof.
  intros L. unfold entry_units. rewrite take_app_ge by done.
  eexists. split; [done|]. destruct (13 - length us)%nat as [|k]; [by left|]. right.
  exists (k `min` 13)%nat. cbn [take]. by rewrite take_replicate.
Qed.

Lemma pad_stops pad m d :
  pad = [] \/ (exists k, pad = 0 :: replicate k 0xffff) -> stops (unit_bytes (take m (drop d pad))).
Proof.
  intros [->|[k ->]]; [left; by rewrite drop_nil, take_nil|].
  destruct m as [|m]; [by left|]. destruct d as [|d].
  - right. eexists. left. reflexivity.
  - cbn [drop]. rewrite drop_replicate. destruct (k - d)%nat as [|j]; [by left|].
    right. eexists. right. reflexivity.
Qed.

(** One field of an entry: the part of the name that is in it. *)
Lemma append_field {St} us pad m d buf (s : St) :
  Forall char16 us -> pad = [] \/ (exists k, pad = 0 :: replicate k 0xffff) ->
  Z.of_nat (length (buf ++ concat (map utf8_of (take m (drop d us))))) < filename_size ->
  utf8_append buf (unit_bytes (take m (drop d (us ++ pad)))) s =
    Done (buf ++ concat (map utf8_of (take m (drop d us))), s).
Proof.
  intros C P L. rewrite drop_app, take_app, unit_bytes_app.
  apply utf8_append_run; [by apply Forall_take, Forall_drop|by apply pad_stops|done].
Qed.

Lemma append_field_over {St} us pad m d buf (s : St) :
  Forall char16 us -> Z.of_nat (length buf) < filename_size ->
  filename_size <= Z.of_nat (length (buf ++ concat (map utf8_of (take m (drop d us))))) ->
  utf8_append buf (unit_bytes (take m (drop d (us ++ pad)))) s = Undef.
Proof.
  intros C Hb L. rewrite drop_app, take_app, unit_bytes_app.
  apply utf8_append_over; [by apply Forall_take, Forall_drop|done|done].
Qed.

Lemma entry_fields (us : list Z) :
  take 5 us ++ take 6 (drop 5 us) ++ drop 11 us = us.
Proof.
  change (drop 11 us) with (drop (5 + 6) us). rewrite <-(drop_drop us 6 5).
  by rewrite take_drop, take_drop.
Qed.

(** One turn of lfn_get_name's loop. *)
Lemma get_name_turn {St} seq sum us ls buf (s : St) :
  is_u8 seq -> is_u8 sum -> Forall char16 us -> (length us <= 13)%nat ->
  exists pad, (pad = [] \/ exists k, pad = 0 :: replicate k 0xffff) /\
  get_name_loop (lfn_entry seq sum us :: ls) buf s =
    (buf ← utf8_append buf (unit_bytes (take 5 (drop 0 (us ++ pad))));
     buf ← utf8_append buf (unit_bytes (take 6 (drop 5 (us ++ pad))));
     buf ← utf8_append buf (unit_bytes (take 2 (drop 11 (us ++ pad))));
     get_name_loop ls buf) s.
Proof.
  intros Hq Hs C L13. destruct (lfn_view_entry seq sum us Hq Hs) as [E _].
  destruct (entry_units_split us L13) as (pad & EU & P). exists pad. split; [done|].
  cbn [get_name_loop]. rewrite E. cbn [lfn_attr name1_5 name6_11 name12_13].
  rewrite assert_run by reflexivity. rewrite EU.
  change (take 5 (us ++ pad)) with (take 5 (drop 0 (us ++ pad))).
  rewrite (take_ge (drop 11 (us ++ pad))); [done|]. rewrite <-EU, length_drop, length_entry_units. lia.
Qed.

Lemma fields_text us (buf : list Z) : (length us <= 13)%nat ->
  buf ++ concat (map utf8_of us) =
    ((buf ++ concat (map utf8_of (take 5 (drop 0 us)))) ++ concat (map utf8_of (take 6 (drop 5 us)))) ++
    concat (map utf8_of (take 2 (drop 11 us))).
Proof.
  intros L13. rewrite (take_ge (drop 11 us)) by (rewrite length_drop; lia).
  rewrite <-(entry_fields us) at 1. by rewrite !map_app, !concat_app, <-!app_assoc.
Qed.

Lemma get_name_entry {St} seq sum us ls buf (s : St) :
  is_u8 seq -> is_u8 sum -> Forall char16 us -> (length us <= 13)%nat ->
  Z.of_nat (length buf) < filename_size ->
  get_name_loop (lfn_entry seq sum us :: ls) buf s =
    if Z.of_nat (length (buf ++ concat (map utf8_of us))) <? filename_size
    then get_name_loop ls (buf ++ concat (map utf8_of us)) s else Undef.
Proof.
  intros Hq Hs C L13 Lb. destruct (get_name_turn seq sum us ls buf s Hq Hs C L13) as (pad & P & ->).
  rewrite (fields_text us buf L13).
  set (x1 := concat (map utf8_of (take 5 (drop 0 us)))). set (x2 := concat (map utf8_of (take 6 (drop 5 us)))).
  set (x3 := concat (map utf8_of (take 2 (drop 11 us)))).
  pose proof (length_app buf x1) as L1. pose proof (length_app (buf ++ x1) x2) as L2.
  pose proof (length_app ((buf ++ x1) ++ x2) x3) as L3.
  destruct (Z.lt_ge_cases (Z.of_nat (length (buf ++ x1))) filename_size) as [H1|H1].
  2: { rewrite (proj2 (Z.ltb_ge _ _)) by lia. unfold mbind at 1, M_bind at 1. by rewrite append_field_over. }
  erewrite bind_done by (by apply append_field). fold x1.
  destruct (Z.lt_ge_cases (Z.of_nat (length ((buf ++ x1) ++ x2))) filename_size) as [H2|H2].
  2: { rewrite (proj2 (Z.ltb_ge _ _)) by lia. unfold mbind at 1, M_bind at 1. by rewrite append_field_over. }
  erewrite bind_done by (by apply append_field). fold x2.
  destruct (Z.ltb_spec (Z.of_nat (length (((buf ++ x1) ++ x2) ++ x3))) filename_size) as [H3|H3].
  - erewrite bind_done by (by apply append_field). done.
  - unfold mbind at 1, M_bind at 1. by rewrite append_field_over.
Qed.

Lemma length_numbered i sum ps : length (numbered i sum ps) = length ps.
Proof.
  revert i. induction ps as [|p [|p' ps] IH]; intros i; [done|done|].
  change (S (length (numbered (i + 1) sum (p' :: ps))) = S (length (p' :: ps))). by rewrite IH.
Qed.

Lemma last_seq i : 0 <= i < 64 -> Z.lor 0x40 i = i + 64.
Proof. intros H. rewrite Z.lor_comm. exact (lor_apart 6 1 i ltac:(lia) H). Qed.

(** The sequence numbers are those of entries in use. *)
Definition seq_ok (i : Z) (ps : list (list Z)) : Prop := 1 <= i /\ i + Z.of_nat (length ps) <= 0x20.

Lemma get_name_numbered {St} sum ps i buf (s : St) :
  is_u8 sum -> seq_ok i ps -> Forall (fun p => Forall char16 p /\ (length p <= 13)%nat) ps ->
  Z.of_nat (length buf) < filename_size ->
  get_name_loop (numbered i sum ps) buf s =
    if Z.of_nat (length (buf ++ concat (map utf8_of (concat ps)))) <? filename_size
    then Done (buf ++ concat (map utf8_of (concat ps)), s) else Undef.
Proof.
  intros Hs Hi F. revert i buf Hi. induction F as [|p ps [Hp Lp] F IH]; intros i buf [H1 H2] L.
  { cbn [concat map]. rewrite app_nil_r. by rewrite (proj2 (Z.ltb_lt _ _)). }
  cbn [concat] in *. rewrite map_app, concat_app, app_assoc in *. cbn [length] in H2.
  set (x := concat (map utf8_of p)). set (y := concat (map utf8_of (concat ps))).
  pose proof (length_app (buf ++ x) y) as Lxy.
  destruct ps as [|p' ps].
  - cbn [numbered]. rewrite get_name_entry; [|unfold is_u8|done..].
    + fold x. subst y. cbn [get_name_loop concat map]. by rewrite app_nil_r.
    + cbn in H2. rewrite last_seq; lia.
  - change (numbered i sum (p :: p' :: ps)) with (lfn_entry i sum p :: numbered (i + 1) sum (p' :: ps)).
    rewrite get_name_entry; [|unfold is_u8; cbn in H2; lia|done..]. fold x.
    destruct (Z.ltb_spec (Z.of_nat (length (buf ++ x))) filename_size).
    + rewrite IH by (done || split; cbn [length] in *; lia). done.
    + by rewrite (proj2 (Z.ltb_ge _ _)) by lia.
Qed.

(** ** The name of an entry *)

Lemma pieces_concat fuel us : (length us <= fuel)%nat -> concat (pieces fuel us) = us.
Proof.
  revert us. induction fuel as [|fuel IH]; intros [|u us] L; try done; [cbn in L; lia|].
  cbn [pieces concat]. rewrite IH; [apply take_drop|]. rewrite length_drop. cbn in *. lia.
Qed.

Lemma pieces_ok fuel us : Forall char16 us ->
  Forall (fun p => Forall char16 p /\ (length p <= 13)%nat) (pieces fuel us).
Proof.
  revert us. induction fuel as [|fuel IH]; intros us C; [constructor|].
  destruct us as [|u us]; [constructor|]. cbn [pieces]. constructor; [|apply IH; by apply Forall_drop].
  split; [by apply Forall_take|rewrite length_take; lia].
Qed.

Lemma length_pieces fuel us : (length us <= fuel)%nat ->
  (13 * length (pieces fuel us) < length us + 13)%nat.
Proof.
  revert us. induction fuel as [|fuel IH]; intros [|u us] L; try (cbn in *; lia).
  cbn [pieces length]. specialize (IH (drop 13 (u :: us))). rewrite length_drop in IH.
  cbn [length] in *. destruct (Nat.le_gt_cases (S (length us)) 13) as [G|G].
  - rewrite drop_ge in * by (cbn; lia). destruct fuel; cbn; lia.
  - lia.
Qed.

Lemma not_deleted i : 0 <= i < 128 -> lfn_is_deleted i = false.
Proof.
  intros H. unfold lfn_is_deleted. apply Z.eqb_neq. intros E.
  apply (f_equal (fun x => Z.testbit x 7)) in E. rewrite Z.land_spec in E.
  rewrite (Z.bits_above_log2 i) in E; [done|lia|].
  destruct (Z.eq_dec i 0) as [->|]; [done|]. apply Z.log2_lt_pow2; lia.
Qed.

(** Every entry of a long name says so, and is in use. *)
Definition lfn_used (d : fat32_dirent_t) : Prop :=
  attr d = FAT32_LONG_FILE_NAME /\ lfn_is_deleted (char_at (filename d) 0) = false.

Lemma numbered_used sum ps i : is_u8 sum -> seq_ok i ps -> Forall lfn_used (numbered i sum ps).
Proof.
  intros Hs. revert i. induction ps as [|p [|p' ps] IH]; intros i [H1 H2]; [constructor| |].
  - cbn in H2. cbn [numbered]. constructor; [|constructor].
    destruct (lfn_view_entry (Z.lor 0x40 i) sum p) as (_ & A & B); [rewrite last_seq; unfold is_u8; lia|done|].
    split; [done|]. rewrite B, last_seq by lia. by apply not_deleted; lia.
  - change (numbered i sum (p :: p' :: ps)) with (lfn_entry i sum p :: numbered (i + 1) sum (p' :: ps)).
    cbn [length] in H2. constructor; [|apply IH; split; cbn [length]; lia].
    destruct (lfn_view_entry i sum p) as (_ & A & B); [unfold is_u8; lia|done|].
    split; [done|]. rewrite B. by apply not_deleted; lia.
Qed.

Lemma lfn_run_all es d ds : Forall lfn_used es -> attr d <> FAT32_LONG_FILE_NAME ->
  lfn_run (es ++ d :: ds) = length es.
Proof.
  intros F N. induction F as [|e es [A _] _ IH]; cbn [app lfn_run length].
  - by rewrite (proj2 (Z.eqb_neq _ _)).
  - by rewrite A, Z.eqb_refl, IH.
Qed.

(** C31: long names.  A name of up to 255 characters of 16 bits that was split over entries of
    thirteen, in the order and with the terminator and filling the file system prescribes, is
    read back whole in front of whatever else the directory has, and the short entry is found
    behind it, when its encoding has fewer than 512 bytes.  When it has 512 or more, as a legal
    name of 171 characters above U+07FF does, lfn_get_name writes behind its buffer of 512
    bytes.  Each 16-bit character is encoded by itself in one to three bytes, as UTF-8 does
    below U+10000; the two halves of a surrogate pair are encoded as two characters, so such a
    name does not come out as valid UTF-8. *)
Theorem long_name_read_back us sum d ds :
  us <> [] -> Forall char16 us -> is_u8 sum -> (length us <= 255)%nat ->
  attr d = FAT32_ARCHIVE \/ attr d = FAT32_DIR ->
  fat32_dir_filename (lfn_entries sum us ++ d :: ds) tt =
    let name := concat (map utf8_of us) in
    if Z.of_nat (length name) <? filename_size
    then Done ((name, length (lfn_entries sum us)), tt) else Undef.
Proof.
  intros Ne C Hs L Hd. cbv zeta. unfold lfn_entries. set (ps := pieces (length us) us).
  assert (Hp : seq_ok 1 ps) 
    by (pose proof (length_pieces (length us) us) as LP; fold ps in LP; unfold seq_ok; lia).
  assert (U : Forall lfn_used (reverse (numbered 1 sum ps)))
    by (apply Forall_reverse; by apply numbered_used).
  assert (Nd : attr d <> FAT32_LONG_FILE_NAME) by (destruct Hd as [-> | ->]; done).
  destruct (reverse (numbered 1 sum ps)) as [|e es] eqn:E.
  { apply (f_equal length) in E. rewrite length_reverse, length_numbered in E.
    unfold ps in E. destruct us; [done|]. by cbn [pieces length] in E. }
  apply Forall_cons_1 in U as [[Ae De] U]. unfold fat32_dir_filename.
  cbn [app]. erewrite opt_run by reflexivity.
  assert (Fr : fat32_dirent_free e tt = Done (false, tt)).
  { unfold fat32_dirent_free, fat32_dirent_is_deleted_lfn. rewrite Ae, Z.eqb_refl.
    rewrite assert_run by done. by rewrite De. }
  mrun Fr. rewrite assert_run by done. rewrite Ae, Z.eqb_refl. cbn [drop]. rewrite drop_0.
  rewrite (lfn_run_all es d ds U Nd). rewrite assert_run.
  2: { apply Nat.ltb_lt. cbn [length]. rewrite length_app. cbn [length]. lia. }
  erewrite opt_run by (cbn; by apply list_lookup_middle).
  rewrite assert_run by (destruct Hd as [-> | ->]; done).
  unfold lfn_get_name, mbind, M_bind.
  change (S (length es)) with (length (e :: es)). change (e :: es ++ d :: ds) with ((e :: es) ++ d :: ds).
  rewrite take_app_length, <-E, reverse_involutive.
  rewrite get_name_numbered; [|done|done|by apply pieces_ok|done].
  unfold ps. rewrite pieces_concat by done. cbn [app]. by destruct (_ <? _).
Qed.

(** A short name comes out with its dot and its padding, unlike that of to_8dot3. *)
Lemma short_name_padded :
  match fat32_dir_filename [mk_dirent (str "FOO        ") FAT32_ARCHIVE 0 0 0 0 0 0 0 0 0 0] tt with
  | Done ((name, _), _) => name | _ => [] end = str "FOO.   ".
Proof. reflexivity. Qed.

Module LfnExample.

(** The name a-umlaut, then thirteen more characters: two entries. *)
Definition name14 : list Z := [0xe4; 98; 99; 100; 101; 102; 103; 104; 105; 106; 107; 108; 109; 0x20ac].
Definition short : fat32_dirent_t := mk_dirent (str "ABCDEF~1TXT") FAT32_ARCHIVE 0 0 0 0 0 0 0 0 0 0.

(** 171 times the sign of the euro: a legal name of 513 bytes. *)
Lemma long_name_overflows :
  fat32_dir_filename (lfn_entries 7 (replicate 171 0x20ac) ++ short :: []) tt = Undef.
Proof. by vm_compute. Qed.

(** A character outside the 16-bit range, in two halves, becomes six bytes instead of four. *)
Lemma surrogates_not_joined :
  fat32_dir_filename (lfn_entries 7 [0xd83d; 0xde00] ++ short :: []) tt =
    Done (([0xed; 0xa0; 0xbd; 0xed; 0xb8; 0x80], 1%nat), tt).
Proof. by vm_compute. Qed.

Lemma long_name_read_back_witness :
  fat32_dir_filename (lfn_entries 7 name14 ++ short :: []) tt =
    Done (([0xc3; 0xa4; 98; 99; 100; 101; 102; 103; 104; 105; 106; 107; 108; 109; 0xe2; 0x82; 0xac], 2%nat), tt).
Proof.
  apply (long_name_read_back name14 7 short []).
  - discriminate.
  - by apply (bool_decide_unpack _).
  - by apply (bool_decide_unpack _).
  - cbn. lia.
  - by left.
Defined.

Lemma utf8_roundtrip_witness :
  exists bs, to_utf8 0x20ac tt = Done (Some bs, tt) /\ to_cp bs tt = Done (0x20ac, tt) /\
    (1 <= length bs <= 4)%nat /\ Forall (fun b => 0 < b < 256) bs.
Proof. apply (utf8_roundtrip 0x20ac). lia. Defined.
End LfnExample.
