(* ===== verification/Fat32.v ===== *)
(** * The FAT32 file system (src/fat32/fat32.c, fat32-helpers.c, mbr.c, mbr-helpers.c,
      pi-files.h)

    Mounting a partition and the operations on files and directories, over the FAT and
    the chains of [FatTable] and the directory entries of [Dirent].  Every operation is a
    computation on the [world]: the SD card, the module's [init_p] and the mounted
    [fat32_fs_t]. *)

From stdpp Require Import base tactics option list numbers.
From Stdlib Require Import ZArith Lia.
From S2P Require Import Prelude Sd FatTable Dirent.

(** ** Data (pi-files.h) *)

(** [data] is the buffer; the empty list stands for [NULL] as well. *)
Record pi_file_t : Type := mk_file { f_data : list Z; n_alloc : Z; n_data : Z }.

Record pi_dirent_t : Type := mk_pi_dirent {
  pd_name : list Z;
  pd_raw_name : list Z;
  cluster_id : Z;
  is_dir_p : bool;
  pd_nbytes : Z
}.

(** ** Boot sector *)

Definition is_pow2 (x : Z) : bool := Z.land x (- x) =? x.

Definition bs_bytes_per_sec (b : list Z) : Z := field 11 2 b.
Definition bs_sec_per_cluster (b : list Z) : Z := field 13 1 b.
Definition bs_reserved_area_nsec (b : list Z) : Z := field 14 2 b.
Definition bs_nfats (b : list Z) : Z := field 16 1 b.
Definition bs_max_files (b : list Z) : Z := field 17 2 b.
Definition bs_fs_nsec (b : list Z) : Z := field 19 2 b.
Definition bs_zero (b : list Z) : Z := field 22 2 b.
Definition bs_nsec_in_fs (b : list Z) : Z := field 32 4 b.
Definition bs_nsec_per_fat (b : list Z) : Z := field 36 4 b.
Definition bs_first_cluster (b : list Z) : Z := field 44 4 b.
Definition bs_info_sec_num (b : list Z) : Z := field 48 2 b.
Definition bs_backup_boot_loc (b : list Z) : Z := field 50 2 b.
Definition bs_extended_sig (b : list Z) : Z := field 66 1 b.
Definition bs_sig (b : list Z) : Z := field 510 2 b.

Definition fat32_volume_id_check {S} (b : list Z) : M S unit :=
  m_assert (bs_bytes_per_sec b =? 512);;
  m_assert (bs_nfats b =? 2);;
  m_assert (bs_sig b =? 0xAA55);;
  m_assert (is_pow2 (bs_sec_per_cluster b));;
  let n := bs_bytes_per_sec b in
  m_assert ((n =? 512) || (n =? 1024) || (n =? 2048) || (n =? 4096));;
  m_assert (bs_max_files b =? 0);;
  m_assert (bs_fs_nsec b =? 0);;
  m_assert (bs_zero b =? 0);;
  m_assert (negb (bs_nsec_in_fs b =? 0));;
  m_assert (bs_info_sec_num b =? 1);;
  m_assert (bs_backup_boot_loc b =? 6);;
  m_assert (bs_extended_sig b =? 0x29).

Definition fat32_fsinfo_check {S} (b : list Z) : M S unit :=
  m_assert (field 0 4 b =? 0x41615252);;
  m_assert (field 484 4 b =? 0x61417272);;
  m_assert (field 508 4 b =? 0xaa550000).

(** A sector buffer read as an array of [n] 32-bit words. *)
Fixpoint words (n : nat) (b : list Z) : list Z :=
  match n with
  | O => []
  | S n => le_val (take 4 b) :: words n (drop 4 b)
  end.

(** ** Master boot record *)

Definition mbr_part_is_fat32 (t : Z) : bool := (t =? 0xb) || (t =? 0xc).
Definition memiszero (b : list Z) : bool := forallb (Z.eqb 0) b.

(** The 16 bytes of partition table entry [partno]. *)
Definition part_tab (mbr : list Z) (partno : nat) : list Z :=
  take 16 (drop (446 + 16 * partno) mbr).

Record mbr_partition_ent_t : Type := mk_part {
  bootable_p : Z;
  chs_start : Z;
  part_type : Z;
  chs_end : Z;
  part_lba_start : Z;
  part_nsec : Z
}.

Definition part_decode (e : list Z) : mbr_partition_ent_t :=
  mk_part (field 0 1 e) (field 1 3 e) (field 4 1 e) (field 5 3 e) (field 8 4 e) (field 12 4 e).

Definition mbr_check {S} (mbr : list Z) : M S unit :=
  m_assert (field 510 2 mbr =? 0xAA55);;
  m_assert (mbr_part_is_fat32 (part_type (part_decode (part_tab mbr 0))));;
  m_assert (negb (memiszero (part_tab mbr 0)));;
  m_assert (memiszero (part_tab mbr 1));;
  m_assert (memiszero (part_tab mbr 2));;
  m_assert (memiszero (part_tab mbr 3)).

Definition mbr_get_partition {S} (mbr : list Z) (partno : Z) : M S mbr_partition_ent_t :=
  m_assert (partno <? 4);;
  mret (part_decode (part_tab mbr (Z.to_nat partno))).

Section Ops.
Context {T : Type} `{PiSd T} `{HeapGarbage}.
Local Notation W := (world_on T).

Definition mbr_read : M W (list Z) :=
  mbr ← on_sd (sd_fetch 0 1);
  mbr_check mbr;;
  mret mbr.

(** The [fat32_fs_t] returned becomes the mounted one; [verify_fat] is 0. *)
Definition fat32_mk (partition : mbr_partition_ent_t) : M W fat32_fs_t :=
  init_p ← m_gets w_init;
  m_assert (negb init_p);;
  let partition_start := part_lba_start partition in
  boot_sector ← on_sd (sd_fetch partition_start 1);
  fat32_volume_id_check boot_sector;;
  m_assert (bs_info_sec_num boot_sector =? 1);;
  fsinfo_sec ← on_sd (sd_fetch (u32 (partition_start + 1)) 1);
  fat32_fsinfo_check fsinfo_sec;;
  let lba_start := partition_start in
  let fat_begin_lba := u32 (lba_start + bs_reserved_area_nsec boot_sector) in
  let cluster_begin_lba :=
    u32 (fat_begin_lba + u32 (bs_nfats boot_sector * bs_nsec_per_fat boot_sector)) in
  let n_entries :=
    u32 (bs_nsec_per_fat boot_sector * bs_bytes_per_sec boot_sector) / 4 in
  fat ← on_sd (sd_fetch fat_begin_lba (bs_nsec_per_fat boot_sector));
  let fs := mk_fs lba_start fat_begin_lba cluster_begin_lba
              (bs_sec_per_cluster boot_sector) (bs_first_cluster boot_sector)
              (words (128 * Z.to_nat (bs_nsec_per_fat boot_sector)) fat) n_entries in
  m_modify (fun w => mk_world (w_sd w) true fs);;
  mret fs.

Definition demand_init : M W unit :=
  init_p ← m_gets w_init;
  m_assert init_p.

Definition fat32_get_root : M W pi_dirent_t :=
  demand_init;;
  fs ← get_fs_;
  mret (mk_pi_dirent [] [] (root_dir_first_cluster fs) true 0).

(** ** Reading directories and files *)

Definition dirent_convert {S} (d : fat32_dirent_t) : M S pi_dirent_t :=
  name ← fat32_dirent_name d;
  mret (mk_pi_dirent name (filename d) (fat32_cluster_id d)
          (0 <? Z.land (attr d) 16) (file_nbytes d)).

Definition get_dirents (cluster_start : Z) : M W (list fat32_dirent_t) :=
  get_cluster_chain_length cluster_start;;
  data ← read_cluster_chain cluster_start;
  mret (dirents_of (length data / 32) data).

Fixpoint convert_loop {S} (dirents : list fat32_dirent_t) : M S (list pi_dirent_t) :=
  match dirents with
  | [] => mret []
  | d :: dirents =>
      if dirent_skipped d then convert_loop dirents else
      e ← dirent_convert d;
      es ← convert_loop dirents;
      mret (e :: es)
  end.

Definition fat32_readdir (dirent : pi_dirent_t) : M W (list pi_dirent_t) :=
  demand_init;;
  m_assert (is_dir_p dirent);;
  dirents ← get_dirents (cluster_id dirent);
  convert_loop dirents.

(** [None] is the [NULL] the code returns. *)
Definition fat32_stat (directory : pi_dirent_t) (fname : list Z) : M W (option pi_dirent_t) :=
  demand_init;;
  m_assert (is_dir_p directory);;
  dirents ← get_dirents (cluster_id directory);
  dirent_idx ← find_dirent_with_name dirents fname;
  match dirent_idx with
  | Some i =>
      d ← m_opt (dirents !! i);
      res ← dirent_convert d;
      mret (Some res)
  | None => mret None
  end.

(** The search of [fat32_read]: the result stays 0 when no name matches. *)
Fixpoint read_search {S} (dirents : list fat32_dirent_t) (i : nat) (fname : list Z) : M S nat :=
  match dirents with
  | [] => mret 0%nat
  | d :: dirents =>
      if (char_at (filename d) 0 =? 0) || (char_at (filename d) 0 =? 0xE5) ||
         (Z.land (attr d) 15 =? 15) || negb (Z.land (attr d) 8 =? 0)
      then read_search dirents (i + 1) fname else
      tmp ← fat32_dirent_name d;
      if bool_decide (tmp = fname) then mret i else read_search dirents (i + 1) fname
  end.

Definition fat32_read (directory : pi_dirent_t) (fname : list Z) : M W pi_file_t :=
  demand_init;;
  m_assert (is_dir_p directory);;
  dirents ← get_dirents (cluster_id directory);
  idx ← read_search dirents 0 fname;
  d ← m_opt (dirents !! idx);
  let cluster_num := fat32_cluster_id d in
  len ← get_cluster_chain_length cluster_num;
  fs ← get_fs_;
  let nbytes_alloc := u32 (u32 (sectors_per_cluster fs * 512) * len) in
  if nbytes_alloc =? 0 then mret (mk_file [] 0 0) else
  file_buffer ← read_cluster_chain cluster_num;
  mret (mk_file file_buffer nbytes_alloc (file_nbytes d)).

(** ** Writing *)

(** [while (count < cluster_num) { ++count; cluster = fs->fat[cluster]; }] *)
Fixpoint follow_chain (n : nat) (cluster : Z) : M W Z :=
  match n with
  | O => mret cluster
  | S n => next ← fat_get cluster; follow_chain n next
  end.

(** The sector-sized read, change of entry [idx] and write back. *)
Definition write_dirent_at (cluster : Z) (idx : Z) (dirent : fat32_dirent_t) : M W unit :=
  lba ← cluster_to_lba cluster;
  fs ← get_fs_;
  data ← on_sd (sd_fetch lba (sectors_per_cluster fs));
  on_sd (sd_store (splice (32 * Z.to_nat idx) (dirent_encode dirent) data) lba
           (sectors_per_cluster fs));;
  mret tt.

Definition fat32_write_dirent (dirent : fat32_dirent_t) (directory : pi_dirent_t) (idx : Z)
    : M W unit :=
  fs ← get_fs_;
  let entries_per_cluster := u32 (sectors_per_cluster fs * 16) in
  let cluster_num := idx / entries_per_cluster in
  cluster ← follow_chain (Z.to_nat cluster_num) (cluster_id directory);
  write_dirent_at cluster (idx mod entries_per_cluster) dirent.

(** The search for a free entry: its index and whether the entry after it becomes the new
    end of the directory.  Falling off the end leaves the pointer one past the array. *)
Fixpoint free_dirent_loop {S} (dirents : list fat32_dirent_t) (i : nat) : M S (nat * bool) :=
  match dirents with
  | [] => mret (i, false)
  | d :: rest =>
      if char_at (filename d) 0 =? 0xE5 then mret (i, false) else
      if char_at (filename d) 0 =? 0 then
        match rest with
        | [] => m_panic
        | _ => mret (i, true)
        end
      else free_dirent_loop rest (i + 1)
  end.

(** The cluster of a new directory: allocated, recorded on disk and zeroed. *)
Definition create_dir_cluster : M W Z :=
  cluster ← find_free_cluster 3;
  fat_set cluster 0xFFFFFFFF;;
  write_fat_to_disk;;
  lba ← cluster_to_lba cluster;
  fs ← get_fs_;
  data ← on_sd (sd_fetch lba (sectors_per_cluster fs));
  on_sd (sd_store (replicate (length data) 0) lba (sectors_per_cluster fs));;
  mret cluster.

Definition fat32_create (directory : pi_dirent_t) (fname : list Z) (is_dir : bool)
    : M W (option pi_dirent_t) :=
  demand_init;;
  if negb (fat32_is_valid_name fname) then mret None else
  dirents ← get_dirents (cluster_id directory);
  dirent_idx ← find_dirent_with_name dirents fname;
  match dirent_idx with
  | Some i =>
      d ← m_opt (dirents !! i);
      res ← dirent_convert d;
      mret (Some res)
  | None =>
      '(i, has_end) ← free_dirent_loop dirents 0;
      d0 ← m_opt (dirents !! i);
      d1 ← fat32_dirent_set_name d0 fname;
      free_dirent ←
        (if is_dir then
           cluster ← create_dir_cluster;
           mret (set_start cluster (set_attr_size 0x10 4096 d1))
         else mret (set_start 0 (set_attr_size 0x20 0 d1)));
      fat32_write_dirent free_dirent directory (Z.of_nat i);;
      (if (has_end : bool) then
         e ← m_opt (dirents !! (i + 1)%nat);
         fat32_write_dirent (set_filename (0 :: drop 1 (filename e)) e) directory
           (Z.of_nat i + 1)
       else mret tt);;
      res ← dirent_convert free_dirent;
      mret (Some res)
  end.

(** Frees the chain of a deleted file. *)
Fixpoint delete_chain_loop (fuel : nat) (cluster : Z) : M W unit :=
  match fuel with
  | O => m_nofuel
  | S fuel =>
      tmp ← fat_get cluster;
      fat_set cluster 0;;
      ty ← fat32_fat_entry_type tmp;
      if ty =? LAST_CLUSTER then mret tt else delete_chain_loop fuel tmp
  end.

Definition fat32_delete (directory : pi_dirent_t) (fname : list Z) : M W Z :=
  demand_init;;
  if negb (fat32_is_valid_name fname) then mret 0 else
  dirents ← get_dirents (cluster_id directory);
  dirent_idx ← find_dirent_with_name dirents fname;
  match dirent_idx with
  | None => mret 0
  | Some i =>
      d ← m_opt (dirents !! i);
      let dirent := set_filename (0xE5 :: drop 1 (filename d)) d in
      let cluster := fat32_cluster_id dirent in
      (if cluster =? 0 then mret tt else
       fuel ← walk_fuel;
       delete_chain_loop fuel cluster);;
      fat32_write_dirent dirent directory (Z.of_nat i);;
      write_fat_to_disk;;
      mret 1
  end.

Definition fat32_rename (directory : pi_dirent_t) (oldname newname : list Z) : M W Z :=
  demand_init;;
  if negb (fat32_is_valid_name newname) then mret 0 else
  dirents ← get_dirents (cluster_id directory);
  dirent_idx ← find_dirent_with_name dirents oldname;
  match dirent_idx with
  | None => mret 0
  | Some i =>
      new_dirent_idx ← find_dirent_with_name dirents newname;
      (match new_dirent_idx with
       | Some _ => fat32_delete directory newname;; mret tt
       | None => mret tt
       end);;
      d ← m_opt (dirents !! i);
      dirent ← fat32_dirent_set_name d newname;
      fat32_write_dirent dirent directory (Z.of_nat i);;
      mret 1
  end.

(** The walk of [verify_write] over the chain just written. *)
Fixpoint verify_chain_loop (n : nat) (count file_num_clusters start_cluster : Z) : M W unit :=
  match n with
  | O => mret tt
  | S n =>
      tmp ← fat_get start_cluster;
      ty ← fat32_fat_entry_type tmp;
      m_assert (negb (ty =? FREE_CLUSTER));;
      (if count =? file_num_clusters - 1 then m_assert (ty =? LAST_CLUSTER) else mret tt);;
      (if ty =? LAST_CLUSTER then m_assert (count =? file_num_clusters - 1) else mret tt);;
      verify_chain_loop n (count + 1) file_num_clusters tmp
  end.

(** The checks [fat32_write] makes after writing ([verify_write] is 1). *)
Definition verify_write (lba idx : Z) (file_dirent : fat32_dirent_t) (start_cluster : Z)
    (file : pi_file_t) : M W unit :=
  fs ← get_fs_;
  sec ← on_sd (sd_fetch lba (sectors_per_cluster fs));
  let addr := dirent_decode (take 32 (drop (32 * Z.to_nat idx) sec)) in
  m_assert (access_date addr =? access_date file_dirent);;
  m_assert (attr addr =? attr file_dirent);;
  m_assert (file_nbytes addr =? n_data file);;
  m_assert (lo_start addr =? Z.land start_cluster 0xffff);;
  m_assert (hi_start addr =? Z.land (Z.shiftr start_cluster 16) 0xffff);;
  let bytes_per_cluster := u32 (sectors_per_cluster fs * 512) in
  let file_num_clusters := u32 (n_alloc file + bytes_per_cluster - 1) / bytes_per_cluster in
  if 0 <? n_alloc file
  then verify_chain_loop (Z.to_nat file_num_clusters) 0 file_num_clusters start_cluster
  else m_assert (start_cluster =? 0).

Definition fat32_write (directory : pi_dirent_t) (fname : list Z) (file : pi_file_t) : M W Z :=
  demand_init;;
  m_assert (is_dir_p directory);;
  dirents ← get_dirents (cluster_id directory);
  dirent_idx ← find_dirent_with_name dirents fname;
  match dirent_idx with
  | None => mret 0
  | Some i =>
      d ← m_opt (dirents !! i);
      start_cluster ← write_cluster_chain (fat32_cluster_id d) (f_data file) (n_alloc file);
      let file_dirent :=
        set_attr_size (attr d) (n_data file) (set_start start_cluster d) in
      fs ← get_fs_;
      let per_cluster := u32 (16 * sectors_per_cluster fs) in
      cluster ← follow_chain (Z.to_nat (Z.of_nat i / per_cluster)) (cluster_id directory);
      lba ← cluster_to_lba cluster;
      write_dirent_at cluster (Z.of_nat i mod per_cluster) file_dirent;;
      write_fat_to_disk;;
      verify_write lba (Z.of_nat i mod per_cluster) file_dirent start_cluster file;;
      mret 1
  end.

Definition fat32_truncate (directory : pi_dirent_t) (fname : list Z) (len : Z) : M W Z :=
  demand_init;;
  st ← fat32_stat directory fname;
  match st with
  | None => mret 0
  | Some _ =>
      file ← fat32_read directory fname;
      let file :=
        if len <? n_data file then mk_file (f_data file) len len
        else if n_data file <? len then mk_file (f_data file) len (n_data file)
        else file in
      r ← fat32_delete directory fname;
      m_assert (negb (r =? 0));;
      c ← fat32_create directory fname false;
      m_assert (bool_decide (is_Some c));;
      r' ← fat32_write directory fname file;
      m_assert (negb (r' =? 0));;
      mret 1
  end.

Definition fat32_flush : M W Z :=
  demand_init;;
  mret 0.
End Ops.
