(* ===== verification/Fat32Dir.v ===== *)
(** * Theory of directories

    How the operations of [Fat32] act on a directory seen as the list of its entries:
    reading it, replacing one entry, writing the FAT back, and what stays unchanged. *)

From stdpp Require Import base tactics option list numbers sets.
From Stdlib Require Import ZArith Lia.
From S2P Require Import Prelude Sd FatTable FatChain Dirent Fat32.

Section Dir.
Context {D : Type} `{BlockDeviceLaws D} `{!HeapGarbage} `{!HeapGarbageBytes}.
Implicit Types w : world D.

(** ** Changes confined to some clusters and the FAT

    Weaker than [frame]: the FAT's sectors may change too. *)
Record upd (cs : list Z) w w' : Prop := {
  up_sd : sd_init_p (w_sd w') = sd_init_p (w_sd w);
  up_init : w_init w' = w_init w;
  up_geom : w_fs w' = set_fat (fat (w_fs w')) (w_fs w);
  up_len : length (fat (w_fs w')) = length (fat (w_fs w));
  up_ok l : sec_ok (card w') l = sec_ok (card w) l;
  up_data c : valid_cluster (w_fs w) c -> c ∉ cs -> cluster_data w' c = cluster_data w c;
  up_boot l : l < fat_begin_lba (w_fs w) -> sec_get (card w') l = sec_get (card w) l;
  up_fat x : 0 <= x -> x ∉ cs ->
    fat (w_fs w') !! Z.to_nat x = fat (w_fs w) !! Z.to_nat x
}.

Lemma upd_refl cs w : upd cs w w.
Proof. constructor; auto. by rewrite set_fat_id. Qed.

Lemma upd_trans cs w1 w2 w3 : upd cs w1 w2 -> upd cs w2 w3 -> upd cs w1 w3.
Proof.
  intros [a1 b1 c1 d1 e1 f1 g1 h1] [a2 b2 c2 d2 e2 f2 g2 h2].
  constructor; try congruence.
  - rewrite c2, c1. done.
  - intros c V Hn. rewrite f2, f1; [done|done|done| |done].
    unfold valid_cluster. by rewrite c1.
  - intros l Hl. rewrite g2, g1; [done|done|]. by rewrite c1.
  - intros x Hx Hn. by rewrite h2, h1.
Qed.

Lemma upd_mono cs cs' w w' : upd cs w w' -> (forall x, x ∈ cs -> x ∈ cs') -> upd cs' w w'.
Proof. intros [] Hs. constructor; auto. Qed.

Lemma frame_upd cs w w' : frame cs w w' -> geom_wf (w_fs w) -> Forall (Z.le 2) cs -> upd cs w w'.
Proof.
  intros F G P. pose proof (fun c => frame_cluster_data cs w w' c F G) as Hd.
  destruct F as [a b c d e f g]. constructor; auto.
  intros l Hl. apply f. intros x Hx [Hin _].
  pose proof (proj1 (Forall_forall _ _) P x Hx). destruct G. unfold cluster_lba in Hin.
  assert (0 <= n_entries (w_fs w) / 128) by (apply Z.div_pos; lia).
  nia.
Qed.

Lemma upd_spc cs w w' : upd cs w w' -> sectors_per_cluster (w_fs w') = sectors_per_cluster (w_fs w).
Proof. intros U. by rewrite (up_geom _ _ _ U). Qed.

Lemma upd_wf cs w w' : upd cs w w' -> fs_wf w -> Forall ent_ok (fat (w_fs w')) -> fs_wf w'.
Proof.
  intros [A B C L O _ _ _] Wf E. constructor; [rewrite A; apply Wf|rewrite B; apply Wf| |].
  - destruct Wf as [_ _ [] _]. rewrite C. constructor; simpl; try done. congruence.
  - intros l Hl. rewrite O. apply Wf. by rewrite C in Hl.
Qed.

Lemma upd_chain cs w w' c cs' : upd cs w w' -> chain (fat (w_fs w)) c cs' ->
  (forall x, x ∈ cs' -> x ∉ cs) -> chain (fat (w_fs w')) c cs'.
Proof.
  intros U C Hn. apply (chain_ext _ _ _ _ C). intros x Hx. apply (up_fat _ _ _ U); [|auto].
  pose proof (chain_range _ _ _ _ C Hx). lia.
Qed.

Lemma upd_file_chain cs w w' c cs' : upd cs w w' -> file_chain (fat (w_fs w)) c cs' ->
  (forall x, x ∈ cs' -> x ∉ cs) -> file_chain (fat (w_fs w')) c cs'.
Proof.
  intros U [[-> ->]|[Hc C]] Hn; [by left|right]. split; [done|]. by eapply upd_chain.
Qed.

Lemma upd_chain_data cs w w' cs' : upd cs w w' ->
  (forall x, x ∈ cs' -> valid_cluster (w_fs w) x /\ x ∉ cs) ->
  chain_data w' cs' = chain_data w cs'.
Proof.
  intros U Hn. induction cs' as [|c cs' IH]; [done|].
  rewrite !chain_data_cons, IH by (intros; apply Hn; by apply elem_of_cons; right).
  by rewrite (up_data _ _ _ U) by (apply Hn, elem_of_cons; by left).
Qed.

Lemma chain_valid w c cs x : fs_wf w -> chain (fat (w_fs w)) c cs -> x ∈ cs ->
  valid_cluster (w_fs w) x.
Proof.
  intros Wf C Hx. pose proof (chain_range _ _ _ _ C Hx).
  pose proof (wf_len _ (wf_geom _ Wf)). split; lia.
Qed.

(** ** The directory as a list of entries *)

Definition dir_entries w (dcs : list Z) : list fat32_dirent_t :=
  dirents_of (length (chain_data w dcs) / 32) (chain_data w dcs).

Lemma chain_data_bytes w cs : bytes (chain_data w cs).
Proof.
  induction cs as [|c cs IH]; [constructor|]. rewrite chain_data_cons.
  apply Forall_app. split; [apply cluster_data_bytes|done].
Qed.

Lemma get_dirents_run w c dcs : fs_wf w -> file_chain (fat (w_fs w)) c dcs ->
  get_dirents c w = Done (dir_entries w dcs, w).
Proof.
  intros Wf C. unfold get_dirents. mrun (chain_length_run _ _ _ C).
  by mrun (read_chain_run _ _ _ Wf C).
Qed.

(** Entries per cluster. *)
Definition epc (fs : fat32_fs_t) : Z := 16 * sectors_per_cluster fs.

Lemma bpc_epc fs : 0 < sectors_per_cluster fs ->
  Z.to_nat (bpc fs) = (32 * Z.to_nat (epc fs))%nat.
Proof. unfold bpc, epc. lia. Qed.

Lemma length_dir_entries w dcs : geom_wf (w_fs w) ->
  length (dir_entries w dcs) = (length dcs * Z.to_nat (epc (w_fs w)))%nat.
Proof.
  intros G. unfold dir_entries. rewrite length_dirents_of, length_chain_data by done.
  rewrite bpc_epc by apply G. rewrite Nat.mul_assoc, (Nat.mul_comm (length dcs) 32).
  rewrite <-Nat.mul_assoc, Nat.mul_comm. by rewrite Nat.div_mul.
Qed.

Lemma chain_data_32 w dcs : geom_wf (w_fs w) ->
  (32 * (length (chain_data w dcs) / 32) <= length (chain_data w dcs))%nat.
Proof. intros G. apply Nat.Div0.mul_div_le. Qed.

Lemma dir_entries_wf w dcs : geom_wf (w_fs w) -> Forall dirent_wf (dir_entries w dcs).
Proof.
  intros G. apply dirents_of_wf; [apply chain_data_bytes|by apply chain_data_32].
Qed.

(** ** Replacing an entry *)

Lemma follow_chain_ok w c cs n x : chain (fat (w_fs w)) c cs -> cs !! n = Some x ->
  follow_chain n c w = Done (x, w).
Proof.
  intros C. revert n. induction C as [c v Hc E L|c v cs Hc E U C IH]; intros [|n] Hx;
    simpl in Hx; simplify_eq; try done.
  cbn [follow_chain]. mrun (fat_get_ok _ _ _ E). by apply IH.
Qed.

Lemma splice_app_l {A} n (s a b : list A) : (n + length s <= length a)%nat ->
  splice n s a ++ b = splice n s (a ++ b).
Proof.
  intros Hn. unfold splice. rewrite take_app_le, drop_app_le by lia. by rewrite <-!app_assoc.
Qed.

Lemma splice_app_r {A} n (s a b : list A) :
  a ++ splice n s b = splice (length a + n) s (a ++ b).
Proof.
  unfold splice. rewrite take_app_ge, drop_app_ge by lia.
  replace (length a + n - length a)%nat with n by lia.
  replace (length a + n + length s - length a)%nat with (n + length s)%nat by lia.
  by rewrite <-!app_assoc.
Qed.

(** Changing the contents of the [k]-th cluster of a chain. *)
Lemma chain_data_put w cs k c o s :
  fs_wf w -> NoDup cs -> cs !! k = Some c -> valid_cluster (w_fs w) c ->
  (o + length s <= Z.to_nat (bpc (w_fs w)))%nat -> bytes s ->
  chain_data (w_put c (splice o s (cluster_data w c)) w) cs =
    splice (k * Z.to_nat (bpc (w_fs w)) + o) s (chain_data w cs).
Proof.
  intros Wf ND Hk V Ho Hs. pose proof (wf_geom _ Wf) as G.
  assert (Lc : forall x, length (cluster_data w x) = Z.to_nat (bpc (w_fs w)))
    by (intros; by apply length_cluster_data).
  assert (Out : forall xs, c ∉ xs ->
    chain_data (w_put c (splice o s (cluster_data w c)) w) xs = chain_data w xs).
  { intros xs Hx. apply (frame_chain_data [c]); [|done|set_solver].
    apply frame_put; [apply G|set_solver]. }
  revert k Hk. induction ND as [|x cs Hx ND IH]; intros [|k] Hk; simpl in Hk; simplify_eq.
  - rewrite !chain_data_cons, Out by done. rewrite cluster_data_put_eq; [|done|done| |].
    + rewrite Nat.mul_0_l, Nat.add_0_l. apply splice_app_l. rewrite Lc. lia.
    + by rewrite length_splice, Lc by (rewrite Lc; lia).
    + unfold splice. rewrite !Forall_app. pose proof (cluster_data_bytes w c).
      split_and!; [by apply Forall_take|done|by apply Forall_drop].
  - rewrite !chain_data_cons, (IH k Hk).
    rewrite cluster_data_put_ne; [|done|].
    + rewrite splice_app_r, Lc. f_equal. lia.
    + intros ->. apply Hx. by eapply list_elem_of_lookup_2.
Qed.

(** Entry [i] of a directory is entry [i mod epc] of its cluster [i / epc]. *)
Lemma dir_slot w dcs i : geom_wf (w_fs w) -> (i < length (dir_entries w dcs))%nat ->
  let k := (i / Z.to_nat (epc (w_fs w)))%nat in
  let o := (i mod Z.to_nat (epc (w_fs w)))%nat in
  (k < length dcs)%nat /\ (o < Z.to_nat (epc (w_fs w)))%nat /\
  (i = k * Z.to_nat (epc (w_fs w)) + o)%nat.
Proof.
  intros G Hi k o. rewrite length_dir_entries in Hi by done.
  assert (Z.to_nat (epc (w_fs w)) <> 0)%nat by (pose proof (wf_spc _ G); unfold epc; lia).
  split_and!.
  - by apply Nat.Div0.div_lt_upper_bound; rewrite Nat.mul_comm.
  - by apply Nat.mod_upper_bound.
  - rewrite Nat.mul_comm. by apply Nat.div_mod.
Qed.

Lemma epc_u32 fs : geom_wf fs -> u32 (sectors_per_cluster fs * 16) = epc fs /\
  u32 (16 * sectors_per_cluster fs) = epc fs /\ 0 < epc fs.
Proof.
  intros G. pose proof (wf_spc _ G). pose proof (wf_spc_max _ G). unfold epc.
  rewrite !u32_small by (unfold is_u32; lia). lia.
Qed.

Lemma write_dirent_at_run w dcs k c o d :
  fs_wf w -> NoDup dcs -> dcs !! k = Some c -> valid_cluster (w_fs w) c ->
  (o < Z.to_nat (epc (w_fs w)))%nat -> dirent_wf d ->
  exists w', write_dirent_at c (Z.of_nat o) d w = Done (tt, w') /\
    fs_wf w' /\ frame [c] w w' /\ w_fs w' = w_fs w /\
    dir_entries w' dcs = <[(k * Z.to_nat (epc (w_fs w)) + o)%nat := d]> (dir_entries w dcs).
Proof.
  intros Wf ND Hk V Ho Wd. pose proof (wf_geom _ Wf) as G. pose proof (wf_spc _ G) as Hs.
  pose proof (length_dirent_encode d Wd) as Ld. pose proof (bpc_epc _ Hs) as Eb.
  unfold write_dirent_at. mrun (cluster_to_lba_ok c w G V). unfold get_fs_. rewrite gets_run.
  mrun (read_cluster_ok c w Wf V). mrun (write_cluster_raw c
    (splice (32 * Z.to_nat (Z.of_nat o)) (dirent_encode d) (cluster_data w c)) w Wf V).
  rewrite Nat2Z.id. eexists. split_and!; [done|by apply fs_wf_put| |done|].
  { apply frame_put; [done|set_solver]. }
  unfold dir_entries. rewrite (chain_data_put w dcs k c);
    [|done..|lia|by apply dirent_encode_bytes].
  assert (Hk' : (k < length dcs)%nat) by by eapply lookup_lt_Some.
  pose proof (length_chain_data w dcs G) as Lc.
  assert (Hlt : (k * Z.to_nat (epc (w_fs w)) + o < length dcs * Z.to_nat (epc (w_fs w)))%nat)
    by nia.
  replace (k * Z.to_nat (bpc (w_fs w)) + 32 * o)%nat
    with (32 * (k * Z.to_nat (epc (w_fs w)) + o))%nat by lia.
  rewrite length_splice by lia.
  rewrite dirents_of_splice; [done|done| |by apply chain_data_32].
  pose proof (length_dir_entries w dcs G) as Le. unfold dir_entries in Le.
  rewrite length_dirents_of in Le. lia.
Qed.

Lemma write_dirent_run w dir dcs i d :
  fs_wf w -> chain (fat (w_fs w)) (cluster_id dir) dcs ->
  (i < length (dir_entries w dcs))%nat -> dirent_wf d ->
  exists w', fat32_write_dirent d dir (Z.of_nat i) w = Done (tt, w') /\
    fs_wf w' /\ frame dcs w w' /\ w_fs w' = w_fs w /\
    dir_entries w' dcs = <[i := d]> (dir_entries w dcs).
Proof.
  intros Wf C Hi Wd. pose proof (wf_geom _ Wf) as G.
  destruct (dir_slot w dcs i G Hi) as (Hk & Ho & Ei).
  destruct (epc_u32 _ G) as (E1 & _ & Hp).
  destruct (lookup_lt_is_Some_2 dcs _ Hk) as [c Hc].
  unfold fat32_write_dirent, get_fs_. rewrite gets_run. cbv zeta. rewrite E1.
  replace (Z.to_nat (Z.of_nat i / epc (w_fs w))) with (i / Z.to_nat (epc (w_fs w)))%nat.
  2: { rewrite <-(Z2Nat.id (epc (w_fs w))) at 2 by lia. by rewrite <-Nat2Z.inj_div, Nat2Z.id. }
  mrun (follow_chain_ok w _ dcs _ c C Hc).
  replace (Z.of_nat i mod epc (w_fs w)) with (Z.of_nat (i mod Z.to_nat (epc (w_fs w)))).
  2: { rewrite <-(Z2Nat.id (epc (w_fs w))) at 2 by lia. by rewrite Nat2Z.inj_mod. }
  destruct (write_dirent_at_run w dcs _ c _ d Wf (chain_NoDup _ _ _ C) Hc
              (chain_valid _ _ _ _ Wf C ltac:(by eapply list_elem_of_lookup_2)) Ho Wd)
    as (w' & R & Wf' & F & Ef & Ed).
  exists w'. rewrite <-Ei in Ed. split_and!; [done|done| |done|done].
  eapply frame_mono; [exact F|]. intros x ->%list_elem_of_singleton.
  by eapply list_elem_of_lookup_2.
Qed.

(** ** The FAT on disk *)

Definition synced w : Prop :=
  sectors (card w) (fat_begin_lba (w_fs w)) (Z.to_nat (n_entries (w_fs w) / 128)) =
    fat_bytes (fat (w_fs w)).

Lemma length_fat_bytes t : length (fat_bytes t) = (4 * length t)%nat.
Proof.
  unfold fat_bytes. induction t as [|v t IH]; [done|].
  cbn [fmap list_fmap concat]. rewrite length_app, length_le_bytes, IH. simpl. lia.
Qed.

Lemma fat_bytes_bytes t : bytes (fat_bytes t).
Proof.
  unfold fat_bytes. induction t as [|v t IH]; [constructor|].
  cbn [fmap list_fmap concat]. apply Forall_app. split; [apply le_bytes_bytes|done].
Qed.

Lemma write_fat_run w : fs_wf w ->
  exists w', write_fat_to_disk w = Done (tt, w') /\ fs_wf w' /\ w_fs w' = w_fs w /\
    upd [] w w' /\ synced w'.
Proof.
  intros Wf. pose proof (wf_geom _ Wf) as G. destruct (wf_geom _ Wf) as [HL H128 _ Hs _ Hb Ho _ _].
  assert (Hq : 0 <= n_entries (w_fs w) / 128) by (apply Z.div_pos; lia).
  assert (Hn : n_entries (w_fs w) = 128 * (n_entries (w_fs w) / 128))
    by (apply Z_div_exact_2; lia).
  set (q := n_entries (w_fs w) / 128) in *.
  pose proof (length_fat_bytes (fat (w_fs w))) as Lb.
  assert (Ld : Z.to_nat (q * 512) = length (fat_bytes (fat (w_fs w)))) by lia.
  unfold write_fat_to_disk, get_fs_. rewrite gets_run. cbv zeta. fold q.
  rewrite Ld, buf_slice_take, take_ge by lia.
  assert (Hok : forall i, fat_begin_lba (w_fs w) <= i < fat_begin_lba (w_fs w) + Z.of_nat (Z.to_nat q) ->
                sec_ok (sd_card (w_sd w)) i = true).
  { intros i Hi. apply (wf_card _ Wf). rewrite Z2Nat.id in Hi by lia. nia. }
  unfold on_sd. rewrite (bind_done _ _ _ 1
    (w_set_card (put_sectors (fat_begin_lba (w_fs w)) (Z.to_nat q)
       (fat_bytes (fat (w_fs w))) (card w)) w)).
  2: { rewrite <-(Z2Nat.id q Hq) at 1. erewrite zoom_done.
       2: { apply pi_sd_write_ok; [apply Wf| |done]. pose proof (wf_max _ G). lia. }
       unfold w_set_card, card. by rewrite (wf_sd _ Wf). }
  eexists. split; [done|]. set (w' := w_set_card _ w).
  assert (U : upd [] w w').
  { constructor; try done.
    - simpl. by rewrite set_fat_id.
    - intros l. unfold w', card; simpl. by rewrite sec_ok_put_sectors.
    - intros c [Vc _] _. unfold cluster_data, w', card; simpl.
      apply sectors_put_sectors_ne. right. unfold cluster_lba. nia.
    - intros l Hl. unfold w', card; simpl. apply sec_get_put_sectors_ne. lia. }
  split_and!; [|done|done|].
  - eapply upd_wf; [exact U|done|apply G].
  - unfold synced, w', card; simpl. fold q. apply sectors_put_sectors; [done|lia|].
    apply fat_bytes_bytes.
Qed.

(** ** Freeing a file's chain *)

Lemma delete_chain_loop_ok w c cs fuel : chain (fat (w_fs w)) c cs -> (length cs <= fuel)%nat ->
  delete_chain_loop fuel c w = Done (tt, w_set_fat (clear_entries cs (fat (w_fs w))) w).
Proof.
  intros C. revert w fuel C. induction cs as [|c0 cs IH] in c |- *;
    intros w fuel C Hf; [inversion C|].
  destruct (chain_head _ _ _ C) as [cs0 Heq]. injection Heq as -> <-.
  pose proof (chain_NoDup _ _ _ C) as ND. apply NoDup_cons in ND as [Hni _].
  destruct fuel as [|fuel]; [simpl in Hf; lia|]. simpl in Hf. cbn [delete_chain_loop].
  inversion C as [? v Hc2 E L|? v ? Hc2 E U C']; simplify_eq;
    assert (Hc : 0 <= c < Z.of_nat (length (fat (w_fs w)))) by (apply lookup_lt_Some in E; lia);
    mrun (fat_get_ok _ _ _ E); mrun (fat_set_ok c 0 w Hc).
  - by rewrite (bind_done _ _ _ LAST_CLUSTER (w_set_fat (<[Z.to_nat c:=0]> (fat (w_fs w))) w))
      by by rewrite entry_type_run, spec_last.
  - rewrite (bind_done _ _ _ USED_CLUSTER (w_set_fat (<[Z.to_nat c:=0]> (fat (w_fs w))) w))
      by by rewrite entry_type_run, spec_used.
    change (USED_CLUSTER =? LAST_CLUSTER) with false. cbv iota.
    rewrite IH; [done| |lia]. simpl. apply chain_insert; [done|lia|done].
Qed.
End Dir.
