(* ===== verification/Fat32Thm.v ===== *)
(** * Correctness of the file operations

    [dir_ok] is the invariant of a directory; under it [fat32_stat], [fat32_create],
    [fat32_delete], [fat32_write], [fat32_read] and [fat32_rename] behave as operations
    on a finite map from names to files, and they preserve it. *)

From stdpp Require Import base tactics option list numbers sets.
From Stdlib Require Import ZArith Lia.
From S2P Require Import Prelude Sd FatTable FatChain Dirent Fat32 Fat32Dir.

(** ** Directory contents *)

Definition byte0 (d : fat32_dirent_t) : Z := char_at (filename d) 0.

(** The entries [fat32_read] skips. *)
Definition read_skipped (d : fat32_dirent_t) : bool :=
  (byte0 d =? 0) || (byte0 d =? 0xE5) || (Z.land (attr d) 15 =? 15) ||
  negb (Z.land (attr d) 8 =? 0).

(** Names are well formed and unique, nothing follows the end marker, and there are no
    read-only, hidden or system files (which [fat32_read] sees and the others do not). *)
Record dir_ok (ds : list fat32_dirent_t) : Prop := {
  do_names : dir_names_wf ds;
  do_end i j d d' : (i <= j)%nat -> ds !! i = Some d -> ds !! j = Some d' ->
    byte0 d = 0 -> byte0 d' = 0;
  do_uniq i j d d' : ds !! i = Some d -> ds !! j = Some d' ->
    dirent_skipped d = false -> dirent_skipped d' = false ->
    filename d = filename d' -> i = j;
  do_attr : Forall (fun d => read_skipped d = dirent_skipped d) ds
}.

(** Entry [i], the first one in use named [name], is [d]. *)
Definition dir_has (ds : list fat32_dirent_t) (name : list Z) (i : nat) (d : fat32_dirent_t) : Prop :=
  ds !! i = Some d /\ named (raw_name name) d.

Lemma dir_index_has ds name i : dir_ok ds ->
  dir_index ds name = Some i <-> exists d, dir_has ds name i d.
Proof.
  intros Ok. unfold dir_index. split.
  - intros ([j d] & (Hd & Hn & _)%list_find_Some & ->)%fmap_Some. by exists d.
  - intros (d & Hd & Hn). apply fmap_Some. exists (i, d). split; [|done].
    apply list_find_Some. split_and!; [done|done|]. intros j d' Hd' Hlt Hn'.
    assert (j = i); [|lia]. destruct Hn, Hn'. eapply (do_uniq _ Ok); eauto. congruence.
Qed.

Lemma dir_index_none ds name i d : dir_index ds name = None -> ds !! i = Some d ->
  ~ named (raw_name name) d.
Proof.
  unfold dir_index. rewrite fmap_None, list_find_None, Forall_lookup. eauto.
Qed.

Lemma dir_index_insert_ne ds i d d' name : ds !! i = Some d ->
  ~ named (raw_name name) d -> ~ named (raw_name name) d' ->
  dir_index (<[i := d']> ds) name = dir_index ds name.
Proof.
  unfold dir_index. intros Hi Hn Hn'.
  revert i Hi. induction ds as [|x ds IH]; intros [|i] Hi; simpl in *; simplify_eq; [|].
  - by rewrite !decide_False by done.
  - case_decide; [done|]. specialize (IH i Hi).
    destruct (list_find _ (<[i:=d']> ds)) as [[]|], (list_find _ ds) as [[]|];
      simpl in *; congruence.
Qed.

(** The name shown for a raw name, and the entry as the driver's clients see it. *)
Definition name83 (r : list Z) : list Z :=
  match last_nonspace 8 r with
  | Some i => cstr (take i r ++ [DOT] ++ take 3 (drop 8 r))
  | None => []
  end.
Definition view (d : fat32_dirent_t) : pi_dirent_t :=
  mk_pi_dirent (name83 (filename d)) (filename d) (fat32_cluster_id d)
    (0 <? Z.land (attr d) 16) (file_nbytes d).

Lemma dirent_name_run {S} (s : S) d : raw_wf (filename d) ->
  fat32_dirent_name d s = Done (name83 (filename d), s).
Proof.
  intros [L Ch (c & Hc & Hs) _]. destruct (last_nonspace_some 8 _ c Hc Hs) as [k Ek].
  unfold fat32_dirent_name, to_8dot3, name83. rewrite (opt_run _ _ _ _ Ek), Ek. done.
Qed.

Lemma dirent_convert_run {S} (s : S) d : raw_wf (filename d) ->
  dirent_convert d s = Done (view d, s).
Proof. intros W. unfold dirent_convert. by mrun (dirent_name_run s d W). Qed.

Lemma valid_char0 name : fat32_is_valid_name name = true ->
  char_at (raw_name name) 0 <> 0 /\ char_at (raw_name name) 0 <> 0xE5.
Proof.
  intros (b & e & Sh)%valid_name_shape. rewrite (raw_name_shape _ _ _ Sh).
  destruct (name_shape_lengths _ _ _ Sh) as ([Hb _] & _ & Ab).
  destruct b as [|c b]; [simpl in Hb; lia|]. apply Forall_cons in Ab as [[Hc _]%alnum_range _].
  unfold char_at, pad8. simpl. lia.
Qed.

(** Putting an entry in use, or rewriting or freeing one, keeps the invariant. *)
Lemma dir_ok_insert ds i d0 d' : dir_ok ds -> ds !! i = Some d0 ->
  (dirent_skipped d' = false -> raw_wf (filename d')) ->
  byte0 d' <> 0 ->
  (forall j d, (j < i)%nat -> ds !! j = Some d -> byte0 d <> 0) ->
  (forall j d, j <> i -> ds !! j = Some d -> dirent_skipped d = false ->
     dirent_skipped d' = false -> filename d <> filename d') ->
  read_skipped d' = dirent_skipped d' ->
  dir_ok (<[i := d']> ds).
Proof.
  intros [Nm En Un At] Hi Hraw H0 Hend Hu Hr. constructor.
  - by apply Forall_insert.
  - intros j k d e Hjk [(-> & <- & _)|[Hji Hj]]%list_lookup_insert_Some Hk Hd; [done|].
    apply list_lookup_insert_Some in Hk as [(-> & <- & _)|[Hki Hk]]; [|by eapply En].
    exfalso. apply (Hend j d); [lia|done|done].
  - intros j k d e Hj Hk Sd Se Ef.
    apply list_lookup_insert_Some in Hj as [(-> & <- & _)|[Hji Hj]];
      apply list_lookup_insert_Some in Hk as [(-> & <- & _)|[Hki Hk]].
    + done.
    + exfalso. by eapply (Hu k e).
    + exfalso. by eapply (Hu j d).
    + by eapply Un.
  - by apply Forall_insert.
Qed.

Lemma named_byte0 r d : named r d -> byte0 d <> 0 /\ byte0 d <> 0xE5.
Proof.
  intros [Sk _]. unfold dirent_skipped in Sk. apply orb_false_iff in Sk as [Sk _].
  apply orb_false_iff in Sk as [?%Z.eqb_neq ?%Z.eqb_neq]. done.
Qed.

Lemma used_before ds i d : dir_ok ds -> ds !! i = Some d -> byte0 d <> 0 ->
  forall j d', (j < i)%nat -> ds !! j = Some d' -> byte0 d' <> 0.
Proof. intros Ok Hi Hd j d' Hj Hj' E. apply Hd. eapply (do_end _ Ok j i d' d); [lia|done..]. Qed.

(** ** Free entries *)

(** The first entry that is free; if it is the end marker, another entry follows it. *)
Definition free_slot (ds : list fat32_dirent_t) (i : nat) (d0 : fat32_dirent_t) : Prop :=
  ds !! i = Some d0 /\
  (byte0 d0 = 0xE5 \/ byte0 d0 = 0 /\ (S i < length ds)%nat) /\
  forall j d, (j < i)%nat -> ds !! j = Some d -> byte0 d <> 0 /\ byte0 d <> 0xE5.

Lemma free_dirent_loop_ok {S} (s : S) ds k i d0 : free_slot ds i d0 ->
  free_dirent_loop ds k s = Done (((k + i)%nat, byte0 d0 =? 0), s).
Proof.
  revert k i. induction ds as [|d ds IH]; intros k i (Hi & Hb & Hlt); [done|].
  cbn [free_dirent_loop]. fold (byte0 d). destruct i as [|i].
  - injection Hi as ->. rewrite Nat.add_0_r. destruct Hb as [->|[-> Hl]]; [done|].
    simpl in Hl. destruct ds; [simpl in Hl; lia|done].
  - destruct (Hlt 0%nat d ltac:(lia) eq_refl) as [H0 HE].
    rewrite (proj2 (Z.eqb_neq _ _) H0), (proj2 (Z.eqb_neq _ _) HE).
    rewrite (IH (k + 1)%nat i).
    + do 3 f_equal. lia.
    + split_and!; [done| |].
      * destruct Hb as [?|[? ?]]; [by left|right]. simpl in *. split; [done|lia].
      * intros j e Hj He. apply (Hlt (Datatypes.S j) e); [lia|done].
Qed.

(** The entry of a new, empty file. *)
Definition new_file (name : list Z) (d0 : fat32_dirent_t) : fat32_dirent_t :=
  set_start 0 (set_attr_size 0x20 0 (set_filename (raw_name name) d0)).

Lemma raw_name_bytes name : fat32_is_valid_name name = true ->
  length (raw_name name) = 11%nat /\ bytes (raw_name name).
Proof.
  intros V%raw_name_wf. split; [apply V|]. eapply Forall_impl; [apply V|naive_solver].
Qed.

Lemma new_file_wf name d0 : fat32_is_valid_name name = true -> dirent_wf d0 ->
  dirent_wf (new_file name d0).
Proof.
  intros V W. destruct (raw_name_bytes _ V).
  apply set_start_wf, set_attr_size_wf; [by apply set_filename_wf|split; lia|split; lia].
Qed.

Lemma valid_named name d : fat32_is_valid_name name = true ->
  filename d = raw_name name -> Z.land (attr d) 15 = 0 -> named (raw_name name) d.
Proof.
  intros V E A. destruct (valid_char0 _ V) as [H0 HE]. split; [|done].
  unfold dirent_skipped. rewrite E, A.
  by rewrite (proj2 (Z.eqb_neq _ _) H0), (proj2 (Z.eqb_neq _ _) HE).
Qed.

Lemma named_read_skipped r d : named r d -> Z.land (attr d) 15 = 0 -> Z.land (attr d) 8 = 0 ->
  read_skipped d = dirent_skipped d.
Proof.
  intros N A A8. destruct (named_byte0 _ _ N) as [H0 HE]. destruct N as [-> _].
  unfold read_skipped. rewrite A, A8, (proj2 (Z.eqb_neq _ _) H0), (proj2 (Z.eqb_neq _ _) HE). done.
Qed.

Lemma new_file_named name d0 : fat32_is_valid_name name = true ->
  named (raw_name name) (new_file name d0).
Proof. intros V. by apply valid_named. Qed.

(** An end marker rewritten as the end marker is unchanged. *)
Lemma end_marker_id e : length (filename e) = 11%nat -> byte0 e = 0 ->
  set_filename (0 :: drop 1 (filename e)) e = e.
Proof.
  destruct e as [[|c f] ? ? ? ? ? ? ? ? ? ? ?]; [done|].
  unfold byte0, set_filename, char_at. simpl. by intros _ ->.
Qed.

Lemma dir_ok_new_file ds name i d0 : dir_ok ds -> fat32_is_valid_name name = true ->
  dir_index ds name = None -> free_slot ds i d0 -> dir_ok (<[i := new_file name d0]> ds).
Proof.
  intros Ok V Hnone (Hi & _ & Hb). pose proof (new_file_named name d0 V) as Nn.
  apply (dir_ok_insert ds i d0); try done.
  - intros _. by apply raw_name_wf.
  - by eapply named_byte0.
  - intros j d Hj Hd. by apply (Hb j).
  - intros j d Hj Hd Sd _ Ef. eapply (dir_index_none ds name j d); [done|done|].
    split; [done|]. by rewrite Ef.
  - by eapply named_read_skipped.
Qed.

(** ** The name comparison of [fat32_read] *)

Lemma name83_dot r : raw_wf r -> DOT ∈ name83 r.
Proof.
  intros W. destruct (raw_split tt r W) as (b & _ & _ & _ & _ & R).
  assert (name83 r = b ++ DOT :: drop 8 r) as ->; [|set_solver].
  unfold to_8dot3, m_opt in R. unfold name83.
  destruct (last_nonspace 8 r); [|done]. by injection R.
Qed.

Lemma name83_raw r name : raw_wf r -> fat32_is_valid_name name = true -> has_dot name = true ->
  name83 r = name <-> r = raw_name name.
Proof.
  intros W V Hd. destruct (valid_name_shape _ V) as (b & e & Sh).
  destruct (dirent_name_match tt r name W V) as (tmp & R & Em).
  assert (En : name83 r = tmp).
  { unfold to_8dot3, m_opt in R. unfold name83. destruct (last_nonspace 8 r); [|done].
    by injection R. }
  rewrite En. split.
  - intros ->. apply (bool_decide_eq_true (r = raw_name name)). rewrite <-Em.
    destruct Sh as [b e ? ? ? ?|b ? Ab]; [by apply name_match_self; constructor|].
    by rewrite has_dot_false in Hd by by apply alnum_no_dot.
  - intros ->. pose proof (set_name_dirent_name_aux tt _ _ _ Sh) as R'.
    rewrite R' in R. injection R as <-. destruct Sh as [b e ? ? ? ?|b ? Ab]; [done|].
    by rewrite has_dot_false in Hd by by apply alnum_no_dot.
Qed.

Lemma read_search_none {S} (s : S) ds k name : dir_ok ds ->
  (forall i d, ds !! i = Some d -> dirent_skipped d = false -> name83 (filename d) <> name) ->
  read_search ds k name s = Done (0%nat, s).
Proof.
  intros [Nm _ _ At]. revert k. induction ds as [|d ds IH]; intros k Hn; [done|].
  apply Forall_cons in Nm as [Wd Nm]. apply Forall_cons in At as [Ed At].
  cbn [read_search]. fold (byte0 d). fold (read_skipped d). rewrite Ed.
  assert (IH' : read_search ds (k + 1) name s = Done (0%nat, s)).
  { apply IH; [done|done|]. intros i. apply (Hn (Datatypes.S i)). }
  destruct (dirent_skipped d) eqn:Sk; [done|].
  mrun (dirent_name_run s d (Wd eq_refl)).
  rewrite bool_decide_false by (by apply (Hn 0%nat)). done.
Qed.

Lemma read_search_some {S} (s : S) ds k name i d : dir_ok ds ->
  fat32_is_valid_name name = true -> has_dot name = true -> dir_has ds name i d ->
  read_search ds k name s = Done ((k + i)%nat, s).
Proof.
  intros [Nm _ Un At] V Hd [Hi [Sk En]].
  revert k i Hi Un. induction ds as [|x ds IH]; intros k i Hi Un; [done|].
  apply Forall_cons in Nm as [Wx Nm]. apply Forall_cons in At as [Ex At].
  cbn [read_search]. fold (byte0 x). fold (read_skipped x). rewrite Ex.
  destruct i as [|i].
  - injection Hi as ->. rewrite Sk. mrun (dirent_name_run s d (Wx Sk)).
    rewrite bool_decide_true by (by apply name83_raw; auto). by rewrite Nat.add_0_r.
  - assert (IH' : read_search ds (k + 1) name s = Done ((k + Datatypes.S i)%nat, s)).
    { rewrite (IH Nm At (k + 1)%nat i); [do 2 f_equal; lia|done|].
      intros j1 j2 d1 d2 H1 H2 S1 S2 E. pose proof (Un (Datatypes.S j1) (Datatypes.S j2) d1 d2).
      naive_solver lia. }
    destruct (dirent_skipped x) eqn:Skx; [done|].
    mrun (dirent_name_run s x (Wx eq_refl)). rewrite bool_decide_false; [done|].
    intros Hx%name83_raw; auto. pose proof (Un 0%nat (Datatypes.S i) x d eq_refl Hi Skx Sk).
    rewrite Hx, En in *. naive_solver lia.
Qed.

Section Thm.
Context {D : Type} `{BlockDeviceLaws D} `{!HeapGarbage} `{!HeapGarbageBytes}.
Implicit Types w : world D.

(** [dir] is the directory whose chain is [dcs]. *)
Record dir_at w (dir : pi_dirent_t) (dcs : list Z) : Prop := {
  da_dir : is_dir_p dir = true;
  da_chain : chain (fat (w_fs w)) (cluster_id dir) dcs;
  da_ok : dir_ok (dir_entries w dcs)
}.

Lemma dir_file_chain w dir dcs : dir_at w dir dcs ->
  file_chain (fat (w_fs w)) (cluster_id dir) dcs.
Proof. intros [_ C _]. right. split; [inversion C; lia|done]. Qed.

Lemma demand_init_run {B} (f : unit -> M (world D) B) w : fs_wf w ->
  (demand_init ≫= f) w = f tt w.
Proof.
  intros Wf. unfold demand_init. rewrite bind_assoc, gets_run, (wf_init _ Wf).
  by rewrite assert_run.
Qed.

Section OneDir.
Variables (w : world D) (dir : pi_dirent_t) (dcs : list Z).
Hypotheses (Wf : fs_wf w) (Da : dir_at w dir dcs).
Let ds := dir_entries w dcs.

Lemma get_dirents_dir {B} (f : list fat32_dirent_t -> M (world D) B) :
  (get_dirents (cluster_id dir) ≫= f) w = f ds w.
Proof using All. by mrun (get_dirents_run w _ dcs Wf (dir_file_chain _ _ _ Da)). Qed.

Lemma find_dirent_dir {B} (f : option nat -> M (world D) B) name :
  fat32_is_valid_name name = true ->
  (find_dirent_with_name ds name ≫= f) w = f (dir_index ds name) w.
Proof using All.
  intros V. by mrun (find_dirent_spec w ds name (do_names _ (da_ok _ _ _ Da)) V).
Qed.

Lemma dir_named_raw_wf i d r : ds !! i = Some d -> named r d -> raw_wf (filename d).
Proof using All.
  intros Hi [Hs _]. exact (Forall_lookup_1 _ _ _ _ (do_names _ (da_ok _ _ _ Da)) Hi Hs).
Qed.

(** [fat32_stat] looks the name up and changes nothing. *)
Lemma stat_run name : fat32_is_valid_name name = true ->
  fat32_stat dir name w =
    Done (i ← dir_index ds name; view <$> ds !! i, w).
Proof using All.
  intros V. unfold fat32_stat. rewrite demand_init_run by done.
  rewrite assert_run by apply Da. rewrite get_dirents_dir, find_dirent_dir by done.
  destruct (dir_index ds name) as [i|] eqn:Ei; [|done].
  apply dir_index_has in Ei as (d & Hd & Hn); [|apply Da].
  rewrite (opt_run _ _ _ _ Hd). mrun (dirent_convert_run w d (dir_named_raw_wf i d _ Hd Hn)).
  change (Done (Some (view d), w) = Done (view <$> ds !! i, w)). by rewrite Hd.
Qed.

(** ** Create *)

Lemma create_run name i d0 : fat32_is_valid_name name = true ->
  dir_index ds name = None -> free_slot ds i d0 ->
  exists w', fat32_create dir name false w = Done (Some (view (new_file name d0)), w') /\
    fs_wf w' /\ frame dcs w w' /\ w_fs w' = w_fs w /\
    dir_entries w' dcs = <[i := new_file name d0]> ds.
Proof using All.
  intros V Hnone Fs. pose proof Fs as (Hi & Hb & _).
  pose proof (Forall_lookup_1 _ _ _ _ (dir_entries_wf w dcs (wf_geom _ Wf)) Hi) as Wd0.
  pose proof (lookup_lt_Some _ _ _ Hi) as Li.
  unfold fat32_create. rewrite demand_init_run by done. rewrite V. change (negb true) with false. cbv iota.
  rewrite get_dirents_dir, find_dirent_dir by done. rewrite Hnone.
  mrun (free_dirent_loop_ok w ds 0 i d0 Fs). rewrite Nat.add_0_l.
  rewrite (opt_run _ _ _ _ Hi). unfold fat32_dirent_set_name.
  rewrite bind_assoc, assert_run, !ret_run by done. fold (new_file name d0).
  pose proof (new_file_wf name d0 V Wd0) as Wn.
  destruct (write_dirent_run w dir dcs i (new_file name d0) Wf (da_chain _ _ _ Da) Li Wn)
    as (w1 & R1 & Wf1 & F1 & E1 & D1). mrun R1.
  assert (Hraw : raw_wf (filename (new_file name d0))) by by apply raw_name_wf.
  destruct Hb as [Hb|[Hb Hl]]; rewrite Hb.
  - simpl. rewrite ret_run. exists w1. mrun (dirent_convert_run w1 _ Hraw). by split_and!.
  - simpl Z.eqb. cbv iota.
    destruct (lookup_lt_is_Some_2 ds (i + 1)) as [e He]; [unfold ds in *; lia|].
    rewrite bind_assoc, (opt_run _ _ _ _ He).
    pose proof (Forall_lookup_1 _ _ _ _ (dir_entries_wf w dcs (wf_geom _ Wf)) He) as We.
    rewrite end_marker_id; [|apply We|by eapply (do_end _ (da_ok _ _ _ Da) i (i + 1)); [lia|..]].
    replace (Z.of_nat i + 1) with (Z.of_nat (i + 1)) by lia.
    destruct (write_dirent_run w1 dir dcs (i + 1) e Wf1) as (w2 & R2 & Wf2 & F2 & E2 & D2).
    { rewrite E1. apply Da. }
    { rewrite D1, length_insert. unfold ds in *. lia. }
    { done. }
    mrun R2. exists w2. mrun (dirent_convert_run w2 _ Hraw).
    split_and!; [done|done|by eapply frame_trans|congruence|].
    rewrite D2, D1. apply list_insert_id. rewrite list_lookup_insert_ne by lia. done.
Qed.

(** ** Delete *)

(** The entry of a deleted file. *)
Definition deleted (d : fat32_dirent_t) : fat32_dirent_t :=
  set_filename (0xE5 :: drop 1 (filename d)) d.

Lemma deleted_wf d : dirent_wf d -> dirent_wf (deleted d).
Proof.
  intros Wd. pose proof (dw_len _ Wd) as L. pose proof (dw_name _ Wd) as B.
  apply set_filename_wf; [done| |].
  - simpl. rewrite length_drop. lia.
  - constructor; [split; lia|by apply Forall_drop].
Qed.

Lemma deleted_skipped d : dirent_skipped (deleted d) = true /\ read_skipped (deleted d) = true.
Proof. done. Qed.

Lemma dir_ok_deleted i d r : ds !! i = Some d -> named r d -> dir_ok (<[i := deleted d]> ds).
Proof using All.
  intros Hi N. pose proof (da_ok _ _ _ Da) as Ok. destruct (named_byte0 _ _ N) as [Hz0 HzE].
  apply (dir_ok_insert ds i d); try done. by apply (used_before ds i d).
Qed.

Lemma delete_run name i d cs : fat32_is_valid_name name = true ->
  dir_has ds name i d -> file_chain (fat (w_fs w)) (fat32_cluster_id d) cs ->
  (forall x, x ∈ cs -> x ∉ dcs) ->
  exists w', fat32_delete dir name w = Done (1, w') /\
    fs_wf w' /\ upd (dcs ++ cs) w w' /\ synced w' /\
    fat (w_fs w') = clear_entries cs (fat (w_fs w)) /\
    dir_entries w' dcs = <[i := deleted d]> ds.
Proof using All.
  intros V Hh C Hdis. pose proof Hh as [Hi N]. pose proof (wf_geom _ Wf) as G.
  pose proof (lookup_lt_Some _ _ _ Hi) as Li.
  pose proof (Forall_lookup_1 _ _ _ _ (dir_entries_wf w dcs G) Hi) as Wd.
  assert (Ei : dir_index ds name = Some i) by (apply dir_index_has; [apply Da|eauto]).
  unfold fat32_delete. rewrite demand_init_run by done. rewrite V. change (negb true) with false. cbv iota.
  rewrite get_dirents_dir, find_dirent_dir by done. rewrite Ei, (opt_run _ _ _ _ Hi).
  cbv zeta. fold (deleted d). change (fat32_cluster_id (deleted d)) with (fat32_cluster_id d).
  set (w1 := w_set_fat (clear_entries cs (fat (w_fs w))) w).
  assert (Cp : Forall (Z.le 2) cs).
  { apply Forall_forall. intros x Hx. by destruct (file_chain_pos _ _ _ _ C Hx). }
  assert (F1 : frame cs w w1).
  { apply frame_clear. eapply Forall_impl; [exact Cp|]. simpl. lia. }
  rewrite (bind_done _ _ _ tt w1).
  2: { destruct C as [[E ->]|[Hc C]].
       - rewrite E. unfold w1, w_set_fat. simpl. rewrite set_fat_id. by destruct w.
       - rewrite (proj2 (Z.eqb_neq _ _) Hc), walk_fuel_run.
         pose proof (chain_length_bound _ _ _ C). by apply delete_chain_loop_ok; [|lia]. }
  assert (Wf1 : fs_wf w1).
  { eapply frame_wf; [exact F1|done|]. apply clear_entries_ok, G. }
  assert (D1 : dir_entries w1 dcs = ds) by done.
  destruct (write_dirent_run w1 dir dcs i (deleted d) Wf1) as (w2 & R2 & Wf2 & F2 & E2 & D2).
  { eapply frame_chain; [exact F1|apply Da|]. set_solver. }
  { by rewrite D1. }
  { by apply deleted_wf. }
  mrun R2. destruct (write_fat_run w2 Wf2) as (w3 & R3 & Wf3 & E3 & U3 & S3). mrun R3.
  exists w3. split_and!; [done|done| |done| |].
  - apply (upd_trans _ _ w1).
    { eapply upd_mono; [by apply (frame_upd _ _ _ F1)|set_solver]. }
    apply (upd_trans _ _ w2); [|by eapply upd_mono; [exact U3|set_solver]].
    eapply upd_mono; [apply (frame_upd _ _ _ F2)|set_solver]; [apply Wf1|].
    apply Forall_forall. intros x Hx. by destruct (chain_range _ _ _ _ (da_chain _ _ _ Da) Hx).
  - rewrite E3, E2. done.
  - unfold dir_entries. rewrite (upd_chain_data [] w2 w3 dcs U3); [exact D2|].
    intros x Hx. split; [|set_solver]. rewrite E2.
    by eapply (chain_valid w); [|apply Da|].
Qed.

(** ** Read *)

(** The file an entry denotes. *)
Definition file_of w0 (d : fat32_dirent_t) (cs : list Z) : pi_file_t :=
  match cs with
  | [] => mk_file [] 0 0
  | _ => mk_file (chain_data w0 cs) (Z.of_nat (length cs) * bpc (w_fs w0)) (file_nbytes d)
  end.

Lemma read_run name i d cs : read_search ds 0 name w = Done (i, w) ->
  ds !! i = Some d -> file_chain (fat (w_fs w)) (fat32_cluster_id d) cs ->
  Z.of_nat (length cs) * bpc (w_fs w) < 2^32 ->
  fat32_read dir name w = Done (file_of w d cs, w).
Proof using All.
  intros R Hi C Hb. pose proof (wf_spc _ (wf_geom _ Wf)) as Hs.
  pose proof (wf_spc_max _ (wf_geom _ Wf)) as Hm.
  unfold fat32_read. rewrite demand_init_run by done. rewrite assert_run by apply Da.
  rewrite get_dirents_dir. mrun R. rewrite (opt_run _ _ _ _ Hi). cbv zeta.
  mrun (chain_length_run _ _ _ C). unfold get_fs_. rewrite gets_run.
  replace (sectors_per_cluster (w_fs w) * 512) with (bpc (w_fs w)) by (unfold bpc; lia).
  rewrite (u32_small (bpc _)) by (unfold is_u32, bpc; lia).
  rewrite Z.mul_comm, u32_small by (unfold is_u32, bpc in *; nia).
  destruct cs as [|c cs]; [done|].
  rewrite (proj2 (Z.eqb_neq _ _)) by (unfold bpc; simpl length; nia).
  by mrun (read_chain_run _ _ _ Wf C).
Qed.

(** ** Write *)

Lemma chain_data_slot w0 cs k c o n : geom_wf (w_fs w0) -> cs !! k = Some c ->
  (o + n <= Z.to_nat (bpc (w_fs w0)))%nat ->
  take n (drop (k * Z.to_nat (bpc (w_fs w0)) + o) (chain_data w0 cs)) =
    take n (drop o (cluster_data w0 c)).
Proof using All.
  intros G Hk Hn. revert k Hk. induction cs as [|x cs IH]; intros [|k] Hk; simpl in Hk; simplify_eq;
    pose proof (fun x => length_cluster_data w0 x G) as L; rewrite chain_data_cons.
  - rewrite Nat.mul_0_l, Nat.add_0_l, drop_app_le by (rewrite L; lia).
    apply take_app_le. rewrite length_drop, L. lia.
  - rewrite drop_app_ge by (rewrite L; lia). rewrite L.
    replace (S k * _ + o - _)%nat with (k * Z.to_nat (bpc (w_fs w0)) + o)%nat by lia. by apply IH.
Qed.

Lemma verify_chain_loop_ok w0 c cs j : chain (fat (w_fs w0)) c cs -> 0 <= j ->
  verify_chain_loop (length cs) j (j + Z.of_nat (length cs)) c w0 = Done (tt, w0).
Proof using All.
  intros C. revert j. induction C as [c v Hc E L|c v cs Hc E U C IH]; intros j Hj;
    cbn [verify_chain_loop length]; mrun (fat_get_ok _ _ _ E).
  - rewrite (bind_done _ _ _ LAST_CLUSTER w0) by by rewrite entry_type_run, spec_last.
    rewrite assert_run by done. rewrite (proj2 (Z.eqb_eq j _)) by lia.
    change (LAST_CLUSTER =? LAST_CLUSTER) with true. cbv iota.
    by rewrite !assert_run by done.
  - rewrite (bind_done _ _ _ USED_CLUSTER w0) by by rewrite entry_type_run, spec_used.
    rewrite assert_run by done.
    assert (cs <> []) by (by inversion C).
    rewrite (proj2 (Z.eqb_neq j _)) by (destruct cs; [done|simpl length; lia]).
    change (USED_CLUSTER =? LAST_CLUSTER) with false. cbv iota. rewrite !ret_run.
    replace (j + Z.of_nat (S (length cs))) with (j + 1 + Z.of_nat (length cs)) by lia.
    apply IH. lia.
Qed.

(** The number of clusters [verify_write] expects. *)
Lemma num_clusters_ok n k b : 0 < b -> 0 < k -> (k - 1) * b < n <= k * b -> (k + 1) * b < 2^32 ->
  u32 (n + b - 1) / b = k.
Proof using.
  intros Hb Hk Hn Hw. rewrite u32_small by (unfold is_u32; nia).
  symmetry. apply (Z.div_unique _ _ _ (n + b - 1 - k * b)); lia.
Qed.

(** The chain [cs'] of a file with [n] allocated bytes, starting at [st]. *)
Definition sized w0 (n st : Z) (cs' : list Z) : Prop :=
  (n = 0 /\ st = 0) \/
  (0 < n /\ chain (fat (w_fs w0)) st cs' /\
   (Z.of_nat (length cs') - 1) * bpc (w_fs w0) < n <= Z.of_nat (length cs') * bpc (w_fs w0) /\
   (Z.of_nat (length cs') + 1) * bpc (w_fs w0) < 2^32).

Lemma verify_write_run w3 k c o d' st cs' file :
  fs_wf w3 -> dcs !! k = Some c -> valid_cluster (w_fs w3) c ->
  (o < Z.to_nat (epc (w_fs w3)))%nat ->
  dir_entries w3 dcs !! (k * Z.to_nat (epc (w_fs w3)) + o)%nat = Some d' ->
  file_nbytes d' = n_data file -> lo_start d' = Z.land st 0xffff ->
  hi_start d' = Z.land (Z.shiftr st 16) 0xffff -> sized w3 (n_alloc file) st cs' ->
  verify_write (cluster_lba (w_fs w3) c) (Z.of_nat o) d' st file w3 = Done (tt, w3).
Proof using All.
  intros Wf3 Hk V Ho Hd En El Eh Sz. pose proof (wf_geom _ Wf3) as G.
  pose proof (wf_spc _ G) as Hs. pose proof (wf_spc_max _ G) as Hm.
  pose proof (bpc_epc _ Hs) as Eb.
  assert (Ea : dirent_decode (take 32 (drop (32 * o) (cluster_data w3 c))) = d').
  { pose proof (lookup_lt_Some _ _ _ Hd) as Hlt. unfold dir_entries in Hd, Hlt.
    rewrite length_dirents_of in Hlt. rewrite dirents_of_lookup in Hd by done.
    injection Hd as <-. f_equal. rewrite <-(chain_data_slot w3 dcs k c) by (done || lia).
    do 2 f_equal. lia. }
  unfold verify_write, get_fs_. rewrite gets_run. mrun (read_cluster_ok c w3 Wf3 V).
  cbv zeta. rewrite Nat2Z.id, Ea, !Z.eqb_refl, !assert_run by done.
  rewrite En, El, Eh, !Z.eqb_refl, !assert_run by done.
  replace (sectors_per_cluster (w_fs w3) * 512) with (bpc (w_fs w3)) by (unfold bpc; lia).
  rewrite (u32_small (bpc _)) by (unfold is_u32, bpc; lia).
  destruct Sz as [[-> ->]|(Hn & C & Hb & Hw)]; [done|].
  rewrite (proj2 (Z.ltb_lt _ _)) by done.
  assert (0 < Z.of_nat (length cs')) by (inversion C; simpl; lia).
  rewrite (num_clusters_ok _ (Z.of_nat (length cs'))) by (unfold bpc in *; lia).
  rewrite Nat2Z.id. by apply (verify_chain_loop_ok w3 st cs' 0 C).
Qed.

Lemma realloc_sized w1 data st w' cs cs' n :
  rewritten w1 cs data st w' cs' -> fs_wf w1 ->
  (Z.of_nat (length cs) + 2) * bpc (w_fs w1) < 2^32 ->
  realloc (fat (w_fs w1)) cs n (bpc (w_fs w1)) cs' -> sized w' n st cs'.
Proof using All.
  intros Rw Wf1 Hb Ra. pose proof (rw_chain _ _ _ _ _ _ Rw) as C.
  pose proof (bpc_pos w1 Wf1) as Hp.
  unfold sized. rewrite (fr_bpc _ _ _ (rw_frame _ _ _ _ _ _ Rw)).
  destruct Ra as [Hn Hpos|f Hn Ff|Hn].
  - right. destruct C as [[_ ->]|[_ C]]; [simpl in Hn; lia|]. split_and!; [done|done|lia|lia|lia].
  - right. destruct C as [[_ E]|[_ C]]; [by destruct cs|].
    rewrite length_app. simpl. split_and!; [nia|done|lia|lia|lia].
  - left. split; [done|]. destruct C as [[-> _]|[_ C]]; [done|inversion C].
Qed.

(** The entry of the file after a write. *)
Definition written (st : Z) (file : pi_file_t) (d : fat32_dirent_t) : fat32_dirent_t :=
  set_attr_size (attr d) (n_data file) (set_start st d).

Lemma slot_arith i : Z.to_nat (Z.of_nat i / epc (w_fs w)) = (i / Z.to_nat (epc (w_fs w)))%nat /\
  Z.of_nat i mod epc (w_fs w) = Z.of_nat (i mod Z.to_nat (epc (w_fs w))).
Proof using All.
  pose proof (wf_spc _ (wf_geom _ Wf)). rewrite <-(Z2Nat.id (epc (w_fs w))) at 1 3 by (unfold epc; lia).
  by rewrite <-Nat2Z.inj_div, Nat2Z.id, Nat2Z.inj_mod.
Qed.

Lemma realloc_disjoint cs cs' n b : realloc (fat (w_fs w)) cs n b cs' ->
  (forall x, x ∈ cs -> x ∉ dcs) -> forall x, x ∈ cs ++ cs' -> x ∉ dcs.
Proof using All.
  intros Ra Hd x Hx. apply elem_of_app in Hx as [?|Hx]; [auto|].
  destruct Ra as [_ _|f _ Ff|_]; [auto| |set_solver].
  apply elem_of_app in Hx as [?|Hx%list_elem_of_singleton]; [auto|].
  subst x. eapply first_free_not_in; [done|apply Da].
Qed.

Lemma start_u32 w0 n st cs' : fs_wf w0 -> sized w0 n st cs' -> is_u32 st.
Proof using All.
  intros Wf0 [[_ ->]|(_ & C & _)]; [split; lia|].
  assert (st ∈ cs') as Hx by (inversion C; set_solver).
  destruct (chain_range _ _ _ _ C Hx). pose proof (wf_len _ (wf_geom _ Wf0)).
  pose proof (wf_max _ (wf_geom _ Wf0)). split; lia.
Qed.

Lemma written_wf st file d : dirent_wf d -> is_u32 (n_data file) -> dirent_wf (written st file d).
Proof using All. intros Wd Hn. apply set_attr_size_wf; [by apply set_start_wf|apply Wd|done]. Qed.

Lemma write_run name i d cs cs' file : fat32_is_valid_name name = true ->
  dir_has ds name i d -> file_chain (fat (w_fs w)) (fat32_cluster_id d) cs ->
  (forall x, x ∈ cs -> x ∉ dcs) -> bytes (f_data file) -> is_u32 (n_data file) ->
  (Z.of_nat (length cs) + 2) * bpc (w_fs w) < 2^32 ->
  realloc (fat (w_fs w)) cs (n_alloc file) (bpc (w_fs w)) cs' ->
  exists st w', fat32_write dir name file w = Done (1, w') /\
    fs_wf w' /\ upd (dcs ++ cs ++ cs') w w' /\ synced w' /\
    file_chain (fat (w_fs w')) st cs' /\ is_u32 st /\
    chain_data w' cs' = buf_slice (f_data file) 0 (length cs' * Z.to_nat (bpc (w_fs w))) /\
    dir_entries w' dcs = <[i := written st file d]> ds /\
    chain (fat (w_fs w')) (cluster_id dir) dcs.
Proof using All.
  intros V Hh C Hdis B Hnd Hsz Ra. pose proof Hh as [Hi N]. pose proof (wf_geom _ Wf) as G.
  pose proof (lookup_lt_Some _ _ _ Hi) as Li. pose proof (bpc_pos w Wf) as Hbp.
  pose proof (Forall_lookup_1 _ _ _ _ (dir_entries_wf w dcs G) Hi) as Wd.
  assert (Ei : dir_index ds name = Some i) by (apply dir_index_has; [apply Da|eauto]).
  pose proof (realloc_disjoint _ _ _ _ Ra Hdis) as Hdis'.
  destruct (write_chain_run w _ cs (f_data file) (n_alloc file) Wf C B ltac:(lia) cs' Ra)
    as (st & w1 & R1 & Rw).
  pose proof (realloc_sized _ _ _ _ _ _ _ Rw Wf Hsz Ra) as Sz.
  destruct Rw as [Wf1 C1 F1 D1 _].
  assert (Cd1 : chain (fat (w_fs w1)) (cluster_id dir) dcs).
  { eapply frame_chain; [exact F1|apply Da|]. intros x Hx Hx'. by apply (Hdis' x). }
  assert (Dd1 : dir_entries w1 dcs = ds).
  { unfold ds, dir_entries. rewrite (frame_chain_data _ _ _ dcs F1 G); [done|].
    intros x Hx Hx'. by apply (Hdis' x). }
  destruct (dir_slot w dcs i G Li) as (Hk & Ho & Eio).
  destruct (lookup_lt_is_Some_2 dcs _ Hk) as [c Hc].
  set (k := (i / Z.to_nat (epc (w_fs w)))%nat) in *.
  set (o := (i mod Z.to_nat (epc (w_fs w)))%nat) in *.
  assert (Eepc : epc (w_fs w1) = epc (w_fs w)) by (unfold epc; by rewrite (fr_spc _ _ _ F1)).
  assert (V1 : valid_cluster (w_fs w1) c).
  { eapply chain_valid; [done|exact Cd1|by eapply list_elem_of_lookup_2]. }
  pose proof (start_u32 _ _ _ _ Wf1 Sz) as Hst.
  destruct (write_dirent_at_run w1 dcs k c o (written st file d) Wf1 (chain_NoDup _ _ _ Cd1) Hc V1)
    as (w2 & R2 & Wf2 & F2 & E2 & D2); [by rewrite Eepc|by apply written_wf|].
  destruct (write_fat_run w2 Wf2) as (w3 & R3 & Wf3 & E3 & U3 & S3).
  rewrite Dd1, Eepc, <-Eio in D2.
  assert (D3 : dir_entries w3 dcs = <[i := written st file d]> ds).
  { rewrite <-D2. unfold dir_entries. rewrite (upd_chain_data [] w2 w3 dcs U3); [done|].
    intros x Hx. split; [|set_solver]. rewrite E2. by eapply chain_valid. }
  assert (Efs : w_fs w3 = w_fs w1) by congruence.
  assert (Hcs2 : forall x, x ∈ cs' -> x <> c).
  { intros x Hx ->. apply (Hdis' c); [set_solver|by eapply list_elem_of_lookup_2]. }
  exists st, w3. split_and!; [|done| |done| |done| |done|by rewrite Efs].
  - unfold fat32_write. rewrite demand_init_run by done. rewrite assert_run by apply Da.
    rewrite get_dirents_dir, find_dirent_dir by done. rewrite Ei, (opt_run _ _ _ _ Hi).
    mrun R1. cbv zeta. fold (written st file d). unfold get_fs_. rewrite gets_run.
    destruct (epc_u32 _ (wf_geom _ Wf1)) as (_ & -> & _). rewrite Eepc.
    destruct (slot_arith i) as [-> ->]. fold k o.
    mrun (follow_chain_ok w1 _ dcs _ c Cd1 Hc).
    mrun (cluster_to_lba_ok c w1 (wf_geom _ Wf1) V1). mrun R2. mrun R3.
    rewrite <-Efs. rewrite (bind_done _ _ _ tt w3); [done|].
    apply (verify_write_run w3 k c o _ st cs'); try done; rewrite ?Efs; try done.
    + by rewrite Eepc.
    + rewrite Eepc, <-Eio, D3. by apply list_lookup_insert_eq.
    + unfold sized. rewrite Efs. exact Sz.
  - apply (upd_trans _ _ w1).
    { eapply upd_mono; [apply (frame_upd _ _ _ F1 G)|set_solver].
      apply Forall_app. split; apply Forall_forall; intros x Hx.
      - by destruct (file_chain_pos _ _ _ _ C Hx).
      - by destruct (file_chain_pos _ _ _ _ C1 Hx). }
    apply (upd_trans _ _ w2); [|by eapply upd_mono; [exact U3|set_solver]].
    eapply upd_mono; [apply (frame_upd _ _ _ F2 (wf_geom _ Wf1))|].
    + constructor; [apply V1|done].
    + intros x ->%list_elem_of_singleton. apply elem_of_app. left. by eapply list_elem_of_lookup_2.
  - by rewrite Efs.
  - rewrite (upd_chain_data [] w2 w3 cs' U3), (frame_chain_data _ _ _ cs' F2 (wf_geom _ Wf1)).
    + done.
    + intros x Hx ->%list_elem_of_singleton. by eapply Hcs2.
    + intros x Hx. split; [|set_solver]. rewrite E2.
      destruct (file_chain_pos _ _ _ _ C1 Hx). pose proof (wf_len _ (wf_geom _ Wf1)). split; lia.
Qed.
End OneDir.

(** ** What the operations promise *)

(** Looking up a name that neither the old nor the new entry of slot [i] has. *)
Lemma stat_insert_other ds i d d' name : ds !! i = Some d ->
  ~ named (raw_name name) d -> ~ named (raw_name name) d' ->
  (j ← dir_index (<[i := d']> ds) name; view <$> <[i := d']> ds !! j) =
  (j ← dir_index ds name; view <$> ds !! j).
Proof.
  intros Hi Hn Hn'. rewrite (dir_index_insert_ne _ _ d) by done.
  destruct (dir_index ds name) as [j|] eqn:Ej; [|done]. simpl.
  apply fmap_Some in Ej as ([j' e] & (Hj & Hne & _)%list_find_Some & ->). simpl in *.
  rewrite list_lookup_insert_ne; [done|]. intros ->. congruence.
Qed.

(** A name other than [name] is not affected by what happens to [name]. *)
Definition others_unaffected w w' (dir : pi_dirent_t) (name : list Z) : Prop :=
  forall name', fat32_is_valid_name name' = true -> raw_name name' <> raw_name name ->
    exists r, fat32_stat dir name' w = Done (r, w) /\ fat32_stat dir name' w' = Done (r, w').

Lemma others_unaffected_insert w w' dir dcs name i d d' :
  fs_wf w -> dir_at w dir dcs -> fs_wf w' -> dir_at w' dir dcs ->
  dir_entries w dcs !! i = Some d ->
  (dirent_skipped d = true \/ filename d = raw_name name) ->
  (dirent_skipped d' = true \/ filename d' = raw_name name) ->
  dir_entries w' dcs = <[i := d']> (dir_entries w dcs) ->
  others_unaffected w w' dir name.
Proof.
  intros Wf Da Wf' Da' Hi Hd Hd' E name' V Hne.
  eexists. rewrite (stat_run w dir dcs Wf Da name' V), (stat_run w' dir dcs Wf' Da' name' V), E.
  rewrite (stat_insert_other _ i d) by
    (done || (intros [? ?]; destruct Hd, Hd'; congruence)). done.
Qed.

(** Every other file with an extension whose clusters are not among [cs] reads as
    before. *)
Definition files_unaffected w w' (dir : pi_dirent_t) (dcs cs : list Z) (name : list Z) : Prop :=
  forall name' i d cs', fat32_is_valid_name name' = true -> has_dot name' = true ->
    raw_name name' <> raw_name name -> dir_has (dir_entries w dcs) name' i d ->
    file_chain (fat (w_fs w)) (fat32_cluster_id d) cs' ->
    (forall x, x ∈ cs' -> x ∉ cs) -> Z.of_nat (length cs') * bpc (w_fs w) < 2^32 ->
    exists f, fat32_read dir name' w = Done (f, w) /\ fat32_read dir name' w' = Done (f, w').

Lemma files_unaffected_upd w w' dir dcs cs name i d d' :
  fs_wf w -> dir_at w dir dcs -> fs_wf w' -> dir_at w' dir dcs -> upd cs w w' ->
  dir_entries w dcs !! i = Some d -> (dirent_skipped d = true \/ filename d = raw_name name) ->
  dir_entries w' dcs = <[i := d']> (dir_entries w dcs) ->
  files_unaffected w w' dir dcs cs name.
Proof.
  intros Wf Da Wf' Da' U Hi Hd E name' j e cs' V Hdot Hne Hh C Hdis Hsz.
  assert (Hij : i <> j).
  { intros ->. destruct Hh as [Hj [Sk En]]. rewrite Hi in Hj. injection Hj as ->.
    destruct Hd; congruence. }
  assert (Hh' : dir_has (dir_entries w' dcs) name' j e).
  { destruct Hh. split; [|done]. rewrite E. by rewrite list_lookup_insert_ne. }
  assert (Eb : bpc (w_fs w') = bpc (w_fs w)) by (unfold bpc; by rewrite (upd_spc _ _ _ U)).
  exists (file_of w e cs'). split.
  - apply (read_run w dir dcs Wf Da name' j e cs'); [|apply Hh|done|done].
    rewrite (read_search_some w _ 0 name' j e); [done|apply Da|done..].
  - replace (file_of w e cs') with (file_of w' e cs').
    { apply (read_run w' dir dcs Wf' Da' name' j e cs'); [|apply Hh'| |by rewrite Eb].
      - rewrite (read_search_some w' _ 0 name' j e); [done|apply Da'|done..].
      - by eapply upd_file_chain. }
    unfold file_of. destruct cs' as [|c cs']; [done|].
    rewrite (upd_chain_data cs w w' _ U), Eb; [done|]. intros x Hx. split; [|auto].
    destruct (file_chain_pos _ _ _ _ C Hx). pose proof (wf_len _ (wf_geom _ Wf)). split; lia.
Qed.

Lemma dir_at_frame w w' dir dcs ds' : dir_at w dir dcs ->
  chain (fat (w_fs w')) (cluster_id dir) dcs ->
  dir_entries w' dcs = ds' -> dir_ok ds' -> dir_at w' dir dcs.
Proof. intros [] C E Ok. constructor; [done|done|by rewrite E]. Qed.

Lemma stat_found w dir dcs name i d : fs_wf w -> dir_at w dir dcs ->
  fat32_is_valid_name name = true -> dir_has (dir_entries w dcs) name i d ->
  fat32_stat dir name w = Done (Some (view d), w).
Proof.
  intros Wf Da V Hh. rewrite (stat_run w dir dcs Wf Da name V).
  assert (dir_index (dir_entries w dcs) name = Some i) as -> by
    (apply dir_index_has; [apply Da|eauto]).
  destruct Hh as [Hi _]. simpl. by rewrite Hi.
Qed.

Lemma free_slot_skipped ds i d0 : free_slot ds i d0 -> dirent_skipped d0 = true.
Proof.
  intros (_ & Hb & _). unfold dirent_skipped. fold (byte0 d0).
  by destruct Hb as [->|[-> _]].
Qed.

(** C17: creating a file with a valid, unused name in a directory with a free entry
    succeeds: it returns an empty file of that name, a later [fat32_stat] finds exactly
    that file, the directory stays well formed, every other name still has the same
    entry, and only the directory's own clusters were written. *)
Theorem fat32_create_then_stat w dir dcs name i d0 :
  fs_wf w -> dir_at w dir dcs -> fat32_is_valid_name name = true ->
  dir_index (dir_entries w dcs) name = None -> free_slot (dir_entries w dcs) i d0 ->
  let e := mk_pi_dirent (name83 (raw_name name)) (raw_name name) 0 false 0 in
  exists w', fat32_create dir name false w = Done (Some e, w') /\
    fat32_stat dir name w' = Done (Some e, w') /\
    fs_wf w' /\ dir_at w' dir dcs /\ frame dcs w w' /\ others_unaffected w w' dir name.
Proof.
  intros Wf Da V Hnone Fs e.
  destruct (create_run w dir dcs Wf Da name i d0 V Hnone Fs) as (w' & R & Wf' & F & Ef & Ed).
  assert (Hi : dir_entries w dcs !! i = Some d0) by apply Fs.
  assert (Da' : dir_at w' dir dcs).
  { eapply dir_at_frame; [exact Da|rewrite Ef; apply Da|exact Ed|].
    by apply dir_ok_new_file; [apply Da|..]. }
  exists w'. split_and!; [done| |done|done|done|].
  - rewrite (stat_found w' dir dcs name i (new_file name d0)); [done|done|done|done|].
    split; [|by apply new_file_named]. rewrite Ed. apply list_lookup_insert_eq.
    by eapply lookup_lt_Some.
  - eapply (others_unaffected_insert w w' dir dcs name i d0 (new_file name d0)); try done.
    + left. by eapply free_slot_skipped.
    + by right.
Qed.

Lemma create_existing w dir dcs : fs_wf w -> dir_at w dir dcs ->
  forall name, fat32_is_valid_name name = true -> forall i d is_dir,
  dir_has (dir_entries w dcs) name i d ->
  fat32_create dir name is_dir w = Done (Some (view d), w).
Proof.
  intros Wf Da name V i d is_dir Hh. pose proof Hh as [Hi N].
  unfold fat32_create. rewrite demand_init_run, V by done.
  change (negb true) with false. cbv iota.
  rewrite (get_dirents_dir w dir dcs Wf Da), (find_dirent_dir w dir dcs Wf Da) by done.
  assert (dir_index (dir_entries w dcs) name = Some i) as -> by
    (apply dir_index_has; [apply Da|eauto]).
  rewrite (opt_run _ _ _ _ Hi).
  by mrun (dirent_convert_run w d (dir_named_raw_wf w dir dcs Wf Da i d _ Hi N)).
Qed.

(** creating a file whose name is taken changes nothing and returns the existing
    entry; creating or deleting with an invalid name changes nothing and fails, and so
    does deleting a name that is not there. *)
Theorem fat32_create_delete_refused w dir dcs name :
  fs_wf w -> dir_at w dir dcs ->
  (fat32_is_valid_name name = false ->
     (forall is_dir, fat32_create dir name is_dir w = Done (None, w)) /\
     fat32_delete dir name w = Done (0, w)) /\
  (fat32_is_valid_name name = true ->
     (forall i d is_dir, dir_has (dir_entries w dcs) name i d ->
        fat32_create dir name is_dir w = Done (Some (view d), w)) /\
     (dir_index (dir_entries w dcs) name = None -> fat32_delete dir name w = Done (0, w))).
Proof.
  intros Wf Da. split; intros V; split.
  - intros is_dir. unfold fat32_create. by rewrite demand_init_run, V by done.
  - unfold fat32_delete. by rewrite demand_init_run, V by done.
  - intros i d is_dir Hh. by eapply create_existing.
  - intros Hn. unfold fat32_delete. rewrite demand_init_run, V by done.
    change (negb true) with false. cbv iota.
    rewrite (get_dirents_dir w dir dcs Wf Da), (find_dirent_dir w dir dcs Wf Da) by done.
    by rewrite Hn.
Qed.

Lemma dir_index_deleted ds name i d : dir_ok ds -> dir_has ds name i d ->
  dir_index (<[i := deleted d]> ds) name = None.
Proof.
  intros Ok [Hi N]. unfold dir_index. apply fmap_None, list_find_None, Forall_lookup.
  intros j e He Ne.
  apply list_lookup_insert_Some in He as [(-> & <- & _)|[Hji He]]; [by destruct Ne|].
  apply Hji. destruct N as [Sd Nd], Ne as [Se Ne].
  eapply (do_uniq _ Ok); [exact Hi|exact He|done|done|congruence].
Qed.

Lemma file_chain_nonneg t c cs : file_chain t c cs -> Forall (Z.le 0) cs.
Proof. intros C. apply Forall_forall. intros x Hx. destruct (file_chain_pos _ _ _ _ C Hx). lia. Qed.

Lemma dir_at_deleted w w' dir dcs name i d cs : fs_wf w -> dir_at w dir dcs ->
  dir_has (dir_entries w dcs) name i d ->
  file_chain (fat (w_fs w)) (fat32_cluster_id d) cs -> (forall x, x ∈ cs -> x ∉ dcs) ->
  fat (w_fs w') = clear_entries cs (fat (w_fs w)) ->
  dir_entries w' dcs = <[i := deleted d]> (dir_entries w dcs) -> dir_at w' dir dcs.
Proof.
  intros Wf Da [Hi N] C Hdis Ef Ed.
  eapply dir_at_frame; [exact Da| |exact Ed|by eapply dir_ok_deleted].
  rewrite Ef. apply (chain_ext (fat (w_fs w))); [apply Da|]. intros x Hx.
  apply clear_entries_ne; [|by eapply file_chain_nonneg|intros Hx'; by apply (Hdis x)].
  pose proof (chain_range _ _ _ _ (da_chain _ _ _ Da) Hx). lia.
Qed.

(** C18: deleting a file that is present succeeds: the name is gone, all its clusters are
    free in the FAT in memory and on disk, the directory stays well formed, every other
    name keeps its entry and every file in other clusters reads as before. *)
Theorem fat32_delete_then_stat w dir dcs name i d cs :
  fs_wf w -> dir_at w dir dcs -> fat32_is_valid_name name = true ->
  dir_has (dir_entries w dcs) name i d ->
  file_chain (fat (w_fs w)) (fat32_cluster_id d) cs -> (forall x, x ∈ cs -> x ∉ dcs) ->
  exists w', fat32_delete dir name w = Done (1, w') /\
    fat32_stat dir name w' = Done (None, w') /\
    (forall x, x ∈ cs -> fat (w_fs w') !! Z.to_nat x = Some 0) /\
    fs_wf w' /\ dir_at w' dir dcs /\ synced w' /\
    others_unaffected w w' dir name /\ files_unaffected w w' dir dcs (dcs ++ cs) name.
Proof.
  intros Wf Da V Hh C Hdis. pose proof Hh as [Hi N].
  destruct (delete_run w dir dcs Wf Da name i d cs V Hh C Hdis)
    as (w' & R & Wf' & U & Sy & Ef & Ed).
  pose proof (dir_at_deleted w w' dir dcs name i d cs Wf Da Hh C Hdis Ef Ed) as Da'.
  exists w'. split_and!; [done| | |done|done|done| |].
  - rewrite (stat_run w' dir dcs Wf' Da' name V), Ed.
    by rewrite (dir_index_deleted _ _ _ _ (da_ok _ _ _ Da) Hh).
  - intros x Hx. rewrite Ef. apply clear_entries_eq; [by eapply file_chain_nonneg|done|].
    destruct (file_chain_pos _ _ _ _ C Hx). lia.
  - eapply (others_unaffected_insert w w' dir dcs name i d (deleted d)); try done.
    + right. apply N.
    + by left.
  - eapply files_unaffected_upd; try done. right. apply N.
Qed.

(** *** Write and read back *)

Lemma written_named st file name d : named (raw_name name) d ->
  named (raw_name name) (written st file d).
Proof. intros [Sk E]. by split. Qed.

Lemma dir_ok_rewritten ds name i d d' : dir_ok ds -> dir_has ds name i d ->
  named (raw_name name) d' -> attr d' = attr d -> dir_ok (<[i := d']> ds).
Proof.
  intros Ok [Hi N] N' Ea. destruct (named_byte0 _ _ N) as [Hz _].
  destruct (named_byte0 _ _ N') as [Hz' HE'].
  pose proof (Forall_lookup_1 _ _ _ _ (do_names _ Ok) Hi) as Hraw.
  pose proof (Forall_lookup_1 _ _ _ _ (do_attr _ Ok) Hi) as Hr.
  apply (dir_ok_insert ds i d); try done.
  - intros _. destruct N as [Sk En], N' as [_ En']. rewrite En', <-En. auto.
  - by apply (used_before ds i d).
  - intros j e Hj He Se _ Ef. apply Hj. destruct N as [Sk En], N' as [_ En'].
    eapply (do_uniq _ Ok); [exact He|exact Hi|done|done|congruence].
  - simpl in Hr. destruct N as [Sk _], N' as [Sk' _]. rewrite Sk'. rewrite Sk in Hr.
    unfold read_skipped in *. rewrite Ea.
    rewrite (proj2 (Z.eqb_neq _ _) Hz'), (proj2 (Z.eqb_neq _ _) HE').
    apply orb_false_iff in Hr as [Hr ->]. by apply orb_false_iff in Hr as [_ ->].
Qed.

Lemma written_cluster_id st file d : is_u32 st -> fat32_cluster_id (written st file d) = st.
Proof. intros Hst. by apply (cluster_id_set_start st d). Qed.

(** C4: writing a file that exists and reading it back.  Whenever the new contents need as
    many clusters as the file has, one more or none, [fat32_write] succeeds (all the
    demands of its own verification pass), [fat32_stat] shows the new size,
    [fat32_read] of a name with an extension returns the buffer's bytes with that size,
    the FAT on disk equals the one in memory, and every file whose clusters are elsewhere
    reads as before. *)
Theorem fat32_write_then_read w dir dcs name i d cs cs' file :
  fs_wf w -> dir_at w dir dcs -> fat32_is_valid_name name = true -> has_dot name = true ->
  dir_has (dir_entries w dcs) name i d ->
  file_chain (fat (w_fs w)) (fat32_cluster_id d) cs -> (forall x, x ∈ cs -> x ∉ dcs) ->
  bytes (f_data file) -> is_u32 (n_data file) ->
  (Z.of_nat (length cs) + 2) * bpc (w_fs w) < 2^32 ->
  realloc (fat (w_fs w)) cs (n_alloc file) (bpc (w_fs w)) cs' ->
  let nb := (length cs' * Z.to_nat (bpc (w_fs w)))%nat in
  exists w' e, fat32_write dir name file w = Done (1, w') /\
    fat32_stat dir name w' = Done (Some e, w') /\ pd_nbytes e = n_data file /\
    fat32_read dir name w' =
      Done (if decide (cs' = []) then mk_file [] 0 0
            else mk_file (buf_slice (f_data file) 0 nb) (Z.of_nat nb) (n_data file), w') /\
    fs_wf w' /\ dir_at w' dir dcs /\ synced w' /\
    others_unaffected w w' dir name /\ files_unaffected w w' dir dcs (dcs ++ cs ++ cs') name.
Proof.
  intros Wf Da V Hdot Hh C Hdis B Hnd Hsz Ra nb. pose proof Hh as [Hi N].
  destruct (write_run w dir dcs Wf Da name i d cs cs' file V Hh C Hdis B Hnd Hsz Ra)
    as (st & w' & R & Wf' & U & Sy & C' & Hst & Dt & Ed & Cd).
  pose proof (bpc_pos w Wf) as Hbp.
  assert (Eb : bpc (w_fs w') = bpc (w_fs w)) by (unfold bpc; by rewrite (upd_spc _ _ _ U)).
  pose proof (written_named st file name d N) as Nw.
  assert (Hh' : dir_has (dir_entries w' dcs) name i (written st file d)).
  { split; [|done]. rewrite Ed. apply list_lookup_insert_eq. by eapply lookup_lt_Some. }
  assert (Da' : dir_at w' dir dcs).
  { eapply dir_at_frame; [exact Da|exact Cd|exact Ed|].
    by eapply dir_ok_rewritten; [apply Da|..]. }
  exists w', (view (written st file d)). split_and!; [done| |done| |done|done|done| |].
  - by eapply stat_found.
  - rewrite (read_run w' dir dcs Wf' Da' name i (written st file d) cs').
    + do 2 f_equal. unfold file_of. destruct cs' as [|c cs']; [done|].
      rewrite decide_False, Dt, Eb by done. f_equal. subst nb. simpl length. lia.
    + rewrite (read_search_some w' _ 0 name i (written st file d)); [done|apply Da'|done..].
    + apply Hh'.
    + by rewrite written_cluster_id.
    + rewrite Eb. destruct Ra; [lia| |simpl; lia]. rewrite length_app. simpl. lia.
  - eapply (others_unaffected_insert w w' dir dcs name i d (written st file d)); try done.
    + right. apply N.
    + right. apply N.
  - eapply files_unaffected_upd; try done. right. apply N.
Qed.

(** *** Reading what is not there *)

(** [fat32_read] does not notice a missing file: for a valid name that the directory
    does not contain, and for every valid name without an extension (even one that
    [fat32_stat] finds), it returns the contents of the directory's first entry. *)
Theorem fat32_read_missing_reads_first w dir dcs name d0 cs :
  fs_wf w -> dir_at w dir dcs -> fat32_is_valid_name name = true ->
  dir_index (dir_entries w dcs) name = None \/ has_dot name = false ->
  dir_entries w dcs !! 0%nat = Some d0 ->
  file_chain (fat (w_fs w)) (fat32_cluster_id d0) cs ->
  Z.of_nat (length cs) * bpc (w_fs w) < 2^32 ->
  fat32_read dir name w = Done (file_of w d0 cs, w).
Proof.
  intros Wf Da V Hn H0d C Hsz.
  eapply (read_run w dir dcs Wf Da name 0); [|exact H0d|exact C|exact Hsz].
  apply read_search_none; [apply Da|]. intros i d Hi Sk En.
  assert (W : raw_wf (filename d)).
  { exact (Forall_lookup_1 _ _ _ _ (do_names _ (da_ok _ _ _ Da)) Hi Sk). }
  destruct (has_dot name) eqn:Hdot.
  - destruct Hn as [Hn|]; [|done]. apply (name83_raw _ _ W V Hdot) in En.
    by eapply (dir_index_none _ _ i d Hn Hi).
  - pose proof (name83_dot _ W) as Hin. rewrite En in Hin.
    unfold has_dot in Hdot. apply not_true_iff_false in Hdot. apply Hdot.
    apply existsb_exists. exists DOT. split; [by apply list_elem_of_In|apply Z.eqb_refl].
Qed.

(** *** Rename *)

Definition renamed (name : list Z) (d : fat32_dirent_t) : fat32_dirent_t :=
  set_filename (raw_name name) d.

Lemma set_name_run {S} (s : S) d name : fat32_is_valid_name name = true ->
  fat32_dirent_set_name d name s = Done (renamed name d, s).
Proof. intros V. unfold fat32_dirent_set_name. by rewrite assert_run. Qed.

Lemma land_15_8 a : Z.land a 15 = 0 -> Z.land a 8 = 0.
Proof.
  intros E. change 8 with (Z.land 15 8). by rewrite Z.land_assoc, E.
Qed.

Lemma named_attr r d : named r d -> 0 <= attr d -> Z.land (attr d) 15 = 0.
Proof.
  intros [Sk _] Ha. unfold dirent_skipped in Sk. apply orb_false_iff in Sk as [_ Sk].
  apply Z.ltb_ge in Sk. pose proof (proj2 (Z.land_nonneg (attr d) 15) (or_introl Ha)). lia.
Qed.

(** renaming a file to a valid name that is not in use moves its entry: the new name
    has the old file's clusters and size, the old name is gone, the directory stays well
    formed and only its own clusters were written. *)
Theorem fat32_rename_moves w dir dcs oldname newname i d :
  fs_wf w -> dir_at w dir dcs ->
  fat32_is_valid_name oldname = true -> fat32_is_valid_name newname = true ->
  dir_has (dir_entries w dcs) oldname i d ->
  dir_index (dir_entries w dcs) newname = None ->
  exists w' e, fat32_rename dir oldname newname w = Done (1, w') /\
    fat32_stat dir newname w' = Done (Some e, w') /\
    cluster_id e = fat32_cluster_id d /\ pd_nbytes e = file_nbytes d /\
    fat32_stat dir oldname w' = Done (None, w') /\
    fs_wf w' /\ dir_at w' dir dcs /\ frame dcs w w'.
Proof.
  intros Wf Da Vo Vn Hh Hn. pose proof Hh as [Hi N].
  pose proof (lookup_lt_Some _ _ _ Hi) as Li.
  pose proof (Forall_lookup_1 _ _ _ _ (dir_entries_wf w dcs (wf_geom _ Wf)) Hi) as Wd.
  pose proof (da_ok _ _ _ Da) as Ok.
  assert (Ei : dir_index (dir_entries w dcs) oldname = Some i) by
    (apply dir_index_has; [done|eauto]).
  assert (Hne : raw_name newname <> raw_name oldname).
  { intros E. apply (dir_index_none _ _ i d Hn Hi). by rewrite E. }
  assert (A15 : Z.land (attr d) 15 = 0) by (eapply named_attr; [done|apply Wd]).
  assert (Nn : named (raw_name newname) (renamed newname d)) by by apply valid_named.
  destruct (raw_name_bytes _ Vn) as [Lr Br].
  destruct (write_dirent_run w dir dcs i (renamed newname d) Wf (da_chain _ _ _ Da) Li)
    as (w' & R & Wf' & F & Ef & Ed); [by apply set_filename_wf|].
  assert (Da' : dir_at w' dir dcs).
  { eapply dir_at_frame; [exact Da|rewrite Ef; apply Da|exact Ed|].
    apply (dir_ok_insert _ i d); try done.
    - intros _. by apply raw_name_wf.
    - by eapply named_byte0.
    - apply (used_before _ i d Ok Hi). by eapply named_byte0.
    - intros j e Hj He Se _ Ee. eapply (dir_index_none _ _ j e Hn He). by split.
    - eapply named_read_skipped; [done|done|by apply land_15_8]. }
  exists w', (view (renamed newname d)). split_and!; [|..|done|done|done].
  - unfold fat32_rename. rewrite demand_init_run, Vn by done.
    change (negb true) with false. cbv iota.
    rewrite (get_dirents_dir w dir dcs Wf Da), !(find_dirent_dir w dir dcs Wf Da) by done.
    rewrite Ei, (find_dirent_dir w dir dcs Wf Da), Hn, ret_run, (opt_run _ _ _ _ Hi) by done.
    mrun (set_name_run w d newname Vn). by mrun R.
  - eapply stat_found; [done|done|done|]. split; [|exact Nn].
    rewrite Ed. by apply list_lookup_insert_eq.
  - done.
  - done.
  - rewrite (stat_run w' dir dcs Wf' Da' oldname Vo), Ed.
    assert (dir_index (<[i := renamed newname d]> (dir_entries w dcs)) oldname = None) as ->;
      [|done].
    unfold dir_index. apply fmap_None, list_find_None, Forall_lookup. intros j e He [Se Ne].
    apply list_lookup_insert_Some in He as [(-> & <- & _)|[Hji He]]; [done|].
    apply Hji. destruct N as [Sd Nd].
    eapply (do_uniq _ Ok); [exact Hi|exact He|done|done|congruence].
Qed.

(** Renaming a file to its own name frees its clusters while its entry keeps pointing
    at them. *)
Theorem fat32_rename_self_frees w dir dcs name i d cs :
  fs_wf w -> dir_at w dir dcs -> fat32_is_valid_name name = true ->
  dir_has (dir_entries w dcs) name i d ->
  file_chain (fat (w_fs w)) (fat32_cluster_id d) cs -> (forall x, x ∈ cs -> x ∉ dcs) ->
  exists w', fat32_rename dir name name w = Done (1, w') /\
    dir_has (dir_entries w' dcs) name i d /\
    (forall x, x ∈ cs -> fat (w_fs w') !! Z.to_nat x = Some 0).
Proof.
  intros Wf Da V Hh C Hdis. pose proof Hh as [Hi N].
  pose proof (lookup_lt_Some _ _ _ Hi) as Li.
  pose proof (Forall_lookup_1 _ _ _ _ (dir_entries_wf w dcs (wf_geom _ Wf)) Hi) as Wd.
  assert (Ei : dir_index (dir_entries w dcs) name = Some i) by
    (apply dir_index_has; [apply Da|eauto]).
  destruct (delete_run w dir dcs Wf Da name i d cs V Hh C Hdis)
    as (w1 & R1 & Wf1 & U1 & _ & Ef1 & Ed1).
  assert (Pos : Forall (Z.le 0) cs).
  { apply Forall_forall. intros x Hx. destruct (file_chain_pos _ _ _ _ C Hx). lia. }
  assert (Ren : renamed name d = d).
  { unfold renamed, set_filename. destruct N as [_ <-]. by destruct d. }
  destruct (write_dirent_run w1 dir dcs i d Wf1) as (w2 & R2 & Wf2 & F2 & Ef2 & Ed2).
  { rewrite Ef1. apply (chain_ext (fat (w_fs w))); [apply Da|]. intros x Hx.
    apply clear_entries_ne; [|done|intros Hx'; by apply (Hdis x)].
    pose proof (chain_range _ _ _ _ (da_chain _ _ _ Da) Hx). lia. }
  { by rewrite Ed1, length_insert. }
  { done. }
  exists w2. split_and!.
  - unfold fat32_rename. rewrite demand_init_run, V by done.
    change (negb true) with false. cbv iota.
    rewrite (get_dirents_dir w dir dcs Wf Da), !(find_dirent_dir w dir dcs Wf Da) by done.
    rewrite Ei, (find_dirent_dir w dir dcs Wf Da), Ei by done.
    rewrite bind_assoc. mrun R1. rewrite ret_run, (opt_run _ _ _ _ Hi).
    mrun (set_name_run w1 d name V). rewrite Ren. by mrun R2.
  - split; [|done]. rewrite Ed2, Ed1. apply list_lookup_insert_eq. by rewrite length_insert.
  - intros x Hx. rewrite Ef2, Ef1. apply clear_entries_eq; [done|done|].
    destruct (file_chain_pos _ _ _ _ C Hx). lia.
Qed.

(** *** Listing *)

Lemma convert_loop_run {S} (s : S) ds : dir_names_wf ds ->
  convert_loop ds s = Done (view <$> filter (fun d => dirent_skipped d = false) ds, s).
Proof.
  induction 1 as [|d ds Hd W IH]; [done|]. cbn [convert_loop]. rewrite filter_cons.
  destruct (dirent_skipped d) eqn:Sk.
  - by rewrite decide_False by done.
  - rewrite decide_True by done. mrun (dirent_convert_run s d (Hd eq_refl)). by mrun IH.
Qed.

(** [fat32_readdir] returns the entries in use, in the order they are stored, and
    refuses (panics on) anything that is not a directory. *)
Theorem fat32_readdir_lists w dir dcs :
  fs_wf w ->
  (dir_at w dir dcs -> fat32_readdir dir w =
     Done (view <$> filter (fun d => dirent_skipped d = false) (dir_entries w dcs), w)) /\
  (is_dir_p dir = false -> fat32_readdir dir w = Panic).
Proof.
  intros Wf. split.
  - intros Da. unfold fat32_readdir. rewrite demand_init_run by done.
    rewrite assert_run by apply Da. rewrite (get_dirents_dir w dir dcs Wf Da).
    apply convert_loop_run, (do_names _ (da_ok _ _ _ Da)).
  - intros E. unfold fat32_readdir. rewrite demand_init_run by done.
    by rewrite assert_fail.
Qed.

(** *** Mounting *)

(** The geometry a boot sector [b] describes, with the FAT [t]. *)
Definition geometry (part : mbr_partition_ent_t) (b t : list Z) : fat32_fs_t :=
  let lba := part_lba_start part in
  let fat_begin := u32 (lba + bs_reserved_area_nsec b) in
  mk_fs lba fat_begin (u32 (fat_begin + u32 (bs_nfats b * bs_nsec_per_fat b)))
    (bs_sec_per_cluster b) (bs_first_cluster b) t
    (u32 (bs_nsec_per_fat b * bs_bytes_per_sec b) / 4).

(** The partition's boot and information sectors describe the mounted file system. *)
Record boot_ok w (part : mbr_partition_ent_t) : Prop := {
  bo_sec : sec_ok (card w) (part_lba_start part) = true;
  bo_sec1 : sec_ok (card w) (part_lba_start part + 1) = true;
  bo_u32 : is_u32 (part_lba_start part + 1);
  bo_before : part_lba_start part + 1 < fat_begin_lba (w_fs w);
  bo_boot {S} (s : S) : fat32_volume_id_check (sec_get (card w) (part_lba_start part)) s = Done (tt, s);
  bo_info {S} (s : S) : fat32_fsinfo_check (sec_get (card w) (part_lba_start part + 1)) s = Done (tt, s);
  bo_one : bs_info_sec_num (sec_get (card w) (part_lba_start part)) = 1;
  bo_geom : w_fs w = geometry part (sec_get (card w) (part_lba_start part)) (fat (w_fs w));
  bo_nsec : bs_nsec_per_fat (sec_get (card w) (part_lba_start part)) = n_entries (w_fs w) / 128
}.

Lemma words_fat_bytes t : Forall is_u32 t -> words (length t) (fat_bytes t) = t.
Proof.
  induction 1 as [|v t Hv Ht IH]; [done|].
  change (fat_bytes (v :: t)) with (le_bytes 4 v ++ fat_bytes t). cbn [length words].
  pose proof (length_le_bytes 4 v) as L.
  rewrite take_app_le, take_ge, drop_app_ge, L by lia. by rewrite drop_0, IH, le_val_small.
Qed.

Lemma read_one_sector w l : fs_wf w -> sec_ok (card w) l = true ->
  on_sd (sd_fetch l 1) w = Done (sec_get (card w) l, w).
Proof.
  intros Wf Hok. unfold on_sd. change 1 with (Z.of_nat 1).
  erewrite zoom_done.
  2: { apply pi_sec_read_ok; [apply Wf|lia|]. intros i Hi. by replace i with l by lia. }
  unfold sectors. simpl. rewrite app_nil_r. by destruct w.
Qed.

(** A write elsewhere leaves the boot sectors describing the file system. *)
Lemma boot_ok_upd cs w w' part : upd cs w w' -> boot_ok w part -> boot_ok w' part.
Proof.
  intros U []. pose proof (up_geom _ _ _ U) as Eg.
  assert (E0 : sec_get (card w') (part_lba_start part) = sec_get (card w) (part_lba_start part))
    by (apply (up_boot _ _ _ U); lia).
  assert (E1 : sec_get (card w') (part_lba_start part + 1) = sec_get (card w) (part_lba_start part + 1))
    by (apply (up_boot _ _ _ U); lia).
  constructor; rewrite ?E0, ?E1; try done.
  - by rewrite (up_ok _ _ _ U).
  - by rewrite (up_ok _ _ _ U).
  - by rewrite Eg.
  - rewrite Eg. rewrite bo_geom0 at 1. done.
  - by rewrite Eg.
Qed.

(** C19: mounting reads back what was written: with the FAT on disk equal to the one in
    memory (as [fat32_write] and [fat32_delete] leave it), mounting the partition again
    yields exactly the same file system, in the same state. *)
Theorem fat32_remount w part fs0 :
  fs_wf w -> synced w -> boot_ok w part ->
  fat32_mk part (mk_world (w_sd w) false fs0) = Done (w_fs w, w).
Proof.
  intros Wf Sy Bo. pose proof (wf_geom _ Wf) as G. destruct Bo.
  set (b := sec_get (card w) (part_lba_start part)) in *.
  set (w0 := mk_world (w_sd w) false fs0).
  assert (Rd : forall l, sec_ok (card w) l = true ->
    on_sd (sd_fetch l 1) w0 = Done (sec_get (card w) l, w0)).
  { intros l Hl. pose proof (read_one_sector w l Wf Hl) as R. revert R.
    unfold on_sd, m_zoom. cbn [w_sd w0]. destruct (sd_fetch l 1 (w_sd w)) as [[a s]| | |]; [|done..].
    intros [= -> Hw]. unfold w0. simpl. do 2 f_equal. by rewrite <-Hw. }
  unfold fat32_mk. rewrite gets_run. change (w_init w0) with false.
  rewrite assert_run by done. cbv zeta. mrun (Rd _ bo_sec0). fold b.
  mrun (bo_boot0 _ w0). rewrite assert_run by by rewrite bo_one0.
  rewrite (u32_small (_ + 1)) by done. mrun (Rd _ bo_sec2). mrun (bo_info0 _ w0).
  assert (Hq : 0 <= n_entries (w_fs w) / 128) by (pose proof (wf_len _ G); apply Z.div_pos; lia).
  assert (Eb : u32 (part_lba_start part + bs_reserved_area_nsec b) = fat_begin_lba (w_fs w))
    by (by rewrite bo_geom0).
  rewrite Eb, bo_nsec0.
  rewrite (bind_done _ _ _ (fat_bytes (fat (w_fs w))) w0).
  2: { unfold on_sd. rewrite <-(Z2Nat.id _ Hq) at 1. erewrite zoom_done.
       2: { apply pi_sec_read_ok; [apply Wf| |].
            { pose proof (wf_max _ G). Z.to_euclidean_division_equations; lia. }
            intros l Hl. apply (wf_card _ Wf).
            rewrite Z2Nat.id in Hl by done.
            destruct G. nia. }
       unfold synced, card in Sy. simpl. by rewrite Sy. }
  assert (Hlen : (128 * Z.to_nat (n_entries (w_fs w) / 128))%nat = length (fat (w_fs w))).
  { pose proof (wf_len _ G). pose proof (wf_128 _ G).
    assert (n_entries (w_fs w) = 128 * (n_entries (w_fs w) / 128)) by (apply Z_div_exact_2; lia).
    lia. }
  rewrite Hlen, words_fat_bytes by (eapply Forall_impl; [apply G|]; intros v Hv; apply Hv).
  rewrite modify_run.
  match goal with |- mret ?f _ = _ => assert (f = w_fs w) as -> end.
  { symmetry. etransitivity; [exact bo_geom0|]. unfold geometry. cbv zeta.
    by rewrite Eb, bo_nsec0. }
  pose proof (wf_init _ Wf) as Ei. destruct w as [sd ini fs]. simpl in *. by rewrite Ei.
Qed.
End Thm.
