(* ===== verification/Fat32Witness.v ===== *)
(** * A formatted card

    A small FAT32 partition on a card in memory: boot and information sectors, a FAT and
    a root directory with one two-cluster file, HELLO.TXT.  It satisfies the invariants of
    [Fat32Thm], whose theorems are applied to it here. *)

From stdpp Require Import base tactics option list numbers sets gmap.
From Stdlib Require Import ZArith Lia.
From Stdlib Require String.
From S2P Require Import Prelude Sd FatTable FatChain Dirent Fat32 Fat32Dir Fat32Thm.
Import String.StringSyntax.
#[local] Open Scope string_scope.
#[local] Open Scope Z_scope.

Module Card.
#[local] Existing Instance Small.garbage.
#[local] Existing Instance Small.garbage_bytes.

Definition blank : fat32_dirent_t := DirentExamples.blank.
Definition hello : fat32_dirent_t :=
  set_start 3 (set_attr_size 0x20 700 (set_filename (raw_name (str "HELLO.TXT")) blank)).

Definition put (off n : nat) (v : Z) (b : list Z) : list Z := splice off (le_bytes n v) b.
Definition boot : list Z :=
  put 11 2 512 (put 13 1 1 (put 14 2 9 (put 16 1 2 (put 32 4 1000 (put 36 4 1 (put 44 4 2
    (put 48 2 1 (put 50 2 6 (put 66 1 0x29 (put 510 2 0xAA55 (replicate 512 0))))))))))).
Definition fsinfo : list Z :=
  put 0 4 0x41615252 (put 484 4 0x61417272 (put 508 4 0xaa550000 (replicate 512 0))).
Definition root_dir : list Z := dirent_encode hello ++ replicate 480 0.

Definition w : world ram_card :=
  mk_world (mk_sd true (mk_ram 1000
    (<[1 := boot]> (<[2 := fsinfo]> (<[10 := fat_bytes Small.table]> (<[12 := root_dir]> ∅))))))
    true Small.fs.
Definition root : pi_dirent_t := mk_pi_dirent [] [] 2 true 0.
Definition part : mbr_partition_ent_t := mk_part 0 0 0xb 0 1 999.

Lemma wf : fs_wf w.
Proof.
  constructor; try done; [apply Small.geom|]. intros l. unfold w, Small.fs. simpl. intros Hl.
  apply andb_true_intro. split; [apply Z.leb_le|apply Z.ltb_lt]; lia.
Qed.

Lemma entries : dir_entries w [2] = hello :: replicate 15 blank.
Proof. by vm_compute. Qed.

Lemma blanks_ok n : dir_ok (replicate n blank).
Proof.
  constructor.
  - by apply Forall_replicate.
  - intros i j d d' _ _ [-> _]%lookup_replicate. done.
  - intros i j d d' [-> _]%lookup_replicate. done.
  - by apply Forall_replicate.
Qed.

Lemma hello_named : named (raw_name (str "HELLO.TXT")) hello.
Proof. by vm_compute. Qed.

Lemma root_ok : dir_ok (hello :: replicate 15 blank).
Proof.
  apply (dir_ok_insert (replicate 16 blank) 0 blank hello); [apply blanks_ok|done|..].
  - intros _. apply raw_name_wf. by vm_compute.
  - by vm_compute.
  - lia.
  - intros j d _ [-> _]%lookup_replicate. done.
  - by vm_compute.
Qed.

Lemma root_chain : chain Small.table 2 [2].
Proof. eapply chain_end; [lia|done|by apply (bool_decide_unpack _); vm_compute]. Qed.

Lemma root_at : dir_at w root [2].
Proof. constructor; [done|apply root_chain|rewrite entries; apply root_ok]. Qed.

Lemma hello_at : dir_has (dir_entries w [2]) (str "HELLO.TXT") 0 hello.
Proof. rewrite entries. split; [done|apply hello_named]. Qed.

Lemma hello_chain : file_chain (fat (w_fs w)) (fat32_cluster_id hello) [3; 5].
Proof. right. split; [by vm_compute|apply Small.file]. Qed.

Lemma hello_disjoint x : x ∈ [3; 5] -> x ∉ [2].
Proof. set_solver by lia. Qed.

Lemma foo_absent : dir_index (dir_entries w [2]) (str "FOO.TXT") = None.
Proof. rewrite entries. by vm_compute. Qed.

Lemma slot1 : free_slot (dir_entries w [2]) 1 blank.
Proof.
  rewrite entries. split_and!; [done|right; split; [done|simpl; lia]|].
  intros j d Hj Hd. assert (j = 0%nat) as -> by lia. injection Hd as <-. by vm_compute.
Qed.

Lemma w_synced : synced w.
Proof. by vm_compute. Qed.

Lemma w_boot : boot_ok w part.
Proof.
  by constructor; vm_compute.
Qed.

Lemma fat32_create_then_stat_witness :
  exists w', fat32_create root (str "FOO.TXT") false w =
      Done (Some (mk_pi_dirent (str "FOO.TXT") (str "FOO     TXT") 0 false 0), w') /\
    fs_wf w' /\ dir_at w' root [2].
Proof.
  destruct (fat32_create_then_stat w root [2] (str "FOO.TXT") 1 blank)
    as (w' & R & _ & Wf' & Da' & _ & _).
  - apply wf.
  - apply root_at.
  - by vm_compute.
  - apply foo_absent.
  - apply slot1.
  - exists w'. split; [exact R|]. by split.
Defined.

Lemma fat32_create_delete_refused_witness :
  fat32_create root (str "lower") true w = Done (None, w) /\
  fat32_create root (str "HELLO.TXT") false w = Done (Some (view hello), w) /\
  fat32_delete root (str "FOO.TXT") w = Done (0, w).
Proof.
  split_and!.
  - apply (fat32_create_delete_refused w root [2] (str "lower") wf root_at). by vm_compute.
  - apply (proj2 (fat32_create_delete_refused w root [2] (str "HELLO.TXT") wf root_at)
             ltac:(by vm_compute)) with 0%nat. apply hello_at.
  - apply (proj2 (fat32_create_delete_refused w root [2] (str "FOO.TXT") wf root_at)
             ltac:(by vm_compute)). apply foo_absent.
Defined.

Lemma fat32_delete_then_stat_witness :
  exists w', fat32_delete root (str "HELLO.TXT") w = Done (1, w') /\
    fat32_stat root (str "HELLO.TXT") w' = Done (None, w').
Proof.
  destruct (fat32_delete_then_stat w root [2] (str "HELLO.TXT") 0 hello [3; 5])
    as (w' & R & R' & _).
  - apply wf.
  - apply root_at.
  - by vm_compute.
  - apply hello_at.
  - apply hello_chain.
  - apply hello_disjoint.
  - by exists w'.
Defined.

(** Growing HELLO.TXT from two clusters to three. *)
Definition new_hello : pi_file_t := mk_file (replicate 1200 7) 1200 1200.

Lemma fat32_write_then_read_witness :
  exists w', fat32_write root (str "HELLO.TXT") new_hello w = Done (1, w') /\
    fat32_read root (str "HELLO.TXT") w' =
      Done (mk_file (buf_slice (replicate 1200 7) 0 1536) 1536 1200, w').
Proof.
  destruct (fat32_write_then_read w root [2] (str "HELLO.TXT") 0 hello [3; 5] [3; 5; 4] new_hello)
    as (w' & e & R & _ & _ & R' & _).
  - apply wf.
  - apply root_at.
  - by vm_compute.
  - by vm_compute.
  - apply hello_at.
  - apply hello_chain.
  - apply hello_disjoint.
  - apply Small.data_bytes.
  - split; by vm_compute.
  - by vm_compute.
  - apply (realloc_grow _ [3; 5] _ _ 4); [split; by vm_compute|apply Small.free4].
  - exists w'. split; [exact R|exact R'].
Defined.

Lemma fat32_read_missing_reads_first_witness :
  fat32_read root (str "FOO.TXT") w = Done (file_of w hello [3; 5], w).
Proof.
  apply (fat32_read_missing_reads_first w root [2] (str "FOO.TXT") hello [3; 5]).
  - apply wf.
  - apply root_at.
  - by vm_compute.
  - left. apply foo_absent.
  - by rewrite entries.
  - apply hello_chain.
  - by vm_compute.
Defined.

Lemma fat32_rename_moves_witness :
  exists w' e, fat32_rename root (str "HELLO.TXT") (str "FOO.TXT") w = Done (1, w') /\
    fat32_stat root (str "FOO.TXT") w' = Done (Some e, w') /\ cluster_id e = 3.
Proof.
  destruct (fat32_rename_moves w root [2] (str "HELLO.TXT") (str "FOO.TXT") 0 hello)
    as (w' & e & R & R' & E & _).
  - apply wf.
  - apply root_at.
  - by vm_compute.
  - by vm_compute.
  - apply hello_at.
  - apply foo_absent.
  - exists w', e. by split_and!.
Defined.

Lemma fat32_rename_self_frees_witness :
  exists w', fat32_rename root (str "HELLO.TXT") (str "HELLO.TXT") w = Done (1, w') /\
    dir_has (dir_entries w' [2]) (str "HELLO.TXT") 0 hello /\
    (forall x, x ∈ [3; 5] -> fat (w_fs w') !! Z.to_nat x = Some 0).
Proof.
  apply (fat32_rename_self_frees w root [2] (str "HELLO.TXT") 0 hello [3; 5]).
  - apply wf.
  - apply root_at.
  - by vm_compute.
  - apply hello_at.
  - apply hello_chain.
  - apply hello_disjoint.
Defined.

Lemma fat32_readdir_lists_witness :
  fat32_readdir root w = Done (view <$> filter (fun d => dirent_skipped d = false)
                                       (dir_entries w [2]), w).
Proof. apply (fat32_readdir_lists w root [2] wf). apply root_at. Defined.

Lemma fat32_remount_witness :
  fat32_mk part (mk_world (w_sd w) false Small.fs) = Done (w_fs w, w).
Proof. apply (fat32_remount w part Small.fs wf w_synced w_boot). Defined.
End Card.
