(* ===== verification/FileDir.v ===== *)
(** * Files of one directory as a finite map

    A directory on the card seen as a map from names to contents, with a count of the
    operations that are certain to find a free cluster and a free entry.  Creating, writing
    and reading files through the FAT32 driver ([Fat32]) update and consult that map.  Both
    servers' storage is proved correct on top of this file. *)

From stdpp Require Import base tactics option list numbers sets gmap.
From Stdlib Require Import ZArith Lia.
From S2P Require Import Prelude Sd FatTable FatChain Dirent Fat32 Fat32Dir Fat32Thm.

Lemma take_buf_slice `{HeapGarbage} d k n : (k <= n)%nat -> (k <= length d)%nat ->
  take k (buf_slice d 0 n) = take k d.
Proof.
  intros Hk Hd. replace n with (k + (n - k))%nat by lia.
  rewrite buf_slice_app, buf_slice_take by done.
  rewrite take_app_le by (rewrite length_take; lia). by rewrite take_take, Nat.min_id.
Qed.

(** ** Counting what is free *)

Definition free_at (t : list Z) (x : Z) : Prop :=
  match t !! Z.to_nat x with Some v => ent_free v | None => False end.
#[export] Instance free_at_dec t x : Decision (free_at t x).
Proof. unfold free_at. destruct (t !! Z.to_nat x); apply _. Defined.

(** The free clusters from 3 on. *)
Definition free_clusters (t : list Z) : list Z :=
  filter (free_at t) (seqZ 3 (Z.of_nat (length t) - 3)).

Lemma elem_free_clusters t x : x ∈ free_clusters t <->
  free_at t x /\ 3 <= x < Z.of_nat (length t).
Proof. unfold free_clusters. rewrite list_elem_of_filter, elem_of_seqZ. naive_solver lia. Qed.

Lemma NoDup_free_clusters t : NoDup (free_clusters t).
Proof. apply NoDup_filter, NoDup_seqZ. Qed.

Lemma NoDup_length_cons {A} (l l' : list A) x : NoDup l -> (forall y, y ∈ l -> y ∈ x :: l') ->
  (length l <= S (length l'))%nat.
Proof.
  intros ND Hs. change (S (length l')) with (length (x :: l')).
  by apply submseteq_length, NoDup_submseteq.
Qed.

Lemma NoDup_length {A} (l l' : list A) : NoDup l -> (forall y, y ∈ l -> y ∈ l') ->
  (length l <= length l')%nat.
Proof. intros ND Hs. by apply submseteq_length, NoDup_submseteq. Qed.

(** The least element of a non-empty decidable set of numbers. *)
Lemma least_nat (P : nat -> Prop) `{!forall x, Decision (P x)} n : P n ->
  exists k, P k /\ forall j, (j < k)%nat -> ~ P j.
Proof.
  induction n as [n IH] using lt_wf_ind. intros Pn.
  destruct (decide (Exists P (seq 0 n))) as [He|He].
  - apply Exists_exists in He as (j & Hj%elem_of_seq & Pj). apply (IH j); [lia|done].
  - exists n. split; [done|]. intros j Hj Pj. apply He, Exists_exists. exists j.
    split; [|done]. apply elem_of_seq. lia.
Qed.

Lemma first_free_exists t : free_clusters t <> [] -> exists f, first_free t 3 f.
Proof.
  intros Hn. destruct (free_clusters t) as [|x l] eqn:E; [done|].
  assert (Hx : x ∈ free_clusters t) by (rewrite E; set_solver).
  apply elem_free_clusters in Hx as [Fx Rx].
  destruct (least_nat (fun k => free_at t (Z.of_nat k + 3)) (Z.to_nat (x - 3)))
    as (k & Pk & Hk); [by replace (Z.of_nat (Z.to_nat (x - 3)) + 3) with x by lia|].
  exists (Z.of_nat k + 3). unfold free_at in Pk.
  destruct (t !! Z.to_nat (Z.of_nat k + 3)) as [v|] eqn:Ev; [|done].
  split_and!; [lia|apply lookup_lt_Some in Ev; lia|by exists v|].
  intros j u Hj Eu Fu. apply (Hk (Z.to_nat (j - 3))); [lia|].
  unfold free_at. replace (Z.of_nat (Z.to_nat (j - 3)) + 3) with j by lia. by rewrite Eu.
Qed.

(** The free entries of a directory. *)
Definition dirent_unused (d : fat32_dirent_t) : Prop := byte0 d = 0 \/ byte0 d = 0xE5.
#[export] Instance dirent_unused_dec d : Decision (dirent_unused d).
Proof. unfold dirent_unused. apply _. Defined.

Definition unused_at (ds : list fat32_dirent_t) (i : nat) : Prop :=
  match ds !! i with Some d => dirent_unused d | None => False end.
#[export] Instance unused_at_dec ds i : Decision (unused_at ds i).
Proof. unfold unused_at. destruct (ds !! i); apply _. Defined.

Definition unused_slots (ds : list fat32_dirent_t) : list nat :=
  filter (unused_at ds) (seq 0 (length ds)).

Lemma elem_unused_slots ds i : i ∈ unused_slots ds <-> unused_at ds i.
Proof.
  unfold unused_slots. rewrite list_elem_of_filter, elem_of_seq. unfold unused_at.
  destruct (ds !! i) eqn:E; [|naive_solver]. apply lookup_lt_Some in E. naive_solver lia.
Qed.

Lemma NoDup_unused_slots ds : NoDup (unused_slots ds).
Proof. apply NoDup_filter, NoDup_seq. Qed.

Lemma free_slot_exists ds : (2 <= length (unused_slots ds))%nat -> exists i d0, free_slot ds i d0.
Proof.
  intros Hl. pose proof (NoDup_unused_slots ds) as ND.
  destruct (unused_slots ds) as [|a [|b l]] eqn:E; simpl in Hl; [lia|lia|].
  assert (Ha : unused_at ds a) by (apply elem_unused_slots; rewrite E; set_solver).
  assert (Hb : unused_at ds b) by (apply elem_unused_slots; rewrite E; set_solver).
  assert (Hab : a <> b) by (apply NoDup_cons in ND as [? _]; set_solver).
  destruct (least_nat (unused_at ds) a Ha) as (k & Pk & Hk).
  assert (Lb : (b < length ds)%nat).
  { unfold unused_at in Hb. destruct (ds !! b) eqn:Eb; [|done]. by eapply lookup_lt_Some. }
  assert (La : (a < length ds)%nat).
  { unfold unused_at in Ha. destruct (ds !! a) eqn:Ea; [|done]. by eapply lookup_lt_Some. }
  unfold unused_at in Pk. destruct (ds !! k) as [d0|] eqn:Ed; [|done].
  exists k, d0. split_and!; [done| |].
  - destruct Pk as [?|?]; [right|by left]. split; [done|].
    assert (~ (a < k)%nat /\ ~ (b < k)%nat) by (split; intros ?; by eapply Hk). lia.
  - intros j d Hj Hd. specialize (Hk j Hj). unfold unused_at in Hk. rewrite Hd in Hk.
    unfold dirent_unused in Hk. naive_solver.
Qed.

(** ** Files *)

(** A name with an extension: [fat32_read] compares nothing else correctly. *)
Definition file_name (name : list Z) : Prop :=
  fat32_is_valid_name name = true /\ has_dot name = true.

Lemma raw_name_inj name name' : file_name name -> file_name name' ->
  raw_name name = raw_name name' -> name = name'.
Proof.
  intros [V Hd] [V' Hd'] E. pose proof (raw_name_wf _ V) as W.
  rewrite <-(proj2 (name83_raw _ _ W V Hd) eq_refl). by apply name83_raw.
Qed.

Lemma not_named_other name name' d : file_name name -> file_name name' -> name' <> name ->
  named (raw_name name) d -> ~ named (raw_name name') d.
Proof. intros I I' Hne [_ E] [_ E']. apply Hne. apply raw_name_inj; [done|done|congruence]. Qed.

Lemma unused_insert ds i d d' j : ds !! i = Some d ->
  j ∈ unused_slots ds -> j <> i -> j ∈ unused_slots (<[i := d']> ds).
Proof.
  intros Hi Hj Hne. apply elem_unused_slots in Hj. apply elem_unused_slots.
  unfold unused_at in *. by rewrite list_lookup_insert_ne.
Qed.

Lemma unused_slots_fill ds i d d' : ds !! i = Some d ->
  (length (unused_slots ds) <= S (length (unused_slots (<[i := d']> ds))))%nat.
Proof.
  intros Hi. apply (NoDup_length_cons _ _ i); [apply NoDup_unused_slots|]. intros j Hj.
  apply elem_of_cons. destruct (decide (j = i)); [by left|right]. by eapply unused_insert.
Qed.

Lemma unused_slots_named ds i d d' r : ds !! i = Some d -> named r d ->
  (length (unused_slots ds) <= length (unused_slots (<[i := d']> ds)))%nat.
Proof.
  intros Hi Nd. apply NoDup_length; [apply NoDup_unused_slots|].
  intros j Hj. eapply unused_insert; [exact Hi|done|]. intros ->.
  apply elem_unused_slots in Hj. unfold unused_at in Hj. rewrite Hi in Hj.
  destruct (named_byte0 _ _ Nd). unfold dirent_unused in Hj. naive_solver.
Qed.

Section Files.
Context {D : Type} `{BlockDeviceLaws D} `{!HeapGarbage} `{!HeapGarbageBytes}.
Implicit Types w : world D.

(** The names the map accounts for; other entries of the directory may be anything. *)
Context (tracked : list Z -> Prop).

Lemma dir_pos w dir dcs : dir_at w dir dcs -> Forall (Z.le 2) dcs.
Proof.
  intros Da. apply Forall_forall. intros x Hx.
  by destruct (chain_range _ _ _ _ (da_chain _ _ _ Da) Hx).
Qed.

Lemma bpc_max w : fs_wf w -> bpc (w_fs w) <= 65536.
Proof. intros Wf. pose proof (wf_spc_max _ (wf_geom _ Wf)). unfold bpc. lia. Qed.

Lemma bpc_min w : fs_wf w -> 512 <= bpc (w_fs w).
Proof. intros Wf. pose proof (wf_spc _ (wf_geom _ Wf)). unfold bpc. lia. Qed.

(** The file [name] holds [c], in the clusters [cs]. *)
Record file_at w (dcs : list Z) (name c cs : list Z) : Prop := {
  fa_name : file_name name;
  fa_max : Z.of_nat (length c) <= 2^31;
  fa_file : exists i d, dir_has (dir_entries w dcs) name i d /\
    file_chain (fat (w_fs w)) (fat32_cluster_id d) cs /\
    file_nbytes d = Z.of_nat (length c);
  fa_dir x : x ∈ cs -> x ∉ dcs;
  fa_size : (c = [] /\ cs = []) \/
    (Z.of_nat (length cs) - 1) * bpc (w_fs w) < Z.of_nat (length c) <=
      Z.of_nat (length cs) * bpc (w_fs w);
  fa_data : take (length c) (chain_data w cs) = c
}.

(** The tracked files of [dir] are [m], in the clusters [cl] gives, and [n] more operations
    find room. *)
Record files_at w (dir : pi_dirent_t) (m : gmap (list Z) (list Z)) (n : nat) (dcs : list Z)
    (cl : list Z -> list Z) : Prop := {
  fs_ok : fs_wf w;
  fs_dir : dir_at w dir dcs;
  fs_file name c : m !! name = Some c -> file_at w dcs name c (cl name);
  fs_none name : m !! name = None -> tracked name -> file_name name ->
    dir_index (dir_entries w dcs) name = None;
  fs_disj name name' : name <> name' -> is_Some (m !! name) -> is_Some (m !! name') ->
    forall x, x ∈ cl name -> x ∉ cl name';
  fs_room : (n <= length (free_clusters (fat (w_fs w))))%nat;
  fs_slots : (n < length (unused_slots (dir_entries w dcs)))%nat
}.

(** A file survives whatever does not touch its clusters or its entry. *)
Lemma file_at_upd w w' dcs tc name c cs i d' :
  file_at w dcs name c cs -> fs_wf w -> upd tc w w' -> (forall x, x ∈ cs -> x ∉ tc) ->
  dir_entries w' dcs = <[i := d']> (dir_entries w dcs) ->
  (forall d, dir_entries w dcs !! i = Some d -> ~ named (raw_name name) d) ->
  file_at w' dcs name c cs.
Proof.
  intros [I Mx (j & d & Hh & C & En) Dj Sz Dt] Wf U Hd E Hi.
  assert (Eb : bpc (w_fs w') = bpc (w_fs w)) by (unfold bpc; by rewrite (upd_spc _ _ _ U)).
  constructor; try done.
  - exists j, d. split_and!; [|by eapply upd_file_chain|done].
    destruct Hh as [Hj N]. split; [|done]. rewrite E, list_lookup_insert_ne; [done|].
    intros ->. by apply (Hi d).
  - by rewrite Eb.
  - rewrite (upd_chain_data tc w w' cs U); [done|]. intros x Hx. split; [|auto].
    destruct (file_chain_pos _ _ _ _ C Hx). pose proof (wf_len _ (wf_geom _ Wf)). split; lia.
Qed.

(** An operation that writes the clusters [tc] and entry [i], which is or becomes the entry
    of [name], updates the map at [name] only. *)
Lemma files_at_update w w' dir m k n dcs cl name c' cs' tc i d d' :
  files_at w dir m k dcs cl -> file_name name ->
  fs_wf w' -> dir_at w' dir dcs -> upd tc w w' ->
  dir_entries w dcs !! i = Some d -> dir_entries w' dcs = <[i := d']> (dir_entries w dcs) ->
  (forall name', file_name name' -> name' <> name -> ~ named (raw_name name') d) ->
  named (raw_name name) d' -> file_at w' dcs name c' cs' ->
  (forall name' c, name' <> name -> m !! name' = Some c ->
     forall x, x ∈ cl name' -> x ∉ tc /\ x ∉ cs') ->
  (n <= length (free_clusters (fat (w_fs w'))))%nat ->
  (n < length (unused_slots (dir_entries w' dcs)))%nat ->
  files_at w' dir (<[name := c']> m) n dcs (fun x => if decide (x = name) then cs' else cl x).
Proof.
  intros [Wf Da Ck Nn Dj _ _] I Wf' Da' U Hi Ed Nd Nd' K' Sep Rm Sl.
  constructor; [done|done| | | |done|done].
  - intros x c Hx. case_decide as Hne.
    + subst x. rewrite lookup_insert_eq in Hx. by injection Hx as <-.
    + rewrite lookup_insert_ne in Hx by done. pose proof (Ck _ _ Hx) as K.
      eapply file_at_upd; [exact K|done|exact U| |exact Ed|].
      * intros y Hy. by apply (Sep x c).
      * intros d2 Hd2. rewrite Hi in Hd2. injection Hd2 as <-. apply Nd; [apply K|done].
  - intros x Hn T Ix. destruct (decide (x = name)) as [->|Hne];
      [by rewrite lookup_insert_eq in Hn|]. rewrite lookup_insert_ne in Hn by done.
    rewrite Ed, (dir_index_insert_ne _ i d); [by apply Nn|done|by apply Nd|].
    by apply (not_named_other name x).
  - intros x y Hxy Hx Hy z. destruct (decide (x = name)) as [->|Hxn].
    + rewrite decide_False by done. rewrite lookup_insert_ne in Hy by done.
      destruct Hy as [cy Hy]. intros Hz1 Hz2. by apply (Sep y cy) in Hz2 as [_ ?].
    + rewrite lookup_insert_ne in Hx by done. destruct (decide (y = name)) as [->|Hyn].
      * destruct Hx as [cx Hx]. intros Hz. by apply (Sep x cx) in Hz as [_ ?].
      * rewrite lookup_insert_ne in Hy by done. by apply Dj.
Qed.

(** ** Create *)

Lemma files_create w dir m n dcs cl name : files_at w dir m (S n) dcs cl ->
  file_name name -> tracked name -> m !! name = None ->
  exists w' e, fat32_create dir name false w = Done (Some e, w') /\
    files_at w' dir (<[name := []]> m) n dcs (fun x => if decide (x = name) then [] else cl x).
Proof.
  intros St I T Hm. pose proof St as [Wf Da Ck Nn Dj Rm Sl]. pose proof I as [V _].
  destruct (free_slot_exists (dir_entries w dcs)) as (i & d0 & Fs); [lia|].
  assert (Hi : dir_entries w dcs !! i = Some d0) by apply Fs.
  pose proof (Nn _ Hm T I) as Hnone.
  destruct (create_run _ _ dcs Wf Da _ i d0 V Hnone Fs) as (w' & R & Wf' & F & Ef & Ed).
  exists w', (view (new_file name d0)). split; [done|].
  assert (U : upd dcs w w') by (apply frame_upd; [done|apply Wf|by eapply dir_pos]).
  assert (Nn' : named (raw_name name) (new_file name d0)) by by apply new_file_named.
  assert (Hnew : dir_entries w' dcs !! i = Some (new_file name d0)).
  { rewrite Ed. apply list_lookup_insert_eq. by eapply lookup_lt_Some. }
  eapply (files_at_update w w' dir m (S n) n dcs cl name [] [] dcs i d0); try done.
  - eapply dir_at_frame; [exact Da|rewrite Ef; apply Da|exact Ed|].
    by apply dir_ok_new_file; [apply Da|..].
  - intros r _ _ [Sk _]. by rewrite (free_slot_skipped _ _ _ Fs) in Sk.
  - constructor; try done.
    + exists i, (new_file name d0). split_and!; [by split| |done]. by left.
    + set_solver.
    + by left.
  - intros x c _ Hx y Hy. split; [by eapply fa_dir; [apply Ck|]|set_solver].
  - rewrite Ef. lia.
  - rewrite Ed. pose proof (unused_slots_fill _ i d0 (new_file name d0) Hi). lia.
Qed.

Lemma files_create_again w dir m n dcs cl name c : files_at w dir m n dcs cl ->
  m !! name = Some c -> exists e, fat32_create dir name false w = Done (Some e, w).
Proof.
  intros [Wf Da Ck _ _ _ _] Hm. destruct (Ck _ _ Hm) as [[V _] _ (i & d & Hh & _ & _) _ _ _].
  exists (view d). by apply (create_existing _ _ dcs Wf Da _ V i d false Hh).
Qed.

(** ** Read *)

Lemma files_read w dir m n dcs cl name c : files_at w dir m n dcs cl -> m !! name = Some c ->
  exists b k, fat32_read dir name w = Done (mk_file b k (Z.of_nat (length c)), w) /\
    take (length c) b = c /\ bytes b.
Proof.
  intros [Wf Da Ck _ _ _ _] Hm.
  destruct (Ck _ _ Hm) as [[V Hd] Mx (i & d & Hh & C & En) _ Sz Dt].
  pose proof (bpc_max _ Wf) as Hb. pose proof (bpc_min _ Wf) as Hb'.
  rewrite (read_run _ _ dcs Wf Da name i d (cl name)); [| |apply Hh|done|].
  - unfold file_of. destruct Sz as [[-> ->]|Hs]; [by eexists _, _|].
    destruct (cl name) as [|y cs] eqn:Ecl.
    { cbn [length] in Hs. assert (c = []) as -> by (destruct c; simpl in *; [done|lia]).
      by eexists _, _. }
    rewrite En. eexists _, _. split_and!; [done|exact Dt|apply chain_data_bytes].
  - rewrite (read_search_some _ _ 0 name i d); [done|apply Da|done..].
  - destruct Sz as [[_ ->]|Hs]; [simpl; lia|nia].
Qed.

(** ** Write *)

(** Up to 512 more bytes keep the clusters or need one more. *)
Lemma file_realloc w dcs name c cs k : fs_wf w -> file_at w dcs name c cs ->
  Z.of_nat (length c) <= k <= Z.of_nat (length c) + 512 -> 0 < k ->
  free_clusters (fat (w_fs w)) <> [] ->
  exists cs', realloc (fat (w_fs w)) cs k (bpc (w_fs w)) cs' /\
    (Z.of_nat (length cs') - 1) * bpc (w_fs w) < k <= Z.of_nat (length cs') * bpc (w_fs w) /\
    (cs' = cs \/ exists f, cs' = cs ++ [f] /\ first_free (fat (w_fs w)) 3 f).
Proof.
  intros Wf K Hk Hk0 Hf. pose proof (bpc_min w Wf) as Hb.
  assert (Hlow : (Z.of_nat (length cs) - 1) * bpc (w_fs w) < k <=
                 (Z.of_nat (length cs) + 1) * bpc (w_fs w)).
  { destruct (fa_size _ _ _ _ _ K) as [[-> ->]|Hs]; simpl in *; lia. }
  destruct (Z.le_gt_cases k (Z.of_nat (length cs) * bpc (w_fs w))).
  - exists cs. split_and!; [apply realloc_same; lia|lia|lia|by left].
  - destruct (first_free_exists _ Hf) as [f Ff]. exists (cs ++ [f]).
    rewrite length_app. simpl. split_and!; [apply realloc_grow; [lia|done]|lia|lia|eauto].
Qed.

(** The clusters that stay free when [cs] becomes [cs']. *)
Lemma free_after (w w' : world D) dcs cs cs' c0 d0 :
  fs_wf w -> chain (fat (w_fs w)) c0 dcs -> file_chain (fat (w_fs w)) d0 cs ->
  upd (dcs ++ cs ++ cs') w w' ->
  (cs' = cs \/ exists f, cs' = cs ++ [f] /\ first_free (fat (w_fs w)) 3 f) ->
  (length (free_clusters (fat (w_fs w))) <= S (length (free_clusters (fat (w_fs w')))))%nat.
Proof.
  intros Wf Cd C U Hcs.
  assert (Nf : forall l h x, chain (fat (w_fs w)) h l -> x ∈ l -> x ∉ free_clusters (fat (w_fs w))).
  { intros l h x Cl Hx [Fx _]%elem_free_clusters. unfold free_at in Fx.
    destruct (chain_suffix _ _ _ _ Cl Hx) as (_ & l2 & _ & C2).
    inversion C2 as [? v ? E L|? v ? ? E L]; simplify_eq; rewrite E in Fx;
      unfold ent_free, ent_last, ent_used in *; lia. }
  assert (Nf' : forall x, x ∈ dcs ++ cs -> x ∉ free_clusters (fat (w_fs w))).
  { intros x [Hx|Hx]%elem_of_app; [by eapply Nf|].
    destruct C as [[_ ->]|[_ C]]; [set_solver|by eapply Nf]. }
  assert (Keep : forall x, x ∈ free_clusters (fat (w_fs w)) -> x ∉ cs' ->
                 x ∈ free_clusters (fat (w_fs w'))).
  { intros x Hx Hn. pose proof Hx as [Fx Rx]%elem_free_clusters. apply elem_free_clusters.
    rewrite (up_len _ _ _ U). split; [|done]. unfold free_at in *.
    rewrite (up_fat _ _ _ U); [done|lia|]. pose proof (Nf' x) as N'. set_solver. }
  apply (NoDup_length_cons _ _ (default 0 (last cs'))); [apply NoDup_free_clusters|].
  intros x Hx. apply elem_of_cons. destruct (decide (x ∈ cs')) as [Hin|Hn]; [left|right; auto].
  destruct Hcs as [->|(f & -> & _)]; [exfalso; eapply Nf'; [|exact Hx]; set_solver|].
  rewrite last_snoc. simpl. apply elem_of_app in Hin as [Hin|Hin]; [|set_solver].
  exfalso. eapply Nf'; [|exact Hx]. set_solver.
Qed.

(** The clusters another file has are not among those of a rewritten file. *)
Lemma others_disjoint w dir m n dcs cl name c cs' : files_at w dir m n dcs cl ->
  m !! name = Some c ->
  (cs' = cl name \/ exists f, cs' = cl name ++ [f] /\ first_free (fat (w_fs w)) 3 f) ->
  forall name' c', name' <> name -> m !! name' = Some c' ->
  forall x, x ∈ cl name' -> x ∉ dcs ++ cl name ++ cs' /\ x ∉ cs'.
Proof.
  intros [Wf Da Ck _ Dj _ _] Hm Hcs name' c' Hne Hc' x Hx. pose proof (Ck _ _ Hc') as K'.
  assert (Hold : x ∉ cl name) by (by apply (Dj name' name); eauto).
  pose proof (fa_dir _ _ _ _ _ K' x Hx) as Hdir.
  assert (Hnew : x ∉ cs'); [|set_solver].
  destruct Hcs as [->|(f & -> & Ff)]; [done|].
  intros [?|Hx'%list_elem_of_singleton]%elem_of_app; [done|]. subst x.
  destruct (fa_file _ _ _ _ _ K') as (_ & d2 & _ & C2 & _).
  destruct C2 as [[_ E]|[_ C2]]; [rewrite E in Hx; set_solver|].
  by eapply first_free_not_in.
Qed.

Lemma files_write w dir m n dcs cl name c buf c' : files_at w dir m (S n) dcs cl ->
  m !! name = Some c -> bytes buf -> take (length c') buf = c' -> c' <> [] ->
  (length c <= length c' <= length c + 512)%nat -> Z.of_nat (length c') <= 2^31 ->
  let k := Z.of_nat (length c') in
  exists w' cs', fat32_write dir name (mk_file buf k k) w = Done (1, w') /\
    files_at w' dir (<[name := c']> m) n dcs (fun x => if decide (x = name) then cs' else cl x).
Proof.
  intros St Hm Bb Ht Ne Hl Hmax k. pose proof St as [Wf Da Ck Nn Dj Rm Sl].
  pose proof (Ck _ _ Hm) as K. pose proof (bpc_max _ Wf) as Hb. pose proof (bpc_min _ Wf) as Hb'.
  assert (Hk0 : 0 < k) by (destruct c'; [done|unfold k; simpl length; lia]).
  destruct (file_realloc w dcs name c (cl name) k Wf K) as (cs' & Ra & Sz & Hcs);
    [unfold k; lia|done| |].
  { destruct (free_clusters _); [simpl in Rm; lia|done]. }
  pose proof (others_disjoint _ _ _ _ _ _ _ _ cs' St Hm Hcs) as Sep.
  pose proof (fa_file _ _ _ _ _ K) as (i & d & Hh & C & En).
  assert (Lc : (Z.of_nat (length (cl name)) - 1) * bpc (w_fs w) <= 2^31).
  { pose proof (fa_max _ _ _ _ _ K). destruct (fa_size _ _ _ _ _ K) as [[_ ->]|?]; simpl; lia. }
  destruct (write_run _ _ dcs Wf Da name i d (cl name) cs' (mk_file buf k k)) as
    (st & w' & Rw & Wf' & U & Sy & C' & Hst & Dt & Ed & Cd');
    [apply K|done|done|apply K|done|unfold k, is_u32; simpl; lia|nia|done|].
  exists w', cs'. split; [done|]. destruct Hh as [Hi Nd].
  pose proof (written_named st (mk_file buf k k) _ _ Nd) as Nw.
  assert (Hnew : dir_entries w' dcs !! i = Some (written st (mk_file buf k k) d)).
  { rewrite Ed. apply list_lookup_insert_eq. by eapply lookup_lt_Some. }
  eapply (files_at_update w w' dir m (S n) n dcs cl name c' cs' _ i d); try done.
  - apply K.
  - eapply dir_at_frame; [exact Da|exact Cd'|exact Ed|].
    by eapply dir_ok_rewritten; [apply Da|split|..].
  - intros x Ix Hx. by apply (not_named_other name x); [apply K|..].
  - constructor; [apply K|done| | | |].
    + exists i, (written st (mk_file buf k k) d). split_and!; [by split| |done].
      by rewrite written_cluster_id.
    + intros x Hx. apply (realloc_disjoint w dir dcs Wf Da _ _ _ _ Ra); [apply K|set_solver].
    + right. unfold bpc in *. rewrite (upd_spc _ _ _ U). exact Sz.
    + rewrite Dt, take_buf_slice; [done|simpl f_data; unfold k in Sz; nia|].
      simpl f_data. rewrite <-Ht at 1. rewrite length_take. lia.
  - pose proof (free_after _ _ _ _ _ _ _ Wf (da_chain _ _ _ Da) C U Hcs). lia.
  - rewrite Ed. pose proof (unused_slots_named _ i d (written st (mk_file buf k k) d) _ Hi Nd). lia.
Qed.

(** ** Delete *)

Lemma files_delete w dir m n dcs cl name c : files_at w dir m n dcs cl -> m !! name = Some c ->
  exists w', fat32_delete dir name w = Done (1, w') /\ files_at w' dir (delete name m) n dcs cl.
Proof.
  intros St Hm. pose proof St as [Wf Da Ck Nn Dj Rm Sl]. pose proof (Ck _ _ Hm) as K.
  pose proof (fa_file _ _ _ _ _ K) as (i & d & Hh & C & En). pose proof Hh as [Hi Nd].
  destruct (delete_run _ _ dcs Wf Da name i d (cl name)) as (w' & R & Wf' & U & _ & Ef & Ed);
    [apply K|done|done|apply K|].
  pose proof (dir_at_deleted w w' dir dcs name i d _ Wf Da Hh C (fa_dir _ _ _ _ _ K) Ef Ed) as Da'.
  assert (Oth : forall x, file_name x -> x <> name -> ~ named (raw_name x) d).
  { intros x Ix Hx. by apply (not_named_other name x); [apply K|..]. }
  exists w'. split; [done|]. constructor; [done|done| | | | |].
  - intros x cx Hx. apply lookup_delete_Some in Hx as [Hne Hx]. pose proof (Ck _ _ Hx) as Kx.
    eapply file_at_upd; [exact Kx|done|exact U| |exact Ed|].
    + intros y Hy [?|?]%elem_of_app; [by apply (fa_dir _ _ _ _ _ Kx y)|].
      by apply (Dj x name ltac:(done) (mk_is_Some _ _ Hx) (mk_is_Some _ _ Hm) y).
    + intros d2 Hd2. rewrite Hi in Hd2. injection Hd2 as <-. apply Oth; [apply Kx|done].
  - intros x Hx T Ix. destruct (decide (x = name)) as [->|Hne].
    + rewrite Ed. by apply dir_index_deleted; [apply Da|].
    + rewrite lookup_delete_ne in Hx by done.
      rewrite Ed, (dir_index_insert_ne _ i d); [by apply Nn|done|by apply Oth|by intros [? _]].
  - intros x y Hxy [cx Hx] [cy Hy]. apply lookup_delete_Some in Hx as [_ Hx], Hy as [_ Hy].
    by apply Dj.
  - eapply Nat.le_trans; [exact Rm|]. apply NoDup_length; [apply NoDup_free_clusters|].
    intros x [Fx Rx]%elem_free_clusters. apply elem_free_clusters.
    rewrite Ef, length_clear_entries. split; [|done]. unfold free_at in *.
    destruct (decide (x ∈ cl name)) as [Hx|Hx].
    + rewrite clear_entries_eq; [done|by eapply file_chain_nonneg|done|lia].
    + rewrite clear_entries_ne; [done|lia|by eapply file_chain_nonneg|done].
  - rewrite Ed. pose proof (unused_slots_named _ i d (deleted d) _ Hi Nd). lia.
Qed.
End Files.
