(* ===== verification/FsApi.v ===== *)
(** * The file interface used by the servers (src/fat32/fs-apis.c)

    A mirror holds a current directory and the chain of directories above it; every call
    resolves a directory name relative to it and then uses the FAT32 driver.  The state is
    the file system, the root entry, the mirror the caller passes and the counter of
    mirrors.  The listing is formatted by the number printing of [Format]. *)

From stdpp Require Import base tactics option list numbers sets.
From Stdlib Require Import ZArith Lia.
From Stdlib Require String.
From S2P Require Import Prelude Format Sd FatTable FatChain Dirent Fat32 Fat32Dir Fat32Thm.
Import String.StringSyntax.
#[local] Open Scope string_scope.
#[local] Open Scope Z_scope.

(** ** Mirrors *)

Record fs_mirror_t : Type := mk_mirror {
  mir_name : list Z;
  mir_id : Z;
  cwd : pi_dirent_t;
  chain_dirs : list pi_dirent_t    (* the linked list of [fs_chain_t], head first *)
}.

Record fsapi_on (T : Type) : Type := mk_fsapi {
  a_world : world_on T;
  a_root : pi_dirent_t;
  a_mirror : fs_mirror_t;
  a_next_id : Z
}.
Arguments mk_fsapi {_} _ _ _ _.
Arguments a_world {_} _.
Arguments a_root {_} _.
Arguments a_mirror {_} _.
Arguments a_next_id {_} _.
Notation fsapi D := (fsapi_on (sd_t D)).

Section Api.
Context {T : Type} `{PiSd T} `{HeapGarbage}.
Local Notation A := (fsapi_on T).

Definition on_fs {R} (m : M (world_on T) R) : M A R :=
  m_zoom a_world (fun w a => mk_fsapi w (a_root a) (a_mirror a) (a_next_id a)) m.

Definition set_mirror (f : fs_mirror_t -> fs_mirror_t) : M A unit :=
  m_modify (fun a => mk_fsapi (a_world a) (a_root a) (f (a_mirror a)) (a_next_id a)).

Definition set_cwd_chain (d : pi_dirent_t) (c : list pi_dirent_t) : M A unit :=
  set_mirror (fun m => mk_mirror (mir_name m) (mir_id m) d c).

(** [fat32_ready] is the result of [set_fat32_ready()]: false when the file system was
    set up before. *)
Definition fs_init (fat32_ready : bool) : M A unit :=
  if negb fat32_ready then mret tt else
  on_fs (on_sd sd_start);;
  mbr ← on_fs mbr_read;
  on_fs (fat32_mk (part_decode (part_tab mbr 0)));;
  root ← on_fs fat32_get_root;
  m_modify (fun a => mk_fsapi (a_world a) root (a_mirror a) (a_next_id a)).

(** The result is [directory] and [*res]. *)
Definition dirname_to_directory (dirname : list Z) (cd : bool) : M A (pi_dirent_t * bool) :=
  mirror ← m_gets a_mirror;
  root ← m_gets a_root;
  let directory := cwd mirror in
  if bool_decide (dirname = []) then mret (directory, true) else
  let dirname := if default 0 (last dirname) =? 47 then removelast dirname else dirname in
  if bool_decide (dirname = str "~") then
    (if cd then set_cwd_chain root (drop (length (chain_dirs mirror) - 1) (chain_dirs mirror))
     else mret tt);;
    mret (root, true)
  else if bool_decide (dirname = str ".") then mret (directory, true)
  else if bool_decide (dirname = str "..") then
    match chain_dirs mirror with
    | _ :: parent :: up =>
        (if cd then set_cwd_chain parent (parent :: up) else mret tt);;
        mret (parent, true)
    | _ => mret (directory, false)
    end
  else
    sub ← on_fs (fat32_stat directory dirname);
    match sub with
    | Some d =>
        (if cd then set_cwd_chain d (d :: chain_dirs mirror) else mret tt);;
        mret (d, true)
    | None => mret (directory, false)
    end.

Definition fs_changedir (dirname : list Z) : M A bool :=
  '(_, res) ← dirname_to_directory dirname true;
  mret res.

(** The line [fs_listdir] adds for an entry. *)
Definition list_line {S} (e : pi_dirent_t) : M S (list Z) :=
  if is_dir_p e then mret (9 :: str "D: " ++ pd_name e ++ [10])
  else
    n ← emit_int (pd_nbytes e);
    mret (9 :: str "F: " ++ pd_name e ++ str " (" ++ n ++ str " bytes)" ++ [10]).

Fixpoint list_lines {S} (es : list pi_dirent_t) : M S (list Z) :=
  match es with
  | [] => mret []
  | e :: es => l ← list_line e; ls ← list_lines es; mret (l ++ ls)
  end.

(** [*res] and the text appended to [target]. *)
Definition fs_listdir (dirname : list Z) : M A (bool * list Z) :=
  '(directory, res) ← dirname_to_directory dirname false;
  files ← on_fs (fat32_readdir directory);
  target ← list_lines files;
  mret (res, target).

Definition fs_create (dirname fname : list Z) (is_dir cd : bool) : M A Z :=
  '(directory, res) ← dirname_to_directory dirname false;
  if negb res then mret 0 else
  dirent ← on_fs (fat32_create directory fname is_dir);
  match dirent with
  | None => mret 0
  | Some d =>
      (if cd && is_dir then
         mirror ← m_gets a_mirror;
         set_cwd_chain d (d :: chain_dirs mirror)
       else mret tt);;
      mret 1
  end.

Definition fs_delete (dirname fname : list Z) : M A Z :=
  '(directory, res) ← dirname_to_directory dirname false;
  if negb res then mret 0 else
  on_fs (fat32_delete directory fname).

(** The buffer and [*nbytes]. *)
Definition fs_read (dirname fname : list Z) : M A (list Z * Z) :=
  '(directory, res) ← dirname_to_directory dirname false;
  if negb res then mret ([], 0) else
  file ← on_fs (fat32_read directory fname);
  mret (f_data file, n_data file).

Definition fs_write (dirname fname data : list Z) (nbytes : Z) : M A Z :=
  '(directory, res) ← dirname_to_directory dirname false;
  if negb res then mret 0 else
  on_fs (fat32_write directory fname (mk_file data nbytes nbytes)).

(** [data] is the caller's buffer; [strlen(data)] stops at its NUL. *)
Definition fs_append (dirname fname data : list Z) : M A Z :=
  '(directory, res) ← dirname_to_directory dirname false;
  if negb res then mret 0 else
  file ← on_fs (fat32_read directory fname);
  let new_data :=
    if 0 <? n_data file
    then buf_slice (f_data file) 0 (Z.to_nat (n_data file)) ++ cstr data ++ [0]
    else data in
  let n := Z.of_nat (length (cstr new_data)) in
  on_fs (fat32_write directory fname (mk_file new_data n n)).

Definition register_mirror (name : list Z) : M A unit :=
  a ← m_gets (fun a => a);
  m_modify (fun a => mk_fsapi (a_world a) (a_root a)
                       (mk_mirror name (a_next_id a) (a_root a) [a_root a])
                       (u32 (a_next_id a + 1))).
End Api.

(** ** Directories *)

Section ApiThm.
Context {D : Type} `{BlockDeviceLaws D} `{!HeapGarbage} `{!HeapGarbageBytes}.
Implicit Types a : fsapi D.

(** The mirror's current directory is the head of its chain, the chain ends in the root. *)
Record mirror_ok a : Prop := {
  mo_head : head (chain_dirs (a_mirror a)) = Some (cwd (a_mirror a));
  mo_last : last (chain_dirs (a_mirror a)) = Some (a_root a)
}.

Lemma on_fs_run {T} (m : M (world D) T) a r w :
  m (a_world a) = Done (r, w) ->
  on_fs m a = Done (r, mk_fsapi w (a_root a) (a_mirror a) (a_next_id a)).
Proof. intros E. unfold on_fs. by rewrite (zoom_done _ _ _ _ _ _ E). Qed.

Lemma on_fs_inv {T} (m : M (world D) T) a r a' :
  on_fs m a = Done (r, a') -> exists w, m (a_world a) = Done (r, w) /\
    a' = mk_fsapi w (a_root a) (a_mirror a) (a_next_id a).
Proof.
  unfold on_fs, m_zoom. destruct (m (a_world a)) as [[r' w]| | |]; [|done..].
  intros [= -> <-]. eauto.
Qed.

Lemma last_drop_one {A} (l : list A) x : last l = Some x -> drop (length l - 1) l = [x].
Proof.
  intros Hl. apply last_Some in Hl as [l' ->]. rewrite length_app. simpl.
  by replace (length l' + 1 - 1)%nat with (length l') by lia; rewrite drop_app_length.
Qed.

Lemma dirname_inv a dirname cd d res a' : mirror_ok a ->
  dirname_to_directory dirname cd a = Done ((d, res), a') ->
  mirror_ok a' /\ a_root a' = a_root a /\ a_next_id a' = a_next_id a /\
  (cd = false -> a_mirror a' = a_mirror a) /\
  (cd = true -> res = true -> cwd (a_mirror a') = d) /\
  (res = false -> a_mirror a' = a_mirror a /\ d = cwd (a_mirror a)).
Proof.
  intros Ok. unfold dirname_to_directory. rewrite !gets_run. cbv zeta.
  destruct Ok as [Hh Hl].
  repeat case_bool_decide.
  - intros [= <- <- <-]. by repeat split.
  - destruct cd.
    + unfold set_cwd_chain, set_mirror. rewrite modify_run. intros [= <- <- <-]. simpl.
      rewrite (last_drop_one _ _ Hl). by repeat split.
    + rewrite ret_run. intros [= <- <- <-]. by repeat split.
  - intros [= <- <- <-]. by repeat split.
  - destruct (chain_dirs (a_mirror a)) as [|c [|p up]] eqn:Ec.
    + done.
    + intros [= <- <- <-]. rewrite <-Ec in *. by repeat split.
    + destruct cd; unfold set_cwd_chain, set_mirror; rewrite ?modify_run, ?ret_run;
        intros [= <- <- <-].
      * split; [|done]. constructor; simpl; [done|]. by rewrite <-Hl.
      * rewrite <-Ec in *. by repeat split.
  - intros (sub & a1 & (w & R & ->)%on_fs_inv & E)%bind_inv. destruct sub as [s|].
    + destruct cd; unfold set_cwd_chain, set_mirror in E; rewrite ?modify_run, ?ret_run in E;
        injection E as <- <- <-.
      * split; [|done]. constructor; simpl; [done|].
        destruct (chain_dirs (a_mirror a)) eqn:Ec; [done|]. done.
      * by repeat split.
    + injection E as <- <- <-. by repeat split.
Qed.

Lemma chain_dirs_cons a : mirror_ok a ->
  exists up, chain_dirs (a_mirror a) = cwd (a_mirror a) :: up.
Proof.
  intros [Hh _]. destruct (chain_dirs (a_mirror a)) as [|c up]; [done|].
  injection Hh as ->. eauto.
Qed.

(** A directory name that is looked up in the current directory. *)
Definition plain_name (n : list Z) : Prop :=
  n <> [] /\ last n <> Some 47 /\ n <> str "~" /\ n <> str "." /\ n <> str "..".

Lemma plain_name_run n cd a : plain_name n ->
  dirname_to_directory n cd a =
    (sub ← on_fs (fat32_stat (cwd (a_mirror a)) n);
     match sub with
     | Some d =>
         (if cd then set_cwd_chain d (d :: chain_dirs (a_mirror a)) else mret tt);;
         mret (d, true)
     | None => mret (cwd (a_mirror a), false)
     end) a.
Proof.
  intros (P1 & P2 & P3 & P4 & P5). unfold dirname_to_directory. rewrite !gets_run. cbv zeta.
  rewrite bool_decide_false by done.
  destruct (last n) as [c|] eqn:El; simpl.
  - rewrite (proj2 (Z.eqb_neq _ _)) by congruence.
    by rewrite !bool_decide_false by done.
  - by apply last_None in El.
Qed.

Lemma dot_run cd a : dirname_to_directory (str ".") cd a = Done ((cwd (a_mirror a), true), a).
Proof. done. Qed.

Lemma tilde_run a : dirname_to_directory (str "~") false a = Done ((a_root a, true), a).
Proof. done. Qed.

(** changing into a subdirectory of the current directory and then to [..] leads back
    to the mirror's previous state; failed changes leave the mirror as it was; and the
    current directory is at all times the head of a chain that ends in the root. *)
Theorem fs_changedir_back a name res a1 :
  mirror_ok a -> plain_name name -> fs_changedir name a = Done (res, a1) ->
  mirror_ok a1 /\
  (res = false -> a_mirror a1 = a_mirror a) /\
  (res = true -> exists a2, fs_changedir (str "..") a1 = Done (true, a2) /\
     a_mirror a2 = a_mirror a).
Proof.
  intros Ok Pn. unfold fs_changedir.
  intros ([d r] & a' & R & E)%bind_inv. injection E as <- <-.
  destruct (dirname_inv _ _ _ _ _ _ Ok R) as (Ok' & _ & _ & _ & _ & Hf).
  split_and!; [done|naive_solver|]. intros ->.
  rewrite (plain_name_run _ _ _ Pn) in R.
  apply bind_inv in R as (sub & a2 & (w & Rs & ->)%on_fs_inv & R).
  destruct sub as [sd|]; [|done]. unfold set_cwd_chain, set_mirror in R.
  rewrite modify_run in R. injection R as <- <-.
  destruct (chain_dirs_cons a Ok) as [up Ec].
  eexists. unfold dirname_to_directory. rewrite !bind_assoc, !gets_run. cbv zeta.
  simpl chain_dirs. rewrite Ec. cbv [bool_decide]. simpl.
  unfold set_cwd_chain, set_mirror. split; [done|]. simpl. rewrite <-Ec.
  by destruct (a_mirror a).
Qed.
End ApiThm.
