(* ===== verification/FatEmmc.v ===== *)
(** * The file system on the SD-card driver (src/fat32/pi-sd.c, fat32.c, fs-apis.c)

    The file system of [FatTable], [Fat32] and [FsApi] is written over the calls of pi-sd.c
    (the class [PiSd]).  Its theory is proved on the sectors of a card; the program runs it on
    the driver of [Emmc].  Here the driver is made an instance of the class and the two runs of
    the same code are related, step by step: whenever the code returns on the sectors, it
    returns on the driver with the same result, and the card behind the controller has the same
    sectors.  What has to be shown on the way is that the code keeps to the rules of the driver:
    every buffer it writes has the size of the transfer and holds bytes. *)

From stdpp Require Import base tactics option list numbers gmap.
From Stdlib Require Import ZArith Lia.
From Stdlib Require String.
From S2P Require Import Prelude Sim Format Gpio Sd Emmc EmmcThm EmmcInit FatTable FatChain Dirent Fat32 Fat32Dir Fat32Thm.
From S2P Require Import Fat32Witness FsApi.
Import String.StringSyntax.
#[local] Open Scope string_scope.
#[local] Open Scope list_scope.
#[local] Open Scope Z_scope.

(** ** Code that leaves the state alone *)

Section Stateless.
Context {S S' : Type} (R : S -> S' -> Prop).

Lemma sim_entry_type v : sim R R (fun _ => True) (fat32_fat_entry_type v) (fat32_fat_entry_type v).
Proof. unfold fat32_fat_entry_type. sim_run. Qed.

Lemma sim_dirent_name d : sim R R (fun _ => True) (fat32_dirent_name d) (fat32_dirent_name d).
Proof. unfold fat32_dirent_name, to_8dot3. sim_run. Qed.
#[local] Hint Resolve sim_dirent_name : sim.

Lemma sim_find_dirent ds i fname :
  sim R R (fun _ => True) (find_dirent_loop ds i fname) (find_dirent_loop ds i fname).
Proof. revert i. induction ds as [|d ds IH]; intros i; cbn [find_dirent_loop]; sim_run. Qed.

Lemma sim_read_search ds i fname : sim R R (fun _ => True) (read_search ds i fname) (read_search ds i fname).
Proof. revert i. induction ds as [|d ds IH]; intros i; cbn [read_search]; sim_run. Qed.

Lemma sim_free_dirent ds i : sim R R (fun _ => True) (free_dirent_loop ds i) (free_dirent_loop ds i).
Proof. revert i. induction ds as [|d ds IH]; intros i; cbn [free_dirent_loop]; sim_run. Qed.

Lemma sim_dirent_convert d : sim R R (fun _ => True) (dirent_convert d) (dirent_convert d).
Proof. unfold dirent_convert. sim_run. Qed.
#[local] Hint Resolve sim_dirent_convert : sim.

Lemma sim_convert_loop ds : sim R R (fun _ => True) (convert_loop ds) (convert_loop ds).
Proof. induction ds as [|d ds IH]; cbn [convert_loop]; sim_run. Qed.

Lemma sim_mbr_check b : sim R R (fun _ => True) (mbr_check b) (mbr_check b).
Proof. unfold mbr_check. sim_run. Qed.

Lemma sim_volume_check b : sim R R (fun _ => True) (fat32_volume_id_check b) (fat32_volume_id_check b).
Proof. unfold fat32_volume_id_check. sim_run. Qed.

Lemma sim_fsinfo_check b : sim R R (fun _ => True) (fat32_fsinfo_check b) (fat32_fsinfo_check b).
Proof. unfold fat32_fsinfo_check. sim_run. Qed.

Lemma sim_emit_int x : sim R R (fun _ => True) (emit_int x) (emit_int x).
Proof. unfold emit_int, emit_val. sim_run. Qed.
#[local] Hint Resolve sim_emit_int : sim.

Lemma sim_list_line e : sim R R (fun _ => True) (list_line e) (list_line e).
Proof. unfold list_line. sim_run. Qed.
#[local] Hint Resolve sim_list_line : sim.

Lemma sim_list_lines es : sim R R (fun _ => True) (list_lines es) (list_lines es).
Proof. induction es as [|e es IH]; cbn [list_lines]; sim_run. Qed.
End Stateless.
#[export] Hint Resolve sim_mbr_check sim_volume_check sim_fsinfo_check sim_list_lines sim_entry_type sim_dirent_name sim_find_dirent sim_read_search sim_free_dirent
  sim_dirent_convert sim_convert_loop : sim.

(** ** The driver under the file system *)

Section Driver.
Context {D : Type} `{BlockDeviceLaws D} `{EmmcLatency} `{!HeapGarbage} `{!HeapGarbageBytes}.
Local Notation T := (pi_sd_t (D := D)).

(** [kmalloc] hands out memory that holds anything. *)
Definition drv_sec_read (lba nsec : Z) : M T (list Z) :=
  init ← m_gets p_init;
  m_assert init;;
  let data := past_end <$> seq 0 (Z.to_nat (u32 (nsec * 512))) in
  drv_sd_read data lba nsec.

#[export] Instance driver_pi_sd : PiSd T := {|
  sd_start := drv_sd_init;
  sd_fetch := drv_sec_read;
  sd_store := drv_sd_write
|}.

(** The card has no sectors beyond those its commands can name. *)
Definition card_fits (k : card_kind) (c : D) : Prop :=
  forall l, sec_ok c l = true -> 0 <= l < if k_hc k then 2 ^ 32 else 2 ^ 23.

Lemma transfer_reachable k c lba n : card_fits k c -> transfer_ok c lba n = true -> reachable k lba n.
Proof.
  intros Fi Ok. unfold transfer_ok in Ok. apply andb_true_iff in Ok as [Hn Ok].
  apply andb_true_iff in Hn as [Hn0%Z.ltb_lt Hn1%Z.leb_le]. rewrite forallb_forall in Ok.
  assert (In : forall l, lba <= l < lba + n -> sec_ok c l = true)
    by (intros l Hl; apply Ok, list_elem_of_In, elem_of_seqZ; lia).
  pose proof (Fi lba (In lba ltac:(lia))). pose proof (Fi (lba + n - 1) (In (lba + n - 1) ltac:(lia))).
  unfold reachable. change (2 ^ 23) with 8388608 in *. lia.
Qed.

Lemma card_fits_put k c lba n data : card_fits k c -> card_fits k (put_sectors lba n data c).
Proof. intros Fi l. rewrite sec_ok_put_sectors. apply Fi. Qed.

(** A started card and the driver in front of it. *)
Record driven (k : card_kind) (s : sd_t D) (s' : T) : Prop := {
  dv_card : sd_init_p s = true;
  dv_drv : p_init s' = true;
  dv_ready : ready k (sd_card s) (p_emmc s');
  dv_fits : card_fits k (sd_card s)
}.

Lemma sim_fetch k lba nsec :
  sim (driven k) (driven k)
    (fun b => length b = (512 * Z.to_nat nsec)%nat /\ bytes b /\ 0 < nsec <= 65535)
    (sd_fetch lba nsec) (sd_fetch lba nsec).
Proof.
  intros [i c] [i' s'] [Hi Hi' R Fi]. cbn in Hi, Hi', R, Fi. subst i i'.
  cbn [sd_fetch card_pi_sd driver_pi_sd]. unfold pi_sec_read, drv_sec_read.
  rewrite !gets_run, !assert_run by done. destruct (pi_sd_read lba nsec _) as [[b s1]| | |] eqn:E; try done.
  assert (Ok : transfer_ok c lba nsec = true).
  { revert E. unfold pi_sd_read, read_sectors. rewrite gets_run, assert_run, gets_run by done.
    cbn [sd_card]. by destruct (transfer_ok _ _ _). }
  pose proof (transfer_reachable _ _ _ _ Fi Ok) as Re.
  assert (Hn : 0 < nsec <= 65535) by (unfold transfer_ok in Ok; lia).
  assert (Es : b = sectors c lba (Z.to_nat nsec) /\ s1 = mk_sd true c).
  { revert E. unfold pi_sd_read, read_sectors, sectors. rewrite gets_run, assert_run, gets_run by done.
    cbn [sd_card]. rewrite Ok, Z2Nat.id by lia. by intros [= <- <-]. }
  destruct Es as [-> ->]. set (data := past_end <$> _).
  assert (So : sd_op_ok k (SdRead data lba nsec)).
  { split; [done|]. unfold data. rewrite length_fmap, length_seq. rewrite u32_small by (unfold is_u32; lia).
    split; [lia|]. apply Forall_fmap, Forall_true. intros j. apply past_end_u8. }
  pose proof (op_matches k c s' _ R So) as Om. cbn [card_op driver_op matches] in Om. rewrite E in Om.
  destruct Om as (_ & s2 & -> & R2). exists (mkPiSd true s2). split; [done|]. split; [by split|].
  rewrite length_sectors. split; [done|]. split; [apply sectors_bytes|done].
Qed.

Lemma sim_store k data lba nsec :
  (0 < nsec <= 65535 -> length data = (512 * Z.to_nat nsec)%nat) -> bytes data ->
  sim (driven k) (driven k) (fun _ => True) (sd_store data lba nsec) (sd_store data lba nsec).
Proof.
  intros Ln By [i c] [i' s'] [Hi Hi' R Fi]. cbn in Hi, Hi', R, Fi. subst i i'.
  cbn [sd_store card_pi_sd driver_pi_sd]. destruct (pi_sd_write data lba nsec _) as [[b s1]| | |] eqn:E; try done.
  assert (Ok : transfer_ok c lba nsec = true).
  { revert E. unfold pi_sd_write, write_sectors. rewrite gets_run, assert_run, gets_run by done.
    cbn [sd_card]. by destruct (transfer_ok _ _ _). }
  assert (Hn : 0 < nsec <= 65535) by (unfold transfer_ok in Ok; lia).
  assert (So : sd_op_ok k (SdWrite data lba nsec))
    by (split; [exact (transfer_reachable _ _ _ _ Fi Ok)|]; split; [rewrite Ln by done; lia|done]).
  pose proof (op_matches k c s' _ R So) as Om. cbn [card_op driver_op matches] in Om.
  assert (E1 : b = 1 /\ s1 = mk_sd true (put_sectors lba (Z.to_nat nsec) data c)).
  { revert E. unfold pi_sd_write, write_sectors. rewrite gets_run, assert_run, gets_run by done.
    cbn [sd_card]. rewrite Ok. by intros [= <- <-]. }
  destruct E1 as [-> ->]. rewrite (bind_done _ _ _ _ _ E) in Om. destruct Om as (_ & s2 & Ed & R2).
  apply bind_inv in Ed as (r & s3 & Ed & Er). injection Er as ->. exists (mkPiSd true s2).
  assert (r = 1) as ->.
  { revert Ed. unfold drv_sd_write. rewrite gets_run, assert_run by done. intros Ed.
    apply bind_inv in Ed as (? & ? & _ & Ed). apply bind_inv in Ed as (? & ? & _ & Ed).
    destruct (negb _); [done|]. by injection Ed. }
  split; [done|]. split; [split; try done; by apply card_fits_put|done].
Qed.

(** ** The FAT and cluster chains *)

(** A mounted file system on the sectors and on the driver, with clusters of [n] sectors. *)
Record drives (k : card_kind) (n : Z) (w : world D) (w' : world_on T) : Prop := {
  dr_sd : driven k (w_sd w) (w_sd w');
  dr_init : w_init w' = w_init w;
  dr_fs : w_fs w' = w_fs w;
  dr_spc : sectors_per_cluster (w_fs w) = n
}.

Section Mounted.
Variables (k : card_kind) (n : Z).
Local Notation sim_fs := (sim (drives k n) (drives k n)).

Lemma sim_on_sd {A} (Q : A -> Prop) m m' : sim (driven k) (driven k) Q m m' -> sim_fs Q (on_sd m) (on_sd m').
Proof.
  intros Hm w w' [Sd Hi Hf Hn]. specialize (Hm _ _ Sd). unfold on_sd, m_zoom.
  destruct (m (w_sd w)) as [[a s1]| | |]; [|done..]. destruct Hm as (s1' & -> & Sd1 & Qa). rewrite Hi, Hf.
  eexists. split; [done|]. split; [by split|done].
Qed.

Lemma sim_read lba :
  sim_fs (fun b => length b = (512 * Z.to_nat n)%nat /\ bytes b /\ 0 < n <= 65535)
    (on_sd (sd_fetch lba n)) (on_sd (sd_fetch lba n)).
Proof. apply sim_on_sd, sim_fetch. Qed.

Lemma sim_write data lba :
  (0 < n <= 65535 -> length data = (512 * Z.to_nat n)%nat) -> bytes data ->
  sim_fs (fun _ => True) (on_sd (sd_store data lba n)) (on_sd (sd_store data lba n)).
Proof. intros Ln By. by apply sim_on_sd, sim_store. Qed.

Lemma sim_get_fs : sim_fs (fun fs => sectors_per_cluster fs = n) get_fs_ get_fs_.
Proof. apply sim_gets. intros w w' [_ _ Hf Hn]. by rewrite Hf. Qed.

Lemma sim_demand_init : sim_fs (fun _ => True) demand_init demand_init.
Proof.
  apply sim_seq with (drives k n).
  - apply sim_gets. intros w w' Dr. by rewrite (dr_init _ _ _ _ Dr).
  - intros b. sim_run.
Qed.
#[local] Hint Resolve sim_get_fs sim_demand_init : sim.

Lemma sim_fat_get c : sim_fs (fun _ => True) (fat_get c) (fat_get c).
Proof. unfold fat_get. sim_run. Qed.

Lemma sim_fat_set c v : sim_fs (fun _ => True) (fat_set c v) (fat_set c v).
Proof.
  unfold fat_set. sim_run. apply sim_modify. intros w w' [Sd Hi Hf Hn]. cbn. rewrite Hf. by split.
Qed.

Lemma sim_cluster_to_lba c : sim_fs (fun _ => True) (cluster_to_lba c) (cluster_to_lba c).
Proof. unfold cluster_to_lba. sim_run. Qed.

Lemma sim_walk_fuel : sim_fs (fun _ => True) walk_fuel walk_fuel.
Proof. unfold walk_fuel. sim_run. Qed.
#[local] Hint Resolve sim_fat_get sim_fat_set sim_cluster_to_lba sim_walk_fuel : sim.

Lemma sim_chain_length_loop fuel c count :
  sim_fs (fun _ => True) (chain_length_loop fuel c count) (chain_length_loop fuel c count).
Proof. revert c count. induction fuel as [|fuel IH]; intros c count; cbn [chain_length_loop]; sim_run. Qed.
#[local] Hint Resolve sim_chain_length_loop : sim.

Lemma sim_chain_length c : sim_fs (fun _ => True) (get_cluster_chain_length c) (get_cluster_chain_length c).
Proof. unfold get_cluster_chain_length. sim_run. Qed.

Lemma sim_read_chain_loop fuel c acc : bytes acc ->
  sim_fs bytes (read_chain_loop fuel c acc) (read_chain_loop fuel c acc).
Proof.
  revert c acc. induction fuel as [|fuel IH]; intros c acc Ba; cbn [read_chain_loop]; sim_run.
  match goal with Hs : _ = n |- _ => rewrite Hs end. eapply sim_bind; [apply sim_read|]. intros b (_ & Bb & _). 
  assert (Bc : bytes (acc ++ b)) by by apply Forall_app. sim_run.
Qed.

Lemma sim_read_chain c : sim_fs bytes (read_cluster_chain c) (read_cluster_chain c).
Proof.
  unfold read_cluster_chain. sim_run. apply sim_read_chain_loop. constructor.
Qed.
#[local] Hint Resolve sim_chain_length sim_read_chain : sim.

Lemma sim_find_free_loop fuel c : sim_fs (fun _ => True) (find_free_loop fuel c) (find_free_loop fuel c).
Proof. revert c. induction fuel as [|fuel IH]; intros c; cbn [find_free_loop]; sim_run. Qed.
#[local] Hint Resolve sim_find_free_loop : sim.

Lemma sim_find_free c : sim_fs (fun _ => True) (find_free_cluster c) (find_free_cluster c).
Proof. unfold find_free_cluster. sim_run. Qed.

Lemma sim_write_fat : sim_fs (fun _ => True) write_fat_to_disk write_fat_to_disk.
Proof.
  unfold write_fat_to_disk. sim_run. apply sim_seq with (drives k n); [|by intros; sim_run].
  apply sim_on_sd, sim_store; [|apply buf_slice_bytes, fat_bytes_bytes].
  intros Hn. rewrite length_buf_slice. lia.
Qed.

Lemma sim_write_cluster data di lba : bytes data ->
  sim_fs (fun _ => True) (write_cluster data di lba) (write_cluster data di lba).
Proof.
  intros By. unfold write_cluster. eapply sim_bind; [apply sim_get_fs|]. intros fs ->.
  apply sim_seq with (drives k n); [|by intros; sim_run].
  apply sim_write; [|by apply buf_slice_bytes]. intros Hn. rewrite length_buf_slice. lia.
Qed.
#[local] Hint Resolve sim_find_free sim_write_fat sim_write_cluster : sim.

Lemma sim_chain_walk fuel data nbytes c di count start : bytes data ->
  sim_fs (fun _ => True) (write_chain_walk fuel data nbytes c di count start)
                         (write_chain_walk fuel data nbytes c di count start).
Proof.
  intros By. revert c di count start.
  induction fuel as [|fuel IH]; intros c di count start; cbn [write_chain_walk]; sim_run.
Qed.

Lemma sim_chain_extend fuel data nbytes c di start : bytes data ->
  sim_fs (fun _ => True) (write_chain_extend fuel data nbytes c di start)
                         (write_chain_extend fuel data nbytes c di start).
Proof.
  intros By. revert c di start.
  induction fuel as [|fuel IH]; intros c di start; cbn [write_chain_extend]; sim_run.
Qed.
#[local] Hint Resolve sim_chain_walk sim_chain_extend : sim.

Lemma sim_write_chain c data nbytes : bytes data ->
  sim_fs (fun _ => True) (write_cluster_chain c data nbytes) (write_cluster_chain c data nbytes).
Proof. intros By. unfold write_cluster_chain. sim_run. Qed.
#[local] Hint Resolve sim_write_chain : sim.

(** ** Directories and files *)

(** The name of an entry fills its eleven bytes; the other fields are stored by width. *)
Definition entry_ok (d : fat32_dirent_t) : Prop := length (filename d) = 11%nat /\ bytes (filename d).

Lemma entry_encode d : entry_ok d -> length (dirent_encode d) = 32%nat /\ bytes (dirent_encode d).
Proof.
  intros [Ln Bn]. unfold dirent_encode. split; [rewrite !length_app, !length_le_bytes, Ln; done|].
  repeat apply Forall_app_2; auto using le_bytes_bytes.
Qed.

Lemma entries_ok m b : bytes b -> (32 * m <= length b)%nat -> Forall entry_ok (dirents_of m b).
Proof. intros By Ln. pose proof (dirents_of_wf m b By Ln) as F.
  induction F as [|d ds [] _ IH]; constructor; [by split|done]. Qed.

Lemma entry_ok_lookup ds i d : Forall entry_ok ds -> ds !! i = Some d -> entry_ok d.
Proof. intros F E. exact (Forall_lookup_1 _ _ _ _ F E). Qed.

Lemma entry_ok_head d x : entry_ok d -> is_u8 x -> entry_ok (set_filename (x :: drop 1 (filename d)) d).
Proof.
  intros [Ln Bn] Hx. split; cbn; [rewrite length_drop; lia|]. constructor; [done|]. by apply Forall_drop.
Qed.

Lemma entry_ok_start d c : entry_ok d -> entry_ok (set_start c d).
Proof. done. Qed.

Lemma entry_ok_size d a m : entry_ok d -> entry_ok (set_attr_size a m d).
Proof. done. Qed.
#[local] Hint Resolve entry_ok_lookup entry_ok_start entry_ok_size : sim.
#[local] Hint Extern 1 (0 <= _) => lia : sim.

Lemma sim_get_dirents c : sim_fs (Forall entry_ok) (get_dirents c) (get_dirents c).
Proof.
  unfold get_dirents. sim_run. apply entries_ok; [done|]. apply Nat.Div0.mul_div_le.
Qed.

Lemma sim_set_name d fname : entry_ok d ->
  sim_fs entry_ok (fat32_dirent_set_name d fname) (fat32_dirent_set_name d fname).
Proof.
  intros Ok. unfold fat32_dirent_set_name. sim_run. destruct (raw_name_bytes fname HQ) as [Ln By]. by split.
Qed.

Lemma sim_follow_chain m c : sim_fs (fun _ => True) (follow_chain m c) (follow_chain m c).
Proof. revert c. induction m as [|m IH]; intros c; cbn [follow_chain]; sim_run. Qed.

Lemma sim_find_name ds fname :
  sim_fs (fun _ => True) (find_dirent_with_name ds fname) (find_dirent_with_name ds fname).
Proof. apply sim_find_dirent. Qed.
#[local] Hint Resolve sim_get_dirents sim_set_name sim_follow_chain sim_find_name : sim.

(** The entry stays within the cluster it is written to. *)
Lemma sim_write_dirent_at c idx d : entry_ok d -> 0 <= idx -> (0 < n <= 65535 -> idx < 16 * n) ->
  sim_fs (fun _ => True) (write_dirent_at c idx d) (write_dirent_at c idx d).
Proof.
  intros Ok Hp Hi. destruct (entry_encode d Ok) as [Ln By]. unfold write_dirent_at. sim_run. rewrite HQ0.
  eapply sim_bind; [apply sim_read|]. intros b (Lb & Bb & Hn). specialize (Hi Hn).
  apply sim_seq with (drives k n); [|by intros; sim_run].
  apply sim_write; [|by apply bytes_splice]. intros _. rewrite length_splice; [done|]. rewrite Ln, Lb. lia.
Qed.

Lemma entry_index idx e : 0 <= idx -> e = 16 * n -> 0 < n <= 65535 -> idx mod u32 e < 16 * n.
Proof. intros Hp -> Hn. rewrite u32_small by (unfold is_u32; lia). apply Z.mod_pos_bound. lia. Qed.

Lemma entry_index_nonneg idx e : 0 <= idx -> 0 <= idx mod u32 e.
Proof.
  intros Hp. assert (0 <= u32 e) by (apply Z.mod_pos_bound; lia).
  destruct (Z.eq_dec (u32 e) 0) as [->|]; [by rewrite Zmod_0_r|]. apply Z.mod_pos_bound. lia.
Qed.
#[local] Hint Resolve entry_index entry_index_nonneg : sim.

Lemma sim_write_dirent d dir idx : entry_ok d -> 0 <= idx ->
  sim_fs (fun _ => True) (fat32_write_dirent d dir idx) (fat32_write_dirent d dir idx).
Proof.
  intros Ok Hp. unfold fat32_write_dirent. sim_run. apply sim_write_dirent_at; [done|auto with sim|].
  apply entry_index; [done|lia].
Qed.
#[local] Hint Resolve sim_write_dirent : sim.

Lemma sim_create_dir : sim_fs (fun _ => True) create_dir_cluster create_dir_cluster.
Proof.
  unfold create_dir_cluster. sim_run. rewrite HQ3. eapply sim_bind; [apply sim_read|]. intros b (Lb & _ & _).
  apply sim_seq with (drives k n); [|by intros; sim_run].
  apply sim_write; [by rewrite length_replicate|]. apply Forall_replicate. unfold is_u8; lia.
Qed.
#[local] Hint Resolve sim_create_dir : sim.

Lemma sim_get_root : sim_fs (fun _ => True) fat32_get_root fat32_get_root.
Proof. unfold fat32_get_root. sim_run. Qed.

Lemma sim_readdir dir : sim_fs (fun _ => True) (fat32_readdir dir) (fat32_readdir dir).
Proof. unfold fat32_readdir. sim_run. Qed.

Lemma sim_stat dir fname : sim_fs (fun _ => True) (fat32_stat dir fname) (fat32_stat dir fname).
Proof. unfold fat32_stat. sim_run. Qed.

Lemma sim_read_file dir fname : sim_fs (fun f => bytes (f_data f)) (fat32_read dir fname) (fat32_read dir fname).
Proof. unfold fat32_read. sim_run. Qed.

(** The entry of a new file or directory. *)
Lemma sim_new_entry (is_dir : bool) d : entry_ok d ->
  sim_fs entry_ok
    (if is_dir then cluster ← create_dir_cluster; mret (set_start cluster (set_attr_size 0x10 4096 d))
     else mret (set_start 0 (set_attr_size 0x20 0 d)))
    (if is_dir then cluster ← create_dir_cluster; mret (set_start cluster (set_attr_size 0x10 4096 d))
     else mret (set_start 0 (set_attr_size 0x20 0 d))).
Proof. intros Ok. sim_run. Qed.

Lemma sim_create dir fname is_dir :
  sim_fs (fun _ => True) (fat32_create dir fname is_dir) (fat32_create dir fname is_dir).
Proof.
  unfold fat32_create. pose proof (sim_new_entry is_dir). sim_run.
  apply sim_write_dirent; [|lia]. apply entry_ok_head; [eauto with sim|unfold is_u8; lia].
Qed.

Lemma sim_delete_chain fuel c : sim_fs (fun _ => True) (delete_chain_loop fuel c) (delete_chain_loop fuel c).
Proof. revert c. induction fuel as [|fuel IH]; intros c; cbn [delete_chain_loop]; sim_run. Qed.
#[local] Hint Resolve sim_delete_chain : sim.

Lemma sim_delete dir fname : sim_fs (fun _ => True) (fat32_delete dir fname) (fat32_delete dir fname).
Proof.
  unfold fat32_delete. sim_run. eapply sim_bind; [apply sim_write_dirent; [|lia]|intros [] _; sim_run].
  apply entry_ok_head; [eauto with sim|unfold is_u8; lia].
Qed.
#[local] Hint Resolve sim_readdir sim_stat sim_read_file sim_create sim_delete : sim.

Lemma sim_rename dir old new : sim_fs (fun _ => True) (fat32_rename dir old new) (fat32_rename dir old new).
Proof. unfold fat32_rename. sim_run. Qed.

Lemma sim_verify_chain m count total c :
  sim_fs (fun _ => True) (verify_chain_loop m count total c) (verify_chain_loop m count total c).
Proof. revert count c. induction m as [|m IH]; intros count c; cbn [verify_chain_loop]; sim_run. Qed.
#[local] Hint Resolve sim_verify_chain : sim.

Lemma sim_verify lba idx d start file :
  sim_fs (fun _ => True) (verify_write lba idx d start file) (verify_write lba idx d start file).
Proof.
  unfold verify_write. sim_run. rewrite HQ. eapply sim_bind; [apply sim_read|]. intros b _. sim_run.
Qed.
#[local] Hint Resolve sim_verify : sim.

Lemma sim_write_file dir fname file : bytes (f_data file) ->
  sim_fs (fun _ => True) (fat32_write dir fname file) (fat32_write dir fname file).
Proof.
  intros By. unfold fat32_write. sim_run.
  eapply sim_bind; [apply sim_write_dirent_at; [eauto with sim|auto with sim|]|intros [] _; sim_run].
  apply entry_index; lia.
Qed.
#[local] Hint Resolve sim_write_file : sim.

Lemma sim_truncate dir fname len :
  sim_fs (fun _ => True) (fat32_truncate dir fname len) (fat32_truncate dir fname len).
Proof.
  unfold fat32_truncate. sim_run. eapply sim_bind; [apply sim_write_file|intros; sim_run].
  by destruct (_ <? _); [|destruct (_ <? _)].
Qed.
End Mounted.

(** ** Mounting *)

(** The same for some size of the clusters. *)
Definition served (k : card_kind) (w : world D) (w' : world_on T) : Prop := exists n, drives k n w w'.

Lemma sim_served k {A} (Q : A -> Prop) m m' :
  (forall n, sim (drives k n) (drives k n) Q m m') -> sim (served k) (served k) Q m m'.
Proof.
  intros Hm w w' [n Dr]. specialize (Hm n w w' Dr). destruct (m w) as [[a w1]| | |]; [|done..].
  destruct Hm as (w1' & E & Dr1 & Qa). exists w1'. split; [done|]. split; [by exists n|done].
Qed.

Lemma sim_sector k lba m :
  sim (served k) (served k) (fun _ => True) (on_sd (sd_fetch lba m)) (on_sd (sd_fetch lba m)).
Proof. apply sim_served. intros n. eapply sim_true, sim_on_sd, sim_fetch. Qed.
#[local] Hint Resolve sim_sector : sim.

Lemma sim_mbr_read k : sim (served k) (served k) (fun _ => True) mbr_read mbr_read.
Proof. unfold mbr_read. sim_run. Qed.

Lemma sim_mk k part : sim (served k) (served k) (fun _ => True) (fat32_mk part) (fat32_mk part).
Proof.
  unfold fat32_mk. apply sim_bind with (served k) (fun _ => True); [|intros b _; sim_run].
  - apply sim_gets. intros w w' [n Dr]. by rewrite (dr_init _ _ _ _ Dr).
  - eapply sim_bind; [apply sim_modify|intros; sim_run].
    intros w w' [n [Sd _ _ _]]. eexists. by split.
Qed.

(** Before the start: whatever the registers of the controller hold, with the same card behind
    it. *)
Record powered (k : card_kind) (w : world D) (w' : world_on T) : Prop := {
  pw_kind : h_kind (e_host (p_emmc (w_sd w'))) = k;
  pw_card : h_card (e_host (p_emmc (w_sd w'))) = sd_card (w_sd w);
  pw_scr : length (scr_scr (device (p_emmc (w_sd w')))) = 8%nat;
  pw_mem : bytes (e_mem (p_emmc (w_sd w')));
  pw_fits : card_fits k (sd_card (w_sd w));
  pw_init : w_init w' = w_init w;
  pw_fs : w_fs w' = w_fs w
}.

Lemma sim_start k : kind_wf k ->
  sim (powered k) (served k) (fun _ => True) (on_sd sd_start) (on_sd sd_start).
Proof.
  intros Kw w w' [Hk Hc Ls By Fi Hi Hf]. unfold on_sd, m_zoom. cbn [sd_start card_pi_sd driver_pi_sd].
  unfold pi_sd_init. rewrite gets_run. destruct (sd_init_ok _); [|done]. rewrite modify_run. cbn.
  destruct (emmc_init_run k _ _ Kw Hk Hc Ls By) as (s1 & E & R & _).
  assert (Ed : drv_sd_init (w_sd w') = Done (1, mkPiSd true s1)).
  { unfold drv_sd_init, sd_init, on_emmc, mbind, M_bind, m_zoom. cbn [p_emmc]. by rewrite E. }
  rewrite Ed. eexists. split; [done|]. split; [|done]. by eexists.
Qed.

(** ** The interface of the file system *)

Record api_served (R : world D -> world_on T -> Prop) (a : fsapi D) (a' : fsapi_on T) : Prop := {
  as_world : R (a_world a) (a_world a');
  as_root : a_root a' = a_root a;
  as_mirror : a_mirror a' = a_mirror a;
  as_id : a_next_id a' = a_next_id a
}.

Lemma sim_on_fs R R' {A} (Q : A -> Prop) m m' :
  sim R R' Q m m' -> sim (api_served R) (api_served R') Q (on_fs m) (on_fs m').
Proof.
  intros Hm a a' [Aw Ar Am Ai]. specialize (Hm _ _ Aw). unfold on_fs, m_zoom.
  destruct (m (a_world a)) as [[r w1]| | |]; [|done..]. destruct Hm as (w1' & -> & Aw1 & Qr).
  eexists. split; [done|]. split; [by split|done].
Qed.

Section Api.
Variable k : card_kind.
Local Notation sim_api := (sim (api_served (served k)) (api_served (served k))).

Lemma sim_fs_call {A} (Q : A -> Prop) m m' :
  (forall n, sim (drives k n) (drives k n) Q m m') -> sim_api Q (on_fs m) (on_fs m').
Proof. intros Hm. by apply sim_on_fs, sim_served. Qed.

Lemma sim_mirror_get : sim_api (fun _ => True) (m_gets a_mirror) (m_gets a_mirror).
Proof. apply sim_gets. intros a a' Ap. by rewrite (as_mirror _ _ _ Ap). Qed.

Lemma sim_root_get : sim_api (fun _ => True) (m_gets a_root) (m_gets a_root).
Proof. apply sim_gets. intros a a' Ap. by rewrite (as_root _ _ _ Ap). Qed.

Lemma sim_set_cwd d c : sim_api (fun _ => True) (set_cwd_chain d c) (set_cwd_chain d c).
Proof. apply sim_modify. intros a a' [Aw Ar Am Ai]. split; cbn; congruence. Qed.
#[local] Hint Resolve sim_mirror_get sim_root_get sim_set_cwd : sim.
#[local] Hint Extern 1 (sim _ _ _ (on_fs _) _) => apply sim_fs_call; intros n : sim.
#[local] Hint Resolve sim_stat sim_readdir sim_create sim_delete sim_read_file sim_write_file : sim.

Lemma sim_dirname dirname cd :
  sim_api (fun _ => True) (dirname_to_directory dirname cd) (dirname_to_directory dirname cd).
Proof. unfold dirname_to_directory. sim_run. Qed.
#[local] Hint Resolve sim_dirname : sim.

Lemma sim_changedir dirname : sim_api (fun _ => True) (fs_changedir dirname) (fs_changedir dirname).
Proof. unfold fs_changedir. sim_run. Qed.

Lemma sim_listdir dirname : sim_api (fun _ => True) (fs_listdir dirname) (fs_listdir dirname).
Proof. unfold fs_listdir. sim_run. Qed.

Lemma sim_fs_create dirname fname is_dir cd :
  sim_api (fun _ => True) (fs_create dirname fname is_dir cd) (fs_create dirname fname is_dir cd).
Proof. unfold fs_create. sim_run. Qed.

Lemma sim_fs_delete dirname fname : sim_api (fun _ => True) (fs_delete dirname fname) (fs_delete dirname fname).
Proof. unfold fs_delete. sim_run. Qed.

Lemma sim_fs_read dirname fname :
  sim_api (fun r => bytes (fst r)) (fs_read dirname fname) (fs_read dirname fname).
Proof. unfold fs_read. sim_run. Qed.

Lemma sim_fs_write dirname fname data nbytes : bytes data ->
  sim_api (fun _ => True) (fs_write dirname fname data nbytes) (fs_write dirname fname data nbytes).
Proof. intros By. unfold fs_write. sim_run. Qed.

Lemma cstr_bytes l : bytes l -> bytes (cstr l).
Proof. induction 1 as [|c l Hc _ IH]; cbn; [constructor|]. destruct (c =? 0); by constructor. Qed.

Lemma sim_fs_append dirname fname data : bytes data ->
  sim_api (fun _ => True) (fs_append dirname fname data) (fs_append dirname fname data).
Proof.
  intros By. unfold fs_append. sim_run. apply sim_fs_call. intros n. apply sim_write_file. cbn.
  destruct (_ <? _); [|done]. apply Forall_app_2; [by apply buf_slice_bytes|].
  apply Forall_app_2; [by apply cstr_bytes|]. by repeat constructor.
Qed.

Lemma sim_register name : sim_api (fun _ => True) (register_mirror name) (register_mirror name).
Proof.
  intros a a' [Aw Ar Am Ai]. unfold register_mirror. rewrite !gets_run. unfold m_modify.
  eexists. split; [done|]. split; [|done]. by split; cbn; rewrite ?Ar, ?Ai.
Qed.

Lemma sim_fs_init : kind_wf k ->
  sim (api_served (powered k)) (api_served (served k)) (fun _ => True) (fs_init true) (fs_init true).
Proof.
  intros Kw. unfold fs_init. cbn [negb].
  eapply sim_bind; [apply sim_on_fs, (sim_start k Kw)|intros _ _].
  eapply sim_bind; [apply sim_on_fs, sim_mbr_read|intros mbr _].
  eapply sim_bind; [apply sim_on_fs, sim_mk|intros _ _].
  eapply sim_bind; [apply sim_fs_call; intros n; apply sim_get_root|intros root _].
  apply sim_modify. intros a a' [Aw Ar Am Ai]. by split.
Qed.
End Api.
End Driver.

(** ** Programs on the file system *)

(** The calls of fs-apis.c, by the type of their result. *)
Inductive fs_call : Type -> Type :=
  | FsRegister (name : list Z) : fs_call unit
  | FsChangedir (dirname : list Z) : fs_call bool
  | FsListdir (dirname : list Z) : fs_call (bool * list Z)
  | FsCreate (dirname fname : list Z) (is_dir cd : bool) : fs_call Z
  | FsDelete (dirname fname : list Z) : fs_call Z
  | FsRead (dirname fname : list Z) : fs_call (list Z * Z)
  | FsWrite (dirname fname data : list Z) (nbytes : Z) : fs_call Z
  | FsAppend (dirname fname data : list Z) : fs_call Z.

(** A program: calls, each chosen by what the calls before it returned. *)
Inductive fs_program (A : Type) : Type :=
  | FsReturn (a : A)
  | FsCall {R} (c : fs_call R) (next : R -> fs_program A).
Arguments FsReturn {_} _.
Arguments FsCall {_ _} _ _.

Section Programs.
Context {T : Type} `{PiSd T} `{HeapGarbage}.

Definition fs_do {R} (c : fs_call R) : M (fsapi_on T) R :=
  match c with
  | FsRegister name => register_mirror name
  | FsChangedir dirname => fs_changedir dirname
  | FsListdir dirname => fs_listdir dirname
  | FsCreate dirname fname is_dir cd => fs_create dirname fname is_dir cd
  | FsDelete dirname fname => fs_delete dirname fname
  | FsRead dirname fname => fs_read dirname fname
  | FsWrite dirname fname data nbytes => fs_write dirname fname data nbytes
  | FsAppend dirname fname data => fs_append dirname fname data
  end.

Fixpoint fs_run {A} (p : fs_program A) : M (fsapi_on T) A :=
  match p with
  | FsReturn a => mret a
  | FsCall c next => r ← fs_do c; fs_run (next r)
  end.
End Programs.

(** The buffers a program passes hold bytes, given that those it gets do. *)
Definition call_ok {R} (c : fs_call R) : Prop :=
  match c with FsWrite _ _ data _ | FsAppend _ _ data => bytes data | _ => True end.
Definition result_ok {R} (c : fs_call R) : R -> Prop :=
  match c with FsRead _ _ => fun r => bytes (fst r) | _ => fun _ => True end.
Fixpoint program_ok {A} (p : fs_program A) : Prop :=
  match p with
  | FsReturn _ => True
  | FsCall c next => call_ok c /\ forall r, result_ok c r -> program_ok (next r)
  end.

Section OnDriver.
Context {D : Type} `{BlockDeviceLaws D} `{EmmcLatency} `{!HeapGarbage} `{!HeapGarbageBytes}.
Local Notation T := (pi_sd_t (D := D)).

(** The card behind the controller has the sectors. *)
Lemma served_card k (a : fsapi D) (a' : fsapi_on T) : api_served (served k) a a' ->
  h_card (e_host (p_emmc (w_sd (a_world a')))) = sd_card (w_sd (a_world a)).
Proof.
  intros [[n [[_ _ Rd _] _ _ _]] _ _ _]. destruct (ready_quiet _ _ _ Rd) as [b [[V _] _]]. exact (f_equal v_card V).
Qed.

Lemma sim_call k {R} (c : fs_call R) : call_ok c ->
  sim (api_served (served k)) (api_served (served k)) (result_ok c) (fs_do (T := sd_t D) c) (fs_do (T := T) c).
Proof.
  destruct c; cbn [fs_do call_ok result_ok]; intros Ok;
    auto using sim_register, sim_changedir, sim_listdir, sim_fs_create, sim_fs_delete, sim_fs_read,
      sim_fs_write, sim_fs_append.
Qed.

Lemma sim_program k {A} (p : fs_program A) : program_ok p ->
  sim (api_served (served k)) (api_served (served k)) (fun _ => True) (fs_run (T := sd_t D) p) (fs_run (T := T) p).
Proof.
  induction p as [x|R c next IH]; intros Ok; cbn [fs_run program_ok] in *; [by apply sim_ret|].
  destruct Ok as [Oc On]. eapply sim_bind; [by apply sim_call|]. intros r Hr. auto.
Qed.

(** C5: the file system on the SD-card driver.  Take any card within the specification that has
    no sectors beyond those its commands can name, the registers of the controller in any state,
    and any program that sets the file system up with fs_init and then makes calls of fs-apis.c
    with buffers of bytes, each chosen by what it has been told before.  If the program returns
    when the calls of pi-sd.c are served from the sectors of the card, it returns when they are
    served by the driver (mounting, the read-change-write of directory entries, the FAT and
    every cluster going through commands, status flags and the data port of the controller),
    with the same result, the same FAT and the same current directory in memory, and the card
    has the same sectors at the end. *)
Theorem files_on_driver {A} k (p : fs_program A) (a a1 : fsapi D) (a' : fsapi_on T) r :
  kind_wf k -> program_ok p -> api_served (powered k) a a' ->
  (fs_init true;; fs_run p) a = Done (r, a1) ->
  exists a1', (fs_init true;; fs_run p) a' = Done (r, a1') /\
    w_fs (a_world a1') = w_fs (a_world a1) /\ a_mirror a1' = a_mirror a1 /\
    h_card (e_host (p_emmc (w_sd (a_world a1')))) = sd_card (w_sd (a_world a1)).
Proof.
  intros Kw Ok Pw E.
  assert (Sm : sim (api_served (powered k)) (api_served (served k)) (fun _ => True)
                 (fs_init true;; fs_run (T := sd_t D) p) (fs_init true;; fs_run (T := T) p)).
  { eapply sim_bind; [by apply sim_fs_init|]. intros ? _. by apply sim_program. }
  specialize (Sm a a' Pw). rewrite E in Sm. destruct Sm as (a1' & E' & Sv & _). exists a1'. split; [done|].
  pose proof (served_card k _ _ Sv) as Hc. by destruct Sv as [[n [_ _ Hf _]] _ Am _].
Qed.
End OnDriver.

(** ** A program on a formatted card *)

Module DriverExample.
#[local] Existing Instance Small.garbage.
#[local] Existing Instance Small.garbage_bytes.
#[local] Existing Instance EmmcExample.some_latency.

Definition mbr : list Z :=
  Card.put 450 1 0xb (Card.put 454 4 1 (Card.put 458 4 999 (Card.put 510 2 0xAA55 (replicate 512 0)))).
Definition formatted : ram_card :=
  mk_ram 1000 (<[0 := mbr]> (ram_secs (sd_card (w_sd Card.w)))).

Definition fs_zero : fat32_fs_t := mk_fs 0 0 0 0 0 [] 0.
Definition nobody : fs_mirror_t := mk_mirror [] 0 Card.root [].
Definition at_boot {T} (sd : T) : fsapi_on T := mk_fsapi (mk_world sd false fs_zero) Card.root nobody 1.

Definition controller : emmc_t ram_card :=
  mkEmmc EmmcExample.device0
    (mkHost formatted EmmcExample.kind0 0 false 0 0 0 [] 0 0 0 0 0 [] false None None 0) [] GpioExample.bcm0.

(** A file is created and filled; what it holds is copied to a second file, which is read in
    turn. *)
Definition copy : fs_program (list Z) :=
  FsCall (FsRegister (str "copy")) (fun _ =>
  FsCall (FsCreate (str "~") (str "A.TXT") false false) (fun _ =>
  FsCall (FsAppend (str "~") (str "A.TXT") (str "GOOD" ++ [0])) (fun _ =>
  FsCall (FsRead (str ".") (str "A.TXT")) (fun r =>
  FsCall (FsCreate (str ".") (str "B.TXT") false false) (fun _ =>
  FsCall (FsWrite (str ".") (str "B.TXT") (fst r) (snd r)) (fun _ =>
  FsCall (FsRead (str ".") (str "B.TXT")) (fun r' => FsReturn (take (Z.to_nat (snd r')) (fst r'))))))))).

Definition run_copy : res (list Z * fsapi ram_card) := (fs_init true;; fs_run copy) (at_boot (mk_sd false formatted)).
Definition after_copy : fsapi ram_card :=
  match run_copy with Done (_, a) => a | _ => at_boot (mk_sd false formatted) end.

Lemma copy_returns : run_copy = Done (str "GOOD", after_copy).
Proof. by vm_compute. Qed.

Lemma copy_ok : program_ok copy.
Proof. by repeat (split; [first [done | by repeat constructor]|intros ? ?]). Qed.

Lemma kind0_wf : kind_wf EmmcExample.kind0.
Proof.
  split; [done|cbn; lia|cbn; lia|done|]. repeat (apply Forall_cons_2; [unfold is_u8; lia|]). apply Forall_nil_2.
Qed.

Lemma boots : api_served (powered EmmcExample.kind0) (at_boot (mk_sd false formatted)) (at_boot (mkPiSd false controller)).
Proof. split; [|done|done|done]. split; try done. intros l Hl. cbn in Hl. cbn. lia. Qed.

Lemma files_on_driver_witness :
  kind_wf EmmcExample.kind0 /\ run_copy = Done (str "GOOD", after_copy) /\
  exists a1', (fs_init true;; fs_run copy) (at_boot (mkPiSd false controller)) = Done (str "GOOD", a1') /\
    w_fs (a_world a1') = w_fs (a_world after_copy) /\ a_mirror a1' = a_mirror after_copy /\
    h_card (e_host (p_emmc (w_sd (a_world a1')))) = sd_card (w_sd (a_world after_copy)).
Proof.
  split; [exact kind0_wf|]. split; [exact copy_returns|].
  apply (files_on_driver EmmcExample.kind0 copy (at_boot (mk_sd false formatted)) after_copy _ (str "GOOD")
           kind0_wf copy_ok).
  - exact boots.
  - exact copy_returns.
Defined.
End DriverExample.
