(* ===== verification/DfsStore.v ===== *)
(** * Storage of the servers (src/dfs/dfs-master-fat.c, dfs-chunk-fat.c,
      src/libpi/include/dfs-fat32-common.h, dfs-master-fat.h)

    The names chunks and clients get on the card, the master's table of chunk maps kept as
    the contents of a file, and the chunk server's files.  [ChunkStore] is the interface the
    chunk server uses; its FAT32 implementation is the instance below. *)

From stdpp Require Import base tactics option list numbers sets gmap.
From Stdlib Require Import ZArith Lia.
From Stdlib Require String.
From S2P Require Import Prelude Format Sd FatTable FatChain Dirent Fat32 FsApi.
Import String.StringSyntax.
#[local] Open Scope string_scope.
#[local] Open Scope Z_scope.

Definition CHUNK_SIZE : Z := 1024.
Definition CHUNK_SERVER_PKT_SIZE : Z := 16.

(** ** Names *)

(** [while (n > 0) { res[i] = map[n%10]; n /= 10; i++; }]: ten digits are enough for 32
    bits. *)
Fixpoint rev_digits (fuel : nat) (n : Z) : list Z :=
  match fuel with
  | O => []
  | S fuel => if 0 <? n then (48 + n mod 10) :: rev_digits fuel (n / 10) else []
  end.

Definition int_to_filename (n : Z) (is_dir : bool) : list Z :=
  rev_digits 10 n ++ (if is_dir then [] else str ".TXT").

(** ** Chunk maps *)

Record chunk_map_t : Type := mk_chunk_map {
  chunk_server_addrs : list Z;   (* three of them *)
  chunk_id : Z;
  num_replica : Z
}.

(** 20 bytes: the last three are padding, of unspecified contents. *)
Definition chunk_map_encode (pad : list Z) (m : chunk_map_t) : list Z :=
  concat (le_bytes 4 <$> chunk_server_addrs m) ++ le_bytes 4 (chunk_id m) ++
  le_bytes 1 (num_replica m) ++ pad.

Definition chunk_map_decode (b : list Z) : chunk_map_t :=
  mk_chunk_map [field 0 4 b; field 4 4 b; field 8 4 b] (field 12 4 b) (field 16 1 b).

Definition sizeof_chunk_map : Z := 20.

(** [maps[sqn]] in a buffer of maps. *)
Definition map_at (b : list Z) (sqn : Z) : option chunk_map_t :=
  let o := Z.to_nat (sqn * sizeof_chunk_map) in
  if decide (o + 20 <= length b)%nat then Some (chunk_map_decode (take 20 (drop o b))) else None.

Record client_dirent_t : Type := mk_client_dirent {
  cd_client_id : Z;
  cd_cur_dir : pi_dirent_t;
  cd_root : pi_dirent_t;
  cd_chunk_id : Z
}.

(** The operations the master uses. *)
Class MasterStore (St : Type) : Type := {
  ms_client_init : Z -> M St client_dirent_t;
  ms_listdir : list Z -> M St (bool * list Z);
  ms_changedir : list Z -> M St bool;
  ms_get_chunk_num : list Z -> M St Z;
  ms_get_chunks : list Z -> Z -> M St chunk_map_t;
  ms_create : list Z -> bool -> M St Z;
  ms_delete : list Z -> M St Z;
  ms_add_chunk_server : list Z -> Z -> Z -> Z -> M St unit
}.

(** Padding bytes of a [chunk_map_t] built on the stack. *)
Class MapPad : Type := map_pad : list Z.
Class MapPadOk `{MapPad} : Prop := map_pad_ok : bytes map_pad /\ length map_pad = 3%nat.

Section Master.
Context {T : Type} `{PiSd T} `{HeapGarbage} `{MapPad}.
Local Notation A := (fsapi_on T).

(** [fat32_ready]: see [fs_init]; the UART and heap set-up have no effect here. *)
Definition master_fat32_init (fat32_ready : bool) : M A unit :=
  fs_init fat32_ready;;
  register_mirror (str "master").

Definition master_fat32_client_init (client_id : Z) : M A client_dirent_t :=
  fs_create (str "~") (int_to_filename client_id true) true true;;
  m ← m_gets a_mirror;
  mret (mk_client_dirent client_id (cwd m) (cwd m) 1).

Definition master_fat32_listdir (dirname : list Z) : M A (bool * list Z) := fs_listdir dirname.

Definition master_fat32_changedir (dirname : list Z) : M A bool := fs_changedir dirname.

Definition master_fat32_get_chunk_num (fname : list Z) : M A Z :=
  '(_, nbytes) ← fs_read (str ".") fname;
  mret (nbytes / sizeof_chunk_map).

Definition master_fat32_get_chunks (fname : list Z) (sqn : Z) : M A chunk_map_t :=
  '(maps, _) ← fs_read (str ".") fname;
  m_opt (map_at maps sqn).

Definition master_fat32_create (fname : list Z) (is_dir : bool) : M A Z :=
  fs_create (str ".") fname is_dir false.

Definition master_fat32_delete (fname : list Z) : M A Z :=
  fs_delete (str ".") fname.

Definition master_fat32_add_chunk_server (fname : list Z) (cid sqn addr : Z) : M A unit :=
  '(maps, nbytes) ← fs_read (str ".") fname;
  let chunk_num := nbytes / sizeof_chunk_map in
  '(new_map, chunk_num) ←
    (if chunk_num <=? sqn then
       mret (mk_chunk_map [addr; 0; 0] cid 1, u32 (chunk_num + 1))
     else
       old_map ← m_opt (map_at maps sqn);
       if num_replica old_map <? 3 then
         let addrs := <[Z.to_nat (num_replica old_map) := addr]> (chunk_server_addrs old_map) in
         mret (mk_chunk_map addrs cid (u8 (num_replica old_map + 1)), chunk_num)
       else m_undef);
  let new_nbytes := u32 (sizeof_chunk_map * chunk_num) in
  let data :=
    if 1 <? chunk_num
    then buf_slice maps 0 (Z.to_nat (sizeof_chunk_map * (chunk_num - 1))) ++
         chunk_map_encode map_pad new_map
    else chunk_map_encode map_pad new_map in
  fs_write (str ".") fname data new_nbytes;;
  mret tt.

#[export] Instance fat32_master_store : MasterStore A := {|
  ms_client_init := master_fat32_client_init;
  ms_listdir := master_fat32_listdir;
  ms_changedir := master_fat32_changedir;
  ms_get_chunk_num := master_fat32_get_chunk_num;
  ms_get_chunks := master_fat32_get_chunks;
  ms_create := master_fat32_create;
  ms_delete := master_fat32_delete;
  ms_add_chunk_server := master_fat32_add_chunk_server
|}.
End Master.

(** ** Chunks *)

Class ChunkStore (St : Type) : Type := {
  cs_create : Z -> M St Z;
  cs_append : Z -> list Z -> M St Z;
  cs_delete : Z -> M St Z;
  cs_read : Z -> M St (list Z * Z)      (* the buffer and [n_data] *)
}.

Section Chunk.
Context {T : Type} `{PiSd T} `{HeapGarbage}.
Local Notation A := (fsapi_on T).

Definition chunkserver_fat32_init (fat32_ready : bool) : M A unit :=
  fs_init fat32_ready;;
  register_mirror (str "chunk").

Definition chunkserver_create_chunk (cid : Z) : M A Z :=
  fs_create (str "~") (int_to_filename cid false) false false.

Definition chunkserver_append_chunk (cid : Z) (data : list Z) : M A Z :=
  fs_append (str "~") (int_to_filename cid false) data.

Definition chunkserver_delete_chunk (cid : Z) : M A Z :=
  fs_delete (str "~") (int_to_filename cid false).

Definition chunkserver_read (cid : Z) : M A (list Z * Z) :=
  fs_read (str "~") (int_to_filename cid false).

#[export] Instance fat32_chunk_store : ChunkStore A := {|
  cs_create := chunkserver_create_chunk;
  cs_append := chunkserver_append_chunk;
  cs_delete := chunkserver_delete_chunk;
  cs_read := chunkserver_read
|}.
End Chunk.

(** ** Properties of names *)

Lemma rev_digits_val fuel n : 0 <= n < 10 ^ Z.of_nat fuel ->
  digits_val 10 (rev_digits fuel n) = n.
Proof.
  revert n. induction fuel as [|fuel IH]; intros n Hn; [simpl in *; lia|].
  rewrite Nat2Z.inj_succ, Z.pow_succ_r in Hn by lia. cbn [rev_digits].
  destruct (Z.ltb_spec 0 n); [|simpl; lia].
  assert (0 <= n mod 10 < 10) by (apply Z.mod_pos_bound; lia).
  cbn [digits_val]. rewrite (proj2 (Z.ltb_lt _ _)) by lia.
  rewrite IH; [pose proof (Z.div_mod n 10); lia|].
  split; [apply Z.div_pos; lia|apply Z.div_lt_upper_bound; lia].
Qed.

Lemma rev_digits_alnum fuel n : alnum (rev_digits fuel n).
Proof.
  revert n. induction fuel as [|fuel IH]; intros n; [constructor|]. cbn [rev_digits].
  destruct (0 <? n); [|constructor]. constructor; [|apply IH].
  assert (0 <= n mod 10 < 10) by (apply Z.mod_pos_bound; lia).
  unfold is_upper_alnum. rewrite (proj2 (Z.ltb_lt _ 65)), (proj2 (Z.ltb_ge 90 _)),
    (proj2 (Z.ltb_ge _ 48)), (proj2 (Z.ltb_ge 57 _)) by lia. done.
Qed.

Lemma rev_digits_length fuel n k : 0 <= n < 10 ^ Z.of_nat k ->
  (length (rev_digits fuel n) <= k)%nat.
Proof.
  revert n k. induction fuel as [|fuel IH]; intros n k Hn; [simpl; lia|]. cbn [rev_digits].
  destruct (Z.ltb_spec 0 n); [|simpl; lia].
  destruct k as [|k]; [simpl in Hn; lia|]. simpl length.
  rewrite Nat2Z.inj_succ, Z.pow_succ_r in Hn by lia.
  assert (length (rev_digits fuel (n / 10)) <= k)%nat; [|lia].
  apply IH. split; [apply Z.div_pos; lia|apply Z.div_lt_upper_bound; lia].
Qed.

Lemma rev_digits_pos fuel n : 0 < n -> (1 <= fuel)%nat -> (1 <= length (rev_digits fuel n))%nat.
Proof.
  intros Hn Hf. destruct fuel; [lia|]. cbn [rev_digits].
  rewrite (proj2 (Z.ltb_lt _ _)) by done. simpl. lia.
Qed.

Lemma shape_ext_valid b e : (1 <= length b <= 8)%nat -> length e = 3%nat -> alnum b -> alnum e ->
  fat32_is_valid_name (b ++ DOT :: e) = true.
Proof.
  intros Hb He Ab Ae. unfold fat32_is_valid_name. cbv zeta.
  rewrite has_dot_app, length_app. simpl length. rewrite He.
  replace (length b + 4 - 4)%nat with (length b) by lia.
  rewrite !(proj2 (Z.ltb_ge _ _)) by lia.
  unfold char_at. rewrite list_lookup_middle by done. simpl negb.
  apply forallb_forall. intros [i c] Hin%list_elem_of_In%list_elem_of_lookup.
  destruct Hin as [j Hj]. rewrite list_lookup_imap in Hj.
  apply fmap_Some in Hj as (c' & Hc & E). injection E as -> ->. simpl.
  destruct (decide (j = length b)) as [->|Hne]; [by rewrite Nat.eqb_refl, orb_true_r|].
  apply orb_true_iff. left.
  apply lookup_app_Some in Hc as [Hc|[Hl Hc]]; [exact (Forall_lookup_1 _ _ _ _ Ab Hc)|].
  destruct (j - length b)%nat as [|k] eqn:Ek; [lia|].
  exact (Forall_lookup_1 _ _ _ _ Ae Hc).
Qed.

Definition chunk_id_ok (n : Z) : Prop := 0 < n < 10 ^ 8.

Lemma chunk_name_valid n : chunk_id_ok n ->
  fat32_is_valid_name (int_to_filename n false) = true /\
  has_dot (int_to_filename n false) = true.
Proof.
  intros [Hn Hm]. unfold int_to_filename.
  change (str ".TXT") with (DOT :: str "TXT"). split; [|apply has_dot_app].
  apply shape_ext_valid; [|done|apply rev_digits_alnum|by repeat constructor].
  split; [apply rev_digits_pos; [done|lia]|].
  apply rev_digits_length. change (Z.of_nat 8) with 8. lia.
Qed.

Lemma chunk_name_inj n m : 0 <= n < 10 ^ 10 -> 0 <= m < 10 ^ 10 ->
  int_to_filename n false = int_to_filename m false -> n = m.
Proof.
  intros Hn Hm E. unfold int_to_filename in E. apply app_inv_tail in E.
  rewrite <-(rev_digits_val 10 n), <-(rev_digits_val 10 m) by (change (Z.of_nat 10) with 10; lia).
  by rewrite E.
Qed.

(** Chunk files: distinct 32-bit chunk ids get distinct names, the names of ids from 1
    to 10^8-1 are valid 8.3 names, and the ids 0 and 10^8 and up get names that
    [fat32_is_valid_name] refuses. *)
Theorem chunk_file_names :
  (forall n m, is_u32 n -> is_u32 m ->
     int_to_filename n false = int_to_filename m false -> n = m) /\
  (forall n, is_u32 n ->
     fat32_is_valid_name (int_to_filename n false) = true <-> 0 < n < 10 ^ 8).
Proof.
  split.
  - intros n m [? ?] [? ?]. apply chunk_name_inj; lia.
  - intros n [Hn Hm]. split.
    + intros V. destruct (Z.ltb_spec 0 n) as [Hp|Hp].
      2: { assert (n = 0) as -> by lia. done. }
      split; [done|]. apply Z.nle_gt. intros Hbig.
      assert (length (rev_digits 10 n) <= 8)%nat as L.
      { apply valid_name_shape in V as (b & e & Sh). unfold int_to_filename in Sh.
        remember (rev_digits 10 n ++ str ".TXT") as name eqn:En.
        pose proof (alnum_no_dot _ (rev_digits_alnum 10 n)) as Hd.
        change (str ".TXT") with (DOT :: str "TXT") in En.
        destruct Sh as [b e Hb He Ab Ae|b Hb Ab].
        - apply app_dot_inj in En as [<- _]; [lia|by apply alnum_no_dot|done].
        - subst b. apply alnum_no_dot in Ab. set_solver. }
      assert (n < 10 ^ 8); [|lia].
      rewrite <-(rev_digits_val 10 n) by (change (Z.of_nat 10) with 10; lia).
      pose proof (rev_digits_alnum 10 n) as A. revert L A.
      assert (R : Forall (fun c => 48 <= c <= 57) (rev_digits 10 n)).
      { clear. generalize 10%nat. intros f. revert n.
        induction f as [|f IH]; intros n; [constructor|]. cbn [rev_digits].
        destruct (0 <? n); constructor; [|apply IH].
        assert (0 <= n mod 10 < 10) by (apply Z.mod_pos_bound; lia). lia. }
      intros L _. eapply Z.lt_le_trans; [|apply (Z.pow_le_mono_r 10 (Z.of_nat
        (length (rev_digits 10 n))) 8); lia].
      clear -R. induction R as [|c l Hc R IH]; [simpl; lia|].
      simpl length. rewrite Nat2Z.inj_succ, Z.pow_succ_r by lia. cbn [digits_val].
      rewrite (proj2 (Z.ltb_lt _ _)) by lia. lia.
    + intros Hr. by apply chunk_name_valid.
Qed.
