(* ===== verification/ChunkFat.v ===== *)
(** * The chunk store on FAT32

    [ChunkStoreLaws] states what the chunk server may assume of its storage: a finite map
    from chunk ids to contents, with a budget of operations that are guaranteed to succeed.
    The instance at the end proves that the FAT32-backed store of [DfsStore] keeps that
    promise. *)

From stdpp Require Import base tactics option list numbers sets gmap.
From Stdlib Require Import ZArith Lia.
From Stdlib Require String.
From S2P Require Import Prelude Sd FatTable FatChain Dirent Fat32 Fat32Dir Fat32Thm.
From S2P Require Import FileDir FsApi DfsStore.
Import String.StringSyntax.
#[local] Open Scope string_scope.
#[local] Open Scope Z_scope.

(** ** The contract *)

Class ChunkStoreLaws (St : Type) `{ChunkStore St} : Type := {
  (** [stored st m n]: the chunks of [st] are [m], and [n] more calls will find room. *)
  stored : St -> gmap Z (list Z) -> nat -> Prop;
  store_create st m n id : stored st m (S n) -> chunk_id_ok id -> m !! id = None ->
    exists st', cs_create id st = Done (1, st') /\ stored st' (<[id := []]> m) n;
  store_create_again st m n id c : stored st m n -> m !! id = Some c ->
    cs_create id st = Done (1, st);
  store_append st m n id c buf : stored st m (S n) -> m !! id = Some c ->
    bytes buf -> 0 ∈ buf -> (length buf <= 17)%nat -> cstr buf <> [] ->
    Z.of_nat (length c) + 16 <= CHUNK_SIZE ->
    exists st', cs_append id buf st = Done (1, st') /\
      stored st' (<[id := c ++ cstr buf]> m) n;
  store_read st m n id c : stored st m n -> m !! id = Some c ->
    exists b, cs_read id st = Done ((b, Z.of_nat (length c)), st) /\ take (length c) b = c
}.

(** ** C strings in buffers *)

Lemma cstr_prefix b : exists t, b = cstr b ++ t.
Proof.
  induction b as [|c b [t IH]]; [by exists []|]. simpl. destruct (c =? 0); [by eexists|].
  exists t. simpl. by rewrite <-IH.
Qed.

Lemma cstr_nonzero b : Forall (fun c => c <> 0) (cstr b).
Proof.
  induction b as [|c b IH]; [constructor|]. simpl. destruct (Z.eqb_spec c 0); constructor; done.
Qed.

Lemma cstr_app_zero c t : Forall (fun c => c <> 0) c -> cstr (c ++ 0 :: t) = c.
Proof.
  induction 1 as [|x c Hx _ IH]; [done|]. simpl.
  by rewrite (proj2 (Z.eqb_neq _ _) Hx), IH.
Qed.

Lemma length_cstr_zero b : 0 ∈ b -> (length (cstr b) < length b)%nat.
Proof.
  intros Hz. destruct (cstr_prefix b) as [t E].
  destruct t as [|x t]; [|rewrite E at 2; rewrite length_app; simpl; lia].
  rewrite app_nil_r in E. rewrite E in Hz. pose proof (cstr_nonzero b) as N.
  by pose proof (proj1 (Forall_forall _ _) N _ Hz).
Qed.

(** ** Chunks as files of the root directory *)

Section Fat.
Context {D : Type} `{BlockDeviceLaws D} `{!HeapGarbage} `{!HeapGarbageBytes}.
Implicit Types a : fsapi D.

Abbreviation fname id := (int_to_filename id false).
Abbreviation set_world a w := (mk_fsapi w (a_root a) (a_mirror a) (a_next_id a)).

Definition chunk_name (name : list Z) : Prop := exists id, chunk_id_ok id /\ name = fname id.

(** The root's files with chunk names are the chunks [m]. *)
Record fat_stored a (m : gmap Z (list Z)) (n : nat) (f : gmap (list Z) (list Z))
    (dcs : list Z) (cl : list Z -> list Z) : Prop := {
  st_files : files_at chunk_name (a_world a) (a_root a) f n dcs cl;
  st_names id : chunk_id_ok id -> f !! fname id = m !! id;
  st_chunk id c : m !! id = Some c -> chunk_id_ok id /\ Forall (fun x => x <> 0) c /\
    Z.of_nat (length c) <= CHUNK_SIZE
}.

Lemma chunk_file_name id : chunk_id_ok id -> file_name (fname id) /\ chunk_name (fname id).
Proof. intros I. split; [by apply chunk_name_valid|by exists id]. Qed.

Lemma fname_inj id id' : chunk_id_ok id -> chunk_id_ok id' -> fname id = fname id' -> id = id'.
Proof. unfold chunk_id_ok. intros I I'. apply chunk_name_inj; lia. Qed.

Lemma fat_stored_lookup a m n f dcs cl id c : fat_stored a m n f dcs cl -> m !! id = Some c ->
  f !! fname id = Some c.
Proof. intros [_ Nm Ck] Hm. destruct (Ck _ _ Hm) as (I & _). by rewrite Nm. Qed.

(** An update of the file of [id] updates the chunk. *)
Lemma fat_stored_update a w' m n k f dcs cl cl' id c : fat_stored a m k f dcs cl ->
  chunk_id_ok id -> Forall (fun x => x <> 0) c -> Z.of_nat (length c) <= CHUNK_SIZE ->
  files_at chunk_name w' (a_root a) (<[fname id := c]> f) n dcs cl' ->
  fat_stored (set_world a w') (<[id := c]> m) n (<[fname id := c]> f) dcs cl'.
Proof.
  intros [_ Nm Ck] I Ch Mx F. constructor; [done| |].
  - intros id' I'. destruct (decide (id' = id)) as [->|Hne]; [by rewrite !lookup_insert_eq|].
    rewrite !lookup_insert_ne; [by apply Nm|done|]. intros E. by apply Hne, fname_inj.
  - intros id' c'. destruct (decide (id' = id)) as [->|Hne].
    + rewrite lookup_insert_eq. intros [= <-]. done.
    + rewrite lookup_insert_ne by done. apply Ck.
Qed.

Lemma fat_store_create a m n f dcs cl id : fat_stored a m (S n) f dcs cl ->
  chunk_id_ok id -> m !! id = None ->
  exists w' cl', chunkserver_create_chunk id a = Done (1, set_world a w') /\
    fat_stored (set_world a w') (<[id := []]> m) n (<[fname id := []]> f) dcs cl'.
Proof.
  intros St I Hm. destruct (chunk_file_name id I) as [Hf Hc].
  destruct (files_create _ _ _ _ _ _ _ _ (st_files _ _ _ _ _ _ St) Hf Hc) as (w' & e & R & F).
  { rewrite (st_names _ _ _ _ _ _ St) by done. done. }
  eexists w', _. split; [|eapply fat_stored_update; [exact St|done|constructor|done|exact F]].
  unfold chunkserver_create_chunk, fs_create. mrun (tilde_run a).
  cbv beta iota. change (negb true) with false. cbv iota.
  by mrun (on_fs_run _ a _ _ R).
Qed.

(** The file the append writes. *)
Definition appended (c buf : list Z) (b : list Z) : list Z :=
  match c with
  | [] => buf
  | _ => buf_slice b 0 (length c) ++ cstr buf ++ [0]
  end.

Lemma appended_ok c buf b : Forall (fun x => x <> 0) c -> take (length c) b = c ->
  0 ∈ buf -> bytes buf -> bytes b ->
  cstr (appended c buf b) = c ++ cstr buf /\ bytes (appended c buf b) /\
  take (length (c ++ cstr buf)) (appended c buf b) = c ++ cstr buf.
Proof.
  intros Nz Hb Hz Bb Bd. destruct (cstr_prefix buf) as [t E].
  assert (Bs : bytes (cstr buf)) by (rewrite E in Bb; by apply Forall_app in Bb as [? _]).
  unfold appended. destruct c as [|x c].
  - simpl. split_and!; [done|done|]. rewrite E at 2. apply take_app_length.
  - assert (L : (length (x :: c) <= length b)%nat).
    { rewrite <-Hb at 1. rewrite length_take. lia. }
    rewrite buf_slice_take, Hb by done.
    rewrite app_assoc. split_and!.
    + apply cstr_app_zero, Forall_app. split; [done|apply cstr_nonzero].
    + rewrite !Forall_app. split_and!; [|done|by repeat constructor].
      rewrite <-Hb. by apply Forall_take.
    + apply take_app_length.
Qed.

Lemma append_run a c b k id buf :
  fat32_read (a_root a) (fname id) (a_world a) = Done (mk_file b k (Z.of_nat (length c)), a_world a) ->
  let new := appended c buf b in
  let k := Z.of_nat (length (cstr new)) in
  chunkserver_append_chunk id buf a =
    on_fs (fat32_write (a_root a) (fname id) (mk_file new k k)) a.
Proof.
  intros R new k'. unfold chunkserver_append_chunk, fs_append. mrun (tilde_run a).
  cbv beta iota. change (negb true) with false. cbv iota.
  mrun (on_fs_run _ a _ _ R). cbv zeta. simpl n_data. simpl f_data.
  replace (set_world a (a_world a)) with a by by destruct a.
  subst k' new. unfold appended. destruct c as [|x c]; [done|].
  rewrite (proj2 (Z.ltb_lt _ _)) by (simpl length; lia). by rewrite Nat2Z.id.
Qed.

Lemma fat_store_append a m n f dcs cl id c buf : fat_stored a m (S n) f dcs cl ->
  m !! id = Some c -> bytes buf -> 0 ∈ buf -> (length buf <= 17)%nat -> cstr buf <> [] ->
  Z.of_nat (length c) + 16 <= CHUNK_SIZE ->
  exists w' cl', chunkserver_append_chunk id buf a = Done (1, set_world a w') /\
    fat_stored (set_world a w') (<[id := c ++ cstr buf]> m) n (<[fname id := c ++ cstr buf]> f) dcs cl'.
Proof.
  intros St Hm Bb Hz Lb Ne Hmax. destruct (st_chunk _ _ _ _ _ _ St _ _ Hm) as (I & Nz & Mx).
  pose proof (fat_stored_lookup _ _ _ _ _ _ _ _ St Hm) as Hf.
  pose proof (st_files _ _ _ _ _ _ St) as F. pose proof (length_cstr_zero buf Hz) as Ls.
  destruct (files_read _ _ _ _ _ _ _ _ _ F Hf) as (b & k & R & Ht & Bd).
  destruct (appended_ok c buf b Nz Ht Hz Bb Bd) as (Ec & Bn & Et).
  pose proof (append_run a c b k id buf R) as Ra. cbv zeta in Ra. rewrite Ec in Ra.
  destruct (files_write _ _ _ _ _ _ _ _ _ (appended c buf b) (c ++ cstr buf) F Hf Bn Et)
    as (w' & cs' & Rw & F').
  - intros E. by apply app_eq_nil in E as [_ E].
  - rewrite length_app. lia.
  - rewrite length_app. unfold CHUNK_SIZE in *. lia.
  - eexists w', _. split; [by rewrite Ra, (on_fs_run _ a _ _ Rw)|].
    eapply fat_stored_update; [exact St|done| |rewrite length_app; lia|exact F'].
    apply Forall_app. split; [done|apply cstr_nonzero].
Qed.

Lemma chunk_read_run a m n f dcs cl id c : fat_stored a m n f dcs cl -> m !! id = Some c ->
  exists b, chunkserver_read id a = Done ((b, Z.of_nat (length c)), a) /\ take (length c) b = c.
Proof.
  intros St Hm. pose proof (fat_stored_lookup _ _ _ _ _ _ _ _ St Hm) as Hf.
  destruct (files_read _ _ _ _ _ _ _ _ _ (st_files _ _ _ _ _ _ St) Hf) as (b & k & R & Ht & _).
  exists b. split; [|done]. unfold chunkserver_read, fs_read. mrun (tilde_run a).
  cbv beta iota. change (negb true) with false. cbv iota.
  mrun (on_fs_run _ a _ _ R). by destruct a.
Qed.

(** Chunks on the card.  A new chunk can be created, text appended to it, and read back:
    [chunkserver_read] returns the appended text and its length, and every chunk that was
    there before still reads as it did. *)
Theorem chunks_on_fat32 a m n f dcs cl id buf : fat_stored a m (S (S n)) f dcs cl ->
  chunk_id_ok id -> m !! id = None ->
  bytes buf -> 0 ∈ buf -> (length buf <= 17)%nat -> cstr buf <> [] ->
  exists a1 a2 b, chunkserver_create_chunk id a = Done (1, a1) /\
    chunkserver_append_chunk id buf a1 = Done (1, a2) /\
    chunkserver_read id a2 = Done ((b, Z.of_nat (length (cstr buf))), a2) /\
    take (length (cstr buf)) b = cstr buf /\
    forall id' c, m !! id' = Some c -> exists b', take (length c) b' = c /\
      chunkserver_read id' a2 = Done ((b', Z.of_nat (length c)), a2).
Proof.
  intros St I Hm Bb Hz Lb Ne.
  destruct (fat_store_create _ _ _ _ _ _ _ St I Hm) as (w1 & cl1 & R1 & St1).
  destruct (fat_store_append _ _ _ _ _ _ _ [] buf St1 (lookup_insert_eq _ _ _) Bb Hz Lb Ne)
    as (w2 & cl2 & R2 & St2); [done|].
  rewrite insert_insert_eq, app_nil_l in St2.
  destruct (chunk_read_run _ _ _ _ _ _ id (cstr buf) St2) as (b & R3 & Ht);
    [apply lookup_insert_eq|].
  eexists _, _, b. split_and!; [exact R1|exact R2|exact R3|done|].
  intros id' c Hc. assert (id' <> id) by congruence.
  destruct (chunk_read_run _ _ _ _ _ _ id' c St2) as (b' & R' & Ht'); [by rewrite lookup_insert_ne|].
  eauto.
Qed.

(** *** The instance *)

#[export] Program Instance fat32_chunk_store_laws : ChunkStoreLaws (fsapi D) := {|
  stored a m n := exists f dcs cl, fat_stored a m n f dcs cl
|}.
Next Obligation.
  intros a m n id (f & dcs & cl & St) I Hm.
  destruct (fat_store_create _ _ _ _ _ _ _ St I Hm) as (w' & cl' & R & St'). eauto 6.
Qed.
Next Obligation.
  intros a m n id c (f & dcs & cl & St) Hm.
  pose proof (fat_stored_lookup _ _ _ _ _ _ _ _ St Hm) as Hf.
  destruct (files_create_again _ _ _ _ _ _ _ _ _ (st_files _ _ _ _ _ _ St) Hf) as (e & R).
  simpl. unfold chunkserver_create_chunk, fs_create. mrun (tilde_run a).
  cbv beta iota. change (negb true) with false. cbv iota.
  mrun (on_fs_run _ a _ _ R). by destruct a.
Qed.
Next Obligation.
  intros a m n id c buf (f & dcs & cl & St) Hm Bb Hz Lb Ne Hmax.
  destruct (fat_store_append _ _ _ _ _ _ _ _ _ St Hm Bb Hz Lb Ne Hmax) as (w' & cl' & R & St').
  eauto 6.
Qed.
Next Obligation.
  intros a m n id c (f & dcs & cl & St) Hm. by eapply chunk_read_run.
Qed.
End Fat.
