(* ===== verification/MasterFat.v ===== *)
(** * The master's tables on FAT32

    The master keeps one file per client file, holding the chunk maps of its chunks in
    order.  [MasterStoreLaws] states what the master's handlers may assume of that storage:
    a finite map from names to lists of chunk maps.  The instance at the end proves that the
    FAT32-backed store of [DfsStore] keeps that promise. *)

From stdpp Require Import base tactics option list numbers sets gmap.
From Stdlib Require Import ZArith Lia.
From Stdlib Require String.
From S2P Require Import Prelude Sd FatTable FatChain Dirent Fat32 Fat32Dir Fat32Thm.
From S2P Require Import FileDir FsApi DfsStore.
Import String.StringSyntax.
#[local] Open Scope string_scope.
#[local] Open Scope Z_scope.

(** ** The contract *)

(** The map of a chunk that was just allocated. *)
Definition first_map (addr cid : Z) : chunk_map_t := mk_chunk_map [addr; 0; 0] cid 1.

Class MasterStoreLaws (St : Type) `{MasterStore St} : Type := {
  (** [tables st m n]: the files of the current directory are [m], and [n] more calls will
      find room. *)
  tables : St -> gmap (list Z) (list chunk_map_t) -> nat -> Prop;
  tbl_less st m n : tables st m (S n) -> tables st m n;
  tbl_client_init st id c st' : ms_client_init id st = Done (c, st') -> cd_chunk_id c = 1;
  tbl_create st m n name : tables st m (S n) -> file_name name -> m !! name = None ->
    exists st', ms_create name false st = Done (1, st') /\ tables st' (<[name := []]> m) n;
  tbl_create_again st m n name t : tables st m n -> m !! name = Some t ->
    ms_create name false st = Done (1, st);
  tbl_delete st m n name t : tables st m n -> m !! name = Some t ->
    exists st', ms_delete name st = Done (1, st') /\ tables st' (delete name m) n;
  tbl_num st m n name t : tables st m n -> m !! name = Some t ->
    ms_get_chunk_num name st = Done (Z.of_nat (length t), st);
  tbl_get st m n name t i e : tables st m n -> m !! name = Some t -> t !! i = Some e ->
    ms_get_chunks name (Z.of_nat i) st = Done (e, st);
  tbl_add st m n name t addr cid : tables st m (S n) -> m !! name = Some t ->
    Z.of_nat (length t) < 10 ^ 8 -> is_u32 addr -> is_u32 cid ->
    exists st', ms_add_chunk_server name cid (Z.of_nat (length t)) addr st = Done (tt, st') /\
      tables st' (<[name := t ++ [first_map addr cid]]> m) n
}.

(** ** The contents of a table *)

(** Decoding what was encoded, whatever the padding. *)
Lemma chunk_map_decode_encode pad a0 a1 a2 cid k :
  is_u32 a0 -> is_u32 a1 -> is_u32 a2 -> is_u32 cid -> is_u8 k ->
  chunk_map_decode (chunk_map_encode pad (mk_chunk_map [a0; a1; a2] cid k)) =
    mk_chunk_map [a0; a1; a2] cid k.
Proof.
  intros H0 H1 H2 Hc Hk.
  assert (L4 : forall x, is_u32 x -> le_val (le_bytes 4 x) = x).
  { intros x Hx. rewrite le_val_bytes. by apply Z.mod_small. }
  assert (L1 : le_val (le_bytes 1 k) = k) by (rewrite le_val_bytes; by apply Z.mod_small).
  unfold chunk_map_decode.
  change (field 0 4 _) with (le_val (le_bytes 4 a0)).
  change (field 4 4 _) with (le_val (le_bytes 4 a1)).
  change (field 8 4 _) with (le_val (le_bytes 4 a2)).
  change (field 12 4 _) with (le_val (le_bytes 4 cid)).
  change (field 16 1 _) with (le_val (le_bytes 1 k)).
  by rewrite !L4, L1 by done.
Qed.

(** [c] is a file of [length t] maps that decode to [t]. *)
Definition encodes (c : list Z) (t : list chunk_map_t) : Prop :=
  length c = (20 * length t)%nat /\
  forall i e, t !! i = Some e -> chunk_map_decode (take 20 (drop (20 * i) c)) = e.

Lemma encodes_snoc c t e b : encodes c t -> length b = 20%nat -> chunk_map_decode b = e ->
  encodes (c ++ b) (t ++ [e]).
Proof.
  intros [Lc Hc] Lb Eb. split; [rewrite !length_app, Lc, Lb; simpl; lia|].
  intros i e' [Hi|[Hi He]]%lookup_app_Some.
  - pose proof (lookup_lt_Some _ _ _ Hi) as Li. rewrite drop_app_le by lia.
    rewrite take_app_le by (rewrite length_drop; lia). by apply Hc.
  - destruct (i - length t)%nat as [|k] eqn:Ek; [|done]. injection He as <-.
    rewrite drop_app_ge by lia.
    replace (20 * i - length c)%nat with 0%nat by lia. by rewrite drop_0, take_ge by lia.
Qed.

Section Fat.
Context {D : Type} `{BlockDeviceLaws D} `{!HeapGarbage} `{!HeapGarbageBytes} `{!MapPad} `{!MapPadOk}.
Implicit Types a : fsapi D.

Abbreviation set_world a w := (mk_fsapi w (a_root a) (a_mirror a) (a_next_id a)).

Record fat_tables a (m : gmap (list Z) (list chunk_map_t)) (n : nat)
    (f : gmap (list Z) (list Z)) (dcs : list Z) (cl : list Z -> list Z) : Prop := {
  ft_files : files_at (fun _ => True) (a_world a) (cwd (a_mirror a)) f n dcs cl;
  ft_tables : map_Forall2 (fun _ => encodes) f m
}.

Lemma fat_tables_lookup a m n f dcs cl name t : fat_tables a m n f dcs cl ->
  m !! name = Some t -> exists c, f !! name = Some c /\ encodes c t.
Proof. intros [_ Ft] Hm. specialize (Ft name). rewrite Hm in Ft. inversion Ft; eauto. Qed.

Lemma fat_tables_none a m n f dcs cl name : fat_tables a m n f dcs cl ->
  m !! name = None -> f !! name = None.
Proof. intros [_ Ft] Hm. specialize (Ft name). rewrite Hm in Ft. by inversion Ft. Qed.

(** Reading a table. *)
Lemma table_read a m n f dcs cl name t : fat_tables a m n f dcs cl -> m !! name = Some t ->
  exists c b, f !! name = Some c /\ encodes c t /\ take (length c) b = c /\ bytes b /\
    fs_read (str ".") name a = Done ((b, 20 * Z.of_nat (length t)), a).
Proof.
  intros Ft Hm. destruct (fat_tables_lookup _ _ _ _ _ _ _ _ Ft Hm) as (c & Hf & En).
  destruct (files_read _ _ _ _ _ _ _ _ _ (ft_files _ _ _ _ _ _ Ft) Hf) as (b & k & R & Ht & Bb).
  exists c, b. split_and!; [done|done|done|done|]. unfold fs_read. mrun (dot_run false a).
  cbv beta iota. change (negb true) with false. cbv iota.
  mrun (on_fs_run _ a _ _ R). destruct En as [Lc _]. simpl. unfold mret, M_ret.
  replace (Z.of_nat (length c)) with (20 * Z.of_nat (length t)) by lia. by destruct a.
Qed.

Lemma table_num a m n f dcs cl name t : fat_tables a m n f dcs cl -> m !! name = Some t ->
  master_fat32_get_chunk_num name a = Done (Z.of_nat (length t), a).
Proof.
  intros Ft Hm. destruct (table_read _ _ _ _ _ _ _ _ Ft Hm) as (c & b & _ & _ & _ & _ & R).
  unfold master_fat32_get_chunk_num. mrun R. unfold mret, M_ret, sizeof_chunk_map.
  by rewrite Z.mul_comm, Z.div_mul by lia.
Qed.

Lemma table_get a m n f dcs cl name t i e : fat_tables a m n f dcs cl -> m !! name = Some t ->
  t !! i = Some e -> master_fat32_get_chunks name (Z.of_nat i) a = Done (e, a).
Proof.
  intros Ft Hm Hi. destruct (table_read _ _ _ _ _ _ _ _ Ft Hm) as (c & b & _ & [Lc Ec] & Ht & _ & R).
  pose proof (lookup_lt_Some _ _ _ Hi) as Li.
  assert (Lb : (length c <= length b)%nat) by (rewrite <-Ht at 1; rewrite length_take; lia).
  unfold master_fat32_get_chunks. mrun R. unfold map_at, sizeof_chunk_map.
  replace (Z.to_nat (Z.of_nat i * 20)) with (20 * i)%nat by lia.
  rewrite decide_True by lia. simpl. unfold mret, M_ret. do 2 f_equal.
  rewrite <-(Ec i e Hi). f_equal. rewrite !take_drop_commute. f_equal.
  rewrite <-Ht. rewrite take_take. f_equal. lia.
Qed.

Lemma write_dot a name data k w' :
  fat32_write (cwd (a_mirror a)) name (mk_file data k k) (a_world a) = Done (1, w') ->
  fs_write (str ".") name data k a = Done (1, set_world a w').
Proof.
  intros R. unfold fs_write. mrun (dot_run false a). cbv beta iota.
  change (negb true) with false. cbv iota. by rewrite (on_fs_run _ a _ _ R).
Qed.

(** The new contents of the file are the old ones and the encoded map. *)
Lemma add_run a m n f dcs cl name t addr cid c b : fat_tables a m n f dcs cl ->
  m !! name = Some t -> Z.of_nat (length t) < 10 ^ 8 -> encodes c t ->
  take (length c) b = c -> fs_read (str ".") name a = Done ((b, 20 * Z.of_nat (length t)), a) ->
  let data := c ++ chunk_map_encode map_pad (first_map addr cid) in
  master_fat32_add_chunk_server name cid (Z.of_nat (length t)) addr a =
    (fs_write (str ".") name data (20 * Z.of_nat (length t) + 20);; mret tt) a.
Proof.
  intros Ft Hm Hl [Lc _] Ht R data. unfold master_fat32_add_chunk_server. mrun R.
  unfold sizeof_chunk_map.
  replace (20 * Z.of_nat (length t) / 20) with (Z.of_nat (length t))
    by (rewrite Z.mul_comm, Z.div_mul; lia).
  cbv zeta.
  rewrite (proj2 (Z.leb_le _ _)) by lia. rewrite ret_run. cbv beta iota.
  rewrite (u32_small (_ + 1)), u32_small by (unfold is_u32; lia).
  replace (20 * (Z.of_nat (length t) + 1)) with (20 * Z.of_nat (length t) + 20) by lia.
  assert (E : (if 1 <? Z.of_nat (length t) + 1
               then buf_slice b 0 (Z.to_nat (20 * (Z.of_nat (length t) + 1 - 1))) ++
                      chunk_map_encode map_pad (first_map addr cid)
               else chunk_map_encode map_pad (first_map addr cid)) = data).
  { unfold data. destruct (Z.ltb_spec 1 (Z.of_nat (length t) + 1)).
    - f_equal. replace (Z.to_nat _) with (length c) by lia.
      rewrite buf_slice_take; [done|]. rewrite <-Ht at 1. rewrite length_take. lia.
    - destruct c; [done|]. simpl in Lc. lia. }
  unfold first_map in E. by rewrite E.
Qed.

Lemma table_add a m n f dcs cl name t addr cid : fat_tables a m (S n) f dcs cl ->
  m !! name = Some t -> Z.of_nat (length t) < 10 ^ 8 -> is_u32 addr -> is_u32 cid ->
  exists a' f' cl',
    master_fat32_add_chunk_server name cid (Z.of_nat (length t)) addr a = Done (tt, a') /\
    fat_tables a' (<[name := t ++ [first_map addr cid]]> m) n f' dcs cl'.
Proof.
  intros Ft Hm Hl Ha Hc. destruct (table_read _ _ _ _ _ _ _ _ Ft Hm) as (c & b & Hf & En & Ht & Bb & R).
  rewrite (add_run a m (S n) f dcs cl name t addr cid c b Ft Hm Hl En Ht R).
  set (e := chunk_map_encode map_pad (first_map addr cid)).
  destruct map_pad_ok as [Bp Lp].
  assert (Le : length e = 20%nat) by (unfold e; simpl; rewrite Lp; done).
  assert (Be : bytes e).
  { unfold e, chunk_map_encode. cbn [first_map chunk_server_addrs fmap list_fmap concat chunk_id num_replica].
    rewrite !Forall_app. repeat split; auto using le_bytes_bytes; constructor. }
  assert (Bc : bytes c) by (rewrite <-Ht; by apply Forall_take).
  pose proof En as [Lc _].
  assert (Lce : length (c ++ e) = (20 * length t + 20)%nat) by (rewrite length_app; lia).
  destruct (files_write _ _ _ _ _ _ _ _ _ (c ++ e) (c ++ e) (ft_files _ _ _ _ _ _ Ft) Hf)
    as (w' & cs' & Rw & F').
  - by apply Forall_app.
  - by apply take_ge.
  - destruct c, e; done.
  - rewrite Lce. lia.
  - rewrite Lce. lia.
  - eexists _, _, _. split.
    + rewrite Lce in Rw. replace (Z.of_nat (20 * length t + 20)) with (20 * Z.of_nat (length t) + 20) in Rw by lia.
      by mrun (write_dot _ _ _ _ _ Rw).
    + constructor; [exact F'|]. simpl. apply map_Forall2_insert_2; [|apply Ft].
      apply encodes_snoc; [done|done|].
      apply chunk_map_decode_encode; try done; unfold is_u32, is_u8; lia.
Qed.

(** C23: a chunk added to a file on the card.  [master_fat32_add_chunk_server] with the next
    sequence number makes the file one chunk longer: [master_fat32_get_chunk_num] then
    counts it, [master_fat32_get_chunks] returns the new map at the end and the old maps
    before it, and every other file of the directory has the maps it had. *)
Theorem tables_on_fat32 a m n f dcs cl name t addr cid : fat_tables a m (S n) f dcs cl ->
  m !! name = Some t -> Z.of_nat (length t) < 10 ^ 8 -> is_u32 addr -> is_u32 cid ->
  exists a', master_fat32_add_chunk_server name cid (Z.of_nat (length t)) addr a = Done (tt, a') /\
    master_fat32_get_chunk_num name a' = Done (Z.of_nat (length t) + 1, a') /\
    master_fat32_get_chunks name (Z.of_nat (length t)) a' = Done (first_map addr cid, a') /\
    (forall i e, t !! i = Some e -> master_fat32_get_chunks name (Z.of_nat i) a' = Done (e, a')) /\
    (forall name' t' i e, name' <> name -> m !! name' = Some t' -> t' !! i = Some e ->
       master_fat32_get_chunks name' (Z.of_nat i) a' = Done (e, a')).
Proof.
  intros Ft Hm Hl Ha Hc.
  destruct (table_add _ _ _ _ _ _ _ _ _ _ Ft Hm Hl Ha Hc) as (a' & f' & cl' & R & Ft').
  pose proof (lookup_insert_eq m name (t ++ [first_map addr cid])) as Hnew.
  exists a'. split_and!; [done| | | |].
  - rewrite (table_num _ _ _ _ _ _ _ _ Ft' Hnew), length_app. simpl. do 2 f_equal. lia.
  - apply (table_get _ _ _ _ _ _ _ _ _ _ Ft' Hnew). by apply list_lookup_middle.
  - intros i e Hi. apply (table_get _ _ _ _ _ _ _ _ _ _ Ft' Hnew). by apply lookup_app_l_Some.
  - intros name' t' i e Hne Ht' Hi. eapply (table_get _ _ _ _ _ _ _ _ _ _ Ft'); [|done].
    by rewrite lookup_insert_ne.
Qed.

(** *** The instance *)

#[export] Program Instance fat32_master_store_laws : MasterStoreLaws (fsapi D) := {|
  tables a m n := exists f dcs cl, fat_tables a m n f dcs cl
|}.
Next Obligation.
  intros a m n (f & dcs & cl & [[] Ft]). exists f, dcs, cl. constructor; [|done].
  constructor; try done; lia.
Qed.
Next Obligation.
  intros a id c a' E. simpl in E. unfold master_fat32_client_init in E.
  apply bind_inv in E as (r & a1 & _ & E). rewrite gets_run in E. by injection E as <- _.
Qed.
Next Obligation.
  intros a m n name (f & dcs & cl & Ft) I Hm.
  pose proof (fat_tables_none _ _ _ _ _ _ _ Ft Hm) as Hf.
  destruct (files_create _ _ _ _ _ _ _ _ (ft_files _ _ _ _ _ _ Ft) I Logic.I Hf)
    as (w' & e & R & F). exists (set_world a w'). split.
  - simpl. unfold master_fat32_create, fs_create. mrun (dot_run false a).
    cbv beta iota. change (negb true) with false. cbv iota. by mrun (on_fs_run _ a _ _ R).
  - eexists _, _, _. constructor; [exact F|]. apply map_Forall2_insert_2; [|apply Ft].
    by split.
Qed.
Next Obligation.
  intros a m n name t (f & dcs & cl & Ft) Hm.
  destruct (fat_tables_lookup _ _ _ _ _ _ _ _ Ft Hm) as (c & Hf & _).
  destruct (files_create_again _ _ _ _ _ _ _ _ _ (ft_files _ _ _ _ _ _ Ft) Hf) as (e & R).
  simpl. unfold master_fat32_create, fs_create. mrun (dot_run false a).
  cbv beta iota. change (negb true) with false. cbv iota.
  mrun (on_fs_run _ a _ _ R). by destruct a.
Qed.
Next Obligation.
  intros a m n name t (f & dcs & cl & Ft) Hm.
  destruct (fat_tables_lookup _ _ _ _ _ _ _ _ Ft Hm) as (c & Hf & _).
  destruct (files_delete _ _ _ _ _ _ _ _ _ (ft_files _ _ _ _ _ _ Ft) Hf) as (w' & R & F).
  exists (set_world a w'). split.
  - simpl. unfold master_fat32_delete, fs_delete. mrun (dot_run false a).
    cbv beta iota. change (negb true) with false. cbv iota. by rewrite (on_fs_run _ a _ _ R).
  - eexists _, _, _. constructor; [exact F|]. apply map_Forall2_delete, Ft.
Qed.
Next Obligation. intros a m n name t (f & dcs & cl & Ft). by apply (table_num _ _ _ _ _ _ _ _ Ft). Qed.
Next Obligation.
  intros a m n name t i e (f & dcs & cl & Ft). by apply (table_get _ _ _ _ _ _ _ _ _ _ Ft).
Qed.
Next Obligation.
  intros a m n name t addr cid (f & dcs & cl & Ft) Hm Hl Ha Hc.
  destruct (table_add _ _ _ _ _ _ _ _ _ _ Ft Hm Hl Ha Hc) as (a' & f' & cl' & R & Ft').
  exists a'. eauto.
Qed.
End Fat.
