(* ===== verification/DfsPkt.v ===== *)
(** * Packets (src/libpi/include/dfs-cmd.h)

    A packet is 32 bytes: the operation, a port, and a union laid over bytes 4 to 31.
    A packet built on the stack starts out with unspecified contents, which the
    definitions that build packets take as a parameter. *)

From stdpp Require Import base tactics option list numbers sets.
From Stdlib Require Import ZArith Lia.
From S2P Require Import Prelude Dirent.

(** ** Constants *)

Definition dfs_master_addr : Z := 0x7e7e7e.
Definition dfs_chunk_addr1 : Z := 0x6a6a6a.
Definition dfs_chunk_addr2 : Z := 0x6b6b6b.
Definition dfs_chunk_addr3 : Z := 0x6c6c6c.

(** The enumerator [client_addr] of nrf-default-values.h. *)
Definition client_addr_const : Z := 0xe6e6e6.

Definition DFS_LS : Z := 0x0.
Definition DFS_CD : Z := 0x1.
Definition DFS_RD : Z := 0x2.
Definition DFS_WR : Z := 0x3.
Definition DFS_CR : Z := 0xc.
Definition DFS_RM : Z := 0xd.
Definition DFS_END_RD : Z := 0x4.
Definition DFS_END_WR : Z := 0x5.
Definition DFS_END_LS : Z := 0xf.
Definition DFS_RETRY_RD : Z := 0x6.
Definition DFS_RETRY_WR : Z := 0x7.
Definition DFS_COMMIT_WR : Z := 0x8.
Definition DFS_CNCT : Z := 0x9.
Definition DFS_ACP : Z := 0xa.
Definition DFS_REJ : Z := 0xb.
Definition DFS_HB : Z := 0xe.
Definition DFS_SD : Z := 0xf.

Definition STATUS_SUCCESS : Z := 0.
Definition STATUS_FAILED : Z := 1.

Definition MAX_FILE_NAME : Z := 12.
Definition dfs_get_pkt_bytes : Z := 32.
Definition DFS_MAX_CONN : Z := 4.

(** ** Fields *)

Abbreviation pkt := (list Z).

Definition op_code (p : pkt) : Z := field 0 1 p.
Definition port_id (p : pkt) : Z := field 1 1 p.
Definition conn_addr (p : pkt) : Z := field 4 4 p.
Definition chunk_id_sqn (p : pkt) : Z := field 4 4 p.
Definition status (p : pkt) : Z := field 8 1 p.
Definition meta_addr (p : pkt) : Z := field 12 4 p.
Definition meta_nbytes (p : pkt) : Z := field 16 4 p.
Definition meta_name (p : pkt) : list Z := take 12 (drop 20 p).
Definition data_offset (p : pkt) : Z := field 12 4 p.
Definition data_data (p : pkt) : list Z := take 16 (drop 16 p).
Definition query_offset (p : pkt) : Z := field 12 4 p.
Definition query_nbytes (p : pkt) : Z := field 16 4 p.
Definition hb_id (p : pkt) : Z := field 4 4 p.
Definition hb_addr (p : pkt) : Z := field 8 4 p.
Definition hb_usage (p : pkt) : Z := field 12 4 p.
Definition hb_storage (p : pkt) : Z := field 16 4 p.
Definition placeholder (p : pkt) : list Z := take 28 (drop 4 p).

(** Assignment of an [n]-byte field at [off], and of bytes. *)
Definition put (off n : nat) (v : Z) (p : pkt) : pkt := splice off (le_bytes n v) p.
Definition put_bytes (off : nat) (b : list Z) (p : pkt) : pkt := splice off b p.

Definition set_op (v : Z) : pkt -> pkt := put 0 1 v.
Definition set_port (v : Z) : pkt -> pkt := put 1 1 v.
Definition set_conn_addr (v : Z) : pkt -> pkt := put 4 4 v.
Definition set_chunk_id_sqn (v : Z) : pkt -> pkt := put 4 4 v.
Definition set_status (v : Z) : pkt -> pkt := put 8 1 v.
Definition set_meta_addr (v : Z) : pkt -> pkt := put 12 4 v.
Definition set_meta_nbytes (v : Z) : pkt -> pkt := put 16 4 v.
Definition set_data_offset (v : Z) : pkt -> pkt := put 12 4 v.
Definition set_query_offset (v : Z) : pkt -> pkt := put 12 4 v.
Definition set_query_nbytes (v : Z) : pkt -> pkt := put 16 4 v.
Definition set_hb_id (v : Z) : pkt -> pkt := put 4 4 v.
Definition set_hb_addr (v : Z) : pkt -> pkt := put 8 4 v.
Definition set_hb_usage (v : Z) : pkt -> pkt := put 12 4 v.
Definition set_hb_storage (v : Z) : pkt -> pkt := put 16 4 v.

(** [memset(file_name, 0, MAX_FILE_NAME); memcpy(file_name, name, name_len)]. *)
Definition set_meta_name (name : list Z) (p : pkt) : pkt :=
  put_bytes 20 name (put_bytes 20 (replicate 12 0) p).

(** [memset(data, 0, CHUNK_SERVER_PKT_SIZE); memcpy(data, d, |d|)]. *)
Definition set_data_data (d : list Z) (p : pkt) : pkt :=
  put_bytes 16 d (put_bytes 16 (replicate 16 0) p).

(** The string that starts at the first byte of [b]; [None] if [b] holds no NUL, where the
    code would read on past the packet. *)
Definition c_string (b : list Z) : option (list Z) :=
  if decide (0 ∈ b) then Some (cstr b) else None.

(** ** Reading back a field *)

Lemma lookup_splice {A} n (s l : list A) i : (n + length s <= length l)%nat ->
  splice n s l !! i =
    if decide (n <= i < n + length s)%nat then s !! (i - n)%nat else l !! i.
Proof.
  intros Hl. unfold splice. assert (length (take n l) = n) as Ln by (rewrite length_take; lia).
  case_decide as Hi.
  - rewrite lookup_app_r by lia. rewrite Ln. rewrite lookup_app_l by lia. done.
  - destruct (decide (i < n)%nat).
    + rewrite lookup_app_l by lia. by rewrite lookup_take_lt.
    + rewrite lookup_app_r, lookup_app_r by lia. rewrite lookup_drop. f_equal. lia.
Qed.

(** The bytes of another field, or of the field just written. *)
Lemma slice_splice_ne {A} off n o (s l : list A) : (o + length s <= length l)%nat ->
  (off + n <= o \/ o + length s <= off)%nat ->
  take n (drop off (splice o s l)) = take n (drop off l).
Proof.
  intros Hl Hd. apply list_eq. intros i. destruct (decide (i < n)%nat).
  - rewrite !lookup_take_lt, !lookup_drop, lookup_splice by done.
    rewrite decide_False by lia. done.
  - by rewrite !lookup_take_ge by lia.
Qed.

Lemma slice_splice_eq {A} o (s l : list A) : (o + length s <= length l)%nat ->
  take (length s) (drop o (splice o s l)) = s.
Proof.
  intros Hl. apply list_eq. intros i. destruct (decide (i < length s)%nat).
  - rewrite lookup_take_lt, lookup_drop, lookup_splice by done.
    rewrite decide_True by lia. f_equal. lia.
  - rewrite lookup_take_ge by lia. symmetry. apply lookup_ge_None_2. lia.
Qed.

Lemma field_put_eq off n v p : (off + n <= length p)%nat ->
  field off n (put off n v p) = v mod 2 ^ (8 * Z.of_nat n).
Proof.
  intros Hl. unfold field, put. pose proof (length_le_bytes n v) as L.
  rewrite <-L at 1. rewrite slice_splice_eq by (rewrite L; lia). apply le_val_bytes.
Qed.

Lemma field_splice_ne off n o s p : (o + length s <= length p)%nat ->
  (off + n <= o \/ o + length s <= off)%nat ->
  field off n (splice o s p) = field off n p.
Proof. intros Hl Hd. unfold field. by rewrite slice_splice_ne. Qed.

Lemma length_put off n v p : (off + n <= length p)%nat -> length (put off n v p) = length p.
Proof. intros Hl. unfold put. apply length_splice. by rewrite length_le_bytes. Qed.

Lemma length_put_bytes off b p : (off + length b <= length p)%nat ->
  length (put_bytes off b p) = length p.
Proof. apply length_splice. Qed.

(** ** Packets of the right size *)

Definition pkt_ok (p : pkt) : Prop := length p = 32%nat.

Lemma put_ok off n v p : (off + n <= 32)%nat -> pkt_ok p -> pkt_ok (put off n v p).
Proof. intros Hn L. unfold pkt_ok in *. rewrite length_put; lia. Qed.

Lemma put_bytes_ok off b p : (off + length b <= 32)%nat -> pkt_ok p -> pkt_ok (put_bytes off b p).
Proof. intros Hn L. unfold pkt_ok in *. rewrite length_put_bytes; lia. Qed.

Lemma get_put off n v p : pkt_ok p -> (off + n <= 32)%nat ->
  field off n (put off n v p) = v mod 2 ^ (8 * Z.of_nat n).
Proof. intros L Hn. apply field_put_eq. unfold pkt_ok in L. lia. Qed.

Lemma get_put_ne off n o k v p : pkt_ok p -> (o + k <= 32)%nat ->
  (off + n <= o \/ o + k <= off)%nat -> field off n (put o k v p) = field off n p.
Proof.
  intros L Hk Hd. unfold pkt_ok in L. apply field_splice_ne; rewrite length_le_bytes; lia.
Qed.

Lemma get_put_bytes_ne off n o b p : pkt_ok p -> (o + length b <= 32)%nat ->
  (off + n <= o \/ o + length b <= off)%nat ->
  field off n (put_bytes o b p) = field off n p.
Proof. intros L Hk Hd. unfold pkt_ok in L. apply field_splice_ne; lia. Qed.

Lemma slice_put_ne off n o k v p : pkt_ok p -> (o + k <= 32)%nat ->
  (off + n <= o \/ o + k <= off)%nat ->
  take n (drop off (put o k v p)) = take n (drop off p).
Proof.
  intros L Hk Hd. unfold pkt_ok in L. apply slice_splice_ne; rewrite length_le_bytes; lia.
Qed.

(** A shorter string over a zeroed array leaves the rest zero. *)
Lemma slice_put_bytes off n b p : pkt_ok p -> (off + n <= 32)%nat -> (length b <= n)%nat ->
  take n (drop off (put_bytes off b (put_bytes off (replicate n 0) p))) =
    b ++ replicate (n - length b) 0.
Proof.
  intros L Hn Hb. unfold pkt_ok in L.
  assert (L1 : length (put_bytes off (replicate n 0) p) = 32%nat)
    by (rewrite length_put_bytes; rewrite ?length_replicate; lia).
  apply list_eq. intros i. destruct (decide (i < n)%nat).
  - rewrite lookup_take_lt, lookup_drop by done. unfold put_bytes at 1.
    rewrite lookup_splice by lia. case_decide.
    + rewrite lookup_app_l by lia. f_equal. lia.
    + rewrite lookup_app_r by lia. unfold put_bytes.
      rewrite lookup_splice by (rewrite length_replicate; lia).
      rewrite decide_True by (rewrite length_replicate; lia).
      rewrite !lookup_replicate_2 by lia. done.
  - rewrite lookup_take_ge by lia. symmetry. apply lookup_ge_None_2.
    rewrite length_app, length_replicate. lia.
Qed.

Create HintDb pkt.
#[export] Hint Resolve put_ok put_bytes_ok : pkt.
#[export] Hint Extern 1 (_ <= _)%nat => (simpl; rewrite ?length_replicate, ?length_take, ?length_drop; lia) : pkt.
#[export] Hint Extern 1 (_ \/ _) => (simpl; rewrite ?length_replicate, ?length_take, ?length_drop; lia) : pkt.

(** [pkt_simpl] evaluates field accesses on packets built with the setters. *)
Ltac pkt_unfold :=
  unfold op_code, port_id, conn_addr, chunk_id_sqn, status, meta_addr, meta_nbytes, meta_name,
    data_offset, data_data, query_offset, query_nbytes, hb_id, hb_addr, hb_usage, hb_storage,
    placeholder,
    set_op, set_port, set_conn_addr, set_chunk_id_sqn, set_status, set_meta_addr,
    set_meta_nbytes, set_data_offset, set_query_offset, set_query_nbytes, set_hb_id,
    set_hb_addr, set_hb_usage, set_hb_storage, set_meta_name, set_data_data.
Ltac pkt_simpl :=
  pkt_unfold;
  repeat first
    [ rewrite get_put by auto 12 with pkt
    | rewrite get_put_ne by auto 12 with pkt
    | rewrite get_put_bytes_ne by auto 12 with pkt
    | rewrite slice_put_ne by auto 12 with pkt
    | rewrite slice_put_bytes by auto 12 with pkt ].
