(* ===== verification/DfsChunk.v ===== *)
(** * The chunk server (src/dfs/dfs-chunkserver.c)

    Ports handed out to clients and the handler of every packet.  Storage is the interface
    [ChunkStore]; a send ([nrf_send_noack] or [nrf_send_ack], both of which always report
    that all bytes were sent) appends to the outbox.  A receive gives a packet of 32 bytes or
    times out. *)

From stdpp Require Import base tactics option list numbers sets.
From Stdlib Require Import ZArith Lia.
From S2P Require Import Prelude FatTable FatChain Dirent DfsStore DfsPkt.

(** ** Ports *)

(** The loop of [try_assign_port]: [inl] is the port the client already has, [inr] the first
    idle one, -1 if there is none. *)
Fixpoint assign_port_loop (client_addrs : list Z) (i first_idle client_addr : Z) : Z + Z :=
  match client_addrs with
  | [] => inr first_idle
  | a :: rest =>
      if a =? client_addr then inl i
      else if (a =? 0) && (first_idle <? 0) then assign_port_loop rest (i + 1) i client_addr
      else assign_port_loop rest (i + 1) first_idle client_addr
  end.

(** The state is [client_addrs] and the radio's [n_conns]. *)
Definition try_assign_port (client_addr : Z) : M (list Z * Z) Z :=
  '(addrs, n_conns) ← m_gets (fun s => s);
  match assign_port_loop addrs 0 (-1) client_addr with
  | inl i => mret i
  | inr first_idle =>
      if first_idle =? -1 then
        m_assert (n_conns =? DFS_MAX_CONN);;
        mret (-1)
      else
        m_modify (fun _ => (<[Z.to_nat first_idle := client_addr]> addrs, u32 (n_conns + 1)));;
        mret first_idle
  end.

(** ** The server *)

Record dfs_chunkserver_t (St : Type) : Type := mk_cserver {
  c_addr : Z;
  c_id : Z;
  c_fs : St;
  c_ports : list Z * Z;
  c_out : list (Z * pkt)
}.
Arguments mk_cserver {_} _ _ _ _ _.
Arguments c_addr {_} _.
Arguments c_id {_} _.
Arguments c_fs {_} _.
Arguments c_ports {_} _.
Arguments c_out {_} _.

Section Server.
Context {St : Type} `{ChunkStore St} `{HeapGarbage}.
Local Notation CS := (dfs_chunkserver_t St).

(** Unspecified contents of a packet on the stack. *)
Context (junk : pkt).

Definition on_store {A} (m : M St A) : M CS A :=
  m_zoom c_fs (fun s c => mk_cserver (c_addr c) (c_id c) s (c_ports c) (c_out c)) m.
Definition on_ports {A} (m : M (list Z * Z) A) : M CS A :=
  m_zoom c_ports (fun s c => mk_cserver (c_addr c) (c_id c) (c_fs c) s (c_out c)) m.
Definition c_send (addr : Z) (p : pkt) : M CS unit :=
  m_modify (fun c => mk_cserver (c_addr c) (c_id c) (c_fs c) (c_ports c) (c_out c ++ [(addr, p)])).

Definition chunk_cnct (recv : pkt) : M CS unit :=
  let client_addr := conn_addr recv in
  port ← on_ports (try_assign_port client_addr);
  if port =? -1 then c_send client_addr (set_op DFS_REJ junk)
  else c_send client_addr (set_port port (set_op DFS_ACP junk)).

Definition chunk_hb (recv : pkt) : M CS unit :=
  c ← m_gets (fun c => c);
  c_send (hb_addr recv)
    (set_hb_storage (32 * 1024) (set_hb_usage 0 (set_hb_addr (c_addr c)
      (set_hb_id (hb_id recv) (set_port (c_id c) (set_op DFS_HB junk)))))).

(** The packets of [DFS_RD]: 16 bytes each, the last one marked. *)
Fixpoint read_loop (fuel : nat) (client_addr cid : Z) (data : list Z)
    (offset bytes_to_send bytes_sent : Z) : M CS unit :=
  match fuel with
  | O => m_nofuel
  | S fuel =>
      if bytes_sent <? bytes_to_send then
        let cur_offset := u32 (offset + bytes_sent) in
        let last := bytes_to_send - bytes_sent <=? CHUNK_SERVER_PKT_SIZE in
        let nbytes := if last then bytes_to_send - bytes_sent else CHUNK_SERVER_PKT_SIZE in
        let op := if last then DFS_END_RD else DFS_RD in
        c_send client_addr
          (set_data_data (buf_slice data (Z.to_nat cur_offset) (Z.to_nat nbytes))
            (set_data_offset cur_offset (set_status STATUS_SUCCESS
              (set_chunk_id_sqn cid (set_op op junk)))));;
        read_loop fuel client_addr cid data offset bytes_to_send
          (u32 (bytes_sent + CHUNK_SERVER_PKT_SIZE))
      else mret tt
  end.

Definition chunk_rd (recv : pkt) : M CS unit :=
  if DFS_MAX_CONN <=? port_id recv then mret tt else
  c ← m_gets (fun c => c);
  client_addr ← m_opt ((c_ports c).1 !! Z.to_nat (port_id recv));
  '(data, n_data) ← on_store (cs_read (chunk_id_sqn recv));
  let offset := query_offset recv in
  let bytes_to_send :=
    if n_data <=? offset then query_nbytes recv
    else if n_data <? u32 (offset + query_nbytes recv) then n_data - offset
    else query_nbytes recv in
  read_loop (S (S (Z.to_nat (bytes_to_send / 16)))) client_addr (chunk_id_sqn recv) data
    offset bytes_to_send 0.

(** The data of a write packet, in a zeroed buffer of 17 bytes. *)
Definition wr_data (recv : pkt) : list Z := data_data recv ++ [0].

Definition chunk_store_data (recv : pkt) : M CS unit :=
  let cid := chunk_id_sqn recv in
  (if data_offset recv =? 0 then on_store (cs_create cid);; mret tt else mret tt);;
  on_store (cs_append cid (wr_data recv));;
  mret tt.

Definition chunk_wr (recv : pkt) : M CS unit := chunk_store_data recv.

Definition chunk_end_wr (recv : pkt) : M CS unit :=
  chunk_store_data recv;;
  c_send client_addr_const (set_status STATUS_SUCCESS (set_op DFS_END_WR junk)).

(** One turn of [dfs_chunkserver_main_start]: [None] is a receive that timed out. *)
Definition chunk_step (recv : option pkt) : M CS unit :=
  match recv with
  | None => mret tt
  | Some p =>
      let op := op_code p in
      if op =? DFS_CNCT then chunk_cnct p
      else if op =? DFS_HB then chunk_hb p
      else if op =? DFS_RD then chunk_rd p
      else if (op =? DFS_RM) || (op =? DFS_WR) then chunk_wr p
      else if op =? DFS_END_WR then chunk_end_wr p
      else m_panic
  end.

Fixpoint dfs_chunkserver_main (recvs : list (option pkt)) : M CS unit :=
  match recvs with
  | [] => mret tt
  | r :: recvs => chunk_step r;; dfs_chunkserver_main recvs
  end.
End Server.

(** ** Ports are handed out once *)

(** The port table: four entries, no client twice, and [n_conns] counts those in use. *)
Record ports_ok (s : list Z * Z) : Prop := {
  po_len : length s.1 = 4%nat;
  po_uniq i j a : s.1 !! i = Some a -> s.1 !! j = Some a -> a <> 0 -> i = j;
  po_count : s.2 = Z.of_nat (length (filter (fun a => a <> 0) s.1))
}.

Lemma assign_port_loop_spec l i0 fi c : 0 <= i0 -> -1 <= fi < i0 ->
  match assign_port_loop l i0 fi c with
  | inl i => i0 <= i /\ l !! Z.to_nat (i - i0) = Some c
  | inr i => (forall j, l !! j <> Some c) /\
      (i = fi /\ (fi = -1 -> forall j a, l !! j = Some a -> a <> 0) \/
       fi = -1 /\ i0 <= i /\ l !! Z.to_nat (i - i0) = Some 0)
  end.
Proof.
  revert i0 fi. induction l as [|a l IH]; intros i0 fi H0 Hf; simpl.
  { split; [done|]. left. by split. }
  destruct (Z.eqb_spec a c) as [->|Hne].
  { split; [lia|]. by rewrite Z.sub_diag. }
  assert (Hc : forall j, (forall k, l !! k <> Some c) -> (a :: l) !! j <> Some c).
  { intros [|j] Hk; [by intros [= ->]|apply Hk]. }
  assert (Hs : forall i, i0 + 1 <= i -> (a :: l) !! Z.to_nat (i - i0) = l !! Z.to_nat (i - (i0 + 1))).
  { intros i Hi. replace (Z.to_nat (i - i0)) with (S (Z.to_nat (i - (i0 + 1)))) by lia. done. }
  destruct ((a =? 0) && (fi <? 0)) eqn:Ea.
  - apply andb_prop in Ea as [->%Z.eqb_eq Hfi%Z.ltb_lt].
    specialize (IH (i0 + 1) i0 ltac:(lia) ltac:(lia)).
    destruct (assign_port_loop l (i0 + 1) i0 c) as [i|i].
    + destruct IH as [Hi Hl]. split; [lia|]. by rewrite Hs.
    + destruct IH as [Hn [[-> _]|(? & _)]]; [|lia]. split; [auto|]. right.
      split_and!; [lia|lia|]. by rewrite Z.sub_diag.
  - specialize (IH (i0 + 1) fi ltac:(lia) ltac:(lia)).
    destruct (assign_port_loop l (i0 + 1) fi c) as [i|i].
    + destruct IH as [Hi Hl]. split; [lia|]. by rewrite Hs.
    + destruct IH as [Hn [[-> Hz]|(Hf1 & Hi & Hl)]]; (split; [auto|]).
      * left. split; [done|]. intros E [|j] b; simpl; [|by apply Hz].
        intros [= ->] ->. apply andb_false_iff in Ea as [Ea|Ea].
        -- by apply Z.eqb_neq in Ea.
        -- apply Z.ltb_ge in Ea. lia.
      * right. split_and!; [done|lia|]. by rewrite Hs.
Qed.

Lemma filter_all_length {A} (P : A -> Prop) `{!forall x, Decision (P x)} (l : list A) :
  (forall x, x ∈ l -> P x) -> filter P l = l.
Proof.
  induction l as [|x l IH]; intros Hp; [done|]. rewrite filter_cons, decide_True, IH;
    set_solver.
Qed.

Lemma filter_insert_zero (l : list Z) i c : l !! i = Some 0 -> c <> 0 ->
  length (filter (fun a => a <> 0) (<[i := c]> l)) = S (length (filter (fun a => a <> 0) l)).
Proof.
  intros Hi Hc. revert i Hi. induction l as [|x l IH]; intros [|i] Hi; simpl in Hi; simplify_eq.
  - simpl. rewrite !filter_cons. rewrite decide_True, decide_False by naive_solver. done.
  - simpl. rewrite !filter_cons. case_decide; simpl; rewrite IH by done; done.
Qed.

(** A client that has a port gets it again and nothing changes; a new client gets a port
    that was idle and no port of another client changes; a client is turned away exactly
    when all four ports are taken by others. *)
Lemma try_assign_port_run s c : ports_ok s -> c <> 0 ->
  exists r s', try_assign_port c s = Done (r, s') /\ ports_ok s' /\
    ((exists i, r = Z.of_nat i /\ s.1 !! i = Some c /\ s' = s) \/
     (exists i, r = Z.of_nat i /\ (forall j, s.1 !! j <> Some c) /\ s.1 !! i = Some 0 /\
        s'.1 = <[i := c]> s.1) \/
     (r = -1 /\ s' = s /\ forall j a, s.1 !! j = Some a -> a <> 0 /\ a <> c)).
Proof.
  intros Ok Hc. destruct s as [l n]. pose proof Ok as [L U C]. simpl in *.
  unfold try_assign_port. rewrite gets_run.
  pose proof (assign_port_loop_spec l 0 (-1) c ltac:(lia) ltac:(lia)) as Sp.
  destruct (assign_port_loop l 0 (-1) c) as [i|i].
  - destruct Sp as [Hi Hl]. rewrite Z.sub_0_r in Hl. exists i, (l, n).
    split_and!; [done|done|]. left. exists (Z.to_nat i). split_and!; [lia|done|done].
  - destruct Sp as [Hn [[-> Hz]|(_ & Hi & Hl)]].
    + simpl. assert (n = 4) as ->.
      { rewrite C, filter_all_length, L; [done|]. intros x [j Hj]%list_elem_of_lookup.
        by apply (Hz eq_refl j). }
      rewrite assert_run by done. exists (-1), (l, 4). split_and!; [done|done|].
      right; right. split_and!; [done|done|]. intros j a Hj. split; [by apply (Hz eq_refl j)|].
      intros ->. by apply (Hn j).
    + rewrite Z.sub_0_r in Hl. rewrite (proj2 (Z.eqb_neq _ _)) by lia. rewrite modify_run.
      eexists _, _. split; [done|]. split.
      * constructor; simpl.
        -- by rewrite length_insert.
        -- intros j k a Hj Hk Ha.
           apply list_lookup_insert_Some in Hj as [(<- & <- & _)|[? Hj]];
             apply list_lookup_insert_Some in Hk as [(<- & E & _)|[? Hk]]; try done.
           ++ by apply Hn in Hk.
           ++ rewrite <-E in Hj. by apply Hn in Hj.
           ++ by eapply U.
        -- rewrite filter_insert_zero by done. rewrite C, u32_small; [lia|].
           pose proof (length_filter (fun a => a <> 0) l). unfold is_u32. lia.
      * right; left. exists (Z.to_nat i). split_and!; [lia|done|done|done].
Qed.

(** The address 0, the mark of an idle port, is answered with an idle port that stays idle. *)
Lemma assign_zero_run s : ports_ok s ->
  exists r, try_assign_port 0 s = Done (r, s) /\
    ((exists i, r = Z.of_nat i /\ s.1 !! i = Some 0) \/ (r = -1 /\ forall i a, s.1 !! i = Some a -> a <> 0)).
Proof.
  intros Ok. destruct s as [l n]. pose proof Ok as [L U C]. simpl in *. unfold try_assign_port. rewrite gets_run.
  pose proof (assign_port_loop_spec l 0 (-1) 0 ltac:(lia) ltac:(lia)) as Sp.
  destruct (assign_port_loop l 0 (-1) 0) as [i|i].
  - destruct Sp as [Hi Hl]. rewrite Z.sub_0_r in Hl. exists i. split; [done|]. left. exists (Z.to_nat i).
    split; [lia|done].
  - destruct Sp as [Hn [[-> Hz]|(_ & _ & Hl)]]; [|by apply Hn in Hl].
    assert (n = 4) as ->.
    { rewrite C, filter_all_length, L; [done|]. intros x [j Hj]%list_elem_of_lookup. by apply (Hz eq_refl j). }
    exists (-1). split; [by rewrite Z.eqb_refl, assert_run|]. right. split; [done|]. by apply Hz.
Qed.

Lemma try_assign_port_inv s c r s' : ports_ok s -> try_assign_port c s = Done (r, s') -> ports_ok s'.
Proof.
  intros Ok R. destruct (decide (c = 0)) as [->|Hc].
  - destruct (assign_zero_run s Ok) as (r1 & R1 & _). rewrite R in R1. by injection R1 as <- <-.
  - destruct (try_assign_port_run s c Ok Hc) as (r1 & s1 & R1 & Ok1 & _).
    rewrite R in R1. by injection R1 as <- <-.
Qed.

Lemma assign_port_loop_idle l i0 fi c : 0 <= fi -> (forall j, l !! j <> Some c) ->
  assign_port_loop l i0 fi c = inr fi.
Proof.
  intros Hf. revert i0. induction l as [|a l IH]; intros i0 Hc; [done|]. simpl.
  rewrite (proj2 (Z.eqb_neq _ _)) by (intros ->; by apply (Hc 0%nat)).
  rewrite (proj2 (Z.ltb_ge _ _)), andb_false_r by lia. apply IH. intros j. apply (Hc (S j)).
Qed.

Lemma assign_port_loop_zero l i0 c i : 0 <= i0 -> (forall j, l !! j <> Some c) ->
  assign_port_loop l i0 (-1) 0 = inl i -> assign_port_loop l i0 (-1) c = inr i.
Proof.
  revert i0. induction l as [|a l IH]; intros i0 H0 Hc; [done|]. simpl.
  rewrite (proj2 (Z.eqb_neq a c)) by (intros ->; by apply (Hc 0%nat)).
  destruct (Z.eqb_spec a 0) as [->|Ha]; cbn [andb].
  - intros [= <-]. apply assign_port_loop_idle; [done|]. intros j. apply (Hc (S j)).
  - apply IH; [lia|]. intros j. apply (Hc (S j)).
Qed.

(** The address of a connection request comes from the packet.  A request with the address 0
    is told a port that is not recorded, and the next new client is told the same one. *)
Theorem address_zero_shares_port s c : ports_ok s -> c <> 0 -> (forall i, s.1 !! i <> Some c) ->
  (exists i, s.1 !! i = Some 0) ->
  exists r s', try_assign_port 0 s = Done (r, s) /\ try_assign_port c s = Done (r, s') /\
    0 <= r < 4 /\ s'.1 !! Z.to_nat r = Some c.
Proof.
  intros Ok Hc Hn [i Hi]. destruct s as [l n]. pose proof (po_len _ Ok) as L. simpl in *.
  unfold try_assign_port. pose proof (assign_port_loop_spec l 0 (-1) 0 ltac:(lia) ltac:(lia)) as Sp.
  destruct (assign_port_loop l 0 (-1) 0) as [r|r] eqn:E.
  2: { by destruct Sp as [Hz _]; apply Hz in Hi. }
  destruct Sp as [Hr Hl]. rewrite Z.sub_0_r in Hl. pose proof (lookup_lt_Some _ _ _ Hl).
  exists r, (<[Z.to_nat r := c]> l, u32 (n + 1)).
  rewrite !gets_run, E, (assign_port_loop_zero l 0 c r) by done.
  rewrite (proj2 (Z.eqb_neq _ _)) by lia. rewrite modify_run. split_and!; [done|done|lia|lia|].
  by apply list_lookup_insert_eq.
Qed.

(** Requests one after the other, with the answers. *)
Fixpoint assign_all (cs : list Z) : M (list Z * Z) (list Z) :=
  match cs with
  | [] => mret []
  | c :: cs => r ← try_assign_port c; rs ← assign_all cs; mret (r :: rs)
  end.

(** A port in use keeps its client. *)
Lemma assign_keeps s c r s' i a : ports_ok s -> try_assign_port c s = Done (r, s') ->
  s.1 !! i = Some a -> a <> 0 -> s'.1 !! i = Some a.
Proof.
  intros Ok R Hi Ha. destruct (decide (c = 0)) as [->|Hc].
  { destruct (assign_zero_run s Ok) as (r1 & R1 & _). rewrite R in R1. by injection R1 as <- <-. }
  destruct (try_assign_port_run s c Ok Hc) as (r1 & s1 & R1 & _ & Cs).
  rewrite R in R1. injection R1 as <- <-.
  destruct Cs as [(j & _ & _ & ->)|[(j & _ & _ & Hj & ->)|(_ & -> & _)]]; [done| |done].
  rewrite list_lookup_insert_ne; [done|]. intros ->. congruence.
Qed.

(** Where an answer leaves a client: refused by a full table, recorded on its port, or, for
    the address 0, told a port that was idle in [s] and not recorded. *)
Definition answered (s s' : list Z * Z) (c r : Z) : Prop :=
  r = -1 /\ (forall i a, s'.1 !! i = Some a -> a <> 0 /\ a <> c) \/
  0 <= r < 4 /\ (c <> 0 /\ s'.1 !! Z.to_nat r = Some c \/ c = 0 /\ s.1 !! Z.to_nat r = Some 0).

Lemma ports_range s i a : ports_ok s -> s.1 !! i = Some a -> 0 <= Z.of_nat i < 4.
Proof. intros Ok Hi. apply lookup_lt_Some in Hi. rewrite (po_len _ Ok) in Hi. lia. Qed.

(** What the later requests leave of an answer. *)
Lemma answered_later s0 s1 s' c r : ports_ok s1 -> ports_ok s' ->
  (forall i a, s1.1 !! i = Some a -> a <> 0 -> s'.1 !! i = Some a) ->
  answered s0 s1 c r -> answered s0 s' c r.
Proof.
  intros Ok Ok' Keep [[-> Full]|[Hr [[Hc Hl]|Hz]]]; [left|right; split; [done|left; eauto]|right; split; [done|by right]].
  split; [done|]. intros i a Hi. destruct (lookup_lt_is_Some_2 s1.1 i) as [b Hb].
  { apply lookup_lt_Some in Hi. rewrite (po_len _ Ok'), <-(po_len _ Ok) in Hi. done. }
  destruct (Full i b Hb) as [Hb0 Hbc]. rewrite (Keep i b Hb Hb0) in Hi. by injection Hi as <-.
Qed.

(** A port that is idle now was idle before. *)
Lemma answered_earlier s s1 s' c r : ports_ok s -> ports_ok s1 ->
  (forall i a, s.1 !! i = Some a -> a <> 0 -> s1.1 !! i = Some a) ->
  answered s1 s' c r -> answered s s' c r.
Proof.
  intros Ok Ok1 Keep [Full|[Hr [Hn|[-> Hz]]]]; [by left|right; split; [done|by left]|right; split; [done|right]].
  split; [done|]. destruct (lookup_lt_is_Some_2 s.1 (Z.to_nat r)) as [b Hb].
  { rewrite (po_len _ Ok). lia. }
  destruct (decide (b = 0)) as [->|Hb0]; [done|]. pose proof (Keep _ _ Hb Hb0). congruence.
Qed.

Lemma assign_answered s c : ports_ok s -> exists r s1, try_assign_port c s = Done (r, s1) /\ ports_ok s1 /\
  answered s s1 c r /\ (c = 0 -> s1 = s).
Proof.
  intros Ok. destruct (decide (c = 0)) as [->|Hc].
  - destruct (assign_zero_run s Ok) as (r & R & Cs). exists r, s. split_and!; [done|done| |done].
    destruct Cs as [(i & -> & Hi)|[-> Hz]]; [right|left].
    + split; [exact (ports_range s i _ Ok Hi)|]. right. by rewrite Nat2Z.id.
    + split; [done|]. intros i a Hi. pose proof (Hz i a Hi). by split.
  - destruct (try_assign_port_run s c Ok Hc) as (r & s1 & R & Ok1 & Cs). exists r, s1.
    split_and!; [done|done| |done].
    destruct Cs as [(i & -> & Hi & ->)|[(i & -> & _ & Hi & E)|(-> & -> & Full)]]; [right|right|by left].
    + split; [exact (ports_range s i _ Ok Hi)|]. left. by rewrite Nat2Z.id.
    + split; [exact (ports_range s i _ Ok Hi)|]. left. rewrite Nat2Z.id, E. split; [done|].
      apply list_lookup_insert_eq. by eapply lookup_lt_Some.
Qed.

Lemma assign_all_run cs s : ports_ok s ->
  exists rs s', assign_all cs s = Done (rs, s') /\ ports_ok s' /\
    (forall i a, s.1 !! i = Some a -> a <> 0 -> s'.1 !! i = Some a) /\
    Forall2 (answered s s') cs rs /\
    exists rs', assign_all (filter (fun c => c <> 0) cs) s = Done (rs', s').
Proof.
  revert s. induction cs as [|c cs IH]; intros s Ok.
  { exists [], s. split_and!; [done..|]. by exists []. }
  destruct (assign_answered s c Ok) as (r & s1 & R & Ok1 & An & Ez).
  destruct (IH s1 Ok1) as (rs & s' & R' & Ok' & Keep & F & rs' & Rf).
  pose proof (fun i a => assign_keeps s c r s1 i a Ok R) as K1.
  exists (r :: rs), s'. cbn [assign_all]. mrun R. mrun R'. split_and!; [done|done|eauto| |].
  - constructor; [by apply (answered_later s s1)|]. eapply Forall2_impl; [exact F|]. intros c' r'.
    by apply answered_earlier.
  - rewrite filter_cons. case_decide as Hd.
    + exists (r :: rs'). cbn [assign_all]. mrun R. by mrun Rf.
    + exists rs'. destruct (decide (c = 0)) as [E|]; [|done]. by rewrite <-(Ez E).
Qed.

(** C22: ports.  Whatever addresses ask for connections in whatever order, [try_assign_port]
    never fails its assertion and the table of four ports stays consistent (no client
    twice, [n_conns] the number of ports in use).  Each answer is -1 and all four ports are
    then taken by others for good, or a port.  A client with an address other than 0 that was
    given a port still has it at the end, so it gets the same port when it asks again, and two
    such clients never share one.  Address 0, the mark of an idle port, is not protected: it is
    told a port that no client had at the start, and the table ends up as if it had never asked
    (see [address_zero_shares_port]). *)
Theorem ports_assigned_for_good cs s : ports_ok s ->
  exists rs s', assign_all cs s = Done (rs, s') /\ ports_ok s' /\
    (forall j c r, cs !! j = Some c -> rs !! j = Some r ->
       r = -1 /\ (forall i a, s'.1 !! i = Some a -> a <> 0 /\ a <> c) \/
       0 <= r < 4 /\ (c <> 0 /\ s'.1 !! Z.to_nat r = Some c \/ c = 0 /\ s.1 !! Z.to_nat r = Some 0)) /\
    (forall j j' c c' r, cs !! j = Some c -> cs !! j' = Some c' -> rs !! j = Some r ->
       rs !! j' = Some r -> r <> -1 -> c <> 0 -> c' <> 0 -> c = c') /\
    exists rs', assign_all (filter (fun c => c <> 0) cs) s = Done (rs', s').
Proof.
  intros Ok. destruct (assign_all_run cs s Ok) as (rs & s' & R & Ok' & _ & F & Rf).
  exists rs, s'. split_and!; [done|done| | |done].
  - intros j c r Hj Hr. exact (Forall2_lookup_lr _ _ _ _ _ _ F Hj Hr).
  - intros j j' c c' r Hj Hj' Hr Hr' Hne Hc Hc'.
    destruct (Forall2_lookup_lr _ _ _ _ _ _ F Hj Hr) as [[-> _]|[_ [[_ Hi]|[-> _]]]]; [done| |done].
    destruct (Forall2_lookup_lr _ _ _ _ _ _ F Hj' Hr') as [[-> _]|[_ [[_ Hi']|[-> _]]]]; [done|congruence|done].
Qed.

Lemma ports_assigned_for_good_witness :
  exists rs s', assign_all [7; 8; 0; 7; 9; 10; 0] ([8; 0; 0; 0], 1) = Done (rs, s') /\ ports_ok s' /\
    rs = [1; 0; 2; 1; 2; 3; -1].
Proof.
  destruct (ports_assigned_for_good [7; 8; 0; 7; 9; 10; 0] ([8; 0; 0; 0], 1)) as (rs & s' & R & Ok & _).
  - constructor; [done| |done]. simpl. intros [|[|[|[|i]]]] [|[|[|[|j]]]] a; simpl; intros; by simplify_eq.
  - exists rs, s'. split; [done|]. split; [done|]. vm_compute in R. by injection R as <- <-.
Defined.
