(* ===== verification/DfsClient.v ===== *)
(** * The client (src/dfs/dfs-client.c)

    Every request of the client: the packets it sends, the replies it waits for and what it
    makes of them.  The radio is an inbox and an outbox: a receive takes the next element of
    the inbox, where [None] is a receive that timed out, and an empty inbox times out for
    ever; a send always succeeds. *)

From stdpp Require Import base tactics option list numbers sets gmap.
From Stdlib Require Import ZArith Lia.
From S2P Require Import Prelude FatTable FatChain Dirent DfsStore DfsPkt.

Record dfs_client_t : Type := mk_client {
  cl_addr : Z;
  cl_in : list (option pkt);
  cl_out : list (Z * pkt);
  cl_console : list (list Z)      (* strings printed by the directory listing *)
}.

Record dfs_connection_t : Type := mk_conn { conn_port : Z; conn_server : Z }.

Section Client.
Context `{HeapGarbage}.
Local Notation C := (dfs_client_t).
Context (junk : pkt).

Definition cl_send (addr : Z) (p : pkt) : M C unit :=
  m_modify (fun c => mk_client (cl_addr c) (cl_in c) (cl_out c ++ [(addr, p)]) (cl_console c)).

(** [nrf_read_exact_timeout]: [None] is -1. *)
Definition cl_read : M C (option pkt) :=
  c ← m_gets (fun c => c);
  match cl_in c with
  | [] => mret None
  | r :: rest =>
      m_modify (fun c => mk_client (cl_addr c) rest (cl_out c) (cl_console c));;
      mret r
  end.

Definition cl_print (s : list Z) : M C unit :=
  m_modify (fun c => mk_client (cl_addr c) (cl_in c) (cl_out c) (cl_console c ++ [s])).

(** Fuel for the receive loops: one turn per element of the inbox, and one that finds it
    empty. *)
Definition recv_fuel : M C nat := m_gets (fun c => S (length (cl_in c))).

Definition dfs_client_shutdown_server (conn : dfs_connection_t) : M C Z :=
  c ← m_gets (fun c => c);
  cl_send (conn_server conn) (set_conn_addr (cl_addr c) (set_op DFS_SD junk));;
  mret 0.

(** Repeats while the receive times out; any packet ends the loop.  The result is the
    return value and the connection's port. *)
Fixpoint connect_loop (fuel : nat) (conn : dfs_connection_t) (req : pkt) : M C (Z * Z) :=
  match fuel with
  | O => m_nofuel
  | S fuel =>
      r ← cl_read;
      match r with
      | Some p =>
          if op_code p =? DFS_ACP then mret (0, port_id p)
          else cl_send (conn_server conn) req;; mret (0, conn_port conn)
      | None =>
          cl_send (conn_server conn) req;;
          connect_loop fuel conn req
      end
  end.

Definition dfs_client_try_connect (conn : dfs_connection_t) : M C (Z * Z) :=
  c ← m_gets (fun c => c);
  let send_pkt := set_conn_addr (cl_addr c) (set_op DFS_CNCT junk) in
  cl_send (conn_server conn) send_pkt;;
  fuel ← recv_fuel;
  connect_loop fuel conn send_pkt.

(** [memcpy(file_name, filename, name_len)] reads [name_len] bytes of the caller's string. *)
Definition name_bytes (fname : list Z) (name_len : Z) : list Z :=
  buf_slice (fname ++ [0]) 0 (Z.to_nat name_len).

(** [dfs_client_create] and [dfs_client_delete] differ in the operation only. *)
Definition name_request (op : Z) (conn : dfs_connection_t) (fname : list Z) (name_len : Z)
    : M C Z :=
  m_assert (name_len <=? 12);;
  cl_send (conn_server conn)
    (set_meta_nbytes name_len (set_meta_name (name_bytes fname name_len)
      (set_port (conn_port conn) (set_op op junk))));;
  r ← cl_read;
  match r with
  | None => mret (u32 (-1))
  | Some p =>
      if negb (op_code p =? op) || (status p =? STATUS_FAILED) then mret (u32 (-1))
      else mret (chunk_id_sqn p)
  end.

Definition dfs_client_create (conn : dfs_connection_t) (fname : list Z) (name_len : Z) : M C Z :=
  name_request DFS_CR conn fname name_len.

Definition dfs_client_delete (conn : dfs_connection_t) (fname : list Z) (name_len : Z) : M C Z :=
  name_request DFS_RM conn fname name_len.

(** [memcpy(placeholder, dirname, strlen(dirname) + 1)]: 28 bytes are available. *)
Definition put_dirname (dirname : list Z) (p : pkt) : M C pkt :=
  if Nat.leb (length dirname) 27 then mret (put_bytes 4 (dirname ++ [0]) p) else m_undef.

Definition dfs_client_change_directory (conn : dfs_connection_t) (dirname : list Z) : M C Z :=
  p ← put_dirname dirname (set_port (conn_port conn) (set_op DFS_CD junk));
  cl_send (conn_server conn) p;;
  r ← cl_read;
  match r with
  | None => mret 0
  | Some p =>
      if op_code p =? DFS_CD then mret (if status p =? STATUS_SUCCESS then 1 else 2)
      else mret 0
  end.

Fixpoint listdir_loop (fuel : nat) : M C Z :=
  match fuel with
  | O => m_nofuel
  | S fuel =>
      r ← cl_read;
      match r with
      | None => mret 0
      | Some p =>
          if op_code p =? DFS_LS then
            cl_print (cstr (placeholder p));; listdir_loop fuel
          else if op_code p =? DFS_END_LS then
            cl_print (cstr (placeholder p));;
            mret (if status p =? STATUS_SUCCESS then 1 else 2)
          else listdir_loop fuel
      end
  end.

Definition dfs_client_listdir (conn : dfs_connection_t) (dirname : list Z) : M C Z :=
  p ← put_dirname dirname (set_port (conn_port conn) (set_op DFS_LS junk));
  cl_send (conn_server conn) p;;
  fuel ← recv_fuel;
  listdir_loop fuel.

(** The request for a chunk's location; [None] is [NULL]. *)
Definition chunk_meta (op : Z) (conn : dfs_connection_t) (fname : list Z) (name_len chunk_sqn : Z)
    : M C (option pkt) :=
  m_assert (name_len <=? 12);;
  cl_send (conn_server conn)
    (set_meta_nbytes name_len (set_meta_name (name_bytes fname name_len)
      (set_chunk_id_sqn chunk_sqn (set_port (conn_port conn) (set_op op junk)))));;
  r ← cl_read;
  match r with
  | None => mret None
  | Some p =>
      if negb (op_code p =? op) || (status p =? STATUS_FAILED) then mret None
      else mret (Some p)
  end.

Definition dfs_client_write_chunk_meta (conn : dfs_connection_t) (fname : list Z)
    (name_len chunk_sqn : Z) : M C (option pkt) :=
  chunk_meta DFS_WR conn fname name_len chunk_sqn.

Definition dfs_client_read_chunk_meta (conn : dfs_connection_t) (fname : list Z)
    (name_len chunk_sqn : Z) : M C (option pkt) :=
  chunk_meta DFS_RD conn fname name_len chunk_sqn.

(** One packet of a chunk. *)
Definition wr_pkt (conn : dfs_connection_t) (cid : Z) (data : list Z) (nbytes bytes_sent : Z) : pkt :=
  let last := nbytes - bytes_sent <=? CHUNK_SERVER_PKT_SIZE in
  let pkt_nbytes := if last then nbytes - bytes_sent else CHUNK_SERVER_PKT_SIZE in
  set_data_data (buf_slice data (Z.to_nat bytes_sent) (Z.to_nat pkt_nbytes))
    (set_op (if last then DFS_END_WR else DFS_WR)
      (set_data_offset bytes_sent (set_chunk_id_sqn cid
        (set_port (conn_port conn) (set_op DFS_WR junk))))).

Fixpoint write_loop (fuel : nat) (conn : dfs_connection_t) (cid : Z) (data : list Z)
    (nbytes bytes_sent : Z) : M C unit :=
  match fuel with
  | O => m_nofuel
  | S fuel =>
      if bytes_sent <? nbytes then
        cl_send (conn_server conn) (wr_pkt conn cid data nbytes bytes_sent);;
        write_loop fuel conn cid data nbytes (u32 (bytes_sent + CHUNK_SERVER_PKT_SIZE))
      else mret tt
  end.

Fixpoint wait_end_wr (fuel : nat) : M C Z :=
  match fuel with
  | O => m_nofuel
  | S fuel =>
      r ← cl_read;
      match r with
      | None => mret (-1)
      | Some p => if op_code p =? DFS_END_WR then mret 0 else wait_end_wr fuel
      end
  end.

Definition dfs_client_write_chunk_data (conn : dfs_connection_t) (cid : Z) (chunk_data : list Z)
    (nbytes : Z) : M C Z :=
  write_loop (S (S (Z.to_nat (nbytes / 16)))) conn cid chunk_data nbytes 0;;
  fuel ← recv_fuel;
  wait_end_wr fuel.

(** The bytes copied to [chunk_data], whose size is [CHUNK_SIZE]; the result is the return
    value and those bytes. *)
Fixpoint query_loop (fuel : nat) (acc : list Z) : M C (Z * list Z) :=
  match fuel with
  | O => m_nofuel
  | S fuel =>
      r ← cl_read;
      match r with
      | None => mret (-1, acc)
      | Some p =>
          if status p =? STATUS_FAILED then mret (-1, acc) else
          if (op_code p =? DFS_RD) || (op_code p =? DFS_END_RD) then
            if Z.of_nat (length acc) + CHUNK_SERVER_PKT_SIZE <=? CHUNK_SIZE then
              let acc := acc ++ data_data p in
              if op_code p =? DFS_END_RD then mret (0, acc) else query_loop fuel acc
            else m_undef
          else query_loop fuel acc
      end
  end.

Definition query_pkt (conn : dfs_connection_t) (cid : Z) : pkt :=
  set_query_nbytes CHUNK_SIZE (set_query_offset 0 (set_chunk_id_sqn cid
    (set_port (conn_port conn) (set_op DFS_RD junk)))).

Definition dfs_client_query_chunk_data (conn : dfs_connection_t) (cid : Z) : M C (Z * list Z) :=
  cl_send (conn_server conn) (query_pkt conn cid);;
  fuel ← recv_fuel;
  query_loop fuel [].
End Client.
