(* ===== verification/DfsEnd.v ===== *)
(** * Client and chunk server together

    What the client sends is what the chunk server stores, and what the server sends back is
    what the client asked for: the two ends of the chunk protocol composed, over any
    storage that keeps the promises of [ChunkStoreLaws]. *)

From stdpp Require Import base tactics option list numbers sets gmap.
From Stdlib Require Import ZArith Lia.
From S2P Require Import Prelude FatTable FatChain Dirent Fat32 DfsStore ChunkFat DfsPkt.
From S2P Require Import DfsChunk DfsClient.

Lemma buf_slice_sub `{HeapGarbage} d o n : (o + n <= length d)%nat ->
  buf_slice d o n = take n (drop o d).
Proof.
  intros Hl. apply list_eq. intros i. unfold buf_slice. rewrite list_lookup_fmap.
  destruct (decide (i < n)%nat).
  - rewrite lookup_seq_lt by done. rewrite lookup_take_lt, lookup_drop by done. simpl.
    destruct (lookup_lt_is_Some_2 d (o + i)) as [x E]; [lia|]. by rewrite E.
  - rewrite lookup_seq_ge by lia. by rewrite lookup_take_ge by lia.
Qed.

(** A piece of a chunk as a packet carries it. *)
Definition padded (l : list Z) : list Z := l ++ replicate (16 - length l) 0.

(** The [r] packets [mk b], [mk (b + 16)], ... *)
Fixpoint pkts (mk : Z -> pkt) (r : nat) (b : Z) : list pkt :=
  match r with
  | O => []
  | S r => mk b :: pkts mk r (b + 16)
  end.

(** [r] packets are left of [n] bytes when [b] are done. *)
Definition left_of (n : nat) (b : Z) (r : nat) : Prop :=
  0 <= b /\ b + 16 * Z.of_nat r - 16 < Z.of_nat n <= b + 16 * Z.of_nat r /\ (1 <= r)%nat.

Section Ends.
Context {St : Type} `{ChunkStoreLaws St} `{HeapGarbage} `{!HeapGarbageBytes}.
(** Stack contents at the client and at the server. *)
Context (jc js : pkt) (Hjc : pkt_ok jc) (Hjs : pkt_ok js).
Context (conn : dfs_connection_t) (Hport : 0 <= conn_port conn < 4).
Context (id : Z) (Hid : chunk_id_ok id).
Context (data : list Z) (Hchars : Forall (fun c => is_u8 c /\ c <> 0) data)
  (Hlen : (0 < length data <= 1024)%nat).

Let N := Z.of_nat (length data).

(** The part of the data in the packet at [b]. *)
Definition piece (b : Z) : list Z := take 16 (drop (Z.to_nat b) data).

Lemma piece_slice buf b : 0 <= b < N -> take (length data) buf = data ->
  buf_slice buf (Z.to_nat b) (Z.to_nat (if N - b <=? 16 then N - b else 16)) = piece b.
Proof using All.
  intros Hb Ht. assert (L : (length data <= length buf)%nat).
  { rewrite <-Ht at 1. rewrite length_take. lia. }
  set (k := Z.to_nat (if N - b <=? 16 then N - b else 16)).
  assert (Hk : (Z.to_nat b + k <= length data)%nat) by (unfold k, N in *; destruct (Z.leb_spec (Z.of_nat (length data) - b) 16); lia).
  rewrite buf_slice_sub by lia. unfold piece.
  rewrite <-Ht. rewrite <-(take_drop (length data) buf) at 1. rewrite Ht.
  rewrite drop_app_le by lia. rewrite take_app_le by (rewrite length_drop; lia).
  unfold k, N. destruct (Z.leb_spec (Z.of_nat (length data) - b) 16); [|done].
  rewrite (take_ge (drop (Z.to_nat b) data) 16) by (rewrite length_drop; lia).
  apply take_ge. rewrite length_drop. lia.
Qed.

Lemma length_piece b : (length (piece b) <= 16)%nat.
Proof using All. unfold piece. rewrite length_take. lia. Qed.

Lemma piece_nonzero b : Forall (fun c => is_u8 c /\ c <> 0) (piece b).
Proof using All. unfold piece. by apply Forall_take, Forall_drop. Qed.

Lemma take_piece b : 0 <= b -> take (Z.to_nat b) data ++ piece b = take (Z.to_nat (b + 16)) data.
Proof using All.
  intros Hb. unfold piece. rewrite Z2Nat.inj_add by lia.
  rewrite <-(take_drop (Z.to_nat b) data) at 3. rewrite take_app.
  rewrite take_take, length_take. destruct (decide (Z.to_nat b <= length data)%nat).
  - f_equal; [f_equal; lia|]. f_equal. change (Z.to_nat 16) with 16%nat. lia.
  - rewrite drop_ge by lia. rewrite !take_nil, !app_nil_r. rewrite (take_ge data) by lia.
    symmetry. apply take_ge. lia.
Qed.

(** ** What the client sends *)

Lemma wr_pkt_fields b : 0 <= b < N ->
  let p := wr_pkt jc conn id data N b in
  op_code p = (if N - b <=? 16 then DFS_END_WR else DFS_WR) /\
  chunk_id_sqn p = id /\ data_offset p = b /\ data_data p = padded (piece b).
Proof using All.
  intros Hb p. subst p. unfold wr_pkt. cbv zeta. unfold CHUNK_SERVER_PKT_SIZE.
  rewrite (piece_slice data b Hb) by (by apply take_ge). pose proof (length_piece b).
  unfold chunk_id_ok, N in *. split_and!; pkt_simpl.
  - by destruct (_ <=? 16).
  - apply Z.mod_small. lia.
  - apply Z.mod_small. lia.
  - done.
Qed.

Lemma write_loop_run r b c : left_of (length data) b r ->
  forall fuel, (r < fuel)%nat ->
  write_loop jc fuel conn id data N b c =
    Done (tt, mk_client (cl_addr c) (cl_in c)
      (cl_out c ++ ((fun p => (conn_server conn, p)) <$> pkts (wr_pkt jc conn id data N) r b))
      (cl_console c)).
Proof using All.
  revert b c. induction r as [|r IH]; intros b c (Hb & Hr & Hr1) fuel Hf; [lia|].
  destruct fuel as [|fuel]; [lia|]. cbn [write_loop].
  rewrite (proj2 (Z.ltb_lt _ _)) by (unfold N; lia). unfold cl_send at 1. rewrite modify_run.
  unfold CHUNK_SERVER_PKT_SIZE. rewrite u32_small by (unfold is_u32, N in *; lia).
  destruct r as [|r].
  - destruct fuel as [|fuel]; [lia|]. cbn [write_loop].
    rewrite (proj2 (Z.ltb_ge _ _)) by (unfold N; lia). done.
  - rewrite IH; [|split; lia|lia]. unfold mret, M_ret. simpl. by rewrite <-app_assoc.
Qed.

(** Bytes behind the data are not looked at. *)
Lemma write_loop_buf buf fuel b c : take (length data) buf = data -> 0 <= b ->
  write_loop jc fuel conn id buf N b c = write_loop jc fuel conn id data N b c.
Proof using All.
  intros Ht. revert b c. induction fuel as [|fuel IH]; intros b c Hb; [done|]. cbn [write_loop].
  destruct (Z.ltb_spec b N); [|done].
  assert (wr_pkt jc conn id buf N b = wr_pkt jc conn id data N b) as ->.
  { unfold wr_pkt. cbv zeta. unfold CHUNK_SERVER_PKT_SIZE.
    rewrite (piece_slice buf b), (piece_slice data b); done || by apply take_ge. }
  unfold cl_send. rewrite !modify_run. apply IH. apply u32_range.
Qed.

(** ** What the server stores *)

Lemma cstr_wr_data p b : data_data p = padded (piece b) -> cstr (wr_data p) = piece b.
Proof using All.
  intros E. unfold wr_data. rewrite E. unfold padded. rewrite <-app_assoc.
  assert (exists t, replicate (16 - length (piece b)) 0 ++ [0] = 0 :: t) as [t ->].
  { destruct (16 - length (piece b))%nat; simpl; eauto. }
  apply cstr_app_zero. eapply Forall_impl; [apply piece_nonzero|naive_solver].
Qed.

Lemma wr_data_ok p b : data_data p = padded (piece b) -> bytes (wr_data p) /\ 0 ∈ wr_data p /\
  (length (wr_data p) <= 17)%nat.
Proof using All.
  intros E. unfold wr_data. rewrite E. unfold padded. pose proof (length_piece b). split_and!.
  - rewrite !Forall_app. split_and!.
    + eapply Forall_impl; [apply piece_nonzero|naive_solver].
    + apply Forall_replicate. split; lia.
    + repeat constructor; lia.
  - set_solver.
  - rewrite !length_app, length_replicate. simpl. lia.
Qed.

Lemma on_store_run {A} (m : M St A) s r st' : m (c_fs s) = Done (r, st') ->
  on_store m s = Done (r, mk_cserver (c_addr s) (c_id s) st' (c_ports s) (c_out s)).
Proof using All. intros E. unfold on_store. by rewrite (zoom_done _ _ _ _ _ _ E). Qed.

Lemma chunk_main_cons r rs (s : dfs_chunkserver_t St) :
  dfs_chunkserver_main js (r :: rs) s = (chunk_step js r;; dfs_chunkserver_main js rs) s.
Proof using All. done. Qed.

(** The server before the packet at [b]: the chunk holds the first [b] bytes. *)
Definition progress (m : gmap Z (list Z)) (b : Z) : Prop :=
  (b = 0 /\ m !! id = None) \/ (0 < b /\ m !! id = Some (take (Z.to_nat b) data)).

Lemma store_one p b m n s : 0 <= b < N -> b + 16 <= 1024 ->
  chunk_id_sqn p = id -> data_offset p = b -> data_data p = padded (piece b) ->
  progress m b -> stored (c_fs s) m ((if decide (b = 0) then 1 else 0) + S n) ->
  exists st', chunk_store_data p s =
      Done (tt, mk_cserver (c_addr s) (c_id s) st' (c_ports s) (c_out s)) /\
    stored st' (<[id := take (Z.to_nat (b + 16)) data]> m) n.
Proof using All.
  intros Hb Hmax Ei Eo Ed Pr Hst. destruct (wr_data_ok p b Ed) as (Bw & Zw & Lw).
  pose proof (cstr_wr_data p b Ed) as Ec.
  assert (Hne : piece b <> []).
  { intros E. apply (f_equal length) in E. unfold piece, N in *.
    rewrite length_take, length_drop in E. cbn [length] in E. lia. }
  unfold chunk_store_data. rewrite Ei, Eo.
  destruct Pr as [[-> Hm]|[Hp Hm]].
  - simpl in Hst. destruct (store_create _ _ _ id Hst Hid Hm) as (st1 & R1 & S1).
    destruct (store_append st1 (<[id := []]> m) n id [] (wr_data p) S1) as (st2 & R2 & S2);
      [apply lookup_insert_eq|done|done|done|by rewrite Ec|simpl; unfold CHUNK_SIZE; lia|].
    change (0 =? 0) with true. cbv iota. rewrite bind_assoc.
    mrun (on_store_run _ s _ _ R1). rewrite ret_run.
    exists st2. split; [by mrun (on_store_run _ (mk_cserver (c_addr s) (c_id s) st1 (c_ports s) (c_out s)) _ _ R2)|].
    rewrite insert_insert_eq, Ec in S2. simpl in S2.
    by rewrite <-(take_piece 0) by lia.
  - rewrite (proj2 (Z.eqb_neq _ _)) by lia. rewrite ret_run.
    rewrite decide_False in Hst by lia. simpl in Hst.
    destruct (store_append _ _ _ id (take (Z.to_nat b) data) (wr_data p) Hst Hm)
      as (st2 & R2 & S2); [done|done|done|by rewrite Ec| |].
    { rewrite length_take. unfold CHUNK_SIZE. lia. }
    exists st2. split; [by mrun (on_store_run _ s _ _ R2)|]. by rewrite Ec, take_piece in S2 by lia.
Qed.

Definition end_wr_pkt : pkt := set_status STATUS_SUCCESS (set_op DFS_END_WR js).

Lemma server_writes r b m n s : left_of (length data) b r -> b mod 16 = 0 ->
  progress m b -> stored (c_fs s) m ((if decide (b = 0) then 1 else 0) + (r + n)) ->
  exists st', dfs_chunkserver_main js (Some <$> pkts (wr_pkt jc conn id data N) r b) s =
      Done (tt, mk_cserver (c_addr s) (c_id s) st' (c_ports s)
                  (c_out s ++ [(client_addr_const, end_wr_pkt)])) /\
    stored st' (<[id := data]> m) n.
Proof using All.
  revert b m s. induction r as [|r IH]; intros b m s (Hb & Hr & Hr1) Hmod Pr Hst; [lia|].
  assert (HbN : 0 <= b < N) by (unfold N; lia).
  assert (Hmax : b + 16 <= 1024).
  { assert (b < 1024) by lia. pose proof (Z.div_mod b 16). lia. }
  destruct (wr_pkt_fields b HbN) as (Eop & Ei & Eo & Ed).
  set (p := wr_pkt jc conn id data N b) in *.
  replace (S r + n)%nat with (S (r + n))%nat in Hst by lia.
  destruct (store_one p b m (r + n) s HbN Hmax Ei Eo Ed Pr Hst) as (st1 & R1 & S1).
  change (Some <$> pkts (wr_pkt jc conn id data N) (S r) b)
    with (Some p :: (Some <$> pkts (wr_pkt jc conn id data N) r (b + 16))).
  rewrite chunk_main_cons. unfold chunk_step. cbv zeta. rewrite Eop.
  destruct r as [|r].
  - rewrite (proj2 (Z.leb_le _ _)) by (unfold N in *; lia).
    change (DFS_END_WR =? DFS_CNCT) with false. change (DFS_END_WR =? DFS_HB) with false.
    change (DFS_END_WR =? DFS_RD) with false.
    change ((DFS_END_WR =? DFS_RM) || (DFS_END_WR =? DFS_WR)) with false.
    change (DFS_END_WR =? DFS_END_WR) with true. cbv iota.
    unfold chunk_end_wr. rewrite bind_assoc. mrun R1. exists st1. split; [done|].
    rewrite (take_ge data) in S1 by (unfold N in *; lia). done.
  - rewrite (proj2 (Z.leb_gt _ _)) by (unfold N in *; lia).
    change (DFS_WR =? DFS_CNCT) with false. change (DFS_WR =? DFS_HB) with false.
    change (DFS_WR =? DFS_RD) with false.
    change ((DFS_WR =? DFS_RM) || (DFS_WR =? DFS_WR)) with true. cbv iota.
    unfold chunk_wr. mrun R1.
    destruct (IH (b + 16) (<[id := take (Z.to_nat (b + 16)) data]> m)
                (mk_cserver (c_addr s) (c_id s) st1 (c_ports s) (c_out s))) as (st2 & R2 & S2).
    { split; lia. }
    { rewrite Z.add_mod by lia. rewrite Hmod. done. }
    { right. split; [lia|]. by rewrite lookup_insert_eq. }
    { rewrite decide_False by lia. done. }
    exists st2. split; [exact R2|]. by rewrite insert_insert_eq in S2.
Qed.

(** ** What the server sends back *)

Definition rd_pkt (buf : list Z) (b : Z) : pkt :=
  let last := N - b <=? CHUNK_SERVER_PKT_SIZE in
  set_data_data (buf_slice buf (Z.to_nat b) (Z.to_nat (if last then N - b else CHUNK_SERVER_PKT_SIZE)))
    (set_data_offset b (set_status STATUS_SUCCESS
      (set_chunk_id_sqn id (set_op (if last then DFS_END_RD else DFS_RD) js)))).

Lemma rd_pkt_fields buf b : 0 <= b < N -> take (length data) buf = data ->
  op_code (rd_pkt buf b) = (if N - b <=? 16 then DFS_END_RD else DFS_RD) /\
  status (rd_pkt buf b) = STATUS_SUCCESS /\ data_data (rd_pkt buf b) = padded (piece b).
Proof using All.
  intros Hb Ht. unfold rd_pkt. cbv zeta. unfold CHUNK_SERVER_PKT_SIZE.
  rewrite (piece_slice buf b Hb Ht). pose proof (length_piece b).
  split_and!; pkt_simpl; [by destruct (_ <=? 16)|done|done].
Qed.

Lemma read_loop_run buf caddr r b (s : dfs_chunkserver_t St) : left_of (length data) b r ->
  forall fuel, (r < fuel)%nat ->
  read_loop js fuel caddr id buf 0 N b s =
    Done (tt, mk_cserver (c_addr s) (c_id s) (c_fs s) (c_ports s)
      (c_out s ++ ((fun p => (caddr, p)) <$> pkts (rd_pkt buf) r b))).
Proof using All.
  revert b s. induction r as [|r IH]; intros b s (Hb & Hr & Hr1) fuel Hf; [lia|].
  destruct fuel as [|fuel]; [lia|]. cbn [read_loop].
  rewrite (proj2 (Z.ltb_lt _ _)) by (unfold N; lia). cbv zeta. rewrite Z.add_0_l.
  rewrite (u32_small b) by (unfold is_u32; lia). fold (rd_pkt buf b).
  unfold c_send at 1. rewrite modify_run.
  replace (u32 (b + CHUNK_SERVER_PKT_SIZE)) with (b + 16)
    by (unfold CHUNK_SERVER_PKT_SIZE; rewrite u32_small; [done|unfold is_u32; lia]).
  destruct r as [|r].
  - destruct fuel as [|fuel]; [lia|]. cbn [read_loop].
    rewrite (proj2 (Z.ltb_ge _ _)) by (unfold N; lia). done.
  - rewrite IH; [|split; lia|lia]. unfold mret, M_ret. simpl. by rewrite <-app_assoc.
Qed.

Lemma query_loop_run buf r b c rest : take (length data) buf = data ->
  left_of (length data) b r -> b mod 16 = 0 ->
  cl_in c = (Some <$> pkts (rd_pkt buf) r b) ++ rest ->
  forall fuel, (r < fuel)%nat ->
  query_loop fuel (take (Z.to_nat b) data) c =
    Done ((0, data ++ replicate (Z.to_nat (b + 16 * Z.of_nat r - N)) 0),
          mk_client (cl_addr c) rest (cl_out c) (cl_console c)).
Proof using All.
  intros Ht. revert b c. induction r as [|r IH]; intros b c (Hb & Hr & Hr1) Hmod Hin fuel Hf; [lia|].
  destruct fuel as [|fuel]; [lia|].
  assert (HbN : 0 <= b < N) by (unfold N; lia).
  assert (Hmax : b + 16 <= 1024) by (pose proof (Z.div_mod b 16); lia).
  destruct (rd_pkt_fields buf b HbN Ht) as (Eop & Es & Ed).
  change (Some <$> pkts (rd_pkt buf) (S r) b)
    with (Some (rd_pkt buf b) :: (Some <$> pkts (rd_pkt buf) r (b + 16))) in Hin.
  cbn [query_loop]. unfold cl_read. rewrite bind_assoc, gets_run, Hin. cbn [app].
  rewrite bind_assoc, modify_run, ret_run, Es, Eop.
  change (STATUS_SUCCESS =? STATUS_FAILED) with false. cbv iota.
  assert (La : Z.of_nat (length (take (Z.to_nat b) data)) = b) by (rewrite length_take; lia).
  rewrite La. unfold CHUNK_SERVER_PKT_SIZE, CHUNK_SIZE.
  rewrite (proj2 (Z.leb_le (b + 16) 1024)) by done. cbv zeta. rewrite Ed.
  destruct r as [|r].
  - rewrite (proj2 (Z.leb_le (N - b) 16)) by (unfold N in *; lia).
    change (DFS_END_RD =? DFS_RD) with false. change (DFS_END_RD =? DFS_END_RD) with true.
    change (false || true) with true. cbv iota. unfold mret, M_ret. do 2 f_equal. f_equal.
    unfold padded, piece. rewrite (take_ge (drop _ data)) by (rewrite length_drop; unfold N in *; lia).
    rewrite app_assoc, take_drop. f_equal. f_equal. rewrite length_drop. unfold N in *. lia.
  - rewrite (proj2 (Z.leb_gt (N - b) 16)) by (unfold N in *; lia).
    change (DFS_RD =? DFS_RD) with true. change (DFS_RD =? DFS_END_RD) with false.
    change (true || false) with true. cbv iota.
    assert (padded (piece b) = piece b) as ->.
    { unfold padded. replace (16 - length (piece b))%nat with 0%nat; [apply app_nil_r|].
      unfold piece. rewrite length_take, length_drop. unfold N in *. lia. }
    rewrite take_piece by lia. rewrite (IH (b + 16)); [|split; lia| |done|lia].
    + do 4 f_equal. f_equal. lia.
    + rewrite Z.add_mod by lia. by rewrite Hmod.
Qed.

Lemma query_pkt_fields : let q := query_pkt jc conn id in
  op_code q = DFS_RD /\ port_id q = conn_port conn /\ chunk_id_sqn q = id /\
  query_offset q = 0 /\ query_nbytes q = 1024.
Proof using All.
  intros q. subst q. unfold query_pkt, CHUNK_SIZE. unfold chunk_id_ok in *.
  split_and!; pkt_simpl; try done; apply Z.mod_small; simpl; lia.
Qed.

(** Number of packets for the chunk. *)
Definition npkts : nat := Z.to_nat ((N + 15) / 16).

Lemma npkts_left : left_of (length data) 0 npkts /\ (npkts <= Z.to_nat (N / 16) + 1)%nat.
Proof using All.
  unfold left_of, npkts. fold N. pose proof (Z.div_mod (N + 15) 16).
  pose proof (Z.mod_pos_bound (N + 15) 16). pose proof (Z.div_mod N 16).
  pose proof (Z.mod_pos_bound N 16). unfold N in *. lia.
Qed.

Lemma chunk_rd_run s m n caddr : stored (c_fs s) m n -> m !! id = Some data ->
  (c_ports s).1 !! Z.to_nat (conn_port conn) = Some caddr ->
  exists buf, take (length data) buf = data /\
  chunk_step js (Some (query_pkt jc conn id)) s =
    Done (tt, mk_cserver (c_addr s) (c_id s) (c_fs s) (c_ports s)
      (c_out s ++ ((fun p => (caddr, p)) <$> pkts (rd_pkt buf) npkts 0))).
Proof using All.
  intros Hs Hm Hp. destruct (store_read _ _ _ id data Hs Hm) as (buf & R & Ht).
  exists buf. split; [done|]. destruct query_pkt_fields as (Eop & Ep & Ei & Eo & En).
  destruct npkts_left as [Hl Hle].
  unfold chunk_step. cbv zeta. rewrite Eop.
  change (DFS_RD =? DFS_CNCT) with false. change (DFS_RD =? DFS_HB) with false.
  change (DFS_RD =? DFS_RD) with true. cbv iota.
  unfold chunk_rd. rewrite Ep, Ei, Eo, En. unfold DFS_MAX_CONN.
  rewrite (proj2 (Z.leb_gt _ _)) by lia. rewrite gets_run, (opt_run _ _ _ _ Hp).
  mrun (on_store_run _ s _ _ R). cbv beta iota zeta.
  rewrite (proj2 (Z.leb_gt (Z.of_nat (length data)) 0)) by lia.
  rewrite (u32_small (0 + 1024)) by (unfold is_u32; lia).
  fold N. replace (if N <? 0 + 1024 then N - 0 else 1024) with N
    by (destruct (Z.ltb_spec N (0 + 1024)); unfold N in *; lia).
  rewrite (read_loop_run buf caddr npkts 0); [done|done|lia].
Qed.

Lemma length_pkts mk k z : length (pkts mk k z) = k.
Proof using All. revert z. induction k; intros z; simpl; auto. Qed.

Lemma client_write_run c rest : cl_in c = Some end_wr_pkt :: rest ->
  dfs_client_write_chunk_data jc conn id data N c =
    Done (0, mk_client (cl_addr c) rest
      (cl_out c ++ ((fun p => (conn_server conn, p)) <$> pkts (wr_pkt jc conn id data N) npkts 0))
      (cl_console c)).
Proof using All.
  intros Hin. destruct npkts_left as [Hl Hle]. unfold dfs_client_write_chunk_data.
  assert (Hf : (npkts < S (S (Z.to_nat (N / 16))))%nat) by lia.
  rewrite (bind_done _ _ _ _ _ (write_loop_run npkts 0 c Hl _ Hf)).
  unfold recv_fuel. rewrite gets_run. simpl cl_in. rewrite Hin.
  cbn [wait_end_wr length]. unfold cl_read. rewrite bind_assoc, gets_run. cbv beta. cbn [cl_in]. rewrite ?Hin. cbv iota.
  rewrite bind_assoc, modify_run, ret_run.
  assert (op_code end_wr_pkt = DFS_END_WR) as -> by (unfold end_wr_pkt; pkt_simpl; done).
  done.
Qed.

Lemma client_query_run buf c rest : take (length data) buf = data ->
  cl_in c = (Some <$> pkts (rd_pkt buf) npkts 0) ++ rest ->
  dfs_client_query_chunk_data jc conn id c =
    Done ((0, data ++ replicate (16 * npkts - length data) 0),
          mk_client (cl_addr c) rest
            (cl_out c ++ [(conn_server conn, query_pkt jc conn id)]) (cl_console c)).
Proof using All.
  intros Ht Hin. destruct npkts_left as [Hl Hle].
  unfold dfs_client_query_chunk_data, cl_send. rewrite modify_run.
  unfold recv_fuel. rewrite gets_run. change (@nil Z) with (take (Z.to_nat 0) data).
  rewrite (query_loop_run buf npkts 0 _ rest Ht Hl eq_refl); [|exact Hin|].
  - simpl. do 4 f_equal. f_equal. unfold N. lia.
  - simpl cl_in. rewrite Hin, length_app, length_fmap, length_pkts. lia.
Qed.

(** C3: a chunk survives the round trip.  For any data of 1 to 1024 non-NUL characters and
    any free chunk id: the packets the client sends leave the chunk server's storage with
    exactly that data under that id and every other chunk unchanged, whatever the unused
    packet bytes contain; the server acknowledges; the client's write then returns 0; and
    the packets the server sends in answer to the client's query make
    [dfs_client_query_chunk_data] return 0 with exactly the data, padded with NULs to a
    multiple of 16. *)
Theorem chunk_write_then_query s m n caddr :
  stored (c_fs s) m (S (npkts + n)) -> m !! id = None ->
  (c_ports s).1 !! Z.to_nat (conn_port conn) = Some caddr ->
  exists ws rs s1 s2,
    (forall c rest, cl_in c = Some end_wr_pkt :: rest ->
       dfs_client_write_chunk_data jc conn id data N c =
         Done (0, mk_client (cl_addr c) rest
                    (cl_out c ++ ((fun p => (conn_server conn, p)) <$> ws)) (cl_console c))) /\
    dfs_chunkserver_main js (Some <$> ws) s = Done (tt, s1) /\
    c_out s1 = c_out s ++ [(client_addr_const, end_wr_pkt)] /\
    stored (c_fs s1) (<[id := data]> m) n /\
    chunk_step js (Some (query_pkt jc conn id)) s1 = Done (tt, s2) /\
    c_out s2 = c_out s1 ++ ((fun p => (caddr, p)) <$> rs) /\
    (forall c rest, cl_in c = (Some <$> rs) ++ rest ->
       dfs_client_query_chunk_data jc conn id c =
         Done ((0, data ++ replicate (16 * npkts - length data) 0),
               mk_client (cl_addr c) rest
                 (cl_out c ++ [(conn_server conn, query_pkt jc conn id)]) (cl_console c))).
Proof using All.
  intros Hst Hm Hp. destruct npkts_left as [Hl _].
  destruct (server_writes npkts 0 m n s Hl eq_refl) as (st1 & R1 & S1); [by left|done|].
  set (s1 := mk_cserver (c_addr s) (c_id s) st1 (c_ports s)
               (c_out s ++ [(client_addr_const, end_wr_pkt)])) in *.
  destruct (chunk_rd_run s1 (<[id := data]> m) n caddr S1 (lookup_insert_eq _ _ _) Hp)
    as (buf & Ht & R2).
  exists (pkts (wr_pkt jc conn id data N) npkts 0), (pkts (rd_pkt buf) npkts 0).
  eexists _, _. split_and!; [|exact R1|done|exact S1|exact R2|done|].
  - apply client_write_run.
  - intros c rest. by apply client_query_run.
Qed.
End Ends.
