(* ===== verification/DfsDriver.v ===== *)
(** * The chunk server on the SD-card driver (src/dfs/dfs-chunkserver.c, dfs-chunk-fat.c)

    The chunk server of [DfsChunk] stores its chunks through fs-apis.c.  Here the whole stack
    is put together: packets handled by the server, chunks in FAT32 files, sectors moved by the
    driver of [Emmc].  The run is related to the run of the same server on the sectors of the
    card, which is the one the theory of [ChunkFat] and [DfsEnd] is about. *)

From stdpp Require Import base tactics option list numbers gmap.
From Stdlib Require Import ZArith Lia.
From Stdlib Require String.
From S2P Require Import Prelude Sim Gpio Sd Emmc EmmcThm EmmcInit FatTable FatChain Dirent Fat32 Fat32Witness FsApi.
From S2P Require Import FatEmmc DfsStore DfsPkt DfsChunk DfsClient DfsEnd.
Import String.StringSyntax.
#[local] Open Scope string_scope.
#[local] Open Scope list_scope.
#[local] Open Scope Z_scope.

(** Two servers that differ in their storage only. *)
Record same_server {St St'} (R : St -> St' -> Prop) (c : dfs_chunkserver_t St) (c' : dfs_chunkserver_t St') : Prop := {
  ss_fs : R (c_fs c) (c_fs c');
  ss_addr : c_addr c' = c_addr c;
  ss_id : c_id c' = c_id c;
  ss_ports : c_ports c' = c_ports c;
  ss_out : c_out c' = c_out c
}.

(** ** The server over two stores *)

Section Stores.
Context {St St' : Type} `{!ChunkStore St} `{!ChunkStore St'} `{!HeapGarbage} (R : St -> St' -> Prop) (junk : pkt).
Local Notation sim_cs := (sim (same_server R) (same_server R)).

(** Calls of the store with the same results. *)
Class StoresAgree : Prop := {
  sa_create cid : sim R R (fun _ => True) (cs_create cid) (cs_create cid);
  sa_append cid data : bytes data -> sim R R (fun _ => True) (cs_append cid data) (cs_append cid data);
  sa_read cid : sim R R (fun _ => True) (cs_read cid) (cs_read cid)
}.
Context `{!StoresAgree}.

Lemma sim_on_store {A} (Q : A -> Prop) (R1 R2 : St -> St' -> Prop) m m' :
  sim R1 R2 Q m m' -> sim (same_server R1) (same_server R2) Q (on_store m) (on_store m').
Proof.
  intros Hm c c' [Sf Sa Si Sp So]. specialize (Hm _ _ Sf). unfold on_store, m_zoom.
  destruct (m (c_fs c)) as [[r s1]| | |]; [|done..]. destruct Hm as (s1' & -> & Sf1 & Qr).
  eexists. split; [done|]. split; [by split|done].
Qed.

Lemma sim_on_ports {A} (m : M (list Z * Z) A) : sim_cs (fun _ => True) (on_ports m) (on_ports m).
Proof.
  intros c c' [Sf Sa Si Sp So]. unfold on_ports, m_zoom. rewrite Sp.
  destruct (m (c_ports c)) as [[r s1]| | |]; [|done..]. eexists. split; [done|]. split; [by split|done].
Qed.

Lemma sim_send addr p : sim_cs (fun _ => True) (c_send addr p) (c_send addr p).
Proof. apply sim_modify. intros c c' [Sf Sa Si Sp So]. split; cbn; congruence. Qed.
#[local] Hint Resolve sim_on_ports sim_send sa_create sa_append sa_read sim_on_store : sim.

Lemma sim_cnct p : sim_cs (fun _ => True) (chunk_cnct junk p) (chunk_cnct junk p).
Proof. unfold chunk_cnct. sim_run. Qed.

Lemma sim_hb p : sim_cs (fun _ => True) (chunk_hb junk p) (chunk_hb junk p).
Proof. apply sim_look. intros c c' [_ -> -> _ _]. sim_run. Qed.

Lemma sim_read_loop fuel addr cid data off todo sent :
  sim_cs (fun _ => True) (read_loop junk fuel addr cid data off todo sent) (read_loop junk fuel addr cid data off todo sent).
Proof. revert sent. induction fuel as [|fuel IH]; intros sent; cbn [read_loop]; sim_run. Qed.
#[local] Hint Resolve sim_read_loop : sim.

Lemma sim_rd p : sim_cs (fun _ => True) (chunk_rd junk p) (chunk_rd junk p).
Proof.
  unfold chunk_rd. destruct (_ <=? _); [sim_run|]. apply sim_look. intros c c' [_ _ _ -> _]. sim_run.
Qed.

Lemma sim_store_data p : bytes p -> sim_cs (fun _ => True) (chunk_store_data p) (chunk_store_data p).
Proof.
  intros By. assert (Bw : bytes (wr_data p)).
  { apply Forall_app_2; [|by repeat constructor]. by apply Forall_take, Forall_drop. }
  unfold chunk_store_data. sim_run.
Qed.
#[local] Hint Resolve sim_cnct sim_hb sim_rd sim_store_data : sim.

Lemma sim_step r : (forall p, r = Some p -> bytes p) ->
  sim_cs (fun _ => True) (chunk_step junk r) (chunk_step junk r).
Proof.
  destruct r as [p|]; intros By; [specialize (By p eq_refl)|]; cbn [chunk_step]; unfold chunk_wr, chunk_end_wr; sim_run.
Qed.

Lemma sim_main rs : Forall (fun r => forall p, r = Some p -> bytes p) rs ->
  sim_cs (fun _ => True) (dfs_chunkserver_main junk rs) (dfs_chunkserver_main junk rs).
Proof.
  induction 1 as [|r rs By _ IH]; cbn [dfs_chunkserver_main]; [by apply sim_ret|].
  eapply sim_bind; [by apply sim_step|]. intros _ _. exact IH.
Qed.
End Stores.

(** ** The server with its chunks on a card *)

Section Init.
Context {T : Type} `{PiSd T} `{HeapGarbage}.

(** The storage and the ports; the radio is set up by [dfs_nrf_init]. *)
Definition dfs_init_chunkserver : M (dfs_chunkserver_t (fsapi_on T)) unit :=
  on_store (chunkserver_fat32_init true);;
  on_ports (m_modify (fun p => (replicate (Z.to_nat DFS_MAX_CONN) 0, snd p))).
End Init.

Section OnDriver.
Context {D : Type} `{BlockDeviceLaws D} `{EmmcLatency} `{!HeapGarbage} `{!HeapGarbageBytes}.
Local Notation T := (pi_sd_t (D := D)).

Lemma fat32_stores_agree k :
  StoresAgree (St := fsapi D) (St' := fsapi_on T) (api_served (served k)).
Proof.
  split; intros; cbn [cs_create cs_append cs_read fat32_chunk_store].
  - apply sim_fs_create.
  - by apply sim_fs_append.
  - eapply sim_true, sim_fs_read.
Qed.

Lemma sim_init_server k : kind_wf k ->
  sim (same_server (api_served (powered k))) (same_server (api_served (served k))) (fun _ => True)
    (dfs_init_chunkserver (T := sd_t D)) (dfs_init_chunkserver (T := T)).
Proof.
  intros Kw. eapply sim_bind; [|intros _ _; apply sim_on_ports]. eapply sim_on_store.
  eapply sim_bind; [by apply sim_fs_init|]. intros _ _. apply sim_register.
Qed.

(** The server on the driver does what the server on the sectors of the card does. *)
Lemma chunkserver_runs_on_driver k junk rs (c c1 : dfs_chunkserver_t (fsapi D)) (c' : dfs_chunkserver_t (fsapi_on T)) :
  kind_wf k -> Forall (fun r => forall p, r = Some p -> bytes p) rs ->
  same_server (api_served (powered k)) c c' ->
  (dfs_init_chunkserver;; dfs_chunkserver_main junk rs) c = Done (tt, c1) ->
  exists c1', (dfs_init_chunkserver;; dfs_chunkserver_main junk rs) c' = Done (tt, c1') /\
    c_out c1' = c_out c1 /\ c_ports c1' = c_ports c1 /\
    h_card (e_host (p_emmc (w_sd (a_world (c_fs c1'))))) = sd_card (w_sd (a_world (c_fs c1))).
Proof.
  intros Kw By Ss E. pose proof (fat32_stores_agree k) as Ag.
  assert (Sm : sim (same_server (api_served (powered k))) (same_server (api_served (served k))) (fun _ => True)
      (dfs_init_chunkserver (T := sd_t D);; dfs_chunkserver_main junk rs)
      (dfs_init_chunkserver (T := T);; dfs_chunkserver_main junk rs)).
  { eapply sim_bind; [by apply sim_init_server|]. intros _ _. by apply sim_main. }
  specialize (Sm c c' Ss). rewrite E in Sm. destruct Sm as (c1' & E' & [Sf _ _ Sp So] & _).
  exists c1'. split; [done|]. split; [done|]. split; [done|]. by apply (served_card k).
Qed.
End OnDriver.

Module ServerExample.
#[local] Existing Instance Small.garbage.
#[local] Existing Instance Small.garbage_bytes.
#[local] Existing Instance EmmcExample.some_latency.
Import DriverExample.

Definition junk : pkt := replicate 32 0xAA.
Definition conn : dfs_connection_t := mk_conn 0 dfs_chunk_addr1.
(** A client connects, writes "HELLO" as chunk 7 and asks for it. *)
Definition traffic : list (option pkt) :=
  [Some (set_conn_addr 0x7d7d7d (set_op DFS_CNCT junk)); None;
   Some (set_data_data (str "HELLO") (set_data_offset 0 (set_chunk_id_sqn 7 (set_op DFS_END_WR junk))));
   Some (query_pkt junk conn 7)].

Definition idle_server {St} (s : St) : dfs_chunkserver_t St := mk_cserver dfs_chunk_addr1 0 s ([9; 9; 9; 9], 0) [].
Definition run_server : res (unit * dfs_chunkserver_t (fsapi ram_card)) :=
  (dfs_init_chunkserver;; dfs_chunkserver_main junk traffic) (idle_server (at_boot (mk_sd false formatted))).
Definition after_traffic : dfs_chunkserver_t (fsapi ram_card) :=
  match run_server with Done (_, c) => c | _ => idle_server (at_boot (mk_sd false formatted)) end.

Lemma server_returns : run_server = Done (tt, after_traffic) /\
  (cstr ∘ data_data ∘ snd <$> last (c_out after_traffic)) = Some (str "HELLO").
Proof. by vm_compute. Qed.

Lemma traffic_bytes : Forall (fun r => forall p, r = Some p -> bytes p) traffic.
Proof.
  assert (B : Forall (Forall is_u8) (omap id traffic)) by (by apply (bool_decide_unpack _)).
  apply Forall_forall. intros r Hr p ->. apply (proj1 (Forall_forall _ _) B).
  apply list_elem_of_omap. by exists (Some p).
Qed.

End ServerExample.
