(* ===== verification/DfsShell.v ===== *)
(** * The client's shell (src/dfs/dfs-client-command.c)

    Parsing of a command line and the requests it leads to.  [strchr] gives the rest of the
    line from a character on, or nothing, where the code adds one to a null pointer: using
    such a pointer is undefined.  Progress messages are not modelled, the contents a [cat]
    prints are. *)

From stdpp Require Import base tactics option list numbers sets gmap.
From Stdlib Require Import ZArith Lia.
From Stdlib Require String.
From S2P Require Import Prelude FatTable FatChain Dirent DfsStore DfsPkt DfsClient.
Import String.StringSyntax.
#[local] Open Scope string_scope.
#[local] Open Scope Z_scope.

(** ** Strings *)

(** [strchr(s, c)]: the string from the first [c] on. *)
Fixpoint strchr (s : list Z) (c : Z) : option (list Z) :=
  match s with
  | [] => None
  | x :: s' => if x =? c then Some s else strchr s' c
  end.

(** [strchr(s, c) + 1]; [None] is a pointer that may not be used. *)
Definition after (s : list Z) (c : Z) : option (list Z) := tail <$> strchr s c.

(** [strncmp(input, p, strlen(p)) == 0]. *)
Definition starts_with (input p : list Z) : bool := bool_decide (take (length p) input = p).

Definition QUOTE : Z := 34.
Definition GREATER : Z := 62.

(** ** Commands *)

(** The client, its two connections ([dfs_client_conns_t]) and the number of [parse_input]
    threads started. *)
Record shell : Type := mk_shell {
  sh_client : dfs_client_t;
  sh_master : dfs_connection_t;
  sh_chunk : dfs_connection_t;
  sh_forks : nat
}.

Section Shell.
Context `{HeapGarbage}.
Context (junk : pkt).

Definition on_client {A} (m : M dfs_client_t A) : M shell A :=
  m_zoom sh_client (fun c s => mk_shell c (sh_master s) (sh_chunk s) (sh_forks s)) m.
Definition set_chunk (conn : dfs_connection_t) : M shell unit :=
  m_modify (fun s => mk_shell (sh_client s) (sh_master s) conn (sh_forks s)).
Definition set_master (conn : dfs_connection_t) : M shell unit :=
  m_modify (fun s => mk_shell (sh_client s) conn (sh_chunk s) (sh_forks s)).
Definition fork_parse : M shell unit :=
  m_modify (fun s => mk_shell (sh_client s) (sh_master s) (sh_chunk s) (S (sh_forks s))).

(** The label [CONTINUE]. *)
Definition continue : M shell Z := fork_parse;; mret 1.

Definition strlen (s : list Z) : Z := Z.of_nat (length s).

(** [dfs_client_try_connect(chunk_conn)] after [chunk_conn->server_addr] was set. *)
Definition connect_chunk (addr : Z) : M shell Z :=
  s ← m_gets (fun s => s);
  let conn := mk_conn (conn_port (sh_chunk s)) addr in
  set_chunk conn;;
  '(ret, port) ← on_client (dfs_client_try_connect junk conn);
  set_chunk (mk_conn port addr);;
  mret ret.

Definition shell_cat (fname : list Z) : M shell Z :=
  s ← m_gets (fun s => s);
  r ← on_client (dfs_client_read_chunk_meta junk (sh_master s) fname (strlen fname) 0);
  match r with
  | None => continue
  | Some p =>
      if meta_nbytes p =? 0 then on_client (cl_print [10]);; continue else
      ret ← connect_chunk (meta_addr p);
      if ret =? -1 then continue else
      s ← m_gets (fun s => s);
      '(ret, data) ← on_client (dfs_client_query_chunk_data junk (sh_chunk s) (chunk_id_sqn p));
      if ret =? -1 then continue else
      text ← m_opt (c_string data);
      on_client (cl_print (text ++ [10]));;
      continue
  end.

(** The text between the quotes and the file name of a write: [inl true] when the text is
    too long, [None] when the line is not well formed and the code goes on with a pointer it
    may not use.  [data] has 128 bytes, of which the length plus one are cleared. *)
Definition parse_echo (input : list Z) : option (bool + list Z * list Z) :=
  arg2 ← after input QUOTE;
  arg3 ← strchr arg2 QUOTE;
  let n := (length arg2 - length arg3)%nat in
  if Nat.ltb 128 n then Some (inl true) else
  if Nat.ltb 127 n then None else
  fname ← after arg3 GREATER;
  fname ← after fname GREATER;
  fname ← after fname SPACE;
  Some (inr (take n arg2, fname)).

Definition shell_echo (input : list Z) : M shell Z :=
  args ← m_opt (parse_echo input);
  match args with
  | inl _ => continue
  | inr (data, fname) =>
      s ← m_gets (fun s => s);
      r ← on_client (dfs_client_write_chunk_meta junk (sh_master s) fname (strlen fname) 0);
      match r with
      | None => m_panic
      | Some p =>
          ret ← connect_chunk (meta_addr p);
          if ret =? -1 then m_panic else
          s ← m_gets (fun s => s);
          ret ← on_client (dfs_client_write_chunk_data junk (sh_chunk s) (chunk_id_sqn p)
                             (data ++ [0]) (strlen (cstr (data ++ [0]))));
          if ret =? -1 then m_panic else continue
      end
  end.

Definition client_parse (input : list Z) : M shell Z :=
  s ← m_gets (fun s => s);
  let arg2 := after input SPACE in
  if starts_with input (str "touch") || starts_with input (str "mkdir") then
    a ← m_opt arg2;
    on_client (dfs_client_create junk (sh_master s) a (strlen a));;
    continue
  else if starts_with input (str "rm") then
    a ← m_opt arg2;
    on_client (dfs_client_delete junk (sh_master s) a (strlen a));;
    continue
  else if starts_with input (str "cat") then
    a ← m_opt arg2;
    shell_cat a
  else if starts_with input (str "echo") then shell_echo input
  else if starts_with input (str "ls") then
    a ← m_opt arg2;
    on_client (dfs_client_listdir junk (sh_master s) a);;
    continue
  else if starts_with input (str "cd") then
    a ← m_opt arg2;
    on_client (dfs_client_change_directory junk (sh_master s) a);;
    continue
  else if bool_decide (input = str "q") then mret 1
  else continue.

(** [parse_input] reads the line into 1000 bytes. *)
Definition parse_input (line : list Z) : M shell Z :=
  if Nat.ltb (length line) 1000 then client_parse line else m_undef.

(** [client_shell_start], after the radio is set up. *)
Definition client_shell_start : M shell unit :=
  s ← m_gets (fun s => s);
  let conn := mk_conn (conn_port (sh_master s)) dfs_master_addr in
  set_master conn;;
  '(ret, port) ← on_client (dfs_client_try_connect junk conn);
  if ret =? -1 then m_panic else
  set_master (mk_conn port dfs_master_addr);;
  fork_parse.
End Shell.
