(* ===== verification/DfsMaster.v ===== *)
(** * The master (src/dfs/dfs-master.c, src/libpi/include/dfs-master.h)

    The handler of every packet, the heartbeat daemon and the choice of a server for a new
    chunk.  Storage is the interface [MasterStore].  The main loop and the heartbeat daemon
    are two threads; the parts of the state they share are touched with interrupts disabled,
    so an execution is a sequence of the events below.  Sends append to the outbox (see
    [DfsChunk]); traces are not part of the state. *)

From stdpp Require Import base tactics option list numbers sets gmap.
From Stdlib Require Import ZArith Lia.
From S2P Require Import Prelude FatTable FatChain Dirent FileDir DfsStore MasterFat DfsPkt DfsChunk.

Definition DFS_HB_MAX_LAG : Z := 3.
Definition DFS_MAX_CHUNK_SERVER : nat := 64.
Definition CHUNK_DOWN : Z := 0.
Definition CHUNK_OK : Z := 1.

Record dfs_chunkserver_status : Type := mk_status {
  cs_addr : Z;
  cs_status : Z;
  cs_storage : Z;
  cs_usage : Z;
  cs_hb_id : Z
}.

Definition set_cs_status (v : Z) (c : dfs_chunkserver_status) : dfs_chunkserver_status :=
  mk_status (cs_addr c) v (cs_storage c) (cs_usage c) (cs_hb_id c).

(** [m_client] is [client_fs[client_num]]: [client_num] is 0 and never changes. *)
Record dfs_master_t (St : Type) : Type := mk_master {
  m_addr : Z;
  m_fs : St;
  m_servers : list dfs_chunkserver_status;
  m_num : Z;                  (* num_chunkserver *)
  m_num_act : Z;              (* num_act_server *)
  m_hb_id : Z;                (* cur_hb_id *)
  m_ports : list Z * Z;       (* client_addrs and the radio's n_conns *)
  m_client : client_dirent_t;
  m_fake_rand : Z;
  m_shutdown : bool;
  m_out : list (Z * pkt)
}.
Arguments mk_master {_} _ _ _ _ _ _ _ _ _ _ _.
Arguments m_addr {_} _.
Arguments m_fs {_} _.
Arguments m_servers {_} _.
Arguments m_num {_} _.
Arguments m_num_act {_} _.
Arguments m_hb_id {_} _.
Arguments m_ports {_} _.
Arguments m_client {_} _.
Arguments m_fake_rand {_} _.
Arguments m_shutdown {_} _.
Arguments m_out {_} _.

Section Master.
Context {St : Type} `{MasterStore St}.
Local Notation MS := (dfs_master_t St).

(** Unspecified contents of a packet on the stack. *)
Context (junk : pkt).

(** ** Updates *)

Definition set_servers (l : list dfs_chunkserver_status) (m : MS) : MS :=
  mk_master (m_addr m) (m_fs m) l (m_num m) (m_num_act m) (m_hb_id m) (m_ports m) (m_client m)
    (m_fake_rand m) (m_shutdown m) (m_out m).
Definition set_num_act (n : Z) (m : MS) : MS :=
  mk_master (m_addr m) (m_fs m) (m_servers m) (m_num m) n (m_hb_id m) (m_ports m) (m_client m)
    (m_fake_rand m) (m_shutdown m) (m_out m).
Definition set_m_hb_id (n : Z) (m : MS) : MS :=
  mk_master (m_addr m) (m_fs m) (m_servers m) (m_num m) (m_num_act m) n (m_ports m) (m_client m)
    (m_fake_rand m) (m_shutdown m) (m_out m).
Definition set_client (c : client_dirent_t) (m : MS) : MS :=
  mk_master (m_addr m) (m_fs m) (m_servers m) (m_num m) (m_num_act m) (m_hb_id m) (m_ports m) c
    (m_fake_rand m) (m_shutdown m) (m_out m).
Definition set_fake_rand (n : Z) (m : MS) : MS :=
  mk_master (m_addr m) (m_fs m) (m_servers m) (m_num m) (m_num_act m) (m_hb_id m) (m_ports m)
    (m_client m) n (m_shutdown m) (m_out m).
Definition set_shutdown (b : bool) (m : MS) : MS :=
  mk_master (m_addr m) (m_fs m) (m_servers m) (m_num m) (m_num_act m) (m_hb_id m) (m_ports m)
    (m_client m) (m_fake_rand m) b (m_out m).
Definition add_out (l : list (Z * pkt)) (m : MS) : MS :=
  mk_master (m_addr m) (m_fs m) (m_servers m) (m_num m) (m_num_act m) (m_hb_id m) (m_ports m)
    (m_client m) (m_fake_rand m) (m_shutdown m) (m_out m ++ l).
Definition set_m_fs (s : St) (m : MS) : MS :=
  mk_master (m_addr m) s (m_servers m) (m_num m) (m_num_act m) (m_hb_id m) (m_ports m)
    (m_client m) (m_fake_rand m) (m_shutdown m) (m_out m).
Definition set_m_ports (s : list Z * Z) (m : MS) : MS :=
  mk_master (m_addr m) (m_fs m) (m_servers m) (m_num m) (m_num_act m) (m_hb_id m) s
    (m_client m) (m_fake_rand m) (m_shutdown m) (m_out m).

Definition on_tables {A} (c : M St A) : M MS A := m_zoom m_fs set_m_fs c.
Definition on_m_ports {A} (c : M (list Z * Z) A) : M MS A := m_zoom m_ports set_m_ports c.
Definition m_send (addr : Z) (p : pkt) : M MS unit := m_modify (add_out [(addr, p)]).

(** ** Start *)

(** [memset(m->client_addrs, 0, sizeof(uint32_t) & DFS_MAX_CONN)]: [4 & 4] bytes, the first
    of the four addresses.  The radio starts with no connections; [fs] is the storage
    after [master_fat32_init]. *)
Definition dfs_init_master (fs : St) (m : MS) : MS :=
  let servers := <[0%nat := mk_status dfs_chunk_addr1 0 0 0 0]>
                (<[1%nat := mk_status dfs_chunk_addr2 0 0 0 0]>
                (<[2%nat := mk_status dfs_chunk_addr3 0 0 0 0]>
                  (replicate DFS_MAX_CHUNK_SERVER (mk_status 0 0 0 0 0)))) in
  mk_master (m_addr m) fs servers (m_num m) 0 0
    (<[0%nat := 0]> (m_ports m).1, 0) (m_client m) (m_fake_rand m) false (m_out m).

(** The same text as in dfs-chunkserver.c, on the master's fields. *)
Definition master_try_assign_port (client_addr : Z) : M MS Z :=
  on_m_ports (try_assign_port client_addr).

(** ** Heartbeats *)

Definition hb_request (m : MS) : pkt :=
  set_hb_id (m_hb_id m) (set_hb_addr (m_addr m) (set_op DFS_HB junk)).

(** The body of the inner loop for server [i], which runs with interrupts disabled up to the
    send. *)
Definition heartbeat_server (i : nat) : M MS unit :=
  m ← m_gets (fun m => m);
  c ← m_opt (m_servers m !! i);
  (if DFS_HB_MAX_LAG <? u32 (m_hb_id m - cs_hb_id c) then
     m_modify (fun m => set_num_act (u32 (m_num_act m - 1))
       (set_servers (<[i := set_cs_status CHUNK_DOWN c]> (m_servers m)) m))
   else if cs_status c =? CHUNK_DOWN then
     m_modify (fun m => set_num_act (u32 (m_num_act m + 1))
       (set_servers (<[i := set_cs_status CHUNK_OK c]> (m_servers m)) m))
   else mret tt);;
  m_send (cs_addr c) (hb_request m).

Fixpoint heartbeat_loop (k i : nat) : M MS unit :=
  match k with
  | O => mret tt
  | S k => heartbeat_server i;; heartbeat_loop k (S i)
  end.

Definition heartbeat_tick : M MS unit := m_modify (fun m => set_m_hb_id (u32 (m_hb_id m + 1)) m).

(** One cycle of [dfs_master_heartbeat_daemon_start]. *)
Definition heartbeat_cycle : M MS unit :=
  heartbeat_tick;;
  n ← m_gets m_num;
  heartbeat_loop (Z.to_nat n) 0.

(** The daemon, for the number of cycles in its loop. *)
Fixpoint dfs_master_heartbeat_daemon_start (cycles : nat) : M MS unit :=
  match cycles with
  | O => mret tt
  | S cycles => heartbeat_cycle;; dfs_master_heartbeat_daemon_start cycles
  end.

(** ** Choice of a server *)

(** The loop over the servers, with [fake_rand] and [server_id]. *)
Fixpoint pick_server (servers : list dfs_chunkserver_status) (i fake_rand server_id : Z) : Z * Z :=
  match servers with
  | [] => (fake_rand, server_id)
  | c :: servers =>
      if cs_status c =? CHUNK_OK then
        if i =? fake_rand then pick_server servers (i + 1) (-1) server_id
        else pick_server servers (i + 1) i i
      else pick_server servers (i + 1) fake_rand server_id
  end.

(** The servers the loops run over: the first [num_chunkserver], of the 64 there is room
    for. *)
Definition known_servers : M MS (list dfs_chunkserver_status) :=
  m ← m_gets (fun m => m);
  if m_num m <=? Z.of_nat (length (m_servers m))
  then mret (take (Z.to_nat (m_num m)) (m_servers m)) else m_undef.

Definition dfs_master_get_server_for_new_chunk : M MS Z :=
  m ← m_gets (fun m => m);
  if m_num_act m =? 0 then mret (-1) else
  servers ← known_servers;
  let '(fake_rand, server_id) := pick_server servers 0 (m_fake_rand m) 0 in
  m_modify (set_fake_rand fake_rand);;
  mret server_id.

(** *** The choice while the heartbeat daemon runs *)

(** What the daemon's thread does between two points at which the main thread can be
    interrupted. *)
Inductive daemon_step : Type :=
  | DTick                         (* it starts a cycle *)
  | DServer (i : nat).            (* it treats a server *)

Definition run_daemon_step (d : daemon_step) : M MS unit :=
  match d with DTick => heartbeat_tick | DServer i => heartbeat_server i end.
Fixpoint run_daemon (ds : list daemon_step) : M MS unit :=
  match ds with
  | [] => mret tt
  | d :: ds => run_daemon_step d;; run_daemon ds
  end.

(** The loop of [dfs_master_get_server_for_new_chunk], interrupted before it reads the status of
    server [i]: the daemon's steps [gaps !! i] come in between. *)
Fixpoint select_loop (gaps : list (list daemon_step)) (k i : nat) (server_id : Z) : M MS Z :=
  match k with
  | O => mret server_id
  | S k =>
      run_daemon (nth i gaps []);;
      m ← m_gets (fun m => m);
      c ← m_opt (m_servers m !! i);
      if cs_status c =? CHUNK_OK then
        if Z.of_nat i =? m_fake_rand m then
          m_modify (set_fake_rand (-1));; select_loop gaps k (S i) server_id
        else m_modify (set_fake_rand (Z.of_nat i));; select_loop gaps k (S i) (Z.of_nat i)
      else select_loop gaps k (S i) server_id
  end.

Definition get_server_amid (gaps : list (list daemon_step)) : M MS Z :=
  m ← m_gets (fun m => m);
  if m_num_act m =? 0 then mret (-1)
  else select_loop gaps (Z.to_nat (m_num m)) 0 0.

Definition is_server_active_by_addr (addr : Z) : M MS bool :=
  servers ← known_servers;
  mret match list_find (fun c => cs_addr c = addr) servers with
       | Some (_, c) => cs_status c =? CHUNK_OK
       | None => false
       end.

(** ** Handlers *)

Definition master_cnct (recv : pkt) : M MS unit :=
  let client_addr := conn_addr recv in
  port ← master_try_assign_port client_addr;
  if port =? -1 then m_send client_addr (set_op DFS_REJ junk)
  else
    m_send client_addr (set_port port (set_op DFS_ACP junk));;
    c ← on_tables (ms_client_init 1);
    m_modify (set_client c).

Definition master_hb (recv : pkt) : M MS unit :=
  m ← m_gets (fun m => m);
  let id := Z.to_nat (port_id recv) in
  c ← m_opt (m_servers m !! id);
  if negb (cs_addr c =? hb_addr recv) then mret tt else
  m_modify (fun m => set_servers
    (<[id := mk_status (cs_addr c) (cs_status c) (hb_storage recv) (hb_usage recv) (hb_id recv)]>
      (m_servers m)) m).

(** The client address of a request; requests with a bad port are dropped. *)
Definition with_client (recv : pkt) (k : Z -> M MS unit) : M MS unit :=
  if DFS_MAX_CONN <=? port_id recv then mret tt else
  m ← m_gets (fun m => m);
  client_addr ← m_opt ((m_ports m).1 !! Z.to_nat (port_id recv));
  k client_addr.

(** The packets of a listing; [p] is the packet on the stack, reused for every send. *)
Fixpoint list_loop (fuel : nat) (client_addr : Z) (data : list Z) (idx : nat) (p : pkt) : M MS unit :=
  match fuel with
  | O => m_nofuel
  | S fuel =>
      if Nat.ltb idx (length data) then
        let p := set_status STATUS_SUCCESS p in
        let last := Nat.leb (length data) (idx + 27) in
        let op := if last then DFS_END_LS else DFS_LS in
        let n := if last then (length data - idx)%nat else 27%nat in
        let p := put_bytes (4 + n) [0] (put_bytes 4 (take n (drop idx data)) (set_op op p)) in
        m_send client_addr p;;
        list_loop fuel client_addr data (idx + 27) p
      else mret tt
  end.

Definition master_ls (recv : pkt) : M MS unit :=
  with_client recv (fun client_addr =>
    dirname ← m_opt (c_string (placeholder recv));
    '(res, target) ← on_tables (ms_listdir dirname);
    if Nat.leb 8192 (length target) then m_undef else
    let data := cstr target in
    if (length data =? 0)%nat || negb res then
      m_send client_addr
        (put_bytes 4 [0] (set_op DFS_END_LS
          (set_status (if res then STATUS_SUCCESS else STATUS_FAILED) junk)))
    else list_loop (S (length data)) client_addr data 0 junk).

Definition master_cd (recv : pkt) : M MS unit :=
  with_client recv (fun client_addr =>
    dirname ← m_opt (c_string (placeholder recv));
    res ← on_tables (ms_changedir dirname);
    m_send client_addr
      (set_status (if res : bool then STATUS_SUCCESS else STATUS_FAILED) (set_op DFS_CD junk))).

Definition master_rd (recv : pkt) : M MS unit :=
  with_client recv (fun client_addr =>
    let p := set_op DFS_RD junk in
    fname ← m_opt (c_string (meta_name recv));
    chunk_num ← on_tables (ms_get_chunk_num fname);
    p ← (if chunk_num <=? chunk_id_sqn recv then
           if chunk_id_sqn recv =? 0
           then mret (set_meta_nbytes 0 (set_status STATUS_SUCCESS p))
           else mret (set_status STATUS_FAILED p)
         else
           handle ← on_tables (ms_get_chunks fname (chunk_id_sqn recv));
           addr ← m_opt (chunk_server_addrs handle !! 0%nat);
           if i32 addr =? -1 then mret (set_status STATUS_FAILED p)
           else
             mret (set_meta_nbytes 1 (put_bytes 20 (meta_name recv) (set_meta_addr addr
               (set_chunk_id_sqn (chunk_id handle) (set_status STATUS_SUCCESS p))))));
    m_send client_addr p).

(** [memcpy(filename, file_name, nbytes)] into 13 zeroed bytes, from the 12 bytes at the end
    of the packet. *)
Definition name_of_request (recv : pkt) : option (list Z) :=
  if meta_nbytes recv <=? MAX_FILE_NAME
  then Some (cstr (take (Z.to_nat (meta_nbytes recv)) (meta_name recv) ++ [0])) else None.

Definition master_cr (recv : pkt) : M MS unit :=
  with_client recv (fun client_addr =>
    fname ← m_opt (name_of_request recv);
    on_tables (ms_create fname (negb (has_dot fname)));;
    m_send client_addr
      (put_bytes 20 (meta_name recv) (set_status STATUS_SUCCESS (set_op DFS_CR junk)))).

Definition master_rm (recv : pkt) : M MS unit :=
  with_client recv (fun client_addr =>
    fname ← m_opt (name_of_request recv);
    on_tables (ms_delete fname);;
    m_send client_addr
      (put_bytes 20 (meta_name recv) (set_status STATUS_SUCCESS (set_op DFS_RM junk)))).

(** A new chunk: [Some (chunk_id, chunk_server_addr)], or [None] for [STATUS_FAILED];
    [get_server] is [dfs_master_get_server_for_new_chunk], undisturbed or not. *)
Definition alloc_chunk_with (get_server : M MS Z) (fname : list Z) (chunk_num : Z) : M MS (option (Z * Z)) :=
  server_id ← get_server;
  if server_id =? -1 then mret None else
  m ← m_gets (fun m => m);
  let cid := cd_chunk_id (m_client m) in
  c ← m_opt (m_servers m !! Z.to_nat server_id);
  on_tables (ms_add_chunk_server fname cid chunk_num (cs_addr c));;
  m_modify (fun m => let k := m_client m in
    set_client (mk_client_dirent (cd_client_id k) (cd_cur_dir k) (cd_root k)
                  (u32 (cd_chunk_id k + 1))) m);;
  mret (Some (cid, cs_addr c)).
Definition alloc_chunk : list Z -> Z -> M MS (option (Z * Z)) := alloc_chunk_with dfs_master_get_server_for_new_chunk.

Definition wr_reply (recv : pkt) (r : option (Z * Z)) : pkt :=
  match r with
  | Some (cid, addr) =>
      put_bytes 20 (meta_name recv) (set_meta_addr addr (set_chunk_id_sqn cid
        (set_status STATUS_SUCCESS (set_op DFS_WR junk))))
  | None => set_status STATUS_FAILED (set_op DFS_WR junk)
  end.

Definition master_wr_with (get_server : M MS Z) (recv : pkt) : M MS unit :=
  with_client recv (fun client_addr =>
    let chunk_sqn := chunk_id_sqn recv in
    fname ← m_opt (c_string (meta_name recv));
    chunk_num ← on_tables (ms_get_chunk_num fname);
    r ← (if chunk_sqn <? chunk_num then
           handle ← on_tables (ms_get_chunks fname chunk_sqn);
           addr ← m_opt (chunk_server_addrs handle !! 0%nat);
           mret (Some (chunk_num, addr))
         else if chunk_sqn =? chunk_num then alloc_chunk_with get_server fname chunk_num
         else mret None);
    m_send client_addr (wr_reply recv r)).
Definition master_wr : pkt -> M MS unit := master_wr_with dfs_master_get_server_for_new_chunk.

(** One turn of [dfs_master_main_start]; [None] is a receive that timed out.  [DFS_SD] is
    the same number as [DFS_END_LS]. *)
Definition master_turn (get_server : M MS Z) (recv : option pkt) : M MS unit :=
  match recv with
  | None => mret tt
  | Some p =>
      let op := op_code p in
      if op =? DFS_CNCT then master_cnct p
      else if op =? DFS_HB then master_hb p
      else if op =? DFS_LS then master_ls p
      else if op =? DFS_CD then master_cd p
      else if op =? DFS_RD then master_rd p
      else if (op =? DFS_END_RD) || (op =? DFS_RETRY_RD) || (op =? DFS_CR) then master_cr p
      else if op =? DFS_RM then master_rm p
      else if op =? DFS_WR then master_wr_with get_server p
      else if (op =? DFS_END_WR) || (op =? DFS_RETRY_WR) || (op =? DFS_COMMIT_WR) then mret tt
      else if op =? DFS_SD then m_modify (set_shutdown true)
      else m_panic
  end.
Definition master_step : option pkt -> M MS unit := master_turn dfs_master_get_server_for_new_chunk.

Fixpoint dfs_master_main_start (recvs : list (option pkt)) : M MS unit :=
  match recvs with
  | [] => mret tt
  | r :: recvs =>
      stop ← m_gets m_shutdown;
      if stop : bool then mret tt
      else master_step r;; dfs_master_main_start recvs
  end.

(** ** Two threads *)

(** What the threads do.  The daemon treats a server with interrupts disabled.  A turn of the main
    loop that chooses a server for a new chunk can be interrupted by the daemon between any two of
    its reads of what the daemon writes ([num_act_server] and the status of each server); the
    rest of a turn reads nothing that the daemon writes, and the daemon reads of what a turn
    writes the one number [cur_hb_id] of a server. *)
Inductive master_event : Type :=
  | EvRecv (r : option pkt)       (* a turn of the main loop *)
  | EvRecvAmid (r : option pkt) (gaps : list (list daemon_step)) (* one with the daemon's steps in between *)
  | EvTick                        (* the daemon starts a cycle *)
  | EvServer (i : nat).           (* the daemon treats a server *)

Definition run_event (e : master_event) : M MS unit :=
  match e with
  | EvRecv r => master_step r
  | EvRecvAmid r gaps => master_turn (get_server_amid gaps) r
  | EvTick => heartbeat_tick
  | EvServer i => heartbeat_server i
  end.
End Master.
