(* ===== verification/DfsMasterThm.v ===== *)
(** * Correctness of the master

    Heartbeats, the choice of servers, the handlers over any storage that keeps the promises
    of [MasterStoreLaws], and the invariant of the two threads. *)

From stdpp Require Import base tactics option list numbers sets gmap.
From Stdlib Require Import ZArith Lia.
From S2P Require Import Prelude FatTable FatChain Dirent FileDir DfsStore MasterFat DfsPkt.
From S2P Require Import DfsChunk DfsMaster.

(** ** The choice of a server *)

(** The numbers of the active servers, counting from [i]. *)
Fixpoint ok_ids (servers : list dfs_chunkserver_status) (i : Z) : list Z :=
  match servers with
  | [] => []
  | c :: servers => (if cs_status c =? CHUNK_OK then [i] else []) ++ ok_ids servers (i + 1)
  end.

(** [pick_server] as a loop over those numbers. *)
Fixpoint pick_ids (ids : list Z) (r s : Z) : Z * Z :=
  match ids with
  | [] => (r, s)
  | i :: ids => if i =? r then pick_ids ids (-1) s else pick_ids ids i i
  end.

Lemma pick_server_ids l i r s : pick_server l i r s = pick_ids (ok_ids l i) r s.
Proof.
  revert i r s. induction l as [|c l IH]; intros i r s; [done|]. simpl.
  destruct (cs_status c =? CHUNK_OK); simpl; [|done]. by destruct (i =? r).
Qed.

Lemma ok_ids_ge l i x : x ∈ ok_ids l i -> i <= x < i + Z.of_nat (length l).
Proof.
  revert i. induction l as [|c l IH]; intros i; simpl; [by intros ?%not_elem_of_nil|].
  rewrite elem_of_app. intros [Hx|Hx%IH]; [|lia].
  destruct (_ =? _); [apply list_elem_of_singleton in Hx; lia|by apply not_elem_of_nil in Hx].
Qed.

Lemma NoDup_ok_ids l i : NoDup (ok_ids l i).
Proof.
  revert i. induction l as [|c l IH]; intros i; simpl; [constructor|].
  destruct (_ =? _); simpl; [|done]. constructor; [|done]. intros ?%ok_ids_ge. lia.
Qed.

Lemma pick_ids_fresh ids r s i : NoDup (ids ++ [i]) -> r ∉ ids ++ [i] ->
  pick_ids (ids ++ [i]) r s = (i, i).
Proof.
  revert r s. induction ids as [|j ids IH]; intros r s ND Hr; simpl.
  - rewrite (proj2 (Z.eqb_neq _ _)) by set_solver. done.
  - rewrite (proj2 (Z.eqb_neq _ _)) by set_solver. simpl in ND. apply NoDup_cons in ND as [? ?].
    by apply IH.
Qed.

Lemma pick_ids_last ids i j r s : NoDup (ids ++ [i; j]) -> -1 ∉ ids ++ [i; j] ->
  pick_ids (ids ++ [i; j]) r s = (j, j).
Proof.
  intros ND Hm. destruct ids as [|k ids]; simpl.
  - apply NoDup_cons in ND as [Hi ND]. rewrite (proj2 (Z.eqb_neq j _)) by set_solver.
    rewrite (proj2 (Z.eqb_neq j _)) by set_solver. by destruct (i =? r).
  - simpl in ND. apply NoDup_cons in ND as [Hk ND].
    change (ids ++ [i; j]) with (ids ++ [i] ++ [j]) in *. rewrite app_assoc in *.
    destruct (k =? r); apply pick_ids_fresh; set_solver.
Qed.

Lemma pick_ids_in ids r s : (pick_ids ids r s).2 = s \/ (pick_ids ids r s).2 ∈ ids.
Proof.
  revert r s. induction ids as [|i ids IH]; intros r s; simpl; [by left|].
  destruct (i =? r); [destruct (IH (-1) s)|destruct (IH i i)]; set_solver.
Qed.

(** ** Heartbeats *)

Definition lagging (hb : Z) (c : dfs_chunkserver_status) : bool :=
  DFS_HB_MAX_LAG <? u32 (hb - cs_hb_id c).

(** What a cycle makes of a server, and what it adds to the count of active servers. *)
Definition mark (hb : Z) (c : dfs_chunkserver_status) : dfs_chunkserver_status :=
  if lagging hb c then set_cs_status CHUNK_DOWN c
  else if cs_status c =? CHUNK_DOWN then set_cs_status CHUNK_OK c else c.

Definition delta (hb : Z) (c : dfs_chunkserver_status) : Z :=
  if lagging hb c then -1 else if cs_status c =? CHUNK_DOWN then 1 else 0.

Definition deltas (hb : Z) (l : list dfs_chunkserver_status) : Z :=
  foldr Z.add 0 (delta hb <$> l).

Section Thm.
Context {St : Type} `{MasterStore St}.
Implicit Types m : dfs_master_t St.
Context (junk : pkt) (Hjunk : pkt_ok junk).

Lemma get_server_run m : m_num m <= Z.of_nat (length (m_servers m)) -> m_num_act m <> 0 ->
  let p := pick_ids (ok_ids (take (Z.to_nat (m_num m)) (m_servers m)) 0) (m_fake_rand m) 0 in
  dfs_master_get_server_for_new_chunk m = Done (p.2, set_fake_rand p.1 m).
Proof using.
  intros Hn Ha p. unfold dfs_master_get_server_for_new_chunk. rewrite gets_run.
  rewrite (proj2 (Z.eqb_neq _ _)) by done.
  unfold known_servers. rewrite bind_assoc, gets_run, (proj2 (Z.leb_le _ _)), ret_run by done.
  rewrite pick_server_ids. fold p. by destruct p.
Qed.

(** Which server a new chunk goes to.  If no server counts as active the answer is -1.
    Otherwise, with two or more active servers, it is always the last of them; with a
    single active server the answer alternates between that server and server 0; and with
    none it is server 0.  (The comment in the code promises the server with the least
    usage.)  Nothing but [fake_rand] changes. *)
Theorem server_for_new_chunk m : m_num m <= Z.of_nat (length (m_servers m)) ->
  let ids := ok_ids (take (Z.to_nat (m_num m)) (m_servers m)) 0 in
  (m_num_act m = 0 -> dfs_master_get_server_for_new_chunk m = Done (-1, m)) /\
  (m_num_act m <> 0 ->
     (forall l i j, ids = l ++ [i; j] ->
        dfs_master_get_server_for_new_chunk m = Done (j, set_fake_rand j m)) /\
     (forall i, ids = [i] -> dfs_master_get_server_for_new_chunk m =
        if i =? m_fake_rand m then Done (0, set_fake_rand (-1) m)
        else Done (i, set_fake_rand i m)) /\
     (ids = [] -> dfs_master_get_server_for_new_chunk m = Done (0, m))).
Proof using.
  intros Hn ids. split.
  - intros E. unfold dfs_master_get_server_for_new_chunk. by rewrite gets_run, E.
  - intros Ha. rewrite (get_server_run m Hn Ha). fold ids.
    assert (Hm : -1 ∉ ids) by (intros ?%ok_ids_ge; lia).
    pose proof (NoDup_ok_ids (take (Z.to_nat (m_num m)) (m_servers m)) 0) as ND. fold ids in ND.
    split_and!.
    + intros l i j E. rewrite E in *. by rewrite pick_ids_last.
    + intros i E. rewrite E. simpl. by destruct (i =? m_fake_rand m).
    + intros E. rewrite E. by destruct m.
Qed.

(** The master after the daemon has treated the servers [l] at [i], with [hb] the current
    heartbeat. *)
Definition beaten m (i : nat) (l : list dfs_chunkserver_status) : dfs_master_t St :=
  mk_master (m_addr m) (m_fs m)
    (take i (m_servers m) ++ (mark (m_hb_id m) <$> l) ++ drop (i + length l) (m_servers m))
    (m_num m) (u32 (m_num_act m + deltas (m_hb_id m) l)) (m_hb_id m) (m_ports m) (m_client m)
    (m_fake_rand m) (m_shutdown m)
    (m_out m ++ ((fun c => (cs_addr c, hb_request junk m)) <$> l)).

Lemma heartbeat_server_run m i c : m_servers m !! i = Some c -> is_u32 (m_num_act m) ->
  heartbeat_server junk i m = Done (tt, beaten m i [c]).
Proof using.
  intros Hi Hu.
  unfold heartbeat_server. rewrite gets_run, (opt_run _ _ _ _ Hi). fold (lagging (m_hb_id m) c).
  unfold beaten, deltas. simpl foldr. simpl fmap. unfold mark, delta.
  assert (E : forall x, take i (m_servers m) ++ [x] ++ drop (i + length [c]) (m_servers m) =
                        <[i := x]> (m_servers m)).
  { intros x. rewrite insert_take_drop by (by eapply lookup_lt_Some). simpl. do 2 f_equal.
    f_equal. lia. }
  rewrite E. destruct (lagging (m_hb_id m) c); [done|].
  destruct (cs_status c =? CHUNK_DOWN); [done|].
  rewrite ret_run, list_insert_id, Z.add_0_r, u32_small by done. by destruct m.
Qed.

Lemma beaten_nil m i : is_u32 (m_num_act m) -> beaten m i [] = m.
Proof using.
  intros Hu. unfold beaten, deltas. simpl. rewrite Nat.add_0_r, take_drop, Z.add_0_r, u32_small by done.
  rewrite app_nil_r. by destruct m.
Qed.

Lemma beaten_servers_drop m i c k : (i < length (m_servers m))%nat -> (i < k)%nat ->
  drop k (m_servers (beaten m i [c])) = drop k (m_servers m).
Proof using.
  intros Hi Hk. cbn [beaten m_servers].
  rewrite drop_app_ge by (rewrite length_take; lia). rewrite length_take.
  replace (k - i `min` length (m_servers m))%nat with (S (k - S i)) by lia.
  simpl. rewrite drop_drop. f_equal. lia.
Qed.

Lemma beaten_cons m i c l : (i < length (m_servers m))%nat ->
  beaten (beaten m i [c]) (S i) l = beaten m i (c :: l).
Proof using.
  intros Hi. pose proof (beaten_servers_drop m i c (S i + length l) Hi ltac:(lia)) as Ed.
  unfold beaten at 1. rewrite Ed. destruct m as [ad fs sv n na hb po cl fr sh out].
  unfold beaten, hb_request.
  cbn [m_addr m_fs m_servers m_num m_num_act m_hb_id m_ports m_client m_fake_rand m_shutdown m_out] in *.
  rewrite !fmap_cons, !fmap_nil. unfold deltas. rewrite !fmap_cons, !fmap_nil. cbn [foldr length].
  f_equal.
  - rewrite take_app_ge by (rewrite length_take; lia). rewrite length_take.
    replace (S i - i `min` length sv)%nat with 1%nat by lia.
    cbn [take app]. rewrite take_0, <-app_assoc. cbn [app]. do 4 f_equal. lia.
  - unfold u32. rewrite Z.add_mod_idemp_l by lia. f_equal. lia.
  - by rewrite <-app_assoc.
Qed.

Lemma heartbeat_loop_run k i m : is_u32 (m_num_act m) -> (i + k <= length (m_servers m))%nat ->
  heartbeat_loop junk k i m = Done (tt, beaten m i (take k (drop i (m_servers m)))).
Proof using.
  revert i m. induction k as [|k IH]; intros i m Hu Hl; cbn [heartbeat_loop].
  { rewrite take_0, beaten_nil by done. done. }
  destruct (lookup_lt_is_Some_2 (m_servers m) i) as [c Hc]; [lia|].
  mrun (heartbeat_server_run m i c Hc Hu). rewrite IH; [|apply u32_range|].
  - rewrite beaten_servers_drop, beaten_cons by lia. by rewrite (drop_S _ c i Hc).
  - cbn [beaten m_servers].
    rewrite !length_app, length_take, length_drop. simpl. lia.
Qed.

(** The master after a cycle. *)
Definition after_cycle m : dfs_master_t St :=
  beaten (set_m_hb_id (u32 (m_hb_id m + 1)) m) 0 (take (Z.to_nat (m_num m)) (m_servers m)).

Lemma heartbeat_cycle_run m : is_u32 (m_num_act m) -> 0 <= m_num m <= Z.of_nat (length (m_servers m)) ->
  heartbeat_cycle junk m = Done (tt, after_cycle m).
Proof using.
  intros Hu Hn. unfold heartbeat_cycle, heartbeat_tick. rewrite modify_run, gets_run.
  rewrite heartbeat_loop_run by (simpl; (done || lia)). by rewrite drop_0.
Qed.

(** The servers a cycle goes through. *)
Definition known m : list dfs_chunkserver_status := take (Z.to_nat (m_num m)) (m_servers m).

(** The fields of the master that the daemon relies on. *)
Record master_ok m : Prop := {
  mk_ports : ports_ok (m_ports m);
  mk_len : length (m_servers m) = DFS_MAX_CHUNK_SERVER;
  mk_num : 0 <= m_num m <= Z.of_nat DFS_MAX_CHUNK_SERVER;
  mk_act : is_u32 (m_num_act m);
  mk_hb : is_u32 (m_hb_id m);
  mk_status01 : Forall (fun c => cs_status c = CHUNK_DOWN \/ cs_status c = CHUNK_OK) (m_servers m)
}.

Lemma after_cycle_lookup m i : (i < length (known m))%nat ->
  m_servers (after_cycle m) !! i = mark (u32 (m_hb_id m + 1)) <$> known m !! i.
Proof using.
  intros Hi. unfold after_cycle. cbn [beaten m_servers set_m_hb_id m_hb_id]. fold (known m).
  rewrite take_0. cbn [app]. rewrite lookup_app_l by (by rewrite length_fmap).
  by rewrite list_lookup_fmap.
Qed.

Lemma mark_status hb c : cs_status c = CHUNK_DOWN \/ cs_status c = CHUNK_OK ->
  cs_status (mark hb c) = CHUNK_OK <-> u32 (hb - cs_hb_id c) <= DFS_HB_MAX_LAG.
Proof using.
  intros Hc. unfold mark, lagging. destruct (Z.ltb_spec DFS_HB_MAX_LAG (u32 (hb - cs_hb_id c))).
  - split; [done|lia].
  - split; [done|]. intros _. destruct Hc as [E|E]; rewrite E; done.
Qed.

Lemma known_lookup m i c : master_ok m -> m_servers m !! i = Some c -> Z.of_nat i < m_num m ->
  known m !! i = Some c /\ (i < length (known m))%nat.
Proof using.
  intros Ok Hi Hn. unfold known. pose proof (lookup_lt_Some _ _ _ Hi).
  rewrite lookup_take_lt, length_take by lia. split; [done|lia].
Qed.

Lemma cycle_run m : master_ok m -> heartbeat_cycle junk m = Done (tt, after_cycle m).
Proof using.
  intros Ok. apply heartbeat_cycle_run; [apply Ok|]. rewrite (mk_len _ Ok). apply Ok.
Qed.

Lemma hb_request_fields m : is_u32 (m_hb_id m) -> is_u32 (m_addr m) ->
  op_code (hb_request junk m) = DFS_HB /\ hb_id (hb_request junk m) = m_hb_id m /\
  hb_addr (hb_request junk m) = m_addr m.
Proof using Hjunk.
  intros Hh Ha. unfold hb_request. split_and!; pkt_simpl; [done|by apply Z.mod_small..].
Qed.

(** one heartbeat cycle.  It completes; afterwards each of the [num_chunkserver] servers
    is marked active exactly if its last answer is at most three heartbeats old, keeping
    its address and last answer; the other entries are unchanged; and every server was sent
    one packet, in order, with the number of this heartbeat and the master's address. *)
Theorem heartbeat_cycle_marks m : master_ok m -> is_u32 (m_addr m) ->
  exists m', heartbeat_cycle junk m = Done (tt, m') /\
    m_hb_id m' = u32 (m_hb_id m + 1) /\
    (forall i c, m_servers m !! i = Some c -> Z.of_nat i < m_num m ->
       exists c', m_servers m' !! i = Some c' /\ cs_addr c' = cs_addr c /\
         cs_hb_id c' = cs_hb_id c /\
         (cs_status c' = CHUNK_OK <-> u32 (m_hb_id m' - cs_hb_id c) <= DFS_HB_MAX_LAG)) /\
    drop (Z.to_nat (m_num m)) (m_servers m') = drop (Z.to_nat (m_num m)) (m_servers m) /\
    exists p, m_out m' = m_out m ++ ((fun c => (cs_addr c, p)) <$> known m) /\
      op_code p = DFS_HB /\ hb_id p = m_hb_id m' /\ hb_addr p = m_addr m.
Proof using Hjunk.
  intros Ok Ha. exists (after_cycle m). pose proof Ok as [_ L N A B S01]. split_and!.
  - by apply cycle_run.
  - done.
  - intros i c Hi Hn. destruct (known_lookup m i c Ok Hi Hn) as [Hk Lk].
    exists (mark (u32 (m_hb_id m + 1)) c). rewrite after_cycle_lookup, Hk by done.
    split_and!; [done| | |].
    + unfold mark. by repeat case_match.
    + unfold mark. by repeat case_match.
    + apply mark_status. exact (Forall_lookup_1 _ _ _ _ S01 Hi).
  - unfold after_cycle. cbn [beaten m_servers set_m_hb_id m_num]. rewrite take_0. cbn [app].
    assert (length (take (Z.to_nat (m_num m)) (m_servers m)) = Z.to_nat (m_num m)) as Lt
      by (rewrite length_take; lia).
    rewrite drop_app_ge; rewrite length_fmap, Lt; [|done]. by rewrite Nat.sub_diag.
  - exists (hb_request junk (set_m_hb_id (u32 (m_hb_id m + 1)) m)). split; [done|].
    exact (hb_request_fields (set_m_hb_id (u32 (m_hb_id m + 1)) m) (u32_range _) Ha).
Qed.

(** C24: an answered heartbeat.  If chunk server [i] has the address the master knows it by,
    the request the master sends makes it reply to the master, the master then records the
    heartbeat as answered, and the next cycle marks the server active even if it was
    down. *)
Theorem heartbeat_answered {Sc} `{ChunkStore Sc} `{HeapGarbage} js (s : dfs_chunkserver_t Sc) m i c :
  master_ok m -> is_u32 (m_addr m) -> pkt_ok js -> (i < 64)%nat -> Z.of_nat i < m_num m ->
  m_servers m !! i = Some c -> c_id s = Z.of_nat i -> c_addr s = cs_addr c ->
  is_u32 (c_addr s) ->
  exists reply m1,
    chunk_step js (Some (hb_request junk m)) s =
      Done (tt, mk_cserver (c_addr s) (c_id s) (c_fs s) (c_ports s)
                  (c_out s ++ [(m_addr m, reply)])) /\
    master_step junk (Some reply) m = Done (tt, m1) /\
    m_servers m1 = <[i := mk_status (cs_addr c) (cs_status c) (32 * 1024) 0 (m_hb_id m)]> (m_servers m) /\
    exists m2 c2, heartbeat_cycle junk m1 = Done (tt, m2) /\ m_servers m2 !! i = Some c2 /\
      cs_status c2 = CHUNK_OK.
Proof using Hjunk.
  intros Ok Ha Hjs Hi Hin Hc Eid Ead Hau. pose proof Ok as [Po L N A B S01].
  destruct (hb_request_fields m B Ha) as (Eop & Ehb & Ehad).
  set (reply := set_hb_storage (32 * 1024) (set_hb_usage 0 (set_hb_addr (c_addr s)
      (set_hb_id (m_hb_id m) (set_port (c_id s) (set_op DFS_HB js)))))).
  set (c1 := mk_status (cs_addr c) (cs_status c) (32 * 1024) 0 (m_hb_id m)).
  assert (F : op_code reply = DFS_HB /\ port_id reply = Z.of_nat i /\ hb_addr reply = cs_addr c /\
              hb_id reply = m_hb_id m /\ hb_usage reply = 0 /\ hb_storage reply = 32 * 1024).
  { subst reply. rewrite Ead in Hau. split_and!; pkt_simpl; try done.
    - rewrite Eid. apply Z.mod_small. simpl. lia.
    - rewrite Ead. by apply Z.mod_small.
    - by apply Z.mod_small. }
  destruct F as (F1 & F2 & F3 & F4 & F5 & F6).
  assert (R1 : master_step junk (Some reply) m = Done (tt, set_servers (<[i := c1]> (m_servers m)) m)).
  { unfold master_step, master_turn. cbv zeta. rewrite F1.
    change (DFS_HB =? DFS_CNCT) with false. change (DFS_HB =? DFS_HB) with true. cbv iota.
    unfold master_hb. rewrite gets_run. cbv zeta. rewrite F2, F3, F4, F5, F6, Nat2Z.id.
    rewrite (opt_run _ _ _ _ Hc). by rewrite Z.eqb_refl. }
  exists reply, (set_servers (<[i := c1]> (m_servers m)) m). split_and!; [|done|done|].
  - unfold chunk_step. cbv zeta. rewrite Eop.
    change (DFS_HB =? DFS_CNCT) with false. change (DFS_HB =? DFS_HB) with true. cbv iota.
    unfold chunk_hb. rewrite gets_run, Ehb, Ehad. done.
  - set (m1 := set_servers (<[i := c1]> (m_servers m)) m).
    assert (Ok1 : master_ok m1).
    { constructor; try done; simpl; [by rewrite length_insert|].
      apply Forall_insert; [done|]. exact (Forall_lookup_1 _ _ _ _ S01 Hc). }
    assert (Hc1 : m_servers m1 !! i = Some c1).
    { simpl. apply list_lookup_insert_eq. by eapply lookup_lt_Some. }
    destruct (known_lookup m1 i c1 Ok1 Hc1 Hin) as [Hk Lk].
    exists (after_cycle m1), (mark (u32 (m_hb_id m1 + 1)) c1).
    split_and!; [by apply cycle_run|by rewrite after_cycle_lookup, Hk|].
    apply mark_status; [exact (Forall_lookup_1 _ _ _ _ S01 Hc)|].
    simpl. unfold u32. rewrite Zminus_mod_idemp_l.
    replace (m_hb_id m + 1 - m_hb_id m) with 1 by lia. done.
Qed.

(** *** Servers that never answer *)

(** The count of active servers after [k] unanswered heartbeats, per server. *)
Definition silent_count (k : Z) : Z := if k =? 0 then 0 else if k <=? 3 then 1 else 4 - k.

Record silent (k : Z) m : Prop := {
  si_hb : m_hb_id m = k;
  si_num : 0 <= m_num m <= Z.of_nat (length (m_servers m));
  si_act : m_num_act m = u32 (m_num m * silent_count k);
  si_servers : Forall (fun c => cs_hb_id c = 0 /\
    cs_status c = if (0 <? k) && (k <=? 3) then CHUNK_OK else CHUNK_DOWN) (known m)
}.

Lemma deltas_const hb l d : Forall (fun c => delta hb c = d) l ->
  deltas hb l = Z.of_nat (length l) * d.
Proof using.
  unfold deltas. induction 1 as [|c l E _ IH]; [done|]. rewrite fmap_cons. cbn [foldr length]. lia.
Qed.

(** A silent server at heartbeat [k + 1]. *)
Lemma mark_silent k c : 0 <= k < 2 ^ 32 - 1 -> cs_hb_id c = 0 ->
  cs_status c = (if (0 <? k) && (k <=? 3) then CHUNK_OK else CHUNK_DOWN) ->
  cs_hb_id (mark (k + 1) c) = 0 /\
  cs_status (mark (k + 1) c) = (if (0 <? k + 1) && (k + 1 <=? 3) then CHUNK_OK else CHUNK_DOWN) /\
  delta (k + 1) c = silent_count (k + 1) - silent_count k.
Proof using.
  intros Hk Eh Es. unfold mark, delta, lagging. rewrite Eh, Z.sub_0_r, u32_small by (unfold is_u32; lia).
  rewrite (proj2 (Z.ltb_lt 0 (k + 1))) by lia. unfold DFS_HB_MAX_LAG, silent_count.
  rewrite (proj2 (Z.eqb_neq (k + 1) 0)) by lia. simpl andb.
  destruct (Z.ltb_spec 3 (k + 1)).
  - rewrite (proj2 (Z.leb_gt (k + 1) 3)), (proj2 (Z.eqb_neq k 0)) by lia. simpl.
    split_and!; [done|done|]. destruct (Z.leb_spec k 3); lia.
  - rewrite (proj2 (Z.leb_le (k + 1) 3)), (proj2 (Z.leb_le k 3)) by lia.
    destruct (Z.eqb_spec k 0) as [->|].
    + rewrite Es. done.
    + rewrite (proj2 (Z.ltb_lt 0 k)), (proj2 (Z.leb_le k 3)) in Es by lia. rewrite Es. done.
Qed.

Lemma silent_cycle k m : silent k m -> 0 <= k < 2 ^ 32 - 1 ->
  heartbeat_cycle junk m = Done (tt, after_cycle m) /\ silent (k + 1) (after_cycle m).
Proof using.
  intros [Eh En Ea Es] Hk. split.
  { apply heartbeat_cycle_run; [|done]. rewrite Ea. apply u32_range. }
  assert (Ek : u32 (m_hb_id m + 1) = k + 1) by (rewrite Eh; apply u32_small; unfold is_u32; lia).
  assert (Lk : length (known m) = Z.to_nat (m_num m)) by (unfold known; rewrite length_take; lia).
  assert (Esv : m_servers (after_cycle m) =
    (mark (k + 1) <$> known m) ++ drop (Z.to_nat (m_num m)) (m_servers m)).
  { unfold after_cycle. cbn [beaten m_servers set_m_hb_id m_hb_id]. fold (known m).
    by rewrite Ek, take_0, Lk. }
  constructor.
  - done.
  - rewrite Esv, length_app, length_fmap, length_drop, Lk. cbn [after_cycle beaten m_num set_m_hb_id]. lia.
  - unfold after_cycle. cbn [beaten m_num_act m_num set_m_hb_id m_hb_id]. fold (known m).
    rewrite Ek, (deltas_const _ _ (silent_count (k + 1) - silent_count k)).
    + rewrite Lk, Z2Nat.id, Ea by lia. unfold u32. rewrite Z.add_mod_idemp_l by lia. f_equal. lia.
    + eapply Forall_impl; [exact Es|]. simpl. intros c [? ?]. by apply mark_silent.
  - unfold known at 1. rewrite Esv. change (m_num (after_cycle m)) with (m_num m).
    rewrite take_app_le by (rewrite length_fmap; lia). rewrite take_ge by (rewrite length_fmap; lia).
    apply Forall_fmap. eapply Forall_impl; [exact Es|]. simpl. intros c [Hh Hs].
    destruct (mark_silent k c Hk Hh Hs) as (? & ? & _). done.
Qed.

Lemma silent_daemon j k m : silent k m -> 0 <= k -> k + Z.of_nat j < 2 ^ 32 ->
  exists m', dfs_master_heartbeat_daemon_start junk j m = Done (tt, m') /\
    silent (k + Z.of_nat j) m' /\ m_num m' = m_num m.
Proof using.
  revert k m. induction j as [|j IH]; intros k m Si Hk Hj.
  { exists m. rewrite Z.add_0_r. done. }
  destruct (silent_cycle k m Si ltac:(lia)) as [R Si'].
  destruct (IH (k + 1) _ Si' ltac:(lia) ltac:(lia)) as (m' & R' & S' & N').
  exists m'. cbn [dfs_master_heartbeat_daemon_start]. mrun R. split_and!; [done| |done].
  by replace (k + Z.of_nat (S j)) with (k + 1 + Z.of_nat j) by lia.
Qed.

(** C27: the count of active servers drifts.  After a start with [n] servers that never
    answer, [k] heartbeats (k >= 4) leave all of them marked down, but [num_act_server]
    at [n * (4 - k)] modulo 2^32: it is decremented again in every cycle.  From the fifth
    heartbeat on it is therefore not zero, and [dfs_master_get_server_for_new_chunk] hands
    out server 0, which is down, where it should answer that there is no server. *)
Theorem silent_servers_counted fs m0 k :
  let m := dfs_init_master fs m0 in
  1 <= m_num m <= 64 -> 4 <= Z.of_nat k < 2 ^ 32 ->
  exists m', dfs_master_heartbeat_daemon_start junk k m = Done (tt, m') /\
    Forall (fun c => cs_status c = CHUNK_DOWN) (known m') /\
    m_num_act m' = u32 (m_num m * (4 - Z.of_nat k)) /\
    (4 < Z.of_nat k -> m_num m * (Z.of_nat k - 4) < 2 ^ 32 ->
     dfs_master_get_server_for_new_chunk m' = Done (0, m')).
Proof using.
  intros m Hn Hk.
  assert (S0 : silent 0 m).
  { constructor; [done|simpl; simpl in Hn; lia|by change (silent_count 0) with 0; rewrite Z.mul_0_r|].
    unfold known.
    apply Forall_take. apply Forall_forall. intros c Hc. simpl in Hc.
    repeat (apply elem_of_cons in Hc as [->|Hc]; [done|]). by apply not_elem_of_nil in Hc. }
  destruct (silent_daemon k 0 m S0 ltac:(lia) ltac:(lia)) as (m' & R & Si & En).
  rewrite Z.add_0_l in Si. destruct Si as [Eh Hl Ea Es].
  assert (Dn : Forall (fun c => cs_status c = CHUNK_DOWN) (known m')).
  { eapply Forall_impl; [exact Es|]. simpl. intros c [_ ->].
    rewrite (proj2 (Z.leb_gt _ 3)) by lia. by rewrite andb_false_r. }
  assert (Ec : silent_count (Z.of_nat k) = 4 - Z.of_nat k).
  { unfold silent_count. rewrite (proj2 (Z.leb_gt _ 3)), (proj2 (Z.eqb_neq _ 0)) by lia. done. }
  rewrite En, Ec in Ea. exists m'. split_and!; [done|done|done|]. intros Hk5 Hov.
  rewrite get_server_run; [|lia|].
  - assert (ok_ids (take (Z.to_nat (m_num m')) (m_servers m')) 0 = []) as ->.
    { fold (known m'). clear -Dn. generalize 0. induction Dn as [|c l E _ IH]; intros z; [done|].
      simpl. by rewrite E, IH. }
    by destruct m'.
  - rewrite Ea. unfold u32. replace (m_num m * (4 - Z.of_nat k)) with (- (m_num m * (Z.of_nat k - 4))) by lia.
    rewrite Z.mod_opp_l_nz; rewrite ?Z.mod_small; nia.
Qed.

(** ** The invariant of the two threads *)

(** What only the connection and heartbeat code may change. *)
Definition net m := (m_addr m, m_servers m, m_num m, m_num_act m, m_hb_id m, m_ports m).

(** [c] leaves that alone. *)
Definition keeps {A} (c : M (dfs_master_t St) A) : Prop :=
  forall m r m', c m = Done (r, m') -> net m' = net m.

Lemma keeps_bind {A B} (c : M (dfs_master_t St) A) (f : A -> M (dfs_master_t St) B) :
  keeps c -> (forall a, keeps (f a)) -> keeps (c ≫= f).
Proof using.
  intros Kc Kf m r m' (a & m1 & R1 & R2)%bind_inv. by rewrite (Kf _ _ _ _ R2), (Kc _ _ _ R1).
Qed.

Lemma keeps_ret {A} (a : A) : keeps (mret a).
Proof using. intros m r m' R. by injection R as <- <-. Qed.

Lemma keeps_gets {A} (f : dfs_master_t St -> A) : keeps (m_gets f).
Proof using. intros m r m' R. by injection R as <- <-. Qed.

Lemma keeps_modify f : (forall m, net (f m) = net m) -> keeps (m_modify f).
Proof using. intros Hf m r m' R. injection R as <- <-. apply Hf. Qed.

Lemma keeps_opt {A} (o : option A) : keeps (m_opt o).
Proof using. intros m r m' R. destruct o; [by injection R as <- <-|done]. Qed.

Lemma keeps_undef {A} : keeps (m_undef : M (dfs_master_t St) A).
Proof using. done. Qed.

Lemma keeps_nofuel {A} : keeps (m_nofuel : M (dfs_master_t St) A).
Proof using. done. Qed.

Lemma keeps_on_tables {A} (c : M St A) : keeps (on_tables c).
Proof using.
  intros m r m' R. unfold on_tables, m_zoom in R.
  destruct (c (m_fs m)) as [[a s]| | |]; [|done..]. by injection R as <- <-.
Qed.

Lemma keeps_send addr p : keeps (m_send addr p).
Proof using. by apply keeps_modify. Qed.

#[local] Hint Resolve keeps_ret keeps_gets keeps_opt keeps_undef keeps_nofuel keeps_on_tables
  keeps_send : keeps.

Ltac keeps_tac :=
  repeat first
    [ apply keeps_bind; [|intros ?]
    | match goal with |- keeps (match ?x with _ => _ end) => destruct x end
    | by apply keeps_modify
    | solve [auto with keeps] ].

Lemma keeps_list_loop fuel a d i p : keeps (list_loop fuel a d i p).
Proof using.
  revert i p. induction fuel as [|fuel IH]; intros i p; cbn [list_loop]; [auto with keeps|].
  destruct (Nat.ltb i (length d)); [|auto with keeps]. cbv zeta.
  apply keeps_bind; [auto with keeps|done].
Qed.

Lemma keeps_get_server : keeps dfs_master_get_server_for_new_chunk.
Proof using. unfold dfs_master_get_server_for_new_chunk, known_servers. keeps_tac. Qed.

Lemma keeps_alloc f n : keeps (alloc_chunk_with dfs_master_get_server_for_new_chunk f n).
Proof using.
  unfold alloc_chunk_with. apply keeps_bind; [apply keeps_get_server|intros ?]. keeps_tac.
Qed.

(** The file handlers keep the network part. *)
Lemma keeps_files p : keeps (master_ls junk p) /\ keeps (master_cd junk p) /\
  keeps (master_rd junk p) /\ keeps (master_cr junk p) /\ keeps (master_rm junk p) /\
  keeps (master_wr junk p).
Proof using.
  unfold master_ls, master_cd, master_rd, master_cr, master_rm, master_wr, master_wr_with, with_client.
  split_and!; keeps_tac; auto using keeps_list_loop, keeps_alloc.
Qed.

Lemma master_ok_net m m' : net m' = net m -> master_ok m -> master_ok m'.
Proof using.
  unfold net. intros [= Ea Es En Ec Eh Ep] [Po L N A B S]. constructor; congruence.
Qed.

(** A connection changes the ports only. *)
Lemma cnct_net p m m' : master_cnct junk p m = Done (tt, m') ->
  exists s r, try_assign_port (conn_addr p) (m_ports m) = Done (r, s) /\
    net m' = net (set_m_ports s m).
Proof using.
  unfold master_cnct, master_try_assign_port, on_m_ports. cbv zeta.
  intros (r & m1 & R1 & R2)%bind_inv. unfold m_zoom in R1.
  destruct (try_assign_port (conn_addr p) (m_ports m)) as [[r' s]| | |]; [|done..].
  injection R1 as <- <-. exists s, r'. split; [done|].
  destruct (r' =? -1).
  - exact (keeps_send _ _ _ _ _ R2).
  - revert R2. apply keeps_bind; [apply keeps_send|intros []].
    apply keeps_bind; [apply keeps_on_tables|intros c]. by apply keeps_modify.
Qed.

(** A heartbeat answer changes one server's figures, never its address or status. *)
Lemma hb_servers p m m' : master_hb p m = Done (tt, m') ->
  m' = m \/ exists i c c', m_servers m !! i = Some c /\ cs_addr c' = cs_addr c /\
    cs_status c' = cs_status c /\ m' = set_servers (<[i := c']> (m_servers m)) m.
Proof using.
  unfold master_hb. rewrite gets_run. cbv zeta. intros R.
  destruct (m_servers m !! Z.to_nat (port_id p)) as [c|] eqn:Hc; [|done].
  rewrite (opt_run _ _ _ _ eq_refl) in R. destruct (negb _); injection R as <-; [by left|right].
  eexists _, c, _. split_and!; [exact Hc| | |reflexivity]; done.
Qed.

(** The effect of an event on the network part. *)
Inductive net_step (e : master_event) m : dfs_master_t St -> Prop :=
  | net_same q m' : e = EvRecv q -> net m' = net m -> net_step e m m'
  | net_ports q c r s m' : e = EvRecv q -> try_assign_port c (m_ports m) = Done (r, s) ->
      net m' = net (set_m_ports s m) -> net_step e m m'
  | net_hb q i c c' m' : e = EvRecv q -> m_servers m !! i = Some c -> cs_addr c' = cs_addr c ->
      cs_status c' = cs_status c -> m' = set_servers (<[i := c']> (m_servers m)) m -> net_step e m m'
  | net_tick m' : e = EvTick -> m' = set_m_hb_id (u32 (m_hb_id m + 1)) m -> net_step e m m'
  | net_server i c m' : e = EvServer i -> m_servers m !! i = Some c ->
      m' = beaten m i [c] -> net_step e m m'.

(** Not a turn that the daemon interrupts. *)
Definition undivided (e : master_event) : bool := match e with EvRecvAmid _ _ => false | _ => true end.

Lemma run_event_net e m m' : undivided e = true -> is_u32 (m_num_act m) -> run_event junk e m = Done (tt, m') ->
  net_step e m m'.
Proof using.
  intros Ud Hu R. destruct e as [[p|]|r gaps| |i]; [| |done|..]; cbn in R.
  - destruct (keeps_files p) as (Kls & Kcd & Krd & Kcr & Krm & Kwr). unfold master_wr in Kwr.
    repeat case_match; try done; try (injection R as <-; by eapply net_same);
      try (by eapply net_same; [done|]; eauto).
    + destruct (cnct_net _ _ _ R) as (s & r & Hr & En). by eapply net_ports.
    + destruct (hb_servers _ _ _ R) as [->|(i & c & c' & Hc & Ea & Es & ->)]; [by eapply net_same|].
      by eapply net_hb.
  - injection R as <-. by eapply net_same.
  - injection R as <-. by apply net_tick.
  - destruct (m_servers m !! i) as [c|] eqn:Hc.
    + rewrite (heartbeat_server_run m i c Hc Hu) in R. injection R as <-. by eapply net_server.
    + unfold heartbeat_server in R. by rewrite gets_run, Hc in R.
Qed.

Fixpoint run_events (es : list master_event) : M (dfs_master_t St) unit :=
  match es with
  | [] => mret tt
  | e :: es => run_event junk e;; run_events es
  end.

Lemma mark_keeps hb c : cs_addr (mark hb c) = cs_addr c /\ cs_hb_id (mark hb c) = cs_hb_id c /\
  (cs_status (mark hb c) = CHUNK_DOWN \/ cs_status (mark hb c) = CHUNK_OK \/ mark hb c = c).
Proof using. unfold mark. repeat case_match; simpl; auto. Qed.

Lemma beaten_one m i c : m_servers m !! i = Some c ->
  m_servers (beaten m i [c]) = <[i := mark (m_hb_id m) c]> (m_servers m).
Proof using.
  intros Hi. cbn [beaten m_servers]. rewrite insert_take_drop by (by eapply lookup_lt_Some).
  simpl. do 2 f_equal. f_equal. lia.
Qed.

Lemma addresses_insert (l : list dfs_chunkserver_status) i c c' : l !! i = Some c ->
  cs_addr c' = cs_addr c -> cs_addr <$> <[i := c']> l = cs_addr <$> l.
Proof using.
  intros Hi E. rewrite list_fmap_insert, E. apply list_insert_id. by rewrite list_lookup_fmap, Hi.
Qed.

Lemma net_step_ok e m m' : master_ok m -> net_step e m m' ->
  master_ok m' /\ m_num m' = m_num m /\ cs_addr <$> m_servers m' = cs_addr <$> m_servers m.
Proof using.
  intros Ok St'. pose proof Ok as [Po L N A B S].
  destruct St' as [q m' -> E|q c r s m' -> R E|q i c c' m' -> Hc Ea Es ->|m' -> ->|i c m' -> Hc ->].
  - split; [by eapply master_ok_net|]. unfold net in E. injection E. intros. split; congruence.
  - split.
    + eapply master_ok_net; [exact E|]. constructor; simpl; try done. by eapply try_assign_port_inv.
    + unfold net in E. simpl in E. injection E. intros. split; congruence.
  - split; [|split; [done|by apply (addresses_insert _ i c)]].
    constructor; simpl; try done; [by rewrite length_insert|].
    apply Forall_insert; [done|]. rewrite Es. exact (Forall_lookup_1 _ _ _ _ S Hc).
  - split; [|done]. constructor; simpl; try done. apply u32_range.
  - destruct (mark_keeps (m_hb_id m) c) as (Em & _ & Hs). pose proof (beaten_one m i c Hc) as Eb.
    split; [|split; [done|rewrite Eb; by apply (addresses_insert _ i c)]].
    constructor; try done; rewrite ?Eb.
    + by rewrite length_insert.
    + apply u32_range.
    + apply Forall_insert; [done|]. pose proof (Forall_lookup_1 _ _ _ _ S Hc) as Hc1. simpl in Hc1.
      destruct Hs as [?|[?|E]]; [by left|by right|by rewrite E].
Qed.

(** The invariant, and what never changes. *)
Definition stays m m' : Prop :=
  master_ok m' /\ m_num m' = m_num m /\ cs_addr <$> m_servers m' = cs_addr <$> m_servers m.

(** [c] keeps the invariant. *)
Definition preserves {A} (c : M (dfs_master_t St) A) : Prop :=
  forall m r m', master_ok m -> c m = Done (r, m') -> stays m m'.

Lemma preserves_bind {A B} (c : M (dfs_master_t St) A) (f : A -> M (dfs_master_t St) B) :
  preserves c -> (forall a, preserves (f a)) -> preserves (c ≫= f).
Proof using.
  intros Pc Pf m r m' Ok (a & m1 & R1 & R2)%bind_inv. destruct (Pc _ _ _ Ok R1) as (Ok1 & N1 & A1).
  destruct (Pf _ _ _ _ Ok1 R2) as (Ok2 & N2 & A2). split_and!; [done|congruence|congruence].
Qed.

Lemma preserves_keeps {A} (c : M (dfs_master_t St) A) : keeps c -> preserves c.
Proof using.
  intros K m r m' Ok R. specialize (K _ _ _ R). split; [by eapply master_ok_net|].
  unfold net in K. injection K as _ -> -> _ _ _. done.
Qed.

Lemma preserves_undivided e : undivided e = true -> preserves (run_event junk e).
Proof using H. intros Ud m [] m' Ok R. apply (net_step_ok e); [done|]. by apply run_event_net; [|apply Ok|]. Qed.

Lemma preserves_daemon ds : preserves (run_daemon junk ds).
Proof using H.
  induction ds as [|d ds IH]; [by apply preserves_keeps, keeps_ret|]. apply preserves_bind; [|done].
  destruct d as [|i]; [by apply (preserves_undivided EvTick)|by apply (preserves_undivided (EvServer i))].
Qed.

Lemma preserves_select gaps k i id : preserves (select_loop junk gaps k i id).
Proof using H.
  revert i id. induction k as [|k IH]; intros i id; [by apply preserves_keeps, keeps_ret|]. cbn [select_loop].
  apply preserves_bind; [apply preserves_daemon|intros _].
  apply preserves_bind; [apply preserves_keeps, keeps_gets|intros m].
  apply preserves_bind; [apply preserves_keeps, keeps_opt|intros c].
  repeat case_match; try done; (apply preserves_bind; [by apply preserves_keeps, keeps_modify|done]).
Qed.

Lemma preserves_amid gaps : preserves (get_server_amid junk gaps).
Proof using H.
  unfold get_server_amid. apply preserves_bind; [apply preserves_keeps, keeps_gets|intros m].
  destruct (m_num_act m =? 0); [by apply preserves_keeps, keeps_ret|apply preserves_select].
Qed.

Lemma preserves_wr gaps p : preserves (master_wr_with junk (get_server_amid junk gaps) p).
Proof using H.
  assert (forall f n, preserves (alloc_chunk_with (get_server_amid junk gaps) f n)) as Al.
  { intros f n. apply preserves_bind; [apply preserves_amid|intros id]. apply preserves_keeps. keeps_tac. }
  unfold master_wr_with, with_client. destruct (_ <=? _); [by apply preserves_keeps, keeps_ret|].
  apply preserves_bind; [apply preserves_keeps, keeps_gets|intros m].
  apply preserves_bind; [apply preserves_keeps, keeps_opt|intros a]. cbv zeta.
  apply preserves_bind; [apply preserves_keeps, keeps_opt|intros name].
  apply preserves_bind; [apply preserves_keeps, keeps_on_tables|intros n].
  apply preserves_bind; [|intros r; apply preserves_keeps, keeps_send].
  destruct (_ <? _); [apply preserves_keeps; keeps_tac|].
  destruct (_ =? _); [apply Al|by apply preserves_keeps, keeps_ret].
Qed.

(** But for the choice of a server, a turn that the daemon interrupts is one it does not. *)
Lemma turn_amid gaps r : (exists p, r = Some p /\ op_code p = DFS_WR) \/
  master_turn junk (get_server_amid junk gaps) r = master_step junk r.
Proof using H.
  destruct r as [p|]; [|by right]. destruct (decide (op_code p = DFS_WR)) as [E|E]; [left; by exists p|right].
  unfold master_step, master_turn. by rewrite (proj2 (Z.eqb_neq (op_code p) DFS_WR)).
Qed.

Lemma preserves_event e : preserves (run_event junk e).
Proof using H.
  destruct (undivided e) eqn:Ud; [by apply preserves_undivided|]. destruct e as [|r gaps| |]; try done. cbn [run_event].
  destruct (turn_amid gaps r) as [(p & -> & E)| ->]; [|by apply (preserves_undivided (EvRecv r))].
  assert (master_turn junk (get_server_amid junk gaps) (Some p) = master_wr_with junk (get_server_amid junk gaps) p) as ->.
  { unfold master_turn. by rewrite E. }
  apply preserves_wr.
Qed.

(** The daemon treats servers of the table. *)
Definition in_table (d : daemon_step) : Prop :=
  match d with DTick => True | DServer i => (i < DFS_MAX_CHUNK_SERVER)%nat end.

Lemma daemon_runs ds m : master_ok m -> Forall in_table ds ->
  exists m', run_daemon junk ds m = Done (tt, m') /\ stays m m'.
Proof using H.
  intros Ok F. revert m Ok. induction F as [|d ds Hd _ IH]; intros m Ok; [exists m; split; [done|by split_and!]|].
  assert (exists m1, run_daemon_step junk d m = Done (tt, m1)) as [m1 R1].
  { destruct d as [|i]; [by eexists|]. destruct (lookup_lt_is_Some_2 (m_servers m) i) as [c Hc];
      [rewrite (mk_len _ Ok); exact Hd|]. eexists. exact (heartbeat_server_run m i c Hc (mk_act _ Ok)). }
  destruct (preserves_daemon [d] m tt m1 Ok) as (Ok1 & N1 & A1); [cbn [run_daemon]; by mrun R1|].
  destruct (IH m1 Ok1) as (m' & R & Ok' & N' & A'). exists m'. cbn [run_daemon]. mrun R1.
  split; [done|]. split; [done|]. split; congruence.
Qed.

Lemma select_runs gaps k i id m : master_ok m -> Forall (Forall in_table) gaps ->
  (i + k <= DFS_MAX_CHUNK_SERVER)%nat ->
  exists id' m', select_loop junk gaps k i id m = Done (id', m') /\
    (id' = id \/ Z.of_nat i <= id' < Z.of_nat (i + k)).
Proof using H.
  intros Ok F. revert i id m Ok. induction k as [|k IH]; intros i id m Ok L; [eexists _, _; split; [done|by left]|].
  destruct (daemon_runs (nth i gaps []) m Ok) as (m1 & R1 & Ok1 & _).
  { destruct (nth_in_or_default i gaps []) as [I| ->]; [|done].
    rewrite Forall_forall in F. apply F. by apply list_elem_of_In. }
  cbn [select_loop]. mrun R1. rewrite gets_run.
  destruct (lookup_lt_is_Some_2 (m_servers m1) i) as [c Hc]; [rewrite (mk_len _ Ok1); lia|].
  rewrite (opt_run _ c) by done.
  assert (forall m2 id2, master_ok m2 -> id2 = id \/ id2 = Z.of_nat i ->
    exists id' m', select_loop junk gaps k (S i) id2 m2 = Done (id', m') /\
      (id' = id \/ Z.of_nat i <= id' < Z.of_nat (i + S k))) as Next.
  { intros m2 id2 Ok2 Hid. destruct (IH (S i) id2 m2 Ok2) as (id' & m' & R & Hr); [lia|].
    exists id', m'. split; [done|]. destruct Hid as [->| ->]; lia. }
  assert (forall v, master_ok (set_fake_rand v m1)) as Okv by (intros v; by apply (master_ok_net m1)).
  destruct (_ =? CHUNK_OK); [destruct (_ =? _)|]; rewrite ?modify_run; apply Next; auto.
Qed.

(** C20: the invariant of the two threads.  Whatever packets arrive and in whatever order the
    turns of the main loop and the steps of the heartbeat daemon come, the daemon's steps also
    between the reads with which a turn chooses a server for a new chunk: if the run returns (a
    packet with an unknown op code stops the master, and a heartbeat answer for a server beyond
    the table is out of bounds), the port table is consistent, the table keeps its 64 entries
    and the servers' addresses, every status is "down" or "ok", and the counters are 32-bit
    numbers.  In such a state the choice of a server, with any of the daemon's steps in between,
    always returns: -1 or the number of a server the loop ran over (0 if it found none). *)
Theorem threads_keep_master_ok es m m' : master_ok m -> run_events es m = Done (tt, m') ->
  master_ok m' /\ m_num m' = m_num m /\ cs_addr <$> m_servers m' = cs_addr <$> m_servers m /\
  forall gaps, Forall (Forall in_table) gaps ->
    exists id m2, get_server_amid junk gaps m' = Done (id, m2) /\ stays m' m2 /\
      (id = -1 \/ id = 0 \/ 0 <= id < m_num m').
Proof using H.
  intros Ok R. assert (stays m m') as (Ok' & N' & A').
  { revert m Ok R. induction es as [|e es IH]; intros m Ok R; [by injection R as <-|].
    apply bind_inv in R as ([] & m1 & R1 & R2). destruct (preserves_event e m tt m1 Ok R1) as (Ok1 & N1 & A1).
    destruct (IH m1 Ok1 R2) as (Ok' & N' & A'). split_and!; [done|congruence|congruence]. }
  split_and!; [done..|]. intros gaps F.
  assert (exists id m2, get_server_amid junk gaps m' = Done (id, m2) /\ (id = -1 \/ id = 0 \/ 0 <= id < m_num m'))
    as (id & m2 & E & Hid).
  { unfold get_server_amid. rewrite gets_run. destruct (_ =? 0); [eexists _, _; split; [done|by left]|].
    pose proof (mk_num _ Ok') as Hn. destruct (select_runs gaps (Z.to_nat (m_num m')) 0 0 m' Ok' F) as (id & m2 & E & Hid);
      [lia|]. exists id, m2. split; [done|]. lia. }
  exists id, m2. split_and!; [done| |done]. by eapply preserves_amid.
Qed.

(** *** The count of active servers *)

Definition count_ok (l : list dfs_chunkserver_status) : Z :=
  Z.of_nat (length (filter (fun c => cs_status c = CHUNK_OK) l)).

Definition counted m : Prop := m_num_act m = count_ok (m_servers m).

Definition one_ok (c : dfs_chunkserver_status) : Z := if decide (cs_status c = CHUNK_OK) then 1 else 0.

Lemma count_ok_cons c l : count_ok (c :: l) = one_ok c + count_ok l.
Proof using. unfold count_ok, one_ok. rewrite filter_cons. case_decide; simpl length; lia. Qed.

Lemma count_ok_insert l i c c' : l !! i = Some c ->
  count_ok (<[i := c']> l) = count_ok l + one_ok c' - one_ok c.
Proof using.
  revert i. induction l as [|x l IH]; intros [|i] Hi; simpl in Hi; [done|done| |].
  - injection Hi as ->. simpl. rewrite !count_ok_cons. lia.
  - simpl. rewrite !count_ok_cons, IH by done. lia.
Qed.

Lemma count_ok_bound l : 0 <= count_ok l <= Z.of_nat (length l).
Proof using. unfold count_ok. pose proof (length_filter (fun c => cs_status c = CHUNK_OK) l). lia. Qed.

(** when [num_act_server] is right.  An event keeps it equal to the number of servers
    marked active, except for exactly one case: the daemon marks a lagging server down
    that was down already, and decrements the count once more. *)
Theorem active_count_exact e m m' : undivided e = true -> master_ok m -> counted m -> run_event junk e m = Done (tt, m') ->
  counted m' <-> ~ exists i c, e = EvServer i /\ m_servers m !! i = Some c /\
    lagging (m_hb_id m) c = true /\ cs_status c = CHUNK_DOWN.
Proof using.
  intros Ud Ok Ct R. apply run_event_net in R; [|done|apply Ok]. unfold counted in *.
  pose proof (count_ok_bound (m_servers m)) as Cb. rewrite (mk_len _ Ok) in Cb.
  unfold DFS_MAX_CHUNK_SERVER in Cb.
  destruct R as [q m' -> E|q c r s m' -> R E|q i c c' m' -> Hc Ea Es ->|m' -> ->|i c m' -> Hc ->].
  - unfold net in E. injection E as _ -> _ -> _ _. naive_solver.
  - unfold net in E. injection E as _ -> _ -> _ _. naive_solver.
  - cbn [set_servers m_num_act m_servers]. rewrite (count_ok_insert _ i c) by done.
    unfold one_ok. rewrite Es. split; [naive_solver|]. lia.
  - naive_solver.
  - rewrite (beaten_one m i c Hc), (count_ok_insert _ i c) by done.
    cbn [beaten m_num_act]. unfold deltas. simpl. rewrite Z.add_0_r, Ct.
    pose proof (Forall_lookup_1 _ _ _ _ (mk_status01 _ Ok) Hc) as Hs. simpl in Hs.
    assert (Hone : cs_status c = CHUNK_OK -> 1 <= count_ok (m_servers m)).
    { intros E. pose proof (count_ok_insert _ i c (set_cs_status CHUNK_DOWN c) Hc) as E1.
      unfold one_ok in E1. rewrite (decide_True _ _ E) in E1.
      pose proof (count_ok_bound (<[i := set_cs_status CHUNK_DOWN c]> (m_servers m))).
      simpl in E1. lia. }
    unfold delta, mark, one_ok.
    destruct (lagging (m_hb_id m) c) eqn:El.
    + destruct Hs as [Es|Es]; rewrite Es; simpl.
      * split; [|naive_solver]. intros E1.
        destruct (Z.eq_dec (count_ok (m_servers m)) 0) as [E0|E0].
        -- rewrite E0 in E1. done.
        -- rewrite u32_small in E1 by (unfold is_u32; lia). lia.
      * rewrite u32_small by (unfold is_u32; specialize (Hone Es); lia).
        split; [|lia]. intros _ (i' & c' & [= <-] & Hc' & _ & Es'). rewrite Hc in Hc'.
        injection Hc' as <-. rewrite Es in Es'. done.
    + assert (Hno : ~ exists i' c', EvServer i = EvServer i' /\ m_servers m !! i' = Some c' /\
        lagging (m_hb_id m) c' = true /\ cs_status c' = CHUNK_DOWN).
      { intros (i' & c' & [= <-] & Hc' & El' & _). rewrite Hc in Hc'. injection Hc' as <-. congruence. }
      destruct Hs as [Es|Es]; rewrite ?Es; simpl; rewrite ?Es; simpl;
        (rewrite u32_small by (unfold is_u32; lia)); (split; [done|lia]).
Qed.
End Thm.
