(* ===== verification/MasterDriver.v ===== *)
(** * The master on the SD-card driver (src/dfs/dfs-master.c, dfs-master-fat.c)

    As [DfsDriver] for the chunk server: the master of [DfsMaster], with its tables in FAT32
    files and the sectors moved by the driver of [Emmc], is related to the master on the
    sectors of the card. *)

From stdpp Require Import base tactics option list numbers gmap.
From Stdlib Require Import ZArith Lia.
From Stdlib Require String.
From S2P Require Import Prelude Sim Gpio Sd Emmc EmmcThm EmmcInit FatTable FatChain Dirent Fat32 Fat32Witness FsApi.
From S2P Require Import FatEmmc DfsStore DfsPkt DfsChunk DfsClient DfsDriver DfsMaster DfsMasterThm.
Import String.StringSyntax.
#[local] Open Scope string_scope.
#[local] Open Scope list_scope.
#[local] Open Scope Z_scope.

(** Two masters that differ in their storage only. *)
Record same_master {St St'} (R : St -> St' -> Prop) (m : dfs_master_t St) (m' : dfs_master_t St') : Prop := {
  sm_fs : R (m_fs m) (m_fs m');
  sm_addr : m_addr m' = m_addr m;
  sm_servers : m_servers m' = m_servers m;
  sm_num : m_num m' = m_num m;
  sm_num_act : m_num_act m' = m_num_act m;
  sm_hb_id : m_hb_id m' = m_hb_id m;
  sm_ports : m_ports m' = m_ports m;
  sm_client : m_client m' = m_client m;
  sm_fake_rand : m_fake_rand m' = m_fake_rand m;
  sm_shutdown : m_shutdown m' = m_shutdown m;
  sm_out : m_out m' = m_out m
}.

(** Rewrites the fields of the second master into those of the first. *)
Ltac same_fields H :=
  destruct H as [? Ha Hs Hn Hna Hh Hp Hc Hf Hd Ho]; rewrite ?Ha, ?Hs, ?Hn, ?Hna, ?Hh, ?Hp, ?Hc, ?Hf, ?Hd, ?Ho.

(** ** The master over two stores *)

Section Stores.
Context {St St' : Type} `{!MasterStore St} `{!MasterStore St'} (R : St -> St' -> Prop) (junk : pkt).
Local Notation sim_ms := (sim (same_master R) (same_master R)).

Class TablesAgree : Prop := {
  ta_client_init c : sim R R (fun _ => True) (ms_client_init c) (ms_client_init c);
  ta_listdir d : sim R R (fun _ => True) (ms_listdir d) (ms_listdir d);
  ta_changedir d : sim R R (fun _ => True) (ms_changedir d) (ms_changedir d);
  ta_get_chunk_num f : sim R R (fun _ => True) (ms_get_chunk_num f) (ms_get_chunk_num f);
  ta_get_chunks f i : sim R R (fun _ => True) (ms_get_chunks f i) (ms_get_chunks f i);
  ta_create f b : sim R R (fun _ => True) (ms_create f b) (ms_create f b);
  ta_delete f : sim R R (fun _ => True) (ms_delete f) (ms_delete f);
  ta_add f c i a : sim R R (fun _ => True) (ms_add_chunk_server f c i a) (ms_add_chunk_server f c i a)
}.
Context `{!TablesAgree}.

Lemma sim_on_tables {A} (Q : A -> Prop) (R1 R2 : St -> St' -> Prop) m m' :
  sim R1 R2 Q m m' -> sim (same_master R1) (same_master R2) Q (on_tables m) (on_tables m').
Proof.
  intros Hm s s' Sm. specialize (Hm _ _ (sm_fs _ _ _ Sm)). unfold on_tables, m_zoom.
  destruct (m (m_fs s)) as [[r s1]| | |]; [|done..]. destruct Hm as (s1' & -> & Sf1 & Qr).
  eexists. split; [done|]. split; [|done]. destruct Sm. by split.
Qed.

Lemma sim_m_ports {A} (m : M (list Z * Z) A) : sim_ms (fun _ => True) (on_m_ports m) (on_m_ports m).
Proof.
  intros s s' Sm. unfold on_m_ports, m_zoom. rewrite (sm_ports _ _ _ Sm).
  destruct (m (m_ports s)) as [[r s1]| | |]; [|done..]. eexists. split; [done|]. split; [|done]. destruct Sm. by split.
Qed.

(** Updates of fields other than the storage. *)
Lemma sim_update (f : dfs_master_t St -> dfs_master_t St) f' :
  (forall m m', same_master R m m' -> same_master R (f m) (f' m')) ->
  sim_ms (fun _ => True) (m_modify f) (m_modify f').
Proof. apply sim_modify. Qed.

Lemma sim_m_send addr p : sim_ms (fun _ => True) (m_send addr p) (m_send addr p).
Proof. apply sim_modify. intros m m' []. split; cbn; congruence. Qed.
#[local] Hint Resolve sim_on_tables sim_m_ports sim_m_send ta_client_init ta_listdir ta_changedir ta_get_chunk_num
  ta_get_chunks ta_create ta_delete ta_add : sim.
#[local] Hint Extern 1 (sim _ _ _ (m_modify _) _) =>
  apply sim_update; intros ? ? []; split; cbn -[insert]; congruence : sim.

Lemma sim_heartbeat_server i : sim_ms (fun _ => True) (heartbeat_server junk i) (heartbeat_server junk i).
Proof.
  apply sim_look. intros m m' Sm. unfold hb_request. same_fields Sm. sim_run.
Qed.

Lemma sim_heartbeat_tick : sim_ms (fun _ => True) heartbeat_tick heartbeat_tick.
Proof. unfold heartbeat_tick. sim_run. Qed.

Lemma sim_known_servers : sim_ms (fun _ => True) known_servers known_servers.
Proof. apply sim_look. intros m m' Sm. cbv zeta. same_fields Sm. sim_run. Qed.
#[local] Hint Resolve sim_known_servers : sim.

Lemma sim_new_chunk_server :
  sim_ms (fun _ => True) dfs_master_get_server_for_new_chunk dfs_master_get_server_for_new_chunk.
Proof.
  apply sim_look. intros m m' Sm. cbv zeta. same_fields Sm. sim_run.
Qed.
#[local] Hint Resolve sim_new_chunk_server : sim.

Lemma sim_m_cnct p : sim_ms (fun _ => True) (master_cnct junk p) (master_cnct junk p).
Proof. unfold master_cnct, master_try_assign_port. sim_run. Qed.

Lemma sim_m_hb p : sim_ms (fun _ => True) (master_hb p) (master_hb p).
Proof.
  apply sim_look. intros m m' Sm. cbv zeta. same_fields Sm. sim_run.
Qed.

Lemma sim_with_client p f f' :
  (forall addr, sim_ms (fun _ => True) (f addr) (f' addr)) ->
  sim_ms (fun _ => True) (with_client p f) (with_client p f').
Proof.
  intros Hk. unfold with_client. destruct (_ <=? _); [sim_run|].
  apply sim_look. intros m m' Sm. cbv zeta. same_fields Sm. sim_run.
Qed.

Lemma sim_list_loop fuel addr data idx p :
  sim_ms (fun _ => True) (list_loop fuel addr data idx p) (list_loop fuel addr data idx p).
Proof. revert idx p. induction fuel as [|fuel IH]; intros idx p; cbn [list_loop]; sim_run. Qed.
#[local] Hint Resolve sim_list_loop : sim.

Lemma sim_daemon ds : sim_ms (fun _ => True) (run_daemon junk ds) (run_daemon junk ds).
Proof.
  induction ds as [|d ds IH]; cbn [run_daemon]; [by apply sim_ret|]. eapply sim_bind; [|intros _ _; exact IH].
  destruct d; [apply sim_heartbeat_tick|apply sim_heartbeat_server].
Qed.

Lemma sim_select gaps n i id : sim_ms (fun _ => True) (select_loop junk gaps n i id) (select_loop junk gaps n i id).
Proof.
  revert i id. induction n as [|n IH]; intros i id; cbn [select_loop]; [by apply sim_ret|].
  eapply sim_bind; [apply sim_daemon|intros _ _]. apply sim_look. intros m m' Sm. cbv zeta. same_fields Sm. sim_run.
Qed.

Lemma sim_amid gaps : sim_ms (fun _ => True) (get_server_amid junk gaps) (get_server_amid junk gaps).
Proof.
  apply sim_look. intros m m' Sm. cbv zeta. same_fields Sm. destruct (_ =? 0); [sim_run|apply sim_select].
Qed.

Section GetServer.
Context (get : M (dfs_master_t St) Z) (get' : M (dfs_master_t St') Z).
Context (sim_get : sim_ms (fun _ => True) get get').

Lemma sim_alloc_chunk f n : sim_ms (fun _ => True) (alloc_chunk_with get f n) (alloc_chunk_with get' f n).
Proof using All.
  unfold alloc_chunk_with. eapply sim_bind; [apply sim_get|]. intros i _.
  destruct (_ =? _); [sim_run|]. apply sim_look. intros m m' Sm. cbv zeta. same_fields Sm. sim_run.
Qed.
#[local] Hint Resolve sim_alloc_chunk : sim.

Lemma sim_master_turn r : sim_ms (fun _ => True) (master_turn junk get r) (master_turn junk get' r).
Proof using All.
  destruct r as [p|]; cbn [master_turn]; [|sim_run].
  repeat first [apply sim_with_client; intros addr; sim_run | apply sim_m_cnct | apply sim_m_hb
    | progress unfold master_ls, master_cd, master_rd, master_cr, master_rm, master_wr_with | sim_basic | solve [sim_run]].
Qed.
End GetServer.

Lemma sim_master_step r : sim_ms (fun _ => True) (master_step junk r) (master_step junk r).
Proof. apply sim_master_turn, sim_new_chunk_server. Qed.

Lemma sim_run_events es : sim_ms (fun _ => True) (run_events junk es) (run_events junk es).
Proof.
  induction es as [|e es IH]; cbn [run_events]; [by apply sim_ret|].
  eapply sim_bind; [|intros _ _; exact IH].
  destruct e; [apply sim_master_step|apply sim_master_turn, sim_amid|apply sim_heartbeat_tick|apply sim_heartbeat_server].
Qed.
End Stores.

(** ** The servers with their files on a card *)

(** The start of the storage and of the master's fields, then the events. *)
Definition master_session {T} `{PiSd T} `{HeapGarbage} `{MapPad} (junk : pkt) (es : list master_event)
    : M (dfs_master_t (fsapi_on T)) unit :=
  on_tables (master_fat32_init true);;
  m_modify (fun m => dfs_init_master (m_fs m) m);;
  run_events junk es.

Section OnDriver.
Context {D : Type} `{BlockDeviceLaws D} `{EmmcLatency} `{!HeapGarbage} `{!HeapGarbageBytes} `{!MapPad} `{!MapPadOk}.
Local Notation T := (pi_sd_t (D := D)).
Variable k : card_kind.
Local Notation sim_api := (sim (api_served (D := D) (served k)) (api_served (served k))).

Lemma chunk_map_bytes m : bytes (chunk_map_encode map_pad m).
Proof.
  unfold chunk_map_encode. repeat apply Forall_app_2; auto using le_bytes_bytes; [|apply map_pad_ok].
  apply Forall_concat, Forall_fmap, Forall_true. intros x. apply le_bytes_bytes.
Qed.

#[local] Hint Resolve sim_fs_create sim_fs_delete sim_fs_read sim_fs_write sim_listdir sim_changedir : sim.

Lemma sim_client_init c : sim_api (fun _ => True) (master_fat32_client_init c) (master_fat32_client_init c).
Proof.
  unfold master_fat32_client_init. eapply sim_bind; [apply sim_fs_create|intros _ _].
  eapply sim_bind; [apply sim_mirror_get|intros m _; sim_run].
Qed.

Lemma sim_add_chunk_server f c i a :
  sim_api (fun _ => True) (master_fat32_add_chunk_server f c i a) (master_fat32_add_chunk_server f c i a).
Proof.
  unfold master_fat32_add_chunk_server. eapply sim_bind; [apply sim_fs_read|]. intros [maps nbytes] Bm. cbn in Bm.
  cbv zeta. apply sim_seq with (api_served (served k)); [sim_run|]. intros [m n].
  apply sim_seq with (api_served (served k)); [|intros; sim_run]. apply sim_fs_write.
  destruct (1 <? n); [apply Forall_app_2; [by apply buf_slice_bytes|]|]; apply chunk_map_bytes.
Qed.

Lemma fat32_tables_agree : TablesAgree (St := fsapi D) (St' := fsapi_on T) (api_served (served k)).
Proof.
  split; intros; cbn [ms_client_init ms_listdir ms_changedir ms_get_chunk_num ms_get_chunks ms_create ms_delete
    ms_add_chunk_server fat32_master_store];
    unfold master_fat32_listdir, master_fat32_changedir, master_fat32_get_chunk_num, master_fat32_get_chunks,
      master_fat32_create, master_fat32_delete;
    auto using sim_client_init, sim_add_chunk_server; sim_run.
Qed.

Lemma sim_master_init : kind_wf k ->
  sim (api_served (D := D) (powered k)) (api_served (served k)) (fun _ => True)
    (master_fat32_init true) (master_fat32_init true).
Proof. intros Kw. eapply sim_bind; [by apply sim_fs_init|]. intros _ _. apply sim_register. Qed.

Lemma sim_master_session junk es : kind_wf k ->
  sim (same_master (api_served (D := D) (powered k))) (same_master (api_served (served k))) (fun _ => True)
    (master_session junk es) (master_session junk es).
Proof.
  intros Kw. pose proof fat32_tables_agree as Ag.
  eapply sim_bind; [by apply sim_on_tables, sim_master_init|intros _ _].
  apply sim_seq with (same_master (api_served (served k))); [|intros _; by apply sim_run_events].
  apply sim_modify. intros m m' []. split; cbn -[insert]; congruence.
Qed.

(** C6: the servers on the SD-card driver.  Start a chunk server or the master on any card
    within the specification that has no sectors beyond those its commands can name, the
    registers of the controller in any state, and let any packets and time-outs come in, for the master in any interleaving with the steps of the heartbeat thread.  If the
    server handles them when its files are served from the sectors of the card, it handles them
    on the driver as well: it sends the same packets to the same addresses in the same order
    and leaves the same sectors on the card; the chunk server gives out the same ports, the
    master holds the same table of servers and the same next chunk id. *)
Theorem servers_on_driver junk :
  kind_wf k ->
  (forall rs (c c1 : dfs_chunkserver_t (fsapi D)) (c' : dfs_chunkserver_t (fsapi_on T)),
     Forall (fun r => forall p, r = Some p -> bytes p) rs -> same_server (api_served (powered k)) c c' ->
     (dfs_init_chunkserver;; dfs_chunkserver_main junk rs) c = Done (tt, c1) ->
     exists c1', (dfs_init_chunkserver;; dfs_chunkserver_main junk rs) c' = Done (tt, c1') /\
       c_out c1' = c_out c1 /\ c_ports c1' = c_ports c1 /\
       h_card (e_host (p_emmc (w_sd (a_world (c_fs c1'))))) = sd_card (w_sd (a_world (c_fs c1)))) /\
  (forall es (m m1 : dfs_master_t (fsapi D)) (m' : dfs_master_t (fsapi_on T)),
     same_master (api_served (powered k)) m m' ->
     master_session junk es m = Done (tt, m1) ->
     exists m1', master_session junk es m' = Done (tt, m1') /\
       m_out m1' = m_out m1 /\ m_servers m1' = m_servers m1 /\ m_client m1' = m_client m1 /\
       h_card (e_host (p_emmc (w_sd (a_world (m_fs m1'))))) = sd_card (w_sd (a_world (m_fs m1)))).
Proof.
  intros Kw. split; [intros rs c c1 c'; by apply chunkserver_runs_on_driver|].
  intros es m m1 m' Sm E. pose proof (sim_master_session junk es Kw m m' Sm) as Ss. rewrite E in Ss.
  destruct Ss as (m1' & E' & Sm1 & _). exists m1'. split; [exact E'|].
  pose proof (served_card k _ _ (sm_fs _ _ _ Sm1)). by destruct Sm1.
Qed.
End OnDriver.

Module MasterExample.
#[local] Existing Instance Small.garbage.
#[local] Existing Instance Small.garbage_bytes.
#[local] Existing Instance EmmcExample.some_latency.
#[local] Instance pad : MapPad := [1; 2; 3].
#[local] Instance pad_ok : MapPadOk.
Proof. split; [by apply (bool_decide_unpack _)|done]. Qed.
Import DriverExample ServerExample.

Definition named_request (op : Z) (name : list Z) (sqn : Z) : pkt :=
  set_meta_nbytes (Z.of_nat (length name)) (set_meta_name name
    (set_chunk_id_sqn sqn (set_port 0 (set_op op junk)))).
(** A server becomes active, a client connects, creates a file and asks for its first chunk. *)
Definition session_events : list master_event :=
  [EvTick; EvServer 0; EvRecv (Some (set_conn_addr 0xe6e6e6 (set_op DFS_CNCT junk)));
   EvRecv (Some (named_request DFS_CR (str "A.TXT") 0)); EvTick; EvRecv None;
   EvRecv (Some (named_request DFS_WR (str "A.TXT") 0)); EvServer 0].

Definition idle_master {St} (s : St) : dfs_master_t St :=
  mk_master dfs_master_addr s [] 1 0 0 ([0; 0; 0; 0], 0) (mk_client_dirent 0 Card.root Card.root 0) (-1) true [].
Definition run_master : res (unit * dfs_master_t (fsapi ram_card)) :=
  master_session junk session_events (idle_master (at_boot (mk_sd false formatted))).
Definition after_session : dfs_master_t (fsapi ram_card) :=
  match run_master with Done (_, m) => m | _ => idle_master (at_boot (mk_sd false formatted)) end.

(** The client is told to store chunk 1 on the first server. *)
Lemma master_returns : run_master = Done (tt, after_session) /\
  ((fun o => (status o.2, chunk_id_sqn o.2, meta_addr o.2)) <$> m_out after_session !! 3%nat) =
    Some (STATUS_SUCCESS, 1, dfs_chunk_addr1).
Proof. by vm_compute. Qed.

Lemma servers_on_driver_witness :
  kind_wf EmmcExample.kind0 /\ run_server = Done (tt, after_traffic) /\ run_master = Done (tt, after_session) /\
  (exists c1', (dfs_init_chunkserver;; dfs_chunkserver_main junk traffic)
                 (idle_server (at_boot (mkPiSd false controller))) = Done (tt, c1') /\
     c_out c1' = c_out after_traffic) /\
  (exists m1', master_session junk session_events (idle_master (at_boot (mkPiSd false controller))) = Done (tt, m1') /\
     m_out m1' = m_out after_session).
Proof.
  destruct (servers_on_driver EmmcExample.kind0 junk kind0_wf) as [Sc Sm].
  split; [exact kind0_wf|]. split; [exact (proj1 server_returns)|]. split; [exact (proj1 master_returns)|]. split.
  - destruct (Sc traffic (idle_server (at_boot (mk_sd false formatted))) after_traffic
                (idle_server (at_boot (mkPiSd false controller)))) as (c1' & E & O & _).
    + exact traffic_bytes.
    + split; [exact boots|reflexivity|reflexivity|reflexivity|reflexivity].
    + exact (proj1 server_returns).
    + exists c1'. split; [exact E|exact O].
  - destruct (Sm session_events (idle_master (at_boot (mk_sd false formatted))) after_session
                (idle_master (at_boot (mkPiSd false controller)))) as (m1' & E & O & _).
    + split; [exact boots|reflexivity..].
    + exact (proj1 master_returns).
    + exists m1'. split; [exact E|exact O].
Defined.
End MasterExample.
