(* ===== verification/DfsSpec.v ===== *)
(** * What the master promises its clients

    An abstract file service: files are lists of chunk maps, and a counter gives the next
    chunk id.  [service] says which replies and new states a request allows.  The packet
    handlers of [DfsMaster] are proved to implement it over any storage that keeps the
    promises of [MasterStoreLaws]. *)

From stdpp Require Import base tactics option list numbers sets gmap.
From Stdlib Require Import ZArith Lia.
From S2P Require Import Prelude FatTable FatChain Dirent FileDir DfsStore MasterFat DfsPkt.
From S2P Require Import DfsChunk DfsMaster DfsMasterThm.

(** ** The service *)

Inductive request : Type :=
  | RCreate (name : list Z)
  | RDelete (name : list Z)
  | RWrite (name : list Z) (sqn : Z)
  | RRead (name : list Z) (sqn : Z).

Inductive reply : Type :=
  | RepOk
  | RepFail
  | RepEmpty                        (* the file has no chunks *)
  | RepChunk (cid addr : Z).

Abbreviation files := (gmap (list Z) (list chunk_map_t)).

(** The address of a chunk's first replica. *)
Definition first_addr (e : chunk_map_t) : Z := default 0 (chunk_server_addrs e !! 0%nat).

(** [service up addrs (fs, next) r rep (fs', next')], where [addrs] are the servers' addresses
    and [up] says whether a server is active.
    A write to a chunk that exists is answered with the number of chunks of the file in
    place of the chunk's id: the code does so. *)
Inductive service (up : bool) (addrs : list Z) : files * Z -> request -> reply -> files * Z -> Prop :=
  | svc_create fs k name : fs !! name = None ->
      service up addrs (fs, k) (RCreate name) RepOk (<[name := []]> fs, k)
  | svc_create_again fs k name t : fs !! name = Some t ->
      service up addrs (fs, k) (RCreate name) RepOk (fs, k)
  | svc_delete fs k name t : fs !! name = Some t ->
      service up addrs (fs, k) (RDelete name) RepOk (delete name fs, k)
  | svc_write_new fs k name t addr : up = true -> fs !! name = Some t -> addr ∈ addrs ->
      service up addrs (fs, k) (RWrite name (Z.of_nat (length t))) (RepChunk k addr)
        (<[name := t ++ [first_map addr k]]> fs, k + 1)
  | svc_write_no_server fs k name t : up = false -> fs !! name = Some t ->
      service up addrs (fs, k) (RWrite name (Z.of_nat (length t))) RepFail (fs, k)
  | svc_write_old fs k name t i e : fs !! name = Some t -> t !! i = Some e ->
      service up addrs (fs, k) (RWrite name (Z.of_nat i))
        (RepChunk (Z.of_nat (length t)) (first_addr e)) (fs, k)
  | svc_write_gap fs k name t sqn : fs !! name = Some t -> Z.of_nat (length t) < sqn ->
      service up addrs (fs, k) (RWrite name sqn) RepFail (fs, k)
  | svc_read fs k name t i e : fs !! name = Some t -> t !! i = Some e ->
      service up addrs (fs, k) (RRead name (Z.of_nat i)) (RepChunk (chunk_id e) (first_addr e)) (fs, k)
  | svc_read_empty fs k name : fs !! name = Some [] ->
      service up addrs (fs, k) (RRead name 0) RepEmpty (fs, k)
  | svc_read_past fs k name t sqn : fs !! name = Some t -> Z.of_nat (length t) <= sqn -> sqn <> 0 ->
      service up addrs (fs, k) (RRead name sqn) RepFail (fs, k).

(** The files a request names must exist, except for a creation. *)
Definition request_ok (fs : files) (r : request) : Prop :=
  match r with
  | RCreate name => file_name name
  | RDelete name | RWrite name _ | RRead name _ => is_Some (fs !! name)
  end.

(** ** Packets *)

(** [p] carries the request [r]. *)
Definition carries (p : pkt) (r : request) : Prop :=
  match r with
  | RCreate name => op_code p = DFS_CR /\ name_of_request p = Some name
  | RDelete name => op_code p = DFS_RM /\ name_of_request p = Some name
  | RWrite name sqn => op_code p = DFS_WR /\ c_string (meta_name p) = Some name /\
      chunk_id_sqn p = sqn /\ 0 <= sqn
  | RRead name sqn => op_code p = DFS_RD /\ c_string (meta_name p) = Some name /\
      chunk_id_sqn p = sqn /\ 0 <= sqn
  end.

Definition request_op (r : request) : Z :=
  match r with
  | RCreate _ => DFS_CR | RDelete _ => DFS_RM | RWrite _ _ => DFS_WR | RRead _ _ => DFS_RD
  end.

(** [q] answers [r] with [rep]. *)
Definition answers (q : pkt) (r : request) (rep : reply) : Prop :=
  op_code q = request_op r /\
  match rep with
  | RepOk => status q = STATUS_SUCCESS
  | RepFail => status q = STATUS_FAILED
  | RepEmpty => status q = STATUS_SUCCESS /\ meta_nbytes q = 0
  | RepChunk cid addr => status q = STATUS_SUCCESS /\ chunk_id_sqn q = cid /\ meta_addr q = addr /\
      (forall name sqn, r = RRead name sqn -> meta_nbytes q = 1)
  end.

(** ** The invariant of the service *)

(** Chunk ids are below the counter, and no id is used twice. *)
Record ids_unique (fs : files) (k : Z) : Prop := {
  iu_below name t i e : fs !! name = Some t -> t !! i = Some e -> 1 <= chunk_id e < k;
  iu_inj name name' t t' i i' e e' : fs !! name = Some t -> fs !! name' = Some t' ->
    t !! i = Some e -> t' !! i' = Some e' -> chunk_id e = chunk_id e' -> name = name' /\ i = i'
}.

Lemma ids_unique_write fs k name t addr : ids_unique fs k -> 1 <= k -> fs !! name = Some t ->
  ids_unique (<[name := t ++ [first_map addr k]]> fs) (k + 1).
Proof.
  intros [Bl Inj] Hk Ht.
  assert (Cases : forall n l i e, <[name := t ++ [first_map addr k]]> fs !! n = Some l ->
    l !! i = Some e ->
    (exists l', fs !! n = Some l' /\ l' !! i = Some e) \/
    (n = name /\ i = length t /\ chunk_id e = k)).
  { intros n l i e Hn Hi. destruct (decide (n = name)) as [->|Hne].
    - rewrite lookup_insert_eq in Hn. injection Hn as <-.
      apply lookup_app_Some in Hi as [Hi|[Hl Hi]]; [left; eauto|right].
      destruct (i - length t)%nat eqn:E; [|done]. injection Hi as <-. split_and!; [done|lia|done].
    - rewrite lookup_insert_ne in Hn by done. left. eauto. }
  constructor.
  - intros n l i e Hn Hi. destruct (Cases _ _ _ _ Hn Hi) as [(l' & H1 & H2)|(_ & _ & ->)]; [|lia].
    pose proof (Bl _ _ _ _ H1 H2). lia.
  - intros n n' l l' i i' e e' Hn Hn' Hi Hi' E.
    destruct (Cases _ _ _ _ Hn Hi) as [(l1 & H1 & H2)|(-> & -> & E1)];
      destruct (Cases _ _ _ _ Hn' Hi') as [(l2 & H3 & H4)|(-> & -> & E2)].
    + by eapply Inj.
    + pose proof (Bl _ _ _ _ H1 H2). lia.
    + pose proof (Bl _ _ _ _ H3 H4). lia.
    + done.
Qed.

Lemma ids_unique_step up addrs s r rep s' : service up addrs s r rep s' ->
  ids_unique s.1 s.2 -> 1 <= s.2 -> ids_unique s'.1 s'.2 /\ s.2 <= s'.2.
Proof.
  intros St Iu Hk. destruct St; simpl in *; try (split; [done|lia]).
  - split; [|lia]. destruct Iu as [Bl Inj]. constructor.
    + intros n t i e Hn Hi. destruct (decide (n = name)) as [->|?].
      * rewrite lookup_insert_eq in Hn. by injection Hn as <-.
      * rewrite lookup_insert_ne in Hn by done. by eapply Bl.
    + intros n n' t t' i i' e e' Hn Hn' Hi Hi'.
      destruct (decide (n = name)) as [->|?];
        [rewrite lookup_insert_eq in Hn; by injection Hn as <-|].
      destruct (decide (n' = name)) as [->|?];
        [rewrite lookup_insert_eq in Hn'; by injection Hn' as <-|].
      rewrite lookup_insert_ne in Hn by done. rewrite lookup_insert_ne in Hn' by done.
      by eapply Inj.
  - split; [|lia]. destruct Iu as [Bl Inj]. constructor.
    + intros n u i e [_ Hn]%lookup_delete_Some. by apply (Bl n u).
    + intros n n' u u' i i' e e' [_ Hn]%lookup_delete_Some [_ Hn']%lookup_delete_Some.
      by apply (Inj n n' u u').
  - split; [by apply ids_unique_write|lia].
Qed.

(** ** Sessions *)

(** Requests answered in order. *)
Inductive session (up : bool) (addrs : list Z) : files * Z -> list request -> list reply -> files * Z -> Prop :=
  | ses_nil s : session up addrs s [] [] s
  | ses_cons s r rep s1 rs reps s' : service up addrs s r rep s1 -> session up addrs s1 rs reps s' ->
      session up addrs s (r :: rs) (rep :: reps) s'.

Lemma ids_unique_session up addrs s rs reps s' : session up addrs s rs reps s' ->
  ids_unique s.1 s.2 -> 1 <= s.2 -> ids_unique s'.1 s'.2 /\ s.2 <= s'.2.
Proof.
  intros Ss. induction Ss as [s|s r rep s1 rs reps s' St Ss IH]; [by split; [|lia]|].
  intros Iu Hk. destruct (ids_unique_step _ _ _ _ _ _ St Iu Hk) as [Iu1 Hk1].
  destruct (IH Iu1) as [? ?]; [lia|]. split; [done|lia].
Qed.

(** The requests name files that exist at that point. *)
Fixpoint names_ok (dom : gset (list Z)) (rs : list request) : Prop :=
  match rs with
  | [] => True
  | RCreate name :: rs => file_name name /\ names_ok ({[name]} ∪ dom) rs
  | RDelete name :: rs => name ∈ dom /\ names_ok (dom ∖ {[name]}) rs
  | (RWrite name _ | RRead name _) :: rs => name ∈ dom /\ names_ok dom rs
  end.

Lemma service_names up addrs fs k r rep fs' k' rs : service up addrs (fs, k) r rep (fs', k') ->
  names_ok (dom fs) (r :: rs) -> names_ok (dom fs') rs.
Proof.
  intros St'. inversion St'; subst; simpl; intros [Hin Ho]; try done.
  - by rewrite dom_insert_L.
  - replace (dom fs') with ({[name]} ∪ dom fs'); [done|].
    assert (name ∈ dom fs') by (by apply elem_of_dom). set_solver.
  - by rewrite dom_delete_L.
  - rewrite dom_insert_L. by replace ({[name]} ∪ dom fs) with (dom fs) by set_solver.
Qed.

Lemma names_request_ok fs r rs : names_ok (dom fs) (r :: rs) -> request_ok fs r.
Proof. destruct r; simpl; intros [? _]; [done|by apply elem_of_dom..]. Qed.

(** ** The handlers implement the service *)

Section Refine.
Context {St : Type} `{MasterStoreLaws St}.
Implicit Types m : dfs_master_t St.
Context (junk : pkt) (Hjunk : pkt_ok junk).

(** A chunk map that names a server. *)
Definition entry_ok (e : chunk_map_t) : Prop :=
  is_u32 (chunk_id e) /\ exists a l, chunk_server_addrs e = a :: l /\ 0 <= a < 2 ^ 32 - 1.

(** The master holds the files [fs] and will give out [k] next; [n] requests find room. *)
Record serves m (fs : files) (k : Z) (n : nat) : Prop := {
  sv_ok : master_ok m;
  sv_tables : tables (m_fs m) fs n;
  sv_next : cd_chunk_id (m_client m) = k;
  sv_range : 0 <= k /\ k + Z.of_nat n < 2 ^ 32;
  sv_room : Z.of_nat n < 10 ^ 8;
  sv_len name t : fs !! name = Some t -> Z.of_nat (length t + n) < 10 ^ 8;
  sv_entries name t : fs !! name = Some t -> Forall entry_ok t;
  sv_addrs : Forall (fun c => 0 <= cs_addr c < 2 ^ 32 - 1) (m_servers m);
  sv_some : 1 <= m_num m
}.

(** The addresses of the registered servers. *)
Definition addresses m : list Z := cs_addr <$> take (Z.to_nat (m_num m)) (m_servers m).
Definition active m : bool := negb (m_num_act m =? 0).

Lemma with_client_run p f caddr m : 0 <= port_id p < DFS_MAX_CONN ->
  (m_ports m).1 !! Z.to_nat (port_id p) = Some caddr -> with_client p f m = f caddr m.
Proof using.
  intros Hp Ha. unfold with_client. rewrite (proj2 (Z.leb_gt _ _)) by lia.
  by rewrite gets_run, (opt_run _ _ _ _ Ha).
Qed.

Lemma on_tables_run {A} (c : M St A) m r st : c (m_fs m) = Done (r, st) ->
  on_tables c m = Done (r, set_m_fs st m).
Proof using. intros E. unfold on_tables. by rewrite (zoom_done _ _ _ _ _ _ E). Qed.

Lemma on_tables_same {A B} (c : M St A) m r (f : A -> M _ B) : c (m_fs m) = Done (r, m_fs m) ->
  (on_tables c ≫= f) m = f r m.
Proof using. intros E. mrun (on_tables_run _ _ _ _ E). by destruct m. Qed.

(** Storage changes and sends leave the rest of the master alone. *)
Lemma serves_set_fs m fs fs' k k' n n' st : serves m fs k n -> (n' <= n)%nat ->
  tables st fs' n' -> 0 <= k' /\ k' + Z.of_nat n' < 2 ^ 32 ->
  (forall name t, fs' !! name = Some t -> Z.of_nat (length t + n') < 10 ^ 8 /\ Forall entry_ok t) ->
  forall cl, cd_chunk_id cl = k' ->
  serves (set_client cl (set_m_fs st m)) fs' k' n'.
Proof using.
  intros [[] Tb Nx Rg Rm Ln En Ad Sm] Hn Tb' Rg' F cl Ecl.
  constructor; try done; [lia|intros name t Ht; by apply (F name t)..].
Qed.

Lemma serves_out m fs k n l : serves m fs k n -> serves (add_out l m) fs k n.
Proof using. intros [[] ? ? ? ? ? ? ? ?]. by constructor. Qed.

Lemma serves_fake_rand m fs k n r : serves m fs k n -> serves (set_fake_rand r m) fs k n.
Proof using. intros [[] ? ? ? ? ? ? ? ?]. by constructor. Qed.

(** The chosen server exists. *)
Lemma get_server_range m : master_ok m -> 1 <= m_num m -> m_num_act m <> 0 ->
  exists i r c, dfs_master_get_server_for_new_chunk m = Done (Z.of_nat i, set_fake_rand r m) /\
    m_servers m !! i = Some c /\ c ∈ take (Z.to_nat (m_num m)) (m_servers m).
Proof using.
  intros Ok Hn Ha. pose proof (mk_num _ Ok). pose proof (mk_len _ Ok) as L.
  rewrite get_server_run by (rewrite ?L; done || lia).
  set (ids := ok_ids _ 0). set (p := pick_ids ids (m_fake_rand m) 0).
  assert (Hr : 0 <= p.2 < 64 /\ p.2 < m_num m).
  { destruct (pick_ids_in ids (m_fake_rand m) 0) as [E|E]; fold p in E; [lia|].
    apply ok_ids_ge in E. rewrite length_take, L in E. unfold DFS_MAX_CHUNK_SERVER in E. lia. }
  destruct (lookup_lt_is_Some_2 (m_servers m) (Z.to_nat p.2)) as [c Hc].
  { rewrite L. unfold DFS_MAX_CHUNK_SERVER. lia. }
  exists (Z.to_nat p.2), p.1, c. rewrite Z2Nat.id by lia. split_and!; [done|done|].
  apply (list_elem_of_lookup_2 _ (Z.to_nat p.2)). by rewrite lookup_take_lt by lia.
Qed.

Lemma alloc_run m fs k n name t : serves m fs k (S n) -> fs !! name = Some t ->
  active m = false /\ alloc_chunk name (Z.of_nat (length t)) m = Done (None, m) \/
  exists c m', active m = true /\ c ∈ take (Z.to_nat (m_num m)) (m_servers m) /\
    alloc_chunk name (Z.of_nat (length t)) m = Done (Some (k, cs_addr c), m') /\
    serves m' (<[name := t ++ [first_map (cs_addr c) k]]> fs) (k + 1) n /\ m_out m' = m_out m /\
    net m' = net m /\ m_shutdown m' = m_shutdown m.
Proof using.
  intros Sv Ht. pose proof Sv as [Ok Tb Nx Rg Rm Ln En Ad Sm]. unfold alloc_chunk, alloc_chunk_with.
  destruct (decide (m_num_act m = 0)) as [E|Hact].
  { left. unfold active, dfs_master_get_server_for_new_chunk. by rewrite bind_assoc, gets_run, E. }
  right. destruct (get_server_range m Ok Sm Hact) as (i & r & c & R & Hc & Hin). mrun R.
  rewrite (proj2 (Z.eqb_neq _ _)) by lia. rewrite gets_run. cbv zeta.
  cbn [set_fake_rand m_servers m_client]. rewrite Nat2Z.id, (opt_run _ _ _ _ Hc), Nx.
  pose proof (Forall_lookup_1 _ _ _ _ Ad Hc) as Hca. simpl in Hca.
  destruct (tbl_add (m_fs m) fs n name t (cs_addr c) k Tb Ht) as (st & Ra & Tb').
  { pose proof (Ln _ _ Ht). lia. }
  { unfold is_u32. lia. }
  { unfold is_u32. lia. }
  mrun (on_tables_run _ (set_fake_rand r m) _ _ Ra). rewrite modify_run.
  eexists c, _. split_and!; [unfold active; by rewrite (proj2 (Z.eqb_neq _ _) Hact)|done|done| |done..].
  cbn [m_client set_m_fs set_fake_rand]. cbv zeta.
  eapply (serves_set_fs (set_fake_rand r m)); [by apply serves_fake_rand|lia|done|lia| |].
  - intros name' t' Ht'. destruct (decide (name' = name)) as [->|Hne].
    + rewrite lookup_insert_eq in Ht'. injection Ht' as <-. pose proof (Ln _ _ Ht).
      rewrite length_app. simpl length. split; [lia|]. apply Forall_app. split; [by eapply En|].
      repeat constructor; simpl; [unfold is_u32; lia..|]. eexists _, _. split; [done|lia].
    + rewrite lookup_insert_ne in Ht' by done. pose proof (Ln _ _ Ht'). split; [lia|by eapply En].
  - simpl. rewrite Nx. apply u32_small. unfold is_u32. lia.
Qed.

Lemma serves_less m fs k n : serves m fs k (S n) -> serves m fs k n.
Proof using.
  intros [Ok Tb Nx Rg Rm Ln En Ad Sm]. constructor; try done; [by apply tbl_less|lia|lia|].
  intros name t Ht. pose proof (Ln _ _ Ht). lia.
Qed.

(** The outcome of a request: what the master sends and how its files change. *)
Definition handled m fs k n (p : pkt) (r : request) (caddr : Z) : Prop :=
  exists m' fs' k' rep q, master_step junk (Some p) m = Done (tt, m') /\
    service (active m) (addresses m) (fs, k) r rep (fs', k') /\ serves m' fs' k' n /\
    m_out m' = m_out m ++ [(caddr, q)] /\ answers q r rep /\
    net m' = net m /\ m_shutdown m' = m_shutdown m.

Lemma handled_create m fs k n p name caddr : serves m fs k (S n) ->
  carries p (RCreate name) -> file_name name -> 0 <= port_id p < DFS_MAX_CONN ->
  (m_ports m).1 !! Z.to_nat (port_id p) = Some caddr ->
  handled m fs k n p (RCreate name) caddr.
Proof using Hjunk.
  intros Sv [Eop En] Hf Hp Ha. pose proof Sv as [Ok Tb Nx Rg Rm Ln Ent Ad Sm].
  assert (E : master_step junk (Some p) m = master_cr junk p m) by (unfold master_step, master_turn; by rewrite Eop).
  unfold handled. rewrite E. unfold master_cr. rewrite (with_client_run _ _ _ _ Hp Ha).
  rewrite (opt_run _ _ _ _ En). rewrite (proj2 Hf). change (negb true) with false.
  destruct (fs !! name) as [t|] eqn:Et.
  - rewrite (on_tables_same _ m 1) by (by eapply tbl_create_again). unfold m_send.
    eexists _, _, _, _, _. split_and!; [done|by eapply svc_create_again|
      by apply serves_out, serves_less|done| |done..]. split; simpl; pkt_simpl; done.
  - destruct (tbl_create _ _ _ _ Tb Hf Et) as (st & R & Tb').
    mrun (on_tables_run _ m _ _ R). unfold m_send.
    eexists _, _, _, _, _. split_and!; [done|by apply svc_create| |done|split; simpl; pkt_simpl; done|done..].
    apply serves_out. apply (serves_set_fs m fs _ k k (S n) n st Sv); [lia|done|lia| |done].
    intros name' t' Ht'. destruct (decide (name' = name)) as [->|?].
    + rewrite lookup_insert_eq in Ht'. injection Ht' as <-. split; [simpl; lia|constructor].
    + rewrite lookup_insert_ne in Ht' by done. pose proof (Ln _ _ Ht'). split; [lia|by eapply Ent].
Qed.

Lemma handled_delete m fs k n p name caddr : serves m fs k (S n) ->
  carries p (RDelete name) -> is_Some (fs !! name) -> 0 <= port_id p < DFS_MAX_CONN ->
  (m_ports m).1 !! Z.to_nat (port_id p) = Some caddr ->
  handled m fs k n p (RDelete name) caddr.
Proof using Hjunk.
  intros Sv [Eop En] [t Et] Hp Ha. apply serves_less in Sv.
  pose proof Sv as [Ok Tb Nx Rg Rm Ln Ent Ad Sm].
  assert (E : master_step junk (Some p) m = master_rm junk p m) by (unfold master_step, master_turn; by rewrite Eop).
  unfold handled. rewrite E. unfold master_rm. rewrite (with_client_run _ _ _ _ Hp Ha).
  rewrite (opt_run _ _ _ _ En). destruct (tbl_delete _ _ _ _ _ Tb Et) as (st & R & Tb').
  mrun (on_tables_run _ m _ _ R). unfold m_send.
  eexists _, _, _, _, _. split_and!; [done|by eapply svc_delete| |done|split; simpl; pkt_simpl; done|done..].
  apply serves_out. apply (serves_set_fs m fs _ k k n n st Sv); [lia|done|lia| |done].
  intros name' t' [_ Ht']%lookup_delete_Some. split; [by eapply Ln|by eapply Ent].
Qed.

(** Once the reply is known, the packet it is put in answers the request. *)
Lemma answers_wr p name sqn rep : rep <> RepOk -> rep <> RepEmpty ->
  (forall cid addr, rep = RepChunk cid addr -> is_u32 cid /\ is_u32 addr) ->
  answers (wr_reply junk p match rep with RepChunk cid addr => Some (cid, addr) | _ => None end)
    (RWrite name sqn) rep.
Proof using Hjunk.
  intros H1 H2 Hr. destruct rep as [| | |cid addr]; try done.
  - split; simpl; pkt_simpl; done.
  - destruct (Hr cid addr eq_refl) as [Hc Ha].
    split; simpl; [pkt_simpl; done|]. split_and!; [| | |done];
      pkt_simpl; [done|by apply Z.mod_small..].
Qed.

Lemma entry_addr e : entry_ok e -> chunk_server_addrs e !! 0%nat = Some (first_addr e) /\
  is_u32 (first_addr e) /\ is_u32 (chunk_id e) /\ (i32 (first_addr e) =? -1) = false.
Proof using.
  intros [Hc (a & l & E & Ha)]. unfold first_addr. rewrite E. simpl.
  split_and!; [done|unfold is_u32; lia|done|].
  apply Z.eqb_neq. unfold i32. rewrite u32_small by (unfold is_u32; lia).
  cbv zeta. destruct (Z.ltb_spec a (2 ^ 31)); lia.
Qed.

Lemma handled_write m fs k n p name sqn caddr : serves m fs k (S n) ->
  carries p (RWrite name sqn) -> is_Some (fs !! name) -> 0 <= port_id p < DFS_MAX_CONN ->
  (m_ports m).1 !! Z.to_nat (port_id p) = Some caddr ->
  handled m fs k n p (RWrite name sqn) caddr.
Proof using Hjunk.
  intros Sv (Eop & En & Es & Hs) [t Et] Hp Ha. pose proof Sv as [Ok Tb Nx Rg Rm Ln Ent Ad Sm].
  assert (E : master_step junk (Some p) m = master_wr junk p m) by (unfold master_step, master_turn; by rewrite Eop).
  pose proof (Ln _ _ Et) as Lt.
  unfold handled. rewrite E. unfold master_wr, master_wr_with. rewrite (with_client_run _ _ _ _ Hp Ha). cbv zeta.
  rewrite (opt_run _ _ _ _ En), (on_tables_same _ m (Z.of_nat (length t))), Es by by eapply tbl_num.
  destruct (Z.ltb_spec sqn (Z.of_nat (length t))) as [Hlt|Hge].
  - destruct (lookup_lt_is_Some_2 t (Z.to_nat sqn)) as [e He]; [lia|].
    pose proof (Forall_lookup_1 _ _ _ _ (Ent _ _ Et) He) as Oe.
    destruct (entry_addr e Oe) as (Ea & Hau & _).
    assert (Rg' : ms_get_chunks name sqn (m_fs m) = Done (e, m_fs m)).
    { rewrite <-(Z2Nat.id sqn) by done. by eapply tbl_get. }
    rewrite bind_assoc, (on_tables_same _ m e) by done.
    rewrite bind_assoc, (opt_run _ _ _ _ Ea), ret_run. unfold m_send.
    eexists _, _, _, (RepChunk (Z.of_nat (length t)) (first_addr e)), _.
    split_and!; [done| |by apply serves_out, serves_less|done| |done..].
    + rewrite <-(Z2Nat.id sqn) by done. by eapply svc_write_old.
    + apply (answers_wr p name sqn (RepChunk _ _)); [done|done|]. intros ? ? [= <- <-].
      split; [unfold is_u32; lia|done].
  - destruct (Z.eqb_spec sqn (Z.of_nat (length t))) as [Eq|Hne].
    + rewrite Eq. destruct (alloc_run m fs k n name t Sv Et) as [[Hup R]|(c & m' & Hup & Hc & R & Sv' & Eo & Hnet)].
      * mrun R. unfold m_send. eexists _, _, _, RepFail, _.
        split_and!; [done|by eapply svc_write_no_server|by apply serves_out, serves_less|done| |done..].
        by apply (answers_wr p name _ RepFail).
      * mrun R. unfold m_send. eexists _, _, _, (RepChunk k (cs_addr c)), _.
        split_and!; [done|eapply svc_write_new; [done|done|]|by apply serves_out|by simpl; rewrite Eo| |apply Hnet..].
        -- apply list_elem_of_fmap. eauto.
        -- apply (answers_wr p name _ (RepChunk _ _)); [done|done|]. intros ? ? [= <- <-].
           pose proof (proj1 (Forall_forall _ _) Ad c (subseteq_take _ _ _ Hc)). simpl in *.
           split; unfold is_u32; lia.
    + rewrite ret_run. unfold m_send. eexists _, _, _, RepFail, _.
      split_and!; [done|eapply svc_write_gap; [done|lia]|by apply serves_out, serves_less|done| |done..].
      by apply (answers_wr p name _ RepFail).
Qed.

Lemma handled_read m fs k n p name sqn caddr : serves m fs k (S n) ->
  carries p (RRead name sqn) -> is_Some (fs !! name) -> 0 <= port_id p < DFS_MAX_CONN ->
  (m_ports m).1 !! Z.to_nat (port_id p) = Some caddr ->
  handled m fs k n p (RRead name sqn) caddr.
Proof using Hjunk.
  intros Sv (Eop & En & Es & Hs) [t Et] Hp Ha. pose proof Sv as [Ok Tb Nx Rg Rm Ln Ent Ad Sm].
  assert (E : master_step junk (Some p) m = master_rd junk p m) by (unfold master_step, master_turn; by rewrite Eop).
  unfold handled. rewrite E. unfold master_rd. rewrite (with_client_run _ _ _ _ Hp Ha). cbv zeta.
  rewrite (opt_run _ _ _ _ En), (on_tables_same _ m (Z.of_nat (length t))), Es by by eapply tbl_num.
  assert (Sv' : serves m fs k n) by by apply serves_less.
  destruct (Z.leb_spec (Z.of_nat (length t)) sqn) as [Hle|Hlt].
  - destruct (Z.eqb_spec sqn 0) as [->|Hne]; rewrite ret_run; unfold m_send.
    + assert (t = []) as -> by (destruct t; [done|simpl in Hle; lia]).
      eexists _, _, _, RepEmpty, _.
      split_and!; [done|by apply svc_read_empty|by apply serves_out|done| |done..].
      split; simpl; [pkt_simpl; done|]. split; pkt_simpl; done.
    + eexists _, _, _, RepFail, _.
      split_and!; [done|by eapply svc_read_past|by apply serves_out|done| |done..].
      split; simpl; pkt_simpl; done.
  - destruct (lookup_lt_is_Some_2 t (Z.to_nat sqn)) as [e He]; [lia|].
    destruct (entry_addr e (Forall_lookup_1 _ _ _ _ (Ent _ _ Et) He)) as (Ea & Hau & Hcu & Em1).
    assert (Rg' : ms_get_chunks name sqn (m_fs m) = Done (e, m_fs m)).
    { rewrite <-(Z2Nat.id sqn) by done. by eapply tbl_get. }
    rewrite bind_assoc, (on_tables_same _ m e) by done.
    rewrite bind_assoc, (opt_run _ _ _ _ Ea), Em1, ret_run. unfold m_send.
    eexists _, _, _, (RepChunk (chunk_id e) (first_addr e)), _.
    split_and!; [done| |by apply serves_out|done| |done..].
    + rewrite <-(Z2Nat.id sqn) by done. by eapply svc_read.
    + split; simpl; [pkt_simpl; done|]. split_and!; [| | |intros _ _ _];
        pkt_simpl; [done|by apply Z.mod_small|by apply Z.mod_small|done].
Qed.

Lemma handled_request m fs k n p r caddr : serves m fs k (S n) ->
  carries p r -> request_ok fs r -> 0 <= port_id p < DFS_MAX_CONN ->
  (m_ports m).1 !! Z.to_nat (port_id p) = Some caddr -> handled m fs k n p r caddr.
Proof using Hjunk.
  intros Sv C Ok Hp Ha. destruct r; simpl in Ok.
  - by apply handled_create.
  - by apply handled_delete.
  - by apply handled_write.
  - by apply handled_read.
Qed.

(** The main loop on the packets of one client. *)
Lemma main_loop_session rs ps m fs k n port caddr :
  serves m fs k (length ps + n) -> m_shutdown m = false ->
  Forall2 (fun p r => carries p r /\ port_id p = port) ps rs ->
  0 <= port < DFS_MAX_CONN -> (m_ports m).1 !! Z.to_nat port = Some caddr ->
  names_ok (dom fs) rs ->
  exists m' fs' k' reps qs,
    dfs_master_main_start junk (Some <$> ps) m = Done (tt, m') /\
    session (active m) (addresses m) (fs, k) rs reps (fs', k') /\ serves m' fs' k' n /\
    m_out m' = m_out m ++ ((fun q => (caddr, q)) <$> qs) /\
    Forall2 (fun q x => answers q x.1 x.2) qs (zip rs reps) /\ net m' = net m.
Proof using Hjunk.
  intros Sv Sh F Hp Ha No. revert m fs k Sv Sh Ha No.
  induction F as [|p r ps rs [C Ep] F IH]; intros m fs k Sv Sh Ha No.
  { exists m, fs, k, [], []. split_and!; [done|constructor|done|by rewrite app_nil_r|constructor|done]. }
  destruct (handled_request m fs k (length ps + n) p r caddr Sv C) as
    (m1 & fs1 & k1 & rep & q & R & Sp & Sv1 & Eo & An & En & Esh).
  { by eapply names_request_ok. }
  { by rewrite Ep. }
  { by rewrite Ep. }
  pose proof En as En'. unfold net in En'. injection En' as _ Ese Enu Ena _ Epo.
  destruct (IH m1 fs1 k1 Sv1) as (m' & fs' & k' & reps & qs & R' & Ss & Sv' & Eo' & F' & En').
  { congruence. }
  { by rewrite Epo. }
  { by eapply service_names. }
  exists m', fs', k', (rep :: reps), (q :: qs). split_and!.
  - cbn [fmap list_fmap dfs_master_main_start]. rewrite gets_run, Sh. by mrun R.
  - unfold addresses, active in *. rewrite Ese, Enu, Ena in Ss. by econstructor.
  - done.
  - rewrite Eo', Eo, <-app_assoc. done.
  - simpl. by constructor.
  - congruence.
Qed.

(** C2: the master implements the file service.  For every sequence of create, delete, read
    and write requests about existing files, from a client with a port: the main loop
    handles the packets, its replies and final files are ones the service allows, and each
    reply is a packet that goes to that client and carries the operation, status, chunk id
    and server address of the service's reply. *)
Theorem master_refines_service rs ps m fs k n port caddr :
  serves m fs k (length ps + n) -> m_shutdown m = false ->
  Forall2 (fun p r => carries p r /\ port_id p = port) ps rs ->
  0 <= port < DFS_MAX_CONN -> (m_ports m).1 !! Z.to_nat port = Some caddr ->
  names_ok (dom fs) rs ->
  exists m' fs' k' reps qs,
    dfs_master_main_start junk (Some <$> ps) m = Done (tt, m') /\
    session (active m) (addresses m) (fs, k) rs reps (fs', k') /\ serves m' fs' k' n /\
    m_out m' = m_out m ++ ((fun q => (caddr, q)) <$> qs) /\
    Forall2 (fun q x => answers q x.1 x.2) qs (zip rs reps).
Proof using Hjunk.
  intros Sv Sh F Hp Ha No.
  destruct (main_loop_session rs ps m fs k n port caddr Sv Sh F Hp Ha No) as
    (m' & fs' & k' & reps & qs & R & Ss & Sv' & Eo & An & _).
  by exists m', fs', k', reps, qs.
Qed.

(** A packet that asks for chunk [i] of [name] is answered with the chunk's id. *)
Definition told_id m (p : pkt) (caddr cid : Z) : Prop :=
  exists m1 q, master_step junk (Some p) m = Done (tt, m1) /\ m_out m1 = m_out m ++ [(caddr, q)] /\
    status q = STATUS_SUCCESS /\ meta_nbytes q = 1 /\ chunk_id_sqn q = cid.

Lemma told_read m fs k n name t i e p caddr : serves m fs k (S n) -> fs !! name = Some t ->
  t !! i = Some e -> carries p (RRead name (Z.of_nat i)) -> 0 <= port_id p < DFS_MAX_CONN ->
  (m_ports m).1 !! Z.to_nat (port_id p) = Some caddr -> told_id m p caddr (chunk_id e).
Proof using Hjunk.
  intros Sv Et He C Hp Ha. pose proof (lookup_lt_Some _ _ _ He) as Li.
  destruct (handled_read m fs k n p name (Z.of_nat i) caddr Sv C) as
    (m1 & fs1 & k1 & rep & q & R & Sp & _ & Eo & [_ An] & _); [by eauto|done|done|].
  exists m1, q. inversion Sp as [| | | | | | |? ? ? t2 i2 e2 E2 L2|? ? ? E2|? ? ? t2 ? E2];
    subst; simplify_eq; try (simpl in *; lia).
  simpl in An. destruct An as (? & ? & ? & Hn). split_and!; [done..|by eapply Hn|done].
Qed.

(** C21: chunk ids are never given out twice within a session.  The master starts with
    files whose chunks have ids of their own, below the next id to give out (after the first
    connection: no files, and the id 1), and its main loop handles any sequence of create,
    delete, read and write requests about existing files from a client with a port.  The loop
    handles them all, every chunk of every file then has an id of its own below the next id,
    and the master says so: two read requests for chunks that exist are answered with the
    same id only if they ask for the same chunk of the same file. *)
Theorem session_ids_unique rs ps m fs k n port caddr :
  serves m fs k (length ps + S n) -> ids_unique fs k -> 1 <= k -> m_shutdown m = false ->
  Forall2 (fun p r => carries p r /\ port_id p = port) ps rs ->
  0 <= port < DFS_MAX_CONN -> (m_ports m).1 !! Z.to_nat port = Some caddr ->
  names_ok (dom fs) rs ->
  exists m' fs' k', dfs_master_main_start junk (Some <$> ps) m = Done (tt, m') /\
    serves m' fs' k' (S n) /\ ids_unique fs' k' /\ k <= k' /\
    forall name name' t t' i i' p p', fs' !! name = Some t -> fs' !! name' = Some t' ->
      (i < length t)%nat -> (i' < length t')%nat ->
      carries p (RRead name (Z.of_nat i)) -> carries p' (RRead name' (Z.of_nat i')) ->
      port_id p = port -> port_id p' = port ->
      exists cid cid', told_id m' p caddr cid /\ told_id m' p' caddr cid' /\
        (cid = cid' -> name = name' /\ i = i').
Proof using Hjunk.
  intros Sv Iu Hk Sh F Hp Ha No.
  destruct (main_loop_session rs ps m fs k (S n) port caddr Sv Sh F Hp Ha No) as
    (m' & fs' & k' & reps & qs & R & Ss & Sv' & _ & _ & En).
  destruct (ids_unique_session _ _ _ _ _ _ Ss Iu Hk) as [Iu' Hk']. simpl in Iu', Hk'.
  exists m', fs', k'. split_and!; [done..|]. intros name name' t t' i i' p p' Et Et' Hi Hi' C C' Ep Ep'.
  destruct (lookup_lt_is_Some_2 t i Hi) as [e He], (lookup_lt_is_Some_2 t' i' Hi') as [e' He'].
  assert (Ha' : (m_ports m').1 !! Z.to_nat port = Some caddr).
  { unfold net in En. injection En as _ _ _ _ _ Epo. by rewrite Epo. }
  exists (chunk_id e), (chunk_id e'). split_and!.
  - apply (told_read m' fs' k' n name t i e p caddr); by rewrite ?Ep.
  - apply (told_read m' fs' k' n name' t' i' e' p' caddr); by rewrite ?Ep'.
  - by apply (iu_inj _ _ Iu' name name' t t').
Qed.

(** Writing to a chunk that exists.  The reply to a write request for chunk [i] of a file
    names the server of that chunk, but the id it gives is the number of chunks of the
    file; a read request for the same chunk is told the chunk's own id.  Unless the two
    happen to be equal the client's data goes to another chunk than the one it will read. *)
Theorem overwrite_told_other_chunk m fs k n name t i e p p' port caddr :
  serves m fs k (S n) -> fs !! name = Some t -> t !! i = Some e ->
  carries p (RWrite name (Z.of_nat i)) -> carries p' (RRead name (Z.of_nat i)) ->
  port_id p = port -> port_id p' = port -> 0 <= port < DFS_MAX_CONN ->
  (m_ports m).1 !! Z.to_nat port = Some caddr ->
  exists m1 m2 q q',
    master_step junk (Some p) m = Done (tt, m1) /\ m_out m1 = m_out m ++ [(caddr, q)] /\
    master_step junk (Some p') m = Done (tt, m2) /\ m_out m2 = m_out m ++ [(caddr, q')] /\
    status q = STATUS_SUCCESS /\ status q' = STATUS_SUCCESS /\ meta_addr q = meta_addr q' /\
    chunk_id_sqn q = Z.of_nat (length t) /\ chunk_id_sqn q' = chunk_id e.
Proof using Hjunk.
  intros Sv Et He C C' Ep Ep' Hp Ha. pose proof (lookup_lt_Some _ _ _ He) as Li.
  destruct (handled_write m fs k n p name (Z.of_nat i) caddr Sv C) as
    (m1 & fs1 & k1 & rep & q & R & Sp & _ & Eo & [_ An] & _); [by eauto|by rewrite Ep..|].
  destruct (handled_read m fs k n p' name (Z.of_nat i) caddr Sv C') as
    (m2 & fs2 & k2 & rep' & q' & R' & Sp' & _ & Eo' & [_ An'] & _); [by eauto|by rewrite Ep'..|].
  exists m1, m2, q, q'.
  inversion Sp as [| | |? ? ? t1 ? ? E1|? ? ? t1 ? E1|? ? ? t1 i1 e1 E1 L1|? ? ? t1 ? E1| | |];
    subst; simplify_eq; try lia.
  inversion Sp' as [| | | | | | |? ? ? t2 i2 e2 E2 L2|? ? ? E2|? ? ? t2 ? E2];
    subst; simplify_eq; try (simpl in *; lia).
  simpl in An, An'. destruct An as (? & ? & ? & _), An' as (? & ? & ? & _).
  split_and!; congruence.
Qed.

Lemma cnct_client p m m1 : master_cnct junk p m = Done (tt, m1) ->
  m_out m1 = m_out m ++ [(conn_addr p, set_op DFS_REJ junk)] \/ cd_chunk_id (m_client m1) = 1.
Proof using All.
  unfold master_cnct. cbv zeta. intros (r & m' & R1 & R2)%bind_inv.
  unfold master_try_assign_port, on_m_ports, m_zoom in R1.
  destruct (try_assign_port (conn_addr p) (m_ports m)) as [[r' s]| | |]; [|done..].
  injection R1 as <- <-. destruct (r' =? -1).
  - left. by injection R2 as <-.
  - right. apply bind_inv in R2 as ([] & m2 & R2 & R3). apply bind_inv in R3 as (c & m3 & R3 & R4).
    injection R4 as <-. simpl. unfold on_tables, m_zoom in R3.
    destruct (ms_client_init 1 (m_fs m2)) as [[c' st]| | |] eqn:Ei; [|done..].
    injection R3 as <- _. by eapply tbl_client_init.
Qed.

(** Connecting again.  Whenever the master accepts a connection the chunk ids start from
    1 again.  If it still holds a file with a chunk of id 1, the next chunk that is
    allocated gets an id that is in use. *)
Theorem reconnect_reuses_ids m m1 p fs n name t name1 t1 i e p' port caddr :
  op_code p = DFS_CNCT -> master_step junk (Some p) m = Done (tt, m1) ->
  m_out m1 <> m_out m ++ [(conn_addr p, set_op DFS_REJ junk)] ->
  cd_chunk_id (m_client m1) = 1 /\
  (serves m1 fs 1 (S n) -> active m1 = true -> fs !! name = Some t ->
   fs !! name1 = Some t1 -> t1 !! i = Some e -> chunk_id e = 1 ->
   carries p' (RWrite name (Z.of_nat (length t))) -> port_id p' = port ->
   0 <= port < DFS_MAX_CONN -> (m_ports m1).1 !! Z.to_nat port = Some caddr ->
   exists m2 fs2 q, master_step junk (Some p') m1 = Done (tt, m2) /\ serves m2 fs2 2 n /\
     m_out m2 = m_out m1 ++ [(caddr, q)] /\ chunk_id_sqn q = 1 /\ ~ ids_unique fs2 2).
Proof using Hjunk.
  intros Eop R Ho. assert (E : master_step junk (Some p) m = master_cnct junk p m)
    by (unfold master_step, master_turn; by rewrite Eop). rewrite E in R.
  destruct (cnct_client p m m1 R) as [?|Hc]; [done|]. split; [done|].
  intros Sv Ac Et Et1 He E1 C Ep Hp Ha.
  destruct (handled_write m1 fs 1 n p' name _ caddr Sv C) as
    (m2 & fs2 & k2 & rep & q & R' & Sp & Sv' & Eo & [_ An] & _); [by eauto|by rewrite Ep..|].
  inversion Sp as [| | |? ? ? u addr U1 U2 U3|? ? ? u U1 U2|? ? ? u i1 e1 U2 U3|? ? ? u ? U2 U3| | |];
    subst; simplify_eq; try lia; try congruence.
  2: { apply lookup_lt_Some in U3. lia. }
  exists m2, (<[name := t ++ [first_map addr 1]]> fs), q. simpl in An.
  destruct An as (_ & Ec & _). split_and!; [done|done|done|done|].
  intros [_ Inj].
  assert (H1 : exists l, <[name := t ++ [first_map addr 1]]> fs !! name1 = Some l /\ l !! i = Some e).
  { destruct (decide (name1 = name)) as [->|Hne].
    - rewrite lookup_insert_eq. eexists. split; [done|]. simplify_eq. by apply lookup_app_l_Some.
    - rewrite lookup_insert_ne by done. eauto. }
  destruct H1 as (l & Hl & Hi).
  destruct (Inj name1 name l (t ++ [first_map addr 1]) i (length t) e (first_map addr 1)) as [-> ->];
    [done|by rewrite lookup_insert_eq|done|by apply list_lookup_middle|done|].
  simplify_eq. apply lookup_lt_Some in He. lia.
Qed.
End Refine.
