(* ===== verification/DfsSystem.v ===== *)
(** * The whole system: a shell, the master and a chunk server

    The three programs connected by a network that delivers every packet, in the order it
    was sent, and every answer to the client it is addressed to.  A command typed into the
    shell is one run of [client_parse] together with the turns of the servers' main loops
    that its packets cause.  The theorem is about any storage that keeps the promises of
    [MasterStoreLaws] and [ChunkStoreLaws]. *)

From stdpp Require Import base tactics option list numbers sets gmap.
From Stdlib Require Import ZArith Lia.
From Stdlib Require String.
From S2P Require Import Prelude FatTable FatChain Dirent Fat32 FileDir DfsStore ChunkFat MasterFat.
From S2P Require Import DfsPkt DfsChunk DfsClient DfsEnd DfsShell DfsMaster DfsMasterThm DfsSpec.
Import String.StringSyntax.
#[local] Open Scope string_scope.
#[local] Open Scope list_scope.
#[local] Open Scope Z_scope.

Section System.
Context {Sm : Type} `{MasterStoreLaws Sm} {Sc : Type} `{ChunkStoreLaws Sc}.
Context `{HeapGarbage} `{!HeapGarbageBytes}.
(** Stack contents at the client, the master and the chunk server. *)
Context (jc jm js : pkt) (Hjc : pkt_ok jc) (Hjm : pkt_ok jm) (Hjs : pkt_ok js).

(** ** The network *)

Abbreviation servers := (dfs_master_t Sm * dfs_chunkserver_t Sc)%type.

(** A packet reaches the server it is addressed to, if there is one; the result is what the
    server sent while it handled the packet. *)
Definition deliver (d : Z * pkt) : M servers (list (Z * pkt)) :=
  w ← m_gets (fun w => w);
  if d.1 =? dfs_master_addr then
    m_zoom fst (fun m w => (m, w.2)) (master_step jm (Some d.2));;
    m_gets (fun w' => drop (length (m_out w.1)) (m_out w'.1))
  else if d.1 =? c_addr w.2 then
    m_zoom snd (fun s w => (w.1, s)) (chunk_step js (Some d.2));;
    m_gets (fun w' => drop (length (c_out w.2)) (c_out w'.2))
  else mret [].

Fixpoint deliver_all (ds : list (Z * pkt)) : M servers (list (Z * pkt)) :=
  match ds with
  | [] => mret []
  | d :: ds => l ← deliver d; l' ← deliver_all ds; mret (l ++ l')
  end.

Definition replies_to (addr : Z) (l : list (Z * pkt)) : list pkt := snd <$> filter (fun d => d.1 = addr) l.

Definition with_inbox (l : list (option pkt)) (sh : shell) : shell :=
  let c := sh_client sh in
  mk_shell (mk_client (cl_addr c) l (cl_out c) (cl_console c)) (sh_master sh) (sh_chunk sh) (sh_forks sh).

(** The command [line]: what the shell receives is what the servers answer to what it
    sends. *)
Definition command (line : list Z) (sh : shell) (w : servers) (sh' : shell) (w' : servers) : Prop :=
  exists outs l,
    client_parse jc line (with_inbox (Some <$> replies_to (cl_addr (sh_client sh)) l) sh) = Done (1, sh') /\
    cl_out (sh_client sh') = cl_out (sh_client sh) ++ outs /\ cl_in (sh_client sh') = [] /\
    deliver_all outs w = Done (l, w').

Lemma deliver_app ds ds' w l w1 l' w' : deliver_all ds w = Done (l, w1) ->
  deliver_all ds' w1 = Done (l', w') -> deliver_all (ds ++ ds') w = Done (l ++ l', w').
Proof using.
  revert w l. induction ds as [|d ds IH]; intros w l R R'; simpl in *.
  { by injection R as <- <-. }
  apply bind_inv in R as (l1 & w2 & R1 & R2). apply bind_inv in R2 as (l2 & w3 & R2 & R3).
  injection R3 as <- <-. mrun R1. rewrite (bind_done _ _ _ _ _ (IH _ _ R2 R')).
  unfold mret, M_ret. by rewrite app_assoc.
Qed.

Lemma deliver_master p m s m' l : master_step jm (Some p) m = Done (tt, m') ->
  m_out m' = m_out m ++ l -> deliver_all [(dfs_master_addr, p)] (m, s) = Done (l, (m', s)).
Proof using.
  intros R E. cbn [deliver_all]. unfold deliver. rewrite bind_assoc, gets_run. cbn [fst snd].
  rewrite Z.eqb_refl, bind_assoc.
  rewrite (bind_done _ _ _ _ _ (zoom_done fst (fun m w => (m, w.2)) _ (m, s) _ _ R)).
  rewrite gets_run. cbn [fst snd]. rewrite E, drop_app_length. unfold mret, M_ret, mbind, M_bind.
  by rewrite app_nil_r.
Qed.

(** ** The outbox of the chunk server grows *)

Definition grows {A} (c : M (dfs_chunkserver_t Sc) A) : Prop := forall s r s', c s = Done (r, s') ->
  c_addr s' = c_addr s /\ exists l, c_out s' = c_out s ++ l.

Lemma grows_same {A} (c : M (dfs_chunkserver_t Sc) A) :
  (forall s r s', c s = Done (r, s') -> c_addr s' = c_addr s /\ c_out s' = c_out s) -> grows c.
Proof using. intros Hc s r s' R. destruct (Hc s r s' R) as [? ->]. split; [done|]. exists []. by rewrite app_nil_r. Qed.

Lemma grows_bind {A B} (c : M (dfs_chunkserver_t Sc) A) (f : A -> M (dfs_chunkserver_t Sc) B) :
  grows c -> (forall a, grows (f a)) -> grows (c ≫= f).
Proof using.
  intros Hc Hf s r s' (a & s1 & R1 & R2)%bind_inv. destruct (Hc _ _ _ R1) as [E1 [l1 L1]].
  destruct (Hf _ _ _ _ R2) as [E2 [l2 L2]]. split; [congruence|]. exists (l1 ++ l2).
  by rewrite L2, L1, app_assoc.
Qed.

Lemma grows_ret {A} (a : A) : grows (mret a).
Proof using. apply grows_same. by intros s r s' [= _ <-]. Qed.

Lemma grows_gets {A} (f : _ -> A) : grows (m_gets f).
Proof using. apply grows_same. by intros s r s' [= _ <-]. Qed.

Lemma grows_opt {A} (o : option A) : grows (m_opt o).
Proof using. apply grows_same. destruct o; [by intros s r s' [= _ <-]|done]. Qed.

Lemma grows_store {A} (c : M Sc A) : grows (on_store c).
Proof using.
  apply grows_same. intros s r s' R. unfold on_store, m_zoom in R.
  destruct (c (c_fs s)) as [[a st]| | |]; [|done..]. by injection R as <- <-.
Qed.

Lemma grows_ports {A} (c : M _ A) : grows (on_ports (St := Sc) c).
Proof using.
  apply grows_same. intros s r s' R. unfold on_ports, m_zoom in R.
  destruct (c (c_ports s)) as [[a st]| | |]; [|done..]. by injection R as <- <-.
Qed.

Lemma grows_send a p : grows (c_send (St := Sc) a p).
Proof using. intros s r s' [= _ <-]. simpl. eauto. Qed.

Create HintDb grows.
#[local] Hint Resolve grows_bind grows_ret grows_gets grows_opt grows_store grows_ports grows_send : grows.

Lemma grows_read_loop fuel a cid data o n b : grows (read_loop js fuel a cid data o n b).
Proof using.
  revert b. induction fuel as [|fuel IH]; intros b; [done|]. cbn [read_loop].
  destruct (_ <? _); [|apply grows_ret]. apply grows_bind; [apply grows_send|auto].
Qed.

Lemma grows_store_data p : grows (chunk_store_data (St := Sc) p).
Proof using. unfold chunk_store_data. cbv zeta. destruct (_ =? _); auto 8 with grows. Qed.

#[local] Hint Resolve grows_read_loop grows_store_data : grows.

Lemma chunk_step_grows r : grows (chunk_step js r).
Proof using.
  destruct r as [p|]; [|apply grows_ret]. unfold chunk_step. cbv zeta.
  destruct (_ =? _). { unfold chunk_cnct. cbv zeta. apply grows_bind; [auto with grows|]. intros a. destruct (_ =? _); auto with grows. }
  destruct (_ =? _). { unfold chunk_hb. auto with grows. }
  destruct (_ =? _).
  { unfold chunk_rd. destruct (_ <=? _); [apply grows_ret|].
    apply grows_bind; [auto with grows|intros c]. apply grows_bind; [auto with grows|intros a].
    apply grows_bind; [auto with grows|]. intros [data n]. cbv zeta. auto with grows. }
  destruct (_ || _); [unfold chunk_wr; auto with grows|].
  destruct (_ =? _); [|done]. unfold chunk_end_wr. auto with grows.
Qed.

Lemma deliver_chunk p m s s' l : c_addr s <> dfs_master_addr ->
  chunk_step js (Some p) s = Done (tt, s') -> c_out s' = c_out s ++ l ->
  deliver_all [(c_addr s, p)] (m, s) = Done (l, (m, s')).
Proof using.
  intros Ha R E. cbn [deliver_all]. unfold deliver. rewrite bind_assoc, gets_run. cbn [fst snd].
  rewrite (proj2 (Z.eqb_neq _ _) Ha), Z.eqb_refl, bind_assoc.
  rewrite (bind_done _ _ _ _ _ (zoom_done snd (fun s w => (w.1, s)) _ (m, s) _ _ R)).
  rewrite gets_run. cbn [fst snd]. rewrite E, drop_app_length. unfold mret, M_ret, mbind, M_bind.
  by rewrite app_nil_r.
Qed.

Lemma deliver_chunk_all ps m s s' l : c_addr s <> dfs_master_addr ->
  dfs_chunkserver_main js (Some <$> ps) s = Done (tt, s') -> c_out s' = c_out s ++ l ->
  deliver_all ((fun p => (c_addr s, p)) <$> ps) (m, s) = Done (l, (m, s')).
Proof using.
  revert s l. induction ps as [|p ps IH]; intros s l Ha R E;
    cbn [fmap list_fmap dfs_chunkserver_main] in R.
  { injection R as <-. apply (f_equal length) in E. rewrite length_app in E.
    assert (l = []) as -> by (apply length_zero_iff_nil; lia). done. }
  apply bind_inv in R as ([] & s1 & R1 & R2). destruct (chunk_step_grows _ _ _ _ R1) as [Ea [l1 E1]].
  assert (exists l2, c_out s' = c_out s1 ++ l2) as [l2 E2].
  { clear -R2. revert s1 R2. induction ps as [|p ps IH]; intros s1 R;
      cbn [fmap list_fmap dfs_chunkserver_main] in R.
    - injection R as <-. exists []. by rewrite app_nil_r.
    - apply bind_inv in R as ([] & s2 & R1 & R2). destruct (chunk_step_grows _ _ _ _ R1) as [_ [l1 E1]].
      destruct (IH _ R2) as [l2 E2]. exists (l1 ++ l2). by rewrite E2, E1, app_assoc. }
  assert (l = l1 ++ l2) as ->.
  { rewrite E2, E1, <-app_assoc in E. by apply app_inv_head in E. }
  change (_ <$> p :: ps) with ([(c_addr s, p)] ++ ((fun p => (c_addr s, p)) <$> ps)).
  eapply deliver_app; [by apply deliver_chunk|]. rewrite <-Ea. apply IH; [congruence|done|done].
Qed.

(** ** One request and its answer *)

Lemma name_bytes_all fname : name_bytes fname (strlen fname) = fname.
Proof using.
  unfold name_bytes, strlen. rewrite Nat2Z.id, buf_slice_sub by (rewrite length_app; simpl; lia).
  rewrite drop_0. by apply take_app_length.
Qed.

(** The packet of a request about the file [fname]. *)
Definition name_pkt (op : Z) (conn : dfs_connection_t) (fname : list Z) : pkt :=
  set_meta_nbytes (strlen fname) (set_meta_name fname (set_port (conn_port conn) (set_op op jc))).
Definition meta_pkt (op : Z) (conn : dfs_connection_t) (fname : list Z) : pkt :=
  set_meta_nbytes (strlen fname) (set_meta_name fname
    (set_chunk_id_sqn 0 (set_port (conn_port conn) (set_op op jc)))).
Definition cnct_pkt (addr : Z) : pkt := set_conn_addr addr (set_op DFS_CNCT jc).

(** A client with the inbox [l], after sending [outs] and printing [txt]. *)
Definition moved (c : dfs_client_t) (l : list (option pkt)) (outs : list (Z * pkt)) (txt : list (list Z))
    : dfs_client_t := mk_client (cl_addr c) l (cl_out c ++ outs) (cl_console c ++ txt).

Lemma name_request_run op conn fname c q l : (length fname <= 12)%nat -> cl_in c = Some q :: l ->
  op_code q = op -> status q = STATUS_SUCCESS ->
  name_request jc op conn fname (strlen fname) c =
    Done (chunk_id_sqn q, moved c l [(conn_server conn, name_pkt op conn fname)] []).
Proof using.
  intros Hl Hin <- Es. unfold name_request. rewrite assert_run by (unfold strlen; apply Z.leb_le; lia).
  unfold cl_send. rewrite modify_run, name_bytes_all. unfold cl_read. rewrite bind_assoc, gets_run.
  cbn [cl_in]. rewrite Hin, bind_assoc, modify_run, ret_run, Z.eqb_refl, Es. unfold moved. simpl.
  by rewrite app_nil_r.
Qed.

Lemma chunk_meta_run op conn fname c q l : (length fname <= 12)%nat -> cl_in c = Some q :: l ->
  op_code q = op -> status q = STATUS_SUCCESS ->
  chunk_meta jc op conn fname (strlen fname) 0 c =
    Done (Some q, moved c l [(conn_server conn, meta_pkt op conn fname)] []).
Proof using.
  intros Hl Hin <- Es. unfold chunk_meta. rewrite assert_run by (unfold strlen; apply Z.leb_le; lia).
  unfold cl_send. rewrite modify_run, name_bytes_all. unfold cl_read. rewrite bind_assoc, gets_run.
  cbn [cl_in]. rewrite Hin, bind_assoc, modify_run, ret_run, Z.eqb_refl, Es. unfold moved. simpl.
  by rewrite app_nil_r.
Qed.

Lemma connect_run conn c q l : cl_in c = Some q :: l -> op_code q = DFS_ACP ->
  dfs_client_try_connect jc conn c =
    Done ((0, port_id q), moved c l [(conn_server conn, cnct_pkt (cl_addr c))] []).
Proof using.
  intros Hin Eo. unfold dfs_client_try_connect. rewrite gets_run. cbv zeta. unfold cl_send at 1.
  rewrite modify_run. unfold recv_fuel. rewrite gets_run. cbn [connect_loop]. unfold cl_read.
  rewrite bind_assoc, gets_run. cbn [cl_in]. rewrite Hin, bind_assoc, modify_run, ret_run, Eo.
  unfold moved. simpl. by rewrite app_nil_r.
Qed.

(** A name of at most eleven characters arrives whole. *)
Definition short_name (fname : list Z) : Prop :=
  (length fname <= 11)%nat /\ Forall (fun c => is_u8 c /\ c <> 0) fname.

Lemma meta_name_put fname p : pkt_ok p -> short_name fname ->
  c_string (meta_name (set_meta_name fname p)) = Some fname /\
  take (length fname) (meta_name (set_meta_name fname p)) = fname.
Proof using All.
  intros Hp [Hl Hc].
  assert (E : meta_name (set_meta_name fname p) = fname ++ replicate (12 - length fname) 0).
  { pkt_simpl; done. }
  rewrite E. split; [|apply take_app_length].
  replace (12 - length fname)%nat with (S (11 - length fname)) by lia. cbn [replicate].
  unfold c_string. rewrite decide_True by set_solver. f_equal. apply cstr_app_zero.
  eapply Forall_impl; [exact Hc|naive_solver].
Qed.

Lemma create_pkt_carries conn fname : short_name fname -> 0 <= conn_port conn < DFS_MAX_CONN ->
  carries (name_pkt DFS_CR conn fname) (RCreate fname) /\
  port_id (name_pkt DFS_CR conn fname) = conn_port conn.
Proof using All.
  intros Hs Hp. pose proof Hs as [Hl Hc]. unfold name_pkt, strlen.
  set (p0 := set_port (conn_port conn) (set_op DFS_CR jc)).
  assert (Ok : pkt_ok p0) by (unfold p0; pkt_unfold; auto with pkt).
  destruct (meta_name_put fname p0 Ok Hs) as [_ Ht].
  assert (En : meta_name (set_meta_nbytes (Z.of_nat (length fname)) (set_meta_name fname p0)) =
    meta_name (set_meta_name fname p0)) by (pkt_simpl; done).
  assert (Eb : meta_nbytes (set_meta_nbytes (Z.of_nat (length fname)) (set_meta_name fname p0)) =
    Z.of_nat (length fname)) by (pkt_simpl; apply Z.mod_small; simpl; lia).
  split; [split|].
  - unfold p0; pkt_simpl; done.
  - unfold name_of_request. rewrite Eb, En, (proj2 (Z.leb_le _ _)) by (unfold MAX_FILE_NAME; lia).
    rewrite Nat2Z.id, Ht. f_equal. apply cstr_app_zero. eapply Forall_impl; [exact Hc|naive_solver].
  - unfold p0; pkt_simpl; apply Z.mod_small; unfold DFS_MAX_CONN in *; simpl; lia.
Qed.

Lemma meta_pkt_carries op conn fname : short_name fname -> 0 <= conn_port conn < DFS_MAX_CONN ->
  (op = DFS_WR -> carries (meta_pkt op conn fname) (RWrite fname 0)) /\
  (op = DFS_RD -> carries (meta_pkt op conn fname) (RRead fname 0)) /\
  port_id (meta_pkt op conn fname) = conn_port conn.
Proof using All.
  intros Hs Hp. pose proof Hs as [Hl Hc]. unfold meta_pkt, strlen.
  set (p0 := set_chunk_id_sqn 0 (set_port (conn_port conn) (set_op op jc))).
  assert (Ok : pkt_ok p0) by (unfold p0; pkt_unfold; auto with pkt).
  destruct (meta_name_put fname p0 Ok Hs) as [Hcs _].
  assert (En : meta_name (set_meta_nbytes (Z.of_nat (length fname)) (set_meta_name fname p0)) =
    meta_name (set_meta_name fname p0)) by (pkt_simpl; done).
  assert (Ei : chunk_id_sqn (set_meta_nbytes (Z.of_nat (length fname)) (set_meta_name fname p0)) = 0)
    by (unfold p0; pkt_simpl; done).
  split_and!.
  - intros ->. split_and!; [unfold p0; pkt_simpl; done|by rewrite En|done|done].
  - intros ->. split_and!; [unfold p0; pkt_simpl; done|by rewrite En|done|done].
  - unfold p0; pkt_simpl; apply Z.mod_small; unfold DFS_MAX_CONN in *; simpl; lia.
Qed.

(** ** Connecting to the chunk server *)

(** A port of the server is idle or already the client's. *)
Definition room_for (a : Z) (ports : list Z * Z) : Prop :=
  exists i x, ports.1 !! i = Some x /\ (x = 0 \/ x = a).

Lemma cnct_step_run addr s : ports_ok (c_ports s) -> room_for addr (c_ports s) -> is_u32 addr -> addr <> 0 ->
  exists s' q port, chunk_step js (Some (cnct_pkt addr)) s = Done (tt, s') /\
    c_out s' = c_out s ++ [(addr, q)] /\ op_code q = DFS_ACP /\ port_id q = port /\ 0 <= port < 4 /\
    (c_ports s').1 !! Z.to_nat port = Some addr /\ ports_ok (c_ports s') /\
    room_for addr (c_ports s') /\ c_addr s' = c_addr s /\ c_fs s' = c_fs s.
Proof using All.
  intros Po (i0 & x & Hx & Hr) Hu Hn.
  assert (Eo : op_code (cnct_pkt addr) = DFS_CNCT) by (unfold cnct_pkt; pkt_simpl; done).
  assert (Ea : conn_addr (cnct_pkt addr) = addr)
    by (unfold cnct_pkt; pkt_simpl; by apply Z.mod_small).
  unfold chunk_step. cbv zeta. rewrite Eo. change (DFS_CNCT =? DFS_CNCT) with true. cbv iota.
  unfold chunk_cnct. cbv zeta. rewrite Ea.
  destruct (try_assign_port_run (c_ports s) addr Po Hn) as (r & ports & R & Po' & Cs).
  assert (Hc : exists i, r = Z.of_nat i /\ ports.1 !! i = Some addr).
  { destruct Cs as [(i & -> & Hi & ->)|[(i & -> & Hno & Hi & E)|(_ & _ & Hall)]].
    - eauto.
    - exists i. split; [done|]. rewrite E. apply list_lookup_insert_eq. by eapply lookup_lt_Some.
    - destruct (Hall i0 x Hx). naive_solver. }
  destruct Hc as (i & -> & Hi). pose proof (lookup_lt_Some _ _ _ Hi) as Li. rewrite (po_len _ Po') in Li.
  unfold on_ports. rewrite (bind_done _ _ _ _ _ (zoom_done c_ports _ _ s _ _ R)).
  rewrite (proj2 (Z.eqb_neq _ _)) by lia. unfold c_send.
  eexists _, _, (Z.of_nat i). split_and!; [done|done| | |lia|lia|by rewrite Nat2Z.id|done|exists i; eauto|done|done].
  - pkt_simpl; done.
  - pkt_simpl; apply Z.mod_small; simpl; lia.
Qed.

Lemma on_client_run {A} (m : M dfs_client_t A) c mc kc f a c' : m c = Done (a, c') ->
  on_client m (mk_shell c mc kc f) = Done (a, mk_shell c' mc kc f).
Proof using. intros R. unfold on_client. by rewrite (zoom_done sh_client _ _ (mk_shell c mc kc f) _ _ R). Qed.

Lemma connect_chunk_run sh c mc kc f q l addr :
  sh = mk_shell c mc kc f -> cl_in c = Some q :: l -> op_code q = DFS_ACP ->
  connect_chunk jc addr sh =
    Done (0, mk_shell (moved c l [(addr, cnct_pkt (cl_addr c))] []) mc (mk_conn (port_id q) addr) f).
Proof using.
  intros -> Hin Eo. unfold connect_chunk, set_chunk. rewrite gets_run. cbv zeta.
  rewrite modify_run. cbn [sh_client sh_master sh_forks sh_chunk].
  mrun (on_client_run _ _ mc (mk_conn (conn_port kc) addr) f _ _ (connect_run (mk_conn (conn_port kc) addr) c q l Hin Eo)).
  rewrite modify_run. done.
Qed.

(** ** The system in operation *)

(** The client has a port at the master, the registered servers are the chunk server, which
    has a port for the client.  The master holds the files [fs], the chunk server the chunks
    [cm]; they have room for [n] requests and [nc] packets. *)
Record linked (sh : shell) (w : servers) (fs : files) (k : Z) (n : nat) (cm : gmap Z (list Z)) (nc : nat)
    : Prop := {
  lk_serves : serves w.1 fs k n;
  lk_active : active w.1 = true;
  lk_addrs : Forall (fun a => a = c_addr w.2) (addresses w.1);
  lk_client : cl_addr (sh_client sh) = client_addr_const;
  lk_master : conn_server (sh_master sh) = dfs_master_addr;
  lk_port : 0 <= conn_port (sh_master sh) < DFS_MAX_CONN;
  lk_known : (m_ports w.1).1 !! Z.to_nat (conn_port (sh_master sh)) = Some client_addr_const;
  lk_ports : ports_ok (c_ports w.2);
  lk_room : room_for client_addr_const (c_ports w.2);
  lk_apart : c_addr w.2 <> dfs_master_addr;
  lk_stored : stored (c_fs w.2) cm nc
}.

Lemma linked_step sh w fs k n cm nc sh' m' s' fs' k' n' cm' nc' : linked sh w fs k n cm nc ->
  sh_master sh' = sh_master sh -> cl_addr (sh_client sh') = cl_addr (sh_client sh) ->
  net m' = net w.1 -> serves m' fs' k' n' ->
  c_addr s' = c_addr w.2 -> ports_ok (c_ports s') -> room_for client_addr_const (c_ports s') ->
  stored (c_fs s') cm' nc' -> linked sh' (m', s') fs' k' n' cm' nc'.
Proof using.
  intros [] Em Ec En Sv Ea Po Ro St. unfold net in En. injection En as _ Ese Enu Ena _ Epo.
  constructor; cbn [fst snd]; try done.
  - unfold active. by rewrite Ena.
  - unfold addresses in *. by rewrite Ese, Enu, Ea.
  - congruence.
  - by rewrite Em.
  - by rewrite Em.
  - by rewrite Em, Epo.
  - congruence.
Qed.

Lemma replies_to_cons a q l : replies_to a ((a, q) :: l) = q :: replies_to a l.
Proof using. unfold replies_to. by rewrite filter_cons, decide_True by done. Qed.

Lemma replies_to_all a qs : replies_to a ((fun q => (a, q)) <$> qs) = qs.
Proof using.
  induction qs as [|q qs IH]; [done|]. rewrite fmap_cons, replies_to_cons. by rewrite IH.
Qed.

Lemma replies_to_client c a qs : cl_addr c = a -> replies_to (cl_addr c) ((fun q => (a, q)) <$> qs) = qs.
Proof using. intros ->. apply replies_to_all. Qed.

(** [touch F] makes an empty file. *)
Lemma touch_run sh w fs k n cm nc fname : linked sh w fs k (S n) cm nc -> short_name fname ->
  file_name fname -> fs !! fname = None ->
  exists sh' w', command (str "touch " ++ fname) sh w sh' w' /\
    linked sh' w' (<[fname := []]> fs) k n cm nc /\
    cl_console (sh_client sh') = cl_console (sh_client sh).
Proof using All.
  intros Lk Hs Hf Hn. destruct w as [m s]. destruct sh as [c mc kc f]. pose proof Lk as [].
  cbn [fst snd sh_client sh_master] in *.
  destruct (create_pkt_carries mc fname Hs lk_port0) as [Hc Hp].
  destruct (handled_create jm Hjm m fs k n _ fname client_addr_const lk_serves0 Hc Hf)
    as (m' & fs' & k' & rep & q & R & Sp & Sv & Eo & [Aop An] & En & _); [by rewrite Hp..|].
  inversion Sp; subst; [|congruence]. simpl in Aop, An.
  set (sh' := mk_shell (moved (mk_client (cl_addr c) [] (cl_out c) (cl_console c)) []
                [(dfs_master_addr, name_pkt DFS_CR mc fname)] []) mc kc (S f)).
  exists sh', (m', s). split; [|split].
  - exists [(dfs_master_addr, name_pkt DFS_CR mc fname)], ((fun q => (client_addr_const, q)) <$> [q]).
    split_and!; [|done|done|by apply deliver_master].
    unfold with_inbox. cbv zeta. cbn [sh_client sh_master sh_chunk sh_forks].
    rewrite (replies_to_client c _ [q] lk_client0).
    unfold client_parse. rewrite gets_run. cbv zeta.
    change (starts_with (str "touch " ++ fname) (str "touch")) with true. cbv beta iota delta [orb].
    rewrite (opt_run (after (str "touch " ++ fname) SPACE) fname) by done.
    unfold dfs_client_create. cbn [sh_master].
    mrun (on_client_run _ _ mc kc f _ _ (name_request_run DFS_CR mc fname
      (mk_client (cl_addr c) [Some q] (cl_out c) (cl_console c)) q [] ltac:(destruct Hs; lia) eq_refl Aop An)).
    rewrite lk_master0. done.
  - by eapply linked_step.
  - unfold sh', moved. simpl. by rewrite app_nil_r.
Qed.

(** ** Writing *)

(** Text that can stand between the quotes and fits the buffer of the shell. *)
Definition text_ok (text : list Z) : Prop :=
  Forall (fun c => is_u8 c /\ c <> 0) text /\ QUOTE ∉ text /\ (0 < length text <= 127)%nat.

Definition echo_line (text fname : list Z) : list Z :=
  str "echo " ++ QUOTE :: text ++ QUOTE :: str " >> " ++ fname.

Lemma strchr_app text c rest : c ∉ text -> strchr (text ++ c :: rest) c = Some (c :: rest).
Proof using.
  induction text as [|x text IH]; simpl; intros Hn; [by rewrite Z.eqb_refl|].
  apply not_elem_of_cons in Hn as [Hx Hn]. rewrite (proj2 (Z.eqb_neq _ _)) by congruence. by apply IH.
Qed.

Lemma parse_echo_line text fname : text_ok text -> parse_echo (echo_line text fname) = Some (inr (text, fname)).
Proof using.
  intros (_ & Hq & Hl). unfold parse_echo.
  change (after (echo_line text fname) QUOTE) with (Some (text ++ QUOTE :: str " >> " ++ fname)).
  cbn [mbind option_bind]. rewrite strchr_app by done. cbn [mbind option_bind]. cbv zeta.
  replace (length (text ++ QUOTE :: str " >> " ++ fname) - length (QUOTE :: str " >> " ++ fname))%nat
    with (length text) by (rewrite length_app; lia).
  rewrite (proj2 (Nat.ltb_ge _ _)) by lia. rewrite (proj2 (Nat.ltb_ge _ _)) by lia.
  change (after (QUOTE :: str " >> " ++ fname) GREATER) with (Some (str "> " ++ fname)).
  cbn [mbind option_bind]. change (after (str "> " ++ fname) GREATER) with (Some (str " " ++ fname)).
  cbn [mbind option_bind]. change (after (str " " ++ fname) SPACE) with (Some fname).
  cbn [mbind option_bind]. by rewrite take_app_length.
Qed.

Lemma text_chars text : text_ok text -> Forall (fun c => is_u8 c /\ c <> 0) text /\ (0 < length text <= 1024)%nat.
Proof using. intros (? & _ & ?). split; [done|lia]. Qed.

(** Sending the text, with the NUL that ends it, to the chunk [id]. *)
Lemma write_text_run conn id text c l : 0 <= conn_port conn < 4 -> chunk_id_ok id -> text_ok text ->
  cl_in c = Some (end_wr_pkt js) :: l ->
  dfs_client_write_chunk_data jc conn id (text ++ [0]) (strlen (cstr (text ++ [0]))) c =
    Done (0, moved c l ((fun p => (conn_server conn, p)) <$>
      pkts (wr_pkt jc conn id text (strlen text)) (npkts text) 0) []).
Proof using All.
  intros Hp Hid [Ht Hl]%text_chars Hin. rewrite cstr_app_zero by (eapply Forall_impl; [exact Ht|naive_solver]).
  unfold moved. rewrite app_nil_r. unfold strlen.
  rewrite <-(client_write_run jc js Hjc Hjs conn Hp id Hid text Ht Hl c l Hin).
  unfold dfs_client_write_chunk_data, mbind, M_bind.
  by rewrite (write_loop_buf jc js Hjc Hjs conn Hp id Hid text Ht Hl (text ++ [0]))
    by (done || apply take_app_length).
Qed.

(** The shell's side of [echo "text" >> F], when the answers come as they should. *)
Lemma shell_echo_run c mc kc f text fname q q1 : text_ok text -> short_name fname ->
  conn_server mc = dfs_master_addr -> op_code q = DFS_WR -> status q = STATUS_SUCCESS ->
  chunk_id_ok (chunk_id_sqn q) -> op_code q1 = DFS_ACP -> 0 <= port_id q1 < 4 ->
  cl_in c = [Some q; Some q1; Some (end_wr_pkt js)] ->
  let conn := mk_conn (port_id q1) (meta_addr q) in
  client_parse jc (echo_line text fname) (mk_shell c mc kc f) =
    Done (1, mk_shell (moved c [] ([(dfs_master_addr, meta_pkt DFS_WR mc fname)] ++
      [(meta_addr q, cnct_pkt (cl_addr c))] ++ ((fun p => (meta_addr q, p)) <$>
        pkts (wr_pkt jc conn (chunk_id_sqn q) text (strlen text)) (npkts text) 0)) []) mc conn (S f)).
Proof using All.
  intros Ht Hs Em Aop Ast Hk Op1 Hport Hin conn. unfold client_parse. rewrite gets_run. cbv zeta.
  change (starts_with (echo_line text fname) (str "touch")) with false.
  change (starts_with (echo_line text fname) (str "mkdir")) with false.
  change (starts_with (echo_line text fname) (str "rm")) with false.
  change (starts_with (echo_line text fname) (str "cat")) with false.
  change (starts_with (echo_line text fname) (str "echo")) with true. cbv beta iota delta [orb].
  unfold shell_echo. rewrite (opt_run _ _ _ _ (parse_echo_line text fname Ht)). rewrite gets_run.
  unfold dfs_client_write_chunk_meta. cbn [sh_master].
  mrun (on_client_run _ _ mc kc f _ _ (chunk_meta_run DFS_WR mc fname c q
    [Some q1; Some (end_wr_pkt js)] ltac:(destruct Hs; lia) Hin Aop Ast)).
  rewrite Em. set (c1 := moved c _ _ _).
  mrun (connect_chunk_run _ c1 mc kc f q1 [Some (end_wr_pkt js)] (meta_addr q) eq_refl eq_refl Op1).
  change (0 =? -1) with false. cbv iota. rewrite gets_run. cbn [sh_chunk]. set (c2 := moved c1 _ _ _).
  mrun (on_client_run _ _ mc conn f _ _ (write_text_run conn (chunk_id_sqn q) text c2 [] Hport Hk Ht eq_refl)).
  change (0 =? -1) with false. cbv iota. unfold continue, fork_parse. rewrite modify_run.
  unfold c2, c1, moved, mret, M_ret. cbn [sh_client sh_master sh_chunk sh_forks cl_out cl_console cl_addr conn_server conn].
  by rewrite !app_nil_r, <-!app_assoc.
Qed.

(** [echo "text" >> F], for an empty file [F]: the master gives out a new chunk and the chunk
    server stores the text in it. *)
Lemma echo_run sh w fs k n cm nc fname text : linked sh w fs k (S n) cm (S (npkts text + nc)) ->
  short_name fname -> fs !! fname = Some [] -> text_ok text -> chunk_id_ok k -> cm !! k = None ->
  exists sh' w', command (echo_line text fname) sh w sh' w' /\
    linked sh' w' (<[fname := [first_map (c_addr w.2) k]]> fs) (k + 1) n (<[k := text]> cm) nc /\
    cl_console (sh_client sh') = cl_console (sh_client sh) /\ c_addr w'.2 = c_addr w.2.
Proof using All.
  intros Lk Hs Hf Ht Hk Hcm. destruct w as [m s]. destruct sh as [c mc kc f]. pose proof Lk as [].
  cbn [fst snd sh_client sh_master] in *. destruct (text_chars _ Ht) as [Htc Htl].
  destruct (meta_pkt_carries DFS_WR mc fname Hs lk_port0) as (Hc & _ & Hp).
  destruct (handled_write jm Hjm m fs k n _ fname 0 client_addr_const lk_serves0 (Hc eq_refl))
    as (m' & fs' & k' & rep & q & R & Sp & Sv & Eo & [Aop An] & En & _); [by eauto|by rewrite Hp..|].
  revert En. inversion Sp as [| | |? ? ? t addr U1 U2 U3|? ? ? t U1 U2|? ? ? t i e U2 U3|? ? ? t ? U2 U3| | |];
    subst; simplify_eq; try congruence. intros En.
  pose proof (proj1 (Forall_forall _ _) lk_addrs0 _ U3) as ->. simpl in Aop, An.
  destruct An as (Ast & Aid & Aad & _).
  destruct (cnct_step_run client_addr_const s lk_ports0 lk_room0) as
    (s1 & q1 & port & R1 & Eo1 & Op1 & <- & Hport & Known & Po1 & Ro1 & Ea1 & Ef1); [done|done|].
  set (conn := mk_conn (port_id q1) (c_addr s)).
  destruct (npkts_left jc js Hjc Hjs conn Hport k Hk text Htc Htl) as [Hleft _].
  destruct (server_writes jc js Hjc Hjs conn Hport k Hk text Htc Htl (npkts text) 0 cm nc s1 Hleft eq_refl)
    as (st & R2 & St2); [by left|by rewrite Ef1|].
  rewrite <-Aid in Hk.
  pose proof (shell_echo_run (mk_client (cl_addr c) [Some q; Some q1; Some (end_wr_pkt js)] (cl_out c)
    (cl_console c)) mc kc f text fname q q1 Ht Hs lk_master0 Aop Ast Hk Op1 Hport eq_refl) as Rc.
  cbv zeta in Rc. rewrite Aid, Aad in Rc. fold conn in Rc.
  match type of Rc with _ = Done (_, ?x) => exists x end.
  exists (m', mk_cserver (c_addr s1) (c_id s1) st (c_ports s1)
    (c_out s1 ++ [(client_addr_const, end_wr_pkt js)])).
  split_and!.
  - eexists _, ((fun q => (client_addr_const, q)) <$> [q; q1; end_wr_pkt js]).
    split_and!; [|done|done|].
    + unfold with_inbox. cbv zeta. cbn [sh_client sh_master sh_chunk sh_forks].
      rewrite (replies_to_client _ _ _ lk_client0). exact Rc.
    + apply (deliver_app _ _ _ [_] (m', s)); [by apply deliver_master|].
      apply (deliver_app _ _ _ [_] (m', s1)).
      { cbn [cl_addr]. rewrite lk_client0. by apply deliver_chunk. }
      rewrite <-Ea1. apply deliver_chunk_all; [congruence|exact R2|done].
  - by eapply linked_step; [exact Lk|done|done|exact En|exact Sv|exact Ea1|exact Po1|exact Ro1|exact St2].
  - cbn [moved cl_console sh_client]. by rewrite app_nil_r.
  - done.
Qed.

(** ** Reading *)

Lemma c_string_padded text j : Forall (fun c => is_u8 c /\ c <> 0) text -> (0 < j)%nat ->
  c_string (text ++ replicate j 0) = Some text.
Proof using.
  intros Ht Hj. destruct j as [|j]; [lia|]. cbn [replicate]. unfold c_string.
  rewrite decide_True by (apply elem_of_app; right; apply list_elem_of_here). f_equal.
  apply cstr_app_zero. eapply Forall_impl; [exact Ht|by intros ? []].
Qed.

(** The shell's side of [cat F] for a file with one chunk. *)
Lemma shell_cat_run c mc kc f text fname q q1 buf : text_ok text ->
  (length text mod 16 <> 0)%nat -> short_name fname ->
  conn_server mc = dfs_master_addr -> op_code q = DFS_RD -> status q = STATUS_SUCCESS ->
  meta_nbytes q = 1 -> chunk_id_ok (chunk_id_sqn q) -> op_code q1 = DFS_ACP -> 0 <= port_id q1 < 4 ->
  take (length text) buf = text ->
  cl_in c = Some <$> (q :: q1 :: pkts (rd_pkt js (chunk_id_sqn q) text buf) (npkts text) 0) ->
  let conn := mk_conn (port_id q1) (meta_addr q) in
  client_parse jc (str "cat " ++ fname) (mk_shell c mc kc f) =
    Done (1, mk_shell (moved c [] ([(dfs_master_addr, meta_pkt DFS_RD mc fname)] ++
      [(meta_addr q, cnct_pkt (cl_addr c))] ++ [(meta_addr q, query_pkt jc conn (chunk_id_sqn q))])
      [text ++ [10]]) mc conn (S f)).
Proof using All.
  intros Ht Hmod Hs Em Aop Ast Anb Hk Op1 Hport Hbuf Hin conn. destruct (text_chars _ Ht) as [Htc Htl].
  unfold client_parse. rewrite gets_run. cbv zeta.
  change (starts_with (str "cat " ++ fname) (str "touch")) with false.
  change (starts_with (str "cat " ++ fname) (str "mkdir")) with false.
  change (starts_with (str "cat " ++ fname) (str "rm")) with false.
  change (starts_with (str "cat " ++ fname) (str "cat")) with true. cbv beta iota delta [orb].
  rewrite (opt_run (after (str "cat " ++ fname) SPACE) fname) by done.
  unfold shell_cat. rewrite gets_run. unfold dfs_client_read_chunk_meta. cbn [sh_master].
  set (rs := pkts (rd_pkt js (chunk_id_sqn q) text buf) (npkts text) 0) in *.
  mrun (on_client_run _ _ mc kc f _ _ (chunk_meta_run DFS_RD mc fname c q
    (Some q1 :: (Some <$> rs)) ltac:(destruct Hs; lia) Hin Aop Ast)).
  rewrite Em, Anb. change (1 =? 0) with false. cbv iota. set (c1 := moved c _ _ _).
  mrun (connect_chunk_run _ c1 mc kc f q1 (Some <$> rs) (meta_addr q) eq_refl eq_refl Op1).
  change (0 =? -1) with false. cbv iota. rewrite gets_run. cbn [sh_chunk]. set (c2 := moved c1 _ _ _).
  assert (Hin2 : cl_in c2 = (Some <$> rs) ++ []) by (by rewrite app_nil_r).
  mrun (on_client_run _ _ mc conn f _ _ (client_query_run jc js Hjc Hjs conn Hport (chunk_id_sqn q) Hk text
    Htc Htl buf c2 [] Hbuf Hin2)).
  change (0 =? -1) with false. cbv beta iota. rewrite (opt_run _ text).
  - unfold c2, c1, moved, mret, M_ret. cbn [sh_client sh_master sh_chunk sh_forks cl_out cl_console cl_addr conn_server conn].
    unfold cl_print, on_client, m_zoom. simpl. by rewrite !app_nil_r, <-!app_assoc.
  - apply c_string_padded; [done|].
    destruct (npkts_left jc js Hjc Hjs conn Hport _ Hk text Htc Htl) as [(_ & Hl & _) _].
    assert (16 * npkts text <> length text)%nat; [|lia].
    intros E. apply Hmod. rewrite <-E, Nat.mul_comm. by apply Nat.Div0.mod_mul.
Qed.

(** [cat F] prints the text of the chunk. *)
Lemma cat_run sh w fs k n cm nc fname id t text : linked sh w fs k (S n) cm nc -> short_name fname ->
  fs !! fname = Some (first_map (c_addr w.2) id :: t) -> cm !! id = Some text -> chunk_id_ok id ->
  text_ok text -> (length text mod 16 <> 0)%nat ->
  exists sh' w', command (str "cat " ++ fname) sh w sh' w' /\ linked sh' w' fs k n cm nc /\
    cl_console (sh_client sh') = cl_console (sh_client sh) ++ [text ++ [10]].
Proof using All.
  intros Lk Hs Hf Hcm Hk Ht Hmod. destruct w as [m s]. destruct sh as [c mc kc f]. pose proof Lk as [].
  cbn [fst snd sh_client sh_master] in *. destruct (text_chars _ Ht) as [Htc Htl].
  destruct (meta_pkt_carries DFS_RD mc fname Hs lk_port0) as (_ & Hc & Hp).
  destruct (handled_read jm Hjm m fs k n _ fname 0 client_addr_const lk_serves0 (Hc eq_refl))
    as (m' & fs' & k' & rep & q & R & Sp & Sv & Eo & [Aop An] & En & _); [by eauto|by rewrite Hp..|].
  revert En. inversion Sp as [| | | | | | |? ? ? u i e U2 U3|? ? ? U2|? ? ? u ? U2 U3 U4]; subst;
    simplify_eq; try congruence. intros En.
  assert (i = 0%nat) as -> by lia. injection U3 as <-. simpl in Aop, An.
  destruct An as (Ast & Aid & Aad & Anb). specialize (Anb _ _ eq_refl).
  destruct (cnct_step_run client_addr_const s lk_ports0 lk_room0) as
    (s1 & q1 & port & R1 & Eo1 & Op1 & <- & Hport & Known & Po1 & Ro1 & Ea1 & Ef1); [done|done|].
  set (conn := mk_conn (port_id q1) (c_addr s)). rewrite <-Ef1 in lk_stored0.
  destruct (chunk_rd_run jc js Hjc Hjs conn Hport _ Hk text Htc Htl s1 cm nc client_addr_const lk_stored0
    Hcm Known) as (buf & Hbuf & R2).
  rewrite <-Aid in Hk.
  pose proof (shell_cat_run (mk_client (cl_addr c) (Some <$> (q :: q1 :: pkts (rd_pkt js (chunk_id_sqn q)
    text buf) (npkts text) 0)) (cl_out c) (cl_console c)) mc kc f text fname q q1 buf Ht Hmod Hs lk_master0
    Aop Ast Anb Hk Op1 Hport Hbuf eq_refl) as Rc.
  cbv zeta in Rc. rewrite Aid, Aad in Rc. simpl chunk_id in Rc. change (first_addr _) with (c_addr s) in Rc.
  fold conn in Rc.
  match type of Rc with _ = Done (_, ?x) => exists x end. eexists (m', _). split_and!.
  - eexists _, ((fun q => (client_addr_const, q)) <$> (q :: q1 :: pkts (rd_pkt js id text buf) (npkts text) 0)).
    split_and!; [|done|done|].
    + unfold with_inbox. cbv zeta. cbn [sh_client sh_master sh_chunk sh_forks].
      rewrite (replies_to_client _ _ _ lk_client0). exact Rc.
    + apply (deliver_app _ _ _ [_] (m', s)); [by apply deliver_master|].
      apply (deliver_app _ _ _ [_] (m', s1)).
      { cbn [cl_addr]. rewrite lk_client0. by apply deliver_chunk. }
      rewrite <-Ea1. eapply deliver_chunk; [congruence|exact R2|done].
  - by eapply linked_step; [exact Lk|done|done|exact En|exact Sv|exact Ea1|exact Po1|exact Ro1|exact lk_stored0].
  - done.
Qed.

(** C1: the system, from the command line to the storage and back.  A shell, the master and a
    chunk server that are connected and have room: the user creates a file, writes a text of
    1 to 127 characters into it (not a multiple of 16, see below) and prints it.  Every
    packet of the three commands is handled by the server it is for, nothing panics or runs
    into undefined behaviour, the text appears on the client's console, followed by a newline,
    and nothing else does.  Afterwards the master's table maps the file to one chunk, the
    chunk server holds the text under the id of that chunk, and all other files and chunks
    are as before.  (The text of a multiple of 16 characters comes back without the NUL that
    should end it.) *)
Theorem touch_echo_cat sh w fs k n cm nc fname text :
  linked sh w fs k (3 + n) cm (S (npkts text + nc)) -> short_name fname -> file_name fname ->
  fs !! fname = None -> text_ok text -> (length text mod 16 <> 0)%nat -> chunk_id_ok k -> cm !! k = None ->
  exists sh1 w1 sh2 w2 sh3 w3,
    command (str "touch " ++ fname) sh w sh1 w1 /\ command (echo_line text fname) sh1 w1 sh2 w2 /\
    command (str "cat " ++ fname) sh2 w2 sh3 w3 /\
    cl_console (sh_client sh3) = cl_console (sh_client sh) ++ [text ++ [10]] /\
    linked sh3 w3 (<[fname := [first_map (c_addr w2.2) k]]> fs) (k + 1) n (<[k := text]> cm) nc.
Proof using All.
  intros Lk Hs Hf Hn Ht Hmod Hk Hcm.
  destruct (touch_run sh w fs k (2 + n) cm _ fname Lk Hs Hf Hn) as (sh1 & w1 & C1 & L1 & E1).
  destruct (echo_run sh1 w1 _ k (1 + n) cm nc fname text L1 Hs (lookup_insert_eq _ _ _) Ht Hk Hcm)
    as (sh2 & w2 & C2 & L2 & E2 & A2).
  rewrite insert_insert_eq, <-A2 in L2.
  destruct (cat_run sh2 w2 _ _ n _ nc fname k [] text L2 Hs (lookup_insert_eq _ _ _) (lookup_insert_eq _ _ _)
    Hk Ht Hmod) as (sh3 & w3 & C3 & L3 & E3).
  exists sh1, w1, sh2, w2, sh3, w3. split_and!; [done|done|done|by rewrite E3, E2, E1|done].
Qed.
End System.
