(* ===== verification/DfsList.v ===== *)
(** * A directory listing from the master to the client

    The packets [master_ls] cuts a listing into, and what [dfs_client_listdir] makes of
    them. *)

From stdpp Require Import base tactics option list numbers sets gmap.
From Stdlib Require Import ZArith Lia.
From S2P Require Import Prelude FatTable FatChain Dirent FileDir DfsStore ChunkFat MasterFat DfsPkt.
From S2P Require Import DfsChunk DfsClient DfsMaster.

Section Listing.
Context {St : Type} `{MasterStore St} `{HeapGarbage}.
Context (data : list Z) (Hdata : Forall (fun c => is_u8 c /\ c <> 0) data).

(** The text of the packet at [i]. *)
Definition ls_piece (i : nat) : list Z := take 27 (drop i data).

(** The packet at [i], written over the previous packet [p]. *)
Definition ls_pkt (p : pkt) (i : nat) : pkt :=
  put_bytes (4 + length (ls_piece i)) [0]
    (put_bytes 4 (ls_piece i)
      (set_op (if Nat.leb (length data) (i + 27) then DFS_END_LS else DFS_LS)
        (set_status STATUS_SUCCESS p))).

Fixpoint ls_pkts (k : nat) (p : pkt) (i : nat) : list pkt :=
  match k with
  | O => []
  | S k => ls_pkt p i :: ls_pkts k (ls_pkt p i) (i + 27)
  end.

Lemma length_ls_piece i : (length (ls_piece i) <= 27)%nat.
Proof using. unfold ls_piece. rewrite length_take. lia. Qed.

Lemma ls_pkt_ok p i : pkt_ok p -> pkt_ok (ls_pkt p i).
Proof using.
  intros Hp. pose proof (length_ls_piece i). unfold ls_pkt.
  apply put_bytes_ok; [simpl; lia|]. apply put_bytes_ok; [lia|]. unfold set_op, set_status.
  auto with pkt.
Qed.

(** [k] packets are left at [i]. *)
Definition ls_left (i k : nat) : Prop := (1 <= k)%nat /\ (i + 27 * k - 27 < length data <= i + 27 * k)%nat.

Lemma list_loop_run a k i p (m : dfs_master_t St) : ls_left i k ->
  forall fuel, (k < fuel)%nat ->
  list_loop fuel a data i p m = Done (tt, add_out ((fun q => (a, q)) <$> ls_pkts k p i) m).
Proof using.
  revert i p m. induction k as [|k IH]; intros i p m [Hk Hl] fuel Hf; [lia|].
  destruct fuel as [|fuel]; [lia|]. cbn [list_loop ls_pkts].
  rewrite (proj2 (Nat.ltb_lt _ _)) by lia. cbv zeta.
  assert (En : (if Nat.leb (length data) (i + 27) then (length data - i)%nat else 27%nat) =
               length (ls_piece i)).
  { unfold ls_piece. rewrite length_take, length_drop. destruct (Nat.leb_spec (length data) (i + 27)); lia. }
  rewrite En. assert (Et : take (length (ls_piece i)) (drop i data) = ls_piece i).
  { unfold ls_piece. rewrite length_take. destruct (decide (27 <= length (drop i data))%nat).
    - f_equal. lia.
    - rewrite !take_ge by lia. done. }
  rewrite Et. fold (ls_pkt p i). unfold m_send at 1. rewrite modify_run.
  destruct k as [|k].
  - destruct fuel as [|fuel]; [lia|]. cbn [list_loop ls_pkts].
    rewrite (proj2 (Nat.ltb_ge _ _)) by lia. done.
  - rewrite IH; [|split; lia|lia]. unfold mret, M_ret. do 2 f_equal.
    unfold add_out. simpl. by rewrite <-app_assoc.
Qed.

(** What the client reads in a packet. *)
Lemma ls_pkt_text p i : pkt_ok p -> cstr (placeholder (ls_pkt p i)) = ls_piece i.
Proof using Hdata.
  intros Hp. pose proof (length_ls_piece i) as L. set (n := length (ls_piece i)) in *.
  set (p1 := set_op (if Nat.leb (length data) (i + 27) then DFS_END_LS else DFS_LS)
               (set_status STATUS_SUCCESS p)).
  assert (O1 : length p1 = 32%nat) by (unfold p1, set_op, set_status; apply put_ok; auto with pkt).
  assert (O2 : length (put_bytes 4 (ls_piece i) p1) = 32%nat)
    by (rewrite length_put_bytes; fold n; lia).
  assert (E : placeholder (ls_pkt p i) = ls_piece i ++ 0 :: drop (S n) (placeholder (ls_pkt p i))).
  { rewrite <-(take_drop n (placeholder (ls_pkt p i))) at 1. f_equal.
    - apply list_eq. intros j. unfold placeholder, ls_pkt. fold p1 n.
      destruct (decide (j < n)%nat).
      + rewrite lookup_take_lt, lookup_take_lt, lookup_drop by lia.
        unfold put_bytes at 1. rewrite lookup_splice by (change (length [0]) with 1%nat; lia).
        rewrite decide_False by (change (length [0]) with 1%nat; lia). unfold put_bytes.
        rewrite lookup_splice by (fold n; lia). fold n. rewrite decide_True by lia. f_equal. lia.
      + rewrite lookup_take_ge by lia. symmetry. apply lookup_ge_None_2. fold n. lia.
    - apply drop_S. unfold placeholder, ls_pkt. fold p1 n.
      rewrite lookup_take_lt, lookup_drop by lia. unfold put_bytes at 1.
      rewrite lookup_splice by (change (length [0]) with 1%nat; lia). rewrite decide_True by (change (length [0]) with 1%nat; lia).
      by replace (4 + n - (4 + n))%nat with 0%nat by lia. }
  rewrite E. apply cstr_app_zero. unfold ls_piece. apply Forall_take, Forall_drop.
  eapply Forall_impl; [exact Hdata|]. naive_solver.
Qed.

Lemma ls_pkt_op p i : pkt_ok p ->
  op_code (ls_pkt p i) = if Nat.leb (length data) (i + 27) then DFS_END_LS else DFS_LS.
Proof using.
  intros Hp. pose proof (length_ls_piece i). unfold ls_pkt, op_code.
  rewrite get_put_bytes_ne; [|apply put_bytes_ok; [lia|unfold set_op, set_status; auto with pkt]|simpl; lia|simpl; lia].
  rewrite get_put_bytes_ne; [|unfold set_op, set_status; auto with pkt|lia|lia].
  unfold set_op, set_status. rewrite get_put by auto with pkt. by destruct (Nat.leb _ _).
Qed.

(** The byte of the status is the fifth of the text. *)
Lemma ls_pkt_status p i : pkt_ok p ->
  status (ls_pkt p i) = STATUS_SUCCESS <-> (length (ls_piece i) <= 4)%nat.
Proof using Hdata.
  intros Hp. pose proof (length_ls_piece i) as L.
  set (p1 := set_op (if Nat.leb (length data) (i + 27) then DFS_END_LS else DFS_LS)
               (set_status STATUS_SUCCESS p)).
  assert (O1 : pkt_ok p1) by (unfold p1, set_op, set_status; auto with pkt).
  assert (S1 : field 8 1 p1 = 0).
  { unfold p1, set_op, set_status. rewrite get_put_ne by auto 12 with pkt.
    by rewrite get_put by auto with pkt. }
  assert (O2 : pkt_ok (put_bytes 4 (ls_piece i) p1)) by (apply put_bytes_ok; [lia|done]).
  unfold status, ls_pkt. fold p1.
  destruct (Nat.lt_trichotomy (length (ls_piece i)) 4) as [Hl|[Hl|Hl]].
  - rewrite get_put_bytes_ne by (done || (simpl; lia)).
    rewrite get_put_bytes_ne by (done || lia). rewrite S1. split; [lia|done].
  - rewrite Hl. split; [lia|]. intros _. unfold field, put_bytes.
    by rewrite (slice_splice_eq 8 [0]) by (unfold pkt_ok, put_bytes in O2; rewrite O2; simpl; lia).
  - assert (E : exists c, ls_piece i !! 4%nat = Some c /\ c <> 0 /\ is_u8 c).
    { destruct (lookup_lt_is_Some_2 (ls_piece i) 4) as [c Hc]; [lia|]. exists c. split; [done|].
      assert (F : Forall (fun c => is_u8 c /\ c <> 0) (ls_piece i))
        by (unfold ls_piece; by apply Forall_take, Forall_drop).
      pose proof (Forall_lookup_1 _ _ _ _ F Hc) as [? ?]. done. }
    destruct E as (c & Hc & Hz & Hu). rewrite get_put_bytes_ne by (done || (simpl; lia)).
    assert (E2 : field 8 1 (put_bytes 4 (ls_piece i) p1) = c).
    { unfold field, put_bytes. rewrite (drop_S _ c).
      - simpl. lia.
      - rewrite lookup_splice by (unfold pkt_ok in O1; lia). rewrite decide_True by lia. done. }
    rewrite E2. split; [done|lia].
Qed.

(** The client's side. *)
Lemma listdir_loop_run k i p c rest : pkt_ok p -> ls_left i k ->
  cl_in c = (Some <$> ls_pkts k p i) ++ rest -> forall fuel, (k < fuel)%nat ->
  exists texts, concat texts = drop i data /\
    listdir_loop fuel c =
      Done (if Nat.leb (length data - (i + 27 * (k - 1))) 4 then 1 else 2,
            mk_client (cl_addr c) rest (cl_out c) (cl_console c ++ texts)).
Proof using Hdata.
  revert i p c. induction k as [|k IH]; intros i p c Hp [Hk Hl] Hin fuel Hf; [lia|].
  destruct fuel as [|fuel]; [lia|]. cbn [ls_pkts fmap list_fmap app] in Hin.
  cbn [listdir_loop]. unfold cl_read. rewrite bind_assoc, gets_run, Hin. cbv iota.
  rewrite bind_assoc, modify_run, ret_run. rewrite ls_pkt_op, ls_pkt_text by done.
  destruct k as [|k].
  - rewrite (proj2 (Nat.leb_le _ _)) by lia. change (DFS_END_LS =? DFS_LS) with false.
    change (DFS_END_LS =? DFS_END_LS) with true. cbv iota. unfold cl_print. rewrite modify_run.
    assert (Ep : ls_piece i = drop i data) by (unfold ls_piece; apply take_ge; rewrite length_drop; lia).
    exists [ls_piece i]. split; [simpl; by rewrite app_nil_r|].
    replace (length data - (i + 27 * (1 - 1)))%nat with (length (ls_piece i))
      by (rewrite Ep, length_drop; lia).
    unfold mret, M_ret. do 2 f_equal. pose proof (ls_pkt_status p i Hp) as [S1 S2].
    destruct (Nat.leb_spec (length (ls_piece i)) 4) as [Hle|Hgt].
    + by rewrite S2.
    + rewrite (proj2 (Z.eqb_neq _ _)); [done|]. intros E%S1. lia.
  - rewrite (proj2 (Nat.leb_gt _ _)) by lia. change (DFS_LS =? DFS_LS) with true. cbv iota.
    unfold cl_print. rewrite modify_run.
    destruct (IH (i + 27)%nat (ls_pkt p i)
      (mk_client (cl_addr c) ((Some <$> ls_pkts (S k) (ls_pkt p i) (i + 27)) ++ rest) (cl_out c)
         (cl_console c ++ [ls_piece i]))) with (fuel := fuel) as (texts & Et & R);
      [by apply ls_pkt_ok|split; lia|done|lia|].
    exists (ls_piece i :: texts). split.
    + simpl. rewrite Et. unfold ls_piece. rewrite <-(drop_drop data 27 i). by rewrite take_drop.
    + etransitivity; [exact R|]. cbn [cl_addr cl_out cl_console]. rewrite <-app_assoc.
      by replace (length data - (i + 27 + 27 * (S k - 1)))%nat
        with (length data - (i + 27 * (S (S k) - 1)))%nat by lia.
Qed.

Lemma ls_left_0 : data <> [] -> exists k, ls_left 0 k /\ (k <= length data)%nat.
Proof using.
  intros Hne. exists (length data / 27 + if decide (length data mod 27 = 0)%nat then 0 else 1)%nat.
  assert (length data <> 0)%nat by (by intros ?%nil_length_inv).
  pose proof (Nat.div_mod_eq (length data) 27) as E.
  pose proof (Nat.mod_upper_bound (length data) 27 ltac:(lia)).
  unfold ls_left. case_decide; lia.
Qed.
End Listing.

(** The number of characters in the last piece of a listing. *)
Definition last_len (data : list Z) : nat := S ((length data - 1) mod 27).

(** a listing.  When the directory named in the client's request has entries, the client
    prints exactly the text [master_ls] produced, in pieces.  But the packets' text lies
    over their status byte: [dfs_client_listdir] reports success (1) only if the last piece
    has at most four characters, and otherwise failure (2). *)
Theorem listing_reaches_client {St} `{MasterStore St} `{HeapGarbage} junk (m : dfs_master_t St)
    p dirname st data caddr :
  pkt_ok junk -> op_code p = DFS_LS -> 0 <= port_id p < DFS_MAX_CONN ->
  (m_ports m).1 !! Z.to_nat (port_id p) = Some caddr ->
  c_string (placeholder p) = Some dirname -> ms_listdir dirname (m_fs m) = Done ((true, data), st) ->
  data <> [] -> Forall (fun c => is_u8 c /\ c <> 0) data -> (length data < 8192)%nat ->
  exists m' qs, master_step junk (Some p) m = Done (tt, m') /\
    m_out m' = m_out m ++ ((fun q => (caddr, q)) <$> qs) /\
    forall c rest, cl_in c = (Some <$> qs) ++ rest ->
    exists texts last, concat texts = data /\ length last = last_len data /\
      drop (length data - length last) data = last /\
      listdir_loop (S (length (cl_in c))) c =
        Done (if Nat.leb (length last) 4 then 1 else 2,
              mk_client (cl_addr c) rest (cl_out c) (cl_console c ++ texts)).
Proof.
  intros Hj Eop Hp Ha Hd Hl Hne Hc Hmax.
  assert (Ec : cstr data = data).
  { rewrite <-(app_nil_r data) at 1. clear -Hc. induction Hc as [|x l [_ Hx] _ IH]; [done|]. simpl.
    by rewrite (proj2 (Z.eqb_neq _ _) Hx), IH. }
  destruct (ls_left_0 data Hne) as (k & Hk & Lk).
  exists (add_out ((fun q => (caddr, q)) <$> ls_pkts data k junk 0) (set_m_fs st m)), (ls_pkts data k junk 0).
  split_and!; [|done|].
  - unfold master_step, master_turn. rewrite Eop. change (master_ls junk p m = Done (tt, add_out ((fun q => (caddr, q)) <$> ls_pkts data k junk 0) (set_m_fs st m))).
    unfold master_ls, with_client. rewrite (proj2 (Z.leb_gt _ _)) by lia.
    rewrite gets_run, (opt_run _ _ _ _ Ha), (opt_run _ _ _ _ Hd).
    assert (R : on_tables (ms_listdir dirname) m = Done ((true, data), set_m_fs st m))
      by (unfold on_tables; by rewrite (zoom_done _ _ _ _ _ _ Hl)).
    mrun R. cbv beta iota. rewrite (proj2 (Nat.leb_gt _ _)) by done. cbv zeta. rewrite Ec.
    rewrite (proj2 (Nat.eqb_neq _ _)) by (by destruct data). change (false || negb true) with false. cbv iota.
    by rewrite (list_loop_run data caddr k 0 junk (set_m_fs st m) Hk) by lia.
  - intros c rest Hin.
    assert (Lp : forall k p i, length (ls_pkts data k p i) = k).
    { clear. induction k; intros; simpl; auto. }
    destruct (listdir_loop_run data Hc k 0 junk c rest Hj Hk Hin (S (length (cl_in c)))) as (texts & Et & R).
    { rewrite Hin, length_app, length_fmap, Lp. lia. }
    destruct Hk as [Hk1 Hk2]. set (n := (length data - 27 * (k - 1))%nat).
    assert (En : n = S ((length data - 1) mod 27)).
    { unfold n. replace (length data - 1)%nat with ((length data - 27 * (k - 1) - 1) + (k - 1) * 27)%nat by lia.
      rewrite Nat.Div0.mod_add, Nat.mod_small; lia. }
    exists texts, (drop (length data - n) data). rewrite length_drop.
    replace (length data - (length data - n))%nat with n by (unfold n; lia).
    split_and!; [by rewrite Et|done|done|]. by rewrite R.
Qed.
