(* ===== verification/DfsWitness.v ===== *)
(** * Concrete servers

    A chunk server on the blank card of [FatChain.Small], a master whose storage is a finite
    map, and the theorems of the server files applied to them. *)

From stdpp Require Import base tactics option list numbers sets gmap.
From Stdlib Require Import ZArith Lia.
From Stdlib Require String.
From S2P Require Import Prelude Sd FatTable FatChain Dirent Fat32 Fat32Dir Fat32Thm Fat32Witness.
From S2P Require Import FileDir FsApi DfsStore ChunkFat MasterFat DfsPkt DfsChunk DfsClient DfsEnd.
From S2P Require Import DfsShell DfsMaster DfsMasterThm DfsSpec DfsSystem DfsList.
Import String.StringSyntax.
#[local] Open Scope string_scope.
#[local] Open Scope list_scope.
#[local] Open Scope Z_scope.

(** ** A chunk server on a blank card *)

Module Blank.
#[local] Existing Instance Small.garbage.
#[local] Existing Instance Small.garbage_bytes.

Lemma blank_entries : dir_entries Small.w [2] = replicate 16 Card.blank.
Proof. by vm_compute. Qed.

Lemma absent name : fat32_is_valid_name name = true -> dir_index (replicate 16 Card.blank) name = None.
Proof.
  intros V. unfold dir_index. apply fmap_None, list_find_None, Forall_replicate.
  intros [Sk _]. by vm_compute in Sk.
Qed.

Lemma blank_root_at : dir_at Small.w Card.root [2].
Proof. constructor; [done|apply Card.root_chain|rewrite blank_entries; apply Card.blanks_ok]. Qed.

(** An empty directory with room for 15 operations. *)
Lemma empty tracked n : (n <= 15)%nat -> files_at tracked Small.w Card.root ∅ n [2] (fun _ => []).
Proof.
  intros Hn. constructor.
  - apply Small.small_wf.
  - apply blank_root_at.
  - done.
  - intros name _ _ [V _]. rewrite blank_entries. by apply absent.
  - intros name name' _ [? ?]. done.
  - eapply Nat.le_trans; [exact Hn|]. apply Nat.leb_le. by vm_compute.
  - eapply Nat.le_lt_trans; [exact Hn|]. rewrite blank_entries. apply Nat.ltb_lt. by vm_compute.
Qed.

Definition mirror : fs_mirror_t := mk_mirror (str "chunk") 0 Card.root [Card.root].
Definition a : fsapi ram_card := mk_fsapi Small.w Card.root mirror 1.

Lemma stored_empty n : (n <= 15)%nat -> stored a ∅ n.
Proof. intros Hn. exists ∅, [2], (fun _ => []). constructor; [by apply empty|done|done]. Qed.

Definition server : dfs_chunkserver_t (fsapi ram_card) :=
  mk_cserver dfs_chunk_addr1 0 a ([0x7d7d7d; 0; 0; 0], 1) [].
Definition junk : pkt := replicate 32 0xAA.
Definition conn : dfs_connection_t := mk_conn 0 dfs_chunk_addr1.

(** "HELLO" is written as chunk 7 and read back. *)
Lemma chunk_write_then_query_witness :
  exists ws rs s1 s2,
    dfs_chunkserver_main junk (Some <$> ws) server = Done (tt, s1) /\
    stored (c_fs s1) {[7 := str "HELLO"]} 10 /\
    chunk_step junk (Some (query_pkt junk conn 7)) s1 = Done (tt, s2) /\
    c_out s2 = c_out s1 ++ ((fun p => (0x7d7d7d, p)) <$> rs).
Proof.
  destruct (chunk_write_then_query junk junk eq_refl eq_refl conn ltac:(by simpl)
              7 ltac:(by split) (str "HELLO") ltac:(by apply (bool_decide_unpack _))
              ltac:(simpl; lia) server ∅ 10 0x7d7d7d) as (ws & rs & s1 & s2 & _ & R1 & _ & S1 & R2 & E & _).
  - apply stored_empty. apply Nat.leb_le. by vm_compute.
  - done.
  - done.
  - exists ws, rs, s1, s2. by split_and!.
Defined.

#[local] Instance pad : MapPad := [1; 2; 3].
#[local] Instance pad_ok : MapPadOk.
Proof. split; [by apply (bool_decide_unpack _)|done]. Qed.

Lemma chunks_on_fat32_witness :
  exists a1 a2 b, chunkserver_create_chunk 42 a = Done (1, a1) /\
    chunkserver_append_chunk 42 (str "ABC" ++ [0]) a1 = Done (1, a2) /\
    chunkserver_read 42 a2 = Done ((b, 3), a2) /\ take 3 b = str "ABC".
Proof.
  destruct (chunks_on_fat32 a ∅ 5 ∅ [2] (fun _ => []) 42 (str "ABC" ++ [0]))
    as (a1 & a2 & b & R1 & R2 & R3 & E & _).
  - constructor; [apply empty; lia|done|done].
  - by split.
  - done.
  - by apply (bool_decide_unpack _).
  - by apply (bool_decide_unpack _).
  - simpl. lia.
  - done.
  - exists a1, a2, b. by split_and!.
Defined.

(** A card with the empty file A.TXT. *)
Lemma tables_a : exists w' e cl, fat32_create Card.root (str "A.TXT") false Small.w = Done (Some e, w') /\
  fat_tables (mk_fsapi w' Card.root mirror 1) {[str "A.TXT" := []]} 5 {[str "A.TXT" := []]} [2] cl.
Proof.
  destruct (files_create (fun _ => True) Small.w Card.root ∅ 5 [2] (fun _ => []) (str "A.TXT"))
    as (w' & e & R & F); [apply empty; lia|by split|done|done|].
  exists w', e, (fun x => if decide (x = str "A.TXT") then [] else []). split; [done|].
  constructor; [exact F|]. apply (map_Forall2_insert_2 _ ∅ ∅); [by split|apply map_Forall2_empty].
Qed.

Lemma tables_on_fat32_witness :
  exists w' a', master_fat32_add_chunk_server (str "A.TXT") 1 0 dfs_chunk_addr1
                  (mk_fsapi w' Card.root mirror 1) = Done (tt, a') /\
    master_fat32_get_chunk_num (str "A.TXT") a' = Done (1, a') /\
    master_fat32_get_chunks (str "A.TXT") 0 a' = Done (first_map dfs_chunk_addr1 1, a').
Proof.
  destruct tables_a as (w' & e & cl & _ & Ft). exists w'.
  destruct (tables_on_fat32 _ _ 4 _ _ _ (str "A.TXT") [] dfs_chunk_addr1 1 Ft)
    as (a' & R1 & R2 & R3 & _).
  - by vm_compute.
  - simpl. lia.
  - by apply (bool_decide_unpack _).
  - by apply (bool_decide_unpack _).
  - exists a'. by split_and!.
Defined.

(** The directory change of a blank card: no such directory. *)
Lemma fs_changedir_back_witness :
  exists a1, fs_changedir (str "SUB") a = Done (false, a1) /\ a_mirror a1 = a_mirror a.
Proof.
  assert (R : exists a1, fs_changedir (str "SUB") a = Done (false, a1)).
  { eexists. by vm_compute. }
  destruct R as [a1 R]. exists a1. split; [done|].
  apply (fs_changedir_back a (str "SUB") false a1); [by constructor|by split_and!|done|done].
Defined.
End Blank.

(** ** A master with its tables in memory *)

Module Memory.
#[local] Existing Instance Small.garbage.

Definition mem : Type := gmap (list Z) (list chunk_map_t).
Definition nowhere : pi_dirent_t := mk_pi_dirent [] [] 0 true 0.
Definition look (name : list Z) : M mem (list chunk_map_t) :=
  s ← m_gets (fun s => s); m_opt (s !! name).

#[local] Instance mem_store : MasterStore mem := {|
  ms_client_init id := mret (mk_client_dirent id nowhere nowhere 1);
  ms_listdir _ := mret (true, str "F: A.TXT (20 bytes)");
  ms_changedir _ := mret true;
  ms_get_chunk_num name := t ← look name; mret (Z.of_nat (length t));
  ms_get_chunks name sqn := t ← look name; m_opt (t !! Z.to_nat sqn);
  ms_create name _ :=
    s ← m_gets (fun s => s);
    match s !! name with
    | Some _ => mret 1
    | None => m_modify (insert name []);; mret 1
    end;
  ms_delete name := m_modify (delete name);; mret 1;
  ms_add_chunk_server name cid _ addr :=
    t ← look name; m_modify (insert name (t ++ [first_map addr cid]))
|}.

Lemma look_run {B : Type} (s : mem) name t (f : list chunk_map_t -> M mem B) : s !! name = Some t ->
  (look name ≫= f) s = f t s.
Proof. intros E. unfold look. by rewrite bind_assoc, gets_run, E. Qed.

Ltac mem_cbn :=
  cbn [ms_create ms_delete ms_get_chunk_num ms_get_chunks ms_add_chunk_server mem_store].

#[local] Program Instance mem_laws : MasterStoreLaws mem := {| tables s m _ := s = m |}.
Next Obligation. done. Qed.
Next Obligation. intros s id c s' E. by injection E as <-. Qed.
Next Obligation.
  intros s m n name -> _ Hm. eexists. split; [|done]. mem_cbn. rewrite gets_run. unfold mem. by rewrite Hm.
Qed.
Next Obligation.
  intros s m n name t -> Hm. mem_cbn. rewrite gets_run.
  unfold mem. by rewrite Hm. Qed.
Next Obligation. intros s m n name t -> Hm. by eexists. Qed.
Next Obligation.
  intros s m n name t -> Hm. mem_cbn. by rewrite (look_run _ _ _ _ Hm). Qed.
Next Obligation.
  intros s m n name t i e -> Hm Hi. mem_cbn. by rewrite (look_run _ _ _ _ Hm), Nat2Z.id, Hi.
Qed.
Next Obligation.
  intros s m n name t addr cid -> Hm _ _ _. eexists. split; [|done]. mem_cbn.
  by rewrite (look_run _ _ _ _ Hm).
Qed.

Definition junk : pkt := replicate 32 0xAA.

(** A master with two servers, both active, and a client on port 0. *)
Definition two (fs : mem) : dfs_master_t mem :=
  mk_master dfs_master_addr fs
    ([mk_status dfs_chunk_addr1 CHUNK_OK 0 0 5; mk_status dfs_chunk_addr2 CHUNK_OK 0 0 5] ++
     replicate 62 (mk_status 0 CHUNK_DOWN 0 0 0))
    2 2 5 ([0xe6e6e6; 0; 0; 0], 1) (mk_client_dirent 1 nowhere nowhere 1) (-1) false [].

Lemma two_ok fs : master_ok (two fs).
Proof.
  constructor; try done; [|unfold is_u32; simpl; lia..|].
  - constructor; [done| |done]. simpl.
    intros [|[|[|[|i]]]] [|[|[|[|j]]]] x; simpl; intros; by simplify_eq.
  - apply (bool_decide_unpack _). by vm_compute.
Qed.

Lemma two_serves fs n : (n <= 100)%nat ->
  (forall name t, fs !! name = Some t -> (length t <= 100)%nat /\ Forall entry_ok t) ->
  serves (two fs) fs 1 n.
Proof.
  intros Hn F. constructor; try done; [apply two_ok|lia|lia|..].
  - intros name t Ht. destruct (F name t Ht). lia.
  - intros name t Ht. by destruct (F name t Ht).
  - apply (bool_decide_unpack _). by vm_compute.
Qed.

Lemma server_for_new_chunk_witness :
  dfs_master_get_server_for_new_chunk (two ∅) = Done (1, set_fake_rand 1 (two ∅)).
Proof.
  eapply (proj2 (server_for_new_chunk (two ∅) ltac:(simpl; lia)) ltac:(done)) with [] 0.
  by vm_compute.
Defined.

Lemma heartbeat_cycle_marks_witness :
  exists m', heartbeat_cycle junk (two ∅) = Done (tt, m') /\ m_hb_id m' = 6.
Proof.
  destruct (heartbeat_cycle_marks junk eq_refl (two ∅) (two_ok ∅)) as (m' & R & E & _).
  - by apply (bool_decide_unpack _).
  - by exists m'.
Defined.

Lemma heartbeat_answered_witness :
  exists reply m1 m2 c2,
    chunk_step Blank.junk (Some (hb_request junk (two ∅))) Blank.server =
      Done (tt, mk_cserver dfs_chunk_addr1 0 Blank.a ([0x7d7d7d; 0; 0; 0], 1)
                  [(dfs_master_addr, reply)]) /\
    master_step junk (Some reply) (two ∅) = Done (tt, m1) /\
    heartbeat_cycle junk m1 = Done (tt, m2) /\
    m_servers m2 !! 0%nat = Some c2 /\ cs_status c2 = CHUNK_OK.
Proof.
  destruct (heartbeat_answered junk eq_refl Blank.junk Blank.server (two ∅) 0
              (mk_status dfs_chunk_addr1 CHUNK_OK 0 0 5)) as (reply & m1 & R1 & R2 & _ & m2 & c2 & R3 & Hc & Es).
  - apply two_ok.
  - by apply (bool_decide_unpack _).
  - done.
  - lia.
  - simpl. lia.
  - done.
  - done.
  - done.
  - by apply (bool_decide_unpack _).
  - exists reply, m1, m2, c2. by split_and!.
Defined.

(** Three servers that never answer: after the fifth heartbeat the count is -3. *)
Definition fresh : dfs_master_t mem :=
  mk_master dfs_master_addr ∅ [] 3 0 0 ([0; 0; 0; 0], 0) (mk_client_dirent 0 nowhere nowhere 0) (-1) false [].

Lemma silent_servers_counted_witness :
  exists m', dfs_master_heartbeat_daemon_start junk 5 (dfs_init_master ∅ fresh) = Done (tt, m') /\
    m_num_act m' = 2 ^ 32 - 3 /\ dfs_master_get_server_for_new_chunk m' = Done (0, m').
Proof.
  destruct (silent_servers_counted junk ∅ fresh 5) as (m' & R & _ & E & G).
  - simpl. lia.
  - lia.
  - exists m'. split_and!; [done|by rewrite E|apply G; simpl; lia].
Defined.

(** Packets of a client on port 0. *)
Definition named_pkt (op : Z) (name : list Z) (sqn : Z) : pkt :=
  set_meta_nbytes (Z.of_nat (length name)) (set_meta_name name
    (set_chunk_id_sqn sqn (set_port 0 (set_op op junk)))).

(** The daemon marks the servers while the main thread chooses one for a new chunk. *)
Definition two_threads : list master_event :=
  [EvTick; EvServer 0; EvRecv (Some (named_pkt DFS_CR (str "A.TXT") 0)); EvServer 1;
   EvRecvAmid (Some (named_pkt DFS_WR (str "A.TXT") 0)) [[DTick; DServer 0]; [DServer 1]]; EvRecv None].

Lemma threads_keep_master_ok_witness :
  exists m', run_events junk two_threads (two ∅) = Done (tt, m') /\ master_ok m'.
Proof.
  destruct (run_events junk two_threads (two ∅)) as [[[] m']| | |] eqn:R; [|by vm_compute in R..].
  exists m'. split; [done|]. by destruct (threads_keep_master_ok junk _ _ _ (two_ok ∅) R).
Defined.

Lemma active_count_exact_witness :
  exists m', run_event junk (EvServer 0) (two ∅) = Done (tt, m') /\ counted m'.
Proof.
  destruct (run_event junk (EvServer 0) (two ∅)) as [[[] m']| | |] eqn:R; [|by vm_compute in R..].
  exists m'. split; [done|]. apply (active_count_exact junk (EvServer 0) (two ∅) m'); [reflexivity|apply two_ok|done|done|].
  intros (i & c & [= <-] & [= <-] & El & _). by vm_compute in El.
Defined.

Definition script : list request :=
  [RCreate (str "A.TXT"); RWrite (str "A.TXT") 0; RWrite (str "A.TXT") 1; RRead (str "A.TXT") 1;
   RRead (str "A.TXT") 2].
Definition packets : list pkt :=
  [named_pkt DFS_CR (str "A.TXT") 0; named_pkt DFS_WR (str "A.TXT") 0; named_pkt DFS_WR (str "A.TXT") 1;
   named_pkt DFS_RD (str "A.TXT") 1; named_pkt DFS_RD (str "A.TXT") 2].

Lemma master_refines_service_witness :
  exists m' fs' k' reps, dfs_master_main_start junk (Some <$> packets) (two ∅) = Done (tt, m') /\
    session true (addresses (two ∅)) (∅, 1) script reps (fs', k') /\ serves m' fs' k' 7.
Proof.
  destruct (master_refines_service junk eq_refl script packets (two ∅) ∅ 1 7 0 0xe6e6e6)
    as (m' & fs' & k' & reps & qs & R & Ss & Sv & _).
  - apply two_serves; [simpl; lia|done].
  - done.
  - repeat constructor; by vm_compute.
  - done.
  - done.
  - simpl. split_and!; try done; set_solver.
  - exists m', fs', k', reps. by split_and!.
Defined.

Lemma session_ids_unique_witness :
  exists m' fs' k', dfs_master_main_start junk (Some <$> packets) (two ∅) = Done (tt, m') /\
    serves m' fs' k' 3 /\ ids_unique fs' k'.
Proof.
  destruct (session_ids_unique junk eq_refl script packets (two ∅) ∅ 1 2 0 0xe6e6e6)
    as (m' & fs' & k' & R & Sv & Iu & _).
  - apply two_serves; [simpl; lia|done].
  - by constructor.
  - done.
  - done.
  - repeat constructor; by vm_compute.
  - done.
  - done.
  - simpl. split_and!; try done; set_solver.
  - exists m', fs', k'. by split_and!.
Defined.

(** A file with the chunks 5 and 9. *)
Definition held : mem := {[str "A.TXT" := [first_map dfs_chunk_addr1 5; first_map dfs_chunk_addr1 9]]}.

Lemma held_ok l : (length l <= 100)%nat -> Forall entry_ok l ->
  forall name t, ({[str "A.TXT" := l]} : mem) !! name = Some t -> (length t <= 100)%nat /\ Forall entry_ok t.
Proof. intros Hl F name t [_ <-]%lookup_singleton_Some. done. Qed.

Lemma first_map_ok cid : is_u32 cid -> entry_ok (first_map dfs_chunk_addr1 cid).
Proof.
  intros Hc. split; [done|]. eexists _, _. split; [done|]. by apply (bool_decide_unpack _).
Qed.

Lemma overwrite_told_other_chunk_witness :
  exists m1 q, master_step junk (Some (named_pkt DFS_WR (str "A.TXT") 0)) (two held) = Done (tt, m1) /\
    m_out m1 = [(0xe6e6e6, q)] /\ chunk_id_sqn q = 2.
Proof.
  destruct (overwrite_told_other_chunk junk eq_refl (two held) held 1 3 (str "A.TXT")
    [first_map dfs_chunk_addr1 5; first_map dfs_chunk_addr1 9] 0 (first_map dfs_chunk_addr1 5)
    (named_pkt DFS_WR (str "A.TXT") 0) (named_pkt DFS_RD (str "A.TXT") 0) 0 0xe6e6e6)
    as (m1 & m2 & q & q' & R & Eo & _ & _ & _ & _ & _ & Ec & _).
  - apply two_serves; [lia|]. apply held_ok; [simpl; lia|].
    repeat constructor; apply first_map_ok; by apply (bool_decide_unpack _).
  - by vm_compute.
  - done.
  - by vm_compute.
  - by vm_compute.
  - by vm_compute.
  - by vm_compute.
  - done.
  - done.
  - by exists m1, q.
Defined.

Definition held1 : mem := {[str "A.TXT" := [first_map dfs_chunk_addr1 1]]}.
Definition cnct : pkt := set_conn_addr 0xe6e6e6 (set_op DFS_CNCT junk).

(** The client connects again and its next chunk is chunk 1 once more. *)
Lemma reconnect_reuses_ids_witness :
  exists m1 m2 fs2 q, master_step junk (Some cnct) (two held1) = Done (tt, m1) /\
    master_step junk (Some (named_pkt DFS_WR (str "A.TXT") 1)) m1 = Done (tt, m2) /\
    serves m2 fs2 2 3 /\ chunk_id_sqn q = 1 /\ ~ ids_unique fs2 2.
Proof.
  destruct (master_step junk (Some cnct) (two held1)) as [[[] m1]| | |] eqn:R; [|by vm_compute in R..].
  assert (E1 : m1 = add_out [(0xe6e6e6, set_port 0 (set_op DFS_ACP junk))] (two held1))
    by (vm_compute in R; by injection R as <-).
  destruct (reconnect_reuses_ids junk eq_refl (two held1) m1 cnct held1 3 (str "A.TXT")
    [first_map dfs_chunk_addr1 1] (str "A.TXT") [first_map dfs_chunk_addr1 1] 0
    (first_map dfs_chunk_addr1 1) (named_pkt DFS_WR (str "A.TXT") 1) 0 0xe6e6e6) as [_ H].
  - by vm_compute.
  - done.
  - rewrite E1. by vm_compute.
  - assert (Sv : serves m1 held1 1 4).
    { rewrite E1. apply serves_out, two_serves; [lia|]. apply held_ok; [simpl; lia|].
      repeat constructor; apply first_map_ok; by apply (bool_decide_unpack _). }
    assert (Ac : active m1 = true) by by rewrite E1.
    assert (Ht : held1 !! str "A.TXT" = Some [first_map dfs_chunk_addr1 1]) by by vm_compute.
    assert (Hc : carries (named_pkt DFS_WR (str "A.TXT") 1) (RWrite (str "A.TXT") 1)) by by vm_compute.
    assert (Hp : (m_ports m1).1 !! Z.to_nat 0 = Some 0xe6e6e6) by by rewrite E1.
    destruct (H Sv Ac Ht Ht eq_refl eq_refl Hc) as (m2 & fs2 & q & R2 & Sv' & _ & Eq & Nu);
      [by vm_compute|done|done|].
    exists m1, m2, fs2, q. by split_and!.
Defined.

Definition ls_request : pkt := put_bytes 4 (str "~" ++ [0]) (set_port 0 (set_op DFS_LS junk)).

Lemma listing_reaches_client_witness :
  exists m' qs, master_step junk (Some ls_request) (two ∅) = Done (tt, m') /\
    m_out m' = (fun q => (0xe6e6e6, q)) <$> qs /\
    exists texts c', concat texts = str "F: A.TXT (20 bytes)" /\
      listdir_loop (S (length qs)) (mk_client 0xe6e6e6 (Some <$> qs) [] []) = Done (2, c').
Proof.
  destruct (listing_reaches_client junk (two ∅) ls_request (str "~") ∅ (str "F: A.TXT (20 bytes)") 0xe6e6e6)
    as (m' & qs & R & Eo & F).
  - done.
  - by vm_compute.
  - by apply (bool_decide_unpack _).
  - done.
  - by vm_compute.
  - done.
  - done.
  - by apply (bool_decide_unpack _).
  - apply Nat.ltb_lt. by vm_compute.
  - exists m', qs. split_and!; [done|done|].
    destruct (F (mk_client 0xe6e6e6 (Some <$> qs) [] []) []) as (texts & last & Et & Ll & _ & Rl);
      [by rewrite app_nil_r|].
    eexists texts, _. split; [done|]. cbn [cl_in] in Rl. rewrite length_fmap in Rl.
    rewrite Rl, Ll. by vm_compute.
Defined.
End Memory.

Lemma chunk_file_names_witness :
  int_to_filename 12 false <> int_to_filename 21 false /\
  fat32_is_valid_name (int_to_filename 99999999 false) = true /\
  fat32_is_valid_name (int_to_filename 100000000 false) <> true.
Proof.
  split_and!.
  - intros E. by apply (proj1 chunk_file_names 12 21) in E; [|split; lia..].
  - apply (proj2 chunk_file_names); [split; lia|lia].
  - intros E. apply (proj2 chunk_file_names) in E; [lia|split; lia].
Defined.

(** ** The three programs together *)

(** A master with one chunk server, the one on the blank card, and a client that is connected
    to the master. *)
Module Together.
#[local] Existing Instance Small.garbage.
#[local] Existing Instance Small.garbage_bytes.
#[local] Existing Instance Memory.mem_store.
#[local] Existing Instance Memory.mem_laws.

Definition master : dfs_master_t Memory.mem :=
  mk_master dfs_master_addr ∅
    (mk_status dfs_chunk_addr1 CHUNK_OK 0 0 5 :: replicate 63 (mk_status 0 CHUNK_DOWN 0 0 0))
    1 1 5 ([0xe6e6e6; 0; 0; 0], 1) (mk_client_dirent 1 Memory.nowhere Memory.nowhere 1) (-1) false [].

Definition sh : shell :=
  mk_shell (mk_client client_addr_const [] [] []) (mk_conn 0 dfs_master_addr) (mk_conn 0 0) 0.

Lemma master_is_ok : master_ok master.
Proof.
  constructor; try done; [|unfold is_u32; simpl; lia..|].
  - constructor; [done| |done]. simpl.
    intros [|[|[|[|i]]]] [|[|[|[|j]]]] x; simpl; intros; by simplify_eq.
  - apply (bool_decide_unpack _). by vm_compute.
Qed.

Lemma all_linked n nc : (n <= 100)%nat -> (nc <= 15)%nat ->
  linked sh (master, Blank.server) ∅ 1 n ∅ nc.
Proof.
  intros Hn Hnc. constructor; cbn [fst snd]; try done.
  - constructor; try done; [apply master_is_ok|simpl; lia|lia|..]; [by intros ??%lookup_empty_Some..|].
    apply (bool_decide_unpack _). by vm_compute.
  - by repeat constructor.
  - constructor; [done| |done]. simpl.
    intros [|[|[|[|i]]]] [|[|[|[|j]]]] x; simpl; intros; by simplify_eq.
  - exists 1%nat, 0. split; [done|by left].
  - by apply Blank.stored_empty.
Qed.

Lemma touch_echo_cat_witness : exists sh1 w1 sh2 w2 sh3 w3,
  command Memory.junk Memory.junk Memory.junk (str "touch A.TXT") sh (master, Blank.server) sh1 w1 /\
  command Memory.junk Memory.junk Memory.junk (echo_line (str "hello, world") (str "A.TXT")) sh1 w1 sh2 w2 /\
  command Memory.junk Memory.junk Memory.junk (str "cat A.TXT") sh2 w2 sh3 w3 /\
  cl_console (sh_client sh3) = [str "hello, world" ++ [10]].
Proof.
  destruct (touch_echo_cat Memory.junk Memory.junk Memory.junk eq_refl eq_refl eq_refl sh
    (master, Blank.server) ∅ 1 0 ∅ 0 (str "A.TXT") (str "hello, world"))
    as (sh1 & w1 & sh2 & w2 & sh3 & w3 & C1 & C2 & C3 & E & _).
  - apply all_linked; [lia|]. apply Nat.leb_le. reflexivity.
  - split; [simpl; lia|]. by apply (bool_decide_unpack _).
  - by split.
  - done.
  - split; [|split]; [by apply (bool_decide_unpack _)..|simpl; lia].
  - simpl; lia.
  - by split.
  - done.
  - exists sh1, w1, sh2, w2, sh3, w3. split; [exact C1|]. split; [exact C2|]. split; [exact C3|exact E].
Defined.
End Together.
